(* ===== verification/_CoqProject ===== *)
-Q . S2P
Prelude.v
Bloques.v
Rfc1321.v
Libc.v
Escaneo.v
Md5.v
Sha1.v
MgMd5.v
JsonValue.v
JsonReader.v
JsonWriter.v
JsonTexto.v
JsonReaderOk.v
JsonNumeros.v
JsonReaderTotal.v
JsonEmite.v
JsonWriterOk.v
JsonStream.v
JsonStreamOk.v
JsonErrores.v
JsonOur.v
JsonOurOk.v
JsonOrden.v
JsonPath.v
JsonIter.v
StringUtil.v
Mongoose.v
WebSocket.v
WebSocketOk.v
Conexion.v
Red.v
ConexionOk.v
RedOk.v
Lista.v
MongooseOk.v
Patrones.v
Autorizacion.v
Multipart.v
Fechas.v
Archivos.v
Clientes.v
Mundo.v
Arranque.v
Disco.v
Rutas.v
Locales.v
LocalesOk.v
DavOk.v
ListadoOk.v
Ssi.v
Cgi.v
Proxy.v
Plantillas.v
Registros.v
Loger.v
Entidades.v
BaseDeDatos.v
Localizacion.v
LocalizacionOk.v
Servicio.v
Servidor.v
Corre.v
Chat.v
ServicioOk.v
ConsultasOk.v
Maquina.v
ServidorOk.v
Garantias.v
Proceso.v
Componentes.v
