(* ===== verification/Prelude.v ===== *)
(** * A verification of the mensajero chat server

    The program (src/Servidor) is a REST server for a chat: a mongoose web server reads the
    bytes of its clients in an event loop and hands each HTTP request to [Servidor], which
    picks a service of [Servicio] from the method and the URI; the services work on users ([Usuario]), messages ([Mensaje]) and conversations
    ([Conversacion]), which are serialised with jsoncpp and kept in a RocksDB database behind
    [BaseDeDatos]; the user's key is the MD5 of its telephone number, check-ins are looked up
    in a table of places ([Localizacion]) and everything is written to a log ([Loger]).

    ** Files

    Shared:
    - [Prelude]: failures ([res], with the exceptions of the source, undefined behaviour and
      exhausted fuel as distinct values), the state monad [M], tactics, the hint databases
      and the lemmas on strings and lists used everywhere.
    - [Bloques]: hashing by blocks of 64 bytes, what the hash functions of the program share
      (32-bit words, the buffer of a partial block, the bit counter, the padding).  [Rfc1321]: the
      MD5 of the RFC, written apart from the code, that both implementations are proved against.
    - [Libc]: what the source uses of the C and C++ libraries ([strtod], [printf] of a
      [double], [std::getline], [asctime], [strftime], character classes); [Escaneo]: [sscanf].

    The models, one Module per class with the member functions under their own names:
    - [Md5] (src/Utilidades/md5.cpp); [StringUtil] (src/Utilidades/StringUtil.cpp);
      [Loger] (src/Log/Loger.cpp); [Localizacion] (src/Utilidades/Localizacion.cpp).
    - src/json/json.cpp: [JsonValue] ([Value]), [JsonOrden] (its order), [JsonPath] ([Path]), [JsonIter] (its iterators),
      [JsonReader] ([Reader]), [JsonOur] ([OurReader] with the comments it collects,
      [CharReaderBuilder], [operator>>]),
      [JsonErrores] (their error messages), [JsonWriter] ([FastWriter], [StyledWriter]) and
      [JsonStream] ([StyledStreamWriter], [BuiltStyledStreamWriter], [StreamWriterBuilder],
      [operator<<]).
    - The web server (src/WebServer/mongoose.c).  [Mongoose]: request line and headers, form
      variables, URL coding, path normalisation, the chunked reply.  [Sha1] and [WebSocket]: the
      handshake and the frames of websockets.  [MgMd5]: its own MD5.  [Patrones]: file-name
      patterns, hidden files and mime types.  [Autorizacion]: fields of headers and digest
      authorisation.  [Multipart]: the parts of a form.  [Fechas]: dates and conditional
      requests.  [Archivos]: the sending of files and ranges.  [Conexion]: the state of a
      connection and what happens to it with each piece received ([on_recv_data]), as a
      function on the connection and the state of the program behind the interface
      [Manejador] (the handler of events).
      [Arranque]: the options, the access list and the start of the server, up to its loop.
      [Red]: the sockets and one turn of the event loop ([ns_mgr_poll]); what the kernel
      answers in the turn is its argument [Sucesos], so a run of the server is a sequence of
      them ([Red.turno]).  [Lista]: the doubly linked list that holds the connections, as
      cells of a memory, and the turn of the loop over its pointers.
    - What the web server does with a request that no handler takes, which needs a document
      root.  [Locales]: the choice of the file, index files, passwords, listings and the
      methods of WebDAV, over the interface [Disco] (the calls on files), whose laws are
      [DiscoOk], what POSIX says of a tree of files without links in a system that refuses
      nothing and that nobody else changes, and whose instance is a tree in memory.  [Ssi]: server-side includes, over
      [Consola] (the output of commands).  [Cgi]: the environment and the output of programs.
      [Proxy]: the requests sent on.  [Plantillas]: [mg_template].  [Registros]: the access
      log and the hexadecimal dumps.
    - [Mundo]: constantes.h, the process state and the two interfaces to the outside.  The
      record [Mundo] holds the singletons (database handle, log, table of places), the store,
      the reply being built and the console.  [Entorno] is the operating system (clock, time
      zone, files); [Almacen] lists the RocksDB calls the program makes and [AlmacenOk] what it
      relies on, that a working store is a finite map; [memoria] is an instance.
    - [Entidades] (Usuario.cpp, Mensaje.cpp); [BaseDeDatos] (BaseDeDatos.cpp, Conversacion.cpp,
      which call each other); [Servicio] (Servicio.cpp); [Servidor] (Servidor.cpp, main.cpp).
      An operation on the process is a function in [M (Mundo A)]; the reply of a service is
      what it appends to [salida].  [Servidor.manejar] is the handler the web server calls,
      [Servidor.pedido] the service of a request and [Servidor.alcanzable] the states of
      the whole process between turns of the event loop.

    The theory:
    - [JsonTexto] is the language of JSON texts of a value.  [JsonReaderOk] proves the reader
      against it and [JsonOurOk] that [OurReader] simulates the reader; [JsonEmite] is a
      calculus of what a writer appends to its output, over the interface [Escritor], with
      which [JsonWriterOk] and [JsonStreamOk] prove the writers.  [JsonNumeros] is about
      integers of any size; [JsonReaderTotal] is a weakest-precondition calculus for
      the reader.  [MongooseOk], [WebSocketOk] and [LocalizacionOk] do the same for their
      models, against RFC 7230, RFC 4648 and RFC 6455 where they say what the code must do.
    - [ConexionOk] follows a request through a connection, for handlers that keep the
      contract [ManejadorOk]; [RedOk] has the invariant of the connections, a calculus of what
      the web server can do to the state of the program, and the delivery of replies;
      [Clientes] states what that means to the clients.  [ListaOk], inside [Lista], relates
      the memory of the list to the sequence that [Red] works on.
    - [Rutas] is about normalised paths; [LocalesOk] follows a request to the file it touches,
      [DavOk] proves WebDAV against the tree of the disk, and [ListadoOk] the order of a listing; the theorems
      of [Ssi], [Cgi], [Proxy], [Plantillas] and [Registros] are in their files.
    - [Chat] is the abstract specification: a chat is a map of users, a map of conversations
      and an index of the conversations of each user; [Chat.Representa] relates it to the
      contents of the store.  [Corre] has the triples that hide the log and the clock.
      [ServicioOk] and [ConsultasOk] show that each service implements an operation on chats;
      [Maquina] puts the operations together in one abstract machine, [Maquina.paso], and
      proves what all its steps keep; [ServidorOk] shows by simulation that the runs of the
      process are runs of the machine, and discharges [ManejadorOk].
    - [Garantias] (the services), [Proceso] (the whole process) and [Componentes] (the parts)
      hold the final theorems with a worked example for each one that has hypotheses.

    ** What the theorems show

    - The process, in runs in which no request has the separator of the stored lists in the text
      or the date of its message ([separador_en_mensaje] shows the restriction is needed): after any
      turns of the event loop, whatever else the clients send, the database
      represents a valid chat, reached by steps of the machine ([servidor_invariante]); no
      user, conversation or message is lost ([historial_crece]), and messages are only added by
      requests with the token of their sender ([autoria]), which is no proof of who sends
      them, because any client can ask for it ([suplantacion]).
      A registration is followed from the bytes of the client to the database and back to
      the bytes it receives ([registro_de_punta_a_punta]).
    - The web server: a request cut in any way reaches the handler whole and its client gets
      the reply ([peticion_respondida]); malformed requests are answered ([rechazo_responde]);
      the loop returns on all input but for three undefined behaviours ([bucle_total]); what
      follows a request in the same read is lost ([encadenadas]); handshake and frames are
      those of RFC 6455 ([handshake_rfc6455], [marco_roundtrip]); digest authorisation is that
      of RFC 2617 ([digest_rfc2617]), patterns mean what their syntax says ([patrones]), forms
      are read back ([multipart_roundtrip]) and dates almost are ([fechas_http]); files and
      their ranges are sent exactly ([archivo_servido]).  The loops over the linked list of
      connections are those over a sequence ([lista_enlazada]).
    - Files: a request touches only what is below the root that serves it, if its path starts with a slash
      and there are no rewrites ([raiz_segura]); without a root every request is answered as [Conexion] says
      ([sin_raiz]); DELETE removes a tree and nothing else ([borrado]), what is put is
      what is got ([put_get]); listings are complete and sorted ([listado_directorio]);
      includes are replaced by what they include and always end ([ssi_incluye]); the
      environment of a CGI program fits its block ([entorno_cgi]) and its output reaches
      the client ([salida_cgi]); the proxy writes a request that is read as the same one
      ([peticion_roundtrip]) and finds its destination ([proxy_destino]); templates are
      expanded ([plantilla]) and dumps fit their buffer ([volcado_cabe]).
    - The start: the server listens on the port it is given, and all other options keep their
      defaults ([arranque]), which is the configuration the model of the connections assumes.
    - The services: for each one, the chat it leaves and the reply it sends as a function of
      the chat it finds and the parameters, on every branch (the [..._refina] theorems);
      the service returns, and the client receives a chunked HTTP reply whose body is the JSON
      text of the answer ([pedido_responde]).
    - The libraries below: both MD5 compute RFC 1321 and SHA-1 FIPS 180; the JSON reader
      answers on every document ([parse_total]) and reads integers exactly
      ([enteros_exactos]), the two readers are the same where no token starts with a single quote
      ([our_reader_equivale]) and recover every value without reals that the writers print
      ([json_roundtrip]), and their error reports give
      the line and column of the place ([linea_y_columna]); JSON values are totally
      ordered ([orden_valores]), paths are lenses on them ([rutas]) and iterators visit their
      members ([iteracion]); entities and
      conversations survive being stored; form values survive URL coding; normalised paths
      do not climb.
    - Error paths: replies with a printf conversion, an id longer than its buffer, a database
      that does not open, a list with nested values.

    ** Fuel and bounds

    Loops that are not structural take fuel computed from their input, and the theorems show
    it suffices.  The JSON reader recurses at most [stackLimit_g] deep, one level fewer than
    its fuel, and each turn of its loops consumes a character of the text that bounds it
    ([parse_total] excludes [SinCombustible]).  The writers recurse on the height
    of the value; [split] and the removal of dot segments on the length of the text.
    [on_recv_data] calls itself through [close_local_endpoint], but only after emptying its
    buffer: two levels are enough; the websocket frames of a buffer are at most its length
    ([bucle_total]); the padding of SHA-1 takes at most 64 turns ([sha1_fips180]).  The fuel
    of [remove_directory] is the size of a path, which every level makes longer ([borrado]); includes have the 11 levels of
    the source ([ssi_incluye]); a loop over the linked list takes one step for each cell of the memory ([lista_enlazada]).
    Machine integers keep their width: MD5 and SHA-1 words and counters are taken modulo 2^32, JSON
    integers carry the ranges of [Int] and [UInt] of the source, [double] is binary64.  Signed
    overflow and other undefined behaviour is the failure [Indefinido], with one exception: the two
    negations of [decodeNumber] that overflow, one on every negative number of a document, are taken
    to wrap around ([enteros_exactos]), so that what is said of documents is said of those too.
    Descriptors are those the kernel gives, and one past [FD_SETSIZE], 1024, is undefined for [select].

    The statements about services assume a working store ([AlmacenOk], [usable]).  Replies are
    assumed free of the percent sign where the source passes them as a format, and of a length
    other than the I/O buffer where the source's [vsnprintf] test is exact.

    ** Not modelled

    - Of jsoncpp: comments and text offsets attached to values, which change neither the
      value that is read nor what is printed of a value built by the program (the server never
      prints a value it has parsed); what [setComment] refuses is modelled in [OurReader], and in
      [Reader] every comment starts with the slash it asks for; the streams of the [operator>>] of each class; and the
      null string that [Value(stringValue)] makes, which is the empty one here.
    - Of mongoose: TLS, which is not compiled in; the code for Windows; UDP, wake-up messages
      and their socket in the set of [select] (it and the listening socket are opened first, with low
      descriptors),
      the connections that the server starts and the creation of processes, which are calls
      to the system with no decision of the code besides: the proxy and CGI take their results
      as arguments.  In [Conexion] and [Red] the requests that need a document root and the
      endpoints they open are the branches [FueraDelModelo], which [bucle_total] shows are
      not taken with the options of the program; [Locales] and what follows it are models of
      their own, of servers that have a root.  Failures of memory allocation.
    - [getopt], whose answers are a parameter of [Arranque.main]; memory management but for the
      list of connections (no object is read after [delete] in the modelled paths).
    - RocksDB, CppUnit, the tests and the Android client, which are other programs.

    ** What could follow

    Comments in the readers and the writers, which need values with comments throughout; the
    endpoints of files, CGI and proxies inside the event loop, for servers with a document
    root; the rejection of every wrong token as one statement over all services; the log over
    whole runs. *)

From stdpp Require Export base strings list gmap.
From Stdlib Require Export ZArith Ascii Lia.

Declare Scope mensajero_scope.
Delimit Scope mensajero_scope with msj.

(** ** Failures and the two monads of the development *)

(** What makes a call of the program not return normally. *)
Inductive fallo : Type :=
| LogicError (msg : string)      (* Json::throwLogicError *)
| RuntimeError (msg : string)    (* Json::throwRuntimeError *)
| StdRuntimeError (msg : string) (* std::runtime_error *)
| FueraDeRango                   (* std::out_of_range, from vector::at *)
| Indefinido (msg : string)      (* undefined behaviour of C++ *)
| FueraDelModelo (msg : string)  (* a branch of the source outside the model *)
| SinCombustible.                (* the fuel of a modelled loop ran out *)

Inductive res (A : Type) : Type :=
| Ok (a : A)
| Fallo (e : fallo).
Arguments Ok {A} a.
Arguments Fallo {A} e.

Definition bindR {A B} (m : res A) (f : A -> res B) : res B :=
  match m with Ok a => f a | Fallo e => Fallo e end.
Notation "'let?' x ':=' m 'in' k" := (bindR m (fun x => k))
  (at level 10, x name, m at level 200, k at level 200,
   format "'[v' 'let?'  x  ':='  m  'in' '/' k ']'").
Notation "'let?' ' x ':=' m 'in' k" := (bindR m (fun x => k))
  (at level 10, x strict pattern, m at level 200, k at level 200, only parsing).


(** Explicit state passing with failures; the state survives a failure. *)
Definition M (S A : Type) : Type := S -> res A * S.
Definition ret {S A} (a : A) : M S A := fun s => (Ok a, s).
Definition bindM {S A B} (m : M S A) (f : A -> M S B) : M S B := fun s =>
  match m s with
  | (Ok a, s') => f a s'
  | (Fallo e, s') => (Fallo e, s')
  end.
Notation "'let*' x ':=' m 'in' k" := (bindM m (fun x => k))
  (at level 10, x name, m at level 200, k at level 200,
   format "'[v' 'let*'  x  ':='  m  'in' '/' k ']'").
Notation "'let*' ' x ':=' m 'in' k" := (bindM m (fun x => k))
  (at level 10, x strict pattern, m at level 200, k at level 200, only parsing).
Notation "m ';;;' k" := (bindM m (fun _ => k))
  (at level 199, right associativity, format "'[v' m ';;;' '/' k ']'").

Definition falla {S A} (e : fallo) : M S A := fun s => (Fallo e, s).
Definition leer {S A} (f : S -> A) : M S A := fun s => (Ok (f s), s).
Definition cambiar {S} (f : S -> S) : M S unit := fun s => (Ok tt, f s).
Definition alzar {S A} (r : res A) : M S A := fun s => (r, s).

(** [for (x : l) f(x);] *)
Fixpoint recorrer {S A} (l : list A) (f : A -> M S unit) : M S unit :=
  match l with
  | [] => ret tt
  | x :: l => f x;;; recorrer l f
  end.

Section MonadLaws.
Context {S A B C : Type}.

Lemma bind_assoc (m : M S A) (f : A -> M S B) (g : B -> M S C) s :
  bindM (bindM m f) g s = bindM m (fun a => bindM (f a) g) s.
Proof. unfold bindM. destruct (m s) as [[a|e] s']; reflexivity. Qed.

Lemma bind_ok (m : M S A) (f : A -> M S B) s a s' :
  m s = (Ok a, s') -> bindM m f s = f a s'.
Proof. unfold bindM. intros ->. reflexivity. Qed.

Lemma bind_igual (m m' : M S A) (f : A -> M S B) s s' : m s = m' s' -> bindM m f s = bindM m' f s'.
Proof. unfold bindM. intros ->. reflexivity. Qed.

Lemma bind_ext (m : M S A) (f g : A -> M S B) s : (forall a s', f a s' = g a s') -> bindM m f s = bindM m g s.
Proof. unfold bindM. intros E. destruct (m s) as [[a|e] s']; [apply E|reflexivity]. Qed.

Lemma bind_fallo (m : M S A) (f : A -> M S B) s e s' :
  m s = (Fallo e, s') -> bindM m f s = (Fallo e, s').
Proof. unfold bindM. intros ->. reflexivity. Qed.

Lemma bind_ok_inv (m : M S A) (f : A -> M S B) s b s' :
  bindM m f s = (Ok b, s') -> exists a s0, m s = (Ok a, s0) /\ f a s0 = (Ok b, s').
Proof. unfold bindM. destruct (m s) as [[a|e] s0]; [by eauto|done]. Qed.

Lemma bindR_ok_inv (m : res A) (f : A -> res B) b :
  bindR m f = Ok b -> exists a, m = Ok a /\ f a = Ok b.
Proof. destruct m; [by eauto|done]. Qed.
End MonadLaws.

(** ** Bytes *)

(** A C++ [char] is an [ascii]; its value as [unsigned char]. *)
Definition byte (c : ascii) : Z := Z.of_N (N_of_ascii c).
Definition chr (z : Z) : ascii := ascii_of_N (Z.to_N (z mod 256)).
Definition NUL : ascii := "000"%char.

Lemma byte_range c : (0 <= byte c < 256)%Z.
Proof. destruct c as [[][][][][][][][]]; vm_compute; split; discriminate || reflexivity. Qed.

Lemma chr_byte c : chr (byte c) = c.
Proof. destruct c as [[][][][][][][][]]; reflexivity. Qed.

Lemma byte_chr z : byte (chr z) = (z mod 256)%Z.
Proof.
  unfold byte, chr. pose proof (Z.mod_pos_bound z 256 ltac:(lia)).
  rewrite N_ascii_embedding by lia. lia.
Qed.

Lemma byte_inj c d : byte c = byte d -> c = d.
Proof. intros H. rewrite <- (chr_byte c), <- (chr_byte d), H. reflexivity. Qed.

(** ** Strings *)

Lemma app_cons_s c (a b : string) : String c a +:+ b = String c (a +:+ b).
Proof. reflexivity. Qed.

Lemma app_nil_l_s (a : string) : "" +:+ a = a.
Proof. reflexivity. Qed.

Lemma app_assoc_s (a b c : string) : (a +:+ b) +:+ c = a +:+ (b +:+ c).
Proof. induction a as [|x a IH]; [done|]. by rewrite !app_cons_s, IH. Qed.

Lemma app_nil_r_s (a : string) : a +:+ "" = a.
Proof. induction a as [|x a IH]; [done|]. by rewrite app_cons_s, IH. Qed.

Lemma length_app_s (a b : string) :
  String.length (a +:+ b) = (String.length a + String.length b)%nat.
Proof. induction a as [|x a IH]; [done|]. rewrite app_cons_s. cbn. by rewrite IH. Qed.

(** The part of a string from a location [p] (the rest of the text from [p] on)
    up to a later location [q]. *)
Fixpoint prefijo (n : nat) (s : string) : string :=
  match n, s with
  | S n, String c s => String c (prefijo n s)
  | _, _ => ""
  end.
Fixpoint saltear (n : nat) (s : string) : string :=
  match n, s with
  | S n, String _ s => saltear n s
  | _, s => s
  end.
Definition entre (p q : string) : string :=
  prefijo (String.length p - String.length q) p.

(** The text of a list of pieces. *)
Fixpoint unir (l : list string) : string :=
  match l with [] => "" | b :: l => b +:+ unir l end.
Lemma unir_app l m : unir (l ++ m) = unir l +:+ unir m.
Proof. induction l as [|s l IH]; [done|]. cbn [app unir]. by rewrite IH, app_assoc_s. Qed.

(** Two ways to cut the same text. *)
Lemma cortes (a b c d : string) : a +:+ b = c +:+ d -> (String.length c <= String.length a)%nat ->
  exists q, a = c +:+ q /\ q +:+ b = d.
Proof.
  revert a. induction c as [|x c IH]; intros a E Hl; [by exists a|].
  destruct a as [|y a]; [cbn in Hl; lia|]. rewrite !app_cons_s in E. injection E as -> E.
  destruct (IH a E) as (q & -> & Hq); [cbn in Hl; lia|]. by exists q.
Qed.

Lemma prefijo_app a b : prefijo (String.length a) (a +:+ b) = a.
Proof. induction a as [|x a IH]; [by destruct b|]. rewrite app_cons_s. cbn. by rewrite IH. Qed.

Lemma entre_app a b : entre (a +:+ b) b = a.
Proof.
  unfold entre. rewrite length_app_s, Nat.add_sub. apply prefijo_app.
Qed.

Lemma length_saltear n s : String.length (saltear n s) = (String.length s - n)%nat.
Proof. revert s. induction n as [|n IH]; intros [|c s]; cbn; auto with arith. Qed.
Lemma length_prefijo n s : String.length (prefijo n s) = Nat.min n (String.length s).
Proof. revert s. induction n as [|n IH]; intros [|c s]; cbn; auto with arith. Qed.
Lemma prefijo_saltear n s : prefijo n s +:+ saltear n s = s.
Proof.
  revert s. induction n as [|n IH]; intros [|c s]; try done. cbn [prefijo saltear]. by rewrite app_cons_s, IH.
Qed.

Lemma prefijo_todo n s : (String.length s <= n)%nat -> prefijo n s = s.
Proof. revert s. induction n as [|n IH]; intros [|c s] Hn; cbn in *; [done|lia|done|]. rewrite IH; [done|lia]. Qed.
Lemma saltear_app a b : saltear (String.length a) (a +:+ b) = b.
Proof. induction a as [|x a IH]; [by destruct b|]. done. Qed.

(** Boolean quantification and membership over the characters of a string. *)
Fixpoint todos (P : ascii -> bool) (s : string) : bool :=
  match s with "" => true | String c s => P c && todos P s end.
Definition contiene (c : ascii) (s : string) : bool := negb (todos (fun d => negb (Ascii.eqb c d)) s).

Lemma todos_app P a b : todos P (a +:+ b) = todos P a && todos P b.
Proof.
  induction a as [|x a IH]; [done|]. rewrite app_cons_s. cbn. by rewrite IH, andb_assoc.
Qed.

Lemma todos_impl (P Q : ascii -> bool) s :
  (forall c, P c = true -> Q c = true) -> todos P s = true -> todos Q s = true.
Proof.
  intros H. induction s as [|x s IH]; [done|]. cbn.
  intros [Hx Hs]%andb_prop. by rewrite (H _ Hx), IH.
Qed.

Lemma contiene_app c a b : contiene c (a +:+ b) = contiene c a || contiene c b.
Proof. unfold contiene. rewrite todos_app. by rewrite negb_andb. Qed.

Lemma contiene_cons c d s : contiene c (String d s) = Ascii.eqb c d || contiene c s.
Proof. unfold contiene. cbn. rewrite negb_andb, negb_involutive. done. Qed.

Lemma todos_no_contiene (P : ascii -> bool) c s :
  P c = false -> todos P s = true -> contiene c s = false.
Proof.
  intros Hc Hs. unfold contiene. apply negb_false_iff.
  eapply todos_impl; [|exact Hs]. intros d Hd. cbn.
  destruct (Ascii.eqb_spec c d); [congruence|done].
Qed.

(** [string(p)] for a NUL-terminated [p]: the bytes before the first NUL. *)
Fixpoint c_str (s : string) : string :=
  match s with
  | "" => ""
  | String c s => if Ascii.eqb c NUL then "" else String c (c_str s)
  end.

Lemma c_str_id s : contiene NUL s = false -> c_str s = s.
Proof.
  induction s as [|c s IH]; [done|]. rewrite contiene_cons. cbn [c_str].
  intros [H1 H2]%orb_false_elim. rewrite Ascii.eqb_sym, H1. by rewrite IH.
Qed.

Lemma c_str_sin_nul s : contiene NUL (c_str s) = false.
Proof.
  induction s as [|c s IH]; [done|]. cbn [c_str].
  destruct (Ascii.eqb_spec c NUL) as [->|Hn]; [done|].
  rewrite contiene_cons, IH, orb_false_r. by apply Ascii.eqb_neq.
Qed.

Lemma contiene_c_str c s : contiene c s = false -> contiene c (c_str s) = false.
Proof.
  induction s as [|d s IH]; [done|]. rewrite contiene_cons. intros [H1 H2]%orb_false_elim. cbn [c_str].
  destruct (Ascii.eqb d NUL); [done|]. by rewrite contiene_cons, H1, IH.
Qed.

Lemma string_eqb_refl s : String.eqb s s = true.
Proof. apply String.eqb_refl. Qed.

(** ** Automation *)

Create HintDb mensajero.
Create Rewrite HintDb mensajero.
#[export] Hint Rewrite app_assoc_s app_nil_r_s app_nil_l_s app_cons_s length_app_s
  todos_app contiene_app contiene_cons : mensajero.
#[export] Hint Resolve byte_range todos_impl todos_no_contiene c_str_sin_nul : mensajero.

(** Case analysis on the scrutinee of the first [match] or [if] of the goal. *)
Ltac caso :=
  match goal with
  | |- context [match ?x with _ => _ end] =>
      lazymatch x with context [match _ with _ => _ end] => fail | _ => destruct x eqn:? end
  end.

(** Normalises nested string concatenation. *)
Ltac aplanar := autorewrite with mensajero.

(** Splits boolean conjunctions in the hypotheses. *)
Ltac partir :=
  repeat match goal with
  | H : _ && _ = true |- _ => apply andb_prop in H; destruct H
  | H : _ || _ = false |- _ => apply orb_false_elim in H; destruct H
  | H : negb _ = true |- _ => apply negb_true_iff in H
  | H : negb _ = false |- _ => apply negb_false_iff in H
  end.
