(* ===== verification/Bloques.v ===== *)
(** * Bloques: hashing by blocks of 64 bytes

    The reference form of a hash that absorbs its message in blocks of 64 bytes, and what the
    three implementations of the program share: 32-bit arithmetic, the buffer of the bytes that do not
    fill a block yet, the 64-bit counter kept in two words, and the padding. *)

From S2P Require Import Prelude.
Open Scope Z_scope.

(** ** 32-bit words *)

Definition u32 (z : Z) : Z := z mod 2 ^ 32.
Definition lnot32 (x : Z) : Z := u32 (Z.lnot x).
Definition rol32 (x n : Z) : Z := Z.lor (u32 (Z.shiftl x n)) (Z.shiftr x (32 - n)).

Lemma u32_small z : 0 <= z < 2 ^ 32 -> u32 z = z.
Proof. apply Z.mod_small. Qed.
Lemma u32_rango z : 0 <= u32 z < 2 ^ 32.
Proof. apply Z.mod_pos_bound. lia. Qed.
Lemma u32_u32 z : u32 (u32 z) = u32 z.
Proof. apply u32_small, u32_rango. Qed.
Lemma u32_add_l a b : u32 (u32 a + b) = u32 (a + b).
Proof. unfold u32. by rewrite Z.add_mod_idemp_l by lia. Qed.
Lemma u32_add_r a b : u32 (a + u32 b) = u32 (a + b).
Proof. unfold u32. by rewrite Z.add_mod_idemp_r by lia. Qed.

Lemma byte_de_palabra z j :
  0 <= j <= 24 -> Z.land (Z.shiftr (u32 z) j) 0xff = (z / 2 ^ j) mod 256.
Proof.
  intros Hj. apply Z.bits_inj'. intros n Hn.
  change 0xff with (Z.ones 8). change 256 with (2 ^ 8). unfold u32.
  rewrite Z.land_spec, Z.shiftr_spec by lia.
  destruct (Z_lt_le_dec n 8) as [H8|H8].
  - rewrite Z.ones_spec_low, andb_true_r by lia.
    rewrite !Z.mod_pow2_bits_low by lia. by rewrite Z.div_pow2_bits by lia.
  - rewrite Z.ones_spec_high, andb_false_r by lia. by rewrite Z.mod_pow2_bits_high by lia.
Qed.

(** The bytes of a text. *)
Fixpoint bytes_of (s : string) : list Z :=
  match s with "" => [] | String c s => byte c :: bytes_of s end.
Lemma length_bytes_of s : length (bytes_of s) = String.length s.
Proof. induction s; cbn; congruence. Qed.
Lemma bytes_of_app a b : bytes_of (a +:+ b) = bytes_of a ++ bytes_of b.
Proof. induction a as [|c a IH]; [done|]. rewrite app_cons_s. cbn [bytes_of app]. by rewrite IH. Qed.
Lemma bytes_of_rango s : Forall (fun b => 0 <= b < 256) (bytes_of s).
Proof. induction s; cbn; constructor; auto with mensajero. Qed.

(** ** Arrays of bytes *)

(** [memcpy(&buf[off], src, n)] inside an array. *)
Definition memcpy (buf : list Z) (off : Z) (src : list Z) : list Z :=
  take (Z.to_nat off) buf ++ src ++ drop (Z.to_nat off + length src) buf.

Lemma length_memcpy buf off src :
  0 <= off -> (Z.to_nat off + length src <= length buf)%nat ->
  length (memcpy buf off src) = length buf.
Proof. intros. unfold memcpy. rewrite !length_app, length_take, length_drop. lia. Qed.

Lemma memcpy_todo buf src : length src = length buf -> memcpy buf 0 src = src.
Proof. intros E. unfold memcpy. cbn [take app Z.to_nat]. rewrite drop_ge by (rewrite E; lia). by rewrite app_nil_r. Qed.

Lemma take_memcpy buf off src k :
  0 <= off -> (Z.to_nat off + length src <= length buf)%nat ->
  k = (Z.to_nat off + length src)%nat ->
  take k (memcpy buf off src) = take (Z.to_nat off) buf ++ src.
Proof.
  intros H1 H2 ->. unfold memcpy. rewrite app_assoc.
  apply take_app_length'. rewrite length_app, length_take. lia.
Qed.

Lemma div_add_64 (a b r : nat) : r = (a mod 64)%nat -> (64 - r <= b)%nat ->
  ((a + b) / 64 = a / 64 + 1 + (b - (64 - r)) / 64 /\ (a + b) mod 64 = (b - (64 - r)) mod 64)%nat.
Proof.
  intros -> Hb. pose proof (Nat.div_mod_eq a 64). pose proof (Nat.mod_upper_bound a 64 ltac:(lia)).
  pose proof (Nat.div_mod_eq (b - (64 - a mod 64)) 64).
  pose proof (Nat.mod_upper_bound (b - (64 - a mod 64)) 64 ltac:(lia)).
  split; symmetry.
  - eapply Nat.div_unique; [|]; [eassumption|lia].
  - eapply Nat.mod_unique; [eassumption|].
    instantiate (1 := (a / 64 + 1 + (b - (64 - a mod 64)) / 64)%nat). lia.
Qed.

Lemma div_add_lt_64 (a b r : nat) : r = (a mod 64)%nat -> (b < 64 - r)%nat ->
  ((a + b) / 64 = a / 64 /\ (a + b) mod 64 = r + b)%nat.
Proof.
  intros -> Hb. pose proof (Nat.div_mod_eq a 64).
  split; symmetry; [eapply (Nat.div_unique _ _ _ (a mod 64 + b))|eapply (Nat.mod_unique _ _ (a / 64))]; lia.
Qed.

(** ** Absorbing a message *)

Section Absorber.
Context {St : Type} (bloque : St -> list Z -> St) (iv : St).

(** The first [n] blocks of a message. *)
Fixpoint procesar (n : nat) (st : St) (msg : list Z) : St :=
  match n with
  | O => st
  | S n => procesar n (bloque st (take 64 msg)) (drop 64 msg)
  end.

Lemma procesar_app n k st msg :
  procesar (n + k) st msg = procesar k (procesar n st msg) (drop (64 * n) msg).
Proof.
  revert st msg. induction n as [|n IH]; intros st msg; [by rewrite Nat.mul_0_r|].
  cbn [procesar Nat.add]. rewrite IH, drop_drop. repeat f_equal; lia.
Qed.

Lemma procesar_ext n st msg x :
  (64 * n <= length msg)%nat -> procesar n st (msg ++ x) = procesar n st msg.
Proof.
  revert st msg. induction n as [|n IH]; intros st msg Hl; [done|]. cbn [procesar].
  rewrite take_app_le, drop_app_le by lia. apply IH. rewrite length_drop. lia.
Qed.

(** The state and the buffer after the bytes [msg]. *)
Definition Absorbido (st : St) (buf msg : list Z) : Prop :=
  length buf = 64%nat /\ st = procesar (length msg / 64) iv msg /\
  take (length msg mod 64) buf = drop (64 * (length msg / 64)) msg.

Lemma absorbido_vacio buf : length buf = 64%nat -> Absorbido iv buf [].
Proof. by repeat split. Qed.

Lemma absorbido_multiplo st buf msg :
  Absorbido st buf msg -> st = procesar (length msg / 64) iv msg.
Proof. by intros (_ & ? & _). Qed.

(** The input does not fill the buffer. *)
Lemma absorbe_cabe st buf msg input :
  Absorbido st buf msg -> (length input < 64 - length msg mod 64)%nat ->
  Absorbido st (memcpy buf (Z.of_nat (length msg mod 64)) input) (msg ++ input).
Proof.
  intros (Hb & Hs & Ht) Hlt. set (r := (length msg mod 64)%nat) in *.
  pose proof (Nat.mod_upper_bound (length msg) 64 ltac:(lia)) as Hr.
  pose proof (Nat.div_mod_eq (length msg) 64) as Hd.
  destruct (div_add_lt_64 (length msg) (length input) r eq_refl ltac:(lia)) as [E1 E2].
  split; [|split]; rewrite ?length_app, ?E1, ?E2.
  - rewrite length_memcpy by lia. done.
  - rewrite procesar_ext by lia. done.
  - rewrite (take_memcpy _ _ _ (r + length input)) by lia.
    rewrite drop_app_le by lia. by rewrite Nat2Z.id, Ht.
Qed.

(** The block completed by the first bytes of the input. *)
Lemma primer_bloque st buf msg input :
  Absorbido st buf msg -> (64 - length msg mod 64 <= length input)%nat ->
  memcpy buf (Z.of_nat (length msg mod 64)) (take (64 - length msg mod 64) input) =
  take 64 (drop (64 * (length msg / 64)) (msg ++ input)).
Proof.
  intros (Hb & _ & Ht) Hi.
  pose proof (Nat.mod_upper_bound (length msg) 64 ltac:(lia)) as Hr.
  pose proof (Nat.div_mod_eq (length msg) 64) as Hd.
  rewrite drop_app_le, <- Ht by lia. unfold memcpy. rewrite Nat2Z.id, length_take.
  rewrite (drop_ge buf), app_nil_r by lia.
  rewrite take_app, take_take, length_take. f_equal; f_equal; lia.
Qed.

(** The input fills the buffer: that block, then the whole blocks of the rest, then the
    remaining bytes to the start of the buffer. *)
Lemma absorbe_pasa st buf msg input :
  Absorbido st buf msg -> (64 - length msg mod 64 <= length input)%nat ->
  let r := (length msg mod 64)%nat in
  let k := ((length input - (64 - r)) / 64)%nat in
  let buf1 := memcpy buf (Z.of_nat r) (take (64 - r) input) in
  Absorbido (procesar k (bloque st buf1) (drop (64 - r) input))
    (memcpy buf1 0 (drop (64 - r + 64 * k) input)) (msg ++ input).
Proof.
  intros HA Hi r k buf1. pose proof HA as (Hb & Hs & Ht).
  pose proof (Nat.mod_upper_bound (length msg) 64 ltac:(lia)) as Hr.
  pose proof (Nat.div_mod_eq (length msg) 64) as Hd. fold r in Hr, Hd, Hi.
  destruct (div_add_64 (length msg) (length input) r eq_refl Hi) as [E1 E2]. fold k in E1.
  pose proof (Nat.div_mod_eq (length input - (64 - r)) 64) as Hk. fold k in Hk.
  pose proof (Nat.mod_upper_bound (length input - (64 - r)) 64 ltac:(lia)) as Hm.
  assert (length buf1 = 64%nat) as Hb1 by (unfold buf1; rewrite length_memcpy; rewrite ?length_take; lia).
  unfold buf1 in *. unfold r in *. rewrite (primer_bloque _ _ _ _ HA Hi) in *. fold r in Hr, Hk, Hm, E1, E2, Hd, Hi |- *. fold k in Hk, E1 |- *.
  split; [|split]; rewrite ?length_app, ?E1, ?E2.
  - rewrite length_memcpy by (rewrite ?length_drop; lia). done.
  - rewrite !procesar_app, (procesar_ext (length msg / 64)) by lia. rewrite <- Hs.
    cbn [procesar]. f_equal. rewrite drop_app_ge by lia. f_equal. lia.
  - rewrite (take_memcpy _ 0) by (rewrite ?length_drop; lia).
    rewrite take_0. cbn [app]. rewrite (drop_app_ge msg) by lia. f_equal. lia.
Qed.

(** What the rest of the buffer holds does not matter. *)
Lemma absorbido_resto st x y resto msg :
  Absorbido st (memcpy x 0 resto) msg -> length y = 64%nat -> (length msg mod 64 <= length resto <= 64)%nat ->
  Absorbido st (memcpy y 0 resto) msg.
Proof.
  intros (_ & Hs & Ht) Hy Hr. split; [rewrite length_memcpy by (cbn; lia); done|]. split; [done|]. rewrite <- Ht.
  unfold memcpy. change (Z.to_nat 0) with 0%nat. rewrite !take_0, !app_nil_l. by rewrite (take_app_le resto), (take_app_le resto) by lia.
Qed.

(** A loop that takes block after block from position [i] on. *)
Lemma bucle_desde (g : nat -> Z -> St -> St * Z) data fuel i st :
  let len := Z.of_nat (length data) in
  (forall fuel i st, 0 <= i -> i + 64 <= len ->
     g (S fuel) i st = g fuel (i + 64) (bloque st (take 64 (drop (Z.to_nat i) data)))) ->
  (forall fuel i st, 0 <= i <= len -> len < i + 64 -> g fuel i st = (st, i)) ->
  0 <= i <= len -> (Z.to_nat ((len - i) / 64) <= fuel)%nat ->
  g fuel i st = (procesar (Z.to_nat ((len - i) / 64)) st (drop (Z.to_nat i) data), i + 64 * ((len - i) / 64)).
Proof.
  intros len H1 H2. revert i st. induction fuel as [|fuel IH]; intros i st Hi Hf.
  - pose proof (Z.div_pos (len - i) 64 ltac:(lia) ltac:(lia)). pose proof (Z.mod_pos_bound (len - i) 64 ltac:(lia)).
    pose proof (Z.div_mod (len - i) 64 ltac:(lia)). assert ((len - i) / 64 = 0) as -> by lia.
    rewrite H2 by lia. cbn. f_equal. lia.
  - destruct (Z_lt_le_dec len (i + 64)).
    + rewrite H2, Z.div_small by lia. cbn. f_equal. lia.
    + assert ((len - i) / 64 = (len - (i + 64)) / 64 + 1) as E.
      { replace (len - i) with (len - (i + 64) + 1 * 64) by lia. by rewrite Z.div_add by lia. }
      pose proof (Z.div_pos (len - (i + 64)) 64 ltac:(lia) ltac:(lia)) as Hp.
      rewrite H1, IH, E by lia.
      replace (Z.to_nat ((len - (i + 64)) / 64 + 1)) with (S (Z.to_nat ((len - (i + 64)) / 64))) by lia.
      cbn [procesar]. rewrite drop_drop. f_equal; [|lia]. do 2 f_equal. lia.
Qed.

Lemma bucle_bloques (g : nat -> Z -> St -> St * Z) data (r : nat) st :
  let len := Z.of_nat (length data) in
  (forall fuel i st, 0 <= i -> i + 64 <= len ->
     g (S fuel) i st = g fuel (i + 64) (bloque st (take 64 (drop (Z.to_nat i) data)))) ->
  (forall fuel i st, 0 <= i <= len -> len < i + 64 -> g fuel i st = (st, i)) ->
  (r < 64)%nat -> (64 - r <= length data)%nat ->
  let k := ((length data - (64 - r)) / 64)%nat in
  g (length data) (64 - Z.of_nat r) st = (procesar k st (drop (64 - r) data), Z.of_nat (64 - r + 64 * k)).
Proof.
  intros len H1 H2 Hr Hi k. assert ((len - (64 - Z.of_nat r)) / 64 = Z.of_nat k) as E.
  { unfold k, len. rewrite Nat2Z.inj_div. f_equal. lia. }
  pose proof (Nat.Div0.div_le_upper_bound (length data - (64 - r)) 64 (length data) ltac:(lia)).
  rewrite (bucle_desde g data); [|done|done|unfold len; lia|fold len; rewrite E; unfold k; lia].
  fold len. rewrite E, Nat2Z.id. f_equal; [|lia].
  do 2 f_equal. lia.
Qed.
End Absorber.

(** ** The bit counter in two words *)

Lemma suma_acarreo x y : 0 <= x < 2 ^ 32 -> 0 <= y < 2 ^ 32 ->
  (u32 (x + y) <? y) = (2 ^ 32 <=? x + y) /\ (u32 (x + y) <? x) = (2 ^ 32 <=? x + y).
Proof.
  intros Hx Hy. unfold u32. destruct (Z.leb_spec (2 ^ 32) (x + y)).
  - assert ((x + y) mod 2 ^ 32 = x + y - 2 ^ 32) as ->; [|split; apply Z.ltb_lt; lia].
    symmetry. apply (Z.mod_unique _ _ 1); [left|]; lia.
  - rewrite Z.mod_small by lia. split; apply Z.ltb_ge; lia.
Qed.

(** Adding [8 l] to a counter [a], with the carry detected against either addend. *)
Lemma contador_ok a l (acarreo : bool) :
  0 <= a -> 0 <= l < 2 ^ 32 ->
  let bits := u32 (Z.shiftl l 3) in
  acarreo = (u32 (u32 a + bits) <? bits) \/ acarreo = (u32 (u32 a + bits) <? u32 a) ->
  u32 (u32 a + bits) = u32 (a + 8 * l) /\
  u32 ((if acarreo then u32 (u32 (a / 2 ^ 32) + 1) else u32 (a / 2 ^ 32)) + Z.shiftr l 29) =
  u32 ((a + 8 * l) / 2 ^ 32).
Proof.
  intros Ha Hl bits Hc.
  assert (bits = u32 (8 * l)) as Eb.
  { unfold bits. rewrite Z.shiftl_mul_pow2 by lia. f_equal. lia. }
  assert (acarreo = (2 ^ 32 <=? u32 a + bits)) as ->.
  { destruct (suma_acarreo (u32 a) bits (u32_rango _) (u32_rango _)) as [E1 E2]. by destruct Hc as [->| ->]. }
  split; [by rewrite Eb, u32_add_l, u32_add_r|].
  assert (Z.shiftr l 29 = 8 * l / 2 ^ 32) as ->.
  { rewrite Z.shiftr_div_pow2 by lia. replace (2 ^ 32) with (8 * 2 ^ 29) by reflexivity.
    by rewrite Z.div_mul_cancel_l by lia. }
  rewrite Eb. unfold u32. set (W := 2 ^ 32) in *. assert (0 < W) as HW by reflexivity.
  pose proof (Z.div_mod a W ltac:(lia)) as D1. pose proof (Z.mod_pos_bound a W HW) as B1.
  pose proof (Z.div_mod (8 * l) W ltac:(lia)) as D2. pose proof (Z.mod_pos_bound (8 * l) W HW) as B2.
  destruct (Z.leb_spec W (a mod W + (8 * l) mod W)) as [Hle|Hgt].
  - assert ((a + 8 * l) / W = a / W + 8 * l / W + 1) as ->.
    { symmetry. apply (Z.div_unique _ _ _ (a mod W + (8 * l) mod W - W)); [left|]; lia. }
    rewrite Z.add_mod_idemp_l, <- Z.add_assoc, Z.add_mod_idemp_l by lia. f_equal. lia.
  - assert ((a + 8 * l) / W = a / W + 8 * l / W) as ->.
    { symmetry. apply (Z.div_unique _ _ _ (a mod W + (8 * l) mod W)); [left|]; lia. }
    by rewrite Z.add_mod_idemp_l by lia.
Qed.

Lemma indice_ok len : u32 (8 * Z.of_nat len) / 8 mod 64 = Z.of_nat (len mod 64).
Proof.
  unfold u32. rewrite Nat2Z.inj_mod. change (2 ^ 32) with (8 * 2 ^ 29).
  rewrite Z.mul_mod_distr_l, Z.mul_comm, Z.div_mul by lia.
  apply Z.mod_mod_divide. exists (2 ^ 23). reflexivity.
Qed.

Lemma shiftr3_land len : Z.land (Z.shiftr (u32 (8 * Z.of_nat len)) 3) 63 = Z.of_nat (len mod 64).
Proof.
  change 63 with (Z.ones 6). rewrite Z.land_ones, Z.shiftr_div_pow2 by lia. apply indice_ok.
Qed.

(** ** Padding *)

(** The zeros after the bit 1, so that 8 bytes are left of the last block. *)
Definition relleno (len : nat) : nat := Z.to_nat ((55 - Z.of_nat len) mod 64).

Lemma relleno_lt len : (relleno len < 64)%nat.
Proof. unfold relleno. pose proof (Z.mod_pos_bound (55 - Z.of_nat len) 64 ltac:(lia)). lia. Qed.

Lemma relleno_index len :
  let index := Z.of_nat (len mod 64) in
  (if index <? 56 then 56 - index else 120 - index) = Z.of_nat (S (relleno len)).
Proof.
  intros index. pose proof (Nat.mod_upper_bound len 64 ltac:(lia)) as Hb.
  unfold relleno. rewrite <- (Zminus_mod_idemp_r 55).
  assert (Z.of_nat len mod 64 = index) as -> by (unfold index; by rewrite Nat2Z.inj_mod).
  destruct (Z.ltb_spec index 56).
  - rewrite Z.mod_small by lia. lia.
  - rewrite <- (Z.mod_add _ 1), Z.mod_small by lia. lia.
Qed.

Lemma relleno_multiplo len : ((len + (1 + relleno len) + 8) mod 64 = 0)%nat.
Proof.
  unfold relleno. apply Nat2Z.inj. rewrite Nat2Z.inj_mod. apply Z.mod_divide; [lia|].
  pose proof (Z.div_mod (55 - Z.of_nat len) 64 ltac:(lia)).
  pose proof (Z.mod_pos_bound (55 - Z.of_nat len) 64 ltac:(lia)).
  exists (1 - (55 - Z.of_nat len) / 64). lia.
Qed.
