(* ===== verification/Rfc1321.v ===== *)
(** * Rfc1321: the MD5 message-digest algorithm of RFC 1321

    The specification that the two implementations of the program are proved against, written
    from the RFC with arithmetic on integers, apart from their code: it takes only [u32], the number
    of zeros of the padding and the fold over blocks of 64 bytes from [Bloques].  A message is a
    list of bytes. *)

From S2P Require Import Prelude Bloques.
Open Scope Z_scope.

Module Rfc.

(** Words of 32 bits: addition is modulo 2^32 ([u32]); complement and rotation. *)
Definition complemento (x : Z) : Z := 2 ^ 32 - 1 - x mod 2 ^ 32.
Definition rotar (x s : Z) : Z := x * 2 ^ s mod 2 ^ 32 + x / 2 ^ (32 - s).

(** The four auxiliary functions of section 3.4. *)
Definition F (x y z : Z) : Z := Z.lor (Z.land x y) (Z.land (complemento x) z).
Definition G (x y z : Z) : Z := Z.lor (Z.land x z) (Z.land y (complemento z)).
Definition H (x y z : Z) : Z := Z.lxor x (Z.lxor y z).
Definition I (x y z : Z) : Z := Z.lxor y (Z.lor x (complemento z)).

(** Words are sequences of bytes with the low-order byte first. *)
Definition palabra (bs : list Z) (k : nat) : Z :=
  foldr (fun b w => Z.lor b (w * 2 ^ 8)) 0 (take 4 (drop (4 * k) bs)).
Definition octetos (w : Z) : list Z := map (fun j => w / 2 ^ (8 * Z.of_nat j) mod 256) (seq 0 4).

(** Fixed-point sine: [floor (2^32 * |sin i|)] for the integer [i], from 120 terms of
    the Taylor series with 160 fractional bits ([term] is [x^(2k-1) / (2k-1)!]). *)
Fixpoint taylor (fuel : nat) (k x term acc : Z) : Z :=
  match fuel with
  | O => acc
  | S fuel =>
      taylor fuel (k + 1) x (term * x * x / ((2 * k) * (2 * k + 1)))
             (if Z.odd k then acc + term else acc - term)
  end.
Definition T (i : Z) : Z := Z.abs (taylor 120 1 i (i * 2 ^ 160) 0) / 2 ^ 128.

(** One operation [abcd k s i] of section 3.4, where [t] is [T i]; the four words rotate. *)
Definition estado : Type := Z * Z * Z * Z.
Definition paso (f : Z -> Z -> Z -> Z) (x : nat -> Z) (st : estado) (ksi : nat * Z * Z) : estado :=
  let '(a, b, c, d) := st in
  let '(k, s, t) := ksi in
  (d, u32 (b + rotar (u32 (a + f b c d + x k + t)) s), b, c).

(** The sixteen operations of a round: [k] goes from [k0] by [dk] modulo 16, the four
    amounts of rotation repeat, and [i] counts from [i0]. *)
Definition ronda (k0 dk : nat) (s : list Z) (i0 : nat) : list (nat * Z * Z) :=
  (fun j => (Nat.modulo (k0 + dk * j) 16%nat, nth (Nat.modulo j 4%nat) s 0, T (Z.of_nat (i0 + j)))) <$> seq 0 16.
Definition ronda1 := Eval vm_compute in ronda 0 1 [7; 12; 17; 22] 1.
Definition ronda2 := Eval vm_compute in ronda 1 5 [5; 9; 14; 20] 17.
Definition ronda3 := Eval vm_compute in ronda 5 3 [4; 11; 16; 23] 33.
Definition ronda4 := Eval vm_compute in ronda 0 7 [6; 10; 15; 21] 49.
Definition rondas (x : nat -> Z) (st : estado) : estado :=
  foldl (paso I x) (foldl (paso H x) (foldl (paso G x) (foldl (paso F x) st ronda1) ronda2) ronda3) ronda4.

Definition bloque (st : estado) (block : list Z) : estado :=
  let '(a, b, c, d) := st in
  let '(a', b', c', d') := rondas (palabra block) st in
  (u32 (a + a'), u32 (b + b'), u32 (c + c'), u32 (d + d')).

Definition iv : estado := (0x67452301, 0xefcdab89, 0x98badcfe, 0x10325476).

(** Steps 1 and 2: one bit 1, zeros up to 448 modulo 512, the length in bits as 64 bits. *)
Definition longitud64 (len : nat) : list Z :=
  (fun j => (8 * Z.of_nat len / 2 ^ (8 * Z.of_nat j)) mod 256) <$> seq 0 8.
Definition rellenar (msg : list Z) : list Z :=
  msg ++ 0x80 :: replicate (relleno (length msg)) 0 ++ longitud64 (length msg).

Definition md5 (msg : list Z) : list Z :=
  let p := rellenar msg in
  let '(a, b, c, d) := procesar bloque (length p / 64) iv p in
  octetos a ++ octetos b ++ octetos c ++ octetos d.

(** The digest as it is printed. *)
Definition digito (n : Z) : ascii := default " "%char (String.get (Z.to_nat n) "0123456789abcdef").
Fixpoint hexa (bs : list Z) : string :=
  match bs with [] => "" | b :: bs => String (digito (b / 16)) (String (digito (b mod 16)) (hexa bs)) end.

(** Two of the digests of the appendix A.5 of the RFC. *)
Example suite : hexa (md5 []) = "d41d8cd98f00b204e9800998ecf8427e" /\ hexa (md5 [97; 98; 99]) = "900150983cd24fb0d6963f7d28e17f72".
Proof. split; vm_compute; reflexivity. Qed.
End Rfc.
