(* ===== verification/Libc.v ===== *)
(** * Libc: the parts of the C and C++ standard library the server calls

    Character classes, [strtod]/[atof]/[sscanf("%lf")], [printf("%.17g")], a [printf]
    whose only argument is the format string, [sscanf(uri, base "%s")],
    [std::getline], and the calendar formats of [ctime] and [strftime].  A [double] is an IEEE binary64 number of the
    Standard Library's [spec_float]. *)

From S2P Require Import Prelude.
From Stdlib Require Export SpecFloat.
Open Scope Z_scope.

Module Libc.

(** ** Characters, in the "C" locale *)

Definition en_rango (c : ascii) (lo hi : Z) : bool := (lo <=? byte c) && (byte c <=? hi).
Definition isdigit (c : ascii) : bool := en_rango c 48 57.
Definition isupper (c : ascii) : bool := en_rango c 65 90.
Definition islower (c : ascii) : bool := en_rango c 97 122.
Definition isxdigit (c : ascii) : bool := isdigit c || en_rango c 65 70 || en_rango c 97 102.
Definition isspace (c : ascii) : bool := (byte c =? 32) || en_rango c 9 13.
Definition isalnum (c : ascii) : bool := isdigit c || isupper c || islower c.
Definition tolower (c : ascii) : ascii := if isupper c then chr (byte c + 32) else c.
Definition toupper (c : ascii) : ascii := if islower c then chr (byte c - 32) else c.
Definition digit_val (c : ascii) : Z := byte c - 48.
Definition xdigit_val (c : ascii) : Z :=
  if isdigit c then byte c - 48 else byte (tolower c) - 87.

Fixpoint mapa (f : ascii -> ascii) (s : string) : string :=
  match s with "" => "" | String c s => String (f c) (mapa f s) end.

(** The longest prefix whose characters satisfy [p], and the rest. *)
Fixpoint abarcar (p : ascii -> bool) (s : string) : string * string :=
  match s with
  | "" => ("", "")
  | String c r => if p c then let '(a, b) := abarcar p r in (String c a, b) else ("", s)
  end.

Lemma abarcar_app p s : let '(a, b) := abarcar p s in s = a +:+ b /\ todos p a = true.
Proof.
  induction s as [|c s IH]; [done|]. cbn [abarcar]. destruct (p c) eqn:E; [|done].
  destruct (abarcar p s) as [a b]. destruct IH as [-> H2]. cbn [todos]. by rewrite E.
Qed.

Lemma abarcar_exacto p a b :
  todos p a = true -> (match b with "" => true | String c _ => negb (p c) end) = true ->
  abarcar p (a +:+ b) = (a, b).
Proof.
  intros Ha Hb. induction a as [|c a IH].
  - rewrite app_nil_l_s. destruct b as [|c b]; [done|]. cbn [abarcar].
    apply negb_true_iff in Hb. by rewrite Hb.
  - rewrite app_cons_s. cbn [abarcar todos] in *. partir. rewrite H. by rewrite IH.
Qed.

(** ** Doubles *)

Abbreviation double := spec_float.
Definition prec : Z := 53.
Definition emax : Z := 1024.
Definition d_of_Z (z : Z) : double := binary_normalize prec emax z 0 false.
Definition d_sub : double -> double -> double := SFsub prec emax.
Definition d_add : double -> double -> double := SFadd prec emax.
Definition d_mul : double -> double -> double := SFmul prec emax.
Definition d_sqrt : double -> double := SFsqrt prec emax.
Definition d_leb (x y : double) : bool := SFleb x y.
Definition d_ltb (x y : double) : bool := SFltb x y.
Definition d_eqb (x y : double) : bool := SFeqb x y.
(** [pow(x, 2)]: the correctly rounded square. *)
Definition d_cuadrado (x : double) : double := d_mul x x.

Definition con_signo (neg : bool) (d : double) : double := if neg then SFopp d else d.

(** The double nearest to [m * 2^e] and to [m * 10^e], [m >= 0].  The clamps avoid the powers
    where the result is infinite or zero whatever the digits are: at [10^400] and at
    [2^-1100] it is, and [10^e < 8^e] for a negative [e]. *)
Definition binario_a_double (m e : Z) : double :=
  if m =? 0 then S754_zero false
  else if 1100 <? Z.log2 m + e then S754_infinity false
  else if Z.log2 m + 1 + e <? -1100 then S754_zero false
  else binary_normalize prec emax m e false.
Definition decimal_a_double (m e : Z) : double :=
  if m =? 0 then S754_zero false
  else if 400 <? e then S754_infinity false
  else if Z.log2 m + 1 + 3 * e <? -1100 then S754_zero false
  else if 0 <=? e then binary_normalize prec emax (m * 10 ^ e) 0 false
  else
    let '(q, e', l) := SFdiv_core_binary prec emax m 0 (10 ^ (- e)) 0 in
    binary_round_aux prec emax false q e' l.

Fixpoint valor_decimal (acc : Z) (s : string) : Z :=
  match s with "" => acc | String c s => valor_decimal (acc * 10 + digit_val c) s end.
Fixpoint valor_hexa (acc : Z) (s : string) : Z :=
  match s with "" => acc | String c s => valor_hexa (acc * 16 + xdigit_val c) s end.

Definition largo (s : string) : Z := Z.of_nat (String.length s).
Lemma largo_pos s : 0 <= largo s.
Proof. unfold largo. lia. Qed.
Lemma largo_app a b : largo (a +:+ b) = largo a + largo b.
Proof. unfold largo. rewrite length_app_s. lia. Qed.

(** An exponent part [[eE][+-]?digits] or [[pP][+-]?digits]; absent or malformed is 0. *)
Definition exponente (es_marca : ascii -> bool) (s : string) : Z :=
  match s with
  | String c r =>
      if es_marca c then
        let '(neg, r) := match r with
                         | String "-" r => (true, r)
                         | String "+" r => (false, r)
                         | _ => (false, r)
                         end in
        let '(ds, _) := abarcar isdigit r in
        if neg then - valor_decimal 0 ds else valor_decimal 0 ds
      else 0
  | "" => 0
  end.

Definition mantisa (p : ascii -> bool) (s : string) : string * string * string :=
  let '(ent, r) := abarcar p s in
  match r with
  | String "." r' => let '(frac, r'') := abarcar p r' in (ent, frac, r'')
  | _ => (ent, "", r)
  end.

(** [strtod] on a text without leading blanks or sign: [None] when no conversion is
    possible. *)
Definition strtod_sin_signo (s : string) : option double :=
  let low := mapa tolower s in
  if String.prefix "inf" low then Some (S754_infinity false)
  else if String.prefix "nan" low then Some S754_nan
  else
    let '(ent, frac, r) := mantisa isdigit s in
    let hexa :=
      if String.prefix "0x" low then
        let '(h1, h2, r) := mantisa isxdigit (saltear 2 s) in
        if (largo h1 + largo h2 =? 0) then None
        else Some (binario_a_double (valor_hexa 0 (h1 +:+ h2))
                     (exponente (fun c => Ascii.eqb (tolower c) "p"%char) r - 4 * largo h2))
      else None in
    match hexa with
    | Some d => Some d
    | None =>
        if largo ent + largo frac =? 0 then None
        else Some (decimal_a_double (valor_decimal 0 (ent +:+ frac))
                     (exponente (fun c => Ascii.eqb (tolower c) "e"%char) r - largo frac))
    end.

Definition strtod (s : string) : option double :=
  let '(_, s) := abarcar isspace s in
  match s with
  | String "-" r => SFopp <$> strtod_sin_signo r
  | String "+" r => strtod_sin_signo r
  | _ => strtod_sin_signo s
  end.

Definition atof (s : string) : double := default (S754_zero false) (strtod (c_str s)).
Definition sscanf_lf (s : string) : option double := strtod (c_str s).

(** ** Printing *)

(** Decimal digits of [n >= 0], least significant first, at most [fuel] of them. *)
Fixpoint digitos (fuel : nat) (n : Z) (acc : string) : string :=
  match fuel with
  | O => acc
  | S fuel =>
      let acc := String (chr (48 + n mod 10)) acc in
      if n / 10 =? 0 then acc else digitos fuel (n / 10) acc
  end.
Definition decimal (n : Z) : string := digitos (Z.to_nat (Z.log2 n) + 1) n "".

Definition ceros (n : Z) : string := String.concat "" (replicate (Z.to_nat n) "0").
Definition a_dos (n : Z) : string := if n <? 10 then "0" +:+ decimal n else decimal n.
Definition a_tres_blancos (n : Z) : string := if n <? 10 then "  " +:+ decimal n else " " +:+ decimal n.

(** [num * 10^k / den] rounded to nearest, ties to even. *)
Definition redondear (num den k : Z) : Z :=
  let '(num, den) := if 0 <=? k then (num * 10 ^ k, den) else (num, den * 10 ^ (- k)) in
  let q := num / den in
  let r := num mod den in
  if 2 * r <? den then q else if den <? 2 * r then q + 1 else if Z.even q then q else q + 1.

(** [floor (log10 (num / den))] for [num, den > 0]. *)
Fixpoint bajar (fuel : nat) (num den k : Z) : Z :=
  match fuel with
  | O => k
  | S fuel => if den <=? num then k else bajar fuel (num * 10) den (k - 1)
  end.
Definition log10_piso (num den : Z) : Z :=
  if den <=? num then Z.of_nat (String.length (decimal (num / den))) - 1
  else bajar 400 num den 0.

(** Removes the trailing zeros of a digit string. *)
Fixpoint sin_ceros (s : string) : string :=
  match s with
  | "" => ""
  | String c r =>
      match sin_ceros r with
      | "" => if Ascii.eqb c "0" then "" else String c ""
      | r' => String c r'
      end
  end.

Definition con_punto (ent frac : string) : string :=
  match sin_ceros frac with "" => ent | f => ent +:+ "." +:+ f end.

(** [printf("%.17g", x)] for a finite [x <> 0], [x = m * 2^e]. *)
Definition fmt_g17_finito (m e : Z) : string :=
  let '(num, den) := if 0 <=? e then (m * 2 ^ e, 1) else (m, 2 ^ (- e)) in
  let x0 := log10_piso num den in
  let q0 := redondear num den (16 - x0) in
  let '(q, x) := if 10 ^ 17 <=? q0 then (q0 / 10, x0 + 1) else (q0, x0) in
  let ds := decimal q in
  if (x <? -4) || (17 <=? x) then
    con_punto (prefijo 1 ds) (saltear 1 ds) +:+ "e" +:+ (if x <? 0 then "-" else "+") +:+
    a_dos (Z.abs x)
  else if x <? 0 then con_punto "0" (ceros (- x - 1) +:+ ds)
  else con_punto (prefijo (Z.to_nat (x + 1)) ds) (saltear (Z.to_nat (x + 1)) ds).

Definition fmt_g17 (d : double) : string :=
  match d with
  | S754_zero s => if s then "-0" else "0"
  | S754_infinity s => if s then "-inf" else "inf"
  | S754_nan => "nan"
  | S754_finite s m e => (if s then "-" else "") +:+ fmt_g17_finito (Zpos m) e
  end.

(** [vsnprintf(fmt)] with no further argument: ["%%"] prints ['%'], any other conversion
    reads an argument that does not exist, which is undefined. *)
Fixpoint printf0 (fmt : string) : res string :=
  match fmt with
  | "" => Ok ""
  | String "%" (String "%" r) => let? s := printf0 r in Ok (String "%" s)
  | String "%" _ => Fallo (Indefinido "printf: conversion without argument")
  | String c r => let? s := printf0 r in Ok (String c s)
  end.

Lemma printf0_id s : contiene "%"%char s = false -> printf0 s = Ok s.
Proof.
  induction s as [|c s IH]; [done|]. rewrite contiene_cons. intros [Hc Hs]%orb_false_elim.
  specialize (IH Hs). apply Ascii.eqb_neq in Hc.
  destruct c as [[][][][][][][][]]; cbn [printf0]; rewrite ?IH; try reflexivity; congruence.
Qed.

(** [sscanf(s, base "%s", id)] with [char id[n]]: the literal [base], blanks skipped, a
    non-empty run of non-blank characters that must fit with its terminator. *)
Fixpoint quitar_prefijo (p s : string) : option string :=
  match p, s with
  | "", _ => Some s
  | String a p, String b s => if Ascii.eqb a b then quitar_prefijo p s else None
  | String _ _, "" => None
  end.

Lemma quitar_prefijo_spec p s r : quitar_prefijo p s = Some r <-> s = p +:+ r.
Proof.
  revert s. induction p as [|a p IH]; intros s.
  - rewrite app_nil_l_s. cbn. split; congruence.
  - destruct s as [|b s]; cbn [quitar_prefijo]; rewrite app_cons_s; [done|].
    destruct (Ascii.eqb_spec a b) as [->|Hn].
    + rewrite IH. split; [by intros ->|by intros [= ->]].
    + split; [done|]. intros [= ? _]. congruence.
Qed.

Definition sscanf_s (s base : string) (n : nat) : res (option string) :=
  match quitar_prefijo base s with
  | None => Ok None
  | Some r =>
      let '(_, r) := abarcar isspace r in
      let '(w, _) := abarcar (fun c => negb (isspace c)) r in
      match w with
      | "" => Ok None
      | _ => if (String.length w <? n)%nat then Ok (Some w)
             else Fallo (Indefinido "sscanf: buffer overflow")
      end
  end.

(** [std::getline(stream, item, delim)]: the item and the rest of the stream; [None] when
    the stream is at its end. *)
Fixpoint getline (delim : ascii) (s : string) : option (string * string) :=
  match s with
  | "" => None
  | String c r =>
      if Ascii.eqb c delim then Some ("", r)
      else match getline delim r with
           | Some (item, rest) => Some (String c item, rest)
           | None => Some (String c "", "")
           end
  end.

Lemma getline_sep d a b : contiene d a = false -> getline d (a +:+ String d b) = Some (a, b).
Proof.
  induction a as [|c a IH]; intros Ha.
  - rewrite app_nil_l_s. cbn. by rewrite Ascii.eqb_refl.
  - rewrite contiene_cons in Ha. partir. rewrite app_cons_s. cbn [getline].
    rewrite Ascii.eqb_sym, H. by rewrite IH.
Qed.

Lemma getline_fin d a : contiene d a = false -> a <> "" -> getline d a = Some (a, "").
Proof.
  induction a as [|c a IH]; intros Ha Hne; [done|]. rewrite contiene_cons in Ha. partir.
  cbn [getline]. rewrite Ascii.eqb_sym, H. destruct a as [|c' a]; [done|]. by rewrite IH.
Qed.

Lemma getline_corta d s item r : getline d s = Some (item, r) -> (String.length r < String.length s)%nat.
Proof.
  revert item r. induction s as [|c s IH]; intros item r; cbn [getline]; [done|].
  destruct (Ascii.eqb c d); [intros [= <- <-]; cbn; lia|].
  destruct (getline d s) as [[i r']|] eqn:E; intros [= <- <-]; cbn; [|lia].
  specialize (IH _ _ eq_refl). lia.
Qed.

(** [istringstream >> int] of a NUL-terminated text: 0 when there is no number, the
    nearest bound when it is out of range. *)
Definition leer_int (s : string) : Z :=
  let '(_, s) := abarcar isspace s in
  let '(neg, s) := match s with
                   | String "-" r => (true, r)
                   | String "+" r => (false, r)
                   | _ => (false, s)
                   end in
  let '(ds, _) := abarcar isdigit s in
  let v := valor_decimal 0 ds in
  let v := if neg : bool then - v else v in
  Z.max (- 2 ^ 31) (Z.min (2 ^ 31 - 1) v).

(** [strtoll(s, NULL, 10)]: the nearest bound when the number is out of range. *)
Definition strtoll (s : string) : Z :=
  let '(_, s) := abarcar isspace s in
  let '(neg, s) := match s with
                   | String "-" r => (true, r)
                   | String "+" r => (false, r)
                   | _ => (false, s)
                   end in
  let '(ds, _) := abarcar isdigit s in
  let v := valor_decimal 0 ds in
  let v := if neg : bool then - v else v in
  Z.max (- 2 ^ 63) (Z.min (2 ^ 63 - 1) v).

(** The conversion of a wider integer to [int]. *)
Definition a_int (z : Z) : Z := (z + 2 ^ 31) mod 2 ^ 32 - 2 ^ 31.
Lemma a_int_id z : - 2 ^ 31 <= z < 2 ^ 31 -> a_int z = z.
Proof. intros H. unfold a_int. rewrite Z.mod_small; lia. Qed.

(** [atoi(s)]: the number as a [long], converted to [int]. *)
Definition atoi (s : string) : Z := (strtoll s + 2 ^ 31) mod 2 ^ 32 - 2 ^ 31.

Lemma strtoll_rango s : - 2 ^ 63 <= strtoll s <= 2 ^ 63 - 1.
Proof. unfold strtoll. repeat caso; lia. Qed.

(** ** Calendar *)

(** The broken-down time [localtime] returns. *)
Record tm : Type := mkTm {
  tm_sec : Z; tm_min : Z; tm_hour : Z; tm_mday : Z; tm_mon : Z; tm_year : Z; tm_wday : Z }.

Definition dias : list string := ["Sun"; "Mon"; "Tue"; "Wed"; "Thu"; "Fri"; "Sat"].
Definition meses : list string :=
  ["Jan"; "Feb"; "Mar"; "Apr"; "May"; "Jun"; "Jul"; "Aug"; "Sep"; "Oct"; "Nov"; "Dec"].
Definition LF : string := String "010"%char "".

(** [asctime]: ["Www Mmm dd hh:mm:ss yyyy\n"]. *)
Definition asctime (t : tm) : string :=
  nth (Z.to_nat (tm_wday t)) dias "???" +:+ " " +:+ nth (Z.to_nat (tm_mon t)) meses "???" +:+
  a_tres_blancos (tm_mday t) +:+ " " +:+ a_dos (tm_hour t) +:+ ":" +:+ a_dos (tm_min t) +:+ ":" +:+
  a_dos (tm_sec t) +:+ " " +:+ decimal (1900 + tm_year t) +:+ LF.

(** [strftime(buf, 30, "%d/%m/%y, %Rhs", t)] *)
Definition strftime_dmy (t : tm) : string :=
  a_dos (tm_mday t) +:+ "/" +:+ a_dos (tm_mon t + 1) +:+ "/" +:+ a_dos (tm_year t mod 100) +:+ ", " +:+
  a_dos (tm_hour t) +:+ ":" +:+ a_dos (tm_min t) +:+ "hs".

(** What is printed in decimal has digits only, whatever the number. *)
Lemma digitos_isdigit fuel n acc : todos isdigit acc = true -> todos isdigit (digitos fuel n acc) = true.
Proof.
  revert n acc. induction fuel as [|fuel IH]; intros n acc Ha; [done|]. cbn [digitos].
  pose proof (Z.mod_pos_bound n 10 ltac:(lia)).
  assert (isdigit (chr (48 + n mod 10)) = true) as Hd.
  { unfold isdigit, en_rango. rewrite byte_chr, Z.mod_small by lia.
    apply andb_true_intro. split; apply Z.leb_le; lia. }
  assert (todos isdigit (String (chr (48 + n mod 10)) acc) = true) as H' by (cbn; by rewrite Hd, Ha).
  destruct (n / 10 =? 0); [done|by apply IH].
Qed.

Lemma a_dos_sin c n : isdigit c = false -> contiene c (a_dos n) = false.
Proof.
  intros Hc. unfold a_dos. assert (contiene c (decimal n) = false) as Hd.
  { apply (todos_no_contiene isdigit); [done|]. by apply digitos_isdigit. }
  destruct (n <? 10); [|done]. rewrite contiene_app, Hd, contiene_cons, orb_false_r.
  destruct (Ascii.eqb_spec c "0"); [by subst c|done].
Qed.

Lemma strftime_sin_formato t : contiene "%" (strftime_dmy t) = false.
Proof. unfold strftime_dmy. by rewrite !contiene_app, !a_dos_sin. Qed.

End Libc.
