(* ===== verification/Escaneo.v ===== *)
(** * Escaneo: [sscanf] with the directives that src/WebServer/mongoose.c uses *)

From S2P Require Import Prelude Libc.
Open Scope Z_scope.

Module Escaneo.
Import Libc.

Inductive directiva : Type :=
| Entero (con_signo : bool)           (* %d and %u *)
| Letra (c : ascii)                   (* a character of the format *)
| Tramo (ancho : nat) (fin : string)  (* %<ancho>[^<fin>] *)
| Palabra (ancho : nat) (guarda : bool) (* %<ancho>s and %*<ancho>s *)
| Blanco.                             (* a blank of the format *)

(** What a conversion stores. *)
Inductive dato : Type := DZ (z : Z) | DS (s : string).

Fixpoint tomar (n : nat) (fin s : string) : string * string :=
  match n, s with
  | S n, String c r => if contiene c fin then ("", s) else let '(a, b) := tomar n fin r in (String c a, b)
  | _, _ => ("", s)
  end.

Fixpoint tomar_palabra (n : nat) (s : string) : string * string :=
  match n, s with
  | S n, String c r => if isspace c then ("", s) else let '(a, b) := tomar_palabra n r in (String c a, b)
  | _, _ => ("", s)
  end.

(** [%u] gives a negative number modulo [2^32].  A number outside the type of the argument is
    undefined. *)
Definition leer_entero (con_signo : bool) (s : string) : res (option (Z * string)) :=
  let '(_, s) := abarcar isspace s in
  let '(neg, s) := match s with
                   | String "-" r => (true, r)
                   | String "+" r => (false, r)
                   | _ => (false, s)
                   end in
  let '(ds, r) := abarcar isdigit s in
  if String.eqb ds "" then Ok None
  else
    let v := valor_decimal 0 ds in
    let limite := if con_signo then (if neg then 2 ^ 31 else 2 ^ 31 - 1) else 2 ^ 32 - 1 in
    if limite <? v then Fallo (Indefinido "sscanf: number out of range")
    else Ok (Some (if neg then (if con_signo then - v else (- v) mod 2 ^ 32) else v, r)).

(** [None] when a directive fails; otherwise what was stored and the text after the match,
    which gives the value of a final [%n]. *)
Fixpoint sscanf (fmt : list directiva) (s : string) : res (option (list dato * string)) :=
  match fmt with
  | [] => Ok (Some ([], s))
  | d :: fmt =>
      let sigue (x : list dato) (r : string) :=
        let? o := sscanf fmt r in Ok ((fun '(l, r') => (x ++ l, r')) <$> o) in
      match d with
      | Entero con_signo =>
          let? o := leer_entero con_signo s in
          match o with Some (z, r) => sigue [DZ z] r | None => Ok None end
      | Letra c =>
          match s with
          | String c' r => if Ascii.eqb c c' then sigue [] r else Ok None
          | "" => Ok None
          end
      | Tramo ancho fin =>
          let '(a, r) := tomar ancho fin s in
          if String.eqb a "" then Ok None else sigue [DS a] r
      | Palabra ancho guarda =>
          let '(a, r) := tomar_palabra ancho (snd (abarcar isspace s)) in
          if String.eqb a "" then Ok None else sigue (if guarda then [DS a] else []) r
      | Blanco => sigue [] (snd (abarcar isspace s))
      end
  end.
Definition n_leidos (s r : string) : nat := String.length s - String.length r.

(** ** Reading what was printed *)

(** A number in decimal is read whole. *)
Lemma leer_entero_ok ds r : ds <> "" -> todos isdigit ds = true -> valor_decimal 0 ds < 2 ^ 31 ->
  match r with "" => true | String c _ => negb (isdigit c) end = true ->
  leer_entero true (ds +:+ r) = Ok (Some (valor_decimal 0 ds, r)).
Proof.
  intros Hne Hd Hv Hr. pose proof (abarcar_exacto isdigit ds r Hd Hr) as Ha. unfold leer_entero.
  destruct ds as [|c ds]; [done|]. rewrite app_cons_s in *. cbn [todos] in Hd. apply andb_prop in Hd as [Hc _].
  assert (abarcar isspace (String c (ds +:+ r)) = ("", String c (ds +:+ r))) as ->.
  { cbn [abarcar]. assert (isspace c = false) as -> by (by destruct c as [[][][][][][][][]]). done. }
  assert (forall x, match String c x with String "-" r => (true, r) | String "+" r => (false, r) | _ => (false, String c x) end =
    (false, String c x)) as -> by (intros; by destruct c as [[][][][][][][][]]).
  rewrite Ha. cbn [String.eqb]. destruct (Z.ltb_spec (2 ^ 31 - 1) (valor_decimal 0 (String c ds))); [lia|done].
Qed.

(** A word that is as long as the width is read whole. *)
Lemma palabra_ok a r : todos (fun c => negb (isspace c)) a = true -> tomar_palabra (String.length a) (a +:+ r) = (a, r).
Proof.
  induction a as [|c a IH]; [done|]. cbn [todos]. intros [Hc Ha]%andb_prop. rewrite app_cons_s. cbn [String.length tomar_palabra].
  apply negb_true_iff in Hc. by rewrite Hc, IH.
Qed.

Lemma sin_blancos c r : isspace c = false -> snd (abarcar isspace (String c r)) = String c r.
Proof. intros H. cbn [abarcar]. by rewrite H. Qed.

(** A run of characters is read up to one that ends it. *)
Lemma tomar_fin n fin s r : (String.length s < n)%nat -> todos (fun c => negb (contiene c fin)) s = true ->
  match r with String c _ => contiene c fin = true | "" => True end -> tomar n fin (s +:+ r) = (s, r).
Proof.
  revert n. induction s as [|c s IH]; intros n Hn Hs Hr; cbn [String.length] in Hn; (destruct n as [|n]; [lia|]).
  - rewrite app_nil_l_s. destruct r as [|c r]; [done|]. cbn [tomar]. by rewrite Hr.
  - rewrite app_cons_s. cbn [tomar todos] in *. apply andb_prop in Hs as [Hc Hs]. apply negb_true_iff in Hc. rewrite Hc, IH by (done || lia). done.
Qed.

End Escaneo.
