(* ===== verification/Md5.v ===== *)
(** * Md5: the MD5 class of src/Utilidades/md5.cpp

    The class state is the record [MD5]; [init], [decode], [encode], [transform],
    [update], [finalize], [hexdigest] and [md5] follow the member functions of the
    same name, with 32-bit wrap-around written out ([u32]).  The second half of the
    file proves that the incremental, buffered, unrolled implementation computes RFC 1321, as
    [Rfc1321] states it. *)

From S2P Require Import Prelude Bloques Rfc1321.
Open Scope Z_scope.

Module Md5.

Definition S11 : Z := 7.
Definition S12 : Z := 12.
Definition S13 : Z := 17.
Definition S14 : Z := 22.
Definition S21 : Z := 5.
Definition S22 : Z := 9.
Definition S23 : Z := 14.
Definition S24 : Z := 20.
Definition S31 : Z := 4.
Definition S32 : Z := 11.
Definition S33 : Z := 16.
Definition S34 : Z := 23.
Definition S41 : Z := 6.
Definition S42 : Z := 10.
Definition S43 : Z := 15.
Definition S44 : Z := 21.

Definition blocksize : Z := 64.

Definition F (x y z : Z) : Z := Z.lor (Z.land x y) (Z.land (lnot32 x) z).
Definition G (x y z : Z) : Z := Z.lor (Z.land x z) (Z.land y (lnot32 z)).
Definition H (x y z : Z) : Z := Z.lxor (Z.lxor x y) z.
Definition I (x y z : Z) : Z := Z.lxor y (Z.lor x (lnot32 z)).

Definition rotate_left (x n : Z) : Z := rol32 x n.

Definition FF (a b c d x s ac : Z) : Z :=
  u32 (rotate_left (u32 (a + F b c d + x + ac)) s + b).
Definition GG (a b c d x s ac : Z) : Z :=
  u32 (rotate_left (u32 (a + G b c d + x + ac)) s + b).
Definition HH (a b c d x s ac : Z) : Z :=
  u32 (rotate_left (u32 (a + H b c d + x + ac)) s + b).
Definition II (a b c d x s ac : Z) : Z :=
  u32 (rotate_left (u32 (a + I b c d + x + ac)) s + b).

(** [uint4 state[4]] *)
Definition estado : Type := Z * Z * Z * Z.

Record MD5 : Type := mkMD5 {
  finalized : bool;
  buffer : list Z;      (* uint1 buffer[blocksize] *)
  count0 : Z;           (* uint4 count[2] *)
  count1 : Z;
  state : estado;
  digest : list Z       (* uint1 digest[16] *)
}.

Definition init (m : MD5) : MD5 :=
  mkMD5 false (buffer m) 0 0
        (0x67452301, 0xefcdab89, 0x98badcfe, 0x10325476) (digest m).

Fixpoint decode (input : list Z) : list Z :=
  match input with
  | i0 :: i1 :: i2 :: i3 :: input =>
      Z.lor (Z.lor (Z.lor i0 (Z.shiftl i1 8)) (Z.shiftl i2 16)) (Z.shiftl i3 24)
      :: decode input
  | _ => []
  end.

Fixpoint encode (input : list Z) : list Z :=
  match input with
  | [] => []
  | w :: input =>
      Z.land w 0xff :: Z.land (Z.shiftr w 8) 0xff ::
      Z.land (Z.shiftr w 16) 0xff :: Z.land (Z.shiftr w 24) 0xff :: encode input
  end.

(** The local variables [a], [b], [c], [d] of [transform]; a call
    [FF (a, b, c, d, x[k], s, ac)] updates its first argument in place. *)
Inductive reg : Type := ra | rb | rc | rd.
Definition get (r : reg) (v : estado) : Z :=
  let '(a, b, c, d) := v in
  match r with ra => a | rb => b | rc => c | rd => d end.
Definition set (r : reg) (z : Z) (v : estado) : estado :=
  let '(a, b, c, d) := v in
  match r with
  | ra => (z, b, c, d) | rb => (a, z, c, d) | rc => (a, b, z, d) | rd => (a, b, c, z)
  end.
Inductive llamada : Type :=
| Llamada (f : Z -> Z -> Z -> Z -> Z -> Z -> Z -> Z) (a b c d : reg) (k : nat) (s ac : Z).
Definition ejecutar (x : list Z) (v : estado) (l : llamada) : estado :=
  let 'Llamada f a b c d k s ac := l in
  set a (f (get a v) (get b v) (get c v) (get d v) (nth k x 0) s ac) v.

Definition cuerpo_transform : list llamada := [
  (* Round 1 *)
  Llamada FF ra rb rc rd 0 S11 0xd76aa478;
  Llamada FF rd ra rb rc 1 S12 0xe8c7b756;
  Llamada FF rc rd ra rb 2 S13 0x242070db;
  Llamada FF rb rc rd ra 3 S14 0xc1bdceee;
  Llamada FF ra rb rc rd 4 S11 0xf57c0faf;
  Llamada FF rd ra rb rc 5 S12 0x4787c62a;
  Llamada FF rc rd ra rb 6 S13 0xa8304613;
  Llamada FF rb rc rd ra 7 S14 0xfd469501;
  Llamada FF ra rb rc rd 8 S11 0x698098d8;
  Llamada FF rd ra rb rc 9 S12 0x8b44f7af;
  Llamada FF rc rd ra rb 10 S13 0xffff5bb1;
  Llamada FF rb rc rd ra 11 S14 0x895cd7be;
  Llamada FF ra rb rc rd 12 S11 0x6b901122;
  Llamada FF rd ra rb rc 13 S12 0xfd987193;
  Llamada FF rc rd ra rb 14 S13 0xa679438e;
  Llamada FF rb rc rd ra 15 S14 0x49b40821;
  (* Round 2 *)
  Llamada GG ra rb rc rd 1 S21 0xf61e2562;
  Llamada GG rd ra rb rc 6 S22 0xc040b340;
  Llamada GG rc rd ra rb 11 S23 0x265e5a51;
  Llamada GG rb rc rd ra 0 S24 0xe9b6c7aa;
  Llamada GG ra rb rc rd 5 S21 0xd62f105d;
  Llamada GG rd ra rb rc 10 S22 0x2441453;
  Llamada GG rc rd ra rb 15 S23 0xd8a1e681;
  Llamada GG rb rc rd ra 4 S24 0xe7d3fbc8;
  Llamada GG ra rb rc rd 9 S21 0x21e1cde6;
  Llamada GG rd ra rb rc 14 S22 0xc33707d6;
  Llamada GG rc rd ra rb 3 S23 0xf4d50d87;
  Llamada GG rb rc rd ra 8 S24 0x455a14ed;
  Llamada GG ra rb rc rd 13 S21 0xa9e3e905;
  Llamada GG rd ra rb rc 2 S22 0xfcefa3f8;
  Llamada GG rc rd ra rb 7 S23 0x676f02d9;
  Llamada GG rb rc rd ra 12 S24 0x8d2a4c8a;
  (* Round 3 *)
  Llamada HH ra rb rc rd 5 S31 0xfffa3942;
  Llamada HH rd ra rb rc 8 S32 0x8771f681;
  Llamada HH rc rd ra rb 11 S33 0x6d9d6122;
  Llamada HH rb rc rd ra 14 S34 0xfde5380c;
  Llamada HH ra rb rc rd 1 S31 0xa4beea44;
  Llamada HH rd ra rb rc 4 S32 0x4bdecfa9;
  Llamada HH rc rd ra rb 7 S33 0xf6bb4b60;
  Llamada HH rb rc rd ra 10 S34 0xbebfbc70;
  Llamada HH ra rb rc rd 13 S31 0x289b7ec6;
  Llamada HH rd ra rb rc 0 S32 0xeaa127fa;
  Llamada HH rc rd ra rb 3 S33 0xd4ef3085;
  Llamada HH rb rc rd ra 6 S34 0x4881d05;
  Llamada HH ra rb rc rd 9 S31 0xd9d4d039;
  Llamada HH rd ra rb rc 12 S32 0xe6db99e5;
  Llamada HH rc rd ra rb 15 S33 0x1fa27cf8;
  Llamada HH rb rc rd ra 2 S34 0xc4ac5665;
  (* Round 4 *)
  Llamada II ra rb rc rd 0 S41 0xf4292244;
  Llamada II rd ra rb rc 7 S42 0x432aff97;
  Llamada II rc rd ra rb 14 S43 0xab9423a7;
  Llamada II rb rc rd ra 5 S44 0xfc93a039;
  Llamada II ra rb rc rd 12 S41 0x655b59c3;
  Llamada II rd ra rb rc 3 S42 0x8f0ccc92;
  Llamada II rc rd ra rb 10 S43 0xffeff47d;
  Llamada II rb rc rd ra 1 S44 0x85845dd1;
  Llamada II ra rb rc rd 8 S41 0x6fa87e4f;
  Llamada II rd ra rb rc 15 S42 0xfe2ce6e0;
  Llamada II rc rd ra rb 6 S43 0xa3014314;
  Llamada II rb rc rd ra 13 S44 0x4e0811a1;
  Llamada II ra rb rc rd 4 S41 0xf7537e82;
  Llamada II rd ra rb rc 11 S42 0xbd3af235;
  Llamada II rc rd ra rb 2 S43 0x2ad7d2bb;
  Llamada II rb rc rd ra 9 S44 0xeb86d391
].

Definition transform (st : estado) (block : list Z) : estado :=
  let '(s0, s1, s2, s3) := st in
  let x := decode block in
  let '(a, b, c, d) := foldl (ejecutar x) st cuerpo_transform in
  (u32 (s0 + a), u32 (s1 + b), u32 (s2 + c), u32 (s3 + d)).

(** [for (i = firstpart; i + blocksize <= length; i += blocksize) transform(&input[i]);] *)
Fixpoint bloques (fuel : nat) (i len : Z) (st : estado) (input : list Z) : estado * Z :=
  match fuel with
  | O => (st, i)
  | S fuel =>
      if u32 (i + blocksize) <=? len
      then bloques fuel (u32 (i + blocksize)) len
             (transform st (take (Z.to_nat blocksize) (drop (Z.to_nat i) input))) input
      else (st, i)
  end.

Definition update (m : MD5) (input : list Z) : MD5 :=
  let len := u32 (Z.of_nat (length input)) in
  let index := count0 m / 8 mod blocksize in
  let bits := u32 (Z.shiftl len 3) in
  let c0 := u32 (count0 m + bits) in
  let c1 := if c0 <? bits then u32 (count1 m + 1) else count1 m in
  let c1 := u32 (c1 + Z.shiftr len 29) in
  let firstpart := 64 - index in
  if firstpart <=? len then
    let buf := memcpy (buffer m) index (take (Z.to_nat firstpart) input) in
    let st := transform (state m) buf in
    let '(st, i) := bloques (length input) firstpart len st input in
    mkMD5 (finalized m) (memcpy buf 0 (drop (Z.to_nat i) input)) c0 c1 st (digest m)
  else
    mkMD5 (finalized m) (memcpy (buffer m) index input) c0 c1 (state m) (digest m).

Definition padding : list Z := 0x80 :: replicate 63 0.

Definition palabras (st : estado) : list Z :=
  let '(a, b, c, d) := st in [a; b; c; d].

Definition finalize (m : MD5) : MD5 :=
  if finalized m then m else
  let bits := encode [count0 m; count1 m] in
  let index := count0 m / 8 mod 64 in
  let padLen := if index <? 56 then 56 - index else 120 - index in
  let m := update m (take (Z.to_nat padLen) padding) in
  let m := update m bits in
  mkMD5 true (replicate 64 0) 0 0 (state m) (encode (palabras (state m))).

(** [sprintf(buf, "%02x", b)] for a byte [b]. *)
Definition hex_digit (n : Z) : ascii :=
  if n <? 10 then chr (48 + n) else chr (87 + n).
Definition hex02 (b : Z) : string :=
  String (hex_digit (b / 16)) (String (hex_digit (b mod 16)) "").
Fixpoint hex_bytes (bs : list Z) : string :=
  match bs with [] => "" | b :: bs => hex02 b +:+ hex_bytes bs end.

Definition hexdigest (m : MD5) : string :=
  if finalized m then hex_bytes (digest m) else "".

(** The constructor [MD5(text)] on the uninitialised object [basura]. *)
Definition MD5_text (basura : MD5) (text : string) : MD5 :=
  finalize (update (init basura) (bytes_of text)).

(** [md5(str)] on an object whose storage holds [basura]. *)
Definition md5_en (basura : MD5) (str : string) : string :=
  hexdigest (MD5_text basura str).

Definition memoria_cero : MD5 := mkMD5 false (replicate 64 0) 0 0 (0, 0, 0, 0) (replicate 16 0).
Definition md5 (str : string) : string := md5_en memoria_cero str.

End Md5.

(** ** The algorithm with the functions of the code

    A step between the code and [Rfc]: rounds, blocks and padding as in the RFC, on the
    auxiliary functions of the code. *)
Module Calculo.
Import Md5.

Definition paso (f : Z -> Z -> Z -> Z) (x : list Z) (st : estado) (ksi : nat * Z * Z) : estado :=
  let '(a, b, c, d) := st in
  let '(k, s, t) := ksi in
  (d, u32 (b + rotate_left (u32 (a + f b c d + nth k x 0 + t)) s), b, c).

Definition rondas (x : list Z) (st : estado) : estado :=
  foldl (paso I x) (foldl (paso H x) (foldl (paso G x) (foldl (paso F x) st
    Rfc.ronda1) Rfc.ronda2) Rfc.ronda3) Rfc.ronda4.

Definition sumar (st r : estado) : estado :=
  let '(a, b, c, d) := st in
  let '(a', b', c', d') := r in
  (u32 (a + a'), u32 (b + b'), u32 (c + c'), u32 (d + d')).

Definition bloque (st : estado) (block : list Z) : estado :=
  sumar st (rondas (decode block) st).

Definition md5 (msg : list Z) : list Z :=
  let p := Rfc.rellenar msg in
  encode (palabras (procesar bloque (length p / 64) Rfc.iv p)).
End Calculo.

(** ** The code computes RFC 1321 *)
Module Md5Correcto.
Import Md5.

(** One rotating operation of the RFC against one call of the code. *)
Definition paso_ok (f : Z -> Z -> Z -> Z) (ff : Z -> Z -> Z -> Z -> Z -> Z -> Z -> Z) : Prop :=
  forall x a b c d k s t,
    Calculo.paso f x (a, b, c, d) (k, s, t) = (d, ff a b c d (nth k x 0) s t, b, c).

Lemma paso_FF : paso_ok F FF.
Proof. intros x a b c d k s t. unfold Calculo.paso, FF. by rewrite (Z.add_comm b). Qed.
Lemma paso_GG : paso_ok G GG.
Proof. intros x a b c d k s t. unfold Calculo.paso, GG. by rewrite (Z.add_comm b). Qed.
Lemma paso_HH : paso_ok H HH.
Proof. intros x a b c d k s t. unfold Calculo.paso, HH. by rewrite (Z.add_comm b). Qed.
Lemma paso_II : paso_ok I II.
Proof. intros x a b c d k s t. unfold Calculo.paso, II. by rewrite (Z.add_comm b). Qed.

(** Four unrolled calls with rotated names are four rotating operations. *)
Lemma cuatro_llamadas f ff x v k0 s0 t0 k1 s1 t1 k2 s2 t2 k3 s3 t3 resto :
  paso_ok f ff ->
  foldl (ejecutar x) v
    (Llamada ff ra rb rc rd k0 s0 t0 :: Llamada ff rd ra rb rc k1 s1 t1 ::
     Llamada ff rc rd ra rb k2 s2 t2 :: Llamada ff rb rc rd ra k3 s3 t3 :: resto) =
  foldl (ejecutar x)
    (foldl (Calculo.paso f x) v [(k0, s0, t0); (k1, s1, t1); (k2, s2, t2); (k3, s3, t3)]) resto.
Proof. intros Hp. destruct v as [[[a b] c] d]. cbn [foldl]. by rewrite !Hp. Qed.

Lemma cuerpo_rondas x v : foldl (ejecutar x) v cuerpo_transform = Calculo.rondas x v.
Proof.
  unfold cuerpo_transform, Calculo.rondas.
  do 4 rewrite (cuatro_llamadas F FF) by exact paso_FF.
  do 4 rewrite (cuatro_llamadas G GG) by exact paso_GG.
  do 4 rewrite (cuatro_llamadas H HH) by exact paso_HH.
  do 4 rewrite (cuatro_llamadas I II) by exact paso_II.
  reflexivity.
Qed.

Lemma transform_bloque st block : transform st block = Calculo.bloque st block.
Proof.
  unfold transform, Calculo.bloque, Calculo.sumar. destruct st as [[[s0 s1] s2] s3].
  by rewrite cuerpo_rondas.
Qed.

(** ** Absorbing the message block by block *)

(** What the object remembers of the bytes it was fed. *)
Definition Absorbe (m : MD5) (msg : list Z) : Prop :=
  finalized m = false /\ Absorbido Calculo.bloque Rfc.iv (state m) (buffer m) msg /\
  count0 m = u32 (8 * Z.of_nat (length msg)) /\
  count1 m = u32 (8 * Z.of_nat (length msg) / 2 ^ 32).

Lemma init_absorbe m : length (buffer m) = 64%nat -> Absorbe (init m) [].
Proof. intros H. split; [done|]. split; [by apply absorbido_vacio|done]. Qed.

Lemma bloques_nat (r : nat) st input :
  (r < 64)%nat -> (64 - r <= length input)%nat -> Z.of_nat (length input) < 2 ^ 32 - 64 ->
  let k := ((length input - (64 - r)) / 64)%nat in
  bloques (length input) (64 - Z.of_nat r) (Z.of_nat (length input)) st input =
  (procesar Calculo.bloque k st (drop (64 - r) input), Z.of_nat (64 - r + 64 * k)).
Proof.
  intros Hr Hi Hl.
  apply (bucle_bloques Calculo.bloque (fun fuel i st => bloques fuel i (Z.of_nat (length input)) st input)); try done.
  - intros fuel i st' H0 H1. cbn [bloques]. unfold blocksize. rewrite u32_small, transform_bloque by lia.
    destruct (Z.leb_spec (i + 64) (Z.of_nat (length input))); [done|lia].
  - intros [|fuel] i st' H0 H1; [done|]. cbn [bloques]. unfold blocksize. rewrite u32_small by lia.
    destruct (Z.leb_spec (i + 64) (Z.of_nat (length input))); [lia|done].
Qed.

Lemma update_absorbe m msg input :
  Absorbe m msg -> Z.of_nat (length input) < 2 ^ 32 - 64 -> Absorbe (update m input) (msg ++ input).
Proof.
  intros (Hf & HA & Hc0 & Hc1) Hl.
  pose proof (Nat.mod_upper_bound (length msg) 64 ltac:(lia)) as Hr.
  unfold update, blocksize. rewrite (u32_small (Z.of_nat (length input))), Hc0, Hc1 by lia.
  rewrite indice_ok.
  destruct (contador_ok (8 * Z.of_nat (length msg)) (Z.of_nat (length input)) _ ltac:(lia) ltac:(lia)
    (or_introl eq_refl)) as [Ec0 Ec1].
  replace (8 * Z.of_nat (length msg) + 8 * Z.of_nat (length input))
    with (8 * Z.of_nat (length (msg ++ input))) in Ec0, Ec1 by (rewrite length_app; lia).
  set (r := (length msg mod 64)%nat) in *.
  destruct (Z.leb_spec (64 - Z.of_nat r) (Z.of_nat (length input))) as [Hge|Hlt].
  - replace (Z.to_nat (64 - Z.of_nat r)) with (64 - r)%nat by lia.
    rewrite bloques_nat, transform_bloque by lia. split; [done|]. split; [|done].
    cbn [state buffer]. rewrite Nat2Z.id. apply absorbe_pasa; [done|]. fold r. lia.
  - split; [done|]. split; [|done]. apply absorbe_cabe; [done|]. fold r. lia.
Qed.

(** ** Padding, the length field and the digest *)

Lemma encode_palabra z resto :
  encode (u32 z :: resto) =
  z mod 256 :: (z / 2 ^ 8) mod 256 :: (z / 2 ^ 16) mod 256 :: (z / 2 ^ 24) mod 256 :: encode resto.
Proof.
  cbn [encode]. rewrite !byte_de_palabra by lia.
  pose proof (byte_de_palabra z 0 ltac:(lia)) as E. rewrite Z.shiftr_0_r in E.
  rewrite E. by rewrite Z.pow_0_r, Z.div_1_r.
Qed.

Lemma longitud_ok len :
  encode [u32 (8 * Z.of_nat len); u32 (8 * Z.of_nat len / 2 ^ 32)] = Rfc.longitud64 len.
Proof.
  rewrite !encode_palabra. unfold Rfc.longitud64. cbn [seq fmap list_fmap encode].
  generalize (8 * Z.of_nat len). intros z.
  rewrite !Z.div_div by lia. rewrite <- !Z.pow_add_r by lia.
  change (2 ^ (8 * Z.of_nat 0)) with 1. by rewrite Z.div_1_r.
Qed.

Lemma relleno_ok len :
  let index := Z.of_nat (len mod 64) in
  take (Z.to_nat (if index <? 56 then 56 - index else 120 - index)) padding =
  0x80 :: replicate (relleno len) 0.
Proof.
  intros index. unfold index. rewrite relleno_index, Nat2Z.id. unfold padding. cbn [take]. f_equal.
  rewrite take_replicate. f_equal. pose proof (relleno_lt len). lia.
Qed.

Lemma length_encode ws : length (encode ws) = (4 * length ws)%nat.
Proof. induction ws as [|w ws IH]; [done|]. cbn [encode length]. rewrite IH. lia. Qed.

Lemma finalize_absorbe m msg :
  Absorbe m msg ->
  finalize m = mkMD5 true (replicate 64 0) 0 0 (state (finalize m)) (Calculo.md5 msg).
Proof.
  intros HA. pose proof HA as (Hf & _ & Hc0 & Hc1).
  unfold finalize. rewrite Hf. cbn [finalized state]. f_equal.
  rewrite Hc0, Hc1, indice_ok, relleno_ok, longitud_ok.
  assert (Absorbe (update (update m (0x80 :: replicate (relleno (length msg)) 0))
                          (Rfc.longitud64 (length msg))) (Rfc.rellenar msg)) as HF.
  { unfold Rfc.rellenar. rewrite app_comm_cons, app_assoc. apply update_absorbe.
    - apply update_absorbe; [done|]. cbn [length]. rewrite length_replicate.
      pose proof (relleno_lt (length msg)). lia.
    - unfold Rfc.longitud64. rewrite length_fmap, length_seq. lia. }
  destruct HF as (_ & HF & _). by rewrite (absorbido_multiplo _ _ _ _ _ HF).
Qed.


(** ** The functions of the code are those of the RFC *)

Lemma complemento_ok x : lnot32 x = Rfc.complemento x.
Proof.
  unfold lnot32, u32, Rfc.complemento, Z.lnot. pose proof (Z.mod_pos_bound x (2 ^ 32) ltac:(lia)) as Hx.
  symmetry. apply Z.mod_unique_pos with (q := - (x / 2 ^ 32) - 1); [lia|]. pose proof (Z.div_mod x (2 ^ 32)). lia.
Qed.
Lemma F_ok x y z : F x y z = Rfc.F x y z.
Proof. unfold F, Rfc.F. by rewrite complemento_ok. Qed.
Lemma G_ok x y z : G x y z = Rfc.G x y z.
Proof. unfold G, Rfc.G. by rewrite complemento_ok. Qed.
Lemma H_ok x y z : H x y z = Rfc.H x y z.
Proof. apply Z.lxor_assoc. Qed.
Lemma I_ok x y z : I x y z = Rfc.I x y z.
Proof. unfold I, Rfc.I. by rewrite complemento_ok. Qed.

Lemma rotar_ok x s : 0 <= x < 2 ^ 32 -> 0 <= s <= 32 -> rotate_left x s = Rfc.rotar x s.
Proof.
  intros Hx Hs. unfold rotate_left, rol32, Rfc.rotar, u32. rewrite <- Z.shiftl_mul_pow2, <- Z.shiftr_div_pow2 by lia.
  assert (Z.land (Z.shiftl x s mod 2 ^ 32) (Z.shiftr x (32 - s)) = 0) as E.
  { apply Z.bits_inj'. intros n Hn. rewrite Z.land_spec, Z.bits_0, Z.shiftr_spec by lia.
    destruct (Z_lt_le_dec n s) as [Hlt|Hge].
    - destruct (Z_lt_le_dec n 32); [|by rewrite Z.mod_pow2_bits_high by lia].
      rewrite Z.mod_pow2_bits_low, Z.shiftl_spec_low by lia. done.
    - assert (Z.testbit x (n + (32 - s)) = false) as ->; [|apply andb_false_r].
      rewrite <- (Z.mod_small x (2 ^ 32)) by lia. apply Z.mod_pow2_bits_high. lia. }
  by rewrite <- Z.lxor_lor, <- Z.add_nocarry_lxor by done.
Qed.

Lemma decode_ok k b : (4 * k + 4 <= length b)%nat -> nth k (decode b) 0 = Rfc.palabra b k.
Proof.
  revert b. induction k as [|k IH]; intros b Hl; destruct b as [|b0 [|b1 [|b2 [|b3 b]]]]; cbn [length] in Hl; try lia.
  - cbn [decode nth]. unfold Rfc.palabra. rewrite Nat.mul_0_r. cbn [drop take foldr].
    rewrite <- !Z.shiftl_mul_pow2, Z.shiftl_0_l, Z.lor_0_r, !Z.shiftl_lor, !Z.shiftl_shiftl, !Z.lor_assoc by lia. done.
  - cbn [decode nth]. rewrite IH by lia. unfold Rfc.palabra. replace (4 * S k)%nat with (S (S (S (S (4 * k))))) by lia. done.
Qed.

Lemma encode_ok w : encode [w] = Rfc.octetos w.
Proof.
  unfold Rfc.octetos. cbn [encode map seq]. change 0xff with (Z.ones 8). rewrite !Z.land_ones, !Z.shiftr_div_pow2 by lia.
  change (2 ^ (8 * Z.of_nat 0)) with 1. by rewrite Z.div_1_r.
Qed.

Lemma paso_rfc f g x y st k s t : (forall x y z, f x y z = g x y z) -> nth k x 0 = y k -> 0 <= s <= 32 ->
  Calculo.paso f x st (k, s, t) = Rfc.paso g y st (k, s, t).
Proof.
  intros Hf Hk Hs. destruct st as [[[a b] c] d]. unfold Calculo.paso, Rfc.paso. by rewrite Hf, Hk, rotar_ok by (lia || apply u32_rango).
Qed.
Lemma pasos_rfc f g x y st l : (forall x y z, f x y z = g x y z) -> (forall k, (k < 16)%nat -> nth k x 0 = y k) ->
  forallb (fun '(k, s, _) => (k <? 16)%nat && (0 <=? s) && (s <=? 32)) l = true ->
  foldl (Calculo.paso f x) st l = foldl (Rfc.paso g y) st l.
Proof.
  intros Hf Hx. revert st. induction l as [|[[k s] t] l IH]; intros st Hl; [done|]. cbn [forallb] in Hl. partir. cbn [foldl].
  rewrite (paso_rfc f g x y); [by apply IH|done|apply Hx; by apply Nat.ltb_lt|lia].
Qed.

Lemma bloque_rfc st b : length b = 64%nat -> Calculo.bloque st b = Rfc.bloque st b.
Proof.
  intros Hb. unfold Calculo.bloque, Rfc.bloque, Calculo.sumar, Calculo.rondas, Rfc.rondas.
  assert (forall k, (k < 16)%nat -> nth k (decode b) 0 = Rfc.palabra b k) as Hk by (intros k Hk; apply decode_ok; lia).
  rewrite (pasos_rfc F Rfc.F _ (Rfc.palabra b) _ Rfc.ronda1 F_ok Hk eq_refl), (pasos_rfc G Rfc.G _ (Rfc.palabra b) _ Rfc.ronda2 G_ok Hk eq_refl),
    (pasos_rfc H Rfc.H _ (Rfc.palabra b) _ Rfc.ronda3 H_ok Hk eq_refl), (pasos_rfc I Rfc.I _ (Rfc.palabra b) _ Rfc.ronda4 I_ok Hk eq_refl).
  by destruct st as [[[? ?] ?] ?].
Qed.

Lemma procesar_rfc n st p : (64 * n <= length p)%nat -> procesar Calculo.bloque n st p = procesar Rfc.bloque n st p.
Proof.
  revert st p. induction n as [|n IH]; intros st p Hl; [done|]. cbn [procesar].
  rewrite bloque_rfc by (rewrite length_take; lia). apply IH. rewrite length_drop. lia.
Qed.

Lemma calculo_rfc msg : Calculo.md5 msg = Rfc.md5 msg.
Proof.
  unfold Calculo.md5, Rfc.md5. rewrite procesar_rfc by (pose proof (Nat.div_mod_eq (length (Rfc.rellenar msg)) 64); lia).
  destruct (procesar Rfc.bloque _ _ _) as [[[a b] c] d]. rewrite <- !encode_ok. done.
Qed.

(** ** The shape of a digest *)

Definition es_hex (c : ascii) : bool :=
  ((48 <=? byte c) && (byte c <=? 57)) || ((97 <=? byte c) && (byte c <=? 102)).

Lemma hex_digit_ok n : 0 <= n < 16 -> es_hex (hex_digit n) = true.
Proof.
  intros Hn. unfold hex_digit, es_hex.
  destruct (Z.ltb_spec n 10); rewrite byte_chr, Z.mod_small by lia;
    apply orb_true_iff; [left|right]; apply andb_true_iff; split; apply Z.leb_le; lia.
Qed.

Lemma hex_bytes_forma bs :
  Forall (fun b => 0 <= b < 256) bs ->
  todos es_hex (hex_bytes bs) = true /\ String.length (hex_bytes bs) = (2 * length bs)%nat.
Proof.
  induction 1 as [|b bs Hb _ [IH1 IH2]]; [done|]. cbn [hex_bytes length].
  rewrite todos_app, length_app_s, IH1, IH2. cbn [hex02 todos String.length].
  rewrite !hex_digit_ok; [split; [done|lia]| |].
  - apply Z.mod_pos_bound. lia.
  - split; [apply Z.div_pos; lia|apply Z.div_lt_upper_bound; lia].
Qed.

Lemma encode_rango ws : Forall (fun b => 0 <= b < 256) (encode ws).
Proof.
  induction ws as [|w ws IH]; [constructor|]. cbn [encode].
  repeat constructor; try apply IH; change 0xff with (Z.ones 8); rewrite Z.land_ones by lia;
    apply Z.mod_pos_bound; lia.
Qed.

Lemma update_finalized m input : finalized (update m input) = finalized m.
Proof. unfold update. cbv zeta. caso; [|done]. by destruct (bloques _ _ _ _ _). Qed.

Lemma digest_MD5_text basura s :
  exists st, digest (MD5_text basura s) = encode (palabras st) /\ finalized (MD5_text basura s) = true.
Proof.
  unfold MD5_text, finalize. rewrite update_finalized. cbn. eexists. split; reflexivity.
Qed.

(** Feeding the same bytes in different pieces gives the same object up to the
    unused part of the buffer: the digest only depends on the concatenation. *)
Lemma absorbe_hexdigest m msg : Absorbe m msg -> hexdigest (finalize m) = hex_bytes (Rfc.md5 msg).
Proof. intros HA. rewrite (finalize_absorbe m msg HA). cbn [hexdigest finalized digest]. by rewrite calculo_rfc. Qed.

(** The sixteen bytes of a digest. *)
Lemma rfc_bytes msg : Forall (fun b => 0 <= b < 256) (Rfc.md5 msg) /\ length (Rfc.md5 msg) = 16%nat.
Proof.
  rewrite <- calculo_rfc. unfold Calculo.md5. split; [apply encode_rango|].
  rewrite length_encode. by destruct (procesar _ _ _ _) as [[[? ?] ?] ?].
Qed.

Lemma hexa_ok bs : Forall (fun b => 0 <= b < 256) bs -> hex_bytes bs = Rfc.hexa bs.
Proof.
  assert (forall n, 0 <= n < 16 -> hex_digit n = Rfc.digito n) as K.
  { intros n Hn. assert (forallb (fun k => Ascii.eqb (hex_digit (Z.of_nat k)) (Rfc.digito (Z.of_nat k))) (seq 0 16) = true) as Hk
      by (vm_compute; reflexivity).
    rewrite forallb_forall in Hk. specialize (Hk (Z.to_nat n) ltac:(apply in_seq; lia)). rewrite Z2Nat.id in Hk by lia. by apply Ascii.eqb_eq. }
  induction 1 as [|b bs Hb _ IH]; [done|]. cbn [hex_bytes hex02 Rfc.hexa]. rewrite IH. unfold hex02. rewrite !K; [done| |].
  - apply Z.mod_pos_bound. lia.
  - split; [apply Z.div_pos; lia|apply Z.div_lt_upper_bound; lia].
Qed.

Lemma md5_en_forma basura s :
  todos es_hex (md5_en basura s) = true /\ String.length (md5_en basura s) = 32%nat.
Proof.
  unfold md5_en, hexdigest. destruct (digest_MD5_text basura s) as (st & -> & ->).
  destruct (hex_bytes_forma _ (encode_rango (palabras st))) as [H1 H2].
  split; [done|]. rewrite H2, length_encode. by destruct st as [[[? ?] ?] ?].
Qed.

(** C10. For every text shorter than 2^32 - 64 bytes, [md5] returns the hexadecimal RFC 1321
    digest of its bytes, whatever the uninitialised object held: the buffered, unrolled,
    32-bit implementation is equivalent to the algorithm of the RFC, whose auxiliary functions,
    words, constants and digits [Rfc] defines on its own. *)
Theorem md5_rfc1321 (basura : MD5) (s : string) :
  length (buffer basura) = 64%nat -> Z.of_nat (String.length s) < 2 ^ 32 - 64 ->
  md5_en basura s = Rfc.hexa (Rfc.md5 (bytes_of s)).
Proof.
  intros Hb Hl. rewrite <- hexa_ok by apply rfc_bytes. apply absorbe_hexdigest, (update_absorbe _ []).
  - by apply init_absorbe.
  - by rewrite length_bytes_of.
Qed.

Lemma md5_rfc1321_witness :
  md5_en memoria_cero "12345678" = Rfc.hexa (Rfc.md5 (bytes_of "12345678")) /\
  md5_en memoria_cero "12345678" = "25d55ad283aa400af464c76d713c07ad".
Proof.
  split; [apply (md5_rfc1321 memoria_cero "12345678"); [reflexivity|vm_compute; reflexivity]|].
  vm_compute. reflexivity.
Defined.

(** Feeding an object two buffers one after the other is the same as feeding it their
    concatenation: the digest does not depend on how the input is cut. *)
Theorem update_incremental (m : MD5) (msg a b : list Z) :
  Absorbe m msg -> Z.of_nat (length a + length b) < 2 ^ 32 - 64 ->
  hexdigest (finalize (update (update m a) b)) = hexdigest (finalize (update m (a ++ b))).
Proof.
  intros HA Hl. rewrite (absorbe_hexdigest _ ((msg ++ a) ++ b)).
  - rewrite (absorbe_hexdigest _ (msg ++ (a ++ b))); [by rewrite app_assoc|].
    apply update_absorbe; [done|]. rewrite length_app. lia.
  - repeat apply update_absorbe; try done; lia.
Qed.

(** C28. Every digest is 32 lowercase hexadecimal characters; the identifiers the server
    builds from it contain no separator ['#'] or ['-']. *)
Theorem md5_forma (s : string) :
  String.length (md5 s) = 32%nat /\ todos es_hex (md5 s) = true /\
  contiene "#"%char (md5 s) = false /\ contiene "-"%char (md5 s) = false.
Proof.
  destruct (md5_en_forma memoria_cero s) as [H1 H2].
  repeat split; try done; by apply (todos_no_contiene es_hex).
Qed.

Lemma update_incremental_witness :
  hexdigest (finalize (update (update (init memoria_cero) (bytes_of "mensa")) (bytes_of "jero"))) =
  hexdigest (finalize (update (init memoria_cero) (bytes_of "mensa" ++ bytes_of "jero"))).
Proof. apply (update_incremental _ []); [by apply init_absorbe|vm_compute; reflexivity]. Defined.

End Md5Correcto.
