(* ===== verification/Sha1.v ===== *)
(** * Sha1: the SHA-1 code of src/WebServer/mongoose.c

    The context is the record [SHA1_CTX]; the sixteen words of [block] are updated in place,
    first by the byte swap of [blk0], which depends on the byte order of the machine, then by
    the circular schedule of [blk].  The second half states FIPS 180 independently of the
    code ([Fips]) and proves that the code computes it on both byte orders. *)

From S2P Require Import Prelude Bloques.
Open Scope Z_scope.

Module Sha1.

(** [((char * ) &n)[0] == 0] for the [int] 1. *)
Section Maquina.
Context (is_big_endian : bool).

Definition rol (value bits : Z) : Z := rol32 value bits.

(** The words of [union char64long16] as the machine reads them. *)
Fixpoint palabras (c : list Z) : list Z :=
  match c with
  | b0 :: b1 :: b2 :: b3 :: c =>
      (if is_big_endian then b3 + 2 ^ 8 * (b2 + 2 ^ 8 * (b1 + 2 ^ 8 * b0))
       else b0 + 2 ^ 8 * (b1 + 2 ^ 8 * (b2 + 2 ^ 8 * b3))) :: palabras c
  | _ => []
  end.

(** The word used, and the block after the assignment to [block->l[i]]. *)
Definition blk0 (block : list Z) (i : nat) : Z * list Z :=
  let l := nth i block 0 in
  let w := if is_big_endian then l
           else Z.lor (Z.land (rol l 24) 0xFF00FF00) (Z.land (rol l 8) 0x00FF00FF) in
  (w, <[i := w]> block).

Definition blk (block : list Z) (i : nat) : Z * list Z :=
  let l (j : nat) := nth (Nat.land j 15) block 0 in
  let w := rol (Z.lxor (Z.lxor (Z.lxor (l (i + 13)%nat) (l (i + 8)%nat)) (l (i + 2)%nat)) (l i)) 1 in
  (w, <[Nat.land i 15 := w]> block).

(** The local variables of [SHA1Transform]. *)
Inductive reg : Type := ra | rb | rc | rd | re.
Definition vars : Type := Z * Z * Z * Z * Z.
Definition get (r : reg) (s : vars) : Z :=
  let '(a, b, c, d, e) := s in
  match r with ra => a | rb => b | rc => c | rd => d | re => e end.
Definition set (r : reg) (n : Z) (s : vars) : vars :=
  let '(a, b, c, d, e) := s in
  match r with
  | ra => (n, b, c, d, e) | rb => (a, n, c, d, e) | rc => (a, b, n, d, e)
  | rd => (a, b, c, n, e) | re => (a, b, c, d, n)
  end.

(** The macros [R0] to [R4]: the function of [w], [x], [y], the constant, and where the word
    of the block comes from. *)
Inductive macro : Type := R0 | R1 | R2 | R3 | R4.
Definition funcion (m : macro) (w x y : Z) : Z :=
  match m with
  | R0 | R1 => Z.lxor (Z.land w (Z.lxor x y)) y
  | R2 | R4 => Z.lxor (Z.lxor w x) y
  | R3 => Z.lor (Z.land (Z.lor w x) y) (Z.land w x)
  end.
Definition constante (m : macro) : Z :=
  match m with
  | R0 | R1 => 0x5A827999
  | R2 => 0x6ED9EBA1
  | R3 => 0x8F1BBCDC
  | R4 => 0xCA62C1D6
  end.
Definition palabra (m : macro) (block : list Z) (i : nat) : Z * list Z :=
  match m with R0 => blk0 block i | _ => blk block i end.

Inductive ronda : Type := Ronda (m : macro) (v w x y z : reg) (i : nat).

(** The effect of a round on the variables, given the word of the block. *)
Definition aplicar (s : vars) (r : ronda) (p : Z) : vars :=
  let 'Ronda m v w x y z _ := r in
  let s := set z (u32 (get z s + (funcion m (get w s) (get x s) (get y s) + p + constante m
                                  + rol (get v s) 5))) s in
  set w (rol (get w s) 30) s.

Definition ejecutar (st : list Z * vars) (r : ronda) : list Z * vars :=
  let '(block, s) := st in
  let 'Ronda m v w x y z i := r in
  let '(p, block) := palabra m block i in
  (block, aplicar s r p).

Definition rondas : list ronda := [
  Ronda R0 ra rb rc rd re 0; Ronda R0 re ra rb rc rd 1; Ronda R0 rd re ra rb rc 2; Ronda R0 rc rd re ra rb 3;
  Ronda R0 rb rc rd re ra 4; Ronda R0 ra rb rc rd re 5; Ronda R0 re ra rb rc rd 6; Ronda R0 rd re ra rb rc 7;
  Ronda R0 rc rd re ra rb 8; Ronda R0 rb rc rd re ra 9; Ronda R0 ra rb rc rd re 10; Ronda R0 re ra rb rc rd 11;
  Ronda R0 rd re ra rb rc 12; Ronda R0 rc rd re ra rb 13; Ronda R0 rb rc rd re ra 14; Ronda R0 ra rb rc rd re 15;
  Ronda R1 re ra rb rc rd 16; Ronda R1 rd re ra rb rc 17; Ronda R1 rc rd re ra rb 18; Ronda R1 rb rc rd re ra 19;
  Ronda R2 ra rb rc rd re 20; Ronda R2 re ra rb rc rd 21; Ronda R2 rd re ra rb rc 22; Ronda R2 rc rd re ra rb 23;
  Ronda R2 rb rc rd re ra 24; Ronda R2 ra rb rc rd re 25; Ronda R2 re ra rb rc rd 26; Ronda R2 rd re ra rb rc 27;
  Ronda R2 rc rd re ra rb 28; Ronda R2 rb rc rd re ra 29; Ronda R2 ra rb rc rd re 30; Ronda R2 re ra rb rc rd 31;
  Ronda R2 rd re ra rb rc 32; Ronda R2 rc rd re ra rb 33; Ronda R2 rb rc rd re ra 34; Ronda R2 ra rb rc rd re 35;
  Ronda R2 re ra rb rc rd 36; Ronda R2 rd re ra rb rc 37; Ronda R2 rc rd re ra rb 38; Ronda R2 rb rc rd re ra 39;
  Ronda R3 ra rb rc rd re 40; Ronda R3 re ra rb rc rd 41; Ronda R3 rd re ra rb rc 42; Ronda R3 rc rd re ra rb 43;
  Ronda R3 rb rc rd re ra 44; Ronda R3 ra rb rc rd re 45; Ronda R3 re ra rb rc rd 46; Ronda R3 rd re ra rb rc 47;
  Ronda R3 rc rd re ra rb 48; Ronda R3 rb rc rd re ra 49; Ronda R3 ra rb rc rd re 50; Ronda R3 re ra rb rc rd 51;
  Ronda R3 rd re ra rb rc 52; Ronda R3 rc rd re ra rb 53; Ronda R3 rb rc rd re ra 54; Ronda R3 ra rb rc rd re 55;
  Ronda R3 re ra rb rc rd 56; Ronda R3 rd re ra rb rc 57; Ronda R3 rc rd re ra rb 58; Ronda R3 rb rc rd re ra 59;
  Ronda R4 ra rb rc rd re 60; Ronda R4 re ra rb rc rd 61; Ronda R4 rd re ra rb rc 62; Ronda R4 rc rd re ra rb 63;
  Ronda R4 rb rc rd re ra 64; Ronda R4 ra rb rc rd re 65; Ronda R4 re ra rb rc rd 66; Ronda R4 rd re ra rb rc 67;
  Ronda R4 rc rd re ra rb 68; Ronda R4 rb rc rd re ra 69; Ronda R4 ra rb rc rd re 70; Ronda R4 re ra rb rc rd 71;
  Ronda R4 rd re ra rb rc 72; Ronda R4 rc rd re ra rb 73; Ronda R4 rb rc rd re ra 74; Ronda R4 ra rb rc rd re 75;
  Ronda R4 re ra rb rc rd 76; Ronda R4 rd re ra rb rc 77; Ronda R4 rc rd re ra rb 78; Ronda R4 rb rc rd re ra 79
].

Definition SHA1Transform (state : vars) (buffer : list Z) : vars :=
  let '(s0, s1, s2, s3, s4) := state in
  let '(_, (a, b, c, d, e)) := foldl ejecutar (palabras buffer, state) rondas in
  (u32 (s0 + a), u32 (s1 + b), u32 (s2 + c), u32 (s3 + d), u32 (s4 + e)).

Record SHA1_CTX : Type := mkSHA1 {
  state : vars;         (* uint32_t state[5] *)
  count0 : Z;           (* uint32_t count[2] *)
  count1 : Z;
  buffer : list Z }.    (* unsigned char buffer[64] *)

Definition SHA1Init (context : SHA1_CTX) : SHA1_CTX :=
  mkSHA1 (0x67452301, 0xEFCDAB89, 0x98BADCFE, 0x10325476, 0xC3D2E1F0) 0 0 (buffer context).

(** [for ( ; i + 63 < len; i += 64) SHA1Transform(context->state, &data[i]);] *)
Fixpoint bloques (fuel : nat) (i : Z) (st : vars) (data : list Z) : vars * Z :=
  match fuel with
  | O => (st, i)
  | S fuel =>
      if i + 63 <? Z.of_nat (length data)
      then bloques fuel (i + 64) (SHA1Transform st (take 64 (drop (Z.to_nat i) data))) data
      else (st, i)
  end.

(** Every turn of the loop advances [i]: the length of the data is fuel enough. *)
Definition SHA1Update (context : SHA1_CTX) (data : list Z) : SHA1_CTX :=
  let len := Z.of_nat (length data) in
  let j := count0 context in
  let c0 := u32 (count0 context + Z.shiftl len 3) in
  let c1 := if c0 <? j then u32 (count1 context + 1) else count1 context in
  let c1 := u32 (c1 + Z.shiftr len 29) in
  let j := Z.land (Z.shiftr j 3) 63 in
  if 63 <? j + len then
    let i := 64 - j in
    let buf := memcpy (buffer context) j (take (Z.to_nat i) data) in
    let st := SHA1Transform (state context) buf in
    let '(st, i) := bloques (length data) i st data in
    mkSHA1 st c0 c1 (memcpy buf 0 (drop (Z.to_nat i) data))
  else mkSHA1 (state context) c0 c1 (memcpy (buffer context) j data).

(** [while ((context->count[0] & 504) != 448)]: at most 64 turns. *)
Fixpoint rellenar (fuel : nat) (context : SHA1_CTX) : option SHA1_CTX :=
  match fuel with
  | O => None
  | S fuel =>
      if Z.land (count0 context) 504 =? 448 then Some context
      else rellenar fuel (SHA1Update context [0])
  end.

Definition octeto (w : Z) (i : nat) : Z := Z.land (Z.shiftr w ((3 - Z.of_nat (Nat.land i 3)) * 8)) 255.

Definition finalcount (context : SHA1_CTX) : list Z :=
  (fun i => octeto (if (4 <=? i)%nat then count0 context else count1 context) i) <$> seq 0 8.

Definition digest (st : vars) : list Z :=
  let '(a, b, c, d, e) := st in
  (fun i => octeto (nth (Nat.shiftr i 2) [a; b; c; d; e] 0) i) <$> seq 0 20.

(** The digest; [None] if the padding loop did not stop. *)
Definition SHA1Final (context : SHA1_CTX) : option (list Z) :=
  let bits := finalcount context in
  match rellenar 65 (SHA1Update context [0x80]) with
  | None => None
  | Some context => Some (digest (state (SHA1Update context bits)))
  end.

(** [SHA1Init], [SHA1Update] and [SHA1Final] on a context whose storage holds [basura]. *)
Definition sha1 (basura : SHA1_CTX) (data : list Z) : option (list Z) :=
  SHA1Final (SHA1Update (SHA1Init basura) data).

End Maquina.

Definition pila_cero : SHA1_CTX := mkSHA1 (0, 0, 0, 0, 0) 0 0 (replicate 64 0).
End Sha1.

(** ** FIPS 180, stated without the code *)
Module Fips.
Import Sha1.

Definition Ch (x y z : Z) : Z := Z.lxor (Z.land x y) (Z.land (Z.lnot x) z).
Definition Parity (x y z : Z) : Z := Z.lxor (Z.lxor x y) z.
Definition Maj (x y z : Z) : Z := Z.lxor (Z.lxor (Z.land x y) (Z.land x z)) (Z.land y z).
Definition f (t : nat) : Z -> Z -> Z -> Z :=
  if (t <? 20)%nat then Ch else if (t <? 40)%nat then Parity else if (t <? 60)%nat then Maj else Parity.

(** The constants are the first 32 bits of the square roots of 2, 3, 5 and 10. *)
Definition K (t : nat) : Z :=
  Z.sqrt ((if (t <? 20)%nat then 2 else if (t <? 40)%nat then 3 else if (t <? 60)%nat then 5 else 10) * 2 ^ 60).

Definition paso (s : vars) (tw : nat * Z) : vars :=
  let '(a, b, c, d, e) := s in
  let '(t, w) := tw in
  (u32 (rol a 5 + f t b c d + e + K t + w), a, rol b 30, c, d).

(** The schedule [W(0) ... W(79)], from the 16 words of the block. *)
Definition extender (ws : list Z) (t : nat) : list Z :=
  let w (j : nat) := nth (t - j) ws 0 in
  ws ++ [rol (Z.lxor (Z.lxor (Z.lxor (w 3%nat) (w 8%nat)) (w 14%nat)) (w 16%nat)) 1].
Definition horario (m : list Z) : list Z := foldl extender m (seq 16 64).

(** Big-endian words. *)
Fixpoint leer (b : list Z) : list Z :=
  match b with
  | b0 :: b1 :: b2 :: b3 :: b => (b3 + 2 ^ 8 * (b2 + 2 ^ 8 * (b1 + 2 ^ 8 * b0))) :: leer b
  | _ => []
  end.
Definition escribir (n : nat) (z : Z) : list Z :=
  (fun j => (z / 2 ^ (8 * Z.of_nat (n - 1 - j))) mod 256) <$> seq 0 n.

Definition sumar (s r : vars) : vars :=
  let '(a, b, c, d, e) := s in
  let '(a', b', c', d', e') := r in
  (u32 (a + a'), u32 (b + b'), u32 (c + c'), u32 (d + d'), u32 (e + e')).

Definition bloque (s : vars) (b : list Z) : vars :=
  sumar s (foldl paso s (zip (seq 0 80) (horario (leer b)))).

Definition iv : vars := (0x67452301, 0xEFCDAB89, 0x98BADCFE, 0x10325476, 0xC3D2E1F0).

Definition rellenar (msg : list Z) : list Z :=
  msg ++ 0x80 :: replicate (relleno (length msg)) 0 ++ escribir 8 (8 * Z.of_nat (length msg)).

Definition sha1 (msg : list Z) : list Z :=
  let p := rellenar msg in
  let '(a, b, c, d, e) := procesar bloque (length p / 64) iv p in
  escribir 4 a ++ escribir 4 b ++ escribir 4 c ++ escribir 4 d ++ escribir 4 e.
End Fips.

(** ** The code computes it *)
Module Sha1Correcto.
Import Sha1.

(** *** The functions of the rounds *)

Lemma funcion_Ch w x y : funcion R0 w x y = Fips.Ch w x y.
Proof.
  apply Z.bits_inj'. intros n Hn. unfold funcion, Fips.Ch.
  rewrite !Z.lxor_spec, !Z.land_spec, !Z.lxor_spec, Z.lnot_spec by lia.
  by destruct (Z.testbit w n), (Z.testbit x n), (Z.testbit y n).
Qed.
Lemma funcion_Maj w x y : funcion R3 w x y = Fips.Maj w x y.
Proof.
  apply Z.bits_inj'. intros n Hn. unfold funcion, Fips.Maj.
  rewrite !Z.lxor_spec, !Z.lor_spec, !Z.land_spec, !Z.lor_spec.
  by destruct (Z.testbit w n), (Z.testbit x n), (Z.testbit y n).
Qed.

(** *** The byte swap *)

Lemma testbit_byte b n : 0 <= b < 256 -> 8 <= n -> Z.testbit b n = false.
Proof.
  intros Hb Hn. rewrite <- (Z.mod_small b (2 ^ 8)) by lia. by rewrite Z.mod_pow2_bits_high by lia.
Qed.

Lemma byte_lor b x : 0 <= b < 256 -> b + 2 ^ 8 * x = Z.lor b (Z.shiftl x 8).
Proof.
  intros Hb. assert (Z.land b (Z.shiftl x 8) = 0) as E.
  { apply Z.bits_inj'. intros n Hn. rewrite Z.land_spec, Z.bits_0.
    destruct (Z_lt_le_dec n 8); [by rewrite Z.shiftl_spec_low, andb_false_r by lia|].
    by rewrite testbit_byte by lia. }
  rewrite <- Z.lxor_lor, <- Z.add_nocarry_lxor by done. by rewrite Z.shiftl_mul_pow2, Z.mul_comm by lia.
Qed.

(** The four bytes of a word, lowest first. *)
Definition palabra4 (b0 b1 b2 b3 : Z) : Z := b0 + 2 ^ 8 * (b1 + 2 ^ 8 * (b2 + 2 ^ 8 * b3)).

Lemma testbit_palabra4 b0 b1 b2 b3 n :
  0 <= b0 < 256 -> 0 <= b1 < 256 -> 0 <= b2 < 256 -> 0 <= b3 < 256 -> 0 <= n ->
  Z.testbit (palabra4 b0 b1 b2 b3) n =
  if n <? 8 then Z.testbit b0 n else if n <? 16 then Z.testbit b1 (n - 8)
  else if n <? 24 then Z.testbit b2 (n - 16) else Z.testbit b3 (n - 24).
Proof.
  intros H0 H1 H2 H3 Hn. unfold palabra4. rewrite !byte_lor by lia.
  rewrite !Z.lor_spec, Z.shiftl_spec by lia.
  destruct (Z.ltb_spec n 8); [by rewrite (Z.testbit_neg_r _ (n - 8)), orb_false_r by lia|].
  rewrite (testbit_byte b0) by lia. cbn [orb]. rewrite Z.lor_spec, Z.shiftl_spec by lia.
  destruct (Z.ltb_spec n 16); [by rewrite (Z.testbit_neg_r _ (n - 8 - 8)), orb_false_r by lia|].
  rewrite (testbit_byte b1) by lia. cbn [orb]. rewrite Z.lor_spec, Z.shiftl_spec by lia.
  replace (n - 8 - 8) with (n - 16) by lia. replace (n - 16 - 8) with (n - 24) by lia.
  destruct (Z.ltb_spec n 24); [by rewrite (Z.testbit_neg_r _ (n - 24)), orb_false_r by lia|].
  by rewrite (testbit_byte b2) by lia.
Qed.

Lemma testbit_rol x k n :
  0 <= x < 2 ^ 32 -> 0 < k < 32 -> 0 <= n < 32 ->
  Z.testbit (rol x k) n = Z.testbit x (if n <? k then n + 32 - k else n - k).
Proof.
  intros Hx Hk Hn. unfold rol, rol32, u32. rewrite Z.lor_spec, Z.mod_pow2_bits_low, Z.shiftr_spec by lia.
  destruct (Z.ltb_spec n k).
  - rewrite Z.shiftl_spec_low by lia. cbn [orb]. f_equal. lia.
  - rewrite Z.shiftl_spec by lia. rewrite <- (Z.mod_small x (2 ^ 32)) at 2 by lia.
    rewrite (Z.mod_pow2_bits_high x 32 (n + (32 - k))) by lia. by rewrite orb_false_r.
Qed.

Lemma palabra4_rango b0 b1 b2 b3 :
  0 <= b0 < 256 -> 0 <= b1 < 256 -> 0 <= b2 < 256 -> 0 <= b3 < 256 -> 0 <= palabra4 b0 b1 b2 b3 < 2 ^ 32.
Proof. unfold palabra4. lia. Qed.

Lemma mascara_alta n : 0 <= n < 32 -> Z.testbit 0xFF00FF00 n = ((8 <=? n) && (n <? 16) || (24 <=? n)).
Proof.
  intros Hn. assert (exists k, (k < 32)%nat /\ n = Z.of_nat k) as (k & Hk & ->) by (exists (Z.to_nat n); lia).
  do 32 (destruct k as [|k]; [done|]). lia.
Qed.
Lemma mascara_baja n : 0 <= n < 32 -> Z.testbit 0x00FF00FF n = negb ((8 <=? n) && (n <? 16) || (24 <=? n)).
Proof.
  intros Hn. assert (exists k, (k < 32)%nat /\ n = Z.of_nat k) as (k & Hk & ->) by (exists (Z.to_nat n); lia).
  do 32 (destruct k as [|k]; [done|]). lia.
Qed.

Lemma testbit_alto x n : 0 <= x < 2 ^ 32 -> 32 <= n -> Z.testbit x n = false.
Proof. intros Hx Hn. rewrite <- (Z.mod_small x (2 ^ 32)) by lia. by apply Z.mod_pow2_bits_high. Qed.

(** Decides the comparisons of the goal that [lia] decides. *)
Ltac comparar :=
  repeat match goal with
  | |- context [?a <? ?b] =>
      first [rewrite (proj2 (Z.ltb_lt a b)) by lia | rewrite (proj2 (Z.ltb_ge a b)) by lia]
  | |- context [?a <=? ?b] =>
      first [rewrite (proj2 (Z.leb_le a b)) by lia | rewrite (proj2 (Z.leb_gt a b)) by lia]
  end.

Lemma intercambio b0 b1 b2 b3 :
  0 <= b0 < 256 -> 0 <= b1 < 256 -> 0 <= b2 < 256 -> 0 <= b3 < 256 ->
  let l := palabra4 b0 b1 b2 b3 in
  Z.lor (Z.land (rol l 24) 0xFF00FF00) (Z.land (rol l 8) 0x00FF00FF) = palabra4 b3 b2 b1 b0.
Proof.
  intros H0 H1 H2 H3 l. pose proof (palabra4_rango b0 b1 b2 b3 H0 H1 H2 H3) as Hl.
  apply Z.bits_inj'. intros n Hn. rewrite Z.lor_spec, !Z.land_spec.
  destruct (Z_lt_le_dec n 32) as [Hlt|Hge].
  - rewrite mascara_alta, mascara_baja, !testbit_rol by (done || lia). unfold l.
    rewrite !testbit_palabra4 by (try done; repeat caso; lia).
    destruct (Z_lt_le_dec n 8), (Z_lt_le_dec n 16), (Z_lt_le_dec n 24); try lia; comparar;
      cbn [negb andb orb]; rewrite ?andb_false_r, ?andb_true_r, ?orb_false_r, ?orb_false_l; f_equal; lia.
  - rewrite (testbit_alto (palabra4 _ _ _ _)) by (done || by apply palabra4_rango).
    rewrite (testbit_alto 0xFF00FF00), (testbit_alto 0x00FF00FF) by (done || lia).
    by rewrite !andb_false_r.
Qed.

Section Correcto.
Context (be : bool).

(** *** The words of the block *)

(** The swap of [blk0] on a machine with the byte order [be]. *)
Definition orden (l : Z) : Z :=
  if be then l else Z.lor (Z.land (rol l 24) 0xFF00FF00) (Z.land (rol l 8) 0x00FF00FF).

Lemma palabras_orden n b :
  length b = (4 * n)%nat -> Forall (fun b => 0 <= b < 256) b ->
  orden <$> palabras be b = Fips.leer b /\ length (palabras be b) = n.
Proof.
  revert b. induction n as [|n IH]; intros b Hl Hb.
  - by destruct b.
  - destruct b as [|b0 [|b1 [|b2 [|b3 b]]]]; cbn in Hl; try lia.
    rewrite !Forall_cons in Hb. destruct Hb as (H0 & H1 & H2 & H3 & Hb).
    destruct (IH b ltac:(lia) Hb) as [E1 E2]. cbn [palabras Fips.leer fmap list_fmap length].
    split; [|by rewrite E2]. f_equal; [|exact E1]. unfold orden. destruct be; [done|].
    by apply (intercambio b0 b1 b2 b3).
Qed.

(** The words the rounds take from the block, and the block they leave. *)
Fixpoint fuentes (block : list Z) (l : list ronda) : list Z * list Z :=
  match l with
  | [] => ([], block)
  | Ronda m _ _ _ _ _ i :: l =>
      let '(p, block) := palabra be m block i in
      let '(ps, block) := fuentes block l in
      (p :: ps, block)
  end.

Lemma foldl_ejecutar block s l :
  foldl (ejecutar be) (block, s) l =
  ((fuentes block l).2, foldl (fun s rp => aplicar s rp.1 rp.2) s (zip l (fuentes block l).1)).
Proof.
  revert block s. induction l as [|[m v w x y z i] l IH]; intros block s; [done|].
  cbn [foldl ejecutar fuentes]. destruct (palabra be m block i) as [p block'] eqn:E. rewrite IH.
  by destruct (fuentes block' l) as [ps block''].
Qed.

Lemma fuentes_app block l1 l2 :
  fuentes block (l1 ++ l2) =
  let '(ps1, b1) := fuentes block l1 in let '(ps2, b2) := fuentes b1 l2 in (ps1 ++ ps2, b2).
Proof.
  revert block. induction l1 as [|[m v w x y z i] l1 IH]; intros block; cbn [fuentes app].
  - by destruct (fuentes block l2).
  - destruct (palabra be m block i) as [p b]. rewrite IH.
    destruct (fuentes b l1) as [ps1 b1]. by destruct (fuentes b1 l2).
Qed.

Definition indice_de (r : ronda) : nat := let 'Ronda _ _ _ _ _ _ i := r in i.
Definition es_R0 (r : ronda) : bool := let 'Ronda m _ _ _ _ _ _ := r in match m with R0 => true | _ => false end.

(** The first sixteen rounds put the block in order. *)
Lemma fuentes_inicio block : length block = 16%nat ->
  fuentes block (take 16 rondas) = (orden <$> block, orden <$> block).
Proof. intros H. do 16 (destruct block as [|? block]; [done|]). by destruct block. Qed.

(** The block holds the last sixteen words of the schedule, word [t] at [t mod 16]. *)
Definition circular (t : nat) (block ws : list Z) : Prop :=
  length block = 16%nat /\ length ws = t /\ (16 <= t)%nat /\
  forall j, (j < 16)%nat -> nth ((t + j) mod 16) block 0 = nth (t - 16 + j) ws 0.

Lemma land15 n : Nat.land n 15 = (n mod 16)%nat.
Proof. exact (Nat.land_ones n 4). Qed.

Lemma mod16_ne t j : (0 < j < 16)%nat -> (t mod 16)%nat <> ((t + j) mod 16)%nat.
Proof.
  intros Hj E. pose proof (Nat.mod_upper_bound t 16 ltac:(lia)).
  rewrite Nat.Div0.add_mod, (Nat.mod_small j) in E by lia.
  destruct (decide (t mod 16 + j < 16)%nat).
  - rewrite (Nat.mod_small (t mod 16 + j)) in E by lia. lia.
  - replace (t mod 16 + j)%nat with (t mod 16 + j - 16 + 1 * 16)%nat in E by lia.
    rewrite Nat.Div0.mod_add, (Nat.mod_small (t mod 16 + j - 16)) in E by lia. lia.
Qed.

Lemma blk_paso t block ws :
  circular t block ws ->
  exists w block', blk block t = (w, block') /\ Fips.extender ws t = ws ++ [w] /\
    circular (S t) block' (ws ++ [w]).
Proof.
  intros (Hb & Hw & Ht & Hc). unfold blk, Fips.extender. rewrite !land15.
  eexists _, _. split; [reflexivity|].
  pose proof (Hc 0%nat ltac:(lia)) as E0. rewrite Nat.add_0_r in E0.
  rewrite E0, !Hc by lia. replace (t - 16 + 13)%nat with (t - 3)%nat by lia.
  replace (t - 16 + 8)%nat with (t - 8)%nat by lia. replace (t - 16 + 2)%nat with (t - 14)%nat by lia.
  rewrite Nat.add_0_r. split; [done|]. set (w := rol _ 1).
  pose proof (Nat.mod_upper_bound t 16 ltac:(lia)).
  repeat split; rewrite ?length_insert, ?length_app; cbn [length]; try lia. intros j Hj.
  destruct (decide (j = 15)%nat) as [->|Hn].
  - replace (S t + 15)%nat with (t + 1 * 16)%nat by lia. rewrite Nat.Div0.mod_add.
    rewrite !nth_lookup, list_lookup_insert_eq by lia. rewrite lookup_app_r by lia.
    by replace (S t - 16 + 15 - length ws)%nat with 0%nat by lia.
  - replace (S t + j)%nat with (t + S j)%nat by lia.
    rewrite (nth_lookup (<[_ := _]> _)), list_lookup_insert_ne, <- nth_lookup by (apply mod16_ne; lia).
    rewrite Hc, app_nth1 by lia. f_equal. lia.
Qed.

Lemma fuentes_horario l n t block ws :
  circular t block ws -> indice_de <$> l = seq t n -> forallb (fun r => negb (es_R0 r)) l = true ->
  foldl Fips.extender ws (seq t n) = ws ++ (fuentes block l).1.
Proof.
  revert l t block ws. induction n as [|n IH]; intros l t block ws Hc Hl Hr.
  - destruct l; [|done]. cbn. by rewrite app_nil_r.
  - destruct l as [|[m v w x y z i] l]; [done|]. cbn in Hl. simplify_eq. cbn [forallb] in Hr. partir.
    destruct (blk_paso t block ws Hc) as (p & block' & E1 & E2 & Hc').
    cbn [seq foldl fuentes]. rewrite E2, (IH l _ block') by done.
    assert (palabra be m block t = (p, block')) as -> by (by destruct m).
    destruct (fuentes block' l). cbn. by rewrite <- app_assoc.
Qed.

Lemma fuentes_rondas b :
  length b = 64%nat -> Forall (fun b => 0 <= b < 256) b ->
  (fuentes (palabras be b) rondas).1 = Fips.horario (Fips.leer b).
Proof.
  intros Hl Hb. destruct (palabras_orden 16 b Hl Hb) as [E1 E2].
  rewrite <- (take_drop 16 rondas), fuentes_app, (fuentes_inicio _ E2), E1.
  unfold Fips.horario. rewrite (fuentes_horario (drop 16 rondas) 64 16 (Fips.leer b));
    [| |reflexivity|reflexivity].
  - by destruct (fuentes (Fips.leer b) (drop 16 rondas)).
  - assert (length (Fips.leer b) = 16%nat) as E by (by rewrite <- E1, length_fmap).
    repeat split; try done. intros j Hj. f_equal. rewrite Nat.add_comm. change 16%nat with (1 * 16)%nat at 1.
    rewrite Nat.Div0.mod_add, Nat.mod_small by lia. lia.
Qed.

(** *** The rounds *)

Definition ronda_ok (m : macro) (t : nat) : Prop :=
  (forall w x y, funcion m w x y = Fips.f t w x y) /\ constante m = Fips.K t.

Lemma ronda_R0 t : (t <? 20)%nat = true -> ronda_ok R0 t.
Proof. intros E. unfold ronda_ok, Fips.f, Fips.K. rewrite E. split; [apply funcion_Ch|reflexivity]. Qed.
Lemma ronda_R1 t : (t <? 20)%nat = true -> ronda_ok R1 t.
Proof. apply ronda_R0. Qed.
Lemma ronda_R2 t : (t <? 20)%nat = false -> (t <? 40)%nat = true -> ronda_ok R2 t.
Proof. intros E1 E2. unfold ronda_ok, Fips.f, Fips.K. rewrite E1, E2. by split. Qed.
Lemma ronda_R3 t :
  (t <? 20)%nat = false -> (t <? 40)%nat = false -> (t <? 60)%nat = true -> ronda_ok R3 t.
Proof. intros E1 E2 E3. unfold ronda_ok, Fips.f, Fips.K. rewrite E1, E2, E3. split; [apply funcion_Maj|reflexivity]. Qed.
Lemma ronda_R4 t :
  (t <? 20)%nat = false -> (t <? 40)%nat = false -> (t <? 60)%nat = false -> ronda_ok R4 t.
Proof. intros E1 E2 E3. unfold ronda_ok, Fips.f, Fips.K. rewrite E1, E2, E3. by split. Qed.
Hint Resolve ronda_R0 ronda_R1 ronda_R2 ronda_R3 ronda_R4 : mensajero.

Lemma suma_ronda z f p k r : u32 (z + (f + p + k + r)) = u32 (r + f + z + k + p).
Proof. f_equal. lia. Qed.

(** Five unrolled rounds with rotated names are five steps of the standard. *)
Lemma cinco_rondas m0 m1 m2 m3 m4 t s p0 p1 p2 p3 p4 l ps :
  ronda_ok m0 t -> ronda_ok m1 (1 + t) -> ronda_ok m2 (2 + t) -> ronda_ok m3 (3 + t) ->
  ronda_ok m4 (4 + t) ->
  foldl (fun s rp => aplicar s rp.1 rp.2) s
    (zip (Ronda m0 ra rb rc rd re t :: Ronda m1 re ra rb rc rd (1 + t) :: Ronda m2 rd re ra rb rc (2 + t) ::
          Ronda m3 rc rd re ra rb (3 + t) :: Ronda m4 rb rc rd re ra (4 + t) :: l)
         (p0 :: p1 :: p2 :: p3 :: p4 :: ps)) =
  foldl (fun s rp => aplicar s rp.1 rp.2)
    (foldl Fips.paso s (zip (seq t 5) [p0; p1; p2; p3; p4])) (zip l ps).
Proof.
  intros [F0 K0] [F1 K1] [F2 K2] [F3 K3] [F4 K4]. destruct s as [[[[a b] c] d] e].
  cbn [zip zip_with foldl seq fst snd]. f_equal. unfold Fips.paso at 1 2 3 4 5.
  cbn [aplicar get set]. rewrite F0, F1, F2, F3, F4, K0, K1, K2, K3, K4.
  cbn [Nat.add]. by rewrite !suma_ronda.
Qed.

Lemma rondas_fips s ws :
  length ws = 80%nat ->
  foldl (fun s rp => aplicar s rp.1 rp.2) s (zip rondas ws) = foldl Fips.paso s (zip (seq 0 80) ws).
Proof.
  intros Hl. do 80 (destruct ws as [|? ws]; [discriminate Hl|]). destruct ws; [clear Hl|discriminate Hl].
  unfold rondas.
  do 3 (etrans; [eapply (cinco_rondas R0 R0 R0 R0 R0); auto with mensajero|]).
  etrans; [eapply (cinco_rondas R0 R1 R1 R1 R1); auto with mensajero|].
  do 4 (etrans; [eapply (cinco_rondas R2 R2 R2 R2 R2); auto with mensajero|]).
  do 4 (etrans; [eapply (cinco_rondas R3 R3 R3 R3 R3); auto with mensajero|]).
  do 4 (etrans; [eapply (cinco_rondas R4 R4 R4 R4 R4); auto with mensajero|]).
  reflexivity.
Qed.

Lemma length_horario m : length m = 16%nat -> length (Fips.horario m) = 80%nat.
Proof.
  intros Hm. unfold Fips.horario. assert (forall l ws, length (foldl Fips.extender ws l) = (length ws + length l)%nat) as H.
  { induction l as [|t l IH]; intros ws; cbn [foldl length]; [lia|]. rewrite IH. unfold Fips.extender.
    rewrite length_app. cbn. lia. }
  by rewrite H, length_seq, Hm.
Qed.

Lemma sha1_transform_bloque st b :
  length b = 64%nat -> Forall (fun b => 0 <= b < 256) b -> SHA1Transform be st b = Fips.bloque st b.
Proof.
  intros Hl Hb. unfold SHA1Transform, Fips.bloque, Fips.sumar. destruct st as [[[[s0 s1] s2] s3] s4].
  rewrite foldl_ejecutar, fuentes_rondas, rondas_fips by (done || apply length_horario;
    destruct (palabras_orden 16 b Hl Hb) as [<- E]; by rewrite length_fmap).
  by destruct (foldl _ _ _) as [[[[a b'] c] d] e].
Qed.

(** *** Absorbing the message *)

Abbreviation bytes := (Forall (fun b => 0 <= b < 256)).

Definition Absorbe (c : SHA1_CTX) (msg : list Z) : Prop :=
  bytes msg /\ Absorbido Fips.bloque Fips.iv (state c) (buffer c) msg /\
  count0 c = u32 (8 * Z.of_nat (length msg)) /\
  count1 c = u32 (8 * Z.of_nat (length msg) / 2 ^ 32).

Lemma sha1_init_absorbe c : length (buffer c) = 64%nat -> Absorbe (SHA1Init c) [].
Proof. intros H. split; [done|]. split; [by apply absorbido_vacio|done]. Qed.

Lemma bytes_corte i n (b : list Z) : bytes b -> bytes (take n (drop i b)).
Proof. intros H. by apply Forall_take, Forall_drop. Qed.

Lemma sha1_bloques_nat (r : nat) st data :
  bytes data -> (r < 64)%nat -> (64 - r <= length data)%nat ->
  let k := ((length data - (64 - r)) / 64)%nat in
  bloques be (length data) (64 - Z.of_nat r) st data =
  (procesar Fips.bloque k st (drop (64 - r) data), Z.of_nat (64 - r + 64 * k)).
Proof.
  intros Hb Hr Hi.
  apply (bucle_bloques Fips.bloque (fun fuel i st => bloques be fuel i st data)); try done.
  - intros fuel i st' H0 H1. cbn [bloques]. rewrite sha1_transform_bloque.
    + destruct (Z.ltb_spec (i + 63) (Z.of_nat (length data))); [done|lia].
    + rewrite length_take, length_drop. lia.
    + by apply bytes_corte.
  - intros [|fuel] i st' H0 H1; [done|]. cbn [bloques].
    destruct (Z.ltb_spec (i + 63) (Z.of_nat (length data))); [lia|done].
Qed.

Lemma sha1_update_absorbe c msg data :
  Absorbe c msg -> bytes data -> Z.of_nat (length data) < 2 ^ 32 ->
  Absorbe (SHA1Update be c data) (msg ++ data).
Proof.
  intros (Hm & HA & Hc0 & Hc1) Hd Hl.
  pose proof (Nat.mod_upper_bound (length msg) 64 ltac:(lia)) as Hr.
  assert (bytes (msg ++ data)) as Hmd by (by apply Forall_app).
  unfold SHA1Update. rewrite Hc0, Hc1, shiftr3_land.
  destruct (contador_ok (8 * Z.of_nat (length msg)) (Z.of_nat (length data)) _ ltac:(lia) ltac:(lia)
    (or_intror eq_refl)) as [Ec0 Ec1].
  rewrite u32_add_r in Ec0, Ec1.
  replace (8 * Z.of_nat (length msg) + 8 * Z.of_nat (length data))
    with (8 * Z.of_nat (length (msg ++ data))) in Ec0, Ec1 by (rewrite length_app; lia).
  set (r := (length msg mod 64)%nat) in *.
  destruct (Z.ltb_spec 63 (Z.of_nat r + Z.of_nat (length data))) as [Hge|Hlt].
  - replace (Z.to_nat (64 - Z.of_nat r)) with (64 - r)%nat by lia.
    rewrite sha1_bloques_nat by (done || lia). rewrite sha1_transform_bloque.
    2:{ destruct HA as [Hb _]. rewrite length_memcpy; rewrite ?length_take; lia. }
    2:{ unfold r. rewrite (primer_bloque _ _ _ _ _ _ HA); [by apply bytes_corte|]. fold r. lia. }
    split; [done|]. split; [|done].
    cbn [state buffer]. rewrite Nat2Z.id. apply absorbe_pasa; [done|]. fold r. lia.
  - split; [done|]. split; [|done]. apply absorbe_cabe; [done|]. fold r. lia.
Qed.

(** *** Padding and digest *)

(** The loop adds zeros until eight bytes of the block are left. *)
Lemma land_504 len : Z.land (u32 (8 * Z.of_nat len)) 504 = 8 * Z.of_nat (len mod 64).
Proof.
  change 504 with (Z.shiftl (Z.ones 6) 3).
  assert (u32 (8 * Z.of_nat len) = Z.shiftl (Z.shiftr (u32 (8 * Z.of_nat len)) 3) 3) as ->.
  { rewrite Z.shiftl_mul_pow2, Z.shiftr_div_pow2 by lia. unfold u32. change (2 ^ 32) with (2 ^ 3 * 2 ^ 29).
    change 8 with (2 ^ 3). rewrite Z.mul_mod_distr_l by lia. rewrite (Z.mul_comm (2 ^ 3)), Z.div_mul by lia. done. }
  rewrite <- Z.shiftl_land, <- (shiftr3_land len). change 63 with (Z.ones 6).
  rewrite (Z.shiftl_mul_pow2 _ 3) by lia. lia.
Qed.

Lemma rellenar_absorbe fuel c msg :
  Absorbe c msg -> (Z.to_nat ((56 - Z.of_nat (length msg)) mod 64) < fuel)%nat ->
  exists c', rellenar be fuel c = Some c' /\
    Absorbe c' (msg ++ replicate (Z.to_nat ((56 - Z.of_nat (length msg)) mod 64)) 0).
Proof.
  revert c msg. induction fuel as [|fuel IH]; intros c msg HA Hf; [lia|]. cbn [rellenar].
  pose proof HA as (_ & _ & -> & _). rewrite land_504.
  pose proof (Nat.mod_upper_bound (length msg) 64 ltac:(lia)) as Hr.
  assert ((56 - Z.of_nat (length msg)) mod 64 = (56 - Z.of_nat (length msg mod 64)) mod 64) as E.
  { rewrite Nat2Z.inj_mod. symmetry. apply Zminus_mod_idemp_r. }
  destruct (Z.eqb_spec (8 * Z.of_nat (length msg mod 64)) 448) as [H|H].
  - exists c. split; [done|]. rewrite E. replace (56 - Z.of_nat (length msg mod 64)) with 0 by lia.
    change (Z.to_nat (0 mod 64)) with 0%nat. by rewrite app_nil_r.
  - assert ((56 - Z.of_nat (length msg)) mod 64 = (56 - Z.of_nat (length (msg ++ [0]))) mod 64 + 1) as E'.
    { rewrite length_app. cbn [length]. symmetry. rewrite <- (Z.mod_small ((56 - Z.of_nat (length msg + 1)) mod 64 + 1) 64).
      - rewrite Z.add_mod_idemp_l by lia. f_equal. lia.
      - pose proof (Z.mod_pos_bound (56 - Z.of_nat (length msg + 1)) 64 ltac:(lia)).
        destruct (Z.eq_dec ((56 - Z.of_nat (length msg + 1)) mod 64) 63) as [E0|]; [|lia].
        pose proof (Z.div_mod (56 - Z.of_nat (length msg + 1)) 64 ltac:(lia)).
        pose proof (Nat.div_mod_eq (length msg) 64). exfalso. lia. }
    rewrite E' in Hf |- *. pose proof (Z.mod_pos_bound (56 - Z.of_nat (length (msg ++ [0]))) 64 ltac:(lia)).
    destruct (IH (SHA1Update be c [0]) (msg ++ [0])) as (c' & -> & HA').
    + apply sha1_update_absorbe; [done| |cbn; lia]. by repeat constructor.
    + lia.
    + exists c'. split; [done|]. rewrite Z2Nat.inj_add, Nat.add_comm by lia. by rewrite <- app_assoc in HA'.
Qed.

Lemma octeto_ok w i :
  octeto w i = (w / 2 ^ (8 * (3 - Z.of_nat (Nat.land i 3)))) mod 256.
Proof.
  unfold octeto. change 255 with (Z.ones 8). rewrite Z.land_ones, Z.shiftr_div_pow2; [by rewrite Z.mul_comm| |lia].
  change 3%nat with (Nat.ones 2) at 1. rewrite Nat.land_ones. pose proof (Nat.mod_upper_bound i 4 ltac:(lia)). cbn [Nat.pow Nat.mul Nat.add]. lia.
Qed.

Lemma octeto_u32 z i : octeto (u32 z) i = octeto z i.
Proof.
  unfold octeto.
  assert (0 <= Z.of_nat (Nat.land i 3) <= 3) as Hi.
  { change 3%nat with (Nat.ones 2). rewrite Nat.land_ones.
    pose proof (Nat.mod_upper_bound i 4 ltac:(lia)). cbn [Nat.pow Nat.mul Nat.add]. lia. }
  rewrite byte_de_palabra by lia. change 255 with (Z.ones 8).
  by rewrite Z.land_ones, Z.shiftr_div_pow2 by lia.
Qed.

Lemma finalcount_ok c msg : Absorbe c msg -> finalcount c = Fips.escribir 8 (8 * Z.of_nat (length msg)).
Proof.
  intros (_ & _ & E0 & E1). unfold finalcount, Fips.escribir. generalize dependent (8 * Z.of_nat (length msg)).
  intros z E0 E1. cbn [seq fmap list_fmap Nat.leb]. rewrite E0, E1, !octeto_u32, !octeto_ok.
  repeat match goal with |- context [8 * ?e] => let v := eval vm_compute in (8 * e) in change (8 * e) with v end.
  rewrite !Z.div_div by lia. rewrite <- !Z.pow_add_r by lia. reflexivity.
Qed.

Lemma digest_ok st :
  digest st = let '(a, b, c, d, e) := st in
    Fips.escribir 4 a ++ Fips.escribir 4 b ++ Fips.escribir 4 c ++ Fips.escribir 4 d ++ Fips.escribir 4 e.
Proof.
  destruct st as [[[[a b] c] d] e]. unfold digest. cbn [seq fmap list_fmap Nat.shiftr Nat.div2 nth].
  rewrite !octeto_ok. reflexivity.
Qed.

Lemma escribir_rango n z : bytes (Fips.escribir n z).
Proof. unfold Fips.escribir. rewrite Forall_fmap, Forall_forall. intros j _. cbn. apply Z.mod_pos_bound. lia. Qed.

Lemma final_absorbe c msg : Absorbe c msg -> SHA1Final be c = Some (Fips.sha1 msg).
Proof.
  intros HA. unfold SHA1Final. rewrite (finalcount_ok c msg HA).
  assert (Absorbe (SHA1Update be c [0x80]) (msg ++ [0x80])) as H1.
  { apply sha1_update_absorbe; [done| |cbn; lia]. by repeat constructor. }
  destruct (rellenar_absorbe 65 _ _ H1) as (c' & -> & H2).
  { pose proof (Z.mod_pos_bound (56 - Z.of_nat (length (msg ++ [0x80]))) 64 ltac:(lia)). lia. }
  assert (Z.to_nat ((56 - Z.of_nat (length (msg ++ [0x80]))) mod 64) = relleno (length msg)) as E.
  { unfold relleno. rewrite length_app. cbn [length]. do 2 f_equal. lia. }
  rewrite E in H2. assert (Absorbe (SHA1Update be c' (Fips.escribir 8 (8 * Z.of_nat (length msg)))) (Fips.rellenar msg)) as H3.
  { unfold Fips.rellenar. rewrite <- app_assoc in H2. cbn [app] in H2.
    replace (msg ++ 0x80 :: replicate (relleno (length msg)) 0 ++ Fips.escribir 8 (8 * Z.of_nat (length msg)))
      with ((msg ++ 0x80 :: replicate (relleno (length msg)) 0) ++ Fips.escribir 8 (8 * Z.of_nat (length msg)))
      by (by rewrite <- app_assoc).
    apply sha1_update_absorbe; [done|apply escribir_rango|cbn; lia]. }
  destruct H3 as (_ & H3 & _). f_equal. rewrite (absorbido_multiplo _ _ _ _ _ H3), digest_ok. reflexivity.
Qed.
End Correcto.

(** On a machine of either byte order, and whatever the stack held, the SHA-1 code of the
    web server returns the FIPS 180 digest of every message shorter than 2^32 bytes; its
    padding loop stops. *)
Theorem sha1_fips180 (be : bool) (basura : SHA1_CTX) (data : list Z) :
  length (buffer basura) = 64%nat -> Forall (fun b => 0 <= b < 256) data ->
  Z.of_nat (length data) < 2 ^ 32 -> sha1 be basura data = Some (Fips.sha1 data).
Proof.
  intros Hb Hd Hl. apply final_absorbe. apply (sha1_update_absorbe _ _ []); [by apply sha1_init_absorbe|done|done].
Qed.

Lemma sha1_fips180_witness :
  sha1 false pila_cero (bytes_of "mensajero") = Some (Fips.sha1 (bytes_of "mensajero")) /\
  sha1 true pila_cero (bytes_of "mensajero") = sha1 false pila_cero (bytes_of "mensajero").
Proof.
  split; [apply (sha1_fips180 false pila_cero (bytes_of "mensajero"));
    [reflexivity|apply bytes_of_rango|vm_compute; reflexivity]|].
  vm_compute. reflexivity.
Defined.
End Sha1Correcto.
