(* ===== verification/MgMd5.v ===== *)
(** * MgMd5: the MD5 code of src/WebServer/mongoose.c

    The web server has an MD5 of its own, for digest authentication, with its state in the
    record [MD5_CTX].  It reads its buffer as words of the machine, after swapping their bytes
    ([byteReverse]) on machines that are not little-endian.  Proved to compute RFC 1321 on both
    byte orders, and so the digests of the class of src/Utilidades/md5.cpp. *)

From S2P Require Import Prelude Bloques Rfc1321 Md5 Sha1.
Open Scope Z_scope.

Module MgMd5.
Import Md5.

Section Maquina.
Context (is_big_endian : bool).

(** [* (uint32_t * ) buf = t]: the bytes the machine stores. *)
Definition almacenar (t : Z) : list Z :=
  if is_big_endian
  then [Z.land (Z.shiftr t 24) 0xff; Z.land (Z.shiftr t 16) 0xff; Z.land (Z.shiftr t 8) 0xff; Z.land t 0xff]
  else [Z.land t 0xff; Z.land (Z.shiftr t 8) 0xff; Z.land (Z.shiftr t 16) 0xff; Z.land (Z.shiftr t 24) 0xff].

Fixpoint byteReverse (buf : list Z) (longs : nat) : list Z :=
  if is_big_endian then
    match longs, buf with
    | S longs, b0 :: b1 :: b2 :: b3 :: buf =>
        let t := Z.lor (Z.shiftl (Z.lor (Z.shiftl b3 8) b2) 16) (Z.lor (Z.shiftl b1 8) b0) in
        almacenar (u32 t) ++ byteReverse buf longs
    | _, _ => buf
    end
  else buf.

Definition F1 (x y z : Z) : Z := Z.lxor z (Z.land x (Z.lxor y z)).
Definition F2 (x y z : Z) : Z := F1 z x y.
Definition F3 (x y z : Z) : Z := Z.lxor (Z.lxor x y) z.
Definition F4 (x y z : Z) : Z := Z.lxor y (Z.lor x (lnot32 z)).

(** [MD5STEP(f, w, x, y, z, in[k] + ac, s)]: the new value of [w]. *)
Definition MD5STEP (f : Z -> Z -> Z -> Z) (w x y z ink s ac : Z) : Z :=
  let w := u32 (w + (f x y z + u32 (ink + ac))) in
  let w := Z.lor (u32 (Z.shiftl w s)) (Z.shiftr w (32 - s)) in
  u32 (w + x).

Definition pasos : list llamada := [
  Llamada (MD5STEP F1) ra rb rc rd 0 7 0xd76aa478; Llamada (MD5STEP F1) rd ra rb rc 1 12 0xe8c7b756;
  Llamada (MD5STEP F1) rc rd ra rb 2 17 0x242070db; Llamada (MD5STEP F1) rb rc rd ra 3 22 0xc1bdceee;
  Llamada (MD5STEP F1) ra rb rc rd 4 7 0xf57c0faf; Llamada (MD5STEP F1) rd ra rb rc 5 12 0x4787c62a;
  Llamada (MD5STEP F1) rc rd ra rb 6 17 0xa8304613; Llamada (MD5STEP F1) rb rc rd ra 7 22 0xfd469501;
  Llamada (MD5STEP F1) ra rb rc rd 8 7 0x698098d8; Llamada (MD5STEP F1) rd ra rb rc 9 12 0x8b44f7af;
  Llamada (MD5STEP F1) rc rd ra rb 10 17 0xffff5bb1; Llamada (MD5STEP F1) rb rc rd ra 11 22 0x895cd7be;
  Llamada (MD5STEP F1) ra rb rc rd 12 7 0x6b901122; Llamada (MD5STEP F1) rd ra rb rc 13 12 0xfd987193;
  Llamada (MD5STEP F1) rc rd ra rb 14 17 0xa679438e; Llamada (MD5STEP F1) rb rc rd ra 15 22 0x49b40821;
  Llamada (MD5STEP F2) ra rb rc rd 1 5 0xf61e2562; Llamada (MD5STEP F2) rd ra rb rc 6 9 0xc040b340;
  Llamada (MD5STEP F2) rc rd ra rb 11 14 0x265e5a51; Llamada (MD5STEP F2) rb rc rd ra 0 20 0xe9b6c7aa;
  Llamada (MD5STEP F2) ra rb rc rd 5 5 0xd62f105d; Llamada (MD5STEP F2) rd ra rb rc 10 9 0x02441453;
  Llamada (MD5STEP F2) rc rd ra rb 15 14 0xd8a1e681; Llamada (MD5STEP F2) rb rc rd ra 4 20 0xe7d3fbc8;
  Llamada (MD5STEP F2) ra rb rc rd 9 5 0x21e1cde6; Llamada (MD5STEP F2) rd ra rb rc 14 9 0xc33707d6;
  Llamada (MD5STEP F2) rc rd ra rb 3 14 0xf4d50d87; Llamada (MD5STEP F2) rb rc rd ra 8 20 0x455a14ed;
  Llamada (MD5STEP F2) ra rb rc rd 13 5 0xa9e3e905; Llamada (MD5STEP F2) rd ra rb rc 2 9 0xfcefa3f8;
  Llamada (MD5STEP F2) rc rd ra rb 7 14 0x676f02d9; Llamada (MD5STEP F2) rb rc rd ra 12 20 0x8d2a4c8a;
  Llamada (MD5STEP F3) ra rb rc rd 5 4 0xfffa3942; Llamada (MD5STEP F3) rd ra rb rc 8 11 0x8771f681;
  Llamada (MD5STEP F3) rc rd ra rb 11 16 0x6d9d6122; Llamada (MD5STEP F3) rb rc rd ra 14 23 0xfde5380c;
  Llamada (MD5STEP F3) ra rb rc rd 1 4 0xa4beea44; Llamada (MD5STEP F3) rd ra rb rc 4 11 0x4bdecfa9;
  Llamada (MD5STEP F3) rc rd ra rb 7 16 0xf6bb4b60; Llamada (MD5STEP F3) rb rc rd ra 10 23 0xbebfbc70;
  Llamada (MD5STEP F3) ra rb rc rd 13 4 0x289b7ec6; Llamada (MD5STEP F3) rd ra rb rc 0 11 0xeaa127fa;
  Llamada (MD5STEP F3) rc rd ra rb 3 16 0xd4ef3085; Llamada (MD5STEP F3) rb rc rd ra 6 23 0x04881d05;
  Llamada (MD5STEP F3) ra rb rc rd 9 4 0xd9d4d039; Llamada (MD5STEP F3) rd ra rb rc 12 11 0xe6db99e5;
  Llamada (MD5STEP F3) rc rd ra rb 15 16 0x1fa27cf8; Llamada (MD5STEP F3) rb rc rd ra 2 23 0xc4ac5665;
  Llamada (MD5STEP F4) ra rb rc rd 0 6 0xf4292244; Llamada (MD5STEP F4) rd ra rb rc 7 10 0x432aff97;
  Llamada (MD5STEP F4) rc rd ra rb 14 15 0xab9423a7; Llamada (MD5STEP F4) rb rc rd ra 5 21 0xfc93a039;
  Llamada (MD5STEP F4) ra rb rc rd 12 6 0x655b59c3; Llamada (MD5STEP F4) rd ra rb rc 3 10 0x8f0ccc92;
  Llamada (MD5STEP F4) rc rd ra rb 10 15 0xffeff47d; Llamada (MD5STEP F4) rb rc rd ra 1 21 0x85845dd1;
  Llamada (MD5STEP F4) ra rb rc rd 8 6 0x6fa87e4f; Llamada (MD5STEP F4) rd ra rb rc 15 10 0xfe2ce6e0;
  Llamada (MD5STEP F4) rc rd ra rb 6 15 0xa3014314; Llamada (MD5STEP F4) rb rc rd ra 13 21 0x4e0811a1;
  Llamada (MD5STEP F4) ra rb rc rd 4 6 0xf7537e82; Llamada (MD5STEP F4) rd ra rb rc 11 10 0xbd3af235;
  Llamada (MD5STEP F4) rc rd ra rb 2 15 0x2ad7d2bb; Llamada (MD5STEP F4) rb rc rd ra 9 21 0xeb86d391
].

(** On the sixteen words the machine reads in [in]. *)
Definition MD5Transform (buf : estado) (in_ : list Z) : estado :=
  let '(b0, b1, b2, b3) := buf in
  let '(a, b, c, d) := foldl (ejecutar (Sha1.palabras is_big_endian in_)) buf pasos in
  (u32 (b0 + a), u32 (b1 + b), u32 (b2 + c), u32 (b3 + d)).

Record MD5_CTX : Type := mkCTX {
  buf : estado;         (* uint32_t buf[4] *)
  bits0 : Z;            (* uint32_t bits[2] *)
  bits1 : Z;
  in_ : list Z }.       (* unsigned char in[64] *)

Definition MD5Init (ctx : MD5_CTX) : MD5_CTX :=
  mkCTX (0x67452301, 0xefcdab89, 0x98badcfe, 0x10325476) 0 0 (in_ ctx).

(** [byteReverse(ctx->in, 16); MD5Transform(ctx->buf, (uint32_t * ) ctx->in);] *)
Definition bloque_lleno (st : estado) (i : list Z) : estado * list Z :=
  let i := byteReverse i 16 in (MD5Transform st i, i).

(** [while (len >= 64)]: the state, [in] and the rest of the input.  Every turn takes 64
    bytes: the length of the input is fuel enough. *)
Fixpoint bloques (fuel : nat) (st : estado) (i input : list Z) : estado * list Z * list Z :=
  match fuel with
  | O => (st, i, input)
  | S fuel =>
      if (64 <=? length input)%nat then
        let '(st, i) := bloque_lleno st (memcpy i 0 (take 64 input)) in
        bloques fuel st i (drop 64 input)
      else (st, i, input)
  end.

Definition MD5Update (ctx : MD5_CTX) (input : list Z) : MD5_CTX :=
  let len := Z.of_nat (length input) in
  let t := bits0 ctx in
  let b0 := u32 (t + u32 (Z.shiftl len 3)) in
  let b1 := if b0 <? t then u32 (bits1 ctx + 1) else bits1 ctx in
  let b1 := u32 (b1 + Z.shiftr len 29) in
  let t := Z.land (Z.shiftr t 3) 0x3f in
  let resto (st : estado) (i input : list Z) :=
    let '(st, i, input) := bloques (length input) st i input in
    mkCTX st b0 b1 (memcpy i 0 input) in
  if negb (t =? 0) then
    let p := t in
    let t := 64 - t in
    if len <? t then mkCTX (buf ctx) b0 b1 (memcpy (in_ ctx) p input)
    else
      let '(st, i) := bloque_lleno (buf ctx) (memcpy (in_ ctx) p (take (Z.to_nat t) input)) in
      resto st i (drop (Z.to_nat t) input)
  else resto (buf ctx) (in_ ctx) input.

Definition MD5Final (ctx : MD5_CTX) : list Z :=
  let count := Z.land (Z.shiftr (bits0 ctx) 3) 0x3F in
  let i := memcpy (in_ ctx) count [0x80] in
  let p := count + 1 in
  let count := 64 - 1 - count in
  let '(st, i) :=
    if count <? 8 then
      let '(st, i) := bloque_lleno (buf ctx) (memcpy i p (replicate (Z.to_nat count) 0)) in
      (st, memcpy i 0 (replicate 56 0))
    else (buf ctx, memcpy i p (replicate (Z.to_nat (count - 8)) 0)) in
  let i := byteReverse i 14 in
  let i := memcpy i 56 (almacenar (bits0 ctx)) in
  let i := memcpy i 60 (almacenar (bits1 ctx)) in
  let '(a, b, c, d) := MD5Transform st i in
  byteReverse (almacenar a ++ almacenar b ++ almacenar c ++ almacenar d) 4.

Definition hex : string := "0123456789abcdef".
Fixpoint bin2str (p : list Z) : string :=
  match p with
  | [] => ""
  | b :: p =>
      String (default NUL (String.get (Z.to_nat (Z.shiftr b 4)) hex))
        (String (default NUL (String.get (Z.to_nat (Z.land b 0x0f)) hex)) (bin2str p))
  end.

(** [mg_md5(buf, s1, ..., sn, NULL)] on a stack that holds [basura]. *)
Definition mg_md5 (basura : MD5_CTX) (l : list string) : string :=
  bin2str (MD5Final (foldl (fun ctx p => MD5Update ctx (bytes_of (c_str p))) (MD5Init basura) l)).

End Maquina.

Definition pila_cero : MD5_CTX := mkCTX (0, 0, 0, 0) 0 0 (replicate 64 0).
End MgMd5.

(** ** The code computes RFC 1321 *)
Module MgMd5Correcto.
Import Md5 MgMd5.

(** *** The steps *)

Lemma u32_bits a b : (forall n, 0 <= n < 32 -> Z.testbit a n = Z.testbit b n) -> u32 a = u32 b.
Proof.
  intros H. apply Z.bits_inj'. intros n Hn. unfold u32.
  destruct (Z_lt_le_dec n 32); [by rewrite !Z.mod_pow2_bits_low, H by lia|by rewrite !Z.mod_pow2_bits_high by lia].
Qed.
Lemma testbit_lnot32 x n : 0 <= n < 32 -> Z.testbit (lnot32 x) n = negb (Z.testbit x n).
Proof. intros Hn. unfold lnot32, u32. by rewrite Z.mod_pow2_bits_low, Z.lnot_spec by lia. Qed.

Lemma F1_ok x y z : u32 (F1 x y z) = u32 (F x y z).
Proof.
  apply u32_bits. intros n Hn. unfold F1, F. rewrite Z.lxor_spec, Z.lor_spec, !Z.land_spec, Z.lxor_spec, testbit_lnot32 by lia.
  by destruct (Z.testbit x n), (Z.testbit y n), (Z.testbit z n).
Qed.
Lemma F2_ok x y z : u32 (F2 x y z) = u32 (G x y z).
Proof.
  apply u32_bits. intros n Hn. unfold F2, F1, G. rewrite Z.lxor_spec, Z.lor_spec, !Z.land_spec, Z.lxor_spec, testbit_lnot32 by lia.
  by destruct (Z.testbit x n), (Z.testbit y n), (Z.testbit z n).
Qed.

Lemma paso_step f g : (forall x y z, u32 (f x y z) = u32 (g x y z)) -> Md5Correcto.paso_ok g (MD5STEP f).
Proof.
  intros Hf x a b c d k s t. unfold Calculo.paso, MD5STEP.
  assert (u32 (a + (f b c d + u32 (nth k x 0 + t))) = u32 (a + g b c d + nth k x 0 + t)) as ->.
  { rewrite Z.add_assoc, u32_add_r. replace (a + f b c d + (nth k x 0 + t)) with (a + nth k x 0 + t + f b c d) by lia.
    rewrite <- u32_add_r, Hf, u32_add_r. f_equal. lia. }
  fold (rol32 (u32 (a + g b c d + nth k x 0 + t)) s). by rewrite (Z.add_comm b).
Qed.

Lemma pasos_rondas x v : foldl (ejecutar x) v pasos = Calculo.rondas x v.
Proof.
  unfold pasos, Calculo.rondas.
  do 4 rewrite (Md5Correcto.cuatro_llamadas F (MD5STEP F1)) by (apply paso_step, F1_ok).
  do 4 rewrite (Md5Correcto.cuatro_llamadas G (MD5STEP F2)) by (apply paso_step, F2_ok).
  do 4 rewrite (Md5Correcto.cuatro_llamadas H (MD5STEP F3)) by (by apply paso_step).
  do 4 rewrite (Md5Correcto.cuatro_llamadas I (MD5STEP F4)) by (by apply paso_step).
  reflexivity.
Qed.

(** *** Words and bytes *)

Abbreviation bytes := (Forall (fun b => 0 <= b < 256)).

Lemma palabra4_lor b0 b1 b2 b3 : 0 <= b0 < 256 -> 0 <= b1 < 256 -> 0 <= b2 < 256 ->
  Sha1Correcto.palabra4 b0 b1 b2 b3 = Z.lor b0 (Z.lor (Z.shiftl b1 8) (Z.lor (Z.shiftl b2 16) (Z.shiftl b3 24))).
Proof.
  intros H0 H1 H2. unfold Sha1Correcto.palabra4. rewrite !Sha1Correcto.byte_lor by done.
  by rewrite !Z.shiftl_lor, !Z.shiftl_shiftl by lia.
Qed.

(** The bytes of a word, put together again. *)
Lemma bytes_palabra w : 0 <= w < 2 ^ 32 ->
  Sha1Correcto.palabra4 (Z.land w 0xff) (Z.land (Z.shiftr w 8) 0xff) (Z.land (Z.shiftr w 16) 0xff) (Z.land (Z.shiftr w 24) 0xff) = w.
Proof.
  intros Hw. unfold Sha1Correcto.palabra4. change 0xff with (Z.ones 8).
  rewrite !Z.land_ones, !Z.shiftr_div_pow2 by lia.
  change (2 ^ 16) with (2 ^ 8 * 2 ^ 8). change (2 ^ 24) with (2 ^ 8 * (2 ^ 8 * 2 ^ 8)). rewrite <- !Z.div_div by lia.
  rewrite (Z.mod_small (w / 2 ^ 8 / 2 ^ 8 / 2 ^ 8)).
  - rewrite !(Z.add_comm (_ mod _)), <- !Z.div_mod by lia. done.
  - rewrite !Z.div_div by lia. split; [apply Z.div_pos; lia|apply Z.div_lt_upper_bound; lia].
Qed.

Section Correcto.
Context (be : bool).

Lemma palabras_almacenar w r : 0 <= w < 2 ^ 32 -> Sha1.palabras be (almacenar be w ++ r) = w :: Sha1.palabras be r.
Proof.
  intros Hw. pose proof (bytes_palabra w Hw) as E. unfold Sha1Correcto.palabra4 in E. unfold almacenar.
  destruct be; cbn [Sha1.palabras app]; by rewrite E.
Qed.

Lemma sin_invertir b n : byteReverse false b n = b.
Proof. by destruct b, n. Qed.

Lemma palabras_invertidas n b : length b = (4 * n)%nat -> bytes b -> Sha1.palabras be (byteReverse be b n) = decode b.
Proof.
  revert b. induction n as [|n IH]; intros b Hl Hb.
  - destruct b; [|done]. cbn. by destruct be.
  - destruct b as [|b0 [|b1 [|b2 [|b3 b]]]]; cbn in Hl; try lia.
    rewrite !Forall_cons in Hb. destruct Hb as (H0 & H1 & H2 & H3 & Hb). specialize (IH b ltac:(lia) Hb).
    pose proof (palabra4_lor b0 b1 b2 b3 H0 H1 H2) as E.
    pose proof (Sha1Correcto.palabra4_rango b0 b1 b2 b3 H0 H1 H2 H3) as R. cbn [byteReverse decode]. destruct be eqn:Ebe.
    + assert (Z.lor (Z.shiftl (Z.lor (Z.shiftl b3 8) b2) 16) (Z.lor (Z.shiftl b1 8) b0) = Sha1Correcto.palabra4 b0 b1 b2 b3) as ->.
      { rewrite E, Z.shiftl_lor, Z.shiftl_shiftl by lia. change (8 + 16) with 24.
        rewrite (Z.lor_comm (Z.shiftl b3 24)), (Z.lor_comm _ (Z.lor _ b0)), (Z.lor_comm _ b0), <- !Z.lor_assoc. done. }
      rewrite u32_small by done. rewrite <- Ebe, palabras_almacenar by done. rewrite Ebe, IH. f_equal. rewrite E. by rewrite !Z.lor_assoc.
    + cbn [Sha1.palabras]. rewrite sin_invertir in IH. f_equal; [|exact IH].
      fold (Sha1Correcto.palabra4 b0 b1 b2 b3). rewrite E. by rewrite !Z.lor_assoc.
Qed.

Lemma length_almacenar w : length (almacenar be w) = 4%nat.
Proof. unfold almacenar. by destruct be. Qed.

Lemma length_invertir n b : length (byteReverse be b n) = length b.
Proof.
  revert b. induction n as [|n IH]; intros b; [by destruct b; destruct be|].
  destruct b as [|b0 [|b1 [|b2 [|b3 b]]]]; cbn [byteReverse]; destruct be eqn:Ebe; try done.
  rewrite length_app, <- Ebe, length_almacenar, Ebe, IH. done.
Qed.

(** Only the first [4 * n] bytes change. *)
Lemma invertir_app n a b : length a = (4 * n)%nat -> byteReverse be (a ++ b) n = byteReverse be a n ++ b.
Proof.
  revert a. induction n as [|n IH]; intros a Hl.
  - destruct a; [|done]. by destruct b, be.
  - destruct a as [|a0 [|a1 [|a2 [|a3 a]]]]; cbn in Hl; try lia. specialize (IH a ltac:(lia)).
    cbn [byteReverse app]. destruct be; [|done]. by rewrite IH, app_assoc.
Qed.

Lemma bloque_ok st b : length b = 64%nat -> bytes b ->
  bloque_lleno be st b = (Calculo.bloque st b, byteReverse be b 16).
Proof.
  intros Hl Hb. unfold bloque_lleno, MD5Transform, Calculo.bloque, Calculo.sumar. destruct st as [[[s0 s1] s2] s3].
  by rewrite (palabras_invertidas 16), pasos_rondas.
Qed.

(** *** Absorbing the message *)

Definition Absorbe (c : MD5_CTX) (msg : list Z) : Prop :=
  bytes msg /\ Absorbido Calculo.bloque Rfc.iv (buf c) (in_ c) msg /\
  bits0 c = u32 (8 * Z.of_nat (length msg)) /\
  bits1 c = u32 (8 * Z.of_nat (length msg) / 2 ^ 32).

Lemma mg_init_absorbe c : length (in_ c) = 64%nat -> Absorbe (MD5Init c) [].
Proof. intros H. split; [done|]. split; [by apply absorbido_vacio|done]. Qed.

Lemma mg_bloques fuel st i input :
  bytes input -> length i = 64%nat -> (length input / 64 <= fuel)%nat ->
  exists i', length i' = 64%nat /\
    bloques be fuel st i input =
    (procesar Calculo.bloque (length input / 64) st input, i', drop (64 * (length input / 64)) input).
Proof.
  revert st i input. induction fuel as [|fuel IH]; intros st i input Hb Hi Hf.
  - exists i. assert (length input / 64 = 0)%nat as -> by lia. by rewrite Nat.mul_0_r.
  - cbn [bloques]. destruct (Nat.leb_spec 64 (length input)) as [H64|H64].
    + assert (length input / 64 = S (length (drop 64 input) / 64))%nat as E.
      { rewrite length_drop. replace (length input) with (length input - 64 + 1 * 64)%nat at 1 by lia.
        rewrite Nat.div_add by lia. lia. }
      rewrite E in Hf |- *. rewrite bloque_ok.
      * destruct (IH (Calculo.bloque st (memcpy i 0 (take 64 input))) (byteReverse be (memcpy i 0 (take 64 input)) 16) (drop 64 input))
          as (i' & Hi' & ->); [by apply Forall_drop| |lia|].
        { rewrite length_invertir, memcpy_todo, length_take by (rewrite length_take; lia). lia. }
        exists i'. split; [done|]. cbn [procesar]. rewrite drop_drop. f_equal; [|f_equal; lia].
        by rewrite memcpy_todo by (rewrite length_take; lia).
      * rewrite memcpy_todo, length_take by (rewrite length_take; lia). lia.
      * rewrite memcpy_todo by (rewrite length_take; lia). by apply Forall_take.
    + exists i. rewrite Nat.div_small by lia. by rewrite Nat.mul_0_r.
Qed.

(** The whole blocks of the input, from an empty buffer. *)
Lemma absorbe_directo st i msg input :
  bytes input -> Absorbido Calculo.bloque Rfc.iv st i msg -> (length msg mod 64 = 0)%nat ->
  Absorbido Calculo.bloque Rfc.iv (procesar Calculo.bloque (length input / 64) st input)
    (memcpy i 0 (drop (64 * (length input / 64)) input)) (msg ++ input).
Proof.
  intros Hb HA Hr. pose proof HA as (Hi & _). destruct (decide (length input < 64)%nat) as [Hlt|Hge].
  - rewrite Nat.div_small, Nat.mul_0_r by lia. cbn [procesar]. rewrite drop_0.
    pose proof (absorbe_cabe Calculo.bloque Rfc.iv st i msg input HA) as K. rewrite Hr in K. apply K. lia.
  - pose proof (absorbe_pasa Calculo.bloque Rfc.iv st i msg input HA) as K. rewrite Hr, Nat.sub_0_r in K.
    specialize (K ltac:(lia)). cbv zeta in K.
    assert (length input / 64 = S ((length input - 64) / 64))%nat as E.
    { replace (length input) with (length input - 64 + 1 * 64)%nat at 1 by lia. rewrite Nat.div_add by lia. lia. }
    pose proof (Nat.div_mod_eq (length input) 64). pose proof (Nat.mod_upper_bound (length input) 64 ltac:(lia)).
    change (Z.of_nat 0) with 0 in K. change (64 - 0)%nat with 64%nat in K.
    rewrite (memcpy_todo i (take 64 input)) in K by (rewrite length_take; lia).
    rewrite E. replace (64 * S ((length input - 64) / 64))%nat with (64 + 64 * ((length input - 64) / 64))%nat by lia.
    eapply absorbido_resto; [exact K|done|]. rewrite length_app, length_drop.
    rewrite Nat.Div0.add_mod, Hr, Nat.add_0_l, Nat.Div0.mod_mod. lia.
Qed.

Lemma mg_update_absorbe c msg input :
  Absorbe c msg -> bytes input -> Z.of_nat (length input) < 2 ^ 32 -> Absorbe (MD5Update be c input) (msg ++ input).
Proof.
  intros (Hm & HA & Hc0 & Hc1) Hd Hl. pose proof HA as (Hi & _).
  pose proof (Nat.mod_upper_bound (length msg) 64 ltac:(lia)) as Hr.
  assert (bytes (msg ++ input)) as Hmd by (by apply Forall_app).
  unfold MD5Update. rewrite Hc0, Hc1, (shiftr3_land (length msg) : Z.land _ 0x3f = _).
  destruct (contador_ok (8 * Z.of_nat (length msg)) (Z.of_nat (length input)) _ ltac:(lia) ltac:(lia)
    (or_intror eq_refl)) as [Ec0 Ec1].
  replace (8 * Z.of_nat (length msg) + 8 * Z.of_nat (length input))
    with (8 * Z.of_nat (length (msg ++ input))) in Ec0, Ec1 by (rewrite length_app; lia).
  set (r := (length msg mod 64)%nat) in *.
  destruct (Z.eqb_spec (Z.of_nat r) 0) as [E0|E0]; cbn [negb].
  - destruct (mg_bloques (length input) (buf c) (in_ c) input Hd Hi) as (i' & Hi' & ->);
      [apply Nat.Div0.div_le_upper_bound; lia|].
    split; [done|]. split; [|done]. cbn [buf in_].
    pose proof (Nat.div_mod_eq (length input) 64). pose proof (Nat.mod_upper_bound (length input) 64 ltac:(lia)).
    eapply absorbido_resto; [by apply absorbe_directo; [|exact HA|fold r; lia]|done|].
    rewrite length_app, length_drop, Nat.Div0.add_mod. fold r. replace r with 0%nat by lia.
    rewrite Nat.add_0_l, Nat.Div0.mod_mod. lia.
  - destruct (Z.ltb_spec (Z.of_nat (length input)) (64 - Z.of_nat r)) as [Hlt|Hge].
    + split; [done|]. split; [|done]. apply absorbe_cabe; [done|]. fold r. lia.
    + replace (Z.to_nat (64 - Z.of_nat r)) with (64 - r)%nat by lia.
      assert (length (memcpy (in_ c) (Z.of_nat r) (take (64 - r) input)) = 64%nat) as Hb1
        by (rewrite length_memcpy; rewrite ?length_take; lia).
      rewrite bloque_ok; [|done|].
      2:{ unfold r. rewrite (primer_bloque _ _ _ _ _ _ HA); [by apply Forall_take, Forall_drop|]. fold r. lia. }
      destruct (mg_bloques (length (drop (64 - r) input)) (Calculo.bloque (buf c) (memcpy (in_ c) (Z.of_nat r) (take (64 - r) input)))
        (byteReverse be (memcpy (in_ c) (Z.of_nat r) (take (64 - r) input)) 16) (drop (64 - r) input)) as (i' & Hi' & ->);
        [by apply Forall_drop|by rewrite length_invertir|apply Nat.Div0.div_le_upper_bound; lia|].
      split; [done|]. split; [|done]. cbn [buf in_]. rewrite drop_drop, length_drop.
      pose proof (absorbe_pasa Calculo.bloque Rfc.iv (buf c) (in_ c) msg input HA ltac:(fold r; lia)) as K. cbv zeta in K. fold r in K.
      eapply absorbido_resto; [exact K|done|]. rewrite length_drop, length_app.
      destruct (div_add_64 (length msg) (length input) r eq_refl ltac:(lia)) as [_ ->].
      pose proof (Nat.div_mod_eq (length input - (64 - r)) 64).
      pose proof (Nat.mod_upper_bound (length input - (64 - r)) 64 ltac:(lia)). lia.
Qed.

(** *** Padding and digest *)

Lemma palabras_app n a b : length a = (4 * n)%nat -> Sha1.palabras be (a ++ b) = Sha1.palabras be a ++ Sha1.palabras be b.
Proof.
  revert a. induction n as [|n IH]; intros a Hl; [by destruct a|].
  destruct a as [|a0 [|a1 [|a2 [|a3 a]]]]; cbn in Hl; try lia. cbn [app Sha1.palabras]. by rewrite IH by lia.
Qed.
End Correcto.

Lemma decode_app n a b : length a = (4 * n)%nat -> decode (a ++ b) = decode a ++ decode b.
Proof.
  revert a. induction n as [|n IH]; intros a Hl; [by destruct a|].
  destruct a as [|a0 [|a1 [|a2 [|a3 a]]]]; cbn in Hl; try lia. cbn [app decode]. by rewrite IH by lia.
Qed.

Lemma ff_rango z : 0 <= Z.land z 0xff < 256.
Proof. change 0xff with (Z.ones 8). rewrite Z.land_ones by lia. apply Z.mod_pos_bound. lia. Qed.

Lemma decode_encode ws : Forall (fun w => 0 <= w < 2 ^ 32) ws -> decode (encode ws) = ws.
Proof.
  induction 1 as [|w ws Hw _ IH]; [done|]. cbn [encode decode]. rewrite IH. f_equal.
  rewrite <- (bytes_palabra w Hw) at 5. rewrite palabra4_lor by apply ff_rango. by rewrite !Z.lor_assoc.
Qed.

(** The bytes of a word made of bytes. *)
Lemma octetos_palabra4 b0 b1 b2 b3 :
  0 <= b0 < 256 -> 0 <= b1 < 256 -> 0 <= b2 < 256 -> 0 <= b3 < 256 ->
  let w := Sha1Correcto.palabra4 b0 b1 b2 b3 in
  Z.land w 0xff = b0 /\ Z.land (Z.shiftr w 8) 0xff = b1 /\ Z.land (Z.shiftr w 16) 0xff = b2 /\ Z.land (Z.shiftr w 24) 0xff = b3.
Proof.
  intros H0 H1 H2 H3 w. change 0xff with (Z.ones 8). rewrite !Z.land_ones, !Z.shiftr_div_pow2 by lia.
  change (2 ^ 16) with (2 ^ 8 * 2 ^ 8). change (2 ^ 24) with (2 ^ 8 * (2 ^ 8 * 2 ^ 8)). rewrite <- !Z.div_div by lia.
  assert (forall b x, 0 <= b < 256 -> (b + 2 ^ 8 * x) mod 2 ^ 8 = b /\ (b + 2 ^ 8 * x) / 2 ^ 8 = x) as K.
  { intros b x Hb. rewrite (Z.mul_comm _ x). rewrite Z_mod_plus_full, Z_div_plus_full by lia. change (2 ^ 8) with 256.
    rewrite Z.mod_small, Z.div_small by lia. lia. }
  unfold w, Sha1Correcto.palabra4. destruct (K b0 (b1 + 2 ^ 8 * (b2 + 2 ^ 8 * b3)) H0) as [-> ->].
  destruct (K b1 (b2 + 2 ^ 8 * b3) H1) as [-> ->]. destruct (K b2 b3 H2) as [-> ->].
  split_and!; try done. by apply Z.mod_small.
Qed.

Section Final.
Context (be : bool).

Lemma invertir_almacenar w r n : byteReverse be (almacenar be w ++ r) (S n) = encode [w] ++ byteReverse be r n.
Proof.
  unfold almacenar. destruct be eqn:Ebe; [|by rewrite !sin_invertir]. cbn [app byteReverse].
  set (b0 := Z.land (Z.shiftr w 24) 0xff). set (b1 := Z.land (Z.shiftr w 16) 0xff).
  set (b2 := Z.land (Z.shiftr w 8) 0xff). set (b3 := Z.land w 0xff).
  assert (Z.lor (Z.shiftl (Z.lor (Z.shiftl b3 8) b2) 16) (Z.lor (Z.shiftl b1 8) b0) = Sha1Correcto.palabra4 b0 b1 b2 b3) as ->.
  { rewrite palabra4_lor, Z.shiftl_lor, Z.shiftl_shiftl by (apply ff_rango || lia). change (8 + 16) with 24.
    rewrite (Z.lor_comm (Z.shiftl b3 24)), (Z.lor_comm _ (Z.lor _ b0)), (Z.lor_comm _ b0), <- !Z.lor_assoc. done. }
  rewrite u32_small by (apply Sha1Correcto.palabra4_rango; apply ff_rango).
  destruct (octetos_palabra4 b0 b1 b2 b3) as (E0 & E1 & E2 & E3); [apply ff_rango..|].
  unfold almacenar. rewrite E0, E1, E2, E3. done.
Qed.

Lemma digest_bytes st :
  (let '(a, b, c, d) := st in byteReverse be (almacenar be a ++ almacenar be b ++ almacenar be c ++ almacenar be d) 4) =
  encode (palabras st).
Proof.
  destruct st as [[[a b] c] d]. rewrite !invertir_almacenar.
  rewrite <- (app_nil_r (almacenar be d)), invertir_almacenar. by destruct be.
Qed.

(** The block with the length of the message, stored as words of the machine. *)
Lemma ultimo_bloque st i a b :
  length i = 64%nat -> bytes (take 56 i) -> 0 <= a < 2 ^ 32 -> 0 <= b < 2 ^ 32 ->
  MD5Transform be st (memcpy (memcpy (byteReverse be i 14) 56 (almacenar be a)) 60 (almacenar be b)) =
  Calculo.bloque st (take 56 i ++ encode [a; b]).
Proof.
  intros Hl Hb Ha Hb'. assert (length (take 56 i) = 56%nat) as H56 by (rewrite length_take; lia).
  rewrite <- (take_drop 56 i) at 1. rewrite invertir_app by done.
  assert (memcpy (memcpy (byteReverse be (take 56 i) 14 ++ drop 56 i) 56 (almacenar be a)) 60 (almacenar be b) =
    byteReverse be (take 56 i) 14 ++ almacenar be a ++ almacenar be b) as ->.
  { unfold memcpy. change (Z.to_nat 56) with 56%nat. change (Z.to_nat 60) with 60%nat.
    rewrite !length_almacenar. cbn [Nat.add]. rewrite (take_app_length' (byteReverse be (take 56 i) 14)) by (by rewrite length_invertir).
    rewrite (app_assoc _ (almacenar be a)), (take_app_length' (_ ++ _)) by (rewrite length_app, length_invertir, length_almacenar; lia).
    rewrite (drop_ge _ 64); [by rewrite app_nil_r, app_assoc|].
    repeat rewrite ?length_app, ?length_drop, ?length_invertir, ?length_almacenar. lia. }
  unfold MD5Transform, Calculo.bloque, Calculo.sumar. destruct st as [[[s0 s1] s2] s3]. rewrite pasos_rondas.
  rewrite (palabras_app be 14), (palabras_invertidas be 14), (palabras_almacenar be a) by (rewrite ?length_invertir; done).
  rewrite <- (app_nil_r (almacenar be b)), (palabras_almacenar be b) by done.
  rewrite (decode_app 14), decode_encode by (done || by repeat constructor; lia). done.
Qed.

Lemma memcpy_dos i (r : nat) x ys :
  length i = 64%nat -> (r + 1 + length ys <= 64)%nat ->
  memcpy (memcpy i (Z.of_nat r) [x]) (Z.of_nat r + 1) ys = take r i ++ x :: ys ++ drop (r + 1 + length ys) i.
Proof.
  intros Hi Hr. unfold memcpy. rewrite Nat2Z.id. replace (Z.to_nat (Z.of_nat r + 1)) with (r + 1)%nat by lia.
  cbn [length]. assert (length (take r i) = r) as Ht by (rewrite length_take; lia).
  rewrite (app_assoc (take r i) [x]), (take_app_length' (take r i ++ [x])) by (rewrite length_app; cbn; lia).
  rewrite <- app_assoc. do 3 f_equal. rewrite drop_app_ge by (rewrite length_app; cbn [length]; lia).
  rewrite drop_drop. f_equal. rewrite length_app. cbn [length]. lia.
Qed.

(** The digest from the state and the bytes that wait in the buffer. *)
Lemma md5_cola st i msg :
  Absorbido Calculo.bloque Rfc.iv st i msg ->
  let cola := take (length msg mod 64) i ++ 0x80 :: replicate (relleno (length msg)) 0 ++ Rfc.longitud64 (length msg) in
  Calculo.md5 msg = encode (palabras (procesar Calculo.bloque (length cola / 64) st cola)).
Proof.
  intros (Hi & Hs & Ht) cola. unfold Calculo.md5, Rfc.rellenar. set (pad := 0x80 :: _ ++ _) in *.
  pose proof (Nat.div_mod_eq (length msg) 64) as Hd. pose proof (Nat.mod_upper_bound (length msg) 64 ltac:(lia)) as Hr.
  assert (length (msg ++ pad) / 64 = length msg / 64 + length cola / 64)%nat as ->.
  { unfold cola. rewrite !length_app, length_take, Hi, Nat.min_l by lia. rewrite Hd at 1.
    replace (64 * (length msg / 64) + length msg mod 64 + length pad)%nat
      with (length msg mod 64 + length pad + length msg / 64 * 64)%nat by lia. rewrite Nat.div_add by lia. lia. }
  rewrite procesar_app, procesar_ext, <- Hs, drop_app_le, <- Ht by lia. done.
Qed.

Lemma length_longitud n : length (Rfc.longitud64 n) = 8%nat.
Proof. unfold Rfc.longitud64. by rewrite length_fmap, length_seq. Qed.

Lemma relleno_valor n : relleno n = if decide (n mod 64 < 56)%nat then (55 - n mod 64)%nat else (119 - n mod 64)%nat.
Proof.
  pose proof (relleno_index n) as E. cbv zeta in E. pose proof (Nat.mod_upper_bound n 64 ltac:(lia)).
  destruct (Z.ltb_spec (Z.of_nat (n mod 64)) 56), (decide (n mod 64 < 56)%nat); lia.
Qed.

Lemma ceros_bytes n : bytes (replicate n 0).
Proof. apply Forall_replicate. lia. Qed.

(** The digest of a state [st] with [m] in the buffer, when the length fits in the block and when
    it takes another one. *)
Lemma final_cabe st i m b0 b1 (r := length m) :
  length i = 64%nat -> take r i = m -> bytes m -> (r < 56)%nat -> 0 <= b0 < 2 ^ 32 -> 0 <= b1 < 2 ^ 32 ->
  let j := memcpy (memcpy i (Z.of_nat r) [0x80]) (Z.of_nat r + 1) (replicate (55 - r) 0) in
  (let '(a, b, c, d) := MD5Transform be st (memcpy (memcpy (byteReverse be j 14) 56 (almacenar be b0)) 60 (almacenar be b1)) in
   byteReverse be (almacenar be a ++ almacenar be b ++ almacenar be c ++ almacenar be d) 4) =
  encode (palabras (procesar Calculo.bloque 1 st (m ++ 0x80 :: replicate (55 - r) 0 ++ encode [b0; b1]))).
Proof.
  intros Hi Ht Hm Hr H0 H1 j. subst j. rewrite memcpy_dos by (rewrite ?length_replicate; lia). rewrite length_replicate.
  set (j := take r i ++ 0x80 :: _). assert (take 56 j = m ++ 0x80 :: replicate (55 - r) 0) as E2.
  { unfold j. rewrite Ht, app_comm_cons, app_assoc, take_app_length'; [done|]. rewrite length_app. cbn [length].
    rewrite length_replicate. lia. }
  rewrite ultimo_bloque; [|unfold j; rewrite Ht, length_app; cbn [length]; rewrite length_app, length_replicate, length_drop; lia
    |rewrite E2; apply Forall_app; split; [done|constructor; [lia|apply ceros_bytes]]|done..].
  rewrite digest_bytes, E2, <- app_assoc. cbn [app procesar]. rewrite (take_ge (m ++ _)); [done|].
  rewrite length_app. cbn [length]. rewrite length_app, length_replicate. cbn. lia.
Qed.

Lemma final_pasa st i m b0 b1 (r := length m) :
  length i = 64%nat -> take r i = m -> bytes m -> (56 <= r < 64)%nat -> 0 <= b0 < 2 ^ 32 -> 0 <= b1 < 2 ^ 32 ->
  let '(st1, j) := bloque_lleno be st (memcpy (memcpy i (Z.of_nat r) [0x80]) (Z.of_nat r + 1) (replicate (63 - r) 0)) in
  let j := memcpy j 0 (replicate 56 0) in
  (let '(a, b, c, d) := MD5Transform be st1 (memcpy (memcpy (byteReverse be j 14) 56 (almacenar be b0)) 60 (almacenar be b1)) in
   byteReverse be (almacenar be a ++ almacenar be b ++ almacenar be c ++ almacenar be d) 4) =
  encode (palabras (procesar Calculo.bloque 2 st (m ++ 0x80 :: replicate (119 - r) 0 ++ encode [b0; b1]))).
Proof.
  intros Hi Ht Hm Hr H0 H1. rewrite memcpy_dos by (rewrite ?length_replicate; lia).
  rewrite length_replicate, drop_ge, app_nil_r, Ht by lia. set (lleno := m ++ 0x80 :: replicate (63 - r) 0).
  assert (length lleno = 64%nat) as Hll by (unfold lleno; rewrite length_app; cbn [length]; rewrite length_replicate; lia).
  rewrite bloque_ok by (done || by apply Forall_app; split; [done|constructor; [lia|apply ceros_bytes]]).
  cbv zeta. set (j := memcpy _ 0 (replicate 56 0)). assert (take 56 j = replicate 56 0) as E2.
  { unfold j. rewrite (take_memcpy _ 0 _ 56) by (rewrite ?length_replicate, ?length_invertir; lia). done. }
  rewrite ultimo_bloque, E2, digest_bytes by (try done; rewrite ?E2; try apply ceros_bytes;
    unfold j; rewrite length_memcpy; rewrite ?length_replicate, ?length_invertir; lia).
  replace (119 - r)%nat with (63 - r + 56)%nat by lia. rewrite replicate_add, <- app_assoc.
  assert (m ++ 0x80 :: replicate (63 - r) 0 ++ replicate 56 0 ++ encode [b0; b1] = lleno ++ replicate 56 0 ++ encode [b0; b1])
    as -> by (unfold lleno; by rewrite <- app_assoc).
  cbn [procesar]. rewrite take_app_length', drop_app_length' by done. by rewrite take_ge by done.
Qed.

Lemma mg_final_absorbe c msg : Absorbe c msg -> MD5Final be c = Calculo.md5 msg.
Proof.
  intros (Hm & HA & Hc0 & Hc1). rewrite (md5_cola _ _ _ HA). pose proof HA as (Hi & _ & Ht).
  pose proof (Nat.mod_upper_bound (length msg) 64 ltac:(lia)) as Hr. pose proof (relleno_valor (length msg)) as Ev.
  assert (bytes (take (length msg mod 64) (in_ c))) as Hcola by (rewrite Ht; by apply Forall_drop).
  unfold MD5Final. rewrite Hc0, Hc1, (shiftr3_land (length msg) : Z.land _ 0x3F = _), <- Md5Correcto.longitud_ok, Ev.
  set (r := (length msg mod 64)%nat) in *. set (b0 := u32 (8 * _)). set (b1 := u32 (8 * _ / _)). set (m := take r (in_ c)) in *.
  assert (length m = r) as Hm' by (unfold m; rewrite length_take; lia).
  assert (take (length m) (in_ c) = m) as Htm by (by rewrite Hm').
  assert (forall k, length (m ++ 0x80 :: replicate k 0 ++ encode [b0; b1]) = (r + 9 + k)%nat) as Hl.
  { intros k. rewrite length_app. cbn [length]. rewrite length_app, length_replicate, Hm'. cbn. lia. }
  destruct (Z.ltb_spec (64 - 1 - Z.of_nat r) 8) as [Hlt|Hge]; rewrite Hl.
  - rewrite decide_False by lia. replace (Z.to_nat (64 - 1 - Z.of_nat r)) with (63 - r)%nat by lia.
    replace (r + 9 + (119 - r))%nat with 128%nat by lia.
    pose proof (final_pasa (buf c) (in_ c) m b0 b1 Hi Htm Hcola ltac:(lia) (u32_rango _) (u32_rango _)) as F.
    rewrite Hm' in F. by destruct (bloque_lleno be (buf c) _).
  - rewrite decide_True by lia. replace (Z.to_nat (64 - 1 - Z.of_nat r - 8)) with (55 - r)%nat by lia.
    replace (r + 9 + (55 - r))%nat with 64%nat by lia.
    pose proof (final_cabe (buf c) (in_ c) m b0 b1 Hi Htm Hcola ltac:(lia) (u32_rango _) (u32_rango _)) as F.
    by rewrite Hm' in F.
Qed.

(** *** The text *)

Lemma bin2str_ok l : bytes l -> bin2str l = hex_bytes l.
Proof.
  induction 1 as [|b l Hb _ IH]; [done|]. cbn [bin2str hex_bytes hex02]. rewrite IH.
  assert (forall n, 0 <= n < 16 -> default NUL (String.get (Z.to_nat n) hex) = hex_digit n) as K.
  { intros n Hn. assert (forallb (fun k => Ascii.eqb (default NUL (String.get k hex)) (hex_digit (Z.of_nat k))) (seq 0 16) = true) as H
      by (vm_compute; reflexivity).
    rewrite forallb_forall in H. specialize (H (Z.to_nat n) ltac:(apply in_seq; lia)). rewrite Z2Nat.id in H by lia.
    by apply Ascii.eqb_eq. }
  change 0x0f with (Z.ones 4). rewrite Z.land_ones, Z.shiftr_div_pow2 by lia. change (2 ^ 4) with 16.
  rewrite !K; [done|apply Z.mod_pos_bound; lia|split; [apply Z.div_pos; lia|apply Z.div_lt_upper_bound; lia]].
Qed.

Lemma mg_foldl_absorbe l c msg :
  Absorbe c msg -> Forall (fun s => contiene NUL s = false /\ Z.of_nat (String.length s) < 2 ^ 32) l ->
  Absorbe (foldl (fun ctx p => MD5Update be ctx (bytes_of (c_str p))) c l) (msg ++ bytes_of (unir l)).
Proof.
  intros Hc Hl. revert c msg Hc. induction Hl as [|s l [H0 Hs] _ IH]; intros c msg Hc; cbn [foldl unir].
  - by rewrite app_nil_r.
  - rewrite bytes_of_app, app_assoc. apply IH. rewrite c_str_id by done.
    apply mg_update_absorbe; [done|apply bytes_of_rango|by rewrite length_bytes_of].
Qed.

End Final.

Lemma mg_md5_es (be : bool) (basura : MD5_CTX) (l : list string) :
  length (in_ basura) = 64%nat ->
  Forall (fun s => contiene NUL s = false /\ Z.of_nat (String.length s) < 2 ^ 32) l ->
  mg_md5 be basura l = hex_bytes (Rfc.md5 (bytes_of (unir l))).
Proof.
  intros Hb Hl. unfold mg_md5. rewrite (mg_final_absorbe be _ (bytes_of (unir l))).
  - rewrite Md5Correcto.calculo_rfc. apply bin2str_ok, Md5Correcto.rfc_bytes.
  - apply (mg_foldl_absorbe be l _ []); [by apply mg_init_absorbe|done].
Qed.

(** The MD5 of the web server is RFC 1321: on a machine of either byte order, whatever the
    stack held, [mg_md5] of a list of texts is the hexadecimal digest of their concatenation,
    which is also what [md5] of src/Utilidades computes. *)
Theorem mg_md5_rfc1321 (be : bool) (basura : MD5_CTX) (l : list string) :
  length (in_ basura) = 64%nat ->
  Forall (fun s => contiene NUL s = false /\ Z.of_nat (String.length s) < 2 ^ 32) l ->
  mg_md5 be basura l = hex_bytes (Rfc.md5 (bytes_of (unir l))) /\
  (Z.of_nat (String.length (unir l)) < 2 ^ 32 - 64 -> mg_md5 be basura l = Md5.md5 (unir l)).
Proof.
  intros Hb Hl. pose proof (mg_md5_es be basura l Hb Hl) as E. split; [done|]. intros Hn. rewrite E. symmetry. apply Md5Correcto.absorbe_hexdigest.
  apply (Md5Correcto.update_absorbe _ []); [by apply Md5Correcto.init_absorbe|by rewrite length_bytes_of].
Qed.

Lemma mg_md5_rfc1321_witness :
  mg_md5 true pila_cero ["mensa"; ":"; "jero"] = hex_bytes (Calculo.md5 (bytes_of "mensa:jero")) /\
  (Z.of_nat (String.length "mensa:jero") < 2 ^ 32 - 64 -> mg_md5 true pila_cero ["mensa"; ":"; "jero"] = Md5.md5 "mensa:jero").
Proof.
  apply (mg_md5_rfc1321 true pila_cero ["mensa"; ":"; "jero"]); [reflexivity|].
  repeat (constructor; [split; vm_compute; reflexivity|]). constructor.
Defined.
End MgMd5Correcto.
