(* ===== verification/JsonValue.v ===== *)
(** * JsonValue: [Json::Value] of src/json/json.cpp

    The tagged union [value_] is the inductive [Value]; arrays and objects both hold the
    [std::map<CZString, Value>] of the source as an association list sorted by key.
    A [Value&] returned by [operator[]] or [resolveReference] is modelled by the update
    the caller makes through it: [resolveReference key f v] is [v] after [f] was applied to
    the member.  Assertions that throw [Json::LogicError] are the [Fallo] results.
    Comments and text offsets carried by a value are not modelled: the server
    neither reads nor prints them. *)

From S2P Require Import Prelude Libc.
From Stdlib Require Import Sorted.
Open Scope Z_scope.

Module Json.
Import Libc.

(** ** Widths *)

Definition minInt : Z := - 2 ^ 31.
Definition maxInt : Z := 2 ^ 31 - 1.
Definition maxUInt : Z := 2 ^ 32 - 1.
Definition minInt64 : Z := - 2 ^ 63.
Definition maxInt64 : Z := 2 ^ 63 - 1.
Definition maxUInt64 : Z := 2 ^ 64 - 1.
Definition u64 (z : Z) : Z := z mod 2 ^ 64.
Definition s64 (z : Z) : Z := (z + 2 ^ 63) mod 2 ^ 64 - 2 ^ 63.

Lemma u64_id z : 0 <= z <= maxUInt64 -> u64 z = z.
Proof. intros H. unfold u64, maxUInt64 in *. by rewrite Z.mod_small by lia. Qed.
Lemma s64_id z : minInt64 <= z <= maxInt64 -> s64 z = z.
Proof. intros H. unfold s64, minInt64, maxInt64 in *. rewrite Z.mod_small by lia. lia. Qed.
(** [-LargestInt(value)] is the opposite of [value], also for [2^63], if it wraps around. *)
Lemma s64_menos z : 0 <= z <= 2 ^ 63 -> s64 (- s64 z) = - z.
Proof.
  intros H. destruct (Z.eq_dec z (2 ^ 63)) as [->|]; [reflexivity|].
  rewrite (s64_id z) by (unfold minInt64, maxInt64; lia). apply s64_id. unfold minInt64, maxInt64. lia.
Qed.

(** ** Keys of the underlying map *)

Inductive CZString : Type :=
| CZIndex (i : nat)
| CZStr (s : string).

Fixpoint memcmp (n : nat) (a b : string) : comparison :=
  match n, a, b with
  | S n, String c a, String d b =>
      match byte c ?= byte d with Eq => memcmp n a b | r => r end
  | _, _, _ => Eq
  end.

Definition CZString_lt (a b : CZString) : bool :=
  match a, b with
  | CZIndex i, CZIndex j => (i <? j)%nat
  | CZStr s, CZStr t =>
      match memcmp (String.length s `min` String.length t) s t with
      | Lt => true
      | Gt => false
      | Eq => (String.length s <? String.length t)%nat
      end
  | _, _ => false
  end.

Definition CZString_eq (a b : CZString) : bool :=
  match a, b with
  | CZIndex i, CZIndex j => (i =? j)%nat
  | CZStr s, CZStr t =>
      if negb (String.length s =? String.length t)%nat then false
      else match memcmp (String.length s) s t with Eq => true | _ => false end
  | _, _ => false
  end.

(** ** Values *)

#[warnings="-register-all"]
Inductive Value : Type :=
| nullValue
| intValue (i : Z)
| uintValue (u : Z)
| realValue (d : double)
| stringValue (s : string)
| booleanValue (b : bool)
| arrayValue (m : list (CZString * Value))
| objectValue (m : list (CZString * Value)).

Abbreviation ObjectValues := (list (CZString * Value)).

Inductive ValueType : Type :=
| t_null | t_int | t_uint | t_real | t_string | t_boolean | t_array | t_object.
#[export] Instance ValueType_eq_dec : EqDecision ValueType.
Proof. solve_decision. Defined.

Definition type (v : Value) : ValueType :=
  match v with
  | nullValue => t_null | intValue _ => t_int | uintValue _ => t_uint | realValue _ => t_real
  | stringValue _ => t_string | booleanValue _ => t_boolean
  | arrayValue _ => t_array | objectValue _ => t_object
  end.

(** [Value(ValueType)] *)
Definition Value_of_type (t : ValueType) : Value :=
  match t with
  | t_null => nullValue | t_int => intValue 0 | t_uint => uintValue 0
  | t_real => realValue (S754_zero false) | t_string => stringValue ""
  | t_boolean => booleanValue false | t_array => arrayValue [] | t_object => objectValue []
  end.

(** [map::find] and [map::lower_bound] on the sorted list. *)
Fixpoint map_find (k : CZString) (m : ObjectValues) : option Value :=
  match m with
  | [] => None
  | (k', v) :: m =>
      if CZString_lt k' k then map_find k m
      else if CZString_eq k' k then Some v else None
  end.

Fixpoint map_update (k : CZString) (f : Value -> res Value) (m : ObjectValues) : res ObjectValues :=
  match m with
  | [] => let? v := f nullValue in Ok [(k, v)]
  | (k', v') :: m' =>
      if CZString_lt k' k then let? r := map_update k f m' in Ok ((k', v') :: r)
      else if CZString_eq k' k then let? v := f v' in Ok ((k', v) :: m')
      else let? v := f nullValue in Ok ((k, v) :: m)
  end.

Fixpoint map_erase (k : CZString) (m : ObjectValues) : ObjectValues :=
  match m with
  | [] => []
  | (k', v) :: m' => if CZString_eq k' k then m' else (k', v) :: map_erase k m'
  end.

(** ** Printing of scalars: [uintToString], [valueToString] *)

(** [uintToString]: the do-while loop; a 64-bit value has at most 20 digits. *)
Definition uintToString (value : Z) : string := digitos 20 value "".

Definition valueToString_int (value : Z) : string :=
  let isNegative := value <? 0 in
  let value := if isNegative then - value else value in
  let s := uintToString (u64 value) in
  if isNegative then String "-" s else s.

Definition valueToString_uint (value : Z) : string := uintToString (u64 value).

(** [fixNumericLocale] *)
Definition fixNumericLocale (s : string) : string :=
  mapa (fun c => if Ascii.eqb c "," then "."%char else c) s.

Definition valueToString_double (d : double) : string :=
  fixNumericLocale
    match d with
    | S754_nan => "null"
    | S754_infinity s => if s then "-1e+9999" else "1e+9999"
    | _ => fmt_g17 d
    end.

Definition valueToString_bool (b : bool) : string := if b then "true" else "false".

(** ** Conversions *)

Definition asString (v : Value) : res string :=
  match v with
  | nullValue => Ok ""
  | stringValue s => Ok s
  | booleanValue b => Ok (if b then "true" else "false")
  | intValue i => Ok (valueToString_int i)
  | uintValue u => Ok (valueToString_uint u)
  | realValue d => Ok (valueToString_double d)
  | _ => Fallo (LogicError "Type is not convertible to string")
  end.

Definition InRange (d : double) (lo hi : Z) : bool := d_leb (d_of_Z lo) d && d_leb d (d_of_Z hi).

(** The C conversion of a double to an integer type: truncation towards zero. *)
Definition d_trunc (d : double) : Z :=
  match d with
  | S754_finite s m e =>
      let a := if 0 <=? e then Zpos m * 2 ^ e else Zpos m / 2 ^ (- e) in
      if s then - a else a
  | _ => 0
  end.

(** [modf(d, &i) == 0.0] *)
Definition IsIntegral (d : double) : bool :=
  match d with
  | S754_zero _ | S754_infinity _ => true
  | S754_nan => false
  | S754_finite _ m e => (0 <=? e) || (Zpos m mod 2 ^ (- e) =? 0)
  end.

Definition isNull (v : Value) : bool := match v with nullValue => true | _ => false end.
Definition isBool (v : Value) : bool := match v with booleanValue _ => true | _ => false end.
Definition isString (v : Value) : bool := match v with stringValue _ => true | _ => false end.
Definition isArray (v : Value) : bool := match v with arrayValue _ => true | _ => false end.
Definition isObject (v : Value) : bool := match v with objectValue _ => true | _ => false end.

Definition isInt (v : Value) : bool :=
  match v with
  | intValue i => (minInt <=? i) && (i <=? maxInt)
  | uintValue u => u <=? maxInt
  | realValue d => InRange d minInt maxInt && IsIntegral d
  | _ => false
  end.

Definition isUInt (v : Value) : bool :=
  match v with
  | intValue i => (0 <=? i) && (i <=? maxUInt)
  | uintValue u => u <=? maxUInt
  | realValue d => InRange d 0 maxUInt && IsIntegral d
  | _ => false
  end.

Definition isInt64 (v : Value) : bool :=
  match v with
  | intValue _ => true
  | uintValue u => u <=? maxInt64
  | realValue d => d_leb (d_of_Z minInt64) d && d_ltb d (d_of_Z maxInt64) && IsIntegral d
  | _ => false
  end.

Definition isUInt64 (v : Value) : bool :=
  match v with
  | intValue i => 0 <=? i
  | uintValue _ => true
  | realValue d => d_leb (d_of_Z 0) d && d_ltb d (d_of_Z maxUInt64) && IsIntegral d
  | _ => false
  end.

Definition isIntegral (v : Value) : bool := isInt64 v || isUInt64 v.
Definition isDouble (v : Value) : bool := match v with realValue _ => true | _ => isIntegral v end.
Definition isNumeric (v : Value) : bool := isIntegral v || isDouble v.

Definition asInt (v : Value) : res Z :=
  match v with
  | intValue i => if isInt v then Ok i else Fallo (LogicError "LargestInt out of Int range")
  | uintValue u => if isInt v then Ok u else Fallo (LogicError "LargestUInt out of Int range")
  | realValue d => if InRange d minInt maxInt then Ok (d_trunc d)
                   else Fallo (LogicError "double out of Int range")
  | nullValue => Ok 0
  | booleanValue b => Ok (if b then 1 else 0)
  | _ => Fallo (LogicError "Value is not convertible to Int.")
  end.

Definition asUInt (v : Value) : res Z :=
  match v with
  | intValue i => if isUInt v then Ok i else Fallo (LogicError "LargestInt out of UInt range")
  | uintValue u => if isUInt v then Ok u else Fallo (LogicError "LargestUInt out of UInt range")
  | realValue d => if InRange d 0 maxUInt then Ok (d_trunc d)
                   else Fallo (LogicError "double out of UInt range")
  | nullValue => Ok 0
  | booleanValue b => Ok (if b then 1 else 0)
  | _ => Fallo (LogicError "Value is not convertible to UInt.")
  end.

Definition asInt64 (v : Value) : res Z :=
  match v with
  | intValue i => Ok i
  | uintValue u => if isInt64 v then Ok u else Fallo (LogicError "LargestUInt out of Int64 range")
  | realValue d => if InRange d minInt64 maxInt64 then Ok (d_trunc d)
                   else Fallo (LogicError "double out of Int64 range")
  | nullValue => Ok 0
  | booleanValue b => Ok (if b then 1 else 0)
  | _ => Fallo (LogicError "Value is not convertible to Int64.")
  end.

Definition asUInt64 (v : Value) : res Z :=
  match v with
  | intValue i => if isUInt64 v then Ok i else Fallo (LogicError "LargestInt out of UInt64 range")
  | uintValue u => Ok u
  | realValue d => if InRange d 0 maxUInt64 then Ok (d_trunc d)
                   else Fallo (LogicError "double out of UInt64 range")
  | nullValue => Ok 0
  | booleanValue b => Ok (if b then 1 else 0)
  | _ => Fallo (LogicError "Value is not convertible to UInt64.")
  end.

Definition asLargestInt (v : Value) : res Z := asInt64 v.
Definition asLargestUInt (v : Value) : res Z := asUInt64 v.

Definition asDouble (v : Value) : res double :=
  match v with
  | intValue i => Ok (d_of_Z i)
  | uintValue u => Ok (d_of_Z u)
  | realValue d => Ok d
  | nullValue => Ok (S754_zero false)
  | booleanValue b => Ok (if b then d_of_Z 1 else d_of_Z 0)
  | _ => Fallo (LogicError "Value is not convertible to double.")
  end.

Definition asBool (v : Value) : res bool :=
  match v with
  | booleanValue b => Ok b
  | nullValue => Ok false
  | intValue i => Ok (negb (i =? 0))
  | uintValue u => Ok (negb (u =? 0))
  | realValue d => Ok (negb (d_eqb d (S754_zero false)))
  | _ => Fallo (LogicError "Value is not convertible to bool.")
  end.

(** ** Containers *)

(** Number of values in array or object; for an array, highest index + 1. *)
Definition size (v : Value) : nat :=
  match v with
  | arrayValue m => match last m with Some (CZIndex i, _) => S i | _ => O end
  | objectValue m => length m
  | _ => O
  end.

Definition empty (v : Value) : bool :=
  if isNull v || isArray v || isObject v then (size v =? 0)%nat else false.

Definition clear (v : Value) : res Value :=
  match v with
  | nullValue => Ok nullValue
  | arrayValue _ => Ok (arrayValue [])
  | objectValue _ => Ok (objectValue [])
  | _ => Fallo (LogicError "in Json::Value::clear(): requires complex value")
  end.

(** [operator[](ArrayIndex)], used through the reference it returns. *)
Definition at_index (index : nat) (f : Value -> res Value) (v : Value) : res Value :=
  match v with
  | nullValue => let? m := map_update (CZIndex index) f [] in Ok (arrayValue m)
  | arrayValue m => let? m := map_update (CZIndex index) f m in Ok (arrayValue m)
  | _ => Fallo (LogicError "in Json::Value::operator[](ArrayIndex): requires arrayValue")
  end.

(** [operator[](ArrayIndex) const]; a missing element is [nullRef]. *)
Definition index_ref (v : Value) (index : nat) : res (option Value) :=
  match v with
  | nullValue => Ok None
  | arrayValue m => Ok (map_find (CZIndex index) m)
  | _ => Fallo (LogicError "in Json::Value::operator[](ArrayIndex)const: requires arrayValue")
  end.
Definition index_const (v : Value) (index : nat) : res Value :=
  let? r := index_ref v index in Ok (default nullValue r).

(** [get(ArrayIndex, default)]: the default replaces a missing element only. *)
Definition get_index (v : Value) (index : nat) (defaultValue : Value) : res Value :=
  let? r := index_ref v index in Ok (default defaultValue r).

Definition isValidIndex (v : Value) (index : nat) : bool := (index <? size v)%nat.

(** [resolveReference(key, end)] = [operator[](key)], used through its reference. *)
Definition resolveReference (key : string) (f : Value -> res Value) (v : Value) : res Value :=
  match v with
  | nullValue => let? m := map_update (CZStr key) f [] in Ok (objectValue m)
  | objectValue m => let? m := map_update (CZStr key) f m in Ok (objectValue m)
  | _ => Fallo (LogicError "in Json::Value::resolveReference(key, end): requires objectValue")
  end.

(** [find(key, end)] *)
Definition find (v : Value) (key : string) : res (option Value) :=
  match v with
  | nullValue => Ok None
  | objectValue m => Ok (map_find (CZStr key) m)
  | _ => Fallo (LogicError
      "in Json::Value::find(key, end, found): requires objectValue or nullValue")
  end.

(** [operator[](key) const] *)
Definition key_const (v : Value) (key : string) : res Value :=
  let? r := find v key in Ok (default nullValue r).

(** [get(key, default)] *)
Definition get (v : Value) (key : string) (defaultValue : Value) : res Value :=
  let? r := find v key in Ok (default defaultValue r).

Definition isMember (v : Value) (key : string) : res bool :=
  let? r := find v key in Ok (match r with Some _ => true | None => false end).

(** [v[key] = x] *)
Definition asignar (key : string) (x : Value) (v : Value) : res Value :=
  resolveReference key (fun _ => Ok x) v.

(** [append(x)]: assigns [x] at index [size()]. *)
Definition append (v x : Value) : res Value := at_index (size v) (fun _ => Ok x) v.

Fixpoint erase_range (index : nat) (n : nat) (m : ObjectValues) : ObjectValues :=
  match n with
  | O => m
  | S n => erase_range (S index) n (map_erase (CZIndex index) m)
  end.

Definition resize (v : Value) (newSize : nat) : res Value :=
  match v with
  | nullValue | arrayValue _ =>
      let v := match v with nullValue => arrayValue [] | _ => v end in
      let oldSize := size v in
      if (newSize =? 0)%nat then clear v
      else if (oldSize <? newSize)%nat then at_index (newSize - 1) Ok v
      else match v with
           | arrayValue m => Ok (arrayValue (erase_range newSize (oldSize - newSize) m))
           | _ => Ok v
           end
  | _ => Fallo (LogicError "in Json::Value::resize(): requires arrayValue")
  end.

(** [removeMember(key, end, removed)]: whether it was there, the value, the rest. *)
Definition removeMember (v : Value) (key : string) : bool * Value * Value :=
  match v with
  | objectValue m =>
      match map_find (CZStr key) m with
      | Some x => (true, x, objectValue (map_erase (CZStr key) m))
      | None => (false, nullValue, v)
      end
  | _ => (false, nullValue, v)
  end.

Definition key_str (k : CZString) : string := match k with CZStr s => s | CZIndex _ => "" end.

Definition getMemberNames (v : Value) : res (list string) :=
  match v with
  | nullValue => Ok []
  | objectValue m => Ok (key_str ∘ fst <$> m)
  | _ => Fallo (LogicError "in Json::Value::getMemberNames(), value must be objectValue")
  end.

Definition isConvertibleTo (v : Value) (other : ValueType) : bool :=
  match other with
  | t_null =>
      (isNumeric v && match asDouble v with Ok d => d_eqb d (S754_zero false) | _ => false end) ||
      match v with
      | booleanValue b => negb b
      | stringValue s => String.eqb s ""
      | arrayValue m | objectValue m => (length m =? 0)%nat
      | nullValue => true
      | _ => false
      end
  | t_int => isInt v || match v with
                        | realValue d => InRange d minInt maxInt
                        | booleanValue _ | nullValue => true
                        | _ => false
                        end
  | t_uint => isUInt v || match v with
                          | realValue d => InRange d 0 maxUInt
                          | booleanValue _ | nullValue => true
                          | _ => false
                          end
  | t_real | t_boolean => isNumeric v || isBool v || isNull v
  | t_string => isNumeric v || isBool v || isString v || isNull v
  | t_array => isArray v || isNull v
  | t_object => isObject v || isNull v
  end.

(** [operator==] *)
Fixpoint Value_eq (v w : Value) {struct v} : bool :=
  let fix map_eq (m n : ObjectValues) {struct m} : bool :=
    match m, n with
    | [], [] => true
    | (k, x) :: m, (k', y) :: n => CZString_eq k k' && Value_eq x y && map_eq m n
    | _, _ => false
    end in
  match v, w with
  | nullValue, nullValue => true
  | intValue i, intValue j => i =? j
  | uintValue i, uintValue j => i =? j
  | realValue x, realValue y => d_eqb x y
  | booleanValue b, booleanValue c => Bool.eqb b c
  | stringValue s, stringValue t => CZString_eq (CZStr s) (CZStr t)
  | arrayValue m, arrayValue n => (length m =? length n)%nat && map_eq m n
  | objectValue m, objectValue n => (length m =? length n)%nat && map_eq m n
  | _, _ => false
  end.

End Json.

(** ** The key order and the laws of the map *)
Module JsonLeyes.
Import Json.

Fixpoint str_lt (a b : string) : bool :=
  match a, b with
  | _, "" => false
  | "", String _ _ => true
  | String c a, String d b =>
      match byte c ?= byte d with Lt => true | Gt => false | Eq => str_lt a b end
  end.

Lemma CZString_lt_str s t : CZString_lt (CZStr s) (CZStr t) = str_lt s t.
Proof.
  cbn [CZString_lt]. revert t. induction s as [|c s IH]; intros [|d t]; try done.
  cbn [String.length Nat.min memcmp str_lt]. destruct (byte c ?= byte d); auto.
Qed.

Lemma CZString_eq_spec a b : CZString_eq a b = true <-> a = b.
Proof.
  destruct a as [i|s], b as [j|t]; cbn [CZString_eq]; try done.
  { rewrite Nat.eqb_eq. split; [by intros ->|by intros [= ->]]. }
  split.
  - destruct (Nat.eqb_spec (String.length s) (String.length t)) as [El|]; cbn; [|done].
    intros H. f_equal. revert t El H. induction s as [|c s IH]; intros [|d t] El; try done.
    cbn [String.length memcmp]. injection El as El.
    destruct (byte c ?= byte d) eqn:E; try done. intros H.
    apply Z.compare_eq in E. apply byte_inj in E as ->. f_equal. by apply IH.
  - intros [= ->]. rewrite Nat.eqb_refl. cbn.
    induction t as [|c t IH]; [done|]. cbn [String.length memcmp]. by rewrite Z.compare_refl.
Qed.

Lemma str_lt_irrefl s : str_lt s s = false.
Proof. induction s as [|c s IH]; [done|]. cbn. by rewrite Z.compare_refl. Qed.

Lemma str_lt_trans a b c : str_lt a b = true -> str_lt b c = true -> str_lt a c = true.
Proof.
  revert b c. induction a as [|x a IH]; intros [|y b] [|z c]; cbn [str_lt]; try done.
  destruct (Z.compare_spec (byte x) (byte y)), (Z.compare_spec (byte y) (byte z)),
    (Z.compare_spec (byte x) (byte z)); try done; try lia. apply IH.
Qed.

Lemma str_lt_total a b : a <> b -> str_lt a b = false -> str_lt b a = true.
Proof.
  revert b. induction a as [|x a IH]; intros [|y b]; cbn [str_lt]; try done.
  rewrite (Z.compare_antisym (byte x) (byte y)).
  destruct (Z.compare_spec (byte x) (byte y)) as [E|E|E]; cbn [CompOpp]; try done.
  apply byte_inj in E as ->. intros Hn. apply IH. congruence.
Qed.

Lemma CZ_irrefl k : CZString_lt k k = false.
Proof. destruct k; [apply Nat.ltb_irrefl|]. rewrite CZString_lt_str. apply str_lt_irrefl. Qed.

Lemma CZ_trans a b c :
  CZString_lt a b = true -> CZString_lt b c = true -> CZString_lt a c = true.
Proof.
  destruct a as [i|s], b as [j|t], c as [k|u]; try done.
  - cbn [CZString_lt]. rewrite !Nat.ltb_lt. lia.
  - rewrite !CZString_lt_str. apply str_lt_trans.
Qed.

(** Keys of one kind are totally ordered. *)
Definition mismo_tipo (a b : CZString) : bool :=
  match a, b with CZIndex _, CZIndex _ | CZStr _, CZStr _ => true | _, _ => false end.

Lemma CZ_total a b :
  mismo_tipo a b = true -> a <> b -> CZString_lt a b = false -> CZString_lt b a = true.
Proof.
  destruct a as [i|s], b as [j|t]; try done; intros _ Hn.
  - cbn [CZString_lt]. rewrite Nat.ltb_ge, Nat.ltb_lt. intros. assert (i <> j) by congruence. lia.
  - rewrite !CZString_lt_str. apply str_lt_total. congruence.
Qed.

Lemma CZ_asim a b : CZString_lt a b = true -> CZString_lt b a = false.
Proof.
  intros H. destruct (CZString_lt b a) eqn:E; [|done].
  by rewrite <- (CZ_irrefl a), (CZ_trans _ _ _ H E).
Qed.

Lemma CZ_eq_refl k : CZString_eq k k = true.
Proof. by apply CZString_eq_spec. Qed.

Lemma CZ_eq_false a b : a <> b -> CZString_eq a b = false.
Proof. intros H. destruct (CZString_eq a b) eqn:E; [|done]. by apply CZString_eq_spec in E. Qed.

(** The list is a [std::map]: strictly increasing keys of the kind of [k]. *)
Definition mapa_de (k : CZString) (m : ObjectValues) : Prop :=
  StronglySorted (fun p q => CZString_lt p.1 q.1 = true) m /\
  Forall (fun p => mismo_tipo k p.1 = true) m.

Lemma mapa_cons k p m :
  mapa_de k (p :: m) <->
  mapa_de k m /\ Forall (fun q => CZString_lt p.1 q.1 = true) m /\ mismo_tipo k p.1 = true.
Proof.
  unfold mapa_de. rewrite Forall_cons. split.
  - intros [H1 [H2 H3]]. apply StronglySorted_inv in H1 as [H1 H1']. tauto.
  - intros [[H1 H2] [H3 H4]]. repeat split; try done. by constructor.
Qed.

Lemma mapa_nil k : mapa_de k [].
Proof. split; constructor. Qed.

(** Every operation through a reference is one update of the map. *)
Inductive actualiza (k : CZString) (v : Value) : ObjectValues -> ObjectValues -> Prop :=
| act_nil : actualiza k v [] [(k, v)]
| act_menor p m m' : CZString_lt p.1 k = true -> actualiza k v m m' ->
    actualiza k v (p :: m) (p :: m')
| act_igual v' m : actualiza k v ((k, v') :: m) ((k, v) :: m)
| act_nuevo p m : CZString_lt k p.1 = true -> actualiza k v (p :: m) ((k, v) :: p :: m).

Lemma map_update_spec k f m m' :
  mapa_de k m -> map_update k f m = Ok m' ->
  exists v, f (default nullValue (map_find k m)) = Ok v /\ actualiza k v m m'.
Proof.
  revert m'. induction m as [|[k' v'] m IH]; intros m' Hm; cbn [map_update map_find].
  - unfold bindR. destruct (f nullValue) as [v|] eqn:E; [|done].
    intros [= <-]. exists v. split; [done|]. constructor.
  - apply mapa_cons in Hm as (Hm & _ & Ht). cbn in Ht.
    destruct (CZString_lt k' k) eqn:El.
    + unfold bindR. destruct (map_update k f m) as [r|] eqn:Er; [|done].
      intros [= <-]. destruct (IH r Hm eq_refl) as (v & Hv & Ha). exists v. split; [done|].
      by constructor.
    + destruct (CZString_eq k' k) eqn:Ee.
      * apply CZString_eq_spec in Ee as ->. cbn [default]. unfold bindR.
        destruct (f v') as [v|] eqn:E; [|done]. intros [= <-]. exists v. split; [done|]. constructor.
      * unfold bindR. destruct (f nullValue) as [v|] eqn:E; [|done].
        intros [= <-]. exists v. split; [done|]. constructor. cbn.
        apply CZ_total; [by destruct k, k'| |done]. intros ->. by rewrite CZ_eq_refl in Ee.
Qed.

Lemma map_update_ok k f m v :
  f (default nullValue (map_find k m)) = Ok v -> exists m', map_update k f m = Ok m'.
Proof.
  induction m as [|[k' v'] m IH]; cbn [map_update map_find].
  - cbn. intros ->. by eexists.
  - destruct (CZString_lt k' k).
    + intros [r Hr]%IH. rewrite Hr. by eexists.
    + destruct (CZString_eq k' k); cbn; intros ->; by eexists.
Qed.

Lemma Forall_actualiza (P : CZString * Value -> Prop) k v m m' :
  actualiza k v m m' -> P (k, v) -> Forall P m -> Forall P m'.
Proof.
  intros Ha Hp. induction Ha; intros Hf; inversion Hf; subst; repeat constructor; auto.
Qed.

Lemma actualiza_mapa k v m m' : actualiza k v m m' -> mapa_de k m -> mapa_de k m'.
Proof.
  intros Ha. induction Ha as [|p m m' Hl Ha IH|v' m|p m Hl]; intros Hm;
    rewrite !mapa_cons in *.
  - repeat split; try constructor; try done. by destruct k.
  - destruct Hm as (H1 & H2 & H3). split_and!; auto. eapply Forall_actualiza; eauto.
  - tauto.
  - destruct Hm as (H1 & H2 & H3). split_and!; try done; [|by destruct k].
    constructor; [done|]. eapply Forall_impl; [exact H2|]. cbn. intros q. by apply CZ_trans.
Qed.

Lemma find_actualiza k v m m' : actualiza k v m m' -> map_find k m' = Some v.
Proof.
  induction 1 as [|[k1 v1] m m' Hl Ha IH|v' m|[k1 v1] m Hl]; cbn in *;
    rewrite ?Hl, ?CZ_irrefl, ?CZ_eq_refl; done.
Qed.

Lemma find_menor k j m : mapa_de k m -> mismo_tipo k j = true ->
  Forall (fun q => CZString_lt j q.1 = true) m -> map_find j m = None.
Proof.
  intros _ _. destruct m as [|[k1 v1] m]; [done|]. cbn. intros H. inversion H; subst. cbn in *.
  rewrite CZ_asim by done. rewrite CZ_eq_false; [done|]. intros ->. by rewrite CZ_irrefl in *.
Qed.

Lemma find_actualiza_ne k j v m m' :
  actualiza k v m m' -> mapa_de k m -> mismo_tipo k j = true -> j <> k ->
  map_find j m' = map_find j m.
Proof.
  intros Ha. induction Ha as [|[k1 v1] m m' Hl Ha IH|v' m|[k1 v1] m Hl]; intros Hm Ht Hn; cbn.
  - destruct (CZString_lt k j); [done|]. by rewrite CZ_eq_false by congruence.
  - apply mapa_cons in Hm as (Hm & _ & _). by rewrite IH.
  - by rewrite CZ_eq_false by congruence.
  - apply mapa_cons in Hm as (Hm & Hs & Ht1). cbn in *.
    destruct (CZString_lt k j) eqn:E1; [done|]. rewrite CZ_eq_false by congruence.
    assert (CZString_lt j k = true) as E2 by (apply CZ_total; congruence).
    pose proof (CZ_trans _ _ _ E2 Hl) as E3. rewrite (CZ_asim _ _ E3), CZ_eq_false; [done|].
    intros ->. by rewrite CZ_irrefl in E3.
Qed.

(** A key above all the others goes at the end. *)
Lemma map_update_final k f m :
  Forall (fun p => CZString_lt p.1 k = true) m ->
  map_update k f m = (let? v := f nullValue in Ok (m ++ [(k, v)])).
Proof.
  induction 1 as [|[k' v'] m Hl _ IH]; cbn [map_update]; [done|]. cbn in Hl. rewrite Hl, IH.
  unfold bindR. by destruct (f nullValue).
Qed.

Lemma find_in_mapa k m p : mapa_de k m -> In p m -> map_find p.1 m = Some p.2.
Proof.
  intros Hm Hi. induction m as [|[k' v'] m IH]; [done|]. apply mapa_cons in Hm as (Hm & Hs & _).
  destruct Hi as [<-|Hi]; cbn [map_find fst snd].
  - by rewrite CZ_irrefl, CZ_eq_refl.
  - rewrite Forall_forall in Hs. cbn in Hs. rewrite (Hs p) by (by apply list_elem_of_In). auto.
Qed.

End JsonLeyes.
