(* ===== verification/JsonReader.v ===== *)
(** * JsonReader: [Json::Reader] of src/json/json.cpp

    A [Location] is the text from that pointer to [end_]; reading [*end_] yields the NUL
    that terminates [document_].  The value a read fills in is passed in and out, so that the
    value left behind by a failed parse is modelled too (the server uses it).
    Collected comments and the text offsets stored in values are not modelled; every comment of
    this reader starts with a slash, as [Value::setComment] asks, so collecting it cannot fail. *)

From S2P Require Import Prelude Libc JsonValue.
Open Scope Z_scope.

Module JsonReader.
Import Libc Json.

Abbreviation Location := string.

Definition COMILLA : ascii := "034"%char.
Definition BARRA : ascii := "092"%char.

Inductive TokenType : Type :=
| tokenEndOfStream | tokenObjectBegin | tokenObjectEnd | tokenArrayBegin | tokenArrayEnd
| tokenString | tokenNumber | tokenTrue | tokenFalse | tokenNull
| tokenArraySeparator | tokenMemberSeparator | tokenComment | tokenError.
#[export] Instance TokenType_eq_dec : EqDecision TokenType.
Proof. solve_decision. Defined.

Record Token : Type := mkToken { type_ : TokenType; start_ : Location; end_ : Location }.
Record ErrorInfo : Type := mkError { token_ : Token; message_ : string; extra_ : option Location }.

Record Features : Type := mkFeatures {
  allowComments_ : bool; strictRoot_ : bool;
  allowDroppedNullPlaceholders_ : bool; allowNumericKeys_ : bool }.
Definition Features_all : Features := mkFeatures true false false false.
Definition Features_strictMode : Features := mkFeatures false true false false.

Record Reader : Type := mkReader {
  current_ : Location;
  errors_ : list ErrorInfo;
  features_ : Features;
  stackDepth_g : nat }.

Definition stackLimit_g : nat := 1000.

Definition set_current (l : Location) : M Reader unit :=
  cambiar (fun r => mkReader l (errors_ r) (features_ r) (stackDepth_g r)).
Definition set_depth (f : nat -> nat) : M Reader unit :=
  cambiar (fun r => mkReader (current_ r) (errors_ r) (features_ r) (f (stackDepth_g r))).

(** ** Lexical level *)

(** [*p] *)
Definition deref (l : Location) : ascii := match l with "" => NUL | String c _ => c end.

Definition getNextChar : M Reader ascii :=
  let* l := leer current_ in
  match l with
  | "" => ret NUL
  | String c r => set_current r;;; ret c
  end.

Definition es_blanco (c : ascii) : bool :=
  Ascii.eqb c " " || Ascii.eqb c "009" || Ascii.eqb c "013" || Ascii.eqb c "010".

Definition skipSpaces : M Reader unit :=
  let* l := leer current_ in set_current (snd (abarcar es_blanco l)).

Definition match_ (pattern : string) : M Reader bool :=
  let* l := leer current_ in
  match quitar_prefijo pattern l with
  | Some r => set_current r;;; ret true
  | None => ret false
  end.

(** The scanning loops, as functions of the text that is left. *)
Fixpoint scanCStyleComment (l : Location) : Location :=
  match l with
  | "" => ""
  | String c r => if Ascii.eqb c "*" && Ascii.eqb (deref r) "/" then r else scanCStyleComment r
  end.

Definition readCStyleComment : M Reader bool :=
  let* l := leer current_ in set_current (scanCStyleComment l);;;
  let* c := getNextChar in ret (Ascii.eqb c "/").

Fixpoint scanCppStyleComment (l : Location) : Location :=
  match l with
  | "" => ""
  | String c r =>
      if Ascii.eqb c "010" then r
      else if Ascii.eqb c "013" then
        match r with String "010" r' => r' | _ => r end
      else scanCppStyleComment r
  end.

Definition readCppStyleComment : M Reader bool :=
  let* l := leer current_ in set_current (scanCppStyleComment l);;; ret true.

Definition readComment : M Reader bool :=
  let* c := getNextChar in
  if Ascii.eqb c "*" then readCStyleComment
  else if Ascii.eqb c "/" then readCppStyleComment
  else ret false.

Definition skip_digits (l : Location) : Location := snd (abarcar isdigit l).

Definition scanNumber (l : Location) : Location :=
  let l := skip_digits l in
  let l := match l with String "." r => skip_digits r | _ => l end in
  match l with
  | String c r =>
      if Ascii.eqb c "e" || Ascii.eqb c "E" then
        match r with
        | String s r' => if Ascii.eqb s "+" || Ascii.eqb s "-" then skip_digits r' else skip_digits r
        | "" => ""
        end
      else l
  | "" => ""
  end.

Definition readNumber : M Reader unit := let* l := leer current_ in set_current (scanNumber l).

Fixpoint scanString (l : Location) : bool * Location :=
  match l with
  | "" => (false, "")
  | String c r =>
      if Ascii.eqb c BARRA then match r with "" => (false, "") | String _ r' => scanString r' end
      else if Ascii.eqb c COMILLA then (true, r)
      else scanString r
  end.

Definition readString : M Reader bool :=
  let* l := leer current_ in
  let '(ok, r) := scanString l in set_current r;;; ret ok.

(** The [switch (c)] of [readToken]: the token type and whether the token is complete. *)
Definition clasificar (c : ascii) : M Reader (TokenType * bool) :=
  if Ascii.eqb c "{" then ret (tokenObjectBegin, true)
  else if Ascii.eqb c "}" then ret (tokenObjectEnd, true)
  else if Ascii.eqb c "[" then ret (tokenArrayBegin, true)
  else if Ascii.eqb c "]" then ret (tokenArrayEnd, true)
  else if Ascii.eqb c COMILLA then let* ok := readString in ret (tokenString, ok)
  else if Ascii.eqb c "/" then let* ok := readComment in ret (tokenComment, ok)
  else if isdigit c || Ascii.eqb c "-" then readNumber;;; ret (tokenNumber, true)
  else if Ascii.eqb c "t" then let* ok := match_ "rue" in ret (tokenTrue, ok)
  else if Ascii.eqb c "f" then let* ok := match_ "alse" in ret (tokenFalse, ok)
  else if Ascii.eqb c "n" then let* ok := match_ "ull" in ret (tokenNull, ok)
  else if Ascii.eqb c "," then ret (tokenArraySeparator, true)
  else if Ascii.eqb c ":" then ret (tokenMemberSeparator, true)
  else if Ascii.eqb c NUL then ret (tokenEndOfStream, true)
  else ret (tokenError, false).

Definition readToken : M Reader Token :=
  skipSpaces;;;
  let* start := leer current_ in
  let* c := getNextChar in
  let* '(t, ok) := clasificar c in
  let* fin := leer current_ in
  ret (mkToken (if ok then t else tokenError) start fin).

(** [do readToken(token) while (token.type_ == tokenComment)] *)
Fixpoint saltear_comentarios (fuel : nat) (token : Token) : M Reader Token :=
  match fuel with
  | O => falla SinCombustible
  | S fuel =>
      if decide (type_ token = tokenComment)
      then let* t := readToken in saltear_comentarios fuel t
      else ret token
  end.

(** Enough iterations for any loop that reads a token each time. *)
Definition combustible : M Reader nat := let* l := leer current_ in ret (2 + String.length l)%nat.

Definition skipCommentTokens : M Reader Token :=
  let* f := leer features_ in
  let* n := combustible in
  let* t := readToken in
  if allowComments_ f then saltear_comentarios n t else ret t.

Definition addError (message : string) (token : Token) (extra : option Location) : M Reader bool :=
  cambiar (fun r => mkReader (current_ r) (errors_ r ++ [mkError token message extra])
                             (features_ r) (stackDepth_g r));;;
  ret false.

Fixpoint recover_loop (fuel : nat) (skipUntil : TokenType) : M Reader unit :=
  match fuel with
  | O => falla SinCombustible
  | S fuel =>
      let* t := readToken in
      if decide (type_ t = skipUntil \/ type_ t = tokenEndOfStream) then ret tt
      else recover_loop fuel skipUntil
  end.

Definition recoverFromError (skipUntil : TokenType) : M Reader bool :=
  let* errorCount := leer (fun r => length (errors_ r)) in
  let* n := combustible in
  recover_loop n skipUntil;;;
  cambiar (fun r => mkReader (current_ r) (take errorCount (errors_ r)) (features_ r) (stackDepth_g r));;;
  ret false.

Definition addErrorAndRecover (message : string) (token : Token) (skipUntil : TokenType)
  : M Reader bool :=
  addError message token None;;; recoverFromError skipUntil.

(** ** Scalars *)

Definition texto (t : Token) : string := entre (start_ t) (end_ t).

Definition decodeDouble (token : Token) : M Reader (option Value) :=
  match sscanf_lf (texto token) with
  | Some d => ret (Some (realValue d))
  | None =>
      addError ("'" +:+ texto token +:+ "' is not a number.") token None;;; ret None
  end.

(** The digit loop of [decodeNumber]; [None] asks for [decodeDouble]. *)
Fixpoint digit_loop (maxIntegerValue value : Z) (s : string) : option Z :=
  match s with
  | "" => Some value
  | String c r =>
      if negb (isdigit c) then None
      else
        let digit := digit_val c in
        let threshold := maxIntegerValue / 10 in
        if (threshold <=? value) &&
           ((threshold <? value) || negb (String.eqb r "") || (maxIntegerValue mod 10 <? digit))
        then None
        else digit_loop maxIntegerValue (u64 (value * 10 + digit)) r
  end.

(** [LargestInt] and [LargestUInt] have 64 bits.  The negation in
    [LargestUInt(-Value::minLargestInt)], of every negative number, and that in
    [-Value::LargestInt(value)], for [2^63], overflow the signed type, which C++ leaves
    undefined: they are taken to wrap around, as two's complement does. *)
Definition decodeNumber (token : Token) : M Reader (option Value) :=
  let t := texto token in
  let isNegative := Ascii.eqb (deref t) "-" in
  let t := if isNegative then saltear 1 t else t in
  let maxIntegerValue := if isNegative then u64 (s64 (- minInt64)) else maxUInt64 in
  match digit_loop maxIntegerValue 0 t with
  | None => decodeDouble token
  | Some value =>
      ret (Some (if isNegative then intValue (s64 (- s64 value))
                  else if value <=? u64 maxInt then intValue (s64 value)
                  else uintValue value))
  end.

(** [codePointToUTF8] *)
Definition codePointToUTF8 (cp : Z) : string :=
  let b z := chr z in
  if cp <=? 0x7f then String (b cp) ""
  else if cp <=? 0x7FF then
    String (b (Z.lor 0xC0 (Z.land 0x1f (Z.shiftr cp 6))))
      (String (b (Z.lor 0x80 (Z.land 0x3f cp))) "")
  else if cp <=? 0xFFFF then
    String (b (Z.lor 0xE0 (Z.land 0xf (Z.shiftr cp 12))))
      (String (b (Z.lor 0x80 (Z.land 0x3f (Z.shiftr cp 6))))
        (String (b (Z.lor 0x80 (Z.land 0x3f cp))) ""))
  else if cp <=? 0x10FFFF then
    String (b (Z.lor 0xF0 (Z.land 0x7 (Z.shiftr cp 18))))
      (String (b (Z.lor 0x80 (Z.land 0x3f (Z.shiftr cp 12))))
        (String (b (Z.lor 0x80 (Z.land 0x3f (Z.shiftr cp 6))))
          (String (b (Z.lor 0x80 (Z.land 0x3f cp))) "")))
  else "".

(** What goes wrong in a string token, with the place [extra] of the message. *)
Definition fallo_cadena : Type := string * Location.

(** Four hexadecimal digits of the text [s] that ends at the location [fin]. *)
Fixpoint hex4 (n : nat) (acc : Z) (s : string) (fin : Location) : fallo_cadena + Z * string :=
  match n with
  | O => inr (acc, s)
  | S n =>
      match s with
      | String c r =>
          if isxdigit c then hex4 n (acc * 16 + xdigit_val c) r fin
          else inl ("Bad unicode escape sequence in string: hexadecimal digit expected.", r +:+ fin)
      | "" => inl ("Bad unicode escape sequence in string: hexadecimal digit expected.", fin)
      end
  end.

Definition decodeUnicodeEscapeSequence (s : string) (fin : Location) : fallo_cadena + Z * string :=
  if (String.length s <? 4)%nat
  then inl ("Bad unicode escape sequence in string: four digits expected.", s +:+ fin)
  else hex4 4 0 s fin.

Definition decodeUnicodeCodePoint (s : string) (fin : Location) : fallo_cadena + Z * string :=
  match decodeUnicodeEscapeSequence s fin with
  | inl e => inl e
  | inr (unicode, s) =>
      if (0xD800 <=? unicode) && (unicode <=? 0xDBFF) then
        if (String.length s <? 6)%nat
        then inl ("additional six characters expected to parse unicode surrogate pair.", s +:+ fin)
        else match s with
             | String c1 s1 =>
                 if negb (Ascii.eqb c1 BARRA)
                 then inl ("expecting another \u token to begin the second half of a unicode surrogate pair",
                           s1 +:+ fin)
                 else match s1 with
                      | String c2 s2 =>
                          if negb (Ascii.eqb c2 "u")
                          then inl ("expecting another \u token to begin the second half of a unicode surrogate pair",
                                    s2 +:+ fin)
                          else match decodeUnicodeEscapeSequence s2 fin with
                               | inl e => inl e
                               | inr (surrogatePair, s3) =>
                                   inr (0x10000 + Z.shiftl (Z.land unicode 0x3FF) 10
                                        + Z.land surrogatePair 0x3FF, s3)
                               end
                      | "" => inl ("", fin)
                      end
             | "" => inl ("", fin)
             end
      else inr (unicode, s)
  end.

Definition escape_simple (escape : ascii) : option ascii :=
  if Ascii.eqb escape COMILLA then Some COMILLA
  else if Ascii.eqb escape "/" then Some "/"%char
  else if Ascii.eqb escape BARRA then Some BARRA
  else if Ascii.eqb escape "b" then Some "008"%char
  else if Ascii.eqb escape "f" then Some "012"%char
  else if Ascii.eqb escape "n" then Some "010"%char
  else if Ascii.eqb escape "r" then Some "013"%char
  else if Ascii.eqb escape "t" then Some "009"%char
  else None.

(** The loop of [decodeString] over the text between the quotes. *)
Fixpoint decode_loop (fuel : nat) (s : string) (fin : Location) : fallo_cadena + string :=
  match fuel with
  | O => inl ("", fin)
  | S fuel =>
      match s with
      | "" => inr ""
      | String c r =>
          if Ascii.eqb c COMILLA then inr ""
          else if Ascii.eqb c BARRA then
            match r with
            | "" => inl ("Empty escape sequence in string", fin)
            | String escape r =>
                match escape_simple escape with
                | Some d =>
                    match decode_loop fuel r fin with inl e => inl e | inr t => inr (String d t) end
                | None =>
                    if Ascii.eqb escape "u" then
                      match decodeUnicodeCodePoint r fin with
                      | inl e => inl e
                      | inr (unicode, r) =>
                          match decode_loop fuel r fin with
                          | inl e => inl e
                          | inr t => inr (codePointToUTF8 unicode +:+ t)
                          end
                      end
                    else inl ("Bad escape sequence in string", r +:+ fin)
                end
            end
          else match decode_loop fuel r fin with inl e => inl e | inr t => inr (String c t) end
      end
  end.

(** The text between the quotes of a string token. *)
Definition interior (t : Token) : string :=
  let s := texto t in prefijo (String.length s - 2) (saltear 1 s).

Definition decodeString (token : Token) : M Reader (option string) :=
  let s := interior token in
  match decode_loop (S (String.length s)) s (String COMILLA (end_ token)) with
  | inr d => ret (Some d)
  | inl (msg, extra) => addError msg token (Some extra);;; ret None
  end.

(** ** Values *)

Definition asignar_si (cur : Value) (o : option Value) : bool * Value :=
  match o with Some v => (true, v) | None => (false, cur) end.

Section Recursion.
(** [readValue()] on the node on top of the stack, which holds the given value. *)
Variable readValue : Value -> M Reader (bool * Value).

(** The [while] loop of [readObject]; [name] is the last member name read. *)
Fixpoint readObject_loop (fuel : nat) (name : string) (obj : Value) : M Reader (bool * Value) :=
  match fuel with
  | O => falla SinCombustible
  | S fuel =>
      let* n := combustible in
      let* t := readToken in
      let* tokenName := saltear_comentarios n t in
      if decide (type_ tokenName = tokenObjectEnd /\ name = "") then ret (true, obj)
      else
        let* f := leer features_ in
        let seguir (name : string) : M Reader (bool * Value) :=
          let* colon := readToken in
          if decide (type_ colon <> tokenMemberSeparator) then
            let* b := addErrorAndRecover "Missing ':' after object member name" colon tokenObjectEnd in
            ret (b, obj)
          else
            let* value := alzar (key_const obj name) in
            let* '(ok, value) := readValue value in
            let* obj := alzar (asignar name value obj) in
            if negb ok then let* b := recoverFromError tokenObjectEnd in ret (b, obj)
            else
              let* comma := readToken in
              if decide (type_ comma <> tokenObjectEnd /\ type_ comma <> tokenArraySeparator /\
                         type_ comma <> tokenComment) then
                let* b := addErrorAndRecover "Missing ',' or '}' in object declaration" comma tokenObjectEnd in
                ret (b, obj)
              else
                let* n := combustible in
                let* comma := saltear_comentarios n comma in
                if decide (type_ comma = tokenObjectEnd) then ret (true, obj)
                else readObject_loop fuel name obj in
        if decide (type_ tokenName = tokenString) then
          let* d := decodeString tokenName in
          match d with
          | None => let* b := recoverFromError tokenObjectEnd in ret (b, obj)
          | Some name => seguir name
          end
        else if decide (type_ tokenName = tokenNumber) then
          if allowNumericKeys_ f then
            let* d := decodeNumber tokenName in
            match d with
            | None => let* b := recoverFromError tokenObjectEnd in ret (b, obj)
            | Some numberName => let* name := alzar (asString numberName) in seguir name
            end
          else
            let* b := addErrorAndRecover "Missing '}' or object member name" tokenName tokenObjectEnd in
            ret (b, obj)
        else
          let* b := addErrorAndRecover "Missing '}' or object member name" tokenName tokenObjectEnd in
          ret (b, obj)
  end.

Definition readObject : M Reader (bool * Value) :=
  let* n := combustible in readObject_loop n "" (objectValue []).

(** The [for (;;)] loop of [readArray]. *)
Fixpoint readArray_loop (fuel : nat) (index : nat) (arr : Value) : M Reader (bool * Value) :=
  match fuel with
  | O => falla SinCombustible
  | S fuel =>
      let* value := alzar (index_const arr index) in
      let* '(ok, value) := readValue value in
      let* arr := alzar (at_index index (fun _ => Ok value) arr) in
      if negb ok then let* b := recoverFromError tokenArrayEnd in ret (b, arr)
      else
        let* n := combustible in
        let* t := readToken in
        let* token := saltear_comentarios n t in
        if decide (type_ token <> tokenArraySeparator /\ type_ token <> tokenArrayEnd) then
          let* b := addErrorAndRecover "Missing ',' or ']' in array declaration" token tokenArrayEnd in
          ret (b, arr)
        else if decide (type_ token = tokenArrayEnd) then ret (true, arr)
        else readArray_loop fuel (S index) arr
  end.

Definition readArray : M Reader (bool * Value) :=
  skipSpaces;;;
  let* l := leer current_ in
  if Ascii.eqb (deref l) "]" then readToken;;; ret (true, arrayValue [])
  else let* n := combustible in readArray_loop n 0 (arrayValue []).
End Recursion.

Fixpoint readValue (fuel : nat) (cur : Value) : M Reader (bool * Value) :=
  match fuel with
  | O => falla SinCombustible
  | S fuel =>
      let* depth := leer stackDepth_g in
      if (stackLimit_g <=? depth)%nat
      then falla (RuntimeError "Exceeded stackLimit in readValue().")
      else
        set_depth S;;;
        let* token := skipCommentTokens in
        let* f := leer features_ in
        let error : M Reader (bool * Value) :=
          let* b := addError "Syntax error: value, object or array expected." token None in ret (b, cur) in
        let fin (r : bool * Value) : M Reader (bool * Value) := set_depth Nat.pred;;; ret r in
        match type_ token with
        | tokenObjectBegin => let* r := readObject (readValue fuel) in fin r
        | tokenArrayBegin => let* r := readArray (readValue fuel) in fin r
        | tokenNumber => let* o := decodeNumber token in fin (asignar_si cur o)
        | tokenString => let* o := decodeString token in fin (asignar_si cur (stringValue <$> o))
        | tokenTrue => fin (true, booleanValue true)
        | tokenFalse => fin (true, booleanValue false)
        | tokenNull => fin (true, nullValue)
        | tokenArraySeparator | tokenObjectEnd | tokenArrayEnd =>
            if allowDroppedNullPlaceholders_ f then
              set_current (start_ token);;; fin (true, nullValue)
            else error
        | _ => error
        end
  end.

(** [parse(document, root)]: the result, the root it leaves, the reader.  Recursion deeper
    than [stackLimit_g] throws, so one more level of fuel is always enough. *)
Definition parse_features (f : Features) (document : string) (root : Value)
  : res (bool * Value * list ErrorInfo) :=
  let run : M Reader (bool * Value) :=
    let* '(successful, root) := readValue (S stackLimit_g) root in
    let* token := skipCommentTokens in
    if strictRoot_ f && negb (isArray root || isObject root) then
      let* b := addError "A valid JSON document must be either an array or an object value."
            (mkToken tokenError document "") None in
      ret (b, root)
    else ret (successful, root) in
  match run (mkReader document [] f 0) with
  | (Ok (b, v), r) => Ok (b, v, errors_ r)
  | (Fallo e, _) => Fallo e
  end.

(** [Json::Reader reader; Json::Value root; reader.parse(document, root)] *)
Definition parse (document : string) : res (bool * Value) :=
  let? '(b, v, _) := parse_features Features_all document nullValue in Ok (b, v).

End JsonReader.
