(* ===== verification/JsonWriter.v ===== *)
(** * JsonWriter: quoting, [Json::FastWriter] and [Json::StyledWriter] of src/json/json.cpp

    The writers keep their member variables in a record and write through the state
    monad.  Values carry no comments in the model, so the [writeComment...] calls of the
    source, which print nothing for them, do not appear. *)

From S2P Require Import Prelude Libc JsonValue JsonReader.
Open Scope Z_scope.

Module JsonWriter.
Import Libc Json.

(** ** Quoting *)

(** [ch > 0 && ch <= 0x1F] for a signed [char]. *)
Definition isControlCharacter (ch : ascii) : bool := (0 <? byte ch) && (byte ch <=? 0x1F).

(** Over a NUL-terminated text. *)
Definition containsControlCharacter (s : string) : bool :=
  negb (todos (fun c => negb (isControlCharacter c)) (c_str s)).

Definition containsControlCharacter0 (s : string) : bool :=
  negb (todos (fun c => negb (isControlCharacter c || Ascii.eqb c NUL)) s).

Definition especial (c : ascii) : bool :=
  Ascii.eqb c JsonReader.COMILLA || Ascii.eqb c JsonReader.BARRA || Ascii.eqb c "008" ||
  Ascii.eqb c "012" || Ascii.eqb c "010" || Ascii.eqb c "013" || Ascii.eqb c "009".

(** [strpbrk(s, special) == NULL] and [strnpbrk(s, special, n) == NULL] *)
Definition strpbrk_null (s : string) : bool := todos (fun c => negb (especial c)) (c_str s).
Definition strnpbrk_null (s : string) : bool := todos (fun c => negb (especial c)) s.

(** [std::hex << std::uppercase << std::setfill('0') << std::setw(4)] of a small value *)
Definition hexa_mayuscula (n : Z) : ascii := if n <? 10 then chr (48 + n) else chr (55 + n).
Definition hex4_mayuscula (n : Z) : string :=
  String "0" (String "0" (String (hexa_mayuscula (n / 16)) (String (hexa_mayuscula (n mod 16)) ""))).

Definition barra (s : string) : string := String JsonReader.BARRA s.

(** The [switch (c)] of the escaping loops. *)
Definition escapar (c : ascii) : string :=
  if Ascii.eqb c JsonReader.COMILLA then barra (String JsonReader.COMILLA "")
  else if Ascii.eqb c JsonReader.BARRA then barra (String JsonReader.BARRA "")
  else if Ascii.eqb c "008" then barra "b"
  else if Ascii.eqb c "012" then barra "f"
  else if Ascii.eqb c "010" then barra "n"
  else if Ascii.eqb c "013" then barra "r"
  else if Ascii.eqb c "009" then barra "t"
  else if isControlCharacter c || Ascii.eqb c NUL then barra ("u" +:+ hex4_mayuscula (byte c))
  else String c "".

Fixpoint escapar_todo (s : string) : string :=
  match s with "" => "" | String c s => escapar c +:+ escapar_todo s end.

Definition comillas (s : string) : string :=
  String JsonReader.COMILLA (s +:+ String JsonReader.COMILLA "").

(** [valueToQuotedString(value)]: [value] up to its terminating NUL. *)
Definition valueToQuotedString (value : string) : string :=
  if strpbrk_null value && negb (containsControlCharacter value) then comillas (c_str value)
  else comillas (escapar_todo (c_str value)).

(** [valueToQuotedStringN(value, length)] *)
Definition valueToQuotedStringN (value : string) : string :=
  if strnpbrk_null value && negb (containsControlCharacter0 value) then comillas (c_str value)
  else comillas (escapar_todo value).

(** ** Depth of a value, the fuel of the writers *)

Fixpoint altura (v : Value) : nat :=
  let fix alturas (m : ObjectValues) : nat :=
    match m with [] => O | (_, v) :: m => Nat.max (altura v) (alturas m) end in
  match v with
  | arrayValue m | objectValue m => S (alturas m)
  | _ => O
  end.

(** ** [FastWriter] with its default options *)

Fixpoint intercalar {S A} (sep : M S unit) (l : list A) (f : A -> M S unit) : M S unit :=
  match l with
  | [] => ret tt
  | [x] => f x
  | x :: l => f x;;; sep;;; intercalar sep l f
  end.

Fixpoint fast_writeValue (fuel : nat) (value : Value) : M string unit :=
  match fuel with
  | O => falla SinCombustible
  | S fuel =>
      let emitir (s : string) : M string unit := cambiar (fun d => d +:+ s) in
      match value with
      | nullValue => emitir "null"
      | intValue _ => let* i := alzar (asLargestInt value) in emitir (valueToString_int i)
      | uintValue _ => let* i := alzar (asLargestUInt value) in emitir (valueToString_uint i)
      | realValue _ => let* d := alzar (asDouble value) in emitir (valueToString_double d)
      | stringValue s => emitir (valueToQuotedString s)
      | booleanValue _ => let* b := alzar (asBool value) in emitir (valueToString_bool b)
      | arrayValue _ =>
          emitir "[";;;
          intercalar (emitir ",") (seq 0 (size value))
            (fun index => let* v := alzar (index_const value index) in fast_writeValue fuel v);;;
          emitir "]"
      | objectValue _ =>
          let* members := alzar (getMemberNames value) in
          emitir "{";;;
          intercalar (emitir ",") members
            (fun name =>
               emitir (valueToQuotedStringN name);;; emitir ":";;;
               let* v := alzar (key_const value name) in fast_writeValue fuel v);;;
          emitir "}"
      end
  end.

Definition fast_write (root : Value) : res string :=
  match (fast_writeValue (S (altura root)) root;;; cambiar (fun d => d +:+ LF)) "" with
  | (Ok _, d) => Ok d
  | (Fallo e, _) => Fallo e
  end.

(** ** [StyledWriter] *)

Record StyledWriter : Type := mkStyled {
  childValues_ : list string;
  document_ : string;
  indentString_ : string;
  addChildValues_ : bool }.

Definition rightMargin_ : Z := 74.
Definition indentSize_ : nat := 3.

Abbreviation W := (M StyledWriter).

Definition emitir (s : string) : W unit :=
  cambiar (fun w => mkStyled (childValues_ w) (document_ w +:+ s) (indentString_ w) (addChildValues_ w)).

Definition pushValue (value : string) : W unit :=
  let* add := leer addChildValues_ in
  if add
  then cambiar (fun w => mkStyled (childValues_ w ++ [value]) (document_ w) (indentString_ w)
                                  (addChildValues_ w))
  else emitir value.

(** [document_[document_.length() - 1]] *)
Fixpoint ultimo (s : string) : option ascii :=
  match s with
  | "" => None
  | String c "" => Some c
  | String _ s => ultimo s
  end.

Definition writeIndent : W unit :=
  let* doc := leer document_ in
  let* ind := leer indentString_ in
  match ultimo doc with
  | None => emitir ind
  | Some last =>
      if Ascii.eqb last " " then ret tt
      else if Ascii.eqb last "010" then emitir ind
      else emitir LF;;; emitir ind
  end.

Definition writeWithIndent (value : string) : W unit := writeIndent;;; emitir value.

Definition espacios (n : nat) : string := String.concat "" (replicate n " ").

Definition indent : W unit :=
  cambiar (fun w => mkStyled (childValues_ w) (document_ w)
                      (indentString_ w +:+ espacios indentSize_) (addChildValues_ w)).
Definition unindent : W unit :=
  cambiar (fun w => mkStyled (childValues_ w) (document_ w)
                      (prefijo (String.length (indentString_ w) - indentSize_) (indentString_ w))
                      (addChildValues_ w)).

Definition set_childValues (l : list string) : W unit :=
  cambiar (fun w => mkStyled l (document_ w) (indentString_ w) (addChildValues_ w)).
Definition set_addChildValues (b : bool) : W unit :=
  cambiar (fun w => mkStyled (childValues_ w) (document_ w) (indentString_ w) b).

(** [childValues_[index]] *)
Definition childValue_at (index : nat) : W string :=
  let* l := leer childValues_ in
  match l !! index with
  | Some s => ret s
  | None => falla (Indefinido "childValues_ index out of range")
  end.

Section Recursion.
Variable writeValue : Value -> W unit.

(** The elements [value[0] .. value[size - 1]]. *)
Definition elementos (value : Value) : W (list Value) :=
  alzar ((fix go (l : list nat) : res (list Value) :=
            match l with
            | [] => Ok []
            | i :: l => let? v := index_const value i in let? vs := go l in Ok (v :: vs)
            end) (seq 0 (size value))).

Fixpoint medir (index : nat) (lineLength : Z) (l : list Value) : W Z :=
  match l with
  | [] => ret lineLength
  | v :: l =>
      writeValue v;;;
      let* s := childValue_at index in
      medir (S index) (lineLength + Z.of_nat (String.length s)) l
  end.

Definition isMultineArray (value : Value) : W bool :=
  let size := Z.of_nat (Json.size value) in
  let isMultiLine := rightMargin_ <=? size * 3 in
  set_childValues [];;;
  let* children := elementos value in
  let isMultiLine := isMultiLine ||
    existsb (fun c => (isArray c || isObject c) && (0 <? Json.size c)%nat) children in
  if isMultiLine then ret true
  else
    set_addChildValues true;;;
    let* lineLength := medir 0 (4 + (size - 1) * 2) children in
    set_addChildValues false;;;
    ret (rightMargin_ <=? lineLength).

Definition writeArrayValue (value : Value) : W unit :=
  if (size value =? 0)%nat then pushValue "[]"
  else
    let* isArrayMultiLine := isMultineArray value in
    if isArrayMultiLine then
      writeWithIndent "[";;; indent;;;
      let* hasChildValue := leer (fun w => negb (length (childValues_ w) =? 0)%nat) in
      intercalar (emitir ",") (seq 0 (size value))
        (fun index =>
           let* childValue := alzar (index_const value index) in
           if hasChildValue then let* s := childValue_at index in writeWithIndent s
           else writeIndent;;; writeValue childValue);;;
      unindent;;; writeWithIndent "]"
    else
      emitir "[ ";;;
      intercalar (emitir ", ") (seq 0 (size value))
        (fun index => let* s := childValue_at index in emitir s);;;
      emitir " ]".

Definition writeObjectValue (value : Value) : W unit :=
  let* members := alzar (getMemberNames value) in
  if (length members =? 0)%nat then pushValue "{}"
  else
    writeWithIndent "{";;; indent;;;
    intercalar (emitir ",") members
      (fun name =>
         let* childValue := alzar (key_const value name) in
         writeWithIndent (valueToQuotedString name);;;
         emitir " : ";;;
         writeValue childValue);;;
    unindent;;; writeWithIndent "}".
End Recursion.

Fixpoint writeValue (fuel : nat) (value : Value) : W unit :=
  match fuel with
  | O => falla SinCombustible
  | S fuel =>
      match value with
      | nullValue => pushValue "null"
      | intValue _ => let* i := alzar (asLargestInt value) in pushValue (valueToString_int i)
      | uintValue _ => let* i := alzar (asLargestUInt value) in pushValue (valueToString_uint i)
      | realValue _ => let* d := alzar (asDouble value) in pushValue (valueToString_double d)
      | stringValue s => pushValue (valueToQuotedStringN s)
      | booleanValue _ => let* b := alzar (asBool value) in pushValue (valueToString_bool b)
      | arrayValue _ => writeArrayValue (writeValue fuel) value
      | objectValue _ => writeObjectValue (writeValue fuel) value
      end
  end.

Definition write (root : Value) : res string :=
  match (writeValue (S (altura root)) root;;; emitir LF) (mkStyled [] "" "" false) with
  | (Ok _, w) => Ok (document_ w)
  | (Fallo e, _) => Fallo e
  end.

Definition toStyledString (v : Value) : res string := write v.

End JsonWriter.
