(* ===== verification/JsonTexto.v ===== *)
(** * JsonTexto: the JSON text of a value, as a language

    [Texto v] is the set of texts that denote the value [v], with any blanks between
    tokens.  It is the interface between the writer, which produces members of it
    (JsonWriterOk), and the reader, which recovers [v] from any of them (JsonReaderOk).
    The file also has the lexical facts both sides share: quoting and unquoting of strings,
    printing and reading of integers. *)

From S2P Require Import Prelude Libc JsonValue JsonReader JsonWriter.
Open Scope Z_scope.

Module JsonTexto.
Import Libc Json JsonLeyes JsonWriter.
Import (notations) JsonReader.
Abbreviation es_blanco := JsonReader.es_blanco.

(** ** Languages *)

Definition lang : Type := string -> Prop.
Definition lit (t : string) : lang := fun s => s = t.
Definition Bl : lang := fun s => todos es_blanco s = true.
Definition cat (P Q : lang) : lang := fun s => exists a b, s = a +:+ b /\ P a /\ Q b.
Infix "⊙" := cat (at level 51, right associativity) : mensajero_scope.
Open Scope mensajero_scope.

Lemma cat_intro (P Q : lang) a b : P a -> Q b -> (P ⊙ Q) (a +:+ b).
Proof. intros. by exists a, b. Qed.

Lemma cat_assoc (P Q R : lang) s : ((P ⊙ Q) ⊙ R) s <-> (P ⊙ Q ⊙ R) s.
Proof.
  split.
  - intros (ab & c & -> & (a & b & -> & Ha & Hb) & Hc). rewrite app_assoc_s.
    by repeat apply cat_intro.
  - intros (a & bc & -> & Ha & (b & c & -> & Hb & Hc)). rewrite <- app_assoc_s.
    by repeat apply cat_intro.
Qed.

Lemma Bl_nil : Bl "".
Proof. reflexivity. Qed.

Lemma Bl_app a b : Bl a -> Bl b -> Bl (a +:+ b).
Proof. unfold Bl. intros Ha Hb. by rewrite todos_app, Ha, Hb. Qed.

(** ** Canonical values *)

(** Indices [k], [k+1], ... for the elements of an array without holes. *)
Fixpoint indexar (k : nat) (vs : list Value) : ObjectValues :=
  match vs with [] => [] | v :: vs => (CZIndex k, v) :: indexar (S k) vs end.

Fixpoint densa (k : nat) (m : ObjectValues) : bool :=
  match m with
  | [] => true
  | (k', _) :: m => CZString_eq k' (CZIndex k) && densa (S k) m
  end.

(** Strictly increasing string keys without NUL, all above [piso]. *)
Fixpoint claves_ok (piso : option CZString) (m : ObjectValues) : bool :=
  match m with
  | [] => true
  | (k, _) :: m =>
      match k with CZStr s => negb (contiene NUL s) | CZIndex _ => false end &&
      match piso with None => true | Some p => CZString_lt p k end && claves_ok (Some k) m
  end.

(** The values a document denotes exactly: no reals, integers in the representation the
    reader chooses, arrays without holes, objects that are maps with NUL-free keys. *)
Fixpoint canonico (v : Value) : bool :=
  let fix todos_canonicos (m : ObjectValues) : bool :=
    match m with [] => true | (_, v) :: m => canonico v && todos_canonicos m end in
  match v with
  | nullValue | stringValue _ | booleanValue _ => true
  | intValue i => (minInt64 <=? i) && (i <=? maxInt)
  | uintValue u => (maxInt <? u) && (u <=? maxUInt64)
  | realValue _ => false
  | arrayValue m => densa 0 m && todos_canonicos m
  | objectValue m => claves_ok None m && todos_canonicos m
  end.

Section Listas.
Variable T : Value -> lang.
Fixpoint elems (m : ObjectValues) : lang :=
  match m with
  | [] => fun _ => False
  | (_, v) :: m =>
      match m with
      | [] => Bl ⊙ T v ⊙ Bl
      | _ => Bl ⊙ T v ⊙ Bl ⊙ lit "," ⊙ elems m
      end
  end.
Fixpoint miembros (m : ObjectValues) : lang :=
  match m with
  | [] => fun _ => False
  | (k, v) :: m =>
      let uno := Bl ⊙ lit (comillas (escapar_todo (key_str k))) ⊙ Bl ⊙ lit ":" ⊙ Bl ⊙ T v ⊙ Bl in
      match m with [] => uno | _ => uno ⊙ lit "," ⊙ miembros m end
  end.
End Listas.

Fixpoint Texto (v : Value) : lang :=
  match v with
  | nullValue => lit "null"
  | booleanValue b => lit (if b then "true" else "false")
  | intValue i => lit (valueToString_int i)
  | uintValue u => lit (valueToString_uint u)
  | realValue d => lit (valueToString_double d)
  | stringValue s => lit (comillas (escapar_todo s))
  | arrayValue [] => lit "[]"
  | arrayValue m => lit "[" ⊙ elems Texto m ⊙ lit "]"
  | objectValue [] => lit "{}"
  | objectValue m => lit "{" ⊙ miembros Texto m ⊙ lit "}"
  end.

(** ** Facts on values *)

Lemma altura_hijo m p : In p m -> (altura p.2 < altura (arrayValue m))%nat.
Proof.
  cbn [altura]. induction m as [|[k v] m IH]; [done|]. intros [<-|Hi]; cbn [snd]; [lia|].
  specialize (IH Hi). lia.
Qed.

Lemma altura_objeto m : altura (objectValue m) = altura (arrayValue m).
Proof. reflexivity. Qed.

Lemma canonico_hijos v m :
  v = arrayValue m \/ v = objectValue m -> canonico v = true -> Forall (fun p => canonico p.2 = true) m.
Proof.
  intros Hv. assert (canonico v = true ->
    (fix go (m : ObjectValues) : bool :=
       match m with [] => true | (_, v) :: m => canonico v && go m end) m = true) as Hx.
  { destruct Hv as [-> | ->]; cbn [canonico]; intros; partir; done. }
  intros Hc. specialize (Hx Hc). clear Hv Hc v. induction m as [|[k v] m IH]; [constructor|].
  partir. constructor; auto.
Qed.

Lemma densa_indexar k m : densa k m = true -> m = indexar k (snd <$> m).
Proof.
  revert k. induction m as [|[k' v] m IH]; intros k; [done|]. cbn [densa indexar fmap list_fmap].
  intros. partir. apply CZString_eq_spec in H as ->. cbn. f_equal. by apply IH.
Qed.

Lemma length_indexar k vs : length (indexar k vs) = length vs.
Proof. revert k. induction vs; intros; cbn; auto. Qed.

Lemma find_indexar k vs i :
  map_find (CZIndex i) (indexar k vs) = if (i <? k)%nat then None else vs !! (i - k)%nat.
Proof.
  revert k. induction vs as [|v vs IH]; intros k; cbn [indexar map_find].
  - by destruct (i <? k)%nat.
  - cbn [CZString_lt CZString_eq]. rewrite IH.
    destruct (Nat.ltb_spec k i), (Nat.ltb_spec i (S k)), (Nat.ltb_spec i k),
      (Nat.eqb_spec k i); try lia; try done.
    + replace (i - k)%nat with (S (i - S k)) by lia. done.
    + replace (i - k)%nat with O by lia. done.
Qed.

Lemma size_indexar vs : size (arrayValue (indexar 0 vs)) = length vs.
Proof.
  cbn [size]. assert (forall k, match last (indexar k vs) with
    | Some (CZIndex i, _) => S i | _ => O end = match vs with [] => O | _ => (k + length vs)%nat end) as H.
  { induction vs as [|v vs IH]; intros k; [done|]. destruct vs as [|v' vs]; cbn [indexar].
    - cbn. lia.
    - specialize (IH (S k)). cbn [indexar] in IH. rewrite last_cons_cons, IH. cbn. lia. }
  rewrite H. by destruct vs.
Qed.

Lemma index_const_indexar vs i v :
  vs !! i = Some v -> index_const (arrayValue (indexar 0 vs)) i = Ok v.
Proof. intros H. unfold index_const, index_ref. rewrite find_indexar. cbn. by rewrite Nat.sub_0_r, H. Qed.

(** Objects with increasing keys are maps. *)
Lemma claves_mapa p m : claves_ok p m = true ->
  mapa_de (CZStr "") m /\ match p with None => True | Some p => Forall (fun q => CZString_lt p q.1 = true) m end.
Proof.
  revert p. induction m as [|[k v] m IH]; intros p; cbn [claves_ok].
  - intros _. split; [apply mapa_nil|]. destruct p; [constructor|done].
  - intros. partir. destruct (IH (Some k) H0) as [H1' H2']. split.
    + apply mapa_cons. split_and!; try done. by destruct k.
    + destruct p as [p|]; [|done]. constructor; [done|].
      eapply Forall_impl; [exact H2'|]. cbn. intros q Hq. by eapply CZ_trans.
Qed.

Lemma claves_str m p k v : claves_ok p m = true -> In (k, v) m ->
  exists s, k = CZStr s /\ contiene NUL s = false.
Proof.
  revert p. induction m as [|[k' v'] m IH]; intros p; [done|]. cbn [claves_ok]. intros Hc.
  partir. intros [[= -> ->]|Hi]; [|by eapply IH]. destruct k as [|s]; [done|].
  exists s. split; [done|]. by apply negb_true_iff.
Qed.

(** ** Quoting *)

Lemma escapar_simple c : especial c = false -> isControlCharacter c || Ascii.eqb c NUL = false ->
  escapar c = String c "".
Proof.
  unfold especial, escapar. intros H1 H2. partir.
  repeat match goal with H : Ascii.eqb _ _ = false |- _ => rewrite H; clear H end.
  match goal with H : isControlCharacter c = false |- _ => rewrite H end. reflexivity.
Qed.

Lemma quoted_N s : valueToQuotedStringN s = comillas (escapar_todo s).
Proof.
  unfold valueToQuotedStringN. destruct (_ && _) eqn:E; [|done]. f_equal.
  unfold strnpbrk_null, containsControlCharacter0 in E. rewrite negb_involutive in E. partir.
  assert (contiene NUL s = false) as Hn.
  { unfold contiene. rewrite negb_false_iff. eapply todos_impl; [|eassumption]. intros c Hc.
    apply negb_true_iff, orb_false_elim in Hc as [_ Hc]. by rewrite Ascii.eqb_sym, Hc. }
  rewrite c_str_id by done. clear Hn. induction s as [|c s IH]; [done|].
  cbn [todos] in *. partir. cbn [escapar_todo]. rewrite escapar_simple.
  - rewrite app_cons_s, app_nil_l_s. f_equal. auto.
  - done.
  - apply orb_false_iff. split; done.
Qed.

Lemma quoted_c s : contiene NUL s = false -> valueToQuotedString s = comillas (escapar_todo s).
Proof.
  intros Hn. unfold valueToQuotedString, strpbrk_null, containsControlCharacter.
  rewrite c_str_id by done. destruct (_ && _) eqn:E; [|done]. f_equal.
  rewrite negb_involutive in E. partir. induction s as [|c s IH]; [done|].
  rewrite contiene_cons in Hn. cbn [todos] in *. partir. cbn [escapar_todo]. rewrite escapar_simple.
  - rewrite app_cons_s, app_nil_l_s. f_equal. auto.
  - done.
  - apply orb_false_iff. split; [done|]. by rewrite Ascii.eqb_sym.
Qed.

Lemma scan_escapar c r : JsonReader.scanString (escapar c +:+ r) = JsonReader.scanString r.
Proof. destruct c as [[][][][][][][][]]; reflexivity. Qed.

Lemma scan_quoted s rest :
  JsonReader.scanString (escapar_todo s +:+ String JsonReader.COMILLA rest) = (true, rest).
Proof.
  induction s as [|c s IH]; [done|]. cbn [escapar_todo]. by rewrite app_assoc_s, scan_escapar.
Qed.

Lemma decode_escapar fuel c r fin :
  JsonReader.decode_loop (S fuel) (escapar c +:+ r) fin =
  match JsonReader.decode_loop fuel r fin with inl e => inl e | inr t => inr (String c t) end.
Proof. destruct c as [[][][][][][][][]]; reflexivity. Qed.

Lemma decode_quoted fuel s fin :
  (String.length s < fuel)%nat -> JsonReader.decode_loop fuel (escapar_todo s) fin = inr s.
Proof.
  revert fuel. induction s as [|c s IH]; intros [|fuel] Hl; cbn [String.length] in Hl; try lia; [done|].
  cbn [escapar_todo]. rewrite decode_escapar, IH by lia. done.
Qed.

Lemma length_escapar s : (String.length s <= String.length (escapar_todo s))%nat.
Proof.
  induction s as [|c s IH]; [done|]. cbn [escapar_todo String.length]. rewrite length_app_s.
  assert (1 <= String.length (escapar c))%nat; [|lia].
  unfold escapar, barra. repeat case_match; cbn; lia.
Qed.

(** ** Integers *)

Lemma isdigit_chr d : 0 <= d < 10 -> isdigit (chr (48 + d)) = true /\ digit_val (chr (48 + d)) = d.
Proof.
  intros Hd. unfold isdigit, en_rango, digit_val. rewrite byte_chr, Z.mod_small by lia. split; [|lia].
  apply andb_true_iff. split; apply Z.leb_le; lia.
Qed.

(** [digitos] prints the digits of [n] in front of [acc]. *)
Lemma digitos_spec fuel n acc :
  0 <= n < 10 ^ Z.of_nat fuel -> (0 < fuel)%nat ->
  exists ds, digitos fuel n acc = ds +:+ acc /\ ds <> "" /\ todos isdigit ds = true /\
    forall a, valor_decimal a ds = a * 10 ^ largo ds + n.
Proof.
  revert n acc. induction fuel as [|fuel IH]; intros n acc Hn Hf; [lia|]. cbn [digitos].
  pose proof (Z.mod_pos_bound n 10 ltac:(lia)) as Hm. pose proof (Z.div_mod n 10 ltac:(lia)) as Hd.
  destruct (isdigit_chr (n mod 10) Hm) as [D1 D2].
  destruct (Z.eqb_spec (n / 10) 0) as [E|E].
  - exists (String (chr (48 + n mod 10)) ""). split_and!; try done; cbn [todos].
    + by rewrite D1.
    + intros a. cbn [valor_decimal]. rewrite D2. unfold largo. cbn. lia.
  - pose proof (Z.div_pos n 10 ltac:(lia) ltac:(lia)).
    assert (0 < fuel)%nat by (destruct fuel; [|lia]; change (10 ^ Z.of_nat 1) with 10 in Hn;
      exfalso; apply E; apply Z.div_small; lia).
    destruct (IH (n / 10) (String (chr (48 + n mod 10)) acc)) as (ds & -> & Hne & Hall & Hval).
    + split; [done|]. apply Z.div_lt_upper_bound; [lia|].
      rewrite <- (Z.pow_succ_r 10) by lia. rewrite <- Nat2Z.inj_succ. lia.
    + done.
    + exists (ds +:+ String (chr (48 + n mod 10)) ""). split_and!.
      * by rewrite app_assoc_s.
      * by destruct ds.
      * rewrite todos_app, Hall. cbn [todos]. by rewrite D1.
      * intros a. assert (forall b s c, valor_decimal b (s +:+ String c "") =
          valor_decimal b s * 10 + digit_val c) as Happ.
        { intros b s c. revert b. induction s as [|x s IHs]; intros b; [done|].
          rewrite app_cons_s. cbn [valor_decimal]. apply IHs. }
        rewrite Happ, Hval, D2. unfold largo. rewrite length_app_s. cbn [String.length].
        rewrite Nat2Z.inj_add, Z.pow_add_r by lia. change (10 ^ Z.of_nat 1) with 10. lia.
Qed.

Lemma uintToString_spec n : 0 <= n <= maxUInt64 ->
  exists ds, uintToString n = ds /\ ds <> "" /\ todos isdigit ds = true /\ valor_decimal 0 ds = n.
Proof.
  intros Hn. destruct (digitos_spec 20 n "") as (ds & E & Hne & Hall & Hv).
  - unfold maxUInt64 in Hn. split; [lia|]. eapply Z.le_lt_trans; [apply Hn|]. reflexivity.
  - lia.
  - exists ds. unfold uintToString. rewrite E, app_nil_r_s. by split_and!.
Qed.

Lemma valor_decimal_ge a s : todos isdigit s = true -> 0 <= a -> a <= valor_decimal a s.
Proof.
  revert a. induction s as [|c s IH]; intros a Hs Ha; cbn [valor_decimal]; [lia|].
  cbn [todos] in Hs. partir. unfold isdigit, en_rango in H. partir.
  rewrite Z.leb_le in *. unfold digit_val in *. etrans; [|apply IH; [done|lia]]. lia.
Qed.

Lemma valor_decimal_ge10 a s : todos isdigit s = true -> 0 <= a -> s <> "" -> a * 10 <= valor_decimal a s.
Proof.
  destruct s as [|c s]; [done|]. cbn [todos valor_decimal]. intros Hs Ha _. partir.
  unfold isdigit, en_rango in H. partir. rewrite Z.leb_le in *.
  etrans; [|apply valor_decimal_ge; [done|]]; unfold digit_val; lia.
Qed.

Lemma digit_loop_spec max a s :
  9 < max <= maxUInt64 -> 0 <= a -> todos isdigit s = true -> valor_decimal a s <= max ->
  JsonReader.digit_loop max a s = Some (valor_decimal a s).
Proof.
  intros Hmax. revert a. induction s as [|c s IH]; intros a Ha Hs Hv; [done|].
  cbn [JsonReader.digit_loop]. cbn [todos] in Hs. partir. rewrite H. cbn [negb].
  cbn [valor_decimal] in *. pose proof H as Hd. unfold isdigit, en_rango in Hd. partir.
  rewrite Z.leb_le in *. assert (0 <= digit_val c <= 9) as Hdv by (unfold digit_val; lia).
  pose proof (Z.div_mod max 10 ltac:(lia)) as Dm. pose proof (Z.mod_pos_bound max 10 ltac:(lia)) as Bm.
  pose proof (valor_decimal_ge (a * 10 + digit_val c) s H0 ltac:(lia)) as Hge.
  destruct (_ && _) eqn:E; [|rewrite u64_id by lia; apply IH; [lia|done|done]]. exfalso.
  apply andb_prop in E as [E1 E2]. rewrite Z.leb_le in E1.
  apply orb_prop in E2 as [E2|E2]; [apply orb_prop in E2 as [E2|E2]|].
  - rewrite Z.ltb_lt in E2. lia.
  - apply negb_true_iff, String.eqb_neq in E2.
    pose proof (valor_decimal_ge10 (a * 10 + digit_val c) s H0 ltac:(lia) E2). lia.
  - rewrite Z.ltb_lt in E2. lia.
Qed.

Lemma digit_loop_grande max a s :
  9 < max <= maxUInt64 -> 0 <= a <= max -> todos isdigit s = true -> max < valor_decimal a s ->
  JsonReader.digit_loop max a s = None.
Proof.
  intros Hmax. revert a. induction s as [|c s IH]; intros a Ha Hs Hv; [cbn in Hv; lia|].
  cbn [JsonReader.digit_loop]. cbn [todos] in Hs. partir. rewrite H. cbn [negb].
  cbn [valor_decimal] in *. pose proof H as Hd. unfold isdigit, en_rango in Hd. partir.
  rewrite Z.leb_le in *. assert (0 <= digit_val c <= 9) as Hdv by (unfold digit_val; lia).
  pose proof (Z.div_mod max 10 ltac:(lia)) as Dm. pose proof (Z.mod_pos_bound max 10 ltac:(lia)) as Bm.
  destruct (_ && _) eqn:E; [done|].
  assert (0 <= a * 10 + digit_val c <= max) as Ha'.
  { apply andb_false_iff in E as [E|E]; [rewrite Z.leb_gt in E; lia|].
    apply orb_false_iff in E as [[E1 E2]%orb_false_iff E3]. rewrite Z.ltb_ge in *. lia. }
  rewrite u64_id by lia. by apply IH.
Qed.

End JsonTexto.
