(* ===== verification/JsonReaderOk.v ===== *)
(** * JsonReaderOk: what [Json::Reader] guarantees

    The reader recovers a canonical value from any text of it ([lee]), and no document
    makes one of its loops run forever ([parse_total]). *)

From S2P Require Import Prelude Libc JsonValue JsonReader JsonWriter JsonTexto.
Open Scope Z_scope.

Module JsonReaderOk.
Import Libc Json JsonLeyes JsonWriter JsonTexto JsonReader.
Open Scope mensajero_scope.

(** Induction on values through their containers. *)
Lemma Value_ind' (P : Value -> Prop) :
  P nullValue -> (forall i, P (intValue i)) -> (forall u, P (uintValue u)) ->
  (forall d, P (realValue d)) -> (forall s, P (stringValue s)) -> (forall b, P (booleanValue b)) ->
  (forall m, Forall (fun p => P p.2) m -> P (arrayValue m)) ->
  (forall m, Forall (fun p => P p.2) m -> P (objectValue m)) ->
  forall v, P v.
Proof.
  intros Hn Hi Hu Hr Hs Hb Ha Ho. fix IH 1.
  intros [| | | | | |m|m]; [exact Hn|apply Hi|apply Hu|apply Hr|apply Hs|apply Hb| |].
  - apply Ha. induction m as [|[k v] m IHm]; constructor; [apply IH|exact IHm].
  - apply Ho. induction m as [|[k v] m IHm]; constructor; [apply IH|exact IHm].
Qed.

(** ** Tokens *)

Section Tokens.
Context (e : list ErrorInfo) (f : Features) (d : nat).
Abbreviation en l := (mkReader l e f d).

Lemma abarcar_bl b l : Bl b -> snd (abarcar es_blanco (b +:+ l)) = snd (abarcar es_blanco l).
Proof.
  induction b as [|c b IH]; [done|]. unfold Bl in *. cbn [todos]. intros. partir.
  rewrite app_cons_s. cbn [abarcar]. rewrite H.
  specialize (IH H0). destruct (abarcar es_blanco (b +:+ l)). done.
Qed.

Lemma skipSpaces_bl b l : Bl b -> skipSpaces (en (b +:+ l)) = skipSpaces (en l).
Proof. intros Hb. unfold skipSpaces, bindM, leer, set_current, cambiar. cbn. by rewrite abarcar_bl. Qed.

Lemma readToken_bl b l : Bl b -> readToken (en (b +:+ l)) = readToken (en l).
Proof. intros Hb. unfold readToken. unfold bindM at 1 6. by rewrite skipSpaces_bl. Qed.

Lemma readToken_string s rest :
  readToken (en (comillas (escapar_todo s) +:+ rest)) =
  (Ok (mkToken tokenString (comillas (escapar_todo s) +:+ rest) rest), en rest).
Proof.
  unfold comillas. rewrite app_cons_s, app_assoc_s, app_cons_s, app_nil_l_s.
  unfold readToken, skipSpaces, bindM, leer, set_current, cambiar. cbn -[scanString].
  unfold readString, bindM, leer, set_current, cambiar. cbn -[scanString].
  by rewrite scan_quoted.
Qed.

(** After a number: nothing that [readNumber] would take in. *)
Definition fin_numero (rest : string) : bool :=
  match rest with
  | "" => true
  | String c _ => negb (isdigit c || Ascii.eqb c "." || Ascii.eqb c "e" || Ascii.eqb c "E")
  end.

Lemma scanNumber_digits ds rest :
  todos isdigit ds = true -> fin_numero rest = true -> scanNumber (ds +:+ rest) = rest.
Proof.
  intros Hd Hf. unfold scanNumber, skip_digits. rewrite abarcar_exacto; [|done|].
  - cbn [snd]. destruct rest as [|c r]; [done|]. cbn [fin_numero] in Hf. partir.
    destruct c as [[][][][][][][][]]; try done.
  - destruct rest as [|c r]; [done|]. cbn [fin_numero] in Hf. partir.
    by apply negb_true_iff.
Qed.

Lemma digit_no_blank c : isdigit c = true -> es_blanco c = false.
Proof. destruct c as [[][][][][][][][]]; cbn; done. Qed.

Lemma clasificar_numero c l :
  isdigit c = true \/ c = "-"%char ->
  clasificar c (en l) = (Ok (tokenNumber, true), en (scanNumber l)).
Proof. intros [H| ->]; [|done]. destruct c as [[][][][][][][][]]; try done. Qed.

Lemma readToken_number c ds rest :
  isdigit c = true \/ c = "-"%char -> todos isdigit ds = true -> fin_numero rest = true ->
  readToken (en (String c ds +:+ rest)) =
  (Ok (mkToken tokenNumber (String c ds +:+ rest) rest), en rest).
Proof.
  intros Hc Hd Hf. rewrite app_cons_s. unfold readToken, skipSpaces, bindM, leer, set_current, cambiar.
  cbn -[scanNumber clasificar]. assert (es_blanco c = false) as ->.
  { destruct Hc as [Hc| ->]; [by apply digit_no_blank|done]. }
  cbn -[scanNumber clasificar]. unfold set_current, cambiar. cbn -[scanNumber clasificar].
  rewrite clasificar_numero by done. by rewrite scanNumber_digits.
Qed.

Lemma skipComment_readToken l t r' :
  readToken (en l) = (Ok t, r') -> type_ t <> tokenComment -> skipCommentTokens (en l) = (Ok t, r').
Proof.
  intros Ht Hn. unfold skipCommentTokens, combustible, bindM, leer, ret. cbn [features_ current_].
  rewrite Ht. destruct (allowComments_ f); [|done]. cbn [saltear_comentarios Nat.add].
  by rewrite decide_False.
Qed.

Lemma saltear_no n t r : type_ t <> tokenComment -> saltear_comentarios (S n) t r = (Ok t, r).
Proof. intros. cbn. by rewrite decide_False. Qed.

Lemma decodeString_ok s rest r :
  decodeString (mkToken tokenString (comillas (escapar_todo s) +:+ rest) rest) r = (Ok (Some s), r).
Proof.
  unfold decodeString, interior, texto. cbn [start_ end_]. rewrite entre_app.
  unfold comillas. cbn [String.length saltear]. rewrite length_app_s. cbn [String.length].
  replace (S (String.length (escapar_todo s) + 1) - 2)%nat with (String.length (escapar_todo s)) by lia.
  rewrite prefijo_app, decode_quoted; [done|]. pose proof (length_escapar s). lia.
Qed.

Lemma decodeNumber_int i rest r : minInt64 <= i <= maxInt ->
  decodeNumber (mkToken tokenNumber (valueToString_int i +:+ rest) rest) r = (Ok (Some (intValue i)), r).
Proof.
  intros Hi. unfold decodeNumber, texto. cbn [start_ end_]. rewrite entre_app.
  unfold valueToString_int. destruct (Z.ltb_spec i 0) as [Hneg|Hpos].
  - rewrite (u64_id (- i)) by (unfold minInt64, maxUInt64 in *; lia).
    destruct (uintToString_spec (- i)) as (ds & -> & Hne & Hall & Hv).
    { unfold minInt64, maxInt, maxUInt64 in *. lia. }
    cbn [deref Ascii.eqb Bool.eqb saltear].
    replace (saltear 0 ds) with ds by (by destruct ds).
    change (u64 (s64 (- minInt64))) with (2 ^ 63).
    rewrite digit_loop_spec; [| done | lia | done | rewrite Hv; unfold minInt64 in *; lia].
    rewrite Hv. unfold minInt64 in *. rewrite s64_menos by lia. by rewrite Z.opp_involutive.
  - rewrite (u64_id i) by (unfold maxInt, maxUInt64 in *; lia).
    destruct (uintToString_spec i) as (ds & -> & Hne & Hall & Hv).
    { unfold maxInt, maxUInt64 in *. lia. }
    assert (Ascii.eqb (deref ds) "-" = false) as ->.
    { destruct ds as [|c ds]; [done|]. cbn [deref todos] in *. partir.
      by destruct c as [[][][][][][][][]]. }
    rewrite digit_loop_spec; [| done | lia | done | rewrite Hv; unfold maxInt, maxUInt64 in *; lia].
    rewrite Hv. change (u64 maxInt) with maxInt. destruct (Z.leb_spec i maxInt); [|lia].
    by rewrite s64_id by (unfold minInt64, maxInt, maxInt64 in *; lia).
Qed.

Lemma decodeNumber_uint u rest r : maxInt < u <= maxUInt64 ->
  decodeNumber (mkToken tokenNumber (valueToString_uint u +:+ rest) rest) r = (Ok (Some (uintValue u)), r).
Proof.
  intros Hu. unfold decodeNumber, texto. cbn [start_ end_]. rewrite entre_app.
  unfold valueToString_uint. rewrite (u64_id u) by (unfold maxInt, maxUInt64 in *; lia).
  destruct (uintToString_spec u) as (ds & -> & Hne & Hall & Hv).
  { unfold maxInt, maxUInt64 in *. lia. }
  assert (Ascii.eqb (deref ds) "-" = false) as ->.
  { destruct ds as [|c ds]; [done|]. cbn [deref todos] in *. partir.
    by destruct c as [[][][][][][][][]]. }
  rewrite digit_loop_spec; [| done | lia | done | rewrite Hv; unfold maxUInt64 in *; lia].
  rewrite Hv. change (u64 maxInt) with maxInt. destruct (Z.leb_spec u maxInt); [lia|done].
Qed.
End Tokens.

(** ** Values *)

Ltac paso H := erewrite bind_ok by (exact H || (apply H; done)); cbv beta iota.
Ltac lectura := unfold leer, alzar; repeat (erewrite bind_ok by reflexivity; cbv beta iota).

Lemma fin_bl b r : Bl b -> fin_numero r = true -> fin_numero (b +:+ r) = true.
Proof.
  destruct b as [|c b]; [done|]. unfold Bl. cbn [todos]. intros. partir. rewrite app_cons_s.
  cbn [fin_numero]. by destruct c as [[][][][][][][][]].
Qed.

(** The first character of a text is neither a blank nor a closing bracket. *)
Definition cabeza (s : string) : Prop :=
  exists c r, s = String c r /\ es_blanco c = false /\ c <> "]"%char /\ c <> "/"%char.

Lemma cabeza_digitos s : s <> "" -> todos isdigit s = true -> cabeza s.
Proof.
  destruct s as [|c r]; [done|]. cbn [todos]. intros _ ?. partir. exists c, r.
  split_and!; [done|by apply digit_no_blank|by intros ->|by intros ->].
Qed.

Lemma Texto_cabeza v s : canonico v = true -> Texto v s -> cabeza s.
Proof.
  assert (forall c r, es_blanco c = false -> c <> "]"%char -> c <> "/"%char -> cabeza (String c r)) as K
    by (intros; by exists c, r).
  destruct v as [|i|u|d|t|b|[|p m]|[|p m]]; cbn [canonico Texto]; intros Hc Hs; try done.
  all: try (unfold lit in Hs; subst s; by apply K).
  - unfold lit in Hs. subst s. partir. rewrite Z.leb_le in *. unfold valueToString_int.
    destruct (Z.ltb_spec i 0); [by apply K|]. unfold u64.
    rewrite Z.mod_small by (unfold maxInt in *; lia).
    destruct (uintToString_spec i) as (ds & -> & ? & ? & ?); [unfold maxInt, maxUInt64 in *; lia|].
    by apply cabeza_digitos.
  - unfold lit in Hs. subst s. partir. rewrite Z.leb_le, Z.ltb_lt in *. unfold valueToString_uint, u64.
    rewrite Z.mod_small by (unfold maxInt, maxUInt64 in *; lia).
    destruct (uintToString_spec u) as (ds & -> & ? & ? & ?); [unfold maxInt, maxUInt64 in *; lia|].
    by apply cabeza_digitos.
  - unfold lit in Hs. subst s. destruct b; by apply K.
  - destruct Hs as (a & r & -> & -> & _). rewrite app_cons_s. by apply K.
  - destruct Hs as (a & r & -> & -> & _). rewrite app_cons_s. by apply K.
Qed.

Lemma indexar_app k a b : indexar k (a ++ b) = indexar k a ++ indexar (k + length a) b.
Proof.
  revert k. induction a as [|v a IH]; intros k; cbn [indexar app length].
  - by rewrite Nat.add_0_r.
  - rewrite IH. do 3 f_equal. lia.
Qed.

Lemma indexar_menores k vs n : (k + length vs <= n)%nat ->
  Forall (fun p => CZString_lt p.1 (CZIndex n) = true) (indexar k vs).
Proof.
  revert k. induction vs as [|v vs IH]; intros k Hn; cbn [indexar length] in *; constructor.
  - cbn. apply Nat.ltb_lt. lia.
  - apply IH. lia.
Qed.

Section Contenedores.
Context (e : list ErrorInfo) (f : Features) (d : nat) (rv : Value -> M Reader (bool * Value)).
Abbreviation en l := (mkReader l e f d).

(** [rv] reads the value [v] from any of its texts. *)
Definition lee_valor (v : Value) : Prop := forall cur b s rest,
  Bl b -> Texto v s -> fin_numero rest = true ->
  rv cur (en (b +:+ s +:+ rest)) = (Ok (true, v), en rest).

(** The token after an element or a member. *)
Definition tipo_fin (fin : bool) (t : TokenType) : TokenType := if fin then t else tokenArraySeparator.

Lemma readToken_corchete (fin : bool) b rest (l := String (if fin then "]" else ",")%char rest) : Bl b ->
  readToken (en (b +:+ l)) = (Ok (mkToken (tipo_fin fin tokenArrayEnd) l rest), en rest).
Proof. intros Hb. rewrite readToken_bl by done. by destruct fin. Qed.

Lemma readToken_llave (fin : bool) b rest (l := String (if fin then "}" else ",")%char rest) : Bl b ->
  readToken (en (b +:+ l)) = (Ok (mkToken (tipo_fin fin tokenObjectEnd) l rest), en rest).
Proof. intros Hb. rewrite readToken_bl by done. by destruct fin. Qed.

(** One element and the separator or bracket after it. *)
Lemma readArray_loop_paso fuel pre v b t b2 rest (fin : bool) :
  lee_valor v -> Bl b -> Texto v t -> Bl b2 ->
  readArray_loop rv (S fuel) (length pre) (arrayValue (indexar 0 pre))
    (en (b +:+ t +:+ b2 +:+ String (if fin then "]" else ",") rest)) =
  if fin then (Ok (true, arrayValue (indexar 0 (pre ++ [v]))), en rest)
  else readArray_loop rv fuel (length (pre ++ [v])) (arrayValue (indexar 0 (pre ++ [v]))) (en rest).
Proof.
  intros Hv Hb Ht Hb2. cbn [readArray_loop].
  unfold index_const at 1, index_ref. rewrite find_indexar, Nat.sub_0_r, lookup_ge_None_2 by lia.
  replace (if _ : bool then None else None) with (@None Value) by (by destruct (_ <? _)%nat).
  unfold alzar at 1. erewrite bind_ok by reflexivity. cbv beta.
  erewrite bind_ok by (apply Hv; [done..|apply fin_bl; [done|by destruct fin]]). cbv beta iota.
  unfold at_index. rewrite map_update_final by (apply indexar_menores; lia).
  erewrite bind_ok by reflexivity. cbv beta.
  replace (indexar 0 pre ++ [(CZIndex (length pre), v)]) with (indexar 0 (pre ++ [v]))
    by (by rewrite indexar_app).
  cbn [negb]. unfold combustible. rewrite bind_assoc. erewrite bind_ok by reflexivity.
  erewrite bind_ok by reflexivity. cbv beta.
  erewrite bind_ok by (by apply readToken_corchete). cbv beta.
  erewrite bind_ok by (apply saltear_no; by destruct fin). cbv beta.
  rewrite length_app, Nat.add_comm. by destruct fin.
Qed.

Lemma readArray_loop_lee fuel pre v vs s rest :
  Forall lee_valor (v :: vs) -> (length vs < fuel)%nat ->
  elems Texto (indexar (length pre) (v :: vs)) s ->
  readArray_loop rv fuel (length pre) (arrayValue (indexar 0 pre)) (en (s +:+ String "]" rest)) =
  (Ok (true, arrayValue (indexar 0 (pre ++ v :: vs))), en rest).
Proof.
  revert pre v s fuel. induction vs as [|v' vs IH]; intros pre v s fuel Hf Hl Hs;
    (destruct fuel as [|fuel]; [cbn in Hl; lia|]); inversion Hf; subst.
  - destruct Hs as (b & s1 & -> & Hb & (t & b2 & -> & Ht & Hb2)).
    rewrite !app_assoc_s. by apply (readArray_loop_paso fuel pre v b t b2 rest true).
  - destruct Hs as (b & s1 & -> & Hb & (t & s2 & -> & Ht & (b2 & s3 & -> & Hb2 & (c & s4 & -> & -> & Hs)))).
    rewrite !app_assoc_s, app_cons_s, app_nil_l_s.
    etrans; [by apply (readArray_loop_paso fuel pre v b t b2 (s4 +:+ String "]" rest) false)|].
    rewrite (IH (pre ++ [v]) v'); [by rewrite <- app_assoc|done|cbn in Hl; lia|].
    rewrite length_app, Nat.add_comm. exact Hs.
Qed.

(** One member and the separator or brace after it. *)
Lemma readObject_loop_paso fuel name pre k v b0 b1 b2 t b3 rest (fin : bool) :
  lee_valor v -> Bl b0 -> Bl b1 -> Bl b2 -> Texto v t -> Bl b3 ->
  Forall (fun p => CZString_lt p.1 (CZStr k) = true) pre ->
  readObject_loop rv (S fuel) name (objectValue pre)
    (en (b0 +:+ comillas (escapar_todo k) +:+ b1 +:+ String ":" (b2 +:+ t +:+ b3 +:+
           String (if fin then "}" else ",") rest))) =
  if fin then (Ok (true, objectValue (pre ++ [(CZStr k, v)])), en rest)
  else readObject_loop rv fuel k (objectValue (pre ++ [(CZStr k, v)])) (en rest).
Proof.
  intros Hv Hb0 Hb1 Hb2 Ht Hb3 Hpre. cbn [readObject_loop].
  unfold combustible at 1. rewrite bind_assoc. do 2 (erewrite bind_ok by reflexivity; cbv beta).
  erewrite bind_ok by (rewrite readToken_bl by done; apply readToken_string). cbv beta.
  erewrite bind_ok by (by apply saltear_no). cbv beta.
  rewrite decide_False by (by intros []). erewrite bind_ok by reflexivity. cbv beta.
  rewrite decide_True by done. erewrite bind_ok by apply decodeString_ok. cbv beta iota.
  erewrite bind_ok by (by rewrite readToken_bl by done). cbv beta.
  rewrite decide_False by (by intros H; apply H). erewrite bind_ok by reflexivity. cbv beta.
  erewrite bind_ok by (apply Hv; [done..|apply fin_bl; [done|by destruct fin]]). cbv beta iota.
  unfold asignar, resolveReference. rewrite map_update_final by done.
  erewrite bind_ok by reflexivity. cbv beta. cbn [negb].
  erewrite bind_ok by (by apply readToken_llave). cbv beta.
  rewrite decide_False by (intros (H1 & H2 & H3); by destruct fin).
  unfold combustible. rewrite bind_assoc. do 2 (erewrite bind_ok by reflexivity; cbv beta).
  erewrite bind_ok by (apply saltear_no; by destruct fin). cbv beta. by destruct fin.
Qed.

Lemma readObject_loop_lee fuel name pre p m s rest :
  Forall (fun p => lee_valor p.2) (p :: m) -> (length m < fuel)%nat ->
  claves_ok None (p :: m) = true ->
  Forall (fun q => Forall (fun r => CZString_lt q.1 r.1 = true) (p :: m)) pre ->
  miembros Texto (p :: m) s ->
  readObject_loop rv fuel name (objectValue pre) (en (s +:+ String "}" rest)) =
  (Ok (true, objectValue (pre ++ p :: m)), en rest).
Proof.
  revert name pre p s fuel. induction m as [|p' m IH]; intros name pre [kk v] s fuel Hf Hl Hc Hp Hs;
    (destruct fuel as [|fuel]; [cbn in Hl; lia|]); inversion Hf; subst;
    (destruct (claves_str _ _ _ _ Hc (or_introl eq_refl)) as (k & -> & _));
    (assert (Forall (fun q => CZString_lt q.1 (CZStr k) = true) pre) as Hk
      by (eapply Forall_impl; [exact Hp|]; intros q Hq; by inversion Hq)).
  - destruct Hs as (b0 & s1 & -> & Hb0 & (c0 & s2 & -> & -> & (b1 & s3 & -> & Hb1 & (c1 & s4 & -> & -> &
      (b2 & s5 & -> & Hb2 & (t & b3 & -> & Ht & Hb3)))))).
    rewrite !app_assoc_s, app_cons_s, app_nil_l_s.
    by apply (readObject_loop_paso fuel name pre k v b0 b1 b2 t b3 rest true).
  - destruct Hs as (s0 & s' & -> & (b0 & s1 & -> & Hb0 & (c0 & s2 & -> & -> & (b1 & s3 & -> & Hb1 &
      (c1 & s4 & -> & -> & (b2 & s5 & -> & Hb2 & (t & b3 & -> & Ht & Hb3)))))) & (c2 & s6 & -> & -> & Hs)).
    rewrite !app_assoc_s, !app_cons_s, !app_nil_l_s.
    etrans; [by apply (readObject_loop_paso fuel name pre k v b0 b1 b2 t b3
                         (s6 +:+ String "}" rest) false)|].
    rewrite (IH k (pre ++ [(CZStr k, v)]) p'); [by rewrite <- app_assoc|done|cbn in Hl; lia| | |done].
    + cbn [claves_ok] in Hc. partir. destruct p'. cbn [claves_ok] in *. partir.
      repeat (apply andb_true_iff; split); try done.
    + pose proof (claves_mapa _ _ Hc) as [Hm _]. apply mapa_cons in Hm as (_ & Hm & _).
      apply Forall_app. split; [|by constructor].
      eapply Forall_impl; [exact Hp|]. intros q Hq. by inversion Hq.
Qed.

Lemma readArray_lee v vs s rest :
  Forall (fun v => lee_valor v /\ canonico v = true) (v :: vs) ->
  elems Texto (indexar 0 (v :: vs)) s ->
  readArray rv (en (s +:+ String "]" rest)) = (Ok (true, arrayValue (indexar 0 (v :: vs))), en rest).
Proof.
  intros Hf Hs. assert (exists b t, s = b +:+ t /\ Bl b /\ cabeza t /\ elems Texto (indexar 0 (v :: vs)) t)
    as (b & t & -> & Hb & (c & t' & -> & Hc1 & Hc2 & _) & Ht).
  { inversion Hf as [|? ? [_ Hc] _]; subst. cbn [indexar elems] in Hs.
    assert (forall Q, (Bl ⊙ Texto v ⊙ Q) s -> exists b t, s = b +:+ t /\ Bl b /\ cabeza t /\
      (Bl ⊙ Texto v ⊙ Q) t) as K.
    { intros Q (b & s1 & -> & Hb & (t & s2 & -> & Ht & Hq)). exists b, (t +:+ s2). split_and!; try done.
      - destruct (Texto_cabeza _ _ Hc Ht) as (c & r & -> & ?). by exists c, (r +:+ s2).
      - exists "", (t +:+ s2). split_and!; [done..|by apply cat_intro]. }
    destruct vs; by apply K in Hs. }
  assert (length vs <= String.length (String c t'))%nat as Hlen.
  { clear -Ht. revert Ht. generalize (String c t'). generalize O. revert v.
    induction vs as [|v' vs IH]; intros v k s Hs; cbn [length]; [lia|].
    destruct Hs as (? & s1 & -> & _ & (? & s2 & -> & _ & (? & s3 & -> & _ & (? & s4 & -> & -> & Hs)))).
    apply IH in Hs. rewrite !length_app_s. cbn. lia. }
  unfold readArray. rewrite app_assoc_s. unfold bindM at 1. rewrite skipSpaces_bl by done.
  unfold skipSpaces, bindM at 1, leer at 1. rewrite app_cons_s. cbn [current_ abarcar].
  rewrite Hc1. cbn [snd]. unfold set_current, cambiar. cbn [errors_ features_ stackDepth_g].
  erewrite bind_ok by reflexivity. cbn [deref current_]. rewrite (proj2 (Ascii.eqb_neq c "]") Hc2).
  unfold combustible. rewrite bind_assoc. do 2 (erewrite bind_ok by reflexivity; cbv beta).
  rewrite <- app_cons_s. apply (readArray_loop_lee _ []).
  - eapply Forall_impl; [exact Hf|]. by intros ? [].
  - cbn [current_]. rewrite length_app_s. lia.
  - exact Ht.
Qed.

Lemma readObject_lee p m s rest :
  Forall (fun p => lee_valor p.2) (p :: m) -> claves_ok None (p :: m) = true ->
  miembros Texto (p :: m) s ->
  readObject rv (en (s +:+ String "}" rest)) = (Ok (true, objectValue (p :: m)), en rest).
Proof.
  intros Hf Hc Hs. unfold readObject, combustible. rewrite bind_assoc.
  do 2 (erewrite bind_ok by reflexivity; cbv beta).
  apply (readObject_loop_lee _ "" []); [done| |done|done|done].
  cbn [current_]. rewrite length_app_s. clear -Hs.
  cut (length m <= String.length s)%nat; [lia|]. revert p s Hs.
  induction m as [|p' m IH]; intros [k v] s Hs; cbn [length]; [lia|].
  destruct Hs as (s0 & s' & -> & _ & (c2 & s6 & -> & -> & Hs)). apply IH in Hs.
  rewrite !length_app_s. cbn. lia.
Qed.
End Contenedores.

(** ** The reader recovers a canonical value from any of its texts *)

Lemma readValue_token fuel cur l e f d t l' :
  (d < stackLimit_g)%nat -> readToken (mkReader l e f (S d)) = (Ok t, mkReader l' e f (S d)) ->
  type_ t <> tokenComment ->
  readValue (S fuel) cur (mkReader l e f d) =
  (let fin (r : bool * Value) : M Reader (bool * Value) := set_depth Nat.pred;;; ret r in
   match type_ t with
   | tokenObjectBegin => let* r := readObject (readValue fuel) in fin r
   | tokenArrayBegin => let* r := readArray (readValue fuel) in fin r
   | tokenNumber => let* o := decodeNumber t in fin (asignar_si cur o)
   | tokenString => let* o := decodeString t in fin (asignar_si cur (stringValue <$> o))
   | tokenTrue => fin (true, booleanValue true)
   | tokenFalse => fin (true, booleanValue false)
   | tokenNull => fin (true, nullValue)
   | tokenArraySeparator | tokenObjectEnd | tokenArrayEnd =>
       if allowDroppedNullPlaceholders_ f then set_current (start_ t);;; fin (true, nullValue)
       else let* b := addError "Syntax error: value, object or array expected." t None in ret (b, cur)
   | _ => let* b := addError "Syntax error: value, object or array expected." t None in ret (b, cur)
   end) (mkReader l' e f (S d)).
Proof.
  intros Hd Ht Hn. cbn [readValue]. erewrite bind_ok by reflexivity. cbn [stackDepth_g].
  destruct (Nat.leb_spec stackLimit_g d); [lia|]. erewrite bind_ok by reflexivity.
  erewrite bind_ok by (by apply skipComment_readToken). cbv beta.
  erewrite bind_ok by reflexivity. done.
Qed.

Lemma readToken_entero e f d neg n b rest :
  0 <= n <= maxUInt64 -> Bl b -> fin_numero rest = true ->
  let s := (if neg : bool then String "-" (uintToString n) else uintToString n) in
  readToken (mkReader (b +:+ s +:+ rest) e f d) =
  (Ok (mkToken tokenNumber (s +:+ rest) rest), mkReader rest e f d).
Proof.
  intros Hn Hb Hr. cbv zeta. rewrite readToken_bl by done.
  destruct (uintToString_spec n Hn) as (ds & -> & Hne & Hall & _).
  destruct neg; [by apply readToken_number; auto|].
  destruct ds as [|c ds]; [done|]. cbn [todos] in Hall. partir. by apply readToken_number; auto.
Qed.

Lemma hijos_lee fuel e f d m :
  Forall (fun p => canonico p.2 = true -> forall fuel e f d, (altura p.2 < fuel)%nat ->
    (d + altura p.2 < stackLimit_g)%nat -> lee_valor e f d (readValue fuel) p.2) m ->
  Forall (fun p => canonico p.2 = true) m ->
  (altura (arrayValue m) < S fuel)%nat -> (d + altura (arrayValue m) < stackLimit_g)%nat ->
  Forall (fun p => lee_valor e f (S d) (readValue fuel) p.2) m.
Proof.
  rewrite !Forall_forall. intros IH Hh Hf Hd p Hp.
  pose proof (altura_hijo m p (proj1 (list_elem_of_In _ _) Hp)). apply IH; auto; lia.
Qed.

Lemma lee_arreglo m fuel e f d :
  Forall (fun p => canonico p.2 = true -> forall fuel e f d, (altura p.2 < fuel)%nat ->
    (d + altura p.2 < stackLimit_g)%nat -> lee_valor e f d (readValue fuel) p.2) m ->
  canonico (arrayValue m) = true -> (altura (arrayValue m) < S fuel)%nat ->
  (d + altura (arrayValue m) < stackLimit_g)%nat -> lee_valor e f d (readValue (S fuel)) (arrayValue m).
Proof.
  intros IH Hc Hf Hd cur b0 t rest Hb Ht Hr. cbn [Texto] in Ht.
  pose proof (canonico_hijos _ m (or_introl eq_refl) Hc) as Hh. cbn [canonico] in Hc.
  apply andb_prop in Hc as [Hden _].
  assert (Forall (fun p => lee_valor e f (S d) (readValue fuel) p.2) m) as Hl
    by (by apply hijos_lee).
  destruct m as [|p m].
  { unfold lit in Ht. subst t.
    by erewrite readValue_token; [|cbn in Hd; lia|by rewrite readToken_bl|done]. }
  destruct Ht as (c & s1 & -> & -> & (s2 & c' & -> & Hs & ->)). rewrite !app_assoc_s.
  erewrite readValue_token; [|lia|by rewrite readToken_bl|done]. cbn [type_].
  rewrite (densa_indexar _ _ Hden) in Hs |- *.
  erewrite bind_ok; [|apply readArray_lee; [|exact Hs]]; [done|].
  change (Forall (fun v => lee_valor e f (S d) (readValue fuel) v /\ canonico v = true)
            (snd <$> (p :: m))).
  rewrite Forall_fmap. apply Forall_and. by split.
Qed.

Lemma lee_objeto m fuel e f d :
  Forall (fun p => canonico p.2 = true -> forall fuel e f d, (altura p.2 < fuel)%nat ->
    (d + altura p.2 < stackLimit_g)%nat -> lee_valor e f d (readValue fuel) p.2) m ->
  canonico (objectValue m) = true -> (altura (objectValue m) < S fuel)%nat ->
  (d + altura (objectValue m) < stackLimit_g)%nat -> lee_valor e f d (readValue (S fuel)) (objectValue m).
Proof.
  intros IH Hc Hf Hd cur b0 t rest Hb Ht Hr. cbn [Texto] in Ht.
  pose proof (canonico_hijos _ m (or_intror eq_refl) Hc) as Hh. cbn [canonico] in Hc.
  apply andb_prop in Hc as [Hcl _].
  assert (Forall (fun p => lee_valor e f (S d) (readValue fuel) p.2) m) as Hl
    by (by apply hijos_lee).
  destruct m as [|p m].
  { unfold lit in Ht. subst t.
    by erewrite readValue_token; [|cbn in Hd; lia|by rewrite readToken_bl|done]. }
  destruct Ht as (c & s1 & -> & -> & (s2 & c' & -> & Hs & ->)). rewrite !app_assoc_s.
  erewrite readValue_token; [|lia|by rewrite readToken_bl|done]. cbn [type_].
  by erewrite bind_ok by (by apply readObject_lee).
Qed.

Lemma lee v : canonico v = true -> forall fuel e f d,
  (altura v < fuel)%nat -> (d + altura v < stackLimit_g)%nat -> lee_valor e f d (readValue fuel) v.
Proof.
  induction v as [|i|u|x|s|b|m IH|m IH] using Value_ind';
    intros Hc [|fuel] e f d Hf Hd; try lia;
    [..|by apply lee_arreglo|by apply lee_objeto]; intros cur b0 t rest Hb Ht Hr; cbn [Texto] in Ht.
  - unfold lit in Ht. subst t. erewrite readValue_token; [|cbn in Hd; lia|by rewrite readToken_bl|done]. done.
  - unfold lit in Ht. subst t. cbn [canonico] in Hc. partir. rewrite Z.leb_le in *.
    erewrite readValue_token; [|cbn in Hd; lia| |];
      [|apply (readToken_entero _ _ _ (i <? 0) (u64 (if i <? 0 then - i else i))); [|done..]|done].
    + cbn [type_]. by erewrite bind_ok by (by apply decodeNumber_int).
    + unfold u64, maxUInt64. pose proof (Z.mod_pos_bound (if i <? 0 then - i else i) (2 ^ 64)). lia.
  - unfold lit in Ht. subst t. cbn [canonico] in Hc. partir. rewrite Z.leb_le, Z.ltb_lt in *.
    erewrite readValue_token; [|cbn in Hd; lia| |];
      [|apply (readToken_entero _ _ _ false (u64 u)); [|done..]|done].
    + cbn [type_]. by erewrite bind_ok by (by apply decodeNumber_uint).
    + unfold u64, maxUInt64. pose proof (Z.mod_pos_bound u (2 ^ 64)). lia.
  - done.
  - unfold lit in Ht. subst t.
    erewrite readValue_token; [|cbn in Hd; lia|rewrite readToken_bl by done; apply readToken_string|done].
    cbn [type_]. by erewrite bind_ok by apply decodeString_ok.
  - unfold lit in Ht. subst t. destruct b;
      (erewrite readValue_token; [|cbn in Hd; lia|by rewrite readToken_bl|done]); done.
Qed.

(** [parse] returns the value of any text of it, blanks before and after allowed. *)
(** A document is read when its value is, up to the blanks that follow. *)
Lemma parse_leido doc v b : Bl b ->
  readValue (S stackLimit_g) nullValue (mkReader doc [] Features_all 0) = (Ok (true, v), mkReader b [] Features_all 0) ->
  parse doc = Ok (true, v).
Proof.
  intros Hb Hv. unfold parse, parse_features. erewrite bind_ok by exact Hv. cbv beta iota.
  assert (skipCommentTokens (mkReader b [] Features_all 0) =
    (Ok (mkToken tokenEndOfStream "" ""), mkReader "" [] Features_all 0)) as E.
  { apply skipComment_readToken; [|done]. rewrite <- (app_nil_r_s b). by rewrite readToken_bl. }
  by erewrite bind_ok by exact E.
Qed.

Lemma parse_Texto v b s b' :
  canonico v = true -> (altura v < stackLimit_g)%nat -> Bl b -> Texto v s -> Bl b' ->
  parse (b +:+ s +:+ b') = Ok (true, v).
Proof.
  intros Hc Ha Hb Hs Hb'. apply (parse_leido _ _ b'); [done|]. apply lee; [done|lia|lia|done|done|].
  rewrite <- (app_nil_r_s b'). by apply fin_bl.
Qed.

End JsonReaderOk.
