(* ===== verification/JsonNumeros.v ===== *)
(** * JsonNumeros: the integers of a JSON document

    What the reader of src/json/json.cpp makes of a decimal integer of any size: the exact
    integer where one of its types has it, and otherwise the nearest double. *)

From S2P Require Import Prelude Libc JsonValue JsonReader JsonWriter JsonTexto JsonReaderOk.
Open Scope Z_scope.

Module JsonNumeros.
Import Libc Json JsonReader JsonTexto JsonReaderOk.

(** A decimal integer as the reader accepts it: the sign alone is a number too. *)
Definition literal (neg : bool) (ds : string) : string := if neg then String "-" ds else ds.

(** The value of type [Value] nearest to the integer. *)
Definition numero (neg : bool) (v : Z) : Value :=
  if neg then if v <=? 2 ^ 63 then intValue (- v) else realValue (SFopp (d_of_Z v))
  else if v <=? 2 ^ 31 - 1 then intValue v
  else if v <=? 2 ^ 64 - 1 then uintValue v else realValue (d_of_Z v).

Lemma abarcar_isdigit ds : todos isdigit ds = true -> abarcar isdigit ds = (ds, "").
Proof. intros H. rewrite <- (app_nil_r_s ds) at 1. by apply abarcar_exacto. Qed.

Lemma strtod_digitos ds : ds <> "" -> todos isdigit ds = true -> 0 < valor_decimal 0 ds ->
  strtod_sin_signo ds = Some (d_of_Z (valor_decimal 0 ds)).
Proof.
  intros Hne Hd Hv. unfold strtod_sin_signo.
  assert (forall c r, isdigit c = true -> String.prefix "inf" (mapa tolower (String c r)) = false /\
    String.prefix "nan" (mapa tolower (String c r)) = false) as H1.
  { intros c r Hc. by destruct c as [[][][][][][][][]]. }
  assert (String.prefix "0x" (mapa tolower ds) = false) as H2.
  { destruct ds as [|c [|c' r]]; [done|by destruct c as [[][][][][][][][]]|]. cbn [todos] in Hd. partir.
    destruct c as [[][][][][][][][]]; try done; by destruct c' as [[][][][][][][][]]. }
  unfold mantisa. rewrite (abarcar_isdigit ds) by done.
  destruct ds as [|c r]; [done|]. pose proof Hd as Hd'. cbn [todos] in Hd'. partir.
  destruct (H1 c r) as [-> ->]; [done|]. rewrite H2, app_nil_r_s.
  destruct (Z.eqb_spec (largo (String c r) + largo "") 0) as [E|_]; [unfold largo in E; cbn in E; lia|].
  unfold decimal_a_double. cbn [exponente]. change (0 - largo "") with 0.
  destruct (Z.eqb_spec (valor_decimal 0 (String c r)) 0); [lia|]. change (400 <? 0) with false. change (0 <=? 0) with true.
  cbv iota.  destruct (Z.ltb_spec (Z.log2 (valor_decimal 0 (String c r)) + 1 + 3 * 0) (-1100)) as [E|_].
  { pose proof (Z.log2_nonneg (valor_decimal 0 (String c r))). lia. }
  by rewrite Z.mul_1_r.
Qed.
Lemma digitos_sin_marca ds : todos isdigit ds = true -> Ascii.eqb (deref ds) "-" = false.
Proof. destruct ds as [|c ds]; [done|]. cbn [deref todos]. intros ?. partir. by destruct c as [[][][][][][][][]]. Qed.

Lemma sscanf_literal neg ds : ds <> "" -> todos isdigit ds = true -> 0 < valor_decimal 0 ds ->
  sscanf_lf (literal neg ds) = Some ((if neg then SFopp else id) (d_of_Z (valor_decimal 0 ds))).
Proof.
  intros Hne Hd Hv. unfold sscanf_lf. rewrite c_str_id.
  2: { unfold literal. destruct neg; [rewrite contiene_cons; cbn [orb]; change (Ascii.eqb NUL "-") with false; cbn [orb]|];
       by apply (todos_no_contiene isdigit). }
  unfold strtod, literal. destruct neg.
  - cbn [abarcar isspace]. change (isspace "-") with false. cbv iota. by rewrite strtod_digitos.
  - destruct ds as [|c r]; [done|]. pose proof Hd as Hd'. cbn [todos] in Hd'. partir. cbn [abarcar].
    assert (isspace c = false) as -> by (by destruct c as [[][][][][][][][]]).
    change (id (d_of_Z ?x)) with (d_of_Z x). rewrite <- (strtod_digitos (String c r)) by done. by destruct c as [[][][][][][][][]].
Qed.

Lemma decodeNumber_literal neg ds rest r : todos isdigit ds = true ->
  decodeNumber (mkToken tokenNumber (literal neg ds +:+ rest) rest) r = (Ok (Some (numero neg (valor_decimal 0 ds))), r).
Proof.
  intros Hd. unfold decodeNumber, decodeDouble, texto. cbn [start_ end_]. rewrite entre_app.
  set (v := valor_decimal 0 ds).
  assert (forall max, 9 < max -> max < v -> sscanf_lf (literal neg ds) = Some ((if neg then SFopp else id) (d_of_Z v))) as Hs.
  { intros max H9 Hv. subst v. apply sscanf_literal; [|done|lia]. intros ->. cbn in Hv. lia. }
  assert (forall max, 9 < max <= maxUInt64 -> digit_loop max 0 ds = if v <=? max then Some v else None) as Hl.
  { intros max H9. destruct (Z.leb_spec v max); [by apply digit_loop_spec|apply digit_loop_grande; done || lia]. }
  unfold numero. destruct neg; cbn [literal] in *.
  - change (Ascii.eqb (deref (String "-" ds)) "-") with true. cbv iota.
    replace (saltear 1 (String "-" ds)) with ds by (by destruct ds).
    rewrite Hl by done. change (u64 (s64 (- minInt64))) with (2 ^ 63).
    destruct (Z.leb_spec v (2 ^ 63)); [by rewrite s64_menos by (split; [by apply valor_decimal_ge|done])|].
    by rewrite (Hs (2 ^ 63)).
  - rewrite digitos_sin_marca by done. rewrite Hl by done. change maxUInt64 with (2 ^ 64 - 1). change (u64 maxInt) with (2 ^ 31 - 1).
    destruct (Z.leb_spec v (2 ^ 64 - 1)); [|].
    { destruct (Z.leb_spec v (2 ^ 31 - 1)); [|done]. pose proof (valor_decimal_ge 0 ds Hd) as Hv0. fold v in Hv0.
      by rewrite s64_id by (unfold minInt64, maxInt64; lia). }
    destruct (Z.leb_spec v (2 ^ 31 - 1)); [lia|]. by rewrite (Hs (2 ^ 64 - 1)).
Qed.

(** C40. Integers of any size: a document that is a decimal integer is read as that integer, as
    [intValue] or [uintValue], when it is between -2^63 and 2^64 - 1, and as the double nearest
    to it otherwise; a minus sign without digits is read as 0.  The accumulator has 64 bits and
    its arithmetic does not wrap around.  Two negations of a signed type do overflow, one for every negative
    number and one for -2^63; the result is what they give if they wrap around. *)
Theorem enteros_exactos neg ds b b' :
  Bl b -> Bl b' -> todos isdigit ds = true -> (neg = false -> ds <> "") ->
  parse (b +:+ literal neg ds +:+ b') = Ok (true, numero neg (valor_decimal 0 ds)).
Proof.
  intros Hb Hb' Hd Hne. apply (parse_leido _ _ b'); [done|].
  assert (fin_numero b' = true) as Hf by (rewrite <- (app_nil_r_s b'); by apply fin_bl).
  assert (readToken (mkReader (b +:+ literal neg ds +:+ b') [] Features_all 1) =
    (Ok (mkToken tokenNumber (literal neg ds +:+ b') b'), mkReader b' [] Features_all 1)) as Ht.
  { rewrite readToken_bl by done. destruct neg; cbn [literal]; [by apply readToken_number; auto|].
    destruct ds as [|c ds]; [by destruct Hne|]. cbn [todos] in Hd. partir. by apply readToken_number; auto. }
  erewrite readValue_token; [|unfold stackLimit_g; lia|exact Ht|done]. cbn [type_].
  by erewrite bind_ok by (by apply decodeNumber_literal).
Qed.

Lemma enteros_exactos_witness :
  parse " 18446744073709551615" = Ok (true, uintValue (2 ^ 64 - 1)) /\
  parse " 18446744073709551616" = Ok (true, realValue (d_of_Z (2 ^ 64))) /\ parse "-" = Ok (true, intValue 0).
Proof.
  split_and!.
  - apply (enteros_exactos false "18446744073709551615" " " ""); done.
  - apply (enteros_exactos false "18446744073709551616" " " ""); done.
  - apply (enteros_exactos true "" "" ""); done.
Defined.

End JsonNumeros.
