(* ===== verification/JsonReaderTotal.v ===== *)
(** * JsonReaderTotal: [Json::Reader] always answers

    A weakest-precondition calculus for the reader, and its use: every loop of the reader
    stops, the reader throws only when the document nests deeper than [stackLimit_g], and
    it reports success exactly when it recorded no error. *)

From S2P Require Import Prelude Libc JsonValue JsonReader.
Open Scope Z_scope.

Module JsonReaderTotal.
Import Libc Json JsonReader.

(** The text that is left. *)
Definition resto (r : Reader) : nat := String.length (current_ r).
Definition nerr (r : Reader) : nat := length (errors_ r).

Section Wp.
(** The length of the document: what is left and the depth never exceed it together. *)
Variable N : nat.

Definition lanza (e : fallo) : Prop :=
  e = RuntimeError "Exceeded stackLimit in readValue()." /\ (stackLimit_g <= N)%nat.

Definition wp {A} (m : M Reader A) (Q : A -> Reader -> Prop) (r : Reader) : Prop :=
  match m r with (Ok a, r') => Q a r' | (Fallo e, _) => lanza e end.

#[local] Arguments wp : simpl never.

Lemma wp_bind {A B} (m : M Reader A) (f : A -> M Reader B) Q r :
  wp m (fun a => wp (f a) Q) r -> wp (bindM m f) Q r.
Proof. unfold wp, bindM. by destruct (m r) as [[a|e] r']. Qed.

Lemma wp_ret {A} (a : A) (Q : A -> Reader -> Prop) r : Q a r -> wp (ret a) Q r.
Proof. done. Qed.

Lemma wp_alzar {A} (a : A) (Q : A -> Reader -> Prop) r : Q a r -> wp (alzar (Ok a)) Q r.
Proof. done. Qed.

Lemma wp_leer {A} (f : Reader -> A) (Q : A -> Reader -> Prop) r : Q (f r) r -> wp (leer f) Q r.
Proof. done. Qed.

Lemma wp_cambiar f (Q : unit -> Reader -> Prop) r : Q tt (f r) -> wp (cambiar f) Q r.
Proof. done. Qed.

Lemma wp_mono {A} (m : M Reader A) (Q Q' : A -> Reader -> Prop) r :
  wp m Q r -> (forall a r', Q a r' -> Q' a r') -> wp m Q' r.
Proof. unfold wp. destruct (m r) as [[a|e] r']; auto. Qed.

(** ** Lexical level: a token takes at least one character, unless the text ended *)

Lemma abarcar_largo p s : (String.length (snd (abarcar p s)) <= String.length s)%nat.
Proof.
  pose proof (abarcar_app p s) as H. destruct (abarcar p s) as [a b]. destruct H as [-> _].
  rewrite length_app_s. cbn. lia.
Qed.

Lemma quitar_largo p s r : quitar_prefijo p s = Some r -> (String.length r <= String.length s)%nat.
Proof. intros ->%quitar_prefijo_spec. rewrite length_app_s. lia. Qed.

Lemma scanC_largo s : (String.length (scanCStyleComment s) <= String.length s)%nat.
Proof. induction s as [|c s IH]; cbn; [lia|]. destruct (_ && _); cbn; lia. Qed.

Lemma scanCpp_largo s : (String.length (scanCppStyleComment s) <= String.length s)%nat.
Proof.
  induction s as [|c s IH]; cbn [scanCppStyleComment String.length]; [lia|].
  destruct (Ascii.eqb c _); [lia|]. destruct (Ascii.eqb c _); [|lia].
  destruct s as [|x s]; cbn; [lia|]. repeat (case_match; cbn; try lia).
Qed.

Lemma scanString_largo s : (String.length (snd (scanString s)) <= String.length s)%nat.
Proof.
  remember (String.length s) as n eqn:Hn. assert (String.length s <= n)%nat as Hle by lia. clear Hn.
  revert s Hle. induction n as [|n IH]; intros [|c s]; cbn [scanString String.length]; intros; cbn [snd];
    try lia; try (cbn; lia).
  destruct (Ascii.eqb c BARRA).
  - destruct s as [|x s]; cbn [snd String.length] in *; [lia|]. specialize (IH s). lia.
  - destruct (Ascii.eqb c COMILLA); cbn [snd]; [lia|]. specialize (IH s). lia.
Qed.

Lemma scanNumber_largo s : (String.length (scanNumber s) <= String.length s)%nat.
Proof.
  unfold scanNumber, skip_digits. pose proof (abarcar_largo isdigit s) as H.
  destruct (abarcar isdigit s) as [a l]. cbn [snd] in *.
  set (l2 := match l with String "." r => _ | _ => _ end).
  assert (String.length l2 <= String.length l)%nat as H2.
  { unfold l2. destruct l as [|c l]; [done|]. destruct c as [[][][][][][][][]]; try done.
    cbn. pose proof (abarcar_largo isdigit l). lia. }
  clearbody l2. destruct l2 as [|c r]; [cbn; lia|]. cbn [String.length] in *.
  destruct (_ || _); [|cbn; lia]. destruct r as [|x r]; [cbn; lia|].
  pose proof (abarcar_largo isdigit r). pose proof (abarcar_largo isdigit (String x r)).
  cbn [String.length] in *. destruct (_ || _); lia.
Qed.

(** [r'] is [r] further in the text. *)
Definition avanza (r r' : Reader) : Prop :=
  (resto r' <= resto r)%nat /\ errors_ r' = errors_ r /\ features_ r' = features_ r /\
  stackDepth_g r' = stackDepth_g r.

Lemma avanza_refl r : avanza r r.
Proof. by repeat split. Qed.

Lemma avanza_trans a b c : avanza a b -> avanza b c -> avanza a c.
Proof. unfold avanza. intros (?&?&?&?) (?&?&?&?). split_and!; try lia; congruence. Qed.

Lemma wp_set_current l (Q : unit -> Reader -> Prop) r :
  (String.length l <= resto r)%nat -> (forall r', avanza r r' -> current_ r' = l -> Q tt r') ->
  wp (set_current l) Q r.
Proof. intros Hl HQ. unfold set_current. apply wp_cambiar, HQ; [|done]. by repeat split. Qed.

Lemma wp_getNextChar r :
  wp getNextChar (fun c r' => avanza r r' /\ (current_ r = "" /\ c = NUL \/ S (resto r') = resto r)%nat) r.
Proof.
  unfold getNextChar. apply wp_bind, wp_leer. destruct (current_ r) as [|c l] eqn:E.
  - apply wp_ret. split; [apply avanza_refl|auto].
  - apply wp_bind, wp_set_current; [unfold resto; rewrite E; cbn; lia|]. intros r' Ha Hc.
    apply wp_ret. split; [done|]. right. unfold resto. by rewrite Hc, E.
Qed.

Lemma wp_match s r : wp (match_ s) (fun _ r' => avanza r r') r.
Proof.
  unfold match_. apply wp_bind, wp_leer. destruct (quitar_prefijo s _) as [l|] eqn:E.
  - apply wp_bind, wp_set_current; [by apply quitar_largo in E|]. intros. by apply wp_ret.
  - apply wp_ret, avanza_refl.
Qed.

Lemma wp_readComment r : wp readComment (fun _ r' => avanza r r') r.
Proof.
  unfold readComment. apply wp_bind. eapply wp_mono; [apply wp_getNextChar|]. intros c r1 [H1 _]. cbn.
  destruct (Ascii.eqb c "*"); [|destruct (Ascii.eqb c "/")].
  - unfold readCStyleComment. apply wp_bind, wp_leer, wp_bind, wp_set_current; [apply scanC_largo|].
    intros r2 H2 _. apply wp_bind. eapply wp_mono; [apply wp_getNextChar|]. intros c2 r3 [H3 _].
    apply wp_ret. eauto using avanza_trans.
  - unfold readCppStyleComment. apply wp_bind, wp_leer, wp_bind, wp_set_current; [apply scanCpp_largo|].
    intros r2 H2 _. apply wp_ret. eauto using avanza_trans.
  - by apply wp_ret.
Qed.

Lemma wp_clasificar c r :
  wp (clasificar c) (fun '(t, ok) r' => avanza r r' /\ (c = NUL -> t = tokenEndOfStream /\ ok = true)) r.
Proof.
  assert (forall c' : ascii, c' <> NUL -> Ascii.eqb c c' = true -> c <> NUL) as K
    by (intros c' Hn ->%Ascii.eqb_eq; done).
  unfold clasificar. destruct (Ascii.eqb_spec c NUL) as [->|Hn].
  { apply wp_ret. split; [apply avanza_refl|done]. }
  repeat (match goal with |- context [if ?b then _ else _] =>
            lazymatch b with Ascii.eqb _ _ => destruct b | _ || _ => destruct b end end);
    try (apply wp_ret; split; [apply avanza_refl|done]);
    apply wp_bind.
  - unfold readString. apply wp_bind, wp_leer. pose proof (scanString_largo (current_ r)) as Hl.
    destruct (scanString (current_ r)) as [ok l]. apply wp_bind, wp_set_current; [done|].
    intros r' Ha _. by apply wp_ret.
  - eapply wp_mono; [apply wp_readComment|]. intros. by apply wp_ret.
  - unfold readNumber. apply wp_bind, wp_leer, wp_set_current; [apply scanNumber_largo|].
    intros. by apply wp_ret.
  - eapply wp_mono; [apply wp_match|]. intros. by apply wp_ret.
  - eapply wp_mono; [apply wp_match|]. intros. by apply wp_ret.
  - eapply wp_mono; [apply wp_match|]. intros. by apply wp_ret.
Qed.

Lemma wp_skipSpaces r : wp skipSpaces (fun _ r' => avanza r r') r.
Proof. apply wp_bind, wp_leer, wp_set_current; [apply abarcar_largo|done]. Qed.

Definition tras_token (r : Reader) (t : Token) (r' : Reader) : Prop :=
  avanza r r' /\ (type_ t = tokenEndOfStream \/ resto r' < resto r)%nat /\
  (String.length (start_ t) <= resto r)%nat.

Lemma wp_readToken r : wp readToken (tras_token r) r.
Proof.
  unfold readToken. apply wp_bind. eapply wp_mono; [apply wp_skipSpaces|]. intros [] r1 H1.
  apply wp_bind, wp_leer, wp_bind. eapply wp_mono; [apply wp_getNextChar|]. intros c r2 [H2 Hc].
  apply wp_bind. eapply wp_mono; [apply wp_clasificar|]. intros [t ok] r3 [H3 Ht].
  apply wp_bind, wp_leer, wp_ret. split_and!; [eauto using avanza_trans| |by destruct H1].
  cbn [type_]. destruct Hc as [[_ ->]|Hc].
  - left. destruct (Ht eq_refl) as [-> ->]. done.
  - right. destruct H1 as [H1 _], H3 as [H3 _]. lia.
Qed.

Lemma wp_saltear fuel t r r0 : (S (resto r) < fuel)%nat -> tras_token r0 t r ->
  wp (saltear_comentarios fuel t) (fun t' r' => tras_token r0 t' r' /\ type_ t' <> tokenComment) r.
Proof.
  revert t r. induction fuel as [|fuel IH]; intros t r Hf Ht; [lia|]. cbn [saltear_comentarios].
  destruct (decide _) as [E|E]; [|by apply wp_ret].
  apply wp_bind. eapply wp_mono; [apply wp_readToken|]. intros t2 r2 (Ha & Hd & Hs).
  pose proof (avanza_trans _ _ _ (proj1 Ht) Ha) as Ha2.
  assert (String.length (start_ t2) <= resto r0)%nat by (destruct Ht as [[? _] _]; lia).
  destruct Hd as [Hd|Hd].
  - destruct fuel; [lia|]. cbn [saltear_comentarios]. rewrite decide_False by congruence.
    apply wp_ret. split; [|congruence]. split_and!; auto.
  - apply IH; [lia|]. split_and!; [done| |done]. right. destruct Ht as [[? _] _]. lia.
Qed.

(** [do readToken(t) while (t is a comment)] *)
Lemma wp_siguiente {B} (k : Token -> M Reader B) (Q : B -> Reader -> Prop) r :
  (forall t r', tras_token r t r' -> type_ t <> tokenComment -> wp (k t) Q r') ->
  wp (let* n := combustible in let* t := readToken in let* u := saltear_comentarios n t in k u) Q r.
Proof.
  intros Hk. unfold combustible. apply wp_bind, wp_bind, wp_leer, wp_ret, wp_bind.
  eapply wp_mono; [apply wp_readToken|]. intros t r' Ht.
  apply wp_bind. eapply wp_mono; [apply (wp_saltear _ _ _ r); [|done]|].
  - destruct Ht as [[Hl _] _]. unfold resto in *. lia.
  - cbn. intros t' r2 []. by apply Hk.
Qed.

Lemma wp_skipCommentTokens r : wp skipCommentTokens (tras_token r) r.
Proof.
  unfold skipCommentTokens. apply wp_bind, wp_leer. unfold combustible.
  apply wp_bind, wp_bind, wp_leer, wp_ret, wp_bind.
  eapply wp_mono; [apply wp_readToken|]. intros t r' Ht. cbv beta.
  destruct (allowComments_ _); [|by apply wp_ret].
  eapply wp_mono; [apply (wp_saltear _ _ _ r); [|done]|by intros ? ? []].
  destruct Ht as [[Hl _] _]. unfold resto in *. lia.
Qed.

(** ** Errors *)

(** What an operation that answers [false] leaves: one more error than before, at least. *)
Definition con_error (r : Reader) (ok : bool) (r' : Reader) : Prop :=
  ok = false /\ (nerr r < nerr r')%nat.

Lemma wp_addError msg t x r :
  wp (addError msg t x) (fun ok r' => con_error r ok r' /\ resto r' = resto r) r.
Proof.
  apply wp_bind, wp_cambiar, wp_ret. split; [|done]. split; [done|].
  unfold nerr. cbn. rewrite length_app. cbn. lia.
Qed.

Lemma wp_recover_loop fuel u r : (S (resto r) < fuel)%nat -> wp (recover_loop fuel u) (fun _ r' => avanza r r') r.
Proof.
  revert r. induction fuel as [|fuel IH]; intros r Hf; [lia|]. cbn [recover_loop]. apply wp_bind.
  eapply wp_mono; [apply wp_readToken|]. intros t r' (Ha & Hd & _). cbn.
  destruct (decide _) as [E|E]; [by apply wp_ret|].
  destruct Hd as [Hd|Hd]; [by exfalso; eauto|].
  eapply wp_mono; [apply IH; lia|]. cbn. intros [] r2 H2. by eapply avanza_trans.
Qed.

Lemma wp_recoverFromError u r :
  wp (recoverFromError u) (fun ok r' => ok = false /\ nerr r' = nerr r) r.
Proof.
  unfold recoverFromError. apply wp_bind, wp_leer. unfold combustible.
  apply wp_bind, wp_bind, wp_leer, wp_ret, wp_bind.
  eapply wp_mono; [apply wp_recover_loop; unfold resto; lia|]. cbn. intros [] r' (_ & He & _).
  apply wp_bind, wp_cambiar, wp_ret. split; [done|]. unfold nerr. cbn. rewrite He, firstn_all. done.
Qed.

Lemma wp_addErrorAndRecover msg t u r : wp (addErrorAndRecover msg t u) (con_error r) r.
Proof.
  unfold addErrorAndRecover. apply wp_bind. eapply wp_mono; [apply wp_addError|].
  intros b r1 [[_ H] _]. eapply wp_mono; [apply wp_recoverFromError|].
  cbn. intros ok r2 [-> H2]. split; [done|]. lia.
Qed.

Lemma wp_decodeNumber t r :
  wp (decodeNumber t) (fun o r' => match o with
     | Some v => r' = r /\ exists s, asString v = Ok s
     | None => con_error r false r' end) r.
Proof.
  unfold decodeNumber. destruct (digit_loop _ _ _) as [z|].
  - apply wp_ret. split; [done|]. destruct (Ascii.eqb _ _); [by eexists|]. destruct (_ <=? _); by eexists.
  - unfold decodeDouble. destruct (sscanf_lf _).
    + apply wp_ret. split; [done|]. by eexists.
    + apply wp_bind. eapply wp_mono; [apply wp_addError|]. intros b r' [[_ H] _]. by apply wp_ret.
Qed.

Lemma wp_decodeString t r :
  wp (decodeString t) (fun o r' => match o with Some _ => r' = r | None => con_error r false r' end) r.
Proof.
  unfold decodeString. destruct (decode_loop _ _ _) as [[msg x]|s]; [|by apply wp_ret].
  apply wp_bind. eapply wp_mono; [apply wp_addError|]. intros b r' [[_ H] _]. by apply wp_ret.
Qed.

(** ** Values *)

(** What a read of a value leaves: on success the same depth and errors, further in the
    text; on failure more errors. *)
Definition tras_valor (r : Reader) (res : bool * Value) (r' : Reader) : Prop :=
  if res.1 then avanza r r' else (nerr r < nerr r')%nat.

(** Room left in the text and in the stack. *)
Definition cabe (fuel : nat) (r : Reader) : Prop :=
  (stackDepth_g r + resto r <= N)%nat /\
  (stackDepth_g r <= stackLimit_g < fuel + stackDepth_g r)%nat.

Lemma cabe_avanza fuel r r' : cabe fuel r -> avanza r r' -> cabe fuel r'.
Proof. intros [H1 H2] (H3 & _ & _ & H4). split; lia. Qed.

Section Contenedores.
Variable fuel0 : nat.
Variable rv : Value -> M Reader (bool * Value).
Hypothesis rv_total : forall cur r, cabe fuel0 r -> wp (rv cur) (tras_valor r) r.

Lemma wp_fallido u (obj : Value) r r0 : (nerr r0 < nerr r)%nat ->
  wp (let* b := recoverFromError u in ret (b, obj)) (tras_valor r0) r.
Proof.
  intros H. apply wp_bind. eapply wp_mono; [apply wp_recoverFromError|]. intros b r' [-> H'].
  apply wp_ret. unfold tras_valor. cbn. lia.
Qed.

Lemma wp_error msg t u (obj : Value) r r0 : errors_ r = errors_ r0 ->
  wp (let* b := addErrorAndRecover msg t u in ret (b, obj)) (tras_valor r0) r.
Proof.
  intros H. apply wp_bind. eapply wp_mono; [apply wp_addErrorAndRecover|]. intros b r' [-> H'].
  apply wp_ret. unfold tras_valor, nerr in *. cbn. rewrite <- H. lia.
Qed.

Lemma wp_readArray_loop fuel index m r r0 :
  (resto r < fuel)%nat -> cabe fuel0 r -> avanza r0 r ->
  wp (readArray_loop rv fuel index (arrayValue m)) (tras_valor r0) r.
Proof.
  revert index m r. induction fuel as [|fuel IH]; intros index m r Hf Hc Ha; [lia|].
  cbn [readArray_loop]. apply wp_bind, wp_alzar, wp_bind.
  eapply wp_mono; [by apply rv_total|]. intros [ok v] r1 H1. cbv beta iota.
  destruct (JsonLeyes.map_update_ok (CZIndex index) (fun _ => Ok v) m v) as [m' Hm]; [done|].
  apply wp_bind. cbn [at_index]. rewrite Hm. apply wp_alzar.
  destruct ok; cbn [negb]; unfold tras_valor in H1; cbn in H1.
  - apply wp_siguiente. intros t r2 (H2 & H2' & _) Hn.
    pose proof (avanza_trans _ _ _ Ha (avanza_trans _ _ _ H1 H2)) as Ha2.
    destruct (decide _) as [E|E]; [apply wp_error; by destruct Ha2 as (_ & ? & _)|].
    destruct (decide _) as [E2|E2]; [by apply wp_ret|].
    apply IH; [|eauto using cabe_avanza, avanza_trans|done].
    destruct H2' as [H2'|H2']; [exfalso; apply E; split; congruence|]. destruct H1 as [H1 _]. lia.
  - apply wp_fallido. destruct Ha as (_ & He & _). unfold nerr in *. by rewrite <- He.
Qed.

Lemma wp_readArray r r0 : cabe fuel0 r -> avanza r0 r -> wp (readArray rv) (tras_valor r0) r.
Proof.
  intros Hc Ha. unfold readArray. apply wp_bind. eapply wp_mono; [apply wp_skipSpaces|].
  intros [] r1 H1. apply wp_bind, wp_leer. destruct (Ascii.eqb _ _).
  - apply wp_bind. eapply wp_mono; [apply wp_readToken|]. intros t r2 [H2 _]. apply wp_ret.
    unfold tras_valor. cbn. eauto using avanza_trans.
  - unfold combustible. apply wp_bind, wp_bind, wp_leer, wp_ret.
    apply wp_readArray_loop; [unfold resto; lia|eauto using cabe_avanza|eauto using avanza_trans].
Qed.

(** The part of an iteration of [readObject] after the member name. *)
Lemma wp_miembro fuel name m r r0
  (IH : forall name m r, (resto r < fuel)%nat -> cabe fuel0 r -> avanza r0 r ->
     wp (readObject_loop rv fuel name (objectValue m)) (tras_valor r0) r) :
  (resto r <= fuel)%nat -> cabe fuel0 r -> avanza r0 r ->
  wp (let* colon := readToken in
      if decide (type_ colon <> tokenMemberSeparator) then
        let* b := addErrorAndRecover "Missing ':' after object member name" colon tokenObjectEnd in
        ret (b, objectValue m)
      else
        let* value := alzar (key_const (objectValue m) name) in
        let* '(ok, value) := rv value in
        let* obj := alzar (asignar name value (objectValue m)) in
        if negb ok then let* b := recoverFromError tokenObjectEnd in ret (b, obj)
        else
          let* comma := readToken in
          if decide (type_ comma <> tokenObjectEnd /\ type_ comma <> tokenArraySeparator /\
                     type_ comma <> tokenComment) then
            let* b := addErrorAndRecover "Missing ',' or '}' in object declaration" comma tokenObjectEnd in
            ret (b, obj)
          else
            let* n := combustible in
            let* comma := saltear_comentarios n comma in
            if decide (type_ comma = tokenObjectEnd) then ret (true, obj)
            else readObject_loop rv fuel name obj) (tras_valor r0) r.
Proof.
  intros Hf Hc Ha. apply wp_bind. eapply wp_mono; [apply wp_readToken|]. intros t r1 (H1 & H1' & _).
  cbv beta. pose proof (avanza_trans _ _ _ Ha H1) as Ha1.
  destruct (decide _) as [E|E]; [apply wp_error; by destruct Ha1 as (_ & ? & _)|].
  assert (resto r1 < resto r)%nat as Hr1.
  { destruct H1' as [H1'|H1']; [|done]. exfalso. apply E. congruence. }
  apply wp_bind, wp_alzar, wp_bind. eapply wp_mono; [by apply rv_total; eauto using cabe_avanza|].
  intros [ok v] r2 H2. cbv beta iota.
  destruct (JsonLeyes.map_update_ok (CZStr name) (fun _ => Ok v) m v) as [m' Hm]; [done|].
  apply wp_bind. unfold asignar, resolveReference. rewrite Hm. apply wp_alzar.
  destruct ok; cbn [negb]; unfold tras_valor in H2; cbn in H2.
  2: { apply wp_fallido. destruct Ha1 as (_ & He & _). unfold nerr in *. by rewrite <- He. }
  apply wp_bind. eapply wp_mono; [apply wp_readToken|]. intros comma r3 H3. cbv beta.
  pose proof (avanza_trans _ _ _ Ha1 H2) as Ha2.
  destruct (decide _) as [E3|E3].
  { apply wp_error. destruct H3 as [(_ & -> & _) _]. by destruct Ha2 as (_ & ? & _). }
  unfold combustible. apply wp_bind, wp_bind, wp_leer, wp_ret, wp_bind.
  eapply wp_mono; [apply (wp_saltear _ _ _ r2); [unfold resto; lia|done]|].
  intros comma' r4 [[H4 _] _]. cbv beta. pose proof (avanza_trans _ _ _ Ha2 H4) as Ha4.
  destruct (decide _) as [E4|E4]; [by apply wp_ret|].
  apply IH; [|eauto using cabe_avanza|done].
  destruct H4 as [H4 _], H2 as [H2 _]. lia.
Qed.

Lemma wp_readObject_loop fuel name m r r0 :
  (resto r < fuel)%nat -> cabe fuel0 r -> avanza r0 r ->
  wp (readObject_loop rv fuel name (objectValue m)) (tras_valor r0) r.
Proof.
  revert name m r. induction fuel as [|fuel IH]; intros name m r Hf Hc Ha; [lia|].
  cbn [readObject_loop]. apply wp_siguiente. intros t r1 (H1 & H1' & _) Hn. cbv beta.
  pose proof (avanza_trans _ _ _ Ha H1) as Ha1.
  assert (resto r1 <= fuel)%nat as Hf1 by (destruct H1 as [H1 _]; lia).
  assert (cabe fuel0 r1) as Hc1 by eauto using cabe_avanza.
  assert (errors_ r1 = errors_ r0) as He1 by (by destruct Ha1 as (_ & ? & _)).
  destruct (decide _) as [E|E]; [by apply wp_ret|].
  apply wp_bind, wp_leer. destruct (decide _) as [E1|E1]; [|destruct (decide _) as [E2|E2]].
  - apply wp_bind. eapply wp_mono; [apply wp_decodeString|]. intros [s|] r2 Hd; cbv beta iota in *.
    + subst r2. by apply wp_miembro.
    + destruct Hd as [_ Hd]. apply wp_fallido. unfold nerr in *. by rewrite <- He1.
  - destruct (allowNumericKeys_ _); [|by apply wp_error].
    apply wp_bind. eapply wp_mono; [apply wp_decodeNumber|]. intros [v|] r2 Hd; cbv beta iota in *.
    + destruct Hd as [-> [s Hs]]. apply wp_bind. rewrite Hs. apply wp_alzar. by apply wp_miembro.
    + destruct Hd as [_ Hd]. apply wp_fallido. unfold nerr in *. by rewrite <- He1.
  - by apply wp_error.
Qed.

Lemma wp_readObject r r0 : cabe fuel0 r -> avanza r0 r -> wp (readObject rv) (tras_valor r0) r.
Proof.
  intros Hc Ha. unfold readObject, combustible. apply wp_bind, wp_bind, wp_leer, wp_ret.
  apply wp_readObject_loop; [unfold resto; lia|done|done].
Qed.
End Contenedores.

(** [set_depth] up and down again around an operation. *)
Definition mas_hondo (r r1 : Reader) : Prop :=
  (resto r1 <= resto r)%nat /\ errors_ r1 = errors_ r /\ features_ r1 = features_ r /\
  stackDepth_g r1 = S (stackDepth_g r).

Lemma wp_fin (res : bool * Value) r r1 r2 : mas_hondo r r1 -> tras_valor r1 res r2 ->
  wp (set_depth Nat.pred;;; ret res) (tras_valor r) r2.
Proof.
  intros (H1 & H2 & H3 & H4) Ht. apply wp_bind, wp_cambiar, wp_ret. revert Ht. unfold tras_valor.
  destruct res as [[] v]; cbn.
  - intros (G1 & G2 & G3 & G4). split_and!; unfold resto in *; cbn; [lia|congruence|congruence|].
    rewrite G4, H4. done.
  - unfold nerr. cbn. by rewrite H2.
Qed.

(** A dropped placeholder: back to the start of the token. *)
Lemma wp_dropped t r r1 : mas_hondo r r1 -> (String.length (start_ t) <= resto r)%nat ->
  wp (set_current (start_ t);;; set_depth Nat.pred;;; ret (true, nullValue)) (tras_valor r) r1.
Proof.
  intros (H1 & H2 & H3 & H4) Hs. apply wp_bind. unfold set_current. apply wp_cambiar, wp_bind.
  unfold set_depth. apply wp_cambiar, wp_ret. unfold tras_valor, avanza, resto in *. cbn.
  rewrite H2, H3, H4. done.
Qed.

Lemma wp_readValue fuel cur r : cabe fuel r -> wp (readValue fuel cur) (tras_valor r) r.
Proof.
  revert cur r. induction fuel as [|fuel IH]; intros cur r Hc.
  { destruct Hc. lia. }
  cbn [readValue]. apply wp_bind, wp_leer. destruct Hc as (Hc1 & Hc2 & Hc3).
  destruct (Nat.leb_spec stackLimit_g (stackDepth_g r)) as [Hd|Hd].
  { unfold wp, falla, lanza. split; [done|]. lia. }
  apply wp_bind. unfold set_depth at 1. apply wp_cambiar, wp_bind.
  eapply wp_mono; [apply wp_skipCommentTokens|]. cbv beta. intros t r1 (H1 & H1' & Hs).
  assert (mas_hondo r r1) as Hm by exact H1. unfold resto in H1', Hs. cbn [current_] in H1', Hs.
  change (String.length (current_ r)) with (resto r) in *.
  apply wp_bind, wp_leer.
  assert (type_ t <> tokenEndOfStream -> cabe fuel r1) as Hcabe.
  { intros Hn. destruct H1' as [|H1']; [done|]. destruct Hm as (_ & _ & _ & Hm).
    unfold cabe. rewrite Hm. unfold resto in *. lia. }
  assert (forall res, res.1 = true -> tras_valor r1 res r1) as Hok
    by (intros [[] ?] ?; [apply avanza_refl|done]).
  assert (forall cur, wp (let* b := addError "Syntax error: value, object or array expected." t None in
                          ret (b, cur)) (tras_valor r) r1) as Herr.
  { intros w. apply wp_bind. eapply wp_mono; [apply wp_addError|]. intros b r2 [[-> Hb] _]. apply wp_ret.
    unfold tras_valor, nerr in *. cbn. destruct Hm as (_ & <- & _). done. }
  destruct (type_ t) eqn:Et; try apply Herr.
  - apply wp_bind. eapply wp_mono; [apply (wp_readObject fuel _ IH r1 r1); [by apply Hcabe|apply avanza_refl]|].
    intros res r2 H2. by eapply wp_fin.
  - destruct (allowDroppedNullPlaceholders_ _); [|apply Herr]. by eapply wp_dropped.
  - apply wp_bind. eapply wp_mono; [apply (wp_readArray fuel _ IH r1 r1); [by apply Hcabe|apply avanza_refl]|].
    intros res r2 H2. by eapply wp_fin.
  - destruct (allowDroppedNullPlaceholders_ _); [|apply Herr]. by eapply wp_dropped.
  - apply wp_bind. eapply wp_mono; [apply wp_decodeString|]. intros [s|] r2 H2; cbv beta iota in *.
    + subst r2. eapply wp_fin; [done|by apply Hok].
    + eapply wp_fin; [done|]. by destruct H2.
  - apply wp_bind. eapply wp_mono; [apply wp_decodeNumber|]. intros [v|] r2 H2; cbv beta iota in *.
    + destruct H2 as [-> _]. eapply wp_fin; [done|by apply Hok].
    + eapply wp_fin; [done|]. by destruct H2.
  - eapply wp_fin; [done|by apply Hok].
  - eapply wp_fin; [done|by apply Hok].
  - eapply wp_fin; [done|by apply Hok].
  - destruct (allowDroppedNullPlaceholders_ _); [|apply Herr]. by eapply wp_dropped.
Qed.

End Wp.

(** C11. The reader is total: on every document and with every set of features parsing returns,
    successfully exactly when no error was recorded, or the document is nested past the stack
    limit, and then it has at least as many characters as the limit; it never reads outside
    the document or loops. *)
Theorem parse_total f document root :
  match parse_features f document root with
  | Ok (ok, _, errors) => ok = true <-> errors = []
  | Fallo e => e = RuntimeError "Exceeded stackLimit in readValue()." /\
               (stackLimit_g <= String.length document)%nat
  end.
Proof.
  set (N := String.length document).
  pose proof (wp_readValue N (S stackLimit_g) root (mkReader document [] f 0)) as H.
  unfold parse_features.
  cut (wp N (let* '(successful, root) := readValue (S stackLimit_g) root in
             let* token := skipCommentTokens in
             if strictRoot_ f && negb (isArray root || isObject root) then
               let* b := addError "A valid JSON document must be either an array or an object value."
                     (mkToken tokenError document "") None in
               ret (b, root)
             else ret (successful, root))
         (fun '(ok, _) r => ok = true <-> errors_ r = []) (mkReader document [] f 0)).
  { unfold wp. by destruct (bindM _ _ _) as [[[b v]|e] r]. }
  subst N. apply wp_bind. eapply wp_mono; [apply H; unfold cabe, resto; cbn [stackDepth_g current_]; lia|].
  intros [ok v] r1 H1. cbv beta iota. apply wp_bind.
  eapply wp_mono; [apply wp_skipCommentTokens|]. cbv beta. intros t r2 [(_ & He & _) _].
  destruct (strictRoot_ f && _).
  - apply wp_bind. eapply wp_mono; [apply wp_addError|]. intros b r3 [[-> Hb] _]. apply wp_ret.
    unfold nerr in Hb. split; [done|]. intros E. rewrite E in Hb. cbn in Hb. lia.
  - apply wp_ret. rewrite He. unfold tras_valor in H1. destruct ok; cbn in H1.
    + destruct H1 as (_ & -> & _). done.
    + split; [done|]. intros E. unfold nerr in H1. rewrite E in H1. cbn in H1. lia.
Qed.

End JsonReaderTotal.
