(* ===== verification/JsonEmite.v ===== *)
(** * JsonEmite: what it is for a writer to emit a text

    The writers of src/json/json.cpp keep different states, but all of them have a document
    that grows, an indentation and the texts of the children they measured.  [Escritor] is
    that view of a state; [Emite] is the Hoare triple of a writer's step over it, and its
    rules are shared by the proofs of the four writers (JsonWriterOk, JsonStreamOk).  The
    file also has the shape of a JSON array and object as a sequence with separators. *)

From S2P Require Import Prelude Libc JsonValue JsonReader JsonWriter JsonTexto JsonReaderOk.
Open Scope Z_scope.

Module JsonEmite.
Import Libc Json JsonLeyes JsonWriter JsonTexto.
Open Scope mensajero_scope.

(** ** Triples *)

Class Escritor (S : Type) : Type := vista : S -> StyledWriter.

Section Ternas.
Context {S : Type} {E : Escritor S}.
Implicit Types (I J K : list string -> Prop) (m k : M S unit).

(** The state writes to the document, with a blank indentation. *)
Definition listo (w : S) : Prop := addChildValues_ (vista w) = false /\ Bl (indentString_ (vista w)).

(** [w'] is [w] after writing [s]. *)
Definition sigue (w : S) (s : string) (w' : S) : Prop :=
  document_ (vista w') = document_ (vista w) +:+ s /\
  indentString_ (vista w') = indentString_ (vista w) /\ addChildValues_ (vista w') = false.

(** From a ready state whose [childValues_] satisfies [I], [m] succeeds, appends a text of
    the language [P] and leaves the rest as it was and [childValues_] in [J]. *)
Definition Emite I m (P : lang) J : Prop :=
  forall w, listo w -> I (childValues_ (vista w)) ->
  exists s w', m w = (Ok tt, w') /\ P s /\ sigue w s w' /\ J (childValues_ (vista w')).

Lemma sigue_listo w s w' : listo w -> sigue w s w' -> listo w'.
Proof. intros [H1 H2] (_ & Hi & Ha). split; [done|]. by rewrite Hi. Qed.

Lemma sigue_cat w s w' s' w'' : sigue w s w' -> sigue w' s' w'' -> sigue w (s +:+ s') w''.
Proof. intros (H1 & H2 & H3) (H4 & H5 & H6). split_and!; [|congruence|done]. by rewrite H4, H1, app_assoc_s. Qed.

Lemma sigue_nada w w' : listo w -> vista w' = vista w -> sigue w "" w'.
Proof. intros [H1 H2] Ew. unfold sigue. by rewrite Ew, app_nil_r_s. Qed.

Lemma emite_mono I J m P Q : Emite I m P J -> (forall s, P s -> Q s) -> Emite I m Q J.
Proof. intros Hm HPQ w H1 H2. destruct (Hm w H1 H2) as (s & w' & ? & ? & ?). exists s, w'. auto. Qed.

Lemma emite_cs I I' J J' m P :
  Emite I m P J -> (forall l, I' l -> I l) -> (forall l, J l -> J' l) -> Emite I' m P J'.
Proof.
  intros Hm Hi Hj w H1 H2. destruct (Hm w H1 (Hi _ H2)) as (s & w' & ? & ? & ? & ?). exists s, w'. auto.
Qed.

Lemma emite_ext I J m k P : (forall w, m w = k w) -> Emite I m P J -> Emite I k P J.
Proof. intros Hx Hm w H1 H2. rewrite <- Hx. by apply Hm. Qed.

Lemma emite_seq I J K m k P Q : Emite I m P J -> Emite J k Q K -> Emite I (m;;; k) (P ⊙ Q) K.
Proof.
  intros Hm Hk w H1 H2. destruct (Hm w H1 H2) as (s & w1 & E1 & HP & S1 & HJ).
  destruct (Hk w1 (sigue_listo _ _ _ H1 S1) HJ) as (s' & w2 & E2 & HQ & S2 & HK).
  exists (s +:+ s'), w2. split_and!; [|by apply cat_intro|by eapply sigue_cat|done].
  by erewrite bind_ok by exact E1.
Qed.

Lemma emite_ret I : Emite I (ret tt) (lit "") I.
Proof. intros w H1 H2. exists "", w. split_and!; [done..| |done]. by apply sigue_nada. Qed.

(** A step outside the view. *)
Lemma emite_aparte I m k P J : (forall w, exists w', m w = (Ok tt, w') /\ vista w' = vista w) ->
  Emite I k P J -> Emite I (m;;; k) P J.
Proof.
  intros Hm Hk. eapply emite_mono with (P := lit "" ⊙ P); [|by intros s (a & b & -> & -> & ?)].
  eapply emite_seq; [|exact Hk]. intros w H1 H2. destruct (Hm w) as (w' & E1 & E2).
  exists "", w'. split_and!; [done..|by apply sigue_nada|by rewrite E2].
Qed.

Lemma emite_alzar {A} I J (r : res A) a (k : A -> M S unit) P :
  r = Ok a -> Emite I (k a) P J -> Emite I (let* x := alzar r in k x) P J.
Proof. intros -> H. exact H. Qed.

Lemma emite_leer {A} I J (g : S -> A) a (k : A -> M S unit) P :
  (forall w, I (childValues_ (vista w)) -> g w = a) -> Emite I (k a) P J ->
  Emite I (let* x := leer g in k x) P J.
Proof. intros Hg Hk w H1 H2. erewrite bind_ok by reflexivity. rewrite (Hg w H2). by apply Hk. Qed.

(** ** Indentation *)

Definition Sangra (m : M S unit) (b : string) : Prop := forall w, exists w', m w = (Ok tt, w') /\
  vista w' = mkStyled (childValues_ (vista w)) (document_ (vista w)) (indentString_ (vista w) +:+ b)
               (addChildValues_ (vista w)).
Definition Desangra (m : M S unit) (b : string) : Prop := forall w i, indentString_ (vista w) = i +:+ b ->
  exists w', m w = (Ok tt, w') /\
    vista w' = mkStyled (childValues_ (vista w)) (document_ (vista w)) i (addChildValues_ (vista w)).

(** [indent(); m; unindent(); k] *)
Lemma emite_sangria I J K ind un b m k P Q : Sangra ind b -> Desangra un b -> Bl b ->
  Emite I m P J -> Emite J k Q K -> Emite I (ind;;; m;;; un;;; k) (P ⊙ Q) K.
Proof.
  intros Hi Hu Hb Hm Hk w H1 H2. destruct (Hi w) as (w1 & E1 & V1). erewrite bind_ok by exact E1.
  destruct (Hm w1) as (s & w2 & E2 & HP & (D2 & I2 & A2) & J2).
  { split; rewrite V1; [apply H1|]. apply Bl_app; [apply H1|done]. }
  { by rewrite V1. }
  erewrite bind_ok by exact E2. rewrite V1 in D2, I2. destruct (Hu w2 _ I2) as (w3 & E3 & V3).
  erewrite bind_ok by exact E3. destruct (Hk w3) as (s' & w4 & E4 & HQ & (D4 & I4 & A4) & K4).
  { split; rewrite V3; [done|apply H1]. }
  { by rewrite V3. }
  exists (s +:+ s'), w4. split_and!; [done|by apply cat_intro| |done]. rewrite V3 in D4, I4.
  split_and!; [|done|done]. rewrite D4. cbn in D2 |- *. by rewrite D2, app_assoc_s.
Qed.
End Ternas.

(** ** Sequences with separators *)

Fixpoint secuencia (item : CZString * Value -> lang) (m : ObjectValues) : lang :=
  match m with
  | [] => fun _ => False
  | p :: m => match m with [] => item p | _ => item p ⊙ lit "," ⊙ secuencia item m end
  end.

(** A language that absorbs blanks before its texts, and one that does after them. *)
Definition absorbe (P : lang) : Prop := forall s, (Bl ⊙ P) s -> P s.
Definition cola (P : lang) : Prop := forall s, (P ⊙ Bl) s -> P s.

Lemma absorbe_bl P : absorbe (Bl ⊙ P).
Proof.
  intros s (a & ? & -> & Ha & (b & c & -> & Hb & Hc)). rewrite <- app_assoc_s.
  apply cat_intro; [by apply Bl_app|done].
Qed.

Lemma absorbe_secuencia item m :
  Forall (fun p => absorbe (item p)) m -> absorbe (secuencia item m).
Proof.
  destruct m as [|p [|q m]]; intros Hf s Hs; [by destruct Hs as (? & ? & _ & _ & [])| |];
    inversion Hf as [|? ? Hp _]; subst; cbn [secuencia] in *; [by apply Hp|].
  destruct Hs as (a & ? & -> & Ha & (b & c & -> & Hb & Hc)). rewrite <- app_assoc_s.
  apply cat_intro; [|done]. by apply Hp, cat_intro.
Qed.

Lemma cola_bl : cola Bl.
Proof. intros s (a & b & -> & Ha & Hb). by apply Bl_app. Qed.

Lemma cola_cat P Q : cola Q -> cola (P ⊙ Q).
Proof.
  intros HQ s (? & c & -> & (a & b & -> & Ha & Hb) & Hc). rewrite app_assoc_s.
  apply cat_intro; [done|]. by apply HQ, cat_intro.
Qed.

Lemma cola_secuencia item m : Forall (fun p => cola (item p)) m -> cola (secuencia item m).
Proof.
  induction 1 as [|p m Hp Hm IH]; intros s Hs; [by destruct Hs as (? & ? & _ & [] & _)|].
  destruct m as [|q m]; [by apply Hp|]. cbn [secuencia] in *.
  destruct Hs as (? & b & -> & (a & ? & -> & Ha & (c & d & -> & Hc & Hd)) & Hb). rewrite !app_assoc_s.
  apply cat_intro; [done|]. apply cat_intro; [done|]. apply IH. by apply cat_intro.
Qed.

Lemma emite_intercalar {S} {E : Escritor S} {A} J sep (l : list A) f item m :
  Emite J sep (lit "," ⊙ Bl) J ->
  Forall2 (fun x p => Emite J (f x) (item p) J) l m ->
  Forall (fun p => absorbe (item p)) m -> m <> [] ->
  Emite J (intercalar sep l f) (secuencia item m) J.
Proof.
  intros Hsep Hf. induction Hf as [|x p l m Hx Hf IH]; intros Habs Hne; [done|].
  inversion Habs as [|? ? Hp Hm]; subst. destruct Hf as [|x' p' l m Hx' Hf]; [done|].
  cbn [intercalar secuencia]. eapply emite_mono.
  - eapply emite_seq; [exact Hx|]. eapply emite_seq; [exact Hsep|]. by apply IH.
  - intros s (a & ? & -> & Ha & (b & c & -> & (b1 & b2 & -> & -> & Hb2) & Hc)).
    apply cat_intro; [done|]. rewrite app_assoc_s. apply cat_intro; [done|].
    apply (absorbe_secuencia item (p' :: m)); [done|]. by apply cat_intro.
Qed.

Definition item_arr (p : CZString * Value) : lang := Bl ⊙ Texto p.2 ⊙ Bl.
Definition item_obj (p : CZString * Value) : lang :=
  Bl ⊙ lit (comillas (escapar_todo (key_str p.1))) ⊙ Bl ⊙ lit ":" ⊙ Bl ⊙ Texto p.2 ⊙ Bl.

Lemma elems_secuencia m s : secuencia item_arr m s -> elems Texto m s.
Proof.
  revert s. induction m as [|[k v] m IH]; intros s; [done|]. destruct m as [|q m]; [done|].
  cbn [secuencia]. intros (a & c & -> & (b1 & ? & -> & H1 & (t & b2 & -> & H2 & H3)) & (d & e & -> & -> & He)).
  rewrite !app_assoc_s. do 4 (apply cat_intro; [done|]). by apply IH.
Qed.

Lemma miembros_secuencia m s : secuencia item_obj m s -> miembros Texto m s.
Proof.
  revert s. induction m as [|[k v] m IH]; intros s; [done|]. destruct m as [|q m]; [done|].
  cbn [secuencia]. intros (a & c & -> & Ha & (d & e & -> & -> & He)).
  apply cat_intro; [exact Ha|]. apply cat_intro; [done|]. by apply IH.
Qed.

Lemma item_arr_cola m : cola (secuencia item_arr m).
Proof. apply cola_secuencia, Forall_forall. intros p _. do 2 apply cola_cat. apply cola_bl. Qed.

Lemma item_obj_cola m : cola (secuencia item_obj m).
Proof. apply cola_secuencia, Forall_forall. intros p _. do 6 apply cola_cat. apply cola_bl. Qed.

Lemma item_arr_absorbe m : Forall (fun p => absorbe (item_arr p)) m.
Proof. apply Forall_forall. intros. apply absorbe_bl. Qed.

Lemma item_obj_absorbe m : Forall (fun p => absorbe (item_obj p)) m.
Proof. apply Forall_forall. intros. apply absorbe_bl. Qed.

Lemma item_arr_intro p s : (Bl ⊙ Texto p.2) s -> item_arr p s.
Proof.
  intros (a & b & -> & Ha & Hb). apply cat_intro; [done|]. exists b, "". rewrite app_nil_r_s.
  by split_and!.
Qed.

(** A member whose colon may have blanks around. *)
Lemma item_obj_intro k v s :
  ((Bl ⊙ lit (comillas (escapar_todo (key_str k)))) ⊙ (Bl ⊙ lit ":" ⊙ Bl) ⊙ Bl ⊙ Texto v) s -> item_obj (k, v) s.
Proof.
  intros (? & ? & -> & (a & q & -> & Ha & ->) & (? & ? & -> & (b & ? & -> & Hb & (? & d & -> & -> & Hd)) & (e & t & -> & He & Ht))).
  rewrite !app_assoc_s. do 4 (apply cat_intro; [done|]). rewrite <- app_assoc_s.
  apply cat_intro; [by apply Bl_app|]. exists t, "". rewrite app_nil_r_s. by split_and!.
Qed.

(** Brackets around a sequence give a text of the value. *)
Lemma texto_arreglo m s : m <> [] ->
  ((Bl ⊙ lit "[" ⊙ Bl) ⊙ secuencia item_arr m ⊙ Bl ⊙ lit "]") s -> (Bl ⊙ Texto (arrayValue m)) s.
Proof.
  intros Hne (? & ? & -> & (a & ? & -> & Ha & (b & x & -> & -> & Hx)) & (q & ? & -> & Hq & (d & e & -> & Hd & ->))).
  rewrite !app_assoc_s. apply cat_intro; [done|]. destruct m as [|p m]; [done|]. cbn [Texto].
  apply cat_intro; [done|]. rewrite <- !app_assoc_s. apply cat_intro; [|done]. apply elems_secuencia.
  rewrite app_assoc_s. apply (absorbe_secuencia _ _ (item_arr_absorbe _)), cat_intro; [done|].
  apply item_arr_cola. by apply cat_intro.
Qed.

Lemma texto_objeto m s : m <> [] ->
  ((Bl ⊙ lit "{") ⊙ secuencia item_obj m ⊙ Bl ⊙ lit "}") s -> (Bl ⊙ Texto (objectValue m)) s.
Proof.
  intros Hne (? & ? & -> & (a & b & -> & Ha & ->) & (q & ? & -> & Hq & (d & e & -> & Hd & ->))).
  rewrite !app_assoc_s. apply cat_intro; [done|]. destruct m as [|p m]; [done|]. cbn [Texto].
  apply cat_intro; [done|]. rewrite <- app_assoc_s. apply cat_intro; [|done].
  apply miembros_secuencia, item_obj_cola. by apply cat_intro.
Qed.

Lemma texto_bl v s : Texto v s -> (Bl ⊙ Texto v) s.
Proof. intros H. by exists "", s. Qed.

Lemma dos_puntos a b : Bl a -> Bl b -> (Bl ⊙ lit ":" ⊙ Bl) (a +:+ ":" +:+ b).
Proof. intros. by repeat apply cat_intro. Qed.

(** ** Elements and members as the writers look them up *)

(** Neither a non-empty array nor a non-empty object. *)
Definition simple (v : Value) : bool := negb ((isArray v || isObject v) && (0 <? size v)%nat).

Lemma Forall2_seq_indexar vs (R : nat -> CZString * Value -> Prop) :
  (forall i v, vs !! i = Some v -> R i (CZIndex i, v)) ->
  Forall2 R (seq 0 (size (arrayValue (indexar 0 vs)))) (indexar 0 vs).
Proof.
  rewrite size_indexar. intros H.
  assert (forall k, (forall i v, vs !! i = Some v -> R (k + i)%nat (CZIndex (k + i)%nat, v)) ->
    Forall2 R (seq k (length vs)) (indexar k vs)) as K; [|by apply K].
  clear H. induction vs as [|v l IH]; intros k Hk; cbn [length seq indexar]; constructor.
  - specialize (Hk O v eq_refl). by rewrite Nat.add_0_r in Hk.
  - apply IH. intros i x Hx. specialize (Hk (Datatypes.S i) x Hx). by rewrite Nat.add_succ_r in Hk.
Qed.

(** A member is found under its name. *)
Lemma key_const_miembro m k v : claves_ok None m = true -> In (k, v) m ->
  exists s, k = CZStr s /\ contiene NUL s = false /\ key_const (objectValue m) s = Ok v.
Proof.
  intros Hc Hi. destruct (claves_str _ _ _ _ Hc Hi) as (s & -> & Hn). exists s. split_and!; [done..|].
  destruct (claves_mapa _ _ Hc) as [Hm _]. pose proof (find_in_mapa _ _ _ Hm Hi) as Hf. cbn in Hf.
  unfold key_const, find. by rewrite Hf.
Qed.

(** Every string and key of the value satisfies [Q]. *)
Fixpoint cadenas (Q : string -> bool) (v : Value) : bool :=
  let fix todas (m : ObjectValues) : bool :=
    match m with [] => true | (k, v) :: m => Q (key_str k) && cadenas Q v && todas m end in
  match v with
  | stringValue s => Q s
  | arrayValue m | objectValue m => todas m
  | _ => true
  end.
Definition sin_char (c : ascii) (v : Value) : bool := cadenas (fun s => negb (contiene c s)) v.

Lemma cadenas_hijos Q v m : v = arrayValue m \/ v = objectValue m -> cadenas Q v = true ->
  Forall (fun p => Q (key_str p.1) = true /\ cadenas Q p.2 = true) m.
Proof.
  intros Hv. assert (cadenas Q v = true -> (fix todas (m : ObjectValues) : bool :=
    match m with [] => true | (k, v) :: m => Q (key_str k) && cadenas Q v && todas m end) m = true)
    as K by (by destruct Hv as [-> | ->]).
  intros H. specialize (K H). clear -K. induction m as [|[k v] m IH]; constructor; partir; auto.
Qed.

Lemma cadenas_todas v : cadenas (fun _ => true) v = true.
Proof.
  induction v as [|i|u|x|s|b|m IH|m IH] using JsonReaderOk.Value_ind'; try done;
    cbn [cadenas]; induction IH as [|[k v] m Hv _ IH]; try done; cbn [snd] in Hv; by rewrite Hv, IH.
Qed.

(** Induction over the canonical values whose strings satisfy [Q], an array given by its
    elements. *)
Section Induccion.
Variables (Q : string -> bool) (P : Value -> Prop).
Hypothesis Hsimple : forall v, canonico v = true -> cadenas Q v = true -> simple v = true -> P v.
Hypothesis Harr : forall vs, vs <> [] -> canonico (arrayValue (indexar 0 vs)) = true ->
  Forall (fun v => canonico v = true /\ cadenas Q v = true /\
                   (altura v < altura (arrayValue (indexar 0 vs)))%nat /\ P v) vs ->
  P (arrayValue (indexar 0 vs)).
Hypothesis Hobj : forall m, m <> [] -> claves_ok None m = true ->
  Forall (fun p => (altura p.2 < altura (objectValue m))%nat /\ P p.2) m -> P (objectValue m).

Lemma canonico_ind v : canonico v = true -> cadenas Q v = true -> P v.
Proof.
  induction v as [|i|u|x|s|b|m IH|m IH] using JsonReaderOk.Value_ind'; intros Hc Hq;
    try (by apply Hsimple); destruct m as [|p m]; try (by apply Hsimple);
    rewrite ?altura_objeto; set (l := p :: m) in *.
  - pose proof (canonico_hijos _ l (or_introl eq_refl) Hc) as Hh.
    pose proof (cadenas_hijos Q _ l (or_introl eq_refl) Hq) as Hk.
    pose proof Hc as Hd. cbn [canonico] in Hd. apply andb_prop in Hd as [Hd _].
    rewrite (densa_indexar 0 l Hd) in Hc |- *. apply Harr; [done|done|].
    rewrite <- (densa_indexar 0 l Hd). apply Forall_fmap. rewrite Forall_forall in *. intros q Hi.
    pose proof (altura_hijo l q (proj1 (list_elem_of_In _ _) Hi)). cbn. split_and!; auto; try (by apply Hk).
    apply IH; auto. by apply Hk.
  - pose proof (canonico_hijos _ l (or_intror eq_refl) Hc) as Hh.
    pose proof (cadenas_hijos Q _ l (or_intror eq_refl) Hq) as Hk.
    pose proof Hc as Hd. cbn [canonico] in Hd. apply andb_prop in Hd as [Hd _].
    apply Hobj; [done..|]. rewrite Forall_forall in *. intros q Hi.
    pose proof (altura_hijo l q (proj1 (list_elem_of_In _ _) Hi)). rewrite altura_objeto.
    split; [done|]. apply IH; auto. by apply Hk.
Qed.
End Induccion.

(** ** The layout of arrays and objects *)

Section Forma.
Context {S : Type} {E : Escritor S}.
Variables (emitir writeWithIndent : string -> M S unit) (indent unindent : M S unit).
Variables (sangria : string) (childValue_at : nat -> M S string).
Hypothesis Hemitir : forall I s, Emite I (emitir s) (lit s) I.
Hypothesis Hwith : forall I s, Emite I (writeWithIndent s) (Bl ⊙ lit s) I.
Hypothesis Hindent : Sangra indent sangria.
Hypothesis Hunindent : Desangra unindent sangria.
Hypothesis Hsangria : Bl sangria.
Hypothesis Hchild : forall i w s, childValues_ (vista w) !! i = Some s -> childValue_at i w = (Ok s, w).

(** The separators of the one-line form and of the multi-line form. *)
Lemma emite_coma I s b : s = String "," b -> Bl b -> Emite I (emitir s) (lit "," ⊙ Bl) I.
Proof.
  intros -> Hb. eapply emite_mono; [apply Hemitir|]. intros s ->.
  change (String "," b) with ("," +:+ b). by apply cat_intro.
Qed.

(** The text of a measured child. *)
Lemma emite_childValue vs cs i v (k : string -> M S unit) P :
  Forall2 Texto vs cs -> vs !! i = Some v ->
  (forall s, Texto v s -> Emite (fun l => l = cs) (k s) P (fun l => l = cs)) ->
  Emite (fun l => l = cs) (let* s := childValue_at i in k s) P (fun l => l = cs).
Proof.
  intros Hf Hv Hk w H1 H2. destruct (Forall2_lookup_l _ _ _ _ _ Hf Hv) as (s & Hs & Ht).
  erewrite bind_ok by (apply Hchild; by rewrite H2). by apply Hk.
Qed.

(** The one-line form, with the texts of the children in [childValues_]. *)
Lemma emite_linea vs cs abre cierra : vs <> [] -> Forall2 Texto vs cs ->
  (lit "[" ⊙ Bl) abre -> (Bl ⊙ lit "]") cierra ->
  Emite (fun l => l = cs)
    (emitir abre;;;
     intercalar (emitir ", ") (seq 0 (size (arrayValue (indexar 0 vs))))
       (fun index => let* s := childValue_at index in emitir s);;;
     emitir cierra)
    (Bl ⊙ Texto (arrayValue (indexar 0 vs))) (fun l => l = cs).
Proof.
  intros Hne Hcs Ha Hz. assert (indexar 0 vs <> []) as Hne' by (by destruct vs). eapply emite_mono.
  - eapply emite_seq; [apply Hemitir|]. eapply emite_seq; [|apply Hemitir].
    apply emite_intercalar; [by eapply (emite_coma _ _ " ")| |apply item_arr_absorbe|exact Hne'].
    apply Forall2_seq_indexar. intros i v Hv. eapply emite_childValue; [done..|]. intros s Hs.
    eapply emite_mono; [apply Hemitir|]. intros t ->. by apply item_arr_intro, texto_bl.
  - intros s (? & ? & -> & -> & (q & ? & -> & Hq & ->)). apply texto_arreglo; [done|].
    apply cat_intro; [by exists "", abre|]. by apply cat_intro.
Qed.

(** The multi-line form; [g] is what is read of the state after the bracket. *)
Lemma emite_corchetes {A} I J (g : S -> A) h (m : A -> M S unit) l : l <> [] ->
  (forall w, I (childValues_ (vista w)) -> g w = h) -> (forall l, I l -> J l) ->
  Emite J (m h) (secuencia item_arr l) J ->
  Emite I (writeWithIndent "[";;; indent;;; let* x := leer g in m x;;; unindent;;; writeWithIndent "]")
    (Bl ⊙ Texto (arrayValue l)) J.
Proof.
  intros Hne Hg HIJ Hm. eapply emite_mono.
  - eapply emite_seq; [apply Hwith|].
    apply emite_ext with (m := indent;;; (let* x := leer g in m x);;; unindent;;; writeWithIndent "]").
    { intros w. unfold bindM. by destruct (indent w) as [[] ?]. }
    eapply emite_sangria; [exact Hindent|exact Hunindent|exact Hsangria| |apply Hwith].
    eapply emite_cs with (I := I) (J := J); [|done|done]. eapply emite_leer; [exact Hg|].
    by eapply emite_cs; [exact Hm| |].
  - intros s (? & ? & -> & (a & b & -> & Ha & ->) & Hs). apply texto_arreglo; [done|].
    apply cat_intro; [|done]. apply cat_intro; [done|]. by exists "[", "".
Qed.

(** An array whose layout was chosen: either no child was measured and it goes on several
    lines, or the texts of all the children are in [childValues_].  [todos] writes the
    elements, each with [uno]. *)
Lemma emite_arreglo (base : list string -> Prop) vs cs b abre cierra
    (todos : bool -> M S unit) (uno : bool -> nat -> M S unit) :
  vs <> [] -> base cs -> (b = true /\ cs = [] \/ Forall2 Texto vs cs) ->
  (lit "[" ⊙ Bl) abre -> (Bl ⊙ lit "]") cierra ->
  (forall J h, (forall i v, vs !! i = Some v -> Emite J (uno h i) (item_arr (CZIndex i, v)) J) ->
    Emite J (todos h) (secuencia item_arr (indexar 0 vs)) J) ->
  (forall i v, vs !! i = Some v -> Emite base (uno false i) (item_arr (CZIndex i, v)) base) ->
  (Forall2 Texto vs cs -> forall i v, vs !! i = Some v ->
    Emite (fun l => l = cs) (uno true i) (item_arr (CZIndex i, v)) (fun l => l = cs)) ->
  Emite (fun l => l = cs)
    (if b then
       writeWithIndent "[";;; indent;;;
       let* h := leer (fun w => negb (length (childValues_ (vista w)) =? 0)%nat) in
       todos h;;; unindent;;; writeWithIndent "]"
     else
       emitir abre;;;
       intercalar (emitir ", ") (seq 0 (size (arrayValue (indexar 0 vs))))
         (fun index => let* s := childValue_at index in emitir s);;;
       emitir cierra)
    (Bl ⊙ Texto (arrayValue (indexar 0 vs))) base.
Proof.
  intros Hne Hbase Hcs Ha Hz Htodos Hfalse Htrue. assert (indexar 0 vs <> []) as Hne' by (by destruct vs).
  destruct b; [destruct (decide (cs = [])) as [->|Hcs']|].
  - eapply (emite_corchetes (fun l => l = []) base _ false); [done|by intros w ->|by intros l ->|]. by apply Htodos.
  - destruct Hcs as [[_ ?]|Hcs]; [done|].
    eapply emite_cs; [eapply (emite_corchetes (fun l => l = cs) (fun l => l = cs) _ true)|done|by intros l ->]; [done| |done|].
    + intros w ->. by destruct cs.
    + by apply Htodos, Htrue.
  - destruct Hcs as [[? _]|Hcs]; [done|].
    eapply emite_cs; [by apply (emite_linea vs cs)|done|by intros l ->].
Qed.

Lemma emite_llaves J m l : l <> [] -> Emite J m (secuencia item_obj l) J ->
  Emite J (writeWithIndent "{";;; indent;;; m;;; unindent;;; writeWithIndent "}")
    (Bl ⊙ Texto (objectValue l)) J.
Proof.
  intros Hne Hm. eapply emite_mono; [|intros s; by apply texto_objeto]. eapply emite_seq; [apply Hwith|].
  eapply emite_sangria; [exact Hindent|exact Hunindent|exact Hsangria|exact Hm|apply Hwith].
Qed.

(** A member: its name, the colon and its value. *)
Lemma emite_miembro J (wv : Value -> M S unit) (nombre : string -> string) colon m p :
  claves_ok None m = true -> In p m -> (Bl ⊙ lit ":" ⊙ Bl) colon ->
  (forall s, contiene NUL s = false -> nombre s = comillas (escapar_todo s)) ->
  Emite J (wv p.2) (Bl ⊙ Texto p.2) J ->
  Emite J (let* childValue := alzar (key_const (objectValue m) (key_str p.1)) in
           writeWithIndent (nombre (key_str p.1));;; emitir colon;;; wv childValue) (item_obj p) J.
Proof.
  intros Hc Hi Hcolon Hnom Hw. destruct p as [k v].
  destruct (key_const_miembro _ _ _ Hc Hi) as (s & -> & Hn & Hk). eapply emite_alzar; [exact Hk|].
  cbn [fst snd key_str] in *. rewrite Hnom by done. eapply emite_mono; [|apply item_obj_intro].
  - eapply emite_seq; [apply Hwith|]. eapply emite_seq; [|exact Hw].
    eapply emite_mono; [apply Hemitir|]. by intros ? ->.
Qed.
End Forma.

End JsonEmite.
