(* ===== verification/JsonWriterOk.v ===== *)
(** * JsonWriterOk: what [Json::StyledWriter] and [Json::FastWriter] guarantee

    [writeValue] appends to the document a text of the value, blanks apart ([escribe],
    [fast_escribe]), so that the reader recovers the value (JsonReaderOk); and no document
    holds a character that is neither of the JSON syntax nor in the value's strings. *)

From S2P Require Import Prelude Libc JsonValue JsonReader JsonWriter JsonTexto JsonReaderOk JsonEmite.
Open Scope Z_scope.

Module JsonWriterOk.
Import Libc Json JsonLeyes JsonWriter JsonTexto.
Export JsonEmite.
Open Scope mensajero_scope.

#[global] Instance styled_vista : Escritor StyledWriter := fun w => w.

Definition cualquiera : list string -> Prop := fun _ => True.

(** ** The steps of [StyledWriter] *)

Lemma emite_emitir I s : Emite I (emitir s) (lit s) I.
Proof. intros w [H1 H2] H3. eexists s, _. split_and!; try done. Qed.

Lemma emite_pushValue I s : Emite I (pushValue s) (lit s) I.
Proof.
  intros w H1 H3. unfold pushValue. erewrite bind_ok by reflexivity. cbv beta.
  pose proof (proj1 H1 : addChildValues_ w = false) as ->. by apply emite_emitir.
Qed.

Lemma emite_writeIndent I : Emite I writeIndent Bl I.
Proof.
  intros w H1 H3. unfold writeIndent. do 2 (erewrite bind_ok by reflexivity; cbv beta).
  pose proof (proj2 H1 : Bl (indentString_ w)) as Hb.
  assert (Emite I (emitir (indentString_ w)) Bl I) as Hi
    by (eapply emite_mono; [apply emite_emitir|by intros ? ->]).
  destruct (ultimo (document_ w)) as [c|]; [|by apply Hi].
  destruct (Ascii.eqb c " "); [|destruct (Ascii.eqb c "010"); [by apply Hi|]].
  - eapply emite_mono; [apply emite_ret|by intros ? ->|done|done].
  - eapply emite_mono; [eapply emite_seq; [apply (emite_emitir I)|exact Hi]| |done|done].
    intros s (? & b & -> & -> & Hb'). by apply Bl_app.
Qed.

Lemma emite_writeWithIndent I s : Emite I (writeWithIndent s) (Bl ⊙ lit s) I.
Proof. eapply emite_seq; [apply emite_writeIndent|apply emite_emitir]. Qed.

Lemma sangra_indent : Sangra indent (espacios indentSize_).
Proof. intros w. by eexists. Qed.

Lemma desangra_unindent : Desangra unindent (espacios indentSize_).
Proof.
  intros w i Hi. eexists. split; [reflexivity|]. cbn. unfold vista, styled_vista in *. rewrite Hi.
  change indentSize_ with (String.length (espacios indentSize_)) at 2.
  by rewrite length_app_s, Nat.add_sub, prefijo_app.
Qed.

Lemma childValue_leido i (w : StyledWriter) s : childValues_ (vista w) !! i = Some s -> childValue_at i w = (Ok s, w).
Proof. intros Hs. unfold childValue_at. erewrite bind_ok by reflexivity. cbv beta. unfold vista, styled_vista in Hs. by rewrite Hs. Qed.

(** ** Arrays *)

Lemma writeValue_simple v : canonico v = true -> simple v = true ->
  exists s, Texto v s /\ forall fuel w, writeValue (S fuel) v w = pushValue s w.
Proof.
  destruct v as [|i|u|d|t|b|m|m]; intros Hc Hs; try done; try (eexists; split; [done|]; done).
  - exists (comillas (escapar_todo t)). split; [done|]. intros. cbn [writeValue]. by rewrite quoted_N.
  - cbn [canonico] in Hc. partir. rewrite (densa_indexar _ _ H) in Hs |- *.
    unfold simple in Hs. rewrite size_indexar in Hs. destruct m; [|done].
    exists "[]". by split.
  - destruct m; [|done]. exists "{}". by split.
Qed.

Section Arreglos.
Variable wv : Value -> W unit.
Variable vs : list Value.
Let arr := arrayValue (indexar 0 vs).

Lemma elementos_indexar w : elementos arr w = (Ok vs, w).
Proof.
  unfold elementos, alzar. f_equal. unfold arr. rewrite size_indexar.
  assert (forall n k, (k + n = length vs)%nat ->
    (fix go (l : list nat) : res (list Value) :=
       match l with
       | [] => Ok []
       | i :: l => let? v := index_const (arrayValue (indexar 0 vs)) i in let? vs := go l in Ok (v :: vs)
       end) (seq k n) = Ok (drop k vs)) as H.
  { induction n as [|n IH]; intros k Hk; cbn [seq].
    - by rewrite drop_ge by lia.
    - destruct (lookup_lt_is_Some_2 vs k) as [v Hv]; [lia|].
      rewrite (index_const_indexar _ _ _ Hv). cbn [bindR]. rewrite IH by lia. cbn [bindR].
      by rewrite (drop_S _ _ _ Hv). }
  by rewrite H.
Qed.

Lemma medir_simples ss index len l w :
  Forall2 (fun v s => forall w, wv v w = pushValue s w) l ss ->
  addChildValues_ w = true -> length (childValues_ w) = index ->
  exists n, medir wv index len l w =
    (Ok n, mkStyled (childValues_ w ++ ss) (document_ w) (indentString_ w) true).
Proof.
  intros Hf. revert index len w. induction Hf as [|v s l ss Hv Hf IH]; intros index len w Ha Hl; cbn [medir].
  - exists len. rewrite app_nil_r. destruct w; cbn in *. by subst.
  - assert (wv v w = (Ok tt, mkStyled (childValues_ w ++ [s]) (document_ w) (indentString_ w) true)) as E.
    { rewrite Hv. unfold pushValue. erewrite bind_ok by reflexivity. rewrite Ha. unfold cambiar. by rewrite Ha. }
    erewrite bind_ok by exact E. unfold childValue_at. rewrite bind_assoc.
    erewrite bind_ok by reflexivity. cbn [childValues_].
    rewrite lookup_app_r, Hl, Nat.sub_diag by lia. cbn [lookup list_lookup].
    erewrite bind_ok by reflexivity. cbv beta.
    destruct (IH (S index) (len + Z.of_nat (String.length s))
                (mkStyled (childValues_ w ++ [s]) (document_ w) (indentString_ w) true)) as [n Hn]; [done| |].
    + cbn. rewrite length_app. cbn. lia.
    + exists n. rewrite Hn. cbn. by rewrite <- app_assoc.
Qed.

(** Either no child was measured and the array goes on several lines, or the texts of
    all the children are in [childValues_]. *)
Lemma isMultineArray_spec w :
  (forall v, In v vs -> simple v = true -> exists s, Texto v s /\ forall w, wv v w = pushValue s w) ->
  addChildValues_ w = false ->
  exists b cs, isMultineArray wv arr w = (Ok b, mkStyled cs (document_ w) (indentString_ w) false) /\
    (b = true /\ cs = [] \/ Forall2 Texto vs cs).
Proof.
  intros Hs Ha. unfold isMultineArray. unfold set_childValues at 1. erewrite bind_ok by reflexivity. cbv beta.
  erewrite bind_ok by apply elementos_indexar. cbv beta.
  destruct (_ || _) eqn:E.
  { exists true, []. split; [by rewrite Ha|]. by left. }
  apply orb_false_elim in E as [_ E].
  assert (exists ss, Forall2 (fun v s => Texto v s /\ forall w, wv v w = pushValue s w) vs ss) as [ss Hss].
  { clear -Hs E. induction vs as [|v l IH]; [by exists []|]. cbn [existsb] in E. partir.
    destruct (Hs v) as [s Hv]; [by left| |].
    - unfold simple. by rewrite H.
    - destruct IH as [ss Hss]; [intros; apply Hs; [by right|done]|done|]. exists (s :: ss). by constructor. }
  erewrite bind_ok by reflexivity. cbv beta.
  destruct (medir_simples ss 0 (4 + (Z.of_nat (size arr) - 1) * 2) vs
    (mkStyled [] (document_ w) (indentString_ w) true)) as [n Hn]; [|done..|].
  { eapply Forall2_impl; [exact Hss|]. by intros ? ? []. }
  erewrite bind_ok by exact Hn. cbv beta. erewrite bind_ok by reflexivity. cbv beta.
  eexists _, ss. split; [reflexivity|]. right. eapply Forall2_impl; [exact Hss|]. by intros ? ? [].
Qed.
End Arreglos.

Lemma emite_array fuel vs :
  vs <> [] -> Forall (fun v => canonico v = true) vs ->
  Forall (fun v => Emite cualquiera (writeValue (S fuel) v) (Bl ⊙ Texto v) cualquiera) vs ->
  Emite cualquiera (writeArrayValue (writeValue (S fuel)) (arrayValue (indexar 0 vs)))
    (Bl ⊙ Texto (arrayValue (indexar 0 vs))) cualquiera.
Proof.
  intros Hne Hcan Hem w Hw _. rewrite Forall_forall in Hcan, Hem.
  destruct (isMultineArray_spec (writeValue (S fuel)) vs w) as (b & cs & E & Hcs).
  { intros v Hv Hs. destruct (writeValue_simple v (Hcan v (proj2 (list_elem_of_In _ _) Hv)) Hs)
      as (s & Ht & Hx). exists s. by split. }
  { apply Hw. }
  unfold writeArrayValue. rewrite size_indexar. replace (length vs =? 0)%nat with false by (by destruct vs).
  erewrite bind_ok by exact E. cbv beta. rewrite <- size_indexar.
  refine (emite_arreglo _ _ _ _ _ childValue_at emite_emitir emite_writeWithIndent sangra_indent
    desangra_unindent eq_refl childValue_leido cualquiera vs cs b _ _ _
    (fun h i => let* childValue := alzar (index_const (arrayValue (indexar 0 vs)) i) in
       if h : bool then let* s := childValue_at i in writeWithIndent s
       else writeIndent;;; writeValue (S fuel) childValue)
    Hne I Hcs _ _ _ _ _ (mkStyled cs (document_ w) (indentString_ w) false) (conj eq_refl (proj2 Hw)) eq_refl).
  - by exists "[", " ".
  - by exists " ", "]".
  - intros J h Huno. apply emite_intercalar; [by eapply (emite_coma _ emite_emitir)| |apply item_arr_absorbe|by destruct vs].
    by apply Forall2_seq_indexar.
  - intros i v Hv. eapply emite_alzar; [by apply index_const_indexar|].
    eapply emite_mono; [eapply emite_seq; [apply emite_writeIndent|apply Hem; by eapply list_elem_of_lookup_2]|].
    intros s Hs. apply item_arr_intro. by apply absorbe_bl.
  - intros Hf i v Hv. eapply emite_alzar; [by apply index_const_indexar|].
    eapply (emite_childValue childValue_at childValue_leido); [done..|]. intros s Hs.
    eapply emite_mono; [apply emite_writeWithIndent|]. intros t (a & c & -> & Hba & ->).
    by apply item_arr_intro, cat_intro.
Qed.

(** ** Objects *)

Lemma emite_object fuel m : m <> [] -> claves_ok None m = true ->
  Forall (fun p => Emite cualquiera (writeValue fuel p.2) (Bl ⊙ Texto p.2) cualquiera) m ->
  Emite cualquiera (writeObjectValue (writeValue fuel) (objectValue m)) (Bl ⊙ Texto (objectValue m)) cualquiera.
Proof.
  intros Hne Hc Hem. unfold writeObjectValue. eapply emite_alzar; [reflexivity|].
  replace (_ =? 0)%nat with false by (by destruct m).
  apply (emite_llaves _ _ _ _ emite_writeWithIndent sangra_indent desangra_unindent eq_refl); [done|].
  apply emite_intercalar; [by eapply (emite_coma _ emite_emitir)| |apply item_obj_absorbe|done].
  apply Forall2_fmap_l, Forall_Forall2_diag. rewrite Forall_forall in *. intros p Hp.
  apply (emite_miembro _ _ emite_emitir emite_writeWithIndent);
    [done|by apply list_elem_of_In|by apply (dos_puntos " " " ")|by apply quoted_c|by apply Hem].
Qed.

(** ** The writer produces a text of the value *)

Lemma escribe v : canonico v = true -> forall fuel, (altura v < fuel)%nat ->
  Emite cualquiera (writeValue fuel v) (Bl ⊙ Texto v) cualquiera.
Proof.
  intros Hc. pose proof (cadenas_todas v) as Hq. revert v Hc Hq.
  apply (canonico_ind (fun _ => true) (fun v => forall fuel, (altura v < fuel)%nat ->
    Emite cualquiera (writeValue fuel v) (Bl ⊙ Texto v) cualquiera)).
  - intros v Hc _ Hs [|fuel] Hf; [lia|]. destruct (writeValue_simple v Hc Hs) as (s & Ht & Hw).
    eapply emite_ext; [intros w; symmetry; apply Hw|].
    eapply emite_mono; [apply emite_pushValue|]. intros ? ->. by apply texto_bl.
  - intros vs Hne Hc Hvs [|[|fuel]] Hf; [lia|cbn [altura] in Hf; lia|]. cbn [writeValue].
    apply emite_array; [done|..]; eapply Forall_impl; try exact Hvs; cbv beta.
    + by intros v (? & _).
    + intros v (_ & _ & Ha & IH). apply IH. lia.
  - intros m Hne Hc Hm [|fuel] Hf; [lia|]. apply emite_object; [done..|].
    eapply Forall_impl; [exact Hm|]. cbv beta. intros p (Ha & IH). apply IH. lia.
Qed.

Lemma toStyledString_texto v : canonico v = true ->
  exists b t, toStyledString v = Ok (b +:+ t +:+ LF) /\ Bl b /\ Texto v t.
Proof.
  intros Hc. unfold toStyledString, write.
  destruct (escribe v Hc (S (altura v)) ltac:(lia) (mkStyled [] "" "" false)) as
    (? & w & E & (b & t & -> & Hb & Ht) & (D & _) & _); [done..|].
  erewrite bind_ok by exact E. exists b, t. split_and!; try done. cbn [emitir cambiar document_].
  unfold vista, styled_vista in D. cbn in D. by rewrite D, app_nil_l_s, app_assoc_s.
Qed.

(** ** [FastWriter] *)

#[global] Instance fast_vista : Escritor string := fun d => mkStyled [] d "" false.

Lemma emite_fast I s : Emite I (cambiar (fun d => d +:+ s)) (lit s) I.
Proof. intros w H1 H3. eexists s, _. by split_and!. Qed.

Lemma fast_simple v : canonico v = true -> sin_char NUL v = true -> simple v = true ->
  forall fuel, Emite cualquiera (fast_writeValue (S fuel) v) (Bl ⊙ Texto v) cualquiera.
Proof.
  intros Hc Hq Hs fuel. apply emite_mono with (P := Texto v); [|by apply texto_bl].
  destruct v as [|i|u|d|t|b|m|m]; try done; try apply emite_fast.
  - cbn [fast_writeValue]. rewrite quoted_c by (by apply negb_true_iff). apply emite_fast.
  - cbn [canonico] in Hc. partir. rewrite (densa_indexar _ _ H) in Hs |- *.
    unfold simple in Hs. rewrite size_indexar in Hs. destruct m; [|done].
    eapply emite_mono; [do 2 (eapply emite_seq; [apply emite_fast || apply emite_ret|]); apply emite_fast|].
    by intros s (? & ? & -> & -> & (? & ? & -> & -> & ->)).
  - destruct m; [|done]. eapply emite_alzar; [reflexivity|].
    eapply emite_mono; [do 2 (eapply emite_seq; [apply emite_fast || apply emite_ret|]); apply emite_fast|].
    by intros s (? & ? & -> & -> & (? & ? & -> & -> & ->)).
Qed.

Lemma fast_escribe v : canonico v = true -> sin_char NUL v = true -> forall fuel, (altura v < fuel)%nat ->
  Emite cualquiera (fast_writeValue fuel v) (Bl ⊙ Texto v) cualquiera.
Proof.
  revert v. refine (canonico_ind _ _ _ _ _).
  - intros v Hc Hq Hs [|fuel] Hf; [lia|]. by apply fast_simple.
  - intros vs Hne Hc Hvs [|fuel] Hf; [lia|]. assert (indexar 0 vs <> []) as Hne' by (by destruct vs).
    cbn [fast_writeValue]. eapply emite_mono.
    + eapply emite_seq; [apply emite_fast|]. eapply emite_seq; [|apply emite_fast].
      apply emite_intercalar; [by eapply (emite_coma _ emite_fast)| |apply item_arr_absorbe|done].
      apply Forall2_seq_indexar. intros i v Hv. eapply emite_alzar; [by apply index_const_indexar|].
      eapply emite_mono; [|intros s; by apply item_arr_intro]. rewrite Forall_forall in Hvs.
      destruct (Hvs v) as (_ & _ & Ha & IH); [by eapply list_elem_of_lookup_2|]. apply IH. lia.
    + intros s (? & ? & -> & -> & (q & ? & -> & Hq & ->)). apply texto_arreglo; [done|].
      apply cat_intro; [by exists "", "["; split_and!; [..|by exists "[", ""]|]. apply cat_intro; [done|].
      by exists "", "]".
  - intros m Hne Hc Hm [|fuel] Hf; [lia|]. cbn [fast_writeValue]. eapply emite_alzar; [reflexivity|].
    eapply emite_mono.
    + eapply emite_seq; [apply emite_fast|]. eapply emite_seq; [|apply emite_fast].
      apply emite_intercalar; [by eapply (emite_coma _ emite_fast)| |apply item_obj_absorbe|done].
      apply Forall2_fmap_l, Forall_Forall2_diag. rewrite Forall_forall in *. intros [k v] Hp.
      destruct (key_const_miembro _ _ _ Hc (proj1 (list_elem_of_In _ _) Hp)) as (s & -> & Hn & Hk).
      destruct (Hm _ Hp) as [Ha IH]. unfold compose. cbn [fst snd key_str] in *.
      eapply emite_mono; [|intros t; apply item_obj_intro].
      eapply emite_seq; [eapply emite_mono; [apply emite_fast|intros ? ->; rewrite quoted_N; by eexists "", _]|].
      eapply emite_seq; [eapply emite_mono; [apply emite_fast|intros ? ->; by apply (dos_puntos "" "")]|].
      eapply emite_alzar; [exact Hk|]. apply IH. lia.
    + intros s (? & ? & -> & -> & (q & ? & -> & Hq & ->)). apply texto_objeto; [done|].
      apply cat_intro; [by exists "", "{"|]. apply cat_intro; [done|]. by exists "", "}".
Qed.

Lemma fast_write_texto v : canonico v = true -> sin_char NUL v = true ->
  exists b t, fast_write v = Ok (b +:+ t +:+ LF) /\ Bl b /\ Texto v t.
Proof.
  intros Hc Hq. unfold fast_write.
  destruct (fast_escribe v Hc Hq (S (altura v)) ltac:(lia) "") as
    (? & w & E & (b & t & -> & Hb & Ht) & (D & _) & _); [done..|].
  erewrite bind_ok by exact E. exists b, t. split_and!; try done. cbn in D |- *.
  by rewrite D, app_nil_l_s, app_assoc_s.
Qed.

Lemma parse_toStyledString v : canonico v = true -> (altura v < JsonReader.stackLimit_g)%nat ->
  exists s, toStyledString v = Ok s /\ JsonReader.parse s = Ok (true, v).
Proof.
  intros Hc Ha. destruct (toStyledString_texto v Hc) as (b & t & -> & Hb & Ht).
  eexists. split; [reflexivity|]. by apply JsonReaderOk.parse_Texto.
Qed.

(** ** A character that only strings can contain *)

(** The characters of the syntax, of numbers and of escapes. *)
Definition sintaxis : string := "{}[]:,-0123456789ABCDEFabeflnrstu".

(** Neither a blank or a control nor a character of the JSON syntax, of numbers or of
    escapes. *)
Definition ajeno (c : ascii) : bool :=
  negb (es_blanco c || (byte c <? 32) || contiene c sintaxis ||
        Ascii.eqb c JsonReader.COMILLA || Ascii.eqb c JsonReader.BARRA).

Section Caracter.
Variables (c : ascii) (Q : string -> bool).
Hypothesis Hbl : forall b, Bl b -> contiene c b = false.
Hypothesis Hlit : forall s, todos (fun d => contiene d sintaxis) s = true -> contiene c s = false.
Hypothesis Hcad : forall s, Q s = true -> contiene c (comillas (escapar_todo s)) = false.

Lemma digitos_sin n : 0 <= n <= maxUInt64 -> contiene c (uintToString n) = false.
Proof.
  intros Hn. destruct (uintToString_spec n Hn) as (ds & -> & _ & Hd & _).
  apply Hlit. eapply todos_impl; [|exact Hd]. clear.
  intros d. destruct d as [[][][][][][][][]]; vm_compute; done.
Qed.

Lemma u64_rango z : 0 <= u64 z <= maxUInt64.
Proof. unfold u64, maxUInt64. pose proof (Z.mod_pos_bound z (2 ^ 64)). lia. Qed.

Lemma elems_sin T m t : (forall p, In p m -> forall s, T p.2 s -> contiene c s = false) ->
  elems T m t -> contiene c t = false.
Proof.
  revert t. induction m as [|[k v] m IH]; intros t HT; [done|]. destruct m as [|q m].
  - intros (b & ? & -> & Hb & (s & b2 & -> & Hs & Hb2)).
    rewrite !contiene_app, (Hbl b Hb), (Hbl b2 Hb2). by rewrite (HT _ (or_introl eq_refl) s Hs).
  - intros (b & ? & -> & Hb & (s & ? & -> & Hs & (b2 & ? & -> & Hb2 & (x & r & -> & -> & Hr)))).
    rewrite !contiene_app, (Hbl b Hb), (Hbl b2 Hb2).
    rewrite (HT _ (or_introl eq_refl) s Hs), (Hlit ",") by done.
    cbn [orb]. apply IH; [|done]. intros p Hp. apply HT. by right.
Qed.

Lemma miembros_sin T m t :
  (forall p, In p m -> Q (key_str p.1) = true /\ forall s, T p.2 s -> contiene c s = false) ->
  miembros T m t -> contiene c t = false.
Proof.
  revert t. induction m as [|[k v] m IH]; intros t HT; [done|].
  assert (forall s, (Bl ⊙ lit (comillas (escapar_todo (key_str k))) ⊙ Bl ⊙ lit ":" ⊙ Bl ⊙ T v ⊙ Bl) s ->
    contiene c s = false) as Huno.
  { destruct (HT _ (or_introl eq_refl)) as [Hk Hv]. cbn in Hk, Hv.
    intros s (b & ? & -> & Hb & (x & ? & -> & -> & (b1 & ? & -> & Hb1 & (y & ? & -> & -> &
      (b2 & ? & -> & Hb2 & (z & b3 & -> & Hz & Hb3)))))).
    rewrite !contiene_app, (Hbl b Hb), (Hbl b1 Hb1), (Hbl b2 Hb2), (Hbl b3 Hb3).
    rewrite (Hcad _ Hk), (Hlit ":") by done. by rewrite (Hv z Hz). }
  destruct m as [|q m]; [apply Huno|].
  intros (u & ? & -> & Hu & (x & r & -> & -> & Hr)). rewrite !contiene_app, Huno, (Hlit ",") by done.
  cbn [orb]. apply IH; [|done]. intros p Hp. apply HT. by right.
Qed.

Lemma Texto_sin v t : canonico v = true -> cadenas Q v = true -> Texto v t -> contiene c t = false.
Proof.
  revert t. induction v as [|i|u|x|s|b|m IH|m IH] using JsonReaderOk.Value_ind'; intros t Hcan Hs Ht;
    cbn [Texto] in Ht.
  - unfold lit in Ht. subst t. by apply Hlit.
  - unfold lit in Ht. subst t. unfold valueToString_int.
    destruct (i <? 0); [|by rewrite digitos_sin by apply u64_rango].
    change (String "-" (uintToString (u64 (- i)))) with ("-" +:+ uintToString (u64 (- i))).
    by rewrite contiene_app, (Hlit "-"), digitos_sin by (done || apply u64_rango).
  - unfold lit in Ht. subst t. apply digitos_sin, u64_rango.
  - done.
  - unfold lit in Ht. subst t. by apply Hcad.
  - unfold lit in Ht. subst t. by destruct b; apply Hlit.
  - pose proof (canonico_hijos _ m (or_introl eq_refl) Hcan) as Hh.
    pose proof (cadenas_hijos Q _ m (or_introl eq_refl) Hs) as Hsh. rewrite Forall_forall in IH, Hh, Hsh.
    destruct m as [|p m]; [unfold lit in Ht; subst t; by apply Hlit|].
    destruct Ht as (a & ? & -> & -> & (e & z & -> & He & ->)).
    rewrite !contiene_app, (Hlit "["), (Hlit "]") by done. cbn [orb]. rewrite orb_false_r.
    eapply elems_sin; [|exact He]. intros q Hq%list_elem_of_In s Hqs. apply (IH q Hq); [auto|by apply Hsh|done].
  - pose proof (canonico_hijos _ m (or_intror eq_refl) Hcan) as Hh.
    pose proof (cadenas_hijos Q _ m (or_intror eq_refl) Hs) as Hsh. rewrite Forall_forall in IH, Hh, Hsh.
    destruct m as [|p m]; [unfold lit in Ht; subst t; by apply Hlit|].
    destruct Ht as (a & ? & -> & -> & (e & z & -> & He & ->)).
    rewrite !contiene_app, (Hlit "{"), (Hlit "}") by done. cbn [orb]. rewrite orb_false_r.
    eapply miembros_sin; [|exact He]. intros q Hq%list_elem_of_In. split; [by apply Hsh|].
    intros s Hqs. apply (IH q Hq); [auto|by apply Hsh|done].
Qed.

Lemma styled_sin v s :
  canonico v = true -> cadenas Q v = true -> toStyledString v = Ok s -> contiene c s = false.
Proof.
  intros Hcan Hs E. destruct (toStyledString_texto v Hcan) as (b & t & E' & Hb & Ht).
  rewrite E in E'. injection E' as ->. rewrite !contiene_app, (Hbl b Hb).
  by rewrite (Texto_sin v t), (Hbl LF) by done.
Qed.
End Caracter.

Section Ajeno.
Variable c : ascii.
Hypothesis Hc : ajeno c = true.

Lemma ajeno_bl b : Bl b -> contiene c b = false.
Proof.
  intros Hb. apply (todos_no_contiene es_blanco); [|done]. unfold ajeno in Hc.
  apply negb_true_iff in Hc. partir. done.
Qed.

Lemma ajeno_sintaxis d : contiene d sintaxis = true -> Ascii.eqb c d = false.
Proof.
  intros Hd. apply Ascii.eqb_neq. intros ->. unfold ajeno in Hc. by rewrite Hd, orb_true_r in Hc.
Qed.

Lemma ajeno_lit s : todos (fun d => contiene d sintaxis) s = true ->
  contiene c s = false.
Proof.
  induction s as [|d s IH]; [done|]. cbn [todos]. intros. partir. rewrite contiene_cons, IH by done.
  by rewrite ajeno_sintaxis.
Qed.

Lemma ajeno_comilla : Ascii.eqb c JsonReader.COMILLA = false /\ Ascii.eqb c JsonReader.BARRA = false.
Proof. unfold ajeno in Hc. apply negb_true_iff in Hc. partir. by split. Qed.

Lemma ajeno_control d : byte d < 32 -> Ascii.eqb c d = false.
Proof.
  intros Hd. apply Ascii.eqb_neq. intros ->. unfold ajeno in Hc.
  by rewrite (proj2 (Z.ltb_lt _ _) Hd), orb_true_r in Hc.
Qed.

Lemma ajeno_barra s : todos (fun d => contiene d sintaxis) s = true ->
  contiene c (barra s) = false.
Proof.
  intros Hs. unfold barra. rewrite contiene_cons, ajeno_lit by done. by destruct ajeno_comilla as [_ ->].
Qed.

Lemma ajeno_escapar d : contiene c (escapar d) = Ascii.eqb c d.
Proof.
  destruct ajeno_comilla as [Hq Hb]. unfold escapar.
  destruct (Ascii.eqb_spec d JsonReader.COMILLA) as [->|_].
  { unfold barra. by rewrite !contiene_cons, Hq, Hb. }
  destruct (Ascii.eqb_spec d JsonReader.BARRA) as [->|_].
  { unfold barra. by rewrite !contiene_cons, Hb. }
  repeat match goal with
    |- context [if Ascii.eqb d ?k then _ else _] =>
      destruct (Ascii.eqb_spec d k) as [->|_]; [rewrite ajeno_barra by done; symmetry; by apply ajeno_control|]
  end.
  destruct (isControlCharacter d || Ascii.eqb d NUL) eqn:E.
  - rewrite ajeno_control, ajeno_barra; [done| |].
    + revert E. clear. destruct d as [[][][][][][][][]]; vm_compute; done.
    + revert E. clear. destruct d as [[][][][][][][][]]; vm_compute; done.
  - rewrite contiene_cons. apply orb_false_r.
Qed.

Lemma ajeno_comillas s : contiene c (comillas (escapar_todo s)) = contiene c s.
Proof.
  unfold comillas. rewrite contiene_cons, contiene_app, contiene_cons. destruct ajeno_comilla as [-> _].
  cbn [orb]. rewrite orb_false_r. induction s as [|d s IH]; [done|]. cbn [escapar_todo].
  by rewrite contiene_app, contiene_cons, IH, ajeno_escapar.
Qed.

Lemma styled_sin_char v s :
  canonico v = true -> sin_char c v = true -> toStyledString v = Ok s -> contiene c s = false.
Proof.
  apply (styled_sin c (fun s => negb (contiene c s))); [apply ajeno_bl|apply ajeno_lit|].
  intros t Ht. rewrite ajeno_comillas. by apply negb_true_iff.
Qed.
End Ajeno.

(** A document never holds a NUL: the writer escapes it. *)
Lemma styled_sin_nul v s : canonico v = true -> toStyledString v = Ok s -> contiene NUL s = false.
Proof.
  intros Hc. apply (styled_sin NUL (fun _ => true)); [| | |done|apply cadenas_todas].
  - intros b Hb. by apply (todos_no_contiene es_blanco).
  - intros t Ht. by apply (todos_no_contiene (fun d => contiene d sintaxis)).
  - intros t _. assert (contiene NUL (escapar_todo t) = false) as Ht.
    { induction t as [|d t IH]; [done|]. cbn [escapar_todo]. rewrite contiene_app, IH.
      rewrite orb_false_r. clear. destruct d as [[][][][][][][][]]; vm_compute; done. }
    unfold comillas. by rewrite contiene_cons, contiene_app, contiene_cons, Ht.
Qed.

End JsonWriterOk.
