(* ===== verification/JsonStream.v ===== *)
(** * JsonStream: the writers to streams of src/json/json.cpp

    [StyledStreamWriter] and [BuiltStyledStreamWriter], which is a copy of it with settings,
    and the builder of the latter.  The state is that of [StyledWriter], with the text sent to
    the stream as its document, and the flag [indented_].  The methods of the two classes are written once, over what
    distinguishes them ([Clase]).  As in [JsonWriter], values carry no comments. *)

From S2P Require Import Prelude Libc JsonValue JsonReader JsonWriter.
Open Scope Z_scope.

Module JsonStream.
Import Libc Json.
Import (notations) JsonWriter.

Record Stream : Type := mkStream { escritor : JsonWriter.StyledWriter; indented_ : bool }.
Abbreviation S := (M Stream).

(** A step on the members shared with [StyledWriter]. *)
Definition sobre {A} (m : M JsonWriter.StyledWriter A) : S A := fun e =>
  let '(r, w) := m (escritor e) in (r, mkStream w (indented_ e)).
Definition set_indented (b : bool) : S unit := cambiar (fun e => mkStream (escritor e) b).

Definition emitir (s : string) : S unit := sobre (JsonWriter.emitir s).
Definition pushValue (value : string) : S unit := sobre (JsonWriter.pushValue value).
Definition childValue_at (index : nat) : S string := sobre (JsonWriter.childValue_at index).

(** What distinguishes a class of writers. *)
Record Clase : Type := mkClase {
  indentation_ : string;
  sin_saltos : bool;                (* [writeIndent] writes nothing *)
  cita : string -> string;          (* the text of a string value *)
  cita_nombre : string -> string;   (* the text of a member name *)
  abre : string;                    (* around an array on a single line *)
  cierra : string;
  colonSymbol_ : string;
  nullSymbol_ : string;
  endingLineFeedSymbol_ : string;
  siempre_multi : bool;             (* every array on several lines *)
  suelta : bool }.                  (* [writeCommentAfterValueOnSameLine] resets [indented_] *)

Section Clase.
Context (c : Clase).

Definition writeIndent : S unit :=
  if sin_saltos c then ret tt
  else let* ind := leer (fun e => JsonWriter.indentString_ (escritor e)) in emitir LF;;; emitir ind.

Definition si_hace_falta : S unit :=
  let* b := leer indented_ in if b then ret tt else writeIndent.

Definition writeWithIndent (value : string) : S unit :=
  si_hace_falta;;; emitir value;;; set_indented false.

Definition indent : S unit :=
  sobre (cambiar (fun w => JsonWriter.mkStyled (JsonWriter.childValues_ w) (JsonWriter.document_ w)
    (JsonWriter.indentString_ w +:+ indentation_ c) (JsonWriter.addChildValues_ w))).
Definition unindent : S unit :=
  sobre (cambiar (fun w => JsonWriter.mkStyled (JsonWriter.childValues_ w) (JsonWriter.document_ w)
    (prefijo (String.length (JsonWriter.indentString_ w) - String.length (indentation_ c)) (JsonWriter.indentString_ w))
    (JsonWriter.addChildValues_ w))).

(** [writeCommentAfterValueOnSameLine] of a value without comments. *)
Definition despues : S unit := if suelta c then set_indented false else ret tt.

Section Recursion.
Variable writeValue : Value -> S unit.

Fixpoint medir (index : nat) (lineLength : Z) (l : list Value) : S Z :=
  match l with
  | [] => ret lineLength
  | v :: l =>
      writeValue v;;;
      let* s := childValue_at index in
      medir (Datatypes.S index) (lineLength + Z.of_nat (String.length s)) l
  end.

Definition isMultineArray (value : Value) : S bool :=
  let size := Z.of_nat (Json.size value) in
  let isMultiLine := JsonWriter.rightMargin_ <=? size * 3 in
  sobre (JsonWriter.set_childValues []);;;
  let* children := sobre (JsonWriter.elementos value) in
  let isMultiLine := isMultiLine ||
    existsb (fun v => (isArray v || isObject v) && (0 <? Json.size v)%nat) children in
  if isMultiLine then ret true
  else
    sobre (JsonWriter.set_addChildValues true);;;
    let* lineLength := medir 0 (4 + (size - 1) * 2) children in
    sobre (JsonWriter.set_addChildValues false);;;
    ret (JsonWriter.rightMargin_ <=? lineLength).

Definition writeArrayValue (value : Value) : S unit :=
  if (size value =? 0)%nat then pushValue "[]"
  else
    let* isMultiLine := if siempre_multi c then ret true else isMultineArray value in
    if isMultiLine then
      writeWithIndent "[";;; indent;;;
      let* hasChildValue := leer (fun e => negb (length (JsonWriter.childValues_ (escritor e)) =? 0)%nat) in
      JsonWriter.intercalar (emitir ",";;; despues) (seq 0 (size value))
        (fun index =>
           let* childValue := alzar (index_const value index) in
           if hasChildValue then let* s := childValue_at index in writeWithIndent s
           else si_hace_falta;;; set_indented true;;; writeValue childValue;;; set_indented false);;;
      despues;;;
      unindent;;; writeWithIndent "]"
    else
      emitir (abre c);;;
      JsonWriter.intercalar (emitir ", ") (seq 0 (size value))
        (fun index => let* s := childValue_at index in emitir s);;;
      emitir (cierra c).

Definition writeObjectValue (value : Value) : S unit :=
  let* members := alzar (getMemberNames value) in
  if (length members =? 0)%nat then pushValue "{}"
  else
    writeWithIndent "{";;; indent;;;
    JsonWriter.intercalar (emitir ",";;; despues) members
      (fun name =>
         let* childValue := alzar (key_const value name) in
         writeWithIndent (cita_nombre c name);;;
         emitir (colonSymbol_ c);;;
         writeValue childValue);;;
    despues;;;
    unindent;;; writeWithIndent "}".
End Recursion.

Fixpoint writeValue (fuel : nat) (value : Value) : S unit :=
  match fuel with
  | O => falla SinCombustible
  | Datatypes.S fuel =>
      match value with
      | nullValue => pushValue (nullSymbol_ c)
      | intValue _ => let* i := alzar (asLargestInt value) in pushValue (valueToString_int i)
      | uintValue _ => let* i := alzar (asLargestUInt value) in pushValue (valueToString_uint i)
      | realValue _ => let* d := alzar (asDouble value) in pushValue (valueToString_double d)
      | stringValue s => pushValue (cita c s)
      | booleanValue _ => let* b := alzar (asBool value) in pushValue (valueToString_bool b)
      | arrayValue _ => writeArrayValue (writeValue fuel) value
      | objectValue _ => writeObjectValue (writeValue fuel) value
      end
  end.

(** The text [write] sends to the stream. *)
Definition write (root : Value) : res string :=
  let m := set_indented true;;; writeValue (Datatypes.S (JsonWriter.altura root)) root;;;
           despues;;; emitir (endingLineFeedSymbol_ c) in
  match m (mkStream (JsonWriter.mkStyled [] "" "" false) true) with
  | (Ok _, e) => Ok (JsonWriter.document_ (escritor e))
  | (Fallo e, _) => Fallo e
  end.
End Clase.

(** ** The two classes *)

(** [StyledStreamWriter(indentation)] *)
Definition StyledStreamWriter (indentation : string) : Clase :=
  mkClase indentation false JsonWriter.valueToQuotedString JsonWriter.valueToQuotedString "[ " " ]" " : " "null" LF
    false true.

(** The methods of [StyledStreamWriter] are those above at its class. *)
Module Styled.
Section Styled.
Context (indentation : string).
Let c : Clase := StyledStreamWriter indentation.
Definition writeIndent : S unit := writeIndent c.
Definition writeWithIndent : string -> S unit := writeWithIndent c.
Definition indent : S unit := indent c.
Definition unindent : S unit := unindent c.
Definition writeCommentAfterValueOnSameLine : S unit := despues c.
Definition isMultineArray (fuel : nat) : Value -> S bool := isMultineArray (writeValue c fuel).
Definition writeArrayValue (fuel : nat) : Value -> S unit := writeArrayValue c (writeValue c fuel).
Definition writeObjectValue (fuel : nat) : Value -> S unit := writeObjectValue c (writeValue c fuel).
Definition writeValue : nat -> Value -> S unit := writeValue c.
Definition write : Value -> res string := write c.
End Styled.
End Styled.

Inductive CommentStyle : Type := None_ | Most | All.

Definition BuiltStyledStreamWriter (indentation : string) (cs : CommentStyle)
    (colonSymbol nullSymbol endingLineFeedSymbol : string) : Clase :=
  let vacia := String.eqb indentation "" in
  mkClase indentation vacia JsonWriter.valueToQuotedStringN JsonWriter.valueToQuotedStringN
    (if vacia then "[" else "[ ") (if vacia then "]" else " ]")
    colonSymbol nullSymbol endingLineFeedSymbol (match cs with All => true | _ => false end) false.

(** ** [StreamWriterBuilder], with its settings *)

Definition TAB : string := String "009" "".
Definition setDefaults (settings : Value) : res Value :=
  let? s := asignar "commentStyle" (stringValue "All") settings in
  let? s := asignar "indentation" (stringValue TAB) s in
  let? s := asignar "enableYAMLCompatibility" (booleanValue false) s in
  asignar "dropNullPlaceholders" (booleanValue false) s.

Definition newStreamWriter (settings : Value) : res Clase :=
  let campo {A} (leer : Value -> res A) (k : string) := let? v := key_const settings k in leer v in
  let? indentation := campo asString "indentation" in
  let? cs_str := campo asString "commentStyle" in
  let? eyc := campo asBool "enableYAMLCompatibility" in
  let? dnp := campo asBool "dropNullPlaceholders" in
  let? cs := if String.eqb cs_str "All" then Ok All
             else if String.eqb cs_str "None" then Ok None_
             else Fallo (RuntimeError "commentStyle must be 'All' or 'None'") in
  let colonSymbol := if eyc : bool then ": " else if String.eqb indentation "" then ":" else " : " in
  let nullSymbol := if dnp : bool then "" else "null" in
  Ok (BuiltStyledStreamWriter indentation cs colonSymbol nullSymbol "").

Definition valid_writer_keys : list string :=
  ["indentation"; "commentStyle"; "enableYAMLCompatibility"; "dropNullPlaceholders"].

(** [validate(&invalid)] on an empty [invalid]: whether all keys are known, and the others. *)
Fixpoint invalidas (valid_keys keys : list string) (settings inv : Value) : res Value :=
  match keys with
  | [] => Ok inv
  | key :: keys =>
      if existsb (String.eqb key) valid_keys then invalidas valid_keys keys settings inv
      else let? v := key_const settings key in
           let? inv := asignar key v inv in invalidas valid_keys keys settings inv
  end.
Definition validate_keys (valid_keys : list string) (settings : Value) : res (bool * Value) :=
  let? keys := getMemberNames settings in
  let? inv := invalidas valid_keys keys settings nullValue in
  Ok ((size inv =? 0)%nat, inv).
Definition validate (settings : Value) : res (bool * Value) := validate_keys valid_writer_keys settings.

(** [writeString(builder, root)] *)
Definition writeString (settings root : Value) : res string :=
  let? c := newStreamWriter settings in write c root.

(** [sout << root] *)
Definition escribir_en (root : Value) : res string :=
  let? s := setDefaults nullValue in writeString s root.

End JsonStream.
