(* ===== verification/JsonStreamOk.v ===== *)
(** * JsonStreamOk: what the writers to streams guarantee

    Each class of JsonStream whose symbols are those of JSON ([clase_ok]) sends to the stream
    a text of the value, blanks apart: whatever the indentation, the colon and the
    [CommentStyle]. *)

From S2P Require Import Prelude Libc JsonValue JsonReader JsonWriter JsonTexto JsonReaderOk JsonEmite.
From S2P Require Import JsonWriterOk JsonStream.
Open Scope Z_scope.

Module JsonStreamOk.
Import Libc Json JsonLeyes JsonTexto JsonWriterOk JsonStream.
Abbreviation comillas := JsonWriter.comillas.
Abbreviation escapar_todo := JsonWriter.escapar_todo.
Open Scope mensajero_scope.

#[global] Instance stream_vista : Escritor Stream := escritor.

(** What makes the texts of a class JSON; [Q] holds of the strings it quotes right. *)
Record clase_ok (Q : string -> bool) (c : Clase) : Prop := {
  ok_sangria : Bl (indentation_ c);
  ok_cita : forall s, Q s = true -> cita c s = comillas (escapar_todo s);
  ok_nombre : forall s, contiene NUL s = false -> cita_nombre c s = comillas (escapar_todo s);
  ok_abre : (lit "[" ⊙ Bl) (abre c);
  ok_cierra : (Bl ⊙ lit "]") (cierra c);
  ok_colon : (Bl ⊙ lit ":" ⊙ Bl) (colonSymbol_ c);
  ok_null : nullSymbol_ c = "null";
  ok_fin : Bl (endingLineFeedSymbol_ c) }.

(** ** Steps *)

Lemma sobre_ok {A} (m : M JsonWriter.StyledWriter A) e a w :
  m (escritor e) = (Ok a, w) -> sobre m e = (Ok a, mkStream w (indented_ e)).
Proof. unfold sobre. by intros ->. Qed.

Lemma sobre_bind {A B} (m : M JsonWriter.StyledWriter A) (k : A -> M JsonWriter.StyledWriter B) e :
  sobre (let* x := m in k x) e = (let* x := sobre m in sobre (k x)) e.
Proof. unfold bindM, sobre. by destruct (m (escritor e)) as [[] ?]. Qed.

Lemma sobre_cong {A B} (m : S A) (k k' : A -> S B) e :
  (forall a e', k a e' = k' a e') -> (let* x := m in k x) e = (let* x := m in k' x) e.
Proof. intros H. unfold bindM. destruct (m e) as [[] ?]; [apply H|done]. Qed.

Lemma emite_sobre I J (m : M JsonWriter.StyledWriter unit) P : Emite I m P J -> Emite I (sobre m) P J.
Proof.
  intros Hm e He Hi. destruct (Hm (escritor e) He Hi) as (s & w & E & HP & HS & HJ).
  exists s, (mkStream w (indented_ e)). split_and!; [by apply sobre_ok|done..].
Qed.

Lemma emite_emitir_s I s : Emite I (emitir s) (lit s) I.
Proof. apply emite_sobre, emite_emitir. Qed.

Lemma emite_pushValue_s I s : Emite I (pushValue s) (lit s) I.
Proof. apply emite_sobre, emite_pushValue. Qed.

Lemma emite_indented I b : Emite I (set_indented b) (lit "") I.
Proof.
  intros e He Hi. exists "", (mkStream (escritor e) b). split_and!; try done. by apply sigue_nada.
Qed.

Lemma childValue_leido_s i (e : Stream) s :
  JsonWriter.childValues_ (vista e) !! i = Some s -> childValue_at i e = (Ok s, e).
Proof. intros Hs. destruct e. unfold childValue_at. by erewrite sobre_ok by (by apply childValue_leido). Qed.

Section Clase.
Context (c : Clase) (Q : string -> bool) (Hok : clase_ok Q c).

Lemma emite_writeIndent_s I : Emite I (writeIndent c) Bl I.
Proof.
  unfold writeIndent. destruct (sin_saltos c); [eapply emite_mono; [apply emite_ret|by intros ? ->]|].
  intros e He Hi. erewrite bind_ok by reflexivity. cbv beta.
  eapply emite_mono; [eapply emite_seq; apply emite_emitir_s| |exact He|exact Hi].
  intros s (? & ? & -> & -> & ->). apply Bl_app; [done|apply He].
Qed.

Lemma emite_si_hace_falta I : Emite I (si_hace_falta c) Bl I.
Proof.
  intros e He Hi. unfold si_hace_falta. erewrite bind_ok by reflexivity. cbv beta.
  destruct (indented_ e); [|by apply emite_writeIndent_s].
  eapply emite_mono; [apply emite_ret|by intros ? ->|done|done].
Qed.

Lemma emite_despues I : Emite I (despues c) (lit "") I.
Proof. unfold despues. destruct (suelta c); [apply emite_indented|apply emite_ret]. Qed.

(** Steps that write nothing, around another. *)
Lemma emite_luego I J K m (k : S unit) P : Emite I m P J -> Emite J k (lit "") K -> Emite I (m;;; k) P K.
Proof.
  intros Hm Hk. eapply emite_mono; [by eapply emite_seq|]. intros s (a & ? & -> & Ha & ->).
  by rewrite app_nil_r_s.
Qed.

Lemma emite_antes I J K m (k : S unit) P : Emite I m (lit "") J -> Emite J k P K -> Emite I (m;;; k) P K.
Proof. intros Hm Hk. eapply emite_mono; [by eapply emite_seq|]. by intros s (? & b & -> & -> & Hb). Qed.

Lemma emite_writeWithIndent_s I s : Emite I (writeWithIndent c s) (Bl ⊙ lit s) I.
Proof.
  unfold writeWithIndent. eapply emite_seq; [apply emite_si_hace_falta|].
  eapply emite_luego; [apply emite_emitir_s|apply emite_indented].
Qed.

Lemma sangra_s : Sangra (indent c) (indentation_ c).
Proof. intros e. by eexists. Qed.

Lemma desangra_s : Desangra (unindent c) (indentation_ c).
Proof.
  intros e i Hi. eexists. split; [reflexivity|]. cbn. unfold vista, stream_vista in *. cbn in Hi. rewrite Hi.
  by rewrite length_app_s, Nat.add_sub, prefijo_app.
Qed.

(** The separator of the multi-line forms. *)
Lemma emite_coma_s I : Emite I (emitir ",";;; despues c) (lit "," ⊙ Bl) I.
Proof. eapply emite_luego; [by eapply (emite_coma _ emite_emitir_s)|apply emite_despues]. Qed.

(** ** Simple values are measured as [StyledWriter] does *)

Lemma simple_s v fuel fuel' e : canonico v = true -> cadenas Q v = true -> simple v = true ->
  writeValue c (Datatypes.S fuel) v e = sobre (JsonWriter.writeValue (Datatypes.S fuel') v) e.
Proof.
  destruct v as [|i|u|d|t|b|m|m]; intros Hc Hq Hs; try done.
  - cbn [writeValue]. by rewrite (ok_null _ _ Hok).
  - cbn [writeValue JsonWriter.writeValue]. rewrite (ok_cita _ _ Hok t) by done. by rewrite quoted_N.
  - cbn [canonico] in Hc. partir. rewrite (densa_indexar _ _ H) in Hs |- *.
    unfold simple in Hs. rewrite size_indexar in Hs. by destruct m.
  - by destruct m.
Qed.

Lemma medir_s (wv : Value -> S unit) wv' l : Forall (fun v => forall e, wv v e = sobre (wv' v) e) l ->
  forall index len e, medir wv index len l e = sobre (JsonWriter.medir wv' index len l) e.
Proof.
  induction 1 as [|v l Hv Hl IH]; intros index len e; cbn [medir JsonWriter.medir].
  - by destruct e.
  - unfold bindM, sobre in *. rewrite Hv. destruct (wv' v (escritor e)) as [[[]|] w]; [|done].
    unfold childValue_at, sobre. cbn [escritor indented_].
    destruct (JsonWriter.childValue_at index w) as [[s|] w']; [|done]. by rewrite IH.
Qed.

Lemma isMultineArray_s (wv : Value -> S unit) wv' vs :
  Forall (fun v => simple v = true -> forall e, wv v e = sobre (wv' v) e) vs -> forall e,
  isMultineArray wv (arrayValue (indexar 0 vs)) e =
  sobre (JsonWriter.isMultineArray wv' (arrayValue (indexar 0 vs))) e.
Proof.
  intros Hwv e. unfold isMultineArray, JsonWriter.isMultineArray.
  rewrite sobre_bind. apply sobre_cong. intros [] e1.
  rewrite sobre_bind. erewrite bind_ok by (apply sobre_ok, elementos_indexar).
  erewrite bind_ok by (apply sobre_ok, elementos_indexar). cbv beta.
  destruct (_ || _) eqn:E; [by destruct e1|]. apply orb_false_elim in E as [_ E].
  rewrite sobre_bind. apply sobre_cong. intros [] e2. rewrite sobre_bind. unfold bindM at 1 3.
  rewrite (medir_s wv wv').
  - destruct (sobre _ _) as [[n|] e3]; [|done]. rewrite sobre_bind. apply sobre_cong. by intros [] [].
  - clear -Hwv E. induction Hwv as [|v vs Hv _ IH]; [constructor|]. cbn [existsb] in E. partir.
    constructor; [|by apply IH]. apply Hv. unfold simple. by rewrite H.
Qed.

(** ** Arrays and objects *)

(** With [CommentStyle::All] no child is ever measured. *)
Definition base : list string -> Prop := fun l => siempre_multi c = true -> l = [].

Definition escribe_s (fuel : nat) (v : Value) : Prop :=
  Emite base (writeValue c fuel v) (Bl ⊙ Texto v) base.

(** Where the layout of an array is chosen. *)
Lemma eleccion fuel vs e :
  Forall (fun v => canonico v = true /\ cadenas Q v = true) vs -> listo e ->
  base (JsonWriter.childValues_ (vista e)) ->
  exists b cs ind,
    (if siempre_multi c then ret true
     else isMultineArray (writeValue c (Datatypes.S fuel)) (arrayValue (indexar 0 vs))) e =
    (Ok b, mkStream (JsonWriter.mkStyled cs (JsonWriter.document_ (vista e))
                       (JsonWriter.indentString_ (vista e)) false) ind) /\
    base cs /\ (b = true /\ cs = [] \/ Forall2 Texto vs cs).
Proof.
  intros Hvs [Ha Hi] Hbase. unfold base in *. destruct (siempre_multi c).
  { exists true, [], (indented_ e). specialize (Hbase eq_refl). split_and!; [|done|by left].
    destruct e as [[]]. cbn in *. by subst. }
  rewrite Forall_forall in Hvs. rewrite (isMultineArray_s _ (JsonWriter.writeValue 1)).
  - destruct (isMultineArray_spec (JsonWriter.writeValue 1) vs (escritor e)) as (b & cs & E & Hcs); [|done|].
    { intros v Hv%list_elem_of_In Hs. destruct (writeValue_simple v) as (s & Ht & Hw); [by apply Hvs|done|].
      by exists s. }
    exists b, cs, (indented_ e). split_and!; [|done..]. by erewrite sobre_ok by exact E.
  - rewrite Forall_forall. intros v Hv Hs e'. by apply simple_s; [apply Hvs..|].
Qed.

Lemma emite_array_s fuel vs : vs <> [] ->
  Forall (fun v => canonico v = true /\ cadenas Q v = true) vs -> Forall (escribe_s (Datatypes.S fuel)) vs ->
  Emite base (writeArrayValue c (writeValue c (Datatypes.S fuel)) (arrayValue (indexar 0 vs)))
    (Bl ⊙ Texto (arrayValue (indexar 0 vs))) base.
Proof.
  intros Hne Hcan Hem e He Hbase.
  destruct (eleccion fuel vs e Hcan He Hbase) as (b & cs & ind & E & Hb & Hcs).
  unfold writeArrayValue. rewrite size_indexar. replace (length vs =? 0)%nat with false by (by destruct vs).
  erewrite bind_ok by exact E. cbv beta. rewrite <- size_indexar. rewrite Forall_forall in Hem.
  set (uno (h : bool) (i : nat) := let* childValue := alzar (index_const (arrayValue (indexar 0 vs)) i) in
    if h then let* s := childValue_at i in writeWithIndent c s
    else si_hace_falta c;;; set_indented true;;; writeValue c (Datatypes.S fuel) childValue;;; set_indented false).
  refine (emite_ext _ _ _ _ _ _ (emite_arreglo _ _ _ _ _ childValue_at emite_emitir_s emite_writeWithIndent_s
    sangra_s desangra_s (ok_sangria _ _ Hok) childValue_leido_s base vs cs b _ _
    (fun h => JsonWriter.intercalar (emitir ",";;; despues c) (seq 0 (size (arrayValue (indexar 0 vs)))) (uno h);;; despues c)
    uno Hne Hb Hcs (ok_abre _ _ Hok) (ok_cierra _ _ Hok) _ _ _)
    (mkStream (JsonWriter.mkStyled cs _ _ false) ind) (conj eq_refl (proj2 He)) eq_refl).
  - intros e'. destruct b; [|done]. apply sobre_cong. intros [] ?. apply sobre_cong. intros [] ?.
    apply sobre_cong. intros h ?. apply bind_assoc.
  - intros J h Huno. eapply emite_luego; [|apply emite_despues].
    apply emite_intercalar; [apply emite_coma_s|by apply Forall2_seq_indexar|apply item_arr_absorbe|by destruct vs].
  - intros i v Hv. eapply emite_alzar; [by apply index_const_indexar|].
    eapply emite_mono; [eapply emite_seq; [apply emite_si_hace_falta|]|].
    + eapply emite_antes; [apply emite_indented|]. eapply emite_luego; [|apply emite_indented].
      apply Hem. by eapply list_elem_of_lookup_2.
    + intros s Hs. apply item_arr_intro. by apply absorbe_bl.
  - intros Hf i v Hv. eapply emite_alzar; [by apply index_const_indexar|].
    eapply (emite_childValue childValue_at childValue_leido_s); [done..|]. intros s Hs.
    eapply emite_mono; [apply emite_writeWithIndent_s|]. intros t (a & d & -> & Hba & ->).
    by apply item_arr_intro, cat_intro.
Qed.

Lemma emite_object_s fuel m : m <> [] -> claves_ok None m = true ->
  Forall (fun p => escribe_s fuel p.2) m ->
  Emite base (writeObjectValue c (writeValue c fuel) (objectValue m)) (Bl ⊙ Texto (objectValue m)) base.
Proof.
  intros Hne Hc Hem. unfold writeObjectValue. eapply emite_alzar; [reflexivity|].
  replace (_ =? 0)%nat with false by (by destruct m).
  match goal with |- context [JsonWriter.intercalar ?s ?l ?f] => apply emite_ext with
    (m := writeWithIndent c "{";;; indent c;;; (JsonWriter.intercalar s l f;;; despues c);;;
          unindent c;;; writeWithIndent c "}") end.
  { intros e. apply sobre_cong. intros [] ?. apply sobre_cong. intros [] ?. apply bind_assoc. }
  apply (emite_llaves _ _ _ _ emite_writeWithIndent_s sangra_s desangra_s (ok_sangria _ _ Hok)); [done|].
  eapply emite_luego; [|apply emite_despues].
  apply emite_intercalar; [apply emite_coma_s| |apply item_obj_absorbe|done].
  apply Forall2_fmap_l, Forall_Forall2_diag. rewrite Forall_forall in *. intros p Hp.
  apply (emite_miembro _ _ emite_emitir_s emite_writeWithIndent_s);
    [done|by apply list_elem_of_In|apply (ok_colon _ _ Hok)|apply (ok_nombre _ _ Hok)|by apply Hem].
Qed.

(** ** The writer produces a text of the value *)

Lemma escribe_clase v : canonico v = true -> cadenas Q v = true ->
  forall fuel, (JsonWriter.altura v < fuel)%nat -> escribe_s fuel v.
Proof.
  revert v. refine (canonico_ind _ _ _ _ _).
  - intros v Hc Hq Hs [|fuel] Hf; [lia|]. destruct (writeValue_simple v Hc Hs) as (s & Ht & Hw).
    eapply emite_ext; [intros e; symmetry; by apply (simple_s v fuel 0)|].
    apply emite_sobre. eapply emite_ext; [intros w; symmetry; apply Hw|].
    eapply emite_mono; [apply emite_pushValue|]. intros ? ->. by apply texto_bl.
  - intros vs Hne Hc Hvs [|[|fuel]] Hf; [lia|cbn [JsonWriter.altura] in Hf; lia|].
    apply emite_array_s; [done|..]; eapply Forall_impl; try exact Hvs; cbv beta.
    + by intros v (? & ? & _).
    + intros v (_ & _ & Ha & IH). apply IH. lia.
  - intros m Hne Hc Hm [|fuel] Hf; [lia|]. apply emite_object_s; [done..|].
    eapply Forall_impl; [exact Hm|]. cbv beta. intros p (Ha & IH). apply IH. lia.
Qed.

Lemma write_texto v : canonico v = true -> cadenas Q v = true ->
  exists b t f, write c v = Ok (b +:+ t +:+ f) /\ Bl b /\ Texto v t /\ Bl f.
Proof.
  intros Hc Hq. assert (Emite base (set_indented true;;; writeValue c (Datatypes.S (JsonWriter.altura v)) v;;;
    despues c;;; emitir (endingLineFeedSymbol_ c)) ((Bl ⊙ Texto v) ⊙ lit (endingLineFeedSymbol_ c)) base) as He.
  { eapply emite_antes; [apply emite_indented|].
    eapply emite_seq; [apply escribe_clase; [done|done|lia]|].
    eapply emite_antes; [apply emite_despues|apply emite_emitir_s]. }
  destruct (He (mkStream (JsonWriter.mkStyled [] "" "" false) true)) as
    (? & e & E & (? & ? & -> & (b & t & -> & Hb & Ht) & ->) & (D & _) & _); [done..|].
  exists b, t, (endingLineFeedSymbol_ c). unfold write. rewrite E.
  unfold vista, stream_vista in D. rewrite D. cbn [JsonWriter.document_ escritor].
  rewrite app_nil_l_s, app_assoc_s. split_and!; [done..|apply (ok_fin _ _ Hok)].
Qed.

End Clase.

(** ** The classes of the source *)

Lemma styled_stream_ok ind : Bl ind -> clase_ok (fun s => negb (contiene NUL s)) (StyledStreamWriter ind).
Proof.
  intros Hi. split; try done; cbn [cita cita_nombre StyledStreamWriter abre cierra colonSymbol_].
  - intros s Hs. by apply quoted_c, negb_true_iff.
  - by apply quoted_c.
  - by exists "[", " ".
  - by exists " ", "]".
  - by apply (dos_puntos " " " ").
Qed.

Lemma built_ok ind cs colon fin : Bl ind -> (Bl ⊙ lit ":" ⊙ Bl) colon -> Bl fin ->
  clase_ok (fun _ => true) (BuiltStyledStreamWriter ind cs colon "null" fin).
Proof.
  intros Hi Hc Hf. split; try done; cbn [cita cita_nombre BuiltStyledStreamWriter abre cierra].
  - intros s _. apply quoted_N.
  - intros s _. apply quoted_N.
  - by destruct (String.eqb ind ""); [exists "[", ""|exists "[", " "].
  - by destruct (String.eqb ind ""); [exists "", "]"|exists " ", "]"].
Qed.

(** The settings of [sout << root]: [newStreamWriter] accepts them. *)
Lemma newStreamWriter_defaults : exists s, setDefaults nullValue = Ok s /\
  newStreamWriter s = Ok (BuiltStyledStreamWriter TAB All " : " "null" "").
Proof. eexists. by split; [vm_compute|]. Qed.

(** [FastWriter] quotes the text of a string value up to its first NUL. *)
Lemma fast_write_trunca : exists v w s,
  canonico v = true /\ JsonWriter.fast_write v = Ok s /\ JsonReader.parse s = Ok (true, w) /\ w <> v.
Proof.
  exists (stringValue (String "a" (String NUL "b"))), (stringValue "a"), (comillas "a" +:+ LF).
  split_and!; [done|vm_compute; reflexivity|vm_compute; reflexivity|done].
Qed.

End JsonStreamOk.
