(* ===== verification/JsonErrores.v ===== *)
(** * JsonErrores: the error reports of [Json::Reader] (src/json/json.cpp)

    The line and column of a place of the document, the text of the errors of a parse and
    their offsets; and what the line and the column are: lines end at CR, LF or CR LF. *)

From S2P Require Import Prelude Libc JsonValue JsonReader.
Open Scope Z_scope.

Module JsonErrores.
Import Libc Json JsonReader.

(** The loop of [getLocationLineAndColumn]: the start of the line of [location] and the
    number of lines before it. *)
Fixpoint contar_lineas (location current lastLineStart : Location) (line : Z) : Location * Z :=
  match current with
  | "" => (lastLineStart, line)
  | String c r =>
      if (String.length location <? String.length current)%nat then
        if Ascii.eqb c "013" then
          match r with
          | String d r' => if Ascii.eqb d "010" then contar_lineas location r' r' (line + 1)
                           else contar_lineas location r r (line + 1)
          | "" => contar_lineas location r r (line + 1)
          end
        else if Ascii.eqb c "010" then contar_lineas location r r (line + 1)
        else contar_lineas location r lastLineStart line
      else (lastLineStart, line)
  end.

(** [b - a] for the pointers to the texts [a] and [b]. *)
Definition distancia (a b : Location) : Z := Z.of_nat (String.length a) - Z.of_nat (String.length b).

Definition getLocationLineAndColumn (begin location : Location) : Z * Z :=
  let '(lastLineStart, line) := contar_lineas location begin begin 0 in
  (line + 1, distancia lastLineStart location + 1).

Definition fmt_d (z : Z) : string := if z <? 0 then "-" +:+ decimal (- z) else decimal z.
Definition lineAndColumn (begin location : Location) : string :=
  let '(line, column) := getLocationLineAndColumn begin location in
  "Line " +:+ fmt_d line +:+ ", Column " +:+ fmt_d column.

Fixpoint getFormattedErrorMessages (begin : Location) (errors : list ErrorInfo) : string :=
  match errors with
  | [] => ""
  | e :: errors =>
      "* " +:+ lineAndColumn begin (start_ (token_ e)) +:+ LF +:+
      "  " +:+ message_ e +:+ LF +:+
      match extra_ e with
      | Some x => "See " +:+ lineAndColumn begin x +:+ " for detail." +:+ LF
      | None => ""
      end +:+
      getFormattedErrorMessages begin errors
  end.

Record StructuredError : Type := mkStructured { offset_start : Z; offset_limit : Z; message : string }.

Definition getStructuredErrors (begin : Location) (errors : list ErrorInfo) : list StructuredError :=
  map (fun e => mkStructured (distancia begin (start_ (token_ e))) (distancia begin (end_ (token_ e)))
                  (message_ e)) errors.

Definition good (errors : list ErrorInfo) : bool := (length errors =? 0)%nat.

End JsonErrores.

Module JsonErroresOk.
Import Libc Json JsonReader JsonErrores.

Definition CR : ascii := "013".
Definition NL : ascii := "010".
Definition sin_salto (t : string) : bool := todos (fun c => negb (Ascii.eqb c CR || Ascii.eqb c NL)) t.
Definition empieza_NL (t : string) : bool := match t with String c _ => Ascii.eqb c NL | "" => false end.

(** [lineas r s n u]: the text [s], which [r] follows, has [n] ends of line, after the last of
    which comes [u]. *)
Inductive lineas (r : string) : string -> Z -> string -> Prop :=
| lin_fin u : sin_salto u = true -> lineas r u 0 u
| lin_NL t s n u : sin_salto t = true -> lineas r s n u -> lineas r (t +:+ String NL s) (n + 1) u
| lin_CRNL t s n u : sin_salto t = true -> lineas r s n u -> lineas r (t +:+ String CR (String NL s)) (n + 1) u
| lin_CR t s n u : sin_salto t = true -> empieza_NL (s +:+ r) = false -> lineas r s n u ->
    lineas r (t +:+ String CR s) (n + 1) u.

Lemma contar_fin r last line : contar_lineas r r last line = (last, line).
Proof. destruct r as [|c r]; [done|]. cbn [contar_lineas]. by rewrite Nat.ltb_irrefl. Qed.

(** A text without ends of line before the place. *)
Lemma contar_texto r t s last line : sin_salto t = true ->
  contar_lineas r (t +:+ s +:+ r) last line = contar_lineas r (s +:+ r) last line.
Proof.
  unfold sin_salto. induction t as [|c t IH]; [done|]. cbn [todos]. intros [Hc Ht]%andb_prop.
  apply negb_true_iff, orb_false_iff in Hc as [H1 H2]. rewrite app_cons_s. cbn [contar_lineas].
  rewrite (proj2 (Nat.ltb_lt _ _)) by (cbn [String.length]; rewrite !length_app_s; lia).
  unfold CR, NL in *. rewrite H1, H2. by apply IH.
Qed.

Lemma contar_salto r s last line :
  contar_lineas r (String NL s +:+ r) last line = contar_lineas r (s +:+ r) (s +:+ r) (line + 1) /\
  contar_lineas r (String CR (String NL s) +:+ r) last line = contar_lineas r (s +:+ r) (s +:+ r) (line + 1) /\
  (empieza_NL (s +:+ r) = false ->
   contar_lineas r (String CR s +:+ r) last line = contar_lineas r (s +:+ r) (s +:+ r) (line + 1)).
Proof.
  rewrite !app_cons_s. split_and!; [| |intros Hn]; cbn [contar_lineas];
    rewrite (proj2 (Nat.ltb_lt _ _)) by (cbn [String.length]; rewrite !length_app_s; lia); [reflexivity..|].
  change (Ascii.eqb CR "013") with true. cbv iota. destruct (s +:+ r) as [|d x]; [done|]. cbn [empieza_NL] in Hn.
  unfold NL in Hn. by rewrite Hn.
Qed.

Lemma contar_ok r s n u last line : lineas r s n u ->
  0 <= n /\ contar_lineas r (s +:+ r) last line = (if n =? 0 then last else u +:+ r, line + n) /\ (n = 0 -> s = u).
Proof.
  intros H. revert last line. induction H as [u Hu|t s n u Ht _ IH|t s n u Ht _ IH|t s n u Ht Hn _ IH]; intros last line.
  { split_and!; [done| |done]. pose proof (contar_texto r u "" last line Hu) as E. rewrite !app_nil_l_s in E.
    by rewrite E, contar_fin, Z.add_0_r. }
  all: destruct (IH (s +:+ r) (line + 1)) as (H0 & E & Hs); destruct (contar_salto r s last line) as (E1 & E2 & E3);
    (split_and!; [lia| |lia]); rewrite app_assoc_s, contar_texto by done;
    rewrite ?E1, ?E2, ?(E3 Hn), E, (proj2 (Z.eqb_neq (n + 1) 0)) by lia; f_equal; try lia;
    destruct (Z.eqb_spec n 0) as [->|]; [by rewrite (Hs eq_refl)|done].
Qed.

(** The line and the column of a place are one more than the ends of line before it and the
    characters since the last of them. *)
Theorem linea_y_columna s r n u : lineas r s n u ->
  getLocationLineAndColumn (s +:+ r) r = (n + 1, Z.of_nat (String.length u) + 1).
Proof.
  intros H. unfold getLocationLineAndColumn. destruct (contar_ok r s n u (s +:+ r) 0 H) as (_ & E & Hs). rewrite E.
  f_equal. unfold distancia. destruct (Z.eqb_spec n 0) as [Hn|]; [rewrite (Hs Hn)|]; rewrite length_app_s; lia.
Qed.

Example linea_y_columna_ejemplo :
  getLocationLineAndColumn ("{" +:+ String CR (String NL (" x" +:+ "y}"))) "y}" = (2, 3).
Proof. apply (linea_y_columna ("{" +:+ String CR (String NL " x")) "y}" 1 " x"). by apply (lin_CRNL _ _ _ 0), lin_fin. Qed.
End JsonErroresOk.
