(* ===== verification/JsonOur.v ===== *)
(** * JsonOur: [OurReader] and [CharReaderBuilder] of src/json/json.cpp

    [OurReader] is a copy of [Reader] with more features, private to json.cpp; it is what
    [CharReaderBuilder], [parseFromStream] and [operator>>] use.  A method whose text is the
    same as that of [Reader] is the method of JsonReader on the state they share; a method
    that differs, or that calls one that does, is written out.  A comment can start with a
    single quote here, which [Value::setComment] refuses: the comments that are collected are
    modelled until they are attached to a value. *)

From S2P Require Import Prelude Libc JsonValue JsonReader JsonErrores JsonStream.
Open Scope Z_scope.

Module OurReader.
Import Libc Json.
Import JsonReader(Location, COMILLA, BARRA, TokenType(..), Token(..), ErrorInfo(..), Features(..)).
Import JsonReader(type_, start_, end_, allowComments_, strictRoot_, allowDroppedNullPlaceholders_, allowNumericKeys_).
#[local] Existing Instance JsonReader.TokenType_eq_dec.

Record OurFeatures : Type := mkOurFeatures {
  comunes : Features;    (* those of [Features] *)
  allowSingleQuotes_ : bool;
  failIfExtra_ : bool;
  rejectDupKeys_ : bool;
  stackLimit_ : Z }.

(** The comments: [lastValue_] is set when [lastValueEnd_] is. *)
Record Comentarios : Type := mkComentarios {
  collectComments_ : bool;
  commentsBefore_ : string;
  lastValueEnd_ : option Location }.

(** The members shared with [Reader] ([stackDepth_] is its [stackDepth_g]), the features and the
    comments. *)
Record Our : Type := mkOur { lector : JsonReader.Reader; our_features : OurFeatures; comentarios : Comentarios }.

(** A method of [Reader]. *)
Definition sobre {A} (m : M JsonReader.Reader A) : M Our A := fun o =>
  let '(r, l) := m (lector o) in (r, mkOur l (our_features o) (comentarios o)).

(** ** Lexical level *)

Definition skipSpaces : M Our unit := sobre JsonReader.skipSpaces.
Definition match_ (pattern : string) : M Our bool := sobre (JsonReader.match_ pattern).
Definition readCStyleComment : M Our bool := sobre JsonReader.readCStyleComment.
Definition readCppStyleComment : M Our bool := sobre JsonReader.readCppStyleComment.
Definition readNumber : M Our unit := sobre JsonReader.readNumber.
Definition readString : M Our bool := sobre JsonReader.readString.
Definition getNextChar : M Our ascii := sobre JsonReader.getNextChar.
Definition current : M Our Location := leer (fun o => JsonReader.current_ (lector o)).

(** ** Comments *)

Definition set_comentarios (g : Comentarios -> Comentarios) : M Our unit :=
  cambiar (fun o => mkOur (lector o) (our_features o) (g (comentarios o))).

(** [Value::setComment], of which only the assertion can be seen in the model. *)
Definition setComment (text : string) : res unit :=
  if Ascii.eqb (JsonReader.deref text) NUL || Ascii.eqb (JsonReader.deref text) "/" then Ok tt
  else Fallo (LogicError "in Json::Value::setComment(): Comments must start with /").

Definition containsNewLine (begin fin : Location) : bool :=
  let t := entre begin fin in contiene "010" t || contiene "013" t.

Fixpoint normalizar (s : string) : string :=
  match s with
  | "" => ""
  | String c r =>
      if Ascii.eqb c "013" then String "010" (match r with String "010" r' => normalizar r' | _ => normalizar r end)
      else String c (normalizar r)
  end.
Definition normalizeEOL (begin fin : Location) : string := normalizar (entre begin fin).

(** [same_line] is [placement == commentAfterOnSameLine]. *)
Definition addComment (begin fin : Location) (same_line : bool) : M Our unit :=
  let normalized := normalizeEOL begin fin in
  if same_line then alzar (setComment normalized)
  else set_comentarios (fun k => mkComentarios (collectComments_ k) (commentsBefore_ k +:+ normalized) (lastValueEnd_ k)).

(** [inicio] is the character before [current_].  The first half is the text of the method of
    [Reader] without its end. *)
Definition readComment (inicio : ascii) : M Our bool :=
  let* l := current in
  let commentBegin := String inicio l in
  let c := JsonReader.deref l in
  let* successful := sobre JsonReader.readComment in
  if negb successful then ret false
  else
    let* k := leer comentarios in
    (if collectComments_ k then
       let* fin := current in
       let same_line := match lastValueEnd_ k with
                        | Some e => negb (containsNewLine e commentBegin) &&
                                    (negb (Ascii.eqb c "*") || negb (containsNewLine commentBegin fin))
                        | None => false
                        end in
       addComment commentBegin fin same_line
     else ret tt);;;
    ret true.

(** Before the [switch] of [readValue], and at the end of [parse]. *)
Definition adjuntar : M Our unit :=
  let* k := leer comentarios in
  if collectComments_ k && negb (String.eqb (commentsBefore_ k) "") then
    alzar (setComment (commentsBefore_ k));;;
    set_comentarios (fun k => mkComentarios (collectComments_ k) "" (lastValueEnd_ k))
  else ret tt.

(** At the end of [readValue]. *)
Definition recordar : M Our unit :=
  let* l := current in
  set_comentarios (fun k => if collectComments_ k then mkComentarios true (commentsBefore_ k) (Some l) else k).

(** ** Tokens *)

Definition COMILLA_SIMPLE : ascii := "039"%char.
Fixpoint scanStringSingleQuote (l : Location) : bool * Location :=
  match l with
  | "" => (false, "")
  | String c r =>
      if Ascii.eqb c BARRA then match r with "" => (false, "") | String _ r' => scanStringSingleQuote r' end
      else if Ascii.eqb c COMILLA_SIMPLE then (true, r)
      else scanStringSingleQuote r
  end.
Definition readStringSingleQuote : M Our bool :=
  let* l := current in
  let '(ok, r) := scanStringSingleQuote l in sobre (JsonReader.set_current r);;; ret ok.

(** The [switch (c)] of [readToken]: without [allowSingleQuotes_] the case of the single quote
    falls through to that of the slash. *)
Definition clasificar (c : ascii) : M Our (TokenType * bool) :=
  if Ascii.eqb c COMILLA_SIMPLE then
    let* f := leer our_features in
    if allowSingleQuotes_ f then let* ok := readStringSingleQuote in ret (tokenString, ok)
    else let* ok := readComment c in ret (tokenComment, ok)
  else if Ascii.eqb c "/" then let* ok := readComment c in ret (tokenComment, ok)
  else sobre (JsonReader.clasificar c).

Definition readToken : M Our Token :=
  skipSpaces;;;
  let* start := current in
  let* c := getNextChar in
  let* '(t, ok) := clasificar c in
  let* fin := current in
  ret (mkToken (if ok then t else tokenError) start fin).

Fixpoint saltear_comentarios (fuel : nat) (token : Token) : M Our Token :=
  match fuel with
  | O => falla SinCombustible
  | S fuel =>
      if decide (type_ token = tokenComment)
      then let* t := readToken in saltear_comentarios fuel t
      else ret token
  end.

(** Enough iterations for any loop that reads a token each time. *)
Definition combustible : M Our nat := sobre JsonReader.combustible.

Definition skipCommentTokens : M Our Token :=
  let* f := leer our_features in
  let* n := combustible in
  let* t := readToken in
  if allowComments_ (comunes f) then saltear_comentarios n t else ret t.

(** ** Errors *)

Definition addError (message : string) (token : Token) (extra : option Location) : M Our bool :=
  sobre (JsonReader.addError message token extra).

Fixpoint recover_loop (fuel : nat) (skipUntil : TokenType) : M Our unit :=
  match fuel with
  | O => falla SinCombustible
  | S fuel =>
      let* t := readToken in
      if decide (type_ t = skipUntil \/ type_ t = tokenEndOfStream) then ret tt
      else recover_loop fuel skipUntil
  end.

Definition recoverFromError (skipUntil : TokenType) : M Our bool :=
  let* errorCount := leer (fun o => length (JsonReader.errors_ (lector o))) in
  let* n := combustible in
  recover_loop n skipUntil;;;
  sobre (cambiar (fun r => JsonReader.mkReader (JsonReader.current_ r) (take errorCount (JsonReader.errors_ r))
                             (JsonReader.features_ r) (JsonReader.stackDepth_g r)));;;
  ret false.

Definition addErrorAndRecover (message : string) (token : Token) (skipUntil : TokenType) : M Our bool :=
  addError message token None;;; recoverFromError skipUntil.

(** ** Scalars *)

Definition decodeDouble (token : Token) : M Our (option Value) := sobre (JsonReader.decodeDouble token).
Definition decodeNumber (token : Token) : M Our (option Value) := sobre (JsonReader.decodeNumber token).
Definition decodeUnicodeCodePoint := JsonReader.decodeUnicodeCodePoint.
Definition decodeUnicodeEscapeSequence := JsonReader.decodeUnicodeEscapeSequence.

(** The token ends with the quote it starts with. *)
Definition decodeString (token : Token) : M Our (option string) :=
  let s := JsonReader.interior token in
  match JsonReader.decode_loop (S (String.length s)) s (String (JsonReader.deref (start_ token)) (end_ token)) with
  | inr d => ret (Some d)
  | inl (msg, extra) => addError msg token (Some extra);;; ret None
  end.

(** ** Values *)

Section Recursion.
Variable readValue : Value -> M Our (bool * Value).

Fixpoint readObject_loop (fuel : nat) (name : string) (obj : Value) : M Our (bool * Value) :=
  match fuel with
  | O => falla SinCombustible
  | S fuel =>
      let* n := combustible in
      let* t := readToken in
      let* tokenName := saltear_comentarios n t in
      if decide (type_ tokenName = tokenObjectEnd /\ name = "") then ret (true, obj)
      else
        let* f := leer our_features in
        let seguir (name : string) : M Our (bool * Value) :=
          let* colon := readToken in
          if decide (type_ colon <> tokenMemberSeparator) then
            let* b := addErrorAndRecover "Missing ':' after object member name" colon tokenObjectEnd in
            ret (b, obj)
          else if 2 ^ 30 <=? largo name then falla (RuntimeError "keylength >= 2^30")
          else
            let* repetida := if rejectDupKeys_ f then alzar (isMember obj name) else ret false in
            if repetida : bool then
              let* b := addErrorAndRecover ("Duplicate key: '" +:+ name +:+ "'") tokenName tokenObjectEnd in
              ret (b, obj)
            else
              let* value := alzar (key_const obj name) in
              let* '(ok, value) := readValue value in
              let* obj := alzar (asignar name value obj) in
              if negb ok then let* b := recoverFromError tokenObjectEnd in ret (b, obj)
              else
                let* comma := readToken in
                if decide (type_ comma <> tokenObjectEnd /\ type_ comma <> tokenArraySeparator /\
                           type_ comma <> tokenComment) then
                  let* b := addErrorAndRecover "Missing ',' or '}' in object declaration" comma tokenObjectEnd in
                  ret (b, obj)
                else
                  let* n := combustible in
                  let* comma := saltear_comentarios n comma in
                  if decide (type_ comma = tokenObjectEnd) then ret (true, obj)
                  else readObject_loop fuel name obj in
        if decide (type_ tokenName = tokenString) then
          let* d := decodeString tokenName in
          match d with
          | None => let* b := recoverFromError tokenObjectEnd in ret (b, obj)
          | Some name => seguir name
          end
        else if decide (type_ tokenName = tokenNumber) then
          if allowNumericKeys_ (comunes f) then
            let* d := decodeNumber tokenName in
            match d with
            | None => let* b := recoverFromError tokenObjectEnd in ret (b, obj)
            | Some numberName => let* name := alzar (asString numberName) in seguir name
            end
          else
            let* b := addErrorAndRecover "Missing '}' or object member name" tokenName tokenObjectEnd in
            ret (b, obj)
        else
          let* b := addErrorAndRecover "Missing '}' or object member name" tokenName tokenObjectEnd in
          ret (b, obj)
  end.

Definition readObject : M Our (bool * Value) :=
  let* n := combustible in readObject_loop n "" (objectValue []).

Fixpoint readArray_loop (fuel : nat) (index : nat) (arr : Value) : M Our (bool * Value) :=
  match fuel with
  | O => falla SinCombustible
  | S fuel =>
      let* value := alzar (index_const arr index) in
      let* '(ok, value) := readValue value in
      let* arr := alzar (at_index index (fun _ => Ok value) arr) in
      if negb ok then let* b := recoverFromError tokenArrayEnd in ret (b, arr)
      else
        let* n := combustible in
        let* t := readToken in
        let* token := saltear_comentarios n t in
        if decide (type_ token <> tokenArraySeparator /\ type_ token <> tokenArrayEnd) then
          let* b := addErrorAndRecover "Missing ',' or ']' in array declaration" token tokenArrayEnd in
          ret (b, arr)
        else if decide (type_ token = tokenArrayEnd) then ret (true, arr)
        else readArray_loop fuel (S index) arr
  end.

Definition readArray : M Our (bool * Value) :=
  skipSpaces;;;
  let* l := current in
  if Ascii.eqb (JsonReader.deref l) "]" then readToken;;; ret (true, arrayValue [])
  else let* n := combustible in readArray_loop n 0 (arrayValue []).
End Recursion.

Definition set_depth (g : nat -> nat) : M Our unit := sobre (JsonReader.set_depth g).

Fixpoint readValue (fuel : nat) (cur : Value) : M Our (bool * Value) :=
  match fuel with
  | O => falla SinCombustible
  | S fuel =>
      let* f := leer our_features in
      let* depth := leer (fun o => JsonReader.stackDepth_g (lector o)) in
      if stackLimit_ f <=? Z.of_nat depth
      then falla (RuntimeError "Exceeded stackLimit in readValue().")
      else
        set_depth S;;;
        let* token := skipCommentTokens in
        adjuntar;;;
        let error : M Our (bool * Value) :=
          let* b := addError "Syntax error: value, object or array expected." token None in ret (b, cur) in
        let fin (r : bool * Value) : M Our (bool * Value) := recordar;;; set_depth Nat.pred;;; ret r in
        match type_ token with
        | tokenObjectBegin => let* r := readObject (readValue fuel) in fin r
        | tokenArrayBegin => let* r := readArray (readValue fuel) in fin r
        | tokenNumber => let* o := decodeNumber token in fin (JsonReader.asignar_si cur o)
        | tokenString => let* o := decodeString token in fin (JsonReader.asignar_si cur (stringValue <$> o))
        | tokenTrue => fin (true, booleanValue true)
        | tokenFalse => fin (true, booleanValue false)
        | tokenNull => fin (true, nullValue)
        | tokenArraySeparator | tokenObjectEnd | tokenArrayEnd =>
            if allowDroppedNullPlaceholders_ (comunes f) then
              sobre (JsonReader.set_current (start_ token));;; fin (true, nullValue)
            else error
        | _ => error
        end
  end.

(** [parse(beginDoc, endDoc, root, collectComments)] on a reader with the features [f]: the
    result, the root it leaves and the errors.  Recursion deeper than [stackLimit_] throws, so one more level of
    fuel is always enough. *)
Definition parse (f : OurFeatures) (collectComments : bool) (document : string) (root : Value) : res (bool * Value * list ErrorInfo) :=
  let run : M Our (bool * Value) :=
    let* '(successful, root) := readValue (S (Z.to_nat (stackLimit_ f))) root in
    let* token := skipCommentTokens in
    if failIfExtra_ f && negb (bool_decide (type_ token = tokenError \/ type_ token = tokenEndOfStream)) then
      let* b := addError "Extra non-whitespace after JSON value." token None in ret (false, root)
    else
      adjuntar;;;
      if strictRoot_ (comunes f) && negb (isArray root || isObject root) then
        let* b := addError "A valid JSON document must be either an array or an object value."
              (mkToken tokenError document "") None in
        ret (false, root)
      else ret (successful, root) in
  let k := mkComentarios (allowComments_ (comunes f) && collectComments) "" None in
  match run (mkOur (JsonReader.mkReader document [] (comunes f) 0) f k) with
  | (Ok (b, v), o) => Ok (b, v, JsonReader.errors_ (lector o))
  | (Fallo e, _) => Fallo e
  end.

(** ** Error reports *)

Definition getLocationLineAndColumn := JsonErrores.getLocationLineAndColumn.
Definition getFormattedErrorMessages := JsonErrores.getFormattedErrorMessages.
Definition getStructuredErrors := JsonErrores.getStructuredErrors.
Definition good := JsonErrores.good.

(** [OurCharReader::parse]: with the text for [errs]. *)
Definition parse_errs (lector : OurFeatures * bool) (document : string) (root : Value) : res (bool * Value * string) :=
  let? '(ok, root, errors) := parse lector.1 lector.2 document root in
  Ok (ok, root, getFormattedErrorMessages document errors).

(** ** [CharReaderBuilder] *)

Fixpoint asignar_todos (l : list (string * Value)) (settings : Value) : res Value :=
  match l with
  | [] => Ok settings
  | (k, v) :: l => let? s := asignar k v settings in asignar_todos l s
  end.

Definition setDefaults : Value -> res Value := asignar_todos
  [("collectComments", booleanValue true); ("allowComments", booleanValue true);
   ("strictRoot", booleanValue false); ("allowDroppedNullPlaceholders", booleanValue false);
   ("allowNumericKeys", booleanValue false); ("allowSingleQuotes", booleanValue false);
   ("stackLimit", intValue 1000); ("failIfExtra", booleanValue false); ("rejectDupKeys", booleanValue false)].

Definition strictMode : Value -> res Value := asignar_todos
  [("allowComments", booleanValue false); ("strictRoot", booleanValue true);
   ("allowDroppedNullPlaceholders", booleanValue false); ("allowNumericKeys", booleanValue false);
   ("allowSingleQuotes", booleanValue false); ("failIfExtra", booleanValue true);
   ("rejectDupKeys", booleanValue true)].

(** The reader it makes: its features and whether it collects comments. *)
Definition newCharReader (settings : Value) : res (OurFeatures * bool) :=
  let campo {A} (leer : Value -> res A) (k : string) := let? v := key_const settings k in leer v in
  let? collectComments := campo asBool "collectComments" in
  let? allowComments := campo asBool "allowComments" in
  let? strictRoot := campo asBool "strictRoot" in
  let? allowDropped := campo asBool "allowDroppedNullPlaceholders" in
  let? allowNumericKeys := campo asBool "allowNumericKeys" in
  let? allowSingleQuotes := campo asBool "allowSingleQuotes" in
  let? stackLimit := campo asInt "stackLimit" in
  let? failIfExtra := campo asBool "failIfExtra" in
  let? rejectDupKeys := campo asBool "rejectDupKeys" in
  Ok (mkOurFeatures (mkFeatures allowComments strictRoot allowDropped allowNumericKeys)
        allowSingleQuotes failIfExtra rejectDupKeys stackLimit, collectComments).

Definition getValidReaderKeys : list string :=
  ["collectComments"; "allowComments"; "strictRoot"; "allowDroppedNullPlaceholders"; "allowNumericKeys";
   "allowSingleQuotes"; "stackLimit"; "failIfExtra"; "rejectDupKeys"].

Definition validate (settings : Value) : res (bool * Value) :=
  JsonStream.validate_keys getValidReaderKeys settings.

(** [parseFromStream(builder, sin, root, errs)], [sin] given by its text. *)
Definition parseFromStream (settings : Value) (sin : string) (root : Value) : res (bool * Value * string) :=
  let? f := newCharReader settings in parse_errs f sin root.

(** [sin >> root] *)
Definition leer_de (sin : string) (root : Value) : res Value :=
  let? settings := setDefaults nullValue in
  let? '(ok, root, errs) := parseFromStream settings sin root in
  if ok : bool then Ok root else Fallo (RuntimeError "reader error").

End OurReader.
