(* ===== verification/JsonOurOk.v ===== *)
(** * JsonOurOk: [OurReader] is [Reader], single quotes apart

    The two readers take a single quote at the start of a token differently: [OurReader] falls
    through to the case of a comment, and throws if it collects it.  On every other document, with the features of its
    own off, it gives the result, the value and the errors of [Reader] ([our_parse_eq], by a
    simulation of the runs); texts of values are such documents, so [operator>>] reads back
    what every writer prints. *)

From S2P Require Import Prelude Libc JsonValue JsonReader JsonWriter JsonTexto JsonReaderOk JsonReaderTotal.
From S2P Require Import JsonErrores JsonEmite JsonWriterOk JsonStream JsonStreamOk JsonOur.
Open Scope Z_scope.

Module JsonOurOk.
Import Libc Json JsonReader JsonReaderTotal JsonTexto.
Import JsonEmite(sin_char, cadenas, dos_puntos).
Import JsonStream(BuiltStyledStreamWriter, write, escribir_en, writeString).
Open Scope mensajero_scope.
Import OurReader(Our, mkOur, OurFeatures, comunes, our_features, lector, COMILLA_SIMPLE).
Import OurReader(Comentarios, mkComentarios, collectComments_, commentsBefore_, lastValueEnd_, comentarios).

Lemma wp_dado {A} N (m : M Reader A) (Q : A -> Reader -> Prop) r a r' :
  wp N m Q r -> m r = (Ok a, r') -> Q a r'.
Proof. unfold wp. by intros H E; rewrite E in H. Qed.

(** The state a token is read from, once its blanks and its first character are taken. *)
Definition tras_blancos (r : Reader) : Location := snd (abarcar es_blanco (current_ r)).
Definition tras_inicial (r : Reader) : Reader :=
  mkReader (saltear 1 (tras_blancos r)) (errors_ r) (features_ r) (stackDepth_g r).

Definition armar {S} (cur : S -> Location) (l : Location) (x : res (TokenType * bool) * S) : res Token * S :=
  match x with
  | (Ok (t, ok), r') => (Ok (mkToken (if ok : bool then t else tokenError) l (cur r')), r')
  | (Fallo e, r') => (Fallo e, r')
  end.

Lemma readToken_eq r :
  readToken r = armar current_ (tras_blancos r) (clasificar (deref (tras_blancos r)) (tras_inicial r)).
Proof.
  unfold readToken, tras_inicial, tras_blancos, skipSpaces, getNextChar, set_current, cambiar, leer, bindM, ret.
  cbn [current_]. destruct (snd (abarcar es_blanco (current_ r))) as [|c l]; cbn [deref saltear current_ errors_ features_ stackDepth_g];
    unfold armar; by destruct (clasificar _ _) as [[[]|] ?].
Qed.

Lemma our_readToken_eq r f k :
  OurReader.readToken (mkOur r f k) = armar (fun o => current_ (lector o)) (tras_blancos r)
    (OurReader.clasificar (deref (tras_blancos r)) (mkOur (tras_inicial r) f k)).
Proof.
  unfold OurReader.readToken, OurReader.skipSpaces, OurReader.getNextChar, OurReader.current, OurReader.sobre,
    tras_inicial, tras_blancos, skipSpaces, getNextChar, set_current, cambiar, leer, bindM, ret.
  cbn [current_ lector our_features comentarios].
  destruct (snd (abarcar es_blanco (current_ r))) as [|c l]; cbn [deref saltear current_ errors_ features_ stackDepth_g lector our_features comentarios];
    unfold armar; by destruct (OurReader.clasificar _ _) as [[[]|] ?].
Qed.

(** ** The decoded text of a string is no longer than its token *)

Lemma hex4_largo n acc s fin u r : hex4 n acc s fin = inr (u, r) -> String.length s = (n + String.length r)%nat.
Proof.
  revert acc s. induction n as [|n IH]; intros acc s; cbn [hex4]; [by intros [= _ ->]|].
  destruct s as [|c s]; [done|]. destruct (isxdigit c); [|done]. intros H%IH. cbn. lia.
Qed.

Lemma escape_largo s fin u r :
  decodeUnicodeEscapeSequence s fin = inr (u, r) -> String.length s = (4 + String.length r)%nat.
Proof. unfold decodeUnicodeEscapeSequence. destruct (_ <? _)%nat; [done|]. apply hex4_largo. Qed.

Lemma codePoint_largo s fin u r :
  decodeUnicodeCodePoint s fin = inr (u, r) -> (4 + String.length r <= String.length s)%nat.
Proof.
  unfold decodeUnicodeCodePoint. destruct (decodeUnicodeEscapeSequence s fin) as [|[v s1]] eqn:E; [done|].
  apply escape_largo in E. destruct (_ && _); [|intros [= _ ->]; lia].
  destruct (_ <? _)%nat; [done|]. destruct s1 as [|c1 s1]; [done|]. destruct (negb _); [done|].
  destruct s1 as [|c2 s1]; [done|]. destruct (negb _); [done|].
  destruct (decodeUnicodeEscapeSequence s1 fin) as [|[w s2]] eqn:E2; [done|]. apply escape_largo in E2.
  intros [= _ ->]. cbn [String.length] in *. lia.
Qed.

Lemma utf8_largo cp : (String.length (codePointToUTF8 cp) <= 4)%nat.
Proof. unfold codePointToUTF8. repeat case_match; cbn; lia. Qed.

Lemma decode_largo fuel s fin d : decode_loop fuel s fin = inr d -> (String.length d <= String.length s)%nat.
Proof.
  revert s d. induction fuel as [|fuel IH]; intros s d; cbn [decode_loop]; [done|].
  destruct s as [|c s]; [by intros [= <-]|]. destruct (Ascii.eqb c COMILLA); [intros [= <-]; cbn; lia|].
  assert (forall x t, decode_loop fuel t fin = inr x -> (String.length t <= String.length s)%nat ->
    (S (String.length x) <= S (String.length s))%nat) as K by (intros x t Hx%IH ?; lia).
  destruct (Ascii.eqb c BARRA).
  - destruct s as [|e s]; [done|]. cbn [String.length] in K. destruct (escape_simple e).
    + destruct (decode_loop fuel s fin) as [|t] eqn:E; [done|]. intros [= <-]. cbn [String.length].
      specialize (K t s E). lia.
    + destruct (Ascii.eqb e "u"); [|done].
      destruct (decodeUnicodeCodePoint s fin) as [|[u r]] eqn:Eu; [done|]. apply codePoint_largo in Eu.
      destruct (decode_loop fuel r fin) as [|t] eqn:E; [done|]. apply IH in E. intros [= <-].
      rewrite length_app_s. pose proof (utf8_largo u). cbn [String.length]. lia.
  - destruct (decode_loop fuel s fin) as [|t] eqn:E; [done|]. intros [= <-]. cbn [String.length].
    by apply (K t s).
Qed.

(** ** Documents without tokens that start with a single quote *)

(** What [readToken] leaves of the text [l]. *)
Definition siguiente (l : Location) : Location := current_ (readToken (mkReader l [] Features_all 0)).2.

Fixpoint limpio (fuel : nat) (l : Location) : bool :=
  match fuel with
  | O => false
  | S fuel =>
      match snd (abarcar es_blanco l) with
      | "" => true
      | String c _ => negb (Ascii.eqb c COMILLA_SIMPLE) && limpio fuel (siguiente l)
      end
  end.
Definition sin_comilla_simple (document : string) : bool := limpio (S (String.length document)) document.

(** The classification of a character depends on the text only. *)
Lemma clasificar_local c l e f d e' f' d' :
  match clasificar c (mkReader l e f d) with
  | (Ok x, r) => exists l', r = mkReader l' e f d /\ clasificar c (mkReader l e' f' d') = (Ok x, mkReader l' e' f' d')
  | (Fallo _, _) => False
  end.
Proof.
  unfold clasificar. repeat (match goal with |- context [if Ascii.eqb c ?k then _ else _] =>
    destruct (Ascii.eqb c k) end);
  try destruct (_ || _);
  unfold readString, readComment, readNumber, match_, readCStyleComment, readCppStyleComment, getNextChar, set_current,
    cambiar, leer, bindM, ret; cbn [current_ errors_ features_ stackDepth_g];
  repeat (case_match; simplify_eq; cbn [current_ errors_ features_ stackDepth_g] in *); try (by eexists).
Qed.

Lemma readToken_siguiente r : exists t,
  readToken r = (Ok t, mkReader (siguiente (current_ r)) (errors_ r) (features_ r) (stackDepth_g r)) /\
  start_ t = tras_blancos r /\ end_ t = siguiente (current_ r).
Proof.
  unfold siguiente. rewrite !readToken_eq. unfold tras_inicial. cbn [errors_ features_ stackDepth_g].
  change (tras_blancos (mkReader (current_ r) [] Features_all 0)) with (tras_blancos r).
  pose proof (clasificar_local (deref (tras_blancos r)) (saltear 1 (tras_blancos r)) (errors_ r) (features_ r)
    (stackDepth_g r) [] Features_all 0) as H.
  destruct (clasificar _ (mkReader _ (errors_ r) _ _)) as [[[t ok]|] r1]; [|done]. destruct H as (l & -> & ->).
  eexists. cbn. by split_and!.
Qed.

Lemma abarcar_idem p s : abarcar p (snd (abarcar p s)) = ("", snd (abarcar p s)).
Proof.
  induction s as [|c s IH]; [done|]. cbn [abarcar]. destruct (p c) eqn:E.
  - by destruct (abarcar p s).
  - cbn [snd abarcar]. by rewrite E.
Qed.

(** Blanks before a token do not matter. *)
Lemma siguiente_blancos l : siguiente (snd (abarcar es_blanco l)) = siguiente l.
Proof.
  unfold siguiente. rewrite !readToken_eq. unfold tras_inicial, tras_blancos. cbn [current_ errors_ features_ stackDepth_g].
  by rewrite abarcar_idem.
Qed.

Lemma limpio_blancos n l : limpio n (snd (abarcar es_blanco l)) = limpio n l.
Proof. destruct n; [done|]. cbn [limpio]. by rewrite abarcar_idem, siguiente_blancos. Qed.

(** ** The simulation *)

Section Simulacion.
Variable f : OurFeatures.
Hypothesis Hnum : allowNumericKeys_ (comunes f) = false.
Hypothesis Hdup : OurReader.rejectDupKeys_ f = false.
Hypothesis Hlim : OurReader.stackLimit_ f = Z.of_nat stackLimit_g.

(** A short text without single quotes at the start of its tokens. *)
Definition apto (l : Location) : Prop := largo l < 2 ^ 30 /\ exists n, limpio n l = true.
Definition Inv (r : Reader) : Prop := features_ r = comunes f /\ apto (current_ r).

(** The comments collected so far start with a slash. *)
Definition buenos (k : Comentarios) : Prop := commentsBefore_ k = "" \/ deref (commentsBefore_ k) = "/"%char.

(** [m'] does what [m] does, and the value has [Q]. *)
Definition Sim {A} (m : M Reader A) (m' : M Our A) (Q : A -> Prop) : Prop :=
  forall r k, Inv r -> buenos k ->
  match m r with
  | (Ok a, r') => exists k', m' (mkOur r f k) = (Ok a, mkOur r' f k') /\ Inv r' /\ buenos k' /\ Q a
  | (Fallo e, _) => exists o, m' (mkOur r f k) = (Fallo e, o)
  end.

Definition todo {A} : A -> Prop := fun _ => True.

Lemma sim_bind {A B} m m' (Q1 : A -> Prop) (k : A -> M Reader B) k' (Q : B -> Prop) :
  Sim m m' Q1 -> (forall a, Q1 a -> Sim (k a) (k' a) Q) -> Sim (bindM m k) (bindM m' k') Q.
Proof.
  intros Hm Hk r c Hr Hc. specialize (Hm r c Hr Hc). unfold bindM. destruct (m r) as [[a|e] r1].
  - destruct Hm as (c1 & -> & Hr1 & Hc1 & HQ). by apply Hk.
  - destruct Hm as [o ->]. by exists o.
Qed.

Lemma sim_mono {A} (m : M Reader A) m' (Q Q' : A -> Prop) :
  Sim m m' Q -> (forall a, Q a -> Q' a) -> Sim m m' Q'.
Proof.
  intros Hm HQ r c Hr Hc. specialize (Hm r c Hr Hc). destruct (m r) as [[a|e] r1]; [|done].
  destruct Hm as (c1 & ? & ? & ? & ?). exists c1. split_and!; auto.
Qed.

Lemma sim_ret {A} (a : A) (Q : A -> Prop) : Q a -> Sim (ret a) (ret a) Q.
Proof. intros HQ r c Hr Hc. exists c. by split_and!. Qed.

Lemma sim_falla {A} e (Q : A -> Prop) : Sim (falla e) (falla e) Q.
Proof. intros r c Hr Hc. by eexists. Qed.

Lemma sim_alzar {A} (x : res A) : Sim (alzar x) (alzar x) todo.
Proof. intros r c Hr Hc. unfold alzar. destruct x; by eexists. Qed.

(** A method of [Reader] that stays in the text. *)
Lemma sim_sobre {A} (m : M Reader A) :
  (forall r, Inv r -> Inv (m r).2) -> Sim m (OurReader.sobre m) todo.
Proof.
  intros Hm r c Hr Hc. specialize (Hm r Hr). unfold OurReader.sobre. cbn [lector our_features comentarios].
  destruct (m r) as [[a|e] r1]; by eexists.
Qed.

Lemma sim_sobre_quieto {A} (m : M Reader A) :
  (forall r, current_ (m r).2 = current_ r /\ features_ (m r).2 = features_ r) -> Sim m (OurReader.sobre m) todo.
Proof. intros Hm. apply sim_sobre. intros r Hr. unfold Inv. by destruct (Hm r) as [-> ->]. Qed.

Lemma sim_leer {A B} (g : Reader -> A) (g' : Our -> A) (k : A -> M Reader B) k' Q :
  (forall r c, g' (mkOur r f c) = g r) -> (forall a, Sim (k a) (k' a) Q) ->
  Sim (let* x := leer g in k x) (let* x := leer g' in k' x) Q.
Proof. intros Hg Hk r c Hr Hc. unfold leer, bindM. rewrite Hg. by apply Hk. Qed.

Lemma sim_features {B} (k : Features -> M Reader B) (k' : OurFeatures -> M Our B) Q :
  Sim (k (comunes f)) (k' f) Q -> Sim (let* x := leer features_ in k x) (let* x := leer our_features in k' x) Q.
Proof. intros Hk r c Hr Hc. unfold leer, bindM. rewrite (proj1 Hr). cbn [our_features]. by apply Hk. Qed.

(** *** Comments *)

Lemma deref_app a b : deref (a +:+ b) = if String.eqb a "" then deref b else deref a.
Proof. by destruct a. Qed.

Lemma normal_barra l fin : OurReader.normalizeEOL (String "/" l) fin = "" \/ deref (OurReader.normalizeEOL (String "/" l) fin) = "/"%char.
Proof.
  unfold OurReader.normalizeEOL, entre. destruct (String.length (String "/" l) - String.length fin)%nat; [by left|right]. done.
Qed.

Lemma setComment_ok t : t = "" \/ deref t = "/"%char -> OurReader.setComment t = Ok tt.
Proof. unfold OurReader.setComment. by intros [->| ->]. Qed.

(** Attaching such comments never fails. *)
Lemma adjuntar_ok r k : buenos k -> exists k', OurReader.adjuntar (mkOur r f k) = (Ok tt, mkOur r f k') /\ buenos k'.
Proof.
  intros Hk. unfold OurReader.adjuntar, OurReader.set_comentarios, bindM, leer, cambiar, alzar, ret. cbn [comentarios].
  destruct (_ && _); [|by eexists]. rewrite setComment_ok by done. cbn [lector our_features comentarios].
  eexists. split; [done|by left].
Qed.
Lemma sim_adjuntar {B} (m : M Reader B) m' Q : Sim m m' Q -> Sim m (OurReader.adjuntar;;; m') Q.
Proof.
  intros Hm r k Hr Hk. destruct (adjuntar_ok r k Hk) as (k' & E & Hk'). specialize (Hm r k' Hr Hk').
  erewrite bind_ok by exact E. exact Hm.
Qed.

Lemma recordar_ok r k : buenos k -> exists k', OurReader.recordar (mkOur r f k) = (Ok tt, mkOur r f k') /\ buenos k'.
Proof.
  intros Hk. unfold OurReader.recordar, OurReader.set_comentarios, OurReader.current, bindM, leer, cambiar. cbn [comentarios lector our_features].
  eexists. split; [done|]. by destruct (collectComments_ k).
Qed.
Lemma sim_recordar {B} (m : M Reader B) m' Q : Sim m m' Q -> Sim m (OurReader.recordar;;; m') Q.
Proof.
  intros Hm r k Hr Hk. destruct (recordar_ok r k Hk) as (k' & E & Hk'). specialize (Hm r k' Hr Hk').
  erewrite bind_ok by exact E. exact Hm.
Qed.

(** A comment that starts with a slash is read as [Reader] reads it. *)
Lemma readComment_ok r k : buenos k ->
  match readComment r with
  | (Ok b, r') => exists k', OurReader.readComment "/" (mkOur r f k) = (Ok b, mkOur r' f k') /\ buenos k'
  | (Fallo e, _) => exists o, OurReader.readComment "/" (mkOur r f k) = (Fallo e, o)
  end.
Proof.
  intros Hk. unfold OurReader.readComment, OurReader.current, OurReader.sobre, leer, bindM, ret. cbn [lector our_features comentarios].
  destruct (readComment r) as [[b|e] r1]; [|by eexists]. destruct b; cbn [negb]; [|by eexists]. cbn [comentarios lector].
  destruct (collectComments_ k); [|by eexists]. unfold OurReader.addComment, OurReader.set_comentarios, alzar, cambiar.
  set (t := OurReader.normalizeEOL _ _). assert (t = "" \/ deref t = "/"%char) as Ht by apply normal_barra.
  destruct (match lastValueEnd_ k with Some _ => _ | None => _ end).
  - rewrite setComment_ok by done. by eexists.
  - cbn [lector our_features comentarios]. eexists. split; [done|]. unfold buenos. cbn [commentsBefore_].
    rewrite deref_app. destruct Hk as [->|Hk]; [exact Ht|]. right. destruct (String.eqb_spec (commentsBefore_ k) "") as [E|]; [|done].
    by rewrite E in Hk.
Qed.

(** ** Tokens *)

Definition buen_token (t : Token) : Prop :=
  apto (start_ t) /\ (type_ t = tokenString -> deref (start_ t) = COMILLA).

Lemma clasificar_cadena c r t ok r' : clasificar c r = (Ok (t, ok), r') ->
  (if ok then t else tokenError) = tokenString -> c = COMILLA.
Proof.
  unfold clasificar. repeat (match goal with |- context [if Ascii.eqb c ?k then _ else _] =>
    destruct (Ascii.eqb_spec c k) as [->|_] end); try done;
  try (destruct (_ || _)); unfold bindM, ret; repeat case_match; intros; simplify_eq; done.
Qed.

Lemma siguiente_largo l : (String.length (siguiente l) <= String.length l)%nat.
Proof.
  destruct (readToken_siguiente (mkReader l [] Features_all 0)) as (t & E & _).
  pose proof (wp_dado 0 _ _ _ _ _ (wp_readToken 0 _) E) as ((H & _) & _). exact H.
Qed.

Lemma apto_siguiente l : apto l -> apto (siguiente l) /\ deref (snd (abarcar es_blanco l)) <> COMILLA_SIMPLE.
Proof.
  intros [Hl [[|n] Hn]]; [done|]. cbn [limpio] in Hn. unfold apto, largo in *.
  pose proof (siguiente_largo l) as Hs. split.
  - split; [lia|]. destruct (snd (abarcar es_blanco l)) as [|c t] eqn:E; [|partir; by exists n].
    exists 1%nat. rewrite <- siguiente_blancos, E. reflexivity.
  - destruct (snd (abarcar es_blanco l)) as [|c t] eqn:E; [done|]. partir. cbn [deref].
    by apply Ascii.eqb_neq.
Qed.

Lemma apto_blancos l : apto l -> apto (snd (abarcar es_blanco l)).
Proof.
  intros [Hl [n Hn]]. unfold apto, largo in *. pose proof (abarcar_largo es_blanco l). split; [lia|].
  exists n. by rewrite limpio_blancos.
Qed.

Lemma sim_readToken : Sim readToken OurReader.readToken buen_token.
Proof.
  intros r k [Hf Hr] Hk. destruct (readToken_siguiente r) as (t & E & Hs & He). destruct (apto_siguiente _ Hr) as [Hr' Hq].
  rewrite our_readToken_eq. pose proof E as E'. rewrite readToken_eq in E'. rewrite E.
  change (snd (abarcar es_blanco (current_ r))) with (tras_blancos r) in Hq. unfold OurReader.clasificar.
  rewrite (proj2 (Ascii.eqb_neq _ _) Hq).
  destruct (clasificar _ _) as [[[ty ok]|] r1] eqn:Ec; [|done]. cbn [armar] in E'. injection E' as <- ->.
  assert (forall x k', x = (Ok (ty, ok), mkOur (mkReader (siguiente (current_ r)) (errors_ r) (features_ r) (stackDepth_g r)) f k') -> buenos k' ->
    exists k', armar (fun o => current_ (lector o)) (tras_blancos r) x =
      (Ok (mkToken (if ok then ty else tokenError) (tras_blancos r) (siguiente (current_ r))),
       mkOur (mkReader (siguiente (current_ r)) (errors_ r) (features_ r) (stackDepth_g r)) f k') /\
      Inv (mkReader (siguiente (current_ r)) (errors_ r) (features_ r) (stackDepth_g r)) /\ buenos k' /\
      buen_token (mkToken (if ok then ty else tokenError) (tras_blancos r) (siguiente (current_ r)))) as K.
  { intros x k' -> Hk'. exists k'. split_and!; [done|done|done|]. split; cbn [start_ type_]; [by apply apto_blancos|].
    intros Ht. by eapply clasificar_cadena. }
  destruct (Ascii.eqb_spec (deref (tras_blancos r)) "/") as [Eb|Nb].
  - rewrite Eb in Ec. pose proof (readComment_ok (tras_inicial r) k Hk) as Hc.
    change (clasificar "/" (tras_inicial r)) with ((let* ok := readComment in ret (tokenComment, ok)) (tras_inicial r)) in Ec.
    unfold bindM in Ec. destruct (readComment (tras_inicial r)) as [[b|e] r2]; [|done]. destruct Hc as (k' & Hc & Hk').
    injection Ec as <- <- ->. eapply K; [|exact Hk']. unfold bindM. rewrite Eb, Hc. done.
  - eapply K; [|exact Hk]. unfold OurReader.sobre. cbn [lector our_features comentarios]. by rewrite Ec.
Qed.

Lemma sim_combustible : Sim combustible OurReader.combustible todo.
Proof. by apply sim_sobre_quieto. Qed.

Lemma sim_saltear fuel t : buen_token t ->
  Sim (saltear_comentarios fuel t) (OurReader.saltear_comentarios fuel t) buen_token.
Proof.
  revert t. induction fuel as [|fuel IH]; intros t Ht; cbn [saltear_comentarios OurReader.saltear_comentarios].
  - apply sim_falla.
  - destruct (decide _); [|by apply sim_ret]. by eapply sim_bind; [apply sim_readToken|].
Qed.

(** [do readToken(t) while (t is a comment)] *)
Lemma sim_siguiente {B} (k : Token -> M Reader B) k' Q :
  (forall t, buen_token t -> Sim (k t) (k' t) Q) ->
  Sim (let* n := combustible in let* t := readToken in let* u := saltear_comentarios n t in k u)
    (let* n := OurReader.combustible in let* t := OurReader.readToken in
     let* u := OurReader.saltear_comentarios n t in k' u) Q.
Proof.
  intros Hk. eapply sim_bind; [apply sim_combustible|]. intros n _.
  eapply sim_bind; [apply sim_readToken|]. intros t Ht.
  eapply sim_bind; [by apply sim_saltear|]. intros u Hu. by apply Hk.
Qed.

Lemma sim_skipCommentTokens : Sim skipCommentTokens OurReader.skipCommentTokens buen_token.
Proof.
  apply sim_features. eapply sim_bind; [apply sim_combustible|]. intros n _.
  eapply sim_bind; [apply sim_readToken|]. intros t Ht.
  destruct (allowComments_ _); [by apply sim_saltear|by apply sim_ret].
Qed.

(** ** Errors *)

Lemma sim_addError msg t x : Sim (addError msg t x) (OurReader.addError msg t x) todo.
Proof. by apply sim_sobre_quieto. Qed.

Lemma sim_recover_loop fuel u : Sim (recover_loop fuel u) (OurReader.recover_loop fuel u) todo.
Proof.
  induction fuel as [|fuel IH]; cbn [recover_loop OurReader.recover_loop]; [apply sim_falla|].
  eapply sim_bind; [apply sim_readToken|]. intros t _. destruct (decide _); [by apply sim_ret|apply IH].
Qed.

Lemma sim_recoverFromError u : Sim (recoverFromError u) (OurReader.recoverFromError u) todo.
Proof.
  apply sim_leer; [done|]. intros n. eapply sim_bind; [apply sim_combustible|]. intros m _.
  eapply sim_bind; [apply sim_recover_loop|]. intros [] _.
  eapply sim_bind; [by apply sim_sobre_quieto|]. intros [] _. by apply sim_ret.
Qed.

Lemma sim_recover u (obj : Value) : Sim (let* b := recoverFromError u in ret (b, obj))
  (let* b := OurReader.recoverFromError u in ret (b, obj)) todo.
Proof. eapply sim_bind; [apply sim_recoverFromError|]. intros b _. by apply sim_ret. Qed.

Lemma sim_error msg t u (obj : Value) : Sim (let* b := addErrorAndRecover msg t u in ret (b, obj))
  (let* b := OurReader.addErrorAndRecover msg t u in ret (b, obj)) todo.
Proof.
  eapply (sim_bind _ _ todo); [|intros b _; by apply sim_ret].
  eapply sim_bind; [apply sim_addError|]. intros b _. apply sim_recoverFromError.
Qed.

(** ** Scalars *)

Definition nombre_corto (d : option string) : Prop := match d with Some s => largo s < 2 ^ 30 | None => True end.

Lemma interior_largo t : (String.length (interior t) <= String.length (start_ t))%nat.
Proof.
  unfold interior, texto, entre. rewrite length_prefijo, length_saltear, length_prefijo. lia.
Qed.

Lemma sim_decodeString t : buen_token t -> type_ t = tokenString ->
  Sim (decodeString t) (OurReader.decodeString t) nombre_corto.
Proof.
  intros [[Hl _] Hq] Ht. unfold decodeString, OurReader.decodeString. rewrite (Hq Ht).
  destruct (decode_loop _ _ _) as [[msg x]|s] eqn:Ed.
  - eapply sim_bind; [apply sim_addError|]. intros _ _. by apply sim_ret.
  - apply sim_ret. apply decode_largo in Ed. pose proof (interior_largo t). cbn. unfold largo in *. lia.
Qed.

Lemma sim_decodeNumber t : Sim (decodeNumber t) (OurReader.decodeNumber t) todo.
Proof.
  apply sim_sobre_quieto. intros r. unfold decodeNumber, decodeDouble. repeat case_match; done.
Qed.

Lemma sim_set_depth g : Sim (set_depth g) (OurReader.set_depth g) todo.
Proof. by apply sim_sobre_quieto. Qed.

(** ** Containers *)

Section Contenedores.
Variables (rv : Value -> M Reader (bool * Value)) (rv' : Value -> M Our (bool * Value)).
Hypothesis Hrv : forall cur, Sim (rv cur) (rv' cur) todo.

Lemma sim_readArray_loop fuel index arr :
  Sim (readArray_loop rv fuel index arr) (OurReader.readArray_loop rv' fuel index arr) todo.
Proof.
  revert index arr. induction fuel as [|fuel IH]; intros index arr;
    cbn [readArray_loop OurReader.readArray_loop]; [apply sim_falla|].
  eapply sim_bind; [apply sim_alzar|]. intros cur _. eapply sim_bind; [apply Hrv|]. intros [ok v] _.
  eapply sim_bind; [apply sim_alzar|]. intros arr' _. destruct ok; cbn [negb]; [|apply sim_recover].
  apply sim_siguiente. intros t _. destruct (decide _); [apply sim_error|].
  destruct (decide _); [by apply sim_ret|apply IH].
Qed.

Lemma sim_skipSpaces : Sim skipSpaces OurReader.skipSpaces todo.
Proof. apply sim_sobre. intros r [Hf Hr]. split; [done|]. by apply apto_blancos. Qed.

Lemma sim_readArray : Sim (readArray rv) (OurReader.readArray rv') todo.
Proof.
  eapply sim_bind; [apply sim_skipSpaces|]. intros [] _. apply sim_leer; [done|]. intros l.
  destruct (Ascii.eqb _ _).
  - eapply sim_bind; [apply sim_readToken|]. intros t _. by apply sim_ret.
  - eapply sim_bind; [apply sim_combustible|]. intros n _. apply sim_readArray_loop.
Qed.

(** After the colon of a member: [readObject] of [OurReader] tests the name first. *)
Lemma sim_antes_del_valor {B} name obj (err : M Our B) k k' Q : largo name < 2 ^ 30 ->
  Sim k k' Q ->
  Sim k (if 2 ^ 30 <=? largo name then falla (RuntimeError "keylength >= 2^30")
         else let* repetida := if OurReader.rejectDupKeys_ f then alzar (isMember obj name) else ret false in
              if repetida : bool then err else k') Q.
Proof.
  intros Hn Hk. replace (2 ^ 30 <=? largo name) with false by (symmetry; by apply Z.leb_gt). rewrite Hdup.
  exact Hk.
Qed.

Lemma sim_readObject_loop fuel name obj :
  Sim (readObject_loop rv fuel name obj) (OurReader.readObject_loop rv' fuel name obj) todo.
Proof.
  revert name obj. induction fuel as [|fuel IH]; intros name obj;
    cbn [readObject_loop OurReader.readObject_loop]; [apply sim_falla|].
  apply sim_siguiente. intros t Ht. destruct (decide _); [by apply sim_ret|].
  apply sim_features. cbv zeta. rewrite Hnum.
  destruct (decide (type_ t = tokenString)) as [Es|_]; [|destruct (decide _); apply sim_error].
  eapply sim_bind; [by apply sim_decodeString|]. intros [s|] Hs; [|apply sim_recover].
  eapply sim_bind; [apply sim_readToken|]. intros colon _. destruct (decide _); [apply sim_error|].
  apply sim_antes_del_valor; [exact Hs|].
  eapply sim_bind; [apply sim_alzar|]. intros cur _. eapply sim_bind; [apply Hrv|]. intros [ok v] _.
  eapply sim_bind; [apply sim_alzar|]. intros obj' _. destruct ok; cbn [negb]; [|apply sim_recover].
  eapply sim_bind; [apply sim_readToken|]. intros comma Hc. destruct (decide _); [apply sim_error|].
  eapply sim_bind; [apply sim_combustible|]. intros fuel1 _.
  eapply sim_bind; [by apply sim_saltear|]. intros comma' _.
  destruct (decide _); [by apply sim_ret|apply IH].
Qed.

Lemma sim_readObject : Sim (readObject rv) (OurReader.readObject rv') todo.
Proof. eapply sim_bind; [apply sim_combustible|]. intros n _. apply sim_readObject_loop. Qed.
End Contenedores.

Lemma sim_fin (x : bool * Value) : Sim (set_depth Nat.pred;;; ret x) (OurReader.recordar;;; OurReader.set_depth Nat.pred;;; ret x) todo.
Proof. apply sim_recordar. eapply sim_bind; [apply sim_set_depth|]. intros [] _. by apply sim_ret. Qed.

Lemma sim_readValue fuel cur : Sim (readValue fuel cur) (OurReader.readValue fuel cur) todo.
Proof.
  revert cur. induction fuel as [|fuel IH]; intros cur; cbn [readValue OurReader.readValue]; [apply sim_falla|].
  intros r k Hr Hk. erewrite (bind_ok (leer our_features)) by reflexivity. cbv beta. cbn [our_features].
  revert r k Hr Hk. apply sim_leer; [done|]. intros depth.
  replace (OurReader.stackLimit_ f <=? Z.of_nat depth) with (stackLimit_g <=? depth)%nat.
  2: { rewrite Hlim. destruct (Nat.leb_spec stackLimit_g depth), (Z.leb_spec (Z.of_nat stackLimit_g) (Z.of_nat depth)); lia. }
  destruct (_ <=? _)%nat; [apply sim_falla|]. eapply sim_bind; [apply sim_set_depth|]. intros [] _.
  eapply sim_bind; [apply sim_skipCommentTokens|]. intros t Ht.
  apply sim_adjuntar.
  intros r k Hr Hk. erewrite (bind_ok (leer features_)) by reflexivity. cbv beta zeta. rewrite (proj1 Hr). revert r k Hr Hk.
  assert (Sim (let* b := addError "Syntax error: value, object or array expected." t None in ret (b, cur))
    (let* b := OurReader.addError "Syntax error: value, object or array expected." t None in ret (b, cur)) todo) as Herr.
  { eapply sim_bind; [apply sim_addError|]. intros b _. by apply sim_ret. }
  assert (Sim (set_current (start_ t);;; set_depth Nat.pred;;; ret (true, nullValue))
    (OurReader.sobre (set_current (start_ t));;; OurReader.recordar;;; OurReader.set_depth Nat.pred;;; ret (true, nullValue)) todo) as Hdrop.
  { eapply sim_bind; [|intros [] _; apply sim_fin]. apply sim_sobre. intros r [Hf _]. split; [done|]. apply Ht. }
  destruct (type_ t) eqn:Et; try apply Herr; try apply sim_fin;
    try (destruct (allowDroppedNullPlaceholders_ _); [apply Hdrop|apply Herr]).
  - eapply sim_bind; [apply sim_readObject, IH|]. intros x _. apply sim_fin.
  - eapply sim_bind; [apply sim_readArray, IH|]. intros x _. apply sim_fin.
  - eapply sim_bind; [by apply sim_decodeString|]. intros x _. apply sim_fin.
  - eapply sim_bind; [apply sim_decodeNumber|]. intros x _. apply sim_fin.
Qed.

End Simulacion.

(** [OurReader] parses like [Reader]. *)
Lemma our_parse_eq f collect document root :
  allowNumericKeys_ (comunes f) = false -> OurReader.rejectDupKeys_ f = false ->
  OurReader.stackLimit_ f = Z.of_nat stackLimit_g -> OurReader.failIfExtra_ f = false ->
  largo document < 2 ^ 30 -> sin_comilla_simple document = true ->
  OurReader.parse f collect document root = parse_features (comunes f) document root.
Proof.
  intros Hn Hd Hl Hx Hs Hq. unfold OurReader.parse, parse_features. rewrite Hl, Nat2Z.id, Hx. cbn [andb].
  set (m := bindM (readValue _ _) _). set (m' := bindM (OurReader.readValue _ _) _).
  assert (Sim f m m' todo) as H.
  { eapply sim_bind; [by apply sim_readValue|]. intros [ok v] _.
    eapply sim_bind; [by apply sim_skipCommentTokens|]. intros t _. apply sim_adjuntar. destruct (_ && _); [|by apply sim_ret].
    intros r k Hr Hk. by apply (sim_ret f). }
  specialize (H (mkReader document [] (comunes f) 0) (mkComentarios (allowComments_ (comunes f) && collect) "" None)).
  assert (Inv f (mkReader document [] (comunes f) 0)) as Hi by (split; [done|]; split; [done|]; by eexists).
  specialize (H Hi (or_introl eq_refl)). destruct (m _) as [[[b v]|e] r].
  - destruct H as (k & -> & _). done.
  - by destruct H as [o ->].
Qed.

(** ** Texts of values *)

Definition lim (l : Location) : Prop := exists n, limpio n l = true.

Lemma siguiente_menor l c t : snd (abarcar es_blanco l) = String c t -> (String.length (siguiente l) < String.length l)%nat.
Proof.
  intros E. pose proof (abarcar_largo es_blanco l) as Hl. rewrite E in Hl. cbn in Hl.
  unfold siguiente. rewrite readToken_eq. set (r := tras_inicial _).
  assert (String.length (current_ r) = String.length t) as Hr.
  { unfold r, tras_inicial, tras_blancos. cbn [current_]. by rewrite E. }
  pose proof (wp_clasificar 0 (deref (tras_blancos (mkReader l [] Features_all 0))) r) as Hw. unfold wp in Hw.
  pose proof (clasificar_local (deref (tras_blancos (mkReader l [] Features_all 0))) (current_ r) (errors_ r)
    (features_ r) (stackDepth_g r) [] Features_all 0) as Hc.
  destruct r as [lr er fr dr]. cbn [current_ errors_ features_ stackDepth_g] in *.
  destruct (clasificar _ _) as [[[ty ok]|] r1]; [|done]. destruct Hw as [[Hw _] _]. unfold resto in Hw. cbn in Hw |- *. lia.
Qed.

Lemma limpio_alcanza n m l : limpio n l = true -> (String.length l < m)%nat -> limpio m l = true.
Proof.
  revert m l. induction n as [|n IH]; intros [|m] l; try done; [lia|]. cbn [limpio]. intros H Hm.
  destruct (snd (abarcar es_blanco l)) as [|c t] eqn:E; [done|]. partir. rewrite H. cbn [andb].
  apply IH; [done|]. pose proof (siguiente_menor l c t E). lia.
Qed.

Lemma lim_documento l : lim l -> sin_comilla_simple l = true.
Proof. intros [n Hn]. eapply limpio_alcanza; [exact Hn|lia]. Qed.

Lemma lim_bl b l : Bl b -> lim l -> lim (b +:+ l).
Proof.
  intros Hb [n Hn]. exists n. by rewrite <- limpio_blancos, JsonReaderOk.abarcar_bl, limpio_blancos.
Qed.

Lemma lim_nil : lim "".
Proof. by exists 1%nat. Qed.

(** A token before a text. *)
Lemma lim_token c r rest t : es_blanco c = false -> c <> COMILLA_SIMPLE ->
  readToken (mkReader (String c r) [] Features_all 0) = (Ok t, mkReader rest [] Features_all 0) ->
  lim rest -> lim (String c r).
Proof.
  intros Hb Hc E [n Hn]. exists (S n). cbn [limpio abarcar]. rewrite Hb. cbn [snd].
  rewrite (proj2 (Ascii.eqb_neq _ _) Hc). unfold siguiente. by rewrite E.
Qed.

(** One of the characters that are a token. *)
Definition simbolo (c : ascii) : bool :=
  Ascii.eqb c "{" || Ascii.eqb c "}" || Ascii.eqb c "[" || Ascii.eqb c "]" || Ascii.eqb c "," || Ascii.eqb c ":".

Lemma lim_simbolo c rest : simbolo c = true -> lim rest -> lim (String c rest).
Proof.
  unfold simbolo. intros Hc Hr. destruct (orb_prop _ _ Hc) as [Hc'|?%Ascii.eqb_eq]; [|subst c; by eapply lim_token].
  repeat match goal with H : _ || _ = true |- _ => apply orb_prop in H as [H|H] end;
  match goal with H : Ascii.eqb c _ = true |- _ => apply Ascii.eqb_eq in H as -> end; by eapply lim_token.
Qed.

Lemma lim_entero neg n rest : 0 <= n <= maxUInt64 -> JsonReaderOk.fin_numero rest = true -> lim rest ->
  lim ((if neg : bool then String "-" (uintToString n) else uintToString n) +:+ rest).
Proof.
  intros Hn Hf Hr. pose proof (JsonReaderOk.readToken_entero [] Features_all 0 neg n "" rest Hn Bl_nil Hf) as E.
  cbv zeta in E. rewrite app_nil_l_s in E. destruct neg.
  - by eapply lim_token; [| |exact E|].
  - destruct (uintToString_spec n Hn) as (ds & Hds & Hne & Hall & _). rewrite Hds in E |- *.
    destruct ds as [|c ds]; [done|]. cbn [todos] in Hall. partir. rewrite app_cons_s in E |- *.
    eapply lim_token; [by apply JsonReaderOk.digit_no_blank|by intros ->|exact E|done].
Qed.

Lemma lim_cadena s rest : lim rest -> lim (JsonWriter.comillas (JsonWriter.escapar_todo s) +:+ rest).
Proof.
  intros Hr. pose proof (JsonReaderOk.readToken_string [] Features_all 0 s rest) as E.
  by eapply lim_token; [| |exact E|].
Qed.

(** Texts before which any text of the kind can be put. *)
Definition Lim (P : lang) : Prop :=
  forall s rest, P s -> JsonReaderOk.fin_numero rest = true -> lim rest -> lim (s +:+ rest).

Lemma Lim_elems m : Forall (fun p => Lim (Texto p.2)) m -> Lim (elems Texto m).
Proof.
  induction 1 as [|[k v] m Hv Hm IH]; intros s rest Hs Hf Hr; [done|]. cbn [snd] in Hv. destruct m as [|q m].
  - destruct Hs as (b & ? & -> & Hb & (t & b2 & -> & Ht & Hb2)). rewrite !app_assoc_s.
    apply lim_bl; [done|]. apply Hv; [done|by apply JsonReaderOk.fin_bl|by apply lim_bl].
  - destruct Hs as (b & ? & -> & Hb & (t & ? & -> & Ht & (b2 & ? & -> & Hb2 & (? & e & -> & -> & He)))).
    rewrite !app_assoc_s. apply lim_bl; [done|]. apply Hv; [done|by apply JsonReaderOk.fin_bl|].
    apply lim_bl; [done|]. apply lim_simbolo; [done|]. by apply IH.
Qed.

Lemma Lim_miembros m : Forall (fun p => Lim (Texto p.2)) m -> Lim (miembros Texto m).
Proof.
  induction 1 as [|[k v] m Hv Hm IH]; intros s rest Hs Hf Hr; [done|]. cbn [snd] in Hv.
  assert (forall s rest, (cat Bl (cat (lit (JsonWriter.comillas (JsonWriter.escapar_todo (key_str k))))
    (cat Bl (cat (lit ":") (cat Bl (cat (Texto v) Bl)))))) s -> JsonReaderOk.fin_numero rest = true -> lim rest ->
    lim (s +:+ rest)) as Huno.
  { clear -Hv. intros s rest (b & ? & -> & Hb & (? & ? & -> & -> & (b1 & ? & -> & Hb1 & (? & ? & -> & -> &
      (b2 & ? & -> & Hb2 & (t & b3 & -> & Ht & Hb3)))))) Hf Hr.
    rewrite !app_assoc_s. apply lim_bl; [done|]. apply lim_cadena, lim_bl; [done|].
    apply lim_simbolo; [done|]. apply lim_bl; [done|].
    apply Hv; [done|by apply JsonReaderOk.fin_bl|by apply lim_bl]. }
  destruct m as [|q m]; [by apply Huno|].
  destruct Hs as (u & ? & -> & Hu & (? & e & -> & -> & He)). rewrite !app_assoc_s.
  apply Huno; [done|done|]. apply lim_simbolo; [done|]. by apply IH.
Qed.

Lemma Lim_Texto v : canonico v = true -> Lim (Texto v).
Proof.
  induction v as [|i|u|x|s|b|m IH|m IH] using JsonReaderOk.Value_ind'; intros Hc t rest Ht Hf Hr; cbn [Texto] in Ht.
  - unfold lit in Ht. subst t. by eapply lim_token.
  - unfold lit in Ht. subst t. unfold valueToString_int. destruct (i <? 0).
    + apply (lim_entero true); [apply JsonWriterOk.u64_rango|done|done].
    + apply (lim_entero false); [apply JsonWriterOk.u64_rango|done|done].
  - unfold lit in Ht. subst t. apply (lim_entero false); [apply JsonWriterOk.u64_rango|done|done].
  - done.
  - unfold lit in Ht. subst t. by apply lim_cadena.
  - unfold lit in Ht. subst t. by destruct b; eapply lim_token.
  - pose proof (canonico_hijos _ m (or_introl eq_refl) Hc) as Hh. rewrite Forall_forall in IH, Hh.
    assert (Forall (fun p => Lim (Texto p.2)) m) as Hm by (apply Forall_forall; auto).
    destruct m as [|p m]; [unfold lit in Ht; subst t; by apply lim_simbolo, lim_simbolo|].
    destruct Ht as (? & ? & -> & -> & (e & ? & -> & He & ->)). rewrite !app_assoc_s.
    apply lim_simbolo; [done|]. apply (Lim_elems _ Hm); [done|done|by apply lim_simbolo].
  - pose proof (canonico_hijos _ m (or_intror eq_refl) Hc) as Hh. rewrite Forall_forall in IH, Hh.
    assert (Forall (fun p => Lim (Texto p.2)) m) as Hm by (apply Forall_forall; auto).
    destruct m as [|p m]; [unfold lit in Ht; subst t; by apply lim_simbolo, lim_simbolo|].
    destruct Ht as (? & ? & -> & -> & (e & ? & -> & He & ->)). rewrite !app_assoc_s.
    apply lim_simbolo; [done|]. apply (Lim_miembros _ Hm); [done|done|by apply lim_simbolo].
Qed.

Lemma documento_limpio v b t b' : canonico v = true -> Bl b -> Texto v t -> Bl b' ->
  sin_comilla_simple (b +:+ t +:+ b') = true.
Proof.
  intros Hc Hb Ht Hb'. apply lim_documento, lim_bl; [done|].
  assert (lim b' /\ JsonReaderOk.fin_numero b' = true) as [H1 H2].
  { rewrite <- (app_nil_r_s b'). split; [by apply lim_bl, lim_nil|by apply JsonReaderOk.fin_bl]. }
  by apply (Lim_Texto v Hc).
Qed.

(** ** The default reader *)

Definition por_defecto : OurFeatures := OurReader.mkOurFeatures Features_all false false false 1000.

Lemma newCharReader_defaults : exists s, OurReader.setDefaults nullValue = Ok s /\
  OurReader.newCharReader s = Ok (por_defecto, true).
Proof. eexists. by split; [vm_compute|]. Qed.

(** [sin >> root] gives what [Reader] gives, or throws. *)
Lemma leer_de_parse document v : largo document < 2 ^ 30 -> sin_comilla_simple document = true ->
  parse document = Ok (true, v) -> OurReader.leer_de document nullValue = Ok v.
Proof.
  intros Hl Hq Hp. unfold OurReader.leer_de. destruct newCharReader_defaults as (s & -> & E). cbn [bindR].
  unfold OurReader.parseFromStream, OurReader.parse_errs. rewrite E. cbn [bindR fst snd].
  rewrite our_parse_eq by done. unfold parse in Hp.
  change (comunes por_defecto) with Features_all.
  destruct (parse_features Features_all document nullValue) as [[[b w] errs]|]; [|done].
  cbn in Hp |- *. by injection Hp as -> ->.
Qed.

(** C8. [OurReader], the reader of [CharReaderBuilder] and [operator>>], is [Reader]: on every
    document shorter than 2^30 in which no token starts with a single quote, with numeric keys,
    [rejectDupKeys_] and [failIfExtra_] off and the stack limit of [Reader], it gives the same
    outcome, the same value and the same errors, exceptions included, whether it collects
    comments or not; the settings of [CharReaderBuilder] are such.  A document with such a token
    can tell them apart: a single quote opens a comment for [OurReader], and with the default
    settings, which collect comments, attaching it to a value throws, where [Reader] has an
    error; without collecting, the text after the comment is read. *)
Theorem our_reader_equivale :
  (forall f collect document root,
     allowNumericKeys_ (comunes f) = false -> OurReader.rejectDupKeys_ f = false ->
     OurReader.stackLimit_ f = Z.of_nat stackLimit_g -> OurReader.failIfExtra_ f = false ->
     largo document < 2 ^ 30 -> sin_comilla_simple document = true ->
     OurReader.parse f collect document root = parse_features (comunes f) document root) /\
  (exists s, OurReader.setDefaults nullValue = Ok s /\ OurReader.newCharReader s = Ok (por_defecto, true) /\
     comunes por_defecto = Features_all) /\
  (exists document, parse document = Ok (false, nullValue) /\
     OurReader.leer_de document nullValue = Fallo (LogicError "in Json::Value::setComment(): Comments must start with /") /\
     OurReader.parse por_defecto false document nullValue = Ok (true, intValue 1, [])).
Proof.
  split_and!.
  - apply our_parse_eq.
  - destruct newCharReader_defaults as (s & H1 & H2). by exists s.
  - exists "'* x */1". split_and!; vm_compute; reflexivity.
Qed.

Definition con_apostrofo : string := "{" +:+ JsonWriter.comillas "it's" +:+ ": [1, x]}".

Lemma our_reader_equivale_witness :
  OurReader.parse por_defecto true con_apostrofo nullValue = parse_features Features_all con_apostrofo nullValue.
Proof.
  apply (proj1 our_reader_equivale por_defecto true con_apostrofo nullValue); [reflexivity..|vm_compute; reflexivity].
Defined.

(** ** Round trip *)

(** The document is parsed back to [v] without errors, by both readers. *)
Definition vuelve (v : Value) (r : res string) : Prop :=
  exists s, r = Ok s /\ parse s = Ok (true, v) /\
    (largo s < 2 ^ 30 -> OurReader.leer_de s nullValue = Ok v).

Lemma vuelve_texto v r : canonico v = true -> (JsonWriter.altura v < stackLimit_g)%nat ->
  (exists b t f, r = Ok (b +:+ t +:+ f) /\ Bl b /\ Texto v t /\ Bl f) -> vuelve v r.
Proof.
  intros Hc Ha (b & t & f & -> & Hb & Ht & Hf). eexists.
  assert (parse (b +:+ t +:+ f) = Ok (true, v)) as E by (by apply JsonReaderOk.parse_Texto).
  split_and!; [done..|]. intros Hl. apply leer_de_parse; [done|by eapply documento_limpio|done].
Qed.

(** C7. Round trip of a JSON document: what [StyledWriter], [operator<<] and every writer of
    [StreamWriterBuilder] with blank indentation, whose null symbol is [null] (that is, without
    [dropNullPlaceholders]), print of a value is parsed back by [Reader],
    and by [operator>>] if it is shorter than 2^30, without errors to the same value, for every
    value without reals, holes in arrays or NULs in keys, nested less than [stackLimit_g] deep;
    and so is what [FastWriter] and [StyledStreamWriter] print when moreover no string of the
    value has a NUL. *)
Theorem json_roundtrip v :
  canonico v = true -> (JsonWriter.altura v < stackLimit_g)%nat ->
  vuelve v (JsonWriter.toStyledString v) /\ vuelve v (escribir_en v) /\
  (forall ind cs colon fin, Bl ind -> (Bl ⊙ lit ":" ⊙ Bl) colon -> Bl fin ->
     vuelve v (write (BuiltStyledStreamWriter ind cs colon "null" fin) v)) /\
  (sin_char NUL v = true ->
     vuelve v (JsonWriter.fast_write v) /\ forall ind, Bl ind -> vuelve v (JsonStream.Styled.write ind v)).
Proof.
  intros Hc Ha.
  assert (forall ind cs colon fin, Bl ind -> (Bl ⊙ lit ":" ⊙ Bl) colon -> Bl fin ->
     vuelve v (write (BuiltStyledStreamWriter ind cs colon "null" fin) v)) as Hbuilt.
  { intros. apply vuelve_texto; [done..|].
    by eapply JsonStreamOk.write_texto; [by apply JsonStreamOk.built_ok|done|apply JsonEmite.cadenas_todas]. }
  split_and!; [| |done|intros Hn; split].
  - apply vuelve_texto; [done..|]. destruct (JsonWriterOk.toStyledString_texto v Hc) as (b & t & -> & ? & ?).
    by exists b, t, LF.
  - unfold escribir_en. destruct JsonStreamOk.newStreamWriter_defaults as (s & -> & E). cbn [bindR].
    unfold writeString. rewrite E. apply Hbuilt; [done|by apply (dos_puntos " " " ")|done].
  - apply vuelve_texto; [done..|]. destruct (JsonWriterOk.fast_write_texto v Hc Hn) as (b & t & -> & ? & ?).
    by exists b, t, LF.
  - intros ind Hi. apply vuelve_texto; [done..|]. by eapply JsonStreamOk.write_texto; [by apply JsonStreamOk.styled_stream_ok|..].
Qed.

Definition ejemplo : Value :=
  objectValue [(CZStr "lista", arrayValue [(CZIndex 0, intValue (-7)); (CZIndex 1, stringValue (String "034" "x\n"))]);
               (CZStr "ok", booleanValue true)].

Lemma json_roundtrip_witness :
  vuelve ejemplo (JsonWriter.toStyledString ejemplo) /\ vuelve ejemplo (escribir_en ejemplo) /\
  vuelve ejemplo (JsonWriter.fast_write ejemplo).
Proof.
  destruct (json_roundtrip ejemplo) as (H1 & H2 & _ & H3);
    [reflexivity|unfold stackLimit_g; cbn; lia|].
  split; [exact H1|]. split; [exact H2|]. exact (proj1 (H3 eq_refl)).
Defined.


End JsonOurOk.
