(* ===== verification/JsonOrden.v ===== *)
(** * JsonOrden: the order of [Json::Value] and the removal of elements, src/json/json.cpp

    [operator<], [compare] and the operators defined from them, and [removeIndex].  The order
    is shown to be the lexicographic order of an encoding of values by integers, so that it
    is a strict total order, with [operator==] as its equality, on the values whose order the
    source means: keys of arrays are indices and keys of objects are strings, no real is a
    NaN and no container has 2^31 elements. *)

From S2P Require Import Prelude Libc JsonValue JsonTexto JsonReaderOk.
Open Scope Z_scope.

Module JsonOrden.
Import Libc Json.

(** The value of the enumeration [ValueType]. *)
Definition rango (t : ValueType) : Z :=
  match t with
  | t_null => 0 | t_int => 1 | t_uint => 2 | t_real => 3 | t_string => 4 | t_boolean => 5
  | t_array => 6 | t_object => 7
  end.

(** [std::lexicographical_compare] of two maps, whose pairs are compared both ways: [m < n],
    or [n < m] if [rev]. *)
Section Mapas.
Variable f : bool -> Value -> Value -> bool.

Definition par (rev : bool) (p q : CZString * Value) : bool :=
  let '(a, b) := if rev then (q.1, p.1) else (p.1, q.1) in
  CZString_lt a b || (negb (CZString_lt b a) && f rev p.2 q.2).

Fixpoint map_menor (rev : bool) (m n : ObjectValues) {struct m} : bool :=
  match m, n with
  | [], [] => false
  | [], _ :: _ => negb rev
  | _ :: _, [] => rev
  | p :: m, q :: n =>
      if par rev p q then true else if par (negb rev) p q then false else map_menor rev m n
  end.

Definition mapas (rev : bool) (m n : ObjectValues) : bool :=
  let delta := a_int (if rev then Z.of_nat (length n) - Z.of_nat (length m)
                      else Z.of_nat (length m) - Z.of_nat (length n)) in
  if negb (delta =? 0) then delta <? 0 else map_menor rev m n.
End Mapas.

(** [v < w], or [w < v] if [rev]. *)
Fixpoint menor (rev : bool) (v w : Value) {struct v} : bool :=
  let typeDelta := if rev then rango (type w) - rango (type v) else rango (type v) - rango (type w) in
  if negb (typeDelta =? 0) then typeDelta <? 0
  else
    match v, w with
    | intValue i, intValue j | uintValue i, uintValue j => if rev then j <? i else i <? j
    | realValue x, realValue y => if rev then d_ltb y x else d_ltb x y
    | booleanValue b, booleanValue c => if rev then negb c && b else negb b && c
    | stringValue s, stringValue t =>
        if rev then CZString_lt (CZStr t) (CZStr s) else CZString_lt (CZStr s) (CZStr t)
    | arrayValue m, arrayValue n | objectValue m, objectValue n => mapas menor rev m n
    | _, _ => false
    end.

Definition Value_lt (v other : Value) : bool := menor false v other.
Definition Value_le (v other : Value) : bool := negb (Value_lt other v).
Definition Value_ge (v other : Value) : bool := negb (Value_lt v other).
Definition Value_gt (v other : Value) : bool := Value_lt other v.
Definition Value_ne (v other : Value) : bool := negb (Value_eq v other).

Definition compare (v other : Value) : Z :=
  if Value_lt v other then -1 else if Value_gt v other then 1 else 0.

(** *** [removeIndex] *)

(** The loop that moves the elements from [i] on one place down, [n] of them; reading
    [this[i + 1]] creates a missing element. *)
Fixpoint correr (n i : nat) (m : ObjectValues) : res ObjectValues :=
  match n with
  | O => Ok m
  | S n =>
      let? m := map_update (CZIndex (S i)) Ok m in
      let? m := map_update (CZIndex i) (fun _ => Ok (default nullValue (map_find (CZIndex (S i)) m))) m in
      correr n (S i) m
  end.

(** Whether it was there, the value removed and the array left. *)
Definition removeIndex (v : Value) (index : nat) : res (bool * Value * Value) :=
  match v with
  | arrayValue m =>
      match map_find (CZIndex index) m with
      | None => Ok (false, nullValue, v)
      | Some removed =>
          let oldSize := size v in
          let? m := correr (oldSize - 1 - index) index m in
          Ok (true, removed, arrayValue (map_erase (CZIndex (oldSize - 1)) m))
      end
  | _ => Ok (false, nullValue, v)
  end.

End JsonOrden.

(** ** The encoding *)

Module JsonOrdenOk.
Import Libc Json JsonLeyes JsonTexto JsonOrden.

Fixpoint lexi (a b : list Z) : comparison :=
  match a, b with
  | [], [] => Eq
  | [], _ :: _ => Lt
  | _ :: _, [] => Gt
  | x :: a, y :: b => match x ?= y with Eq => lexi a b | c => c end
  end.

Definition luego (c d : comparison) : comparison := match c with Eq => d | _ => c end.

Lemma lexi_refl a : lexi a a = Eq.
Proof. induction a as [|x a IH]; [done|]. cbn. by rewrite Z.compare_refl. Qed.

Lemma lexi_opp a b : lexi b a = CompOpp (lexi a b).
Proof.
  revert b. induction a as [|x a IH]; intros [|y b]; try done. cbn [lexi].
  rewrite (Z.compare_antisym x y). destruct (x ?= y); cbn; auto.
Qed.

Lemma lexi_eq a b : lexi a b = Eq -> a = b.
Proof.
  revert b. induction a as [|x a IH]; intros [|y b]; try done. cbn [lexi].
  destruct (Z.compare_spec x y) as [->| |]; try done. intros H. f_equal. auto.
Qed.

Lemma lexi_trans a b c : lexi a b = Lt -> lexi b c = Lt -> lexi a c = Lt.
Proof.
  revert b c. induction a as [|x a IH]; intros [|y b] [|z c]; try done. cbn [lexi].
  destruct (Z.compare_spec x y), (Z.compare_spec y z), (Z.compare_spec x z); try done; try lia. apply IH.
Qed.

(** A double by its place in the order. *)
Definition enc_double (d : double) : list Z :=
  match d with
  | S754_nan => []
  | S754_infinity true => [-2; 0; 0]
  | S754_finite true m e => [-1; - e; - Z.pos m]
  | S754_zero _ => [0; 0; 0]
  | S754_finite false m e => [1; e; Z.pos m]
  | S754_infinity false => [2; 0; 0]
  end.
Fixpoint enc_string (s : string) : list Z :=
  match s with "" => [0] | String c s => byte c + 1 :: enc_string s end.
Definition enc_key (k : CZString) : list Z :=
  match k with CZIndex i => [Z.of_nat i] | CZStr s => enc_string s end.
Definition enc_map (f : Value -> list Z) (m : ObjectValues) : list Z :=
  flat_map (fun p => enc_key p.1 ++ f p.2) m.
Fixpoint enc (v : Value) : list Z :=
  rango (type v) ::
  match v with
  | nullValue => []
  | intValue i | uintValue i => [i]
  | realValue d => enc_double d
  | stringValue s => enc_string s
  | booleanValue b => [Z.b2z b]
  | arrayValue m | objectValue m => Z.of_nat (length m) :: enc_map enc m
  end.

(** The values whose order means something. *)
Definition comparables (f : Value -> bool) (k0 : CZString) (m : ObjectValues) : bool :=
  forallb (fun p => mismo_tipo k0 p.1 && f p.2) m && (Z.of_nat (length m) <? 2 ^ 31).
Fixpoint comparable (v : Value) : bool :=
  match v with
  | realValue d => match d with S754_nan => false | _ => true end
  | arrayValue m => comparables comparable (CZIndex 0) m
  | objectValue m => comparables comparable (CZStr "") m
  | _ => true
  end.

(** Three tests that read a comparison. *)
Definition es (c d : comparison) : bool :=
  match c, d with Eq, Eq | Lt, Lt | Gt, Gt => true | _, _ => false end.
Definition fiel (lt gt eq : bool) (c : comparison) : Prop := lt = es c Lt /\ gt = es c Gt /\ eq = es c Eq.

(** Texts that can be told apart before either ends: a comparison goes on after them only if
    they are the same. *)
Definition libre (a b : list Z) : Prop := forall k k', lexi (a ++ k) (b ++ k') = luego (lexi a b) (lexi k k').

Lemma libre_nil : libre [] [].
Proof. done. Qed.
Lemma libre_cons x y a b : (x = y -> libre a b) -> libre (x :: a) (y :: b).
Proof.
  intros H k k'. cbn [app lexi]. destruct (Z.compare_spec x y) as [E|E|E]; [|done|done]. by apply H.
Qed.
Lemma libre_app a b c d : libre a b -> libre c d -> libre (a ++ c) (b ++ d).
Proof.
  intros H1 H2 k k'. rewrite <- !(assoc_L (++)), (H1 (c ++ k) (d ++ k')), (H1 c d), (H2 k k').
  by destruct (lexi a b).
Qed.

Lemma luego_es c d e : es (luego c d) e = match c with Eq => es d e | _ => es c e end.
Proof. by destruct c. Qed.

Lemma fiel_Z x y : fiel (x <? y) (y <? x) (x =? y) (x ?= y).
Proof.
  unfold fiel, Z.ltb. rewrite Z.eqb_compare, (Z.compare_antisym x y). by destruct (x ?= y).
Qed.

Lemma doble_fiel d d' : d <> S754_nan -> d' <> S754_nan ->
  fiel (d_ltb d d') (d_ltb d' d) (d_eqb d d') (lexi (enc_double d) (enc_double d')) /\
  libre (enc_double d) (enc_double d').
Proof.
  intros H1 H2. split.
  - unfold fiel, d_ltb, d_eqb, SFltb, SFeqb.
    destruct d as [[]|[]| |[] m e], d' as [[]|[]| |[] m' e']; try done; cbn [SFcompare enc_double lexi].
    all: change (PosDef.Pos.compare_cont Eq) with Pos.compare; cbn; rewrite ?Z.compare_opp;
      rewrite (Pos.compare_antisym m m'), (Z.compare_antisym e e'); destruct (e ?= e'); cbn; try done;
      rewrite ?(Pos.compare_antisym m m'); by destruct (m ?= m')%positive.
  - destruct d as [[]|[]| |[] m e], d' as [[]|[]| |[] m' e']; try done; cbn [enc_double];
      repeat (apply libre_cons; intros _); apply libre_nil.
Qed.

Lemma cadena_fiel s t :
  fiel (str_lt s t) (str_lt t s) (CZString_eq (CZStr s) (CZStr t)) (lexi (enc_string s) (enc_string t)) /\
  libre (enc_string s) (enc_string t).
Proof.
  revert t. induction s as [|c s IH]; intros [|d t]; cbn [enc_string].
  - split; [done|]. by apply libre_cons.
  - pose proof (byte_range d). split; [|apply libre_cons; lia].
    cbn [lexi]. destruct (Z.compare_spec 0 (byte d + 1)); try lia. done.
  - pose proof (byte_range c). split; [|apply libre_cons; lia].
    cbn [lexi]. destruct (Z.compare_spec (byte c + 1) 0); try lia. done.
  - destruct (IH t) as [(H1 & H2 & H3) H4]. split; [|by apply libre_cons]. cbn [lexi str_lt].
    assert (CZString_eq (CZStr (String c s)) (CZStr (String d t)) =
            (byte c =? byte d) && CZString_eq (CZStr s) (CZStr t)) as ->.
    { cbn [CZString_eq String.length memcmp]. rewrite Z.eqb_compare. cbn [Nat.eqb].
      destruct (byte c ?= byte d), (_ =? _)%nat; done. }
    rewrite (Z.compare_antisym (byte c) (byte d)), H1, H2, H3, Z.eqb_compare.
    replace (byte c + 1 ?= byte d + 1) with (byte c ?= byte d)
      by (destruct (Z.compare_spec (byte c) (byte d)), (Z.compare_spec (byte c + 1) (byte d + 1)); lia || done).
    by destruct (byte c ?= byte d).
Qed.

Lemma clave_fiel k k' : mismo_tipo k k' = true ->
  fiel (CZString_lt k k') (CZString_lt k' k) (CZString_eq k k') (lexi (enc_key k) (enc_key k')) /\
  libre (enc_key k) (enc_key k').
Proof.
  destruct k as [i|s], k' as [j|t]; try done; intros _; cbn [enc_key].
  - split; [|apply libre_cons; intros _; apply libre_nil]. cbn [lexi CZString_lt CZString_eq].
    destruct (fiel_Z (Z.of_nat i) (Z.of_nat j)) as (H1 & H2 & H3). unfold fiel.
    assert (match Z.of_nat i ?= Z.of_nat j with Eq => Eq | c => c end = (Z.of_nat i ?= Z.of_nat j)) as -> by (by destruct (_ ?= _)).
    rewrite <- H1, <- H2, <- H3.
    split_and!; apply Bool.eq_iff_eq_true; rewrite ?Nat.ltb_lt, ?Nat.eqb_eq, ?Z.ltb_lt, ?Z.eqb_eq; lia.
  - rewrite !CZString_lt_str. apply cadena_fiel.
Qed.

Definition fieles (x y : Value) : Prop :=
  fiel (menor false x y) (menor true x y) (Value_eq x y) (lexi (enc x) (enc y)) /\ libre (enc x) (enc y).

Fixpoint map_eq (m n : ObjectValues) : bool :=
  match m, n with
  | [], [] => true
  | (k, x) :: m, (k', y) :: n => CZString_eq k k' && Value_eq x y && map_eq m n
  | _, _ => false
  end.

Lemma Value_eq_mapas (c : ObjectValues -> Value) m n : c = arrayValue \/ c = objectValue ->
  Value_eq (c m) (c n) = (length m =? length n)%nat && map_eq m n.
Proof.
  intros [-> | ->]; cbn [Value_eq]; f_equal; revert n; induction m as [|[k x] m IH]; intros [|[k' y] n]; try done;
    cbn [map_eq]; by rewrite IH.
Qed.

Lemma par_fiel p q : mismo_tipo p.1 q.1 = true -> fieles p.2 q.2 ->
  let c := lexi (enc_key p.1 ++ enc p.2) (enc_key q.1 ++ enc q.2) in
  fiel (par menor false p q) (par menor true p q) (CZString_eq p.1 q.1 && Value_eq p.2 q.2) c /\
  libre (enc_key p.1 ++ enc p.2) (enc_key q.1 ++ enc q.2).
Proof.
  intros Hk [(L & G & E) Hx]. destruct (clave_fiel _ _ Hk) as [(Lk & Gk & Ek) Hkl].
  split; [|by apply libre_app]. unfold fiel, par. rewrite (Hkl (enc p.2) (enc q.2)), !luego_es, L, G, E, Lk, Gk, Ek.
  by destruct (lexi (enc_key p.1) (enc_key q.1)).
Qed.

Lemma map_menor_fiel m n : length m = length n ->
  Forall2 (fun p q => mismo_tipo p.1 q.1 = true /\ fieles p.2 q.2) m n ->
  fiel (map_menor menor false m n) (map_menor menor true m n) (map_eq m n) (lexi (enc_map enc m) (enc_map enc n)) /\
  libre (enc_map enc m) (enc_map enc n).
Proof.
  intros _. induction 1 as [|[k x] [k' y] m n [Hk Hx] _ IH]; [by split|].
  destruct (par_fiel (k, x) (k', y) Hk Hx) as [(L & G & E) Hl]. destruct IH as [(Lm & Gm & Em) Hm].
  cbn [enc_map flat_map map_menor map_eq negb]. split; [|by apply libre_app].
  unfold fiel. change (flat_map _ ?l) with (enc_map enc l). rewrite (Hl (enc_map enc m) (enc_map enc n)), !luego_es.
  cbn [fst snd] in E. rewrite L, G, E, Lm, Gm, Em.
  by destruct (lexi (enc_key _ ++ _) _).
Qed.

Lemma mapas_fiel k0 m n :
  comparables comparable k0 m = true -> comparables comparable k0 n = true ->
  Forall (fun p => forall w, comparable p.2 = true -> comparable w = true -> fieles p.2 w) m ->
  fiel (mapas menor false m n) (mapas menor true m n) ((length m =? length n)%nat && map_eq m n)
    (lexi (Z.of_nat (length m) :: enc_map enc m) (Z.of_nat (length n) :: enc_map enc n)) /\
  libre (Z.of_nat (length m) :: enc_map enc m) (Z.of_nat (length n) :: enc_map enc n).
Proof.
  unfold comparables. intros [Hm Lm]%andb_prop [Hn Ln]%andb_prop IH. apply Z.ltb_lt in Lm, Ln.
  destruct (Nat.eq_dec (length m) (length n)) as [El|El].
  - assert (Forall2 (fun p q => mismo_tipo p.1 q.1 = true /\ fieles p.2 q.2) m n) as H2.
    { clear Lm Ln. revert n Hn El. induction m as [|p m IHm]; intros [|q n] Hn El; try done.
      cbn [forallb] in Hm, Hn. partir. apply Forall_cons in IH as [Hp IH]. constructor; [|by apply IHm; auto].
      split; [|by apply Hp]. by destruct k0, p.1, q.1. }
    destruct (map_menor_fiel m n El H2) as [Hf Hl]. split; [|apply libre_cons; done].
    unfold mapas. cbn [lexi]. rewrite El, Z.sub_diag, Z.compare_refl, Nat.eqb_refl. exact Hf.
  - split; [|apply libre_cons; lia]. unfold mapas, fiel. cbn [lexi]. rewrite !a_int_id by lia.
    rewrite (proj2 (Nat.eqb_neq _ _) El). cbn [andb].
    destruct (Z.compare_spec (Z.of_nat (length m)) (Z.of_nat (length n))); [lia|..];
      rewrite !(proj2 (Z.eqb_neq _ _)) by lia; cbn [negb es]; split_and!; lia || done.
Qed.

Lemma rango_inj t t' : rango t = rango t' -> t = t'.
Proof. by destruct t, t'. Qed.

Lemma enc_tipo v : exists e, enc v = rango (type v) :: e.
Proof. destruct v; eexists; reflexivity. Qed.

Lemma fieles_tipos v w : type v <> type w -> fieles v w.
Proof.
  intros H. destruct (enc_tipo v) as [e Ev], (enc_tipo w) as [e' Ew]. unfold fieles. rewrite Ev, Ew.
  assert (rango (type v) <> rango (type w)) as Hr by (intros E%rango_inj; done).
  split; [|by apply libre_cons]. cbn [lexi]. unfold fiel.
  assert (forall rev, menor rev v w = if rev then rango (type w) <? rango (type v) else rango (type v) <? rango (type w)) as E.
  { intros rev. destruct rev; destruct v, w; try done. }
  rewrite !E. assert (Value_eq v w = false) as -> by (destruct v, w; done).
  destruct (Z.compare_spec (rango (type v)) (rango (type w))); [done|..]; cbn [es]; split_and!; lia || done.
Qed.

(** The same type before two texts. *)
Lemma fieles_cons t a b lt gt eq : fiel lt gt eq (lexi a b) /\ libre a b ->
  fiel lt gt eq (lexi (t :: a) (t :: b)) /\ libre (t :: a) (t :: b).
Proof. intros [H1 H2]. split; [|by apply libre_cons]. cbn [lexi]. by rewrite Z.compare_refl. Qed.

Lemma fieles_Z x y : fiel (x <? y) (y <? x) (x =? y) (lexi [x] [y]) /\ libre [x] [y].
Proof.
  split; [|apply libre_cons; intros _; apply libre_nil]. cbn [lexi].
  replace (match x ?= y with Eq => Eq | Lt => Lt | Gt => Gt end) with (x ?= y) by (by destruct (x ?= y)). apply fiel_Z.
Qed.

Lemma valor_fiel v w : comparable v = true -> comparable w = true -> fieles v w.
Proof.
  revert w. induction v as [|i|u|x|s|b|m IH|m IH] using JsonReaderOk.Value_ind'; intros w Hv Hw;
    destruct w; try (by apply fieles_tipos); unfold fieles.
  2, 3: apply fieles_cons, fieles_Z.
  - split; [done|]. apply libre_cons. intros _. apply libre_nil.
  - apply fieles_cons, doble_fiel; by intros ->.
  - apply fieles_cons. cbn [menor type Value_eq]. rewrite !CZString_lt_str. apply cadena_fiel.
  - apply fieles_cons. destruct b, b0; apply (fieles_Z 0 0) || apply (fieles_Z 0 1) || apply (fieles_Z 1 0) || apply (fieles_Z 1 1).
  - rewrite (Value_eq_mapas arrayValue) by (by left). apply fieles_cons. by eapply mapas_fiel.
  - rewrite (Value_eq_mapas objectValue) by (by right). apply fieles_cons. by eapply mapas_fiel.
Qed.

Lemma Value_lt_enc v w : comparable v = true -> comparable w = true -> Value_lt v w = es (lexi (enc v) (enc w)) Lt.
Proof. intros Hv Hw. apply (valor_fiel v w Hv Hw). Qed.
Lemma Value_eq_enc v w : comparable v = true -> comparable w = true -> Value_eq v w = es (lexi (enc v) (enc w)) Eq.
Proof. intros Hv Hw. apply (valor_fiel v w Hv Hw). Qed.

(** Comparing the other way is comparing with the operands exchanged. *)
Lemma menor_rev v w : comparable v = true -> comparable w = true -> menor true v w = Value_lt w v.
Proof.
  intros Hv Hw. rewrite Value_lt_enc by done. destruct (valor_fiel v w Hv Hw) as [(_ & -> & _) _].
  rewrite (lexi_opp (enc v) (enc w)). by destruct (lexi _ _).
Qed.

Lemma es_Lt c : es c Lt = true -> c = Lt.
Proof. by destruct c. Qed.

(** C33. The order of JSON values is a strict total order with [operator==] as its equality:
    on the values without NaNs whose arrays have indices and objects have strings as keys,
    [operator<] is irreflexive and transitive, does not tell equal values apart, and of
    [v < w], [v == w] and [v > w] exactly one holds, the one [compare] reports; the restriction
    is needed, because a NaN makes [compare] answer that unequal values are equal. *)
Theorem orden_valores u v w : comparable u = true -> comparable v = true -> comparable w = true ->
  Value_lt v v = false /\
  (Value_lt u v = true -> Value_lt v w = true -> Value_lt u w = true) /\
  (Value_eq u v = true -> Value_lt u w = Value_lt v w /\ Value_lt w u = Value_lt w v) /\
  In (compare v w, Value_lt v w, Value_eq v w, Value_gt v w)
    [(-1, true, false, false); (0, false, true, false); (1, false, false, true)] /\
  (let nan := realValue S754_nan in compare nan nan = 0 /\ Value_eq nan nan = false).
Proof.
  intros Hu Hv Hw. split_and!; [..|by vm_compute].
  - rewrite Value_lt_enc by done. by rewrite lexi_refl.
  - rewrite !Value_lt_enc by done. intros H1%es_Lt H2%es_Lt. by rewrite (lexi_trans _ _ _ H1 H2).
  - rewrite !Value_lt_enc, Value_eq_enc by done. destruct (lexi (enc u) (enc v)) eqn:E; try done. intros _.
    apply lexi_eq in E. by rewrite E.
  - unfold compare, Value_gt. rewrite !Value_lt_enc, Value_eq_enc by done. rewrite (lexi_opp (enc v) (enc w)).
    destruct (lexi (enc v) (enc w)); cbn [es CompOpp In]; auto.
Qed.

Lemma orden_valores_witness :
  let u := arrayValue [(CZIndex 0, intValue 1)] in
  let v := arrayValue [(CZIndex 0, intValue 2)] in
  let w := objectValue [(CZStr "a", nullValue)] in
  Value_lt u w = true /\
  In (compare v w, Value_lt v w, Value_eq v w, Value_gt v w)
    [(-1, true, false, false); (0, false, true, false); (1, false, false, true)].
Proof.
  intros u v w. destruct (orden_valores u v w) as (_ & Ht & _ & Hc & _); [reflexivity..|].
  split; [apply Ht; vm_compute; reflexivity|exact Hc].
Defined.

(** *** Removal of an element *)

Lemma update_indexar f k a x b :
  map_update (CZIndex (k + length a)) f (indexar k (a ++ x :: b)) = let? y := f x in Ok (indexar k (a ++ y :: b)).
Proof.
  revert k. induction a as [|z a IH]; intros k; cbn [app indexar length map_update CZString_lt CZString_eq].
  - rewrite Nat.add_0_r, Nat.ltb_irrefl, Nat.eqb_refl. by destruct (f x).
  - rewrite (proj2 (Nat.ltb_lt _ _)) by lia. replace (k + S (length a))%nat with (S k + length a)%nat by lia.
    rewrite IH. by destruct (f x).
Qed.

Lemma erase_indexar k a x : map_erase (CZIndex (k + length a)) (indexar k (a ++ [x])) = indexar k a.
Proof.
  revert k. induction a as [|z a IH]; intros k; cbn [app indexar length map_erase CZString_eq].
  - by rewrite Nat.add_0_r, Nat.eqb_refl.
  - rewrite (proj2 (Nat.eqb_neq _ _)) by lia. replace (k + S (length a))%nat with (S k + length a)%nat by lia. by rewrite IH.
Qed.

Lemma correr_indexar a x b : exists z,
  correr (length b) (length a) (indexar 0 (a ++ x :: b)) = Ok (indexar 0 ((a ++ b) ++ [z])).
Proof.
  revert a x. induction b as [|y b IH]; intros a x; cbn [length correr].
  - exists x. by rewrite app_nil_r.
  - pose proof (update_indexar Ok 0 (a ++ [x]) y b) as E1. rewrite length_app in E1. cbn [length] in E1.
    replace (0 + (length a + 1))%nat with (S (length a)) in E1 by lia. cbn [bindR] in E1. rewrite <- !(assoc_L (++)) in E1.
    change ([x] ++ y :: b) with (x :: y :: b) in E1. rewrite E1. cbn [bindR].
    rewrite find_indexar. cbn [Nat.ltb Nat.leb]. rewrite Nat.sub_0_r.
    rewrite (lookup_app_r a) by lia. replace (S (length a) - length a)%nat with 1%nat by lia. cbn [lookup list_lookup default].
    pose proof (update_indexar (fun _ => Ok y) 0 a x (y :: b)) as E2. cbn [plus bindR] in E2. unfold default, id. rewrite E2.
    cbn [bindR]. destruct (IH (a ++ [y]) y) as [z Hz]. exists z.
    rewrite length_app in Hz. cbn [length] in Hz. rewrite Nat.add_1_r, <- !(assoc_L (++)) in Hz. rewrite <- (assoc_L (++)). exact Hz.
Qed.

(** Removing an element of an array without holes leaves the others in order. *)
Theorem removeIndex_ok a x b :
  removeIndex (arrayValue (indexar 0 (a ++ x :: b))) (length a) = Ok (true, x, arrayValue (indexar 0 (a ++ b))) /\
  forall vs i, (length vs <= i)%nat ->
    removeIndex (arrayValue (indexar 0 vs)) i = Ok (false, nullValue, arrayValue (indexar 0 vs)).
Proof.
  split.
  - unfold removeIndex. rewrite find_indexar. cbn [Nat.ltb Nat.leb]. rewrite Nat.sub_0_r, (lookup_app_r a) by lia.
    rewrite Nat.sub_diag. cbn [lookup list_lookup]. rewrite size_indexar, length_app. cbn [length].
    destruct (correr_indexar a x b) as [z Hz].
    replace (length a + S (length b) - 1 - length a)%nat with (length b) by lia. rewrite Hz. cbn [bindR].
    pose proof (erase_indexar 0 (a ++ b) z) as E. rewrite length_app in E.
    replace (length a + S (length b) - 1)%nat with (0 + (length a + length b))%nat by lia. by rewrite E.
  - intros vs i Hi. unfold removeIndex. rewrite find_indexar. cbn [Nat.ltb Nat.leb].
    rewrite Nat.sub_0_r, lookup_ge_None_2 by done. reflexivity.
Qed.
End JsonOrdenOk.
