(* ===== verification/JsonPath.v ===== *)
(** * JsonPath: [PathArgument] and [Path] of src/json/json.cpp

    A path such as [.a.b[3]] selects a node of a value.  The reference that [make] returns is
    modelled, as in [JsonValue], by the update made through it; a failed assertion throws and
    the partly built value is lost. *)

From S2P Require Import Prelude Libc JsonValue JsonTexto JsonReaderOk.
From Stdlib Require Import Sorted.
Open Scope Z_scope.

Module JsonPath.
Import Libc Json.

Inductive PathArgument : Type :=
| kindNone
| kindIndex (index_ : nat)
| kindKey (key_ : string).
Inductive Kind : Type := k_none | k_index | k_key.
#[export] Instance Kind_eq_dec : EqDecision Kind.
Proof. solve_decision. Defined.
Definition kind_ (a : PathArgument) : Kind :=
  match a with kindNone => k_none | kindIndex _ => k_index | kindKey _ => k_key end.

(** [PathArgument(const std::string&)] *)
Definition PathArgument_string (key : string) : PathArgument := kindKey (c_str key).

(** [addPathInArg]: the argument at the iterator, the head of [in_], if it is of the kind. *)
Definition addPathInArg (in_ : list PathArgument) (kind : Kind) (args_ : list PathArgument) : list PathArgument :=
  match in_ with
  | [] => args_
  | a :: _ => if decide (kind_ a = kind) then args_ ++ [a] else args_
  end.

(** The loop over the digits of an index, modulo 2^32. *)
Fixpoint leer_indice (index : Z) (current : string) : Z * string :=
  match current with
  | String c r =>
      if isdigit c then leer_indice ((index * 10 + (byte c - byte "0")) mod 2 ^ 32) r else (index, current)
  | "" => (index, "")
  end.

(** [!strchr("[.", c)]: [strchr] also finds the NUL that ends the text. *)
Definition de_nombre (c : ascii) : bool := negb (Ascii.eqb c "[" || Ascii.eqb c "." || Ascii.eqb c NUL).

(** [*current]; the end of a [std::string] reads as NUL. *)
Definition mirar (current : string) : ascii := match current with "" => NUL | String c _ => c end.

(** The loop of [makePath]; every turn but one that stops at a NUL consumes a character. *)
Fixpoint makePath_loop (fuel : nat) (in_ : list PathArgument) (current : string) (args_ : list PathArgument) :
    res (list PathArgument) :=
  match fuel with
  | O => Fallo SinCombustible
  | S fuel =>
      match current with
      | "" => Ok args_
      | String c r =>
          if Ascii.eqb c "[" then
            let '(args_, current) :=
              if Ascii.eqb (mirar r) "%"
              then (addPathInArg in_ k_index args_, r)
              else let '(index, current) := leer_indice 0 r in (args_ ++ [kindIndex (Z.to_nat index)], current) in
            (* the closing bracket, or whatever is there: [invalidPath] does nothing *)
            makePath_loop fuel in_ (saltear 1 current) args_
          else if Ascii.eqb c "%" then makePath_loop fuel in_ r (addPathInArg in_ k_key args_)
          else if Ascii.eqb c "." then makePath_loop fuel in_ r args_
          else
            let '(name, current) := abarcar de_nombre current in
            makePath_loop fuel in_ current (args_ ++ [PathArgument_string name])
      end
  end.
Definition makePath (path : string) (in_ : list PathArgument) : res (list PathArgument) :=
  makePath_loop (S (String.length path)) in_ path [].

(** [Path(path, a1, a2, a3, a4, a5)] *)
Definition Path (path : string) (a1 a2 a3 a4 a5 : PathArgument) : res (list PathArgument) :=
  makePath path [a1; a2; a3; a4; a5].

(** [resolve(root)] *)
Fixpoint resolve (args_ : list PathArgument) (node : Value) : res Value :=
  match args_ with
  | [] => Ok node
  | kindIndex index :: args_ => let? node := index_const node index in resolve args_ node
  | kindKey key :: args_ => let? node := key_const node key in resolve args_ node
  | kindNone :: args_ => resolve args_ node
  end.

(** [resolve(root, defaultValue)] *)
Fixpoint resolve_default (args_ : list PathArgument) (node defaultValue : Value) : res Value :=
  match args_ with
  | [] => Ok node
  | kindIndex index :: args_ =>
      if negb (isArray node) || negb (isValidIndex node index) then Ok defaultValue
      else let? node := index_const node index in resolve_default args_ node defaultValue
  | kindKey key :: args_ =>
      if negb (isObject node) then Ok defaultValue
      else
        let? found := find node key in
        match found with
        | None => Ok defaultValue
        | Some node => resolve_default args_ node defaultValue
        end
  | kindNone :: args_ => resolve_default args_ node defaultValue
  end.

(** [make(root)], used through the reference it returns. *)
Fixpoint make (args_ : list PathArgument) (f : Value -> res Value) (node : Value) : res Value :=
  match args_ with
  | [] => f node
  | kindIndex index :: args_ => at_index index (make args_ f) node
  | kindKey key :: args_ => resolveReference key (make args_ f) node
  | kindNone :: args_ => make args_ f node
  end.

End JsonPath.

(** ** Paths as lenses *)

Module JsonPathOk.
Import Libc Json JsonLeyes JsonTexto JsonPath.

(** Every map of the value is in order. *)
Fixpoint ordenado (v : Value) : Prop :=
  let todos (m : ObjectValues) : Prop := fold_right (fun p P => ordenado p.2 /\ P) True m in
  match v with
  | arrayValue m => mapa_de (CZIndex 0) m /\ todos m
  | objectValue m => mapa_de (CZStr "") m /\ todos m
  | _ => True
  end.

Definition ordenados (m : ObjectValues) : Prop := Forall (fun p => ordenado p.2) m.
Lemma ordenados_fold m : fold_right (fun p P => ordenado p.2 /\ P) True m <-> ordenados m.
Proof.
  unfold ordenados. induction m as [|p m IH]; cbn [fold_right]; [by split; constructor|].
  by rewrite Forall_cons, IH.
Qed.

Lemma find_in k m x : map_find k m = Some x -> In (k, x) m.
Proof.
  induction m as [|[k' v'] m IH]; [done|]. cbn [map_find]. destruct (CZString_lt k' k); [by right; auto|].
  destruct (CZString_eq k' k) eqn:E; [|done]. apply CZString_eq_spec in E as ->. intros [= ->]. by left.
Qed.

Lemma mapa_tipo k j m : mismo_tipo k j = true -> mapa_de k m <-> mapa_de j m.
Proof.
  intros H. unfold mapa_de. assert (forall p : CZString * Value, mismo_tipo k p.1 = true <-> mismo_tipo j p.1 = true) as E
    by (intros [[] ?]; by destruct k, j).
  split; intros [H1 H2]; (split; [done|]); eapply Forall_impl; try exact H2; cbn; intros p; apply E.
Qed.

(** The last index is the highest. *)
Lemma find_size m i x : mapa_de (CZIndex 0) m -> map_find (CZIndex i) m = Some x -> isValidIndex (arrayValue m) i = true.
Proof.
  intros Hm Hf%find_in. unfold isValidIndex. cbn [size]. apply Nat.ltb_lt.
  induction m as [|p m IH] using rev_ind; [done|]. rewrite last_snoc. destruct Hm as [Hs Ht].
  apply Forall_app in Ht as [_ Ht]. apply Forall_cons in Ht as [Ht _]. destruct p as [[j|s] y]; [|done].
  apply in_app_iff in Hf as [Hf|[[= -> ->]|[]]]; [|lia].
  assert (CZString_lt (CZIndex i) (CZIndex j) = true) as H; [|apply Nat.ltb_lt in H; lia].
  clear IH Ht. induction m as [|q m IH]; [done|]. apply StronglySorted_inv in Hs as [Hs Hq]. destruct Hf as [->|Hf]; [|auto].
  rewrite Forall_app, Forall_cons in Hq. apply Hq.
Qed.

(** A step of a path selects a member of the map of a node; [k] is its key. *)
Definition clave (a : PathArgument) : CZString :=
  match a with kindIndex i => CZIndex i | kindKey s => CZStr s | kindNone => CZIndex 0 end.
Definition envolver (a : PathArgument) (m : ObjectValues) : Value :=
  match a with kindKey _ => objectValue m | _ => arrayValue m end.
Definition mapa_nodo (a : PathArgument) (v : Value) : option ObjectValues :=
  match a, v with
  | _, nullValue => Some []
  | kindIndex _, arrayValue m | kindKey _, objectValue m => Some m
  | _, _ => None
  end.

Lemma make_paso a r f v v' : kind_ a <> k_none -> make (a :: r) f v = Ok v' ->
  exists m m', mapa_nodo a v = Some m /\ map_update (clave a) (make r f) m = Ok m' /\ v' = envolver a m'.
Proof.
  intros Ha. destruct a as [|i|k]; [done|..]; cbn [make]; unfold at_index, resolveReference; destruct v; try done;
    cbn [mapa_nodo clave envolver]; try (destruct (map_update _ _ _) as [m'|] eqn:E; [|done]; cbn [bindR]; intros [= <-]; by eexists _, m').
Qed.

Lemma make_paso_ok a r f v m m' : kind_ a <> k_none -> mapa_nodo a v = Some m ->
  map_update (clave a) (make r f) m = Ok m' -> make (a :: r) f v = Ok (envolver a m').
Proof.
  intros Ha. destruct a as [|i|k]; [done|..]; cbn [make]; unfold at_index, resolveReference; destruct v; try done;
    cbn [mapa_nodo clave envolver]; intros [= <-] E; by rewrite E.
Qed.

Lemma resolve_paso a r v m : kind_ a <> k_none -> mapa_nodo a v = Some m ->
  resolve (a :: r) v = resolve r (default nullValue (map_find (clave a) m)).
Proof.
  intros Ha. destruct a as [|i|k]; [done|..]; cbn [resolve]; unfold index_const, index_ref, key_const, find; destruct v; try done;
    cbn [mapa_nodo clave]; by intros [= <-].
Qed.

Lemma mapa_nodo_ordenado a v m : kind_ a <> k_none -> mapa_nodo a v = Some m -> ordenado v ->
  mapa_de (clave a) m /\ ordenados m.
Proof.
  intros Ha. destruct a as [|i|k]; [done|..]; destruct v; try done; cbn [mapa_nodo ordenado clave];
    intros [= <-]; rewrite ?ordenados_fold; try (by intros; split; [apply mapa_nil|apply List.Forall_nil]).
  - intros [H1 H2]. split; [|done]. by apply (mapa_tipo (CZIndex 0)).
  - intros [H1 H2]. split; [|done]. by apply (mapa_tipo (CZStr "")).
Qed.

Lemma envolver_ordenado a m : kind_ a <> k_none -> mapa_de (clave a) m -> ordenados m -> ordenado (envolver a m).
Proof.
  intros Ha Hm Ho. destruct a as [|i|k]; [done|..]; cbn [envolver ordenado]; rewrite ordenados_fold;
    (split; [by eapply mapa_tipo; [|exact Hm]|done]).
Qed.

Lemma ordenado_find m k : ordenados m -> ordenado (default nullValue (map_find k m)).
Proof.
  intros H. destruct (map_find k m) as [x|] eqn:E; [|done]. apply find_in in E.
  unfold ordenados in H. rewrite Forall_forall in H. apply (H (k, x)). by apply list_elem_of_In.
Qed.

Definition reales : list PathArgument -> Prop := Forall (fun a => kind_ a <> k_none).

Lemma resolve_default_paso a r m m' x d : kind_ a <> k_none -> mapa_de (clave a) m -> actualiza (clave a) x m m' ->
  resolve_default (a :: r) (envolver a m') d = resolve_default r x d.
Proof.
  intros Ha Hm Hc. pose proof (find_actualiza _ _ _ _ Hc) as Hf. pose proof (actualiza_mapa _ _ _ _ Hc Hm) as Hm'.
  destruct a as [|i|k]; [done|..]; cbn [resolve_default envolver isArray isObject negb orb clave] in *.
  - rewrite (find_size m' i x) by (done || by apply (mapa_tipo (CZIndex i))). cbn [negb].
    unfold index_const, index_ref. cbn [bindR]. by rewrite Hf.
  - unfold find. cbn [bindR]. by rewrite Hf.
Qed.

(** What is put at a path is what is found there. *)
Lemma make_lente args f v v' : reales args -> ordenado v -> make args f v = Ok v' ->
  exists x y, resolve args v = Ok x /\ f x = Ok y /\ resolve args v' = Ok y /\
    (forall d, resolve_default args v' d = Ok y) /\ (ordenado y -> ordenado v').
Proof.
  revert v v'. induction args as [|a r IH]; intros v v' Hr Hv E; [by exists v, v'|].
  apply Forall_cons in Hr as [Ha Hr]. destruct (make_paso _ _ _ _ _ Ha E) as (m & m' & Hm & Hu & ->).
  destruct (mapa_nodo_ordenado _ _ _ Ha Hm Hv) as [Ho Hos].
  destruct (map_update_spec _ _ _ _ Ho Hu) as (z & Hz & Hc).
  destruct (IH _ _ Hr (ordenado_find m (clave a) Hos) Hz) as (x & y & H1 & H2 & H3 & H4 & H5).
  exists x, y. rewrite (resolve_paso a r v m Ha Hm). split_and!; [done|done|..].
  - rewrite (resolve_paso a r (envolver a m') m' Ha) by (by destruct a). by rewrite (find_actualiza _ _ _ _ Hc).
  - intros d. by rewrite (resolve_default_paso a r m m' z d Ha Ho Hc).
  - intros Hy. apply envolver_ordenado; [done|by eapply actualiza_mapa|]. eapply Forall_actualiza; [exact Hc|by apply H5|done].
Qed.

(** A path can be made exactly when it can be followed. *)
Lemma make_definido args f v x y : reales args -> resolve args v = Ok x -> f x = Ok y -> exists v', make args f v = Ok v'.
Proof.
  revert v. induction args as [|a r IH]; intros v Hr Hx Hy; [cbn in Hx; injection Hx as ->; by exists y|].
  apply Forall_cons in Hr as [Ha Hr].
  assert (exists m, mapa_nodo a v = Some m) as [m Hm].
  { destruct a as [|i|k]; [done|..]; destruct v; cbn in *; try done; by eexists. }
  rewrite (resolve_paso a r v m Ha Hm) in Hx. destruct (IH _ Hr Hx Hy) as [z Hz].
  destruct (map_update_ok (clave a) (make r f) m z Hz) as [m' Hm']. exists (envolver a m'). by eapply make_paso_ok.
Qed.

(** Paths that part at a step of the same kind. *)
Inductive diverge : list PathArgument -> list PathArgument -> Prop :=
| d_aqui a b r r' : kind_ a <> k_none -> kind_ a = kind_ b -> a <> b -> diverge (a :: r) (b :: r')
| d_luego a r r' : kind_ a <> k_none -> diverge r r' -> diverge (a :: r) (a :: r').

Lemma make_marco args otra f v v' : diverge args otra -> ordenado v -> make args f v = Ok v' ->
  resolve otra v' = resolve otra v.
Proof.
  intros Hd. revert v v'. induction Hd as [a b r r' Ha Hk Hn|a r r' Ha Hd IH]; intros v v' Hv E;
    destruct (make_paso _ _ _ _ _ Ha E) as (m & m' & Hm & Hu & ->);
    destruct (mapa_nodo_ordenado _ _ _ Ha Hm Hv) as [Ho Hos];
    destruct (map_update_spec _ _ _ _ Ho Hu) as (z & Hz & Hc).
  - assert (kind_ b <> k_none) as Hb by congruence.
    rewrite (resolve_paso b r' v m Hb), (resolve_paso b r' (envolver a m') m' Hb) by (by destruct a, b).
    rewrite (find_actualiza_ne (clave a) (clave b) z m m' Hc Ho); [done|by destruct a, b|].
    destruct a, b; try done; cbn; congruence.
  - rewrite (resolve_paso a r' v m Ha Hm), (resolve_paso a r' (envolver a m') m' Ha) by (by destruct a).
    rewrite (find_actualiza _ _ _ _ Hc). cbn [default]. apply (IH _ _ (ordenado_find m (clave a) Hos) Hz).
Qed.

(** *** The syntax *)

Inductive Paso : Type := Indice (ds : string) | Clave (k : string).
Definition texto_paso (p : Paso) : string :=
  match p with Indice ds => "[" +:+ ds +:+ "]" | Clave k => "." +:+ k end.
Definition texto (l : list Paso) : string := unir (map texto_paso l).
Definition argumento (p : Paso) : PathArgument :=
  match p with Indice ds => kindIndex (Z.to_nat (valor_decimal 0 ds mod 2 ^ 32)) | Clave k => kindKey k end.
Definition paso_ok (p : Paso) : bool :=
  match p with
  | Indice ds => todos isdigit ds
  | Clave (String c k) => negb (Ascii.eqb c "%") && todos de_nombre (String c k)
  | Clave "" => false
  end.

Lemma leer_indice_ok ds r acc : todos isdigit ds = true -> 
  leer_indice (acc mod 2 ^ 32) (ds +:+ "]" +:+ r) = (valor_decimal acc ds mod 2 ^ 32, "]" +:+ r).
Proof.
  revert acc. induction ds as [|c ds IH]; intros acc H; [done|]. cbn [todos] in H. apply andb_prop in H as [Hc H].
  rewrite !app_cons_s. cbn [leer_indice valor_decimal]. rewrite Hc.
  assert (byte c - byte "0" = digit_val c) as -> by done.
  rewrite <- (Z.add_mod_idemp_l (_ * _)), Z.mul_mod_idemp_l, Z.add_mod_idemp_l by lia. by apply IH.
Qed.

(** What follows a step is the end or another step. *)
Lemma texto_sigue l : match texto l with "" => true | String c _ => negb (de_nombre c) end = true.
Proof. by destruct l as [|[ds|k] l]. Qed.

(** The turns of the loop. *)
Section Vueltas.
Context (fuel : nat) (in_ : list PathArgument) (args : list PathArgument).

Lemma vuelta_indice ds r : todos isdigit ds = true ->
  makePath_loop (S fuel) in_ ("[" +:+ ds +:+ "]" +:+ r) args =
  makePath_loop fuel in_ r (args ++ [argumento (Indice ds)]).
Proof.
  intros Hd. pose proof (leer_indice_ok ds r 0 Hd) as E. rewrite Z.mod_0_l in E by lia.
  transitivity (let '(args_, current) :=
      if Ascii.eqb (mirar (ds +:+ "]" +:+ r)) "%" then (addPathInArg in_ k_index args, ds +:+ "]" +:+ r)
      else let '(index, current) := leer_indice 0 (ds +:+ "]" +:+ r) in (args ++ [kindIndex (Z.to_nat index)], current) in
    makePath_loop fuel in_ (saltear 1 current) args_); [reflexivity|].
  rewrite E. assert (Ascii.eqb (mirar (ds +:+ "]" +:+ r)) "%" = false) as ->; [|done].
  destruct ds as [|c ds]; [done|]. cbn in Hd. apply andb_prop in Hd as [Hc _].
  rewrite app_cons_s. cbn [mirar]. by destruct (Ascii.eqb_spec c "%") as [->|].
Qed.

Lemma vuelta_punto r : makePath_loop (S fuel) in_ ("." +:+ r) args = makePath_loop fuel in_ r args.
Proof. reflexivity. Qed.

Lemma vuelta_nombre k r : paso_ok (Clave k) = true ->
  match r with "" => true | String c _ => negb (de_nombre c) end = true ->
  makePath_loop (S fuel) in_ (k +:+ r) args = makePath_loop fuel in_ r (args ++ [kindKey k]).
Proof.
  intros Hp Hr. destruct k as [|c k]; [done|]. cbn [paso_ok] in Hp. apply andb_prop in Hp as [Hc Hk].
  pose proof Hk as Hn. cbn [todos] in Hn. apply andb_prop in Hn as [Hn _].
  unfold de_nombre in Hn. apply negb_true_iff, orb_false_iff in Hn as [Hn _]. apply orb_false_iff in Hn as [H1 H2].
  apply negb_true_iff in Hc. rewrite app_cons_s. cbn [makePath_loop].
  rewrite H1, H2, Hc, <- app_cons_s, (abarcar_exacto de_nombre _ _ Hk Hr).
  unfold PathArgument_string. rewrite c_str_id; [done|]. by apply (todos_no_contiene de_nombre).
Qed.
End Vueltas.

Lemma makePath_paso fuel in_ p l args : paso_ok p = true -> (2 <= fuel)%nat -> exists fuel', (fuel' + 2 >= fuel)%nat /\
  makePath_loop fuel in_ (texto_paso p +:+ texto l) args = makePath_loop fuel' in_ (texto l) (args ++ [argumento p]).
Proof.
  intros Hp Hf. destruct fuel as [|[|fuel]]; [lia..|]. destruct p as [ds|k]; cbn [texto_paso].
  - exists (S fuel). split; [lia|]. rewrite !app_assoc_s. by apply vuelta_indice.
  - exists fuel. split; [lia|]. rewrite app_assoc_s, vuelta_punto. apply vuelta_nombre; [done|apply texto_sigue].
Qed.

Lemma makePath_texto in_ l fuel args : forallb paso_ok l = true -> (String.length (texto l) < fuel)%nat ->
  makePath_loop fuel in_ (texto l) args = Ok (args ++ map argumento l).
Proof.
  revert fuel args. induction l as [|p l IH]; intros fuel args Hl Hf.
  - destruct fuel; [lia|]. cbn. by rewrite app_nil_r.
  - cbn [forallb] in Hl. apply andb_prop in Hl as [Hp Hl].
    change (texto (p :: l)) with (texto_paso p +:+ texto l) in *. rewrite length_app_s in Hf.
    assert (2 <= String.length (texto_paso p))%nat by (destruct p as [ds|[|c k]]; cbn [texto_paso]; rewrite ?length_app_s; cbn; done || lia).
    destruct (makePath_paso fuel in_ p l args Hp) as (fuel' & Hf' & ->); [lia|].
    rewrite IH by (done || lia). cbn [map]. by rewrite <- (assoc_L (++)).
Qed.

(** Paths are lenses: the text of a path, whatever its steps, is parsed back to the steps;
    from then on a path can be made in a value exactly when it can be followed, what is put
    there is what both forms of [resolve] find, and every path that parts from it finds
    what it found before. *)
Theorem rutas l in_ : forallb paso_ok l = true ->
  let args := map argumento l in
  makePath (texto l) in_ = Ok args /\
  forall v f, ordenado v ->
    (forall v', make args f v = Ok v' ->
       exists x y, resolve args v = Ok x /\ f x = Ok y /\ resolve args v' = Ok y /\
         (forall d, resolve_default args v' d = Ok y) /\ (ordenado y -> ordenado v') /\
         (forall otra, diverge args otra -> resolve otra v' = resolve otra v)) /\
    (forall x y, resolve args v = Ok x -> f x = Ok y -> exists v', make args f v = Ok v').
Proof.
  intros Hl args. assert (reales args) as Hr.
  { unfold args. clear Hl. induction l as [|[ds|k] l IH]; [apply List.Forall_nil|..]; (apply Forall_cons; by split). }
  split; [by apply makePath_texto; [|lia]|]. intros v f Hv. split.
  - intros v' E. destruct (make_lente args f v v' Hr Hv E) as (x & y & H). exists x, y. destruct H as (? & ? & ? & ? & ?).
    split_and!; try done. intros otra Hd. by eapply make_marco.
  - intros x y. by apply make_definido.
Qed.

Lemma rutas_witness : let l := [Clave "a"; Indice "2"] in
  makePath ".a[2]" [] = Ok (map argumento l) /\
  exists v', make (map argumento l) (fun _ => Ok (intValue 7)) nullValue = Ok v' /\
    resolve_default (map argumento l) v' nullValue = Ok (intValue 7).
Proof.
  intros l. destruct (rutas l [] eq_refl) as [H1 H2]. split; [exact H1|].
  destruct (H2 nullValue (fun _ => Ok (intValue 7)) I) as [H3 H4].
  destruct (H4 nullValue (intValue 7) eq_refl eq_refl) as [v' E]. exists v'. split; [exact E|].
  destruct (H3 v' E) as (x & y & _ & Hy & _ & Hd & _). injection Hy as <-. apply Hd.
Defined.

(** The arguments of a path: the bracket after an index argument becomes a key, and every
    argument is the first one; a NUL in the path is never passed. *)
Example argumentos :
  makePath "a[%]" [kindIndex 3] = Ok [kindKey "a"; kindIndex 3; kindKey "]"] /\
  makePath "%.%" [kindKey "x"; kindKey "y"] = Ok [kindKey "x"; kindKey "x"] /\
  makePath (String NUL "") [] = Fallo SinCombustible.
Proof. by vm_compute. Qed.
End JsonPathOk.
