(* ===== verification/JsonIter.v ===== *)
(** * JsonIter: the iterators of [Json::Value] of src/json/json.cpp

    [ValueIteratorBase] and the four [begin] and [end].  An iterator of [std::map] is a
    position of the map, which is sorted by key; to read at the end, to move past it or to
    compare with the iterator of no map is undefined.  The constant and the other iterators
    have the same operations.  [asFloat] is here too. *)

From S2P Require Import Prelude Libc JsonValue.
Open Scope Z_scope.

Module JsonIter.
Import Libc Json.

(** [current_], with its map, and [isNull_]. *)
Inductive ValueIterator : Type :=
| Nulo
| En (m : ObjectValues) (current_ : nat).
Definition isNull_ (it : ValueIterator) : bool := match it with Nulo => true | En _ _ => false end.

Definition begin (v : Value) : ValueIterator :=
  match v with arrayValue m | objectValue m => En m 0 | _ => Nulo end.
Definition end_ (v : Value) : ValueIterator :=
  match v with arrayValue m | objectValue m => En m (length m) | _ => Nulo end.

(** The pair at the position. *)
Definition par_de (it : ValueIterator) : res (CZString * Value) :=
  match it with
  | Nulo => Fallo (Indefinido "ValueIteratorBase: singular iterator")
  | En m i => match m !! i with Some p => Ok p | None => Fallo (Indefinido "ValueIteratorBase: past the end") end
  end.

Definition deref (it : ValueIterator) : res Value := let? p := par_de it in Ok p.2.

Definition increment (it : ValueIterator) : res ValueIterator :=
  let? _ := par_de it in
  Ok (match it with Nulo => Nulo | En m i => En m (S i) end).

Definition decrement (it : ValueIterator) : res ValueIterator :=
  match it with
  | En m (S i) => Ok (En m i)
  | _ => Fallo (Indefinido "ValueIteratorBase: before the beginning")
  end.

(** [current_ == other.current_] *)
Definition mismo (it other : ValueIterator) : res bool :=
  match it, other with
  | En _ i, En _ j => Ok (i =? j)%nat
  | _, _ => Fallo (Indefinido "ValueIteratorBase: singular iterator")
  end.

Definition isEqual (it other : ValueIterator) : res bool :=
  if isNull_ it then Ok (isNull_ other) else mismo it other.

(** The loop of [computeDistance]; it moves past the end unless it finds [other] first. *)
Fixpoint distancia (fuel : nat) (it other : ValueIterator) (myDistance : Z) : res Z :=
  match fuel with
  | O => Fallo SinCombustible
  | S fuel =>
      let? igual := mismo it other in
      if igual : bool then Ok myDistance
      else let? it := increment it in distancia fuel it other (myDistance + 1)
  end.
Definition computeDistance (it other : ValueIterator) : res Z :=
  if isNull_ it && isNull_ other then Ok 0
  else distancia (match it with Nulo => 1 | En m i => S (S (length m)) end) it other 0.

Definition key (it : ValueIterator) : res Value :=
  let? p := par_de it in
  Ok (match p.1 with CZStr s => stringValue s | CZIndex i => uintValue (Z.of_nat i) end).

Definition index (it : ValueIterator) : res Z :=
  let? p := par_de it in
  Ok (match p.1 with CZStr _ => maxUInt | CZIndex i => Z.of_nat i end).

Definition memberName_end (it : ValueIterator) : res (option string) :=
  let? p := par_de it in
  Ok (match p.1 with CZStr s => Some s | CZIndex _ => None end).

Definition memberName (it : ValueIterator) : res string :=
  let? p := par_de it in
  Ok (match p.1 with CZStr s => c_str s | CZIndex _ => "" end).

Definition name (it : ValueIterator) : res string :=
  let? k := memberName_end it in Ok (default "" k).

(** [float]: IEEE binary32. *)
Definition f_of (d : double) : double :=
  match d with
  | S754_finite s m e => binary_normalize 24 128 (if s then Zneg m else Zpos m) e s
  | _ => d
  end.
Definition asFloat (v : Value) : res double :=
  match v with
  | intValue i => Ok (binary_normalize 24 128 i 0 false)
  | uintValue u => Ok (binary_normalize 24 128 u 0 false)
  | realValue d => Ok (f_of d)
  | nullValue => Ok (S754_zero false)
  | booleanValue b => Ok (binary_normalize 24 128 (if b then 1 else 0) 0 false)
  | _ => Fallo (LogicError "Value is not convertible to float.")
  end.

(** [for (it = begin(); it != end(); ++it) f(it);] *)
Fixpoint para {A} (fuel : nat) (f : ValueIterator -> res A) (it fin : ValueIterator) : res (list A) :=
  match fuel with
  | O => Fallo SinCombustible
  | S fuel =>
      let? igual := isEqual it fin in
      if igual : bool then Ok []
      else
        let? a := f it in
        let? it := increment it in
        let? l := para fuel f it fin in
        Ok (a :: l)
  end.
Definition recorrido {A} (f : ValueIterator -> res A) (v : Value) : res (list A) :=
  para (S (match v with arrayValue m | objectValue m => length m | _ => 0 end)) f (begin v) (end_ v).
End JsonIter.

Module JsonIterOk.
Import Libc Json JsonLeyes JsonIter.

Definition pares (v : Value) : ObjectValues := match v with arrayValue m | objectValue m => m | _ => [] end.

Lemma distancia_adelante m i j fuel n : (i <= j <= length m)%nat -> (j - i < fuel)%nat ->
  distancia fuel (En m i) (En m j) n = Ok (n + Z.of_nat (j - i)).
Proof.
  revert i n. induction fuel as [|fuel IH]; intros i n Hi Hf; [lia|]. cbn [distancia mismo bindR].
  destruct (Nat.eqb_spec i j) as [->|Hij]; [f_equal; lia|]. unfold increment, par_de.
  destruct (m !! i) as [p|] eqn:E; [|apply lookup_ge_None in E; lia]. cbn [bindR]. rewrite IH by lia. f_equal. lia.
Qed.

(** An [other] that comes before is not found. *)
Lemma distancia_atras m i j fuel n : (j < i <= length m)%nat -> (length m - i < fuel)%nat ->
  distancia fuel (En m i) (En m j) n = Fallo (Indefinido "ValueIteratorBase: past the end").
Proof.
  revert i n. induction fuel as [|fuel IH]; intros i n Hi Hf; [lia|]. cbn [distancia mismo bindR].
  destruct (Nat.eqb_spec i j) as [->|Hij]; [lia|]. unfold increment, par_de.
  destruct (m !! i) as [p|] eqn:E; cbn [bindR]; [|done]. apply lookup_lt_Some in E. apply IH; lia.
Qed.

Lemma para_ok {A} (f : ValueIterator -> res A) (g : CZString * Value -> A) m i fuel : (i <= length m)%nat -> (length m - i < fuel)%nat ->
  (forall i p, m !! i = Some p -> f (En m i) = Ok (g p)) -> para fuel f (En m i) (En m (length m)) = Ok (map g (drop i m)).
Proof.
  intros Hi Hf Hg. revert i Hi Hf. induction fuel as [|fuel IH]; intros i Hi Hf; [lia|]. cbn [para isEqual isNull_ mismo bindR].
  destruct (Nat.eqb_spec i (length m)) as [->|Hne]; [by rewrite drop_all|].
  destruct (m !! i) as [p|] eqn:E; [|apply lookup_ge_None in E; lia].
  rewrite (Hg i p E). unfold increment, par_de. rewrite E. cbn [bindR]. rewrite IH by lia. by rewrite (drop_S m p i E).
Qed.

(** The iterators visit the members of a value, whatever it is, each once and in the order of
    the map: the names are those of [getMemberNames] and each value is the one that [find]
    gives for its name; the distance from [begin] to [end] is their number, 0 for a scalar,
    and from [end] to [begin] the loop leaves the map. *)
Theorem iteracion v (m := pares v) :
  recorrido (fun it => let? k := key it in let? x := deref it in Ok (k, x)) v =
    Ok (map (fun p => (match p.1 with CZStr s => stringValue s | CZIndex i => uintValue (Z.of_nat i) end, p.2)) m) /\
  computeDistance (begin v) (end_ v) = Ok (Z.of_nat (length m)) /\
  (m <> [] -> computeDistance (end_ v) (begin v) = Fallo (Indefinido "ValueIteratorBase: past the end")) /\
  (isObject v = true -> recorrido name v = getMemberNames v) /\
  (forall s, v = objectValue m -> mapa_de (CZStr s) m ->
   recorrido (fun it => let? n := name it in let? x := deref it in let? y := find v n in Ok (y, x)) v = Ok (map (fun p => (Some p.2, p.2)) m)).
Proof.
  split_and!.
  - unfold recorrido. destruct v; try done; cbn [pares begin end_];
      by rewrite (para_ok _ (fun p => (match p.1 with CZStr s => stringValue s | CZIndex i => uintValue (Z.of_nat i) end, p.2)))
        by (try lia; intros i p E; unfold key, deref, par_de; by rewrite E).
  - subst m. destruct v; try done; unfold computeDistance; cbn [pares begin end_ isNull_ andb] in *; rewrite distancia_adelante by lia; f_equal; lia.
  - intros Hm. destruct v as [| | | | | |l|l]; try done; cbn in Hm; unfold computeDistance; cbn [begin end_ isNull_ andb];
      (apply distancia_atras; [destruct l; [done|cbn; lia]|lia]).
  - intros Ho. destruct v as [| | | | | | |l]; try done. unfold recorrido. cbn [begin end_ getMemberNames].
    rewrite (para_ok _ (key_str ∘ fst)) by (try lia; intros i p E; unfold name, memberName_end, par_de; rewrite E; by destruct p as [[]]). done.
  - intros s Ev Hs. rewrite Ev in *. unfold recorrido. cbn [begin end_]. rewrite (para_ok _ (fun p => (Some p.2, p.2))); [done|lia|lia|].
    intros i [k x] E. unfold name, memberName_end, deref, par_de, find. rewrite E. cbn [bindR fst snd].
    pose proof (list_elem_of_lookup_2 _ _ _ E) as Hin%list_elem_of_In. pose proof Hs as [_ Ht]. rewrite Forall_forall in Ht.
    specialize (Ht _ (list_elem_of_lookup_2 _ _ _ E)). destruct k as [j|t]; [done|]. cbn [default bindR fst snd from_option].
    pose proof (find_in_mapa (CZStr s) m (CZStr t, x) Hs Hin) as Ef. cbn [fst snd id] in *. by rewrite Ef.
Qed.

Lemma iteracion_witness : let v := objectValue [(CZStr "a", intValue 1); (CZStr "b", booleanValue true)] in
  recorrido name v = Ok ["a"; "b"] /\ computeDistance (end_ v) (begin v) = Fallo (Indefinido "ValueIteratorBase: past the end").
Proof.
  intros v. destruct (iteracion v) as (_ & _ & K1 & K2 & _). split; [by rewrite K2|by apply K1].
Defined.

(** A [float] is of 24 bits: 2^24 + 1 is rounded, whether it comes from an integer or a real. *)
Example asFloat_casos :
  asFloat (intValue (2 ^ 24 + 1)) = asFloat (uintValue (2 ^ 24)) /\ asFloat (realValue (d_of_Z (2 ^ 24 + 1))) = asFloat (uintValue (2 ^ 24)) /\
  asFloat (intValue (2 ^ 24 - 1)) = Ok (S754_finite false 16777215 0).
Proof. split_and!; vm_compute; reflexivity. Qed.
End JsonIterOk.
