(* ===== verification/StringUtil.v ===== *)
(** * StringUtil: src/Utilidades/StringUtil.cpp

    [split] over [std::getline] and its inverse, the separated lists of the database. *)

From S2P Require Import Prelude Libc JsonValue.
Open Scope Z_scope.

Module StringUtil.
Import Libc Json.

(** The loops stop at the first NUL, and so does [(string)lower]. *)
Definition toLower (str : string) : string := mapa tolower (c_str str).
Definition toUpper (str : string) : string := mapa toupper (c_str str).
Definition str2int (s : string) : Z := leer_int (c_str s).
Definition str2Char (s : string) : string := c_str s.

(** [while (getline(ss, item, delim)) elems.push_back(item);] takes at least one character
    per iteration. *)
Fixpoint split_loop (fuel : nat) (s : string) (delim : ascii) (elems : list string) : list string :=
  match fuel with
  | O => elems
  | S fuel =>
      match getline delim s with
      | None => elems
      | Some (item, rest) => split_loop fuel rest delim (elems ++ [item])
      end
  end.
Definition split (s : string) (delim : ascii) : list string := split_loop (String.length s) s delim [].

Definition toBoolean (value : string) : bool := String.eqb value "true".
Definition toString (value : bool) : string := if value then "true" else "false".

Fixpoint get_todos (v : Value) (indices : list nat) : res (list string) :=
  match indices with
  | [] => Ok []
  | i :: l =>
      let? x := get_index v i (stringValue "") in
      let? idActual := asString x in
      let? resto := get_todos v l in
      Ok (idActual :: resto)
  end.
Definition jsonValueToVector (vector : Value) : res (list string) :=
  get_todos vector (seq 0 (size vector)).

Definition vectorContiene (vector : list string) (valor : string) : bool :=
  existsb (fun x => String.eqb x valor) vector.

(** The way the entities build a separated list:
    [if (s != "") s += sep; s += x;] *)
Fixpoint acumular (sep : ascii) (s : string) (l : list string) : string :=
  match l with
  | [] => s
  | x :: l =>
      let s := if String.eqb s "" then s else s +:+ String sep "" in
      acumular sep (s +:+ x) l
  end.

End StringUtil.

Module StringUtilOk.
Import Libc StringUtil.

Lemma split_loop_acc n s d l : split_loop n s d l = l ++ split_loop n s d [].
Proof.
  revert s l. induction n as [|n IH]; intros s l; cbn [split_loop]; [by rewrite app_nil_r|].
  destruct (getline d s) as [[i r]|]; [|by rewrite app_nil_r].
  rewrite IH, (IH r ([] ++ [i])). by rewrite <- app_assoc.
Qed.

(** More fuel than characters changes nothing. *)
Lemma split_loop_fuel n m s d :
  (String.length s <= n)%nat -> (String.length s <= m)%nat -> split_loop n s d [] = split_loop m s d [].
Proof.
  revert m s. induction n as [|n IH]; intros m s Hn Hm.
  - destruct s; [|cbn in Hn; lia]. by destruct m.
  - destruct m as [|m]; [destruct s; [done|cbn in Hm; lia]|]. cbn [split_loop].
    destruct (getline d s) as [[i r]|] eqn:E; [|done]. apply getline_corta in E.
    rewrite split_loop_acc, (split_loop_acc m). f_equal. apply IH; lia.
Qed.

Lemma split_getline s d :
  split s d = match getline d s with None => [] | Some (i, r) => i :: split r d end.
Proof.
  unfold split. destruct s as [|c s]; [done|]. cbn [String.length split_loop].
  destruct (getline d _) as [[i r]|] eqn:E; [|done]. apply getline_corta in E. cbn in E.
  rewrite split_loop_acc. cbn [app]. f_equal. apply split_loop_fuel; lia.
Qed.

Lemma split_sep a b d : contiene d a = false -> split (a +:+ String d b) d = a :: split b d.
Proof. intros Ha. by rewrite split_getline, getline_sep. Qed.

Lemma split_uno a d : contiene d a = false -> a <> "" -> split a d = [a].
Proof. intros Ha Hne. by rewrite split_getline, getline_fin. Qed.

Lemma split_nil d : split "" d = [].
Proof. reflexivity. Qed.

Lemma acumular_no_vacia sep s l : s <> "" ->
  acumular sep s l = s +:+ String.concat "" ((fun x => String sep x) <$> l).
Proof.
  revert s. induction l as [|x l IH]; intros s Hs; cbn [acumular].
  - by rewrite app_nil_r_s.
  - rewrite (proj2 (String.eqb_neq _ _) Hs). rewrite IH by (by destruct s). rewrite !app_assoc_s. f_equal.
    cbn [fmap list_fmap]. rewrite app_cons_s, app_nil_l_s. destruct l; cbn; [by rewrite app_nil_r_s|by rewrite app_cons_s].
Qed.

Lemma acumular_app sep s l l' : acumular sep s (l ++ l') = acumular sep (acumular sep s l) l'.
Proof. revert s. induction l as [|x l IH]; intros s; [done|]. apply IH. Qed.

Lemma acumular_vacia sep s l : acumular sep s l = "" -> s = "" /\ Forall (fun x => x = "") l.
Proof.
  revert s. induction l as [|x l IH]; intros s; [done|]. cbn [acumular]. intros H. apply IH in H as [H1 H2].
  destruct s as [|c s]; [|done]. rewrite app_nil_l_s in H1. subst x. split; [done|]. by constructor.
Qed.

(** [valor += sep + x] appends an item to a list that is not empty. *)
Lemma acumular_snoc sep l x : acumular sep "" l <> "" ->
  acumular sep "" (l ++ [x]) = acumular sep "" l +:+ String sep x.
Proof.
  intros H. rewrite acumular_app. cbn [acumular]. rewrite (proj2 (String.eqb_neq _ _) H).
  by rewrite app_assoc_s.
Qed.

(** Round trip of a separated list: items without the separator and not empty come back. *)
Lemma split_acumular sep l :
  Forall (fun x => contiene sep x = false /\ x <> "") l -> split (acumular sep "" l) sep = l.
Proof.
  destruct l as [|x l]; intros Hl; [done|]. inversion Hl as [|? ? [Hx Hxne] Hl']; subst.
  cbn [acumular String.eqb]. rewrite app_nil_l_s, acumular_no_vacia by done. clear Hl.
  revert x Hx Hxne. induction Hl' as [|y l [Hy Hyne] Hl IH]; intros x Hx Hxne.
  - rewrite app_nil_r_s. by apply split_uno.
  - assert (String.concat "" ((fun x => String sep x) <$> (y :: l)) =
      String sep (y +:+ String.concat "" ((fun x => String sep x) <$> l))) as ->.
    { destruct l; cbn; [by rewrite app_nil_r_s|by rewrite app_cons_s]. }
    rewrite split_sep by done. f_equal. by apply IH.
Qed.

Lemma toBoolean_toString b : toBoolean (toString b) = b.
Proof. by destruct b. Qed.

Lemma vectorContiene_spec l x : vectorContiene l x = true <-> In x l.
Proof.
  unfold vectorContiene. rewrite existsb_exists. split.
  - intros (y & Hy & E). apply String.eqb_eq in E as ->. done.
  - intros H. exists x. split; [done|apply String.eqb_refl].
Qed.

End StringUtilOk.
