(* ===== verification/Mongoose.v ===== *)
(** * Mongoose: the parts of src/WebServer/mongoose.c the server runs on a request

    Parsing of the HTTP request, the variables of the query string and of the form, and
    the chunked reply.  The event loop, sockets, files, CGI, websockets and the other
    endpoints of the library are not modelled. *)

From S2P Require Import Prelude Libc.
Open Scope Z_scope.

Module Mongoose.
Import Libc.

Definition CR : ascii := "013"%char.
Definition NL : ascii := "010"%char.
Definition CRLF : string := String CR (String NL "").
Definition PORCIENTO : ascii := "%"%char.

(** ** Variables *)

Definition HEXTOI (x : ascii) : Z := if isdigit x then byte x - 48 else byte x - 87.

(** [mg_url_decode]: what is written to [dst] before its terminator, and whether all of
    [src] was read; [room] is what is left of [dst_len - 1]. *)
Fixpoint url_decode (form : bool) (room : Z) (src : string) : string * bool :=
  match src with
  | "" => ("", true)
  | String c r =>
      if room <=? 0 then ("", false)
      else
        let literal :=
          let '(t, ok) := url_decode form (room - 1) r in
          (String (if form && Ascii.eqb c "+" then " "%char else c) t, ok) in
        if Ascii.eqb c PORCIENTO then
          match r with
          | String x (String y r') =>
              if isxdigit x && isxdigit y then
                let '(t, ok) := url_decode form (room - 1) r' in
                (String (chr (Z.lor (Z.shiftl (HEXTOI (tolower x)) 4) (HEXTOI (tolower y)))) t, ok)
              else literal
          | _ => literal
          end
        else literal
  end.

Definition mg_url_decode (src : string) (dst_len : Z) (is_form_url_encoded : bool) : Z * string :=
  let '(dst, ok) := url_decode is_form_url_encoded (dst_len - 1) src in
  (if ok then largo dst else -1, dst).

(** Characters [mg_url_encode] keeps; [strchr] also finds the terminator. *)
Definition no_escapa (c : ascii) : bool :=
  isalnum c || contiene c "._-$,;~()" || Ascii.eqb c NUL.
Definition hex_min (n : Z) : ascii := if n <? 10 then chr (48 + n) else chr (87 + n).

Fixpoint url_encode (src : string) (j dst_len : Z) : string :=
  match src with
  | "" => ""
  | String c r =>
      if (0 <? dst_len) && (j + 2 <? dst_len - 1) then
        if no_escapa c then String c (url_encode r (j + 1) dst_len)
        else if j + 3 <? dst_len then
          String PORCIENTO (String (hex_min (Z.shiftr (byte c) 4)) (String (hex_min (Z.land (byte c) 0xf))
            (url_encode r (j + 3) dst_len)))
        else String NUL (url_encode r (j + 1) dst_len)
      else ""
  end.
Definition mg_url_encode (src : string) (dst_len : Z) : Z * string :=
  let dst := url_encode src 0 dst_len in (largo dst, dst).

(** [mg_strncasecmp(s1, s2, len) == 0] for an [s1] of [len] characters. *)
Fixpoint mg_strncasecmp_0 (s1 s2 : string) : bool :=
  match s1, s2 with
  | "", _ => true
  | String a s1, String b s2 => Ascii.eqb (tolower a) (tolower b) && mg_strncasecmp_0 s1 s2
  | String _ _, "" => false
  end.
(** [mg_strcasecmp(s1, s2) == 0] *)
Definition mg_strcasecmp_0 (s1 s2 : string) : bool :=
  String.eqb (mapa tolower (c_str s1)) (mapa tolower (c_str s2)).

(** The value text from [p] to the next ['&'] or to the end. *)
Fixpoint hasta_amp (p : string) : string :=
  match p with
  | "" => ""
  | String c r => if Ascii.eqb c "&" then "" else String c (hasta_amp r)
  end.

(** The search loop of [get_var] at [p]; [inicio] is [p == data || p[-1] == '&']. *)
Fixpoint buscar_var (name : string) (inicio : bool) (p : string) : option string :=
  match p with
  | "" => None
  | String c r =>
      if (String.length name <? String.length p)%nat && inicio &&
         match saltear (String.length name) p with String d _ => Ascii.eqb d "=" | "" => false end &&
         mg_strncasecmp_0 name p
      then Some (hasta_amp (saltear (S (String.length name)) p))
      else buscar_var name (Ascii.eqb c "&") r
  end.

(** [get_var]: the result code and the contents of [dst]. *)
Definition get_var (data : option string) (name : string) (dst_len : Z) : Z * string :=
  if dst_len =? 0 then (-2, "")
  else
    match data with
    | None | Some "" => (-1, "")
    | Some d =>
        match buscar_var name true d with
        | None => (-1, "")
        | Some v =>
            let '(len, dst) := mg_url_decode v dst_len true in
            (if len =? -1 then -2 else len, dst)
        end
    end.

(** ** Requests *)

Inductive mg_event : Type :=
| MG_POLL | MG_CONNECT | MG_AUTH | MG_REQUEST | MG_REPLY | MG_RECV | MG_CLOSE | MG_WS_HANDSHAKE
| MG_WS_CONNECT | MG_HTTP_ERROR.
Inductive mg_result : Type := MG_FALSE | MG_TRUE | MG_MORE.

Record mg_connection : Type := mkConn {
  request_method : string;
  uri : string;
  http_version : string;
  query_string : option string;
  http_headers : list (string * string);
  content : string }.

Definition mg_get_var (conn : mg_connection) (name : string) (dst_len : Z) : Z * string :=
  let '(len, dst) := get_var (query_string conn) name dst_len in
  if len <? 0 then get_var (Some (content conn)) name dst_len else (len, dst).

Fixpoint mg_get_header (headers : list (string * string)) (s : string) : option string :=
  match headers with
  | [] => None
  | (name, value) :: l => if mg_strcasecmp_0 s name then Some value else mg_get_header l s
  end.

(** [isprint] in the "C" locale. *)
Definition isprint (c : ascii) : bool := en_rango c 32 126.

(** [get_request_len] from position [i]. *)
Fixpoint request_len_desde (i : Z) (s : string) : Z :=
  match s with
  | "" => 0
  | String c r =>
      if negb (isprint c) && negb (Ascii.eqb c CR) && negb (Ascii.eqb c NL) && (byte c <? 128) then -1
      else if Ascii.eqb c NL then
        match r with
        | String x r' =>
            if Ascii.eqb x NL then i + 2
            else match r' with
                 | String y _ => if Ascii.eqb x CR && Ascii.eqb y NL then i + 3 else request_len_desde (i + 1) r
                 | "" => request_len_desde (i + 1) r
                 end
        | "" => request_len_desde (i + 1) r
        end
      else request_len_desde (i + 1) r
  end.
Definition get_request_len (s : string) : Z := request_len_desde 0 s.

(** [skip(&buf, delimiters)]: the word, and the buffer after the delimiters. *)
Definition skip (buf delimiters : string) : string * string :=
  let '(word, r) := abarcar (fun c => negb (contiene c delimiters)) buf in
  let '(_, r) := abarcar (fun c => contiene c delimiters) r in
  (word, r).

Fixpoint parse_http_headers (n : nat) (buf : string) : list (string * string) :=
  match n with
  | O => []
  | S n =>
      let '(name, buf) := skip buf ": " in
      let '(value, buf) := skip buf CRLF in
      match name with
      | "" => []
      | _ => (name, value) :: parse_http_headers n buf
      end
  end.

Definition es_barra (c : ascii) : bool := Ascii.eqb c "/" || Ascii.eqb c "092".

(** The inner loop of [remove_double_dots_and_double_slashes]. *)
Fixpoint saltar_puntos (s : string) : string :=
  match s with
  | "" => ""
  | String a r =>
      if es_barra a then saltar_puntos r
      else if Ascii.eqb a "." then
        match r with
        | String b r1 =>
            if es_barra b then saltar_puntos r1
            else if Ascii.eqb b "." then
              match r1 with
              | "" => ""
              | String c r2 => if es_barra c then saltar_puntos r2 else s
              end
            else s
        | "" => s
        end
      else s
  end.

Fixpoint remove_dots (fuel : nat) (s : string) : string :=
  match fuel, s with
  | S fuel, String c r =>
      String c (remove_dots fuel (if es_barra c then saltar_puntos r else r))
  | _, _ => ""
  end.
(** Every iteration copies one character: the length of the text is fuel enough. *)
Definition remove_double_dots_and_double_slashes (s : string) : string :=
  remove_dots (String.length s) s.

Definition is_valid_http_method (s : string) : bool :=
  existsb (String.eqb s)
    ["GET"; "POST"; "HEAD"; "CONNECT"; "PUT"; "DELETE"; "OPTIONS"; "PROPFIND"; "MKCOL"; "PATCH"].

(** [strchr(uri, '?')] splits the query string off. *)
Fixpoint partir_query (s : string) : string * option string :=
  match s with
  | "" => ("", None)
  | String c r =>
      if Ascii.eqb c "?" then ("", Some r)
      else let '(a, q) := partir_query r in (String c a, q)
  end.

Definition decodificar_uri (u : string) : string :=
  let '(_, u) := mg_url_decode u (largo u + 1) false in
  let u := c_str u in
  match u with
  | String c _ =>
      if Ascii.eqb c "/" || Ascii.eqb c "." then remove_double_dots_and_double_slashes u else u
  | "" => u
  end.

(** [parse_http_message] on a buffer of [len] characters: the request and [status_code];
    [None] is the length [~0]. *)
Definition parse_http_message (buf : string) : option (mg_connection * Z) :=
  match buf with
  | "" => None
  | _ =>
      let buf := c_str (prefijo (String.length buf - 1) buf) in
      let '(_, buf) := abarcar isspace buf in
      let '(request_method, buf) := skip buf " " in
      let '(uri, buf) := skip buf " " in
      let '(http_version, buf) := skip buf CRLF in
      let is_request := is_valid_http_method request_method in
      if (is_request && negb (String.prefix "HTTP/" http_version)) ||
         (negb is_request && negb (String.prefix "HTTP/" request_method))
      then None
      else
        let http_version := if is_request then saltear 5 http_version else http_version in
        let status_code := if is_request then 0 else atoi uri in
        let headers := parse_http_headers 30 buf in
        let '(uri, query_string) := partir_query uri in
        Some (mkConn request_method (decodificar_uri uri) http_version query_string headers "", status_code)
  end.

(** [sscanf(uri, "%*[^ :]:%hu", &n) > 0] *)
Definition host_puerto (uri : string) : bool :=
  let '(host, r) := abarcar (fun c => negb (Ascii.eqb c " " || Ascii.eqb c ":")) uri in
  match host, r with
  | String _ _, String ":" r =>
      let '(_, r) := abarcar isspace r in
      let r := match r with String "-" r => r | String "+" r => r | _ => r end in
      match r with String c _ => isdigit c | "" => false end
  | _, _ => false
  end.

Definition is_valid_uri (uri : string) : bool :=
  match uri with String "/" _ => true | _ => false end ||
  String.eqb uri "*" || mg_strncasecmp_0 "http" uri || host_puerto uri.

(** ** Replies *)

Definition status_codes : list (Z * string) :=
  [(100, "Continue"); (101, "Switching Protocols"); (102, "Processing");
   (200, "OK"); (201, "Created"); (202, "Accepted");
   (203, "Non-Authoritative Information"); (204, "No Content"); (205, "Reset Content");
   (206, "Partial Content"); (207, "Multi-Status"); (208, "Already Reported");
   (226, "IM Used"); (300, "Multiple Choices"); (301, "Moved Permanently");
   (302, "Found"); (303, "See Other"); (304, "Not Modified");
   (305, "Use Proxy"); (306, "Switch Proxy"); (307, "Temporary Redirect");
   (308, "Permanent Redirect"); (400, "Bad Request"); (401, "Unauthorized");
   (402, "Payment Required"); (403, "Forbidden"); (404, "Not Found");
   (405, "Method Not Allowed"); (406, "Not Acceptable"); (407, "Proxy Authentication Required");
   (408, "Request Timeout"); (409, "Conflict"); (410, "Gone");
   (411, "Length Required"); (412, "Precondition Failed"); (413, "Payload Too Large");
   (414, "URI Too Long"); (415, "Unsupported Media Type"); (416, "Requested Range Not Satisfiable");
   (417, "Expectation Failed"); (418, "I'm a teapot"); (422, "Unprocessable Entity");
   (423, "Locked"); (424, "Failed Dependency"); (426, "Upgrade Required");
   (428, "Precondition Required"); (429, "Too Many Requests"); (431, "Request Header Fields Too Large");
   (451, "Unavailable For Legal Reasons"); (500, "Internal Server Error"); (501, "Not Implemented");
   (502, "Bad Gateway"); (503, "Service Unavailable"); (504, "Gateway Timeout");
   (505, "HTTP Version Not Supported"); (506, "Variant Also Negotiates"); (507, "Insufficient Storage");
   (508, "Loop Detected"); (510, "Not Extended"); (511, "Network Authentication Required")].
Definition status_code_to_str (status_code : Z) : string :=
  match list_find (fun p => p.1 = status_code) status_codes with
  | Some (_, (_, s)) => s
  | None => "Server Error"
  end.

(** [mg_snprintf] into a buffer of [buflen] bytes, of the text [s] the conversions give. *)
Definition mg_snprintf (buflen : nat) (s : string) : string :=
  match buflen with O => "" | S n => prefijo n s end.

(** What the connection has sent, with [status_code] and the two flags that
    [terminate_headers] and [call_request_handler] test. *)
Record Salida : Type := mkSalida {
  status_code : Z;
  headers_sent : bool;     (* MG_HEADERS_SENT *)
  using_chunked : bool;    (* MG_USING_CHUNKED_API *)
  send_iobuf : string }.

Definition salida_nueva : Salida := mkSalida 0 false false "".

Definition IOBUF_SIZE : Z := 8192.

Definition ns_send (buf : string) (c : Salida) : Salida :=
  mkSalida (status_code c) (headers_sent c) (using_chunked c) (send_iobuf c +:+ buf).

Definition mg_send_header (name v : string) (c : Salida) : Salida :=
  let c := if status_code c =? 0
           then ns_send ("HTTP/1.1 200 OK" +:+ CRLF)
                  (mkSalida 200 (headers_sent c) (using_chunked c) (send_iobuf c))
           else c in
  let c := ns_send (name +:+ ": " +:+ v +:+ CRLF) c in
  mkSalida (status_code c) (headers_sent c) true (send_iobuf c).

Definition terminate_headers (c : Salida) : Salida :=
  if headers_sent c then c
  else
    let c := ns_send CRLF (mg_send_header "Transfer-Encoding" "chunked" c) in
    mkSalida (status_code c) true (using_chunked c) (send_iobuf c).

(** [printf("%X", n)] *)
Fixpoint hexa_loop (fuel : nat) (n : Z) (acc : string) : string :=
  match fuel with
  | O => acc
  | S fuel =>
      let d := n mod 16 in
      let acc := String (if d <? 10 then chr (48 + d) else chr (55 + d)) acc in
      if n / 16 =? 0 then acc else hexa_loop fuel (n / 16) acc
  end.
Definition fmt_X (n : Z) : string := hexa_loop (S (Z.to_nat (Z.log2 n))) n "".

Definition write_chunk (buf : string) (c : Salida) : Salida :=
  ns_send CRLF (ns_send buf (ns_send (fmt_X (largo buf) +:+ CRLF) c)).

(** [ns_avprintf] into a buffer of [size] bytes: the bytes and length handed to the
    caller.  A message of exactly [size] bytes stays in the buffer, where [vsnprintf] kept
    room for its terminator. *)
Definition avprintf_texto (size : Z) (s : string) : string :=
  if largo s =? size then prefijo (Z.to_nat (size - 1)) s +:+ String NUL "" else s.
Definition ns_avprintf (size : Z) (fmt : string) : res string :=
  let? s := printf0 fmt in
  Ok (avprintf_texto size s).

Definition mg_printf_data (fmt : string) (c : Salida) : res Salida :=
  let? buf := ns_avprintf IOBUF_SIZE fmt in
  Ok (write_chunk buf (terminate_headers c)).

Definition write_terminating_chunk (c : Salida) : Salida := ns_send ("0" +:+ CRLF +:+ CRLF) c.

(** The end of [call_request_handler], after a handler that answered [MG_TRUE]. *)
Definition terminar_respuesta (c : Salida) : Salida :=
  if using_chunked c then write_terminating_chunk (terminate_headers c) else c.

End Mongoose.
