(* ===== verification/WebSocket.v ===== *)
(** * WebSocket: handshake and frames of src/WebServer/mongoose.c

    Base 64, the answer to a websocket handshake, the frames the web server writes and the
    frame it finds at the start of what it has received. *)

From S2P Require Import Prelude Bloques Libc Sha1 Mongoose.
Open Scope Z_scope.

Module WebSocket.
Import Libc Mongoose.

(** ** Base 64 *)

Definition b64 : string := "ABCDEFGHIJKLMNOPQRSTUVWXYZabcdefghijklmnopqrstuvwxyz0123456789+/".
Definition b64_de (n : Z) : ascii := default NUL (String.get (Z.to_nat n) b64).

(** The characters the [for] loop of [base64_encode] writes. *)
Fixpoint base64_loop (src : list Z) : string :=
  match src with
  | [] => ""
  | [a] =>
      String (b64_de (Z.shiftr a 2)) (String (b64_de (Z.lor (Z.shiftl (Z.land a 3) 4) (Z.shiftr 0 4))) "")
  | [a; b] =>
      String (b64_de (Z.shiftr a 2)) (String (b64_de (Z.lor (Z.shiftl (Z.land a 3) 4) (Z.shiftr b 4)))
        (String (b64_de (Z.lor (Z.shiftl (Z.land b 15) 2) (Z.shiftr 0 6))) ""))
  | a :: b :: c :: src =>
      String (b64_de (Z.shiftr a 2)) (String (b64_de (Z.lor (Z.shiftl (Z.land a 3) 4) (Z.shiftr b 4)))
        (String (b64_de (Z.lor (Z.shiftl (Z.land b 15) 2) (Z.shiftr c 6)))
          (String (b64_de (Z.land c 63)) (base64_loop src))))
  end.

(** [while (j % 4 != 0) dst[j++] = '=';] *)
Fixpoint base64_relleno (fuel : nat) (dst : string) : string :=
  match fuel with
  | O => dst
  | S fuel => if (String.length dst mod 4 =? 0)%nat then dst else base64_relleno fuel (dst +:+ "=")
  end.

Definition base64_encode (src : list Z) : string := base64_relleno 3 (base64_loop src).

(** ** Handshake *)

Definition magic : string := "258EAFA5-E914-47DA-95CA-C5AB0DC85B11".

(** The value of [Sec-WebSocket-Accept] for a key, on a machine of the given byte order. *)
Definition ws_accept (is_big_endian : bool) (key : string) : res string :=
  let buf := mg_snprintf 500 (c_str key +:+ magic) in
  match Sha1.sha1 is_big_endian Sha1.pila_cero (bytes_of buf) with
  | Some sha => Ok (base64_encode sha)
  | None => Fallo SinCombustible
  end.

(** [send_websocket_handshake]: the text written. *)
Definition websocket_handshake (is_big_endian : bool) (key : string) : res string :=
  let? b64_sha := ws_accept is_big_endian key in
  Ok (mg_snprintf 500 ("HTTP/1.1 101 Switching Protocols" +:+ CRLF +:+ "Upgrade: websocket" +:+ CRLF +:+
    "Connection: Upgrade" +:+ CRLF +:+ "Sec-WebSocket-Accept: " +:+ b64_sha +:+ CRLF +:+ CRLF)).

(** ** Frames *)

Definition WEBSOCKET_OPCODE_CONTINUATION : Z := 0x0.
Definition WEBSOCKET_OPCODE_TEXT : Z := 0x1.
Definition WEBSOCKET_OPCODE_BINARY : Z := 0x2.
Definition WEBSOCKET_OPCODE_CONNECTION_CLOSE : Z := 0x8.
Definition WEBSOCKET_OPCODE_PING : Z := 0x9.
Definition WEBSOCKET_OPCODE_PONG : Z := 0xa.

(** [buf[i]] as [unsigned char]. *)
Definition octeto (buf : string) (i : nat) : Z := byte (default NUL (String.get i buf)).

(** The big-endian number in the [n] bytes from [i] on. *)
Fixpoint big_endian (buf : string) (i n : nat) : Z :=
  match n with
  | O => 0
  | S n => octeto buf i * 2 ^ (8 * Z.of_nat n) + big_endian buf (S i) n
  end.

(** [buf[i + header_len] ^= (buf + header_len - mask_len)[i % 4]], from [i] on. *)
Fixpoint desenmascarar (mask : string) (i : nat) (data : string) : string :=
  match data with
  | "" => ""
  | String c r => String (chr (Z.lxor (byte c) (octeto mask (i mod 4)))) (desenmascarar mask (S i) r)
  end.

(** The header of the frame at the start of [buf]: [header_len], [data_len] and
    [mask_len], all 0 while the header is incomplete. *)
Definition ws_header (buf : string) : Z * Z * Z :=
  let buf_len := largo buf in
  if 2 <=? buf_len then
    let len := Z.land (octeto buf 1) 127 in
    let mask_len := if Z.land (octeto buf 1) 128 =? 0 then 0 else 4 in
    if (len <? 126) && (mask_len <=? buf_len) then (2 + mask_len, len, mask_len)
    else if (len =? 126) && (4 + mask_len <=? buf_len) then (4 + mask_len, big_endian buf 2 2, mask_len)
    else if 10 + mask_len <=? buf_len then (10 + mask_len, big_endian buf 2 8, mask_len)
    else (0, 0, mask_len)
  else (0, 0, 0).

(** A buffered frame: [wsbits], the content after unmasking, and [frame_len]. *)
Record marco : Type := mkMarco { wsbits : Z; contenido : string; frame_len : Z }.

(** The frame [deliver_websocket_frame] finds in [recv_iobuf].  [frame_len] is a [size_t]:
    when the sum wraps around, the content extends past the buffer. *)
Definition ws_frame (buf : string) : res (option marco) :=
  let '(header_len, data_len, mask_len) := ws_header buf in
  let frame_len := (header_len + data_len) mod 2 ^ 64 in
  if (0 <? frame_len) && (frame_len <=? largo buf) then
    if largo buf <? header_len + data_len then
      Fallo (Indefinido "deliver_websocket_frame: content past the end of recv_iobuf")
    else
      let data := prefijo (Z.to_nat data_len) (saltear (Z.to_nat header_len) buf) in
      let mask := prefijo 4 (saltear (Z.to_nat (header_len - mask_len)) buf) in
      Ok (Some (mkMarco (octeto buf 0) (if 0 <? mask_len then desenmascarar mask 0 data else data) frame_len))
  else Ok None.

(** [htons] and [htonl] of a number, as the bytes they lay out. *)
Fixpoint bytes_be (n : nat) (z : Z) : string :=
  match n with
  | O => ""
  | S n => String (chr (z / 2 ^ (8 * Z.of_nat n))) (bytes_be n z)
  end.

(** [mg_websocket_write]: the bytes of the frame. *)
Definition websocket_frame (opcode : Z) (data : string) : string :=
  let data_len := largo data in
  let cabeza := String (chr (0x80 + Z.land opcode 0x0f)) in
  if data_len <? 126 then cabeza (String (chr data_len) data)
  else if data_len <=? 0xFFFF then cabeza (String (chr 126) (bytes_be 2 data_len +:+ data))
  else cabeza (String (chr 127) (bytes_be 4 (Z.shiftr data_len 32) +:+
         bytes_be 4 (Z.land data_len 0xffffffff) +:+ data)).

(** What is sent, and whether the connection is closed once it has been. *)
Definition mg_websocket_write (opcode : Z) (data : string) (c : Salida) : Salida * bool :=
  (ns_send (websocket_frame opcode data) c, opcode =? WEBSOCKET_OPCODE_CONNECTION_CLOSE).

(** [texto] is the format with its conversions done. *)
Definition mg_websocket_printf (opcode : Z) (texto : string) (c : Salida) : Salida * bool :=
  let buf := avprintf_texto 4192 texto in
  if 0 <? largo buf then mg_websocket_write opcode buf c else (c, false).

End WebSocket.
