(* ===== verification/WebSocketOk.v ===== *)
(** * WebSocketOk: the handshake and the frames are those of RFC 6455

    Reference forms of base 64 (RFC 4648) and of a frame (RFC 6455, section 5.2), and the code
    against them. *)

From S2P Require Import Prelude Bloques Libc Sha1 Mongoose WebSocket.
Open Scope Z_scope.

Module WebSocketOk.
Import Libc Mongoose WebSocket.

(** ** Base 64 *)

(** The value of a digit. *)
Definition valor (c : ascii) : option Z :=
  if en_rango c 65 90 then Some (byte c - 65)
  else if en_rango c 97 122 then Some (byte c - 71)
  else if en_rango c 48 57 then Some (byte c + 4)
  else if Ascii.eqb c "+" then Some 62
  else if Ascii.eqb c "/" then Some 63 else None.

(** A reference decoder: four digits for three bytes, and at the end two or three digits,
    with unused bits in zero, completed with ['=']. *)
Fixpoint decodificar (s : string) : option (list Z) :=
  match s with
  | "" => Some []
  | String a (String b (String c (String d s))) =>
      x ← valor a; y ← valor b;
      if Ascii.eqb c "=" then
        if Ascii.eqb d "=" && String.eqb s "" && (y mod 16 =? 0) then Some [x * 4 + y / 16] else None
      else
        z ← valor c;
        if Ascii.eqb d "=" then
          if String.eqb s "" && (z mod 4 =? 0) then Some [x * 4 + y / 16; y mod 16 * 16 + z / 4] else None
        else
          t ← valor d; l ← decodificar s;
          Some (x * 4 + y / 16 :: y mod 16 * 16 + z / 4 :: z mod 4 * 64 + t :: l)
  | _ => None
  end.

Lemma valor_b64 n : 0 <= n < 64 -> valor (b64_de n) = Some n /\ Ascii.eqb (b64_de n) "=" = false.
Proof.
  intros Hn. assert (forallb (fun k => bool_decide (valor (b64_de (Z.of_nat k)) = Some (Z.of_nat k)) &&
    negb (Ascii.eqb (b64_de (Z.of_nat k)) "=")) (seq 0 64) = true) as H by (vm_compute; reflexivity).
  rewrite forallb_forall in H. specialize (H (Z.to_nat n)). rewrite Z2Nat.id in H by lia.
  apply andb_true_iff in H as [H1 H2]; [|apply in_seq; lia].
  split; [by apply bool_decide_eq_true in H1|by apply negb_true_iff].
Qed.

Lemma lor_suma x y k : 0 <= k -> 0 <= y < 2 ^ k -> Z.lor (Z.shiftl x k) y = x * 2 ^ k + y.
Proof.
  intros Hk Hy. rewrite <- Z.shiftl_mul_pow2 by done.
  rewrite <- Z.lxor_lor, <- Z.add_nocarry_lxor; [done|..]; apply Z.bits_inj'; intros n Hn; rewrite Z.land_spec, Z.bits_0;
    (destruct (Z_lt_le_dec n k); [by rewrite Z.shiftl_spec_low|]);
    rewrite <- (Z.mod_small y (2 ^ k)) by done; by rewrite Z.mod_pow2_bits_high, andb_false_r by lia.
Qed.

(** The four digits of three bytes. *)
Lemma digitos a b c : 0 <= a < 256 -> 0 <= b < 256 -> 0 <= c < 256 ->
  (0 <= Z.shiftr a 2 < 64 /\ Z.shiftr a 2 = a / 4) /\
  (0 <= Z.lor (Z.shiftl (Z.land a 3) 4) (Z.shiftr b 4) < 64 /\
   Z.lor (Z.shiftl (Z.land a 3) 4) (Z.shiftr b 4) = a mod 4 * 16 + b / 16) /\
  (0 <= Z.lor (Z.shiftl (Z.land b 15) 2) (Z.shiftr c 6) < 64 /\
   Z.lor (Z.shiftl (Z.land b 15) 2) (Z.shiftr c 6) = b mod 16 * 4 + c / 64) /\
  (0 <= Z.land c 63 < 64 /\ Z.land c 63 = c mod 64).
Proof.
  intros Ha Hb Hc. change 3 with (Z.ones 2). change 15 with (Z.ones 4). change 63 with (Z.ones 6).
  rewrite !Z.land_ones, !Z.shiftr_div_pow2 by lia.
  change (2 ^ 2) with 4. change (2 ^ 4) with 16. change (2 ^ 6) with 64.
  assert (0 <= b / 16 < 16 /\ 0 <= c / 64 < 4 /\ 0 <= a / 4 < 64) as (? & ? & ?).
  { split_and!; try (apply Z.div_pos; lia); apply Z.div_lt_upper_bound; lia. }
  pose proof (Z.mod_pos_bound a 4 ltac:(lia)). pose proof (Z.mod_pos_bound b 16 ltac:(lia)).
  pose proof (Z.mod_pos_bound c 64 ltac:(lia)). rewrite !lor_suma by lia. change (2 ^ 4) with 16. change (2 ^ 2) with 4. lia.
Qed.

(** The bits of a byte are split between two digits and joined again. *)
Lemma separar x y m : 0 <= y < m -> (x * m + y) / m = x /\ (x * m + y) mod m = y.
Proof.
  intros Hy. split; [by rewrite Z.div_add_l, Z.div_small, Z.add_0_r by lia|].
  by rewrite Z.add_comm, Z_mod_plus_full, Z.mod_small.
Qed.
Lemma octeto_16 b : 0 <= b < 256 -> 0 <= b / 16 < 16 /\ b / 16 * 16 + b mod 16 = b.
Proof. intros. split; [split; [apply Z.div_pos|apply Z.div_lt_upper_bound]; lia|]. pose proof (Z.div_mod b 16). lia. Qed.
Lemma octeto_64 c : 0 <= c < 256 -> 0 <= c / 64 < 4 /\ c / 64 * 64 + c mod 64 = c.
Proof. intros. split; [split; [apply Z.div_pos|apply Z.div_lt_upper_bound]; lia|]. pose proof (Z.div_mod c 64). lia. Qed.
Lemma octeto_4 a : a / 4 * 4 + a mod 4 = a.
Proof. pose proof (Z.div_mod a 4). lia. Qed.

Lemma relleno_cuatro f a b c d t :
  base64_relleno f (String a (String b (String c (String d t)))) =
  String a (String b (String c (String d (base64_relleno f t)))).
Proof.
  revert t. induction f as [|f IH]; intros t; [done|]. cbn [base64_relleno String.length].
  replace (S (S (S (S (String.length t)))) mod 4)%nat with (String.length t mod 4)%nat
    by (change (S (S (S (S (String.length t))))) with (4 + String.length t)%nat;
        rewrite <- Nat.Div0.add_mod_idemp_l; done).
  destruct (_ =? 0)%nat; [done|]. apply IH.
Qed.

Lemma base64_decodifica src : Forall (fun b => 0 <= b < 256) src -> decodificar (base64_encode src) = Some src.
Proof.
  unfold base64_encode. revert src. fix IH 1. intros [|a [|b [|c src]]] Hs.
  - done.
  - inversion Hs; subst. destruct (digitos a 0 0) as ([R1 E1] & [R2 E2] & _); [lia..|].
    cbn [base64_loop]. change (base64_relleno 3 (String ?x (String ?y ""))) with (String x (String y "==")).
    cbn [decodificar]. rewrite (proj1 (valor_b64 _ R1)), (proj1 (valor_b64 _ R2)). cbn [mbind option_bind]. rewrite E1, E2.
    change (0 / 16) with 0. destruct (separar (a mod 4) 0 16) as [-> ->]; [lia|]. cbn. by rewrite octeto_4.
  - inversion Hs as [|? ? Ha Hs1]; subst. inversion Hs1; subst.
    destruct (digitos a b 0) as ([R1 E1] & [R2 E2] & [R3 E3] & _); [lia..|].
    cbn [base64_loop]. change (base64_relleno 3 (String ?x (String ?y (String ?z "")))) with (String x (String y (String z "="))).
    cbn [decodificar]. destruct (valor_b64 _ R3) as [V3 N3].
    rewrite (proj1 (valor_b64 _ R1)), (proj1 (valor_b64 _ R2)), N3, V3. cbn [mbind option_bind].
    rewrite E1, E2, E3. change (0 / 64) with 0. destruct (octeto_16 b) as [Hb Eb]; [done|].
    destruct (separar (a mod 4) (b / 16) 16 Hb) as [-> ->]. destruct (separar (b mod 16) 0 4) as [-> ->]; [lia|].
    cbn. by rewrite octeto_4, Eb.
  - inversion Hs as [|? ? Ha Hs1]; subst. inversion Hs1 as [|? ? Hb Hs2]; subst. inversion Hs2 as [|? ? Hc Hs3]; subst.
    destruct (digitos a b c) as ([R1 E1] & [R2 E2] & [R3 E3] & [R4 E4]); [lia..|].
    cbn [base64_loop]. rewrite relleno_cuatro. cbn [decodificar].
    destruct (valor_b64 _ R3) as [V3 N3]. destruct (valor_b64 _ R4) as [V4 N4].
    rewrite (proj1 (valor_b64 _ R1)), (proj1 (valor_b64 _ R2)), N3, V3, N4, V4, (IH src Hs3).
    cbn [mbind option_bind]. rewrite E1, E2, E3, E4. destruct (octeto_16 b Hb) as [Hb' Eb]. destruct (octeto_64 c Hc) as [Hc' Ec].
    destruct (separar (a mod 4) (b / 16) 16 Hb') as [-> ->]. destruct (separar (b mod 16) (c / 64) 4 Hc') as [-> ->].
    by rewrite octeto_4, Eb, Ec.
Qed.

(** ** The handshake *)

(** What the client computes (RFC 6455, 4.1): base 64 of the digest of its key and the GUID. *)
Lemma length_escribir n z : length (Fips.escribir n z) = n.
Proof. unfold Fips.escribir. by rewrite length_fmap, length_seq. Qed.

Lemma sha1_largo l : length (Fips.sha1 l) = 20%nat /\ Forall (fun b => 0 <= b < 256) (Fips.sha1 l).
Proof.
  unfold Fips.sha1. destruct (procesar _ _ _ _) as [[[[a b] c] d] e].
  rewrite !length_app, !length_escribir. split; [done|].
  repeat (apply Forall_app; split); apply Sha1Correcto.escribir_rango.
Qed.

Lemma length_base64_20 l : length l = 20%nat -> String.length (base64_encode l) = 28%nat.
Proof. do 20 (destruct l as [|? l]; [done|]). by destruct l. Qed.

Lemma snprintf_cabe n t : (String.length t < n)%nat -> mg_snprintf n t = t.
Proof. intros Hn. destruct n as [|n]; [lia|]. apply prefijo_todo. lia. Qed.

Lemma ws_accept_ok be key :
  contiene NUL key = false -> (String.length key <= 400)%nat ->
  ws_accept be key = Ok (base64_encode (Fips.sha1 (bytes_of (key +:+ magic)))).
Proof.
  intros H0 Hl. unfold ws_accept, Sha1.sha1. rewrite (c_str_id key H0), snprintf_cabe by (rewrite length_app_s; cbn; lia).
  rewrite (Sha1Correcto.final_absorbe be _ (bytes_of (key +:+ magic))); [done|].
  apply (Sha1Correcto.sha1_update_absorbe _ _ []); [by apply Sha1Correcto.sha1_init_absorbe|apply bytes_of_rango|].
  rewrite length_bytes_of, length_app_s. cbn. lia.
Qed.

(** C23. The answer to a websocket handshake is the one RFC 6455 asks for, on a machine of either
    byte order: the base 64 text of the SHA-1 digest of the key of the client followed by the
    GUID of the protocol, which decodes to that digest. *)
Theorem handshake_rfc6455 be key :
  contiene NUL key = false -> (String.length key <= 400)%nat ->
  exists acepta, decodificar acepta = Some (Fips.sha1 (bytes_of (key +:+ magic))) /\
    websocket_handshake be key = Ok ("HTTP/1.1 101 Switching Protocols" +:+ CRLF +:+ "Upgrade: websocket" +:+ CRLF +:+
      "Connection: Upgrade" +:+ CRLF +:+ "Sec-WebSocket-Accept: " +:+ acepta +:+ CRLF +:+ CRLF).
Proof.
  intros H0 Hl. destruct (sha1_largo (bytes_of (key +:+ magic))) as [Hn Hb].
  exists (base64_encode (Fips.sha1 (bytes_of (key +:+ magic)))). split; [by apply base64_decodifica|].
  unfold websocket_handshake. rewrite (ws_accept_ok be key H0 Hl). cbn [bindR]. rewrite snprintf_cabe; [done|].
  rewrite !length_app_s, length_base64_20 by done. cbn. lia.
Qed.

(** The example of the RFC. *)
Lemma handshake_rfc6455_witness :
  exists acepta, decodificar acepta = Some (Fips.sha1 (bytes_of ("dGhlIHNhbXBsZSBub25jZQ==" +:+ magic))) /\
    websocket_handshake false "dGhlIHNhbXBsZSBub25jZQ==" =
      Ok ("HTTP/1.1 101 Switching Protocols" +:+ CRLF +:+ "Upgrade: websocket" +:+ CRLF +:+
      "Connection: Upgrade" +:+ CRLF +:+ "Sec-WebSocket-Accept: " +:+ acepta +:+ CRLF +:+ CRLF).
Proof. apply (handshake_rfc6455 false); [reflexivity|cbn; lia]. Defined.

Example ejemplo_rfc6455 : ws_accept false "dGhlIHNhbXBsZSBub25jZQ==" = Ok "s3pPLMBiTxaQ9kYGzzhZRbK+xOo=".
Proof. vm_compute. reflexivity. Qed.

(** ** Frames *)

(** The payload length of RFC 6455, with the mask bit [m] (0 or 128). *)
Definition campo_largo (m n : Z) : string :=
  if n <? 126 then String (chr (m + n)) ""
  else if n <=? 0xFFFF then String (chr (m + 126)) (bytes_be 2 n)
  else String (chr (m + 127)) (bytes_be 8 n).

(** The octet [i] of the payload is combined with the octet [i mod 4] of the key. *)
Fixpoint enmascarar (key data : string) : string :=
  match key, data with
  | String k key, String c data => String (chr (Z.lxor (byte c) (byte k))) (enmascarar (key +:+ String k "") data)
  | _, _ => ""
  end.

(** A frame with the first octet [b0], masked if there is a key. *)
Definition marco_rfc (b0 : Z) (key : option string) (data : string) : string :=
  String (chr b0)
    match key with
    | None => campo_largo 0 (largo data) +:+ data
    | Some k => campo_largo 128 (largo data) +:+ k +:+ enmascarar k data
    end.

Lemma lxor_octetos a b : 0 <= a < 256 -> 0 <= b < 256 -> 0 <= Z.lxor a b < 256.
Proof.
  intros Ha Hb. replace (Z.lxor a b) with (Z.lxor a b mod 2 ^ 8); [apply Z.mod_pos_bound; lia|].
  apply Z.bits_inj'. intros n Hn. destruct (Z_lt_le_dec n 8).
  - by rewrite Z.mod_pow2_bits_low.
  - rewrite Z.mod_pow2_bits_high, Z.lxor_spec, <- (Z.mod_small a (2 ^ 8)), <- (Z.mod_small b (2 ^ 8)) by done.
    by rewrite !Z.mod_pow2_bits_high.
Qed.

Lemma xor_dos c k : chr (Z.lxor (byte (chr (Z.lxor (byte c) (byte k)))) (byte k)) = c.
Proof.
  rewrite byte_chr, Z.mod_small by (apply lxor_octetos; auto with mensajero).
  by rewrite Z.lxor_assoc, Z.lxor_nilpotent, Z.lxor_0_r, chr_byte.
Qed.

(** The key from its octet [i mod 4] on. *)
Definition desde (k0 k1 k2 k3 : ascii) (i : nat) : string :=
  let k a b c d := String a (String b (String c (String d ""))) in
  match (i mod 4)%nat with 0 => k k0 k1 k2 k3 | 1 => k k1 k2 k3 k0 | 2 => k k2 k3 k0 k1 | _ => k k3 k0 k1 k2 end%nat.

Lemma desenmascarar_ok k0 k1 k2 k3 data i :
  desenmascarar (desde k0 k1 k2 k3 0) i (enmascarar (desde k0 k1 k2 k3 i) data) = data.
Proof.
  revert i. induction data as [|c data IH]; intros i.
  - unfold desde. by destruct (i mod 4)%nat as [|[|[|?]]].
  - specialize (IH (S i)). assert (S i mod 4 = S (i mod 4) mod 4)%nat as E
      by (rewrite <- (Nat.add_1_l i), <- Nat.Div0.add_mod_idemp_r; done).
    unfold desde in *. rewrite E in IH. pose proof (Nat.mod_upper_bound i 4 ltac:(lia)) as Hi.
    destruct (i mod 4)%nat as [|[|[|[|?]]]] eqn:Ei; [..|lia];
      cbn [enmascarar desenmascarar]; rewrite Ei; unfold octeto; cbn [String.get default]; rewrite xor_dos; by f_equal.
Qed.

Lemma largo_enmascarar k0 k1 k2 k3 data :
  String.length (enmascarar (String k0 (String k1 (String k2 (String k3 "")))) data) = String.length data.
Proof.
  revert k0 k1 k2 k3. induction data as [|c data IH]; intros; [done|]. cbn [enmascarar String.length]. f_equal. apply IH.
Qed.

(** *** Numbers in big-endian order *)

Lemma length_bytes_be n z : String.length (bytes_be n z) = n.
Proof. induction n; cbn; congruence. Qed.

Lemma get_app_l i a b : (i < String.length a)%nat -> String.get i (a +:+ b) = String.get i a.
Proof.
  revert i. induction a as [|c a IH]; intros [|i] Hi; cbn in Hi; try lia; rewrite app_cons_s; [done|]. apply IH. lia.
Qed.
Lemma get_app_r i a b : String.get (String.length a + i) (a +:+ b) = String.get i b.
Proof. induction a as [|c a IH]; [done|]. rewrite app_cons_s. exact IH. Qed.

Lemma big_endian_app a b i n : (i + n <= String.length a)%nat -> big_endian (a +:+ b) i n = big_endian a i n.
Proof.
  revert i. induction n as [|n IH]; intros i Hi; [done|]. cbn [big_endian]. unfold octeto. rewrite get_app_l by lia.
  rewrite IH by lia. done.
Qed.
Lemma big_endian_desde a b i n : big_endian (a +:+ b) (String.length a + i) n = big_endian b i n.
Proof.
  revert i. induction n as [|n IH]; intros i; [done|]. cbn [big_endian]. unfold octeto. rewrite get_app_r.
  by rewrite <- IH, Nat.add_succ_r.
Qed.

Lemma big_endian_cons c b i n : big_endian (String c b) (S i) n = big_endian b i n.
Proof. exact (big_endian_desde (String c "") b i n). Qed.

Lemma big_endian_bytes n z : big_endian (bytes_be n z) 0 n = z mod 2 ^ (8 * Z.of_nat n).
Proof.
  induction n as [|n IH]; [by rewrite Z.mod_1_r|]. cbn [big_endian bytes_be].
  rewrite big_endian_cons, IH.
  unfold octeto. cbn [String.get from_option]. unfold id. rewrite byte_chr.
  replace (8 * Z.of_nat (S n)) with (8 * Z.of_nat n + 8) by lia.
  rewrite Z.pow_add_r, Z.rem_mul_r by lia. change (2 ^ 8) with 256. lia.
Qed.

Lemma bytes_be_mod n z k : 8 * Z.of_nat n <= k -> bytes_be n (z mod 2 ^ k) = bytes_be n z.
Proof.
  induction n as [|n IH]; intros Hk; [done|]. cbn [bytes_be]. rewrite IH by lia. f_equal.
  apply byte_inj. rewrite !byte_chr. change 256 with (2 ^ 8). apply Z.bits_inj'. intros j Hj.
  destruct (Z_lt_le_dec j 8); [|by rewrite !Z.mod_pow2_bits_high by lia].
  rewrite !Z.mod_pow2_bits_low, !Z.div_pow2_bits by lia. by rewrite Z.mod_pow2_bits_low by lia.
Qed.

Lemma bytes_be_app m k z : bytes_be (m + k) z = bytes_be m (z / 2 ^ (8 * Z.of_nat k)) +:+ bytes_be k z.
Proof.
  induction m as [|m IH]; [done|]. cbn [bytes_be Nat.add]. rewrite IH, app_cons_s. do 2 f_equal.
  rewrite Z.div_div, <- Z.pow_add_r by lia. do 2 f_equal. lia.
Qed.

(** The frames the server writes are those of the RFC. *)
Lemma websocket_frame_rfc opcode data :
  websocket_frame opcode data = marco_rfc (0x80 + Z.land opcode 0x0f) None data.
Proof.
  unfold websocket_frame, marco_rfc, campo_largo. destruct (_ <? 126); [done|]. destruct (_ <=? 0xFFFF); [by rewrite app_cons_s|].
  rewrite app_cons_s. do 2 f_equal. rewrite <- app_assoc_s. f_equal.
  change 0xffffffff with (Z.ones 32). rewrite Z.land_ones, Z.shiftr_div_pow2 by lia.
  rewrite (bytes_be_mod 4) by lia. by rewrite (bytes_be_app 4 4).
Qed.

(** *** Reading a frame *)

Lemma campo_bits m n : m = 0 \/ m = 128 -> 0 <= n < 128 ->
  Z.land (byte (chr (m + n))) 127 = n /\ (Z.land (byte (chr (m + n))) 128 =? 0) = (m =? 0).
Proof.
  intros Hm Hn. assert (forallb (fun k => let n := Z.of_nat k in
    forallb (fun m => (Z.land (byte (chr (m + n))) 127 =? n) && Bool.eqb (Z.land (byte (chr (m + n))) 128 =? 0) (m =? 0)) [0; 128])
    (seq 0 128) = true) as H by (vm_compute; reflexivity).
  rewrite forallb_forall in H. specialize (H (Z.to_nat n)). rewrite Z2Nat.id in H by lia.
  rewrite forallb_forall in H. specialize (H ltac:(apply in_seq; lia) m). apply andb_true_iff in H as [H1 H2].
  - split; [lia|by apply Bool.eqb_prop].
  - destruct Hm as [-> | ->]; cbn; auto.
Qed.

Definition largo_clave (m : Z) : Z := if m =? 0 then 0 else 4.

Lemma largo_cons c t : largo (String c t) = 1 + largo t.
Proof. unfold largo. cbn [String.length]. lia. Qed.

Lemma largo_campo m n : largo (campo_largo m n) <= 9.
Proof.
  unfold campo_largo, largo. destruct (_ <? _); [cbn [String.length]; lia|].
  destruct (_ <=? _); cbn [String.length]; rewrite length_bytes_be; lia.
Qed.

Lemma header_rfc c m n t :
  m = 0 \/ m = 128 -> 0 <= n < 2 ^ 64 -> largo_clave m <= largo t ->
  ws_header (String c (campo_largo m n +:+ t)) = (1 + largo (campo_largo m n) + largo_clave m, n, largo_clave m).
Proof.
  intros Hm Hn Ht. unfold campo_largo. pose proof (Zle_0_nat (String.length t)) as Hp. fold (largo t) in Hp.
  destruct (Z.ltb_spec n 126) as [H1|H1]; [|destruct (Z.leb_spec n 0xFFFF) as [H2|H2]].
  - destruct (campo_bits m n) as [B1 B2]; [done|lia|]. unfold ws_header, octeto. rewrite !app_cons_s, !largo_cons.
    cbn [String.get from_option id]. rewrite B1, B2. fold (largo_clave m).
    rewrite (proj2 (Z.leb_le _ _)), (proj2 (Z.ltb_lt _ _) H1), (proj2 (Z.leb_le _ _)) by (rewrite ?app_nil_l_s; lia). done.
  - destruct (campo_bits m 126) as [B1 B2]; [done|lia|]. unfold ws_header, octeto. rewrite !app_cons_s, !largo_cons.
    cbn [String.get from_option id]. rewrite B1, B2. fold (largo_clave m).
    assert (largo (bytes_be 2 n +:+ t) = 2 + largo t) as El by (unfold largo; rewrite length_app_s, length_bytes_be; lia).
    rewrite El, (proj2 (Z.leb_le _ _)), (proj2 (Z.leb_le (4 + largo_clave m) _)) by lia.
    cbn [Z.ltb Z.compare Z.eqb Pos.eqb andb Pos.compare Pos.compare_cont].
    rewrite !big_endian_cons, big_endian_app, big_endian_bytes by (rewrite ?length_bytes_be; lia).
    rewrite Z.mod_small by (change (2 ^ (8 * Z.of_nat 2)) with 65536; lia).
    unfold largo. rewrite length_bytes_be. by do 2 f_equal.
  - destruct (campo_bits m 127) as [B1 B2]; [done|lia|]. unfold ws_header, octeto. rewrite !app_cons_s, !largo_cons.
    cbn [String.get from_option id]. rewrite B1, B2. fold (largo_clave m).
    assert (largo (bytes_be 8 n +:+ t) = 8 + largo t) as El by (unfold largo; rewrite length_app_s, length_bytes_be; lia).
    rewrite El, (proj2 (Z.leb_le _ _)) by lia. cbn [Z.ltb Z.compare Z.eqb Pos.eqb andb Pos.compare Pos.compare_cont].
    rewrite (proj2 (Z.leb_le (10 + largo_clave m) _)) by lia.
    rewrite !big_endian_cons, big_endian_app, big_endian_bytes by (rewrite ?length_bytes_be; lia).
    rewrite Z.mod_small by exact Hn.
    unfold largo. rewrite length_bytes_be. by do 2 f_equal.
Qed.

(** The masking key of a client, or none for the frames of a server. *)
Definition clave_ok (key : option string) : Prop :=
  match key with None => True | Some k => String.length k = 4%nat end.

(** A frame as its header and what follows. *)
Lemma ws_frame_de cab datos resto key :
  ws_header (cab +:+ datos +:+ resto) = (largo cab, largo datos, largo key) ->
  0 < largo cab -> largo cab + largo datos < 2 ^ 64 -> (exists pre, cab = pre +:+ key) ->
  ws_frame (cab +:+ datos +:+ resto) =
  Ok (Some (mkMarco (octeto (cab +:+ datos +:+ resto) 0)
    (if 0 <? largo key then desenmascarar (prefijo 4 (key +:+ datos +:+ resto)) 0 datos else datos) (largo cab + largo datos))).
Proof.
  intros Hh Hc Hl [pre ->]. unfold ws_frame. rewrite Hh. set (b := (pre +:+ key) +:+ datos +:+ resto) in *.
  assert (largo b = largo (pre +:+ key) + largo datos + largo resto) as El by (unfold b, largo; rewrite !length_app_s; lia).
  assert (0 <= largo datos /\ 0 <= largo resto) as [? ?] by (unfold largo; lia).
  rewrite Z.mod_small, (proj2 (Z.ltb_lt _ _)), (proj2 (Z.leb_le _ _)), (proj2 (Z.ltb_ge _ _)) by lia. cbn [andb].
  assert (saltear (Z.to_nat (largo (pre +:+ key))) b = datos +:+ resto) as -> by (unfold largo; rewrite Nat2Z.id; apply saltear_app).
  assert (saltear (Z.to_nat (largo (pre +:+ key) - largo key)) b = key +:+ datos +:+ resto) as ->.
  { replace (Z.to_nat (largo (pre +:+ key) - largo key)) with (String.length pre) by (unfold largo; rewrite length_app_s; lia).
    unfold b. rewrite app_assoc_s. apply saltear_app. }
  assert (prefijo (Z.to_nat (largo datos)) (datos +:+ resto) = datos) as -> by (unfold largo; rewrite Nat2Z.id; apply prefijo_app).
  done.
Qed.

Lemma marco_de m b0 key enc data resto (M := String (chr b0) (campo_largo m (largo data) +:+ key +:+ enc)) :
  m = 0 \/ m = 128 -> largo key = largo_clave m -> largo enc = largo data -> 0 <= b0 < 256 -> largo data < 2 ^ 63 ->
  (if 0 <? largo key then desenmascarar (prefijo 4 (key +:+ enc +:+ resto)) 0 enc else enc) = data ->
  ws_frame (M +:+ resto) = Ok (Some (mkMarco b0 data (largo M))) /\
  ws_header (M +:+ resto) = (largo M - largo data, largo data, largo_clave m).
Proof.
  intros Hm Hk He Hb Hl Hd. pose proof (Zle_0_nat (String.length data)) as Hp. fold (largo data) in Hp.
  set (cab := String (chr b0) (campo_largo m (largo data) +:+ key)).
  assert (M = cab +:+ enc) as EM by (unfold M, cab; by rewrite app_cons_s, app_assoc_s).
  assert (largo cab = 1 + largo (campo_largo m (largo data)) + largo_clave m) as Ec
    by (rewrite <- Hk; unfold cab, largo; cbn [String.length]; rewrite length_app_s; lia).
  assert (0 <= largo_clave m <= 4) as Hc by (unfold largo_clave; destruct (_ =? _); lia).
  pose proof (largo_campo m (largo data)). assert (0 <= largo (campo_largo m (largo data))) by (unfold largo; lia).
  assert (ws_header (cab +:+ enc +:+ resto) = (largo cab, largo data, largo_clave m)) as Hh.
  { rewrite Ec. unfold cab. rewrite app_cons_s, app_assoc_s. apply header_rfc; [done|lia|].
    rewrite <- Hk. unfold largo. rewrite length_app_s. lia. }
  assert (largo M = largo cab + largo data) as EL by (rewrite EM, <- He; unfold largo; rewrite length_app_s; lia).
  rewrite EL, EM, app_assoc_s, Hh. split; [|do 2 f_equal; lia].
  rewrite (ws_frame_de cab enc resto key); [|by rewrite Hh, Hk, He|lia|lia|by exists (String (chr b0) (campo_largo m (largo data)))].
  rewrite Hd, He. do 3 f_equal. unfold octeto. cbn [cab String.get from_option]. unfold cab. rewrite app_cons_s.
  cbn [String.get from_option]. unfold id. by rewrite byte_chr, Z.mod_small.
Qed.

Lemma marco_leido b0 key data resto :
  0 <= b0 < 256 -> clave_ok key -> largo data < 2 ^ 63 ->
  ws_frame (marco_rfc b0 key data +:+ resto) = Ok (Some (mkMarco b0 data (largo (marco_rfc b0 key data)))) /\
  exists ml, ws_header (marco_rfc b0 key data +:+ resto) = (largo (marco_rfc b0 key data) - largo data, largo data, ml).
Proof.
  intros Hb Hk Hl. destruct key as [k|]; cbn in Hk.
  - destruct k as [|k0 [|k1 [|k2 [|k3 [|]]]]]; try done.
    set (k := String k0 _). destruct (marco_de 128 b0 k (enmascarar k data) data resto) as [E1 E2];
      [by right|done| |done|done| |split; [exact E1|eexists; exact E2]].
    + unfold k, largo. by rewrite largo_enmascarar.
    + exact (desenmascarar_ok k0 k1 k2 k3 data 0).
  - destruct (marco_de 0 b0 "" data data resto) as [E1 E2]; try done; [by left|].
    rewrite app_nil_l_s in E1, E2. split; [exact E1|eexists; exact E2].
Qed.

(** *** A frame that has not arrived whole *)

Lemma octeto_app p x i : (i < String.length p)%nat -> octeto (p +:+ x) i = octeto p i.
Proof. intros Hi. unfold octeto. by rewrite get_app_l. Qed.

Lemma header_prefijo p x : (exists ml, ws_header p = (0, 0, ml)) \/ ws_header (p +:+ x) = ws_header p.
Proof.
  unfold ws_header. destruct (Z.leb_spec 2 (largo p)) as [H2|H2]; [|left; by eexists].
  assert (largo p <= largo (p +:+ x)) as Hle by (unfold largo; rewrite length_app_s; lia).
  rewrite (proj2 (Z.leb_le 2 (largo (p +:+ x)))), octeto_app by (unfold largo in *; lia).
  set (len := Z.land _ 127). set (ml := if _ =? 0 then 0 else 4).
  assert (0 <= ml) by (unfold ml; destruct (_ =? _); lia).
  destruct (Z.ltb_spec len 126); [|destruct (Z.eqb_spec len 126)]; cbn [andb].
  - destruct (Z.leb_spec ml (largo p)); [right; by rewrite (proj2 (Z.leb_le _ _)) by lia|]. left.
    rewrite (proj2 (Z.leb_gt (4 + ml) _)), (proj2 (Z.leb_gt (10 + ml) _)), andb_false_r by lia. by eexists.
  - destruct (Z.leb_spec (4 + ml) (largo p)).
    + right. rewrite (proj2 (Z.leb_le _ _)) by lia. by rewrite big_endian_app by (unfold largo in *; lia).
    + left. rewrite (proj2 (Z.leb_gt _ _)) by lia. by eexists.
  - destruct (Z.leb_spec (10 + ml) (largo p)); [|left; by eexists].
    right. rewrite (proj2 (Z.leb_le _ _)) by lia. by rewrite big_endian_app by (unfold largo in *; lia).
Qed.

Lemma marco_incompleto b0 key data p x :
  0 <= b0 < 256 -> clave_ok key -> largo data < 2 ^ 63 -> marco_rfc b0 key data = p +:+ x -> x <> "" -> ws_frame p = Ok None.
Proof.
  intros Hb Hk Hl Hm Hx. destruct (marco_leido b0 key data "" Hb Hk Hl) as [_ [ml Hh]]. rewrite app_nil_r_s in Hh.
  unfold ws_frame. destruct (header_prefijo p x) as [[ml' ->]|E]; [done|]. rewrite <- E, <- Hm, Hh.
  assert (largo p < largo (marco_rfc b0 key data)) as Hlt.
  { rewrite Hm. unfold largo. rewrite length_app_s. destruct x; [done|]. cbn [String.length]. lia. }
  replace (_ - largo data + largo data) with (largo (marco_rfc b0 key data)) by lia.
  assert (largo (marco_rfc b0 key data) < 2 ^ 64).
  { unfold marco_rfc. destruct key as [k|]; cbn in Hk; rewrite largo_cons; unfold largo in *; rewrite !length_app_s.
    - pose proof (largo_campo 128 (largo data)). unfold largo in *.
      destruct k as [|k0 [|k1 [|k2 [|k3 [|]]]]]; try done. rewrite largo_enmascarar. cbn [String.length]. lia.
    - pose proof (largo_campo 0 (largo data)). unfold largo in *. lia. }
  rewrite Z.mod_small by (unfold largo in *; lia). rewrite (proj2 (Z.leb_gt _ _) Hlt), andb_false_r. done.
Qed.

(** C24. Websocket frames: a frame of RFC 6455, masked by the client with any key or written by the
    server itself, of any length the three forms of its header can hold up to 2^63 - 1, is read
    back with its first octet, its payload and its length, whatever follows it in the buffer; and
    while any part of it is missing nothing is delivered. *)
Theorem marco_roundtrip b0 key data resto p x :
  0 <= b0 < 256 -> clave_ok key -> largo data < 2 ^ 63 -> marco_rfc b0 key data = p +:+ x -> x <> "" ->
  ws_frame (marco_rfc b0 key data +:+ resto) = Ok (Some (mkMarco b0 data (largo (marco_rfc b0 key data)))) /\
  ws_frame p = Ok None /\
  forall opcode, websocket_frame opcode data = marco_rfc (0x80 + Z.land opcode 0x0f) None data.
Proof.
  intros Hb Hk Hl Hm Hx. split_and!; [by apply marco_leido|by eapply marco_incompleto|].
  intros opcode. apply websocket_frame_rfc.
Qed.

(** The masked and the unmasked "Hello" of the RFC. *)
Lemma marco_roundtrip_witness :
  let m := marco_rfc 0x81 (Some "7ab=") "Hello" in
  ws_frame (m +:+ "x") = Ok (Some (mkMarco 0x81 "Hello" 11)) /\ ws_frame (prefijo 10 m) = Ok None /\
  forall opcode, websocket_frame opcode "Hello" = marco_rfc (0x80 + Z.land opcode 0x0f) None "Hello".
Proof.
  apply (marco_roundtrip 0x81 (Some "7ab=") "Hello" "x" (prefijo 10 (marco_rfc 0x81 (Some "7ab=") "Hello"))
    (saltear 10 (marco_rfc 0x81 (Some "7ab=") "Hello"))); [lia|reflexivity|reflexivity|vm_compute; reflexivity|vm_compute; discriminate].
Defined.

End WebSocketOk.
