(* ===== verification/Conexion.v ===== *)
(** * Conexion: an HTTP connection of src/WebServer/mongoose.c

    What the web server does with the bytes of a connection: it buffers them until a request
    is complete, parses it, answers malformed requests itself and hands the others to the
    event handler of the program, keeps the connection alive or closes it.  The handler
    is the interface [Manejador]; the options are the ones [mg_create_server] sets (no document
    root, no rewrites, no proxy, no access log), so no request reaches the file system.
    Allocation does not fail in the model. *)

From S2P Require Import Prelude Bloques Libc Sha1 Mongoose WebSocket.
Open Scope Z_scope.

(** The user's side of the web server: [mg_handler_t], on the request of the connection (if one
    has been parsed) and on the reply being built; [time(NULL)]; the byte order. *)
Class Manejador (S : Type) : Type := {
  event_handler : option Mongoose.mg_connection -> Mongoose.mg_event -> M (Mongoose.Salida * S) Mongoose.mg_result;
  time_null : M S Z;
  is_big_endian : bool }.

Module Conexion.
Import Libc Mongoose WebSocket.

(** ** Buffers *)

(** [struct iobuf]: the bytes in use and the size allocated. *)
Record iobuf : Type := mkIobuf { buf : string; size : Z }.

Definition iobuf_resize (new_size : Z) (io : iobuf) : iobuf :=
  if (size io <? new_size) || ((new_size <? size io) && (largo (buf io) <=? new_size))
  then mkIobuf (buf io) new_size else io.
Definition iobuf_init (initial_size : Z) : iobuf := iobuf_resize initial_size (mkIobuf "" 0).
Definition iobuf_free (io : iobuf) : iobuf := iobuf_init 0.
Definition iobuf_append (b : string) (io : iobuf) : iobuf :=
  let len := largo b in
  if len <=? 0 then io
  else if largo (buf io) + len <=? size io then mkIobuf (buf io +:+ b) (size io)
  else mkIobuf (buf io +:+ b) (largo (buf io) + len).
Definition iobuf_remove (n : Z) (io : iobuf) : iobuf :=
  if (0 <? n) && (n <=? largo (buf io)) then mkIobuf (saltear (Z.to_nat n) (buf io)) (size io) else io.

(** ** Options *)

Definition static_config_options : list (string * option string) :=
  [("access_control_list", None); ("access_log_file", None); ("auth_domain", Some "mydomain.com");
   ("cgi_interpreter", None); ("cgi_pattern", Some "**.cgi$|**.pl$|**.php$"); ("dav_auth_file", None);
   ("dav_root", None); ("document_root", None); ("enable_directory_listing", Some "yes");
   ("enable_proxy", None); ("extra_mime_types", None); ("global_auth_file", None);
   ("hide_files_patterns", None); ("hexdump_file", None);
   ("index_files", Some "index.html,index.htm,index.shtml,index.cgi,index.php"); ("listening_port", None);
   ("run_as_user", None); ("ssi_pattern", Some "**.shtml$|**.shtm$"); ("url_rewrites", None)].

(** [config_options] after [mg_create_server]; the program only sets the listening port. *)
Definition config_option (name : string) : option string :=
  match list_find (fun p => p.1 = name) static_config_options with
  | Some (_, (_, value)) => value
  | None => None
  end.

(** ** The state of a connection *)

Inductive endpoint_type : Type := EP_NONE | EP_FILE | EP_CGI | EP_USER | EP_PUT | EP_CLIENT | EP_PROXY.
#[export] Instance endpoint_type_eq_dec : EqDecision endpoint_type.
Proof. solve_decision. Defined.

(** [struct connection] with the [struct ns_connection] and [struct mg_connection] it is linked
    to.  [mg_conn] is [None] while the pointers of the request are null; [respuesta] holds
    [send_iobuf], [status_code] and the flags of the chunked reply. *)
Record connection : Type := mkConnection {
  mg_conn : option mg_connection;
  is_websocket : bool;
  tipo : endpoint_type;
  num_bytes_recv : Z;
  cl : Z;
  request_len : Z;
  recv_iobuf : iobuf;
  respuesta : Salida;
  finished_sending : bool;     (* NSF_FINISHED_SENDING_DATA *)
  close_immediately : bool }.  (* NSF_CLOSE_IMMEDIATELY *)

Definition connection_nueva : connection :=
  mkConnection None false EP_NONE 0 0 0 (iobuf_init 0) salida_nueva false false.

Definition con_request (r : option mg_connection) (c : connection) : connection :=
  mkConnection r (is_websocket c) (tipo c) (num_bytes_recv c) (cl c) (request_len c) (recv_iobuf c)
    (respuesta c) (finished_sending c) (close_immediately c).
Definition con_websocket (b : bool) (c : connection) : connection :=
  mkConnection (mg_conn c) b (tipo c) (num_bytes_recv c) (cl c) (request_len c) (recv_iobuf c)
    (respuesta c) (finished_sending c) (close_immediately c).
Definition con_tipo (t : endpoint_type) (c : connection) : connection :=
  mkConnection (mg_conn c) (is_websocket c) t (num_bytes_recv c) (cl c) (request_len c) (recv_iobuf c)
    (respuesta c) (finished_sending c) (close_immediately c).
Definition con_recibidos (n : Z) (c : connection) : connection :=
  mkConnection (mg_conn c) (is_websocket c) (tipo c) n (cl c) (request_len c) (recv_iobuf c)
    (respuesta c) (finished_sending c) (close_immediately c).
Definition con_cl (n : Z) (c : connection) : connection :=
  mkConnection (mg_conn c) (is_websocket c) (tipo c) (num_bytes_recv c) n (request_len c) (recv_iobuf c)
    (respuesta c) (finished_sending c) (close_immediately c).
Definition con_request_len (n : Z) (c : connection) : connection :=
  mkConnection (mg_conn c) (is_websocket c) (tipo c) (num_bytes_recv c) (cl c) n (recv_iobuf c)
    (respuesta c) (finished_sending c) (close_immediately c).
Definition con_recv (io : iobuf) (c : connection) : connection :=
  mkConnection (mg_conn c) (is_websocket c) (tipo c) (num_bytes_recv c) (cl c) (request_len c) io
    (respuesta c) (finished_sending c) (close_immediately c).
Definition con_respuesta (s : Salida) (c : connection) : connection :=
  mkConnection (mg_conn c) (is_websocket c) (tipo c) (num_bytes_recv c) (cl c) (request_len c) (recv_iobuf c)
    s (finished_sending c) (close_immediately c).
Definition con_finished (b : bool) (c : connection) : connection :=
  mkConnection (mg_conn c) (is_websocket c) (tipo c) (num_bytes_recv c) (cl c) (request_len c) (recv_iobuf c)
    (respuesta c) b (close_immediately c).
Definition con_close (b : bool) (c : connection) : connection :=
  mkConnection (mg_conn c) (is_websocket c) (tipo c) (num_bytes_recv c) (cl c) (request_len c) (recv_iobuf c)
    (respuesta c) (finished_sending c) b.

(** [conn->content = p; conn->content_len = n] *)
Definition con_cuerpo (s : string) (r : mg_connection) : mg_connection :=
  mkConn (request_method r) (uri r) (http_version r) (query_string r) (http_headers r) s.
Definition con_content (s : string) (c : connection) : connection :=
  con_request (con_cuerpo s <$> mg_conn c) c.

Definition header_de (c : connection) (name : string) : option string :=
  match mg_conn c with None => None | Some r => mg_get_header (http_headers r) name end.

Definition should_keep_alive (c : connection) : bool :=
  match mg_conn c with
  | None => false
  | Some r =>
      (String.eqb (request_method r) "GET" || bool_decide (tipo c = EP_USER)) &&
      match mg_get_header (http_headers r) "Connection" with
      | Some h => mg_strcasecmp_0 h "keep-alive"
      | None => String.eqb (http_version r) "1.1"
      end
  end.

Section Conexion.
Context {S : Type} {H : Manejador S}.
Abbreviation W := (M (connection * S)).

Definition cambia (f : connection -> connection) : W unit := cambiar (fun '(c, s) => (f c, s)).
Definition lee {B} (f : connection -> B) : W B := leer (fun '(c, _) => f c).
Definition responde_con (f : Salida -> Salida) : W unit := cambia (fun c => con_respuesta (f (respuesta c)) c).
Definition con_status (n : Z) (s : Salida) : Salida :=
  mkSalida n (headers_sent s) (using_chunked s) (send_iobuf s).

Definition call_user (ev : mg_event) : W mg_result := fun '(c, s) =>
  let '(r, (sal, s')) := event_handler (mg_conn c) ev (respuesta c, s) in
  (r, (con_respuesta sal c, s')).

Definition ahora : W Z := fun '(c, s) => let '(r, s') := time_null s in (r, (c, s')).

(** [mg_printf] and [ns_send]. *)
Definition enviar (s : string) : W unit := responde_con (ns_send s).

(** The functions below call each other through [close_local_endpoint], which goes back to
    [on_recv_data] on a connection that is kept alive: [on_recv] is that call. *)
Section Recursion.
Context (on_recv : W unit).

(** [log_access] writes nothing: there is no access log. *)
Definition close_local_endpoint : W unit :=
  let* keep_alive := lee (fun c => should_keep_alive c && bool_decide (tipo c = EP_FILE \/ tipo c = EP_USER)) in
  let* t := lee tipo in
  match t with
  | EP_NONE | EP_USER | EP_CLIENT =>
      cambia (fun c => mkConnection None false EP_NONE 0 0 0 (iobuf_free (recv_iobuf c))
        (mkSalida 0 false false (send_iobuf (respuesta c))) false false);;;
      if keep_alive : bool then on_recv
      else
        cambia (fun c => if String.eqb (send_iobuf (respuesta c)) "" then con_close true c else con_finished true c)
  | _ => falla (FueraDelModelo "close_local_endpoint: file, CGI or proxy endpoint")
  end.

(** [send_http_error(conn, code, NULL)]; there are no rewrites. *)
Definition send_http_error (code : Z) : W unit :=
  let message := status_code_to_str code in
  responde_con (con_status code);;;
  let* r := call_user MG_HTTP_ERROR in
  match r with
  | MG_TRUE => close_local_endpoint
  | _ =>
      let body := mg_snprintf 200 (decimal code +:+ " " +:+ message +:+ String NL "") in
      let body := if ((300 <=? code) && (code <=? 399)) || (code =? 204) then "" else body in
      let headers := mg_snprintf 200 ("HTTP/1.1 " +:+ decimal code +:+ " " +:+ message +:+ CRLF +:+
        "Content-Length: " +:+ decimal (largo body) +:+ CRLF +:+ "Content-Type: text/plain" +:+ CRLF +:+ CRLF) in
      enviar headers;;;
      enviar body;;;
      close_local_endpoint
  end.

Definition send_options : W unit :=
  responde_con (con_status 200);;;
  enviar ("HTTP/1.1 200 OK" +:+ CRLF +:+ "Allow: GET, POST, HEAD, CONNECT, PUT, " +:+
    "DELETE, OPTIONS, PROPFIND, MKCOL" +:+ CRLF +:+ "DAV: 1" +:+ CRLF +:+ CRLF);;;
  close_local_endpoint.

Definition comilla : string := String "034"%char "".

Definition mg_send_digest_auth_request : W unit :=
  responde_con (con_status 401);;;
  let* t := ahora in
  enviar ("HTTP/1.1 401 Unauthorized" +:+ CRLF +:+ "Content-Length: 0" +:+ CRLF +:+
    "WWW-Authenticate: Digest qop=" +:+ comilla +:+ "auth" +:+ comilla +:+ ", realm=" +:+ comilla +:+
    default "" (config_option "auth_domain") +:+ comilla +:+ ", nonce=" +:+ comilla +:+ decimal t +:+
    comilla +:+ CRLF +:+ CRLF);;;
  close_local_endpoint.

Definition open_local_endpoint (skip_user : bool) : W unit :=
  cambia (con_tipo EP_NONE);;;
  let* auth := call_user MG_AUTH in
  match auth with
  | MG_FALSE => mg_send_digest_auth_request
  | _ =>
      if negb skip_user then cambia (con_tipo EP_USER)
      else
        let* r := lee mg_conn in
        match r with
        | None => falla (Indefinido "open_local_endpoint: null request")
        | Some r =>
            if String.eqb (request_method r) "CONNECT" || mg_strncasecmp_0 "http" (uri r) then
              match config_option "enable_proxy" with
              | Some "yes" => falla (FueraDelModelo "proxify_connection")
              | _ => send_http_error 405
              end
            else if String.eqb (request_method r) "OPTIONS" then send_options
            else
              match config_option "document_root" with
              | None => send_http_error 404
              | Some _ => falla (FueraDelModelo "open_local_endpoint: document root")
              end
        end
  end.

Definition call_request_handler : W mg_result :=
  cambia (fun c => con_content (buf (recv_iobuf c)) c);;;
  let* result := call_user MG_REQUEST in
  match result with
  | MG_TRUE =>
      let* chunked := lee (fun c => using_chunked (respuesta c)) in
      (if chunked : bool
       then responde_con terminate_headers;;; responde_con write_terminating_chunk
       else ret tt);;;
      close_local_endpoint;;;
      ret result
  | _ => ret result
  end.

(** The handler runs on the frame; [iobuf_remove] follows. *)
Definition deliver_websocket_frame : W bool :=
  let* io := lee recv_iobuf in
  let* m := alzar (ws_frame (buf io)) in
  match m with
  | None => ret false
  | Some m =>
      cambia (con_content (contenido m));;;
      let* r := call_user MG_REQUEST in
      match r with MG_FALSE => cambia (con_finished true) | _ => ret tt end;;;
      cambia (fun c => con_recv (iobuf_remove (frame_len m) (recv_iobuf c)) c);;;
      ret true
  end.

(** [do { } while (deliver_websocket_frame(conn));] *)
Fixpoint deliver_frames (fuel : nat) : W unit :=
  match fuel with
  | O => falla SinCombustible
  | Datatypes.S fuel =>
      let* mas := deliver_websocket_frame in
      if mas : bool then deliver_frames fuel else ret tt
  end.

(** Every frame removes bytes: the length of the buffer is fuel enough. *)
Definition call_request_handler_if_data_is_buffered : W unit :=
  let* ws := lee is_websocket in
  if ws : bool then
    let* n := lee (fun c => String.length (buf (recv_iobuf c))) in
    deliver_frames (Datatypes.S n)
  else
    let* t := lee (fun c => cl c + request_len c) in
    if 2 ^ 63 <=? t then falla (Indefinido "cl + request_len: signed overflow")
    else
      let* n := lee num_bytes_recv in
      if t <=? n then
        let* r := call_request_handler in
        match r with MG_FALSE => open_local_endpoint true | _ => ret tt end
      else ret tt.

Definition send_websocket_handshake_if_requested : W unit :=
  let* ver := lee (fun c => header_de c "Sec-WebSocket-Version") in
  let* key := lee (fun c => header_de c "Sec-WebSocket-Key") in
  match ver, key with
  | Some _, Some key =>
      cambia (con_websocket true);;;
      let* r := call_user MG_WS_HANDSHAKE in
      match r with
      | MG_FALSE => let* t := alzar (websocket_handshake is_big_endian key) in enviar t
      | _ => ret tt
      end;;;
      let* _ := call_user MG_WS_CONNECT in ret tt
  | _, _ => ret tt
  end.

Definition send_continue_if_expected : W unit :=
  let* expect_hdr := lee (fun c => header_de c "Expect") in
  match expect_hdr with
  | Some h => if mg_strcasecmp_0 h "100-continue" then enviar ("HTTP/1.1 100 Continue" +:+ CRLF +:+ CRLF) else ret tt
  | None => ret tt
  end.

Definition try_parse : W unit :=
  let* n := lee request_len in
  let* io := lee recv_iobuf in
  if n =? 0 then
    let len := get_request_len (buf io) in
    cambia (con_request_len len);;;
    if 0 <? len then
      let request := prefijo (Z.to_nat len) (buf io) in
      cambia (con_recv (iobuf_remove len io));;;
      match parse_http_message request with
      | None => cambia (fun c => con_request_len (-1) (con_request None (con_websocket false c)));;;
                responde_con (con_status 0)
      | Some (r, status) =>
          cambia (fun c => con_request (Some r) (con_websocket false c));;;
          responde_con (con_status status);;;
          cambia (con_cl (match mg_get_header (http_headers r) "Content-Length" with
                          | None => 0 | Some h => strtoll h end))
      end
    else ret tt
  else ret tt.

Definition MAX_REQUEST_SIZE : Z := 16384.

Definition version_ok (c : connection) : bool :=
  match mg_conn c with
  | None => false
  | Some r => String.eqb (http_version r) "1.0" || String.eqb (http_version r) "1.1"
  end.
Definition uri_ok (c : connection) : bool :=
  match mg_conn c with None => false | Some r => is_valid_uri (uri r) end.

(** What [call_user(conn, MG_RECV)] returned, as a number of bytes to discard. *)
Definition a_descartar (r : mg_result) : Z := match r with MG_FALSE => 0 | MG_TRUE => 1 | MG_MORE => 2 end.

(** The received data goes to the endpoint. *)
Definition repartir : W unit :=
  let* t := lee tipo in
  match t with
  | EP_USER =>
      cambia (fun c => con_content (buf (recv_iobuf c)) c);;;
      let* n := call_user MG_RECV in
      cambia (fun c => if a_descartar n <=? largo (buf (recv_iobuf c))
                       then con_recv (iobuf_remove (a_descartar n) (recv_iobuf c)) c else c);;;
      call_request_handler_if_data_is_buffered
  | EP_CGI | EP_PUT => falla (FueraDelModelo "on_recv_data: CGI or PUT endpoint")
  | _ => ret tt
  end.

Definition on_recv_data_paso : W unit :=
  let* t := lee tipo in
  match t with
  | EP_PROXY => falla (FueraDelModelo "do_proxy")
  | _ =>
      try_parse;;;
      let* c := lee (fun c => c) in
      (if (request_len c <? 0) || ((0 <? request_len c) && negb (uri_ok c)) then send_http_error 400
       else if (request_len c =? 0) && (MAX_REQUEST_SIZE <? largo (buf (recv_iobuf c))) then send_http_error 413
       else if (0 <? request_len c) && negb (version_ok c) then send_http_error 505
       else if (0 <? request_len c) && bool_decide (tipo c = EP_NONE) then
         send_websocket_handshake_if_requested;;;
         send_continue_if_expected;;;
         open_local_endpoint false
       else ret tt);;;
      repartir
  end.
End Recursion.

(** A connection kept alive has an empty buffer, so the inner call stops: two levels are
    enough. *)
Fixpoint on_recv_data_f (fuel : nat) : W unit :=
  match fuel with
  | O => falla SinCombustible
  | Datatypes.S fuel => on_recv_data_paso (on_recv_data_f fuel)
  end.
Definition on_recv_data : W unit := on_recv_data_f 2.

End Conexion.
End Conexion.
