(* ===== verification/Red.v ===== *)
(** * Red: the connections and the event loop of src/WebServer/mongoose.c

    The events of a connection ([mg_ev_handler]), reading and writing its socket, and one turn
    of the loop ([ns_mgr_poll]).  What the kernel answers to [select], [recv], [send] and
    [accept] during a turn, and the times it reads, are the record [Sucesos], an argument of the
    turn. *)

From S2P Require Import Prelude Libc Mongoose WebSocket Conexion.
Open Scope Z_scope.

Module Red.
Import Libc Mongoose WebSocket Conexion.

(** An active connection: a name of its own, its descriptor [conn->sock], which the kernel
    gives again to others once it is closed, the rest of [struct ns_connection], and what the
    kernel has taken from it to send to the client. *)
Record nodo : Type := mkNodo {
  sock : nat;
  fd : Z;
  conn : connection;
  last_io_time : Z;
  entregado : string }.

(** How the loop of [ns_read_from_socket] ends: [recv] answers 0, an error that closes the
    connection, or that there is nothing more for now. *)
Inductive fin_lectura : Type := CERRADO | ERROR | NADA_MAS.
(** The answer of [send]: an error that closes the connection, or the bytes taken (none when
    the socket is not ready). *)
Inductive escritura : Type := FALLA | ESCRITOS (n : nat).

Record Sucesos : Type := mkSucesos {
  hora : Z;                                        (* before [select] *)
  hora_select : Z;                                 (* after it *)
  legibles : nat -> option (list string * fin_lectura);
  escribibles : nat -> option escritura;
  acepta : bool;                                   (* [accept] gives a connection: *)
  descriptor : Z;                                  (* its descriptor *)
  hora_accept : Z }.                               (* and the time in [ns_add_sock] *)

Definition INVALID_SOCKET : Z := -1.
Definition FD_SETSIZE : Z := 1024.                  (* of the C library, on Linux *)
Definition MONGOOSE_USE_WEBSOCKET_PING_INTERVAL : Z := 5.
Definition MONGOOSE_IDLE_TIMEOUT_SECONDS : Z := 300.

Section Red.
Context {S : Type} {H : Manejador S}.

Record Red : Type := mkRed {
  active_connections : list nodo;
  despedidas : list nodo;        (* the connections closed at the end of a turn *)
  siguiente : nat;               (* the name of the next connection *)
  estado : S }.

Abbreviation W := (M (connection * S)).

(** *** The events of a connection *)

(** NS_RECV: [n] bytes are new in [recv_iobuf]. *)
Definition ev_recv (n : Z) : W unit :=
  cambia (fun c => con_recibidos (num_bytes_recv c + n) c);;;
  on_recv_data.

(** NS_CLOSE *)
Definition ev_close : W unit :=
  let* _ := call_user MG_CLOSE in
  close_local_endpoint on_recv_data.

Definition ping_idle_websocket_connection (t last : Z) : W unit :=
  if MONGOOSE_USE_WEBSOCKET_PING_INTERVAL <? t - last
  then enviar (websocket_frame WEBSOCKET_OPCODE_PING "") else ret tt.

(** NS_POLL at time [t]; the result tells whether the connection expired, which has
    raised NS_CLOSE. *)
Definition ev_poll (t last : Z) : W bool :=
  let* r := call_user MG_POLL in
  match r with
  | MG_TRUE =>
      let* enviadas := lee (fun c => headers_sent (respuesta c)) in
      (if enviadas : bool then responde_con write_terminating_chunk else ret tt);;;
      close_local_endpoint on_recv_data
  | _ => ret tt
  end;;;
  let* ep := lee tipo in
  match ep with
  | EP_FILE => falla (FueraDelModelo "transfer_file_data")
  | _ => ret tt
  end;;;
  let* ws := lee is_websocket in
  (if ws : bool then ping_idle_websocket_connection t last else ret tt);;;
  if last + MONGOOSE_IDLE_TIMEOUT_SECONDS <? t
  then ev_close;;; cambia (con_close true);;; ret true
  else ret false.

(** *** The socket of a connection *)

Fixpoint recibir (trozos : list string) : W unit :=
  match trozos with
  | [] => ret tt
  | b :: trozos =>
      cambia (fun c => con_recv (iobuf_append b (recv_iobuf c)) c);;;
      ev_recv (largo b);;;
      recibir trozos
  end.

Definition ns_read_from_socket (l : list string * fin_lectura) : W unit :=
  recibir l.1;;;
  match l.2 with
  | CERRADO | ERROR => cambia (con_close true)
  | NADA_MAS => ret tt
  end.

(** The connection after [send], and the bytes taken. *)
Definition ns_write_to_socket (e : escritura) (c : connection) : connection * string :=
  match e with
  | FALLA => (con_close true c, "")
  | ESCRITOS n =>
      let io := send_iobuf (respuesta c) in
      let s := respuesta c in
      (con_respuesta (mkSalida (status_code s) (headers_sent s) (using_chunked s) (saltear n io)) c,
       prefijo n io)
  end.

(** *** A turn of the loop *)

(** The operation [m] on the connection of a node. *)
Definition en_nodo {B} (m : W B) (n : nodo) : M S (B * nodo) := fun s =>
  let '(r, (c, s')) := m (conn n, s) in
  match r with
  | Ok b => (Ok (b, mkNodo (sock n) (fd n) c (last_io_time n) (entregado n)), s')
  | Fallo e => (Fallo e, s')
  end.

(** [for (conn = mgr->active_connections; conn != NULL; conn = tmp_conn)], where the body may
    destroy the connection. *)
Fixpoint pasada {X Y} (f : X -> M S (option Y)) (l : list X) : M S (list Y) :=
  match l with
  | [] => ret []
  | n :: l =>
      let* o := f n in
      let* l := pasada f l in
      ret (match o with Some n => n :: l | None => l end)
  end.

(** [ns_close_conn] *)
Definition cerrar (n : nodo) : M S (option nodo) :=
  let* _ := en_nodo ev_close n in ret None.

(** [FD_SET] writes past the set for a descriptor out of it. *)
Definition ns_add_to_set (sock : Z) : res unit :=
  if sock =? INVALID_SOCKET then Ok tt
  else if (0 <=? sock) && (sock <? FD_SETSIZE) then Ok tt
  else Fallo (Indefinido "ns_add_to_set: FD_SET out of the set").

(** Before [select]: NS_POLL, and the connection goes to the read set, and to the write set if
    it has something to send. *)
Definition sondear (t : Z) (n : nodo) : M S (option (nodo * bool)) :=
  let* '(expirada, n) := en_nodo (ev_poll t (last_io_time n)) n in
  if expirada : bool then ret None
  else if close_immediately (conn n) then let* _ := cerrar n in ret None
  else
    alzar (ns_add_to_set (fd n));;;
    ret (Some (n, negb (String.eqb (send_iobuf (respuesta (conn n))) ""))).

(** After [select]: the socket is read and written. *)
Definition atender (su : Sucesos) (nw : nodo * bool) : M S (option nodo) :=
  let '(n, en_write_set) := nw in
  let con_hora (n : nodo) := mkNodo (sock n) (fd n) (conn n) (hora_select su) (entregado n) in
  let* n := match legibles su (sock n) with
            | Some l => let* '(_, n) := en_nodo (ns_read_from_socket l) (con_hora n) in ret n
            | None => ret n
            end in
  match (if en_write_set : bool then escribibles su (sock n) else None) with
  | Some e =>
      let '(c, enviados) := ns_write_to_socket e (conn n) in
      ret (Some (mkNodo (sock n) (fd n) c (hora_select su) (entregado n +:+ enviados)))
  | None => ret (Some n)
  end.

(** [accept_conn] and [on_accept]; there is no access control list. *)
Definition aceptar (su : Sucesos) (sock : nat) (l : list nodo) : list nodo :=
  if acepta su then mkNodo sock (descriptor su) connection_nueva (hora_accept su) "" :: l else l.

(** The end of the turn: connections that failed or that have sent everything. *)
Definition por_cerrar (n : nodo) : bool :=
  close_immediately (conn n) || (String.eqb (send_iobuf (respuesta (conn n))) "" && finished_sending (conn n)).
Definition despedir (n : nodo) : M S (option nodo) :=
  if por_cerrar n then cerrar n else ret (Some n).

Definition ns_mgr_poll (su : Sucesos) (r : Red) : res unit * Red :=
  let '(x, s) := (let* l := pasada (sondear (hora su)) (active_connections r) in
                  let* l := pasada (atender su) l in
                  let l := aceptar su (siguiente r) l in
                  let* quedan := pasada despedir l in
                  ret (quedan, List.filter por_cerrar l)) (estado r) in
  match x with
  | Ok (l, cerradas) =>
      (Ok tt, mkRed l (despedidas r ++ cerradas) (if acepta su then Datatypes.S (siguiente r) else siguiente r) s)
  | Fallo e => (Fallo e, mkRed (active_connections r) (despedidas r) (siguiente r) s)
  end.

(** [for (;;) mg_poll_server(webServer, 1000);] *)
Inductive turno : Red -> Red -> Prop :=
| turno_ok su r r' : ns_mgr_poll su r = (Ok tt, r') -> turno r r'.

Definition red_inicial (s : S) : Red := mkRed [] [] 0 s.

End Red.
Arguments Red S : clear implicits.

(** The handler that only serves the requests that satisfy [P]: its runs are the runs of [H] in
    which every request does. *)
Definition filtrar {S : Type} (P : mg_connection -> Prop) {PD : forall r, Decision (P r)} (H : Manejador S) : Manejador S :=
  {| event_handler := fun c ev x =>
       match ev, c with
       | MG_REQUEST, Some r => if decide (P r) then event_handler c ev x else (Fallo (Indefinido "excluded request"), x)
       | _, _ => event_handler c ev x
       end;
     time_null := time_null;
     is_big_endian := is_big_endian |}.
End Red.
