(* ===== verification/ConexionOk.v ===== *)
(** * ConexionOk: what a connection guarantees

    A request reaches the handler whole however its bytes are cut into pieces, malformed
    requests are answered without calling it, and the code always returns. *)

From S2P Require Import Prelude Libc Mongoose WebSocket Conexion Red.
Open Scope Z_scope.

(** What the connection relies on of a handler: it answers every request it is given with
    [MG_TRUE], accepts everybody and leaves the other events to the web server. *)
Class ManejadorOk {S : Type} (H : Manejador S) : Prop := {
  request_ok : forall c x r y, event_handler c Mongoose.MG_REQUEST x = (Ok r, y) -> r = Mongoose.MG_TRUE;
  auth_ok : forall c x, event_handler c Mongoose.MG_AUTH x = (Ok Mongoose.MG_TRUE, x);
  otros_ok : forall c ev x, ev <> Mongoose.MG_REQUEST -> ev <> Mongoose.MG_AUTH ->
    event_handler c ev x = (Ok Mongoose.MG_FALSE, x) }.

Module ConexionOk.
Import Libc Mongoose WebSocket Conexion Red.

(** ** The end of the headers *)

Lemma request_len_rango i s : 0 <= i -> request_len_desde i s = -1 \/ request_len_desde i s = 0 \/ i < request_len_desde i s <= i + largo s.
Proof.
  revert i. induction s as [|c s IH]; intros i Hi; cbn [request_len_desde]; [auto|].
  unfold largo in *. cbn [String.length]. specialize (IH (i + 1) ltac:(lia)).
  destruct (negb _ && _ && _ && _); [auto|]. destruct (Ascii.eqb c NL); [|lia].
  destruct s as [|x s]; [lia|]. cbn [String.length] in *. destruct (Ascii.eqb x NL); [lia|].
  destruct s as [|y s]; [lia|]. cbn [String.length] in *. destruct (_ && _); lia.
Qed.

(** An answer does not change when more bytes arrive. *)
Lemma request_len_app i s x : 0 <= i -> request_len_desde i s <> 0 -> request_len_desde i (s +:+ x) = request_len_desde i s.
Proof.
  revert i. induction s as [|c s IH]; intros i Hi; cbn [request_len_desde]; [done|]. rewrite app_cons_s. cbn [request_len_desde].
  destruct (negb _ && _ && _ && _) eqn:Ec; [done|]. destruct (Ascii.eqb c NL) eqn:En; [|apply IH; lia].
  destruct s as [|a s]; [done|]. rewrite app_cons_s. destruct (Ascii.eqb a NL) eqn:Ea; [done|].
  destruct s as [|b s].
  - intros Hr. assert (Ascii.eqb a CR = false) as Ecr.
    { destruct (Ascii.eqb_spec a CR) as [->|]; [|done]. done. }
    specialize (IH (i + 1) ltac:(lia) Hr). rewrite app_cons_s, app_nil_l_s in IH. rewrite app_nil_l_s.
    destruct x as [|y x]; [done|]. by rewrite Ecr.
  - rewrite app_cons_s in IH |- *. destruct (Ascii.eqb a CR && Ascii.eqb b NL); [done|]. apply IH. lia.
Qed.

(** A text that ends where its headers end. *)
Definition cabeza (h : string) : Prop := get_request_len h = largo h /\ 0 < largo h.

Lemma cabeza_app h x : cabeza h -> get_request_len (h +:+ x) = largo h.
Proof. intros [H1 H2]. unfold get_request_len in *. rewrite request_len_app; lia. Qed.

Lemma cabeza_prefijo h p x : cabeza h -> h = p +:+ x -> x <> "" -> get_request_len p = 0.
Proof.
  intros [H1 H2] -> Hx. unfold get_request_len in *. destruct (Z.eq_dec (request_len_desde 0 p) 0) as [|Hn]; [done|].
  exfalso. rewrite request_len_app in H1 by (done || lia).
  unfold largo in *. rewrite length_app_s in H1, H2. destruct x as [|c x]; [done|]. cbn [String.length] in *.
  destruct (request_len_rango 0 p ltac:(lia)) as [E|[E|E]]; unfold largo in *; lia.
Qed.

(** ** Buffers *)

(** The bytes in use fit in the allocation. *)
Definition iobuf_ok (io : iobuf) : Prop := largo (buf io) <= size io.

Lemma buf_append b io : buf (iobuf_append b io) = buf io +:+ b.
Proof.
  unfold iobuf_append. pose proof (largo_pos b). destruct (Z.leb_spec (largo b) 0).
  - destruct b as [|c b]; [by rewrite app_nil_r_s|]. unfold largo in *. cbn in *. lia.
  - by destruct (_ <=? size io).
Qed.

Lemma iobuf_append_ok b io : iobuf_ok io -> iobuf_ok (iobuf_append b io).
Proof.
  unfold iobuf_ok, iobuf_append. intros H. destruct (Z.leb_spec (largo b) 0); [done|].
  destruct (Z.leb_spec (largo (buf io) + largo b) (size io)); cbn; rewrite largo_app; lia.
Qed.

Lemma buf_remove a b io : buf io = a +:+ b -> buf (iobuf_remove (largo a) io) = b.
Proof.
  intros Hb. unfold iobuf_remove. pose proof (largo_pos a). pose proof (largo_pos b).
  rewrite Hb, largo_app. destruct (Z.leb_spec (largo a) (largo a + largo b)); [|lia].
  destruct (Z.ltb_spec 0 (largo a)); cbn.
  - unfold largo. rewrite Nat2Z.id. by rewrite saltear_app.
  - destruct a; [by rewrite Hb|]. unfold largo in *. cbn in *. lia.
Qed.

(** ** Running the operations *)

Section Corridas.
Context {S : Type} {H : Manejador S} {HO : ManejadorOk H}.
Abbreviation W := (M (connection * S)).

(** The state a connection is left in when its endpoint closes. *)
Definition reposo (pendiente : string) : connection :=
  mkConnection None false EP_NONE 0 0 0 (iobuf_init 0) (mkSalida 0 false false pendiente) false false.
Definition cerrada (keep_alive : bool) (pendiente : string) : connection :=
  if keep_alive then reposo pendiente
  else if String.eqb pendiente "" then con_close true (reposo pendiente) else con_finished true (reposo pendiente).

Definition keep_alive (c : connection) : bool :=
  should_keep_alive c && bool_decide (tipo c = EP_FILE \/ tipo c = EP_USER).

(** Nothing happens on a connection at rest with nothing received. *)
Lemma on_recv_reposo on_recv p s : on_recv_data_paso on_recv (reposo p, s) = (Ok tt, (reposo p, s)).
Proof. reflexivity. Qed.

Lemma close_ok n c s : tipo c = EP_NONE \/ tipo c = EP_USER ->
  close_local_endpoint (on_recv_data_f (Datatypes.S n)) (c, s) =
  (Ok tt, (cerrada (keep_alive c) (send_iobuf (respuesta c)), s)).
Proof.
  intros Ht. unfold close_local_endpoint. erewrite bind_ok by reflexivity. erewrite bind_ok by reflexivity.
  fold (keep_alive c). cbn [fst snd]. assert (forall k : bool,
    (cambia (fun c => mkConnection None false EP_NONE 0 0 0 (iobuf_free (recv_iobuf c))
        (mkSalida 0 false false (send_iobuf (respuesta c))) false false);;;
      if k then on_recv_data_f (Datatypes.S n)
      else cambia (fun c => if String.eqb (send_iobuf (respuesta c)) "" then con_close true c else con_finished true c))
    (c, s) = (Ok tt, (cerrada k (send_iobuf (respuesta c)), s))) as K.
  { intros k. erewrite bind_ok by reflexivity. change (iobuf_free (recv_iobuf c)) with (iobuf_init 0).
    fold (reposo (send_iobuf (respuesta c))). destruct k; [apply on_recv_reposo|].
    unfold cambia, cambiar, cerrada. cbn. by destruct (String.eqb _ _). }
  destruct Ht as [-> | ->]; apply K.
Qed.

Lemma call_user_ok c s ev r sal s' :
  event_handler (mg_conn c) ev (respuesta c, s) = (Ok r, (sal, s')) ->
  call_user ev (c, s) = (Ok r, (con_respuesta sal c, s')).
Proof. intros E. unfold call_user. by rewrite E. Qed.

Lemma con_respuesta_misma c : con_respuesta (respuesta c) c = c.
Proof. by destruct c. Qed.

Lemma call_otros c s ev : ev <> MG_REQUEST -> ev <> MG_AUTH -> call_user ev (c, s) = (Ok MG_FALSE, (c, s)).
Proof.
  intros H1 H2. erewrite call_user_ok by (by apply otros_ok). by rewrite con_respuesta_misma.
Qed.
Lemma call_auth c s : call_user MG_AUTH (c, s) = (Ok MG_TRUE, (c, s)).
Proof. erewrite call_user_ok by (by apply auth_ok). by rewrite con_respuesta_misma. Qed.

(** *** A request in pieces *)

(** Waiting for the rest of the headers, and for the rest of the body. *)
Definition espera_cabeza (sal : Salida) (io : iobuf) : connection :=
  mkConnection None false EP_NONE (largo (buf io)) 0 0 io sal false false.
Definition espera_cuerpo (h : Z) (r : mg_connection) (cl : Z) (sal : Salida) (io : iobuf) : connection :=
  mkConnection (Some (con_cuerpo (buf io) r)) false EP_USER (h + largo (buf io)) cl h io sal false false.

(** The connection after [b] has been read from the socket. *)
Definition llegada (b : string) (c : connection) : connection :=
  con_recibidos (num_bytes_recv c + largo b) (con_recv (iobuf_append b (recv_iobuf c)) c).

Lemma recibir_cons b l c s :
  recibir (b :: l) (c, s) = (on_recv_data;;; recibir l) (llegada b c, s).
Proof. reflexivity. Qed.

Lemma llegada_cabeza b sal io :
  llegada b (espera_cabeza sal io) = espera_cabeza sal (iobuf_append b io).
Proof. unfold llegada, espera_cabeza. cbn. by rewrite buf_append, largo_app. Qed.

Lemma try_parse_nada c (s : S) :
  request_len c = 0 -> get_request_len (buf (recv_iobuf c)) = 0 -> try_parse (c, s) = (Ok tt, (c, s)).
Proof.
  intros Hn Hg. unfold try_parse. do 2 (erewrite bind_ok by reflexivity). cbv beta iota. rewrite Hn, Hg.
  cbn [Z.eqb Z.ltb Z.compare]. erewrite bind_ok by reflexivity. rewrite <- Hn. by destruct c.
Qed.

Lemma try_parse_ya c (s : S) : request_len c <> 0 -> try_parse (c, s) = (Ok tt, (c, s)).
Proof.
  intros Hn. unfold try_parse. do 2 (erewrite bind_ok by reflexivity). cbv beta iota.
  by rewrite (proj2 (Z.eqb_neq _ _) Hn).
Qed.

Lemma paso_cabeza f sal io s :
  get_request_len (buf io) = 0 -> largo (buf io) <= MAX_REQUEST_SIZE ->
  on_recv_data_paso f (espera_cabeza sal io, s) = (Ok tt, (espera_cabeza sal io, s)).
Proof.
  intros Hg Hm. unfold on_recv_data_paso. erewrite bind_ok by reflexivity. cbn [espera_cabeza tipo].
  erewrite bind_ok by (by apply try_parse_nada). erewrite bind_ok by reflexivity.
  cbn [espera_cabeza request_len recv_iobuf]. rewrite (proj2 (Z.ltb_ge _ _) Hm). reflexivity.
Qed.

(** A request the web server passes on to the handler. *)
Record peticion : Type := mkPeticion {
  p_cabeza : string;
  p_cuerpo : string;
  p_conn : mg_connection;
  p_status : Z }.

(** What the headers announce as the length of the body. *)
Definition anunciado (r : mg_connection) : Z :=
  match mg_get_header (http_headers r) "Content-Length" with None => 0 | Some h => strtoll h end.

Record bien_formada (p : peticion) : Prop := {
  bf_cabeza : cabeza (p_cabeza p);
  bf_largo : largo (p_cabeza p) <= MAX_REQUEST_SIZE + 1;
  bf_parse : parse_http_message (p_cabeza p) = Some (p_conn p, p_status p);
  bf_uri : is_valid_uri (uri (p_conn p)) = true;
  bf_version : http_version (p_conn p) = "1.0" \/ http_version (p_conn p) = "1.1";
  bf_ws : mg_get_header (http_headers (p_conn p)) "Sec-WebSocket-Key" = None;
  bf_cuerpo : anunciado (p_conn p) = largo (p_cuerpo p);
  bf_total : largo (p_cabeza p) + largo (p_cuerpo p) < 2 ^ 63 }.

(** The reply after the invitation to send the body, if the client asked for it. *)
Definition invitacion (r : mg_connection) (sal : Salida) : Salida :=
  match mg_get_header (http_headers r) "Expect" with
  | Some h => if mg_strcasecmp_0 h "100-continue" then ns_send ("HTTP/1.1 100 Continue" +:+ CRLF +:+ CRLF) sal else sal
  | None => sal
  end.

Definition inicial (p : peticion) (sal : Salida) : Salida := invitacion (p_conn p) (con_status (p_status p) sal).

(** What a connection at rest owes when the handler starts. *)
Lemma inicial_pendiente p t : p_status p = 0 -> exists t', inicial p (mkSalida 0 false false t) = mkSalida 0 false false t'.
Proof.
  intros H0. unfold inicial, invitacion. rewrite H0. destruct (mg_get_header _ _) as [h|]; [|by eexists].
  destruct (mg_strcasecmp_0 _ _); by eexists.
Qed.

Lemma version_si r : http_version r = "1.0" \/ http_version r = "1.1" ->
  String.eqb (http_version r) "1.0" || String.eqb (http_version r) "1.1" = true.
Proof. by intros [-> | ->]. Qed.

Lemma try_parse_completa p sal io (s : S) q :
  bien_formada p -> buf io = p_cabeza p +:+ q ->
  exists io', buf io' = q /\
  try_parse (espera_cabeza sal io, s) =
  (Ok tt, (mkConnection (Some (p_conn p)) false EP_NONE (largo (p_cabeza p) + largo q) (anunciado (p_conn p))
             (largo (p_cabeza p)) io' (con_status (p_status p) sal) false false, s)).
Proof.
  intros Hp Hb. exists (iobuf_remove (largo (p_cabeza p)) io). split; [by apply buf_remove|].
  destruct (bf_cabeza p Hp) as [_ Hpos]. unfold try_parse. do 2 (erewrite bind_ok by reflexivity). cbv beta iota.
  cbn [espera_cabeza request_len recv_iobuf Z.eqb]. rewrite Hb, (cabeza_app _ q (bf_cabeza p Hp)).
  erewrite bind_ok by reflexivity. rewrite (proj2 (Z.ltb_lt _ _) Hpos). erewrite bind_ok by reflexivity.
  assert (prefijo (Z.to_nat (largo (p_cabeza p))) (p_cabeza p +:+ q) = p_cabeza p) as ->.
  { unfold largo. rewrite Nat2Z.id. apply prefijo_app. }
  rewrite (bf_parse p Hp). do 2 (erewrite bind_ok by reflexivity). fold (anunciado (p_conn p)).
  assert (largo (p_cabeza p) + largo q = largo (buf io)) as -> by (by rewrite Hb, largo_app). reflexivity.
Qed.

Lemma continuar_ok c (s : S) r : mg_conn c = Some r ->
  send_continue_if_expected (c, s) = (Ok tt, (con_respuesta (invitacion r (respuesta c)) c, s)).
Proof.
  intros Hr. unfold send_continue_if_expected, header_de, invitacion. erewrite bind_ok by reflexivity. cbv beta iota.
  rewrite Hr. destruct (mg_get_header _ _) as [h|]; [|by rewrite con_respuesta_misma].
  destruct (mg_strcasecmp_0 h _); [done|by rewrite con_respuesta_misma].
Qed.

Lemma sin_handshake c (s : S) r : mg_conn c = Some r -> mg_get_header (http_headers r) "Sec-WebSocket-Key" = None ->
  send_websocket_handshake_if_requested (c, s) = (Ok tt, (c, s)).
Proof.
  intros Hr Hk. unfold send_websocket_handshake_if_requested, header_de.
  do 2 (erewrite bind_ok by reflexivity). cbv beta iota. rewrite Hr, Hk.
  by destruct (mg_get_header (http_headers r) "Sec-WebSocket-Version").
Qed.

Lemma repartir_usuario f c (s : S) : tipo c = EP_USER ->
  repartir f (c, s) = call_request_handler_if_data_is_buffered f (con_content (buf (recv_iobuf c)) c, s).
Proof.
  intros Ht. unfold repartir. erewrite bind_ok by reflexivity. cbv beta iota. rewrite Ht.
  erewrite bind_ok by reflexivity. erewrite bind_ok by (by apply call_otros).
  erewrite bind_ok by reflexivity. cbn [a_descartar]. destruct c. cbn. by destruct (0 <=? _).
Qed.

Lemma repartir_nadie f c (s : S) : tipo c = EP_NONE -> repartir f (c, s) = (Ok tt, (c, s)).
Proof. intros Ht. unfold repartir. erewrite bind_ok by reflexivity. cbv beta iota. by rewrite Ht. Qed.

(** The piece that completes the headers. *)
Lemma paso_completa f p sal io (s : S) q :
  bien_formada p -> buf io = p_cabeza p +:+ q ->
  exists io', buf io' = q /\
  on_recv_data_paso f (espera_cabeza sal io, s) =
  call_request_handler_if_data_is_buffered f
    (espera_cuerpo (largo (p_cabeza p)) (p_conn p) (anunciado (p_conn p)) (inicial p sal) io', s).
Proof.
  intros Hp Hb. destruct (try_parse_completa p sal io s q Hp Hb) as (io' & Hq & E). exists io'. split; [done|].
  destruct (bf_cabeza p Hp) as [_ Hpos].
  unfold on_recv_data_paso. erewrite bind_ok by reflexivity. cbn [espera_cabeza tipo].
  erewrite bind_ok by exact E. erewrite bind_ok by reflexivity. cbv beta iota.
  unfold uri_ok, version_ok. cbn [request_len recv_iobuf mg_conn tipo].
  rewrite (bf_uri p Hp), (version_si _ (bf_version p Hp)), (proj2 (Z.ltb_ge _ _) (Z.lt_le_incl _ _ Hpos)),
    (proj2 (Z.ltb_lt _ _) Hpos), (proj2 (Z.eqb_neq (largo (p_cabeza p)) 0) ltac:(lia)).
  cbn [negb andb orb]. rewrite bool_decide_eq_true_2 by done. rewrite !bind_assoc.
  erewrite bind_ok by (eapply sin_handshake; [reflexivity|exact (bf_ws p Hp)]). rewrite bind_assoc.
  erewrite bind_ok by (by apply continuar_ok). unfold open_local_endpoint. rewrite bind_assoc.
  erewrite bind_ok by reflexivity. rewrite bind_assoc. erewrite bind_ok by apply call_auth. cbn [negb].
  erewrite bind_ok by reflexivity. cbn [con_tipo con_respuesta tipo].
  rewrite repartir_usuario by reflexivity. unfold con_content, espera_cuerpo. cbn. by rewrite Hq.
Qed.

(** A piece of the body. *)
Lemma paso_cuerpo f p sal io (s : S) b :
  bien_formada p ->
  on_recv_data_paso f (llegada b (espera_cuerpo (largo (p_cabeza p)) (p_conn p) (anunciado (p_conn p)) sal io), s) =
  call_request_handler_if_data_is_buffered f
    (espera_cuerpo (largo (p_cabeza p)) (p_conn p) (anunciado (p_conn p)) sal (iobuf_append b io), s).
Proof.
  intros Hp. destruct (bf_cabeza p Hp) as [_ Hpos].
  unfold on_recv_data_paso. erewrite bind_ok by reflexivity. cbn [espera_cuerpo llegada con_recibidos con_recv tipo].
  erewrite bind_ok by (apply try_parse_ya; cbn; lia). erewrite bind_ok by reflexivity. cbv beta iota.
  unfold uri_ok, version_ok. cbn [llegada espera_cuerpo con_recibidos con_recv request_len recv_iobuf mg_conn tipo uri http_version con_cuerpo].
  rewrite (bf_uri p Hp), (version_si _ (bf_version p Hp)), (proj2 (Z.ltb_ge _ _) (Z.lt_le_incl _ _ Hpos)),
    (proj2 (Z.ltb_lt _ _) Hpos), (proj2 (Z.eqb_neq (largo (p_cabeza p)) 0) ltac:(lia)).
  cbn [negb andb orb]. rewrite bool_decide_eq_false_2 by done.
  erewrite bind_ok by reflexivity. rewrite repartir_usuario by reflexivity. unfold con_content, espera_cuerpo, llegada. cbn.
  rewrite buf_append, largo_app. by rewrite Z.add_assoc.
Qed.

(** *** The answer *)

(** Whether the connection of a request is kept after the reply. *)
Definition mantiene (r : mg_connection) : bool :=
  match mg_get_header (http_headers r) "Connection" with
  | Some h => mg_strcasecmp_0 h "keep-alive"
  | None => String.eqb (http_version r) "1.1"
  end.

Definition final (r : mg_connection) (sal : Salida) : connection :=
  cerrada (mantiene r) (send_iobuf (terminar_respuesta sal)).

Lemma falta_cuerpo f h r cl sal io (s : S) :
  cl + h < 2 ^ 63 -> largo (buf io) < cl ->
  call_request_handler_if_data_is_buffered f (espera_cuerpo h r cl sal io, s) =
  (Ok tt, (espera_cuerpo h r cl sal io, s)).
Proof.
  intros Ht Hl. unfold call_request_handler_if_data_is_buffered. erewrite bind_ok by reflexivity.
  cbn [espera_cuerpo is_websocket]. erewrite bind_ok by reflexivity. cbv beta iota.
  cbn [espera_cuerpo Conexion.cl request_len]. rewrite (proj2 (Z.leb_gt _ _) Ht).
  erewrite bind_ok by reflexivity. cbv beta iota. cbn [espera_cuerpo num_bytes_recv].
  by rewrite (proj2 (Z.leb_gt (cl + h) (h + largo (buf io)))) by lia.
Qed.

Lemma keep_usuario c r : tipo c = EP_USER -> mg_conn c = Some r -> keep_alive c = mantiene r.
Proof.
  intros Ht Hr. unfold keep_alive, should_keep_alive. rewrite Ht, Hr, bool_decide_eq_true_2 by done.
  rewrite bool_decide_eq_true_2 by auto. by rewrite orb_true_r, andb_true_r.
Qed.

Lemma cuerpo_listo n h r cl sal io (s : S) sal' s' :
  cl + h < 2 ^ 63 -> cl <= largo (buf io) ->
  event_handler (Some (con_cuerpo (buf io) r)) MG_REQUEST (sal, s) = (Ok MG_TRUE, (sal', s')) ->
  call_request_handler_if_data_is_buffered (on_recv_data_f (Datatypes.S n)) (espera_cuerpo h r cl sal io, s) =
  (Ok tt, (final r sal', s')).
Proof.
  intros Ht Hl Hh. unfold call_request_handler_if_data_is_buffered. erewrite bind_ok by reflexivity.
  cbn [espera_cuerpo is_websocket]. erewrite bind_ok by reflexivity. cbv beta iota.
  cbn [espera_cuerpo Conexion.cl request_len]. rewrite (proj2 (Z.leb_gt _ _) Ht).
  erewrite bind_ok by reflexivity. cbv beta iota. cbn [espera_cuerpo num_bytes_recv].
  rewrite (proj2 (Z.leb_le (cl + h) (h + largo (buf io)))) by lia.
  unfold call_request_handler. rewrite !bind_assoc. erewrite bind_ok by reflexivity. rewrite bind_assoc.
  erewrite bind_ok by (by apply call_user_ok). cbv beta iota. rewrite bind_assoc.
  erewrite bind_ok by reflexivity. cbv beta iota.
  cbn [con_respuesta respuesta]. unfold final, terminar_respuesta. destruct (using_chunked sal').
  - rewrite !bind_assoc. do 2 (erewrite bind_ok by reflexivity). rewrite bind_assoc.
    erewrite bind_ok by (apply close_ok; by right). by erewrite keep_usuario by reflexivity.
  - rewrite bind_assoc. erewrite bind_ok by reflexivity. rewrite bind_assoc.
    erewrite bind_ok by (apply close_ok; by right). by erewrite keep_usuario by reflexivity.
Qed.

(** *** Any cut of the request *)
Section Piezas.
Context (p : peticion) (Hp : bien_formada p) (sal : Salida) (s : S) (sal' : Salida) (s' : S).
Context (Hh : event_handler (Some (con_cuerpo (p_cuerpo p) (p_conn p))) MG_REQUEST (inicial p sal, s) = (Ok MG_TRUE, (sal', s'))).

Lemma unir_vacio l : Forall (fun b => b <> "") l -> unir l = "" -> l = [].
Proof. intros Hl E. destruct Hl as [|b l Hb Hl]; [done|]. by destruct b. Qed.

Lemma total_ok : anunciado (p_conn p) + largo (p_cabeza p) < 2 ^ 63.
Proof. rewrite (bf_cuerpo p Hp). pose proof (bf_total p Hp). lia. Qed.

(** What happens with the body received so far in [io]. *)
Lemma buffered io l :
  (forall io, buf io +:+ unir l = p_cuerpo p -> largo (buf io) < largo (p_cuerpo p) ->
     recibir l (espera_cuerpo (largo (p_cabeza p)) (p_conn p) (anunciado (p_conn p)) (inicial p sal) io, s) =
     (Ok tt, (final (p_conn p) sal', s'))) ->
  Forall (fun b => b <> "") l -> buf io +:+ unir l = p_cuerpo p ->
  (call_request_handler_if_data_is_buffered (on_recv_data_f 1);;; recibir l)
    (espera_cuerpo (largo (p_cabeza p)) (p_conn p) (anunciado (p_conn p)) (inicial p sal) io, s) =
  (Ok tt, (final (p_conn p) sal', s')).
Proof.
  intros IH Hl Hb. pose proof total_ok. pose proof (largo_pos (unir l)).
  assert (largo (buf io) + largo (unir l) = largo (p_cuerpo p)) as E by (by rewrite <- largo_app, Hb).
  destruct (Z_lt_le_dec (largo (buf io)) (largo (p_cuerpo p))) as [Hlt|Hge].
  - erewrite bind_ok by (apply falta_cuerpo; [done|by rewrite (bf_cuerpo p Hp)]). by apply IH.
  - assert (unir l = "") as Eu by (destruct (unir l); [done|unfold largo in *; cbn in *; lia]).
    rewrite Eu, app_nil_r_s in Hb. rewrite (unir_vacio l Hl Eu).
    erewrite bind_ok by (apply cuerpo_listo; [done|rewrite (bf_cuerpo p Hp), Hb; lia|by rewrite Hb]). done.
Qed.

Lemma recibir_cuerpo l io :
  Forall (fun b => b <> "") l -> buf io +:+ unir l = p_cuerpo p -> largo (buf io) < largo (p_cuerpo p) ->
  recibir l (espera_cuerpo (largo (p_cabeza p)) (p_conn p) (anunciado (p_conn p)) (inicial p sal) io, s) =
  (Ok tt, (final (p_conn p) sal', s')).
Proof.
  revert io. induction l as [|b l IH]; intros io Hl Hb Hlt.
  - cbn [unir] in Hb. rewrite app_nil_r_s in Hb. rewrite Hb in Hlt. lia.
  - inversion Hl as [|? ? Hne Hl']; subst. rewrite recibir_cons.
    etrans; [apply bind_igual, (paso_cuerpo (on_recv_data_f 1) p); exact Hp|]. apply buffered; [|done|].
    + intros io' H1 H2. by apply IH.
    + rewrite buf_append, app_assoc_s. exact Hb.
Qed.

Lemma recibir_cabeza l io x :
  Forall (fun b => b <> "") l -> buf io +:+ unir l = p_cabeza p +:+ p_cuerpo p ->
  p_cabeza p = buf io +:+ x -> x <> "" ->
  recibir l (espera_cabeza sal io, s) = (Ok tt, (final (p_conn p) sal', s')).
Proof.
  revert io x. induction l as [|b l IH]; intros io x Hl Hb Hx Hne.
  - exfalso. rewrite Hx in Hb. cbn [unir] in Hb. apply (f_equal String.length) in Hb.
    rewrite !length_app_s in Hb. destruct x; [done|]. cbn in Hb. lia.
  - inversion Hl as [|? ? Hbn Hl']; subst. rewrite recibir_cons, llegada_cabeza. cbn [unir] in Hb.
    rewrite <- app_assoc_s, <- buf_append in Hb. set (io' := iobuf_append b io) in *.
    destruct (decide (String.length (p_cabeza p) <= String.length (buf io'))%nat) as [Hle|Hgt].
    + destruct (cortes _ _ _ _ Hb Hle) as (q & Eq & Hq).
      destruct (paso_completa (on_recv_data_f 1) p sal io' s q Hp Eq) as (io2 & E2 & E).
      etrans; [apply bind_igual, E|]. apply buffered; [|done|by rewrite E2]. intros io3 H3 H4. by apply recibir_cuerpo.
    + destruct (cortes _ _ _ _ (eq_sym Hb) ltac:(lia)) as (y & Ey & _).
      assert (y <> "") as Hy by (intros ->; rewrite app_nil_r_s in Ey; rewrite Ey in Hgt; lia).
      erewrite bind_ok.
      * by eapply IH.
      * apply paso_cabeza; [by eapply cabeza_prefijo; [apply (bf_cabeza p Hp)| |]|].
        pose proof (bf_largo p Hp). unfold largo in *. lia.
Qed.
End Piezas.
(** The whole request, on a connection at rest. *)
Lemma recibir_reposo p piezas pendiente (s : S) sal' s' :
  bien_formada p -> Forall (fun b => b <> "") piezas -> unir piezas = p_cabeza p +:+ p_cuerpo p ->
  event_handler (Some (con_cuerpo (p_cuerpo p) (p_conn p))) MG_REQUEST
    (inicial p (mkSalida 0 false false pendiente), s) = (Ok MG_TRUE, (sal', s')) ->
  recibir piezas (reposo pendiente, s) =
    (Ok tt, (cerrada (mantiene (p_conn p)) (send_iobuf (terminar_respuesta sal')), s')).
Proof.
  intros Hp Hl Hu Hh. change (reposo pendiente) with (espera_cabeza (mkSalida 0 false false pendiente) (iobuf_init 0)).
  eapply (recibir_cabeza p Hp _ _ _ _ Hh _ _ (p_cabeza p)); [done|done|done|].
  destruct (bf_cabeza p Hp) as [_ Hpos]. by intros E; rewrite E in Hpos.
Qed.
End Corridas.

(** ** Errors *)

(** The whole reply to a request the web server refuses. *)
Definition texto_error (code : Z) : string :=
  let body := decimal code +:+ " " +:+ status_code_to_str code +:+ String NL "" in
  "HTTP/1.1 " +:+ decimal code +:+ " " +:+ status_code_to_str code +:+ CRLF +:+
  "Content-Length: " +:+ decimal (largo body) +:+ CRLF +:+ "Content-Type: text/plain" +:+ CRLF +:+ CRLF +:+ body.

Section Errores.
Context {S : Type} {H : Manejador S} {HO : ManejadorOk H}.

Lemma error_ok n code c (s : S) :
  tipo c = EP_NONE -> code = 400 \/ code = 413 \/ code = 505 ->
  send_http_error (on_recv_data_f (Datatypes.S n)) code (c, s) =
  (Ok tt, (cerrada false (send_iobuf (respuesta c) +:+ texto_error code), s)).
Proof.
  intros Ht Hc. unfold send_http_error. erewrite bind_ok by reflexivity.
  erewrite bind_ok by (by apply call_otros). cbv beta iota. cbn [fst snd].
  do 2 (erewrite bind_ok by reflexivity). etrans; [apply close_ok; by left|].
  unfold keep_alive. cbn [con_respuesta tipo]. rewrite Ht, bool_decide_eq_false_2, andb_false_r by (by intros [|]).
  do 4 f_equal. cbn [con_respuesta respuesta ns_send con_status send_iobuf]. rewrite app_assoc_s. f_equal.
  by destruct Hc as [->|[->| ->]].
Qed.

(** What the web server refuses, on the bytes received by a connection at rest. *)
Inductive rechazo (t : string) : Z -> Prop :=
| rechazo_caracter : get_request_len t = -1 -> rechazo t 400
| rechazo_linea h x : cabeza h -> t = h +:+ x -> parse_http_message h = None -> rechazo t 400
| rechazo_uri h x r st : cabeza h -> t = h +:+ x -> parse_http_message h = Some (r, st) ->
    is_valid_uri (uri r) = false -> rechazo t 400
| rechazo_largo : get_request_len t = 0 -> MAX_REQUEST_SIZE < largo t -> rechazo t 413
| rechazo_version h x r st : cabeza h -> t = h +:+ x -> parse_http_message h = Some (r, st) ->
    is_valid_uri (uri r) = true -> http_version r <> "1.0" -> http_version r <> "1.1" -> rechazo t 505.

Lemma try_parse_cabeza h x sal io (s : S) :
  cabeza h -> buf io = h +:+ x ->
  exists c, tipo c = EP_NONE /\ send_iobuf (respuesta c) = send_iobuf sal /\
    try_parse (espera_cabeza sal io, s) = (Ok tt, (c, s)) /\
    match parse_http_message h with
    | None => request_len c = -1
    | Some (r, _) => mg_conn c = Some r /\ request_len c = largo h
    end.
Proof.
  intros Hh Hb. destruct Hh as [Hg Hpos]. unfold try_parse.
  do 2 (erewrite bind_ok by reflexivity). cbv beta iota. cbn [espera_cabeza request_len recv_iobuf Z.eqb].
  rewrite Hb, (cabeza_app _ x (conj Hg Hpos)). erewrite bind_ok by reflexivity. rewrite (proj2 (Z.ltb_lt _ _) Hpos).
  erewrite bind_ok by reflexivity.
  assert (prefijo (Z.to_nat (largo h)) (h +:+ x) = h) as -> by (unfold largo; rewrite Nat2Z.id; apply prefijo_app).
  destruct (parse_http_message h) as [[r st]|].
  - do 2 (erewrite bind_ok by reflexivity). eexists. split; [|split; [|split; [reflexivity|]]]; done.
  - erewrite bind_ok by reflexivity. eexists. split; [|split; [|split; [reflexivity|]]]; done.
Qed.

Lemma rechazo_ok n t code sal io (s : S) :
  rechazo t code -> buf io = t ->
  on_recv_data_paso (on_recv_data_f (Datatypes.S n)) (espera_cabeza sal io, s) =
  (Ok tt, (cerrada false (send_iobuf sal +:+ texto_error code), s)).
Proof.
  intros Hr <-. unfold on_recv_data_paso. erewrite bind_ok by reflexivity. cbn [espera_cabeza tipo].
  assert (forall c, tipo c = EP_NONE -> send_iobuf (respuesta c) = send_iobuf sal -> 
    code = 400 \/ code = 413 \/ code = 505 ->
    (send_http_error (on_recv_data_f (Datatypes.S n)) code;;; repartir (on_recv_data_f (Datatypes.S n))) (c, s) = (Ok tt, (cerrada false (send_iobuf sal +:+ texto_error code), s))) as K.
  { intros c Ht Hs Hc. erewrite bind_ok by (by apply error_ok). rewrite Hs.
    apply repartir_nadie. unfold cerrada. by destruct (String.eqb _ ""). }
  destruct Hr as [Hg|h x Hh Hb Hn|h x r st Hh Hb Hn Hu|Hg Hm|h x r st Hh Hb Hn Hu H0 H1].
  - unfold try_parse. rewrite !bind_assoc. do 2 (rewrite ?bind_assoc; erewrite bind_ok by reflexivity).
    cbv beta iota. cbn [espera_cabeza request_len recv_iobuf Z.eqb]. rewrite Hg. rewrite bind_assoc.
    do 3 (erewrite bind_ok by reflexivity). by apply K; auto.
  - destruct (try_parse_cabeza h x sal io s Hh Hb) as (c & Ht & Hs & E & Hc). rewrite Hn in Hc.
    erewrite bind_ok by exact E. erewrite bind_ok by reflexivity. cbv beta iota. rewrite Hc. by apply K; auto.
  - destruct (try_parse_cabeza h x sal io s Hh Hb) as (c & Ht & Hs & E & Hc). rewrite Hn in Hc. destruct Hc as [Hr Hl].
    erewrite bind_ok by exact E. erewrite bind_ok by reflexivity. cbv beta iota. unfold uri_ok. rewrite Hr, Hu, Hl.
    destruct Hh as [_ Hpos]. rewrite (proj2 (Z.ltb_lt _ _) Hpos), orb_true_r. by apply K; auto.
  - erewrite bind_ok by (by apply try_parse_nada). erewrite bind_ok by reflexivity. cbv beta iota.
    cbn [espera_cabeza request_len recv_iobuf]. rewrite (proj2 (Z.ltb_lt _ _) Hm). by apply K; auto.
  - destruct (try_parse_cabeza h x sal io s Hh Hb) as (c & Ht & Hs & E & Hc). rewrite Hn in Hc. destruct Hc as [Hr Hl].
    erewrite bind_ok by exact E. erewrite bind_ok by reflexivity. cbv beta iota. unfold uri_ok, version_ok.
    rewrite Hr, Hu, Hl. destruct Hh as [_ Hpos].
    rewrite (proj2 (Z.ltb_ge _ _) (Z.lt_le_incl _ _ Hpos)), (proj2 (Z.ltb_lt _ _) Hpos),
      (proj2 (Z.eqb_neq (largo h) 0) ltac:(lia)), (proj2 (String.eqb_neq _ _) H0), (proj2 (String.eqb_neq _ _) H1).
    by apply K; auto.
Qed.
End Errores.
End ConexionOk.
