(* ===== verification/RedOk.v ===== *)
(** * RedOk: what the event loop keeps

    Whatever the clients send and in whatever order the kernel delivers it, the web server
    stays in its invariant, its loops stop, and the state of the program only changes by the
    requests its handler serves. *)

From S2P Require Import Prelude Bloques Libc Sha1 Mongoose WebSocket Conexion Red ConexionOk.
Open Scope Z_scope.

Module RedOk.
Import Libc Mongoose WebSocket Conexion Red ConexionOk.

(** The connections between events: at rest, or with a request that waits for its body. *)
Definition Inv (c : connection) : Prop :=
  (tipo c = EP_NONE /\ request_len c = 0) \/
  (tipo c = EP_USER /\ 0 < request_len c /\ uri_ok c = true /\ version_ok c = true).

Lemma inv_tipo c : Inv c -> tipo c = EP_NONE \/ tipo c = EP_USER.
Proof. intros [[? _]|[? _]]; auto. Qed.
Lemma inv_cerrada k t : Inv (cerrada k t).
Proof. left. unfold cerrada. destruct k, (String.eqb t ""); auto. Qed.
Lemma inv_content b c : Inv c -> Inv (con_content b c).
Proof.
  intros [H|(H1 & H2 & H3 & H4)]; [by left|right]. unfold uri_ok, version_ok in *.
  split_and!; try done; destruct c as [[r|]]; done.
Qed.
Lemma inv_mas c c' : mg_conn c' = mg_conn c -> tipo c' = tipo c -> request_len c' = request_len c -> Inv c -> Inv c'.
Proof. unfold Inv, uri_ok, version_ok. by intros -> -> ->. Qed.

(** The key of a handshake always has an answer. *)
Lemma websocket_handshake_ok be key : exists t, websocket_handshake be key = Ok t.
Proof.
  unfold websocket_handshake, ws_accept, Sha1.sha1.
  rewrite (Sha1Correcto.final_absorbe be _ (bytes_of (mg_snprintf 500 (c_str key +:+ magic)))); [by eexists|].
  apply (Sha1Correcto.sha1_update_absorbe _ _ []); [by apply Sha1Correcto.sha1_init_absorbe|apply bytes_of_rango|].
  rewrite length_bytes_of. cbn [mg_snprintf]. assert (forall n t, (String.length (prefijo n t) <= n)%nat) as Hp.
  { induction n as [|n IH]; intros [|x t]; cbn; try lia. specialize (IH t). lia. }
  specialize (Hp 499%nat (c_str key +:+ magic)). lia.
Qed.

(** The undefined behaviour a client can cause in the web server: a Content-Length that
    overflows with the length of the headers, a websocket frame whose length wraps around, and
    enough connections at once for a descriptor past [FD_SETSIZE]. *)
Definition indefinidos : list fallo :=
  [Indefinido "cl + request_len: signed overflow";
   Indefinido "deliver_websocket_frame: content past the end of recv_iobuf";
   Indefinido "ns_add_to_set: FD_SET out of the set"].

Section Preserva.
Context {S : Type} {H : Manejador S} {HO : ManejadorOk H} (R : S -> S -> Prop) {HP : PreOrder R}.
Hypothesis HR : forall c x s r y s', event_handler c MG_REQUEST (x, s) = (Ok r, (y, s')) -> R s s'.
Abbreviation W := (M (connection * S)).

(** The failures there can be: the handler's, and those. *)
Definition permitido (e : fallo) : Prop :=
  (exists c x y, event_handler c MG_REQUEST x = (Fallo e, y)) \/ In e indefinidos.

Definition cumple {B} (m : W B) (c : connection) (Q : B -> connection -> Prop) : Prop :=
  forall s, match m (c, s) with
            | (Ok b, (c', s')) => Q b c' /\ R s s'
            | (Fallo e, _) => permitido e
            end.

Lemma cumple_ret {B} (b : B) c (Q : B -> connection -> Prop) : Q b c -> cumple (ret b) c Q.
Proof. intros HQ s. split; [done|reflexivity]. Qed.
Lemma cumple_cambia f c (Q : unit -> connection -> Prop) : Q tt (f c) -> cumple (cambia f) c Q.
Proof. intros HQ s. split; [done|reflexivity]. Qed.
Lemma cumple_lee {B} (f : connection -> B) c (Q : B -> connection -> Prop) : Q (f c) c -> cumple (lee f) c Q.
Proof. intros HQ s. split; [done|reflexivity]. Qed.
Lemma cumple_bind {B C} (m : W B) (f : B -> W C) c Q Q' :
  cumple m c Q -> (forall b c', Q b c' -> cumple (f b) c' Q') -> cumple (bindM m f) c Q'.
Proof.
  intros Hm Hf s. specialize (Hm s). unfold bindM. destruct (m (c, s)) as [[b|e] [c' s']]; [|done].
  destruct Hm as [HQ HRs]. specialize (Hf b c' HQ s'). destruct (f b (c', s')) as [[b'|e] [c'' s'']]; [|done].
  destruct Hf. split; [done|by etrans].
Qed.
Lemma cumple_impl {B} (m : W B) c (Q Q' : B -> connection -> Prop) :
  cumple m c Q -> (forall b c', Q b c' -> Q' b c') -> cumple m c Q'.
Proof. intros Hm HQ s. specialize (Hm s). destruct (m (c, s)) as [[b|e] [c' s']]; [|done]. destruct Hm. auto. Qed.
Lemma cumple_falla {B} e c (Q : B -> connection -> Prop) : In e indefinidos -> cumple (falla e) c Q.
Proof. intros He s. by right. Qed.
(** A run whose result is known. *)
Lemma cumple_eq {B} (m : W B) c (Q : B -> connection -> Prop) b c' :
  (forall s, m (c, s) = (Ok b, (c', s))) -> Q b c' -> cumple m c Q.
Proof. intros E HQ s. rewrite E. split; [done|reflexivity]. Qed.

Lemma cumple_request c (Q : mg_result -> connection -> Prop) :
  (forall sal, Q MG_TRUE (con_respuesta sal c)) -> cumple (call_user MG_REQUEST) c Q.
Proof.
  intros HQ s. unfold call_user. destruct (event_handler (mg_conn c) MG_REQUEST (respuesta c, s)) as [[r|e] [sal s']] eqn:E.
  - rewrite (request_ok _ _ _ _ E). split; [done|by eapply HR].
  - left. by eauto.
Qed.
Lemma cumple_otros ev c (Q : mg_result -> connection -> Prop) :
  ev <> MG_REQUEST -> ev <> MG_AUTH -> Q MG_FALSE c -> cumple (call_user ev) c Q.
Proof. intros H1 H2 HQ. by eapply cumple_eq; [intros s; apply call_otros|]. Qed.

(** *** The operations of a connection *)

Lemma cumple_close n c (Q : unit -> connection -> Prop) :
  tipo c = EP_NONE \/ tipo c = EP_USER -> (forall k t, Q tt (cerrada k t)) ->
  cumple (close_local_endpoint (on_recv_data_f (Datatypes.S n))) c Q.
Proof. intros Ht HQ. by eapply cumple_eq; [intros s; by apply close_ok|]. Qed.

Lemma cumple_enviar t c (Q : unit -> connection -> Prop) :
  Q tt (con_respuesta (ns_send t (respuesta c)) c) -> cumple (enviar t) c Q.
Proof. apply (cumple_cambia (fun c => con_respuesta (ns_send t (respuesta c)) c)). Qed.

Lemma cumple_error n code c (Q : unit -> connection -> Prop) :
  tipo c = EP_NONE \/ tipo c = EP_USER -> (forall k t, Q tt (cerrada k t)) ->
  cumple (send_http_error (on_recv_data_f (Datatypes.S n)) code) c Q.
Proof.
  intros Ht HQ. eapply cumple_bind; [by apply (cumple_cambia _ _ (fun _ c' => tipo c' = tipo c))|]. intros [] c1 H1.
  eapply cumple_bind; [by apply (cumple_otros _ _ (fun r c' => r = MG_FALSE /\ tipo c' = tipo c))|]. intros r c2 [-> H2].
  eapply cumple_bind; [by apply (cumple_enviar _ _ (fun _ c' => tipo c' = tipo c))|]. intros [] c3 H3.
  eapply cumple_bind; [by apply (cumple_enviar _ _ (fun _ c' => tipo c' = tipo c))|]. intros [] c4 H4.
  apply cumple_close; [by rewrite H4|done].
Qed.

Lemma cumple_handler n c :
  tipo c = EP_USER -> cumple (call_request_handler (on_recv_data_f (Datatypes.S n))) c (fun r c' => r = MG_TRUE /\ Inv c').
Proof.
  intros Ht. eapply cumple_bind; [by apply (cumple_cambia _ _ (fun _ c' => tipo c' = EP_USER))|]. intros [] c1 H1.
  eapply cumple_bind; [by apply (cumple_request _ (fun r c' => r = MG_TRUE /\ tipo c' = EP_USER))|]. intros r c2 [-> H2].
  eapply cumple_bind; [by apply (cumple_lee _ _ (fun _ c' => tipo c' = EP_USER))|]. intros ch c3 H3.
  eapply cumple_bind with (Q := fun _ c' => tipo c' = EP_USER).
  { destruct ch; [|by apply cumple_ret].
    eapply cumple_bind; [by apply (cumple_cambia _ _ (fun _ c' => tipo c' = EP_USER))|]. intros [] c4 H4.
    by apply cumple_cambia. }
  intros [] c4 H4. eapply cumple_bind; [apply (cumple_close _ _ (fun _ c' => Inv c')); [by right|apply inv_cerrada]|].
  intros [] c5 H5. by apply cumple_ret.
Qed.

Lemma ws_frame_casos b :
  (exists e, ws_frame b = Fallo e /\ In e indefinidos) \/ ws_frame b = Ok None \/
  exists m, ws_frame b = Ok (Some m) /\ 0 < frame_len m <= largo b.
Proof.
  unfold ws_frame. destruct (ws_header b) as [[hl dl] ml]. destruct (_ && _) eqn:E; [|auto].
  destruct (largo b <? hl + dl); [left; eexists; split; [done|by right; left]|]. right. right. eexists. split; [reflexivity|].
  cbn [frame_len]. partir. lia.
Qed.

Lemma cumple_frame c :
  tipo c = EP_USER -> Inv c ->
  cumple deliver_websocket_frame c (fun mas c' => tipo c' = EP_USER /\ Inv c' /\
    (mas = true -> (String.length (buf (recv_iobuf c')) < String.length (buf (recv_iobuf c)))%nat)).
Proof.
  intros Ht Hi. unfold deliver_websocket_frame.
  eapply cumple_bind; [by apply (cumple_lee _ _ (fun io c' => io = recv_iobuf c /\ c' = c))|]. intros io c1 [-> ->].
  destruct (ws_frame_casos (buf (recv_iobuf c))) as [[e [E He]]|[E|[m [E Hm]]]].
  - intros s. unfold bindM, alzar. rewrite E. by right.
  - eapply cumple_bind with (Q := fun o c' => o = None /\ c' = c);
      [by apply (cumple_eq _ _ _ None c); [intros s; unfold alzar; by rewrite E|]|].
    intros o c1 [-> ->]. apply cumple_ret. by split_and!.
  - eapply cumple_bind with (Q := fun o c' => o = Some m /\ c' = c);
      [by apply (cumple_eq _ _ _ (Some m) c); [intros s; unfold alzar; by rewrite E|]|]. intros o c1 [-> ->].
    set (P := fun c' : connection => tipo c' = EP_USER /\ Inv c' /\ recv_iobuf c' = recv_iobuf c).
    eapply cumple_bind; [apply (cumple_cambia _ _ (fun _ c' => P c')); by split_and!; [|apply inv_content|]|]. intros [] c2 H2.
    eapply cumple_bind; [apply (cumple_request _ (fun r c' => r = MG_TRUE /\ P c')); intros sal; split; [done|];
      destruct H2 as (? & ? & ?); by split_and!; [|by eapply inv_mas|]|]. intros r c3 [-> H3].
    eapply cumple_bind; [by apply (cumple_ret _ _ (fun _ c' => P c'))|]. intros [] c4 (H4 & H5 & H6).
    eapply cumple_bind; [apply (cumple_cambia _ _ (fun _ c' => tipo c' = EP_USER /\ Inv c' /\
      recv_iobuf c' = iobuf_remove (frame_len m) (recv_iobuf c)))|].
    + cbn. rewrite H6. split_and!; [done|by eapply inv_mas|done].
    + intros [] c5 (H7 & H8 & H9). apply cumple_ret. split_and!; [done|done|]. intros _. rewrite H9.
      unfold iobuf_remove. destruct (_ && _) eqn:Eb; [|exfalso; lia]. cbn. rewrite length_saltear. unfold largo in *. lia.
Qed.

Lemma cumple_frames fuel c :
  tipo c = EP_USER -> Inv c -> (String.length (buf (recv_iobuf c)) < fuel)%nat ->
  cumple (deliver_frames fuel) c (fun _ c' => Inv c').
Proof.
  revert c. induction fuel as [|fuel IH]; intros c Ht Hi Hf; [lia|]. cbn [deliver_frames].
  eapply cumple_bind; [by apply cumple_frame|]. intros [] c1 (H1 & H2 & H3); [|by apply cumple_ret].
  apply IH; try done. specialize (H3 eq_refl). lia.
Qed.

Lemma cumple_buffered n c :
  tipo c = EP_USER -> Inv c ->
  cumple (call_request_handler_if_data_is_buffered (on_recv_data_f (Datatypes.S n))) c (fun _ c' => Inv c').
Proof.
  intros Ht Hi. eapply cumple_bind; [by apply (cumple_lee _ _ (fun b c' => b = is_websocket c /\ c' = c))|].
  intros ws c1 [-> ->]. destruct (is_websocket c).
  - eapply cumple_bind;
      [by apply (cumple_lee _ _ (fun k c' => k = String.length (buf (recv_iobuf c)) /\ c' = c))|].
    intros k c1 [-> ->]. apply cumple_frames; [done|done|lia].
  - eapply cumple_bind; [by apply (cumple_lee _ _ (fun _ c' => c' = c))|]. intros t c1 ->.
    destruct (2 ^ 63 <=? t); [apply cumple_falla; by left|].
    eapply cumple_bind; [by apply (cumple_lee _ _ (fun _ c' => c' = c))|]. intros k c1 ->.
    destruct (t <=? k); [|by apply cumple_ret].
    eapply cumple_bind; [by apply cumple_handler|]. intros r c1 [-> H1]. by apply cumple_ret.
Qed.

Lemma cumple_repartir n c :
  Inv c -> cumple (repartir (on_recv_data_f (Datatypes.S n))) c (fun _ c' => Inv c').
Proof.
  intros Hi s. destruct (inv_tipo c Hi) as [Ht|Ht].
  - rewrite repartir_nadie by done. split; [done|reflexivity].
  - rewrite repartir_usuario by done. apply cumple_buffered; [done|by apply inv_content].
Qed.

(** The headers decide: refused, incomplete, or a request for the handler. *)
Definition leida (c : connection) : Prop :=
  (tipo c = EP_NONE /\ (request_len c <= 0 \/ mg_conn c <> None)) \/ Inv c.

Lemma cumple_parse c : Inv c -> cumple try_parse c (fun _ c' => leida c').
Proof.
  intros [[Ht Hl]|Hi].
  - unfold try_parse.
    eapply cumple_bind; [by apply (cumple_lee _ _ (fun k c' => k = 0 /\ c' = c))|]. intros k c1 [-> ->].
    eapply cumple_bind; [by apply (cumple_lee _ _ (fun _ c' => c' = c))|]. intros io c1 ->. cbn [Z.eqb].
    eapply cumple_bind; [by apply (cumple_cambia _ _ (fun _ c' => tipo c' = EP_NONE /\ request_len c' = get_request_len (buf io)))|].
    intros [] c1 [H1 H2]. destruct (Z.ltb_spec 0 (get_request_len (buf io))).
    + eapply cumple_bind; [by apply (cumple_cambia _ _ (fun _ c' => tipo c' = EP_NONE))|]. intros [] c2 H3.
      destruct (parse_http_message _) as [[r st]|].
      * eapply cumple_bind; [by apply (cumple_cambia _ _ (fun _ c' => tipo c' = EP_NONE /\ mg_conn c' = Some r))|]. intros [] c3 [H4 H5].
        eapply cumple_bind; [by apply (cumple_cambia _ _ (fun _ c' => tipo c' = EP_NONE /\ mg_conn c' = Some r))|]. intros [] c4 [H6 H7].
        apply cumple_cambia. left. cbn. split; [done|right]. by rewrite H7.
      * eapply cumple_bind; [by apply (cumple_cambia _ _ (fun _ c' => tipo c' = EP_NONE /\ request_len c' = -1))|]. intros [] c3 [H4 H5].
        apply cumple_cambia. left. cbn. split; [done|left]. lia.
    + apply cumple_ret. left. split; [done|left]. lia.
  - apply (cumple_eq _ _ _ tt c); [|by right; right]. intros s. apply try_parse_ya. destruct Hi as (_ & Hi & _). lia.
Qed.

Lemma cumple_abrir f c :
  uri_ok c = true -> version_ok c = true -> 0 < request_len c ->
  cumple (open_local_endpoint f false) c (fun _ c' => Inv c').
Proof.
  intros Hu Hv Hl. eapply cumple_bind;
    [by apply (cumple_cambia _ _ (fun _ c' => mg_conn c' = mg_conn c /\ request_len c' = request_len c))|].
  intros [] c1 [H1 H2]. eapply cumple_bind with (Q := fun r c' => r = MG_TRUE /\ c' = c1);
    [by apply (cumple_eq _ _ _ MG_TRUE c1); [intros s; apply call_auth|]|].
  intros r c2 [-> ->]. apply cumple_cambia. right. unfold uri_ok, version_ok in *. cbn. rewrite H1, H2. by split_and!.
Qed.

Lemma cumple_handshake c :
  cumple send_websocket_handshake_if_requested c
    (fun _ c' => mg_conn c' = mg_conn c /\ request_len c' = request_len c).
Proof.
  set (P := fun c' : connection => mg_conn c' = mg_conn c /\ request_len c' = request_len c).
  unfold send_websocket_handshake_if_requested.
  eapply cumple_bind; [by apply (cumple_lee _ _ (fun _ c' => P c'))|]. intros ver c1 H1.
  eapply cumple_bind; [by apply (cumple_lee _ _ (fun _ c' => P c'))|]. intros key c2 H2.
  destruct ver as [ver|]; [|by apply cumple_ret]. destruct key as [key|]; [|by apply cumple_ret].
  eapply cumple_bind; [by apply (cumple_cambia _ _ (fun _ c' => P c'))|]. intros [] c3 H3.
  eapply cumple_bind; [by apply (cumple_otros _ _ (fun r c' => r = MG_FALSE /\ P c'))|]. intros r c4 [-> H4].
  destruct (websocket_handshake_ok is_big_endian key) as [t Et].
  eapply cumple_bind with (Q := fun _ c' => P c').
  - eapply cumple_bind with (Q := fun _ c' => P c');
      [by apply (cumple_eq _ _ _ t c4); [intros s; unfold alzar; by rewrite Et|]|].
    intros t' c5 H5. by apply cumple_enviar.
  - intros [] c5 H5. eapply cumple_bind; [by apply (cumple_otros _ _ (fun _ c' => P c'))|]. intros r c6 H6. by apply cumple_ret.
Qed.

Lemma cumple_continuar c :
  cumple send_continue_if_expected c (fun _ c' => mg_conn c' = mg_conn c /\ request_len c' = request_len c).
Proof.
  unfold send_continue_if_expected. eapply cumple_bind; [by apply (cumple_lee _ _ (fun _ c' => c' = c))|].
  intros h c1 ->. destruct h as [h|]; [|by apply cumple_ret]. destruct (mg_strcasecmp_0 h _); [|by apply cumple_ret].
  by apply cumple_enviar.
Qed.

Lemma cumple_on_recv n c : Inv c -> cumple (on_recv_data_f (Datatypes.S (Datatypes.S n))) c (fun _ c' => Inv c').
Proof.
  intros Hi. cbn [on_recv_data_f]. change (on_recv_data_paso (on_recv_data_f n)) with (on_recv_data_f (Datatypes.S n)).
  unfold on_recv_data_paso. eapply cumple_bind; [by apply (cumple_lee _ _ (fun t c' => t = tipo c /\ c' = c))|].
  intros t c1 [-> ->]. assert (forall t (m : W unit) Q, t = EP_NONE \/ t = EP_USER -> cumple m c Q ->
    cumple (match t with EP_PROXY => falla (FueraDelModelo "do_proxy") | _ => m end) c Q) as K by (by intros ? ? ? [-> | ->]).
  apply K; [by apply inv_tipo|]. clear K. eapply cumple_bind; [by apply cumple_parse|]. intros [] c1 Hc1.
  eapply cumple_bind; [by apply (cumple_lee _ _ (fun x c' => x = c1 /\ c' = c1))|]. intros x c2 [-> ->].
  eapply cumple_bind with (Q := fun _ c' => Inv c'); [|intros [] c3 H3; by apply cumple_repartir].
  assert (tipo c1 = EP_NONE \/ tipo c1 = EP_USER) as Ht1 by (destruct Hc1 as [[? _]|?]; [by left|by apply inv_tipo]).
  destruct ((request_len c1 <? 0) || _) eqn:E1; [apply cumple_error; [done|apply inv_cerrada]|].
  destruct ((request_len c1 =? 0) && _) eqn:E2; [apply cumple_error; [done|apply inv_cerrada]|].
  destruct ((0 <? request_len c1) && negb (version_ok c1)) eqn:E3; [apply cumple_error; [done|apply inv_cerrada]|].
  apply orb_false_elim in E1 as [E1 E1']. destruct (Z.ltb_spec 0 (request_len c1)) as [Hpos|Hle]; cbn [andb] in *.
  - apply negb_false_iff in E1', E3. destruct (bool_decide (tipo c1 = EP_NONE)) eqn:E4.
    + eapply cumple_bind; [by apply cumple_handshake|]. intros [] c2 [H1 H2].
      eapply cumple_bind; [by apply cumple_continuar|]. intros [] c3 [H3 H4].
      unfold uri_ok, version_ok in *. apply cumple_abrir; unfold uri_ok, version_ok; rewrite ?H3, ?H1; try done. lia.
    + apply cumple_ret. apply bool_decide_eq_false in E4. destruct Ht1; [done|]. by right.
  - apply cumple_ret. apply Z.ltb_ge in E1. destruct Hc1 as [[? _]|?]; [|done]. left. split; [done|lia].
Qed.

(** *** The events *)

Lemma cumple_recibir l c : Inv c -> cumple (recibir l) c (fun _ c' => Inv c').
Proof.
  revert c. induction l as [|b l IH]; intros c Hi; [by apply cumple_ret|]. cbn [recibir].
  eapply cumple_bind; [apply (cumple_cambia _ _ (fun _ c' => Inv c')); by eapply inv_mas|]. intros [] c1 H1.
  eapply cumple_bind with (Q := fun _ c' => Inv c').
  - eapply cumple_bind; [apply (cumple_cambia _ _ (fun _ c' => Inv c')); by eapply inv_mas|]. intros [] c2 H2.
    by apply (cumple_on_recv 0).
  - intros [] c2 H2. by apply IH.
Qed.

Lemma cumple_leer l c : Inv c -> cumple (ns_read_from_socket l) c (fun _ c' => Inv c').
Proof.
  intros Hi. eapply cumple_bind; [by apply cumple_recibir|]. intros [] c1 H1.
  destruct l.2; [apply cumple_cambia; by eapply inv_mas..|by apply cumple_ret].
Qed.

Lemma cumple_ev_close c : Inv c -> cumple ev_close c (fun _ c' => Inv c').
Proof.
  intros Hi. eapply cumple_bind; [by apply (cumple_otros _ _ (fun _ c' => Inv c'))|]. intros r c1 H1.
  apply (cumple_close 1); [by apply inv_tipo|apply inv_cerrada].
Qed.

Lemma cumple_ev_poll t last c : Inv c -> cumple (ev_poll t last) c (fun _ c' => Inv c').
Proof.
  intros Hi. eapply cumple_bind; [by apply (cumple_otros _ _ (fun r c' => r = MG_FALSE /\ Inv c'))|]. intros r c1 [-> H1].
  eapply cumple_bind; [by apply (cumple_ret _ _ (fun _ c' => Inv c'))|]. intros [] c2 H2.
  eapply cumple_bind; [by apply (cumple_lee _ _ (fun ep c' => (ep = EP_NONE \/ ep = EP_USER) /\ Inv c'));
    split; [apply inv_tipo|]|]. intros ep c3 [Hep H3].
  eapply cumple_bind with (Q := fun _ c' => Inv c'); [destruct Hep as [-> | ->]; by apply cumple_ret|]. intros [] c4 H4.
  eapply cumple_bind; [by apply (cumple_lee _ _ (fun _ c' => Inv c'))|]. intros ws c5 H5.
  eapply cumple_bind with (Q := fun _ c' => Inv c').
  { destruct ws; [|by apply cumple_ret]. unfold ping_idle_websocket_connection. destruct (_ <? _); [|by apply cumple_ret].
    apply cumple_enviar. by eapply inv_mas. }
  intros [] c6 H6. destruct (_ <? t); [|by apply cumple_ret].
  eapply cumple_bind; [by apply cumple_ev_close|]. intros [] c7 H7.
  eapply cumple_bind; [apply (cumple_cambia _ _ (fun _ c' => Inv c')); by eapply inv_mas|]. intros [] c8 H8.
  by apply cumple_ret.
Qed.

(** *** A turn of the loop *)

Definition cumpleS {B} (m : M S B) (Q : B -> Prop) : Prop :=
  forall s, match m s with
            | (Ok b, s') => Q b /\ R s s'
            | (Fallo e, _) => permitido e
            end.

Lemma cumpleS_ret {B} (b : B) (Q : B -> Prop) : Q b -> cumpleS (ret b) Q.
Proof. intros HQ s. split; [done|reflexivity]. Qed.
Lemma cumpleS_bind {B C} (m : M S B) (f : B -> M S C) Q Q' :
  cumpleS m Q -> (forall b, Q b -> cumpleS (f b) Q') -> cumpleS (bindM m f) Q'.
Proof.
  intros Hm Hf s. specialize (Hm s). unfold bindM. destruct (m s) as [[b|e] s']; [|done].
  destruct Hm as [HQ HRs]. specialize (Hf b HQ s'). destruct (f b s') as [[b'|e] s'']; [|done].
  destruct Hf. split; [done|by etrans].
Qed.

Lemma cumpleS_nodo {B} (m : W B) n (Q : B -> connection -> Prop) :
  cumple m (conn n) Q ->
  cumpleS (en_nodo m n) (fun p => Q p.1 (conn p.2) /\ sock p.2 = sock n).
Proof.
  intros Hm s. specialize (Hm s). unfold en_nodo. destruct (m (conn n, s)) as [[b|e] [c' s']]; [|done].
  destruct Hm. by split_and!.
Qed.

Lemma cumpleS_pasada {X Y} (f : X -> M S (option Y)) l (P : X -> Prop) (Q : Y -> Prop) :
  (forall x, P x -> cumpleS (f x) (fun o => match o with Some y => Q y | None => True end)) ->
  Forall P l -> cumpleS (pasada f l) (Forall Q).
Proof.
  intros Hf. induction 1 as [|x l Hx _ IH]; [by apply cumpleS_ret|]. cbn [pasada].
  eapply cumpleS_bind; [by apply Hf|]. intros o Ho. eapply cumpleS_bind; [exact IH|]. intros l' Hl'.
  apply cumpleS_ret. destruct o; [by constructor|done].
Qed.

Lemma cumpleS_cerrar n : Inv (conn n) -> cumpleS (cerrar n) (fun o => match o with Some n => Inv (conn n) | None => True end).
Proof.
  intros Hi. eapply cumpleS_bind; [apply cumpleS_nodo; by apply cumple_ev_close|]. intros b Hb. by apply cumpleS_ret.
Qed.

Abbreviation quieta := (fun n => Inv (conn n)).
Abbreviation algo P := (fun o => match o with Some y => P y | None => True end).

Lemma cumpleS_add_to_set q : cumpleS (alzar (ns_add_to_set q)) (fun _ => True).
Proof.
  intros s. unfold alzar, ns_add_to_set. destruct (_ =? _); [by split|]. destruct (_ && _); [by split|].
  right. right. right. by left.
Qed.

Lemma cumpleS_sondear t n : Inv (conn n) -> cumpleS (sondear t n) (algo (fun nw : nodo * bool => Inv (conn nw.1))).
Proof.
  intros Hn. eapply cumpleS_bind; [apply cumpleS_nodo; by apply cumple_ev_poll|]. intros [expirada n'] [Hn' _].
  destruct expirada; [by apply cumpleS_ret|]. destruct (close_immediately _).
  - eapply cumpleS_bind; [by apply cumpleS_cerrar|]. intros o Ho. by apply cumpleS_ret.
  - eapply cumpleS_bind; [apply cumpleS_add_to_set|]. intros o Ho. by apply cumpleS_ret.
Qed.

Lemma cumpleS_atender su nw : Inv (conn nw.1) -> cumpleS (atender su nw) (algo quieta).
Proof.
  destruct nw as [n w]. intros Hn. cbn in Hn. eapply cumpleS_bind with (Q := quieta).
  - destruct (legibles su (sock n)) as [lec|]; [|by apply cumpleS_ret].
    eapply cumpleS_bind; [apply cumpleS_nodo; by apply cumple_leer|]. intros [b n'] [Hn' _]. by apply cumpleS_ret.
  - intros n' Hn'. destruct (if w then _ else _) as [e|]; [|by apply cumpleS_ret].
    destruct e; cbn; apply cumpleS_ret; by eapply inv_mas.
Qed.

Lemma cumpleS_despedir n : Inv (conn n) -> cumpleS (despedir n) (algo quieta).
Proof. intros Hn. unfold despedir. destruct (por_cerrar n); [by apply cumpleS_cerrar|by apply cumpleS_ret]. Qed.

Lemma inv_aceptar su id l : Forall quieta l -> Forall quieta (aceptar su id l).
Proof. unfold aceptar. destruct (acepta su); [|done]. intros Hl. constructor; [by left|done]. Qed.

Lemma cumpleS_poll su r :
  Forall (fun n => Inv (conn n)) (active_connections r) ->
  match ns_mgr_poll su r with
  | (Ok _, r') => Forall (fun n => Inv (conn n)) (active_connections r') /\ R (estado r) (estado r')
  | (Fallo e, _) => permitido e
  end.
Proof.
  intros Hr. unfold ns_mgr_poll. set (m := (let* l := _ in _)).
  assert (cumpleS m (fun p => Forall quieta p.1)) as K.
  { eapply cumpleS_bind; [by eapply cumpleS_pasada; [apply cumpleS_sondear|]|]. intros l Hl.
    eapply cumpleS_bind; [by eapply cumpleS_pasada; [apply cumpleS_atender|]|]. intros l' Hl'.
    eapply cumpleS_bind; [eapply cumpleS_pasada; [apply cumpleS_despedir|by apply inv_aceptar]|]. intros l2 Hl2.
    by apply cumpleS_ret. }
  specialize (K (estado r)). by destruct (m (estado r)) as [[[l cs]|e] s'].
Qed.

Lemma turno_preserva r r' :
  Forall (fun n => Inv (conn n)) (active_connections r) -> turno r r' ->
  Forall (fun n => Inv (conn n)) (active_connections r') /\ R (estado r) (estado r').
Proof. intros Hr Ht. destruct Ht as [su r r' E]. pose proof (cumpleS_poll su r Hr) as K. by rewrite E in K. Qed.

Lemma turnos_preservan r r' :
  Forall (fun n => Inv (conn n)) (active_connections r) -> rtc turno r r' ->
  Forall (fun n => Inv (conn n)) (active_connections r') /\ R (estado r) (estado r').
Proof.
  intros Hr Ht. induction Ht as [r|r r1 r' H1 _ IH]; [by split|].
  destruct (turno_preserva r r1 Hr H1) as [Hr1 R1]. destruct (IH Hr1) as [? ?]. split; [done|by etrans].
Qed.
End Preserva.

#[export] Instance filtrar_ok {S : Type} (P : mg_connection -> Prop) {PD : forall r, Decision (P r)} (H : Manejador S) :
  ManejadorOk H -> ManejadorOk (filtrar P H).
Proof.
  intros HO. split; cbn.
  - intros [r|] x r' y; [|apply request_ok]. destruct (decide (P r)); [apply request_ok|done].
  - intros [r|] x; apply auth_ok.
  - intros [r|] ev x H1 H2; destruct ev; try done; by apply otros_ok.
Qed.

(** ** Delivery *)
Section Entrega.
Context {S : Type} {H : Manejador S} {HO : ManejadorOk H}.

(** The turns made with the answers [l] of the kernel. *)
Inductive turnos : list Sucesos -> Red S -> Red S -> Prop :=
| turnos_fin r : turnos [] r r
| turnos_mas su l r r1 r' : ns_mgr_poll su r = (Ok tt, r1) -> turnos l r1 r' -> turnos (su :: l) r r'.

(** An element whose body can only give [y] leaves [y] in the list. *)
Lemma pasada_queda_si {X Y} (f : X -> M S (option Y)) x y l s l' s' :
  (forall s o s', f x s = (Ok o, s') -> o = Some y) -> pasada f l s = (Ok l', s') -> In x l -> In y l'.
Proof.
  intros Hx. revert s l' s'. induction l as [|x0 l IH]; intros s l' s' E Hin; [done|]. cbn [pasada] in E.
  apply bind_ok_inv in E as (o & s1 & E1 & E). apply bind_ok_inv in E as (l1 & s2 & E2 & E). injection E as <- <-.
  destruct Hin as [->|Hin].
  - rewrite (Hx _ _ _ E1). by left.
  - destruct o; [right|]; by eapply IH.
Qed.
Lemma pasada_queda {X Y} (f : X -> M S (option Y)) x y l s l' s' :
  (forall s, f x s = (Ok (Some y), s)) -> pasada f l s = (Ok l', s') -> In x l -> In y l'.
Proof. intros Hx. apply pasada_queda_si. intros s0 o s1. rewrite Hx. by intros [= <- _]. Qed.

(** The three passes of a turn. *)
Lemma poll_inv su (r r' : Red S) :
  ns_mgr_poll su r = (Ok tt, r') ->
  exists l1 s1 l2 s2, pasada (sondear (hora su)) (active_connections r) (estado r) = (Ok l1, s1) /\
    pasada (atender su) l1 s1 = (Ok l2, s2) /\
    pasada despedir (aceptar su (siguiente r) l2) s2 = (Ok (active_connections r'), estado r') /\
    despedidas r' = despedidas r ++ List.filter por_cerrar (aceptar su (siguiente r) l2).
Proof.
  unfold ns_mgr_poll. set (m := (let* l := _ in _)). destruct (m (estado r)) as [[[l4 cs]|e] s4] eqn:Em; [|done].
  intros [= <-]. apply bind_ok_inv in Em as (l1 & s1 & E1 & Em). apply bind_ok_inv in Em as (l2 & s2 & E2 & Em).
  apply bind_ok_inv in Em as (l3 & s3 & E3 & Em). injection Em as <- <- <-. by exists l1, s1, l2, s2.
Qed.

(** A quiet turn for a client: nothing arrives from it, its socket takes at least a byte, and
    less than the idle time has passed since [t0]. *)
Definition avanza (id : nat) (t0 : Z) (su : Sucesos) : Prop :=
  legibles su id = None /\ (exists k, escribibles su id = Some (ESCRITOS (Datatypes.S k))) /\
  hora su <= t0 + MONGOOSE_IDLE_TIMEOUT_SECONDS /\ t0 <= hora_select su.

Lemma cerrada_respuesta k t : respuesta (cerrada k t) = mkSalida 0 false false t.
Proof. unfold cerrada. by destruct k, (String.eqb t ""). Qed.

Lemma sondear_quieto t n k x (s : S) o s' :
  conn n = cerrada k x -> k = true \/ x <> "" -> t <= last_io_time n + MONGOOSE_IDLE_TIMEOUT_SECONDS ->
  sondear t n s = (Ok o, s') -> o = Some (n, negb (String.eqb x "")).
Proof.
  intros Hc Hk Ht. assert (tipo (conn n) = EP_NONE /\ is_websocket (conn n) = false /\ close_immediately (conn n) = false) as (T & Wb & Cl).
  { rewrite Hc. unfold cerrada. destruct k; [done|]. destruct Hk as [|Hx]; [done|].
    by rewrite (proj2 (String.eqb_neq x "") Hx). }
  assert (ev_poll t (last_io_time n) (conn n, s) = (Ok false, (conn n, s))) as E.
  { unfold ev_poll. erewrite bind_ok by (by apply call_otros). erewrite bind_ok by reflexivity.
    erewrite bind_ok by reflexivity. cbv beta iota. rewrite T. erewrite bind_ok by reflexivity.
    erewrite bind_ok by reflexivity. cbv beta iota. rewrite Wb. erewrite bind_ok by reflexivity.
    by rewrite (proj2 (Z.ltb_ge _ _) Ht). }
  unfold sondear, en_nodo. unfold bindM at 1. rewrite E. cbv beta iota.
  destruct n as [id q c last ent]. cbn [conn sock fd last_io_time entregado] in *.
  rewrite Cl, Hc, cerrada_respuesta. unfold bindM, alzar. destruct (ns_add_to_set q) as [[]|]; [|done]. by intros [= <- _].
Qed.

(** One turn takes [S k] bytes of what is pending. *)
Lemma turno_avanza su r r' n t0 k x :
  ns_mgr_poll su r = (Ok tt, r') -> In n (active_connections r) -> conn n = cerrada k x -> x <> "" ->
  avanza (sock n) t0 su -> t0 <= last_io_time n ->
  exists n' y, x = y.1 +:+ y.2 /\ y.1 <> "" /\ sock n' = sock n /\ entregado n' = entregado n +:+ y.1 /\
    t0 <= last_io_time n' /\
    (y.2 <> "" \/ k = true -> In n' (active_connections r') /\ conn n' = cerrada k y.2) /\
    (y.2 = "" /\ k = false -> In n' (despedidas r')).
Proof.
  intros E Hin Hc Hx (Hl & (j & He) & Hh & Hs) Ht.
  set (c' := con_respuesta (mkSalida 0 false false (saltear (Datatypes.S j) x)) (cerrada k x)).
  set (n' := mkNodo (sock n) (fd n) c' (hora_select su) (entregado n +:+ prefijo (Datatypes.S j) x)).
  exists n', (prefijo (Datatypes.S j) x, saltear (Datatypes.S j) x). cbn [fst snd].
  split; [by rewrite prefijo_saltear|]. split; [by destruct x|]. do 2 (split; [done|]). split; [done|].
  apply poll_inv in E as (l1 & s1 & l2 & s2 & E1 & E2 & E3 & Ed). rewrite Ed.
  assert (In (n, true) l1) as H1.
  { eapply pasada_queda_si; [|exact E1|exact Hin]. intros s o s' Eo.
    apply (sondear_quieto _ n k x s o s' Hc) in Eo as ->; [|by right|lia].
    by rewrite (proj2 (String.eqb_neq x "") Hx). }
  assert (In n' l2) as H2.
  { eapply pasada_queda; [|exact E2|exact H1]. intros s. unfold atender. rewrite Hl. erewrite bind_ok by reflexivity.
    rewrite He. unfold ns_write_to_socket. rewrite Hc, cerrada_respuesta. reflexivity. }
  assert (In n' (aceptar su (siguiente r) l2)) as H3 by (unfold aceptar; destruct (acepta su); [by right|done]).
  assert (por_cerrar n' = String.eqb (saltear (Datatypes.S j) x) "" && negb k) as Ep.
  { unfold por_cerrar, n', c', cerrada. cbn [conn]. destruct k; cbn; [by rewrite !andb_false_r|].
    rewrite (proj2 (String.eqb_neq x "") Hx). cbn. by rewrite !andb_true_r. }
  split.
  - intros Hy. assert (por_cerrar n' = false) as Ef.
    { rewrite Ep. destruct Hy as [Hy| ->]; [by rewrite (proj2 (String.eqb_neq _ "") Hy)|by rewrite andb_false_r]. }
    split; [eapply pasada_queda; [|exact E3|exact H3]; intros s; unfold despedir; by rewrite Ef|].
    unfold n', c', cerrada. cbn [conn]. destruct k; [done|]. rewrite (proj2 (String.eqb_neq x "") Hx).
    destruct Hy as [Hy|]; [|done]. by rewrite (proj2 (String.eqb_neq _ "") Hy).
  - intros [Hy ->]. apply in_or_app. right. apply filter_In. split; [done|]. rewrite Ep, Hy. done.
Qed.

Lemma despedidas_turno su r r' n : ns_mgr_poll su r = (Ok tt, r') -> In n (despedidas r) -> In n (despedidas r').
Proof. intros E Hn. apply poll_inv in E as (? & ? & ? & ? & _ & _ & _ & ->). apply in_or_app. by left. Qed.

Lemma despedidas_turnos l r r' n : turnos l r r' -> In n (despedidas r) -> In n (despedidas r').
Proof. induction 1; [done|]. intros Hn. eauto using despedidas_turno. Qed.

(** A connection kept alive with nothing pending waits. *)
Lemma turno_quieto su r r' n t0 :
  ns_mgr_poll su r = (Ok tt, r') -> In n (active_connections r) -> conn n = cerrada true "" ->
  avanza (sock n) t0 su -> t0 <= last_io_time n -> In n (active_connections r').
Proof.
  intros E Hin Hc (Hl & _ & Hh & Hs) Ht. apply poll_inv in E as (l1 & s1 & l2 & s2 & E1 & E2 & E3 & _).
  eapply pasada_queda; [|exact E3|].
  - intros s. unfold despedir, por_cerrar. by rewrite Hc.
  - assert (In n l2); [|by unfold aceptar; destruct (acepta su); [right|]].
    eapply pasada_queda; [|exact E2|]; [|eapply (pasada_queda_si _ n (n, false)); [|exact E1|exact Hin]].
    + intros s. unfold atender. rewrite Hl. by erewrite bind_ok by reflexivity.
    + intros s o s' Eo. eapply (sondear_quieto _ n true ""); [done|by left| |done]. lia.
Qed.

Lemma turnos_quietos l r r' n t0 :
  turnos l r r' -> In n (active_connections r) -> conn n = cerrada true "" ->
  Forall (avanza (sock n) t0) l -> t0 <= last_io_time n -> In n (active_connections r').
Proof.
  induction 1 as [|su l r r1 r' E _ IH]; [done|]. intros Hin Hc Hl Ht. inversion Hl; subst.
  apply IH; try done. by eapply turno_quieto.
Qed.

Lemma turnos_entregan l r r' n t0 k x :
  turnos l r r' -> In n (active_connections r) -> conn n = cerrada k x -> x <> "" ->
  Forall (avanza (sock n) t0) l -> t0 <= last_io_time n -> (String.length x <= length l)%nat ->
  exists n', sock n' = sock n /\ entregado n' = entregado n +:+ x /\
    if k then In n' (active_connections r') /\ conn n' = reposo "" else In n' (despedidas r').
Proof.
  intros Ht. revert n x. induction Ht as [r|su l r r1 r' E Ht IH]; intros n x Hin Hc Hx Hl Hlast Hlen.
  { destruct x; [done|cbn in Hlen; lia]. }
  inversion Hl as [|? ? Hsu Hl']; subst.
  destruct (turno_avanza su r r1 n t0 k x E Hin Hc Hx Hsu Hlast) as (n1 & [y z] & Ex & Hy & Hs & He & Hl1 & Hq & Hd).
  cbn [fst snd] in *. destruct (decide (z = "")) as [->|Hz].
  - rewrite app_nil_r_s in Ex. subst y. exists n1. split; [done|]. split; [done|]. destruct k.
    + destruct (Hq (or_intror eq_refl)) as [Hin1 Hc1]. split; [|done].
      eapply turnos_quietos; [exact Ht|done|done|by rewrite Hs|done].
    + eapply despedidas_turnos; [exact Ht|]. by apply Hd.
  - destruct (Hq (or_introl Hz)) as [Hin1 Hc1].
    destruct (IH n1 z) as (n' & Hs' & He' & Hk); try done.
    + by rewrite Hs.
    + rewrite Ex, length_app_s in Hlen. destruct y; [done|]. cbn in Hlen. lia.
    + exists n'. split; [congruence|]. split; [|done]. by rewrite He', He, Ex, app_assoc_s.
Qed.
End Entrega.

(** ** A request served in the loop *)
Section Atencion.
Context {S : Type} {H : Manejador S} {HO : ManejadorOk H} (R : S -> S -> Prop) {HP : PreOrder R}.
Hypothesis HR : forall c x s r y s', event_handler c MG_REQUEST (x, s) = (Ok r, (y, s')) -> R s s'.

(** The body of one element of a pass, between those before and after it. *)
Lemma pasada_uno {X Y} (f : X -> M S (option Y)) (P : X -> Prop) (Q : option Y -> Prop) x l s l' s' :
  (forall x, P x -> cumpleS R (f x) Q) -> Forall P l -> In x l -> pasada f l s = (Ok l', s') ->
  exists o s1 s2, R s s1 /\ f x s1 = (Ok o, s2) /\ R s2 s' /\ match o with Some y => In y l' | None => True end.
Proof.
  intros Hf Hl. revert s l' s'. induction Hl as [|x0 l Hx0 Hl IH]; intros s l' s' Hin E; [done|]. cbn [pasada] in E.
  apply bind_ok_inv in E as (o & s1 & E1 & E). apply bind_ok_inv in E as (l1 & s2 & E2 & E). injection E as <- <-.
  pose proof (Hf x0 Hx0 s) as K. rewrite E1 in K. destruct K as [_ K]. destruct Hin as [->|Hin].
  - exists o, s, s1. split_and!; [reflexivity|done| |destruct o; [by left|done]].
    pose proof (cumpleS_pasada R f l P (fun _ => True)) as Kp.
    assert (forall x, P x -> cumpleS R (f x) (fun o => match o with Some _ => True | None => True end)) as Hf'.
    { intros z Hz s0. specialize (Hf z Hz s0). destruct (f z s0) as [[o'|e] s3]; [|done].
      destruct Hf. split; [by destruct o'|done]. }
    specialize (Kp Hf' Hl s1). rewrite E2 in Kp. by destruct Kp.
  - destruct (IH s1 l1 s2 Hin E2) as (o' & s3 & s4 & R1 & Ex & R2 & Ho). exists o', s3, s4.
    split_and!; [by etrans|done|done|]. destruct o'; [|done]. destruct o; [by right|done].
Qed.

(** The turn in which a whole request arrives: the handler is called on it in a state [s1]
    between those of the turn, and its reply is what the connection owes. *)
Lemma turno_atiende su r r' n p piezas :
  Forall (fun n => Inv (conn n)) (active_connections r) -> ns_mgr_poll su r = (Ok tt, r') ->
  In n (active_connections r) -> conn n = reposo "" -> hora su <= last_io_time n + MONGOOSE_IDLE_TIMEOUT_SECONDS ->
  legibles su (sock n) = Some (piezas, NADA_MAS) ->
  bien_formada p -> Forall (fun b => b <> "") piezas -> unir piezas = p_cabeza p +:+ p_cuerpo p ->
  (forall s, R (estado r) s -> exists y, event_handler (Some (con_cuerpo (p_cuerpo p) (p_conn p))) MG_REQUEST
     (inicial p (mkSalida 0 false false ""), s) = (Ok MG_TRUE, y)) ->
  exists s1 sal s2 n', R (estado r) s1 /\ R s2 (estado r') /\
    event_handler (Some (con_cuerpo (p_cuerpo p) (p_conn p))) MG_REQUEST
      (inicial p (mkSalida 0 false false ""), s1) = (Ok MG_TRUE, (sal, s2)) /\
    sock n' = sock n /\ entregado n' = entregado n /\ last_io_time n' = hora_select su /\
    conn n' = final (p_conn p) sal /\
    if por_cerrar n' then In n' (despedidas r') else In n' (active_connections r').
Proof.
  intros Hr E Hin Hc Ht Hl Hp Hne Hu Hh. apply poll_inv in E as (l1 & s1 & l2 & s2 & E1 & E2 & E3 & Ed).
  assert (Forall (fun nw : nodo * bool => Inv (conn nw.1)) l1 /\ R (estado r) s1) as [Hl1 R1].
  { pose proof (cumpleS_pasada R (sondear (hora su)) _ _ _ (cumpleS_sondear R (hora su)) Hr (estado r)) as K. by rewrite E1 in K. }
  assert (Forall (fun n => Inv (conn n)) l2) as Hl2.
  { pose proof (cumpleS_pasada R (atender su) _ _ _ (cumpleS_atender R HR su) Hl1 s1) as K. rewrite E2 in K. by destruct K. }
  assert (R s2 (estado r')) as R3.
  { pose proof (cumpleS_pasada R despedir _ _ _ (cumpleS_despedir R) (inv_aceptar su (siguiente r) _ Hl2) s2) as K.
    rewrite E3 in K. by destruct K. }
  assert (In (n, false) l1) as H1.
  { eapply pasada_queda_si; [|exact E1|exact Hin]. intros s o s' Eo. exact (sondear_quieto _ n true "" s o s' Hc (or_introl eq_refl) Ht Eo). }
  destruct (pasada_uno (atender su) _ _ (n, false) l1 s1 l2 s2 (cumpleS_atender R HR su) Hl1 H1 E2)
    as (o & sa & sb & Ra & Ea & Rb & Ho).
  destruct (Hh sa ltac:(by etrans)) as [[sal sc] Eh].
  pose proof (recibir_reposo p piezas "" sa sal sc Hp Hne Hu Eh) as Er. fold (final (p_conn p) sal) in Er.
  set (n' := mkNodo (sock n) (fd n) (final (p_conn p) sal) (hora_select su) (entregado n)).
  assert (atender su (n, false) sa = (Ok (Some n'), sc)) as Ea'.
  { unfold atender. rewrite Hl. unfold en_nodo, bindM, ns_read_from_socket. cbn [conn fst snd]. unfold bindM. by rewrite Hc, Er. }
  rewrite Ea' in Ea. injection Ea as <- <-.
  exists sa, sal, sc, n'. split_and!; try done; [by etrans..|].
  assert (In n' (aceptar su (siguiente r) l2)) as H3 by (unfold aceptar; destruct (acepta su); [by right|done]).
  destruct (por_cerrar n') eqn:Ep.
  - rewrite Ed. apply in_or_app. right. by apply filter_In.
  - eapply pasada_queda; [|exact E3|exact H3]. intros s. unfold despedir. by rewrite Ep.
Qed.
End Atencion.
End RedOk.
