(* ===== verification/Lista.v ===== *)
(** * Lista: the linked list of connections of src/WebServer/mongoose.c

    [ns_mgr] keeps its connections in a doubly linked list through their pointers [prev] and
    [next].  Module [Lista] has the list as the code has it, cells of a memory with their
    pointers: insertion, removal, and the loops of [ns_mgr_poll], whose body may destroy the
    connection it is at.  Module [ListaOk] shows that the list is what [Red] takes it for:
    the cells are those of a sequence, no pointer dangles, nothing leaks, and a turn of the
    loop over the memory is [Red.ns_mgr_poll] over the sequence. *)

From S2P Require Import Prelude Libc Mongoose WebSocket Conexion Red.
Open Scope Z_scope.

Module Lista.
Import Conexion Red.

Section Celdas.
Context {A : Type}.

(** A connection in memory: its data and its two pointers; [None] is the null pointer. *)
Record celda : Type := mkCelda { valor : A; prev : option nat; next : option nat }.
Record ns_mgr : Type := mkMgr { memoria : gmap nat celda; active_connections : option nat }.

(** To follow a pointer to memory that was freed is undefined. *)
Definition celda_de (p : nat) (m : ns_mgr) : res celda :=
  match memoria m !! p with Some c => Ok c | None => Fallo (Indefinido "ns_connection: dangling pointer") end.
Definition escribir (p : nat) (f : celda -> celda) (m : ns_mgr) : res ns_mgr :=
  let? c := celda_de p m in Ok (mkMgr (<[p := f c]> (memoria m)) (active_connections m)).
Definition con_prev (q : option nat) (c : celda) : celda := mkCelda (valor c) q (next c).
Definition con_next (q : option nat) (c : celda) : celda := mkCelda (valor c) (prev c) q.
Definition con_valor (a : A) (c : celda) : celda := mkCelda a (prev c) (next c).

Definition ns_add_conn (c : nat) (m : ns_mgr) : res ns_mgr :=
  let? m := escribir c (con_next (active_connections m)) m in
  let m := mkMgr (memoria m) (Some c) in
  let? m := escribir c (con_prev None) m in
  let? x := celda_de c m in
  match next x with Some q => escribir q (con_prev (Some c)) m | None => Ok m end.

Definition ns_remove_conn (conn : nat) (m : ns_mgr) : res ns_mgr :=
  let? c := celda_de conn m in
  let m := match prev c with None => mkMgr (memoria m) (next c) | Some _ => m end in
  let? c := celda_de conn m in
  let? m := match prev c with Some p => escribir p (con_next (next c)) m | None => Ok m end in
  let? c := celda_de conn m in
  match next c with Some q => escribir q (con_prev (prev c)) m | None => Ok m end.

(** [ns_destroy_conn]: the memory is freed. *)
Definition ns_destroy_conn (p : nat) (m : ns_mgr) : ns_mgr := mkMgr (delete p (memoria m)) (active_connections m).

(** [ns_add_sock]: new memory, put at the head of the list. *)
Definition ns_add_sock (a : A) (m : ns_mgr) : res ns_mgr :=
  let p := fresh (dom (memoria m)) in
  ns_add_conn p (mkMgr (<[p := mkCelda a None None]> (memoria m)) (active_connections m)).

Definition ns_next (m : ns_mgr) (conn : option nat) : res (option nat) :=
  match conn with
  | None => Ok (active_connections m)
  | Some p => let? c := celda_de p m in Ok (next c)
  end.

Section Bucle.
Context {Y : Type}.

(** [for (conn = p; conn != NULL; conn = tmp_conn) { tmp_conn = conn->next; ... }] *)
Fixpoint bucle (fuel : nat) (cuerpo : nat -> M (ns_mgr * Y) unit) (p : option nat) : M (ns_mgr * Y) unit :=
  match fuel with
  | O => falla SinCombustible
  | S fuel =>
      match p with
      | None => ret tt
      | Some conn =>
          let* tmp_conn := fun x => (ns_next x.1 (Some conn), x) in
          cuerpo conn;;;
          bucle fuel cuerpo tmp_conn
      end
  end.
Definition para_cada (cuerpo : nat -> M (ns_mgr * Y) unit) : M (ns_mgr * Y) unit := fun x =>
  bucle (S (base.size (memoria x.1))) cuerpo (active_connections x.1) x.

(** A body that changes the connection, or closes it: [ns_remove_conn] and
    [ns_destroy_conn]. *)
Definition atiende (f : A -> M Y (option A)) (p : nat) : M (ns_mgr * Y) unit := fun x =>
  let '(m, y) := x in
  match celda_de p m with
  | Fallo e => (Fallo e, x)
  | Ok c =>
      match f (valor c) y with
      | (Fallo e, y) => (Fallo e, (m, y))
      | (Ok (Some a), y) =>
          match escribir p (con_valor a) m with Ok m => (Ok tt, (m, y)) | Fallo e => (Fallo e, (m, y)) end
      | (Ok None, y) =>
          match ns_remove_conn p m with Ok m => (Ok tt, (ns_destroy_conn p m, y)) | Fallo e => (Fallo e, (m, y)) end
      end
  end.
End Bucle.
End Celdas.
Arguments celda A : clear implicits.
Arguments ns_mgr A : clear implicits.

(** ** A turn of the loop over the memory *)
Section Turno.
Context {S : Type} {H : Manejador S}.

(** The listening socket is a connection of the list too. *)
Inductive ns_connection : Type := Escucha | Activa (n : nodo).

(** What a turn changes besides the list: the connections of [write_set], the name of the
    next connection and the state of the handler. *)
Record resto : Type := mkResto { write_set : gset nat; siguiente : nat; estado : S }.
Definition en_estado {B} (m : M S B) : M resto B := fun y =>
  let '(r, s) := m (estado y) in (r, mkResto (write_set y) (siguiente y) s).

Definition sondear_uno (t : Z) (a : ns_connection) : M resto (option ns_connection) :=
  match a with
  | Escucha => ret (Some Escucha)
  | Activa n =>
      let* o := en_estado (sondear t n) in
      match o with
      | None => ret None
      | Some (n, escribe) =>
          (if escribe : bool then cambiar (fun y => mkResto ({[sock n]} ∪ write_set y) (siguiente y) (estado y)) else ret tt);;;
          ret (Some (Activa n))
      end
  end.

Definition atender_uno (su : Sucesos) (a : ns_connection) : M resto (option ns_connection) :=
  match a with
  | Escucha => ret (Some Escucha)
  | Activa n =>
      let* ws := leer write_set in
      let* o := en_estado (atender su (n, bool_decide (sock n ∈ ws))) in
      ret (Activa <$> o)
  end.

(** [accept_conn], when the listening socket is readable. *)
Definition accept_conn (su : Sucesos) : M (ns_mgr ns_connection * resto) unit := fun x =>
  let '(m, y) := x in
  if acepta su then
    match ns_add_sock (Activa (mkNodo (siguiente y) (descriptor su) connection_nueva (hora_accept su) "")) m with
    | Ok m => (Ok tt, (m, mkResto (write_set y) (Datatypes.S (siguiente y)) (estado y)))
    | Fallo e => (Fallo e, x)
    end
  else (Ok tt, x).

Definition atender_o_aceptar (su : Sucesos) (p : nat) : M (ns_mgr ns_connection * resto) unit := fun x =>
  match celda_de p x.1 with
  | Ok (mkCelda Escucha _ _) => accept_conn su x
  | _ => atiende (atender_uno su) p x
  end.

Definition despedir_uno (a : ns_connection) : M resto (option ns_connection) :=
  match a with
  | Escucha => ret (Some Escucha)
  | Activa n => let* o := en_estado (despedir n) in ret (Activa <$> o)
  end.

Definition poll (su : Sucesos) : M (ns_mgr ns_connection * resto) unit :=
  cambiar (fun x => (x.1, mkResto ∅ (siguiente x.2) (estado x.2)));;;
  para_cada (atiende (sondear_uno (hora su)));;;
  para_cada (atender_o_aceptar su);;;
  para_cada (atiende despedir_uno).
End Turno.
Arguments resto S : clear implicits.
End Lista.

(** ** The list is the sequence that [Red] takes it for *)
Module ListaOk.
Import Conexion Red Lista.

Section Celdas.
Context {A : Type}.
Implicit Types (m : ns_mgr A) (l : list (nat * A)).

(** The pointer to the first cell of a piece of list, and to the last one. *)
Definition primero l (fin : option nat) : option nat := match l with [] => fin | (p, _) :: _ => Some p end.
Fixpoint ultimo (ant : option nat) l : option nat := match l with [] => ant | (p, _) :: l => ultimo (Some p) l end.

(** The cells of a piece of list, which comes after [ant] and before [fin]. *)
Fixpoint tramo (c : gmap nat (celda A)) (ant : option nat) l (fin : option nat) : Prop :=
  match l with
  | [] => True
  | (p, a) :: l => c !! p = Some (mkCelda a ant (primero l fin)) /\ tramo c (Some p) l fin
  end.

(** The list of the manager is [l], and the memory holds nothing else. *)
Definition representa m l : Prop :=
  NoDup l.*1 /\ Lista.active_connections m = primero l None /\ tramo (memoria m) None l None /\ dom (memoria m) = list_to_set l.*1.

Lemma primero_app l1 l2 fin : primero (l1 ++ l2) fin = primero l1 (primero l2 fin).
Proof. by destruct l1 as [|[]]. Qed.
Lemma ultimo_snoc ant l p a : ultimo ant (l ++ [(p, a)]) = Some p.
Proof. revert ant. by induction l as [|[] l IH]; intros ant; cbn. Qed.

Lemma tramo_app c ant l1 l2 fin :
  tramo c ant (l1 ++ l2) fin <-> tramo c ant l1 (primero l2 fin) /\ tramo c (ultimo ant l1) l2 fin.
Proof.
  revert ant. induction l1 as [|[p a] l1 IH]; intros ant; cbn [app tramo ultimo]; [tauto|]. rewrite IH, primero_app. tauto.
Qed.

Lemma tramo_marco c c' ant l fin : (forall p, p ∈ l.*1 -> c' !! p = c !! p) -> tramo c ant l fin -> tramo c' ant l fin.
Proof.
  revert ant. induction l as [|[p a] l IH]; intros ant Hc; [done|]. cbn [tramo fmap list_fmap] in *. intros [E K]. split.
  - rewrite Hc by (by left). done.
  - apply IH; [|done]. intros q Hq. apply Hc. by right.
Qed.

(** The pointer of the last cell, and the one of the first, are changed in their cells. *)
Lemma tramo_fin c ant l p a fin fin' : NoDup (l ++ [(p, a)]).*1 ->
  tramo c ant (l ++ [(p, a)]) fin -> tramo (<[p := mkCelda a (ultimo ant l) fin']> c) ant (l ++ [(p, a)]) fin'.
Proof.
  rewrite fmap_app, NoDup_app. intros (_ & Hd & _). rewrite !tramo_app. cbn. intros (K & _ & _). split; [|by rewrite lookup_insert_eq].
  eapply tramo_marco; [|exact K]. intros q Hq. apply lookup_insert_ne. intros ->. apply (Hd q Hq). by left.
Qed.
Lemma tramo_ant c ant ant' p a l fin : NoDup ((p, a) :: l).*1 ->
  tramo c ant ((p, a) :: l) fin -> tramo (<[p := mkCelda a ant' (primero l fin)]> c) ant' ((p, a) :: l) fin.
Proof.
  cbn [fmap list_fmap fst]. intros [Hp _]%NoDup_cons [_ K]. cbn [tramo]. split; [by rewrite lookup_insert_eq|].
  eapply tramo_marco; [|exact K]. intros q Hq. apply lookup_insert_ne. intros ->. done.
Qed.

(** What a write in one cell leaves alone. *)
Definition igual_salvo m m' l : Prop :=
  Lista.active_connections m' = Lista.active_connections m /\ dom (memoria m') = dom (memoria m) /\
  forall p, p ∉ l.*1 -> memoria m' !! p = memoria m !! p.

Lemma escribir_ok p f m x : memoria m !! p = Some x ->
  escribir p f m = Ok (mkMgr (<[p := f x]> (memoria m)) (Lista.active_connections m)).
Proof. intros E. unfold escribir, celda_de. by rewrite E. Qed.
Lemma igual_escribir p f m x l : memoria m !! p = Some x -> p ∈ l.*1 ->
  igual_salvo m (mkMgr (<[p := f x]> (memoria m)) (Lista.active_connections m)) l.
Proof.
  intros E Hp. split_and!; [done| |].
  - cbn. rewrite dom_insert_L. apply subseteq_union_1_L, singleton_subseteq_l, elem_of_dom. by eexists.
  - intros q Hq. apply lookup_insert_ne. congruence.
Qed.

Lemma escribe_ultimo m l fin fin' : NoDup l.*1 -> tramo (memoria m) None l fin ->
  exists m', match ultimo None l with Some q => escribir q (con_next fin') m | None => Ok m end = Ok m' /\
    igual_salvo m m' l /\ tramo (memoria m') None l fin'.
Proof.
  destruct l as [|[q b] l _] using rev_ind; intros Hn Ht; [by exists m|].
  rewrite ultimo_snoc. pose proof Ht as Ht'. rewrite tramo_app in Ht'. destruct Ht' as (_ & Eq & _).
  rewrite (escribir_ok _ _ _ _ Eq). eexists. split; [done|]. split; [|by eapply tramo_fin].
  apply igual_escribir; [done|]. rewrite fmap_app. apply elem_of_app. right. by left.
Qed.
Lemma escribe_primero m ant ant' l : NoDup l.*1 -> tramo (memoria m) ant l None ->
  exists m', match primero l None with Some q => escribir q (con_prev ant') m | None => Ok m end = Ok m' /\
    igual_salvo m m' l /\ tramo (memoria m') ant' l None.
Proof.
  destruct l as [|[q b] l]; intros Hn Ht; [by exists m|]. cbn [primero]. pose proof Ht as [Eq _].
  rewrite (escribir_ok _ _ _ _ Eq). eexists. split; [done|]. split; [|by eapply tramo_ant].
  apply igual_escribir; [done|by left].
Qed.

Lemma representa_celda m l1 p a l2 : representa m (l1 ++ (p, a) :: l2) ->
  memoria m !! p = Some (mkCelda a (ultimo None l1) (primero l2 None)).
Proof. intros (_ & _ & Ht & _). rewrite tramo_app in Ht. by destruct Ht as (_ & E & _). Qed.

Lemma quitar_conjunto (X Y : gset nat) p : p ∉ X -> p ∉ Y -> (X ∪ ({[p]} ∪ Y)) ∖ {[p]} = X ∪ Y.
Proof. intros Hx Hy. apply set_eq. intros q. rewrite elem_of_difference, !elem_of_union, elem_of_singleton. split; [tauto|]. intros K. split; [tauto|]. intros ->. tauto. Qed.

(** [ns_remove_conn] and [ns_destroy_conn] take the connection out of the list. *)
Lemma quitar_ok m l1 p a l2 : representa m (l1 ++ (p, a) :: l2) ->
  exists m', ns_remove_conn p m = Ok m' /\ representa (ns_destroy_conn p m') (l1 ++ l2).
Proof.
  intros Hr. pose proof (representa_celda _ _ _ _ _ Hr) as Ep. destruct Hr as (Hn & Ha & Ht & Hd).
  rewrite tramo_app in Ht. destruct Ht as [Ht1 [_ Ht2]]. cbn [primero] in Ht1.
  rewrite fmap_app in Hn. cbn [fmap list_fmap fst] in Hn. apply NoDup_app in Hn as (Hn1 & Hx & [Hp2 Hn2]%NoDup_cons).
  assert (p ∉ l1.*1) as Hp1 by (intros K; apply (Hx p K); by left).
  unfold ns_remove_conn, celda_de at 1. rewrite Ep. cbn [bindR Lista.prev Lista.next].
  set (m1 := match ultimo None l1 with None => _ | Some _ => m end). assert (memoria m1 = memoria m) as Em1 by (unfold m1; by destruct (ultimo None l1)).
  assert (Lista.active_connections m1 = primero (l1 ++ l2) None) as Ea1.
  { unfold m1. destruct l1 as [|[q b] l1 _] using rev_ind; [done|]. rewrite ultimo_snoc, Ha, <- !app_assoc, !primero_app. by destruct l1 as [|[]]. }
  unfold celda_de at 1. rewrite Em1, Ep. cbn [bindR Lista.prev Lista.next].
  destruct (escribe_ultimo m1 l1 (Some p) (primero l2 None)) as (m2 & -> & (A2 & D2 & F2) & T2); [done|by rewrite Em1|].
  cbn [bindR]. unfold celda_de at 1. rewrite F2, Em1, Ep by done. cbn [bindR Lista.prev Lista.next].
  destruct (escribe_primero m2 (Some p) (ultimo None l1) l2) as (m3 & -> & (A3 & D3 & F3) & T3); [done| |].
  { eapply tramo_marco; [|rewrite <- Em1 in Ht2; exact Ht2]. intros q Hq. apply F2. intros K. apply (Hx q K). by right. }
  eexists. split; [done|]. split_and!; cbn [ns_destroy_conn memoria Lista.active_connections].
  - rewrite fmap_app. apply NoDup_app. split_and!; [done| |done]. intros q Hq K. apply (Hx q Hq). by right.
  - by rewrite A3, A2, Ea1.
  - apply tramo_app. split; (eapply tramo_marco; [|first [exact T3|exact T2]]); intros q Hq.
    + rewrite lookup_delete_ne by congruence. apply F3. intros K. apply (Hx q Hq). by right.
    + by rewrite lookup_delete_ne by congruence.
  - rewrite dom_delete_L, D3, D2, Em1, Hd, !fmap_app. cbn [fmap list_fmap fst]. rewrite !list_to_set_app_L. cbn [list_to_set]. apply quitar_conjunto; by rewrite elem_of_list_to_set.
Qed.

Lemma tramo_valor c ant l1 p a b l2 fin : NoDup (l1 ++ (p, a) :: l2).*1 -> tramo c ant (l1 ++ (p, a) :: l2) fin ->
  tramo (<[p := mkCelda b (ultimo ant l1) (primero l2 fin)]> c) ant (l1 ++ (p, b) :: l2) fin.
Proof.
  rewrite fmap_app. cbn [fmap list_fmap fst]. intros (_ & Hx & [Hp _]%NoDup_cons)%NoDup_app. rewrite !tramo_app. cbn [tramo primero].
  intros (K1 & _ & K2). split_and!; [|by rewrite lookup_insert_eq|]; (eapply tramo_marco; [|first [exact K1|exact K2]]); intros q Hq;
    apply lookup_insert_ne; intros ->; [apply (Hx q Hq); by left|done].
Qed.

(** The data of a connection change and the list is the same. *)
Lemma valor_ok m l1 p a b l2 : representa m (l1 ++ (p, a) :: l2) ->
  exists m', escribir p (con_valor b) m = Ok m' /\ representa m' (l1 ++ (p, b) :: l2).
Proof.
  intros Hr. pose proof (representa_celda _ _ _ _ _ Hr) as Ep. destruct Hr as (Hn & Ha & Ht & Hd). rewrite (escribir_ok _ _ _ _ Ep).
  eexists. split; [done|]. assert ((l1 ++ (p, b) :: l2).*1 = (l1 ++ (p, a) :: l2).*1) as E by (by rewrite !fmap_app). split_and!.
  - by rewrite E.
  - cbn. rewrite Ha, !primero_app. done.
  - by eapply tramo_valor.
  - cbn. rewrite E, <- Hd, dom_insert_L. apply subseteq_union_1_L, singleton_subseteq_l, elem_of_dom. by eexists.
Qed.

(** A new connection is the first of the list. *)
Lemma nueva_ok m l a : representa m l ->
  exists p m', ns_add_sock a m = Ok m' /\ representa m' ((p, a) :: l).
Proof.
  intros (Hn & Ha & Ht & Hd). set (p := fresh (dom (memoria m))).
  assert (p ∉ l.*1) as Hp.
  { pose proof (is_fresh (dom (memoria m))) as K; fold p in K; by rewrite Hd, elem_of_list_to_set in K. }
  unfold ns_add_sock. fold p. unfold ns_add_conn, escribir at 1, celda_de. cbn [memoria Lista.active_connections]. rewrite lookup_insert_eq.
  cbn [bindR]. unfold escribir at 1, celda_de. cbn [memoria Lista.active_connections]. rewrite lookup_insert_eq. cbn [bindR].
  unfold celda_de. cbn [memoria]. rewrite lookup_insert_eq. cbn [bindR con_prev con_next valor Lista.prev Lista.next]. rewrite !insert_insert_eq, Ha.
  set (m1 := mkMgr _ (Some p)).
  assert (forall q, q ∈ l.*1 -> memoria m1 !! q = memoria m !! q) as F1 by (intros q Hq; apply lookup_insert_ne; congruence).
  destruct (escribe_primero m1 None (Some p) l) as (m2 & -> & (A2 & D2 & F2) & T2); [done|by eapply tramo_marco|].
  exists p, m2. split; [done|]. split_and!.
  - by apply NoDup_cons.
  - by rewrite A2.
  - split; [|done]. rewrite F2 by done. unfold m1. cbn. by rewrite lookup_insert_eq.
  - rewrite D2. unfold m1. cbn. by rewrite dom_insert_L, Hd.
Qed.

Lemma representa_largo m l : representa m l -> base.size (memoria m) = length l.
Proof. intros (Hn & _ & _ & Hd). by rewrite <- size_dom, Hd, size_list_to_set, length_fmap. Qed.

(** ** The loop over the memory is the one over the sequence *)
Section Bucle.
Context {Y : Type}.

(** The loop, where it does at the connections [l2] what [f] says, between [l1], which it
    has passed, and [l3]. *)
Lemma bucle_tramo (f : A -> M Y (option A)) (g : nat -> M (ns_mgr A * Y) unit) l3 l2 n m l1 y :
  (forall p a, (p, a) ∈ l2 -> forall m y c, celda_de p m = Ok c -> valor c = a -> g p (m, y) = atiende f p (m, y)) ->
  representa m (l1 ++ l2 ++ l3) ->
  match pasada f l2.*2 y with
  | (Ok vs, y') =>
      exists m' l2', l2'.*2 = vs /\ representa m' (l1 ++ l2' ++ l3) /\
        bucle (length l2 + n) g (primero (l2 ++ l3) None) (m, y) = bucle n g (primero l3 None) (m', y')
  | (Fallo e, y') => exists m', bucle (length l2 + n) g (primero (l2 ++ l3) None) (m, y) = (Fallo e, (m', y'))
  end.
Proof.
  revert m l1 y. induction l2 as [|[p a] l2 IH]; intros m l1 y Hg Hr; [by exists m, []|].
  pose proof (representa_celda _ _ _ _ _ Hr) as Ep. cbn [fmap list_fmap snd pasada length Nat.add bucle app primero].
  assert (celda_de p m = Ok (mkCelda a (ultimo None l1) (primero (l2 ++ l3) None))) as Ec by (unfold celda_de; by rewrite Ep).
  unfold bindM. cbn [fst ns_next]. rewrite Ec. cbn [bindR Lista.next].
  rewrite (Hg p a (list_elem_of_here _ _) m y _ Ec eq_refl). unfold atiende. rewrite Ec. cbn [valor].
  destruct (f a y) as [[[b|]|e] y1]; [| |by exists m].
  - destruct (valor_ok m l1 p a b (l2 ++ l3) Hr) as (m1 & E1 & Hr1). rewrite E1.
    specialize (IH m1 (l1 ++ [(p, b)]) y1 (fun q c Hq => Hg q c (proj2 (elem_of_cons _ _ _) (or_intror Hq)))).
    rewrite <- app_assoc in IH. specialize (IH Hr1). destruct (pasada f l2.*2 y1) as [[vs|e] y2]; [|done].
    destruct IH as (m' & l2' & E2 & Hr2 & E3). exists m', ((p, b) :: l2'). cbn [fmap list_fmap snd]. split_and!; [by f_equal| |done].
    by rewrite <- app_assoc in Hr2.
  - destruct (quitar_ok m l1 p a (l2 ++ l3) Hr) as (m1 & E1 & Hr1). rewrite E1.
    specialize (IH (ns_destroy_conn p m1) l1 y1 (fun q c Hq => Hg q c (proj2 (elem_of_cons _ _ _) (or_intror Hq))) Hr1).
    destruct (pasada f l2.*2 y1) as [[vs|e] y2]; [|done].
    destruct IH as (m' & l2' & E2 & Hr2 & E3). by exists m', l2'.
Qed.

Lemma para_cada_ok (f : A -> M Y (option A)) m l y : representa m l ->
  match pasada f l.*2 y with
  | (Ok vs, y') => exists m' l', l'.*2 = vs /\ representa m' l' /\ para_cada (atiende f) (m, y) = (Ok tt, (m', y'))
  | (Fallo e, y') => exists m', para_cada (atiende f) (m, y) = (Fallo e, (m', y'))
  end.
Proof.
  intros Hr. pose proof (bucle_tramo f (atiende f) [] l 1 m [] y) as K. rewrite !app_nil_r in K. cbn [app] in K.
  specialize (K (fun _ _ _ _ _ _ _ _ => eq_refl) Hr). unfold para_cada. cbn [fst]. pose proof Hr as (_ & -> & _).
  rewrite (representa_largo m l Hr), <- Nat.add_1_r. destruct (pasada f l.*2 y) as [[vs|e] y']; [|done].
  destruct K as (m' & l' & E & Hr' & ->). rewrite app_nil_r in Hr'. by exists m', l'.
Qed.
End Bucle.
End Celdas.

(** ** A turn *)
Lemma pasada_snoc {S X} (f : X -> M S (option X)) l x s : (forall s, f x s = (Ok (Some x), s)) ->
  pasada f (l ++ [x]) s = (let* l' := pasada f l in ret (l' ++ [x])) s.
Proof.
  intros Hx. revert s. induction l as [|a l IH]; intros s; cbn [app pasada]; unfold bindM, ret in *; [by rewrite Hx|].
  destruct (f a s) as [[o|e] s1]; [|done]. rewrite IH. destruct (pasada f l s1) as [[l'|e] s2]; [|done]. by destruct o.
Qed.

(** What the bodies keep of a connection, as its descriptor, the loop keeps in order. *)
Lemma pasada_claves {S X Y Z} (f : X -> M S (option Y)) (j : X -> Z) (k : Y -> Z) l s l' s' :
  (forall x s y s', f x s = (Ok (Some y), s') -> k y = j x) -> pasada f l s = (Ok l', s') -> map k l' `sublist_of` map j l.
Proof.
  intros Hf. revert s l'. induction l as [|x l IH]; intros s l' E; cbn [pasada] in E.
  { unfold ret in E. by injection E as <-. }
  apply bind_ok_inv in E as (o & s1 & E1 & E). apply bind_ok_inv in E as (l1 & s2 & E2 & E). injection E as <- <-. apply IH in E2.
  destruct o as [y|]; cbn [map]; [|by apply sublist_cons]. rewrite (Hf _ _ _ _ E1). by apply sublist_skip.
Qed.

Section Turno.
Context {S : Type} {H : Manejador S}.

Lemma en_nodo_sock {B} (m : M (connection * S) B) n s b n' s' : en_nodo m n s = (Ok (b, n'), s') -> sock n' = sock n.
Proof. unfold en_nodo. destruct (m (conn n, s)) as [[x|e] [c s1]]; [|done]. intros [= _ <- _]. done. Qed.

Lemma sondear_sock t n s x s' : sondear t n s = (Ok (Some x), s') -> sock x.1 = sock n.
Proof.
  unfold sondear. intros ([b n1] & s1 & E1 & E)%bind_ok_inv. apply en_nodo_sock in E1. destruct b; [done|].
  destruct (close_immediately (conn n1)); [by apply bind_ok_inv in E as (? & ? & _ & ?)|].
  apply bind_ok_inv in E as (? & ? & _ & E). by injection E as <- _.
Qed.
Lemma atender_sock su n w s n' s' : atender su (n, w) s = (Ok (Some n'), s') -> sock n' = sock n.
Proof.
  unfold atender. intros (n1 & s1 & E1 & E)%bind_ok_inv.
  assert (sock n1 = sock n) as <-.
  { destruct (legibles su (sock n)); [|by injection E1 as <- _]. apply bind_ok_inv in E1 as ([u n2] & s2 & E2 & E1). injection E1 as <- _.
    by apply en_nodo_sock in E2. }
  destruct (if w then _ else _) as [e|]; [|by injection E as <- _]. destruct (ns_write_to_socket e (conn n1)). by injection E as <- _.
Qed.
Lemma despedir_sock n s n' s' : despedir n s = (Ok (Some n'), s') -> sock n' = sock n.
Proof. unfold despedir. destruct (por_cerrar n); [by intros (? & ? & _ & ?)%bind_ok_inv|]. by intros [= <- _]. Qed.

Lemma sondear_uno_eq t n ws k s :
  sondear_uno t (Activa n) (mkResto ws k s) =
  match sondear t n s with
  | (Ok None, s') => (Ok None, mkResto ws k s')
  | (Ok (Some (n', w)), s') => (Ok (Some (Activa n')), mkResto ((if w : bool then {[sock n']} else ∅) ∪ ws) k s')
  | (Fallo e, s') => (Fallo e, mkResto ws k s')
  end.
Proof.
  unfold sondear_uno, en_estado, bindM, ret, cambiar. cbn. destruct (sondear t n s) as [[[[n' []]|]|e] s']; try done.
  by rewrite union_empty_l_L.
Qed.

Lemma sondear_pasada t l ws k s :
  match pasada (sondear t) l s with
  | (Ok l', s') => exists ws', pasada (sondear_uno t) (map Activa l) (mkResto ws k s) = (Ok (map (fun x => Activa x.1) l'), mkResto ws' k s') /\
                    forall q, q ∈ ws' <-> q ∈ ws \/ exists n, (n, true) ∈ l' /\ sock n = q
  | (Fallo e, s') => exists ws', pasada (sondear_uno t) (map Activa l) (mkResto ws k s) = (Fallo e, mkResto ws' k s')
  end.
Proof.
  revert ws s. induction l as [|n l IH]; intros ws s; cbn [pasada map].
  { exists ws. split; [done|]. intros q. split; [by left|]. intros [?|(n & []%not_elem_of_nil & _)]; done. }
  unfold bindM. rewrite sondear_uno_eq. destruct (sondear t n s) as [[[[n' w]|]|e] s1]; [| |by exists ws].
  - specialize (IH ((if w : bool then {[sock n']} else ∅) ∪ ws) s1). destruct (pasada (sondear t) l s1) as [[l'|e] s2].
    + destruct IH as (ws' & -> & Hw). exists ws'. split; [done|]. intros q. rewrite Hw, elem_of_union. setoid_rewrite elem_of_cons. split.
      * intros [[Hq|?]|(n2 & ? & ?)]; [|by left|right; by eauto]. right. destruct w; [|by apply not_elem_of_empty in Hq].
        apply elem_of_singleton in Hq. by eauto.
      * intros [?|(n2 & [[= -> <-]|?] & <-)]; [by eauto| |by eauto]. left. left. by apply elem_of_singleton.
    + destruct IH as (ws' & ->). by exists ws'.
  - specialize (IH ws s1). destruct (pasada (sondear t) l s1) as [[l'|e] s2].
    + destruct IH as (ws' & -> & Hw). by exists ws'.
    + destruct IH as (ws' & ->). by exists ws'.
Qed.

(** The other two loops only change the state of the handler. *)
Lemma pasada_estado {X} (f : X -> M S (option nodo)) (g : ns_connection -> M (resto S) (option ns_connection)) (j : X -> nodo) ws k l s :
  (forall x, x ∈ l -> forall s, g (Activa (j x)) (mkResto ws k s) = (let '(r, s') := f x s in ((let? o := r in Ok (Activa <$> o)), mkResto ws k s'))) ->
  pasada g (map (fun x => Activa (j x)) l) (mkResto ws k s) =
  (let '(r, s') := pasada f l s in ((let? l' := r in Ok (map Activa l')), mkResto ws k s')).
Proof.
  revert s. induction l as [|x l IH]; intros s Hg; cbn [pasada map]; [done|]. unfold bindM. rewrite Hg by by left.
  destruct (f x s) as [[o|e] s1]; cbn [bindR]; [|done]. rewrite IH by (intros y Hy; apply Hg; by right).
  destruct (pasada f l s1) as [[l'|e] s2]; cbn [bindR]; [|done]. by destruct o.
Qed.
Lemma atender_uno_eq su n w ws k s : bool_decide (sock n ∈ ws) = w ->
  atender_uno su (Activa n) (mkResto ws k s) = (let '(r, s') := atender su (n, w) s in ((let? o := r in Ok (Activa <$> o)), mkResto ws k s')).
Proof. intros <-. unfold atender_uno, en_estado, bindM, ret, leer. cbn [write_set Lista.estado Lista.siguiente]. by destruct (atender su _ s) as [[o|e] s']. Qed.
Lemma despedir_uno_eq n ws k s :
  despedir_uno (Activa n) (mkResto ws k s) = (let '(r, s') := despedir n s in ((let? o := r in Ok (Activa <$> o)), mkResto ws k s')).
Proof. unfold despedir_uno, en_estado, bindM, ret. cbn [write_set Lista.estado Lista.siguiente]. by destruct (despedir n s) as [[o|e] s']. Qed.

(** The memory of a manager that listens, whose list ends in the socket it listens on. *)
Definition en_memoria (m : ns_mgr ns_connection) (vs : list ns_connection) : Prop :=
  exists l p, representa m (l ++ [(p, Escucha)]) /\ l.*2 = vs.

Lemma paso (g : ns_connection -> M (resto S) (option ns_connection)) m vs y :
  (forall y, g Escucha y = (Ok (Some Escucha), y)) -> en_memoria m vs ->
  match pasada g vs y with
  | (Ok vs', y') => exists m', en_memoria m' vs' /\ para_cada (atiende g) (m, y) = (Ok tt, (m', y'))
  | (Fallo e, y') => exists m', para_cada (atiende g) (m, y) = (Fallo e, (m', y'))
  end.
Proof.
  intros Hg (l & p & Hr & <-). pose proof (para_cada_ok g m _ y Hr) as K. rewrite fmap_app in K. cbn [fmap list_fmap snd] in K.
  rewrite pasada_snoc in K by done. unfold bindM, ret in K. destruct (pasada g l.*2 y) as [[vs'|e] y']; [|done].
  destruct K as (m' & l' & E & Hr' & K). apply fmap_app_inv in E as (l1 & l2 & -> & E2 & ->).
  destruct l2 as [|[q a] [|]]; try done. injection E2 as <-. exists m'. split; [|done]. by exists l1, q.
Qed.

(** The loop that reads and writes: the new connection comes last, when the list is passed. *)
Lemma paso_acepta su m ns y : en_memoria m (map Activa ns) ->
  match pasada (atender_uno su) (map Activa ns) y with
  | (Ok vs, y') =>
      exists m', en_memoria m' (if acepta su then Activa (mkNodo (Lista.siguiente y') (descriptor su) connection_nueva (hora_accept su) "") :: vs else vs) /\
        para_cada (atender_o_aceptar su) (m, y) =
        (Ok tt, (m', mkResto (write_set y') (if acepta su then Datatypes.S (Lista.siguiente y') else Lista.siguiente y') (Lista.estado y')))
  | (Fallo e, y') => exists m', para_cada (atender_o_aceptar su) (m, y) = (Fallo e, (m', y'))
  end.
Proof.
  intros (l & p & Hr & El). pose proof (bucle_tramo (atender_uno su) (atender_o_aceptar su) [(p, Escucha)] l 2 m [] y) as K.
  unfold para_cada. cbn [fst]. rewrite (representa_largo _ _ Hr), length_app. cbn [length]. pose proof Hr as (_ & -> & _).
  replace (Datatypes.S (length l + 1)) with (length l + 2)%nat by lia. rewrite El in K. cbn [app] in K.
  assert (forall q a, (q, a) ∈ l -> forall m y c, celda_de q m = Ok c -> valor c = a -> atender_o_aceptar su q (m, y) = atiende (atender_uno su) q (m, y)) as Hg.
  { intros q a Hq m0 y0 c Hc Hv. apply (list_elem_of_fmap_2 snd) in Hq. rewrite El in Hq. apply list_elem_of_fmap in Hq as (n & En & _). cbn in En.
    unfold atender_o_aceptar. cbn [fst]. rewrite Hc. destruct c. cbn in *. by subst. }
  specialize (K Hg Hr). destruct (pasada (atender_uno su) (map Activa ns) y) as [[vs|e] y']; [|done].
  destruct K as (m1 & l1 & <- & Hr1 & ->). cbn [primero bucle]. unfold bindM at 1. cbn [fst ns_next].
  assert (celda_de p m1 = Ok (mkCelda Escucha (ultimo None l1) None)) as Ec.
  { unfold celda_de. by rewrite (representa_celda _ _ _ _ _ Hr1). }
  rewrite Ec. cbn [bindR Lista.next]. unfold bindM, atender_o_aceptar. cbn [fst]. rewrite Ec. unfold accept_conn.
  destruct (acepta su).
  - destruct (nueva_ok m1 _ (Activa (mkNodo (Lista.siguiente y') (descriptor su) connection_nueva (hora_accept su) "")) Hr1) as (q & m2 & -> & Hr2).
    exists m2. split; [|done]. eexists ((q, _) :: l1), p. split; [exact Hr2|done].
  - exists m1. split; [by exists l1, p|]. by destruct y'.
Qed.

(** The memory holds the connections of [r]. *)
Definition de_red (x : ns_mgr ns_connection * resto S) (r : Red S) : Prop :=
  en_memoria x.1 (map Activa (Red.active_connections r)) /\ Lista.siguiente x.2 = Red.siguiente r /\ Lista.estado x.2 = Red.estado r.
Definition distintos (qs : list nat) (k : nat) : Prop := NoDup qs /\ forall q, q ∈ qs -> (q < k)%nat.
Definition descriptores (r : Red S) : Prop := distintos (map sock (Red.active_connections r)) (Red.siguiente r).

Lemma distintos_sub qs qs' k : qs' `sublist_of` qs -> distintos qs k -> distintos qs' k.
Proof. intros Hs [Hn Hk]. split; [by eapply sublist_NoDup|]. intros q Hq. apply Hk. by eapply elem_of_submseteq, sublist_submseteq. Qed.
Lemma distintos_acepta su l k : distintos (map sock l) k ->
  distintos (map sock (aceptar su k l)) (if acepta su then Datatypes.S k else k).
Proof.
  unfold aceptar. destruct (acepta su); [|done]. intros [Hn Hk]. split; cbn [map sock].
  - apply NoDup_cons. split; [|done]. intros K%Hk. lia.
  - intros q [->|K%Hk]%elem_of_cons; lia.
Qed.

Lemma pasada_sock {X} (f : X -> M S (option nodo)) (j : X -> nodo) l s l' s' :
  (forall x s n s', f x s = (Ok (Some n), s') -> sock n = sock (j x)) -> pasada f l s = (Ok l', s') ->
  map sock l' `sublist_of` map (fun x => sock (j x)) l.
Proof. intros Hf. by apply pasada_claves. Qed.

Lemma NoDup_map_inj {X Y} (f : X -> Y) l x y : NoDup (map f l) -> x ∈ l -> y ∈ l -> f x = f y -> x = y.
Proof.
  intros Hn [i Hi]%list_elem_of_lookup [j Hj]%list_elem_of_lookup E.
  assert (i = j) as -> by (eapply (NoDup_lookup (f <$> l)); [done|by rewrite list_lookup_fmap, Hi|by rewrite list_lookup_fmap, Hj, E]).
  congruence.
Qed.

(** With distinct descriptors, a connection is in [write_set] exactly when it asked for it. *)
Lemma en_write_set (l : list (nodo * bool)) (ws : gset nat) : NoDup (map (fun x => sock x.1) l) ->
  (forall q, q ∈ ws <-> q ∈ (∅ : gset nat) \/ exists n, (n, true) ∈ l /\ sock n = q) ->
  forall x, x ∈ l -> bool_decide (sock x.1 ∈ ws) = x.2.
Proof.
  intros Hn Hw [n w] Hx. cbn [fst snd]. destruct w.
  - apply bool_decide_eq_true_2. apply Hw. right. by exists n.
  - apply bool_decide_eq_false_2. rewrite Hw. intros [[]%not_elem_of_empty|(n' & Hx' & E)].
    assert ((n', true) = (n, false)) as [=]. by apply (NoDup_map_inj (fun x : nodo * bool => sock x.1) l).
Qed.

(** A turn over the memory, from any memory that holds the connections of [r]. *)
Lemma poll_ok su x r : de_red x r -> descriptores r ->
  match Red.ns_mgr_poll su r with
  | (Ok _, r') => exists x', poll su x = (Ok tt, x') /\ de_red x' r' /\ descriptores r'
  | (Fallo e, r') => exists x', poll su x = (Fallo e, x') /\ Lista.estado x'.2 = Red.estado r'
  end.
Proof.
  destruct x as [m [ws0 k0 s0]], r as [ns ds k s]. intros (Hm & Ek & Es) Hd. unfold descriptores in Hd. cbn in Hm, Ek, Es, Hd. subst k0 s0.
  unfold Red.ns_mgr_poll, poll. cbn [Red.active_connections Red.siguiente Red.estado Red.despedidas].
  unfold bindM, cambiar, ret. cbn [fst snd Lista.siguiente Lista.estado].
  pose proof (sondear_pasada (hora su) ns ∅ k s) as K1. pose proof (paso (sondear_uno (hora su)) m _ (mkResto ∅ k s) (fun _ => eq_refl) Hm) as P1.
  destruct (pasada (sondear (hora su)) ns s) as [[l1|e] s1] eqn:E1.
  2: { destruct K1 as [ws K1]. rewrite K1 in P1. destruct P1 as [m1 ->]. by eexists. }
  destruct K1 as (ws & K1 & Hw). rewrite K1 in P1. destruct P1 as (m1 & Hm1 & ->). clear K1.
  apply (pasada_claves _ sock (fun x => sock x.1)) in E1; [|intros; by eapply sondear_sock].
  pose proof (distintos_sub _ _ _ E1 Hd) as Hd1.
  pose proof (pasada_estado (atender su) (atender_uno su) fst ws k l1 s1) as K2. rewrite <- (map_map fst Activa) in K2.
  pose proof (paso_acepta su m1 (map fst l1) (mkResto ws k s1)) as P2. rewrite map_map in P2. specialize (P2 Hm1). rewrite <- (map_map fst Activa) in P2.
  rewrite K2 in P2 by (intros [n w] Hx s'; by apply atender_uno_eq, (en_write_set l1 ws (proj1 Hd1) Hw (n, w))). clear K2.
  destruct (pasada (atender su) l1 s1) as [[l2|e] s2] eqn:E2; cbn [bindR] in P2; [|destruct P2 as [m2 ->]; by eexists].
  destruct P2 as (m2 & Hm2 & ->). cbn [write_set Lista.siguiente Lista.estado] in *.
  apply (pasada_sock _ fst) in E2; [|intros [n w] ????; by eapply atender_sock].
  pose proof (distintos_acepta su l2 k (distintos_sub _ _ _ E2 Hd1)) as Hd2. set (k' := if acepta su then Datatypes.S k else k) in *.
  assert (en_memoria m2 (map Activa (aceptar su k l2))) as Hm2' by (unfold aceptar; by destruct (acepta su)).
  pose proof (pasada_estado despedir despedir_uno id ws k' (aceptar su k l2) s2 (fun n _ s' => despedir_uno_eq n ws k' s')) as K3. change (fun x : nodo => Activa (id x)) with Activa in K3.
  pose proof (paso despedir_uno m2 _ (mkResto ws k' s2) (fun _ => eq_refl) Hm2') as P3. rewrite K3 in P3. clear K3.
  destruct (pasada despedir (aceptar su k l2) s2) as [[l3|e] s3] eqn:E3; cbn [bindR] in P3; [|destruct P3 as [m3 ->]; by eexists].
  destruct P3 as (m3 & Hm3 & ->). eexists. split; [done|]. split; [by split_and!|].
  apply (pasada_sock _ id) in E3; [|intros; by eapply despedir_sock]. by eapply distintos_sub.
Qed.

(** The start of the server: the listening socket alone. *)
Lemma inicio_ok (s : S) : exists m, ns_add_sock Escucha (mkMgr ∅ None) = Ok m /\
  de_red (m, mkResto ∅ 0 s) (red_inicial s) /\ descriptores (red_inicial s).
Proof.
  destruct (nueva_ok (mkMgr ∅ None) [] Escucha) as (p & m & E & Hr); [split_and!; [by apply NoDup_nil|done|done|apply dom_empty_L]|].
  exists m. split; [done|]. split; [|by split; [apply NoDup_nil_2|intros ? []%not_elem_of_nil]].
  split_and!; [|done|done]. by exists [], p.
Qed.

Definition turno_enlazado (x x' : ns_mgr ns_connection * resto S) : Prop := exists su, poll su x = (Ok tt, x').

(** C21. The linked list of connections is a list.  After any turns from the start of the
    server, the memory that its loops leave links, from the head and in both directions, exactly the
    connections of the sequence of [Red] and the listening socket, each once and nothing
    else; and a turn of the event loop over the pointers, which closes connections while it
    walks and adds the new one at the head, follows no dangling pointer, ends, and does what
    [Red.ns_mgr_poll] does on the sequence, with the same failure if it fails: no connection
    is lost, leaked or visited twice. *)
Theorem lista_enlazada (s : S) : exists m, ns_add_sock Escucha (mkMgr ∅ None) = Ok m /\
  forall r, rtc turno (red_inicial s) r -> exists x, rtc turno_enlazado (m, mkResto ∅ 0 s) x /\ de_red x r /\
  forall su, match Red.ns_mgr_poll su r with
             | (Ok _, r') => exists x', poll su x = (Ok tt, x') /\ de_red x' r'
             | (Fallo e, r') => exists x', poll su x = (Fallo e, x') /\ Lista.estado x'.2 = Red.estado r'
             end.
Proof.
  destruct (inicio_ok s) as (m & E & Hx & Hd). exists m. split; [done|]. intros r Hr.
  assert (exists x, rtc turno_enlazado (m, mkResto ∅ 0 s) x /\ de_red x r /\ descriptores r) as (x & Hrx & Hxr & Hdr).
  { revert r Hr. apply rtc_ind_r; [by eexists|]. intros r1 r2 _ Ht (x & Hrx & Hxr & Hdr). destruct Ht as [su r1 r2 E2]. pose proof (poll_ok su x r1 Hxr Hdr) as K. rewrite E2 in K.
    destruct K as (x' & Ep & Hx' & Hd'). exists x'. split; [|done]. eapply rtc_r; [done|]. by exists su. }
  exists x. split_and!; [done|done|]. intros su. pose proof (poll_ok su x r Hxr Hdr) as K.
  destruct (Red.ns_mgr_poll su r) as [[u|e] r']; [|done]. destruct K as (x' & ? & ? & _). by exists x'.
Qed.

End Turno.

(** A handler that always answers that it has nothing to say. *)
Definition mudo : Manejador unit := {| event_handler := fun _ _ => ret Mongoose.MG_FALSE; time_null := ret 0; is_big_endian := false |}.
(** A client comes and sends nothing. *)
Definition llega (t : Z) : Sucesos := mkSucesos t t (fun _ => None) (fun _ => None) true 5 t.

Lemma lista_enlazada_witness : exists m, ns_add_sock Escucha (mkMgr ∅ None) = Ok m /\
  exists r x x', length (Red.active_connections r) = 2%nat /\ rtc (turno_enlazado (H := mudo)) (m, mkResto ∅ 0 tt) x /\ de_red x r /\
    poll (H := mudo) (llega 1000) x = (Ok tt, x') /\ exists r', length (Red.active_connections r') = 1%nat /\ de_red x' r'.
Proof.
  destruct (lista_enlazada (H := mudo) tt) as (m & E & K). exists m. split; [done|].
  pose (turno_de su r := (Red.ns_mgr_poll (H := mudo) su r).2).
  set (r1 := turno_de (llega 0) (red_inicial tt)). set (r2 := turno_de (llega 1) r1). set (r3 := turno_de (llega 1000) r2).
  assert (rtc (turno (H := mudo)) (red_inicial tt) r2) as Hr.
  { eapply rtc_l; [apply (turno_ok (llega 0) _ r1); vm_compute; reflexivity|]. apply rtc_once, (turno_ok (llega 1)). vm_compute. reflexivity. }
  destruct (K r2 Hr) as (x & Hx & Hd & Hsu). specialize (Hsu (llega 1000)).
  assert (Red.ns_mgr_poll (H := mudo) (llega 1000) r2 = (Ok tt, r3)) as E3 by (vm_compute; reflexivity). rewrite E3 in Hsu.
  destruct Hsu as (x' & Hp & Hd'). exists r2, x, x'. split_and!; [vm_compute; reflexivity|done|done|done|]. exists r3. split; [vm_compute; reflexivity|done].
Defined.
End ListaOk.
