(* ===== verification/MongooseOk.v ===== *)
(** * MongooseOk: form variables and chunked replies arrive as they were sent *)

From S2P Require Import Prelude Libc Mongoose.
Open Scope Z_scope.

Module MongooseOk.
Import Libc Mongoose.

(** ** URL encoding *)

Lemma hex_min_ok n : 0 <= n < 16 -> isxdigit (hex_min n) = true /\ HEXTOI (tolower (hex_min n)) = n.
Proof.
  intros Hn. assert (n ∈ (Z.of_nat <$> seq 0 16)) as Hin.
  { apply list_elem_of_fmap. exists (Z.to_nat n). split; [lia|]. apply elem_of_seq. lia. }
  cbn in Hin. repeat (apply elem_of_cons in Hin as [->|Hin]; [by split|]). by apply elem_of_nil in Hin.
Qed.

Lemma byte_mitades c :
  chr (Z.lor (Z.shiftl (Z.shiftr (byte c) 4) 4) (Z.land (byte c) 15)) = c.
Proof. destruct c as [[][][][][][][][]]; reflexivity. Qed.

Lemma byte_mitades_rango c : 0 <= Z.shiftr (byte c) 4 < 16 /\ 0 <= Z.land (byte c) 15 < 16.
Proof. destruct c as [[][][][][][][][]]; vm_compute; repeat split; discriminate || reflexivity. Qed.

Lemma no_escapa_literal c : no_escapa c = true -> Ascii.eqb c PORCIENTO = false /\ Ascii.eqb c "+" = false.
Proof. destruct c as [[][][][][][][][]]; vm_compute; auto. Qed.

Lemma url_decode_encode form s j n room :
  0 <= j -> j + 3 * largo s + 2 < n -> largo s <= room ->
  url_decode form room (url_encode s j n) = (s, true).
Proof.
  revert j room. induction s as [|c s IH]; intros j room Hj Hn Hr; [done|].
  unfold largo in *. cbn [String.length] in *. cbn [url_encode].
  replace ((0 <? n) && (j + 2 <? n - 1)) with true
    by (symmetry; apply andb_true_iff; rewrite !Z.ltb_lt; lia).
  destruct (no_escapa c) eqn:E.
  - destruct (no_escapa_literal c E) as [E1 E2]. cbn [url_decode].
    destruct (Z.leb_spec room 0); [lia|]. rewrite E1, E2, andb_false_r.
    by rewrite IH by lia.
  - replace (j + 3 <? n) with true by (symmetry; apply Z.ltb_lt; lia).
    cbn [url_decode]. destruct (Z.leb_spec room 0); [lia|]. rewrite Ascii.eqb_refl.
    destruct (byte_mitades_rango c) as [H1 H2].
    destruct (hex_min_ok _ H1) as [-> ->], (hex_min_ok _ H2) as [-> ->]. cbn [andb].
    rewrite IH by lia. by rewrite byte_mitades.
Qed.

(** ** Variables of a form *)

(** A form as a client sends it: [n1=v1&n2=v2...], values URL-encoded without a bound. *)
Definition codificar (v : string) : string := snd (mg_url_encode v (3 * largo v + 3)).
Fixpoint formulario (l : list (string * string)) : string :=
  match l with
  | [] => ""
  | [(n, v)] => n +:+ "=" +:+ codificar v
  | (n, v) :: l => n +:+ "=" +:+ codificar v +:+ "&" +:+ formulario l
  end.

Definition minusculas (s : string) : string := mapa tolower s.
Lemma minusculas_largo s : String.length (minusculas s) = String.length s.
Proof. induction s as [|? ? IH]; cbn; [done|]. f_equal. exact IH. Qed.

(** A name that needs no encoding. *)
Definition nombre_ok (n : string) : Prop := contiene "=" n = false /\ contiene "&" n = false.

Lemma encode_sin_amp s j n : 0 <= j -> j + 3 * largo s + 2 < n -> contiene "&" (url_encode s j n) = false.
Proof.
  revert j. induction s as [|c s IH]; intros j Hj Hn; [done|].
  unfold largo in *. cbn [String.length] in *. cbn [url_encode].
  replace ((0 <? n) && (j + 2 <? n - 1)) with true
    by (symmetry; apply andb_true_iff; rewrite !Z.ltb_lt; lia).
  destruct (no_escapa c) eqn:E.
  - rewrite contiene_cons, IH by lia. rewrite orb_false_r. revert E.
    destruct c as [[][][][][][][][]]; vm_compute; auto.
  - replace (j + 3 <? n) with true by (symmetry; apply Z.ltb_lt; lia).
    rewrite !contiene_cons, IH by lia. rewrite orb_false_r. clear.
    destruct c as [[][][][][][][][]]; vm_compute; reflexivity.
Qed.

Lemma codificar_sin_amp v : contiene "&" (codificar v) = false.
Proof. apply encode_sin_amp; lia. Qed.

Lemma hasta_amp_fin t : contiene "&" t = false -> hasta_amp t = t.
Proof.
  induction t as [|c t IH]; [done|]. rewrite contiene_cons. intros. partir. cbn [hasta_amp].
  rewrite Ascii.eqb_sym, H. by rewrite IH.
Qed.

Lemma hasta_amp_sep t r : contiene "&" t = false -> hasta_amp (t +:+ String "&" r) = t.
Proof.
  induction t as [|c t IH]; [done|]. rewrite contiene_cons. intros. partir. rewrite app_cons_s.
  cbn [hasta_amp]. rewrite Ascii.eqb_sym, H. by rewrite IH.
Qed.

(** Inside a pair nothing is found. *)
Lemma buscar_var_dentro n t r : contiene "&" t = false ->
  buscar_var n false (t +:+ String "&" r) = buscar_var n true r.
Proof.
  induction t as [|c t IH]; intros Ht.
  - rewrite app_nil_l_s. cbn [buscar_var]. rewrite andb_false_r. done.
  - rewrite contiene_cons in Ht. partir. rewrite app_cons_s. cbn [buscar_var].
    rewrite andb_false_r. cbn [andb]. rewrite Ascii.eqb_sym, H. by apply IH.
Qed.

Lemma strncasecmp_app n a r : String.length n = String.length a ->
  mg_strncasecmp_0 n (a +:+ r) = String.eqb (minusculas n) (minusculas a).
Proof.
  revert a. induction n as [|x n IH]; intros [|y a] Hl; try done. injection Hl as Hl.
  rewrite app_cons_s. cbn [mg_strncasecmp_0 minusculas mapa String.eqb]. rewrite IH by done.
  by destruct (Ascii.eqb (tolower x) (tolower y)).
Qed.

Lemma strncasecmp_corta n a r : (String.length a < String.length n)%nat -> contiene "=" n = false ->
  mg_strncasecmp_0 n (a +:+ String "=" r) = false.
Proof.
  revert a. induction n as [|x n IH]; intros [|y a] Hl Hc; cbn [String.length] in Hl; try lia;
    rewrite contiene_cons in Hc; partir.
  - rewrite app_nil_l_s. cbn [mg_strncasecmp_0]. apply andb_false_iff. left.
    revert H. clear. destruct x as [[][][][][][][][]]; vm_compute; auto.
  - rewrite app_cons_s. cbn [mg_strncasecmp_0]. rewrite IH by (done || lia). apply andb_false_r.
Qed.

(** The test of the loop at the start of a pair. *)
Lemma prueba_par n a r : nombre_ok n -> nombre_ok a ->
  (String.length n <? String.length (a +:+ String "=" r))%nat && true &&
  match saltear (String.length n) (a +:+ String "=" r) with String d _ => Ascii.eqb d "=" | "" => false end &&
  mg_strncasecmp_0 n (a +:+ String "=" r) = String.eqb (minusculas n) (minusculas a).
Proof.
  intros [Hn _] [Ha _]. destruct (decide (String.length n = String.length a)) as [E|E].
  - rewrite E, saltear_app, strncasecmp_app by done. rewrite length_app_s. cbn [String.length].
    rewrite (proj2 (Nat.ltb_lt _ _)) by lia. done.
  - assert (String.eqb (minusculas n) (minusculas a) = false) as ->.
    { apply String.eqb_neq. intros H. apply E. by rewrite <- (minusculas_largo n), H, minusculas_largo. }
    destruct (decide (String.length a < String.length n)%nat).
    + rewrite strncasecmp_corta by done. apply andb_false_r.
    + replace (match saltear _ _ with "" => false | String d _ => Ascii.eqb d "=" end) with false;
        [by rewrite andb_false_r|].
      symmetry. assert (String.length n < String.length a)%nat as Hlt by lia. clear -Ha Hlt.
      revert a Ha Hlt. generalize (String.length n) as k. induction k as [|k IH]; intros [|y a] Ha Hlt;
        cbn [String.length] in Hlt; try lia; rewrite contiene_cons in Ha; partir; rewrite app_cons_s.
      * cbn [saltear]. by rewrite Ascii.eqb_sym.
      * cbn [saltear]. apply IH; [done|lia].
Qed.

Lemma buscar_var_par n a r : nombre_ok n -> nombre_ok a ->
  buscar_var n true (a +:+ String "=" r) =
  if String.eqb (minusculas n) (minusculas a) then Some (hasta_amp (saltear (S (String.length n)) (a +:+ String "=" r)))
  else buscar_var n false (saltear 1 (a +:+ String "=" r)).
Proof.
  intros Hn Ha. pose proof (prueba_par n a r Hn Ha) as H.
  destruct a as [|c a]; [rewrite app_nil_l_s in *|rewrite app_cons_s in *]; cbn [buscar_var] in *; rewrite H.
  - done.
  - destruct (String.eqb _ _); [done|]. destruct Ha as [_ Ha]. rewrite contiene_cons in Ha. partir.
    rewrite Ascii.eqb_sym, H0. cbn. by destruct (a +:+ String "=" r).
Qed.

Lemma formulario_cons n v l :
  formulario ((n, v) :: l) =
  n +:+ String "=" (codificar v +:+ match l with [] => "" | _ => String "&" (formulario l) end).
Proof. destruct l; cbn [formulario]; [by rewrite app_nil_r_s|done]. Qed.

Lemma buscar_formulario n m v l1 l2 :
  Forall (fun p => nombre_ok p.1 /\ minusculas p.1 <> minusculas n) l1 -> nombre_ok n ->
  nombre_ok m -> minusculas m = minusculas n ->
  buscar_var n true (formulario (l1 ++ (m, v) :: l2)) = Some (codificar v).
Proof.
  intros Hl Hn Hm Hmn. induction Hl as [|[a w] l1 [Ha Hne] Hl IH]; cbn [app].
  - rewrite formulario_cons, buscar_var_par, Hmn, String.eqb_refl by done. f_equal.
    replace (String.length n) with (String.length m) by (by rewrite <- minusculas_largo, Hmn, minusculas_largo).
    replace (saltear _ _) with (codificar v +:+ match l2 with [] => "" | _ => String "&" (formulario l2) end).
    + destruct l2; [rewrite app_nil_r_s; apply hasta_amp_fin|apply hasta_amp_sep]; apply codificar_sin_amp.
    + clear. induction m as [|c m IH]; [done|]. exact IH.
  - cbn [fst] in *. rewrite formulario_cons, buscar_var_par by done.
    rewrite (proj2 (String.eqb_neq _ _)) by (by intros ?). rewrite <- IH. clear IH.
    destruct (l1 ++ (m, v) :: l2) as [|q l] eqn:El; [by destruct l1|].
    assert (exists t, saltear 1 (a +:+ String "=" (codificar w +:+ String "&" (formulario (q :: l)))) =
      t +:+ String "&" (formulario (q :: l)) /\ contiene "&" t = false) as (t & -> & Ht).
    { destruct Ha as [_ Ha]. destruct a as [|c a].
      - exists (codificar w). split; [|apply codificar_sin_amp]. rewrite app_nil_l_s. cbn [saltear].
        by destruct (codificar w +:+ _).
      - exists (a +:+ String "=" (codificar w)). rewrite contiene_cons in Ha. partir. split.
        + rewrite app_cons_s, app_assoc_s, app_cons_s. cbn [saltear]. by destruct (a +:+ _).
        + by rewrite contiene_app, contiene_cons, codificar_sin_amp, H0. }
    by apply buscar_var_dentro.
Qed.

(** A variable of a submitted form is received as it was typed: for every form whose names
    need no encoding, [get_var] returns the value of the first pair whose name is the
    requested one (names compare without case), decoded and with its length, whenever it
    fits in the buffer. *)
Lemma get_var_enviada n m v l1 l2 dst_len :
  Forall (fun p => nombre_ok p.1 /\ minusculas p.1 <> minusculas n) l1 -> nombre_ok n ->
  nombre_ok m -> minusculas m = minusculas n -> largo v < dst_len ->
  get_var (Some (formulario (l1 ++ (m, v) :: l2))) n dst_len = (largo v, v).
Proof.
  intros Hl Hn Hm Hmn Hv. pose proof (buscar_formulario n m v l1 l2 Hl Hn Hm Hmn) as H. unfold get_var.
  unfold largo in Hv. destruct (Z.eqb_spec dst_len 0); [lia|].
  destruct (formulario _) as [|c d]; [done|]. rewrite H. unfold mg_url_decode.
  unfold codificar, mg_url_encode. cbn [snd]. rewrite url_decode_encode; [|lia|lia|unfold largo; lia].
  destruct (Z.eqb_spec (largo v) (-1)); [unfold largo in *; lia|done].
Qed.

(** ** Chunked replies *)

(** A reference reader of a chunked body (RFC 7230, 4.1, without extensions or trailers). *)
Fixpoint leer_hex (acc : Z) (s : string) : Z * string :=
  match s with
  | String c r => if isxdigit c then leer_hex (acc * 16 + xdigit_val c) r else (acc, s)
  | "" => (acc, "")
  end.
Fixpoint leer_chunks (fuel : nat) (s : string) : option string :=
  match fuel with
  | O => None
  | S fuel =>
      let '(n, r) := leer_hex 0 s in
      match quitar_prefijo CRLF r with
      | None => None
      | Some r =>
          match quitar_prefijo CRLF (saltear (Z.to_nat n) r) with
          | None => None
          | Some r' => if n =? 0 then if String.eqb r' "" then Some "" else None
                       else option_map (String.append (prefijo (Z.to_nat n) r)) (leer_chunks fuel r')
          end
      end
  end.

Definition cabeceras : string :=
  "HTTP/1.1 200 OK" +:+ CRLF +:+ "Transfer-Encoding: chunked" +:+ CRLF +:+ CRLF.

Lemma digito_X d : 0 <= d < 16 ->
  let c := if d <? 10 then chr (48 + d) else chr (55 + d) in isxdigit c = true /\ xdigit_val c = d.
Proof.
  intros Hn. assert (d ∈ (Z.of_nat <$> seq 0 16)) as Hin.
  { apply list_elem_of_fmap. exists (Z.to_nat d). split; [lia|]. apply elem_of_seq. lia. }
  cbn in Hin. repeat (apply elem_of_cons in Hin as [->|Hin]; [by split|]). by apply elem_of_nil in Hin.
Qed.

Lemma leer_hexa_loop fuel n s acc : 0 <= n < 16 ^ Z.of_nat fuel -> (0 < fuel)%nat ->
  exists k, 0 <= k /\ leer_hex acc (hexa_loop fuel n s) = leer_hex (acc * 16 ^ k + n) s.
Proof.
  revert n s acc. induction fuel as [|fuel IH]; intros n s acc Hn Hf; [lia|]. cbn [hexa_loop].
  pose proof (Z.mod_pos_bound n 16 ltac:(lia)) as Hm. pose proof (Z.div_mod n 16 ltac:(lia)) as Hd.
  destruct (digito_X (n mod 16) Hm) as [D1 D2].
  destruct (Z.eqb_spec (n / 16) 0) as [E|E].
  - exists 1. split; [lia|]. cbn [leer_hex]. rewrite D1, D2. f_equal. lia.
  - pose proof (Z.div_pos n 16 ltac:(lia) ltac:(lia)).
    assert (0 < fuel)%nat by (destruct fuel; [|lia]; change (16 ^ Z.of_nat 1) with 16 in Hn;
      exfalso; apply E; apply Z.div_small; lia).
    destruct (IH (n / 16) (String (if n mod 16 <? 10 then chr (48 + n mod 16) else chr (55 + n mod 16)) s) acc)
      as (k & Hk & ->).
    + split; [done|]. apply Z.div_lt_upper_bound; [lia|].
      rewrite <- (Z.pow_succ_r 16) by lia. rewrite <- Nat2Z.inj_succ. lia.
    + done.
    + exists (k + 1). split; [lia|]. cbn [leer_hex]. rewrite D1, D2. f_equal.
      rewrite Z.pow_add_r by lia. change (16 ^ 1) with 16. lia.
Qed.

Lemma leer_fmt_X n r : 0 <= n -> match r with String c _ => isxdigit c = false | "" => True end ->
  leer_hex 0 (fmt_X n +:+ r) = (n, r).
Proof.
  intros Hn Hr. unfold fmt_X.
  assert (forall fuel n s, hexa_loop fuel n s +:+ r = hexa_loop fuel n (s +:+ r)) as K.
  { induction fuel as [|fuel IH]; intros; [done|]. cbn [hexa_loop]. destruct (_ =? 0); [done|]. apply IH. }
  rewrite K, app_nil_l_s. edestruct (leer_hexa_loop (S (Z.to_nat (Z.log2 n))) n r 0) as (k & Hk & ->).
  - split; [done|]. rewrite Nat2Z.inj_succ, Z2Nat.id by apply Z.log2_nonneg.
    destruct (Z.eq_dec n 0) as [->|]; [reflexivity|].
    eapply Z.lt_le_trans; [apply (Z.log2_spec n); lia|]. apply Z.pow_le_mono_l. pose proof (Z.log2_nonneg n). lia.
  - lia.
  - rewrite Z.mul_0_l, Z.add_0_l. destruct r as [|c r]; cbn [leer_hex]; [done|]. by rewrite Hr.
Qed.

(** A reply of one message: the client of a connection with [pendiente] still to send gets the
    headers and a chunked body that decodes to the message. *)
Lemma chunk_enviado msg pendiente :
  contiene "%" msg = false -> largo msg <> IOBUF_SIZE -> msg <> "" ->
  exists c cuerpo, mg_printf_data msg (mkSalida 0 false false pendiente) = Ok c /\
    send_iobuf (terminar_respuesta c) = pendiente +:+ cabeceras +:+ cuerpo /\ leer_chunks 2 cuerpo = Some msg.
Proof.
  intros Hp Hl Hne. unfold mg_printf_data, ns_avprintf, avprintf_texto. rewrite printf0_id by done. cbn [bindR].
  destruct (Z.eqb_spec (largo msg) IOBUF_SIZE); [done|]. cbn [bindR].
  eexists _, (fmt_X (largo msg) +:+ CRLF +:+ msg +:+ CRLF +:+ "0" +:+ CRLF +:+ CRLF). split; [reflexivity|].
  split.
  - unfold write_chunk, ns_send, terminar_respuesta, cabeceras. cbn. by rewrite !app_assoc_s.
  - cbn [leer_chunks]. rewrite leer_fmt_X by (unfold largo; try lia; done).
    rewrite (proj2 (quitar_prefijo_spec CRLF _ _) eq_refl). unfold largo. rewrite Nat2Z.id, saltear_app.
    rewrite (proj2 (quitar_prefijo_spec CRLF _ _) eq_refl), prefijo_app.
    destruct msg as [|c m]; [done|]. change (Some (String c m +:+ "") = Some (String c m)). by rewrite app_nil_r_s.
Qed.

End MongooseOk.
