(* ===== verification/Patrones.v ===== *)
(** * Patrones: the file-name patterns of src/WebServer/mongoose.c

    [mg_match_prefix], the hidden files and the mime types.  A text is a C string without NUL
    and the end of it reads as NUL; what follows a pattern in memory is the end of a string,
    a bar or a comma in every call, never a star. *)

From S2P Require Import Prelude Libc Mongoose.
Open Scope Z_scope.

Module Patrones.
Import Libc Mongoose.

(** [*str] *)
Definition deref (s : string) : ascii := match s with "" => NUL | String c _ => c end.

(** The loop that tries the star with [len] characters, then with fewer; -1 if none will do. *)
Fixpoint intentar (f : string -> Z) (len : nat) (str : string) : Z :=
  let res := f (saltear len str) in
  if res =? -1 then match len with O => -1 | S len => intentar f len str end
  else res + Z.of_nat len.

(** [strcspn(str, "/")] *)
Definition hasta_barra (str : string) : nat :=
  String.length (fst (abarcar (fun c => negb (Ascii.eqb c "/")) str)).

(** The [for] loop, on a pattern without bars, from the position [j] of the string. *)
Fixpoint bucle (pattern str : string) (j : Z) : Z :=
  match pattern with
  | "" => j
  | String c p =>
      if Ascii.eqb c "?" && negb (String.eqb str "") then bucle p (saltear 1 str) (j + 1)
      else if Ascii.eqb c "$" then if String.eqb str "" then j else -1
      else if Ascii.eqb c "*" then
        let comodin (q : string) (len : nat) (f : string -> Z) : Z :=
          if String.eqb q "" then j + Z.of_nat len
          else let res := intentar f len str in if res =? -1 then -1 else j + res in
        match p with
        | String d q =>
            if Ascii.eqb d "*" then comodin q (String.length str) (fun s => bucle q s 0)
            else comodin p (hasta_barra str) (fun s => bucle p s 0)
        | "" => comodin "" (hasta_barra str) (fun _ => -1)
        end
      else if negb (Ascii.eqb (tolower c) (tolower (deref str))) then -1
      else bucle p (saltear 1 str) (j + 1)
  end.

(** The parts of a pattern between bars. *)
Fixpoint partes (pattern : string) : list string :=
  match pattern with
  | "" => [""]
  | String c p =>
      if Ascii.eqb c "|" then "" :: partes p
      else match partes p with [] => [String c ""] | a :: l => String c a :: l end
  end.

Fixpoint alternativas (l : list string) (str : string) : Z :=
  match l with
  | [] => -1
  | [p] => bucle p str 0
  | p :: l => let res := bucle p str 0 in if 0 <? res then res else alternativas l str
  end.

Definition mg_match_prefix (pattern str : string) : Z := alternativas (partes pattern) str.

(** ** Users of the patterns *)

Definition PASSWORDS_FILE_NAME : string := ".htpasswd".
Definition must_hide_file (hide_files_pattern : option string) (path : string) : bool :=
  (0 <? mg_match_prefix ("**" +:+ PASSWORDS_FILE_NAME +:+ "$") path) ||
  match hide_files_pattern with Some pattern => 0 <? mg_match_prefix pattern path | None => false end.

Definition static_builtin_mime_types : list (string * string) :=
  [(".html", "text/html"); (".htm", "text/html"); (".shtm", "text/html"); (".shtml", "text/html");
   (".css", "text/css"); (".js", "application/javascript"); (".ico", "image/x-icon"); (".gif", "image/gif");
   (".jpg", "image/jpeg"); (".jpeg", "image/jpeg"); (".png", "image/png"); (".svg", "image/svg+xml");
   (".txt", "text/plain"); (".torrent", "application/x-bittorrent"); (".wav", "audio/x-wav");
   (".mp3", "audio/x-mp3"); (".mid", "audio/mid"); (".m3u", "audio/x-mpegurl"); (".ogg", "application/ogg");
   (".ram", "audio/x-pn-realaudio"); (".xml", "text/xml"); (".json", "application/json");
   (".xslt", "application/xml"); (".xsl", "application/xml"); (".ra", "audio/x-pn-realaudio");
   (".doc", "application/msword"); (".exe", "application/octet-stream"); (".zip", "application/x-zip-compressed");
   (".xls", "application/excel"); (".tgz", "application/x-tar-gz"); (".tar", "application/x-tar");
   (".gz", "application/x-gunzip"); (".arj", "application/x-arj-compressed"); (".rar", "application/x-rar-compressed");
   (".rtf", "application/rtf"); (".pdf", "application/pdf"); (".swf", "application/x-shockwave-flash");
   (".mpg", "video/mpeg"); (".webm", "video/webm"); (".mpeg", "video/mpeg"); (".mov", "video/quicktime");
   (".mp4", "video/mp4"); (".m4v", "video/x-m4v"); (".asf", "video/x-ms-asf"); (".avi", "video/x-msvideo");
   (".bmp", "image/bmp"); (".ttf", "application/x-font-ttf")].

Fixpoint buscar_mime (tipos : list (string * string)) (path default_mime_type : string) : string :=
  match tipos with
  | [] => default_mime_type
  | (extension, mime_type) :: tipos =>
      let ext := saltear (String.length path - String.length extension) path in
      if (String.length extension <? String.length path)%nat && mg_strcasecmp_0 ext extension then mime_type
      else buscar_mime tipos path default_mime_type
  end.
Definition mg_get_mime_type (path default_mime_type : string) : string :=
  buscar_mime static_builtin_mime_types path default_mime_type.

End Patrones.

(** ** What a pattern means *)

Module PatronesOk.
Import Libc Mongoose Patrones.

(** A character that stands for itself. *)
Definition literal (c : ascii) : bool :=
  negb (Ascii.eqb c "?" || Ascii.eqb c "$" || Ascii.eqb c "*").

Definition empieza_estrella (p : string) : bool := match p with String c _ => Ascii.eqb c "*" | "" => false end.

(** [casa p s n]: the pattern [p], without bars, matches the first [n] characters of [s]. *)
Inductive casa : string -> string -> nat -> Prop :=
| casa_fin s : casa "" s 0
| casa_uno p c s n : casa p s n -> casa (String "?" p) (String c s) (S n)
| casa_final p : casa (String "$" p) "" 0
| casa_estrella p u s n : empieza_estrella p = false -> contiene "/" u = false -> casa p s n ->
    casa (String "*" p) (u +:+ s) (String.length u + n)
| casa_doble p u s n : casa p s n -> casa (String "*" (String "*" p)) (u +:+ s) (String.length u + n)
| casa_literal p a b s n : literal a = true -> tolower a = tolower b -> casa p s n ->
    casa (String a p) (String b s) (S n).

Lemma saltear_uno c s : saltear 1 (String c s) = s.
Proof. by destruct s. Qed.

Lemma hasta_barra_le s : (hasta_barra s <= String.length s)%nat.
Proof.
  unfold hasta_barra. pose proof (abarcar_app (fun c => negb (Ascii.eqb c "/")) s) as H.
  destruct (abarcar _ s) as [a b]. destruct H as [-> _]. rewrite length_app_s. cbn. lia.
Qed.

Lemma hasta_barra_app u s : contiene "/" u = false -> (String.length u <= hasta_barra (u +:+ s))%nat.
Proof.
  unfold hasta_barra. induction u as [|c u IH]; [cbn; lia|]. rewrite contiene_cons, app_cons_s. intros H.
  partir. cbn [abarcar]. rewrite Ascii.eqb_sym in H. rewrite H. cbn [negb]. specialize (IH H0).
  destruct (abarcar _ (u +:+ s)) as [a b]. cbn [fst String.length] in *. lia.
Qed.

Lemma prefijo_sin_barra i s : (i <= hasta_barra s)%nat -> contiene "/" (prefijo i s) = false.
Proof.
  unfold hasta_barra. revert i. induction s as [|c s IH]; intros [|i]; try done. cbn [abarcar].
  destruct (Ascii.eqb c "/") eqn:E; cbn [negb]; [cbn; lia|]. destruct (abarcar _ s) as [a b] eqn:Ea.
  cbn [fst String.length prefijo] in *. intros Hi. rewrite contiene_cons, Ascii.eqb_sym, E. apply IH. lia.
Qed.

(** ** Stars *)

(** Where the text the star stands for can end. *)
Definition alcance (doble : bool) (s : string) : nat := if doble then String.length s else hasta_barra s.
Definition con_estrella (doble : bool) (p : string) : string :=
  String "*" (if doble then String "*" p else p).

Lemma casa_estrella_inv doble p s m : (doble = false -> empieza_estrella p = false) ->
  casa (con_estrella doble p) s m ->
  exists i n, (i <= alcance doble s)%nat /\ m = (i + n)%nat /\ casa p (saltear i s) n.
Proof.
  intros Hd H. destruct doble; inversion H as [| | |q u t n Hq Hu Ht|q u t n Ht|q a b t n Ha]; subst; try done.
  - exists (String.length u), n. cbn. rewrite length_app_s, saltear_app. split_and!; [lia|done|done].
  - exists (String.length u), n. cbn. rewrite saltear_app. split_and!; [by apply hasta_barra_app|done|done].
  - by specialize (Hd eq_refl).
Qed.

Lemma casa_estrella_intro doble p s i n : (doble = false -> empieza_estrella p = false) ->
  (i <= alcance doble s)%nat -> casa p (saltear i s) n -> casa (con_estrella doble p) s (i + n).
Proof.
  intros Hd Hi H. assert (i <= String.length s)%nat as Hl
    by (destruct doble; cbn in Hi; [done|]; pose proof (hasta_barra_le s); lia).
  rewrite <- (prefijo_saltear i s). replace i with (String.length (prefijo i s)) at 3
    by (rewrite length_prefijo; lia).
  destruct doble; cbn in Hi |- *; [by apply casa_doble|].
  apply casa_estrella; [by apply Hd|by apply prefijo_sin_barra|done].
Qed.

(** ** The loops *)

(** [r] is the answer for the pattern [p] on [s] from the position [j]. *)
Definition responde (p s : string) (j r : Z) : Prop :=
  (r = -1 /\ forall n, ~ casa p s n) \/
  (exists n, r = j + Z.of_nat n /\ casa p s n /\ (n = O -> forall m, casa p s m -> m = O)).

Lemma intentar_responde p f len s : (forall t, responde p t 0 (f t)) ->
  (intentar f len s = -1 /\ forall i, (i <= len)%nat -> forall n, ~ casa p (saltear i s) n) \/
  (exists i n, (i <= len)%nat /\ intentar f len s = Z.of_nat (i + n) /\ casa p (saltear i s) n /\
     (n = O -> forall m, casa p (saltear i s) m -> m = O) /\
     forall k, (i < k <= len)%nat -> forall m, ~ casa p (saltear k s) m).
Proof.
  intros Hf. induction len as [|len IH]; cbn [intentar];
    [destruct (Hf (saltear 0 s)) as [[Hr Hn]|(n & Hr & Hc & Hz)]
    |destruct (Hf (saltear (S len) s)) as [[Hr Hn]|(n & Hr & Hc & Hz)]].
  - left. rewrite Hr. cbn. split; [done|]. intros [|i] Hi; [done|lia].
  - right. exists 0%nat, n. rewrite Hr. replace (0 + Z.of_nat n =? -1) with false by (symmetry; apply Z.eqb_neq; lia).
    split_and!; [lia|lia|done|done|lia].
  - rewrite Hr. cbn [Z.eqb Z.opp Pos.eqb]. destruct IH as [[E Hall]|(i & n & Hi & E & Hc & Hz & Hk)].
    + left. split; [exact E|]. intros i Hi. destruct (decide (i = S len)) as [->|]; [done|]. apply Hall. lia.
    + right. exists i, n. split_and!; [lia|exact E|done|done|]. intros k Hk' m.
      destruct (decide (k = S len)) as [->|]; [apply Hn|]. apply Hk. lia.
  - right. exists (S len), n. rewrite Hr. replace (0 + Z.of_nat n =? -1) with false by (symmetry; apply Z.eqb_neq; lia).
    split_and!; [lia|lia|done|done|lia].
Qed.

(** The star with the text [q] after it. *)
Lemma estrella_responde doble q s j (f : string -> Z) : 0 <= j -> (doble = false -> empieza_estrella q = false) ->
  (q <> "" -> forall t, responde q t 0 (f t)) ->
  responde (con_estrella doble q) s j
    (if String.eqb q "" then j + Z.of_nat (alcance doble s)
     else let res := intentar f (alcance doble s) s in if res =? -1 then -1 else j + res).
Proof.
  intros Hj Hd Hf. destruct (String.eqb_spec q "") as [->|Hq].
  { right. exists (alcance doble s). split; [done|]. split.
    - rewrite <- (Nat.add_0_r (alcance doble s)) at 1.
      apply casa_estrella_intro; [done|done|constructor].
    - intros Ez m (i & n & Hi & -> & Hc)%casa_estrella_inv; [|done]. inversion Hc; subst. lia. }
  destruct (intentar_responde q f (alcance doble s) s (Hf Hq)) as [[-> Hall]|(i & n & Hi & -> & Hc & Hz & Hk)]; cbn zeta.
  - left. split; [done|]. intros m (i & n & Hi & -> & Hc)%casa_estrella_inv; [|done]. by eapply Hall.
  - right. replace (Z.of_nat (i + n) =? -1) with false by (symmetry; apply Z.eqb_neq; lia).
    exists (i + n)%nat. split_and!; [done|by apply casa_estrella_intro|].
    intros E m (i' & n' & Hi' & -> & Hc')%casa_estrella_inv; [|done].
    assert (i = O /\ n = O) as [-> ->] by lia. destruct i' as [|i']; [by apply Hz|].
    destruct (Hk (S i') ltac:(lia) _ Hc').
Qed.

Lemma bucle_responde p s j : contiene NUL p = false -> 0 <= j -> responde p s j (bucle p s j).
Proof.
  remember (String.length p) as N eqn:HN. assert (String.length p <= N)%nat as Hle by lia. clear HN.
  revert p s j Hle. induction N as [|N IH]; intros [|c p] s j Hle Hn Hj; cbn [String.length] in Hle; try lia;
    try (right; exists O; split_and!; [cbn; lia|constructor|by intros _ m H; inversion H]).
  rewrite contiene_cons in Hn. apply orb_false_elim in Hn as [Hc0 Hn]. cbn [bucle].
  assert (forall d t, (forall m, casa (String c p) (String d t) m <-> exists n, m = S n /\ casa p t n) ->
    responde (String c p) (String d t) j (bucle p t (j + 1))) as Huno.
  { intros d t E. destruct (IH p t (j + 1)) as [[Hr Hall]|(n & Hr & Hc & _)]; [lia|done|lia| |].
    - left. split; [done|]. intros n (m & -> & Hm)%E. by eapply Hall.
    - right. exists (S n). split_and!; [lia|apply E; by exists n|done]. }
  destruct (Ascii.eqb_spec c "?") as [->|Hq].
  { destruct s as [|d s]; cbn [String.eqb negb andb].
    - left. split; [done|]. intros n H. by inversion H.
    - rewrite saltear_uno. apply Huno. intros m. split.
      + intros H. inversion H; subst; [by eexists|done].
      + intros (n & -> & H). by constructor. }
  cbn [andb]. destruct (Ascii.eqb_spec c "$") as [->|Hd].
  { destruct s as [|d s]; cbn [String.eqb].
    - right. exists O. split_and!; [lia|constructor|]. intros _ m H. by inversion H.
    - left. split; [done|]. intros n H. by inversion H. }
  destruct (Ascii.eqb_spec c "*") as [->|Hs].
  { destruct p as [|d q].
    - by apply (estrella_responde false "" s j (fun _ => -1)).
    - destruct (Ascii.eqb_spec d "*") as [->|Hd'].
      + rewrite contiene_cons in Hn. apply orb_false_elim in Hn as [_ Hn]. cbn [String.length] in Hle.
        apply (estrella_responde true q s j); [done..|]. intros _ t. apply IH; [lia|done|lia].
      + apply (estrella_responde false (String d q) s j); [done|by intros _; apply Ascii.eqb_neq|].
        intros _ t. apply IH; [cbn in Hle |- *; lia|done|lia]. }
  assert (literal c = true) as Hl.
  { unfold literal. rewrite (proj2 (Ascii.eqb_neq _ _) Hq), (proj2 (Ascii.eqb_neq _ _) Hd),
      (proj2 (Ascii.eqb_neq _ _) Hs). done. }
  destruct (Ascii.eqb_spec (tolower c) (tolower (deref s))) as [Ht|Ht]; cbn [negb].
  - destruct s as [|d s].
    + exfalso. revert Ht Hc0. clear. destruct c as [[][][][][][][][]]; vm_compute; done.
    + rewrite saltear_uno. apply Huno. intros m. split.
      * intros H. inversion H; subst; try done. by eexists.
      * intros (n & -> & H). by constructor.
  - left. split; [done|]. intros n H. by inversion H; subst.
Qed.

(** ** The alternatives *)

Lemma alternativas_positivo l s : Forall (fun p => contiene NUL p = false) l ->
  (0 < alternativas l s <-> exists p n, In p l /\ casa p s (S n)).
Proof.
  induction 1 as [|p l Hp Hl IH].
  - cbn. split; [lia|]. by intros (p & n & [] & _).
  - destruct (bucle_responde p s 0 Hp ltac:(lia)) as [[Hr Hno]|(n & Hr & Hc & Hz)].
    + assert (alternativas (p :: l) s = alternativas l s) as ->.
      { cbn [alternativas]. rewrite Hr. by destruct l. }
      rewrite IH. split; [intros (q & n & ? & ?); exists q, n; split; [by right|done]|].
      intros (q & n & [<-|?] & Hq); [by destruct (Hno _ Hq)|by exists q, n].
    + destruct n as [|n].
      * assert (0 < alternativas (p :: l) s <-> 0 < alternativas l s) as ->.
        { cbn [alternativas]. rewrite Hr. by destruct l. }
        rewrite IH. split; [intros (q & n & ? & ?); exists q, n; split; [by right|done]|].
        intros (q & n & [<-|?] & Hq); [by specialize (Hz eq_refl _ Hq)|by exists q, n].
      * assert (alternativas (p :: l) s = Z.of_nat (S n)) as ->.
        { cbn [alternativas]. rewrite Hr. destruct l; [lia|].
          replace (0 <? 0 + Z.of_nat (S n)) with true by (symmetry; apply Z.ltb_lt; lia). lia. }
        split; [|lia]. intros _. exists p, n. split; [by left|done].
Qed.

Lemma alternativas_casa l s : Forall (fun p => contiene NUL p = false) l -> 0 < alternativas l s ->
  exists p, In p l /\ casa p s (Z.to_nat (alternativas l s)).
Proof.
  induction 1 as [|p l Hp Hl IH]; [cbn; lia|]. cbn [alternativas]. intros H.
  destruct (bucle_responde p s 0 Hp ltac:(lia)) as [[Hr Hno]|(n & Hr & Hc & Hz)]; rewrite Hr in *.
  - destruct l; [lia|]. destruct (IH H) as (q & ? & ?). exists q. split; [by right|done].
  - destruct l as [|q l]; [exists p; split; [by left|]; by replace (Z.to_nat _) with n by lia|].
    destruct (Z.ltb_spec 0 (0 + Z.of_nat n)).
    + exists p. split; [by left|]. by replace (Z.to_nat _) with n by lia.
    + destruct (IH H) as (r & ? & ?). exists r. split; [by right|done].
Qed.

Lemma partes_sin_nul p : contiene NUL p = false -> Forall (fun q => contiene NUL q = false) (partes p).
Proof.
  induction p as [|c p IH]; cbn [partes]; [by repeat constructor|]. rewrite contiene_cons. intros H. partir.
  specialize (IH H0). destruct (Ascii.eqb c "|"); [by constructor|].
  destruct (partes p) as [|a l]; [constructor; [|constructor]|inversion IH; subst; constructor; [|done]];
    rewrite contiene_cons, H; done.
Qed.

(** ** The hidden files *)

Lemma casa_literales l s n : todos literal l = true -> contiene NUL l = false ->
  casa (l +:+ "$") s n <-> mapa tolower s = mapa tolower l /\ n = String.length l.
Proof.
  intros Hl Hn. revert s n Hl Hn. induction l as [|c l IH]; intros s n Hl Hn.
  - rewrite app_nil_l_s. split.
    + intros H. inversion H; subst; done.
    + intros [Hs ->]. destruct s; [constructor|done].
  - cbn [todos] in Hl. rewrite contiene_cons in Hn. rewrite app_cons_s. partir. split.
    + intros H'. inversion H'; subst; try done.
      match goal with K : casa _ _ _ |- _ => apply IH in K as [K ->]; [|done..] end.
      cbn [mapa String.length]. by split; [congruence|].
    + intros [Hs ->]. destruct s as [|b s]; [done|]. cbn [mapa] in Hs. injection Hs as Hb Hs.
      cbn [String.length]. constructor; [done|done|]. by apply IH.
Qed.

Lemma oculta_htpasswd path : must_hide_file None path = true <->
  exists dir f, path = dir +:+ f /\ mapa tolower f = PASSWORDS_FILE_NAME.
Proof.
  unfold must_hide_file. rewrite orb_false_r, Z.ltb_lt. unfold mg_match_prefix.
  rewrite alternativas_positivo by (by apply partes_sin_nul). change (partes _) with ["**.htpasswd$"].
  assert (forall s n, casa ".htpasswd$" s n <-> mapa tolower s = PASSWORDS_FILE_NAME /\ n = 9%nat) as K
    by (intros; by apply (casa_literales PASSWORDS_FILE_NAME)).
  split.
  - intros (q & n & [<-|[]] & H). destruct (casa_estrella_inv true ".htpasswd$" path _ ltac:(done) H)
      as (i & m & _ & _ & [Hf _]%K). exists (prefijo i path), (saltear i path). by rewrite prefijo_saltear.
  - intros (dir & f & -> & Hf). exists "**.htpasswd$", (String.length dir + 8)%nat. split; [by left|].
    replace (S (String.length dir + 8)) with (String.length dir + 9)%nat by lia.
    apply casa_doble. by apply K.
Qed.

(** C34. The patterns mean what their syntax says: [mg_match_prefix] answers a positive length
    exactly when some alternative of the pattern matches a non-empty beginning of the string
    ([?] any character, [*] any text without slashes, [**] any text, [$] the end, letters
    without regard to case), and the length it answers is one such match, however the stars
    have to be tried.  A path is hidden exactly when it ends in [.htpasswd], in any case, or
    when the pattern of the option [hide_files_patterns], if it is set, matches a non-empty
    beginning of it. *)
Theorem patrones pattern s :
  contiene NUL pattern = false ->
  (0 < mg_match_prefix pattern s <-> exists p n, In p (partes pattern) /\ casa p s (S n)) /\
  (0 < mg_match_prefix pattern s ->
     exists p, In p (partes pattern) /\ casa p s (Z.to_nat (mg_match_prefix pattern s))) /\
  (must_hide_file None s = true <-> exists dir f, s = dir +:+ f /\ mapa tolower f = PASSWORDS_FILE_NAME) /\
  (must_hide_file (Some pattern) s = true <->
     (exists dir f, s = dir +:+ f /\ mapa tolower f = PASSWORDS_FILE_NAME) \/ exists p n, In p (partes pattern) /\ casa p s (S n)).
Proof.
  intros Hn. assert (0 < mg_match_prefix pattern s <-> exists p n, In p (partes pattern) /\ casa p s (S n)) as K
    by (by apply alternativas_positivo, partes_sin_nul). split_and!; [done| |apply oculta_htpasswd|].
  - by apply alternativas_casa, partes_sin_nul.
  - rewrite <- oculta_htpasswd, <- K. unfold must_hide_file. rewrite orb_false_r, orb_true_iff, !Z.ltb_lt. done.
Qed.

Lemma patrones_witness :
  (exists p n, In p (partes "**.cgi$|/A/*.h") /\ casa p "/a/uno.h?x" (S n)) /\ must_hide_file (Some "**.bak$") "/a.bak" = true.
Proof.
  split; [apply (proj1 (proj1 (patrones "**.cgi$|/A/*.h" "/a/uno.h?x" eq_refl))); vm_compute; reflexivity|].
  destruct (patrones "**.bak$" "/a.bak" eq_refl) as (K & _ & _ & K2). apply K2. right. apply K. vm_compute. reflexivity.
Defined.

End PatronesOk.
