(* ===== verification/Autorizacion.v ===== *)
(** * Autorizacion: values of headers and digest authorisation of src/WebServer/mongoose.c

    [parse_header], which reads a field of a header such as [Authorization] or
    [Content-Disposition], and [mg_authorize_digest] over the text of a passwords file; and
    what they guarantee to a client that follows RFC 2617. *)

From S2P Require Import Prelude Bloques Rfc1321 Libc Md5 MgMd5 Mongoose.
Open Scope Z_scope.

Module Autorizacion.
Import Libc Mongoose.

Definition COMILLA : ascii := "034"%char.
Definition APOSTROFO : ascii := "039"%char.
Definition BARRA : ascii := "092"%char.

(** [*p] for a text that ends where [fin] is. *)
Definition leer_char (fin : ascii) (p : string) : ascii := match p with "" => fin | String c _ => c end.

(** The search for the variable: the text after its equals sign.  [inicio] holds at the
    beginning and after a space or a comma. *)
Fixpoint buscar_campo (var_name : string) (inicio : bool) (s : string) : option string :=
  match s with
  | "" => None
  | String c r =>
      match (if inicio then quitar_prefijo (var_name +:+ "=") s else None) with
      | Some v => Some v
      | None => buscar_campo var_name (Ascii.eqb c " " || Ascii.eqb c ",") r
      end
  end.

(** The loop that copies the value, up to [room] characters: what it copied and where it
    stopped. *)
Fixpoint copiar (fin ch ch1 : ascii) (room : nat) (p : string) {struct p} : string * string :=
  match p with
  | "" => ("", "")
  | String c r =>
      if Ascii.eqb c ch || Ascii.eqb c ch1 then ("", p)
      else match room with
           | O => ("", p)
           | S room =>
               if Ascii.eqb ch ch1 && Ascii.eqb c BARRA && Ascii.eqb (leer_char fin r) ch then
                 match r with
                 | "" => (String fin "", "")
                 | String d r' => let '(v, q) := copiar fin ch ch1 room r' in (String d v, q)
                 end
               else let '(v, q) := copiar fin ch ch1 room r in (String c v, q)
           end
  end.

(** [s[len - 1]] is [c] *)
Definition termina (s : string) (len : nat) (c : ascii) : bool :=
  match len with O => false | S n => Ascii.eqb (leer_char NUL (saltear n s)) c end.

(** The length of the value and its text in the buffer; [None] when the buffer is left
    without a terminator.  [fin] is the character that follows [str]. *)
Definition parse_header (fin : ascii) (str var_name : string) (buf_size : nat) : nat * option string :=
  match buscar_campo var_name true str with
  | Some (String c r) =>
      let '(ch, ch1, s) :=
        if Ascii.eqb c COMILLA || Ascii.eqb c APOSTROFO then (c, c, r) else (" "%char, ","%char, String c r) in
      let '(v, p) := copiar fin ch ch1 buf_size s in
      let len := String.length v in
      if (buf_size <=? len)%nat || (negb (Ascii.eqb ch " ") && negb (Ascii.eqb (leer_char fin p) ch))
      then (0%nat, if (len =? 0)%nat then Some "" else None)
      else
        let len := if termina s len "," then (len - 1)%nat else len in
        let len := if termina s len ";" then (len - 1)%nat else len in
        (len, Some (prefijo len v))
  | _ => (0%nat, Some "")
  end.

Definition mg_parse_header (s var_name : string) (buf_size : nat) : nat * option string :=
  parse_header NUL s var_name buf_size.

(** The value of a field that must be there. *)
Definition campo (hdr var_name : string) (buf_size : nat) : option string :=
  match mg_parse_header hdr var_name buf_size with (S _, v) => v | (O, _) => None end.

(** ** The passwords file *)

(** [fgets(line, n + 1, fp)] *)
Fixpoint fgets (n : nat) (fp : string) : string * string :=
  match n, fp with
  | S n, String c r =>
      if Ascii.eqb c NL then (String c "", r) else let '(l, q) := fgets n r in (String c l, q)
  | _, _ => ("", fp)
  end.

(** [sscanf(line, "%[^:]:%[^:]:%s", f_user, f_domain, ha1)], when it reads the three. *)
Definition leer_linea (line : string) : option (string * string * string) :=
  let sin_dos_puntos := abarcar (fun c => negb (Ascii.eqb c ":")) in
  let '(f_user, r) := sin_dos_puntos (c_str line) in
  match f_user, r with
  | String _ _, String _ r =>
      let '(f_domain, r) := sin_dos_puntos r in
      match f_domain, r with
      | String _ _, String _ r =>
          let '(ha1, _) := abarcar (fun c => negb (isspace c)) (snd (abarcar isspace r)) in
          match ha1 with String _ _ => Some (f_user, f_domain, ha1) | "" => None end
      | _, _ => None
      end
  | _, _ => None
  end.

(** The lines [fgets] gives, with buffers of 256 characters. *)
Fixpoint lineas (fuel : nat) (fp : string) : list string :=
  match fuel with
  | O => []
  | S fuel => match fp with "" => [] | _ => let '(l, r) := fgets 255 fp in l :: lineas fuel r end
  end.

Section Maquina.
(** The byte order of the machine and what the stack held, for [mg_md5]. *)
Context (be : bool) (basura : MgMd5.MD5_CTX).

Definition check_password (method ha1 uri nonce nc cnonce qop response : string) : bool :=
  let ha2 := MgMd5.mg_md5 be basura [method; ":"; uri] in
  let expected_response :=
    MgMd5.mg_md5 be basura [ha1; ":"; nonce; ":"; nc; ":"; cnonce; ":"; qop; ":"; ha2] in
  mg_strcasecmp_0 response expected_response.

(** The first line of the user in the domain decides. *)
Fixpoint buscar_usuario (auth_domain user : string) (l : list string) : option string :=
  match l with
  | [] => None
  | line :: l =>
      match leer_linea line with
      | Some (f_user, f_domain, ha1) =>
          if String.eqb user f_user && String.eqb auth_domain f_domain then Some ha1
          else buscar_usuario auth_domain user l
      | None => buscar_usuario auth_domain user l
      end
  end.

Definition MAX_REQUEST_SIZE : nat := Z.to_nat 16384.

(** [fp] is the text of the passwords file. *)
Definition mg_authorize_digest (auth_domain method : string) (headers : list (string * string)) (fp : string) : bool :=
  match mg_get_header headers "Authorization" with
  | Some hdr =>
      if negb (mg_strncasecmp_0 "Digest " hdr) then false
      else
        match campo hdr "username" 100, campo hdr "cnonce" 100, campo hdr "response" 100,
              campo hdr "uri" MAX_REQUEST_SIZE, campo hdr "qop" 100, campo hdr "nc" 100, campo hdr "nonce" 100 with
        | Some user, Some cnonce, Some resp, Some uri, Some qop, Some nc, Some nonce =>
            match buscar_usuario auth_domain user (lineas (S (String.length fp)) fp) with
            | Some ha1 => check_password method ha1 uri nonce nc cnonce qop resp
            | None => false
            end
        | _, _, _, _, _, _, _ => false
        end
  | None => false
  end.
End Maquina.

End Autorizacion.

(** ** A client that follows RFC 2617 *)

Module AutorizacionOk.
Import Libc Mongoose Autorizacion.
Import Md5(hex_bytes).

(** A field of the header, its value quoted or not. *)
Record Campo : Type := mkCampo { nombre : string; entre_comillas : bool; valor : string }.

Definition texto_campo (c : Campo) : string :=
  nombre c +:+ "=" +:+
  if entre_comillas c then String COMILLA (valor c +:+ String COMILLA "") else valor c.

Fixpoint texto_campos (l : list Campo) : string :=
  match l with
  | [] => ""
  | c :: l => texto_campo c +:+ match l with [] => "" | _ => ", " +:+ texto_campos l end
  end.

(** Characters that neither end a value nor a field. *)
Definition llano (c : ascii) : bool :=
  negb (contiene c " ,;=" || Ascii.eqb c COMILLA || Ascii.eqb c APOSTROFO || Ascii.eqb c BARRA || Ascii.eqb c NUL).
Definition de_valor (c : ascii) : bool := llano c || Ascii.eqb c "=".

Definition campo_ok (c : Campo) : Prop :=
  todos llano (nombre c) = true /\ todos de_valor (valor c) = true.

(** ** [parse_header] finds the field *)

Definition separa (c : ascii) : bool := Ascii.eqb c " " || Ascii.eqb c ",".

Lemma buscar_llano n t r : todos (fun c => negb (separa c)) t = true ->
  buscar_campo n false (t +:+ r) = buscar_campo n false r.
Proof.
  induction t as [|c t IH]; [done|]. cbn [todos]. intros. partir. rewrite app_cons_s. cbn [buscar_campo].
  unfold separa in H. rewrite H. by apply IH.
Qed.

(** A text that does not have the field is skipped up to its separator. *)
Lemma buscar_salta n t r : t <> "" -> todos (fun c => negb (separa c)) t = true ->
  quitar_prefijo (n +:+ "=") (t +:+ r) = None -> buscar_campo n true (t +:+ r) = buscar_campo n false r.
Proof.
  destruct t as [|c t]; [done|]. intros _ Ht Hq. rewrite app_cons_s in *. cbn [buscar_campo]. rewrite Hq.
  cbn [todos] in Ht. partir. unfold separa in H. rewrite H. by apply buscar_llano.
Qed.

Lemma buscar_coma n r : n <> "" -> todos llano n = true ->
  buscar_campo n false (", " +:+ r) = buscar_campo n true r.
Proof.
  destruct n as [|c n]; [done|]. cbn [todos]. intros _ Hn. partir.
  change (", " +:+ r) with (String "," (String " " r)). cbn [buscar_campo Ascii.eqb orb]. rewrite app_cons_s.
  cbn [quitar_prefijo]. destruct (Ascii.eqb_spec c " ") as [->|_]; [done|]. reflexivity.
Qed.

Lemma no_separa_nombre s : todos llano s = true -> todos (fun c => negb (separa c)) s = true.
Proof. apply todos_impl. clear. intros c. destruct c as [[][][][][][][][]]; vm_compute; done. Qed.

Lemma no_separa_valor s : todos de_valor s = true -> todos (fun c => negb (separa c)) s = true.
Proof. apply todos_impl. clear. intros c. destruct c as [[][][][][][][][]]; vm_compute; done. Qed.

Lemma no_separa_campo c : campo_ok c -> todos (fun c => negb (separa c)) (texto_campo c) = true.
Proof.
  intros [Hn Hv]. apply no_separa_nombre in Hn. apply no_separa_valor in Hv. unfold texto_campo.
  rewrite !todos_app, Hn. destruct (entre_comillas c); [|by rewrite Hv].
  cbn [todos]. by rewrite todos_app, Hv.
Qed.

(** Different names do not match. *)
Lemma quitar_distinto n m r : todos llano n = true -> todos llano m = true -> n <> m ->
  quitar_prefijo (n +:+ "=") (m +:+ String "=" r) = None.
Proof.
  revert m. induction n as [|a n IH]; intros m Hn Hm Hd.
  - destruct m as [|b m]; [done|]. rewrite app_nil_l_s, app_cons_s. cbn [quitar_prefijo].
    destruct (Ascii.eqb_spec "=" b) as [<-|_]; [|done]. by cbn in Hm.
  - cbn [todos] in Hn. partir. rewrite app_cons_s. destruct m as [|b m].
    + rewrite app_nil_l_s. cbn [quitar_prefijo]. destruct (Ascii.eqb_spec a "=") as [->|_]; [|done].
      by cbn in H.
    + rewrite app_cons_s. cbn [quitar_prefijo]. cbn [todos] in Hm. partir.
      destruct (Ascii.eqb_spec a b) as [->|_]; [|done]. apply IH; [done|done|congruence].
Qed.

Fixpoint primer_campo (n : string) (l : list Campo) : option Campo :=
  match l with
  | [] => None
  | c :: l => if String.eqb (nombre c) n then Some c else primer_campo n l
  end.

(** What follows a field: nothing, or the separator. *)
Definition tras_campo (r : string) : Prop := r = "" \/ exists r', r = ", " +:+ r'.

Lemma buscar_campos n l c : n <> "" -> todos llano n = true -> Forall campo_ok l -> primer_campo n l = Some c ->
  exists r, buscar_campo n true (texto_campos l) =
    Some ((if entre_comillas c then String COMILLA (valor c +:+ String COMILLA "") else valor c) +:+ r) /\ tras_campo r.
Proof.
  intros Hne Hn Hl. induction Hl as [|d l Hd Hl IH]; [done|]. cbn [primer_campo texto_campos].
  set (r := match l with [] => "" | _ => _ end). assert (tras_campo r) as Hr
    by (unfold r; destruct l; [by left|right; by eexists]).
  destruct (String.eqb_spec (nombre d) n) as [<-|Hx].
  - intros [= ->]. exists r. split; [|done]. unfold texto_campo. rewrite !app_assoc_s.
    set (x := (if entre_comillas c then _ else _) +:+ r).
    assert (quitar_prefijo (nombre c +:+ "=") (nombre c +:+ "=" +:+ x) = Some x) as E
      by (apply quitar_prefijo_spec; by rewrite app_assoc_s).
    destruct (nombre c) as [|a m]; [done|]. rewrite app_cons_s. cbn [buscar_campo]. rewrite (app_cons_s a m) in E |- *. rewrite app_cons_s in E. by rewrite E.
  - intros Hp. destruct l as [|d' l]; [done|]. rewrite buscar_salta.
    + unfold r. rewrite buscar_coma by done. by apply IH.
    + unfold texto_campo. by destruct (nombre d).
    + by apply no_separa_campo.
    + unfold texto_campo. rewrite !app_assoc_s. apply quitar_distinto; [done|apply Hd|done].
Qed.

(** The loop copies the value and stops after it. *)
Lemma copiar_valor fin ch ch1 room v r : todos (fun c => negb (Ascii.eqb c ch || Ascii.eqb c ch1)) v = true ->
  todos (fun c => negb (Ascii.eqb c BARRA)) v = true -> (String.length v <= room)%nat ->
  match r with "" => true | String c _ => Ascii.eqb c ch || Ascii.eqb c ch1 end = true ->
  copiar fin ch ch1 room (v +:+ r) = (v, r).
Proof.
  revert room. induction v as [|c v IH]; intros room Hv Hb Hl Hr.
  - rewrite app_nil_l_s. destruct r as [|c r]; [done|]. cbn [copiar]. by rewrite Hr.
  - cbn [todos String.length] in *. partir. destruct room as [|room]; [lia|]. rewrite app_cons_s. cbn [copiar].
    match goal with H : Ascii.eqb c ch = false |- _ => rewrite H end.
    match goal with H : Ascii.eqb c ch1 = false |- _ => rewrite H end.
    match goal with H : Ascii.eqb c BARRA = false |- _ => rewrite H end.
    rewrite andb_false_r. cbn [orb andb]. rewrite IH; [done|done|done|lia|done].
Qed.

Lemma termina_no v r n c : todos (fun d => negb (Ascii.eqb d c)) v = true -> (n <= String.length v)%nat ->
  termina (v +:+ r) n c = false.
Proof.
  intros Hv Hn. destruct n as [|n]; [done|]. unfold termina. revert n Hn.
  induction v as [|d v IH]; intros n Hn; cbn [String.length] in Hn; [lia|]. cbn [todos] in Hv. partir.
  rewrite app_cons_s. destruct n as [|n]; [cbn [saltear leer_char]; done|]. cbn [saltear]. apply IH; [done|lia].
Qed.

Lemma campo_leido n hdr size c r : buscar_campo n true hdr =
    Some ((if entre_comillas c then String COMILLA (valor c +:+ String COMILLA "") else valor c) +:+ r) ->
  tras_campo r -> todos de_valor (valor c) = true -> valor c <> "" -> (String.length (valor c) < size)%nat ->
  campo hdr n size = Some (valor c).
Proof.
  intros E Hr Hv Hne Hs. unfold campo, mg_parse_header, parse_header. rewrite E. clear E.
  assert (forall ch, de_valor ch = false -> todos (fun d => negb (Ascii.eqb d ch)) (valor c) = true) as K.
  { intros ch Hch. eapply todos_impl; [|exact Hv]. intros d Hd. destruct (Ascii.eqb_spec d ch); [congruence|done]. }
  assert (forall ch ch1, de_valor ch = false -> de_valor ch1 = false ->
    todos (fun d => negb (Ascii.eqb d ch || Ascii.eqb d ch1)) (valor c) = true) as K2.
  { intros ch ch1 H1 H2. eapply todos_impl; [|exact Hv]. intros d Hd.
    destruct (Ascii.eqb_spec d ch), (Ascii.eqb_spec d ch1); congruence || done. }
  destruct c as [m q v]; cbn [entre_comillas valor] in *.
  assert (forall s, termina (v +:+ s) (String.length v) "," = false /\ termina (v +:+ s) (String.length v) ";" = false) as Kt
    by (intros; split; apply termina_no; auto).
  destruct q.
  - rewrite app_cons_s, app_assoc_s. cbn [Ascii.eqb orb].
    change (Ascii.eqb COMILLA COMILLA || Ascii.eqb COMILLA APOSTROFO) with true. cbv iota.
    rewrite (app_cons_s COMILLA ""), app_nil_l_s, copiar_valor; [|by apply K2|by apply K|lia|done]. cbn [leer_char].
    replace (size <=? String.length v)%nat with false by (symmetry; apply Nat.leb_gt; lia).
    rewrite Ascii.eqb_refl. cbn [negb andb orb]. rewrite andb_false_r.
    destruct (Kt (String COMILLA r)) as [-> ->]. destruct (String.length v) eqn:Ev; [by destruct v|].
    rewrite <- Ev. by rewrite prefijo_todo.
  - destruct v as [|a v]; [done|]. rewrite app_cons_s.
    assert (Ascii.eqb a COMILLA || Ascii.eqb a APOSTROFO = false) as ->.
    { cbn [todos] in Hv. apply andb_prop in Hv as [Ha _]. revert Ha. clear.
      destruct a as [[][][][][][][][]]; vm_compute; done. }
    cbv iota. rewrite <- app_cons_s.
    rewrite copiar_valor; [|by apply K2|by apply K|lia|by destruct Hr as [->|[r' ->]]].
    replace (size <=? String.length (String a v))%nat with false by (symmetry; apply Nat.leb_gt; lia).
    cbn [orb negb andb Ascii.eqb]. destruct (Kt r) as [-> ->]. cbn [String.length]. by rewrite prefijo_todo by done.
Qed.

(** ** The passwords file *)

Record Entrada : Type := mkEntrada { f_user : string; f_domain : string; ha1 : string }.
Definition linea (e : Entrada) : string :=
  f_user e +:+ ":" +:+ f_domain e +:+ ":" +:+ ha1 e +:+ String NL "".
Definition archivo (l : list Entrada) : string := unir (map linea l).

Definition de_nombre (c : ascii) : bool := negb (Ascii.eqb c ":" || Ascii.eqb c NL || Ascii.eqb c NUL).
Definition de_clave (c : ascii) : bool := negb (isspace c || Ascii.eqb c NUL).
Definition entrada_ok (e : Entrada) : Prop :=
  f_user e <> "" /\ todos de_nombre (f_user e) = true /\ f_domain e <> "" /\ todos de_nombre (f_domain e) = true /\
  ha1 e <> "" /\ todos de_clave (ha1 e) = true /\ (String.length (linea e) <= 255)%nat.

Fixpoint primera_entrada (dominio user : string) (l : list Entrada) : option string :=
  match l with
  | [] => None
  | e :: l => if String.eqb user (f_user e) && String.eqb dominio (f_domain e) then Some (ha1 e)
              else primera_entrada dominio user l
  end.

Lemma fgets_linea n t r : todos (fun c => negb (Ascii.eqb c NL)) t = true -> (String.length t < n)%nat ->
  fgets n (t +:+ String NL r) = (t +:+ String NL "", r).
Proof.
  revert n. induction t as [|c t IH]; intros [|n] Ht Hn; cbn [String.length] in Hn; try lia.
  - rewrite !app_nil_l_s. done.
  - cbn [todos] in Ht. partir. rewrite !app_cons_s. cbn [fgets]. rewrite H. rewrite IH; [done|done|lia].
Qed.

Lemma sin_nl (p : ascii -> bool) s : (forall c, p c = true -> Ascii.eqb c NL = false) -> todos p s = true ->
  todos (fun c => negb (Ascii.eqb c NL)) s = true.
Proof. intros Hp. apply todos_impl. intros c Hc. by rewrite Hp. Qed.

Lemma nombre_sin_nl c : de_nombre c = true -> Ascii.eqb c NL = false.
Proof. unfold de_nombre. intros H. partir. done. Qed.

Lemma clave_sin_nl c : de_clave c = true -> Ascii.eqb c NL = false.
Proof. destruct c as [[][][][][][][][]]; vm_compute; done. Qed.

Lemma lineas_archivo l fuel : Forall entrada_ok l -> (String.length (archivo l) < fuel)%nat ->
  lineas fuel (archivo l) = map linea l.
Proof.
  intros Hl. revert fuel. induction Hl as [|e l He Hl IH]; intros [|fuel] Hf; try lia; [done|].
  destruct He as (Hu & Hu' & Hd & Hd' & Hh & Hh' & Hlen). unfold archivo in *. cbn [map unir] in *.
  set (t := f_user e +:+ ":" +:+ f_domain e +:+ ":" +:+ ha1 e).
  assert (linea e = t +:+ String NL "") as El by (unfold t, linea; by rewrite !app_assoc_s).
  assert (todos (fun c => negb (Ascii.eqb c NL)) t = true) as Ht.
  { unfold t. rewrite !todos_app. rewrite (sin_nl de_nombre (f_user e)), (sin_nl de_nombre (f_domain e)),
      (sin_nl de_clave (ha1 e)); auto using nombre_sin_nl, clave_sin_nl. }
  cbn [lineas]. rewrite length_app_s in Hf. rewrite El in Hf, Hlen |- *. rewrite app_assoc_s.
  rewrite (app_cons_s NL ""), app_nil_l_s. rewrite length_app_s in Hf, Hlen. cbn [String.length] in Hf, Hlen.
  rewrite (fgets_linea 255) by (done || lia).
  destruct (t +:+ String NL (unir (map linea l))) eqn:E; [by destruct t|]. f_equal. apply IH. lia.
Qed.

Lemma leer_linea_ok e : entrada_ok e -> leer_linea (linea e) = Some (f_user e, f_domain e, ha1 e).
Proof.
  intros (Hu & Hu' & Hd & Hd' & Hh & Hh' & _). unfold leer_linea.
  assert (forall s, todos de_nombre s = true -> todos (fun c => negb (Ascii.eqb c ":")) s = true) as K1
    by (intros s; apply todos_impl; intros c Hc; unfold de_nombre in Hc; partir; by rewrite H).
  assert (forall s, todos de_nombre s = true -> contiene NUL s = false) as K2.
  { intros s Hs. by apply (todos_no_contiene de_nombre). }
  assert (contiene NUL (ha1 e) = false) as K3 by (by apply (todos_no_contiene de_clave)).
  assert (todos (fun c => negb (isspace c)) (ha1 e) = true) as K4.
  { eapply todos_impl; [|exact Hh']. intros c Hc. unfold de_clave in Hc. partir. by rewrite H. }
  rewrite c_str_id by (unfold linea; rewrite !contiene_app, (K2 (f_user e)), (K2 (f_domain e)), K3 by done; done).
  unfold linea. rewrite (abarcar_exacto _ (f_user e)); [|by apply K1|done].
  destruct (f_user e) as [|a u]; [done|]. rewrite !(app_cons_s ":" ""), !app_nil_l_s. rewrite (abarcar_exacto _ (f_domain e)); [|by apply K1|done].
  destruct (f_domain e) as [|b d]; [done|].
  assert (forall r, snd (abarcar isspace (ha1 e +:+ r)) = ha1 e +:+ r) as ->.
  { intros r. destruct (ha1 e) as [|h t]; [done|]. rewrite app_cons_s. cbn [abarcar]. cbn [todos] in K4. partir.
    by rewrite H. }
  rewrite (abarcar_exacto _ (ha1 e)) by done. by destruct (ha1 e).
Qed.

Lemma buscar_archivo dominio user l : Forall entrada_ok l ->
  buscar_usuario dominio user (lineas (S (String.length (archivo l))) (archivo l)) = primera_entrada dominio user l.
Proof.
  intros Hl. rewrite lineas_archivo by (done || lia). induction Hl as [|e l He Hl IH]; [done|].
  cbn [map buscar_usuario primera_entrada]. rewrite leer_linea_ok by done. by rewrite IH.
Qed.

(** ** The answer of the client *)

(** What RFC 2617 puts in the [Authorization] header. *)
Record Digest : Type := mkDigest {
  usuario : string; realm : string; nonce : string; uri : string; qop : string; nc : string;
  cnonce : string; response : string }.

Definition campos (d : Digest) : list Campo :=
  [mkCampo "username" true (usuario d); mkCampo "realm" true (realm d); mkCampo "nonce" true (nonce d);
   mkCampo "uri" true (uri d); mkCampo "qop" false (qop d); mkCampo "nc" false (nc d);
   mkCampo "cnonce" true (cnonce d); mkCampo "response" true (response d)].
Definition cabecera (d : Digest) : string := "Digest " +:+ texto_campos (campos d).

(** Values that fit in their buffers. *)
Definition digest_ok (d : Digest) : Prop :=
  Forall (fun c => todos de_valor (valor c) = true /\ valor c <> "" /\
                   (String.length (valor c) < if String.eqb (nombre c) "uri" then MAX_REQUEST_SIZE else 100)%nat)
    (campos d).

(** [request-digest] of RFC 2617, over RFC 1321. *)
Definition H (s : string) : string := hex_bytes (Rfc.md5 (bytes_of s)).
Definition respuesta (ha1 method : string) (d : Digest) : string :=
  H (ha1 +:+ ":" +:+ nonce d +:+ ":" +:+ nc d +:+ ":" +:+ cnonce d +:+ ":" +:+ qop d +:+ ":" +:+
     H (method +:+ ":" +:+ uri d)).

Lemma campo_cabecera d n c size : digest_ok d -> n <> "" -> todos llano n = true ->
  (forall r, quitar_prefijo (n +:+ "=") ("Digest" +:+ r) = None) ->
  primer_campo n (campos d) = Some c -> (if String.eqb n "uri" then MAX_REQUEST_SIZE else 100)%nat = size ->
  campo (cabecera d) n size = Some (valor c).
Proof.
  intros Hd Hne Hn Hq Hp <-. unfold digest_ok in Hd.
  assert (Forall campo_ok (campos d)) as Hc.
  { eapply Forall_impl; [|intros x Hx; exact Hx]. apply Forall_forall. intros x Hx.
    rewrite Forall_forall in Hd. split; [|by apply Hd].
    unfold campos in Hx. repeat (apply elem_of_cons in Hx as [->|Hx]; [done|]). by apply elem_of_nil in Hx. }
  destruct (buscar_campos n (campos d) c Hne Hn Hc Hp) as (r & Hb & Hr).
  assert (nombre c = n /\ In c (campos d)) as [Hnc Hin].
  { clear -Hp. induction (campos d) as [|x l IH]; [done|]. cbn [primer_campo] in Hp.
    destruct (String.eqb_spec (nombre x) n); [injection Hp as ->; split; [done|by left]|].
    destruct (IH Hp). split; [done|by right]. }
  rewrite Forall_forall in Hd. destruct (Hd c (proj2 (list_elem_of_In _ _) Hin)) as (Hv & Hve & Hlen).
  rewrite Hnc in Hlen. eapply campo_leido; [|exact Hr|done|done|done].
  unfold cabecera. change ("Digest " +:+ ?t) with ("Digest" +:+ String " " t).
  rewrite buscar_salta; [|done|done|apply Hq]. cbn [buscar_campo Ascii.eqb orb]. exact Hb.
Qed.

Lemma tolower_hex s : todos Md5Correcto.es_hex s = true -> mapa tolower s = s.
Proof.
  induction s as [|c s IH]; [done|]. cbn [todos mapa]. intros Hs. partir. rewrite IH by done. f_equal.
  revert H0. clear. destruct c as [[][][][][][][][]]; vm_compute; done.
Qed.
Lemma H_hex s : todos Md5Correcto.es_hex (H s) = true /\ contiene NUL (H s) = false /\ (String.length (H s) = 32)%nat.
Proof.
  unfold H. destruct (Md5Correcto.hex_bytes_forma (Rfc.md5 (bytes_of s))) as [H1 H2].
  - apply Md5Correcto.rfc_bytes.
  - split_and!; [done|by apply (todos_no_contiene Md5Correcto.es_hex)|]. by rewrite H2, (proj2 (Md5Correcto.rfc_bytes _)).
Qed.

(** What [mg_md5] needs of a text. *)
Definition corto (s : string) : Prop := contiene NUL s = false /\ Z.of_nat (String.length s) < 2 ^ 32.

Lemma valor_corto s n : todos de_valor s = true -> (String.length s < n)%nat -> Z.of_nat n < 2 ^ 32 -> corto s.
Proof. intros Hs Hl Hn. split; [by apply (todos_no_contiene de_valor)|lia]. Qed.

#[local] Strategy 1000 [Rfc.md5 MgMd5.mg_md5 H].

Lemma check_password_ok be basura ha1 method d : length (MgMd5.in_ basura) = 64%nat -> digest_ok d ->
  corto method -> corto ha1 ->
  check_password be basura method ha1 (uri d) (nonce d) (nc d) (cnonce d) (qop d) (response d) = true <->
  mapa tolower (response d) = respuesta ha1 method d.
Proof.
  intros Hb Hd Hm Ha. unfold digest_ok, campos in Hd.
  repeat match goal with K : Forall _ (_ :: _) |- _ => apply Forall_cons in K as [(? & ? & ?) ?] end.
  cbn [valor nombre] in *.
  repeat match goal with K : (_ < (if _ then _ else _))%nat |- _ => cbn [String.eqb Ascii.eqb Bool.eqb] in K end.
  assert (Z.of_nat MAX_REQUEST_SIZE < 2 ^ 32) as HM by (unfold MAX_REQUEST_SIZE; rewrite Z2Nat.id; lia).
  assert (forall l, Forall corto l -> MgMd5.mg_md5 be basura l = H (unir l)) as E
    by (intros l Hl; by apply MgMd5Correcto.mg_md5_es).
  assert (corto ":") as Hc by (split; reflexivity).
  assert (corto (uri d) /\ corto (nonce d) /\ corto (nc d) /\ corto (cnonce d) /\ corto (qop d)) as (?&?&?&?&?)
    by (split_and!; eapply valor_corto; eassumption || lia).
  unfold check_password. rewrite (E [method; ":"; uri d]) by (repeat (apply Forall_cons; split; [assumption|]); apply List.Forall_nil).
  set (ha2 := H (unir _)). assert (corto ha2) as Hha2.
  { destruct (H_hex (unir [method; ":"; uri d])) as (_ & ? & Hl). split; [done|]. unfold ha2. rewrite Hl. lia. }
  rewrite E by (repeat (apply Forall_cons; split; [assumption|]); apply List.Forall_nil).
  unfold mg_strcasecmp_0. rewrite c_str_id by (by apply (todos_no_contiene de_valor)).
  rewrite c_str_id by apply H_hex. rewrite (tolower_hex (H _)) by apply H_hex.
  rewrite String.eqb_eq. unfold respuesta. replace ha2 with (H (method +:+ ":" +:+ uri d)).
  - cbn [unir]. by rewrite app_nil_r_s.
  - unfold ha2. cbn [unir]. by rewrite app_nil_r_s.
Qed.

(** C29. Digest authorisation follows RFC 2617: with the passwords of a file of well-formed
    lines, a request whose [Authorization] header has the fields of the RFC is let in
    exactly when the file has the user in the domain and the answer of the client is, up to
    case, the digest of RFC 2617 for the first such line, computed with RFC 1321; the nonce
    may be any, old or never issued. *)
Theorem digest_rfc2617 be basura dominio method headers d entradas :
  length (MgMd5.in_ basura) = 64%nat -> digest_ok d -> corto method -> Forall entrada_ok entradas ->
  mg_get_header headers "Authorization" = Some (cabecera d) ->
  mg_authorize_digest be basura dominio method headers (archivo entradas) = true <->
  exists ha1, primera_entrada dominio (usuario d) entradas = Some ha1 /\
    mapa tolower (response d) = respuesta ha1 method d.
Proof.
  intros Hb Hd Hm He Hh. unfold mg_authorize_digest. rewrite Hh.
  change (mg_strncasecmp_0 "Digest " (cabecera d)) with true. cbn [negb].
  rewrite (campo_cabecera d "username" (mkCampo "username" true (usuario d))),
    (campo_cabecera d "cnonce" (mkCampo "cnonce" true (cnonce d))),
    (campo_cabecera d "response" (mkCampo "response" true (response d))),
    (campo_cabecera d "uri" (mkCampo "uri" true (uri d))),
    (campo_cabecera d "qop" (mkCampo "qop" false (qop d))),
    (campo_cabecera d "nc" (mkCampo "nc" false (nc d))),
    (campo_cabecera d "nonce" (mkCampo "nonce" true (nonce d))) by done.
  cbn [valor]. rewrite buscar_archivo by done.
  destruct (primera_entrada dominio (usuario d) entradas) as [ha1|] eqn:Ep.
  - assert (corto ha1) as Ha.
    { clear -He Ep. induction He as [|e l (_ & _ & _ & _ & _ & Hc & Hl) _ IH]; [done|]. cbn [primera_entrada] in Ep.
      destruct (_ && _); [|by apply IH]. injection Ep as <-. split; [by apply (todos_no_contiene de_clave)|].
      unfold linea in Hl. rewrite !length_app_s in Hl. lia. }
    rewrite check_password_ok by done. split; [intros; by exists ha1|by intros (? & [= <-] & ?)].
  - split; [done|]. by intros (? & ? & _).
Qed.

(** The request of a user that knows the password [secreta]. *)
Definition ejemplo_entradas : list Entrada :=
  [mkEntrada "ana" "otro" "x"; mkEntrada "ana" "sitio" (H "ana:sitio:secreta")].
Definition ejemplo_digest : Digest :=
  let d := mkDigest "ana" "sitio" "1428000000" "/privado" "auth" "00000001" "abc" in
  d (respuesta (H "ana:sitio:secreta") "GET" (d "")).

Lemma digest_rfc2617_witness :
  mg_authorize_digest false MgMd5.pila_cero "sitio" "GET" [("Authorization", cabecera ejemplo_digest)]
    (archivo ejemplo_entradas) = true.
Proof.
  apply (digest_rfc2617 false MgMd5.pila_cero "sitio" "GET" [("Authorization", cabecera ejemplo_digest)]
    ejemplo_digest ejemplo_entradas).
  - reflexivity.
  - repeat (apply Forall_cons; split; [split_and!; [vm_compute; reflexivity|apply String.eqb_neq; vm_compute; reflexivity|
      apply Nat.ltb_lt; vm_compute; reflexivity]|]).
    apply List.Forall_nil.
  - split; reflexivity.
  - repeat (apply Forall_cons; split; [repeat split; lazymatch goal with
      | |- _ <> _ => apply String.eqb_neq | |- (_ <= _)%nat => apply Nat.leb_le | |- _ => idtac end; vm_compute; reflexivity|]).
    apply List.Forall_nil.
  - reflexivity.
  - exists (H "ana:sitio:secreta"). split; vm_compute; reflexivity.
Defined.

End AutorizacionOk.
