(* ===== verification/Multipart.v ===== *)
(** * Multipart: [mg_parse_multipart] of src/WebServer/mongoose.c

    The parser of the parts of a form sent as [multipart/form-data]: one call reads the part at
    the beginning of the buffer.  Reading past the buffer is an undefined behaviour. *)

From S2P Require Import Prelude Bloques Libc Md5 MgMd5 Mongoose Autorizacion.
Open Scope Z_scope.

Module Multipart.
Import Libc Mongoose Autorizacion.

(** [get_line_len], with [len] characters already counted and [buf_len] left to count. *)
Fixpoint line_len (len buf_len : Z) (buf : string) : res Z :=
  match buf with
  | "" => Fallo (Indefinido "get_line_len: read past the buffer")
  | String c r =>
      if (0 <? buf_len) && negb (Ascii.eqb c NL) then line_len (len + 1) (buf_len - 1) r
      else if Ascii.eqb c NL then Ok (len + 1) else Ok (-1)
  end.
Definition get_line_len (buf : string) (buf_len : Z) : res Z := line_len 0 buf_len buf.

Definition cd : string := "Content-Disposition: ".

(** The loop over the headers: [s] is [buf + n] and [resto] is [hl - n]; the contents of
    [var_name] and [file_name], [None] when a buffer is left without terminator. *)
Fixpoint cabeceras (fuel : nat) (s : string) (resto : Z) (var_name_len file_name_len : nat)
    (var_name file_name : option string) : res (option string * option string) :=
  match fuel with
  | O => Fallo SinCombustible
  | S fuel =>
      let? ll := get_line_len s resto in
      if ll <=? 0 then Ok (var_name, file_name)
      else
        let '(var_name, file_name) :=
          if mg_strncasecmp_0 cd s then
            let str_len := Z.to_nat (ll - (largo cd + 2)) in
            let str := saltear (String.length cd) s in
            let fin := leer_char NUL (saltear str_len str) in
            (snd (parse_header fin (prefijo str_len str) "name" var_name_len),
             snd (parse_header fin (prefijo str_len str) "filename" file_name_len))
          else (var_name, file_name) in
        cabeceras fuel (saltear (Z.to_nat ll) s) (resto - ll) var_name_len file_name_len var_name file_name
  end.

(** [memcmp] with the first characters of [s] *)
Definition prefija (f s : string) : bool := match quitar_prefijo f s with Some _ => true | None => false end.

(** The scan of the body for the boundary, the first [bl2] characters of the buffer: its
    position. *)
Fixpoint buscar_frontera (frontera : string) (pos : Z) (s : string) : option Z :=
  match s with
  | "" => None
  | String c r =>
      if largo s <=? largo frontera then None
      else if Ascii.eqb c "-" && prefija frontera s then Some pos
      else buscar_frontera frontera (pos + 1) r
  end.

(** What a successful call answers: how much of the buffer the part takes, the names, and the
    data with its length. *)
Record Parte : Type := mkParte {
  consumido : Z;
  var_name : option string;
  file_name : option string;
  data : string;
  data_len : Z
}.

Definition mg_parse_multipart (buf : string) (var_name_len file_name_len : nat) : res (option Parte) :=
  if String.eqb buf "" then Ok None
  else
    let hl := get_request_len buf in
    if hl <=? 0 then Ok None
    else
      match buf with
      | String a (String b (String c _)) =>
          if negb (Ascii.eqb a "-") || negb (Ascii.eqb b "-") || Ascii.eqb c NL then Ok None
          else
            let? bl := get_line_len buf (largo buf) in
            let? nombres := cabeceras (S (String.length buf)) (saltear (Z.to_nat bl) buf) (hl - bl)
                              var_name_len file_name_len (Some "") (Some "") in
            match buscar_frontera (prefijo (Z.to_nat (bl - 2)) buf) hl (saltear (Z.to_nat hl) buf) with
            | Some pos => Ok (Some (mkParte pos (fst nombres) (snd nombres) (saltear (Z.to_nat hl) buf) (pos - 2 - hl)))
            | None => Ok None
            end
      | _ => Ok None
      end.

End Multipart.

(** ** A form of RFC 2388 *)

Module MultipartOk.
Import Libc Mongoose Autorizacion AutorizacionOk Multipart.

(** A part: the name of its variable, the name of its file, other header lines and its data. *)
Record Campo_form : Type := mkCampo_form { nom : string; arch : option string; otras : list string; dato : string }.

Definition con_CRLF (l : string) : string := l +:+ CRLF.
Definition entrecomillado (v : string) : string := String COMILLA (v +:+ String COMILLA "").
Definition disposicion (p : Campo_form) : string :=
  "form-data; name=" +:+ entrecomillado (nom p) +:+
  match arch p with Some f => "; filename=" +:+ entrecomillado f | None => "" end.
Definition lineas_parte (p : Campo_form) : list string := (cd +:+ disposicion p) :: otras p.
Definition frontera (b : string) : string := "--" +:+ b.
Definition texto_parte (b : string) (p : Campo_form) : string :=
  unir (map con_CRLF (frontera b :: lineas_parte p)) +:+ CRLF +:+ dato p +:+ CRLF.
Definition texto_form (b : string) (ps : list Campo_form) : string :=
  unir (map (texto_parte b) ps) +:+ frontera b +:+ "--" +:+ CRLF.

Definition linea_ok (l : string) : Prop := l <> "" /\ todos isprint l = true.
Definition sin_comillas (c : ascii) : bool := isprint c && negb (Ascii.eqb c COMILLA || Ascii.eqb c BARRA).
Definition no_termina (v : string) : Prop :=
  termina v (String.length v) "," = false /\ termina v (String.length v) ";" = false.
(** The boundary does not begin inside the data or the newline after it. *)
Definition sin_frontera (b d : string) : bool :=
  forallb (fun k => negb (prefija (frontera b) (saltear k (d +:+ CRLF +:+ frontera b)))) (seq 0 (String.length (d +:+ CRLF))).
Definition parte_ok (b : string) (vl fl : nat) (p : Campo_form) : Prop :=
  todos sin_comillas (nom p) = true /\ todos (fun c => negb (separa c)) (nom p) = true /\ no_termina (nom p) /\
  (String.length (nom p) < vl)%nat /\
  (forall f, arch p = Some f -> todos sin_comillas f = true /\ no_termina f /\ (String.length f < fl)%nat) /\
  Forall (fun l => linea_ok l /\ mg_strncasecmp_0 cd (con_CRLF l) = false) (otras p) /\
  sin_frontera b (dato p) = true.

(** *** Lines *)

Lemma isprint_NL c : isprint c = true -> Ascii.eqb c NL = false.
Proof. destruct c as [[][][][][][][][]]; vm_compute; done. Qed.

Lemma request_len_linea i l r : todos isprint l = true ->
  request_len_desde i (l +:+ String CR r) = request_len_desde (i + largo l + 1) r.
Proof.
  revert i. induction l as [|c l IH]; intros i Hl.
  - rewrite app_nil_l_s. change (largo "") with 0. rewrite Z.add_0_r. reflexivity.
  - cbn [todos] in Hl. apply andb_prop in Hl as [Hc Hl]. rewrite app_cons_s. cbn [request_len_desde].
    rewrite Hc, (isprint_NL c Hc). cbn [negb andb]. rewrite IH by done. f_equal. unfold largo. cbn [String.length]. lia.
Qed.

Lemma request_len_sigue i l r : linea_ok l ->
  request_len_desde i (String NL (l +:+ r)) = request_len_desde (i + 1) (l +:+ r).
Proof.
  intros [Hne Hl]. destruct l as [|c l]; [done|]. cbn [todos] in Hl. apply andb_prop in Hl as [Hc _].
  rewrite app_cons_s. set (t := String c (l +:+ r)). cbn [request_len_desde]. unfold t.
  rewrite (isprint_NL c Hc). assert (Ascii.eqb c CR = false) as -> by (clear - Hc; destruct c as [[][][][][][][][]]; vm_compute in *; done).
  by destruct (l +:+ r).
Qed.

(** The lines of a part end at its first empty line. *)
Lemma request_len_bloque l ls i z : Forall linea_ok (l :: ls) ->
  request_len_desde i (unir (map con_CRLF (l :: ls)) +:+ CRLF +:+ z) = i + largo (unir (map con_CRLF (l :: ls))) + 2.
Proof.
  revert l i. induction ls as [|l' ls IH]; intros l i H; apply Forall_cons in H as [Hl H].
  - cbn [map unir]. unfold con_CRLF. rewrite app_nil_r_s, app_assoc_s. change (CRLF +:+ CRLF +:+ z) with (String CR (String NL (String CR (String NL z)))).
    rewrite request_len_linea by apply Hl. rewrite largo_app. change (largo CRLF) with 2. cbn [request_len_desde].
    change (negb (isprint NL) && negb (Ascii.eqb NL CR) && negb (Ascii.eqb NL NL) && (byte NL <? 128)) with false. cbn. lia.
  - set (r := map con_CRLF (l' :: ls)) in *. change (unir (map con_CRLF (l :: l' :: ls))) with (con_CRLF l +:+ unir r).
    change (con_CRLF l) with (l +:+ CRLF). rewrite !app_assoc_s.
    change (CRLF +:+ unir r +:+ CRLF +:+ z) with (String CR (String NL (unir r +:+ CRLF +:+ z))).
    rewrite request_len_linea by apply Hl.
    assert (exists t, unir r +:+ CRLF +:+ z = l' +:+ t) as [t Ht].
    { unfold r. cbn [map unir]. unfold con_CRLF at 1. rewrite !app_assoc_s. by eexists. }
    rewrite Ht, request_len_sigue by (by apply Forall_cons in H as [? _]). rewrite <- Ht. unfold r. rewrite IH by done. fold r.
    rewrite !largo_app. change (largo CRLF) with 2. lia.
Qed.

Lemma line_len_linea l r len k : todos isprint l = true -> largo l + 1 <= k ->
  line_len len k (l +:+ CRLF +:+ r) = Ok (len + largo l + 2).
Proof.
  revert len k. induction l as [|c l IH]; intros len k Hl Hk.
  - rewrite app_nil_l_s. change (largo "") with 0 in *. change (CRLF +:+ r) with (String CR (String NL r)). cbn [line_len].
    rewrite (proj2 (Z.ltb_lt 0 k)) by lia. cbn [Ascii.eqb Bool.eqb negb andb]. rewrite andb_false_r. f_equal. lia.
  - cbn [todos] in Hl. apply andb_prop in Hl as [Hc Hl]. rewrite app_cons_s. cbn [line_len].
    assert (largo (String c l) = largo l + 1) as E by (unfold largo; cbn [String.length]; lia). rewrite E in *.
    pose proof (largo_pos l). rewrite (proj2 (Z.ltb_lt 0 k)), (isprint_NL c Hc) by lia. cbn [negb andb].
    rewrite IH by (done || lia). f_equal. lia.
Qed.

Lemma largo_con l : largo (con_CRLF l) = largo l + 2.
Proof. unfold con_CRLF. by rewrite largo_app. Qed.

(** *** The loop over the headers *)

(** A line is not continued by what follows it. *)
Lemma no_es_cd l r : mg_strncasecmp_0 cd (con_CRLF l) = false -> mg_strncasecmp_0 cd (con_CRLF l +:+ r) = false.
Proof.
  assert (forall p l, todos (fun a => negb (Ascii.eqb (tolower a) CR)) p = true ->
    mg_strncasecmp_0 p (l +:+ CRLF) = false -> mg_strncasecmp_0 p ((l +:+ CRLF) +:+ r) = false) as H; [|by apply H].
  clear l. induction p as [|a p IH]; intros l Hp H; [done|]. cbn [todos] in Hp. apply andb_prop in Hp as [Ha Hp].
  destruct l as [|c l].
  - change (("" +:+ CRLF) +:+ r) with (String CR (String NL r)). cbn [mg_strncasecmp_0].
    change (tolower CR) with CR. by destruct (Ascii.eqb (tolower a) CR).
  - rewrite !app_cons_s in *. cbn [mg_strncasecmp_0] in *. destruct (Ascii.eqb (tolower a) (tolower c)); [|done]. by apply IH.
Qed.

Section Cabeceras.
Context (vl fl : nat).

Lemma cabeceras_otra fuel l r resto v f : todos isprint l = true -> mg_strncasecmp_0 cd (con_CRLF l) = false ->
  largo l + 2 <= resto ->
  cabeceras (S fuel) (con_CRLF l +:+ r) resto vl fl v f = cabeceras fuel r (resto - largo (con_CRLF l)) vl fl v f.
Proof.
  intros Hl Hc Hr. cbn [cabeceras]. unfold get_line_len. unfold con_CRLF at 1. rewrite app_assoc_s, line_len_linea by (done || lia).
  cbn [bindR]. pose proof (largo_pos l). rewrite (proj2 (Z.leb_gt _ 0)), no_es_cd by (done || lia).
  rewrite Z.add_0_l, <- largo_con. unfold largo at 1. rewrite Nat2Z.id, saltear_app. reflexivity.
Qed.

(** Past the header the loop only goes on over the newlines that begin the data. *)
Lemma cabeceras_fin fuel d z resto v f : resto <= 0 -> (String.length d < fuel)%nat ->
  cabeceras fuel (d +:+ CRLF +:+ z) resto vl fl v f = Ok (v, f).
Proof.
  revert d resto. induction fuel as [|fuel IH]; intros d resto Hr Hf; [lia|]. cbn [cabeceras]. unfold get_line_len.
  assert ((0 <? resto) = false) as E0 by (apply Z.ltb_ge; lia).
  destruct d as [|c d].
  - change ("" +:+ CRLF +:+ z) with (String CR (String NL z)). cbn [line_len]. by rewrite E0.
  - rewrite app_cons_s. cbn [line_len]. rewrite E0. cbn [andb]. destruct (Ascii.eqb_spec c NL) as [->|_]; [|done].
    cbn [bindR]. change (0 + 1 <=? 0) with false. cbv iota. change (mg_strncasecmp_0 cd (String NL (d +:+ CRLF +:+ z))) with false.
    cbv iota. change (saltear (Z.to_nat (0 + 1)) (String NL (d +:+ CRLF +:+ z))) with (d +:+ CRLF +:+ z).
    cbn [String.length] in Hf. apply IH; lia.
Qed.

Lemma cabeceras_otras fuel ls d z v f :
  Forall (fun l => linea_ok l /\ mg_strncasecmp_0 cd (con_CRLF l) = false) ls ->
  (length ls + 1 + String.length d < fuel)%nat ->
  cabeceras fuel (unir (map con_CRLF ls) +:+ CRLF +:+ d +:+ CRLF +:+ z) (largo (unir (map con_CRLF ls)) + 2) vl fl v f = Ok (v, f).
Proof.
  intros H. revert fuel. induction H as [|l ls [Hl Hc] _ IH]; intros fuel Hf; destruct fuel as [|fuel]; try (cbn in Hf; lia).
  - cbn [map unir]. rewrite app_nil_l_s. change (CRLF +:+ d +:+ CRLF +:+ z) with (con_CRLF "" +:+ d +:+ CRLF +:+ z).
    rewrite cabeceras_otra by done. apply cabeceras_fin; [done|]. cbn in Hf. lia.
  - cbn [map unir]. rewrite app_assoc_s, largo_app. cbn [length] in Hf.
    pose proof (largo_pos (unir (map con_CRLF ls))). rewrite cabeceras_otra by (apply Hl || done || rewrite largo_con; lia).
    replace (largo (con_CRLF l) + largo (unir (map con_CRLF ls)) + 2 - largo (con_CRLF l))
      with (largo (unir (map con_CRLF ls)) + 2) by lia. apply IH. lia.
Qed.
End Cabeceras.

(** *** The names of a part *)

Lemma termina_prefijo v r c : termina (v +:+ r) (String.length v) c = termina v (String.length v) c.
Proof.
  unfold termina. destruct (String.length v) as [|n] eqn:E; [done|].
  assert (n < String.length v)%nat as Hn by lia. clear E. revert n Hn.
  induction v as [|d v IH]; intros n Hn; cbn [String.length] in Hn; [lia|]. rewrite app_cons_s.
  destruct n as [|n]; [done|]. cbn [saltear]. apply IH. lia.
Qed.

Lemma parse_entrecomillado fin str n v r size : buscar_campo n true str = Some (entrecomillado v +:+ r) ->
  todos sin_comillas v = true -> no_termina v -> (String.length v < size)%nat ->
  snd (parse_header fin str n size) = Some v.
Proof.
  intros E Hv [H1 H2] Hs. unfold parse_header. rewrite E. clear E. unfold entrecomillado. rewrite app_cons_s, app_assoc_s.
  change (Ascii.eqb COMILLA COMILLA || Ascii.eqb COMILLA APOSTROFO) with true. cbv iota.
  rewrite copiar_valor.
  - change (String COMILLA "" +:+ r) with (String COMILLA r). cbn [leer_char].
    rewrite (proj2 (Nat.leb_gt _ _)) by lia. rewrite Ascii.eqb_refl. cbn [orb negb]. rewrite andb_false_r.
    rewrite !termina_prefijo, H1, termina_prefijo, H2. cbn [snd]. by rewrite prefijo_todo.
  - eapply todos_impl; [|exact Hv]. intros c Hc. unfold sin_comillas in Hc. partir. by destruct (Ascii.eqb c COMILLA).
  - eapply todos_impl; [|exact Hv]. intros c Hc. unfold sin_comillas in Hc. partir. by destruct (Ascii.eqb c BARRA).
  - lia.
  - done.
Qed.

Section Nombres.
Context (b : string) (vl fl : nat) (p : Campo_form) (Hp : parte_ok b vl fl p).

(** After the kind of the disposition. *)
Lemma buscar_form n r : quitar_prefijo (n +:+ "=") ("form-data;" +:+ " " +:+ r) = None ->
  buscar_campo n true ("form-data; " +:+ r) = buscar_campo n true r.
Proof.
  intros H. change ("form-data; " +:+ r) with ("form-data;" +:+ " " +:+ r).
  rewrite buscar_salta by done. reflexivity.
Qed.

Lemma nombre_leido fin : snd (parse_header fin (disposicion p) "name" vl) = Some (nom p).
Proof.
  destruct Hp as (H1 & H2 & H3 & H4 & _). unfold disposicion.
  eapply parse_entrecomillado; [|done..]. change ("form-data; name=" +:+ ?x) with ("form-data; " +:+ "name=" +:+ x).
  rewrite buscar_form by done. reflexivity.
Qed.

Lemma archivo_leido fin : snd (parse_header fin (disposicion p) "filename" fl) = Some (default "" (arch p)).
Proof.
  destruct Hp as (H1 & H2 & H3 & H4 & H5 & _). unfold disposicion.
  change ("form-data; name=" +:+ ?x) with ("form-data; " +:+ "name=" +:+ x).
  assert (forall t, buscar_campo "filename" true ("name=" +:+ entrecomillado (nom p) +:+ t) = buscar_campo "filename" false t) as E.
  { intros t. change ("name=" +:+ entrecomillado (nom p) +:+ t) with (("name=" +:+ entrecomillado (nom p)) +:+ t).
    apply buscar_salta; [done| |done]. unfold entrecomillado. rewrite todos_app. cbn [todos]. by rewrite todos_app, H2. }
  destruct (arch p) as [f|]; cbn [default].
  - destruct (H5 f eq_refl) as (G1 & G2 & G3). eapply parse_entrecomillado; [|done..].
    rewrite buscar_form, E by done. rewrite <- (app_nil_r_s (entrecomillado f)) at 1. reflexivity.
  - unfold parse_header. rewrite buscar_form, E by done. reflexivity.
Qed.

Lemma disposicion_print : todos isprint (disposicion p) = true.
Proof.
  assert (forall v, todos sin_comillas v = true -> todos isprint (entrecomillado v) = true) as K.
  { intros v Hv. unfold entrecomillado. cbn [todos]. rewrite todos_app. cbn [todos].
    rewrite (todos_impl sin_comillas isprint); [done| |done]. intros c Hc. unfold sin_comillas in Hc. by partir. }
  destruct Hp as (H1 & H2 & H3 & H4 & H5 & _). unfold disposicion. rewrite !todos_app, K by done.
  destruct (arch p) as [f|]; [|done]. rewrite todos_app, K by (by apply H5). done.
Qed.

Lemma cabeceras_cd fuel r resto v f : largo cd + largo (disposicion p) + 2 <= resto ->
  cabeceras (S fuel) (con_CRLF (cd +:+ disposicion p) +:+ r) resto vl fl v f =
  cabeceras fuel r (resto - largo (con_CRLF (cd +:+ disposicion p))) vl fl (Some (nom p)) (Some (default "" (arch p))).
Proof.
  intros Hr. cbn [cabeceras]. unfold get_line_len. unfold con_CRLF at 1.
  rewrite app_assoc_s, line_len_linea; [|rewrite todos_app, disposicion_print; done|rewrite largo_app; lia].
  cbn [bindR]. pose proof (largo_pos (cd +:+ disposicion p)). rewrite (proj2 (Z.leb_gt _ 0)) by lia.
  assert (con_CRLF (cd +:+ disposicion p) +:+ r = cd +:+ disposicion p +:+ CRLF +:+ r) as Es
    by (unfold con_CRLF; by rewrite !app_assoc_s).
  assert (mg_strncasecmp_0 cd (con_CRLF (cd +:+ disposicion p) +:+ r) = true) as -> by (rewrite Es; reflexivity).
  replace (Z.to_nat (0 + largo (cd +:+ disposicion p) + 2 - (largo cd + 2))) with (String.length (disposicion p))
    by (rewrite largo_app; unfold largo; lia).
  rewrite Es, saltear_app, prefijo_app. rewrite nombre_leido, archivo_leido. rewrite <- Es.
  rewrite Z.add_0_l, <- largo_con. unfold largo at 1. rewrite Nat2Z.id, saltear_app. reflexivity.
Qed.
End Nombres.

(** *** The boundary *)

Lemma sin_frontera_unica b d x y : sin_frontera b d = true ->
  (d +:+ CRLF) +:+ frontera b = x +:+ frontera b +:+ y -> x = d +:+ CRLF.
Proof.
  unfold sin_frontera. rewrite forallb_forall. generalize (frontera b). intros f H E.
  assert (String.length x <= String.length (d +:+ CRLF))%nat as Hl
    by (apply (f_equal String.length) in E; rewrite !length_app_s in E; rewrite length_app_s; lia).
  destruct (decide (String.length x = String.length (d +:+ CRLF))) as [Eq|Ne].
  - destruct (cortes _ _ _ _ E Hl) as (q & Hq & _). rewrite Hq in Eq |- *. rewrite length_app_s in Eq.
    destruct q; [by rewrite app_nil_r_s|cbn in Eq; lia].
  - specialize (H (String.length x)). rewrite <- app_assoc_s, E, saltear_app in H. unfold prefija in H.
    rewrite (proj2 (quitar_prefijo_spec _ _ _) eq_refl) in H. discriminate H. apply in_seq. lia.
Qed.

Lemma buscar_frontera_ok b x resto pos :
  (forall a y, x +:+ frontera b = a +:+ frontera b +:+ y -> a = x) -> resto <> "" ->
  buscar_frontera (frontera b) pos (x +:+ frontera b +:+ resto) = Some (pos + largo x).
Proof.
  intros H Hr. revert pos. induction x as [|c x IH]; intros pos.
  - rewrite app_nil_l_s. change (frontera b +:+ resto) with (String "-" (String "-" (b +:+ resto))). cbn [buscar_frontera].
    change (String "-" (String "-" (b +:+ resto))) with (frontera b +:+ resto).
    assert (0 < largo resto) by (destruct resto; [done|unfold largo; cbn; lia]).
    assert ((largo (frontera b +:+ resto) <=? largo (frontera b)) = false) as ->
      by (apply Z.leb_gt; rewrite (largo_app (frontera b) resto); lia).
    cbn [Ascii.eqb Bool.eqb andb]. unfold prefija.
    rewrite (proj2 (quitar_prefijo_spec _ _ _) eq_refl). change (largo "") with 0. by rewrite Z.add_0_r.
  - rewrite app_cons_s. cbn [buscar_frontera].
    assert (largo (String c (x +:+ frontera b +:+ resto)) = 1 + largo x + largo (frontera b) + largo resto) as El
      by (change (String c ?t) with (String c "" +:+ t); rewrite !largo_app; change (largo (String c "")) with 1; lia).
    pose proof (largo_pos x). pose proof (largo_pos resto). rewrite (proj2 (Z.leb_gt _ _)) by lia.
    assert (prefija (frontera b) (String c (x +:+ frontera b +:+ resto)) = false) as ->.
    { unfold prefija. destruct (quitar_prefijo _ _) as [y|] eqn:E; [|done]. exfalso. apply quitar_prefijo_spec in E.
      rewrite <- app_cons_s, <- app_assoc_s in E. destruct (cortes _ _ _ _ E) as (d & Hd & _).
      { rewrite length_app_s. cbn. lia. }
      specialize (H "" d). rewrite app_nil_l_s in H. specialize (H Hd). done. }
    rewrite andb_false_r, IH.
    + f_equal. unfold largo. cbn [String.length]. lia.
    + intros a y Ha. specialize (H (String c a) y). rewrite !app_cons_s, Ha in H. by injection (H eq_refl).
Qed.

Lemma longitud_lineas ls : (length ls <= String.length (unir (map con_CRLF ls)))%nat.
Proof.
  induction ls as [|l ls IH]; [done|]. cbn [map unir length]. unfold con_CRLF at 1. rewrite !length_app_s.
  change (String.length CRLF) with 2%nat. lia.
Qed.

(** A buffer that begins with the line of the boundary. *)
Lemma multipart_abre b t vl fl : todos isprint b = true ->
  let buf := con_CRLF (frontera b) +:+ t in let hl := get_request_len buf in 0 < hl ->
  mg_parse_multipart buf vl fl =
    let? nombres := cabeceras (S (String.length buf)) t (hl - largo (con_CRLF (frontera b))) vl fl (Some "") (Some "") in
    match buscar_frontera (frontera b) hl (saltear (Z.to_nat hl) buf) with
    | Some pos => Ok (Some (mkParte pos (fst nombres) (snd nombres) (saltear (Z.to_nat hl) buf) (pos - 2 - hl)))
    | None => Ok None
    end.
Proof.
  intros Hb buf hl Hhl. unfold mg_parse_multipart. fold hl. rewrite (proj2 (Z.leb_gt hl 0)) by lia.
  assert (exists c r, buf = String "-" (String "-" (String c r)) /\ Ascii.eqb c NL = false) as (c & r & Ebuf & Hc).
  { unfold buf, con_CRLF, frontera. destruct b as [|c b]; [by eexists CR, _|]. eexists c, _. split; [reflexivity|].
    cbn [todos] in Hb. apply andb_prop in Hb as [Hc _]. by apply isprint_NL. }
  assert (get_line_len buf (largo buf) = Ok (largo (con_CRLF (frontera b)))) as El.
  { unfold get_line_len, buf. unfold con_CRLF at 2. rewrite app_assoc_s, line_len_linea.
    - by rewrite Z.add_0_l, largo_con.
    - unfold frontera. by rewrite todos_app, Hb.
    - rewrite largo_app, largo_con. pose proof (largo_pos t). lia. }
  assert (saltear (Z.to_nat (largo (con_CRLF (frontera b)))) buf = t) as Es
    by (unfold buf, largo; by rewrite Nat2Z.id, saltear_app).
  assert (prefijo (Z.to_nat (largo (con_CRLF (frontera b)) - 2)) buf = frontera b) as Ep.
  { unfold buf. rewrite largo_con, Z.add_simpl_r. unfold largo, con_CRLF. by rewrite Nat2Z.id, app_assoc_s, prefijo_app. }
  clearbody buf. rewrite El. cbn [bindR]. rewrite Es, Ep. subst buf. cbn [String.eqb Ascii.eqb Bool.eqb negb orb]. by rewrite Hc.
Qed.

(** One call reads the part at the beginning of the buffer, whole. *)
Lemma parte_leida b vl fl p resto : todos isprint b = true -> parte_ok b vl fl p -> resto <> "" ->
  exists d, mg_parse_multipart (texto_parte b p +:+ frontera b +:+ resto) vl fl =
    Ok (Some (mkParte (largo (texto_parte b p)) (Some (nom p)) (Some (default "" (arch p))) d (largo (dato p)))) /\
  prefijo (String.length (dato p)) d = dato p.
Proof.
  intros Hb Hp Hr. exists (dato p +:+ CRLF +:+ frontera b +:+ resto). split; [|apply prefijo_app].
  pose proof Hp as (_ & _ & _ & _ & _ & Ho & Hu).
  assert (Forall linea_ok (frontera b :: lineas_parte p)) as Hls.
  { unfold lineas_parte. repeat (apply Forall_cons; split).
    - split; [done|]. unfold frontera. rewrite todos_app. by rewrite Hb.
    - split; [done|]. rewrite todos_app, (disposicion_print b vl fl p Hp). done.
    - eapply Forall_impl; [exact Ho|]. by intros l [? _]. }
  set (cuerpo := dato p +:+ CRLF +:+ frontera b +:+ resto).
  set (otr := unir (map con_CRLF (otras p))). set (disp := con_CRLF (cd +:+ disposicion p)).
  set (fro := con_CRLF (frontera b)).
  assert (texto_parte b p +:+ frontera b +:+ resto = fro +:+ disp +:+ otr +:+ CRLF +:+ cuerpo) as Et
    by (unfold texto_parte, fro, disp, otr, cuerpo; cbn [map unir lineas_parte]; by rewrite !app_assoc_s).
  assert (get_request_len (fro +:+ disp +:+ otr +:+ CRLF +:+ cuerpo) = largo fro + largo disp + largo otr + 2) as Hhl.
  { pose proof (request_len_bloque (frontera b) (lineas_parte p) 0 cuerpo Hls) as E.
    cbn [map unir lineas_parte] in E. fold fro disp otr in E. rewrite !app_assoc_s, !largo_app in E.
    unfold get_request_len. rewrite E. lia. }
  pose proof (multipart_abre b (disp +:+ otr +:+ CRLF +:+ cuerpo) vl fl Hb) as Ea. cbv zeta in Ea. fold fro in Ea.
  pose proof (largo_pos fro). pose proof (largo_pos disp). pose proof (largo_pos otr).
  rewrite Et, Ea, Hhl by (rewrite Hhl; lia). clear Ea.
  replace (largo fro + largo disp + largo otr + 2 - largo fro) with (largo disp + (largo otr + 2)) by lia.
  set (fuel := String.length (fro +:+ _)). assert (length (otras p) + 1 + String.length (dato p) < fuel)%nat as Hfuel.
  { unfold fuel, cuerpo, disp, otr. rewrite !length_app_s. pose proof (longitud_lineas (otras p)). change (String.length CRLF) with 2%nat. lia. }
  unfold disp at 1 2. rewrite (cabeceras_cd b vl fl p Hp) by (fold disp; unfold disp; rewrite largo_con, largo_app; lia).
  fold disp. replace (largo disp + (largo otr + 2) - largo disp) with (largo otr + 2) by lia.
  unfold otr at 1 2, cuerpo at 1. rewrite (cabeceras_otras vl fl) by done. cbn [bindR fst snd].
  replace (saltear _ _) with cuerpo.
  2:{ replace (Z.to_nat _) with (String.length (fro +:+ disp +:+ otr +:+ CRLF))
        by (rewrite !length_app_s; change (String.length CRLF) with 2%nat; unfold largo; lia).
      replace (fro +:+ disp +:+ otr +:+ CRLF +:+ cuerpo) with ((fro +:+ disp +:+ otr +:+ CRLF) +:+ cuerpo) by (by rewrite !app_assoc_s).
      by rewrite saltear_app. }
  unfold cuerpo at 1. rewrite <- (app_assoc_s (dato p) CRLF), buscar_frontera_ok; [|by intros; eapply sin_frontera_unica|done].
  assert (largo (texto_parte b p) = largo fro + largo disp + largo otr + 2 + largo (dato p) + 2) as ->
    by (unfold texto_parte; cbn [map unir lineas_parte]; fold fro disp otr; rewrite !largo_app; change (largo CRLF) with 2; lia).
  rewrite largo_app. change (largo CRLF) with 2. do 3 f_equal; lia.
Qed.

(** The loop of a handler: a call per part, each after what the last one took. *)
Fixpoint leer_partes (fuel : nat) (buf : string) (vl fl : nat) : res (list (option string * option string * string)) :=
  match fuel with
  | O => Fallo SinCombustible
  | S fuel =>
      let? r := mg_parse_multipart buf vl fl in
      match r with
      | None => Ok []
      | Some p =>
          let? l := leer_partes fuel (saltear (Z.to_nat (consumido p)) buf) vl fl in
          Ok ((var_name p, file_name p, prefijo (Z.to_nat (data_len p)) (data p)) :: l)
      end
  end.

Lemma texto_form_frontera b ps : exists resto, texto_form b ps = frontera b +:+ resto /\ resto <> "".
Proof.
  destruct ps as [|p ps]; [by eexists|]. unfold texto_form. cbn [map unir]. unfold texto_parte. cbn [map unir].
  unfold con_CRLF at 1. rewrite !app_assoc_s. by eexists.
Qed.

Lemma fin_form b vl fl : todos isprint b = true -> mg_parse_multipart (texto_form b []) vl fl = Ok None.
Proof.
  intros Hb. unfold texto_form. cbn [map unir]. rewrite app_nil_l_s. unfold mg_parse_multipart, get_request_len.
  replace (frontera b +:+ "--" +:+ CRLF) with ((frontera b +:+ "--") +:+ String CR (String NL "")) by (by rewrite app_assoc_s).
  rewrite request_len_linea; [reflexivity|]. unfold frontera. by rewrite !todos_app, Hb.
Qed.

(** C30. A form sent as [multipart/form-data] with a printable boundary is read back: calling
    [mg_parse_multipart] as its interface asks gives, part by part and in order, the name of
    the variable, the name of the file (or none) and exactly the data, whatever bytes it has,
    and then says that there are no more parts; for names that are printable, have no quotes
    or backslashes, do not end in a comma or a semicolon and fit their buffers, a name of the
    variable without blanks or commas either, other headers that are printable lines of
    another kind, and data in which the boundary does not occur. *)
Theorem multipart_roundtrip b vl fl ps : todos isprint b = true -> Forall (parte_ok b vl fl) ps ->
  leer_partes (S (length ps)) (texto_form b ps) vl fl =
  Ok (map (fun p => (Some (nom p), Some (default "" (arch p)), dato p)) ps).
Proof.
  intros Hb Hps. induction Hps as [|p ps Hp Hps IH]; cbn [length leer_partes map].
  - by rewrite fin_form.
  - change (texto_form b (p :: ps)) with ((texto_parte b p +:+ unir (map (texto_parte b) ps)) +:+ frontera b +:+ "--" +:+ CRLF).
    rewrite app_assoc_s. fold (texto_form b ps). destruct (texto_form_frontera b ps) as (resto & E & Hr).
    destruct (parte_leida b vl fl p resto Hb Hp Hr) as (d & Hd & Ed). rewrite E, Hd, <- E. cbn [bindR consumido var_name file_name data data_len].
    unfold largo. rewrite !Nat2Z.id, saltear_app.
    cbn [leer_partes] in IH. rewrite IH, Ed. reflexivity.
Qed.

Lemma multipart_roundtrip_witness :
  let foto := mkCampo_form "foto" (Some "a, b.png") ["Content-Type: image/png"] (String NL (String NUL "--xy")) in
  let nota := mkCampo_form "nota" None [] "" in
  leer_partes 3 (texto_form "xyz" [foto; nota]) 100 100 =
  Ok [(Some "foto", Some "a, b.png", String NL (String NUL "--xy")); (Some "nota", Some "", "")].
Proof.
  apply (multipart_roundtrip "xyz" 100 100
    [mkCampo_form "foto" (Some "a, b.png") ["Content-Type: image/png"] (String NL (String NUL "--xy"));
     mkCampo_form "nota" None [] ""]); [reflexivity|].
  repeat (apply Forall_cons; split); [..|apply List.Forall_nil]; (split_and!;
    [reflexivity|reflexivity|split; reflexivity|cbn; lia| | |vm_compute; reflexivity]).
  - intros f [= <-]. split_and!; [reflexivity|split; reflexivity|cbn; lia].
  - apply Forall_cons. split; [|apply List.Forall_nil]. split; [split; [discriminate|reflexivity]|reflexivity].
  - intros f [=].
  - apply List.Forall_nil.
Defined.
End MultipartOk.
