(* ===== verification/Fechas.v ===== *)
(** * Fechas: the dates of HTTP headers in src/WebServer/mongoose.c

    [gmt_time_string] prints the time of a file and [parse_date_string] reads the date that a
    client sends back.  Times are counted in seconds since 1970; [int] arithmetic that
    overflows is undefined. *)

From S2P Require Import Prelude Libc Escaneo Mongoose.
Open Scope Z_scope.

Module Fechas.
Import Libc Escaneo Mongoose.

(** ** Printing: [gmtime] and [strftime] *)

Definition bisiesto (y : Z) : bool := (y mod 4 =? 0) && (negb (y mod 100 =? 0) || (y mod 400 =? 0)).
Definition largo_anio (y : Z) : Z := if bisiesto y then 366 else 365.
Definition largo_meses (y : Z) : list Z := [31; if bisiesto y then 29 else 28; 31; 30; 31; 30; 31; 31; 30; 31; 30; 31].

(** The year of the day [d] counted from the beginning of [y], and the day in it. *)
Fixpoint anio (fuel : nat) (y d : Z) : Z * Z :=
  match fuel with
  | O => (y, d)
  | S fuel => if d <? largo_anio y then (y, d) else anio fuel (y + 1) (d - largo_anio y)
  end.
Fixpoint mes (largos : list Z) (m d : Z) : Z * Z :=
  match largos with
  | [] => (m, d)
  | l :: largos => if d <? l then (m, d) else mes largos (m + 1) (d - l)
  end.

(** [gmtime] of a time from 1970 on. *)
Definition gmtime (t : Z) : tm :=
  let days := t / 86400 in
  let s := t mod 86400 in
  let '(y, d) := anio (Z.to_nat (days / 365 + 1)) 1970 days in
  let '(m, d) := mes (largo_meses y) 0 d in
  mkTm (s mod 60) (s / 60 mod 60) (s / 3600) (d + 1) m (y - 1900) ((days + 4) mod 7).

(** [strftime(buf, buf_len, "%a, %d %b %Y %H:%M:%S GMT", t)] into a buffer that holds it. *)
Definition strftime_gmt (t : tm) : string :=
  nth (Z.to_nat (tm_wday t)) dias "???" +:+ ", " +:+ a_dos (tm_mday t) +:+ " " +:+
  nth (Z.to_nat (tm_mon t)) meses "???" +:+ " " +:+ decimal (1900 + tm_year t) +:+ " " +:+
  a_dos (tm_hour t) +:+ ":" +:+ a_dos (tm_min t) +:+ ":" +:+ a_dos (tm_sec t) +:+ " GMT".

Definition gmt_time_string (t : Z) : string := strftime_gmt (gmtime t).

(** ** Reading *)

Fixpoint indice_mes (i : Z) (names : list string) (s : string) : Z :=
  match names with
  | [] => -1
  | n :: names => if String.eqb s n then i else indice_mes (i + 1) names s
  end.
Definition get_month_index (s : string) : Z := indice_mes 0 meses s.

Definition num_leap_years (year : Z) : Z := Z.quot year 4 - Z.quot year 100 + Z.quot year 400.

Definition days_before_month : list Z := [0; 31; 59; 90; 120; 151; 181; 212; 243; 273; 304; 334].

(** The formats, in the order they are tried. *)
Definition hora : list directiva := [Entero true; Letra ":"; Entero true; Letra ":"; Entero true].
Definition formatos : list (list directiva) :=
  [[Entero true; Letra "/"; Palabra 3 true; Letra "/"; Entero true; Blanco] ++ hora;
   [Entero true; Blanco; Palabra 3 true; Blanco; Entero true; Blanco] ++ hora;
   [Palabra 3 false; Letra ","; Blanco; Entero true; Blanco; Palabra 3 true; Blanco; Entero true; Blanco] ++ hora;
   [Entero true; Letra "-"; Palabra 3 true; Letra "-"; Entero true; Blanco] ++ hora].

Fixpoint probar (fmts : list (list directiva)) (datetime : string) : res (option (list dato)) :=
  match fmts with
  | [] => Ok None
  | f :: fmts =>
      let? o := sscanf f datetime in
      match o with Some (l, _) => Ok (Some l) | None => probar fmts datetime end
  end.

(** The result of an [int] operation. *)
Definition entero (z : Z) : res Z :=
  if (- 2 ^ 31 <=? z) && (z <? 2 ^ 31) then Ok z else Fallo (Indefinido "int overflow").

Definition parse_date_string (datetime : string) : res Z :=
  let? o := probar formatos datetime in
  match o with
  | Some [DZ day; DS month_str; DZ year; DZ hour; DZ minute; DZ second] =>
      let month := get_month_index month_str in
      if (1970 <? year) && negb (month =? -1) then
        let leap_days := num_leap_years year - num_leap_years 1970 in
        let year := year - 1970 in
        let? a := entero (year * 365) in
        let? a := entero (a + nth (Z.to_nat month) days_before_month 0) in
        let? d := entero (day - 1) in
        let? a := entero (a + d) in
        let? days := entero (a + leap_days) in
        let? a := entero (days * 24) in
        let? a := entero (a * 3600) in
        let? h := entero (hour * 3600) in
        let? a := entero (a + h) in
        let? m := entero (minute * 60) in
        let? a := entero (a + m) in
        entero (a + second)
      else Ok 0
  | _ => Ok 0
  end.

(** ** Conditional requests *)

(** The text of [%lx]. *)
Fixpoint hexa (fuel : nat) (n : Z) (acc : string) : string :=
  match fuel with
  | O => acc
  | S fuel => let acc := String (hex_min (n mod 16)) acc in if n / 16 =? 0 then acc else hexa fuel (n / 16) acc
  end.
Definition fmt_lx (n : Z) : string := hexa 16 (n mod 2 ^ 64) "".

(** What [stat] says of a file. *)
Record file_stat_t : Type := mkStat { st_mtime : Z; st_size : Z }.

Definition construct_etag (buf_len : nat) (st : file_stat_t) : string :=
  mg_snprintf buf_len (String "034" (fmt_lx (st_mtime st) +:+ "." +:+ decimal (st_size st) +:+ String "034" "")).

Definition is_not_modified (headers : list (string * string)) (stp : file_stat_t) : res bool :=
  let etag := construct_etag 64 stp in
  if match mg_get_header headers "If-None-Match" with Some inm => mg_strcasecmp_0 etag inm | None => false end
  then Ok true
  else
    match mg_get_header headers "If-Modified-Since" with
    | Some ims => let? t := parse_date_string ims in Ok (st_mtime stp <=? t)
    | None => Ok false
    end.

End Fechas.

(** ** A date that is printed and read *)

Module FechasOk.
Import Libc Escaneo Mongoose Fechas.

Lemma num_leap_years_bisiesto y : 0 < y -> num_leap_years y = num_leap_years (y - 1) + Z.b2z (bisiesto y).
Proof.
  intros Hy. unfold num_leap_years, bisiesto. rewrite !Z.quot_div_nonneg by lia.
  destruct (Z.eqb_spec (y mod 4) 0), (Z.eqb_spec (y mod 100) 0), (Z.eqb_spec (y mod 400) 0); cbn [andb orb negb Z.b2z];
    Z.to_euclidean_division_equations; lia.
Qed.

(** The days from 1970 to the beginning of a year. *)
Definition dias_hasta (y : Z) : Z := (y - 1970) * 365 + num_leap_years (y - 1) - num_leap_years 1970.

Lemma dias_hasta_sigue y : 0 < y -> dias_hasta (y + 1) = dias_hasta y + largo_anio y.
Proof.
  intros Hy. unfold dias_hasta, largo_anio. rewrite Z.add_simpl_r, (num_leap_years_bisiesto y) by lia.
  destruct (bisiesto y); cbn [Z.b2z]; lia.
Qed.

Lemma largo_anio_cota y : 365 <= largo_anio y <= 366.
Proof. unfold largo_anio. destruct (bisiesto y); lia. Qed.

Lemma anio_ok fuel y d : 0 < y -> 0 <= d -> d < 365 * Z.of_nat fuel ->
  let '(y', d') := anio fuel y d in y <= y' /\ 0 <= d' < largo_anio y' /\ dias_hasta y' + d' = dias_hasta y + d.
Proof.
  revert y d. induction fuel as [|fuel IH]; intros y d Hy Hd Hf; [lia|]. cbn [anio].
  pose proof (largo_anio_cota y). destruct (Z.ltb_spec d (largo_anio y)); [lia|].
  specialize (IH (y + 1) (d - largo_anio y)). destruct (anio fuel (y + 1) (d - largo_anio y)) as [y' d'].
  rewrite dias_hasta_sigue in IH by lia. lia.
Qed.

(** The month and its day, for the 366 days of each kind of year. *)
Definition mes_bien (b : bool) (d : Z) : bool :=
  let '(m, k) := mes [31; if b then 29 else 28; 31; 30; 31; 30; 31; 31; 30; 31; 30; 31] 0 d in
  (0 <=? m) && (m <? 12) && (0 <=? k) && (k <? 31) &&
  (nth (Z.to_nat m) days_before_month 0 + Z.b2z (b && (2 <=? m)) + k =? d).

Lemma mes_ok y d : 0 <= d < largo_anio y ->
  let '(m, k) := mes (largo_meses y) 0 d in
  0 <= m < 12 /\ 0 <= k < 31 /\ nth (Z.to_nat m) days_before_month 0 + Z.b2z (bisiesto y && (2 <=? m)) + k = d.
Proof.
  intros Hd. unfold largo_anio, largo_meses in *.
  assert (forall b, forallb (fun i => mes_bien b (Z.of_nat i)) (seq 0 (if b then 366 else 365)) = true) as H by (intros []; vm_compute; done).
  specialize (H (bisiesto y)). rewrite forallb_forall in H. specialize (H (Z.to_nat d)). rewrite Z2Nat.id in H by lia.
  unfold mes_bien in H. destruct (mes _ 0 d) as [m k].
  assert (In (Z.to_nat d) (seq 0 (if bisiesto y then 366%nat else 365%nat))) as Hi by (apply in_seq; destruct (bisiesto y); lia).
  specialize (H Hi). partir. lia.
Qed.

Lemma dias_hasta_cota y : 1970 <= y -> 365 * (y - 1970) <= dias_hasta y.
Proof.
  intros Hy. replace y with (1970 + Z.of_nat (Z.to_nat (y - 1970))) by lia. generalize (Z.to_nat (y - 1970)). clear y Hy.
  induction n as [|n IH]; [done|]. replace (1970 + Z.of_nat (S n)) with (1970 + Z.of_nat n + 1) by lia.
  rewrite dias_hasta_sigue by lia. pose proof (largo_anio_cota (1970 + Z.of_nat n)). lia.
Qed.

(** What [gmtime] says adds up to the time. *)
Lemma gmtime_ok t : 0 <= t < 2 ^ 31 -> let g := gmtime t in let y := 1900 + tm_year g in
  1970 <= y <= 2038 /\ 0 <= tm_mon g < 12 /\ 1 <= tm_mday g < 32 /\ 0 <= tm_hour g < 24 /\ 0 <= tm_min g < 60 /\
  0 <= tm_sec g < 60 /\ 0 <= tm_wday g < 7 /\
  t = (dias_hasta y + nth (Z.to_nat (tm_mon g)) days_before_month 0 + Z.b2z (bisiesto y && (2 <=? tm_mon g)) + (tm_mday g - 1)) * 86400
      + tm_hour g * 3600 + tm_min g * 60 + tm_sec g.
Proof.
  intros Ht. unfold gmtime. set (days := t / 86400). set (s := t mod 86400).
  assert (0 <= days < 24856 /\ 0 <= s < 86400 /\ t = days * 86400 + s) as (Hd & Hs & Et)
    by (unfold days, s; Z.to_euclidean_division_equations; lia).
  clearbody days s. pose proof (anio_ok (Z.to_nat (days / 365 + 1)) 1970 days ltac:(lia) ltac:(lia)) as Ha.
  assert (days < 365 * Z.of_nat (Z.to_nat (days / 365 + 1))) as Hf by (Z.to_euclidean_division_equations; lia).
  specialize (Ha Hf). destruct (anio _ 1970 days) as [y d]. destruct Ha as (Hy & Hd' & Ey).
  pose proof (mes_ok y d Hd') as Hm. destruct (mes (largo_meses y) 0 d) as [m k]. destruct Hm as (Hm & Hk & Em).
  cbn [tm_year tm_mon tm_mday tm_hour tm_min tm_sec tm_wday]. replace (1900 + (y - 1900)) with y by lia.
  change (dias_hasta 1970) with 0 in Ey.
  pose proof (dias_hasta_cota y Hy).
  split_and!; try lia; [Z.to_euclidean_division_equations; lia..|].
  rewrite Z.add_simpl_r, Et. replace days with (dias_hasta y + d) by lia. rewrite <- Em.
  Z.to_euclidean_division_equations; lia.
Qed.

(** *** The text is read back *)

Definition se_lee (texto : Z -> string) (n : Z) : bool :=
  negb (String.eqb (texto n) "") && todos isdigit (texto n) && (valor_decimal 0 (texto n) =? n) && (n <? 2 ^ 31).

Lemma leer_texto (texto : Z -> string) (desde cuantos : nat) n r :
  forallb (fun i => se_lee texto (Z.of_nat i)) (seq desde cuantos) = true ->
  Z.of_nat desde <= n < Z.of_nat (desde + cuantos) -> match r with "" => true | String c _ => negb (isdigit c) end = true ->
  leer_entero true (texto n +:+ r) = Ok (Some (n, r)).
Proof.
  intros H Hn Hr. rewrite forallb_forall in H. specialize (H (Z.to_nat n)). rewrite Z2Nat.id in H by lia.
  unfold se_lee in H. specialize (H ltac:(apply in_seq; lia)). apply andb_prop in H as [H H4]. apply andb_prop in H as [H H3].
  apply andb_prop in H as [H1 H2]. apply Z.eqb_eq in H3. apply Z.ltb_lt in H4. apply negb_true_iff, String.eqb_neq in H1.
  rewrite leer_entero_ok by (done || lia). by rewrite H3.
Qed.

Lemma leer_dos n r : 0 <= n < 100 -> match r with "" => true | String c _ => negb (isdigit c) end = true ->
  leer_entero true (a_dos n +:+ r) = Ok (Some (n, r)).
Proof. intros Hn. apply (leer_texto a_dos 0 100); [vm_compute; reflexivity|lia]. Qed.
Lemma leer_anio n r : 1970 <= n < 2040 -> match r with "" => true | String c _ => negb (isdigit c) end = true ->
  leer_entero true (decimal n +:+ r) = Ok (Some (n, r)).
Proof. intros Hn. apply (leer_texto decimal 1970 70); [vm_compute; reflexivity|lia]. Qed.

(** No blank begins a number or a name. *)
Definition sin_blanco (s : string) : bool := match s with "" => true | String d _ => negb (isspace d) end.

(** One directive at a time. *)
Section Pasos.
Context (fmt : list directiva) (l : list dato) (r fin : string) (H : sscanf fmt r = Ok (Some (l, fin))).

Lemma paso_entero s z : leer_entero true s = Ok (Some (z, r)) -> sscanf (Entero true :: fmt) s = Ok (Some (DZ z :: l, fin)).
Proof. intros E. cbn [sscanf]. rewrite E. cbn [bindR]. by rewrite H. Qed.
Lemma paso_letra c : sscanf (Letra c :: fmt) (String c r) = Ok (Some (l, fin)).
Proof. cbn [sscanf]. rewrite Ascii.eqb_refl, H. reflexivity. Qed.
Lemma paso_blanco c : isspace c = true -> sin_blanco r = true ->
  sscanf (Blanco :: fmt) (String c r) = Ok (Some (l, fin)).
Proof.
  intros Hc Hr. cbn [sscanf]. assert (snd (abarcar isspace (String c r)) = r) as ->.
  { cbn [abarcar]. rewrite Hc. destruct r as [|d r']; [done|]. cbn [abarcar]. apply negb_true_iff in Hr. by rewrite Hr. }
  rewrite H. reflexivity.
Qed.
Lemma paso_palabra a guarda : todos (fun c => negb (isspace c)) a = true -> String.length a = 3%nat ->
  sscanf (Palabra 3 guarda :: fmt) (a +:+ r) = Ok (Some ((if guarda then [DS a] else []) ++ l, fin)).
Proof.
  intros Ha Hl. cbn [sscanf].
  assert (snd (abarcar isspace (a +:+ r)) = a +:+ r) as ->.
  { destruct a as [|c a]; [done|]. cbn [todos] in Ha. apply andb_prop in Ha as [Hc _]. rewrite app_cons_s.
    apply sin_blancos. by apply negb_true_iff. }
  rewrite <- Hl at 1. rewrite palabra_ok by done. destruct a as [|c a]; [done|]. cbn [String.eqb]. rewrite H. reflexivity.
Qed.
End Pasos.

Definition letra (c : ascii) : bool := isupper c || islower c.

Lemma letra_no_espacio a : todos letra a = true -> todos (fun c => negb (isspace c)) a = true.
Proof. apply todos_impl. clear. intros c. by destruct c as [[][][][][][][][]]. Qed.

Lemma letra_no_numero a r : a <> "" -> todos letra a = true -> leer_entero true (a +:+ r) = Ok None.
Proof.
  destruct a as [|c a]; [done|]. intros _ H. cbn [todos] in H. apply andb_prop in H as [Hc _]. rewrite app_cons_s.
  clear -Hc. by destruct c as [[][][][][][][][]].
Qed.

Lemma nombre_de (names : list string) n : forallb (fun a => todos letra a && (String.length a =? 3)%nat) names = true ->
  0 <= n < Z.of_nat (length names) ->
  let a := nth (Z.to_nat n) names "???" in todos letra a = true /\ String.length a = 3%nat.
Proof.
  intros H Hn a. rewrite forallb_forall in H. specialize (H a ltac:(apply nth_In; lia)). apply andb_prop in H as [H1 H2].
  apply Nat.eqb_eq in H2. done.
Qed.

Definition tm_ok (g : tm) : Prop :=
  1970 <= 1900 + tm_year g <= 2038 /\ 0 <= tm_mon g < 12 /\ 1 <= tm_mday g < 32 /\ 0 <= tm_hour g < 24 /\
  0 <= tm_min g < 60 /\ 0 <= tm_sec g < 60 /\ 0 <= tm_wday g < 7.

Lemma sin_blanco_app a r : a <> "" -> todos (fun c => negb (isspace c)) a = true -> sin_blanco (a +:+ r) = true.
Proof. destruct a as [|c a]; [done|]. intros _ H. cbn [todos] in H. apply andb_prop in H as [Hc _]. by rewrite app_cons_s. Qed.

Lemma sin_blanco_decimal fuel n r : sin_blanco (digitos (S fuel) n "" +:+ r) = true.
Proof.
  assert (forall f n acc, acc <> "" -> digitos f n acc <> "") as K.
  { clear. induction f as [|f IH]; intros n acc Ha; [done|]. cbn [digitos]. destruct (n / 10 =? 0); [done|]. by apply IH. }
  apply sin_blanco_app; [cbn [digitos]; destruct (n / 10 =? 0); [done|by apply K]|].
  eapply todos_impl; [|by apply digitos_isdigit]. clear. intros c. by destruct c as [[][][][][][][][]].
Qed.
Lemma sin_blanco_dos n r : sin_blanco (a_dos n +:+ r) = true.
Proof.
  unfold a_dos, decimal. rewrite (Nat.add_comm _ 1). destruct (n <? 10); [done|]. apply sin_blanco_decimal.
Qed.

Lemma sscanf_hora h m s r : 0 <= h < 100 -> 0 <= m < 100 -> 0 <= s < 100 -> match r with "" => true | String c _ => negb (isdigit c) end = true ->
  sscanf hora (a_dos h +:+ ":" +:+ a_dos m +:+ ":" +:+ a_dos s +:+ r) = Ok (Some ([DZ h; DZ m; DZ s], r)).
Proof.
  intros Hh Hm Hs Hr. unfold hora. eapply paso_entero; [|by apply leer_dos]. apply paso_letra.
  eapply paso_entero; [|by apply leer_dos]. apply paso_letra. eapply paso_entero; [|by apply leer_dos]. reflexivity.
Qed.

Lemma sscanf_gmt g : tm_ok g ->
  probar formatos (strftime_gmt g) =
  Ok (Some [DZ (tm_mday g); DS (nth (Z.to_nat (tm_mon g)) meses "???"); DZ (1900 + tm_year g);
            DZ (tm_hour g); DZ (tm_min g); DZ (tm_sec g)]).
Proof.
  intros (Hy & Hm & Hd & Hh & Hi & Hs & Hw).
  destruct (nombre_de dias (tm_wday g) eq_refl) as [W1 W2]; [cbn; lia|].
  destruct (nombre_de meses (tm_mon g) eq_refl) as [M1 M2]; [cbn; lia|].
  unfold strftime_gmt. set (w := nth _ dias _) in *. set (m := nth _ meses _) in *.
  assert (w <> "" /\ m <> "") as [Wn Mn] by (split; [by destruct w|by destruct m]).
  set (resto := a_dos (tm_mday g) +:+ _). set (l := [DZ (tm_mday g); DS m; _; _; _; _]).
  assert (sscanf (nth 2 formatos []) (w +:+ ", " +:+ resto) = Ok (Some (l, " GMT"))) as E3.
  { unfold formatos, resto, l. cbn [nth app].
    apply (paso_palabra _ l _ " GMT") with (guarda := false); [|by apply letra_no_espacio|done].
    apply paso_letra, paso_blanco; [|done|apply sin_blanco_dos].
    eapply paso_entero; [|apply leer_dos; [lia|done]].
    apply paso_blanco; [|done|by apply sin_blanco_app; [|apply letra_no_espacio]].
    apply (paso_palabra _ (tail (tail l)) _ " GMT") with (guarda := true); [|by apply letra_no_espacio|done].
    apply paso_blanco; [|done|unfold decimal; rewrite (Nat.add_comm _ 1); apply sin_blanco_decimal].
    eapply paso_entero; [|apply leer_anio; [lia|done]]. apply paso_blanco; [|done|apply sin_blanco_dos].
    apply sscanf_hora; lia || done. }
  change formatos with [nth 0 formatos []; nth 1 formatos []; nth 2 formatos []; nth 3 formatos []]. cbn [probar].
  rewrite E3. assert (forall f, sscanf (Entero true :: f) (w +:+ ", " +:+ resto) = Ok None) as K
    by (intros f; cbn [sscanf]; by rewrite letra_no_numero).
  unfold formatos. cbn [nth app]. by rewrite !K.
Qed.

Lemma get_month_index_ok m : 0 <= m < 12 -> get_month_index (nth (Z.to_nat m) meses "???") = m.
Proof.
  intros Hm. assert (forallb (fun i => get_month_index (nth i meses "???") =? Z.of_nat i) (seq 0 12) = true) as H by (vm_compute; reflexivity).
  rewrite forallb_forall in H. specialize (H (Z.to_nat m) ltac:(apply in_seq; lia)). rewrite Z2Nat.id in H by lia. by apply Z.eqb_eq.
Qed.

Lemma days_before_cota m : 0 <= m < 12 -> 0 <= nth (Z.to_nat m) days_before_month 0 <= 334 /\
  (m < 2 -> nth (Z.to_nat m) days_before_month 0 <= 31).
Proof.
  intros Hm. assert (forallb (fun i => (0 <=? nth i days_before_month 0) && (nth i days_before_month 0 <=? 334) &&
    ((2 <=? Z.of_nat i) || (nth i days_before_month 0 <=? 31))) (seq 0 12) = true) as H by (vm_compute; reflexivity).
  rewrite forallb_forall in H. specialize (H (Z.to_nat m) ltac:(apply in_seq; lia)). rewrite Z2Nat.id in H by lia.
  set (x := nth _ _ _) in *. clearbody x. lia.
Qed.

Lemma entero_ok z : - 2 ^ 31 <= z < 2 ^ 31 -> entero z = Ok z.
Proof. intros H. unfold entero. rewrite (proj2 (Z.leb_le _ _)), (proj2 (Z.ltb_lt _ _)) by lia. done. Qed.

Lemma dias_hasta_tope y : 1970 <= y -> dias_hasta y <= 366 * (y - 1970).
Proof.
  intros Hy. replace y with (1970 + Z.of_nat (Z.to_nat (y - 1970))) by lia. generalize (Z.to_nat (y - 1970)). clear y Hy.
  induction n as [|n IH]; [done|]. replace (1970 + Z.of_nat (S n)) with (1970 + Z.of_nat n + 1) by lia.
  rewrite dias_hasta_sigue by lia. pose proof (largo_anio_cota (1970 + Z.of_nat n)). lia.
Qed.

(** The day too many: in January and February the leap day of the year is already counted. *)
Definition de_mas (t : Z) : bool := bisiesto (1900 + tm_year (gmtime t)) && (tm_mon (gmtime t) <? 2).

Lemma parse_gmt t : 365 * 86400 <= t < 2 ^ 31 -> parse_date_string (gmt_time_string t) = Ok (t + 86400 * Z.b2z (de_mas t)).
Proof.
  intros Ht. destruct (gmtime_ok t ltac:(lia)) as (Hy & Hm & Hd & Hh & Hi & Hs & Hw & Et). unfold de_mas, gmt_time_string.
  set (g := gmtime t) in *. set (y := 1900 + tm_year g) in *. unfold parse_date_string.
  rewrite sscanf_gmt by (by split_and!; lia). cbn [bindR]. fold y. rewrite get_month_index_ok by done.
  destruct (days_before_cota _ Hm) as [Hb Hb2]. set (dbm := nth _ days_before_month 0) in *.
  pose proof (dias_hasta_cota y ltac:(lia)). pose proof (dias_hasta_tope y ltac:(lia)).
  assert (1970 < y) as Hy1.
  { destruct (Z.eq_dec y 1970) as [E|]; [|lia]. rewrite E in Et. change (dias_hasta 1970) with 0 in Et.
    change (bisiesto 1970) with false in Et. cbn [andb Z.b2z] in Et. lia. }
  rewrite (proj2 (Z.ltb_lt 1970 y)), (proj2 (Z.eqb_neq (tm_mon g) (-1))) by lia. cbn [andb negb].
  assert (num_leap_years y - num_leap_years 1970 = dias_hasta y - (y - 1970) * 365 + Z.b2z (bisiesto y)) as ->
    by (unfold dias_hasta; rewrite (num_leap_years_bisiesto y); lia).
  assert (bisiesto y = true -> y <= 2036) as Hb4.
  { unfold bisiesto. intros Hbi. partir. Z.to_euclidean_division_equations; lia. }
  set (lp := Z.b2z (bisiesto y)) in *. assert (0 <= lp <= 1) by (unfold lp; destruct (bisiesto y); cbn; lia).
  assert (Z.b2z (bisiesto y && (tm_mon g <? 2)) = lp - Z.b2z (bisiesto y && (2 <=? tm_mon g))) as Eb.
  { unfold lp. destruct (bisiesto y), (Z.ltb_spec (tm_mon g) 2), (Z.leb_spec 2 (tm_mon g)); cbn; lia. }
  set (x := Z.b2z (bisiesto y && (2 <=? tm_mon g))) in *.
  assert (0 <= dias_hasta y + dbm + lp + (tm_mday g - 1) <= 24856 /\
          t + 86400 * (lp - x) < 2 ^ 31) as [Hdias Htope].
  { unfold x, lp in *. destruct (Z.leb_spec 2 (tm_mon g)), (bisiesto y); cbn [Z.b2z andb] in *; try specialize (Hb4 eq_refl); lia. }
  rewrite Eb. do 12 (rewrite entero_ok by lia; cbn [bindR]). f_equal. lia.
Qed.

(** C32. A date of the web server that comes back in [If-Modified-Since]: from 1971 to the end
    of the 31-bit times it is read as the second it was printed from, except in January and
    February of a leap year, when it is read a day late; so a client that has the version of
    time [t] is told that the file has not changed exactly when the file is not newer than
    [t], or, in those months, than a day after [t]. At the first second after them, 2^31, the
    arithmetic overflows. *)
Theorem fechas_http t st : 365 * 86400 <= t < 2 ^ 31 ->
  let leida := t + 86400 * Z.b2z (de_mas t) in
  parse_date_string (gmt_time_string t) = Ok leida /\
  is_not_modified [("If-Modified-Since", gmt_time_string t)] st = Ok (st_mtime st <=? leida) /\
  (exists x, parse_date_string (gmt_time_string (2 ^ 31)) = Fallo (Indefinido x)).
Proof.
  intros Ht leida. pose proof (parse_gmt t Ht) as E. split_and!; [done| |].
  - unfold is_not_modified. change (mg_get_header [("If-Modified-Since", gmt_time_string t)] "If-None-Match") with (@None string).
    change (mg_get_header [("If-Modified-Since", gmt_time_string t)] "If-Modified-Since") with (Some (gmt_time_string t)).
    cbv iota. rewrite E. reflexivity.
  - exists "int overflow". vm_compute. reflexivity.
Qed.

(** In 2015, and on the first of January of 2012. *)
Lemma fechas_http_witness :
  parse_date_string (gmt_time_string 1447800000) = Ok 1447800000 /\
  is_not_modified [("If-Modified-Since", gmt_time_string 1325376000)] (mkStat 1325400000 1) = Ok true.
Proof.
  split.
  - apply (fechas_http 1447800000 (mkStat 0 0)). lia.
  - exact (proj1 (proj2 (fechas_http 1325376000 (mkStat 1325400000 1) ltac:(lia)))).
Defined.
End FechasOk.
