(* ===== verification/Archivos.v ===== *)
(** * Archivos: the sending of files in src/WebServer/mongoose.c

    [open_file_endpoint] answers the headers of a file, whole or a range of it, and
    [transfer_file_data] sends it in pieces of [IOBUF_SIZE] bytes, one per turn of the event
    loop in which the send buffer is not too full.  A descriptor is the text of the file and a
    position in it.  The program never gets here, because it has no document root; the code
    is that of every file the web server can send. *)

From S2P Require Import Prelude Libc Escaneo Mongoose Conexion Patrones Fechas.
Open Scope Z_scope.

Module Archivos.
Import Libc Escaneo Mongoose Patrones Fechas.

(** *** Mime types *)

(** [next_option(list, &val, &eq_val)]: [x], [y] and what remains of a list of [x=y]. *)
Definition next_par (l : string) : option (string * string * string) :=
  match l with
  | "" => None
  | _ =>
      let '(a, r) := abarcar (fun c => negb (Ascii.eqb c ",")) l in
      let '(x, y) := abarcar (fun c => negb (Ascii.eqb c "=")) a in
      Some (x, saltear 1 y, saltear 1 r)
  end.

(** The types of the options first; an extension longer than the path is looked for before
    the beginning of the path. *)
Fixpoint mime_extra (fuel : nat) (l path : string) : res (option string) :=
  match fuel with
  | O => Fallo SinCombustible
  | S fuel =>
      match next_par l with
      | None => Ok None
      | Some (x, y, r) =>
          if (String.length path <? String.length x)%nat then Fallo (Indefinido "get_mime_type: read before the path")
          else if mg_strncasecmp_0 x (saltear (String.length path - String.length x) path) then Ok (Some y)
          else mime_extra fuel r path
      end
  end.
Definition get_mime_type (extra_mime_types : option string) (path : string) : res string :=
  let l := default "" extra_mime_types in
  let? o := mime_extra (S (String.length l)) l path in
  Ok (default (mg_get_mime_type path "text/plain") o).

(** *** Ranges *)

(** [%lld]; a number outside its type is undefined. *)
Definition leer_int64 (s : string) : res (option (Z * string)) :=
  let '(_, s) := abarcar isspace s in
  let '(neg, s) := match s with
                   | String "-" r => (true, r)
                   | String "+" r => (false, r)
                   | _ => (false, s)
                   end in
  let '(ds, r) := abarcar isdigit s in
  if String.eqb ds "" then Ok None
  else
    let v := if neg : bool then - valor_decimal 0 ds else valor_decimal 0 ds in
    if (v <? - 2 ^ 63) || (2 ^ 63 <=? v) then Fallo (Indefinido "sscanf: number out of range") else Ok (Some (v, r)).

(** [sscanf(header, "bytes=%lld-%lld", a, b)]: how many were read, and the two, which are 0
    before. *)
Definition parse_range_header (header : string) : res (Z * Z * Z) :=
  match quitar_prefijo "bytes=" header with
  | None => Ok (0, 0, 0)
  | Some s =>
      let? o := leer_int64 s in
      match o with
      | None => Ok (0, 0, 0)
      | Some (a, String "-" s) =>
          let? o := leer_int64 s in
          match o with Some (b, _) => Ok (2, a, b) | None => Ok (1, a, 0) end
      | Some (a, _) => Ok (1, a, 0)
      end
  end.

(** The result of an [int64_t] operation. *)
Definition entero64 (z : Z) : res Z :=
  if (- 2 ^ 63 <=? z) && (z <? 2 ^ 63) then Ok z else Fallo (Indefinido "int64_t overflow").

(** [%lld] of a number *)
Definition fmt_lld (z : Z) : string := if z <? 0 then "-" +:+ decimal (- z) else decimal z.

Definition content_range (desde hasta : Z) (st : file_stat_t) : string :=
  mg_snprintf 64 ("Content-Range: bytes " +:+ fmt_lld desde +:+ "-" +:+ fmt_lld hasta +:+ "/" +:+ fmt_lld (st_size st) +:+ CRLF).

(** What a range leaves: the status, the bytes to send, the header and where the file is read. *)
Definition rango_pedido (hdr : option string) (st : file_stat_t) : res (Z * string * Z * string * Z) :=
  let sin_rango := Ok (200, "OK", st_size st, "", 0) in
  match hdr with
  | None => sin_rango
  | Some hdr =>
      let? '(n, r1, r2) := parse_range_header hdr in
      if (0 <? n) && (0 <=? r1) && (0 <=? r2) then
        let? cl :=
          if n =? 2 then let? x := entero64 ((if st_size st <? r2 then st_size st else r2) - r1) in entero64 (x + 1)
          else entero64 (st_size st - r1) in
        let? hasta := entero64 (r1 + cl) in
        let? hasta := entero64 (hasta - 1) in
        Ok (206, "Partial Content", cl, content_range r1 hasta st, r1)
      else sin_rango
  end.

(** *** The endpoint *)

(** [suggest_connection_header] of a connection that serves a file. *)
Definition sigue_abierta (r : mg_connection) : bool :=
  String.eqb (request_method r) "GET" &&
  match mg_get_header (http_headers r) "Connection" with
  | Some h => mg_strcasecmp_0 h "keep-alive"
  | None => String.eqb (http_version r) "1.1"
  end.
Definition suggest_connection_header (r : mg_connection) : string := if sigue_abierta r then "keep-alive" else "close".

(** The connection while it serves a file: what it still has to send, the descriptor and
    whether the endpoint is open; [enviado] is all it has given to [ns_send]. *)
Record Envio : Type := mkEnvio { cl : Z; archivo : string; posicion : Z; abierto : bool; enviado : string }.

Definition cabeceras (r : mg_connection) (curtime : Z) (st : file_stat_t) (mime : string)
    (status_code : Z) (msg : string) (cl : Z) (range extra_headers : string) : string :=
  mg_snprintf 1000
    ("HTTP/1.1 " +:+ decimal status_code +:+ " " +:+ msg +:+ CRLF +:+
     "Date: " +:+ gmt_time_string curtime +:+ CRLF +:+
     "Last-Modified: " +:+ gmt_time_string (st_mtime st) +:+ CRLF +:+
     "Etag: " +:+ construct_etag 64 st +:+ CRLF +:+
     "Content-Type: " +:+ mime +:+ CRLF +:+
     "Content-Length: " +:+ fmt_lld cl +:+ CRLF +:+
     "Connection: " +:+ suggest_connection_header r +:+ CRLF +:+
     "Accept-Ranges: bytes" +:+ CRLF +:+
     range +:+ extra_headers +:+ CRLF).

(** [curtime] is [time(NULL)]; [lseek] moves the descriptor, also past the end. *)
Definition open_file_endpoint (r : mg_connection) (extra_mime_types : option string) (curtime : Z) (path : string)
    (st : file_stat_t) (texto : string) (extra_headers : option string) : res Envio :=
  let? mime := get_mime_type extra_mime_types path in
  let? '(status_code, msg, cl, range, pos) := rango_pedido (mg_get_header (http_headers r) "Range") st in
  Ok (mkEnvio cl texto pos (negb (String.eqb (request_method r) "HEAD"))
        (cabeceras r curtime st mime status_code msg cl range (default "" extra_headers))).

(** A turn of the loop: the length of the send buffer and whether [read] works. *)
Record vuelta : Type := mkVuelta { pendiente : Z; lee : bool }.

(** A negative count asks [read] for more bytes than the buffer has, and than POSIX defines.
    The -1 of a [read] that fails is kept in a [size_t]: it is positive, [iobuf_append]
    refuses it as a length that overflows, so nothing is sent, and [cl] grows by one. *)
Definition transfer_file_data (t : vuelta) (e : Envio) : res Envio :=
  if IOBUF_SIZE * 2 <? pendiente t then Ok e
  else
    let count := if cl e <? IOBUF_SIZE then a_int (cl e) else IOBUF_SIZE in
    if (count <? 0) || (IOBUF_SIZE <? count) then Fallo (Indefinido "transfer_file_data: read past the buffer")
    else if negb (lee t) then Ok (mkEnvio (cl e + 1) (archivo e) (posicion e) (0 <? cl e + 1) (enviado e))
    else
      let b := prefijo (Z.to_nat count) (saltear (Z.to_nat (posicion e)) (archivo e)) in
      if String.eqb b "" then Ok (mkEnvio (cl e) (archivo e) (posicion e) false (enviado e))
      else
        let cl' := cl e - largo b in
        Ok (mkEnvio cl' (archivo e) (posicion e + largo b) (0 <? cl') (enviado e +:+ b)).

(** Turns of the loop: a connection whose endpoint is closed has nothing to transfer. *)
Fixpoint transferir (turnos : list vuelta) (e : Envio) : res Envio :=
  match turnos with
  | [] => Ok e
  | p :: turnos => if abierto e then let? e := transfer_file_data p e in transferir turnos e else Ok e
  end.

End Archivos.

(** ** What the client of a file receives *)

Module ArchivosOk.
Import Libc Escaneo Mongoose Patrones Fechas Archivos.

(** The two tests of keep-alive are the same. *)
Lemma sigue_abierta_ok c r : Conexion.mg_conn c = Some r -> Conexion.tipo c = Conexion.EP_FILE ->
  Conexion.should_keep_alive c = sigue_abierta r.
Proof. intros E Et. unfold Conexion.should_keep_alive. rewrite E, Et. by rewrite orb_false_r. Qed.

Lemma leer_int64_ok ds r : ds <> "" -> todos isdigit ds = true -> 0 <= valor_decimal 0 ds < 2 ^ 63 ->
  match r with "" => true | String c _ => negb (isdigit c) end = true ->
  leer_int64 (ds +:+ r) = Ok (Some (valor_decimal 0 ds, r)).
Proof.
  intros Hne Hd Hv Hr. pose proof (abarcar_exacto isdigit ds r Hd Hr) as Ha. unfold leer_int64.
  destruct ds as [|c ds]; [done|]. rewrite app_cons_s in *. cbn [todos] in Hd. apply andb_prop in Hd as [Hc _].
  assert (abarcar isspace (String c (ds +:+ r)) = ("", String c (ds +:+ r))) as ->.
  { cbn [abarcar]. assert (isspace c = false) as -> by (by destruct c as [[][][][][][][][]]). done. }
  assert (forall x, match String c x with String "-" r => (true, r) | String "+" r => (false, r) | _ => (false, String c x) end =
    (false, String c x)) as -> by (intros; by destruct c as [[][][][][][][][]]).
  rewrite Ha. cbn [String.eqb]. rewrite (proj2 (Z.ltb_ge _ _)), (proj2 (Z.leb_gt _ _)) by lia. done.
Qed.

Lemma entero64_ok z : - 2 ^ 63 <= z < 2 ^ 63 -> entero64 z = Ok z.
Proof. intros H. unfold entero64. rewrite (proj2 (Z.leb_le _ _)), (proj2 (Z.ltb_lt _ _)) by lia. done. Qed.

(** *** The transfer *)

(** What remains to be sent. *)
Definition pendiente_de (e : Envio) : string := prefijo (Z.to_nat (cl e)) (saltear (Z.to_nat (posicion e)) (archivo e)).
(** The turns with room in the send buffer. *)
Definition libres (turnos : list vuelta) : Z := Z.of_nat (length (filter (fun t => pendiente t <= IOBUF_SIZE * 2) turnos)).
(** No [read] fails, and there are turns enough for [n] bytes. *)
Definition bastan (n : Z) (turnos : list vuelta) : Prop :=
  Forall (fun t => lee t = true) turnos /\ 1 <= libres turnos /\ n <= IOBUF_SIZE * (libres turnos - 1).

Lemma prefijo_mas n m s : prefijo n s +:+ prefijo m (saltear n s) = prefijo (n + m) s.
Proof.
  revert s. induction n as [|n IH]; intros s; [done|]. destruct s as [|c s]; [by destruct m|].
  cbn [prefijo saltear Nat.add]. by rewrite app_cons_s, IH.
Qed.
Lemma saltear_mas n m s : saltear m (saltear n s) = saltear (n + m) s.
Proof.
  revert s. induction n as [|n IH]; intros s; [done|]. destruct s as [|c s]; [by destruct m|]. apply IH.
Qed.
(** One turn with room in the buffer sends the next piece, or closes. *)
Lemma transfer_turno p e : 0 <= cl e -> 0 <= posicion e -> pendiente p <= IOBUF_SIZE * 2 -> lee p = true ->
  exists e', transfer_file_data p e = Ok e' /\ 0 <= cl e' /\ 0 <= posicion e' /\
    (abierto e' = false /\ enviado e' = enviado e +:+ pendiente_de e \/
     abierto e' = true /\ exists b, pendiente_de e = b +:+ pendiente_de e' /\ enviado e' = enviado e +:+ b /\ b <> "" /\
       (largo b = IOBUF_SIZE \/ pendiente_de e' = "")).
Proof.
  intros Hc Hp Hq Hlee. unfold transfer_file_data, IOBUF_SIZE in *. rewrite Hlee. rewrite (proj2 (Z.ltb_ge _ _)) by lia.
  set (count := if cl e <? 8192 then a_int (cl e) else 8192).
  assert (count = Z.min (cl e) 8192) as Ec.
  { unfold count. destruct (Z.ltb_spec (cl e) 8192); [rewrite a_int_id by lia|]; lia. }
  clearbody count. rewrite (proj2 (Z.ltb_ge count 0)), (proj2 (Z.ltb_ge 8192 count)) by lia. cbn [orb negb].
  set (resto := saltear (Z.to_nat (posicion e)) (archivo e)). set (b := prefijo (Z.to_nat count) resto).
  assert (largo b = Z.min count (largo resto)) as Lb by (unfold b, largo; rewrite length_prefijo; lia).
  assert (pendiente_de e = prefijo (Z.to_nat (cl e)) resto) as Ep by done.
  assert (b = prefijo (String.length b) resto) as Eb'
    by (unfold b; rewrite length_prefijo; destruct (Nat.min_spec (Z.to_nat count) (String.length resto)) as [[_ ->]|[? ->]];
        rewrite ?(prefijo_todo _ resto) by lia; done).
  pose proof (largo_pos b). pose proof (largo_pos resto).
  destruct (String.eqb_spec b "") as [Eb|Nb].
  - eexists. split_and!; [reflexivity|done|done|]. left. split; [done|]. cbn [enviado].
    assert (largo (pendiente_de e) = 0) as L0 by (rewrite Ep; unfold largo; rewrite length_prefijo; rewrite Eb in Lb; unfold largo in *; cbn in Lb; lia).
    destruct (pendiente_de e); [by rewrite app_nil_r_s|unfold largo in L0; cbn in L0; lia].
  - assert (0 < largo b) as Lp by (destruct b; [done|unfold largo; cbn; lia]).
    set (cl' := cl e - largo b). eexists. split_and!; [reflexivity|cbn [cl]; unfold cl'; lia|cbn [posicion]; lia|]. cbn [abierto enviado cl].
    assert (forall q, pendiente_de (mkEnvio cl' (archivo e) (posicion e + largo b) q (enviado e +:+ b)) =
                      prefijo (Z.to_nat cl') (saltear (String.length b) resto)) as Eq.
    { intros q. unfold pendiente_de, resto. cbn [cl posicion archivo]. rewrite saltear_mas. do 2 f_equal. unfold largo. lia. }
    assert (pendiente_de e = b +:+ prefijo (Z.to_nat cl') (saltear (String.length b) resto)) as Es.
    { rewrite Ep. rewrite Eb' at 1. rewrite prefijo_mas. f_equal. unfold cl', largo in *. lia. }
    rewrite Es. destruct (Z.ltb_spec 0 cl').
    + right. split; [done|]. exists b. rewrite Eq. split_and!; [done|done|done|].
      destruct (Z.eq_dec (largo b) 8192); [by left|]. right.
      assert (largo b = largo resto) as Er by (unfold cl' in *; lia).
      replace (saltear (String.length b) resto) with ""; [by destruct (Z.to_nat cl')|].
      unfold largo in Er. assert (String.length b = String.length resto) as -> by lia.
      pose proof (saltear_app resto "") as Ez. by rewrite app_nil_r_s in Ez.
    + left. split; [done|]. replace (Z.to_nat cl') with O by lia. cbn [prefijo]. by rewrite app_nil_r_s.
Qed.

(** Whatever the pace, what is sent is a beginning of the piece, and all of it after enough
    turns. *)
Lemma transferir_ok turnos e : Forall (fun t => lee t = true) turnos -> abierto e = true -> 0 <= cl e -> 0 <= posicion e ->
  exists e' b, transferir turnos e = Ok e' /\ enviado e' = enviado e +:+ b /\ (exists r, pendiente_de e = b +:+ r) /\
    (1 <= libres turnos -> largo (pendiente_de e) <= IOBUF_SIZE * (libres turnos - 1) -> abierto e' = false /\ b = pendiente_de e).
Proof.
  intros Hlee. revert e. induction Hlee as [|p turnos Hlee _ IH]; intros e Ha Hc Hp.
  - exists e, "". split_and!; [done|by rewrite app_nil_r_s|by eexists|]. unfold libres. cbn. lia.
  - cbn [transferir]. rewrite Ha. unfold libres. rewrite filter_cons. destruct (decide (pendiente p <= IOBUF_SIZE * 2)) as [Hq|Hq].
    + destruct (transfer_turno p e Hc Hp Hq Hlee) as (e1 & -> & Hc1 & Hp1 & [[Hx He]|(Hx & b & Eb & He & Nb & Hb)]); cbn [bindR].
      * exists e1, (pendiente_de e). split_and!; [by destruct turnos; cbn; rewrite ?Hx|done|exists ""; by rewrite app_nil_r_s|done].
      * destruct (IH e1 Hx Hc1 Hp1) as (e' & b' & E' & Hs & (r & Hr) & Hfin). exists e', (b +:+ b').
        split_and!; [done|by rewrite Hs, He, app_assoc_s|exists r; by rewrite Eb, Hr, app_assoc_s|].
        cbn [length]. intros H1 H2. fold (libres turnos) in Hfin.
        assert (0 < largo b) by (destruct b; [done|unfold largo; cbn; lia]).
        rewrite Eb, largo_app in H2. unfold libres in *. set (k := Z.of_nat (length (filter _ turnos))) in *.
        assert (abierto e' = false /\ b' = pendiente_de e1) as [G1 G2]; [|by rewrite G2, Eb].
        pose proof (largo_pos (pendiente_de e1)). unfold IOBUF_SIZE in *.
        destruct Hb as [Hb|Hb]; [apply Hfin; lia|]. rewrite Hb in *. change (largo "") with 0 in *. apply Hfin; lia.
    + assert (transfer_file_data p e = Ok e) as -> by (unfold transfer_file_data; by rewrite (proj2 (Z.ltb_lt _ _)) by lia).
      cbn [bindR]. apply IH; done.
Qed.

Lemma rango_digitos da db st (a := valor_decimal 0 da) (b := valor_decimal 0 db) :
  da <> "" -> db <> "" -> todos isdigit da = true -> todos isdigit db = true ->
  0 <= a < 2 ^ 62 -> 0 <= b < 2 ^ 62 -> 0 <= st_size st < 2 ^ 62 ->
  let c := Z.min b (st_size st) - a + 1 in
  rango_pedido (Some ("bytes=" +:+ da +:+ "-" +:+ db)) st = Ok (206, "Partial Content", c, content_range a (a + c - 1) st, a).
Proof.
  intros Ha Hb Hda Hdb Va Vb Vs c. unfold rango_pedido, parse_range_header.
  rewrite (proj2 (quitar_prefijo_spec "bytes=" _ _) eq_refl), leer_int64_ok by (done || unfold a in *; lia).
  cbn [bindR]. change ("-" +:+ db) with (String "-" db). cbv iota. rewrite <- (app_nil_r_s db), leer_int64_ok by (done || unfold b in *; lia).
  cbn [bindR]. fold a b. rewrite (proj2 (Z.leb_le 0 a)), (proj2 (Z.leb_le 0 b)) by lia. cbn [Z.ltb Z.compare andb Z.eqb Pos.eqb].
  assert ((if st_size st <? b then st_size st else b) = Z.min b (st_size st)) as -> by (destruct (Z.ltb_spec (st_size st) b); lia).
  rewrite entero64_ok by lia. cbn [bindR]. rewrite entero64_ok by lia. cbn [bindR]. fold c.
  rewrite entero64_ok by (unfold c; lia). cbn [bindR]. rewrite entero64_ok by (unfold c; lia). reflexivity.
Qed.

Lemma rango_abierto da st (a := valor_decimal 0 da) : da <> "" -> todos isdigit da = true ->
  0 <= a < 2 ^ 62 -> 0 <= st_size st < 2 ^ 62 ->
  let c := st_size st - a in
  rango_pedido (Some ("bytes=" +:+ da +:+ "-")) st = Ok (206, "Partial Content", c, content_range a (a + c - 1) st, a).
Proof.
  intros Ha Hda Va Vs c. unfold rango_pedido, parse_range_header.
  rewrite (proj2 (quitar_prefijo_spec "bytes=" _ _) eq_refl), leer_int64_ok by (done || unfold a in *; lia). cbn [bindR]. fold a.
  change (leer_int64 "") with (Ok (A := option (Z * string)) None). cbn [bindR]. rewrite (proj2 (Z.leb_le 0 a)) by lia.
  cbn [Z.ltb Z.compare andb Z.eqb Pos.eqb Z.leb]. rewrite !entero64_ok by (unfold c; lia). cbn [bindR]. fold c.
  rewrite entero64_ok by (unfold c; lia). cbn [bindR]. rewrite entero64_ok by (unfold c; lia). reflexivity.
Qed.

(** What is sent of [c] bytes from [a] on, when [c] is not negative. *)
Lemma envio_tramo turnos texto c a enviado0 (cuerpo := prefijo (Z.to_nat c) (saltear (Z.to_nat a) texto)) :
  bastan (largo texto) turnos -> 0 <= c -> 0 <= a ->
  exists e', transferir turnos (mkEnvio c texto a true enviado0) = Ok e' /\ abierto e' = false /\ enviado e' = enviado0 +:+ cuerpo.
Proof.
  intros (Hlee & H1 & H2) Hc Ha. set (e := mkEnvio c texto a true enviado0).
  destruct (transferir_ok turnos e Hlee eq_refl Hc Ha) as (e' & b & E1 & E2 & _ & E4). change (pendiente_de e) with cuerpo in E4.
  destruct E4 as [G1 ->]; [done| |by exists e'].
  etrans; [|exact H2]. unfold cuerpo, largo. rewrite length_prefijo, length_saltear. lia.
Qed.
(** A negative length makes the next turn with room read past its buffer. *)
Lemma envio_negativo t texto c a enviado0 : pendiente t <= IOBUF_SIZE * 2 -> - 2 ^ 31 <= c < 0 ->
  transfer_file_data t (mkEnvio c texto a true enviado0) = Fallo (Indefinido "transfer_file_data: read past the buffer").
Proof.
  intros Ht Hc. unfold transfer_file_data. cbn [cl]. rewrite (proj2 (Z.ltb_ge _ _)) by lia. unfold IOBUF_SIZE. rewrite (proj2 (Z.ltb_lt c 8192)) by lia.
  assert (a_int c < 0) as Hneg by (unfold a_int; rewrite Z.mod_small; lia). by rewrite (proj2 (Z.ltb_lt (a_int c) 0) Hneg).
Qed.

(** Without a range, the whole file. *)
Lemma envio_entero r extra curtime path mime mtime texto eh turnos (st := mkStat mtime (largo texto)) :
  request_method r <> "HEAD" -> get_mime_type extra path = Ok mime ->
  bastan (largo texto) turnos -> mg_get_header (http_headers r) "Range" = None ->
  exists e e', open_file_endpoint r extra curtime path st texto eh = Ok e /\ transferir turnos e = Ok e' /\ abierto e' = false /\
    enviado e' = cabeceras r curtime st mime 200 "OK" (largo texto) "" (default "" eh) +:+ texto.
Proof.
  intros Hm Hmime Ht Hr. pose proof (largo_pos texto).
  assert (negb (String.eqb (request_method r) "HEAD") = true) as Hh by (by destruct (String.eqb_spec (request_method r) "HEAD")).
  unfold open_file_endpoint. rewrite Hmime, Hr, Hh. cbn [bindR rango_pedido st_size st]. eexists.
  destruct (envio_tramo turnos texto (largo texto) 0 (cabeceras r curtime st mime 200 "OK" (largo texto) "" (default "" eh))) as (e' & E1 & E2 & E3); [done..|].
  exists e'. split_and!; [done|done|done|]. rewrite E3. f_equal. cbn [saltear Z.to_nat]. unfold largo. by rewrite Nat2Z.id, prefijo_todo.
Qed.

(** What becomes of a range of [c] bytes from [a]: it is sent, as far as the file goes, or its
    negative length makes the first turn with room ask [read] for more than its buffer has. *)
Definition tramo_servido (turnos : list vuelta) (e : Envio) (texto cabecera : string) (a c : Z) : Prop :=
  (0 <= c -> exists e', transferir turnos e = Ok e' /\ abierto e' = false /\
     enviado e' = cabecera +:+ prefijo (Z.to_nat c) (saltear (Z.to_nat a) texto)) /\
  (- 2 ^ 31 <= c < 0 -> forall t, pendiente t <= IOBUF_SIZE * 2 -> exists x, transfer_file_data t e = Fallo (Indefinido x)).

Lemma tramo_servido_ok turnos texto cabecera a c : bastan (largo texto) turnos -> 0 <= a ->
  tramo_servido turnos (mkEnvio c texto a true cabecera) texto cabecera a c.
Proof.
  intros Ht Ha. split; [intros Hc; by apply envio_tramo|]. intros Hc t Hp. eexists. by apply envio_negativo.
Qed.

(** C31. A file is sent whole, and a range of it exactly: with reads that work and whatever the
    pace at which the client takes the bytes, after enough turns of the loop it has received
    the headers and the file; or, if it asked for the bytes from [a] to [b] or from [a] on, a
    [Content-Range] and those bytes, as far as the file goes.  [Content-Length] is their
    number when [a] and [b] are in the file in this order, and one too many when [b] is
    past it.  A range whose length comes out as 0, as when it ends just before it begins, is
    sent as such; one whose length comes out negative, down to -2^31, makes the next turn ask [read]
    for more than its buffer has.  To HEAD only the headers are sent. *)
Theorem archivo_servido r extra curtime path mime mtime texto eh turnos (st := mkStat mtime (largo texto)) :
  get_mime_type extra path = Ok mime -> largo texto < 2 ^ 62 -> bastan (largo texto) turnos ->
  (request_method r <> "HEAD" -> mg_get_header (http_headers r) "Range" = None ->
   exists e e', open_file_endpoint r extra curtime path st texto eh = Ok e /\ transferir turnos e = Ok e' /\ abierto e' = false /\
     enviado e' = cabeceras r curtime st mime 200 "OK" (largo texto) "" (default "" eh) +:+ texto) /\
  (forall da (a := valor_decimal 0 da), request_method r <> "HEAD" -> da <> "" -> todos isdigit da = true -> 0 <= a < 2 ^ 62 ->
   (mg_get_header (http_headers r) "Range" = Some ("bytes=" +:+ da +:+ "-") ->
    let c := largo texto - a in
    exists e, open_file_endpoint r extra curtime path st texto eh = Ok e /\
      tramo_servido turnos e texto (cabeceras r curtime st mime 206 "Partial Content" c (content_range a (a + c - 1) st) (default "" eh)) a c) /\
   (forall db (b := valor_decimal 0 db), db <> "" -> todos isdigit db = true -> 0 <= b < 2 ^ 62 ->
    mg_get_header (http_headers r) "Range" = Some ("bytes=" +:+ da +:+ "-" +:+ db) ->
    let c := Z.min b (largo texto) - a + 1 in
    exists e, open_file_endpoint r extra curtime path st texto eh = Ok e /\
      tramo_servido turnos e texto (cabeceras r curtime st mime 206 "Partial Content" c (content_range a (a + c - 1) st) (default "" eh)) a c /\
      (a <= b -> a < largo texto -> largo (prefijo (Z.to_nat c) (saltear (Z.to_nat a) texto)) = if b <? largo texto then c else c - 1))) /\
  (forall e, request_method r = "HEAD" -> open_file_endpoint r extra curtime path st texto eh = Ok e ->
   transferir turnos e = Ok e /\ abierto e = false /\
   exists status msg c range pos, rango_pedido (mg_get_header (http_headers r) "Range") st = Ok (status, msg, c, range, pos) /\
     enviado e = cabeceras r curtime st mime status msg c range (default "" eh)).
Proof.
  intros Hmime Hl Ht. pose proof (largo_pos texto) as Hl0. split_and!.
  - intros Hm Hr. by apply envio_entero.
  - intros da a Hm Hda Dda Ha.
    assert (negb (String.eqb (request_method r) "HEAD") = true) as Hh by (by destruct (String.eqb_spec (request_method r) "HEAD")).
    split.
    + intros Hr c. unfold open_file_endpoint. rewrite Hmime, Hh, Hr. cbn [bindR]. rewrite rango_abierto by (done || cbn [st_size st]; lia). cbn [bindR st_size st]. eexists. split; [done|].
      apply tramo_servido_ok; [done|lia].
    + intros db b Hdb Ddb Hb Hr c. unfold open_file_endpoint. rewrite Hmime, Hh, Hr. cbn [bindR]. rewrite rango_digitos by (done || cbn [st_size st]; lia). cbn [bindR st_size st]. eexists. split; [done|].
      split; [apply tramo_servido_ok; [done|lia]|]. intros Hab Han. unfold largo. rewrite length_prefijo, length_saltear.
      unfold c, largo in *. destruct (Z.ltb_spec b (Z.of_nat (String.length texto))); lia.
  - intros e Hm He. unfold open_file_endpoint in He. rewrite Hmime, Hm in He. cbn [bindR String.eqb Ascii.eqb Bool.eqb negb] in He.
    destruct (rango_pedido _ st) as [[[[[status msg] c] range] pos]|x]; [|done]. cbn [bindR] in He. injection He as <-.
    split_and!; [by destruct turnos|done|]. by exists status, msg, c, range, pos.
Qed.

Lemma archivo_servido_witness :
  let pide rango := mkConn "GET" "/a.txt" "1.1" None [("Range", rango)] "" in
  let st := mkStat 1447800000 10 in
  let abre rango := open_file_endpoint (pide rango) None 1447800001 "/a.txt" st "hola mundo" None in
  let turnos := [mkVuelta 0 true; mkVuelta 0 true] in
  (exists e e', abre "bytes=2-5" = Ok e /\ transferir turnos e = Ok e' /\
    enviado e' = cabeceras (pide "bytes=2-5") 1447800001 st "text/plain" 206 "Partial Content" 4 (content_range 2 5 st) "" +:+ "la m") /\
  (exists e x, abre "bytes=5-3" = Ok e /\ transfer_file_data (mkVuelta 0 true) e = Fallo (Indefinido x)).
Proof.
  intros pide st abre turnos.
  assert (bastan (largo "hola mundo") turnos) as Hb by (split_and!; [by repeat constructor|vm_compute; discriminate|vm_compute; discriminate]).
  split.
  - destruct (archivo_servido (pide "bytes=2-5") None 1447800001 "/a.txt" "text/plain" 1447800000 "hola mundo" None turnos) as (_ & H & _);
      [vm_compute; reflexivity|reflexivity|exact Hb|].
    destruct (H "2") as [_ H2]; [discriminate|discriminate|reflexivity|vm_compute; split; [discriminate|reflexivity]|].
    destruct (H2 "5") as (e & E1 & [E2 _] & _); [discriminate|reflexivity|vm_compute; split; [discriminate|reflexivity]|reflexivity|].
    destruct E2 as (e' & E2 & _ & E3); [vm_compute; discriminate|]. exists e, e'. split; [exact E1|]. split; [exact E2|exact E3].
  - destruct (archivo_servido (pide "bytes=5-3") None 1447800001 "/a.txt" "text/plain" 1447800000 "hola mundo" None turnos) as (_ & H & _);
      [vm_compute; reflexivity|reflexivity|exact Hb|].
    destruct (H "5") as [_ H2]; [discriminate|discriminate|reflexivity|vm_compute; split; [discriminate|reflexivity]|].
    destruct (H2 "3") as (e & E1 & [_ E2] & _); [discriminate|reflexivity|vm_compute; split; [discriminate|reflexivity]|reflexivity|].
    destruct (E2 ltac:(vm_compute; split; [discriminate|reflexivity]) (mkVuelta 0 true) ltac:(vm_compute; discriminate)) as [x E3].
    exists e, x. split; [exact E1|exact E3].
Defined.
End ArchivosOk.
