(* ===== verification/Clientes.v ===== *)
(** * Clientes: what the clients of the web server can rely on

    The guarantees of the connections and of the event loop, for every handler that answers
    as the one of the program does. *)

From S2P Require Import Prelude Libc Mongoose MongooseOk WebSocket Conexion Red ConexionOk RedOk.
Open Scope Z_scope.

Module Clientes.
Import Libc Mongoose WebSocket Conexion Red ConexionOk RedOk.

Section Clientes.
Context {S : Type} {H : Manejador S} {HO : ManejadorOk H}.

(** The state of the program changes by the requests its handler serves. *)
Definition atendida (s s' : S) : Prop :=
  exists c x r y, event_handler c MG_REQUEST (x, s) = (Ok r, (y, s')).
Definition atendidas : S -> S -> Prop := rtc atendida.

Lemma atendidas_una c x s r y s' : event_handler c MG_REQUEST (x, s) = (Ok r, (y, s')) -> atendidas s s'.
Proof. intros E. apply rtc_once. by exists c, x, r, y. Qed.

Lemma turnos_rtc l r r' : turnos l r r' -> rtc turno r r'.
Proof. induction 1 as [|su l r r1 r' E _ IH]; [done|]. eapply rtc_l; [by econstructor|done]. Qed.

Lemma alcanzada s0 r : rtc turno (red_inicial s0) r ->
  Forall (fun n => Inv (conn n)) (active_connections r) /\ atendidas s0 (estado r).
Proof. intros Hr. by apply (turnos_preservan atendidas atendidas_una (red_inicial s0) r). Qed.

(** ** Every request gets its reply *)

(** What happens to a reply [x] owed since a turn, when the socket of its client takes bytes. *)
Lemma entrega_respuesta l r r' n t0 k x :
  turnos l r r' -> conn n = cerrada k x -> (if por_cerrar n then In n (despedidas r) else In n (active_connections r)) ->
  Forall (avanza (sock n) t0) l -> t0 <= last_io_time n -> (String.length x <= length l)%nat ->
  exists n', sock n' = sock n /\ entregado n' = entregado n +:+ x /\
    if k then In n' (active_connections r') /\ conn n' = reposo "" else In n' (despedidas r').
Proof.
  intros Ht Hc Hin Hl Hlast Hx. assert (por_cerrar n = String.eqb x "" && negb k) as Ep.
  { unfold por_cerrar. rewrite Hc, cerrada_respuesta. unfold cerrada. cbn [send_iobuf].
    destruct k; cbn; [by rewrite andb_false_r|]. by destruct (String.eqb x ""). }
  rewrite Ep in Hin. destruct (String.eqb_spec x "") as [->|Hne]; cbn [andb negb] in Hin.
  - exists n. rewrite app_nil_r_s. do 2 (split; [done|]). destruct k; cbn [negb] in Hin.
    + split; [by eapply turnos_quietos|done].
    + by eapply despedidas_turnos.
  - by eapply turnos_entregan.
Qed.

(** A request that arrives in a turn, and its reply in the turns that follow. *)
Lemma respondida (R : S -> S -> Prop) {HP : PreOrder R} su r r1 l r2 n p piezas :
  (forall c x s r y s', event_handler c MG_REQUEST (x, s) = (Ok r, (y, s')) -> R s s') ->
  Forall (fun n => Inv (conn n)) (active_connections r) -> In n (active_connections r) -> conn n = reposo "" ->
  ns_mgr_poll su r = (Ok tt, r1) -> hora su <= last_io_time n + MONGOOSE_IDLE_TIMEOUT_SECONDS ->
  legibles su (sock n) = Some (piezas, NADA_MAS) ->
  bien_formada p -> Forall (fun b => b <> "") piezas -> unir piezas = p_cabeza p +:+ p_cuerpo p ->
  (forall s, R (estado r) s -> exists y, event_handler (Some (con_cuerpo (p_cuerpo p) (p_conn p))) MG_REQUEST
     (inicial p (mkSalida 0 false false ""), s) = (Ok MG_TRUE, y)) ->
  turnos l r1 r2 -> Forall (avanza (sock n) (hora_select su)) l ->
  exists s1 sal s2, R (estado r) s1 /\
    event_handler (Some (con_cuerpo (p_cuerpo p) (p_conn p))) MG_REQUEST
      (inicial p (mkSalida 0 false false ""), s1) = (Ok MG_TRUE, (sal, s2)) /\ R s2 (estado r2) /\
    ((String.length (send_iobuf (terminar_respuesta sal)) <= length l)%nat ->
     exists n', sock n' = sock n /\ entregado n' = entregado n +:+ send_iobuf (terminar_respuesta sal) /\
       if mantiene (p_conn p) then In n' (active_connections r2) /\ conn n' = reposo "" else In n' (despedidas r2)).
Proof.
  intros HR Hi Hin Hc E Ht Hl Hp Hne Hu Hh Hts Ha.
  destruct (turno_atiende R HR su r r1 n p piezas Hi E Hin Hc Ht Hl Hp Hne Hu Hh)
    as (s1 & sal & s2 & n1 & R1 & R2 & Eh & Hs & He & Hlast & Hc1 & Hin1).
  exists s1, sal, s2. split_and!; [done|done| |].
  - etrans; [exact R2|]. eapply (turnos_preservan R HR r1 r2); [|by eapply turnos_rtc].
    eapply (turno_preserva R HR r r1); [done|by econstructor].
  - intros Hx. rewrite <- Hs, <- He. eapply entrega_respuesta; [exact Hts|exact Hc1|exact Hin1|by rewrite Hs|lia|done].
Qed.

(** C5. Every request gets its reply, for a handler that keeps the contract [ManejadorOk] (as
    that of the program does: it says nothing to other events and answers [MG_TRUE] to
    requests) and that does not fail on this request, and in turns that return: a client with
    an idle connection sends a well-formed request, cut in any way, in a turn of the loop;
    whatever the other clients do, the handler is called on the whole request, in a state the
    program goes through during the turn, and after as many turns as the reply has bytes in
    which its socket takes something, the client has received exactly the reply; then its
    connection is idle again, or closed, as it asked. *)
Theorem peticion_respondida s0 r su r1 l r2 n p piezas :
  rtc turno (red_inicial s0) r -> In n (active_connections r) -> conn n = reposo "" ->
  ns_mgr_poll su r = (Ok tt, r1) -> hora su <= last_io_time n + MONGOOSE_IDLE_TIMEOUT_SECONDS ->
  legibles su (sock n) = Some (piezas, NADA_MAS) ->
  bien_formada p -> Forall (fun b => b <> "") piezas -> unir piezas = p_cabeza p +:+ p_cuerpo p ->
  (forall s, atendidas (estado r) s -> exists y, event_handler (Some (con_cuerpo (p_cuerpo p) (p_conn p))) MG_REQUEST
     (inicial p (mkSalida 0 false false ""), s) = (Ok MG_TRUE, y)) ->
  turnos l r1 r2 -> Forall (avanza (sock n) (hora_select su)) l ->
  exists s1 sal s2, atendidas (estado r) s1 /\
    event_handler (Some (con_cuerpo (p_cuerpo p) (p_conn p))) MG_REQUEST
      (inicial p (mkSalida 0 false false ""), s1) = (Ok MG_TRUE, (sal, s2)) /\ atendidas s2 (estado r2) /\
    ((String.length (send_iobuf (terminar_respuesta sal)) <= length l)%nat ->
     exists n', sock n' = sock n /\ entregado n' = entregado n +:+ send_iobuf (terminar_respuesta sal) /\
       if mantiene (p_conn p) then In n' (active_connections r2) /\ conn n' = reposo "" else In n' (despedidas r2)).
Proof. intros Hr. apply (respondida atendidas); [apply atendidas_una|apply (alcanzada s0 r Hr)]. Qed.

(** ** Nothing a client sends stops the web server *)

(** C20. The web server survives its clients: from its start, after any turns, a turn of the
    event loop with any events returns and keeps the invariant of every connection, or fails
    because the handler did, or because of one of three undefined behaviours of the code (a
    Content-Length near 2^63, a websocket frame whose length wraps around, a connection whose
    descriptor is past the [FD_SETSIZE] of [select]).  No loop of
    the web server runs forever and no part of it that needs a file is reached. *)
Theorem bucle_total s0 r su :
  rtc turno (red_inicial s0) r ->
  match ns_mgr_poll su r with
  | (Ok _, r') => Forall (fun n => Inv (conn n)) (active_connections r') /\ atendidas (estado r) (estado r')
  | (Fallo e, _) => (exists c x y, event_handler c MG_REQUEST x = (Fallo e, y)) \/ In e indefinidos
  end.
Proof. intros Hr. apply (cumpleS_poll atendidas atendidas_una), (alcanzada s0 r Hr). Qed.

(** ** Requests the web server refuses *)

Lemma cabeza_incompleta a b : get_request_len (a +:+ b) = 0 -> get_request_len a = 0.
Proof.
  intros E. unfold get_request_len in *. destruct (Z.eq_dec (request_len_desde 0 a) 0); [done|].
  by rewrite request_len_app in E by (done || lia).
Qed.

Lemma recibir_espera l sal io (s : S) :
  get_request_len (buf io +:+ unir l) = 0 -> largo (buf io +:+ unir l) <= MAX_REQUEST_SIZE ->
  exists io', buf io' = buf io +:+ unir l /\ recibir l (espera_cabeza sal io, s) = (Ok tt, (espera_cabeza sal io', s)).
Proof.
  revert io. induction l as [|b l IH]; intros io Hg Hm; cbn [unir] in *.
  - exists io. by rewrite app_nil_r_s.
  - rewrite <- app_assoc_s, <- buf_append in Hg, Hm. destruct (IH _ Hg Hm) as (io' & Hb & Er). exists io'.
    split; [by rewrite Hb, buf_append, app_assoc_s|]. rewrite recibir_cons, llegada_cabeza.
    erewrite bind_ok; [exact Er|]. apply paso_cabeza; [by eapply cabeza_incompleta|].
    unfold largo in *. rewrite length_app_s in Hm. lia.
Qed.

Lemma recibir_app l b x : recibir (l ++ [b]) x = (recibir l;;; recibir [b]) x.
Proof.
  revert x. induction l as [|a l IH]; intros [c s]; [done|]. cbn [app recibir]. rewrite !bind_assoc.
  apply bind_ext. intros [] y. rewrite bind_assoc. apply bind_ext. intros [] z. apply IH.
Qed.

(** C22. Errors: a request with control characters in its headers, with a bad request line or
    path, longer than 16384 bytes before its headers end, or of another version of HTTP, in
    any pieces, is answered with status 400, 413 or 505 and a text that names it, without
    calling the handler, and the connection is closed when the client has read it. *)
Theorem rechazo_responde l b code pendiente (s : S) :
  get_request_len (unir l) = 0 -> largo (unir l) <= MAX_REQUEST_SIZE -> rechazo (unir l +:+ b) code ->
  recibir (l ++ [b]) (reposo pendiente, s) = (Ok tt, (con_finished true (reposo (pendiente +:+ texto_error code)), s)).
Proof.
  intros Hg Hm Hr. rewrite recibir_app.
  change (reposo pendiente) with (espera_cabeza (mkSalida 0 false false pendiente) (iobuf_init 0)).
  destruct (recibir_espera l (mkSalida 0 false false pendiente) (iobuf_init 0) s) as (io & Hb & E); [done|done|].
  erewrite bind_ok by exact E. rewrite recibir_cons, llegada_cabeza. cbn [recibir].
  erewrite bind_ok by (by apply (rechazo_ok 0 _ code _ _ s Hr); rewrite buf_append, Hb).
  unfold cerrada. cbn [send_iobuf]. destruct (String.eqb_spec (pendiente +:+ texto_error code) "") as [Ee|]; [|done].
  exfalso. apply (f_equal String.length) in Ee. unfold texto_error in Ee. rewrite !length_app_s in Ee. cbn in Ee. lia.
Qed.

(** ** Several requests in one read *)

(** Requests are not pipelined: whatever is read together with the end of a request, a whole
    request of the same client included, is handed over as part of its body, and then dropped with
    the buffer: the connection is at rest again with nothing received. *)
Theorem encadenadas p e pendiente (s : S) sal' s' :
  bien_formada p ->
  event_handler (Some (con_cuerpo (p_cuerpo p +:+ e) (p_conn p))) MG_REQUEST
    (inicial p (mkSalida 0 false false pendiente), s) = (Ok MG_TRUE, (sal', s')) ->
  recibir [p_cabeza p +:+ p_cuerpo p +:+ e] (reposo pendiente, s) =
    (Ok tt, (cerrada (mantiene (p_conn p)) (send_iobuf (terminar_respuesta sal')), s')).
Proof.
  intros Hp Hh. set (t := p_cabeza p +:+ p_cuerpo p +:+ e).
  change (reposo pendiente) with (espera_cabeza (mkSalida 0 false false pendiente) (iobuf_init 0)).
  rewrite recibir_cons, llegada_cabeza. cbn [recibir].
  destruct (paso_completa (on_recv_data_f 1) p (mkSalida 0 false false pendiente) (iobuf_append t (iobuf_init 0)) s
    (p_cuerpo p +:+ e) Hp) as (io & Eio & E); [by rewrite buf_append|].
  assert (largo (p_cuerpo p) <= largo (p_cuerpo p +:+ e)) by (rewrite largo_app; pose proof (largo_pos e); lia).
  erewrite bind_ok; [reflexivity|]. etrans; [exact E|].
  apply cuerpo_listo; [apply total_ok; exact Hp|rewrite Eio, (bf_cuerpo p Hp); done|by rewrite Eio].
Qed.

End Clientes.

(** ** A handler for the examples: it sends back the body and counts the requests *)
Definition eco : Manejador nat := {|
  event_handler := fun c ev '(sal, n) =>
    match ev, c with
    | MG_REQUEST, Some r => (Ok MG_TRUE, (ns_send (content r) sal, Datatypes.S n))
    | MG_REQUEST, None => (Fallo (Indefinido "null request"), (sal, n))
    | MG_AUTH, _ => (Ok MG_TRUE, (sal, n))
    | _, _ => (Ok MG_FALSE, (sal, n))
    end;
  time_null := ret 0;
  is_big_endian := false |}.
#[local] Existing Instance eco.

#[local] Instance eco_ok : ManejadorOk eco.
Proof.
  split; cbn.
  - intros [c|] [sal n] r [sal' n'] E; by simplify_eq.
  - by intros [c|] [sal n].
  - by intros c [] [sal n].
Qed.

Definition post : string := "POST /x HTTP/1.1" +:+ CRLF +:+ "Content-Length: 4" +:+ CRLF +:+ CRLF.
Definition saludo : peticion :=
  mkPeticion post "hola" (mkConn "POST" "/x" "1.1" None [("Content-Length", "4")] "") 0.

Lemma saludo_ok : bien_formada saludo.
Proof.
  split; [split; vm_compute; reflexivity|vm_compute; done| | |by right| | |]; vm_compute; reflexivity.
Qed.

Definition conecta : Sucesos := mkSucesos 1 1 (fun _ => None) (fun _ => None) true 5 1.
Definition manda (l : list string) : Sucesos :=
  mkSucesos 1 1 (fun i => if Nat.eqb i 0 then Some (l, NADA_MAS) else None) (fun _ => None) false (-1) 1.
Definition lee_uno : Sucesos := mkSucesos 1 1 (fun _ => None) (fun _ => Some (ESCRITOS 1)) false (-1) 1.

Definition tras (l : list Sucesos) : Red nat := foldl (fun r su => (ns_mgr_poll su r).2) (red_inicial 0%nat) l.

Lemma peticion_respondida_witness :
  exists s1 sal s2, atendidas 0%nat s1 /\
    event_handler (Some (con_cuerpo "hola" (p_conn saludo))) MG_REQUEST (salida_nueva, s1) = (Ok MG_TRUE, (sal, s2)) /\
    atendidas s2 (estado (tras [conecta; manda [post; "ho"; "la"]; lee_uno; lee_uno; lee_uno; lee_uno])) /\
    ((String.length (send_iobuf (terminar_respuesta sal)) <= 4)%nat ->
     exists n', sock n' = 0%nat /\ entregado n' = send_iobuf (terminar_respuesta sal) /\
       In n' (active_connections (tras [conecta; manda [post; "ho"; "la"]; lee_uno; lee_uno; lee_uno; lee_uno])) /\
       conn n' = reposo "").
Proof.
  apply (peticion_respondida 0%nat (tras [conecta]) (manda [post; "ho"; "la"]) (tras [conecta; manda [post; "ho"; "la"]])
    [lee_uno; lee_uno; lee_uno; lee_uno] _ (mkNodo 0 5 (reposo "") 1 "") saludo [post; "ho"; "la"]).
  - apply rtc_once. apply (turno_ok conecta). reflexivity.
  - by left.
  - reflexivity.
  - vm_compute. reflexivity.
  - done.
  - reflexivity.
  - apply saludo_ok.
  - by repeat constructor.
  - reflexivity.
  - intros s _. by eexists.
  - repeat (eapply turnos_mas; [vm_compute; reflexivity|]). apply turnos_fin.
  - repeat (constructor; [split; [done|split; [by exists 0%nat|done]]|]). constructor.
Defined.

Lemma bucle_total_witness :
  match ns_mgr_poll (manda [post; "ho"; "la"]) (tras [conecta]) with
  | (Ok _, r') => Forall (fun n => Inv (conn n)) (active_connections r') /\ atendidas (estado (tras [conecta])) (estado r')
  | (Fallo e, _) => (exists c x y, event_handler c MG_REQUEST x = (Fallo e, y)) \/ In e indefinidos
  end.
Proof.
  apply (bucle_total 0%nat (tras [conecta]) (manda [post; "ho"; "la"])).
  apply rtc_once. apply (turno_ok conecta). reflexivity.
Defined.

Lemma rechazo_responde_witness :
  recibir (["GET / HT"] ++ ["TP/2.0" +:+ CRLF +:+ CRLF]) (reposo "", 7%nat) =
    (Ok tt, (con_finished true (reposo (texto_error 505)), 7%nat)).
Proof.
  apply (rechazo_responde ["GET / HT"] ("TP/2.0" +:+ CRLF +:+ CRLF) 505 "" 7%nat); [reflexivity|done|].
  apply (rechazo_version _ ("GET / HTTP/2.0" +:+ CRLF +:+ CRLF) "" (mkConn "GET" "/" "2.0" None [] "") 0);
    [split; vm_compute; reflexivity|reflexivity|vm_compute; reflexivity..|done|done].
Defined.

(** Two requests in one packet: the second is the end of the body of the first. *)
Lemma encadenadas_witness :
  recibir [post +:+ "hola" +:+ post +:+ "hola"] (reposo "", 7%nat) =
    (Ok tt, (reposo ("hola" +:+ post +:+ "hola"), 8%nat)).
Proof.
  apply (encadenadas saludo (post +:+ "hola") "" 7%nat
    (mkSalida 0 false false ("hola" +:+ post +:+ "hola")) 8%nat saludo_ok). reflexivity.
Defined.

End Clientes.
