(* ===== verification/Mundo.v ===== *)
(** * Mundo: the state of the process and its environment

    The singletons of the program ([Loger::logInstancia], [BaseDeDatos::pBaseDeDatos],
    [Localizacion::lugares]), the reply of the connection being served, the console, and
    the two interfaces to what lies outside the repository's own code: the operating
    system ([Entorno]) and the key-value store ([Almacen], RocksDB). *)

From S2P Require Import Prelude Libc JsonValue Mongoose.
Open Scope Z_scope.

(** ** src/constantes.h *)
Module Constantes.
Definition archivoLog := "Logger.txt".
Definition nivelLogger := "Info".
Definition Error := "error".
Definition Warn := "warn".
Definition Info := "info".
Definition Debug := "debug".
Definition fotoDePerfilDefault := "default".
Definition path_BaseDeDatos := "Base de Datos".
Definition keyDefault := "".
Definition puertoDefault := "8080".
Definition keyNombre := "Nombre".
Definition keyId := "Id".
Definition keyFotoDePerfil := "FotoDePerfil".
Definition keyEstadoDeConexion := "EstadoDeConexion".
Definition keyUltimaConexion := "Ultima Conexion".
Definition keyTelefono := "Telefono".
Definition keyLocalizacion := "Localizacion".
Definition keyTokenSesion := "Token".
Definition keyPassword := "Password".
Definition keyRenovarToken := "RenovarToken".
Definition keyIdConversacion := "Id".
Definition keyIdsUsuarios := "IdsUsuarios".
Definition keyMensajes := "Mensajes".
Definition keyCuerpo := "Cuerpo".
Definition keyIdUsuarioEmisor := "IdUsuarioEmisor".
Definition keyFecha := "Fecha".
Definition keyIdUsuarioReceptor := "IdUsuarioReceptor".
Definition SeparadorListaBD : ascii := "#"%char.
Definition urlPrueba := "/prueba".
Definition urlCheckinUsuario := "/usuario/checkIn".
Definition urlBaseUsuario := "/usuario/".
Definition urlBaseConversacion := "/conversacion/".
Definition urlBaseConversacionId := "/conversacion/id/".
Definition urlBaseUsuarioConversaciones := "/usuarioConversacion/".
Definition urlBaseContactos := "/contactos/".
Definition urlBaseListaDifusion := "/difusion/".
Definition keyIdUltimoMensaje := "idUltimoMensaje".
Definition keyIdConversaciones := "idsConversaciones".
Definition keyPayload := "payload".
Definition keySuccess := "success".
Definition keyTelefonoEmisor := "TelefonoEmisor".
Definition keyTelefonoReceptor := "TelefonoReceptor".
Definition keyContantosTelefono := "ContactosTelefono".
Definition keyLatitud := "latitud".
Definition keyLongitud := "longitud".
Definition keyDatoNoEncontrado := "NotFound".
Definition keyIdUsuarioNoEncontrado := "UsarioInvalido".
Definition keyIdConversacionNoEncontrada := "ConversacionInvalida".
End Constantes.

(** ** The operating system *)

(** The time zone database, the readings of the clock in the order they are made, the
    files that can be opened, and the byte order of the machine. *)
Class Entorno : Type := {
  localtime : Z -> Libc.tm;
  reloj : nat -> Z;
  archivo_en : string -> option string;
  big_endian : bool }.

Definition ctime {E : Entorno} (t : Z) : string := Libc.asctime (localtime t).

(** ** The key-value store *)

Inductive Status : Type := sOk | sNotFound | sOtro.
#[export] Instance Status_eq_dec : EqDecision Status.
Proof. solve_decision. Defined.

(** The calls of [rocksdb::DB] the program makes.  [Get] also gives the contents of
    [*value] after the call, which is empty before it. *)
Class Almacen : Type := {
  DB : Type;
  Open : string -> DB -> Status;
  Put : string -> string -> DB -> Status * DB;
  Get : string -> DB -> Status * string;
  Delete : string -> DB -> Status * DB }.

(** What the program relies on while the store works: a map from keys to values. *)
Class AlmacenOk (A : Almacen) : Type := {
  contenido : DB -> gmap string string;
  disponible : DB -> Prop;
  Open_ok : forall path d, disponible d -> Open path d = sOk;
  Put_ok : forall k v d, disponible d -> exists d', Put k v d = (sOk, d') /\ disponible d' /\
    contenido d' = <[k := v]> (contenido d);
  Get_ok : forall k d, disponible d -> Get k d =
    match contenido d !! k with Some v => (sOk, v) | None => (sNotFound, "") end;
  Delete_ok : forall k d, disponible d -> exists d', Delete k d = (sOk, d') /\ disponible d' /\
    contenido d' = delete k (contenido d) }.

(** A store in memory. *)
#[export] Instance memoria : Almacen := {|
  DB := gmap string string;
  Open := fun _ _ => sOk;
  Put := fun k v d => (sOk, <[k := v]> d);
  Get := fun k d => match d !! k with Some v => (sOk, v) | None => (sNotFound, "") end;
  Delete := fun k d => (sOk, delete k d) |}.

#[export] Instance memoria_ok : AlmacenOk memoria.
Proof.
  refine {| contenido := fun d : @DB memoria => d; disponible := fun _ => True |}; cbn; eauto.
Defined.

(** ** The process *)

Record EstadoLoger : Type := mkLoger {
  nivel : string;
  disco : string;        (* the contents of Logger.txt *)
  pendiente : string }.  (* what the stream has not flushed *)

Record Mundo {A : Almacen} : Type := mkMundo {
  base : DB;
  instancia : option bool;        (* pBaseDeDatos, and whether its DB could be opened *)
  pathBaseDeDatos : string;
  logInstancia : option EstadoLoger;
  lecturas : nat;                 (* readings of the clock so far *)
  lugares : Json.Value;
  salida : Mongoose.Salida;
  consola : string }.
Arguments Mundo A : clear implicits.

Section Acceso.
Context {A : Almacen}.

Definition con_base (d : DB) (w : Mundo A) : Mundo A :=
  mkMundo A d (instancia w) (pathBaseDeDatos w) (logInstancia w) (lecturas w) (lugares w) (salida w) (consola w).
Definition con_instancia (i : option bool) (w : Mundo A) : Mundo A :=
  mkMundo A (base w) i (pathBaseDeDatos w) (logInstancia w) (lecturas w) (lugares w) (salida w) (consola w).
Definition con_loger (l : option EstadoLoger) (w : Mundo A) : Mundo A :=
  mkMundo A (base w) (instancia w) (pathBaseDeDatos w) l (lecturas w) (lugares w) (salida w) (consola w).
Definition con_lecturas (n : nat) (w : Mundo A) : Mundo A :=
  mkMundo A (base w) (instancia w) (pathBaseDeDatos w) (logInstancia w) n (lugares w) (salida w) (consola w).
Definition con_lugares (v : Json.Value) (w : Mundo A) : Mundo A :=
  mkMundo A (base w) (instancia w) (pathBaseDeDatos w) (logInstancia w) (lecturas w) v (salida w) (consola w).
Definition con_salida (s : Mongoose.Salida) (w : Mundo A) : Mundo A :=
  mkMundo A (base w) (instancia w) (pathBaseDeDatos w) (logInstancia w) (lecturas w) (lugares w) s (consola w).
Definition con_consola (s : string) (w : Mundo A) : Mundo A :=
  mkMundo A (base w) (instancia w) (pathBaseDeDatos w) (logInstancia w) (lecturas w) (lugares w) (salida w) s.

(** [time(0)] *)
Definition time_ {E : Entorno} : M (Mundo A) Z :=
  let* n := leer lecturas in cambiar (con_lecturas (S n));;; ret (reloj n).

End Acceso.
