(* ===== verification/Arranque.v ===== *)
(** * Arranque: the options of the web server and its start (src/WebServer/mongoose.c, Servidor.cpp)

    The table of options and their defaults, the lists of values separated by commas, the
    addresses the server listens on and the access list; [Servidor::iniciar] up to its loop.
    What the kernel and the resolver answer is the interface [Nucleo]; what [getopt] answers
    to [main] is a parameter. *)

From S2P Require Import Prelude Libc JsonValue StringUtil Mongoose Mundo Escaneo.
Open Scope Z_scope.

(** What the start asks of the system: [gethostbyname], and a socket bound to an address and
    listening (or bound, for datagrams), with the port the kernel chose for it; the group and
    the user of a name, and whether the process could take them. *)
Class Nucleo := {
  gethostbyname : string -> option Z;
  escuchar : Z -> Z -> bool -> option Z;
  getpwnam : string -> option (Z * Z);
  setgid : Z -> bool;
  setuid : Z -> bool }.

Module Arranque.
Import Libc Escaneo.

(** ** Options *)

Definition DEFAULT_CGI_PATTERN : string := "**.cgi$|**.pl$|**.php$".
Definition static_config_options : list (string * option string) := [
  ("access_control_list", None); ("access_log_file", None); ("auth_domain", Some "mydomain.com");
  ("cgi_interpreter", None); ("cgi_pattern", Some DEFAULT_CGI_PATTERN); ("dav_auth_file", None);
  ("dav_root", None); ("document_root", None); ("enable_directory_listing", Some "yes");
  ("enable_proxy", None); ("extra_mime_types", None); ("global_auth_file", None);
  ("hide_files_patterns", None); ("hexdump_file", None);
  ("index_files", Some "index.html,index.htm,index.shtml,index.cgi,index.php"); ("listening_port", None);
  ("run_as_user", None); ("ssi_pattern", Some "**.shtml$|**.shtm$"); ("url_rewrites", None) ].
Definition NUM_OPTIONS : nat := 19.
Definition ACCESS_CONTROL_LIST : nat := 0.
Definition DOCUMENT_ROOT : nat := 7.
Definition HEXDUMP_FILE : nat := 13.
Definition LISTENING_PORT : nat := 15.
Definition RUN_AS_USER : nat := 16.

(** A listening socket. *)
Record oyente : Type := mkOyente { ip : Z; puerto : Z; udp : bool }.

Record mg_server : Type := mkServer {
  config_options : list (option string);
  oyentes : list oyente;
  hexdump_file : option string }.

(** The index of the first option with that name, [-1] as [None]. *)
Fixpoint buscar_opcion (i : nat) (l : list (string * option string)) (name : string) : option nat :=
  match l with
  | [] => None
  | (n, _) :: l => if String.eqb n name then Some i else buscar_opcion (S i) l name
  end.
Definition get_option_index (name : string) : option nat := buscar_opcion 0 static_config_options name.

Definition set_default_option_values (opts : list (option string)) : list (option string) :=
  zip_with (fun (o : option string) '(_, value) => match o with Some _ => o | None => value end)
    opts static_config_options.

Definition mg_create_server : mg_server :=
  mkServer (set_default_option_values (replicate NUM_OPTIONS None)) [] None.

Definition opcion (srv : mg_server) (i : nat) : option string := mjoin (config_options srv !! i).

Definition mg_get_option (srv : mg_server) (name : string) : option string :=
  match get_option_index name with
  | None => None
  | Some i => Some (default "" (opcion srv i))
  end.

(** [next_option(list, &val, NULL)]: the list that remains and the value, as the pointer
    [ptr], which is not cut at the comma, and its length; [None] at the end. *)
Record vec : Type := mkVec { ptr : string; len : nat }.
Definition next_option (list : option string) : option (vec * string) :=
  match list with
  | None | Some "" => None
  | Some l =>
      let '(a, r) := abarcar (fun c => negb (Ascii.eqb c ",")) l in
      Some (mkVec l (String.length a), saltear 1 r)
  end.
(** ** The access list *)

Definition isbyte (n : Z) : bool := (0 <=? n) && (n <=? 255).

(** The network and the mask, [None] when the function returns 0. *)
Definition parse_net (spec : string) : res (option (Z * Z)) :=
  let cuatro := [Entero true; Letra "."; Entero true; Letra "."; Entero true; Letra "."; Entero true] in
  let? o := sscanf (cuatro ++ [Letra "/"; Entero true]) spec in
  let? o := match o with
            | Some ([DZ a; DZ b; DZ c; DZ d; DZ slash], _) => Ok (Some (a, b, c, d, slash))
            | _ => let? o := sscanf cuatro spec in
                   Ok (match o with Some ([DZ a; DZ b; DZ c; DZ d], _) => Some (a, b, c, d, 32) | _ => None end)
            end in
  Ok (match o with
      | Some (a, b, c, d, slash) =>
          if isbyte a && isbyte b && isbyte c && isbyte d && (0 <=? slash) && (slash <? 33) then
            Some (Z.lor (Z.shiftl a 24) (Z.lor (Z.shiftl b 16) (Z.lor (Z.shiftl c 8) d)),
                  if slash =? 0 then 0 else (Z.shiftl 0xffffffff (32 - slash)) mod 2 ^ 32)
          else None
      | None => None
      end).

(** [-1] for an item that is not a rule, otherwise 1 or 0.  Every turn of the loop takes at
    least a character. *)
Fixpoint acl_loop (fuel : nat) (acl : option string) (allowed : ascii) (remote_ip : Z) : res Z :=
  match fuel with
  | O => Fallo SinCombustible
  | S fuel =>
      match next_option acl with
      | None => Ok (if Ascii.eqb allowed "+" then 1 else 0)
      | Some (v, resto) =>
          let flag := match ptr v with String c _ => c | "" => NUL end in
          if negb (Ascii.eqb flag "+" || Ascii.eqb flag "-") then Ok (-1)
          else
            let? o := parse_net (saltear 1 (ptr v)) in
            match o with
            | None => Ok (-1)
            | Some (net, mask) =>
                acl_loop fuel (Some resto) (if net =? Z.land remote_ip mask then flag else allowed) remote_ip
            end
      end
  end.
Definition check_acl (acl : option string) (remote_ip : Z) : res Z :=
  acl_loop (S (String.length (default "" acl))) acl (match acl with None => "+" | Some _ => "-" end)%char remote_ip.

(** Whether [on_accept] keeps a connection: only the answer 0 closes it. *)
Definition admite (srv : mg_server) (remote_ip : Z) : res bool :=
  let? r := check_acl (opcion srv ACCESS_CONTROL_LIST) remote_ip in Ok (negb (r =? 0)).

(** ** Addresses *)

Record direccion : Type := mkDireccion {
  s_addr : Z;          (* host order, 0 is INADDR_ANY *)
  sin_port : Z;
  dgram : bool;
  use_ssl : bool;
  cert : string;
  ca : string }.

Section Nucleo.
Context {N : Nucleo}.

(** The address, the port, if one was read, and the length of the match. *)
Definition leer_direccion (str : string) : res (Z * option Z * nat) :=
  let u := Entero false in
  let? o := sscanf [u; Letra "."; u; Letra "."; u; Letra "."; u; Letra ":"; u] str in
  match o with
  | Some ([DZ a; DZ b; DZ c; DZ d; DZ port], r) =>
      Ok ((Z.lor (Z.shiftl a 24) (Z.lor (Z.shiftl b 16) (Z.lor (Z.shiftl c 8) d))) mod 2 ^ 32, Some port, n_leidos str r)
  | _ =>
      let? o := sscanf [Tramo 199 " :"; Letra ":"; u] str in
      match o with
      | Some ([DS host; DZ port], r) => Ok (default 0 (gethostbyname host), Some port, n_leidos str r)
      | _ =>
          let? o := sscanf [u] str in
          match o with
          | Some ([DZ port], r) => Ok (0, Some port, n_leidos str r)
          | _ => Ok (0, None, O)
          end
      end
  end.

(** The certificates of an [ssl://] address. *)
Definition leer_certificados (s : string) : res (string * string * nat) :=
  let? o := sscanf [Letra ":"; Tramo 99 ":,"; Letra ":"; Tramo 99 ":,"] s in
  match o with
  | Some ([DS cert; DS ca], r) => Ok (cert, ca, n_leidos s r)
  | _ =>
      let? o := sscanf [Letra ":"; Tramo 99 ":,"] s in
      match o with
      | Some ([DS cert], r) => Ok (cert, "", n_leidos s r)
      | _ => Ok ("", "", O)
      end
  end.

(** The returned length compares a [port] that is not initialised when no format matches.
    [memcmp(str, "ssl://", 6)] compares up to the first difference. *)
Definition ns_parse_address (str : string) : res (direccion * nat) :=
  let '(str, use_ssl, dgram) :=
    match quitar_prefijo "ssl://" str, quitar_prefijo "udp://" str, quitar_prefijo "tcp://" str with
    | Some r, _, _ => (r, true, false)
    | None, Some r, _ => (r, false, true)
    | None, None, Some r => (r, false, false)
    | None, None, None => (str, false, false)
    end in
  let? '(addr, port, len) := leer_direccion str in
  let? '(cert, ca, n) := if use_ssl : bool then leer_certificados (saltear len str) else Ok ("", "", O) in
  let len := (len + n)%nat in
  match port with
  | None => Fallo (Indefinido "ns_parse_address: port is not initialised")
  | Some port =>
      Ok (mkDireccion addr (port mod 2 ^ 16) dgram use_ssl cert ca,
          if (port <? 0xffff) && String.eqb (saltear len str) "" then len else O)
  end.

(** The socket added to the server, or [None] for [NULL]. *)
Definition ns_bind (srv : mg_server) (str : string) : res (mg_server * option oyente) :=
  let? '(sa, _) := ns_parse_address str in
  if use_ssl sa && String.eqb (cert sa) "" then Ok (srv, None)
  else
    match escuchar (s_addr sa) (sin_port sa) (dgram sa) with
    | None => Ok (srv, None)
    | Some p =>
        let o := mkOyente (s_addr sa) p (dgram sa) in
        Ok (mkServer (config_options srv) (o :: oyentes srv) (hexdump_file srv), Some o)
    end.

(** [ns_sock_to_str] of a listening socket, with flags 2 or 3. *)
Definition inet_ntop (a : Z) : string :=
  decimal (Z.land (Z.shiftr a 24) 255) +:+ "." +:+ decimal (Z.land (Z.shiftr a 16) 255) +:+ "." +:+
  decimal (Z.land (Z.shiftr a 8) 255) +:+ "." +:+ decimal (Z.land a 255).
Definition ns_sock_to_str (o : oyente) (con_ip : bool) : string :=
  (if con_ip then inet_ntop (ip o) +:+ ":" else "") +:+ decimal (puerto o).

(** The loop of [mg_set_option] on the ports, with the text written so far in [buf]; [snprintf]
    returns the length of the whole text, so the space left wraps around past 500. *)
Fixpoint abrir_puertos (fuel : nat) (srv : mg_server) (value : string) (buf : string)
  : res (mg_server * string * option string) :=
  match fuel with
  | O => Fallo SinCombustible
  | S fuel =>
      match next_option (Some value) with
      | None => Ok (srv, buf, None)
      | Some (v, resto) =>
          let? '(srv, c) := ns_bind srv (ptr v) in
          match c with
          | None => Ok (srv, buf, Some "Cannot bind to port")
          | Some o =>
              let? '(sa, _) := ns_parse_address (ptr v) in
              let buf2 := ns_sock_to_str o (contiene ":" (prefijo (len v) (ptr v))) in
              if (500 <? String.length buf)%nat then Fallo (Indefinido "mg_set_option: buffer overflow")
              else
                abrir_puertos fuel srv resto
                  (buf +:+ (if String.eqb buf "" then "" else ",") +:+ (if use_ssl sa then "ssl://" else "") +:+ buf2 +:+
                   (if String.eqb (cert sa) "" then "" else ":" +:+ cert sa) +:+
                   (if String.eqb (ca sa) "" then "" else ":" +:+ ca sa))
          end
      end
  end.

Definition con_opcion (i : nat) (v : option string) (srv : mg_server) : mg_server :=
  mkServer (<[i := v]> (config_options srv)) (oyentes srv) (hexdump_file srv).

(** The error message of the option [run_as_user]. *)
Definition run_as_user (value : string) : option string :=
  match getpwnam value with
  | None => Some "Unknown user"
  | Some (pw_gid, pw_uid) =>
      if negb (setgid pw_gid) then Some "setgid() failed"
      else if negb (setuid pw_uid) then Some "setuid() failed" else None
  end.

(** The server and the error message, [None] for [NULL]. *)
Definition mg_set_option (srv : mg_server) (name : string) (value : option string) : res (mg_server * option string) :=
  match get_option_index name with
  | None => Ok (srv, Some "No such option")
  | Some ind =>
      let v := opcion srv ind in
      if decide (v = value) then Ok (srv, None)
      else
        match value with
        | None | Some "" => Ok (con_opcion ind None srv, None)
        | Some value =>
            let srv := con_opcion ind (Some value) srv in
            if (ind =? LISTENING_PORT)%nat then
              let? '(srv, buf, error_msg) := abrir_puertos (S (String.length value)) srv value "" in
              Ok (con_opcion ind (Some (prefijo 499 buf)) srv, error_msg)
            else if (ind =? HEXDUMP_FILE)%nat then
              Ok (mkServer (config_options srv) (oyentes srv) (Some value), None)
            else if (ind =? RUN_AS_USER)%nat then Ok (srv, run_as_user value)
            else Ok (srv, None)
        end
  end.

(** [Servidor::iniciar] before its loop: the server and the line it prints.  The error of
    [mg_set_option] is not looked at. *)
Definition iniciar (puerto : option string) : res (mg_server * string) :=
  let srv := mg_create_server in
  let? '(srv, _) := mg_set_option srv "listening_port" puerto in
  Ok (srv, "Starting on port " +:+ default "(null)" (mg_get_option srv "listening_port") +:+ LF).

(** The options of [main]: [llamadas] are the answers of [getopt] before it is done, each with
    the [optind] it leaves; the end of [argv] is a null pointer. *)
Fixpoint elegir_puerto (puerto : option string) (argv : list string) (llamadas : list (ascii * nat)) : option string :=
  match llamadas with
  | [] => puerto
  | (tmp, optind) :: llamadas =>
      elegir_puerto (if Ascii.eqb tmp "p" then argv !! optind else puerto) argv llamadas
  end.
Definition main (argv : list string) (llamadas : list (ascii * nat)) : res (mg_server * string) :=
  iniciar (elegir_puerto (Some (StringUtil.str2Char Constantes.puertoDefault)) argv llamadas).

End Nucleo.
End Arranque.

(** ** The start *)
Module ArranqueOk.
Import Libc Escaneo Arranque.

Section Digitos.
Context {N : Nucleo} (ds : string).
Hypothesis Hd : todos isdigit ds = true.
Hypothesis Hne : ds <> "".
Hypothesis Hv : valor_decimal 0 ds < 2 ^ 32.

Lemma cabeza_digito : exists c r, ds = String c r /\ isdigit c = true.
Proof. destruct ds as [|c r]; [done|]. cbn [todos] in Hd. partir. eauto. Qed.

Lemma abarcar_digitos : abarcar isdigit ds = (ds, "").
Proof. rewrite <- (app_nil_r_s ds) at 1. by apply abarcar_exacto. Qed.

Lemma leer_digitos : leer_entero false ds = Ok (Some (valor_decimal 0 ds, "")).
Proof.
  unfold leer_entero. destruct cabeza_digito as (c & r & E & Hc). pose proof abarcar_digitos as Ha. rewrite E in *.
  assert (abarcar isspace (String c r) = ("", String c r)) as ->.
  { cbn [abarcar]. assert (isspace c = false) as -> by (by destruct c as [[][][][][][][][]]). done. }
  assert (match String c r with String "-" r => (true, r) | String "+" r => (false, r) | _ => (false, String c r) end =
    (false, String c r)) as -> by (by destruct c as [[][][][][][][][]]).
  rewrite Ha. cbn [String.eqb]. destruct (Z.ltb_spec (2 ^ 32 - 1) (valor_decimal 0 (String c r))); [lia|done].
Qed.

Lemma tomar_resto n s a b : todos isdigit s = true -> tomar n " :" s = (a, b) -> todos isdigit b = true.
Proof.
  revert s a b. induction n as [|n IH]; intros s a b Hs E; [by injection E as <- <-|].
  destruct s as [|c r]; [by injection E as <- <-|]. cbn [tomar] in E. destruct (contiene c " :"); [by injection E as <- <-|].
  cbn [todos] in Hs. partir. destruct (tomar n " :" r) as [a' b'] eqn:Et. injection E as <- <-. by eapply IH.
Qed.

Lemma direccion_digitos : leer_direccion ds = Ok (0, Some (valor_decimal 0 ds), String.length ds).
Proof.
  unfold leer_direccion. cbn [sscanf]. rewrite leer_digitos. cbn [bindR]. cbv beta iota.
  destruct (tomar 199 " :" ds) as [a b] eqn:Et. pose proof (tomar_resto _ _ _ _ Hd Et) as Hb.
  assert (forall B (f : string -> res (option B)), match b with String c r => if Ascii.eqb ":" c then f r else Ok None | "" => Ok None end = Ok None) as Hcol.
  { intros B f. destruct b as [|c r]; [done|]. cbn [todos] in Hb. partir. by destruct c as [[][][][][][][][]]. }
  rewrite Hcol. cbn [bindR fmap option_fmap option_map]. destruct (String.eqb a ""); cbn [bindR];
    cbv beta iota; cbn [fmap option_fmap option_map app]; unfold n_leidos; cbn [String.length]; by rewrite Nat.sub_0_r.
Qed.

Lemma parse_address_digitos : exists n,
  ns_parse_address ds = Ok (mkDireccion 0 (valor_decimal 0 ds mod 2 ^ 16) false false "" "", n).
Proof.
  unfold ns_parse_address.
  assert (quitar_prefijo "ssl://" ds = None /\ quitar_prefijo "udp://" ds = None /\ quitar_prefijo "tcp://" ds = None)
    as (-> & -> & ->).
  { destruct cabeza_digito as (c & r & -> & Hc). by destruct c as [[][][][][][][][]]. }
  rewrite direccion_digitos. cbn [bindR]. cbv beta iota. eexists. reflexivity.
Qed.

Lemma next_option_digitos : next_option (Some ds) = Some (mkVec ds (String.length ds), "").
Proof.
  assert (abarcar (fun c => negb (Ascii.eqb c ",")) ds = (ds, "")) as Ha.
  { rewrite <- (app_nil_r_s ds) at 1. apply abarcar_exacto; [|done].
    eapply todos_impl; [|exact Hd]. intros c Hc. by destruct c as [[][][][][][][][]]. }
  unfold next_option. destruct cabeza_digito as (c & r & E & _). rewrite E in *. by rewrite Ha.
Qed.

Lemma abrir_digitos srv fuel : (1 < fuel)%nat ->
  abrir_puertos fuel srv ds "" =
  match escuchar 0 (valor_decimal 0 ds mod 2 ^ 16) false with
  | Some p => Ok (mkServer (config_options srv) (mkOyente 0 p false :: oyentes srv) (hexdump_file srv), decimal p, None)
  | None => Ok (srv, "", Some "Cannot bind to port")
  end.
Proof.
  intros Hf. destruct fuel as [|[|fuel]]; [lia..|]. cbn [abrir_puertos]. rewrite next_option_digitos.
  destruct parse_address_digitos as [n Hp]. unfold ns_bind. cbn [ptr len]. rewrite Hp. cbn [bindR use_ssl s_addr sin_port dgram andb].
  destruct (escuchar 0 _ false) as [p|]; [|done]. cbn [bindR cert ca String.eqb String.length Nat.ltb Nat.leb].
  assert (contiene ":" (prefijo (String.length ds) ds) = false) as ->.
  { rewrite prefijo_todo by lia. by apply (todos_no_contiene isdigit). }
  unfold ns_sock_to_str. cbn [next_option puerto]. rewrite !app_nil_l_s, !app_nil_r_s. done.
Qed.
End Digitos.
Lemma decimal_corto p : 0 <= p < 2 ^ 16 -> (String.length (decimal p) <= 499)%nat.
Proof.
  intros Hp. unfold decimal.
  assert (forall fuel n acc, (String.length (digitos fuel n acc) <= fuel + String.length acc)%nat) as H.
  { induction fuel as [|fuel IH]; intros n acc; cbn [digitos]; [lia|].
    destruct (n / 10 =? 0); cbn [String.length]; [lia|]. etrans; [apply IH|]. cbn. lia. }
  etrans; [apply H|]. cbn [String.length]. pose proof (Z.log2_le_mono p (2 ^ 16) ltac:(lia)) as Hl.
  change (Z.log2 (2 ^ 16)) with 16 in Hl. pose proof (Z.log2_nonneg p). lia.
Qed.

(** The last [-p] decides. *)
Lemma elegir_puerto_app puerto argv l i : elegir_puerto puerto argv (l ++ [("p"%char, i)]) = argv !! i.
Proof. revert puerto. induction l as [|[t j] l IH]; intros puerto; [done|]. apply IH. Qed.

Lemma elegir_puerto_ultimo puerto argv l : elegir_puerto puerto argv l =
  match last (filter (fun q => q.1 = "p"%char) l) with Some (_, i) => argv !! i | None => puerto end.
Proof.
  induction l as [|[t j] l IH] using rev_ind; [done|]. rewrite filter_app, last_app, filter_cons, filter_nil. cbn [fst].
  destruct (decide (t = "p"%char)) as [->|Hn]; [by rewrite elegir_puerto_app|]. cbn [last]. rewrite <- IH. clear IH.
  revert puerto. induction l as [|[t' j'] l IH]; intros puerto; [|apply IH]. cbn.
  by destruct (Ascii.eqb_spec t "p"); [congruence|].
Qed.

(** C35. Start on a port: if the last [-p] of the command line is followed by the decimal digits
    of a port, or there is none and the port is 8080, [main] listens on every address
    at that port modulo 2^16 (or at the one the kernel picks for 0) and prints it; if the
    kernel refuses, it goes on all the same, with no socket and an empty port, and so it does
    when nothing follows [-p].  Every other option has its default: in particular there is no
    document root, no rewriting, no proxy and no access list, so no client is turned away. *)
Theorem arranque {N : Nucleo} (ds : string) (argv : list string) (llamadas : list (ascii * nat))
    (r := escuchar 0 (valor_decimal 0 ds mod 2 ^ 16) false) :
  todos isdigit ds = true -> ds <> "" -> valor_decimal 0 ds < 2 ^ 32 -> (forall p, r = Some p -> 0 <= p < 2 ^ 16) ->
  (last (filter (fun q => q.1 = "p"%char) llamadas) = None /\ ds = "8080" \/
   exists i, last (filter (fun q => q.1 = "p"%char) llamadas) = Some ("p"%char, i) /\ argv !! i = Some ds) ->
  (exists srv, main argv llamadas = Ok (srv, "Starting on port " +:+ from_option decimal "" r +:+ LF) /\
    oyentes srv = (match r with Some p => [mkOyente 0 p false] | None => [] end) /\
    opcion srv LISTENING_PORT = Some (from_option decimal "" r) /\
    (forall i, i <> LISTENING_PORT -> opcion srv i = mjoin (snd <$> static_config_options !! i)) /\
    forall a, admite srv a = Ok true) /\
  main argv (llamadas ++ [("p"%char, length argv)]) = Ok (mg_create_server, "Starting on port " +:+ LF) /\
  oyentes mg_create_server = [].
Proof.
  intros Hd Hne Hv Hp Hargs. split; [|split; [|done]].
  2:{ unfold main. by rewrite elegir_puerto_app, lookup_ge_None_2. }
  assert (elegir_puerto (Some (StringUtil.str2Char Constantes.puertoDefault)) argv llamadas = Some ds) as Ee.
  { rewrite elegir_puerto_ultimo. by destruct Hargs as [[-> ->]|(i & -> & Hi)]. }
  pose proof (abrir_digitos ds Hd Hne Hv) as Ha. fold r in Ha. clearbody r.
  assert (mg_set_option mg_create_server "listening_port" (Some ds) =
    Ok (mkServer (<[LISTENING_PORT := Some (from_option decimal "" r)]> (config_options mg_create_server))
          (match r with Some p => [mkOyente 0 p false] | None => [] end) None,
        match r with Some _ => None | None => Some "Cannot bind to port" end)) as E.
  { unfold mg_set_option. change (get_option_index "listening_port") with (Some LISTENING_PORT).
    cbv beta iota zeta. rewrite decide_False by done. change (LISTENING_PORT =? LISTENING_PORT)%nat with true.
    destruct ds as [|c s]; [done|]. cbv beta iota.
    rewrite Ha by (cbn; lia). destruct r as [p|] eqn:Er; [|done]. cbn [bindR from_option].
    rewrite prefijo_todo by (by apply decimal_corto, Hp). done. }
  eexists. unfold main. rewrite Ee. unfold iniciar. rewrite E. cbn [bindR]. cbv beta iota. split_and!; [reflexivity|done|done| |].
  - intros i Hi. unfold opcion. cbn [config_options]. rewrite list_lookup_insert_ne by done.
    do 19 (destruct i as [|i]; [done|]). done.
  - intros a. done.
Qed.

#[local] Instance nucleo_ejemplo : Nucleo := {|
  gethostbyname := fun _ => None;
  escuchar := fun _ p _ => if p =? 80 then None else Some (if p =? 0 then 49152 else p);
  getpwnam := fun _ => None;
  setgid := fun _ => false;
  setuid := fun _ => false |}.

Lemma arranque_witness :
  exists srv, main ["mensajero"; "-p"; "73616"] [("p"%char, 2%nat)] = Ok (srv, "Starting on port " +:+ "8080" +:+ LF) /\
    oyentes srv = [mkOyente 0 8080 false].
Proof.
  assert (forall p, escuchar 0 (valor_decimal 0 "73616" mod 2 ^ 16) false = Some p -> 0 <= p < 2 ^ 16) as Hp
    by (intros p [= <-]; done).
  destruct (arranque "73616" ["mensajero"; "-p"; "73616"] [("p"%char, 2%nat)] eq_refl ltac:(done) eq_refl Hp) as [(srv & H1 & H2 & _) _].
  { right. exists 2%nat. split; reflexivity. }
  exists srv. split; [exact H1|exact H2].
Defined.

End ArranqueOk.
