(* ===== verification/Disco.v ===== *)
(** * Disco: the file system behind src/WebServer/mongoose.c

    The calls the web server makes of the file system, as an interface [Disco] on an abstract
    disk; what it relies on while the disk works, [DiscoOk], is the part of POSIX about a tree
    of directories and files: a path with a final slash or dot names directories only, a
    directory's own times and sizes may change with what it holds, and [rmdir] refuses a path
    that ends in a dot.  A disk that works ([sano]) has no links, refuses nobody, has room, takes names
    and paths of any length, and nobody else changes it between two calls.  [arbol_disco]
    is a disk in memory that keeps the contract. *)

From S2P Require Import Prelude Libc Mongoose Fechas.
Open Scope Z_scope.

Module Disco.
Import Libc.

(** What [stat] says: its times and sizes, and [S_ISDIR(st_mode)]. *)
Record stat_t : Type := mkStat_t { datos : Fechas.file_stat_t; es_dir : bool }.

Definition ENOENT : Z := 2.
Definition EACCES : Z := 13.
Definition EEXIST : Z := 17.
Definition ENOTDIR : Z := 20.
Definition EISDIR : Z := 21.

(** The calls: [abrir] is [fopen] or [open] for reading and gives the text that will be
    read, which is empty for a directory, or [errno]; [opendir] gives the names that
    [readdir] will give; [crear] is [open] with [O_CREAT] and [O_TRUNC]; [mkdir] and [crear]
    give [errno] when they fail; [write] writes at a position of an open file and says how
    many bytes it wrote. *)
Class Disco (D : Type) : Type := {
  stat : string -> D -> option stat_t;
  abrir : string -> D -> Z + string;
  opendir : string -> D -> option (list string);
  mkdir : string -> D -> option Z * D;
  remove : string -> D -> bool * D;
  rmdir : string -> D -> D;
  crear : string -> D -> option Z * D;
  write : string -> Z -> string -> D -> option Z * D;
  strerror : Z -> string }.

(** ** Paths *)

(** The pieces of a path between slashes; the empty one and the dot name nothing. *)
Fixpoint trozos (s : string) : list string :=
  match s with
  | "" => [""]
  | String c r =>
      if Ascii.eqb c "/" then "" :: trozos r
      else match trozos r with t :: l => String c t :: l | [] => [String c ""] end
  end.
Definition ruta (p : string) : list string := filter (fun t => t <> "" /\ t <> ".") (trozos p).

(** A path from the root that does not climb. *)
Definition absoluta (p : string) : bool := match p with String "/" _ => true | _ => false end.
Definition propia (p : string) : Prop := absoluta p = true /\ ".." ∉ trozos p.
#[export] Instance propia_dec p : Decision (propia p).
Proof. apply _. Defined.

(** A path that ends in a slash or a dot names a directory; one whose last piece is a dot
    names it by its own entry. *)
Definition nombra_carpeta (p : string) : bool := bool_decide (default "" (last (trozos p)) ∈ [""; "."]).
Definition punto_final (p : string) : bool := bool_decide (last (filter (fun t => t <> "") (trozos p)) = Some ".").

(** The name of an entry of a directory. *)
Definition nombre_ok (n : string) : Prop := contiene "/" n = false /\ n <> "" /\ n <> "." /\ n <> "..".
#[export] Instance nombre_ok_dec n : Decision (nombre_ok n).
Proof. apply _. Defined.

Lemma trozos_no_vacio s : trozos s <> [].
Proof. destruct s as [|c s]; cbn [trozos]; [done|]. destruct (Ascii.eqb c "/"); [done|]. by destruct (trozos s). Qed.

Lemma trozos_barra a b : trozos (a +:+ String "/" b) = trozos a ++ trozos b.
Proof.
  induction a as [|c a IH]; [done|]. rewrite app_cons_s. cbn [trozos]. rewrite IH.
  destruct (Ascii.eqb c "/"); [done|]. pose proof (trozos_no_vacio a). by destruct (trozos a).
Qed.

Lemma trozos_nombre n : contiene "/" n = false -> trozos n = [n].
Proof.
  induction n as [|c n IH]; [done|]. rewrite contiene_cons. intros [Hc Hn]%orb_false_elim. cbn [trozos].
  rewrite Ascii.eqb_sym, Hc, (IH Hn). done.
Qed.

Lemma ruta_barra a b : ruta (a +:+ String "/" b) = ruta a ++ ruta b.
Proof. unfold ruta. by rewrite trozos_barra, filter_app. Qed.

Lemma ruta_nombre n : nombre_ok n -> ruta n = [n].
Proof.
  intros (Hb & H1 & H2 & _). unfold ruta. rewrite trozos_nombre by done.
  by rewrite filter_cons_True, filter_nil by done.
Qed.

Lemma ruta_hijo a n : nombre_ok n -> ruta (a +:+ String "/" n) = ruta a ++ [n].
Proof. intros Hn. by rewrite ruta_barra, (ruta_nombre n Hn). Qed.

Lemma propia_hijo a n : propia a -> nombre_ok n -> propia (a +:+ String "/" n).
Proof.
  intros [Ha Hs] (Hb & _ & _ & Hn). split.
  - destruct a as [|c a]; [done|]. rewrite app_cons_s. destruct c as [[][][][][][][][]]; done || discriminate Ha.
  - rewrite trozos_barra, (trozos_nombre n Hb), elem_of_app, list_elem_of_singleton. intros [?|<-]; done.
Qed.

Lemma nombra_carpeta_hijo a n : nombre_ok n -> nombra_carpeta (a +:+ String "/" n) = false.
Proof.
  intros (Hb & H1 & H2 & _). unfold nombra_carpeta. rewrite trozos_barra, (trozos_nombre n Hb), last_snoc. cbn [default].
  apply bool_decide_eq_false_2. rewrite !elem_of_cons, elem_of_nil. by intros [?|[?|?]].
Qed.

Lemma punto_final_hijo a n : nombre_ok n -> punto_final (a +:+ String "/" n) = false.
Proof.
  intros (Hb & H1 & H2 & _). unfold punto_final. rewrite trozos_barra, (trozos_nombre n Hb), filter_app, filter_cons_True, filter_nil by done.
  rewrite last_snoc. apply bool_decide_eq_false_2. congruence.
Qed.

(** ** A disk that works *)

(** What a disk holds: of a directory, that it is there. *)
Inductive nodo : Type :=
| Carpeta
| Archivo (mtime : Z) (texto : string).

Definition es_carpeta (x : option nodo) : bool := match x with Some Carpeta => true | _ => false end.

(** What [stat] may say of a path where there is [x]. *)
Definition estado_de (x : option nodo) (p : string) (s : option stat_t) : Prop :=
  match x with
  | Some Carpeta => exists st, s = Some (mkStat_t st true)
  | Some (Archivo m t) => s = if nombra_carpeta p then None else Some (mkStat_t (Fechas.mkStat m (largo t)) false)
  | None => s = None
  end.

Abbreviation arbol := (gmap (list string) nodo).

(** Everything is in a directory, under a name. *)
Definition bien_formado (a : arbol) : Prop :=
  forall k n, is_Some (a !! (k ++ [n])) -> es_carpeta (a !! k) = true /\ nombre_ok n.

Class DiscoOk (D : Type) {H : Disco D} : Type := {
  contenido : D -> arbol;
  sano : D -> Prop;
  sano_bien d : sano d -> bien_formado (contenido d);
  stat_ok p d : sano d -> propia p -> estado_de (contenido d !! ruta p) p (stat p d);
  abrir_ok p d m t : sano d -> propia p -> contenido d !! ruta p = Some (Archivo m t) -> nombra_carpeta p = false -> abrir p d = inr t;
  opendir_ok p d : sano d -> propia p -> contenido d !! ruta p = Some Carpeta ->
    exists l, opendir p d = Some l /\ NoDup l /\
      forall n, n <> "." -> n <> ".." -> n ∈ l <-> is_Some (contenido d !! (ruta p ++ [n]));
  mkdir_ok p d k n : sano d -> propia p -> ruta p = k ++ [n] -> punto_final p = false ->
    contenido d !! ruta p = None -> es_carpeta (contenido d !! k) = true ->
    exists d', mkdir p d = (None, d') /\ sano d' /\ contenido d' = <[ruta p := Carpeta]> (contenido d);
  remove_ok p d m t : sano d -> propia p -> contenido d !! ruta p = Some (Archivo m t) -> nombra_carpeta p = false ->
    exists d', remove p d = (true, d') /\ sano d' /\ contenido d' = delete (ruta p) (contenido d);
  rmdir_ok p d : sano d -> propia p -> contenido d !! ruta p = Some Carpeta -> ruta p <> [] -> punto_final p = false ->
    (forall n, contenido d !! (ruta p ++ [n]) = None) ->
    sano (rmdir p d) /\ contenido (rmdir p d) = delete (ruta p) (contenido d);
  crear_ok p d k n : sano d -> propia p -> ruta p = k ++ [n] -> nombra_carpeta p = false ->
    es_carpeta (contenido d !! k) = true -> es_carpeta (contenido d !! ruta p) = false ->
    exists d' m, crear p d = (None, d') /\ sano d' /\ contenido d' = <[ruta p := Archivo m ""]> (contenido d);
  write_ok p d m t b : sano d -> propia p -> contenido d !! ruta p = Some (Archivo m t) -> nombra_carpeta p = false -> b <> "" ->
    exists d' m', write p (largo t) b d = (Some (largo b), d') /\ sano d' /\
      contenido d' = <[ruta p := Archivo m' (t +:+ b)]> (contenido d) }.

(** ** A disk in memory *)

Definition hijos (a : arbol) (k : list string) : list string :=
  remove_dups (omap (fun '(k', _) => if decide (k' = k ++ [default "" (last k')]) then last k' else None) (map_to_list a)).

Lemma hijos_ok a k n : n ∈ hijos a k <-> is_Some (a !! (k ++ [n])).
Proof.
  unfold hijos. rewrite elem_of_remove_dups, list_elem_of_omap. split.
  - intros ([k' x] & Hx & Hn). apply elem_of_map_to_list in Hx. case_decide as Hk; [|done].
    rewrite Hn in Hk. cbn in Hk. subst k'. by eexists.
  - intros [x Hx]. exists (k ++ [n], x). rewrite elem_of_map_to_list. split; [done|].
    rewrite last_snoc. cbn. by rewrite decide_True.
Qed.

Lemma hijos_nodup a k : NoDup (hijos a k).
Proof. apply NoDup_remove_dups. Qed.

(** The node above a path. *)
Definition padre (k : list string) : list string := removelast k.

Lemma padre_ok k n : padre (k ++ [n]) = k.
Proof. unfold padre. apply removelast_last. Qed.

#[export] Instance arbol_disco : Disco arbol := {|
  stat := fun p a => match a !! ruta p with
                     | Some (Archivo m t) => if nombra_carpeta p then None else Some (mkStat_t (Fechas.mkStat m (largo t)) false)
                     | Some Carpeta => Some (mkStat_t (Fechas.mkStat 0 4096) true)
                     | None => None
                     end;
  abrir := fun p a => match a !! ruta p with
                      | Some (Archivo _ t) => if nombra_carpeta p then inl ENOTDIR else inr t
                      | Some Carpeta => inr ""
                      | None => inl ENOENT
                      end;
  opendir := fun p a => if es_carpeta (a !! ruta p) then Some ("." :: ".." :: hijos a (ruta p)) else None;
  mkdir := fun p a =>
    match a !! ruta p with
    | Some _ => (Some EEXIST, a)
    | None => if es_carpeta (a !! padre (ruta p)) && bool_decide (Forall nombre_ok (ruta p)) && negb (punto_final p)
              then (None, <[ruta p := Carpeta]> a) else (Some ENOENT, a)
    end;
  remove := fun p a => match a !! ruta p with
                       | Some (Archivo _ _) => if nombra_carpeta p then (false, a) else (true, delete (ruta p) a)
                       | _ => (false, a)
                       end;
  rmdir := fun p a => match a !! ruta p, hijos a (ruta p) with
                      | Some Carpeta, [] => if bool_decide (ruta p = []) || punto_final p then a else delete (ruta p) a
                      | _, _ => a
                      end;
  crear := fun p a =>
    if es_carpeta (a !! ruta p) || nombra_carpeta p then (Some EISDIR, a)
    else if es_carpeta (a !! padre (ruta p)) && bool_decide (Forall nombre_ok (ruta p))
         then (None, <[ruta p := Archivo 0 ""]> a) else (Some ENOENT, a);
  write := fun p pos b a =>
    match a !! ruta p with
    | Some (Archivo m t) =>
        (Some (largo b), <[ruta p := Archivo m (prefijo (Z.to_nat pos) t +:+ b +:+ saltear (Z.to_nat pos + String.length b) t)]> a)
    | _ => (None, a)
    end;
  strerror := fun _ => "error" |}.

Lemma trozos_sin_barra s : Forall (fun t => contiene "/" t = false) (trozos s).
Proof.
  induction s as [|c s IH]; cbn [trozos]; [by apply Forall_singleton|].
  destruct (Ascii.eqb_spec c "/") as [->|Hc]; [by apply Forall_cons|].
  destruct (trozos s) as [|t l]; [apply Forall_singleton|apply Forall_cons in IH as [Ht IH]; apply Forall_cons; split; [|done]];
    rewrite contiene_cons, (proj2 (Ascii.eqb_neq _ _)) by congruence; done.
Qed.

Lemma ruta_propia p : propia p -> Forall nombre_ok (ruta p).
Proof.
  intros [_ Hp]. unfold ruta. rewrite Forall_forall. intros t [[H1 H2] Ht]%list_elem_of_filter.
  pose proof (trozos_sin_barra p) as Hs. rewrite Forall_forall in Hs. split_and!; [by apply Hs|done|done|].
  by intros ->.
Qed.

(** Writing a node whose parent is a directory, where there is no directory, keeps the tree. *)
Lemma bien_formado_insert a k n x : bien_formado a -> nombre_ok n -> es_carpeta (a !! k) = true ->
  es_carpeta (a !! (k ++ [n])) = false -> bien_formado (<[k ++ [n] := x]> a).
Proof.
  intros Ha Hn Hk Hc k' n' Hi. rewrite lookup_insert_is_Some in Hi.
  assert (es_carpeta (a !! k') = true /\ nombre_ok n') as [G1 G2].
  { destruct Hi as [E|[_ Hi]]; [|by apply Ha]. apply app_inj_tail in E as [-> ->]. done. }
  split; [|done]. rewrite lookup_insert_ne; [done|]. intros E. rewrite <- E in G1. congruence.
Qed.

(** The same, for a path that is known. *)
Lemma bien_formado_insert_en a j x : bien_formado a -> negb (bool_decide (j = [])) && es_carpeta (a !! removelast j) &&
  bool_decide (nombre_ok (List.last j "")) && negb (es_carpeta (a !! j)) = true -> bien_formado (<[j := x]> a).
Proof.
  rewrite !andb_true_iff, !negb_true_iff, bool_decide_eq_true, bool_decide_eq_false. intros Ha [[[Hj Hc] Hn] Hd].
  rewrite (app_removelast_last "" Hj) in Hd |- *. by apply bien_formado_insert.
Qed.
Lemma bien_formado_raiz x : bien_formado {[ [] := x ]}.
Proof. intros k n [y Hy]. apply lookup_singleton_Some in Hy as [Hy _]. by destruct k. Qed.

Lemma bien_formado_delete a k : bien_formado a -> (forall n, a !! (k ++ [n]) = None) -> bien_formado (delete k a).
Proof.
  intros Ha Hk k' n' Hi. rewrite lookup_delete_is_Some in Hi. destruct Hi as [_ Hi].
  destruct (Ha _ _ Hi) as [G1 G2]. split; [|done]. rewrite lookup_delete_ne; [done|].
  intros ->. rewrite Hk in Hi. by destruct Hi.
Qed.

Lemma archivo_sin_hijos a k m t n : bien_formado a -> a !! k = Some (Archivo m t) -> a !! (k ++ [n]) = None.
Proof.
  intros Ha Hk. destruct (a !! (k ++ [n])) eqn:E; [|done]. destruct (Ha k n) as [G _]; [by eexists|]. by rewrite Hk in G.
Qed.

#[export] Instance arbol_disco_ok : DiscoOk arbol.
Proof.
  refine {| contenido := fun a : arbol => a; sano := bien_formado |}; cbn [stat abrir opendir mkdir remove rmdir crear write arbol_disco].
  - done.
  - intros p a _ _. unfold estado_de. destruct (a !! ruta p) as [[|m t]|]; [by eexists|done|done].
  - intros p a m t _ _ E N. by rewrite E, N.
  - intros p a Ha _ E. rewrite E. cbn [es_carpeta]. eexists. split; [done|].
    assert (forall n, n ∈ hijos a (ruta p) -> nombre_ok n) as Hn.
    { intros n Hn%hijos_ok. by apply (Ha (ruta p)). }
    split.
    + apply NoDup_cons_2; [|apply NoDup_cons_2; [|apply hijos_nodup]].
      * rewrite elem_of_cons. intros [?|G]; [congruence|]. by apply Hn in G as (_ & _ & ? & _).
      * intros G. by apply Hn in G as (_ & _ & _ & ?).
    + intros n N1 N2. rewrite !elem_of_cons, hijos_ok. split; [by intros [?|[?|?]]|auto].
  - intros p a k n Ha Hp E1 N E2 E3. rewrite E2, N. pose proof (ruta_propia p Hp) as Hr.
    rewrite bool_decide_true by done. rewrite E1 in *. rewrite padre_ok, E3. eexists. split_and!; [reflexivity| |done].
    apply Forall_app in Hr as [_ Hr]. apply (proj1 (Forall_singleton _ _)) in Hr. apply bien_formado_insert; [done..|by rewrite E2].
  - intros p a m t Ha _ E N. rewrite E, N. eexists. split_and!; [reflexivity| |done].
    apply bien_formado_delete; [done|]. intros n. by eapply archivo_sin_hijos.
  - intros p a Ha _ E1 Nr N E2. rewrite E1, N, bool_decide_false by done. destruct (hijos a (ruta p)) as [|n l] eqn:Eh.
    + split; [by apply bien_formado_delete|done].
    + assert (n ∈ hijos a (ruta p)) as Hn by (rewrite Eh; left). apply hijos_ok in Hn. rewrite E2 in Hn. by destruct Hn.
  - intros p a k n Ha Hp E1 N E2 E3. pose proof (ruta_propia p Hp) as Hr.
    rewrite bool_decide_true by done. rewrite E3, N. cbn [orb]. rewrite E1 in *. rewrite padre_ok, E2. exists (<[k ++ [n] := Archivo 0 ""]> a), 0.
    apply Forall_app in Hr as [_ Hr]. apply (proj1 (Forall_singleton _ _)) in Hr.
    split_and!; [done|by apply bien_formado_insert|done].
  - intros p a m t b Ha Hp E _ Hb. rewrite E. exists (<[ruta p := Archivo m (t +:+ b)]> a), m.
    unfold largo. rewrite !Nat2Z.id, !prefijo_todo by lia. split_and!; [| |done].
    + repeat f_equal. replace (saltear (String.length t + String.length b) t) with ""; [by rewrite app_nil_r_s|].
      assert (String.length (saltear (String.length t + String.length b) t) = 0%nat) as L by (rewrite length_saltear; lia).
      by destruct (saltear _ t).
    + intros k n Hi. rewrite lookup_insert_is_Some in Hi. destruct (decide (ruta p = k ++ [n])) as [Ek|Nk].
      * destruct (Ha k n) as [G1 G2]; [rewrite <- Ek, E; by eexists|]. split; [|done].
        rewrite lookup_insert_ne; [done|]. intros Hx. rewrite Hx in Ek. apply (f_equal length) in Ek. rewrite length_app in Ek. cbn in Ek. lia.
      * destruct Hi as [?|[_ Hi]]; [done|]. destruct (Ha _ _ Hi) as [G1 G2]. split; [|done].
        rewrite lookup_insert_ne; [done|]. intros Hx. rewrite <- Hx, E in G1. done.
Defined.

End Disco.
