(* ===== verification/Rutas.v ===== *)
(** * Rutas: the paths of requests do not climb

    What the normalisation of src/WebServer/mongoose.c makes of the path of a request, first on its
    text and then on the pieces that the file system sees. *)

From S2P Require Import Prelude Libc Mongoose Disco.
Open Scope Z_scope.

Module Rutas.
Import Libc Mongoose Disco.

(** ** The text *)

(** What may follow a slash: no slash, no ["./"], no ["../"] and no final [".."]. *)
Definition comienzo_ok (s : string) : bool :=
  match s with
  | "" => true
  | String a r =>
      negb (es_barra a) &&
      negb (Ascii.eqb a "." &&
            match r with
            | "" => false
            | String b r' =>
                es_barra b ||
                (Ascii.eqb b "." && match r' with "" => true | String c _ => es_barra c end)
            end)
  end.

Fixpoint ruta_segura (s : string) : bool :=
  match s with
  | "" => true
  | String c r => (if es_barra c then comienzo_ok r else true) && ruta_segura r
  end.

Lemma saltar_comienzo n s : (String.length s <= n)%nat ->
  comienzo_ok (saltar_puntos s) = true /\ (String.length (saltar_puntos s) <= String.length s)%nat.
Proof.
  revert s. induction n as [|n IH]; intros s Hn; destruct s as [|a r]; cbn in Hn; try lia; [by split..|].
  assert (forall t, (String.length t <= String.length r)%nat -> comienzo_ok (saltar_puntos t) = true /\
    (String.length (saltar_puntos t) <= S (String.length r))%nat) as K.
  { intros t Ht. destruct (IH t) as [H1 H2]; [lia|]. split; [done|lia]. }
  cbn [saltar_puntos String.length]. destruct (es_barra a) eqn:Ea; [by apply K|].
  destruct (Ascii.eqb a ".") eqn:Ed; [|cbn; by rewrite Ea, Ed].
  destruct r as [|b r1]; [cbn; by rewrite Ea, Ed|]. destruct (es_barra b) eqn:Eb; [apply K; cbn; lia|].
  destruct (Ascii.eqb b ".") eqn:Edb; [|cbn; by rewrite Ea, Ed, Eb, Edb].
  destruct r1 as [|c r2]; [cbn; split; [done|lia]|]. destruct (es_barra c) eqn:Ec; [apply K; cbn; lia|].
  cbn. by rewrite Ea, Ed, Eb, Edb, Ec.
Qed.

(** Up to the first slash the characters are copied. *)
Lemma remove_dots_cons n c r : es_barra c = false -> remove_dots (S n) (String c r) = String c (remove_dots n r).
Proof. intros Hc. cbn. by rewrite Hc. Qed.

Lemma comienzo_remove n s : (String.length s <= n)%nat -> comienzo_ok s = true -> comienzo_ok (remove_dots n s) = true.
Proof.
  intros Hn Hc. destruct n as [|n]; [done|]. destruct s as [|a r]; [done|]. cbn [String.length] in Hn.
  assert (es_barra a = false) as Ea by (cbn in Hc; by destruct (es_barra a)). rewrite remove_dots_cons by done.
  unfold comienzo_ok in *. rewrite Ea in *. cbn [negb andb] in *. destruct (Ascii.eqb a "."); [|done]. cbn [andb] in *.
  destruct n as [|n]; [done|]. destruct r as [|b r]; [done|]. cbn [String.length] in Hn.
  assert (es_barra b = false) as Eb by (by destruct (es_barra b)). rewrite remove_dots_cons by done.
  rewrite Eb in *. cbn [orb] in *. destruct (Ascii.eqb b "."); [|done]. cbn [andb] in *.
  destruct r as [|c r]; [done|]. cbn [String.length] in Hn. destruct n as [|n]; [lia|].
  assert (es_barra c = false) as Ec by (by destruct (es_barra c)). by rewrite remove_dots_cons.
Qed.

Lemma remove_dots_segura n s : (String.length s <= n)%nat -> ruta_segura (remove_dots n s) = true.
Proof.
  revert s. induction n as [|n IH]; intros s Hn; [done|]. destruct s as [|c r]; [done|]. cbn [String.length] in Hn.
  cbn [remove_dots ruta_segura]. destruct (es_barra c) eqn:Ec.
  - destruct (saltar_comienzo (String.length r) r (le_n _)) as [H1 H2].
    rewrite comienzo_remove by (done || lia). apply IH. lia.
  - apply IH. lia.
Qed.

(** Path traversal: in the path the web server hands to the program no slash or backslash
    is followed by another one, by a dot and a slash, by two dots and a slash, or by two
    final dots. *)
Theorem remove_double_dots_segura s : ruta_segura (remove_double_dots_and_double_slashes s) = true.
Proof. by apply remove_dots_segura. Qed.

(** ** The pieces *)

(** The first piece of what may follow a slash is not the parent. *)
Lemma comienzo_trozos s l : comienzo_ok s = true -> trozos s <> ".." :: l.
Proof.
  destruct s as [|a [|b r]]; cbn [trozos comienzo_ok].
  - done.
  - by destruct (Ascii.eqb a "/").
  - intros Hc. apply andb_prop in Hc as [Ha Hc]. destruct (Ascii.eqb_spec a "/") as [->|Na]; [done|].
    destruct (Ascii.eqb_spec b "/") as [->|Nb]; [intros [= -> _]|].
    destruct r as [|c r]; cbn [trozos].
    + intros [= -> -> _]. by cbn in Hc.
    + destruct (Ascii.eqb_spec c "/") as [->|Nc]; [intros [= -> -> _]; by cbn in Hc|].
      by destruct (trozos r).
Qed.

Lemma segura_trozos s : ruta_segura s = true -> ".." ∉ tail (trozos s).
Proof.
  induction s as [|c s IH]; [intros _ H; by apply elem_of_nil in H|]. cbn [ruta_segura trozos].
  intros [Hc Hs]%andb_prop. specialize (IH Hs). destruct (Ascii.eqb_spec c "/") as [->|_].
  - cbn [tail]. destruct (trozos s) as [|t l] eqn:E; [by intros H; apply elem_of_nil in H|].
    rewrite elem_of_cons. intros [<-|?]; [|done]. by apply (comienzo_trozos s l Hc).
  - destruct (trozos s); [by intros H; apply elem_of_nil in H|done].
Qed.

(** The path of a request that starts with a slash is normalised. *)
Lemma uri_no_sube u : absoluta (decodificar_uri u) = true -> ".." ∉ trozos (decodificar_uri u).
Proof.
  unfold decodificar_uri. destruct (mg_url_decode _ _ _) as [? v]. destruct (c_str v) as [|c w] eqn:Ev; [done|].
  destruct (Ascii.eqb c "/" || Ascii.eqb c ".") eqn:Ec.
  - pose proof (remove_double_dots_segura (String c w)) as Hs. set (x := remove_double_dots_and_double_slashes (String c w)) in *.
    intros Ha. destruct x as [|a x]; [done|]. assert (a = "/"%char) as -> by (by destruct a as [[][][][][][][][]]).
    apply segura_trozos in Hs. cbn [trozos] in *. rewrite Ascii.eqb_refl in *. cbn [tail] in Hs.
    rewrite elem_of_cons. by intros [?|?].
  - intros Ha. apply orb_false_elim in Ec as [Ec _]. assert (c = "/"%char) as -> by (by destruct c as [[][][][][][][][]]). done.
Qed.

Lemma parse_uri buf r n : parse_http_message buf = Some (r, n) -> exists u, uri r = decodificar_uri u.
Proof.
  unfold parse_http_message. destruct buf as [|a buf]; [done|]. set (b := c_str _). clearbody b.
  destruct (abarcar isspace b) as [? b1]. destruct (skip b1 " ") as [m b2]. destruct (skip b2 " ") as [u b3].
  destruct (skip b3 CRLF) as [v b4]. destruct (_ || _); [done|]. destruct (partir_query u) as [u' q].
  intros [= <- _]. by eexists.
Qed.

(** *** Under a directory *)

(** The file is in the tree below the directory: its pieces are those of the directory and
    others that do not climb. *)
Definition bajo (raiz p : string) : Prop := exists q, ruta p = ruta raiz ++ q /\ ".." ∉ q.

Lemma ruta_trozos t p : t ∈ ruta p -> t ∈ trozos p.
Proof. unfold ruta. rewrite list_elem_of_filter. by intros [_ ?]. Qed.

Lemma bajo_app raiz r : ".." ∉ trozos r -> bajo raiz (raiz +:+ String "/" r).
Proof. intros Hr. exists (ruta r). rewrite ruta_barra. split; [done|]. intros H. by apply ruta_trozos in H. Qed.

Lemma bajo_prefijo raiz r1 r2 : ".." ∉ trozos (r1 +:+ String "/" r2) -> bajo raiz (raiz +:+ String "/" r1).
Proof. rewrite trozos_barra. intros Hr. apply bajo_app. set_solver. Qed.

Lemma bajo_mas raiz p e : bajo raiz p -> ".." ∉ trozos e -> bajo raiz (p +:+ String "/" e).
Proof.
  intros (q & Hq & Hn) He. exists (q ++ ruta e). rewrite ruta_barra, Hq, app_assoc. split; [done|].
  rewrite elem_of_app. intros [?|H]; [done|]. by apply ruta_trozos in H.
Qed.

End Rutas.
