(* ===== verification/Locales.v ===== *)
(** * Locales: what the web server does with a local file (src/WebServer/mongoose.c)

    The end of [open_local_endpoint]: which file of the disk a request names, whether it may
    be touched, and what is then done with it, to send it, list it or, with WebDAV, make,
    replace or delete it.  The program sets no document root and none of this runs in it
    ([LocalesOk.sin_raiz]); it is the code of any server built on this mongoose.

    The disk is behind the interface [Disco]; an operation on it is a function in [M D].
    What the connection then sends is the result: [accion] has one constructor for each
    routine that the choice ends in. *)

From S2P Require Import Prelude Bloques Libc Escaneo MgMd5 Mongoose Conexion Patrones Autorizacion Fechas Archivos Mundo Arranque Disco.
Open Scope Z_scope.

Module Locales.
Import Libc Escaneo Mongoose Patrones Autorizacion Fechas Archivos Arranque Disco.

(** The rest of the options. *)
Definition ACCESS_LOG_FILE : nat := 1.
Definition AUTH_DOMAIN : nat := 2.
Definition CGI_INTERPRETER : nat := 3.
Definition CGI_PATTERN : nat := 4.
Definition DAV_AUTH_FILE : nat := 5.
Definition DAV_ROOT : nat := 6.
Definition ENABLE_DIRECTORY_LISTING : nat := 8.
Definition ENABLE_PROXY : nat := 9.
Definition EXTRA_MIME_TYPES : nat := 10.
Definition GLOBAL_AUTH_FILE : nat := 11.
Definition HIDE_FILES_PATTERN : nat := 12.
Definition INDEX_FILES : nat := 14.
Definition SSI_PATTERN : nat := 17.
Definition URL_REWRITES : nat := 18.

Definition MAX_PATH_SIZE : nat := Z.to_nat 8192.

(** [next_option(list, &val, &eq_val)]: an entry [x=y] of a list; without [=] the second
    pointer is null and its length 0. *)
Definition next_option_eq (list : option string) : option (vec * vec * string) :=
  match next_option list with
  | None => None
  | Some (val, r) =>
      let '(x, y) := abarcar (fun c => negb (Ascii.eqb c "=")) (prefijo (len val) (ptr val)) in
      match y with
      | "" => Some (val, mkVec "" 0, r)
      | String _ y => Some (mkVec (ptr val) (String.length x), mkVec (saltear (S (String.length x)) (ptr val)) (String.length y), r)
      end
  end.

(** The text of a [vec]: [%.*s]. *)
Definition texto_vec (v : vec) : string := prefijo (len v) (ptr v).

(** What is done with the request. *)
Inductive accion : Type :=
| HttpError (code : Z) (detalle : option string)   (* send_http_error *)
| Autenticar                                       (* mg_send_digest_auth_request *)
| Opciones                                         (* send_options *)
| Proxificar                                       (* proxify_connection *)
| Redirigir (location : string)
| Listado (path : string) (s : Salida)             (* send_directory_listing *)
| Cgi (path : string) (path_info : option string)  (* open_cgi_endpoint *)
| Ssi (path : string)                              (* handle_ssi_request *)
| Enviar (path : string) (e : Envio)               (* open_file_endpoint *)
| Propiedades (path : string) (s : Salida)         (* handle_propfind *)
| Hecho (status_code : Z)                          (* handle_put, of a directory *)
| Recibir (path : string) (posicion cl status_code : Z). (* handle_put, of a file: EP_PUT *)

Definition is_dav_request (r : mg_connection) : bool :=
  existsb (String.eqb (request_method r)) ["PUT"; "DELETE"; "MKCOL"; "PROPFIND"].

Section Locales.
Context {D : Type} {HD : Disco D} {HE : Entorno}.
Context (be : bool) (basura : MgMd5.MD5_CTX).  (* the byte order and the stack of [mg_md5] *)
Context (srv : mg_server).
Abbreviation opt := (opcion srv).

(** ** The name of the file *)

(** The virtual host of the request: the first entry [@host=root]; [root] is a pointer into
    the list, so [strlen(root)] is not [root_len]. *)
Fixpoint virtual_host (fuel : nat) (rewrites : option string) (domain : string) : res (option vec) :=
  match fuel with
  | O => Fallo SinCombustible
  | S fuel =>
      match next_option_eq rewrites with
      | None => Ok None
      | Some (a, b, r) =>
          if (1 <? len a)%nat && Ascii.eqb (deref (ptr a)) "@" && (len a =? String.length domain + 1)%nat &&
             mg_strncasecmp_0 domain (saltear 1 (ptr a))
          then Ok (Some b) else virtual_host fuel (Some r) domain
      end
  end.

(** The first rewrite whose pattern matches.  [match_len] is a [size_t], so that the [-1] of
    a pattern that does not match is positive, and [uri + match_len] is no part of the URI. *)
Fixpoint reescribir (fuel : nat) (rewrites : option string) (uri buf : string) : res string :=
  match fuel with
  | O => Fallo SinCombustible
  | S fuel =>
      match next_option_eq rewrites with
      | None => Ok buf
      | Some (a, b, r) =>
          let match_len := mg_match_prefix (texto_vec a) uri in
          if match_len <? 0 then Fallo (Indefinido "convert_uri_to_file_name: uri + match_len")
          else if 0 <? match_len then Ok (mg_snprintf MAX_PATH_SIZE (texto_vec b +:+ saltear (Z.to_nat match_len) uri))
          else reescribir fuel (Some r) uri buf
      end
  end.

(** The scripts of the path, from position [i]: the first beginning of [buf] before a slash
    that is one, and the rest. *)
Fixpoint path_info_desde (cgi_pat : option string) (antes despues : string) (d : D) : res (option (string * stat_t * string)) :=
  match despues with
  | "" => Ok None
  | String c r =>
      let sigue := path_info_desde cgi_pat (antes +:+ String c "") r d in
      if Ascii.eqb c "/" then
        match cgi_pat with
        | None => Fallo (Indefinido "convert_uri_to_file_name: null cgi_pattern")
        | Some cgi_pat =>
            if 0 <? mg_match_prefix cgi_pat antes then
              match stat antes d with Some st => Ok (Some (antes, st, despues)) | None => sigue end
            else sigue
        end
      else sigue
  end.

(** The path, if it is set, what [stat] says of it, if it exists, and [path_info]. *)
Definition convert_uri_to_file_name (r : mg_connection) : M D (option string * option stat_t * option string) := fun d =>
  let root := if is_dav_request r && bool_decide (is_Some (opt DAV_ROOT)) then opt DAV_ROOT else opt DOCUMENT_ROOT in
  let rewrites := opt URL_REWRITES in
  let fuel := S (String.length (default "" rewrites)) in
  (let? vh := match rewrites, mg_get_header (http_headers r) "Host" with
              | Some _, Some domain => virtual_host fuel rewrites (abarcar (fun c => negb (Ascii.eqb c ":")) domain).1
              | _, _ => Ok None
              end in
   let '(root, root_len) := match vh with Some b => (ptr b, len b) | None => (default "" root, String.length (default "" root)) end in
   if (root_len =? 0)%nat then Ok (None, None, None)
   else
     let? buf := reescribir fuel rewrites (uri r) (mg_snprintf MAX_PATH_SIZE (prefijo root_len root +:+ uri r)) in
     match stat buf d with
     | Some st => Ok (Some buf, Some st, None)
     | None =>
         let i := (String.length root + 2)%nat in
         if (String.length buf <? i)%nat then Fallo (Indefinido "convert_uri_to_file_name: read past the path")
         else
           let? o := path_info_desde (opt CGI_PATTERN) (prefijo i buf) (saltear i buf) d in
           match o with
           | Some (buf, st, info) => Ok (Some buf, Some st, Some info)
           | None => Ok (Some buf, None, None)
           end
     end, d).

(** The path without its final slashes. *)
Fixpoint sin_barras (s : string) : string :=
  match s with
  | "" => ""
  | String c r => match sin_barras r with
                  | "" => if Ascii.eqb c "/" then "" else String c ""
                  | t => String c t
                  end
  end.

Fixpoint buscar_indice (fuel : nat) (list : option string) (base : string) (path_len : nat) (d : D) : res (option (string * stat_t)) :=
  match fuel with
  | O => Fallo SinCombustible
  | S fuel =>
      match next_option list with
      | None => Ok None
      | Some (filename_vec, r) =>
          let n := String.length base in
          if (path_len <=? n + 2)%nat || (path_len - (n + 2) <? len filename_vec)%nat
          then buscar_indice fuel (Some r) base path_len d
          else
            let path := base +:+ "/" +:+ texto_vec filename_vec in
            match stat path d with
            | Some st => Ok (Some (path, st))
            | None => buscar_indice fuel (Some r) base path_len d
            end
      end
  end.
(** The path and its [stat], if there is an index; the path without final slashes if not. *)
Definition find_index_file (path : string) (path_len : nat) (d : D) : res (string * option stat_t) :=
  let base := sin_barras path in
  let? o := buscar_indice (S (String.length (default "" (opt INDEX_FILES)))) (opt INDEX_FILES) base path_len d in
  Ok (match o with Some (p, st) => (p, Some st) | None => (base, None) end).

(** ** Authorisation *)

(** What precedes the last slash of a path: nothing if there is none. *)
Fixpoint directorio (s : string) : option string :=
  match s with
  | "" => None
  | String c r => match directorio r with
                  | Some t => Some (String c t)
                  | None => if Ascii.eqb c "/" then Some "" else None
                  end
  end.

Definition leer_archivo (p : string) (d : D) : option string := match abrir p d with inr t => Some t | inl _ => None end.

Definition open_auth_file (path : string) (is_directory : bool) (d : D) : option string :=
  match opt GLOBAL_AUTH_FILE with
  | Some gpass => leer_archivo gpass d
  | None =>
      if is_directory then leer_archivo (mg_snprintf MAX_PATH_SIZE (path +:+ "/" +:+ PASSWORDS_FILE_NAME)) d
      else leer_archivo (mg_snprintf MAX_PATH_SIZE (default "" (directorio path) +:+ "/" +:+ PASSWORDS_FILE_NAME)) d
  end.

Definition autoriza (r : mg_connection) (fp : string) : bool :=
  mg_authorize_digest be basura (default "" (opt AUTH_DOMAIN)) (request_method r) (http_headers r) fp.

Definition is_authorized (r : mg_connection) (path : string) (is_directory : bool) (d : D) : bool :=
  match open_auth_file path is_directory d with
  | Some fp => autoriza r fp
  | None => true
  end.

Definition is_authorized_for_dav (r : mg_connection) (d : D) : bool :=
  match opt DAV_AUTH_FILE with
  | None => String.eqb (request_method r) "PROPFIND"
  | Some auth_file => match leer_archivo auth_file d with Some fp => autoriza r fp | None => false end
  end.

(** ** Directories *)

Record dir_entry : Type := mkEntry { file_name : string; st : stat_t }.

(** The entry is zeroed before [stat]. *)
Definition stat_cero : stat_t := mkStat_t (mkStat 0 0) false.

Definition oculto (name : string) : bool :=
  String.eqb name "." || String.eqb name ".." || must_hide_file (opt HIDE_FILES_PATTERN) name.

Definition scan_directory (dir : string) (d : D) : list dir_entry :=
  match opendir dir d with
  | None => []
  | Some names =>
      map (fun n => mkEntry n (default stat_cero (stat (mg_snprintf MAX_PATH_SIZE (dir +:+ "/" +:+ n)) d)))
        (filter (fun n => oculto n = false) names)
  end.

(** [strcmp], by its sign. *)
Fixpoint strcmp (a b : string) : Z :=
  match a, b with
  | "", "" => 0
  | "", String _ _ => -1
  | String _ _, "" => 1
  | String c a, String d b => if byte c =? byte d then strcmp a b else if byte c <? byte d then -1 else 1
  end.
Definition comparar (a b : Z) : Z := if a =? b then 0 else if b <? a then 1 else -1.

(** The second character of an empty query is the one after its terminator, in the HTTP
    version that follows it in the request: it is not a [d]. *)
Definition segundo (qs : string) : ascii := deref (saltear 1 qs).

Definition compare_dir_entries (query_string : option string) (a b : dir_entry) : Z :=
  let qs := default "na" query_string in
  let a_dir := es_dir (st a) in let b_dir := es_dir (st b) in
  if a_dir && negb b_dir then -1
  else if negb a_dir && b_dir then 1
  else
    let cmp_result :=
      if Ascii.eqb (deref qs) "n" then strcmp (file_name a) (file_name b)
      else if Ascii.eqb (deref qs) "s" then comparar (st_size (datos (st a))) (st_size (datos (st b)))
      else if Ascii.eqb (deref qs) "d" then comparar (st_mtime (datos (st a))) (st_mtime (datos (st b)))
      else 0 in
    if Ascii.eqb (segundo qs) "d" then - cmp_result else cmp_result.

(** [qsort], by insertion: it keeps the order of entries that compare equal. *)
Fixpoint insertar (qs : option string) (x : dir_entry) (l : list dir_entry) : list dir_entry :=
  match l with
  | [] => [x]
  | y :: l' => if compare_dir_entries qs x y <=? 0 then x :: l else y :: insertar qs x l'
  end.
Definition qsort (qs : option string) (l : list dir_entry) : list dir_entry := foldr (insertar qs) [] l.

(** [%.1f] of a size over [2^k]: the nearest tenth, to even; a size is exact as a [double]
    below [2^53]. *)
Definition decimos (n k : Z) : string :=
  let num := 10 * n in
  let q := num / 2 ^ k in
  let r := num mod 2 ^ k in
  let q := if 2 * r <? 2 ^ k then q else if 2 ^ k <? 2 * r then q + 1 else if Z.even q then q else q + 1 in
  decimal (q / 10) +:+ "." +:+ decimal (q mod 10).
Definition a_double (n : Z) : Z :=
  if n <? 2 ^ 53 then n
  else
    let u := 2 ^ (Z.log2 n - 52) in
    let q := n / u in
    let r := n mod u in
    (if 2 * r <? u then q else if u <? 2 * r then q + 1 else if Z.even q then q else q + 1) * u.

Definition tamanio (s : stat_t) : string :=
  let fsize := st_size (datos s) in
  if es_dir s then "[DIRECTORY]"
  else if fsize <? 1024 then fmt_lld fsize
  else if fsize <? 1048576 then decimos fsize 10 +:+ "k"
  else if fsize <? 1073741824 then decimos fsize 20 +:+ "M"
  else decimos (a_double fsize) 30 +:+ "G".

(** [strftime(mod, sizeof(mod), "%d-%b-%Y %H:%M", localtime(&st_mtime))] *)
Definition fecha_listado (t : tm) : string :=
  a_dos (tm_mday t) +:+ "-" +:+ nth (Z.to_nat (tm_mon t)) meses "?" +:+ "-" +:+ decimal (1900 + tm_year t) +:+ " " +:+
  a_dos (tm_hour t) +:+ ":" +:+ a_dos (tm_min t).

(** [mg_printf_data] of a text with its conversions done. *)
Definition printf_data (s : string) (c : Salida) : Salida := write_chunk (avprintf_texto IOBUF_SIZE s) (terminate_headers c).

Definition Q : string := String COMILLA "".
Definition href_de (name : string) : string := (mg_url_encode name (Z.of_nat (MAX_PATH_SIZE * 3))).2.

Definition print_dir_entry (de : dir_entry) (c : Salida) : Salida :=
  let slash := if es_dir (st de) then "/" else "" in
  printf_data ("<tr><td><a href=" +:+ Q +:+ href_de (file_name de) +:+ slash +:+ Q +:+ ">" +:+ file_name de +:+ slash +:+ "</a></td>" +:+
    "<td>&nbsp;" +:+ fecha_listado (localtime (st_mtime (datos (st de)))) +:+
    "</td><td>&nbsp;&nbsp;" +:+ tamanio (st de) +:+ "</td></tr>" +:+ String NL "") c.

Definition send_directory_listing (r : mg_connection) (dir : string) (c : Salida) (d : D) : Salida :=
  let sort_direction := match query_string r with
                        | Some qs => if Ascii.eqb (segundo qs) "d" then "a" else "d"
                        | None => "d"
                        end in
  let c := mg_send_header "Transfer-Encoding" "chunked" c in
  let c := mg_send_header "Content-Type" "text/html; charset=utf-8" c in
  let c := printf_data
    ("<html><head><title>Index of " +:+ uri r +:+ "</title>" +:+
     "<style>th {text-align: left;}</style></head>" +:+
     "<body><h1>Index of " +:+ uri r +:+ "</h1><pre><table cellpadding=" +:+ Q +:+ "0" +:+ Q +:+ ">" +:+
     "<tr><th><a href=" +:+ Q +:+ "?n" +:+ sort_direction +:+ Q +:+ ">Name</a></th>" +:+
     "<th><a href=" +:+ Q +:+ "?d" +:+ sort_direction +:+ Q +:+ ">Modified</a></th>" +:+
     "<th><a href=" +:+ Q +:+ "?s" +:+ sort_direction +:+ Q +:+ ">Size</a></th></tr>" +:+
     "<tr><td colspan=" +:+ Q +:+ "3" +:+ Q +:+ "><hr></td></tr>") c in
  write_terminating_chunk (foldl (fun c de => print_dir_entry de c) c (qsort (query_string r) (scan_directory dir d))).

(** ** WebDAV *)

Definition print_props (uri : string) (stp : stat_t) (c : Salida) : Salida :=
  ns_send ("<d:response>" +:+
       "<d:href>" +:+ uri +:+ "</d:href>" +:+
       "<d:propstat>" +:+
        "<d:prop>" +:+
         "<d:resourcetype>" +:+ (if es_dir stp then "<d:collection/>" else "") +:+ "</d:resourcetype>" +:+
         "<d:getcontentlength>" +:+ fmt_lld (st_size (datos stp)) +:+ "</d:getcontentlength>" +:+
         "<d:getlastmodified>" +:+ gmt_time_string (st_mtime (datos stp)) +:+ "</d:getlastmodified>" +:+
        "</d:prop>" +:+
        "<d:status>HTTP/1.1 200 OK</d:status>" +:+
       "</d:propstat>" +:+
      "</d:response>" +:+ String NL "") c.

Definition con_status (n : Z) (s : Salida) : Salida := mkSalida n (headers_sent s) (using_chunked s) (send_iobuf s).

Definition propfind_header : string :=
  "HTTP/1.1 207 Multi-Status" +:+ CRLF +:+ "Connection: close" +:+ CRLF +:+
  "Content-Type: text/xml; charset=utf-8" +:+ CRLF +:+ CRLF +:+
  "<?xml version=" +:+ Q +:+ "1.0" +:+ Q +:+ " encoding=" +:+ Q +:+ "utf-8" +:+ Q +:+ "?>" +:+
  "<d:multistatus xmlns:d='DAV:'>" +:+ String NL "".

Definition handle_propfind (r : mg_connection) (path : string) (stp : option stat_t) (c : Salida) (d : D) : res Salida :=
  let c := con_status 207 c in
  match stp with
  | None => Ok (ns_send ("HTTP/1.1 404 Not Found" +:+ CRLF +:+ CRLF) (con_status 404 c))
  | Some stp =>
      let? list_dir := if es_dir stp then match opt ENABLE_DIRECTORY_LISTING with
                                          | Some l => Ok (mg_strcasecmp_0 l "yes")
                                          | None => Fallo (Indefinido "handle_propfind: null enable_directory_listing")
                                          end
                       else Ok true in
      if negb list_dir then Ok (ns_send ("HTTP/1.1 403 Directory Listing Denied" +:+ CRLF +:+ CRLF) (con_status 403 c))
      else
        let c := print_props (uri r) stp (ns_send propfind_header c) in
        let profundo := match mg_get_header (http_headers r) "Depth" with Some depth => negb (String.eqb depth "0") | None => true end in
        let c := if es_dir stp && profundo
                 then foldl (fun c de => print_props (href_de (file_name de)) (st de) c) c (scan_directory path d)
                 else c in
        Ok (ns_send "</d:multistatus>" c)
  end.

Definition handle_mkcol (r : mg_connection) (path : string) : M D accion := fun d =>
  if (0 <? String.length (content r))%nat then (Ok (HttpError 415 None), d)
  else
    let '(errno, d) := mkdir path d in
    let status_code := match errno with
                       | None => 201
                       | Some e => if e =? EEXIST then 405 else if e =? EACCES then 403 else if e =? ENOENT then 409 else 500
                       end in
    (Ok (HttpError status_code None), d).

(** The body of the loop of [remove_directory]: [ultimo] is the variable [st], which keeps its
    contents when [stat] fails and has none at first. *)
Definition borrar_entrada (remove_directory : string -> M D bool) (dir name : string) (ultimo : option stat_t) : M D (option stat_t) := fun d =>
  if String.eqb name "." || String.eqb name ".." then (Ok ultimo, d)
  else
    let path := mg_snprintf MAX_PATH_SIZE (dir +:+ "/" +:+ name) in
    let ultimo := match stat path d with Some s => Some s | None => ultimo end in
    match ultimo with
    | None => (Fallo (Indefinido "remove_directory: uninitialised stat"), d)
    | Some s => if es_dir s then (let* _ := remove_directory path in ret ultimo) d else (Ok ultimo, (remove path d).2)
    end.
Fixpoint borrar_entradas (remove_directory : string -> M D bool) (dir : string) (names : list string) (ultimo : option stat_t) : M D unit :=
  match names with
  | [] => ret tt
  | n :: names => let* ultimo := borrar_entrada remove_directory dir n ultimo in borrar_entradas remove_directory dir names ultimo
  end.
(** The fuel bounds the depth of the tree: every level makes the path longer. *)
Fixpoint remove_directory (fuel : nat) (dir : string) : M D bool := fun d =>
  match fuel with
  | O => (Fallo SinCombustible, d)
  | S fuel =>
      match opendir dir d with
      | None => (Ok false, d)
      | Some names => (borrar_entradas (remove_directory fuel) dir names None;;; cambiar (rmdir dir);;; ret true) d
      end
  end.

Definition handle_delete (path : string) : M D accion := fun d =>
  match stat path d with
  | None => (Ok (HttpError 404 None), d)
  | Some s =>
      if es_dir s then (let* _ := remove_directory MAX_PATH_SIZE path in ret (HttpError 204 None)) d
      else
        let '(ok, d) := remove path d in
        (Ok (HttpError (if ok : bool then 204 else 423) None), d)
  end.

(** What [put_dir] returns: [PutDir] is 0, [PutError] is -1 with [errno], [PutFile] is 1. *)
Inductive put_dir_t : Type := PutDir | PutError (errno : Z) | PutFile.

(** The directories named by the beginnings of the path before each slash. *)
Fixpoint put_dir_desde (antes despues : string) : M D put_dir_t := fun d =>
  match despues with
  | "" => (Ok PutFile, d)
  | String c r =>
      let sigue := put_dir_desde (antes +:+ String c "") r in
      if Ascii.eqb c "/" then
        let '(errno, d) := match stat antes d with Some _ => (None, d) | None => mkdir antes d end in
        match errno with
        | Some e => (Ok (PutError e), d)
        | None => if String.eqb r "" then (Ok PutDir, d) else sigue d
        end
      else sigue d
  end.
(** The search starts after the first character.  The path is shorter than the buffer that
    each beginning is copied to. *)
Definition put_dir (path : string) : M D put_dir_t :=
  match path with
  | "" => falla (Indefinido "put_dir: empty path")
  | String c r => put_dir_desde (String c "") r
  end.

Definition handle_put (r : mg_connection) (path : string) : M D accion :=
  let* existe := leer (fun d => bool_decide (is_Some (stat path d))) in
  let status_code := if existe : bool then 200 else 201 in
  let* rc := put_dir path in
  match rc with
  | PutDir => ret (Hecho status_code)
  | PutError e => ret (HttpError 500 (Some ("put_dir: " +:+ strerror e)))
  | PutFile =>
      match mg_get_header (http_headers r) "Content-Length" with
      | None => ret (HttpError 411 None)
      | Some cl_hdr => fun d =>
          match crear path d with
          | (Some e, d) => (Ok (HttpError 500 (Some ("open(" +:+ path +:+ "): " +:+ strerror e))), d)
          | (None, d) =>
              (let cl := strtoll cl_hdr in
               match mg_get_header (http_headers r) "Content-Range" with
               | None => Ok (Recibir path 0 cl status_code)
               | Some range =>
                   let? '(n, r1, r2) := parse_range_header range in
                   if 0 <? n then
                     let? cl := if r1 <? r2 then let? x := entero64 (r2 - r1) in entero64 (x + 1) else entero64 (cl - r1) in
                     Ok (Recibir path (Z.max r1 0) cl 206)
                   else Ok (Recibir path 0 cl status_code)
               end, d)
          end
      end
  end.

(** The connection while it receives a file: where it is written, how much is missing, the
    receive buffer, and whether the endpoint is open. *)
Record Subida : Type := mkSubida { destino : string; posicion : Z; cl : Z; recibido : Conexion.iobuf; abierta : bool }.

(** [write] returns [(size_t) -1] when it fails: nothing is removed, and [cl] grows by one. *)
Definition forward_put_data (s : Subida) : M D Subida := fun d =>
  let io := recibido s in
  let k := Z.min (cl s) (largo (Conexion.buf io)) in
  if k <? 0 then (Fallo (Indefinido "forward_put_data: write of a negative length"), d)
  else
    let '(n, d) := write (destino s) (posicion s) (prefijo (Z.to_nat k) (Conexion.buf io)) d in
    let s := match n with
             | None => mkSubida (destino s) (posicion s) (cl s + 1) io (abierta s)
             | Some n => mkSubida (destino s) (posicion s + n) (cl s - n) (Conexion.iobuf_remove n io) (abierta s)
             end in
    (Ok (if cl s <=? 0 then mkSubida (destino s) (posicion s) (cl s) (Conexion.iobuf_free io) false else s), d).

(** What [on_recv_data] does with each piece that arrives, after the one the buffer has. *)
Definition recibir_trozo (b : string) (s : Subida) : M D Subida :=
  let s := mkSubida (destino s) (posicion s) (cl s) (Conexion.iobuf_append b (recibido s)) (abierta s) in
  if abierta s && (0 <? largo (Conexion.buf (recibido s))) then forward_put_data s else ret s.
Fixpoint recibir_trozos (l : list string) (s : Subida) : M D Subida :=
  match l with
  | [] => ret s
  | b :: l => let* s := recibir_trozo b s in recibir_trozos l s
  end.

(** ** The choice *)

(** A null option where the code takes its length. *)
Definition opcion_de (i : nat) (donde : string) : res string :=
  match opt i with Some p => Ok p | None => Fallo (Indefinido donde) end.

(** The file, or what replaces it; [st] is [None] if it does not exist.  [curtime] is
    [time(NULL)]. *)
Definition mg_send_file_internal (curtime : Z) (r : mg_connection) (file_name : string) (st : option stat_t)
    (path_info extra_headers : option string) (sal : Salida) (d : D) : res accion :=
  let path := mg_snprintf MAX_PATH_SIZE file_name in
  match st with
  | None => Ok (HttpError 404 None)
  | Some st =>
      if must_hide_file (opt HIDE_FILES_PATTERN) path then Ok (HttpError 404 None)
      else if es_dir st && String.eqb (uri r) "" then Fallo (Indefinido "mg_send_file_internal: empty uri")
      else if es_dir st && negb (Ascii.eqb (deref (saltear (String.length (uri r) - 1) (uri r))) "/") then Ok (Redirigir (uri r +:+ "/"))
      else
        let? '(path, indice) := if es_dir st then find_index_file path MAX_PATH_SIZE d else Ok (path, Some st) in
        match indice with
        | None =>
            let? dir_lst := opcion_de ENABLE_DIRECTORY_LISTING "mg_send_file_internal: null enable_directory_listing" in
            Ok (if mg_strcasecmp_0 dir_lst "yes" then Listado path (send_directory_listing r path sal d) else HttpError 403 None)
        | Some st =>
            let? cgi_pat := opcion_de CGI_PATTERN "mg_send_file_internal: null cgi_pattern" in
            if 0 <? mg_match_prefix cgi_pat path then Ok (Cgi path path_info)
            else
              let? ssi_pat := opcion_de SSI_PATTERN "mg_send_file_internal: null ssi_pattern" in
              if 0 <? mg_match_prefix ssi_pat path then Ok (Ssi path)
              else
                let? igual := is_not_modified (http_headers r) (datos st) in
                if igual : bool then Ok (HttpError 304 None)
                else
                  match abrir path d with
                  | inr texto =>
                      let? e := open_file_endpoint r (opt EXTRA_MIME_TYPES) curtime path (datos st) texto extra_headers in
                      Ok (Enviar path e)
                  | inl _ => Ok (HttpError 404 None)
                  end
        end
  end.

Definition mg_send_file (curtime : Z) (r : mg_connection) (file_name : string) (extra_headers : option string) (sal : Salida) (d : D) : res accion :=
  mg_send_file_internal curtime r file_name (stat file_name d) None extra_headers sal d.

(** [open_local_endpoint] once the handler of the program has left the request to it. *)
Definition local_endpoint (curtime : Z) (r : mg_connection) (sal : Salida) : M D accion :=
  if String.eqb (request_method r) "CONNECT" || mg_strncasecmp_0 "http" (uri r) then
    ret (if bool_decide (opt ENABLE_PROXY = Some "yes") then Proxificar else HttpError 405 None)
  else if String.eqb (request_method r) "OPTIONS" then ret Opciones
  else
    let* '(path, st, info) := convert_uri_to_file_name r in
    match opt DOCUMENT_ROOT, path with
    | None, _ => ret (HttpError 404 None)
    | Some _, None => falla (Indefinido "open_local_endpoint: path not set")
    | Some _, Some path =>
        let dav := is_dav_request r in
        let dir := match st with Some s => es_dir s | None => false end in
        let* autorizado := leer (fun d => if dav then is_authorized_for_dav r d else is_authorized r path dir d) in
        if negb autorizado then ret Autenticar
        else if must_hide_file (opt HIDE_FILES_PATTERN) path then ret (HttpError 404 None)
        else if String.eqb (request_method r) "PROPFIND" then
          fun d => (let? s := handle_propfind r path st sal d in Ok (Propiedades path s), d)
        else if String.eqb (request_method r) "MKCOL" then handle_mkcol r path
        else if String.eqb (request_method r) "DELETE" then handle_delete path
        else if String.eqb (request_method r) "PUT" then handle_put r path
        else fun d => (mg_send_file_internal curtime r path st info None sal d, d)
    end.
End Locales.
End Locales.
