(* ===== verification/LocalesOk.v ===== *)
(** * LocalesOk: the files of the disk that requests can touch *)

From S2P Require Import Prelude Bloques Libc Escaneo MgMd5 Mongoose Conexion Patrones Autorizacion Fechas Archivos Mundo Arranque Disco Rutas Locales.
Open Scope Z_scope.

(** ** Requests stay below the document root *)
Module LocalesOk.
Import Libc Mongoose Patrones Autorizacion Fechas Archivos Arranque Disco Rutas Locales.

(** The file a reply is about. *)
Definition toca (a : accion) : option string :=
  match a with
  | Listado p _ | Cgi p _ | Ssi p | Enviar p _ | Propiedades p _ | Recibir p _ _ _ => Some p
  | _ => None
  end.

(** The entries of a list of options. *)
Fixpoint entradas_desde (fuel : nat) (l : option string) : list string :=
  match fuel with
  | O => []
  | S fuel => match next_option l with Some (v, r) => texto_vec v :: entradas_desde fuel (Some r) | None => [] end
  end.
Definition entradas (l : option string) : list string := entradas_desde (S (String.length (default "" l))) l.

(** *** Text of paths *)

Lemma sin_barras_ok s : s = sin_barras s \/ exists r, s = sin_barras s +:+ String "/" r /\ ruta r = [].
Proof.
  induction s as [|c s IH]; [by left|]. cbn [sin_barras]. destruct (sin_barras s) as [|a t].
  - assert (ruta s = []) as Hs.
    { destruct IH as [->|(r & E & Hr)]; [done|]. rewrite E, app_nil_l_s. exact Hr. }
    destruct (Ascii.eqb_spec c "/") as [->|Nc]; [right; by exists s|].
    destruct IH as [->|(r & -> & Hr)]; [by left|]. right. exists r. by rewrite app_cons_s.
  - destruct IH as [->|(r & -> & Hr)]; [by left|]. right. exists r. by rewrite app_cons_s.
Qed.

Lemma ruta_sin_barras s : ruta (sin_barras s) = ruta s.
Proof.
  destruct (sin_barras_ok s) as [E|(r & E & Hr)]; [by rewrite <- E|]. rewrite E at 2.
  by rewrite ruta_barra, Hr, app_nil_r.
Qed.

Lemma bajo_sin_barras raiz p : bajo raiz p -> bajo raiz (sin_barras p).
Proof. intros (q & Hq & Hn). exists q. by rewrite ruta_sin_barras. Qed.

Lemma next_option_resto l v r : next_option l = Some (v, r) ->
  (String.length r < String.length (default "" l))%nat.
Proof.
  destruct l as [[|c l]|]; [done| |done]. cbn [next_option default]. pose proof (abarcar_app (fun c => negb (Ascii.eqb c ",")) (String c l)) as Ha.
  destruct (abarcar _ _) as [a b]. destruct Ha as [Ha _]. intros [= _ <-].
  apply (f_equal String.length) in Ha. rewrite length_app_s in Ha. unfold id. destruct b; cbn [String.length] in *; lia.
Qed.

Section Locales.
Context {D : Type} {HD : Disco D} {HE : Entorno}.
Context (be : bool) (basura : MgMd5.MD5_CTX) (srv : mg_server).
Abbreviation opt := (opcion srv).

(** *** The name of the file *)

(** The directory a request is served from: that of WebDAV for its methods, if there is one. *)
Definition raiz_de (r : mg_connection) : option string :=
  if is_dav_request r && bool_decide (is_Some (opt DAV_ROOT)) then opt DAV_ROOT else opt DOCUMENT_ROOT.

Lemma path_info_desde_ok pat antes despues (d : D) p s info :
  path_info_desde pat antes despues d = Ok (Some (p, s, info)) ->
  exists x y, despues = x +:+ String "/" y /\ p = antes +:+ x /\ info = String "/" y /\ stat p d = Some s.
Proof.
  revert antes. induction despues as [|c r IH]; intros antes; cbn [path_info_desde]; [done|].
  assert (path_info_desde pat (antes +:+ String c "") r d = Ok (Some (p, s, info)) ->
    exists x y, String c r = x +:+ String "/" y /\ p = antes +:+ x /\ info = String "/" y /\ stat p d = Some s) as K.
  { intros (x & y & -> & -> & -> & Hs)%IH. exists (String c x), y. split_and!; [done| |done|done].
    by rewrite app_assoc_s, app_cons_s, app_nil_l_s. }
  destruct (Ascii.eqb_spec c "/") as [->|_]; [|exact K]. destruct pat as [pat|]; [|done].
  destruct (0 <? _); [|exact K]. destruct (stat antes d) as [s'|] eqn:Es; [|exact K].
  intros [= <- <- <-]. exists "", r. rewrite app_nil_l_s, app_nil_r_s. done.
Qed.

(** Without rewrites the path is the root and the URI, or, for a script, its beginning. *)
Lemma convert_ok r (d d' : D) raiz path s info (full := raiz +:+ uri r) :
  raiz_de r = Some raiz -> raiz <> "" -> opt URL_REWRITES = None ->
  (String.length full < MAX_PATH_SIZE)%nat ->
  convert_uri_to_file_name srv r d = (Ok (path, s, info), d') ->
  d' = d /\ exists p, path = Some p /\
    (p = full /\ s = stat p d /\ info = None \/
     exists s' u, s = Some s' /\ stat p d = Some s' /\ u <> "" /\ full = p +:+ u /\ info = Some u /\
       exists x y, p = raiz +:+ x /\ u = String "/" y /\ (2 <= String.length x)%nat).
Proof.
  intros Hroot Hne Hrw Hlen. unfold convert_uri_to_file_name. fold (raiz_de r). rewrite Hroot, Hrw. cbn [default].
  intros E. apply pair_equal_spec in E as [E <-]. split; [done|]. revert E. cbn [bindR]. unfold id.
  assert ((String.length raiz =? 0)%nat = false) as -> by (destruct raiz; done).
  cbn [reescribir String.length next_option_eq next_option bindR]. rewrite prefijo_todo by done. fold full.
  assert (mg_snprintf MAX_PATH_SIZE full = full) as ->.
  { unfold mg_snprintf. destruct MAX_PATH_SIZE; [lia|]. apply prefijo_todo. lia. }
  destruct (stat full d) as [s0|] eqn:Es; [intros [= <- <- <-]; exists full; auto|].
  destruct (Nat.ltb_spec (String.length full) (String.length raiz + 2)) as [|Hl]; [done|].
  destruct (path_info_desde _ _ _ d) as [[[[p s0] u]|]|] eqn:Ep; cbn [bindR]; intros [= <- <- <-].
  - apply path_info_desde_ok in Ep as (x & y & Ex & -> & -> & Hs).
    pose proof (prefijo_saltear (String.length raiz + 2) full) as Ef. rewrite Ex in Ef.
    eexists. split; [done|]. right. exists s0, (String "/" y). split_and!; [done|done|done|by rewrite app_assoc_s, Ef|done|].
    unfold full. rewrite <- ArchivosOk.prefijo_mas, prefijo_app, saltear_app.
    eexists (prefijo 2 (uri r) +:+ x), y. rewrite app_assoc_s. split_and!; [done|done|].
    rewrite length_app_s, length_prefijo. unfold full in Hl. rewrite length_app_s in Hl. lia.
  - exists full. auto.
Qed.

(** *** The index of a directory *)

Lemma buscar_indice_ok fuel l base n (d : D) : (String.length (default "" l) < fuel)%nat ->
  exists o, buscar_indice fuel l base n d = Ok o /\
    forall p s, o = Some (p, s) -> stat p d = Some s /\ exists e, p = base +:+ String "/" e /\ e ∈ entradas_desde fuel l.
Proof.
  revert l. induction fuel as [|fuel IH]; intros l Hl; [lia|]. cbn [buscar_indice entradas_desde].
  destruct (next_option l) as [[v r]|] eqn:E; [|by eexists]. apply next_option_resto in E.
  destruct (IH (Some r)) as (o & Eo & Ho); [unfold default, id; lia|].
  assert (exists o, buscar_indice fuel (Some r) base n d = Ok o /\ forall p s, o = Some (p, s) -> stat p d = Some s /\
    exists e, p = base +:+ String "/" e /\ e ∈ texto_vec v :: entradas_desde fuel (Some r)) as K.
  { exists o. split; [done|]. intros p s Hp. destruct (Ho p s Hp) as (H1 & e & H2 & H3). split; [done|]. exists e. split; [done|by right]. }
  destruct (_ || _)%bool; [exact K|]. destruct (stat (base +:+ "/" +:+ texto_vec v) d) as [s|] eqn:Es; [|exact K].
  eexists. split; [done|]. intros p s' [= <- <-]. split; [done|]. exists (texto_vec v). split; [done|left].
Qed.

Lemma find_index_file_ok path n (d : D) : exists p o, find_index_file srv path n d = Ok (p, o) /\
  match o with
  | Some s => stat p d = Some s /\ exists e, p = sin_barras path +:+ String "/" e /\ e ∈ entradas (opt INDEX_FILES)
  | None => p = sin_barras path
  end.
Proof.
  unfold find_index_file, entradas. destruct (buscar_indice_ok (S (String.length (default "" (opt INDEX_FILES)))) (opt INDEX_FILES) (sin_barras path) n d)
    as (o & -> & Ho); [lia|]. cbn [bindR]. destruct o as [[p s]|]; eexists _, _; (split; [reflexivity|]); [by apply Ho|done].
Qed.

Lemma mg_snprintf_cabe s : (String.length s < MAX_PATH_SIZE)%nat -> mg_snprintf MAX_PATH_SIZE s = s.
Proof. intros H. unfold mg_snprintf. destruct MAX_PATH_SIZE; [lia|]. apply prefijo_todo. lia. Qed.

(** What is sent for a file [q]: itself, or the listing or an index of the directory it is. *)
Definition procede (q : string) (s : stat_t) (p : string) : Prop :=
  p = q \/ es_dir s = true /\ (p = sin_barras q \/ exists e, e ∈ entradas (opt INDEX_FILES) /\ p = sin_barras q +:+ String "/" e).

Lemma send_file_toca curtime r q st info eh sal (d : D) a p : (String.length q < MAX_PATH_SIZE)%nat ->
  mg_send_file_internal srv curtime r q st info eh sal d = Ok a -> toca a = Some p ->
  must_hide_file (opt HIDE_FILES_PATTERN) q = false /\ exists s, st = Some s /\ procede q s p.
Proof.
  intros Hl. unfold mg_send_file_internal. rewrite mg_snprintf_cabe by done. destruct st as [s|]; [|by intros [= <-]].
  destruct (must_hide_file _ q); [by intros [= <-]|]. destruct (es_dir s && String.eqb _ _); [done|].
  destruct (es_dir s && negb _); [by intros [= <-]|]. intros E Ht. split; [done|]. exists s. split; [done|].
  assert (exists q' o, (if es_dir s then find_index_file srv q MAX_PATH_SIZE d else Ok (q, Some s)) = Ok (q', o) /\ procede q s q') as (q' & o & Eq & Hq).
  { unfold procede. destruct (es_dir s) eqn:Ed; [|by eexists _, _; split; [done|left]].
    destruct (find_index_file_ok q MAX_PATH_SIZE d) as (p' & o & Ep & Ho). eexists _, _. split; [done|]. right. split; [done|].
    destruct o; [right|by left]. destruct Ho as (_ & e & -> & He). eauto. }
  rewrite Eq in E. cbn [bindR] in E. destruct o as [s'|].
  - destruct (opcion_de _ CGI_PATTERN _) as [cgi|]; cbn [bindR] in E; [|done].
    destruct (0 <? _); [injection E as <-; by injection Ht as <-|].
    destruct (opcion_de _ SSI_PATTERN _) as [ssi|]; cbn [bindR] in E; [|done].
    destruct (0 <? _); [injection E as <-; by injection Ht as <-|].
    destruct (is_not_modified _ _) as [[]|]; cbn [bindR] in E; [by injection E as <-| |done].
    destruct (abrir q' d) as [e|t]; [by injection E as <-|].
    destruct (open_file_endpoint _ _ _ _ _ _ _) as [e|]; cbn [bindR] in E; [|done]. injection E as <-. by injection Ht as <-.
  - destruct (opcion_de _ _ _) as [l|]; cbn [bindR] in E; [|done]. injection E as <-.
    destruct (mg_strcasecmp_0 l "yes"); [by injection Ht as <-|done].
Qed.

Lemma handle_put_toca r q (d : D) a d' p : handle_put r q d = (Ok a, d') -> toca a = Some p -> p = q.
Proof.
  unfold handle_put, bindM, leer, ret. destruct (put_dir q d) as [[[|e|]|f] d1]; [by intros [= <- _]|by intros [= <- _]| |done].
  destruct (mg_get_header _ _) as [cl|]; [|by intros [= <- _]]. destruct (crear q d1) as [[e|] d2]; [by intros [= <- _]|].
  intros E. apply pair_equal_spec in E as [E _]. destruct (mg_get_header _ "Content-Range") as [rg|]; [|injection E as <-; by intros [= <-]].
  destruct (parse_range_header rg) as [[[n r1] r2]|]; cbn [bindR] in E; [|done].
  destruct (0 <? n); [|injection E as <-; by intros [= <-]].
  destruct (if r1 <? r2 then _ else _) as [c|]; cbn [bindR] in E; [|done]. injection E as <-. by intros [= <-].
Qed.

(** *** The request *)

(** The file [q] of the disk that a request names: below the root, shown, and allowed, by the
    passwords of WebDAV or by those of its directory. *)
Record nombrado (raiz : string) (r : mg_connection) (d : D) (q : string) : Prop := mkNombrado {
  nom_bajo : bajo raiz q;
  nom_visible : must_hide_file (opt HIDE_FILES_PATTERN) q = false;
  nom_permitido : if is_dav_request r then is_authorized_for_dav be basura srv r d = true
                  else is_authorized be basura srv r q (match stat q d with Some s => es_dir s | None => false end) d = true }.

(** What the request does to the disk. *)
Inductive cambia_disco (r : mg_connection) (q : string) (d : D) : D -> Prop :=
| cambia_nada : cambia_disco r q d d
| cambia_mkcol : request_method r = "MKCOL" -> cambia_disco r q d (mkdir q d).2
| cambia_delete : request_method r = "DELETE" -> cambia_disco r q d (handle_delete q d).2
| cambia_put : request_method r = "PUT" -> cambia_disco r q d (handle_put r q d).2.

Lemma convert_bajo r (d d' : D) raiz path s info :
  raiz_de r = Some raiz -> raiz <> "" -> opt URL_REWRITES = None ->
  (String.length (raiz +:+ uri r) < MAX_PATH_SIZE)%nat -> absoluta (uri r) = true -> ".." ∉ trozos (uri r) ->
  convert_uri_to_file_name srv r d = (Ok (path, s, info), d') ->
  d' = d /\ exists q, path = Some q /\ bajo raiz q /\ s = stat q d /\ (String.length q < MAX_PATH_SIZE)%nat.
Proof.
  intros H1 H2 H4 Hl Ha Hs E. apply (convert_ok r d d' raiz) in E as (-> & q & -> & Hq); [|done..].
  destruct (uri r) as [|c u] eqn:Eu; [done|]. assert (c = "/"%char) as -> by (by destruct c as [[][][][][][][][]]).
  split; [done|]. exists q. split; [done|].
  destruct Hq as [(-> & -> & _)|(s' & w & -> & Hst & _ & Hf & _ & x & y & -> & -> & Hx)].
  - split_and!; [|done|done]. apply bajo_app. cbn [trozos] in Hs. rewrite Ascii.eqb_refl in Hs. set_solver.
  - rewrite app_assoc_s in Hf. apply cortes in Hf as (z & E1 & E2); [|lia].
    assert (z = "") as ->. { apply (f_equal String.length) in E1. rewrite length_app_s in E1. destruct z; [done|cbn in E1; lia]. }
    rewrite app_nil_l_s in E2. destruct x as [|c x]; [cbn in Hx; lia|]. rewrite app_cons_s in E2. injection E2 as <- ->.
    split_and!; [|done|].
    + apply (bajo_prefijo raiz x y). cbn [trozos] in Hs. rewrite Ascii.eqb_refl in Hs. set_solver.
    + rewrite !length_app_s in *. cbn [String.length] in *. rewrite length_app_s in Hl. cbn [String.length] in Hl. lia.
Qed.

Lemma procede_bajo raiz q s p : Forall (fun e => ".." ∉ trozos e) (entradas (opt INDEX_FILES)) -> bajo raiz q -> procede q s p -> bajo raiz p.
Proof.
  intros Hi Hq [->|[_ [->|(e & He & ->)]]]; [done|by apply bajo_sin_barras|].
  apply bajo_mas; [by apply bajo_sin_barras|]. rewrite Forall_forall in Hi. by apply Hi.
Qed.

Lemma handle_mkcol_disco r q (d : D) a d' : request_method r = "MKCOL" -> handle_mkcol r q d = (Ok a, d') ->
  cambia_disco r q d d' /\ toca a = None.
Proof.
  intros Hm. unfold handle_mkcol. destruct (_ <? _)%nat; [intros [= <- <-]; split; [constructor|done]|].
  pose proof (cambia_mkcol r q d Hm) as K. destruct (mkdir q d) as [e d1]. intros [= <- <-]. done.
Qed.

Lemma handle_delete_toca q (d : D) a d' : handle_delete q d = (Ok a, d') -> toca a = None.
Proof.
  unfold handle_delete. destruct (stat q d) as [s|]; [|by intros [= <- _]]. destruct (es_dir s).
  - unfold bindM, ret. destruct (remove_directory _ q d) as [[]]; [by intros [= <- _]|done].
  - destruct (remove q d). by intros [= <- _].
Qed.

Lemma local_endpoint_ok raiz curtime r sal (d d' : D) a :
  raiz_de r = Some raiz -> raiz <> "" -> is_Some (opt DOCUMENT_ROOT) -> opt URL_REWRITES = None ->
  Forall (fun e => ".." ∉ trozos e) (entradas (opt INDEX_FILES)) ->
  (String.length (raiz +:+ uri r) < MAX_PATH_SIZE)%nat -> absoluta (uri r) = true -> ".." ∉ trozos (uri r) ->
  local_endpoint be basura srv curtime r sal d = (Ok a, d') ->
  (forall p, toca a = Some p -> bajo raiz p /\
     exists q, nombrado raiz r d q /\ (p = q \/ exists s, stat q d = Some s /\ procede q s p)) /\
  (d' = d \/ exists q, nombrado raiz r d q /\ cambia_disco r q d d').
Proof.
  intros H1 H2 [docs H3] H4 Hi Hl Ha Hs. unfold local_endpoint. destruct (_ || _)%bool.
  { intros [= <- <-]. split; [|by left]. by destruct (bool_decide _). }
  destruct (String.eqb _ "OPTIONS"); [by intros [= <- <-]; split; [|left]|]. unfold bindM at 1.
  destruct (convert_uri_to_file_name srv r d) as [[[[path s] info]|] d1] eqn:Ec; [|done].
  eapply convert_bajo in Ec as (-> & q & -> & Hb & -> & Hlq); [|done..]. rewrite H3. unfold bindM, leer, ret.
  destruct (if is_dav_request r then _ else _) eqn:Hau; cbn [negb]; [|by intros [= <- <-]; split; [|left]].
  destruct (must_hide_file _ q) eqn:Hh; [by intros [= <- <-]; split; [|left]|].
  assert (nombrado raiz r d q) as Hn by (constructor; [done..|by destruct (is_dav_request r)]).
  assert (forall a, toca a = Some q \/ toca a = None -> forall p, toca a = Some p -> bajo raiz p /\
    exists q, nombrado raiz r d q /\ (p = q \/ exists s, stat q d = Some s /\ procede q s p)) as K.
  { intros a' [E|E] p Hp; rewrite E in Hp; [|done]. injection Hp as <-. split; [done|]. exists q. auto. }
  destruct (String.eqb_spec (request_method r) "PROPFIND") as [_|_].
  { intros E. apply pair_equal_spec in E as [E <-]. destruct (handle_propfind _ _ _ _ _ _) as [sl|]; cbn [bindR] in E; [|done].
    injection E as <-. split; [|by left]. apply K. by left. }
  destruct (String.eqb_spec (request_method r) "MKCOL") as [Em|_].
  { intros E. apply handle_mkcol_disco in E as [E1 E2]; [|done]. split; [apply K; by right|]. right. eauto. }
  destruct (String.eqb_spec (request_method r) "DELETE") as [Em|_].
  { intros E. pose proof (handle_delete_toca _ _ _ _ E). split; [apply K; by right|]. right. exists q. split; [done|].
    replace d' with (handle_delete q d).2 by (by rewrite E). by apply cambia_delete. }
  destruct (String.eqb_spec (request_method r) "PUT") as [Em|_].
  { intros E. split.
    - apply K. destruct (toca a) as [p|] eqn:Et; [left|by right]. by rewrite (handle_put_toca _ _ _ _ _ _ E Et).
    - right. exists q. split; [done|]. replace d' with (handle_put r q d).2 by (by rewrite E). by apply cambia_put. }
  intros E. apply pair_equal_spec in E as [E <-]. split; [|by left]. intros p Hp.
  eapply send_file_toca in E as (_ & s & Es & Hpr); [|done..]. split; [by eapply procede_bajo|]. exists q. split; [done|]. right. eauto.
Qed.
End Locales.

(** A server for the files of a directory, and a disk with a neighbour of that directory. *)
Definition servidor_de (raiz : string) : mg_server := con_opcion DOCUMENT_ROOT (Some raiz) mg_create_server.
Definition carpeta : nodo := Carpeta.
Definition disco_vecino : arbol :=
  <[["srv"; "www2:80"; "clave.txt"] := Archivo 0 "secreto"]>
  (<[["srv"; "www"; "a.txt"] := Archivo 0 "hola"]>
  (<[["srv"; "www2:80"] := carpeta]> (<[["srv"; "www"] := carpeta]> (<[["srv"] := carpeta]> {[ [] := carpeta ]})))).
Definition pide (metodo u : string) : string := metodo +:+ " " +:+ u +:+ " HTTP/1.1" +:+ CRLF +:+ CRLF.



(** Any time zone will do for the examples. *)
Definition entorno_utc : Entorno :=
  {| localtime := gmtime; reloj := fun _ => 0; archivo_en := fun _ => None; big_endian := false |}.

Lemma par_fst {A B} (x : A * B) a : x.1 = a -> x = (a, x.2).
Proof. destruct x. by intros <-. Qed.


(** *** A server without a document root *)

(** What the connection does for the replies of such a server. *)
Definition ejecutar {S} {H : Manejador S} (on_recv : M (Conexion.connection * S) unit) (a : accion) : M (Conexion.connection * S) unit :=
  match a with
  | HttpError code None => Conexion.send_http_error on_recv code
  | Opciones => Conexion.send_options on_recv
  | _ => falla (FueraDelModelo "local endpoint")
  end.

Lemma local_sin_raiz {D} {HD : Disco D} {HE : Entorno} be basura puerto curtime r sal (d : D) :
  local_endpoint be basura (con_opcion LISTENING_PORT puerto mg_create_server) curtime r sal d =
  (Ok (if String.eqb (request_method r) "CONNECT" || mg_strncasecmp_0 "http" (uri r) then HttpError 405 None
       else if String.eqb (request_method r) "OPTIONS" then Opciones else HttpError 404 None), d).
Proof.
  unfold local_endpoint. destruct (_ || _)%bool; [done|]. destruct (String.eqb _ "OPTIONS"); [done|].
  unfold bindM, convert_uri_to_file_name. change (opcion _ DAV_ROOT) with (@None string).
  rewrite bool_decide_false, andb_false_r by (by intros [? ?]).
  change (opcion _ URL_REWRITES) with (@None string). change (opcion _ DOCUMENT_ROOT) with (@None string). done.
Qed.

(** The connections of the program, which sets only its port, do what this model says. *)
Theorem sin_raiz {S} {H : Manejador S} {D} {HD : Disco D} {HE : Entorno} on_recv be basura puerto curtime sal (d : D) (x : Conexion.connection * S) :
  Conexion.open_local_endpoint on_recv true x =
  (Conexion.cambia (Conexion.con_tipo Conexion.EP_NONE);;;
   let* auth := Conexion.call_user MG_AUTH in
   match auth with
   | MG_FALSE => Conexion.mg_send_digest_auth_request on_recv
   | _ =>
       let* r := Conexion.lee Conexion.mg_conn in
       match r with
       | None => falla (Indefinido "open_local_endpoint: null request")
       | Some r =>
           let* a := alzar (local_endpoint be basura (con_opcion LISTENING_PORT puerto mg_create_server) curtime r sal d).1 in
           ejecutar on_recv a
       end
   end) x.
Proof.
  unfold Conexion.open_local_endpoint. apply bind_ext. intros _ s1. apply bind_ext. intros auth s2.
  assert (forall s, (let* r := Conexion.lee Conexion.mg_conn in match r with None => falla (Indefinido "open_local_endpoint: null request") | Some r => ejecutar on_recv (if String.eqb (request_method r) "CONNECT" || mg_strncasecmp_0 "http" (uri r) then HttpError 405 None
       else if String.eqb (request_method r) "OPTIONS" then Opciones else HttpError 404 None) end) s =
    (let* r := Conexion.lee Conexion.mg_conn in match r with None => falla (Indefinido "open_local_endpoint: null request") | Some r =>
      let* a := alzar (local_endpoint be basura (con_opcion LISTENING_PORT puerto mg_create_server) curtime r sal d).1 in ejecutar on_recv a end) s) as K.
  { intros s. apply bind_ext. intros [r|] s'; [|done]. by rewrite local_sin_raiz. }
  destruct auth; [done|..]; cbn [negb]; rewrite <- K; apply bind_ext; intros [r|] s3; try done;
    (destruct (_ || _)%bool; [done|]; by destruct (String.eqb _ "OPTIONS")).
Qed.

End LocalesOk.
