(* ===== verification/DavOk.v ===== *)
(** * DavOk: what WebDAV does to a disk that works *)

From S2P Require Import Prelude Bloques Libc Escaneo MgMd5 Mongoose Conexion Patrones Autorizacion Fechas Archivos Mundo Arranque Disco Rutas Locales LocalesOk.
Open Scope Z_scope.

Module DavOk.
Import Libc Mongoose Patrones Autorizacion Fechas Archivos ArchivosOk Arranque Disco Rutas Locales LocalesOk.

(** ** Trees *)

(** The tree without what is at a path and below it. *)
Definition podar (k : list string) (a : arbol) : arbol := filter (fun kv => ~ k `prefix_of` kv.1) a.

Lemma lookup_podar k a j : podar k a !! j = if decide (k `prefix_of` j) then None else a !! j.
Proof.
  unfold podar. rewrite map_lookup_filter. destruct (a !! j) as [x|]; cbn; [|by case_decide].
  case_guard as H; cbn in H; case_decide; done.
Qed.

Lemma bien_formado_carpeta a k r : bien_formado a -> r <> [] -> is_Some (a !! (k ++ r)) -> es_carpeta (a !! k) = true.
Proof.
  intros Ha. revert k. induction r as [|n r IH] using rev_ind; intros k Hr Hs; [done|]. rewrite app_assoc in Hs.
  apply Ha in Hs as [Hc _]. destruct r as [|m r]; [by rewrite app_nil_r in Hc|]. apply IH; [done|].
  destruct (a !! (k ++ m :: r)); [by eexists|done].
Qed.

(** What is below a file is the file. *)
Lemma podar_archivo a k m t : bien_formado a -> a !! k = Some (Archivo m t) -> podar k a = delete k a.
Proof.
  intros Ha Hk. apply map_eq. intros j. rewrite lookup_podar. destruct (decide (k = j)) as [<-|Nj].
  - rewrite lookup_delete_eq. by rewrite decide_True.
  - rewrite lookup_delete_ne by done. case_decide as Hp; [|done]. destruct Hp as [r ->].
    destruct (a !! (k ++ r)) eqn:E; [|done]. assert (es_carpeta (a !! k) = true) as Hc.
    { apply (bien_formado_carpeta a k r Ha); [|by rewrite E]. intros ->. by rewrite app_nil_r in Nj. }
    by rewrite Hk in Hc.
Qed.

(** ** DELETE *)

(** The length of the path of something below [p]. *)
Definition largo_bajo (p : string) (r : list string) : nat := String.length p + sum_list_with (fun n => S (String.length n)) r.

Section Borrar.
Context {D : Type} {HD : Disco D} {HO : DiscoOk D}.

(** Every path below fits in the buffers. *)
Definition cabe (p : string) (d : D) : Prop :=
  forall r, is_Some (contenido d !! (ruta p ++ r)) -> (largo_bajo p r < MAX_PATH_SIZE)%nat.

Lemma cabe_hijo p n d : nombre_ok n -> cabe p d -> cabe (p +:+ String "/" n) d.
Proof.
  intros Hn Hc r Hr. rewrite ruta_hijo in Hr by done. rewrite <- app_assoc in Hr. apply Hc in Hr.
  unfold largo_bajo in *. cbn [app sum_list_with] in Hr. rewrite length_app_s. cbn [String.length]. lia.
Qed.

(** The deletion of a tree, for a call of [remove_directory]. *)
Definition borra (rd : string -> M D bool) (dir : string) : Prop :=
  forall d, sano d -> propia dir -> contenido d !! ruta dir = Some Carpeta -> ruta dir <> [] -> punto_final dir = false -> cabe dir d ->
  exists d', rd dir d = (Ok true, d') /\ sano d' /\ contenido d' = podar (ruta dir) (contenido d).

(** One entry: whatever [st] held. *)
Lemma borrar_entrada_ok rd dir n ultimo d : sano d -> propia dir -> nombre_ok n ->
  borra rd (dir +:+ String "/" n) -> cabe dir d -> is_Some (contenido d !! (ruta dir ++ [n])) ->
  exists u d', borrar_entrada rd dir n ultimo d = (Ok u, d') /\ sano d' /\ contenido d' = podar (ruta dir ++ [n]) (contenido d).
Proof.
  intros Hd Hp Hn Hrd Hc [x Hx]. unfold borrar_entrada. destruct Hn as (Hb & Hn0 & Hn1 & Hn2).
  rewrite (proj2 (String.eqb_neq n ".") Hn1), (proj2 (String.eqb_neq n "..") Hn2). cbn [orb].
  assert (nombre_ok n) as Hn by done. pose proof (cabe_hijo dir n d Hn Hc) as Hch. pose proof (propia_hijo dir n Hp Hn) as Hph.
  rewrite <- (ruta_hijo dir n Hn) in Hx |- *. change (dir +:+ "/" +:+ n) with (dir +:+ String "/" n).
  rewrite mg_snprintf_cabe by (specialize (Hch []); rewrite app_nil_r, Hx in Hch; unfold largo_bajo in Hch; cbn in Hch; rewrite Nat.add_0_r in Hch; by apply Hch).
  pose proof (nombra_carpeta_hijo dir n Hn) as Hnc. pose proof (punto_final_hijo dir n Hn) as Hpf.
  assert (ruta (dir +:+ String "/" n) <> []) as Hr0 by (rewrite ruta_hijo by done; by destruct (ruta dir)).
  set (p := dir +:+ String "/" n) in *. pose proof (stat_ok p d Hd Hph) as Hst. rewrite Hx in Hst. cbn [estado_de] in Hst.
  destruct x as [|m t]; [destruct Hst as [st ->]|rewrite Hst, Hnc]; cbn [es_dir].
  - unfold bindM, ret. destruct (Hrd d) as (d' & -> & Hd' & E); [done..|]. eauto.
  - destruct (remove_ok p d m t) as (d' & -> & Hd' & E); [done..|]. eexists _, d'. split; [done|]. split; [done|].
    rewrite E. symmetry. eapply podar_archivo; [by apply sano_bien|done].
Qed.

(** Under one of the entries. *)
Definition en_entrada (k : list string) (names : list string) (j : list string) : Prop :=
  Exists (fun n => nombre_ok n /\ (k ++ [n]) `prefix_of` j) names.
#[local] Instance en_entrada_dec k names j : Decision (en_entrada k names j).
Proof. apply _. Defined.

Lemma hermanos (k : list string) n m : (k ++ [n]) `prefix_of` (k ++ [m]) -> n = m.
Proof. intros [r E]. rewrite <- app_assoc in E. apply app_inv_head in E. by injection E. Qed.

Lemma cabe_menos dir d d' : (forall j, is_Some (contenido d' !! j) -> is_Some (contenido d !! j)) -> cabe dir d -> cabe dir d'.
Proof. intros H Hc r Hr. by apply Hc, H. Qed.

Lemma borrar_entradas_ok rd dir names ultimo d : sano d -> propia dir -> cabe dir d -> NoDup names ->
  (forall n, n ∈ names -> n = "." \/ n = ".." \/ nombre_ok n /\ is_Some (contenido d !! (ruta dir ++ [n]))) ->
  (forall n, nombre_ok n -> borra rd (dir +:+ String "/" n)) ->
  exists d', borrar_entradas rd dir names ultimo d = (Ok tt, d') /\ sano d' /\
    forall j, contenido d' !! j = if decide (en_entrada (ruta dir) names j) then None else contenido d !! j.
Proof.
  intros Hd Hp Hc Hnd Hin Hrd. revert ultimo d Hd Hc Hin. induction Hnd as [|n names Hn Hnd IH]; intros ultimo d Hd Hc Hin.
  { exists d. split_and!; [done|done|]. intros j. rewrite decide_False; [done|]. intros Hx. inversion Hx. }
  cbn [borrar_entradas]. unfold bindM. destruct (Hin n) as [En|[En|[Hnn Hs]]]; [left|..].
  - subst n. cbn. destruct (IH ultimo d Hd Hc) as (d' & -> & Hd' & E); [intros m Hm; apply Hin; by right|].
    exists d'. split_and!; [done|done|]. intros j. rewrite E. apply decide_ext. unfold en_entrada. rewrite Exists_cons. intuition. by destruct H as (_ & _ & ? & _).
  - subst n. cbn. destruct (IH ultimo d Hd Hc) as (d' & -> & Hd' & E); [intros m Hm; apply Hin; by right|].
    exists d'. split_and!; [done|done|]. intros j. rewrite E. apply decide_ext. unfold en_entrada. rewrite Exists_cons. intuition. by destruct H as (_ & _ & _ & ?).
  - destruct (borrar_entrada_ok rd dir n ultimo d) as (u & d1 & -> & Hd1 & E1); [auto..|].
    assert (forall j, is_Some (contenido d1 !! j) -> is_Some (contenido d !! j)) as Hm.
    { intros j. rewrite E1, lookup_podar. case_decide; [by intros [? ?]|done]. }
    destruct (IH u d1 Hd1) as (d' & -> & Hd' & E); [by eapply cabe_menos| |].
    { intros m Hm'. destruct (Hin m) as [?|[?|[? ?]]]; [by right|auto|auto|]. right. right. split; [done|].
      rewrite E1, lookup_podar, decide_False; [done|]. intros ->%hermanos. done. }
    exists d'. split_and!; [done|done|]. intros j. rewrite E, E1, lookup_podar. unfold en_entrada.
    repeat case_decide; try done; rewrite Exists_cons in *; tauto.
Qed.

Lemma remove_directory_ok fuel dir : (MAX_PATH_SIZE <= fuel + String.length dir)%nat -> borra (remove_directory fuel) dir.
Proof.
  revert dir. induction fuel as [|fuel IH]; intros dir Hf d Hd Hp Hk Hr0 Hpf Hc.
  { specialize (Hc []). rewrite app_nil_r, Hk in Hc. unfold largo_bajo in Hc. cbn in Hc. specialize (Hc ltac:(by eexists)). lia. }
  cbn [remove_directory]. destruct (opendir_ok dir d) as (l & -> & Hnd & Hl); [done..|]. unfold bindM at 1.
  pose proof (sano_bien d Hd) as Hb.
  destruct (borrar_entradas_ok (remove_directory fuel) dir l None d) as (d1 & -> & Hd1 & E1); [done..| | |].
  { intros n Hn. destruct (decide (n = ".")) as [?|N1], (decide (n = "..")) as [?|N2]; [auto..|].
    apply (Hl n N1 N2) in Hn as Hs. right. right. split; [|done]. by apply Hb in Hs as [_ ?]. }
  { intros n _. apply IH. rewrite length_app_s. cbn [String.length]. lia. }
  unfold bindM, cambiar, ret.
  assert (forall n j, (ruta dir ++ [n]) `prefix_of` j -> ruta dir `prefix_of` j) as Hpre.
  { intros n j [r ->]. rewrite <- app_assoc. by apply prefix_app_r. }
  assert (contenido d1 !! ruta dir = Some Carpeta) as Hk1.
  { rewrite E1, decide_False; [done|]. unfold en_entrada. rewrite Exists_exists. intros (n & _ & _ & Hx).
    apply prefix_length in Hx. rewrite length_app in Hx. cbn in Hx. lia. }
  assert (forall n r, is_Some (contenido d !! (ruta dir ++ n :: r)) -> en_entrada (ruta dir) l (ruta dir ++ n :: r)) as Hhijos.
  { intros n r Hs. assert (is_Some (contenido d !! (ruta dir ++ [n]))) as Hs1.
    { destruct r as [|m r]; [done|]. change (n :: m :: r) with ([n] ++ m :: r) in Hs. rewrite app_assoc in Hs.
      apply bien_formado_carpeta in Hs; [|done..]. by destruct (contenido d !! (ruta dir ++ [n])). }
    apply Hb in Hs1 as Hs2. destruct Hs2 as [_ Hn0].
    apply Exists_exists. exists n. split_and!; [destruct Hn0 as (_ & _ & ? & ?); by apply Hl|done|]. exists r. by rewrite <- app_assoc. }
  destruct (rmdir_ok dir d1) as [Hd' E']; [done..| |].
  { intros n. rewrite E1. case_decide as Hd0; [done|]. destruct (contenido d !! (ruta dir ++ [n])) eqn:E; [|done].
    exfalso. apply Hd0, Hhijos. by rewrite E. }
  eexists. split_and!; [done|done|]. rewrite E'. apply map_eq. intros j. rewrite lookup_podar. destruct (decide (ruta dir = j)) as [<-|Nj].
  { rewrite lookup_delete_eq. by rewrite decide_True. }
  rewrite lookup_delete_ne, E1 by done.
  destruct (decide (en_entrada (ruta dir) l j)) as [He|He]; destruct (decide (ruta dir `prefix_of` j)) as [Hx|Hx]; [done| | |done].
  - exfalso. apply Exists_exists in He as (n & _ & _ & Hn). apply Hx. by eapply Hpre.
  - destruct Hx as [[|n r] ->]; [by rewrite app_nil_r in Nj|]. destruct (contenido d !! (ruta dir ++ n :: r)) eqn:E; [|done].
    exfalso. apply He, Hhijos. by rewrite E.
Qed.

(** C38. WebDAV deletes what it is told and nothing else: on a disk that works, DELETE of a
    file, or of a directory that is not the root, whatever it holds, leaves exactly the tree
    without that path and what is below it, and answers 204; it runs out of nothing while the
    paths of a directory fit in their buffers.  The path of a file has no final slash or dot, that of a
    directory no final dot.  Where there is nothing, or a file and the path ends in a slash or a
    dot, it answers 404 and leaves the disk alone. *)
Theorem borrado p d : sano d -> propia p ->
  (forall m t, contenido d !! ruta p = Some (Archivo m t) ->
   if nombra_carpeta p then handle_delete p d = (Ok (HttpError 404 None), d)
   else exists d', handle_delete p d = (Ok (HttpError 204 None), d') /\ sano d' /\ contenido d' = podar (ruta p) (contenido d)) /\
  (contenido d !! ruta p = Some Carpeta -> ruta p <> [] -> punto_final p = false -> cabe p d ->
   exists d', handle_delete p d = (Ok (HttpError 204 None), d') /\ sano d' /\ contenido d' = podar (ruta p) (contenido d)) /\
  (contenido d !! ruta p = None -> handle_delete p d = (Ok (HttpError 404 None), d)).
Proof.
  intros Hd Hp. pose proof (stat_ok p d Hd Hp) as Hs. unfold handle_delete. split_and!.
  - intros m t Hx. rewrite Hx in Hs. cbn [estado_de] in Hs. rewrite Hs. destruct (nombra_carpeta p) eqn:N; [done|]. cbn [es_dir].
    destruct (remove_ok p d m t) as (d' & -> & Hd' & E); [done..|]. exists d'. split_and!; [done|done|]. rewrite E.
    symmetry. eapply podar_archivo; [by apply sano_bien|done].
  - intros Hx Hr Hf Hc. rewrite Hx in Hs. destruct Hs as [st ->]. cbn [es_dir].
    unfold bindM, ret. destruct (remove_directory_ok MAX_PATH_SIZE p ltac:(lia) d) as (d' & -> & Hd' & E); [done..|]. eauto.
  - intros Hx. rewrite Hx in Hs. cbn [estado_de] in Hs. by rewrite Hs.
Qed.
End Borrar.

(** A disk with a tree to delete. *)
Definition disco_arbol : arbol :=
  <[["srv"; "www"; "b"; "c"; "d.txt"] := Archivo 0 "d"]> (<[["srv"; "www"; "b"; "c"] := carpeta]>
  (<[["srv"; "www"; "b"; "e.txt"] := Archivo 0 "e"]> (<[["srv"; "www"; "b"] := carpeta]> disco_vecino))).

Lemma sano_arbol : bien_formado disco_arbol.
Proof. repeat (apply bien_formado_insert_en; [|vm_compute; reflexivity]). apply bien_formado_raiz. Qed.

(** All the paths of a tree in memory fit if the longest does. *)
Lemma cabe_todo (p : string) (a : arbol) :
  forallb (fun kv => String.length p + sum_list_with (fun n => S (String.length n)) kv.1 <? MAX_PATH_SIZE)%nat (map_to_list a) = true -> cabe p a.
Proof.
  intros H r [x Hx]. apply elem_of_map_to_list in Hx. rewrite forallb_forall in H. apply list_elem_of_In, H, Nat.ltb_lt in Hx.
  cbn [fst] in Hx. rewrite sum_list_with_app in Hx. unfold largo_bajo. lia.
Qed.

Lemma borrado_witness :
  (exists d', handle_delete "/srv/www/b/" disco_arbol = (Ok (HttpError 204 None), d') /\
    d' !! ["srv"; "www"; "b"; "c"; "d.txt"] = None /\ d' !! ["srv"; "www"; "a.txt"] = Some (Archivo 0 "hola")) /\
  handle_delete "/srv/www/a.txt/" disco_arbol = (Ok (HttpError 404 None), disco_arbol).
Proof.
  split.
  - destruct (proj1 (proj2 (@borrado _ _ arbol_disco_ok "/srv/www/b/" disco_arbol sano_arbol ltac:(apply (bool_decide_unpack _); vm_compute; exact I)))) as (d' & H1 & _ & H2).
    + vm_compute. reflexivity.
    + vm_compute. discriminate.
    + vm_compute. reflexivity.
    + apply cabe_todo. vm_compute. reflexivity.
    + exists d'. split; [exact H1|]. change (contenido d') with d' in H2. rewrite H2.
      split; rewrite lookup_podar; vm_compute; reflexivity.
  - refine (proj1 (@borrado _ _ arbol_disco_ok "/srv/www/a.txt/" disco_arbol sano_arbol ltac:(apply (bool_decide_unpack _); vm_compute; exact I)) 0 "hola" _).
    vm_compute. reflexivity.
Defined.

(** ** PUT *)

Section Poner.
Context {D : Type} {HD : Disco D} {HO : DiscoOk D}.

Definition es_archivo (x : option nodo) : bool := match x with Some (Archivo _ _) => true | _ => false end.

(** The directories on the way to [k] exist. *)
Definition camino (d : D) (k : list string) : Prop := forall j, j `prefix_of` k -> es_carpeta (contenido d !! j) = true.

Lemma camino_mas d k n : camino d k -> es_carpeta (contenido d !! (k ++ [n])) = true -> camino d (k ++ [n]).
Proof.
  intros Hk Hn j [r E]. destruct r as [|m r _] using rev_ind.
  - rewrite app_nil_r in E. by subst j.
  - rewrite app_assoc in E. apply app_inj_tail in E as [E _]. apply Hk. by exists r.
Qed.

Lemma propia_de_prefijo a b : propia (a +:+ String "/" b) -> absoluta a = true -> propia a.
Proof. intros [_ H] Ha. split; [done|]. rewrite trozos_barra in H. set_solver. Qed.

(** One directory of the path, there or made. *)
Lemma put_dir_paso b y (d : D) (antes := b +:+ String "/" y) : sano d -> propia antes -> contiene "/" y = false ->
  camino d (ruta b) -> es_archivo (contenido d !! ruta antes) = false ->
  exists d1, match stat antes d with Some _ => (None, d) | None => mkdir antes d end = (None, d1) /\ sano d1 /\
    camino d1 (ruta antes) /\ (forall j, j <> ruta antes -> contenido d1 !! j = contenido d !! j) /\
    (is_Some (contenido d !! ruta antes) -> d1 = d).
Proof.
  intros Hd Hp Hy Hb Ha. pose proof (stat_ok _ _ Hd Hp) as Hst.
  assert (ruta antes = ruta b \/ ruta antes = ruta b ++ [y]) as Hr.
  { unfold antes. rewrite ruta_barra. assert (ruta y = [] \/ ruta y = [y]) as [->| ->];
      [|left; by rewrite app_nil_r|by right]. unfold ruta. rewrite trozos_nombre by done. rewrite filter_cons. case_decide; auto. }
  destruct (contenido d !! ruta antes) as [[|m t]|] eqn:Ex; [|done|]; cbn [estado_de] in Hst.
  - destruct Hst as [st ->]. exists d. split_and!; [done|done| |done|done]. destruct Hr as [Hr|Hr]; rewrite Hr; [done|]. apply camino_mas; [done|].
    by rewrite <- Hr, Ex.
  - rewrite Hst. destruct Hr as [Hr|Hr]; [specialize (Hb (ruta b) ltac:(done)); by rewrite <- Hr, Ex in Hb|].
    assert (nombre_ok y) as Hyn.
    { pose proof (ruta_propia antes Hp) as Hall. rewrite Hr, Forall_app, Forall_singleton in Hall. apply Hall. }
    destruct (mkdir_ok antes d (ruta b) y) as (d1 & -> & Hd1 & E); [done..|by apply punto_final_hijo|done|by apply Hb|].
    exists d1. split_and!; [done|done| | |by intros [? ?]].
    + rewrite Hr. apply camino_mas; [|by rewrite E, Hr, lookup_insert_eq]. intros j Hj. rewrite E, lookup_insert_ne; [by apply Hb|].
      intros <-. rewrite Hr in Hj. apply prefix_length in Hj. rewrite length_app in Hj. cbn in Hj. lia.
    + intros j Hj. rewrite E, lookup_insert_ne by done. done.
Qed.

Lemma put_dir_sin_barra antes r (d : D) : contiene "/" r = false -> put_dir_desde antes r d = (Ok PutFile, d).
Proof.
  revert antes. induction r as [|c r IH]; intros antes; [done|]. rewrite contiene_cons. intros [Hc Hr]%orb_false_elim.
  cbn [put_dir_desde]. rewrite Ascii.eqb_sym, Hc. by apply IH.
Qed.

Lemma ruta_prefijo a b : ruta a `prefix_of` ruta (a +:+ String "/" b).
Proof. rewrite ruta_barra. by apply prefix_app_r. Qed.

Lemma put_dir_desde_ok x : forall b y n (d : D) (dir := (b +:+ String "/" y) +:+ x),
  sano d -> absoluta (b +:+ String "/" y) = true -> propia (dir +:+ String "/" n) -> contiene "/" y = false -> nombre_ok n ->
  camino d (ruta b) -> (forall j, j `prefix_of` ruta dir -> es_archivo (contenido d !! j) = false) ->
  exists d', put_dir_desde (b +:+ String "/" y) (x +:+ String "/" n) d = (Ok PutFile, d') /\ sano d' /\ camino d' (ruta dir) /\
    (forall j, ~ j `prefix_of` ruta dir \/ is_Some (contenido d !! j) -> contenido d' !! j = contenido d !! j).
Proof.
  induction x as [|c x IH]; intros b y n d dir Hd Habs Hp Hy Hn Hb Ha; set (antes := b +:+ String "/" y) in *.
  - assert (dir = antes) as Edir by apply app_nil_r_s. rewrite Edir in *. rewrite app_nil_l_s. cbn [put_dir_desde]. rewrite Ascii.eqb_refl.
    destruct (put_dir_paso b y d) as (d1 & E & Hd1 & Hc & Hne & Hsome); [done|by eapply propia_de_prefijo|done|done|by apply Ha|].
    fold antes in E, Hc, Hne, Hsome. rewrite E. destruct Hn as (Hb0 & Hn0 & _). rewrite (proj2 (String.eqb_neq n "") Hn0).
    rewrite put_dir_sin_barra by done. exists d1. split_and!; [done|done|done|]. intros j [Hj|Hj].
    + apply Hne. intros ->. by apply Hj.
    + destruct (decide (j = ruta antes)) as [->|Nj]; [by rewrite (Hsome Hj)|by apply Hne].
  - rewrite app_cons_s. cbn [put_dir_desde]. destruct (Ascii.eqb_spec c "/") as [->|Nc].
    + assert (dir = (antes +:+ String "/" "") +:+ x) as Edir by (unfold dir; by rewrite app_assoc_s, app_cons_s, app_nil_l_s).
      assert (dir = antes +:+ String "/" x) as Edir2 by done.
      destruct (put_dir_paso b y d) as (d1 & E & Hd1 & Hc & Hne & Hsome); [done| |done|done|apply Ha; rewrite Edir2; apply ruta_prefijo|].
      { fold antes. rewrite Edir2, app_assoc_s, app_cons_s in Hp. by eapply propia_de_prefijo. }
      fold antes in E, Hc, Hne, Hsome. rewrite E.
      assert (String.eqb (x +:+ String "/" n) "" = false) as -> by (by destruct x).
      destruct (IH antes "" n d1) as (d' & E' & Hd' & Hc' & Hr'); [done|by destruct antes as [|[[][][][][][][][]]]|by rewrite <- Edir|done|done|done| |].
      { rewrite <- Edir. intros j Hj. destruct (decide (j = ruta antes)) as [->|Nj]; [|rewrite Hne by done; by apply Ha].
        specialize (Hc (ruta antes) ltac:(done)). by destruct (contenido d1 !! ruta antes) as [[]|]. }
      rewrite E'. rewrite <- Edir in Hc', Hr'. exists d'. split_and!; [done|done|done|]. intros j Hj.
      destruct (decide (j = ruta antes)) as [->|Nj].
      * destruct Hj as [Hj|Hj]; [exfalso; apply Hj; rewrite Edir2; apply ruta_prefijo|]. rewrite <- (Hsome Hj). apply Hr'. right. by rewrite (Hsome Hj).
      * rewrite Hr'; [by apply Hne|]. rewrite Hne by done. done.
    + assert (b +:+ String "/" (y +:+ String c "") = antes +:+ String c "") as Ea by (unfold antes; by rewrite app_assoc_s, app_cons_s).
      assert (dir = (antes +:+ String c "") +:+ x) as Edir by (unfold dir; by rewrite app_assoc_s, app_cons_s, app_nil_l_s).
      specialize (IH b (y +:+ String c "") n d). rewrite Ea in IH. cbv zeta in IH. rewrite <- Edir in IH. apply IH; try done.
      * by destruct antes as [|[[][][][][][][][]]].
      * rewrite contiene_app, Hy, contiene_cons, (proj2 (Ascii.eqb_neq _ _)) by congruence. done.
Qed.

Lemma put_dir_ok dir n (d : D) : sano d -> propia (dir +:+ String "/" n) -> nombre_ok n -> es_carpeta (contenido d !! []) = true ->
  (forall j, j `prefix_of` ruta dir -> es_archivo (contenido d !! j) = false) ->
  exists d', put_dir (dir +:+ String "/" n) d = (Ok PutFile, d') /\ sano d' /\ camino d' (ruta dir) /\
    (forall j, ~ j `prefix_of` ruta dir \/ is_Some (contenido d !! j) -> contenido d' !! j = contenido d !! j).
Proof.
  intros Hd Hp Hn Hroot Ha.
  assert (camino d []) as H0 by (intros j [r E]; symmetry in E; apply app_nil in E as [-> _]; done).
  destruct dir as [|c x].
  - rewrite app_nil_l_s. cbn [put_dir]. rewrite put_dir_sin_barra by apply Hn. exists d. split_and!; done.
  - assert (c = "/"%char) as -> by (destruct Hp as [Hp _]; rewrite app_cons_s in Hp; by destruct c as [[][][][][][][][]]).
    rewrite app_cons_s. cbn [put_dir]. exact (put_dir_desde_ok x "" "" n d Hd eq_refl Hp eq_refl Hn H0 Ha).
Qed.

(** The pieces of the body, in the order they arrive. *)
Lemma recibir_vacios l s (d : D) : unir l = "" -> abierta s = false ->
  exists s', recibir_trozos l s d = (Ok s', d) /\ abierta s' = false.
Proof.
  revert s. induction l as [|b l IH]; intros s Hu Hs; [by eexists|]. cbn [unir] in Hu.
  assert (b = "" /\ unir l = "") as [-> Hl] by (destruct b; [by rewrite app_nil_l_s in Hu|done]).
  cbn [recibir_trozos]. unfold bindM, recibir_trozo. cbn [abierta]. rewrite Hs. cbn [andb]. unfold ret. by apply IH.
Qed.

Lemma recibir_trozos_ok p l : forall (d : D) m t sz, sano d -> propia p -> nombra_carpeta p = false -> contenido d !! ruta p = Some (Archivo m t) -> unir l <> "" ->
  exists s d' m', recibir_trozos l (mkSubida p (largo t) (largo (unir l)) (Conexion.mkIobuf "" sz) true) d = (Ok s, d') /\
    abierta s = false /\ sano d' /\ contenido d' = <[ruta p := Archivo m' (t +:+ unir l)]> (contenido d).
Proof.
  induction l as [|b l IH]; intros d m t sz Hd Hp Hf Hk Hu; [done|]. cbn [unir recibir_trozos] in *. unfold bindM.
  unfold recibir_trozo. cbn [destino posicion cl recibido abierta andb]. destruct (decide (b = "")) as [->|Nb].
  { rewrite app_nil_l_s in *. cbn [Conexion.iobuf_append Conexion.buf largo String.length Z.of_nat Z.leb Z.ltb Z.compare]. unfold ret. by apply (IH d m). }
  assert (0 < largo b) as Lb by (destruct b; [done|unfold largo; cbn; lia]).
  assert (exists sz', Conexion.iobuf_append b (Conexion.mkIobuf "" sz) = Conexion.mkIobuf b sz') as (sz' & ->).
  { unfold Conexion.iobuf_append. rewrite (proj2 (Z.leb_gt _ _)) by lia. cbn [Conexion.buf]. rewrite app_nil_l_s. destruct (_ <=? _); by eexists. }
  cbn [Conexion.buf]. rewrite (proj2 (Z.ltb_lt _ _)) by lia. unfold forward_put_data. cbn [recibido cl destino posicion Conexion.buf].
  pose proof (largo_pos (unir l)). rewrite largo_app. rewrite (Z.min_r (largo b + largo (unir l)) (largo b)) by lia.
  rewrite (proj2 (Z.ltb_ge _ _)) by lia. rewrite (prefijo_todo _ b) by (unfold largo; lia).
  destruct (write_ok p d m t b) as (d1 & m1 & -> & Hd1 & E1); [done..|]. cbn [destino posicion cl recibido abierta].
  replace (largo b + largo (unir l) - largo b) with (largo (unir l)) by lia.
  assert (Conexion.iobuf_remove (largo b) (Conexion.mkIobuf b sz') = Conexion.mkIobuf "" sz') as ->.
  { unfold Conexion.iobuf_remove. cbn [Conexion.buf Conexion.size]. rewrite (proj2 (Z.ltb_lt _ _)), Z.leb_refl by lia. cbn [andb].
    unfold largo. rewrite Nat2Z.id. f_equal. pose proof (saltear_app b "") as Eb. by rewrite app_nil_r_s in Eb. }
  destruct (Z.leb_spec (largo (unir l)) 0) as [Hl|Hl].
  - assert (unir l = "") as Hl0 by (destruct (unir l); [done|unfold largo in Hl; cbn in Hl; lia]).
    edestruct (recibir_vacios l) as (s & Es & Hs); [done| |rewrite Es]; [done|].
    exists s, d1, m1. rewrite Hl0, app_nil_r_s. done.
  - rewrite <- largo_app. destruct (IH d1 m1 (t +:+ b) sz') as (s & d' & m' & -> & Hs & Hd' & E'); [done|done|done| | |].
    + by rewrite E1, lookup_insert_eq.
    + intros Hu0. rewrite Hu0 in Hl. unfold largo in Hl. cbn in Hl. lia.
    + exists s, d', m'. split_and!; [done|done|done|]. rewrite E', E1, insert_insert_eq. by rewrite app_assoc_s.
Qed.

(** The reader of a file: a request for it that is not HEAD, not conditional and not of a range, with
    turns in which it can be sent. *)
Record lectura (srv : mg_server) (g : mg_connection) (p mime : string) (largo_texto : Z) (turnos : list vuelta) : Prop := mkLectura {
  lec_visible : must_hide_file (opcion srv HIDE_FILES_PATTERN) p = false;
  lec_cgi : exists c, opcion srv CGI_PATTERN = Some c /\ mg_match_prefix c p <= 0;
  lec_ssi : exists c, opcion srv SSI_PATTERN = Some c /\ mg_match_prefix c p <= 0;
  lec_mime : get_mime_type (opcion srv EXTRA_MIME_TYPES) p = Ok mime;
  lec_metodo : request_method g <> "HEAD";
  lec_sin : Forall (fun h => mg_get_header (http_headers g) h = None) ["If-None-Match"; "If-Modified-Since"; "Range"];
  lec_turnos : bastan largo_texto turnos }.

Lemma lectura_ok {HE : Entorno} srv curtime g p mime turnos sal (d : D) m t : sano d -> propia p -> (String.length p < MAX_PATH_SIZE)%nat -> nombra_carpeta p = false ->
  contenido d !! ruta p = Some (Archivo m t) -> lectura srv g p mime (largo t) turnos ->
  exists e e', mg_send_file srv curtime g p None sal d = Ok (Enviar p e) /\ transferir turnos e = Ok e' /\ abierto e' = false /\
    enviado e' = cabeceras g curtime (mkStat m (largo t)) mime 200 "OK" (largo t) "" "" +:+ t.
Proof.
  intros Hd Hp Hl Hf Hk [L1 (c1 & E1 & M1) (c2 & E2 & M2) L4 L5 L6 L7].
  apply Forall_cons in L6 as [I1 L6]. apply Forall_cons in L6 as [I2 L6]. apply Forall_cons in L6 as [I3 _].
  destruct (envio_entero g (opcion srv EXTRA_MIME_TYPES) curtime p mime m t None turnos) as (e & e' & O1 & O2 & O3 & O4); [done..|].
  exists e, e'. split_and!; [|done|done|done]. unfold mg_send_file, mg_send_file_internal.
  pose proof (stat_ok p d Hd Hp) as Hst. rewrite Hk in Hst. cbn [estado_de] in Hst. rewrite Hf in Hst.
  rewrite Hst, mg_snprintf_cabe by done. cbn [es_dir datos andb bindR]. rewrite L1.
  unfold opcion_de. rewrite E1, E2. cbn [bindR]. rewrite !(proj2 (Z.ltb_ge _ _)) by done.
  unfold is_not_modified. rewrite I1, I2. cbn [bindR]. rewrite (abrir_ok p d m t) by done. rewrite O1. done.
Qed.

(** C37. What is put is what is got.  On a disk that works, a PUT of a file in any directory,
    there or to be made, with a body that is not empty, as long as its Content-Length says, without
    Content-Range, and that arrives in pieces, writes exactly the body: it makes the
    directories that lack, replaces the file, leaves every other file, with its time, and every
    other directory in place, and is over with the last byte; and a request for the file that is
    not HEAD, conditional or of a range, for a name that is neither hidden, a script nor an
    include, then gives its client the headers and the same body. *)
Theorem put_get {HE : Entorno} dir n (p := dir +:+ String "/" n) (d : D) r h l :
  sano d -> propia p -> nombre_ok n -> (String.length p < MAX_PATH_SIZE)%nat -> es_carpeta (contenido d !! []) = true ->
  (forall j, j `prefix_of` ruta dir -> es_archivo (contenido d !! j) = false) -> es_carpeta (contenido d !! ruta p) = false ->
  mg_get_header (http_headers r) "Content-Length" = Some h -> mg_get_header (http_headers r) "Content-Range" = None ->
  strtoll h = largo (unir l) -> unir l <> "" ->
  exists d1 s d2 m,
    handle_put r p d = (Ok (Recibir p 0 (largo (unir l)) (match contenido d !! ruta p with Some _ => 200 | None => 201 end)), d1) /\
    recibir_trozos l (mkSubida p 0 (largo (unir l)) (Conexion.iobuf_init 0) true) d1 = (Ok s, d2) /\ abierta s = false /\
    sano d2 /\ contenido d2 !! ruta p = Some (Archivo m (unir l)) /\ camino d2 (ruta dir) /\
    (forall j, ~ j `prefix_of` ruta p \/ j <> ruta p /\ is_Some (contenido d !! j) -> contenido d2 !! j = contenido d !! j) /\
    forall srv curtime g mime turnos sal, lectura srv g p mime (largo (unir l)) turnos ->
    exists e e', mg_send_file srv curtime g p None sal d2 = Ok (Enviar p e) /\ transferir turnos e = Ok e' /\ abierto e' = false /\
      enviado e' = cabeceras g curtime (mkStat m (largo (unir l))) mime 200 "OK" (largo (unir l)) "" "" +:+ unir l.
Proof.
  intros Hd Hp Hn Hl Hroot Ha Hnd Hcl Hcr Hh Hu. pose proof (ruta_hijo dir n Hn) as Hr. fold p in Hr.
  pose proof (nombra_carpeta_hijo dir n Hn) as Hf. fold p in Hf.
  destruct (put_dir_ok dir n d) as (d0 & E0 & Hd0 & Hc0 & Hk0); [done..|]. fold p in E0.
  assert (~ ruta p `prefix_of` ruta dir) as Hnp.
  { rewrite Hr. intros Hx%prefix_length. rewrite length_app in Hx. cbn in Hx. lia. }
  assert (contenido d0 !! ruta p = contenido d !! ruta p) as Ep by (apply Hk0; by left).
  destruct (crear_ok p d0 (ruta dir) n) as (d1 & m0 & E1 & Hd1 & K1); [done|done|done|done|by apply Hc0|by rewrite Ep|].
  destruct (recibir_trozos_ok p l d1 m0 "" 0) as (s & d2 & m & E2 & Hs & Hd2 & K2); [done|done|done|by rewrite K1, lookup_insert_eq|done|].
  rewrite app_nil_l_s in K2. exists d1, s, d2, m.
  assert (contenido d2 !! ruta p = Some (Archivo m (unir l))) as Hk2 by (by rewrite K2, lookup_insert_eq).
  assert (forall j, j <> ruta p -> contenido d2 !! j = contenido d0 !! j) as Hj2.
  { intros j Hj. by rewrite K2, K1, !lookup_insert_ne by done. }
  split_and!; [|done|done|done|done| | |].
  - unfold handle_put, bindM, leer. rewrite E0, Hcl, E1, Hcr, Hh. pose proof (stat_ok p d Hd Hp) as Hst. do 3 f_equal.
    destruct (contenido d !! ruta p) as [[|m1 t1]|]; [done| |]; cbn [estado_de] in Hst; rewrite Hst; [by rewrite Hf|done].
  - intros j Hj. rewrite Hj2; [by apply Hc0|]. by intros ->.
  - intros j Hj. assert (j <> ruta p) as Nj by (destruct Hj as [Hj|[? _]]; [by intros ->|done]). rewrite Hj2 by done. apply Hk0.
    destruct Hj as [Hj|[_ ?]]; [left|by right]. intros Hx. apply Hj. rewrite Hr. by apply prefix_app_r.
  - intros srv curtime g mime turnos sal HL. by apply lectura_ok.
Qed.
End Poner.

Lemma sano_vecino : bien_formado disco_vecino.
Proof. repeat (apply bien_formado_insert_en; [|vm_compute; reflexivity]). apply bien_formado_raiz. Qed.

Lemma put_get_witness :
  let r := mkConn "PUT" "/n/x.txt" "1.1" None [("Content-Length", "10")] "" in
  let g := mkConn "GET" "/n/x.txt" "1.1" None [] "" in
  exists d1 s d2 m e e',
    handle_put r "/srv/www/n/x.txt" disco_vecino = (Ok (Recibir "/srv/www/n/x.txt" 0 10 201), d1) /\
    recibir_trozos ["hola "; "mundo"] (mkSubida "/srv/www/n/x.txt" 0 10 (Conexion.iobuf_init 0) true) d1 = (Ok s, d2) /\ abierta s = false /\
    @mg_send_file _ _ entorno_utc (servidor_de "/srv/www") 0 g "/srv/www/n/x.txt" None salida_nueva d2 = Ok (Enviar "/srv/www/n/x.txt" e) /\
    transferir [mkVuelta 0 true; mkVuelta 0 true] e = Ok e' /\ enviado e' = cabeceras g 0 (mkStat m 10) "text/plain" 200 "OK" 10 "" "" +:+ "hola mundo".
Proof.
  intros r g.
  destruct (@put_get _ _ arbol_disco_ok entorno_utc "/srv/www/n" "x.txt" disco_vecino r "10" ["hola "; "mundo"])
    as (d1 & s & d2 & m & H1 & H2 & H3 & _ & _ & _ & _ & H4).
  - apply sano_vecino.
  - apply (bool_decide_unpack _). vm_compute. exact I.
  - apply (bool_decide_unpack _). vm_compute. exact I.
  - apply Nat.ltb_lt. vm_compute. reflexivity.
  - vm_compute. reflexivity.
  - intros j [k E]. change (ruta "/srv/www/n") with ["srv"; "www"; "n"] in E.
    destruct j as [|? [|? [|? [|? ?]]]]; cbn [app] in E; simplify_eq; vm_compute; reflexivity.
  - vm_compute. reflexivity.
  - reflexivity.
  - reflexivity.
  - vm_compute. reflexivity.
  - discriminate.
  - destruct (H4 (servidor_de "/srv/www") 0 g "text/plain" [mkVuelta 0 true; mkVuelta 0 true] salida_nueva) as (e & e' & G1 & G2 & _ & G3).
    + split.
      * vm_compute. reflexivity.
      * exists DEFAULT_CGI_PATTERN. split; [reflexivity|vm_compute; discriminate].
      * exists "**.shtml$|**.shtm$". split; [reflexivity|vm_compute; discriminate].
      * vm_compute. reflexivity.
      * discriminate.
      * repeat constructor.
      * split_and!; [by repeat constructor|vm_compute; discriminate|vm_compute; discriminate].
    + exists d1, s, d2, m, e, e'. split; [exact H1|]. split; [exact H2|]. split; [exact H3|].
      split; [exact G1|]. split; [exact G2|exact G3].
Defined.

End DavOk.
