(* ===== verification/ListadoOk.v ===== *)
(** * ListadoOk: the listing of a directory *)

From S2P Require Import Prelude Libc Mongoose Patrones Autorizacion Fechas Archivos Mundo Arranque Disco Locales LocalesOk.
From Stdlib Require Import Sorted.
Open Scope Z_scope.

Module ListadoOk.
Import Libc Mongoose Patrones Fechas Archivos Arranque Disco Locales LocalesOk.

(** A comparison that [qsort] can use: the two senses agree and it is transitive. *)
Record comparacion {A} (c : A -> A -> Z) : Prop := mkComparacion {
  comp_inversa : forall a b, c a b = - c b a;
  comp_trans : forall x y z, c x y <= 0 -> c y z <= 0 -> c x z <= 0 }.

Lemma comp_cero {A} : comparacion (fun _ _ : A => 0).
Proof. split; intros; lia. Qed.
Lemma comp_menos {A} (c : A -> A -> Z) : comparacion c -> comparacion (fun a b => - c a b).
Proof.
  intros [H1 H2]. split; [intros a b; by rewrite (H1 a b)|]. intros x y z Hx Hy. rewrite <- !H1 in *. by apply (H2 z y x).
Qed.
Lemma comp_por {A B} (f : A -> B) c : comparacion c -> comparacion (fun a b => c (f a) (f b)).
Proof. intros [H1 H2]. split; eauto. Qed.

Lemma comp_entero : comparacion comparar.
Proof.
  unfold comparar. split.
  - intros a b. destruct (Z.eqb_spec a b), (Z.eqb_spec b a), (Z.ltb_spec b a), (Z.ltb_spec a b); lia.
  - intros x y z. destruct (Z.eqb_spec x y), (Z.eqb_spec y z), (Z.eqb_spec x z), (Z.ltb_spec y x), (Z.ltb_spec z y), (Z.ltb_spec z x); lia.
Qed.

Lemma comp_strcmp : comparacion strcmp.
Proof.
  split.
  - induction a as [|c a IH]; intros [|e b]; cbn [strcmp]; try done. rewrite (Z.eqb_sym (byte e)). destruct (Z.eqb_spec (byte c) (byte e)); [by apply IH|].
    destruct (Z.ltb_spec (byte c) (byte e)), (Z.ltb_spec (byte e) (byte c)); lia.
  - induction x as [|c x IH]; intros [|e y] [|f z]; cbn [strcmp]; try lia.
    destruct (Z.eqb_spec (byte c) (byte e)), (Z.eqb_spec (byte e) (byte f)), (Z.eqb_spec (byte c) (byte f)),
      (Z.ltb_spec (byte c) (byte e)), (Z.ltb_spec (byte e) (byte f)), (Z.ltb_spec (byte c) (byte f)); try lia; apply IH.
Qed.

Lemma strcmp_cero a b : strcmp a b = 0 -> a = b.
Proof.
  revert b. induction a as [|c a IH]; intros [|e b]; cbn [strcmp]; try done.
  destruct (Z.eqb_spec (byte c) (byte e)) as [E|]; [intros H; f_equal; [by apply byte_inj|by apply IH]|]. by destruct (_ <? _).
Qed.

(** One group before the other, and each by its comparison. *)
Lemma comp_grupos {A} (f : A -> bool) c : comparacion c ->
  comparacion (fun a b => if f a && negb (f b) then -1 else if negb (f a) && f b then 1 else c a b).
Proof.
  intros [H1 H2]. split.
  - intros a b. destruct (f a), (f b); cbn; try lia; apply H1.
  - intros x y z. destruct (f x), (f y), (f z); cbn; try lia; apply H2.
Qed.

Lemma compare_dir_entries_ok qs : comparacion (compare_dir_entries qs).
Proof.
  apply (comp_grupos (fun e => es_dir (st e))). cbv zeta. set (q := default "na" qs).
  destruct (Ascii.eqb (segundo q) "d"); [apply comp_menos|];
    (destruct (Ascii.eqb (deref q) "n"); [apply (comp_por file_name _ comp_strcmp)|]);
    (destruct (Ascii.eqb (deref q) "s"); [apply (comp_por (fun e => st_size (datos (st e))) _ comp_entero)|]);
    (destruct (Ascii.eqb (deref q) "d"); [apply (comp_por (fun e => st_mtime (datos (st e))) _ comp_entero)|apply comp_cero]).
Qed.

Definition antes (qs : option string) (a b : dir_entry) : Prop := compare_dir_entries qs a b <= 0.

Lemma insertar_perm qs x l : insertar qs x l ≡ₚ x :: l.
Proof. induction l as [|y l IH]; cbn [insertar]; [done|]. destruct (_ <=? _); [done|]. rewrite IH. apply Permutation_swap. Qed.
Lemma qsort_perm qs l : qsort qs l ≡ₚ l.
Proof. induction l as [|x l IH]; cbn [qsort foldr]; [done|]. rewrite insertar_perm. by apply Permutation_skip. Qed.

Lemma insertar_orden qs x l : Sorted (antes qs) l -> Sorted (antes qs) (insertar qs x l).
Proof.
  intros H. induction H as [|y l Hl IH Hy]; cbn [insertar]; [by repeat constructor|].
  destruct (Z.leb_spec (compare_dir_entries qs x y) 0) as [Hx|Hx]; [by repeat constructor|].
  assert (antes qs y x) as Hyx by (unfold antes; rewrite (comp_inversa _ (compare_dir_entries_ok qs)); lia).
  constructor; [done|]. destruct l as [|z l]; cbn [insertar]; [by constructor|]. destruct (_ <=? _); constructor; [done|]. by inversion Hy.
Qed.
Lemma qsort_orden qs l : Sorted (antes qs) (qsort qs l).
Proof. induction l; cbn [qsort foldr]; [constructor|by apply insertar_orden]. Qed.

(** Sorted by name, two entries at the same place have the same name. *)
Lemma antes_nombre qs a b : deref (default "na" qs) = "n"%char -> antes qs a b -> antes qs b a -> file_name a = file_name b.
Proof.
  unfold antes. intros Hq H1 H2. rewrite (comp_inversa _ (compare_dir_entries_ok qs)) in H2.
  assert (compare_dir_entries qs a b = 0) as E by lia. revert E. unfold compare_dir_entries. rewrite Hq, Ascii.eqb_refl.
  destruct (_ && _); [done|]. destruct (_ && _); [done|]. intros E. apply strcmp_cero. destruct (Ascii.eqb _ "d"); lia.
Qed.

Lemma orden_unico qs l : deref (default "na" qs) = "n"%char -> forall l', NoDup (map file_name l) -> l ≡ₚ l' ->
  Sorted (antes qs) l -> Sorted (antes qs) l' -> l = l'.
Proof.
  intros Hq. assert (Relations_1.Transitive (antes qs)) as Ht.
  { intros x y z. apply (comp_trans _ (compare_dir_entries_ok qs)). }
  induction l as [|x l IH]; intros l' Hnd Hp H1 H2.
  { by apply Permutation_nil_l in Hp as ->. }
  destruct l' as [|y l']; [by symmetry in Hp; apply Permutation_nil_l in Hp|].
  apply Sorted_StronglySorted in H1, H2; [|done..]. inversion_clear H1 as [|? ? S1 F1]. inversion_clear H2 as [|? ? S2 F2].
  cbn [map] in Hnd. apply NoDup_cons in Hnd as [Hx Hnd].
  assert (x = y) as ->.
  { assert (y ∈ x :: l) as Hy by (rewrite Hp; left). assert (x ∈ y :: l') as Hx' by (rewrite <- Hp; left).
    apply elem_of_cons in Hy as [->|Hy]; [done|]. apply elem_of_cons in Hx' as [->|Hx']; [done|]. exfalso. apply Hx.
    rewrite Forall_forall in F1, F2. rewrite (antes_nombre qs x y Hq (F1 y Hy) (F2 x Hx')). by apply list_elem_of_fmap_2. }
  f_equal. apply IH; [done|by eapply Permutation_cons_inv|by apply StronglySorted_Sorted..].
Qed.

Section Listado.
Context {D : Type} {HD : Disco D} {HO : DiscoOk D}.

Lemma scan_directory_nombres srv dir (d : D) names : opendir dir d = Some names ->
  map file_name (scan_directory srv dir d) = filter (fun n => oculto srv n = false) names.
Proof. unfold scan_directory. intros ->. rewrite map_map. cbn [file_name]. apply map_id. Qed.

(** The listing of a directory shows each of its entries that is not hidden exactly once,
    directories before files and each group in the order the query asks for; by name, which
    is the order without a query, there is only one such listing, whatever [qsort] does with
    entries that compare equal. *)
Theorem listado_directorio srv r dir (d : D) (l := qsort (query_string r) (scan_directory srv dir d)) :
  sano d -> propia dir -> contenido d !! ruta dir = Some Carpeta ->
  NoDup (map file_name l) /\
  (forall n, n ∈ map file_name l <-> n <> "." /\ n <> ".." /\ must_hide_file (opcion srv HIDE_FILES_PATTERN) n = false /\
     is_Some (contenido d !! (ruta dir ++ [n]))) /\
  Sorted (antes (query_string r)) l /\
  (deref (default "na" (query_string r)) = "n"%char -> forall l', l' ≡ₚ scan_directory srv dir d -> Sorted (antes (query_string r)) l' -> l' = l).
Proof.
  intros Hd Hp Hk. destruct (opendir_ok dir d) as (names & En & Hnd & Hn); [done..|].
  pose proof (scan_directory_nombres srv dir d names En) as Es. pose proof (qsort_perm (query_string r) (scan_directory srv dir d)) as Hq. fold l in Hq.
  assert (map file_name l ≡ₚ filter (fun n => oculto srv n = false) names) as Hm by (rewrite <- Es; by apply Permutation_map).
  assert (NoDup (map file_name l)) as Hndl by (rewrite Hm; by apply NoDup_filter). split_and!; [done| |apply qsort_orden|].
  - intros n. rewrite Hm, list_elem_of_filter. unfold oculto. rewrite !orb_false_iff, !String.eqb_neq. specialize (Hn n). tauto.
  - intros Hby l' Hl' Hs. symmetry. apply (orden_unico _ _ Hby); [done| |apply qsort_orden|done]. by rewrite Hq, Hl'.
Qed.
End Listado.

Lemma listado_directorio_witness : exists l,
  map file_name (qsort None (@scan_directory _ arbol_disco (servidor_de "/srv/www") "/srv" disco_vecino)) = l /\ l = ["www"; "www2:80"] /\ NoDup l.
Proof.
  eexists. split; [reflexivity|]. split; [vm_compute; reflexivity|].
  refine (proj1 (@listado_directorio _ _ arbol_disco_ok (servidor_de "/srv/www") (mkConn "GET" "/" "1.1" None [] "") "/srv" disco_vecino _ _ _)).
  - repeat (apply bien_formado_insert_en; [|vm_compute; reflexivity]). apply bien_formado_raiz.
  - apply (bool_decide_unpack _). vm_compute. exact I.
  - vm_compute. reflexivity.
Defined.

End ListadoOk.
