(* ===== verification/Ssi.v ===== *)
(** * Ssi: server-side includes of src/WebServer/mongoose.c

    A file whose name matches the pattern of server-side includes is sent with its tags
    [<!--#include ... -->] and [<!--#exec ... -->] replaced.  The reader of the file is a
    machine with a buffer and a flag; it calls itself for the files it includes, at most
    ten deep.  What a program prints is the interface [Consola] ([popen]). *)

From S2P Require Import Prelude Libc Escaneo Mongoose Conexion Patrones Autorizacion Fechas Archivos Mundo Arranque Disco Locales LocalesOk.
Open Scope Z_scope.

(** What [popen] of a command gives: its output, or [errno]. *)
Class Consola : Type := { popen : string -> Z + string }.

Module Ssi.
Import Libc Escaneo Mongoose Patrones Autorizacion Fechas Archivos Arranque Disco Locales.

Definition letras (s : string) : list directiva := map Letra (String.list_ascii_of_string s).
(** A name up to a quotation mark: [sscanf] of the word, a quotation mark and [%[^...]], whatever
    follows the name. *)
Definition entre_comillas (palabra tag : string) : res (option string) :=
  let? o := sscanf ([Blanco] ++ letras palabra ++ [Letra COMILLA; Tramo (String.length tag) (String COMILLA "")]) tag in
  Ok (match o with Some ([DS f], _) => Some f | _ => None end).

(** [mg_snprintf(path, "%s", ssi)], cut after its last slash. *)
Definition directorio_de (ssi : string) : string :=
  match directorio ssi with Some dir => dir +:+ "/" | None => ssi end.

Definition APERTURA : string := "<!--#".

Section Ssi.
Context {D : Type} {HD : Disco D} {HC : Consola} (srv : mg_server) (d : D).

(** The file that a tag of inclusion names, if it names one. *)
Definition nombre_incluido (ssi tag : string) : res (option string) :=
  let? o := entre_comillas "virtual=" tag in
  match o with
  | Some f =>
      let? raiz := opcion_de srv DOCUMENT_ROOT "do_ssi_include: null document_root" in
      Ok (Some (mg_snprintf MAX_PATH_SIZE (raiz +:+ "/" +:+ f)))
  | None =>
      let? o := entre_comillas "abspath=" tag in
      match o with
      | Some f => Ok (Some (mg_snprintf MAX_PATH_SIZE f))
      | None =>
          let? o := entre_comillas "file=" tag in
          let? o := match o with Some f => Ok (Some f) | None => entre_comillas "" tag end in
          match o with
          | Some f =>
              let dir := directorio_de (mg_snprintf MAX_PATH_SIZE ssi) in
              Ok (Some (dir +:+ mg_snprintf (MAX_PATH_SIZE - String.length dir) f))
          | None => Ok None
          end
      end
  end.

(** [send_file] is [send_ssi_file] one level deeper; the results are what is sent. *)
Definition do_ssi_include (send_file : string -> string -> res string) (ssi tag : string) : res string :=
  let? o := nombre_incluido ssi tag in
  match o with
  | None => Ok ("Bad SSI #include: [" +:+ tag +:+ "]")
  | Some path =>
      match abrir path d with
      | inl e => Ok ("Cannot open SSI #include: [" +:+ tag +:+ "]: fopen(" +:+ path +:+ "): " +:+ strerror e)
      | inr fp =>
          let? pattern := opcion_de srv SSI_PATTERN "do_ssi_include: null ssi_pattern" in
          if 0 <? mg_match_prefix pattern path then send_file path fp else Ok fp
      end
  end.

Definition do_ssi_exec (tag : string) : res string :=
  let? o := entre_comillas "" tag in
  Ok (match o with
      | None => "Bad SSI #exec: [" +:+ tag +:+ "]"
      | Some cmd => match popen cmd with
                    | inl e => "Cannot SSI #exec: [" +:+ cmd +:+ "]: " +:+ strerror e
                    | inr out => out
                    end
      end).

(** A complete tag, with its [>]. *)
Definition etiqueta (send_file : string -> string -> res string) (path buf : string) : res string :=
  if (String.length buf <? 6)%nat || negb (String.prefix APERTURA buf) then Ok buf
  else
    let orden := saltear 5 buf in
    if String.prefix "include" orden then do_ssi_include send_file path (c_str (saltear 12 buf))
    else if String.prefix "exec" orden then do_ssi_exec (c_str (saltear 9 buf))
    else Ok (path +:+ ": unknown SSI command: " +:+ Q +:+ c_str buf +:+ Q).

(** The loop on the characters of the file. *)
Fixpoint ssi_bucle (send_file : string -> string -> res string) (path fp : string) (in_ssi_tag : bool) (buf : string) : res string :=
  match fp with
  | "" => Ok buf
  | String ch r =>
      let sigue (sale : string) (en : bool) (b : string) : res string :=
        let? o := ssi_bucle send_file path r en b in Ok (sale +:+ o) in
      if in_ssi_tag then
        if Ascii.eqb ch ">" then
          let? o := etiqueta send_file path (buf +:+ String ch "") in
          sigue o false ""
        else if (String.length buf =? 5)%nat && negb (String.prefix APERTURA buf) then sigue "" false (buf +:+ String ch "")
        else if largo buf =? IOBUF_SIZE - 2 then sigue (path +:+ ": SSI tag is too large") true (String ch "")
        else sigue "" true (buf +:+ String ch "")
      else if Ascii.eqb ch "<" then sigue buf true (String ch "")
      else
        let b := buf +:+ String ch "" in
        if largo b =? IOBUF_SIZE then sigue b false "" else sigue "" false b
  end.

(** [niveles] is [11 - include_level]: at 0 the level is too deep. *)
Fixpoint send_ssi_file (niveles : nat) (path fp : string) : res string :=
  match niveles with
  | O => Ok ("SSI #include level is too deep (" +:+ path +:+ ")")
  | S niveles => ssi_bucle (send_ssi_file niveles) path fp false ""
  end.

(** The whole reply, or the error and its detail. *)
Definition handle_ssi_request (path : string) : res (string + Z * string) :=
  match abrir path d with
  | inl e => Ok (inr (500, "fopen(" +:+ path +:+ "): " +:+ strerror e))
  | inr fp =>
      let? mime := get_mime_type (opcion srv EXTRA_MIME_TYPES) path in
      let? cuerpo := send_ssi_file 11 path fp in
      Ok (inl ("HTTP/1.1 200 OK" +:+ CRLF +:+ "Content-Type: " +:+ mime +:+ CRLF +:+ "Connection: close" +:+ CRLF +:+ CRLF +:+ cuerpo))
  end.
End Ssi.
End Ssi.

(** ** What is sent *)
Module SsiOk.
Import Libc Escaneo Mongoose Patrones Autorizacion Fechas Archivos Arranque Disco Locales Ssi.

(** *** Text *)

Fixpoint ocurre (p s : string) : bool := String.prefix p s || match s with "" => false | String _ r => ocurre p r end.

Lemma ocurre_sufijo p a b : ocurre p (a +:+ b) = false -> ocurre p b = false.
Proof. induction a as [|c a IH]; [done|]. rewrite app_cons_s. cbn [ocurre]. intros [_ H]%orb_false_elim. by apply IH. Qed.
Lemma ocurre_prefijo p s : String.prefix p s = true -> ocurre p s = true.
Proof. destruct s; cbn [ocurre]; by intros ->. Qed.
Lemma prefix_app p a b : String.prefix p a = true -> String.prefix p (a +:+ b) = true.
Proof.
  revert a. induction p as [|c p IH]; [intros a _; by destruct (a +:+ b)|]. intros [|e a]; [done|]. rewrite app_cons_s. cbn [String.prefix]. destruct (ascii_dec c e); [apply IH|done].
Qed.
Lemma prefix_propio p s : String.prefix p (p +:+ s) = true.
Proof. induction p as [|c p IH]; [by destruct s|]. rewrite app_cons_s. cbn [String.prefix]. by destruct (ascii_dec c c). Qed.

(** *** [sscanf] of a name between quotation marks *)

Lemma sscanf_letras w fmt s : sscanf (letras w ++ fmt) (w +:+ s) = sscanf fmt s.
Proof.
  induction w as [|c w IH]; [done|]. rewrite app_cons_s. cbn [letras String.list_ascii_of_string map app sscanf]. fold (letras w).
  rewrite Ascii.eqb_refl, IH. destruct (sscanf fmt s) as [[[l r]|]|]; done.
Qed.

Definition sin_entero (x : directiva) : bool := match x with Entero _ => false | _ => true end.
Lemma sscanf_total fmt s : forallb sin_entero fmt = true -> exists o, sscanf fmt s = Ok o.
Proof.
  revert s. induction fmt as [|x fmt IH]; intros s; [by eexists|]. cbn [forallb sscanf]. intros [Hx Hf]%andb_prop.
  assert (forall (y : list dato) r, exists o, (let? o := sscanf fmt r in Ok ((fun '(l, r') => (y ++ l, r')) <$> o)) = Ok o) as K.
  { intros y r. destruct (IH r Hf) as [o ->]. by eexists. }
  destruct x; [done| | | |apply K].
  - destruct s as [|c' r]; [by eexists|]. destruct (Ascii.eqb _ _); [apply K|by eexists].
  - destruct (tomar _ _ _). destruct (String.eqb _ _); [by eexists|apply K].
  - destruct (tomar_palabra _ _). destruct (String.eqb _ _); [by eexists|apply K].
Qed.

Lemma entre_comillas_total w tag : exists o, entre_comillas w tag = Ok o.
Proof.
  unfold entre_comillas. edestruct (sscanf_total ([Blanco] ++ letras w ++ [Letra COMILLA; Tramo (String.length tag) (String COMILLA "")]) tag) as [o ->]; [|by eexists].
  rewrite !forallb_app. cbn. rewrite !andb_true_r. unfold letras. by induction w.
Qed.

Lemma entre_comillas_ok w f s : w <> "" -> todos (fun c => negb (isspace c)) w = true -> f <> "" -> contiene COMILLA f = false ->
  entre_comillas w (" " +:+ w +:+ Q +:+ f +:+ Q +:+ s) = Ok (Some f).
Proof.
  intros Hw Hs Hf Hq. unfold entre_comillas. set (t := " " +:+ _). cbn [app sscanf].
  assert (snd (abarcar isspace t) = w +:+ Q +:+ f +:+ Q +:+ s) as ->.
  { unfold t. change (" " +:+ (w +:+ Q +:+ f +:+ Q +:+ s)) with (String " " (w +:+ Q +:+ f +:+ Q +:+ s)). cbn [abarcar].
    destruct w as [|c w]; [done|]. rewrite app_cons_s. cbn [todos] in Hs. apply andb_prop in Hs as [Hc _]. apply negb_true_iff in Hc.
    pose proof (sin_blancos c (w +:+ Q +:+ f +:+ Q +:+ s) Hc) as Ha. change (isspace " ") with true. cbv iota. by destruct (abarcar isspace _). }
  rewrite sscanf_letras. change (Q +:+ f +:+ Q +:+ s) with (String COMILLA (f +:+ String COMILLA s)). cbn [sscanf]. rewrite Ascii.eqb_refl.
  rewrite tomar_fin.
  - destruct (String.eqb_spec f ""); [done|]. done.
  - unfold t. rewrite !length_app_s. cbn [String.length Q]. lia.
  - apply negb_false_iff in Hq. eapply todos_impl; [|exact Hq]. intros c Hc. unfold contiene. cbn [todos]. rewrite Ascii.eqb_sym, Hc. done.
  - rewrite contiene_cons. by rewrite Ascii.eqb_refl.
Qed.

Section SsiOk.
Context {D : Type} {HD : Disco D} {HC : Consola} (srv : mg_server) (d : D).
Abbreviation bucle := (ssi_bucle srv d).

(** *** The loop *)

(** A text without the opening of a tag is sent as it is. *)
Lemma bucle_transparente sf path fp : forall en buf, ocurre APERTURA (buf +:+ fp) = false -> (en = true -> (String.length buf <= 5)%nat) ->
  bucle sf path fp en buf = Ok (buf +:+ fp).
Proof.
  induction fp as [|ch r IH]; intros en buf Ho Hen; cbn [ssi_bucle]; [by rewrite app_nil_r_s|].
  assert (forall sale en b, sale +:+ b +:+ r = buf +:+ String ch r -> (en = true -> (String.length b <= 5)%nat) ->
    (let? o := bucle sf path r en b in Ok (sale +:+ o)) = Ok (buf +:+ String ch r)) as K.
  { intros sale en' b E Hb. rewrite (IH en' b); [cbn [bindR]; by rewrite E| |done]. apply (ocurre_sufijo _ sale). by rewrite E. }
  assert ((buf +:+ String ch "") +:+ r = buf +:+ String ch r) as Eb by (by rewrite app_assoc_s, app_cons_s, app_nil_l_s).
  destruct en.
  - specialize (Hen eq_refl). destruct (Ascii.eqb_spec ch ">") as [->|_].
    + assert (etiqueta srv d sf path (buf +:+ String ">" "") = Ok (buf +:+ String ">" "")) as ->.
      { unfold etiqueta. destruct (_ <? 6)%nat; [done|]. destruct (String.prefix APERTURA _) eqn:Ep; [|done]. exfalso.
        apply (prefix_app _ _ r), ocurre_prefijo in Ep. rewrite Eb in Ep. congruence. }
      cbn [bindR]. apply K; [by rewrite app_nil_l_s|done].
    + destruct (Nat.eqb_spec (String.length buf) 5) as [E5|N5]; cbn [andb].
      * destruct (String.prefix APERTURA buf) eqn:Ep; cbn [negb]; [|by apply K].
        exfalso. apply (prefix_app _ _ (String ch r)), ocurre_prefijo in Ep. congruence.
      * destruct (Z.eqb_spec (largo buf) (IOBUF_SIZE - 2)) as [E|_]; [unfold largo, IOBUF_SIZE in E; lia|].
        apply K; [done|]. intros _. rewrite length_app_s. cbn [String.length]. lia.
  - destruct (Ascii.eqb ch "<"); [apply K; [done|intros _; cbn; lia]|].
    destruct (_ =? _); apply K; done || by rewrite app_nil_l_s.
Qed.

(** Text without [<] before anything. *)
Lemma bucle_texto sf path a r : forall buf, contiene "<" a = false ->
  exists sale b, sale +:+ b = buf +:+ a /\ bucle sf path (a +:+ r) false buf = let? o := bucle sf path r false b in Ok (sale +:+ o).
Proof.
  induction a as [|c a IH]; intros buf Ha.
  { exists "", buf. split; [by rewrite app_nil_r_s, app_nil_l_s|]. rewrite app_nil_l_s. by destruct (bucle _ _ r _ _). }
  rewrite contiene_cons in Ha. apply orb_false_elim in Ha as [Hc Ha]. rewrite app_cons_s. cbn [ssi_bucle]. rewrite Ascii.eqb_sym, Hc.
  destruct (_ =? _).
  - destruct (IH "" Ha) as (sale & b & E & ->). rewrite app_nil_l_s in E. exists ((buf +:+ String c "") +:+ sale), b.
    rewrite app_assoc_s, E, app_assoc_s, app_cons_s, app_nil_l_s. split; [done|]. destruct (bucle _ _ r _ _); cbn [bindR]; by rewrite ?app_assoc_s.
  - destruct (IH (buf +:+ String c "") Ha) as (sale & b & E & ->). exists sale, b. rewrite E, app_assoc_s, app_cons_s, app_nil_l_s.
    split; [done|]. by destruct (bucle _ _ r _ _).
Qed.

(** A tag, up to its end. *)
Lemma bucle_etiqueta sf path x y r : forall buf, contiene ">" x = false -> buf +:+ x = APERTURA +:+ y ->
  largo (buf +:+ x) <= IOBUF_SIZE - 2 ->
  bucle sf path (x +:+ String ">" r) true buf =
    let? o := etiqueta srv d sf path (buf +:+ x +:+ ">") in let? s := bucle sf path r false "" in Ok (o +:+ s).
Proof.
  induction x as [|c x IH]; intros buf Hx Ey Hl.
  { rewrite !app_nil_l_s. done. }
  rewrite contiene_cons in Hx. apply orb_false_elim in Hx as [Hc Hx]. rewrite app_cons_s. cbn [ssi_bucle]. rewrite (Ascii.eqb_sym c), Hc.
  assert ((String.length buf =? 5)%nat && negb (String.prefix APERTURA buf) = false) as ->.
  { destruct (Nat.eqb_spec (String.length buf) 5) as [E5|]; [|done]. cbn [andb]. symmetry in Ey. apply cortes in Ey as (q & E & _); [|cbn; lia].
    assert (q = "") as -> by (apply (f_equal String.length) in E; rewrite length_app_s, E5 in E; destruct q; [done|cbn in E; lia]).
    rewrite app_nil_r_s in E. by rewrite <- E. }
  destruct (Z.eqb_spec (largo buf) (IOBUF_SIZE - 2)) as [E|_]; [rewrite largo_app in Hl; unfold largo in *; cbn [String.length] in Hl; lia|].
  assert ((buf +:+ String c "") +:+ x = buf +:+ String c x) as Eb by (by rewrite app_assoc_s, app_cons_s, app_nil_l_s).
  rewrite IH; [|done|by rewrite Eb|by rewrite Eb]. rewrite <- (app_assoc_s _ x), Eb, app_assoc_s.
  destruct (etiqueta _ _ _ _ _); [|done]. cbn [bindR]. by destruct (bucle _ _ r _ _).
Qed.

(** *** The file *)

Lemma opcion_de_ok i donde v : opcion srv i = Some v -> opcion_de srv i donde = Ok v.
Proof. unfold opcion_de. by intros ->. Qed.

Lemma include_total raiz pat sf ssi tag : opcion srv DOCUMENT_ROOT = Some raiz -> opcion srv SSI_PATTERN = Some pat ->
  (forall p t, exists o, sf p t = Ok o) -> exists o, do_ssi_include srv d sf ssi tag = Ok o.
Proof.
  intros Hr Hp Hsf. unfold do_ssi_include. assert (exists o, nombre_incluido srv ssi tag = Ok o) as [o ->].
  { unfold nombre_incluido. destruct (entre_comillas_total "virtual=" tag) as [[f|] ->]; cbn [bindR].
    { rewrite (opcion_de_ok _ _ raiz) by done. by eexists. }
    destruct (entre_comillas_total "abspath=" tag) as [[f|] ->]; cbn [bindR]; [by eexists|].
    destruct (entre_comillas_total "file=" tag) as [[f|] ->]; cbn [bindR]; [by eexists|].
    destruct (entre_comillas_total "" tag) as [[f|] ->]; by eexists. }
  cbn [bindR]. destruct o as [path|]; [|by eexists]. destruct (abrir path d); [by eexists|].
  rewrite (opcion_de_ok _ _ pat) by done. cbn [bindR]. destruct (0 <? _); [apply Hsf|by eexists].
Qed.

Lemma ssi_bucle_total raiz pat sf path fp : opcion srv DOCUMENT_ROOT = Some raiz -> opcion srv SSI_PATTERN = Some pat ->
  (forall p t, exists o, sf p t = Ok o) -> forall en buf, exists o, bucle sf path fp en buf = Ok o.
Proof.
  intros Hr Hp Hsf. induction fp as [|ch r IH]; intros en buf; cbn [ssi_bucle]; [by eexists|].
  assert (forall sale en b, exists o, (let? o := bucle sf path r en b in Ok (sale +:+ o)) = Ok o) as K.
  { intros sale en' b. destruct (IH en' b) as [o ->]. by eexists. }
  destruct en; [|destruct (Ascii.eqb ch "<"); [apply K|destruct (_ =? _); apply K]].
  destruct (Ascii.eqb ch ">"); [|destruct (_ && _); [apply K|destruct (_ =? _); apply K]].
  assert (exists o, etiqueta srv d sf path (buf +:+ String ch "") = Ok o) as [o ->]; [|apply K].
  unfold etiqueta. destruct (_ || _); [by eexists|]. destruct (String.prefix _ _); [by eapply include_total|].
  destruct (String.prefix _ _); [|by eexists]. unfold do_ssi_exec. destruct (entre_comillas_total "" (c_str (saltear 9 (buf +:+ String ch "")))) as [o ->]. by eexists.
Qed.

Lemma ssi_total raiz pat niveles : opcion srv DOCUMENT_ROOT = Some raiz -> opcion srv SSI_PATTERN = Some pat ->
  forall path fp, exists o, send_ssi_file srv d niveles path fp = Ok o.
Proof.
  intros Hr Hp. induction niveles as [|n IH]; intros path fp; cbn [send_ssi_file]; [by eexists|]. by eapply ssi_bucle_total.
Qed.

(** The tag that includes a file of the document root. *)
Definition inclusion (f : string) : string := "<!--#include virtual=" +:+ Q +:+ f +:+ Q +:+ " -->".
Definition nombre_ssi (f : string) : Prop := f <> "" /\ contiene COMILLA f = false /\ contiene ">" f = false /\ contiene NUL f = false.

(** Server-side includes: with a document root and a pattern, a file is always sent and the
    server stops, also when files include each other; a file without tags is sent as it is;
    and a tag that includes a file of the document root is replaced by it, processed in the
    same way one level deeper if its name says so, with the text before and after it. *)
Theorem ssi_incluye raiz pat n path : opcion srv DOCUMENT_ROOT = Some raiz -> opcion srv SSI_PATTERN = Some pat ->
  (forall fp, exists o, send_ssi_file srv d n path fp = Ok o) /\
  (forall fp, ocurre APERTURA fp = false -> send_ssi_file srv d (S n) path fp = Ok fp) /\
  (forall a f b t (q := raiz +:+ "/" +:+ f), contiene "<" a = false -> nombre_ssi f -> (String.length q < MAX_PATH_SIZE - 40)%nat ->
   abrir q d = inr t ->
   exists i o, (if 0 <? mg_match_prefix pat q then send_ssi_file srv d n q t else Ok t) = Ok i /\
     send_ssi_file srv d (S n) path b = Ok o /\ send_ssi_file srv d (S n) path (a +:+ inclusion f +:+ b) = Ok (a +:+ i +:+ o)).
Proof.
  intros Hr Hp. split; [by eapply ssi_total|]. split.
  { intros fp Ho. cbn [send_ssi_file]. by rewrite bucle_transparente by done. }
  intros a f b t q Ha (Hf & Hq & Hgt & Hnul) Hl Hab.
  assert (exists i, (if 0 <? mg_match_prefix pat q then send_ssi_file srv d n q t else Ok t) = Ok i) as [i Hi].
  { destruct (0 <? _); [by eapply ssi_total|by eexists]. }
  destruct (ssi_total raiz pat (S n) Hr Hp path b) as [o Ho]. exists i, o. split_and!; [done|done|]. cbn [send_ssi_file] in *.
  destruct (bucle_texto (send_ssi_file srv d n) path a (inclusion f +:+ b) "" Ha) as (sale & c & Esale & ->).
  set (x := "!--#include virtual=" +:+ Q +:+ f +:+ Q +:+ " --").
  assert (inclusion f +:+ b = String "<" (x +:+ String ">" b)) as ->.
  { unfold inclusion, x. rewrite !app_assoc_s. reflexivity. }
  cbn [ssi_bucle]. change (Ascii.eqb "<" "<") with true. cbv iota.
  assert (bucle (send_ssi_file srv d n) path (x +:+ String ">" b) true (String "<" "") = Ok (i +:+ o)) as ->.
  2: { cbn [bindR]. f_equal. rewrite app_nil_l_s in Esale. rewrite <- Esale. by rewrite !app_assoc_s. }
  rewrite (bucle_etiqueta _ _ x ("include virtual=" +:+ Q +:+ f +:+ Q +:+ " --")).
  - assert (etiqueta srv d (send_ssi_file srv d n) path ("<" +:+ x +:+ ">") = Ok i) as Ee; [|rewrite Ee; cbn [bindR]; by rewrite Ho].
    assert ("<" +:+ x +:+ ">" = "<!--#include" +:+ (" " +:+ "virtual=" +:+ Q +:+ f +:+ Q +:+ " -->")) as ->
      by (unfold x; rewrite !app_assoc_s; reflexivity).
    set (tag := " " +:+ _). unfold etiqueta. rewrite (prefix_app APERTURA "<!--#include" tag) by reflexivity.
    rewrite (proj2 (Nat.ltb_ge _ _)) by (rewrite length_app_s; cbn [String.length]; lia). cbn [orb negb].
    change (saltear 5 ("<!--#include" +:+ tag)) with ("include" +:+ tag). rewrite prefix_propio.
    change (saltear 12 ("<!--#include" +:+ tag)) with tag. rewrite c_str_id.
    + unfold do_ssi_include, nombre_incluido. unfold tag at 1. rewrite entre_comillas_ok by done. cbn [bindR].
      rewrite (opcion_de_ok _ _ raiz) by done. cbn [bindR]. fold q.
      assert (mg_snprintf MAX_PATH_SIZE q = q) as -> by (unfold mg_snprintf; destruct MAX_PATH_SIZE; [lia|]; apply prefijo_todo; lia).
      rewrite Hab, (opcion_de_ok _ _ pat) by done. cbn [bindR]. done.
    + unfold tag. rewrite !contiene_app, Hnul. reflexivity.
  - unfold x. rewrite !contiene_app, Hgt. reflexivity.
  - unfold x. reflexivity.
  - unfold x, largo, IOBUF_SIZE. rewrite !length_app_s. unfold q in Hl. rewrite !length_app_s in Hl. cbn [String.length Q] in *.
    unfold MAX_PATH_SIZE in Hl. lia.
Qed.
End SsiOk.

(** A disk with a file, a page, and a page that includes itself. *)
Definition disco_ssi : arbol :=
  <[["srv"; "a.shtml"] := Archivo 0 ("x" +:+ inclusion "a.shtml")]> (<[["srv"; "b.txt"] := Archivo 0 "hola"]> {[ [] := LocalesOk.carpeta ]}).
Definition sin_consola : Consola := {| popen := fun _ => inl ENOENT |}.

Lemma ssi_incluye_witness : exists i o,
  Ok "hola" = Ok i /\ @send_ssi_file _ arbol_disco sin_consola (LocalesOk.servidor_de "/srv") disco_ssi 11 "/srv/c.shtml" " dos" = Ok o /\
  @send_ssi_file _ arbol_disco sin_consola (LocalesOk.servidor_de "/srv") disco_ssi 11 "/srv/c.shtml" ("uno " +:+ inclusion "b.txt" +:+ " dos") = Ok ("uno " +:+ i +:+ o).
Proof.
  refine (proj2 (proj2 (@ssi_incluye _ arbol_disco sin_consola (LocalesOk.servidor_de "/srv") disco_ssi "/srv" "**.shtml$|**.shtm$" 10 "/srv/c.shtml" _ _)) "uno " "b.txt" " dos" "hola" _ _ _ _).
  - reflexivity.
  - reflexivity.
  - reflexivity.
  - split; [discriminate|]. split; [reflexivity|]. split; reflexivity.
  - apply Nat.ltb_lt. vm_compute. reflexivity.
  - vm_compute. reflexivity.
Defined.

(** Files that include themselves stop at the tenth level, and a [<] that opens nothing hides
    the tag after it. *)
Example ssi_profundidad :
  let envia fp := @send_ssi_file _ arbol_disco sin_consola (LocalesOk.servidor_de "/srv") disco_ssi 11 "/srv/c.shtml" fp in
  envia (inclusion "a.shtml") = Ok "xxxxxxxxxxSSI #include level is too deep (/srv/a.shtml)" /\
  envia ("1 < " +:+ inclusion "b.txt") = Ok ("1 < " +:+ inclusion "b.txt").
Proof. vm_compute. done. Qed.

End SsiOk.
