(* ===== verification/Cgi.v ===== *)
(** * Cgi: programs behind src/WebServer/mongoose.c

    The environment of a program, a block of at most [CGI_ENVIRONMENT_SIZE] bytes and
    [MAX_CGI_ENVIR_VARS] pointers; the start of the program; and its output, which is held
    until its headers are complete and then sent with the status they ask for.  The
    environment of the server, the addresses of the connection and what [fork] answers are
    parameters. *)

From S2P Require Import Prelude Libc Mongoose Conexion ConexionOk Patrones Fechas Archivos Mundo Arranque Disco Locales LocalesOk.
Open Scope Z_scope.

Module Cgi.
Import Libc Mongoose Arranque Locales.

Definition CGI_ENVIRONMENT_SIZE : Z := 8192.
Definition MAX_CGI_ENVIR_VARS : Z := 64.
Definition ENV_EXPORT_TO_CGI : string := "MONGOOSE_CGI".
Definition MONGOOSE_VERSION : string := "5.6".

(** ** The environment *)

(** [struct cgi_env_block]: the variables, which lie one after the other in [buf] with
    their terminators, and [len]. *)
Record cgi_env_block : Type := mkBlock { vars : list string; blk_len : Z }.

Definition addenv (s : string) (block : cgi_env_block) : res cgi_env_block :=
  let space := CGI_ENVIRONMENT_SIZE - blk_len block - 2 in
  if space <? 0 then Fallo (Indefinido "addenv: assertion")
  else
    let n := largo (mg_snprintf (Z.to_nat space) s) in
    if (0 <? n) && (n + 1 <? space) && (Z.of_nat (length (vars block)) <? MAX_CGI_ENVIR_VARS - 2)
    then Ok (mkBlock (vars block ++ [s]) (blk_len block + (n + 1))) else Ok block.

(** The name of a header as part of that of a variable: up to the [=]. *)
Fixpoint nombre_variable (s : string) : string :=
  match s with
  | "" => ""
  | String c r =>
      if Ascii.eqb c "=" then s else String (if Ascii.eqb c "-" then "_"%char else toupper c) (nombre_variable r)
  end.

Fixpoint agregar (l : list string) (blk : cgi_env_block) : res cgi_env_block :=
  match l with
  | [] => Ok blk
  | s :: l => let? blk := addenv s blk in agregar l blk
  end.

(** The bytes of the block, once it is complete. *)
Definition bloque (vars : list string) : string := unir (map (fun v => v +:+ String NUL "") vars) +:+ String NUL "".

Section Entorno.
Context (getenv : string -> option string) (local_ip remote_ip : string) (remote_port : Z).
Context (srv : mg_server) (r : mg_connection) (path_info : option string) (prog : string).

Definition addenv2 (name : string) : list string :=
  match getenv name with Some s => [name +:+ "=" +:+ s] | None => [] end.

(** [%.*s] with a precision that may be negative, which is none. *)
Definition precision (n : Z) (s : string) : string := if n <? 0 then s else prefijo (Z.to_nat n) s.

Definition script_name : list string :=
  match path_info with
  | Some info => ["SCRIPT_NAME=" +:+ precision (largo (uri r) - largo info) (uri r); "PATH_INFO=" +:+ info]
  | None =>
      let s := match directorio prog with Some dir => saltear (String.length dir) prog | None => prog end in
      ["SCRIPT_NAME=" +:+ default "" (directorio (uri r)) +:+ s]
  end.

(** The variables in the order they are added. *)
Definition variables (document_root : string) : list string :=
  ["SERVER_NAME=" +:+ default local_ip (getenv "SERVER_NAME");
   "SERVER_ROOT=" +:+ document_root; "DOCUMENT_ROOT=" +:+ document_root;
   "SERVER_SOFTWARE=Mongoose/" +:+ MONGOOSE_VERSION;
   "GATEWAY_INTERFACE=CGI/1.1"; "SERVER_PROTOCOL=HTTP/1.1"; "REDIRECT_STATUS=200";
   "REQUEST_METHOD=" +:+ request_method r; "REMOTE_ADDR=" +:+ remote_ip; "REMOTE_PORT=" +:+ decimal remote_port;
   "REQUEST_URI=" +:+ uri r +:+ match query_string r with Some q => "?" +:+ q | None => "" end] ++
  script_name ++
  ["SCRIPT_FILENAME=" +:+ prog; "PATH_TRANSLATED=" +:+ prog; "HTTPS=off"] ++
  match mg_get_header (http_headers r) "Content-Type" with Some s => ["CONTENT_TYPE=" +:+ s] | None => [] end ++
  match query_string r with Some q => ["QUERY_STRING=" +:+ q] | None => [] end ++
  match mg_get_header (http_headers r) "Content-Length" with Some s => ["CONTENT_LENGTH=" +:+ s] | None => [] end ++
  addenv2 "PATH" ++ addenv2 "TMP" ++ addenv2 "TEMP" ++ addenv2 "TMPDIR" ++ addenv2 "PERLLIB" ++ addenv2 ENV_EXPORT_TO_CGI ++
  addenv2 "LD_LIBRARY_PATH" ++
  map (fun '(name, value) => nombre_variable ("HTTP_" +:+ name +:+ "=" +:+ value)) (http_headers r).

(** The variables of [vars] before the null pointer, and the bytes of [buf]. *)
Definition prepare_cgi_environment : res (list string * string) :=
  let? document_root := opcion_de srv DOCUMENT_ROOT "prepare_cgi_environment: null document_root" in
  let? blk := agregar (variables document_root) (mkBlock [] 0) in
  let nvars := Z.of_nat (length (vars blk)) + 1 in
  let len := blk_len blk + 1 in
  if (nvars <? MAX_CGI_ENVIR_VARS) && (0 <? len) && (len <? CGI_ENVIRONMENT_SIZE) then Ok (vars blk, bloque (vars blk))
  else Fallo (Indefinido "prepare_cgi_environment: assertion").

(** ** The program *)

Definition cgi_status : string := "HTTP/1.1 200 OK" +:+ CRLF.

(** The program that is started, in its directory, with what it will read; and the
    connection, which waits for it. *)
Record Programa : Type := mkPrograma { dir : string; interp : option string; env : list string; entrada : string }.
Record Cgi_conn : Type := mkCgi { buffer_but_dont_send : bool; send : string; status : Z }.

(** [pid] is what [fork] answers to the server, which is not 0 even when it fails.  [recibido]
    is the receive buffer, [enviado] the send buffer. *)
Definition open_cgi_endpoint (pid : Z) (recibido enviado : string) : res (Programa * Cgi_conn + Z * string) :=
  let? '(vs, _) := prepare_cgi_environment in
  let d := mg_snprintf MAX_PATH_SIZE (default "." (directorio prog)) in
  if negb (pid =? 0)
  then Ok (inl (mkPrograma d (opcion srv CGI_INTERPRETER) vs recibido, mkCgi true (enviado +:+ cgi_status) 200))
  else Ok (inr (500, "start_process(" +:+ prog +:+ ") failed")).
End Entorno.

(** The status that the headers of the program ask for. *)
Definition estado_cgi (h : string) : string :=
  let c := parse_http_headers 30 (c_str (prefijo (String.length h - 1) h)) in
  match mg_get_header c "Location" with
  | Some _ => "302"
  | None => default "200" (mg_get_header c "Status")
  end.

(** [memcpy(buf + n, s, strlen(s))] *)
Definition poner (n : nat) (s buf : string) : string := prefijo n buf +:+ s +:+ saltear (n + String.length s) buf.

(** The output of the program; [inr] is the error that replaces it.  A status of fewer than
    three characters takes what follows it in the buffer. *)
Definition on_cgi_data (data : string) (c : Cgi_conn) : res (Cgi_conn + Z * string) :=
  let send := send c +:+ data in
  if buffer_but_dont_send c then
    let s_len := String.length cgi_status in
    let len := get_request_len (saltear s_len send) in
    if len =? 0 then Ok (inl (mkCgi true send (status c)))
    else if (len <? 0) || (Conexion.MAX_REQUEST_SIZE <? len)
    then Ok (inr (500, "CGI program sent malformed headers: [" +:+ c_str send +:+ "]"))
    else
      let st := estado_cgi (prefijo (Z.to_nat len) (saltear s_len send)) in
      if (String.length st <? 3)%nat then Fallo (FueraDelModelo "on_cgi_data: status of fewer than three characters")
      else Ok (inl (mkCgi false (poner 9 (prefijo 3 st) send) (atoi st)))
  else Ok (inl (mkCgi false send (status c))).

Fixpoint on_cgi_datas (l : list string) (c : Cgi_conn) : res (Cgi_conn + Z * string) :=
  match l with
  | [] => Ok (inl c)
  | b :: l => let? o := on_cgi_data b c in match o with inl c => on_cgi_datas l c | inr e => Ok (inr e) end
  end.
End Cgi.

(** ** What the program and its client receive *)
Module CgiOk.
Import Libc Mongoose Conexion ConexionOk Arranque Locales LocalesOk Cgi.

(** The bytes of variables with their terminators. *)
Definition ocupan (l : list string) : Z := largo (unir (map (fun v => v +:+ String NUL "") l)).

Lemma ocupan_cons s l : ocupan (s :: l) = largo s + 1 + ocupan l.
Proof. unfold ocupan. cbn [map unir]. rewrite !largo_app. reflexivity. Qed.
Lemma ocupan_app l m : ocupan (l ++ m) = ocupan l + ocupan m.
Proof. induction l as [|s l IH]; [done|]. cbn [app]. rewrite !ocupan_cons, IH. lia. Qed.
Lemma ocupan_pos l : 0 <= ocupan l.
Proof. apply largo_pos. Qed.

Definition bien (b : cgi_env_block) : Prop :=
  blk_len b = ocupan (vars b) /\ blk_len b < CGI_ENVIRONMENT_SIZE - 2 /\ Z.of_nat (length (vars b)) <= MAX_CGI_ENVIR_VARS - 2.

Lemma addenv_ok s b : bien b -> exists b', addenv s b = Ok b' /\ bien b' /\
  (vars b' = vars b \/ vars b' = vars b ++ [s]) /\
  (s <> "" -> ocupan (vars b ++ [s]) < CGI_ENVIRONMENT_SIZE - 2 -> Z.of_nat (length (vars b)) < MAX_CGI_ENVIR_VARS - 2 -> vars b' = vars b ++ [s]).
Proof.
  intros (H1 & H2 & H3). unfold addenv. set (space := CGI_ENVIRONMENT_SIZE - blk_len b - 2). rewrite (proj2 (Z.ltb_ge _ _)) by lia.
  assert (largo (mg_snprintf (Z.to_nat space) s) = Z.min (space - 1) (largo s)) as ->.
  { unfold mg_snprintf, largo. destruct (Z.to_nat space) eqn:E; [lia|]. rewrite length_prefijo. lia. }
  pose proof (largo_pos s). pose proof (ocupan_pos (vars b)). rewrite ocupan_app, ocupan_cons. change (ocupan []) with 0.
  destruct (Z.ltb_spec 0 (Z.min (space - 1) (largo s))) as [P1|P1]; cbn [andb].
  2: { exists b. split; [done|]. split; [done|]. split; [by left|]. intros Hs. destruct s; [done|unfold largo in *; cbn in *; lia]. }
  destruct (Z.ltb_spec (Z.min (space - 1) (largo s) + 1) space) as [P2|P2]; cbn [andb].
  2: { exists b. split; [done|]. split; [done|]. split; [by left|]. lia. }
  destruct (Z.ltb_spec (Z.of_nat (length (vars b))) (MAX_CGI_ENVIR_VARS - 2)) as [P3|P3].
  2: { exists b. split; [done|]. split; [done|]. split; [by left|]. lia. }
  eexists. split; [reflexivity|]. unfold bien. cbn [vars blk_len]. rewrite ocupan_app, ocupan_cons, length_app. change (ocupan []) with 0. cbn [length].
  split_and!; [lia|lia|lia|by right|done].
Qed.

Lemma agregar_ok l b : bien b -> exists b', agregar l b = Ok b' /\ bien b' /\
  (exists v, vars b' = vars b ++ v /\ v `sublist_of` l) /\
  (Forall (fun s => s <> "") l -> ocupan (vars b ++ l) < CGI_ENVIRONMENT_SIZE - 2 -> Z.of_nat (length (vars b ++ l)) <= MAX_CGI_ENVIR_VARS - 2 -> vars b' = vars b ++ l).
Proof.
  revert b. induction l as [|s l IH]; intros b Hb; cbn [agregar].
  { exists b. split_and!; [done|done|exists []; by rewrite app_nil_r|by rewrite app_nil_r]. }
  destruct (addenv_ok s b Hb) as (b1 & -> & Hb1 & Hv & Hfull). cbn [bindR].
  destruct (IH b1 Hb1) as (b' & -> & Hb' & (v & Ev & Sv) & Hf). exists b'. split_and!; [done|done| |].
  - destruct Hv as [Hv|Hv]; rewrite Hv in Ev; [exists v; split; [done|by apply sublist_cons]|].
    exists (s :: v). rewrite Ev, <- app_assoc. split; [done|by apply sublist_skip].
  - intros Hne Hs Hl. apply Forall_cons in Hne as [Hs0 Hne]. pose proof (ocupan_pos l). rewrite ocupan_app, ocupan_cons in Hs.
    rewrite length_app in Hl. cbn [length] in Hl. rewrite Hfull in Hf.
    + rewrite <- app_assoc in Hf. cbn [app] in Hf. apply Hf; [done|rewrite ocupan_app, ocupan_cons; lia|rewrite length_app; cbn [length]; lia].
    + done.
    + rewrite ocupan_app, ocupan_cons. change (ocupan []) with 0. lia.
    + lia.
Qed.

(** C39. The environment of a CGI program never overflows its block: with a document root
    the assertions of the code hold, the variables and the null pointer fit in the array and
    their bytes, with the terminators, in the buffer; each variable is one of those the code
    means to pass, whole and in order, and none is missing when all of them fit. *)
Theorem entorno_cgi getenv local_ip remote_ip remote_port srv r path_info prog raiz
    (todas := variables getenv local_ip remote_ip remote_port r path_info prog raiz) :
  opcion srv DOCUMENT_ROOT = Some raiz ->
  exists vs b, prepare_cgi_environment getenv local_ip remote_ip remote_port srv r path_info prog = Ok (vs, b) /\
    b = bloque vs /\ vs `sublist_of` todas /\ largo b < CGI_ENVIRONMENT_SIZE /\ Z.of_nat (length vs) + 1 < MAX_CGI_ENVIR_VARS /\
    (Forall (fun s => s <> "") todas -> ocupan todas < CGI_ENVIRONMENT_SIZE - 2 -> Z.of_nat (length todas) <= MAX_CGI_ENVIR_VARS - 2 -> vs = todas).
Proof.
  intros Hr. unfold prepare_cgi_environment, opcion_de. rewrite Hr. cbn [bindR]. fold todas.
  destruct (agregar_ok todas (mkBlock [] 0)) as (b & -> & (H1 & H2 & H3) & (v & Ev & Sv) & Hf); [by split_and!|]. cbn [bindR vars app] in *.
  pose proof (ocupan_pos (vars b)). rewrite !(proj2 (Z.ltb_lt _ _)) by (unfold MAX_CGI_ENVIR_VARS, CGI_ENVIRONMENT_SIZE in *; lia). cbn [andb].
  eexists _, _. split_and!; [done|done|by rewrite Ev| |lia|done].
  unfold bloque. rewrite largo_app. fold (ocupan (vars b)). unfold largo. cbn [String.length]. lia.
Qed.

Lemma entorno_cgi_witness :
  let r := mkConn "GET" "/a.cgi" "1.1" (Some "x=1") [("Host", "h"); ("X-Id", "7")] "" in
  let g := fun n => if String.eqb n "PATH" then Some "/bin" else None in
  exists vs b, prepare_cgi_environment g "10.0.0.1" "10.0.0.2" 80 (servidor_de "/srv") r None "/srv/a.cgi" = Ok (vs, b) /\
    last vs = Some "HTTP_X_ID=7" /\ length vs = 19%nat.
Proof.
  intros r g. destruct (entorno_cgi g "10.0.0.1" "10.0.0.2" 80 (servidor_de "/srv") r None "/srv/a.cgi" "/srv") as (vs & b & H1 & _ & _ & _ & _ & H2).
  - reflexivity.
  - exists vs, b. split; [exact H1|]. rewrite H2.
    + vm_compute. split; reflexivity.
    + vm_compute. repeat constructor; discriminate.
    + vm_compute. reflexivity.
    + vm_compute. discriminate.
Defined.

(** *** The output *)

Definition linea_cgi (st : string) : string := "HTTP/1.1 " +:+ st +:+ " OK" +:+ CRLF.

Lemma poner_estado a x : String.length a = 3%nat -> poner 9 a (cgi_status +:+ x) = linea_cgi a +:+ x.
Proof.
  intros Ha. unfold poner. rewrite Ha. change (9 + 3)%nat with 12%nat. unfold linea_cgi. rewrite !app_assoc_s. reflexivity.
Qed.

(** After the headers, everything goes through. *)
Lemma on_cgi_datas_sigue l send st : on_cgi_datas l (mkCgi false send st) = Ok (inl (mkCgi false (send +:+ unir l) st)).
Proof.
  revert send. induction l as [|b l IH]; intros send; cbn [on_cgi_datas unir]; [by rewrite app_nil_r_s|].
  unfold on_cgi_data. cbn [buffer_but_dont_send Cgi.send status bindR]. by rewrite IH, app_assoc_s.
Qed.

(** One more piece of the headers, complete or not; [p] has been received. *)
Lemma on_cgi_datas_ok h cuerpo l : forall p n, cabeza h -> largo h <= MAX_REQUEST_SIZE -> (3 <= String.length (estado_cgi h))%nat ->
  p +:+ unir l = h +:+ cuerpo -> (String.length p < String.length h)%nat ->
  on_cgi_datas l (mkCgi true (cgi_status +:+ p) n) =
    Ok (inl (mkCgi false (linea_cgi (prefijo 3 (estado_cgi h)) +:+ h +:+ cuerpo) (atoi (estado_cgi h)))).
Proof.
  induction l as [|b l IH]; intros p n Hh Hm H3 E Hp; cbn [unir] in E.
  { rewrite app_nil_r_s in E. apply (f_equal String.length) in E. rewrite length_app_s in E. lia. }
  cbn [on_cgi_datas]. unfold on_cgi_data. cbn [buffer_but_dont_send Cgi.send status].
  rewrite app_assoc_s, saltear_app. rewrite <- app_assoc_s in E. destruct (Nat.ltb_spec (String.length (p +:+ b)) (String.length h)) as [Hl|Hl].
  - assert (exists x, h = (p +:+ b) +:+ x /\ x <> "") as (x & Ex & Nx).
    { symmetry in E. apply cortes in E as (x & Ex & _); [|lia]. exists x. split; [done|]. intros ->. rewrite app_nil_r_s in Ex. rewrite <- Ex in Hl. lia. }
    rewrite (cabeza_prefijo h (p +:+ b) x) by done. cbn [Z.eqb bindR]. by apply IH.
  - apply cortes in E as (q & Eq & E); [|done]. rewrite Eq, (cabeza_app h q Hh). destruct Hh as [Hh0 Hh1].
    rewrite (proj2 (Z.eqb_neq _ _)), (proj2 (Z.ltb_ge _ 0)), (proj2 (Z.ltb_ge MAX_REQUEST_SIZE _)) by lia. cbn [orb].
    assert (prefijo (Z.to_nat (largo h)) (h +:+ q) = h) as -> by (unfold largo; by rewrite Nat2Z.id, prefijo_app). rewrite (proj2 (Nat.ltb_ge _ _)) by lia. cbn [bindR].
    rewrite poner_estado by (rewrite length_prefijo; lia). rewrite on_cgi_datas_sigue, <- E, !app_assoc_s. done.
Qed.

(** The output of a CGI program reaches the client with the status it asks for: cut in
    any way, the reply is the status line, with 302 if there is a [Location], the value of
    [Status] if there is one and 200 if not, then the headers of the program and its body;
    and nothing is sent before the headers are complete. *)
Theorem salida_cgi h cuerpo l : cabeza h -> largo h <= MAX_REQUEST_SIZE -> (3 <= String.length (estado_cgi h))%nat -> unir l = h +:+ cuerpo ->
  on_cgi_datas l (mkCgi true cgi_status 200) = Ok (inl (mkCgi false (linea_cgi (prefijo 3 (estado_cgi h)) +:+ h +:+ cuerpo) (atoi (estado_cgi h)))) /\
  forall l1 l2, l = l1 ++ l2 -> (String.length (unir l1) < String.length h)%nat ->
    exists s, on_cgi_datas l1 (mkCgi true cgi_status 200) = Ok (inl (mkCgi true s 200)).
Proof.
  intros Hh Hm H3 E. rewrite <- (app_nil_r_s cgi_status). split.
  { apply on_cgi_datas_ok; [done..|destruct Hh as [_ Hh]; unfold largo in Hh; cbn [String.length]; lia]. }
  intros l1 l2 El Hl. assert (exists x, h = unir l1 +:+ x) as [x Ex].
  { rewrite El in E. rewrite unir_app in E. symmetry in E. apply cortes in E as (x & Ex & _); [|lia]. by exists x. }
  assert (forall l1 p, p +:+ unir l1 +:+ x = h -> x <> "" -> exists s, on_cgi_datas l1 (mkCgi true (cgi_status +:+ p) 200) = Ok (inl (mkCgi true s 200))) as K.
  { clear - Hh. induction l1 as [|b l1 IH]; intros p E Nx; cbn [on_cgi_datas unir] in *; [by eexists|].
    unfold on_cgi_data. cbn [buffer_but_dont_send Cgi.send status]. rewrite app_assoc_s, saltear_app.
    assert (unir l1 +:+ x <> "") as Nux.
    { intros Hx. apply (f_equal String.length) in Hx. rewrite length_app_s in Hx. destruct x; [done|cbn in Hx; lia]. }
    rewrite (cabeza_prefijo h (p +:+ b) (unir l1 +:+ x)); [|done|by rewrite <- E, !app_assoc_s|done].
    cbn [Z.eqb bindR]. apply IH; [by rewrite <- E, !app_assoc_s|done]. }
  apply K; [by rewrite Ex, app_nil_l_s|]. intros ->. rewrite app_nil_r_s in Ex. rewrite Ex in Hl. lia.
Qed.

Lemma salida_cgi_witness :
  let h := "Status: 404 Not Found" +:+ CRLF +:+ "Content-Type: text/plain" +:+ CRLF +:+ CRLF in
  on_cgi_datas ["Status: 40"; "4 Not Found" +:+ CRLF; "Content-Type: text/plain" +:+ CRLF +:+ CRLF +:+ "no"] (mkCgi true cgi_status 200) =
    Ok (inl (mkCgi false (linea_cgi "404" +:+ h +:+ "no") 404)).
Proof.
  intros h. refine (proj1 (salida_cgi h "no" _ _ _ _ _)).
  - split; vm_compute; reflexivity.
  - vm_compute. discriminate.
  - apply Nat.leb_le. vm_compute. reflexivity.
  - vm_compute. reflexivity.
Defined.

End CgiOk.
