(* ===== verification/Proxy.v ===== *)
(** * Proxy: requests passed on to another server (src/WebServer/mongoose.c)

    With [enable_proxy] the web server connects to the host that a request names and writes the
    request to it again ([proxy_request]); what [ns_connect] answers is a parameter.  The text it
    writes is the one this web server reads, so that [parse_http_message] and
    [proxy_request] are inverse of each other ([ProxyOk.peticion_roundtrip]). *)

From S2P Require Import Prelude Libc Escaneo Mongoose Conexion ConexionOk.
Open Scope Z_scope.

Module Proxy.
Import Libc Escaneo Mongoose.

Definition linea_cabecera (name value : string) : string := name +:+ ": " +:+ value +:+ CRLF.
Definition es_connection (name : string) : bool := mg_strcasecmp_0 name "Connection".
Definition conexion_cerrada : string := linea_cabecera "Connection" "close".

(** What is written to the other server. *)
Definition proxy_request (c : mg_connection) : string :=
  request_method c +:+ " " +:+ uri c +:+ match query_string c with Some q => "?" +:+ q | None => "" end +:+
    " HTTP/" +:+ http_version c +:+ CRLF +:+
  unir (map (fun '(name, value) => if es_connection name then conexion_cerrada else linea_cabecera name value) (http_headers c)) +:+
  (if existsb (fun '(name, _) => es_connection name) (http_headers c) then "" else conexion_cerrada) +:+
  CRLF +:+ content c.

(** What becomes of the connection. *)
Inductive reenvio : Type :=
| Cerrar                                (* NSF_CLOSE_IMMEDIATELY *)
| Tunel (addr : string)                 (* CONNECT: the client gets "HTTP/1.1 200 OK" *)
| Pasar (addr : string) (texto : string).

Fixpoint hasta_la_barra (u : string) : string :=
  match u with "" => "" | String c r => if Ascii.eqb c "/" then u else hasta_la_barra r end.

Definition con_uri (u : string) (r : mg_connection) : mg_connection :=
  mkConn (request_method r) u (http_version r) (query_string r) (http_headers r) (content r).

(** [conecta] is [ns_connect(addr) != NULL]. *)
Definition mg_forward (conecta : string -> bool) (c : mg_connection) (addr : string) : reenvio :=
  if negb (conecta addr) then Cerrar
  else if String.eqb (request_method c) "CONNECT" then Tunel addr
  else
    let u := default (uri c) (quitar_prefijo "http://" (uri c)) in
    Pasar addr (proxy_request (con_uri (hasta_la_barra u) c)).

(** [%hu]; a number outside its type is undefined. *)
Definition leer_hu (s : string) : res (option (Z * string)) :=
  let? o := leer_entero false s in
  match o with
  | None => Ok None
  | Some (v, r) => if 65535 <? v then Fallo (Indefinido "sscanf: number out of range") else Ok (Some (v, r))
  end.

(** [%499[^: ]:%hu%n]: the host, the port and whether all was read. *)
Definition leer_host_puerto (url : string) : res (option (string * Z)) :=
  let '(host, r) := tomar 499 ": " url in
  match host, r with
  | String _ _, String ":" r => let? o := leer_hu r in Ok ((fun '(port, _) => (host, port)) <$> o)
  | _, _ => Ok None
  end.

(** [%9[a-z]://]: what follows. *)
Definition leer_proto (url : string) : option string :=
  let '(proto, r) := abarcar (fun c => en_rango c 97 122) (prefijo 9 url) in
  match proto with
  | "" => None
  | _ => quitar_prefijo "://" (saltear (String.length proto) url)
  end.

(** The host and the port of a URL; 80 if it has none. *)
Definition leer_destino (url : string) : res (option (string * Z)) :=
  let? o := leer_host_puerto url in
  match o with
  | Some x => Ok (Some x)
  | None =>
      match leer_proto url with
      | None => Ok None
      | Some r =>
          let? o := leer_host_puerto r in
          match o with
          | Some x => Ok (Some x)
          | None => Ok (match tomar 499 "/ " r with (String _ _ as host, _) => Some (host, 80) | _ => None end)
          end
      end
  end.

(** The connections of the program have no TLS. *)
Definition proxify_connection (conecta : string -> bool) (c : mg_connection) : res reenvio :=
  let? o := leer_destino (uri c) in
  match o with
  | None => Ok Cerrar
  | Some (host, port) => Ok (mg_forward conecta c (prefijo 999 ("tcp://" +:+ host +:+ ":" +:+ decimal port)))
  end.

(** [ns_forward(from, to)]: all that was received is sent on. *)
Definition ns_forward (from_recv to_send : string) : string * string := ("", to_send +:+ from_recv).
Definition do_proxy (recv nc_send : string) : string * string := ns_forward recv nc_send.
End Proxy.

(** ** A request that is written and read *)
Module ProxyOk.
Import Libc Escaneo Mongoose Conexion ConexionOk Proxy.

(** A character of a line: not a control one. *)
Definition de_linea (c : ascii) : bool := isprint c || (128 <=? byte c).
Definition de_palabra (c : ascii) : bool := de_linea c && negb (Ascii.eqb c " ").

(** The headers that the other server reads. *)
Definition cabeceras_reenviadas (r : mg_connection) : list (string * string) :=
  map (fun '(name, value) => if es_connection name then ("Connection", "close") else (name, value)) (http_headers r) ++
  (if existsb (fun '(name, _) => es_connection name) (http_headers r) then [] else [("Connection", "close")]).

Definition cabecera_ok (h : string * string) : Prop :=
  h.1 <> "" /\ todos (fun c => de_palabra c && negb (Ascii.eqb c ":")) h.1 = true /\ todos de_linea h.2 = true /\
  match h.2 with String c _ => contiene c ": " = false | "" => True end.

Record escrita (r : mg_connection) : Prop := mkEscrita {
  esc_metodo : is_valid_http_method (request_method r) = true;
  esc_uri : uri r <> "" /\ todos (fun c => de_palabra c && negb (Ascii.eqb c "?")) (uri r) = true;
  esc_llana : decodificar_uri (uri r) = uri r;
  esc_query : match query_string r with Some q => todos de_palabra q = true | None => True end;
  esc_version : todos de_linea (http_version r) = true;
  esc_cabeceras : Forall cabecera_ok (http_headers r);
  esc_cuantas : (length (cabeceras_reenviadas r) <= 30)%nat }.

Definition objetivo (r : mg_connection) : string := uri r +:+ match query_string r with Some q => "?" +:+ q | None => "" end.
Definition linea_pedido (r : mg_connection) : string := request_method r +:+ " " +:+ objetivo r +:+ " HTTP/" +:+ http_version r.
Definition texto_cabeceras (l : list (string * string)) : string := unir (map (fun '(n, v) => linea_cabecera n v) l).
Definition cabeza_reenviada (r : mg_connection) : string :=
  linea_pedido r +:+ CRLF +:+ texto_cabeceras (cabeceras_reenviadas r) +:+ CRLF.

Lemma texto_reenviado r : texto_cabeceras (cabeceras_reenviadas r) =
  unir (map (fun '(name, value) => if es_connection name then conexion_cerrada else linea_cabecera name value) (http_headers r)) +:+
  (if existsb (fun '(name, _) => es_connection name) (http_headers r) then "" else conexion_cerrada).
Proof.
  unfold texto_cabeceras, cabeceras_reenviadas. rewrite map_app, unir_app, map_map. f_equal.
  - f_equal. apply map_ext. intros [n v]. by destruct (es_connection n).
  - by destruct (existsb _ _).
Qed.

Lemma proxy_request_texto r : proxy_request r = cabeza_reenviada r +:+ content r.
Proof.
  unfold proxy_request, cabeza_reenviada, linea_pedido, objetivo. rewrite texto_reenviado.
  destruct (query_string r); rewrite !app_assoc_s; reflexivity.
Qed.

(** *** Words and lines *)

Lemma skip_palabra w x r delims : todos (fun c => negb (contiene c delims)) w = true -> x <> "" -> todos (fun c => contiene c delims) x = true ->
  match r with String c _ => contiene c delims = false | "" => True end -> skip (w +:+ x +:+ r) delims = (w, r).
Proof.
  intros Hw Hx Hxs Hr. unfold skip. rewrite abarcar_exacto; [|done|].
  - rewrite abarcar_exacto; [done|done|]. destruct r; [done|by rewrite Hr].
  - destruct x as [|c x]; [done|]. rewrite app_cons_s. cbn [todos] in Hxs. apply andb_prop in Hxs as [Hc _]. by rewrite Hc.
Qed.

Lemma todos_de (P Q : ascii -> bool) s : todos P s = true -> (forall c, implb (P c) (Q c) = true) -> todos Q s = true.
Proof. intros Hs H. eapply todos_impl; [|exact Hs]. intros c Hc. specialize (H c). rewrite Hc in H. done. Qed.

Ltac por_caracter := let c := fresh in intros c; destruct c as [[][][][][][][][]]; vm_compute; reflexivity.

(** A line does not end the request. *)
Lemma largo_linea l : forall i r, todos de_linea l = true -> match r with String c _ => Ascii.eqb c CR = false /\ Ascii.eqb c NL = false | "" => True end ->
  request_len_desde i (l +:+ CRLF +:+ r) = request_len_desde (i + largo l + 2) r.
Proof.
  induction l as [|c l IH]; intros i r Hl Hr.
  - rewrite app_nil_l_s. change (CRLF +:+ r) with (String CR (String NL r)).
    assert (request_len_desde i (String CR (String NL r)) = request_len_desde (i + 1) (String NL r)) as -> by reflexivity.
    change (largo "") with 0. replace (i + 0 + 2) with (i + 1 + 1) by lia.
    destruct r as [|a r]; [reflexivity|]. destruct Hr as [H1 H2].
    change (request_len_desde (i + 1) (String NL (String a r))) with
      (if Ascii.eqb a NL then i + 1 + 2 else match r with String y _ => if Ascii.eqb a CR && Ascii.eqb y NL then i + 1 + 3 else request_len_desde (i + 1 + 1) (String a r)
                                              | "" => request_len_desde (i + 1 + 1) (String a r) end).
    rewrite H2. destruct r as [|y r']; [done|]. by rewrite H1.
  - rewrite app_cons_s. cbn [todos] in Hl. apply andb_prop in Hl as [Hc Hl]. cbn [request_len_desde].
    assert (negb (isprint c) && negb (Ascii.eqb c CR) && negb (Ascii.eqb c NL) && (byte c <? 128) = false /\ Ascii.eqb c NL = false) as [-> ->]
      by (clear - Hc; by destruct c as [[][][][][][][][]]).
    rewrite IH by done. f_equal. unfold largo. cbn [String.length]. lia.
Qed.

Lemma largo_ultima l i x : todos de_linea l = true -> request_len_desde i (l +:+ CRLF +:+ CRLF +:+ x) = i + largo l + 4.
Proof.
  revert i. induction l as [|c l IH]; intros i Hl.
  - change (i + 1 + 3 = i + 0 + 4). lia.
  - rewrite app_cons_s. cbn [todos] in Hl. apply andb_prop in Hl as [Hc Hl]. cbn [request_len_desde].
    assert (negb (isprint c) && negb (Ascii.eqb c CR) && negb (Ascii.eqb c NL) && (byte c <? 128) = false /\ Ascii.eqb c NL = false) as [-> ->]
      by (clear - Hc; by destruct c as [[][][][][][][][]]).
    rewrite IH by done. unfold largo. cbn [String.length]. lia.
Qed.

(** Lines, each with its end, and an empty one. *)
Definition renglones (l : list string) : string := unir (map (fun s => s +:+ CRLF) l).
Definition renglon_ok (s : string) : Prop := s <> "" /\ todos de_linea s = true.

Lemma largo_renglones l i x : l <> [] -> Forall renglon_ok l ->
  request_len_desde i (renglones l +:+ CRLF +:+ x) = i + largo (renglones l) + 2.
Proof.
  intros Hne Hl. revert i. induction Hl as [|s l [Hs Hd] Hl IH]; intros i; [done|]. unfold renglones. cbn [map unir]. fold (renglones l).
  rewrite !app_assoc_s. destruct Hl as [|s' l [Hs' Hd'] Hl].
  - rewrite app_nil_l_s, largo_ultima by done. rewrite !largo_app. unfold largo. cbn [String.length renglones map unir CRLF]. lia.
  - rewrite largo_linea; [rewrite IH by done; rewrite !largo_app; unfold largo; cbn [String.length CRLF]; lia|done|].
    unfold renglones. cbn [map unir]. destruct s' as [|a s']; [done|]. rewrite !app_cons_s. cbn [todos] in Hd'. apply andb_prop in Hd' as [Ha _].
    clear - Ha. by destruct a as [[][][][][][][][]].
Qed.

(** *** Headers *)

Lemma parse_cabeceras cabs : forall n, cabs <> [] -> Forall cabecera_ok cabs -> (length cabs <= n)%nat ->
  parse_http_headers n (texto_cabeceras cabs +:+ String CR "") = cabs.
Proof.
  induction cabs as [|[name value] cabs IH]; intros n Hne Hc Hn; [done|]. destruct n as [|n]; cbn [length] in Hn; [lia|].
  apply Forall_cons in Hc as [(H1 & H2 & H3 & H4) Hc]. cbn [fst snd] in *. unfold texto_cabeceras. cbn [map unir]. fold (texto_cabeceras cabs).
  unfold linea_cabecera. rewrite !app_assoc_s. set (resto := texto_cabeceras cabs +:+ String CR ""). cbn [parse_http_headers].
  rewrite (skip_palabra name ": "); [|eapply todos_de; [exact H2|por_caracter]|done|done|].
  2: { destruct value as [|c v]; [done|]. rewrite app_cons_s. done. }
  assert (skip (value +:+ CRLF +:+ resto) CRLF = (value, match cabs with [] => "" | _ => resto end)) as ->.
  { assert (todos (fun c => negb (contiene c CRLF)) value = true) as Hv by (eapply todos_de; [exact H3|por_caracter]).
    destruct cabs as [|[n' v'] cabs].
    - replace (CRLF +:+ resto) with ((CRLF +:+ resto) +:+ "") by apply app_nil_r_s. apply skip_palabra; done.
    - apply skip_palabra; [done..|]. apply Forall_cons in Hc as [(G1 & G2 & _) _]. cbn [fst] in G1, G2.
      unfold resto, texto_cabeceras. cbn [map unir]. unfold linea_cabecera. destruct n' as [|a n']; [done|]. rewrite !app_cons_s.
      cbn [todos] in G2. apply andb_prop in G2 as [Ga _]. clear - Ga. by destruct a as [[][][][][][][][]]. }
  destruct name as [|a name]; [done|]. f_equal. destruct cabs as [|h cabs]; [by destruct n|]. apply IH; [done|done|lia].
Qed.

Lemma cabeceras_reenviadas_ok r : Forall cabecera_ok (http_headers r) -> Forall cabecera_ok (cabeceras_reenviadas r) /\ cabeceras_reenviadas r <> [].
Proof.
  intros H. assert (cabecera_ok ("Connection", "close")) as Hc by (split_and!; done). unfold cabeceras_reenviadas. split.
  - apply Forall_app. split; [|destruct (existsb _ _); [done|by apply Forall_singleton]]. rewrite Forall_map. eapply Forall_impl; [exact H|].
    intros [n v] Hn. cbn. by destruct (es_connection n).
  - destruct (http_headers r) as [|[n v] l]; done.
Qed.

Lemma cabeza_renglones r : cabeza_reenviada r = renglones (linea_pedido r :: map (fun '(n, v) => n +:+ ": " +:+ v) (cabeceras_reenviadas r)) +:+ CRLF.
Proof.
  unfold cabeza_reenviada, renglones, texto_cabeceras. cbn [map unir]. rewrite !app_assoc_s. do 3 f_equal.
  rewrite map_map. f_equal. apply map_ext. intros [n v]. unfold linea_cabecera. by rewrite !app_assoc_s.
Qed.

Lemma partir_query_ok u q : contiene "?" u = false -> partir_query (u +:+ match q with Some q => "?" +:+ q | None => "" end) = (u, q).
Proof.
  intros Hu. induction u as [|c u IH]; [by destruct q|]. rewrite contiene_cons in Hu. apply orb_false_elim in Hu as [Hc Hu].
  rewrite app_cons_s. cbn [partir_query]. rewrite Ascii.eqb_sym, Hc, IH by done. done.
Qed.

Lemma metodo_ok m : is_valid_http_method m = true -> m <> "" /\ todos de_palabra m = true /\ exists c r, m = String c r /\ isspace c = false.
Proof.
  unfold is_valid_http_method. rewrite existsb_exists. intros (x & Hx & ->%String.eqb_eq).
  repeat (destruct Hx as [<-|Hx]; [split_and!; [done|done|eexists _, _; done]|]). done.
Qed.

Lemma linea_pedido_ok r : escrita r -> renglon_ok (linea_pedido r).
Proof.
  intros [H1 [H2 H3] _ H5 H6 _ _]. destruct (metodo_ok _ H1) as (M1 & M2 & _). unfold linea_pedido, objetivo.
  split; [by destruct (request_method r)|]. rewrite !todos_app.
  assert (forall s, todos de_palabra s = true -> todos de_linea s = true) as K by (intros s Hs; eapply todos_de; [exact Hs|por_caracter]).
  rewrite K, (todos_de _ de_linea (uri r) H3), H6 by (done || por_caracter).
  destruct (query_string r); [|done]. rewrite todos_app, (K s) by done. done.
Qed.

(** The characters of a head. *)
Definition de_texto (c : ascii) : bool := de_linea c || Ascii.eqb c CR || Ascii.eqb c NL.
Lemma linea_texto s : todos de_linea s = true -> todos de_texto s = true.
Proof. intros Hs. eapply todos_de; [exact Hs|por_caracter]. Qed.
Lemma texto_texto l : Forall cabecera_ok l -> todos de_texto (texto_cabeceras l) = true.
Proof.
  intros Hc. induction Hc as [|[n v] l (G1 & G2 & G3 & _) Hl IH]; [done|]. cbn [fst snd] in *.
  change (texto_cabeceras ((n, v) :: l)) with ((n +:+ ": " +:+ v +:+ CRLF) +:+ texto_cabeceras l). rewrite !todos_app, (linea_texto v G3), (linea_texto n), IH by (eapply todos_de; [exact G2|por_caracter]). done.
Qed.

Lemma reenviada_len r : escrita r -> get_request_len (proxy_request r) = largo (cabeza_reenviada r).
Proof.
  intros He. pose proof (linea_pedido_ok r He) as Hlp. destruct He as [H1 [H2 H3] H4 H5 H6 H7 H8].
  destruct (cabeceras_reenviadas_ok r H7) as [Hc Hne].
  assert (Forall renglon_ok (linea_pedido r :: map (fun '(n, v) => n +:+ ": " +:+ v) (cabeceras_reenviadas r))) as Hr.
  { apply Forall_cons. split; [done|]. rewrite Forall_map. eapply Forall_impl; [exact Hc|]. intros [n v] (G1 & G2 & G3 & _). cbn in *.
    split; [by destruct n|]. rewrite !todos_app, G3, (todos_de _ de_linea n G2) by por_caracter. done. }
  rewrite proxy_request_texto, cabeza_renglones, app_assoc_s. unfold get_request_len. rewrite largo_renglones by done.
  rewrite largo_app. unfold largo. cbn [String.length CRLF]. lia.
Qed.

Lemma reenviada_parse r : escrita r -> parse_http_message (cabeza_reenviada r) =
  Some (mkConn (request_method r) (uri r) (http_version r) (query_string r) (cabeceras_reenviadas r) "", 0).
Proof.
  intros He. pose proof (linea_pedido_ok r He) as Hlp. destruct He as [H1 [H2 H3] H4 H5 H6 H7 H8].
  destruct (cabeceras_reenviadas_ok r H7) as [Hc Hne].
  destruct (metodo_ok _ H1) as (M1 & M2 & mc & mr & Em & Hms).
  assert (cabeza_reenviada r = (linea_pedido r +:+ CRLF +:+ texto_cabeceras (cabeceras_reenviadas r) +:+ String CR "") +:+ String NL "") as E
    by (unfold cabeza_reenviada; rewrite !app_assoc_s; reflexivity).
  rewrite E. set (b := linea_pedido r +:+ _). unfold parse_http_message.
  assert (exists a x, b +:+ String NL "" = String a x) as (a & x & Eax) by (unfold b, linea_pedido; rewrite Em; rewrite !app_cons_s; by eexists _, _).
  rewrite Eax at 1. cbv iota.
  replace (prefijo (String.length (b +:+ String NL "") - 1) (b +:+ String NL "")) with b
    by (rewrite length_app_s; cbn [String.length]; rewrite Nat.add_sub; by rewrite prefijo_app).
  assert (c_str b = b) as ->.
  { apply c_str_id, (todos_no_contiene de_texto); [done|]. unfold b.
    rewrite !todos_app, (linea_texto (linea_pedido r)), texto_texto by (done || apply Hlp). done. }
  assert (abarcar isspace b = ("", b)) as ->.
  { unfold b, linea_pedido. rewrite Em, !app_cons_s. cbn [abarcar]. by rewrite Hms. }
  assert (b = request_method r +:+ " " +:+ objetivo r +:+ " " +:+ ("HTTP/" +:+ http_version r) +:+ CRLF +:+ texto_cabeceras (cabeceras_reenviadas r) +:+ String CR "") as ->.
  { unfold b, linea_pedido. rewrite !app_assoc_s. change " HTTP/" with (" " +:+ "HTTP/"). by rewrite !app_assoc_s. }
  assert (forall s, todos de_palabra s = true -> todos (fun c => negb (contiene c " ")) s = true) as Kp by (intros s Hs; eapply todos_de; [exact Hs|por_caracter]).
  assert (exists c y, objetivo r = String c y /\ de_palabra c = true) as (oc & oy & Eo & Ho).
  { unfold objetivo. destruct (uri r) as [|c u]; [done|]. cbn [todos] in H3. apply andb_prop in H3 as [Hc3 _]. apply andb_prop in Hc3 as [Hc3 _].
    eexists _, _. by rewrite app_cons_s. }
  rewrite (skip_palabra (request_method r) " "); [|by apply Kp|done|done|rewrite Eo, app_cons_s; clear - Ho; by destruct oc as [[][][][][][][][]]].
  rewrite (skip_palabra (objetivo r) " "); [| |done|done|done].
  2: { apply Kp. unfold objetivo. rewrite todos_app, (todos_de _ de_palabra (uri r) H3) by por_caracter. destruct (query_string r); [|done]. by rewrite todos_app, H5. }
  rewrite (skip_palabra ("HTTP/" +:+ http_version r) CRLF); [| |done|done|].
  2: { rewrite todos_app, (todos_de _ _ (http_version r) H6) by por_caracter. done. }
  2: { destruct (cabeceras_reenviadas r) as [|[n v] l]; [done|]. apply Forall_cons in Hc as [(G1 & G2 & _) _]. cbn [fst] in *.
       unfold texto_cabeceras. cbn [map unir]. unfold linea_cabecera. destruct n as [|na n]; [done|]. rewrite !app_cons_s. cbn [todos] in G2.
       apply andb_prop in G2 as [Ga _]. clear - Ga. by destruct na as [[][][][][][][][]]. }
  rewrite H1. cbn [negb andb orb]. assert (String.prefix "HTTP/" ("HTTP/" +:+ http_version r) = true) as -> by (by destruct (http_version r)).
  cbn [negb orb]. change (saltear 5 ("HTTP/" +:+ http_version r)) with (http_version r). unfold objetivo. rewrite partir_query_ok.
  - rewrite H4. by rewrite parse_cabeceras.
  - eapply todos_no_contiene; [|exact H3]. reflexivity.
Qed.
(** A request survives being written and read: what the proxy writes for a request whose
    words have no blanks or controls and whose path is plain is framed as its head, and is
    read as the same method, path, query, version and headers, but for [Connection: close], which the
    proxy sets.  The path must be plain because it is written decoded: with an encoded
    blank, the other server cannot read the request. *)
Theorem peticion_roundtrip :
  (forall r, escrita r ->
   proxy_request r = cabeza_reenviada r +:+ content r /\ get_request_len (proxy_request r) = largo (cabeza_reenviada r) /\
   parse_http_message (cabeza_reenviada r) =
     Some (mkConn (request_method r) (uri r) (http_version r) (query_string r) (cabeceras_reenviadas r) "", 0)) /\
  (exists r, parse_http_message ("GET http://h/a%20b HTTP/1.1" +:+ CRLF +:+ CRLF) = Some (r, 0) /\ parse_http_message (cabeza_reenviada r) = None).
Proof.
  split; [|exists (mkConn "GET" "http://h/a b" "1.1" None [] ""); split; vm_compute; reflexivity].
  intros r He. split_and!; [apply proxy_request_texto|by apply reenviada_len|by apply reenviada_parse].
Qed.

Lemma peticion_roundtrip_witness :
  let r := mkConn "POST" "/a.txt" "1.1" (Some "x=1") [("Host", "h"); ("Connection", "keep-alive"); ("Content-Length", "4")] "hola" in
  parse_http_message (cabeza_reenviada r) =
    Some (mkConn "POST" "/a.txt" "1.1" (Some "x=1") [("Host", "h"); ("Connection", "close"); ("Content-Length", "4")] "", 0).
Proof.
  intros r. refine (proj2 (proj2 (proj1 peticion_roundtrip r _))). split.
  - reflexivity.
  - split; [discriminate|reflexivity].
  - vm_compute. reflexivity.
  - reflexivity.
  - reflexivity.
  - repeat constructor; discriminate.
  - apply Nat.leb_le. vm_compute. reflexivity.
Defined.

(** *** Where requests are passed on to *)

(** A name of a host, and a path. *)
Definition de_host (c : ascii) : bool := de_palabra c && negb (Ascii.eqb c ":") && negb (Ascii.eqb c "/").
Definition de_ruta (c : ascii) : bool := de_palabra c && negb (Ascii.eqb c ":").

Lemma tomar_todo n fin s : (String.length s <= n)%nat -> todos (fun c => negb (contiene c fin)) s = true -> tomar n fin s = (s, "").
Proof.
  revert n. induction s as [|c s IH]; intros n Hn Hs; [by destruct n|]. cbn [String.length] in Hn. destruct n as [|n]; [lia|].
  cbn [tomar todos] in *. apply andb_prop in Hs as [Hc Hs]. apply negb_true_iff in Hc. rewrite Hc, IH by (done || lia). done.
Qed.
(** A request for [http://host/path] goes to port 80 of the host, for the path alone.  A path
    with a colon and digits is taken for a host and a port. *)
Theorem proxy_destino conecta r h p :
  h <> "" -> todos de_host h = true -> todos de_ruta p = true -> (String.length h + String.length p < 490)%nat ->
  conecta ("tcp://" +:+ h +:+ ":80") = true -> request_method r <> "CONNECT" -> uri r = "http://" +:+ h +:+ "/" +:+ p ->
  proxify_connection conecta r = Ok (Pasar ("tcp://" +:+ h +:+ ":80") (proxy_request (con_uri ("/" +:+ p) r))) /\
  leer_destino "http://h/a:8080" = Ok (Some ("h/a", 8080)).
Proof.
  intros Hh Hdh Hdp Hl Hcon Hm Hu. split; [|vm_compute; reflexivity]. unfold proxify_connection.
  assert (todos (fun c => negb (contiene c ": ")) h = true) as Kh by (eapply todos_de; [exact Hdh|por_caracter]).
  assert (todos (fun c => negb (contiene c ": ")) p = true) as Kp by (eapply todos_de; [exact Hdp|por_caracter]).
  assert (leer_destino (uri r) = Ok (Some (h, 80))) as ->.
  { rewrite Hu. unfold leer_destino. change ("http://" +:+ h +:+ "/" +:+ p) with ("http" +:+ String ":" ("//" +:+ h +:+ "/" +:+ p)).
    unfold leer_host_puerto at 1. rewrite tomar_fin; [|apply Nat.ltb_lt; reflexivity|done|done].
    change (leer_hu ("//" +:+ h +:+ "/" +:+ p)) with (@Ok (option (Z * string)) None). cbn [bindR fmap option_fmap option_map].
    change (leer_proto _) with (Some (h +:+ "/" +:+ p)). cbv iota. unfold leer_host_puerto.
    rewrite <- (app_nil_r_s (h +:+ "/" +:+ p)) at 1. rewrite app_nil_r_s, tomar_todo.
    2: { rewrite !length_app_s. cbn [String.length]. lia. }
    2: { rewrite !todos_app, Kh, Kp. done. }
    destruct h as [|hc h]; [done|]. rewrite app_cons_s at 1. cbv iota. cbn [bindR].
    change ("/" +:+ p) with (String "/" p). rewrite tomar_fin; [done|lia|eapply todos_de; [exact Hdh|por_caracter]|done]. }
  cbn [bindR]. change (decimal 80) with "80". change (":" +:+ "80") with ":80".
  rewrite prefijo_todo by (rewrite !length_app_s; cbn [String.length]; lia). unfold mg_forward. rewrite Hcon. cbn [negb].
  destruct (String.eqb_spec (request_method r) "CONNECT"); [done|]. do 3 f_equal. rewrite Hu.
  rewrite (proj2 (quitar_prefijo_spec "http://" _ _) eq_refl). cbn [default]. unfold id. clear - Hdh.
  induction h as [|c h IH]; [done|]. cbn [todos] in Hdh. apply andb_prop in Hdh as [Hc Hd]. rewrite app_cons_s. cbn [hasta_la_barra].
  assert (Ascii.eqb c "/" = false) as -> by (clear - Hc; by destruct c as [[][][][][][][][]]). by apply IH.
Qed.

Lemma proxy_destino_witness :
  let r := mkConn "GET" "http://h/a" "1.1" None [] "" in
  proxify_connection (fun _ => true) r = Ok (Pasar "tcp://h:80" (proxy_request (con_uri "/a" r))).
Proof.
  intros r. refine (proj1 (proxy_destino (fun _ => true) r "h" "a" _ _ _ _ _ _ _)); try reflexivity; try discriminate.
  apply Nat.ltb_lt. reflexivity.
Defined.
End ProxyOk.
