(* ===== verification/Plantillas.v ===== *)
(** * Plantillas: the templates of src/WebServer/mongoose.c

    [mg_template] sends a text with its marks [{{keyword}}] replaced by what the function of the
    keyword sends.  The model gives the sequence of what is sent: a piece of the text
    ([mg_send_data]) or the call of the function of an expansion. *)

From S2P Require Import Prelude Libc.
Open Scope Z_scope.

Module Plantillas.
Import Libc.

Inductive envio : Type := Dato (s : string) | Llamada (j : nat).

(** [expansions[j].keyword] is the text of the mark: the first one. *)
Fixpoint buscar_expansion (j : nat) (keywords : list string) (kw : string) : option nat :=
  match keywords with
  | [] => None
  | k :: keywords => if String.eqb k kw then Some j else buscar_expansion (S j) keywords kw
  end.

(** [if (i > pos) mg_send_data(...)] *)
Definition datos (s : string) : list envio := match s with "" => [] | _ => [Dato s] end.

(** The loop: [antes] is the text from [pos] to [i] and [s] the rest; after a mark that was
    replaced, [pos] is two characters ahead of [i], which [salta] counts. *)
Fixpoint bucle (keywords : list string) (inside_marker : bool) (salta : nat) (antes s : string) : list envio :=
  match s with
  | "" => datos antes
  | String c r =>
      let abre := negb inside_marker && String.prefix "{{" s in
      let sale := if abre then datos antes else [] in
      let antes := if abre then "" else antes in
      let salta' := if abre then 0%nat else salta in
      let inside := inside_marker || abre in
      let sigue (inside : bool) (salta : nat) (antes : string) : list envio :=
        match salta with
        | O => bucle keywords inside 0 (antes +:+ String c "") r
        | S n => bucle keywords inside n antes r
        end in
      sale ++
      if inside && String.prefix "}}" s then
        match buscar_expansion 0 keywords (saltear 2 antes) with
        | Some j => Llamada j :: bucle keywords false 1 "" r
        | None => sigue false salta' antes
        end
      else sigue inside salta' antes
  end.
Definition mg_template (keywords : list string) (s : string) : list envio := bucle keywords false 0 "" s.
End Plantillas.

(** ** Templates made of texts and marks *)
Module PlantillasOk.
Import Libc Plantillas.

Inductive pieza : Type := Texto (t : string) | Marca (kw : string).
Definition marca (kw : string) : string := "{{" +:+ kw +:+ "}}".
Definition escribir (l : list pieza) : string := unir (map (fun p => match p with Texto t => t | Marca kw => marca kw end) l).
Definition pieza_ok (p : pieza) : Prop :=
  match p with Texto t => contiene "{" t = false | Marca kw => contiene "}" kw = false end.

Section Salida.
Context (keywords : list string) (sale : nat -> string).  (* what each function sends *)

Definition salida (l : list envio) : string := unir (map (fun e => match e with Dato s => s | Llamada j => sale j end) l).
Definition valor (p : pieza) : string :=
  match p with
  | Texto t => t
  | Marca kw => match buscar_expansion 0 keywords kw with Some j => sale j | None => marca kw end
  end.

Lemma salida_app l m : salida (l ++ m) = salida l +:+ salida m.
Proof. unfold salida. induction l as [|x l IH]; [done|]. cbn [app map unir]. by rewrite IH, app_assoc_s. Qed.
Lemma salida_datos s : salida (datos s) = s.
Proof. destruct s; [done|]. unfold salida. cbn. by rewrite app_nil_r_s. Qed.

Lemma bucle_fuera t s : forall antes, contiene "{" t = false ->
  bucle keywords false 0 antes (t +:+ s) = bucle keywords false 0 (antes +:+ t) s.
Proof.
  induction t as [|c t IH]; intros antes Ht; [by rewrite app_nil_l_s, app_nil_r_s|].
  rewrite contiene_cons in Ht. apply orb_false_elim in Ht as [Hc Ht]. rewrite app_cons_s. cbn [bucle negb andb orb].
  assert (String.prefix "{{" (String c (t +:+ s)) = false) as ->.
  { cbn [String.prefix]. destruct (ascii_dec "{" c) as [<-|]; [|done]. by rewrite Ascii.eqb_refl in Hc. }
  cbn [app andb]. rewrite IH by done. by rewrite app_assoc_s, app_cons_s, app_nil_l_s.
Qed.

Lemma bucle_dentro k s : forall antes, contiene "}" k = false ->
  bucle keywords true 0 antes (k +:+ s) = bucle keywords true 0 (antes +:+ k) s.
Proof.
  induction k as [|c k IH]; intros antes Hk; [by rewrite app_nil_l_s, app_nil_r_s|].
  rewrite contiene_cons in Hk. apply orb_false_elim in Hk as [Hc Hk]. rewrite app_cons_s. cbn [bucle negb andb orb app].
  assert (String.prefix "}}" (String c (k +:+ s)) = false) as ->.
  { cbn [String.prefix]. destruct (ascii_dec "}" c) as [<-|]; [|done]. by rewrite Ascii.eqb_refl in Hc. }
  rewrite IH by done. by rewrite app_assoc_s, app_cons_s, app_nil_l_s.
Qed.

Lemma bucle_marca kw s antes : contiene "}" kw = false -> salida (bucle keywords false 0 antes (marca kw +:+ s)) =
  antes +:+ match buscar_expansion 0 keywords kw with
            | Some j => sale j +:+ salida (bucle keywords false 0 "" s)
            | None => salida (bucle keywords false 0 (marca kw) s)
            end.
Proof.
  intros Hk. unfold marca. rewrite !app_assoc_s. change ("{{" +:+ kw +:+ "}}" +:+ s) with (String "{" (String "{" (kw +:+ "}}" +:+ s))).
  set (r := kw +:+ "}}" +:+ s). cbn [bucle negb andb orb].
  assert (String.prefix "{{" (String "{" (String "{" r)) = true) as -> by (by destruct r).
  assert (String.prefix "}}" (String "{" (String "{" r)) = false) as -> by done.
  assert (String.prefix "}}" (String "{" r) = false) as -> by done.
  cbn [negb andb orb app]. rewrite salida_app, salida_datos. f_equal. rewrite !app_nil_l_s. unfold r.
  change (String "{" "" +:+ String "{" "") with "{{". rewrite bucle_dentro by done. change ("}}" +:+ s) with (String "}" (String "}" s)).
  cbn [bucle negb andb orb app]. assert (String.prefix "}}" (String "}" (String "}" s)) = true) as -> by (by destruct s).
  change (saltear 2 ("{{" +:+ kw)) with kw. destruct (buscar_expansion 0 keywords kw) as [j|].
  - unfold salida at 1. cbn [map unir]. fold (salida (bucle keywords false 0 "" s)). f_equal.
  - assert (String.prefix "{{" (String "}" s) = false) as -> by done. cbn [app]. do 2 f_equal. rewrite !app_assoc_s. done.
Qed.

(** A template is sent as its texts with each mark replaced by what the function of its keyword
    sends; a mark whose keyword is not known is sent as it is. *)
Theorem plantilla l : Forall pieza_ok l -> salida (mg_template keywords (escribir l)) = unir (map valor l).
Proof.
  intros Hl. unfold mg_template. assert (forall antes, salida (bucle keywords false 0 antes (escribir l)) = antes +:+ unir (map valor l)) as K; [|by rewrite K].
  induction Hl as [|p l Hp Hl IH]; intros antes.
  { unfold escribir. cbn [map unir bucle]. by rewrite salida_datos, app_nil_r_s. }
  unfold escribir. cbn [map unir]. fold (escribir l). destruct p as [t|kw]; cbn [valor].
  - rewrite bucle_fuera by done. by rewrite IH, app_assoc_s.
  - rewrite bucle_marca by done. f_equal. destruct (buscar_expansion 0 keywords kw); by rewrite IH.
Qed.
End Salida.

Lemma plantilla_witness :
  salida (fun _ => "Ana") (mg_template ["nombre"] "Hola, {{nombre}}! {{otro}} }") = "Hola, Ana! {{otro}} }".
Proof.
  refine (plantilla ["nombre"] (fun _ => "Ana") [Texto "Hola, "; Marca "nombre"; Texto "! "; Marca "otro"; Texto " }"] _).
  repeat constructor.
Defined.
End PlantillasOk.
