(* ===== verification/Registros.v ===== *)
(** * Registros: the logs of the web server (src/WebServer/mongoose.c)

    The dump of the bytes of a connection ([ns_hexdump], for the option [hexdump_file]) and the
    line of a request ([log_access], for the option [access_log_file]).  The program sets
    neither. *)

From S2P Require Import Prelude Libc Mongoose Conexion Patrones Autorizacion Fechas Mundo.
Open Scope Z_scope.

Module Registros.
Import Libc Mongoose Autorizacion Fechas.

(** ** Dumps *)

(** [n += snprintf(dst + n, dst_len - n, ...)], where [t] is all that has been written: once it
    is longer than the buffer, the size that is left is negative, which is a huge [size_t]. *)
Definition agrega (dst_len : Z) (s t : string) : res string :=
  if dst_len <? largo t then Fallo (Indefinido "ns_hexdump: write past the buffer") else Ok (t +:+ s).

Definition fmt_02x (z : Z) : string := String (hex_min (z / 16)) (String (hex_min (z mod 16)) "").
Definition fmt_04x (z : Z) : string :=
  let s := fmt_lx z in unir (repeat "0" (4 - String.length s)) +:+ s.
Definition visible (c : ascii) : ascii := if (byte c <? 32) || (126 <? byte c) then "."%char else c.

(** From position [i], with the characters of the line so far. *)
Fixpoint volcar (dst_len i : Z) (ascii t buf : string) : res string :=
  match buf with
  | "" =>
      let? t := agrega dst_len (unir (repeat "   " (Z.to_nat (- i mod 16)))) t in
      agrega dst_len ("  " +:+ ascii +:+ String NL (String NL "")) t
  | String c r =>
      let idx := i mod 16 in
      let? t := if idx =? 0 then
                  let? t := if 0 <? i then agrega dst_len ("  " +:+ ascii +:+ String NL "") t else Ok t in
                  agrega dst_len (fmt_04x i +:+ " ") t
                else Ok t in
      let? t := agrega dst_len (" " +:+ fmt_02x (byte c)) t in
      volcar dst_len (i + 1) (prefijo (Z.to_nat idx) ascii +:+ String (visible c) "") t r
  end.
(** The text; its beginning is in the buffer. *)
Definition ns_hexdump (buf : string) (dst_len : Z) : res string := volcar dst_len 0 "" "" buf.

(** The size of the buffer that [hexdump] allocates. *)
Definition buf_size (num_bytes : Z) : Z := num_bytes * 5 + 100.

(** ** Requests *)

Definition log_header (headers : list (string * string)) (header : string) : string :=
  match mg_get_header headers header with
  | None => " -"
  | Some v => " " +:+ String COMILLA (v +:+ String COMILLA "")
  end.

(** The user of the [Authorization]; a name that fills the buffer is left without terminator. *)
Definition usuario (headers : list (string * string)) : res string :=
  match mg_get_header headers "Authorization" with
  | None => Ok ""
  | Some h =>
      match (mg_parse_header h "username" 100).2 with
      | Some u => Ok u
      | None => Fallo (Indefinido "log_access: user not terminated")
      end
  end.

(** [zona] is the [%z] of the moment. *)
Definition fecha_acceso (t : tm) (zona : string) : string :=
  a_dos (tm_mday t) +:+ "/" +:+ nth (Z.to_nat (tm_mon t)) meses "?" +:+ "/" +:+ decimal (1900 + tm_year t) +:+ ":" +:+
  a_dos (tm_hour t) +:+ ":" +:+ a_dos (tm_min t) +:+ ":" +:+ a_dos (tm_sec t) +:+ " " +:+ zona.

(** The line that is added to the file, of a request or of a connection without one. *)
Definition log_access (date remote_ip : string) (r : option mg_connection) (status_code : Z) : res string :=
  let headers := match r with Some r => http_headers r | None => [] end in
  let? user := usuario headers in
  let pedido := match r with
                | Some r => request_method r +:+ " " +:+ uri r +:+ match query_string r with Some q => "?" +:+ q | None => "" end +:+
                            " HTTP/" +:+ http_version r
                | None => "- - HTTP/(null)"
                end in
  Ok (remote_ip +:+ " - " +:+ (if String.eqb user "" then "-" else user) +:+ " [" +:+ date +:+ "] " +:+
      String COMILLA pedido +:+ String COMILLA (" " +:+ decimal status_code +:+ " 0") +:+
      log_header headers "Referer" +:+ log_header headers "User-Agent" +:+ String NL "").
End Registros.

(** ** Bounds *)
Module RegistrosOk.
Import Libc Mongoose Autorizacion Fechas Registros.

Lemma hexa_corta fuel : forall n acc k, 0 <= n < 16 ^ Z.of_nat (S k) -> (String.length (hexa fuel n acc) <= S k + String.length acc)%nat.
Proof.
  induction fuel as [|fuel IH]; intros n acc k Hn; cbn [hexa]; [lia|]. destruct (Z.eqb_spec (n / 16) 0) as [|N]; [cbn [String.length]; lia|].
  destruct k as [|k]; [rewrite Z.div_small in N by (change (16 ^ Z.of_nat 1) with 16 in Hn; lia); done|].
  etrans; [apply (IH _ _ k)|cbn [String.length]; lia]. split; [apply Z.div_pos; lia|]. apply Z.div_lt_upper_bound; [lia|].
  rewrite (Nat2Z.inj_succ (S k)), Z.pow_succ_r in Hn by lia. lia.
Qed.

Lemma largo_repetir s n : largo (unir (repeat s n)) = Z.of_nat n * largo s.
Proof. induction n as [|n IH]; [done|]. cbn [repeat unir]. rewrite largo_app, IH. lia. Qed.

Lemma largo_04x z : 0 <= z < 2 ^ 31 -> largo (fmt_04x z) <= 8.
Proof.
  intros Hz. unfold fmt_04x. set (s := fmt_lx z). rewrite largo_app, largo_repetir.
  assert (String.length s <= 8)%nat as Hs.
  { unfold s, fmt_lx. rewrite Z.mod_small by lia. etrans; [apply (hexa_corta 16 z "" 7); change (16 ^ Z.of_nat 8) with (2 ^ 32); lia|]. done. }
  unfold largo. cbn [String.length]. lia.
Qed.

(** What has been written when the line has [k] bytes, [1 <= k <= 16], after [q] lines. *)
Definition cota (i : Z) : Z := 76 * ((i - 1) / 16) + 9 + 3 * ((i - 1) mod 16 + 1).

Lemma agrega_ok n s t : largo t <= n -> agrega n s t = Ok (t +:+ s).
Proof. intros H. unfold agrega. by rewrite (proj2 (Z.ltb_ge _ _)) by lia. Qed.

Lemma volcar_ok n buf : forall i ascii t, 0 <= i -> i + largo buf < 2 ^ 31 -> buf_size (i + largo buf) <= n ->
  largo ascii <= 16 -> (i = 0 /\ t = "" \/ 0 < i /\ largo t <= cota i) ->
  exists t', volcar n i ascii t buf = Ok t' /\ largo t' < n.
Proof.
  induction buf as [|c r IH]; intros i asc t Hi Hl Hn Ha Ht; cbn [volcar]; unfold buf_size, cota in *.
  - change (largo "") with 0 in *. pose proof (Z.mod_pos_bound (- i) 16 ltac:(lia)) as Hm.
    assert (largo t + 3 * (- i mod 16) + 20 < n) as Hc.
    { destruct Ht as [[-> ->]|[H0 Ht]]; [change (largo "") with 0; change (- 0 mod 16) with 0; lia|].
      assert (- i mod 16 = 15 - (i - 1) mod 16) as -> by (replace (- i) with (15 - (i - 1) mod 16 + (- ((i - 1) / 16) - 1) * 16) by (pose proof (Z.div_mod (i - 1) 16 ltac:(lia)); lia);
        rewrite Z.mod_add by lia; apply Z.mod_small; pose proof (Z.mod_pos_bound (i - 1) 16 ltac:(lia)); lia).
      pose proof (Z.div_mod (i - 1) 16 ltac:(lia)). pose proof (Z.mod_pos_bound (i - 1) 16 ltac:(lia)). lia. }
    rewrite agrega_ok by lia. cbn [bindR].
    assert (largo (t +:+ unir (repeat "   " (Z.to_nat (- i mod 16)))) = largo t + 3 * (- i mod 16)) as Lt.
    { rewrite largo_app, largo_repetir. change (largo "   ") with 3. lia. }
    rewrite agrega_ok by lia. eexists. split; [done|]. rewrite largo_app, Lt, !largo_app. change (largo "  ") with 2.
    change (largo (String NL (String NL ""))) with 2. lia.
  - assert (largo (String c r) = largo r + 1) as Lr by (unfold largo; cbn [String.length]; lia). rewrite Lr in *. pose proof (largo_pos r).
    pose proof (Z.mod_pos_bound i 16 ltac:(lia)). pose proof (Z.div_mod i 16 ltac:(lia)).
    set (pre := if i mod 16 =? 0 then _ else _). assert (exists t1, pre = Ok t1 /\ largo t1 <= 76 * (i / 16) + 9 + 3 * (i mod 16)) as (t1 & E1 & L1).
    { unfold pre. destruct (Z.eqb_spec (i mod 16) 0) as [E0|N0].
      - pose proof (largo_04x i ltac:(lia)) as L4. destruct Ht as [[-> ->]|[Hpos Ht]].
        + change (0 <? 0) with false. cbn [bindR]. rewrite agrega_ok by (change (largo "") with 0; lia). eexists. split; [done|].
          rewrite app_nil_l_s, largo_app. change (largo " ") with 1. change (0 / 16) with 0. change (0 mod 16) with 0. lia.
        + rewrite (proj2 (Z.ltb_lt _ _)) by lia.
          assert ((i - 1) / 16 = i / 16 - 1 /\ (i - 1) mod 16 = 15) as [D1 D2].
          { split; symmetry; [apply (Z.div_unique _ _ _ 15)|apply (Z.mod_unique _ _ (i / 16 - 1))]; lia. }
          rewrite D1, D2 in Ht. rewrite agrega_ok by lia. cbn [bindR].
          assert (largo (t +:+ "  " +:+ asc +:+ String NL "") <= 76 * (i / 16)) as L2.
          { rewrite !largo_app. change (largo "  ") with 2. change (largo (String NL "")) with 1. lia. }
          rewrite agrega_ok by lia. eexists. split; [done|]. rewrite largo_app, (largo_app (fmt_04x i)). change (largo " ") with 1. lia.
      - exists t. split; [done|]. destruct Ht as [[-> _]|[Hpos Ht]]; [done|].
        assert ((i - 1) / 16 = i / 16 /\ (i - 1) mod 16 = i mod 16 - 1) as [D1 D2].
        { split; symmetry; [apply (Z.div_unique _ _ _ (i mod 16 - 1))|apply (Z.mod_unique _ _ (i / 16))]; lia. }
        rewrite D1, D2 in Ht. lia. }
    rewrite E1. cbn [bindR]. rewrite agrega_ok by lia. cbn [bindR]. apply IH; [lia|lia|lia| |right; split; [lia|]].
    + rewrite largo_app. unfold largo at 1. rewrite length_prefijo. change (largo (String (visible c) "")) with 1. lia.
    + replace (i + 1 - 1) with i by lia. rewrite largo_app, largo_app. change (largo " ") with 1. change (largo (fmt_02x (byte c))) with 2. lia.
Qed.

(** The dump of fewer than [2^28] bytes fits in the buffer that is allocated for it, whose size is
    then an [int]. *)
Theorem volcado_cabe buf : largo buf < 2 ^ 28 ->
  buf_size (largo buf) < 2 ^ 31 /\ exists t, ns_hexdump buf (buf_size (largo buf)) = Ok t /\ largo t < buf_size (largo buf).
Proof. intros H. unfold buf_size. split; [lia|]. apply volcar_ok; unfold buf_size; [lia|lia|lia|done|by left]. Qed.

(** A user whose name fills its buffer, and a path with an encoded newline. *)
Example log_access_casos :
  (exists x, log_access "d" "1.2.3.4" (Some (mkConn "GET" "/" "1.1" None [("Authorization", "username=" +:+ String COMILLA (unir (repeat "a" 100)))] "")) 200 = Fallo (Indefinido x)) /\
  (exists r, parse_http_message ("GET /a%0ab HTTP/1.1" +:+ CRLF +:+ CRLF) = Some (r, 0) /\
     log_access "d" "1.2.3.4" (Some r) 200 =
       Ok ("1.2.3.4 - - [d] " +:+ String COMILLA "GET /a" +:+ String NL "b HTTP/1.1" +:+ String COMILLA " 200 0 - -" +:+ String NL "")).
Proof. split; eexists; [vm_compute; reflexivity|split; [vm_compute; reflexivity|vm_compute; reflexivity]]. Qed.
End RegistrosOk.
