(* ===== verification/Loger.v ===== *)
(** * Loger: src/Log/Loger.cpp

    The log file: its levels, its lazily created singleton, and what every other component
    may rely on, that a call of the logger answers and changes nothing but the log. *)

From S2P Require Import Prelude Libc JsonValue Mongoose StringUtil Mundo.
Open Scope Z_scope.

Module Loger.
Import Constantes.

Section Loger.
Context {E : Entorno} {A : Almacen}.
Abbreviation W := (M (Mundo A)).

(** The members of the instance; [getLoger] made it before any call. *)
Definition con_instancia_loger (f : EstadoLoger -> EstadoLoger) : W unit :=
  cambiar (fun w => con_loger (f <$> logInstancia w) w).

Definition guardarEstado : W unit :=
  con_instancia_loger (fun l => mkLoger (nivel l) (disco l +:+ pendiente l) "").

Definition escribir (texto : string) : W unit :=
  con_instancia_loger (fun l => mkLoger (nivel l) (disco l) (pendiente l +:+ c_str texto));;;
  con_instancia_loger (fun l => mkLoger (nivel l) (disco l) (pendiente l +:+ Libc.LF));;;
  guardarEstado.

Definition guion : string := "-----------------------------------------------------------------".

Definition ponerFecha : W unit :=
  let* fecha := time_ in
  let sfecha := c_str (ctime fecha) in
  escribir guion;;;
  escribir (sfecha +:+ guion).

(** [getLoger()]: creates the instance, which truncates the file, on first use. *)
Definition getLoger : W unit :=
  let* l := leer logInstancia in
  match l with
  | Some _ => ret tt
  | None => cambiar (con_loger (Some (mkLoger nivelLogger "" "")));;; ponerFecha
  end.

Definition getNivel : W string :=
  let* l := leer logInstancia in ret (match l with Some l => nivel l | None => "" end).

Definition setNivel (n : string) : W unit :=
  con_instancia_loger (fun l => mkLoger n (disco l) (pendiente l)).
Definition modificarNivel (n : string) : W unit := setNivel n.

(** The public operations, as they are called: [Loger::getLoger()->warn(texto)]. *)
Definition error (texto : string) : W unit := getLoger;;; escribir ("ERROR: " +:+ texto).

Definition warn (texto : string) : W unit :=
  getLoger;;;
  let* n := getNivel in
  let nivel := StringUtil.toLower n in
  if String.eqb nivel Warn || String.eqb nivel Info || String.eqb nivel Debug
  then escribir ("WARNING: " +:+ texto) else ret tt.

Definition info (texto : string) : W unit :=
  getLoger;;;
  let* n := getNivel in
  let nivel := StringUtil.toLower n in
  if String.eqb nivel Info || String.eqb nivel Debug then escribir ("INFO: " +:+ texto) else ret tt.

Definition debug (texto : string) : W unit :=
  getLoger;;;
  let* n := getNivel in
  let nivel := StringUtil.toLower n in
  if String.eqb nivel Debug then escribir ("DEBUG: " +:+ texto) else ret tt.

Definition guardar : W unit := getLoger;;; guardarEstado.

Definition destruirLoger : W unit := cambiar (con_loger None).

End Loger.
End Loger.

(** ** What the other components rely on *)
Module LogerOk.
Import Loger Constantes.

Section LogerOk.
Context {E : Entorno} {A : Almacen}.

(** [w'] is [w] up to the log and the clock. *)
Definition igual_salvo_log (w w' : Mundo A) : Prop :=
  base w' = base w /\ instancia w' = instancia w /\ pathBaseDeDatos w' = pathBaseDeDatos w /\
  lugares w' = lugares w /\ salida w' = salida w /\ consola w' = consola w.

#[export] Instance igual_salvo_log_equiv : Equivalence igual_salvo_log.
Proof.
  split; unfold igual_salvo_log.
  - by intros w.
  - intros w w' (?&?&?&?&?&?). by split_and!.
  - intros w w' w'' (?&?&?&?&?&?) (?&?&?&?&?&?). split_and!; congruence.
Qed.

(** The operation answers and touches only the log and the clock. *)
Definition solo_log {B} (m : M (Mundo A) B) : Prop :=
  forall w, exists b w', m w = (Ok b, w') /\ igual_salvo_log w w'.

Lemma solo_log_bind {B C} (m : M (Mundo A) B) (f : B -> M (Mundo A) C) :
  solo_log m -> (forall b, solo_log (f b)) -> solo_log (bindM m f).
Proof.
  intros Hm Hf w. destruct (Hm w) as (b & w1 & E1 & H1). destruct (Hf b w1) as (c & w2 & E2 & H2).
  exists c, w2. split; [by erewrite bind_ok by exact E1|]. by etrans.
Qed.

Lemma solo_log_ret {B} (b : B) : solo_log (ret b).
Proof. intros w. by exists b, w. Qed.

Lemma solo_log_leer {B} (f : Mundo A -> B) : solo_log (leer f).
Proof. intros w. by exists (f w), w. Qed.

Lemma solo_log_cambiar f : (forall w, igual_salvo_log w (f w)) -> solo_log (cambiar f).
Proof. intros H w. by exists tt, (f w). Qed.

Lemma solo_log_escribir texto : solo_log (escribir texto).
Proof. repeat (apply solo_log_bind; [|intros _]); by apply solo_log_cambiar. Qed.

Lemma solo_log_getLoger : solo_log getLoger.
Proof.
  apply solo_log_bind; [apply solo_log_leer|]. intros [l|]; [apply solo_log_ret|].
  apply solo_log_bind; [by apply solo_log_cambiar|intros _].
  apply solo_log_bind.
  - apply solo_log_bind; [apply solo_log_leer|intros n].
    apply solo_log_bind; [by apply solo_log_cambiar|intros _; apply solo_log_ret].
  - intros t. apply solo_log_bind; [|intros _]; apply solo_log_escribir.
Qed.

Lemma solo_log_error t : solo_log (error t).
Proof. apply solo_log_bind; [apply solo_log_getLoger|intros _; apply solo_log_escribir]. Qed.

Lemma solo_log_nivel (f : string -> bool) t :
  solo_log (getLoger;;; let* n := getNivel in if f n then escribir t else ret tt).
Proof.
  apply solo_log_bind; [apply solo_log_getLoger|intros _]. apply solo_log_bind.
  - apply solo_log_bind; [apply solo_log_leer|intros l; apply solo_log_ret].
  - intros n. destruct (f n); [apply solo_log_escribir|apply solo_log_ret].
Qed.

Lemma solo_log_warn t : solo_log (warn t).
Proof. apply (solo_log_nivel (fun n => _ || _ || _)). Qed.

Lemma solo_log_info t : solo_log (info t).
Proof. apply (solo_log_nivel (fun n => _ || _)). Qed.

Lemma solo_log_debug t : solo_log (debug t).
Proof. apply (solo_log_nivel (fun n => String.eqb _ _)). Qed.

Lemma solo_log_guardar : solo_log guardar.
Proof. apply solo_log_bind; [apply solo_log_getLoger|intros _; by apply solo_log_cambiar]. Qed.

End LogerOk.
#[export] Hint Resolve solo_log_warn solo_log_info solo_log_error solo_log_debug solo_log_guardar
  solo_log_ret solo_log_leer : mensajero.
End LogerOk.
