(* ===== verification/Entidades.v ===== *)
(** * Entidades: src/Entidades/Usuario.cpp and src/Entidades/Mensaje.cpp

    The two records the server stores, how they are built, and their JSON form.  The
    theorems are the round trips: an entity read back from its serialisation is the same
    entity, whatever bytes its fields hold. *)

From S2P Require Import Prelude Libc Md5 JsonValue JsonReader JsonWriter JsonTexto JsonWriterOk StringUtil.
From S2P Require Import Mongoose Mundo Loger.
Open Scope Z_scope.

(** [Json::Value v; v[k1] = x1; v[k2] = x2; ...] *)
Fixpoint armar (v : Json.Value) (l : list (string * Json.Value)) : res Json.Value :=
  match l with
  | [] => Ok v
  | (k, x) :: l => let? v := Json.asignar k x v in armar v l
  end.

(** [v.get(key, keyDefault).asString()] *)
Definition campo (v : Json.Value) (key : string) : res string :=
  let? x := Json.get v key (Json.stringValue Constantes.keyDefault) in Json.asString x.

(** ** Usuario *)
Module Usuario.
Import Constantes Json.

Record Usuario : Type := mkUsuario {
  nombre : string;
  fotoDePerfil : string;
  id : string;
  telefono : string;
  conectado : bool;
  localizacion : string;
  ultimaConexion : string;
  token : string;
  password : string }.

Section Usuario.
Context {E : Entorno} {A : Almacen}.
Abbreviation W := (M (Mundo A)).

(** The member initialisers of the class. *)
Definition Usuario_inicial : Usuario := mkUsuario "" "default" "" "" true "desconocida" "" "" "".

(** [Usuario()] *)
Definition Usuario_vacio : Usuario :=
  mkUsuario "" "default" keyIdUsuarioNoEncontrado "" true "desconocida" "" "" "".

Definition setId (x : string) (u : Usuario) : Usuario :=
  mkUsuario (nombre u) (fotoDePerfil u) x (telefono u) (conectado u) (localizacion u) (ultimaConexion u) (token u) (password u).
Definition setNombre (x : string) (u : Usuario) : Usuario :=
  mkUsuario x (fotoDePerfil u) (id u) (telefono u) (conectado u) (localizacion u) (ultimaConexion u) (token u) (password u).
Definition setTelefono (x : string) (u : Usuario) : Usuario :=
  mkUsuario (nombre u) (fotoDePerfil u) (id u) x (conectado u) (localizacion u) (ultimaConexion u) (token u) (password u).
Definition setEstadoConexion (x : bool) (u : Usuario) : Usuario :=
  mkUsuario (nombre u) (fotoDePerfil u) (id u) (telefono u) x (localizacion u) (ultimaConexion u) (token u) (password u).
Definition setUltimaConexion (x : string) (u : Usuario) : Usuario :=
  mkUsuario (nombre u) (fotoDePerfil u) (id u) (telefono u) (conectado u) (localizacion u) x (token u) (password u).
Definition setFotoDePerfil (x : string) (u : Usuario) : Usuario :=
  mkUsuario (nombre u) x (id u) (telefono u) (conectado u) (localizacion u) (ultimaConexion u) (token u) (password u).
Definition setLocalizacion (x : string) (u : Usuario) : Usuario :=
  mkUsuario (nombre u) (fotoDePerfil u) (id u) (telefono u) (conectado u) x (ultimaConexion u) (token u) (password u).
Definition setPassword (x : string) (u : Usuario) : Usuario :=
  mkUsuario (nombre u) (fotoDePerfil u) (id u) (telefono u) (conectado u) (localizacion u) (ultimaConexion u) (token u) x.
(** [this->token = x] *)
Definition set_token (x : string) (u : Usuario) : Usuario :=
  mkUsuario (nombre u) (fotoDePerfil u) (id u) (telefono u) (conectado u) (localizacion u) (ultimaConexion u) x (password u).

Definition registrarUltimaConexion (u : Usuario) : W Usuario :=
  let* tiempo := time_ in ret (setUltimaConexion (c_str (ctime tiempo)) u).

(** [Usuario(nombre, fotoDePerfil, telefono, password)] *)
Definition Usuario_con_foto (nombre fotoDePerfil telefono password : string) : W Usuario :=
  let u := setId (Md5.md5 telefono) (setTelefono telefono (setFotoDePerfil fotoDePerfil
             (setNombre nombre Usuario_inicial))) in
  let* u := registrarUltimaConexion u in
  ret (setPassword password (set_token "" u)).

(** [Usuario(nombre, telefono, password)] *)
Definition Usuario_nuevo (nombre telefono password : string) : W Usuario :=
  let u := setId (Md5.md5 telefono) (setTelefono telefono (setFotoDePerfil fotoDePerfilDefault
             (setNombre nombre Usuario_inicial))) in
  let* u := registrarUltimaConexion u in
  ret (setPassword password (set_token "" u)).

Definition obtenerId (telefono : string) : string := Md5.md5 telefono.

(** [calcularTokenDeSesion()]: the new token, and the user that holds it. *)
Definition calcularTokenDeSesion (u : Usuario) : string * Usuario :=
  let t := Md5.md5 (telefono u +:+ ultimaConexion u) in (t, set_token t u).

Definition serializar (u : Usuario) : res string :=
  let? user := armar nullValue
    [(keyId, stringValue (id u));
     (keyNombre, stringValue (nombre u));
     (keyTelefono, stringValue (telefono u));
     (keyEstadoDeConexion, booleanValue (conectado u));
     (keyUltimaConexion, stringValue (ultimaConexion u));
     (keyFotoDePerfil, stringValue (fotoDePerfil u));
     (keyLocalizacion, stringValue (localizacion u));
     (keyTokenSesion, stringValue (token u));
     (keyPassword, stringValue (password u))] in
  JsonWriter.toStyledString user.

(** The body of [if (parseoExitoso)] in [deserealizar]. *)
Definition leer_campos (user : Value) (u : Usuario) : res Usuario :=
  let? x := campo user keyId in let u := setId x u in
  let? x := campo user keyNombre in let u := setNombre x u in
  let? x := campo user keyTelefono in let u := setTelefono x u in
  let? estado := campo user keyEstadoDeConexion in
  let u := setEstadoConexion (StringUtil.toBoolean estado) u in
  let? x := campo user keyUltimaConexion in let u := setUltimaConexion x u in
  let? x := campo user keyFotoDePerfil in let u := setFotoDePerfil x u in
  let? x := campo user keyLocalizacion in let u := setLocalizacion x u in
  let? x := campo user keyTokenSesion in let u := set_token x u in
  let? x := campo user keyPassword in Ok (setPassword x u).

Definition deserealizar (u : Usuario) (aDeserealizar : string) : W (bool * Usuario) :=
  let* '(parseoExitoso, user) := alzar (JsonReader.parse aDeserealizar) in
  let* u := (if parseoExitoso : bool then alzar (leer_campos user u)
             else Loger.error "no se pudieron deserializar los datos correctamente";;; ret u) in
  Loger.guardar;;;
  ret (parseoExitoso, u).

(** [Usuario(usuarioSerializado)] *)
Definition Usuario_de (usuarioSerializado : string) : W Usuario :=
  let* '(_, u) := deserealizar Usuario_inicial usuarioSerializado in ret u.

End Usuario.
End Usuario.

(** ** Mensaje *)
Module Mensaje.
Import Constantes Json.

Record Mensaje : Type := mkMensaje {
  cuerpo : string;
  idUsuarioEmisor : string;
  fecha : string;
  id : string }.

Section Mensaje.
Context {E : Entorno} {A : Almacen}.
Abbreviation W := (M (Mundo A)).

Definition Mensaje_vacio : Mensaje := mkMensaje "" "" "" "".

(** [Mensaje(cuerpo, idUsuarioEmisor, fecha)] *)
Definition Mensaje_nuevo (cuerpo idUsuarioEmisor fecha : string) : Mensaje :=
  mkMensaje cuerpo idUsuarioEmisor fecha (Md5.md5 (idUsuarioEmisor +:+ fecha)).

Definition setId (x : string) (m : Mensaje) : Mensaje := mkMensaje (cuerpo m) (idUsuarioEmisor m) (fecha m) x.
Definition setCuerpo (x : string) (m : Mensaje) : Mensaje := mkMensaje x (idUsuarioEmisor m) (fecha m) (id m).
Definition setIdUsuarioEmisor (x : string) (m : Mensaje) : Mensaje := mkMensaje (cuerpo m) x (fecha m) (id m).
Definition setFecha (x : string) (m : Mensaje) : Mensaje := mkMensaje (cuerpo m) (idUsuarioEmisor m) x (id m).

Definition serializar (m : Mensaje) : res string :=
  let? mensaje := armar nullValue
    [(keyId, stringValue (id m));
     (keyCuerpo, stringValue (cuerpo m));
     (keyIdUsuarioEmisor, stringValue (idUsuarioEmisor m));
     (keyFecha, stringValue (fecha m))] in
  JsonWriter.toStyledString mensaje.

Definition leer_campos (mensaje : Value) (m : Mensaje) : res Mensaje :=
  let? x := campo mensaje keyId in let m := setId x m in
  let? x := campo mensaje keyCuerpo in let m := setCuerpo x m in
  let? x := campo mensaje keyIdUsuarioEmisor in let m := setIdUsuarioEmisor x m in
  let? x := campo mensaje keyFecha in Ok (setFecha x m).

Definition deserealizar (m : Mensaje) (aDeserealizar : string) : W (bool * Mensaje) :=
  let* '(parseoExitoso, mensaje) := alzar (JsonReader.parse aDeserealizar) in
  let* m := (if parseoExitoso : bool then alzar (leer_campos mensaje m)
             else Loger.warn "no se pudieron deserializar los datos correctamente del mensaje";;; ret m) in
  Loger.guardar;;;
  ret (parseoExitoso, m).

(** [Mensaje(aDeserealizar)] *)
Definition Mensaje_de (aDeserealizar : string) : W Mensaje :=
  let* '(_, m) := deserealizar Mensaje_vacio aDeserealizar in ret m.

End Mensaje.
End Mensaje.

(** ** Round trips *)
Module EntidadesOk.
Import Constantes Json LogerOk.

Section EntidadesOk.
Context {E : Entorno} {A : Almacen}.

(** The objects the entities build, sorted by key. *)
Definition json_usuario (u : Usuario.Usuario) : Value :=
  objectValue
    [(CZStr keyEstadoDeConexion, booleanValue (Usuario.conectado u));
     (CZStr keyFotoDePerfil, stringValue (Usuario.fotoDePerfil u));
     (CZStr keyId, stringValue (Usuario.id u));
     (CZStr keyLocalizacion, stringValue (Usuario.localizacion u));
     (CZStr keyNombre, stringValue (Usuario.nombre u));
     (CZStr keyPassword, stringValue (Usuario.password u));
     (CZStr keyTelefono, stringValue (Usuario.telefono u));
     (CZStr keyTokenSesion, stringValue (Usuario.token u));
     (CZStr keyUltimaConexion, stringValue (Usuario.ultimaConexion u))].

Definition json_mensaje (m : Mensaje.Mensaje) : Value :=
  objectValue
    [(CZStr keyCuerpo, stringValue (Mensaje.cuerpo m));
     (CZStr keyFecha, stringValue (Mensaje.fecha m));
     (CZStr keyId, stringValue (Mensaje.id m));
     (CZStr keyIdUsuarioEmisor, stringValue (Mensaje.idUsuarioEmisor m))].

Lemma serializar_usuario u : Usuario.serializar u = JsonWriter.toStyledString (json_usuario u).
Proof. reflexivity. Qed.

Lemma serializar_mensaje m : Mensaje.serializar m = JsonWriter.toStyledString (json_mensaje m).
Proof. reflexivity. Qed.

Lemma leer_usuario u u0 : Usuario.leer_campos (json_usuario u) u0 = Ok u.
Proof. destruct u as [? ? ? ? [] ? ? ? ?]; reflexivity. Qed.

Lemma leer_mensaje m m0 : Mensaje.leer_campos (json_mensaje m) m0 = Ok m.
Proof. by destruct m. Qed.

Lemma flat_roundtrip v : JsonTexto.canonico v = true -> (JsonWriter.altura v < 1000)%nat ->
  exists s, JsonWriter.toStyledString v = Ok s /\ JsonReader.parse s = Ok (true, v).
Proof. apply JsonWriterOk.parse_toStyledString. Qed.

Lemma usuario_ida_y_vuelta u : exists s, Usuario.serializar u = Ok s /\
  forall u0 w, exists w', Usuario.deserealizar u0 s w = (Ok (true, u), w') /\ igual_salvo_log w w'.
Proof.
  destruct (flat_roundtrip (json_usuario u)) as (s & Hs & Hp); [reflexivity|cbn; lia|].
  exists s. rewrite serializar_usuario. split; [done|]. intros u0 w.
  unfold Usuario.deserealizar. rewrite Hp. erewrite bind_ok by reflexivity. cbv beta iota.
  rewrite leer_usuario. erewrite bind_ok by reflexivity. cbv beta.
  destruct (solo_log_guardar w) as ([] & w' & E' & H'). exists w'. split; [|done].
  by erewrite bind_ok by exact E'.
Qed.

Lemma mensaje_ida_y_vuelta m : exists s, Mensaje.serializar m = Ok s /\
  forall m0 w, exists w', Mensaje.deserealizar m0 s w = (Ok (true, m), w') /\ igual_salvo_log w w'.
Proof.
  destruct (flat_roundtrip (json_mensaje m)) as (s & Hs & Hp); [reflexivity|cbn; lia|].
  exists s. rewrite serializar_mensaje. split; [done|]. intros m0 w.
  unfold Mensaje.deserealizar. rewrite Hp. erewrite bind_ok by reflexivity. cbv beta iota.
  rewrite leer_mensaje. erewrite bind_ok by reflexivity. cbv beta.
  destruct (solo_log_guardar w) as ([] & w' & E' & H'). exists w'. split; [|done].
  by erewrite bind_ok by exact E'.
Qed.

End EntidadesOk.
End EntidadesOk.
