(* ===== verification/BaseDeDatos.v ===== *)
(** * BaseDeDatos: src/BaseDeDatos/BaseDeDatos.cpp and src/Entidades/Conversacion.cpp

    The database wrapper and the conversations, which depend on each other: a conversation
    stores the ids of its users and reads them back from the database. *)

From S2P Require Import Prelude Libc Md5 JsonValue JsonReader JsonWriter StringUtil Mongoose Mundo Loger.
From S2P Require Import Entidades.
Open Scope Z_scope.

Module BaseDeDatos.
Import Constantes.

Section BaseDeDatos.
Context {E : Entorno} {A : Almacen}.
Abbreviation W := (M (Mundo A)).

Definition claveBaseUsuario := "usuario_".
Definition claveBaseConversacion := "conversacion_".
Definition claveBaseConversacionesPorUsuario := "conversaciones_por_usuario_".

Definition setPath (path : string) : W unit :=
  cambiar (fun w => mkMundo A (base w) (instancia w) path (logInstancia w) (lecturas w) (lugares w)
                            (salida w) (consola w)).

(** [getInstance()], with the constructor it runs the first time. *)
Definition getInstance : W unit :=
  let* i := leer instancia in
  match i with
  | Some _ => ret tt
  | None =>
      let* path := leer pathBaseDeDatos in
      let* d := leer base in
      let estado := Open path d in
      (if decide (estado = sOk) then ret tt
       else
         Loger.error ("No se pudo abrir la Base De Datos con path: " +:+ path);;;
         Loger.guardar;;;
         cambiar (fun w => con_consola (consola w +:+ "No se pudo abrir la Base de Datos." +:+ Libc.LF) w));;;
      cambiar (con_instancia (Some (bool_decide (estado = sOk))))
  end.

(** [db->]: undefined when the database could not be opened. *)
Definition db {B} (f : DB -> W B) : W B :=
  let* i := leer instancia in
  match i with
  | Some true => let* d := leer base in f d
  | _ => falla (Indefinido "the database is not open")
  end.

(** [destruirBaseDeDatos()], which [getInstance] registers with [atexit]: the database is
    closed and [pBaseDeDatos] keeps pointing to the deleted object. *)
Definition destruirBaseDeDatos : W unit :=
  let* i := leer instancia in
  match i with
  | Some _ => cambiar (con_instancia (Some false))
  | None => ret tt
  end.

Definition setDato (clave valor : string) : W unit :=
  db (fun d =>
    let '(estado, d') := Put clave valor d in
    cambiar (con_base d');;;
    if decide (estado = sOk) then ret tt
    else
      Loger.warn ("No se pudo guardar el objeto con clave: " +:+ clave);;;
      Loger.guardar).

Definition getDato (clave : string) : W string :=
  db (fun d =>
    let '(estado, valor) := Get clave d in
    ret (if decide (estado = sNotFound) then keyDatoNoEncontrado else valor)).

Definition eliminar (clave : string) : W unit :=
  db (fun d =>
    let '(estado, d') := Delete clave d in
    cambiar (con_base d');;;
    if decide (estado = sOk) then ret tt
    else
      Loger.warn (" No se pudo eliminar el objeto con clave: " +:+ clave);;;
      Loger.guardar).

Definition setUsuario (u : Usuario.Usuario) : W unit :=
  let* s := alzar (Usuario.serializar u) in setDato (claveBaseUsuario +:+ Usuario.id u) s.

Definition getUsuario (clave : string) : W Usuario.Usuario :=
  let* valor := getDato (claveBaseUsuario +:+ clave) in
  if String.eqb valor keyDatoNoEncontrado then
    Loger.warn ("El usuario con clave: " +:+ clave +:+ " no se encuentra en la base de datos.");;;
    Loger.guardar;;;
    ret Usuario.Usuario_vacio
  else Usuario.Usuario_de valor.

Definition eliminarUsuario (clave : string) : W unit := eliminar (claveBaseUsuario +:+ clave).
Definition eliminarConversacion (clave : string) : W unit := eliminar (claveBaseConversacion +:+ clave).

Definition getIdsConversacionPorIdUsuario (claveUsuario : string) : W (list string) :=
  let* valor := getDato (claveBaseConversacionesPorUsuario +:+ claveUsuario) in
  ret (StringUtil.split valor SeparadorListaBD).

End BaseDeDatos.
End BaseDeDatos.

(** The operations of [Usuario] that reach the database. *)
Module UsuarioBD.
Section UsuarioBD.
Context {E : Entorno} {A : Almacen}.
Abbreviation W := (M (Mundo A)).

Definition persistir (u : Usuario.Usuario) : W unit :=
  BaseDeDatos.getInstance;;; BaseDeDatos.setUsuario u.
Definition obtener (clave : string) : W Usuario.Usuario :=
  BaseDeDatos.getInstance;;; BaseDeDatos.getUsuario clave.
Definition obtenerPorTelefono (clave : string) : W Usuario.Usuario :=
  BaseDeDatos.getInstance;;; BaseDeDatos.getUsuario (Usuario.obtenerId clave).
Definition eliminar (clave : string) : W unit :=
  BaseDeDatos.getInstance;;; BaseDeDatos.eliminarUsuario clave.
Definition obtnerIdsConversaciones (u : Usuario.Usuario) : W (list string) :=
  BaseDeDatos.getInstance;;; BaseDeDatos.getIdsConversacionPorIdUsuario (Usuario.id u).

End UsuarioBD.
End UsuarioBD.

(** ** Conversacion *)
Module Conversacion.
Import Constantes Json.

Record Conversacion : Type := mkConversacion {
  id : string;
  mensajes : list Mensaje.Mensaje;
  usuarios : list Usuario.Usuario }.

(** [if (s != "") s += sep; s += x.getId()] over the users. *)
Definition getId (c : Conversacion) : string :=
  if negb (String.eqb (id c) "") then id c
  else StringUtil.acumular "-" "" (Usuario.id <$> usuarios c).

(** [Conversacion(usuarios, mensajes)] *)
Definition Conversacion_nueva (usuarios : list Usuario.Usuario) (mensajes : list Mensaje.Mensaje)
  : Conversacion :=
  let c := mkConversacion "" mensajes usuarios in mkConversacion (getId c) mensajes usuarios.

(** [Conversacion()] *)
Definition Conversacion_vacia : Conversacion := mkConversacion keyIdConversacionNoEncontrada [] [].

Definition agregarMensaje (m : Mensaje.Mensaje) (c : Conversacion) : Conversacion :=
  mkConversacion (id c) (mensajes c ++ [m]) (usuarios c).

Fixpoint serializar_todos (l : list Mensaje.Mensaje) : res (list string) :=
  match l with
  | [] => Ok []
  | m :: l => let? s := Mensaje.serializar m in let? r := serializar_todos l in Ok (s :: r)
  end.

Definition serializar (c : Conversacion) : res string :=
  let idsUsuarios := StringUtil.acumular SeparadorListaBD "" (Usuario.id <$> usuarios c) in
  let? ms := serializar_todos (mensajes c) in
  let mensajes := StringUtil.acumular SeparadorListaBD "" ms in
  let? conversacion := armar nullValue
    [(keyIdConversacion, stringValue (getId c));
     (keyIdsUsuarios, stringValue idsUsuarios);
     (keyMensajes, stringValue mensajes)] in
  JsonWriter.toStyledString conversacion.

Section Conversacion.
Context {E : Entorno} {A : Almacen}.
Abbreviation W := (M (Mundo A)).

(** [for (x : l) v.push_back(f(x));] *)
Fixpoint mapear {X Y} (f : X -> W Y) (l : list X) : W (list Y) :=
  match l with
  | [] => ret []
  | x :: l => let* y := f x in let* r := mapear f l in ret (y :: r)
  end.

Definition deserealizar (c : Conversacion) (aDeserealizar : string) : W (bool * Conversacion) :=
  let* '(parseoExitoso, conversacion) := alzar (JsonReader.parse aDeserealizar) in
  if parseoExitoso : bool then
    let* i := alzar (campo conversacion keyIdConversacion) in
    let* idsUsuarios := alzar (campo conversacion keyIdsUsuarios) in
    let* us := mapear UsuarioBD.obtener (StringUtil.split idsUsuarios SeparadorListaBD) in
    let* mensajesSerializados := alzar (campo conversacion keyMensajes) in
    let* ms := mapear Mensaje.Mensaje_de (StringUtil.split mensajesSerializados SeparadorListaBD) in
    ret (true, mkConversacion i ms us)
  else ret (false, c).

(** [Conversacion(conversacionSerializada)] *)
Definition Conversacion_de (s : string) : W Conversacion :=
  let* '(_, c) := deserealizar (mkConversacion "" [] []) s in ret c.

(** [BaseDeDatos::getConversacion] *)
Definition getConversacion (clave : string) : W Conversacion :=
  let* valor := BaseDeDatos.getDato (BaseDeDatos.claveBaseConversacion +:+ clave) in
  if String.eqb valor keyDatoNoEncontrado then
    Loger.warn ("La conversación con clave: " +:+ clave +:+ " no se encuentra en la base de datos.");;;
    Loger.guardar;;;
    ret Conversacion_vacia
  else Conversacion_de valor.

(** One iteration of the index loop of [setConversacion]. *)
Definition indexar_usuario (idConversacion : string) (u : Usuario.Usuario) : W unit :=
  let clave := BaseDeDatos.claveBaseConversacionesPorUsuario +:+ Usuario.id u in
  let* valor := BaseDeDatos.getDato clave in
  let idsConversaciones := StringUtil.split valor SeparadorListaBD in
  let valor := if StringUtil.vectorContiene idsConversaciones idConversacion then valor
               else valor +:+ String SeparadorListaBD idConversacion in
  BaseDeDatos.setDato clave valor.

(** [BaseDeDatos::setConversacion] *)
Definition setConversacion (c : Conversacion) : W unit :=
  let* s := alzar (serializar c) in
  BaseDeDatos.setDato (BaseDeDatos.claveBaseConversacion +:+ getId c) s;;;
  recorrer (usuarios c) (indexar_usuario (getId c)).

Definition persistir (c : Conversacion) : W unit := BaseDeDatos.getInstance;;; setConversacion c.
Definition obtener (clave : string) : W Conversacion := BaseDeDatos.getInstance;;; getConversacion clave.
Definition obtenerIdsPorIdUsuario (claveUsuario : string) : W (list string) :=
  BaseDeDatos.getInstance;;; BaseDeDatos.getIdsConversacionPorIdUsuario claveUsuario.
Definition eliminar (clave : string) : W unit :=
  BaseDeDatos.getInstance;;; BaseDeDatos.eliminarConversacion clave.

End Conversacion.
End Conversacion.
