(* ===== verification/Localizacion.v ===== *)
(** * Localizacion: src/Utilidades/Localizacion.cpp

    The table of places is a static [Json::Value]; reading it through the non-const
    [operator[]] can insert members, so the table is part of the state that
    [calcularUbicacion] changes. *)

From S2P Require Import Prelude Libc JsonValue JsonReader Mongoose Mundo.
Open Scope Z_scope.

Module Localizacion.
Import Libc Json.

Section Localizacion.
Context {E : Entorno} {A : Almacen}.
Abbreviation W := (M (Mundo A)).

Definition distanciaMaxima : double := d_of_Z 999.

(** [v[key]] on a value of one's own: the value read. *)
Definition miembro (v : Value) (key : string) : res Value :=
  let? v' := resolveReference key Ok v in key_const v' key.

Definition calcularDistancia (coordenadasA coordenadasB : Value) : res double :=
  let? a := miembro coordenadasA "latitud" in let? a := asDouble a in
  let? b := miembro coordenadasB "latitud" in let? b := asDouble b in
  let deltaLatitud := d_sub a b in
  let? a := miembro coordenadasA "longitud" in let? a := asDouble a in
  let? b := miembro coordenadasB "longitud" in let? b := asDouble b in
  let deltaLongitud := d_sub a b in
  Ok (d_sqrt (d_add (d_cuadrado deltaLatitud) (d_cuadrado deltaLongitud))).

(** [reader.parse(istream, lugares)] reads up to the character [(char)EOF]. *)
Definition cargarLugares (pathArchivoLugares : string) : W unit :=
  match archivo_en pathArchivoLugares with
  | None => falla (StdRuntimeError ("No se pudo abrir el archivo: " +:+ pathArchivoLugares))
  | Some texto =>
      let doc := match getline (chr 255) texto with Some (doc, _) => doc | None => "" end in
      let* l := leer lugares in
      let* '(parseoExitoso, l, _) :=
        alzar (JsonReader.parse_features JsonReader.Features_all doc l) in
      cambiar (con_lugares l);;;
      if parseoExitoso : bool then ret tt
      else falla (StdRuntimeError "Error al parsear el archivo de lugares: Formato incorrecto.")
  end.

(** [lugares[i]] and [lugares[i][key]], which create what is missing. *)
Definition lugar (i : nat) : W Value :=
  let* l := leer lugares in
  let* l := alzar (at_index i Ok l) in
  cambiar (con_lugares l);;;
  alzar (index_const l i).
Definition lugar_campo (i : nat) (key : string) : W Value :=
  let* l := leer lugares in
  let* l := alzar (at_index i (resolveReference key Ok) l) in
  cambiar (con_lugares l);;;
  let* v := alzar (index_const l i) in
  alzar (key_const v key).

(** The loop of [calcularUbicacion] over the indices that are left. *)
Fixpoint buscar (coordenadas : Value) (indices : list nat) (ubicacion : string) (distancia : double)
  : W string :=
  match indices with
  | [] => ret ubicacion
  | i :: l =>
      let* v := lugar i in
      let* distanciaActual := alzar (calcularDistancia v coordenadas) in
      let* r := lugar_campo i "radio" in
      let* radio := alzar (asDouble r) in
      if d_leb distanciaActual distancia && d_leb distanciaActual radio then
        let* n := lugar_campo i "nombre" in
        let* ubicacion := alzar (asString n) in
        buscar coordenadas l ubicacion distanciaActual
      else buscar coordenadas l ubicacion distancia
  end.

Definition calcularUbicacion (coordenadas : Value) : W string :=
  let* l := leer lugares in
  buscar coordenadas (seq 0 (size l)) "desconocida" distanciaMaxima.

End Localizacion.
End Localizacion.
