(* ===== verification/LocalizacionOk.v ===== *)
(** * LocalizacionOk: the nearest place

    On a table of well-formed places the search of Localizacion.cpp changes nothing and
    answers the nearest place among those whose radius reaches the point. *)

From S2P Require Import Prelude Libc JsonValue JsonTexto Mongoose Mundo Localizacion.
From Stdlib Require Import SpecFloat.
Open Scope Z_scope.

Module LocalizacionOk.
Import Libc Json JsonLeyes JsonTexto Localizacion.

(** ** Order of doubles *)

Lemma d_leb_trans x y z : d_leb x y = true -> d_leb y z = true -> d_leb x z = true.
Proof.
  unfold d_leb, SFleb. destruct x as [?|[]| |[] mx ex], y as [?|[]| |[] my ey], z as [?|[]| |[] mz ez]; cbn; try done.
  all: destruct (Z.compare_spec ex ey), (Z.compare_spec ey ez), (Z.compare_spec ex ez); subst; try lia; try done.
  all: fold (Pos.compare mx my) (Pos.compare my mz) (Pos.compare mx mz);
    destruct (Pos.compare_spec mx my), (Pos.compare_spec my mz), (Pos.compare_spec mx mz); cbn; subst; try lia; try done.
Qed.

Lemma d_leb_total x y a b : d_leb x a = true -> d_leb y b = true -> d_leb x y = false -> d_leb y x = true.
Proof.
  intros Ha Hb. assert (x <> S754_nan /\ y <> S754_nan) as [Hx Hy] by (by split; intros ->).
  clear Ha Hb a b. unfold d_leb, SFleb.
  destruct x as [?|[]| |[] mx ex], y as [?|[]| |[] my ey]; cbn; try done.
  all: destruct (Z.compare_spec ex ey), (Z.compare_spec ey ex); subst; try lia; try done.
  all: fold (Pos.compare mx my) (Pos.compare my mx);
    destruct (Pos.compare_spec mx my), (Pos.compare_spec my mx); cbn; subst; try lia; try done.
Qed.

(** ** Reading what is there changes nothing *)

Lemma map_update_igual k f m v : map_find k m = Some v -> f v = Ok v -> map_update k f m = Ok m.
Proof.
  intros Hk Hf. induction m as [|[k' v'] m IH]; [done|]. cbn [map_find map_update] in *.
  destruct (CZString_lt k' k); [by rewrite IH|]. destruct (CZString_eq k' k); [|done].
  injection Hk as ->. by rewrite Hf.
Qed.

Record Lugar : Type := mkLugar { latitud : double; longitud : double; radio : double; nombre : string }.

(** A member of a JSON object. *)
Definition tiene (m : ObjectValues) (key : string) (v : Value) : Prop := map_find (CZStr key) m = Some v.

(** The value describes the place. *)
Definition es_lugar (v : Value) (l : Lugar) : Prop :=
  exists m la lo ra no, v = objectValue m /\
    tiene m "latitud" la /\ asDouble la = Ok (latitud l) /\
    tiene m "longitud" lo /\ asDouble lo = Ok (longitud l) /\
    tiene m "radio" ra /\ asDouble ra = Ok (radio l) /\
    tiene m "nombre" no /\ asString no = Ok (nombre l).

Definition tabla (v : Value) (ls : list Lugar) : Prop :=
  exists vs, v = arrayValue (indexar 0 vs) /\ Forall2 es_lugar vs ls.

Definition coordenadas (la lo : double) : Value :=
  objectValue [(CZStr "latitud", realValue la); (CZStr "longitud", realValue lo)].

Definition distancia (la lo : double) (l : Lugar) : double :=
  d_sqrt (d_add (d_cuadrado (d_sub (latitud l) la)) (d_cuadrado (d_sub (longitud l) lo))).

Lemma resolver_tiene m key v : tiene m key v -> resolveReference key Ok (objectValue m) = Ok (objectValue m).
Proof. intros H. unfold resolveReference. by rewrite (map_update_igual _ _ _ v). Qed.

Lemma miembro_tiene m key v : tiene m key v -> miembro (objectValue m) key = Ok v.
Proof.
  intros H. unfold miembro. rewrite (resolver_tiene m key v) by done. unfold key_const, find. cbn [bindR].
  by rewrite H.
Qed.

Lemma distancia_ok v l la lo : es_lugar v l ->
  calcularDistancia v (coordenadas la lo) = Ok (distancia la lo l).
Proof.
  intros (m & vla & vlo & ra & no & -> & H1 & E1 & H2 & E2 & _). unfold calcularDistancia.
  rewrite (miembro_tiene m "latitud" vla), (miembro_tiene m "longitud" vlo) by done. cbn [bindR].
  by rewrite E1, E2.
Qed.

(** ** The search *)

Section Busqueda.
Context {E : Entorno} {A : Almacen}.

(** [lugares[i]] and its members, on a table with that place. *)
Lemma lugar_tabla (w : Mundo A) vs i v : lugares w = arrayValue (indexar 0 vs) -> vs !! i = Some v ->
  lugar i w = (Ok v, w) /\
  (forall key x, resolveReference key Ok v = Ok v -> key_const v key = Ok x -> lugar_campo i key w = (Ok x, w)).
Proof.
  intros Hw Hi. assert (map_find (CZIndex i) (indexar 0 vs) = Some v) as Hf.
  { rewrite find_indexar. cbn. by rewrite Nat.sub_0_r. }
  assert (con_lugares (arrayValue (indexar 0 vs)) w = w) as Hc by (rewrite <- Hw; by destruct w).
  assert (index_const (arrayValue (indexar 0 vs)) i = Ok v) as Hx.
  { unfold index_const, index_ref. by rewrite Hf. }
  split.
  - unfold lugar, bindM, leer, alzar, cambiar. rewrite Hw. unfold at_index.
    rewrite (map_update_igual _ _ _ v) by done. cbn [bindR]. by rewrite Hc, Hx.
  - intros key x Hr Hk. unfold lugar_campo, bindM, leer, alzar, cambiar. rewrite Hw. unfold at_index.
    rewrite (map_update_igual _ _ _ v) by done. cbn [bindR]. by rewrite Hc, Hx, Hk.
Qed.

(** The loop over places instead of indices. *)
Fixpoint mas_cercano (la lo : double) (ls : list Lugar) (ubicacion : string) (d : double) : string :=
  match ls with
  | [] => ubicacion
  | l :: ls =>
      let actual := distancia la lo l in
      if d_leb actual d && d_leb actual (radio l) then mas_cercano la lo ls (nombre l) actual
      else mas_cercano la lo ls ubicacion d
  end.

Lemma buscar_ok (w : Mundo A) vs la lo pre post ls ubicacion d :
  lugares w = arrayValue (indexar 0 vs) -> vs = pre ++ post -> Forall2 es_lugar post ls ->
  buscar (coordenadas la lo) (seq (length pre) (length post)) ubicacion d w =
  (Ok (mas_cercano la lo ls ubicacion d), w).
Proof.
  intros Hw Hvs Hp. revert pre ubicacion d Hvs. induction Hp as [|v l post ls Hl Hp IH]; intros pre ubi d Hvs; [done|].
  cbn [length seq buscar mas_cercano].
  destruct (lugar_tabla w vs (length pre) v Hw) as [H1 H2].
  { rewrite Hvs. by apply list_lookup_middle. }
  erewrite bind_ok by exact H1. cbv beta. rewrite (distancia_ok v l) by done. erewrite bind_ok by reflexivity. cbv beta.
  destruct Hl as (m & vla & vlo & ra & no & -> & _ & _ & _ & _ & Hra & Era & Hno & Eno).
  erewrite bind_ok by (apply H2; [by apply (resolver_tiene m "radio" ra)|unfold key_const, find; by rewrite Hra]). cbv beta.
  cbn [default id]. rewrite Era. erewrite bind_ok by reflexivity. cbv beta.
  assert (forall ubi d, buscar (coordenadas la lo) (seq (S (length pre)) (length post)) ubi d w =
    (Ok (mas_cercano la lo ls ubi d), w)) as IH'.
  { intros ubi' d'. specialize (IH (pre ++ [objectValue m]) ubi' d'). rewrite length_app, Nat.add_1_r in IH.
    apply IH. by rewrite <- app_assoc. }
  destruct (d_leb _ d && d_leb _ (radio l)); [|by apply IH'].
  erewrite bind_ok by (apply H2; [by apply (resolver_tiene m "nombre" no)|unfold key_const, find; by rewrite Hno]). cbv beta.
  cbn [default id]. rewrite Eno. erewrite bind_ok by reflexivity. apply IH'.
Qed.

Lemma calcularUbicacion_ok (w : Mundo A) la lo ls : tabla (lugares w) ls ->
  calcularUbicacion (coordenadas la lo) w = (Ok (mas_cercano la lo ls "desconocida" distanciaMaxima), w).
Proof.
  intros (vs & Hw & Hvs). unfold calcularUbicacion. erewrite bind_ok by reflexivity. rewrite Hw, size_indexar.
  by apply (buscar_ok w vs la lo [] vs).
Qed.

End Busqueda.

(** ** The answer is the nearest *)

Definition alcanza_lugar (la lo : double) (l : Lugar) : bool :=
  d_leb (distancia la lo l) distanciaMaxima && d_leb (distancia la lo l) (radio l).

(** [r] is the answer for the places [ls]: no place reaches the point, or [r] is the name
    of one that does and is at least as near as every other that does. *)
Definition respuesta_cercana (la lo : double) (ls : list Lugar) (r : string) : Prop :=
  (r = "desconocida" /\ Forall (fun l => alcanza_lugar la lo l = false) ls) \/
  (exists l, In l ls /\ r = nombre l /\ alcanza_lugar la lo l = true /\
     Forall (fun l' => alcanza_lugar la lo l' = true ->
                       d_leb (distancia la lo l) (distancia la lo l') = true) ls).

(** The state of the loop after the places [ls]. *)
Definition estado_bucle (la lo : double) (ls : list Lugar) (ubi : string) (d : double) : Prop :=
  (ubi = "desconocida" /\ d = distanciaMaxima /\ Forall (fun l => alcanza_lugar la lo l = false) ls) \/
  (exists l, In l ls /\ ubi = nombre l /\ d = distancia la lo l /\ alcanza_lugar la lo l = true /\
     Forall (fun l' => alcanza_lugar la lo l' = true -> d_leb d (distancia la lo l') = true) ls).

(** A place that is not chosen. *)
Lemma estado_descarte la lo pre l ubi d : estado_bucle la lo pre ubi d ->
  (d = distanciaMaxima -> alcanza_lugar la lo l = false) ->
  (alcanza_lugar la lo l = true -> d_leb d (distancia la lo l) = true) ->
  estado_bucle la lo (pre ++ [l]) ubi d.
Proof.
  intros [(H1 & H2 & H)|(l0 & Hin & H1 & H2 & H3 & H)] Hf Ht; [left|right; exists l0]; split_and!; try done.
  - apply Forall_app. split; [done|]. constructor; [auto|constructor].
  - apply in_app_iff. by left.
  - apply Forall_app. split; [done|]. constructor; [done|constructor].
Qed.

Lemma estado_maximo la lo pre ubi d : estado_bucle la lo pre ubi d -> d_leb d distanciaMaxima = true.
Proof.
  intros [(_ & -> & _)|(l0 & _ & _ & -> & H & _)]; [vm_compute; reflexivity|]. by apply andb_prop in H as [].
Qed.

Lemma d_leb_refl x y : d_leb x y = true -> d_leb x x = true.
Proof.
  unfold d_leb, SFleb. destruct x as [?|[]| |[] m e]; cbn; try done.
  all: rewrite Z.compare_refl; fold (Pos.compare m m); by rewrite Pos.compare_refl.
Qed.

Lemma estado_paso la lo pre l ubi d : estado_bucle la lo pre ubi d ->
  if d_leb (distancia la lo l) d && d_leb (distancia la lo l) (radio l)
  then estado_bucle la lo (pre ++ [l]) (nombre l) (distancia la lo l)
  else estado_bucle la lo (pre ++ [l]) ubi d.
Proof.
  intros Hst. pose proof (estado_maximo _ _ _ _ _ Hst) as Hd. set (a := distancia la lo l).
  assert (alcanza_lugar la lo l = d_leb a distanciaMaxima && d_leb a (radio l)) as Hl by done.
  destruct (d_leb a (radio l)) eqn:E2; rewrite ?andb_true_r, ?andb_false_r in *;
    [|apply estado_descarte; [done|done|congruence]].
  destruct (d_leb a d) eqn:E1.
  - assert (d_leb a distanciaMaxima = true) as Hm by (by eapply d_leb_trans).
    right. exists l. split_and!; [apply in_app_iff; right; by left|done|done|by rewrite Hl|]. apply Forall_app. split.
    + destruct Hst as [(_ & _ & H)|(l0 & _ & _ & _ & _ & H)]; (eapply Forall_impl; [exact H|]); cbn; [congruence|].
      intros l' Hl' Hr. eapply d_leb_trans; [exact E1|auto].
    + constructor; [|constructor]. intros _. by eapply d_leb_refl.
  - apply estado_descarte; [done| |].
    + intros ->. by rewrite Hl.
    + rewrite Hl. intros Hx. by eapply d_leb_total.
Qed.

Lemma mas_cercano_ok la lo pre ls ubi d : estado_bucle la lo pre ubi d ->
  respuesta_cercana la lo (pre ++ ls) (mas_cercano la lo ls ubi d).
Proof.
  revert pre ubi d. induction ls as [|l ls IH]; intros pre ubi d Hst; cbn [mas_cercano].
  - rewrite app_nil_r. destruct Hst as [(H1 & H2 & H3)|(l & H1 & H2 & H3 & H4 & H5)]; [left|right; exists l]; try done.
    split_and!; try done. by rewrite H3 in H5.
  - replace (pre ++ l :: ls) with ((pre ++ [l]) ++ ls) by (by rewrite <- app_assoc).
    pose proof (estado_paso la lo pre l ubi d Hst) as Hp.
    destruct (d_leb _ d && d_leb _ (radio l)); by apply IH.
Qed.

End LocalizacionOk.
