(* ===== verification/Servicio.v ===== *)
(** * Servicio: src/Servidor/Servicio.cpp

    One definition per service, on the request being served.  The reply is appended to
    [salida], the log to the log file. *)

From S2P Require Import Prelude Libc JsonValue JsonReader JsonWriter StringUtil Mongoose Mundo Loger.
From S2P Require Import Entidades BaseDeDatos Localizacion.
Open Scope Z_scope.

Module Servicio.
Import Constantes Json.

Section Servicio.
Context {E : Entorno} {A : Almacen}.
Abbreviation W := (M (Mundo A)).
Variable connexion : Mongoose.mg_connection.

Definition tamanioBuffer : Z := 1024 * 1024 * 2.

(** ** Parameters *)

(** The new value of the member [parametros], from the old one. *)
Definition parsearParametros (parametros : Value) : res Value :=
  let '(_, buffer) := Mongoose.mg_get_var connexion "params" tamanioBuffer in
  let? '(parseoExitoso, valorParams) := JsonReader.parse (c_str buffer) in
  Ok (if parseoExitoso : bool then valorParams else parametros).

Definition getParametro (nombreParametro valorDefault : string) : string :=
  let '(resultado, buffer) := Mongoose.mg_get_var connexion (c_str nombreParametro) tamanioBuffer in
  if resultado <? 1 then valorDefault else c_str buffer.

Definition getParametroArray (nombreParametro valorDefault : string) : res Value :=
  let parametro := getParametro nombreParametro valorDefault in
  let? '(_, valorParams) := JsonReader.parse parametro in Ok valorParams.

Definition getParametroIdMetodoGET (urlBase : string) : res string :=
  let? r := Libc.sscanf_s (c_str (Mongoose.uri connexion)) urlBase 255 in Ok (default "" r).

(** ** Replies *)

(** The text [responder] prints. *)
Definition texto_respuesta (mensaje : string) (success : bool) : res string :=
  let? respuesta := armar nullValue
    ([(keyPayload, stringValue mensaje); (keySuccess, stringValue "true")] ++
     (if success then [] else [(keySuccess, stringValue "false")])) in
  JsonWriter.toStyledString respuesta.

Definition mg_printf_data (fmt : string) : W unit :=
  let* s := leer salida in
  let* s := alzar (Mongoose.mg_printf_data fmt s) in
  cambiar (con_salida s).

Definition responder (mensaje : string) (success : bool) : W unit :=
  let* t := alzar (texto_respuesta mensaje success) in mg_printf_data (c_str t).

Definition prueba : W unit :=
  cambiar (fun w => con_consola (consola w +:+ "Esto es una prueba." +:+ Libc.LF) w).

(** ** Users *)

Definition obtenerUsuario : W Usuario.Usuario :=
  UsuarioBD.obtenerPorTelefono (getParametro keyTelefono keyDefault).

Definition noExiste (u : Usuario.Usuario) : bool := String.eqb (Usuario.id u) keyIdUsuarioNoEncontrado.

Definition registrarUsuario : W unit :=
  let* user := obtenerUsuario in
  if negb (noExiste user) then
    Loger.warn ("Se intento registrar un usuario ya existente. Id: " +:+ Usuario.id user);;;
    responder "El usuario ya existe" false
  else
    let nombre := getParametro keyNombre keyDefault in
    let telefono := getParametro keyTelefono keyDefault in
    let password := getParametro keyPassword keyDefault in
    let* user := Usuario.Usuario_nuevo nombre telefono password in
    UsuarioBD.persistir user;;;
    responder "Usuario registrado correctamente" true;;;
    Loger.info ("Se registro el usuario con Id: " +:+ Usuario.id user).

Definition administrarPerfil : W unit :=
  let nombreUsuario := getParametro keyNombre keyDefault in
  let estado := StringUtil.toBoolean (getParametro keyEstadoDeConexion keyDefault) in
  let fotoDePerfil := getParametro keyFotoDePerfil keyDefault in
  let localizacion := getParametro keyLocalizacion keyDefault in
  let password := getParametro keyPassword keyDefault in
  let* user := obtenerUsuario in
  let token := getParametro keyTokenSesion keyDefault in
  (if negb (noExiste user) then
     if String.eqb (Usuario.token user) token then
       let user := Usuario.setPassword password (Usuario.setLocalizacion localizacion
         (Usuario.setFotoDePerfil fotoDePerfil (Usuario.setEstadoConexion estado
           (Usuario.setNombre nombreUsuario user)))) in
       UsuarioBD.persistir user;;;
       Loger.info ("Se modificaron los datos del usuario " +:+ Usuario.nombre user +:+ " correctamente.");;;
       responder ("Se modificaron los datos del usuario " +:+ Usuario.nombre user +:+
                  " correctamente. Token:" +:+ Usuario.token user) true
     else
       Loger.warn ("El usuario " +:+ Usuario.nombre user +:+ " no posee un token de session correcto");;;
       responder ("El usuario " +:+ Usuario.nombre user +:+ " no posee un token de session correcto") false
   else
     Loger.warn ("El usuario " +:+ Usuario.nombre user +:+ " no se encuentra registrado en el sistema");;;
     responder ("El usuario " +:+ Usuario.nombre user +:+ " no se encuentra registrado en el sistema") false);;;
  Loger.guardar.

Definition consultarUsuarioOnline : W unit :=
  let* telefono := alzar (getParametroIdMetodoGET urlBaseUsuario) in
  let* user := UsuarioBD.obtenerPorTelefono telefono in
  let renovar := StringUtil.toBoolean (getParametro keyRenovarToken keyDefault) in
  (if negb (noExiste user) then
     let* user := Usuario.registrarUltimaConexion user in
     let '(tok, user) := if renovar : bool then Usuario.calcularTokenDeSesion user
                         else (Usuario.token user, user) in
     let* respuesta := alzar (armar nullValue
       [(keyNombre, stringValue (Usuario.nombre user));
        (keyPassword, stringValue (Usuario.password user));
        (keyTokenSesion, stringValue tok);
        (keyEstadoDeConexion, stringValue (StringUtil.toString (Usuario.conectado user)));
        (keyFotoDePerfil, stringValue (Usuario.fotoDePerfil user));
        ("idUsuario", stringValue (Usuario.id user));
        (keyLocalizacion, stringValue (Usuario.localizacion user))]) in
     UsuarioBD.persistir user;;;
     let* t := alzar (JsonWriter.toStyledString respuesta) in
     responder t true;;;
     Loger.info ("Consulta del usuario " +:+ Usuario.nombre user +:+ " exitosa.")
   else
     let msj := "No se pudo obtener el estado del usuario con numero: " +:+
                getParametro keyTelefono keyDefault +:+
                " ya que no se encuentra registrado en el sistema." in
     Loger.warn msj;;;
     responder msj false);;;
  Loger.guardar.

(** [strftime(..., "%d/%m/%y, %Rhs", localtime(now))] *)
Definition fechaYhoraActual : W string :=
  let* now := time_ in ret (c_str (Libc.strftime_dmy (localtime now))).

Definition checkIn : W unit :=
  let latitud := getParametro keyLatitud keyDefault in
  let longitud := getParametro keyLongitud keyDefault in
  let* coordenadas := alzar (armar nullValue
    [("latitud", realValue (Libc.atof latitud)); ("longitud", realValue (Libc.atof longitud))]) in
  let* usuario := obtenerUsuario in
  if negb (noExiste usuario) then
    let* ubicacion := Localizacion.calcularUbicacion coordenadas in
    let* ahora := fechaYhoraActual in
    let localizacion := ubicacion +:+ " " +:+ ahora in
    let usuario := Usuario.setLocalizacion localizacion usuario in
    UsuarioBD.persistir usuario;;;
    responder localizacion true
  else responder "el usuario no existe." false.

(** ** Conversations *)

Definition noEncontrada (c : Conversacion.Conversacion) : bool :=
  String.eqb (Conversacion.getId c) keyIdConversacionNoEncontrada.

(** The part [almacenarConversacion] and [almacenarListaDifusion] share: add the message to
    the conversation of the two users, under either order of their ids, or create it. *)
Definition almacenar_mensaje (emisor receptor : Usuario.Usuario) (mensaje : Mensaje.Mensaje) : W unit :=
  let* conversacion := Conversacion.obtener (Usuario.id emisor +:+ "-" +:+ Usuario.id receptor) in
  if negb (noEncontrada conversacion) then
    Conversacion.persistir (Conversacion.agregarMensaje mensaje conversacion)
  else
    let* conversacion := Conversacion.obtener (Usuario.id receptor +:+ "-" +:+ Usuario.id emisor) in
    if negb (noEncontrada conversacion) then
      Conversacion.persistir (Conversacion.agregarMensaje mensaje conversacion)
    else Conversacion.persistir (Conversacion.Conversacion_nueva [emisor; receptor] [mensaje]).

Definition almacenarConversacion : W unit :=
  let idEmisor := getParametro keyIdUsuarioEmisor keyDefault in
  let idReceptor := getParametro keyIdUsuarioReceptor keyDefault in
  let* emisor := UsuarioBD.obtenerPorTelefono idEmisor in
  let* receptor := UsuarioBD.obtenerPorTelefono idReceptor in
  let token := getParametro keyTokenSesion keyDefault in
  if noExiste emisor || noExiste receptor then
    let msj_warning := "No se pudo almacenar la conversacion porque: " +:+
      (if noExiste emisor then "el emisor no existe." else "") +:+
      (if noExiste receptor then " el receptor no existe." else "") in
    responder msj_warning false;;;
    Loger.warn msj_warning;;;
    Loger.guardar
  else if String.eqb (Usuario.token emisor) token then
    let cuerpo := getParametro keyCuerpo keyDefault in
    let fecha := getParametro keyFecha keyDefault in
    let mensaje := Mensaje.Mensaje_nuevo cuerpo (Usuario.id emisor) fecha in
    almacenar_mensaje emisor receptor mensaje;;;
    responder (Mensaje.id mensaje) true
  else
    let msj := "El usuario " +:+ Usuario.nombre emisor +:+ " no posee un token de session correcto" in
    Loger.warn msj;;;
    responder msj false.

Definition obtenerIdConversacion : W unit :=
  let telefonoUsuarioEmisor := getParametro keyTelefonoEmisor keyDefault in
  let telefonoUsuarioReceptor := getParametro keyTelefonoReceptor keyDefault in
  let* usuarioEmisor := UsuarioBD.obtenerPorTelefono telefonoUsuarioEmisor in
  let* usuarioReceptor := UsuarioBD.obtenerPorTelefono telefonoUsuarioReceptor in
  if negb (noExiste usuarioEmisor) && negb (noExiste usuarioReceptor) then
    let* conversacion := Conversacion.obtener (Usuario.id usuarioEmisor +:+ "-" +:+ Usuario.id usuarioReceptor) in
    let* conversacion :=
      (if noEncontrada conversacion
       then Conversacion.obtener (Usuario.id usuarioReceptor +:+ "-" +:+ Usuario.id usuarioEmisor)
       else ret conversacion) in
    let idConversacion := Conversacion.getId conversacion in
    if negb (String.eqb idConversacion keyIdUsuarioNoEncontrado) then responder idConversacion true
    else
      let conversacion := Conversacion.Conversacion_nueva [usuarioEmisor; usuarioReceptor] [] in
      responder (Conversacion.getId conversacion) false
  else
    let user := if noExiste usuarioEmisor then usuarioEmisor else usuarioReceptor in
    let msj_warn := "Usuario " +:+ Usuario.nombre user +:+ " no se encuentra registrado en el sistema" in
    Loger.warn msj_warn;;;
    responder msj_warn false.

(** The loop that collects the messages after the one the client has. *)
Fixpoint posteriores (encontrado : bool) (idUltimoMensaje : string) (l : list Mensaje.Mensaje)
  : list Mensaje.Mensaje :=
  match l with
  | [] => []
  | m :: l =>
      (if encontrado then [m] else []) ++
      posteriores (encontrado || String.eqb (Mensaje.id m) idUltimoMensaje) idUltimoMensaje l
  end.

Fixpoint respuesta_mensajes (i : nat) (l : list Mensaje.Mensaje) (respuesta : Value) : res Value :=
  match l with
  | [] => Ok respuesta
  | m :: l =>
      let? s := Mensaje.serializar m in
      let? respuesta := resolveReference "mensajes" (at_index i (fun _ => Ok (stringValue s))) respuesta in
      respuesta_mensajes (S i) l respuesta
  end.

Definition obtenerConversacion : W unit :=
  let* idConversacion := alzar (getParametroIdMetodoGET urlBaseConversacion) in
  let idUltimoMensaje := getParametro keyIdUltimoMensaje keyDefault in
  let* conversacion := Conversacion.obtener idConversacion in
  if negb (noEncontrada conversacion) then
    let mensajes := Conversacion.mensajes conversacion in
    let mensajesRespuesta :=
      if negb (String.eqb idUltimoMensaje "") then posteriores false idUltimoMensaje mensajes
      else mensajes in
    let* respuesta := alzar (respuesta_mensajes 0 mensajesRespuesta nullValue) in
    let* t := alzar (JsonWriter.toStyledString respuesta) in
    responder t true
  else
    let msj_warn := "La conversacion " +:+ idConversacion +:+ " no se encuentra en el sistema" in
    Loger.warn msj_warn;;;
    responder msj_warn false.

(** The first loop of [obtenerConversaciones]: the conversations the client does not have. *)
Fixpoint conversaciones_nuevas (idsConversaciones : list string) (actuales : list string)
  : W (list Conversacion.Conversacion) :=
  match actuales with
  | [] => ret []
  | idActual :: l =>
      let* nueva :=
        (if negb (StringUtil.vectorContiene idsConversaciones idActual) then
           let* c := Conversacion.obtener idActual in
           if negb (noEncontrada c) then ret [c]
           else
             Loger.warn ("La conversacion " +:+ idActual +:+ " no se encuentra en el sistema");;;
             ret []
         else ret []) in
      let* resto := conversaciones_nuevas idsConversaciones l in
      ret (nueva ++ resto)
  end.

(** [v.at(i)] and [v[v.size() - 1]] *)
Definition vector_at {X} (l : list X) (i : nat) : res X :=
  match l !! i with Some x => Ok x | None => Fallo FueraDeRango end.
Definition ultimo_elemento {X} (l : list X) : res X :=
  match last l with Some x => Ok x | None => Fallo (Indefinido "vector index out of range") end.

(** The second loop. *)
Fixpoint respuesta_conversaciones (i : nat) (usuario : Usuario.Usuario)
  (l : list Conversacion.Conversacion) (respuesta : Value) : res Value :=
  match l with
  | [] => Ok respuesta
  | conv :: l =>
      let? ultimoMensj := ultimo_elemento (Conversacion.mensajes conv) in
      let? contacto := vector_at (Conversacion.usuarios conv) 0 in
      let? contacto := (if String.eqb (Usuario.id contacto) (Usuario.id usuario)
                        then vector_at (Conversacion.usuarios conv) 1 else Ok contacto) in
      let? respuesta := resolveReference "conversaciones" (at_index i (fun v => armar v
        [("id", stringValue (Conversacion.getId conv));
         ("ultimoMensaje", stringValue (Mensaje.cuerpo ultimoMensj));
         ("usuarioNombre", stringValue (Usuario.nombre contacto));
         ("usuarioTelefono", stringValue (Usuario.telefono contacto));
         ("usuarioFotoDePerfil", stringValue (Usuario.fotoDePerfil contacto))])) respuesta in
      respuesta_conversaciones (S i) usuario l respuesta
  end.

Definition obtenerConversaciones : W unit :=
  let* idsConversacionesValue := alzar (getParametroArray keyIdConversaciones keyDefault) in
  let* idsConversaciones := alzar (StringUtil.jsonValueToVector idsConversacionesValue) in
  let* idUsuario := alzar (getParametroIdMetodoGET urlBaseUsuarioConversaciones) in
  let* usuario := UsuarioBD.obtenerPorTelefono idUsuario in
  if negb (noExiste usuario) then
    let* actuales := UsuarioBD.obtnerIdsConversaciones usuario in
    let* nuevas := conversaciones_nuevas idsConversaciones actuales in
    let* respuesta := alzar (respuesta_conversaciones 0 usuario nuevas nullValue) in
    let* t := alzar (JsonWriter.toStyledString respuesta) in
    responder t true
  else Loger.warn ("El usuario " +:+ idUsuario +:+ " no se encuentra en el sistema").

(** The loop of [obtenerContactos]. *)
Fixpoint contactos (counter : nat) (telefonos : list string) (respuesta : Value) : W Value :=
  match telefonos with
  | [] => ret respuesta
  | telefonoActual :: l =>
      let* usuario := UsuarioBD.obtenerPorTelefono telefonoActual in
      if negb (noExiste usuario) && Usuario.conectado usuario then
        let* respuesta := alzar (resolveReference "contactos" (at_index counter (fun v => armar v
          [(keyNombre, stringValue (Usuario.nombre usuario));
           (keyTelefono, stringValue (Usuario.telefono usuario));
           (keyFotoDePerfil, stringValue (Usuario.fotoDePerfil usuario));
           (keyLocalizacion, stringValue (Usuario.localizacion usuario))])) respuesta) in
        contactos (S counter) l respuesta
      else contactos counter l respuesta
  end.

Definition obtenerContactos : W unit :=
  let* contactosTelefonoValue := alzar (getParametroArray keyContantosTelefono keyDefault) in
  let* contactosTelefono := alzar (StringUtil.jsonValueToVector contactosTelefonoValue) in
  let* respuesta := contactos 0 contactosTelefono nullValue in
  let* t := alzar (JsonWriter.toStyledString respuesta) in
  responder t true.

(** One iteration of the loop of [almacenarListaDifusion]. *)
Definition difundir (emisor : Usuario.Usuario) (mensaje : Mensaje.Mensaje) (telefonoActual : string)
  : W unit :=
  let* usuario := UsuarioBD.obtenerPorTelefono telefonoActual in
  if negb (noExiste usuario) && Usuario.conectado usuario
  then almacenar_mensaje emisor usuario mensaje else ret tt.

Definition almacenarListaDifusion : W unit :=
  let idEmisor := getParametro keyIdUsuarioEmisor keyDefault in
  let token := getParametro keyTokenSesion keyDefault in
  let* contactosTelefonoValue := alzar (getParametroArray keyContantosTelefono keyDefault) in
  let* contactosTelefono := alzar (StringUtil.jsonValueToVector contactosTelefonoValue) in
  let* emisor := UsuarioBD.obtenerPorTelefono idEmisor in
  if noExiste emisor then
    let msj_warning := "No se pudo almacenar la lista de difusion porque el emisor no existe" in
    responder msj_warning false;;;
    Loger.warn msj_warning;;;
    Loger.guardar
  else if negb (String.eqb (Usuario.token emisor) token) then
    let msj := "El usuario " +:+ Usuario.nombre emisor +:+ " no posee un token de session correcto" in
    Loger.warn msj;;;
    responder msj false
  else
    let cuerpo := getParametro keyCuerpo keyDefault in
    let fecha := getParametro keyFecha keyDefault in
    let mensaje := Mensaje.Mensaje_nuevo cuerpo (Usuario.id emisor) fecha in
    recorrer contactosTelefono (difundir emisor mensaje);;;
    responder "Lista de difusion enviada correctamente" true.

End Servicio.
End Servicio.
