(* ===== verification/Servidor.v ===== *)
(** * Servidor: src/Servidor/Servidor.cpp and main.cpp

    The dispatch of a request to a service, the event handler, and the process as a
    transition system: it starts, then runs the event loop of the web server (each request runs
    in a thread that is joined before the next).  A failure in a service is an uncaught
    exception or undefined behaviour: the process does not survive it. *)

From S2P Require Import Prelude Libc JsonValue StringUtil Mongoose Mundo Loger Entidades BaseDeDatos.
From S2P Require Import Localizacion Servicio WebSocket Conexion Red.
Open Scope Z_scope.

Module Servidor.
Import Constantes Mongoose.

Inductive tipoDeServicio : Type :=
| PRUEBA | REGISTRAR_USUARIO | AUTENTICAR_USUARIO | ADMINISTRAR_PERFIL | ALMACENAR_CONVERSACION
| CONSULTAR_USUARIO_ONLINE | CHECKIN_USUARIO | DESCONECTAR_USUARIO | OBTENER_ID_CONVERSACION
| OBTENER_CONVERSACION | OBTENER_CONVERSACIONES | OBTENER_CONTACTOS | ALMACENAR_LISTA_DIFUSION
| INVALIDO.
#[export] Instance tipoDeServicio_eq_dec : EqDecision tipoDeServicio.
Proof. solve_decision. Defined.

(** [s.find(x) != std::string::npos] *)
Fixpoint incluye (x s : string) : bool :=
  String.prefix x s || match s with "" => false | String _ r => incluye x r end.

Definition parsearURI (conn : mg_connection) : tipoDeServicio :=
  let uri := c_str (uri conn) in
  let metodo := c_str (request_method conn) in
  let resto := if String.eqb uri urlPrueba then PRUEBA else INVALIDO in
  if String.eqb metodo "POST" then
    if String.eqb uri urlBaseUsuario then REGISTRAR_USUARIO
    else if String.eqb uri urlBaseConversacion then ALMACENAR_CONVERSACION
    else if String.eqb uri urlBaseListaDifusion then ALMACENAR_LISTA_DIFUSION
    else resto
  else if String.eqb metodo "GET" then
    if incluye urlBaseUsuarioConversaciones uri then OBTENER_CONVERSACIONES
    else if incluye urlBaseUsuario uri then CONSULTAR_USUARIO_ONLINE
    else if incluye urlBaseConversacionId uri then OBTENER_ID_CONVERSACION
    else if incluye urlBaseConversacion uri then OBTENER_CONVERSACION
    else if incluye urlBaseContactos uri then OBTENER_CONTACTOS
    else resto
  else if String.eqb metodo "PUT" then
    if String.eqb uri urlBaseUsuario then ADMINISTRAR_PERFIL
    else if incluye urlCheckinUsuario uri then CHECKIN_USUARIO
    else resto
  else resto.

Section Servidor.
Context {E : Entorno} {A : Almacen}.
Abbreviation W := (M (Mundo A)).

Definition administrarServicio (conn : mg_connection) : W unit :=
  match parsearURI conn with
  | PRUEBA => Servicio.prueba
  | REGISTRAR_USUARIO => Servicio.registrarUsuario conn
  | ADMINISTRAR_PERFIL => Servicio.administrarPerfil conn
  | ALMACENAR_CONVERSACION => Servicio.almacenarConversacion conn
  | OBTENER_ID_CONVERSACION => Servicio.obtenerIdConversacion conn
  | OBTENER_CONVERSACION => Servicio.obtenerConversacion conn
  | OBTENER_CONVERSACIONES => Servicio.obtenerConversaciones conn
  | CONSULTAR_USUARIO_ONLINE => Servicio.consultarUsuarioOnline conn
  | OBTENER_CONTACTOS => Servicio.obtenerContactos conn
  | ALMACENAR_LISTA_DIFUSION => Servicio.almacenarListaDifusion conn
  | CHECKIN_USUARIO => Servicio.checkIn conn
  | INVALIDO => Servicio.mg_printf_data "Servicio no encontrado"
  | _ => cambiar (fun w => con_consola (consola w +:+ "default." +:+ Libc.LF) w)
  end.

Definition ev_handler (conn : option mg_connection) (ev : mg_event) : W mg_result :=
  match ev with
  | MG_REQUEST =>
      match conn with
      | Some conn => administrarServicio conn;;; ret MG_TRUE
      | None => falla (Indefinido "administrarServicio: null request")
      end
  | MG_AUTH => ret MG_TRUE
  | _ => ret MG_FALSE
  end.

(** The handler as the web server calls it, with the reply kept in the connection. *)
Definition manejar (conn : option mg_connection) (ev : mg_event) : M (Salida * Mundo A) mg_result := fun '(sal, w) =>
  let '(r, w') := ev_handler conn ev (con_salida sal w) in
  (r, (salida w', con_salida (salida w) w')).

#[export] Instance servidor_manejador : Manejador (Mundo A) := {|
  event_handler := manejar;
  time_null := time_;
  is_big_endian := big_endian |}.

(** [main] before the server loop: a [std::runtime_error] of [cargarLugares] is logged.
    [Json::RuntimeError] is no such exception: it ends the process. *)
Definition atrapar_runtime_error (m : W unit) (f : string -> W unit) : W unit := fun w =>
  match m w with
  | (Fallo (StdRuntimeError msg), w') => f msg w'
  | r => r
  end.
Definition main_inicio : W unit :=
  BaseDeDatos.setPath path_BaseDeDatos;;;
  atrapar_runtime_error (Localizacion.cargarLugares "Lugares.txt") Loger.warn.

(** The process before [main]: no singleton, the table of places an empty array. *)
Definition mundo_inicial (d : DB) : Mundo A :=
  mkMundo A d None path_BaseDeDatos None 0 (Json.arrayValue []) salida_nueva "".

(** [iniciar] serves one request after another.  [pedido P] is the service of a request that
    satisfies [P], on a connection that holds the reply [sal]; a request whose service fails
    has no successor. *)
Inductive pedido (P : mg_connection -> Prop) : Mundo A -> Mundo A -> Prop :=
| pedido_atendido conn r sal sal' w w' :
    P conn -> manejar (Some conn) MG_REQUEST (sal, w) = (Ok r, (sal', w')) -> pedido P w w'.

(** The states of the process between turns of the event loop, in the runs whose requests satisfy
    [P]: the process starts with no connections and then clients connect, send bytes, read
    replies and leave in any order. *)
Inductive alcanzable (P : mg_connection -> Prop) {PD : forall r, Decision (P r)} (d : DB) : Red.Red (Mundo A) -> Prop :=
| alc_inicio w : main_inicio (mundo_inicial d) = (Ok tt, w) -> alcanzable P d (Red.red_inicial w)
| alc_turno r r' : alcanzable P d r -> Red.turno (H := Red.filtrar P servidor_manejador) r r' -> alcanzable P d r'.

End Servidor.
End Servidor.
