(* ===== verification/Corre.v ===== *)
(** * Corre: triples over the process state

    [corre w m b mem' sal'] says that the operation [m], run from [w], answers [b] and ends
    in a state whose database holds [mem'] and whose reply is [sal'], the table of places
    unchanged.  The log, the clock and the moment the database was opened are abstracted
    away; while the store works ([usable]) the database is the map of its contents. *)

From S2P Require Import Prelude Libc JsonValue Mongoose Mundo Loger.
Open Scope Z_scope.

Module Corre.
Import LogerOk.

Section Corre.
Context {E : Entorno} {A : Almacen} {AO : AlmacenOk A}.
Abbreviation W := (M (Mundo A)).
Abbreviation memoria_de := (gmap string string).

Definition usable (w : Mundo A) : Prop := disponible (base w) /\ instancia w <> Some false.
Definition mem (w : Mundo A) : memoria_de := contenido (base w).

Definition llega (w : Mundo A) (m' : memoria_de) (s' : Mongoose.Salida) (w' : Mundo A) : Prop :=
  usable w' /\ mem w' = m' /\ salida w' = s' /\ lugares w' = lugares w /\
  (instancia w = Some true -> instancia w' = Some true).

Definition corre {B} (w : Mundo A) (m : W B) (b : B) (m' : memoria_de) (s' : Mongoose.Salida) : Prop :=
  exists w', m w = (Ok b, w') /\ llega w m' s' w'.

Lemma llega_refl w : usable w -> llega w (mem w) (salida w) w.
Proof. intros H. unfold llega. by split_and!. Qed.

Lemma llega_trans w w1 w2 m1 s1 m2 s2 : llega w m1 s1 w1 -> llega w1 m2 s2 w2 -> llega w m2 s2 w2.
Proof. intros (_&_&_&H&Hi) (?&?&?&H'&Hi'). unfold llega. split_and!; auto. congruence. Qed.

Lemma corre_bind {B C} w (m : W B) (f : B -> W C) b m1 s1 c m2 s2 :
  corre w m b m1 s1 -> (forall w1, llega w m1 s1 w1 -> corre w1 (f b) c m2 s2) ->
  corre w (bindM m f) c m2 s2.
Proof.
  intros (w1 & E1 & H1) Hf. destruct (Hf w1 H1) as (w2 & E2 & H2). exists w2.
  split; [by erewrite bind_ok by exact E1|]. by eapply llega_trans.
Qed.

Lemma corre_ret {B} w (b : B) : usable w -> corre w (ret b) b (mem w) (salida w).
Proof. intros H. exists w. split; [done|by apply llega_refl]. Qed.

Lemma corre_fin {B} w (b : B) m' s' : usable w -> mem w = m' -> salida w = s' -> corre w (ret b) b m' s'.
Proof. intros H <- <-. by apply corre_ret. Qed.

Lemma corre_alzar {B C} w (r : res B) (f : B -> W C) b c m' s' :
  r = Ok b -> corre w (f b) c m' s' -> corre w (bindM (alzar r) f) c m' s'.
Proof. intros -> H. exact H. Qed.

Lemma igual_llega w w' : usable w -> igual_salvo_log w w' -> llega w (mem w) (salida w) w'.
Proof.
  intros [H1 H2] (Hb & Hi & _ & Hl & Hs & _). unfold llega, usable, mem. by rewrite Hb, Hi, Hl, Hs.
Qed.

Lemma corre_log {B} w (m : W B) : usable w -> solo_log m -> exists b, corre w m b (mem w) (salida w).
Proof.
  intros Hu Hm. destruct (Hm w) as (b & w' & E' & H'). exists b, w'. split; [done|by apply igual_llega].
Qed.

(** A call of the logger before the rest. *)
Lemma corre_log_bind {B C} w (m : W B) (f : B -> W C) c m' s' :
  usable w -> solo_log m ->
  (forall b w1, llega w (mem w) (salida w) w1 -> corre w1 (f b) c m' s') -> corre w (bindM m f) c m' s'.
Proof.
  intros Hu Hm Hf. destruct (corre_log w m Hu Hm) as [b Hb]. eapply corre_bind; [exact Hb|]. auto.
Qed.

(** ... and after it. *)
Lemma corre_log_fin w (m : W unit) : usable w -> solo_log m -> corre w m tt (mem w) (salida w).
Proof. intros Hu Hm. by destruct (corre_log w m Hu Hm) as [[] H]. Qed.

(** After a step the facts of the state before it are restated. *)
Lemma llega_usable w m' s' w' : llega w m' s' w' -> usable w'.
Proof. by intros []. Qed.
Lemma llega_mem w m' s' w' : llega w m' s' w' -> mem w' = m'.
Proof. by intros (_&?&_). Qed.
Lemma llega_salida w m' s' w' : llega w m' s' w' -> salida w' = s'.
Proof. by intros (_&_&?&_). Qed.

Lemma llega_abierta w m' s' w' : llega w m' s' w' -> instancia w = Some true -> instancia w' = Some true.
Proof. by intros (_&_&_&_&?). Qed.

(** The same without the table of places. *)
Definition alcanza (w : Mundo A) (m' : memoria_de) (s' : Mongoose.Salida) (w' : Mundo A) : Prop :=
  usable w' /\ mem w' = m' /\ salida w' = s' /\ (instancia w = Some true -> instancia w' = Some true).

Lemma llega_alcanza w m' s' w' : llega w m' s' w' -> alcanza w m' s' w'.
Proof. intros (?&?&?&?&?). unfold alcanza. by split_and!. Qed.

Lemma alcanza_trans w w1 w2 m1 s1 m2 s2 : alcanza w m1 s1 w1 -> alcanza w1 m2 s2 w2 -> alcanza w m2 s2 w2.
Proof. intros (_&_&_&Hi) (?&?&?&Hi'). unfold alcanza. split_and!; auto. Qed.

End Corre.
#[export] Hint Resolve llega_usable llega_mem llega_salida llega_abierta : mensajero.
End Corre.
