(* ===== verification/Chat.v ===== *)
(** * Chat: what the database stores, abstractly

    A chat is a map of users, a map of conversations and an index of the conversations of
    each user.  [Representa ch m] relates it to the contents of the key-value store; the
    lemmas below show that the operations of BaseDeDatos.cpp, Usuario.cpp and
    Conversacion.cpp implement the operations on chats. *)

From S2P Require Import Prelude Libc Md5 JsonValue JsonReader JsonWriter JsonTexto JsonWriterOk StringUtil.
From S2P Require Import Mongoose Mundo Loger Entidades BaseDeDatos Corre.
Open Scope Z_scope.

Module Chat.
Import Constantes BaseDeDatos.

Record Conv : Type := mkConv { c_ids : list string; c_mensajes : list Mensaje.Mensaje }.

Record Chat : Type := mkChat {
  usuarios : gmap string Usuario.Usuario;
  conversaciones : gmap string Conv;
  indice : gmap string (list string) }.

(** ** The text of each kind of value *)

Definition texto (r : res string) : string := match r with Ok s => s | Fallo _ => "" end.
Definition texto_usuario (u : Usuario.Usuario) : string := texto (Usuario.serializar u).
Definition texto_mensaje (m : Mensaje.Mensaje) : string := texto (Mensaje.serializar m).

Definition json_conv (k : string) (c : Conv) : Json.Value :=
  Json.objectValue
    [(Json.CZStr keyIdConversacion, Json.stringValue k);
     (Json.CZStr keyIdsUsuarios, Json.stringValue (StringUtil.acumular SeparadorListaBD "" (c_ids c)));
     (Json.CZStr keyMensajes,
       Json.stringValue (StringUtil.acumular SeparadorListaBD "" (texto_mensaje <$> c_mensajes c)))].
Definition texto_conv (k : string) (c : Conv) : string := texto (JsonWriter.toStyledString (json_conv k c)).

(** The index of a user starts with the "not found" mark of its first reading. *)
Definition texto_indice (l : list string) : string :=
  StringUtil.acumular SeparadorListaBD "" (keyDatoNoEncontrado :: l).

(** ** Representation *)

Definition Representa (ch : Chat) (m : gmap string string) : Prop :=
  (forall k, m !! (claveBaseUsuario +:+ k) = texto_usuario <$> usuarios ch !! k) /\
  (forall k, m !! (claveBaseConversacion +:+ k) = texto_conv k <$> conversaciones ch !! k) /\
  (forall k, m !! (claveBaseConversacionesPorUsuario +:+ k) = texto_indice <$> indice ch !! k).

(** A word that can be an item of a separated list. *)
Definition item (s : string) : Prop := contiene SeparadorListaBD s = false /\ s <> "".

Definition mensaje_ok (m : Mensaje.Mensaje) : Prop :=
  contiene SeparadorListaBD (Mensaje.cuerpo m) = false /\
  contiene SeparadorListaBD (Mensaje.idUsuarioEmisor m) = false /\
  contiene SeparadorListaBD (Mensaje.fecha m) = false /\
  contiene SeparadorListaBD (Mensaje.id m) = false.

(** The id of a conversation is the ids of its two users; both are registered. *)
Definition conv_ok (ch : Chat) (k : string) (c : Conv) : Prop :=
  (exists a b, c_ids c = [a; b] /\ k = a +:+ "-" +:+ b /\
     is_Some (usuarios ch !! a) /\ is_Some (usuarios ch !! b)) /\
  Forall mensaje_ok (c_mensajes c) /\ c_mensajes c <> [].

(** The index of a user lists, once each, the conversations the user takes part in. *)
Definition indice_ok (ch : Chat) : Prop :=
  (forall u l, indice ch !! u = Some l -> NoDup l) /\
  (forall u k, (exists c, conversaciones ch !! k = Some c /\ In u (c_ids c)) <->
               In k (default [] (indice ch !! u))).

Definition valido (ch : Chat) : Prop :=
  (forall k u, usuarios ch !! k = Some u -> Usuario.id u = k /\ k = Md5.md5 (Usuario.telefono u)) /\
  (forall k c, conversaciones ch !! k = Some c -> conv_ok ch k c) /\
  indice_ok ch.

Definition chat_vacio : Chat := mkChat ∅ ∅ ∅.

(** ** Operations on chats *)

(** What [Usuario::obtener] answers. *)
Definition buscar_usuario (ch : Chat) (k : string) : Usuario.Usuario :=
  default Usuario.Usuario_vacio (usuarios ch !! k).

Definition guardar_usuario (u : Usuario.Usuario) (ch : Chat) : Chat :=
  mkChat (<[Usuario.id u := u]> (usuarios ch)) (conversaciones ch) (indice ch).

(** What [Conversacion::obtener] answers. *)
Definition abrir (ch : Chat) (k : string) (c : Conv) : Conversacion.Conversacion :=
  Conversacion.mkConversacion k (c_mensajes c) (buscar_usuario ch <$> c_ids c).
Definition buscar_conversacion (ch : Chat) (k : string) : Conversacion.Conversacion :=
  match conversaciones ch !! k with
  | Some c => abrir ch k c
  | None => Conversacion.Conversacion_vacia
  end.

Definition agregar_indice (k u : string) (idx : gmap string (list string)) : gmap string (list string) :=
  let l := default [] (idx !! u) in
  <[u := if StringUtil.vectorContiene l k then l else l ++ [k]]> idx.

Definition guardar_conv (k : string) (c : Conv) (ch : Chat) : Chat :=
  mkChat (usuarios ch) (<[k := c]> (conversaciones ch))
    (fold_left (fun i u => agregar_indice k u i) (c_ids c) (indice ch)).

(** The conversation that receives a message between [a] and [b]: the one stored under
    either order of the ids, or a new one. *)
Definition destino (a b : string) (m : Mensaje.Mensaje) (ch : Chat) : string * Conv :=
  let ab := a +:+ "-" +:+ b in
  let ba := b +:+ "-" +:+ a in
  match conversaciones ch !! ab with
  | Some c => (ab, mkConv (c_ids c) (c_mensajes c ++ [m]))
  | None =>
      match conversaciones ch !! ba with
      | Some c => (ba, mkConv (c_ids c) (c_mensajes c ++ [m]))
      | None => (ab, mkConv [a; b] [m])
      end
  end.
Definition agregar_mensaje (a b : string) (m : Mensaje.Mensaje) (ch : Chat) : Chat :=
  let '(k, c) := destino a b m ch in guardar_conv k c ch.

End Chat.

Module ChatOk.
#[local] Strategy 1000 [Md5.md5 Md5.md5_en].
Import Constantes BaseDeDatos Chat StringUtilOk LogerOk Corre.

(** ** Keys *)

Lemma app_inj_s (p a b : string) : p +:+ a = p +:+ b -> a = b.
Proof. induction p as [|c p IH]; [done|]. rewrite !app_cons_s. intros [= H]. auto. Qed.

Lemma clave_uc a b : claveBaseUsuario +:+ a <> claveBaseConversacion +:+ b.
Proof. unfold claveBaseUsuario, claveBaseConversacion. rewrite !app_cons_s. discriminate. Qed.
Lemma clave_ui a b : claveBaseUsuario +:+ a <> claveBaseConversacionesPorUsuario +:+ b.
Proof. unfold claveBaseUsuario, claveBaseConversacionesPorUsuario. rewrite !app_cons_s. discriminate. Qed.
Lemma clave_ci a b : claveBaseConversacion +:+ a <> claveBaseConversacionesPorUsuario +:+ b.
Proof. unfold claveBaseConversacion, claveBaseConversacionesPorUsuario. rewrite !app_cons_s. discriminate. Qed.

(** Writing under a key of one kind leaves the other kinds alone. *)
Lemma representa_usuario ch m u :
  Representa ch m -> Representa (guardar_usuario u ch) (<[claveBaseUsuario +:+ Usuario.id u := texto_usuario u]> m).
Proof.
  intros (H1 & H2 & H3). split_and!; cbn; intros k.
  - destruct (decide (k = Usuario.id u)) as [->|Hn]; [by rewrite !lookup_insert_eq|].
    rewrite !lookup_insert_ne; [done|by intros ?|]. by intros ?%app_inj_s.
  - rewrite lookup_insert_ne; [done|apply clave_uc].
  - rewrite lookup_insert_ne; [done|apply clave_ui].
Qed.

Lemma representa_conv ch m k c idx :
  Representa ch m -> idx = indice ch ->
  Representa (mkChat (usuarios ch) (<[k := c]> (conversaciones ch)) idx)
    (<[claveBaseConversacion +:+ k := texto_conv k c]> m).
Proof.
  intros (H1 & H2 & H3) ->. split_and!; cbn; intros k'.
  - rewrite lookup_insert_ne; [done|]. intros H. by apply (clave_uc k' k).
  - destruct (decide (k' = k)) as [->|Hn]; [by rewrite !lookup_insert_eq|].
    rewrite !lookup_insert_ne; [done|by intros ?|]. by intros ?%app_inj_s.
  - rewrite lookup_insert_ne; [done|]. intros H. by apply (clave_ci k k').
Qed.

Lemma representa_indice ch m u l :
  Representa ch m ->
  Representa (mkChat (usuarios ch) (conversaciones ch) (<[u := l]> (indice ch)))
    (<[claveBaseConversacionesPorUsuario +:+ u := texto_indice l]> m).
Proof.
  intros (H1 & H2 & H3). split_and!; cbn; intros k'.
  - rewrite lookup_insert_ne; [done|]. intros H. by apply (clave_ui k' u).
  - rewrite lookup_insert_ne; [done|]. intros H. by apply (clave_ci k' u).
  - destruct (decide (k' = u)) as [->|Hn]; [by rewrite !lookup_insert_eq|].
    rewrite !lookup_insert_ne; [done|by intros ?|]. by intros ?%app_inj_s.
Qed.

(** ** Texts *)

Lemma NotFound_no_es_json : JsonReader.parse keyDatoNoEncontrado = Ok (false, Json.nullValue).
Proof. vm_compute. reflexivity. Qed.

Lemma texto_ok v : JsonTexto.canonico v = true -> (JsonWriter.altura v < 1000)%nat ->
  let s := texto (JsonWriter.toStyledString v) in
  JsonWriter.toStyledString v = Ok s /\ JsonReader.parse s = Ok (true, v) /\ s <> keyDatoNoEncontrado /\ s <> "".
Proof.
  intros Hc Ha. destruct (JsonWriterOk.parse_toStyledString v Hc Ha) as (s & -> & Hp). cbn.
  split_and!; try done; intros ->; [by rewrite NotFound_no_es_json in Hp|]. by vm_compute in Hp.
Qed.

Lemma texto_usuario_ok u :
  Usuario.serializar u = Ok (texto_usuario u) /\
  JsonReader.parse (texto_usuario u) = Ok (true, EntidadesOk.json_usuario u) /\
  texto_usuario u <> keyDatoNoEncontrado.
Proof.
  unfold texto_usuario. rewrite EntidadesOk.serializar_usuario.
  destruct (texto_ok (EntidadesOk.json_usuario u)) as (H1 & H2 & H3 & _); [done|cbn; lia|done].
Qed.

Lemma texto_mensaje_ok m :
  Mensaje.serializar m = Ok (texto_mensaje m) /\
  JsonReader.parse (texto_mensaje m) = Ok (true, EntidadesOk.json_mensaje m) /\ texto_mensaje m <> "".
Proof.
  unfold texto_mensaje. rewrite EntidadesOk.serializar_mensaje.
  destruct (texto_ok (EntidadesOk.json_mensaje m)) as (H1 & H2 & _ & H3); [done|cbn; lia|done].
Qed.

Lemma texto_mensaje_item m : mensaje_ok m -> item (texto_mensaje m).
Proof.
  intros (H1 & H2 & H3 & H4). destruct (texto_mensaje_ok m) as (Hs & _ & Hne). split; [|done].
  rewrite EntidadesOk.serializar_mensaje in Hs.
  apply (JsonWriterOk.styled_sin_char SeparadorListaBD eq_refl (EntidadesOk.json_mensaje m) _ eq_refl);
    [|exact Hs]. cbn. by rewrite H1, H2, H3, H4.
Qed.

Lemma texto_conv_ok k c :
  JsonWriter.toStyledString (json_conv k c) = Ok (texto_conv k c) /\
  JsonReader.parse (texto_conv k c) = Ok (true, json_conv k c) /\
  texto_conv k c <> keyDatoNoEncontrado.
Proof. destruct (texto_ok (json_conv k c)) as (H1 & H2 & H3 & _); [done|cbn; lia|done]. Qed.

Lemma serializar_todos_ok l : Conversacion.serializar_todos l = Ok (texto_mensaje <$> l).
Proof.
  induction l as [|m l IH]; [done|]. cbn [Conversacion.serializar_todos].
  destruct (texto_mensaje_ok m) as (-> & _). by rewrite IH.
Qed.

Lemma serializar_conv c :
  Conversacion.serializar c =
  Ok (texto_conv (Conversacion.getId c) (mkConv (Usuario.id <$> Conversacion.usuarios c) (Conversacion.mensajes c))).
Proof.
  unfold Conversacion.serializar. rewrite serializar_todos_ok. cbn [bindR].
  destruct (texto_conv_ok (Conversacion.getId c)
    (mkConv (Usuario.id <$> Conversacion.usuarios c) (Conversacion.mensajes c))) as (<- & _). reflexivity.
Qed.

(** ** The operations of the database *)
Section Operaciones.
Context {E : Entorno} {A : Almacen} {AO : AlmacenOk A}.
Abbreviation W := (M (Mundo A)).

Lemma corre_getInstance {B} w (k : W B) b m' s' : usable w ->
  (forall w1, llega w (mem w) (salida w) w1 -> instancia w1 = Some true -> corre w1 k b m' s') ->
  corre w (getInstance;;; k) b m' s'.
Proof.
  intros Hu Hk. destruct (instancia w) as [[]|] eqn:Hi.
  - destruct (Hk w (llega_refl w Hu) Hi) as (w' & E' & H'). exists w'. split; [|done].
    unfold getInstance. rewrite bind_assoc. erewrite bind_ok by reflexivity. by rewrite Hi.
  - by destruct Hu.
  - assert (llega w (mem w) (salida w) (con_instancia (Some true) w)) as Hl.
    { destruct Hu as [Hd _]. unfold llega, usable, mem. by split_and!. }
    destruct (Hk _ Hl eq_refl) as (w' & E' & H'). exists w'. split; [|by eapply llega_trans].
    unfold getInstance. rewrite bind_assoc. erewrite bind_ok by reflexivity. rewrite Hi.
    assert (Open (pathBaseDeDatos w) (base w) = sOk) as Ho by (apply Open_ok; by destruct Hu).
    unfold bindM, leer. rewrite Ho. exact E'.
Qed.

Lemma corre_getDato w clave : usable w -> instancia w = Some true ->
  corre w (getDato clave) (default keyDatoNoEncontrado (mem w !! clave)) (mem w) (salida w).
Proof.
  intros Hu Hi. exists w. split; [|by apply llega_refl]. unfold getDato, db.
  erewrite bind_ok by reflexivity. rewrite Hi. erewrite bind_ok by reflexivity. cbv beta.
  rewrite Get_ok by (by destruct Hu). unfold mem. by destruct (contenido (base w) !! clave).
Qed.

Lemma corre_setDato w clave valor : usable w -> instancia w = Some true ->
  corre w (setDato clave valor) tt (<[clave := valor]> (mem w)) (salida w).
Proof.
  intros Hu Hi. destruct (Put_ok clave valor (base w)) as (d' & Hp & Hd & Hc); [by destruct Hu|].
  exists (con_base d' w). split.
  - unfold setDato, db. erewrite bind_ok by reflexivity. rewrite Hi. erewrite bind_ok by reflexivity. cbv beta.
    rewrite Hp. by erewrite bind_ok by reflexivity.
  - unfold llega, usable, mem. cbn. rewrite Hi. by split_and!.
Qed.

(** ** Users *)

Lemma corre_Usuario_de w u : usable w ->
  corre w (Usuario.Usuario_de (texto_usuario u)) u (mem w) (salida w).
Proof.
  intros Hu. destruct (EntidadesOk.usuario_ida_y_vuelta u) as (s & Hs & Hd).
  assert (s = texto_usuario u) as -> by (destruct (texto_usuario_ok u) as (H & _); congruence).
  destruct (Hd Usuario.Usuario_inicial w) as (w' & E' & H'). exists w'. split; [|by apply igual_llega].
  unfold Usuario.Usuario_de. by erewrite bind_ok by exact E'.
Qed.

Lemma corre_getUsuario ch w clave : usable w -> instancia w = Some true -> Representa ch (mem w) ->
  corre w (getUsuario clave) (buscar_usuario ch clave) (mem w) (salida w).
Proof.
  intros Hu Hi (H1 & _). unfold getUsuario, buscar_usuario.
  eapply corre_bind; [by apply corre_getDato|]. intros w1 Hw1. rewrite H1.
  rewrite <- (llega_mem _ _ _ _ Hw1), <- (llega_salida _ _ _ _ Hw1).
  apply llega_usable in Hw1. destruct (usuarios ch !! clave) as [u|].
  - change (default keyDatoNoEncontrado (texto_usuario <$> Some u)) with (texto_usuario u). destruct (texto_usuario_ok u) as (_ & _ & Hn). rewrite (proj2 (String.eqb_neq _ _) Hn).
    by apply corre_Usuario_de.
  - change (default keyDatoNoEncontrado (texto_usuario <$> None)) with keyDatoNoEncontrado.
    rewrite String.eqb_refl. apply corre_log_bind; [done|auto with mensajero|]. intros _ w2 Hw2.
    rewrite <- (llega_mem _ _ _ _ Hw2), <- (llega_salida _ _ _ _ Hw2). apply llega_usable in Hw2.
    apply corre_log_bind; [done|auto with mensajero|]. intros _ w3 Hw3.
    rewrite <- (llega_mem _ _ _ _ Hw3), <- (llega_salida _ _ _ _ Hw3).
    apply corre_ret. by eapply llega_usable.
Qed.

Lemma corre_obtener ch w clave : usable w -> Representa ch (mem w) ->
  corre w (UsuarioBD.obtener clave) (buscar_usuario ch clave) (mem w) (salida w).
Proof.
  intros Hu Hr. apply corre_getInstance; [done|]. intros w1 Hw1 Hi.
  rewrite <- (llega_mem _ _ _ _ Hw1), <- (llega_salida _ _ _ _ Hw1) in *.
  apply corre_getUsuario; [by eapply llega_usable|done|done].
Qed.

Lemma corre_obtenerPorTelefono ch w tel : usable w -> Representa ch (mem w) ->
  corre w (UsuarioBD.obtenerPorTelefono tel) (buscar_usuario ch (Md5.md5 tel)) (mem w) (salida w).
Proof.
  intros Hu Hr. unfold UsuarioBD.obtenerPorTelefono, Usuario.obtenerId.
  exact (corre_obtener ch w (Md5.md5 tel) Hu Hr).
Qed.

Lemma corre_persistir_usuario w u : usable w ->
  corre w (UsuarioBD.persistir u) tt (<[claveBaseUsuario +:+ Usuario.id u := texto_usuario u]> (mem w)) (salida w).
Proof.
  intros Hu. apply corre_getInstance; [done|]. intros w1 Hw1 Hi.
  rewrite <- (llega_mem _ _ _ _ Hw1), <- (llega_salida _ _ _ _ Hw1).
  unfold setUsuario. eapply corre_alzar; [by apply texto_usuario_ok|].
  apply corre_setDato; [by eapply llega_usable|done].
Qed.

(** ** Ids *)

Lemma md5_sin (c : ascii) t : Md5Correcto.es_hex c = false -> contiene c (Md5.md5 t) = false.
Proof.
  intros Hc. destruct (Md5Correcto.md5_en_forma Md5.memoria_cero t) as [H _].
  by eapply todos_no_contiene.
Qed.

Lemma md5_no_vacio t : Md5.md5 t <> "".
Proof.
  destruct (Md5Correcto.md5_en_forma Md5.memoria_cero t) as [_ H]. fold (Md5.md5 t) in H.
  by intros E0; rewrite E0 in H.
Qed.

(** The id of a registered user. *)
Lemma id_md5 ch a : valido ch -> is_Some (usuarios ch !! a) -> exists t, a = Md5.md5 t.
Proof. intros (H & _) [u Hu]. destruct (H a u Hu) as [_ ->]. by eexists. Qed.

Lemma id_item ch a : valido ch -> is_Some (usuarios ch !! a) -> item a.
Proof.
  intros Hv Ha. destruct (id_md5 ch a Hv Ha) as [t ->]. split; [by apply md5_sin|apply md5_no_vacio].
Qed.

(** The id of a conversation between two md5 ids is an item and no reserved word. *)
Lemma clave_conv_ok ta tb (k := Md5.md5 ta +:+ "-" +:+ Md5.md5 tb) :
  item k /\ k <> keyDatoNoEncontrado /\ k <> keyIdConversacionNoEncontrada /\ k <> keyIdUsuarioNoEncontrado.
Proof.
  assert (contiene "-" k = true) as Hg.
  { unfold k. by rewrite !contiene_app, orb_true_r. }
  split_and!; try (intros Hk; by rewrite Hk in Hg). split.
  - unfold k. rewrite !contiene_app, !md5_sin by done. done.
  - intros Hk. by rewrite Hk in Hg.
Qed.

Lemma app_inj_largo (a b c d : string) : String.length a = String.length c -> a +:+ b = c +:+ d -> a = c /\ b = d.
Proof.
  revert c. induction a as [|x a IH]; intros [|y c] Hl He; cbn in Hl; try lia; [done|].
  rewrite !app_cons_s in He. injection He as -> He. destruct (IH c) as [-> ->]; [lia|done|done].
Qed.

(** The id of a conversation determines its users. *)
Lemma clave_inj s s' t t' : Md5.md5 s +:+ "-" +:+ Md5.md5 s' = Md5.md5 t +:+ "-" +:+ Md5.md5 t' ->
  Md5.md5 s = Md5.md5 t /\ Md5.md5 s' = Md5.md5 t'.
Proof.
  intros He. apply app_inj_largo in He as [H1 H2].
  - split; [done|]. by injection H2.
  - destruct (Md5Correcto.md5_en_forma Md5.memoria_cero s) as [_ Hs].
    destruct (Md5Correcto.md5_en_forma Md5.memoria_cero t) as [_ Ht]. unfold Md5.md5. congruence.
Qed.

(** ** Conversations *)

Lemma corre_mapear {X Y} (f : X -> W Y) (l : list X) (ys : list Y) w :
  usable w ->
  Forall2 (fun x y => forall w1, llega w (mem w) (salida w) w1 -> corre w1 (f x) y (mem w1) (salida w1)) l ys ->
  corre w (Conversacion.mapear f l) ys (mem w) (salida w).
Proof.
  intros Hu Hf. assert (llega w (mem w) (salida w) w) as Hw by (by apply llega_refl). revert Hw.
  generalize w at 4 5. induction Hf as [|x y l ys Hx Hf IH]; intros w0 Hw0; cbn [Conversacion.mapear].
  - apply corre_fin; eauto with mensajero.
  - eapply corre_bind; [by apply Hx|]. intros w1 H1.
    rewrite (llega_mem _ _ _ _ Hw0), (llega_salida _ _ _ _ Hw0) in H1.
    eapply corre_bind; [apply IH; by eapply llega_trans|]. intros w2 H2.
    apply corre_fin; eauto with mensajero.
Qed.

Lemma corre_Mensaje_de w m : usable w ->
  corre w (Mensaje.Mensaje_de (texto_mensaje m)) m (mem w) (salida w).
Proof.
  intros Hu. destruct (EntidadesOk.mensaje_ida_y_vuelta m) as (s & Hs & Hd).
  assert (s = texto_mensaje m) as -> by (destruct (texto_mensaje_ok m) as (H & _); congruence).
  destruct (Hd Mensaje.Mensaje_vacio w) as (w' & E' & H'). exists w'. split; [|by apply igual_llega].
  unfold Mensaje.Mensaje_de. by erewrite bind_ok by exact E'.
Qed.

Lemma split_ids l : Forall item l -> StringUtil.split (StringUtil.acumular SeparadorListaBD "" l) SeparadorListaBD = l.
Proof. apply split_acumular. Qed.

(** Reading a conversation back: its users are looked up again, its messages are the ones
    stored. *)
Lemma corre_Conversacion_de ch w k c : usable w -> Representa ch (mem w) ->
  Forall item (c_ids c) -> Forall mensaje_ok (c_mensajes c) ->
  corre w (Conversacion.Conversacion_de (texto_conv k c)) (abrir ch k c) (mem w) (salida w).
Proof.
  intros Hu Hr Hids Hms. unfold Conversacion.Conversacion_de, Conversacion.deserealizar.
  apply (corre_bind _ _ _ (true, abrir ch k c) (mem w) (salida w));
    [|intros w1 H1; apply corre_fin; eauto with mensajero].
  eapply corre_alzar; [by apply texto_conv_ok|]. cbv beta iota.
  do 2 (eapply corre_alzar; [reflexivity|]). cbv beta. rewrite split_ids by done.
  eapply corre_bind.
  { apply (corre_mapear _ _ (buscar_usuario ch <$> c_ids c)); [done|]. apply Forall2_fmap_r, Forall_Forall2_diag.
    apply Forall_forall. intros a _ w1 H1. apply corre_obtener; [by eapply llega_usable|].
    by rewrite (llega_mem _ _ _ _ H1). }
  intros w1 H1. eapply corre_alzar; [reflexivity|]. cbv beta. rewrite split_ids.
  2: { apply Forall_fmap. eapply Forall_impl; [exact Hms|]. by apply texto_mensaje_item. }
  pose proof (llega_usable _ _ _ _ H1) as Hu1.
  rewrite <- (llega_mem _ _ _ _ H1), <- (llega_salida _ _ _ _ H1).
  eapply corre_bind.
  { apply (corre_mapear _ _ (c_mensajes c)); [done|]. apply Forall2_fmap_l, Forall_Forall2_diag.
    apply Forall_forall. intros m _ w2 H2. apply corre_Mensaje_de. by eapply llega_usable. }
  intros w2 H2. apply corre_fin; eauto with mensajero.
Qed.

Lemma conv_items ch k c : valido ch -> conversaciones ch !! k = Some c ->
  Forall item (c_ids c) /\ Forall mensaje_ok (c_mensajes c).
Proof.
  intros Hv Hk. destruct (proj1 (proj2 Hv) k c Hk) as ((a & b & -> & _ & Ha & Hb) & Hm & _).
  split; [|done]. repeat constructor; by eapply id_item.
Qed.

Lemma corre_obtener_conv ch w k : usable w -> Representa ch (mem w) -> valido ch ->
  corre w (Conversacion.obtener k) (buscar_conversacion ch k) (mem w) (salida w).
Proof.
  intros Hu Hr Hv. apply corre_getInstance; [done|]. intros w1 Hw1 Hi.
  pose proof (llega_usable _ _ _ _ Hw1) as Hu1.
  rewrite <- (llega_mem _ _ _ _ Hw1) in *. rewrite <- (llega_salida _ _ _ _ Hw1). clear Hw1.
  unfold Conversacion.getConversacion, buscar_conversacion.
  eapply corre_bind; [by apply corre_getDato|]. intros w2 H2. rewrite (proj1 (proj2 Hr) k).
  pose proof (llega_usable _ _ _ _ H2) as Hu2.
  rewrite <- (llega_mem _ _ _ _ H2) in *. rewrite <- (llega_salida _ _ _ _ H2).
  destruct (conversaciones ch !! k) as [c|] eqn:Hk.
  - change (default keyDatoNoEncontrado (texto_conv k <$> Some c)) with (texto_conv k c).
    destruct (texto_conv_ok k c) as (_ & _ & Hn). rewrite (proj2 (String.eqb_neq _ _) Hn).
    destruct (conv_items ch k c Hv Hk). by apply corre_Conversacion_de.
  - change (default keyDatoNoEncontrado (texto_conv k <$> None)) with keyDatoNoEncontrado.
    rewrite String.eqb_refl. apply corre_log_bind; [done|auto with mensajero|]. intros _ w3 H3.
    apply corre_log_bind; [by eapply llega_usable|auto with mensajero|]. intros _ w4 H4.
    rewrite (llega_mem _ _ _ _ H3), (llega_salida _ _ _ _ H3) in H4. apply corre_fin; eauto with mensajero.
Qed.

(** The words of the index are items. *)
Definition indice_items (idx : gmap string (list string)) : Prop :=
  forall u, Forall item (default [] (idx !! u)).

Lemma agregar_indice_items k u idx : item k -> indice_items idx -> indice_items (agregar_indice k u idx).
Proof.
  intros Hk Hi v. unfold agregar_indice. destruct (decide (v = u)) as [->|Hn].
  - rewrite lookup_insert_eq. cbn [default id]. destruct (StringUtil.vectorContiene _ _); [apply Hi|].
    apply Forall_app. split; [apply Hi|by constructor].
  - rewrite lookup_insert_ne by done. apply Hi.
Qed.

Lemma split_indice l : Forall item l ->
  StringUtil.split (texto_indice l) SeparadorListaBD = keyDatoNoEncontrado :: l.
Proof. intros Hl. apply split_acumular. by constructor. Qed.

Lemma texto_indice_snoc l k : texto_indice l +:+ String SeparadorListaBD k = texto_indice (l ++ [k]).
Proof.
  unfold texto_indice. change (keyDatoNoEncontrado :: l ++ [k]) with ((keyDatoNoEncontrado :: l) ++ [k]).
  rewrite acumular_snoc; [done|]. intros H. apply acumular_vacia in H as [_ H]. by inversion H.
Qed.

(** What one iteration of the index loop does to the contents of the store. *)
Definition indexar_mem (k u : string) (m : gmap string string) : gmap string string :=
  let clave := claveBaseConversacionesPorUsuario +:+ u in
  let valor := default keyDatoNoEncontrado (m !! clave) in
  <[clave := if StringUtil.vectorContiene (StringUtil.split valor SeparadorListaBD) k then valor
             else valor +:+ String SeparadorListaBD k]> m.

Lemma corre_indexar w k u : usable w -> instancia w = Some true ->
  corre w (Conversacion.indexar_usuario k u) tt (indexar_mem k (Usuario.id u) (mem w)) (salida w).
Proof.
  intros Hu Hi. unfold Conversacion.indexar_usuario. eapply corre_bind; [by apply corre_getDato|].
  intros w1 H1. unfold indexar_mem. cbv zeta. rewrite <- (llega_mem _ _ _ _ H1), <- (llega_salida _ _ _ _ H1).
  apply corre_setDato; eauto with mensajero.
Qed.

Lemma representa_indexar ch m k u : Representa ch m -> item k -> k <> keyDatoNoEncontrado ->
  indice_items (indice ch) ->
  Representa (mkChat (usuarios ch) (conversaciones ch) (agregar_indice k u (indice ch))) (indexar_mem k u m).
Proof.
  intros Hr Hk Hkn Hit. set (l := default [] (indice ch !! u)). unfold indexar_mem, agregar_indice.
  assert (default keyDatoNoEncontrado (m !! (claveBaseConversacionesPorUsuario +:+ u)) = texto_indice l) as ->.
  { rewrite (proj2 (proj2 Hr)). unfold l. by destruct (indice ch !! u). }
  rewrite split_indice by apply Hit.
  assert (StringUtil.vectorContiene (keyDatoNoEncontrado :: l) k = StringUtil.vectorContiene l k) as ->.
  { unfold StringUtil.vectorContiene. cbn [existsb].
    by rewrite (proj2 (String.eqb_neq keyDatoNoEncontrado k)) by congruence. }
  fold l. rewrite texto_indice_snoc.
  destruct (StringUtil.vectorContiene l k); by apply representa_indice.
Qed.

Lemma corre_indexar_todos us w k : usable w -> instancia w = Some true ->
  corre w (recorrer us (Conversacion.indexar_usuario k)) tt
    (fold_left (fun m u => indexar_mem k u m) (Usuario.id <$> us) (mem w)) (salida w).
Proof.
  revert w. induction us as [|u us IH]; intros w Hu Hi; cbn [recorrer fmap list_fmap fold_left].
  - by apply corre_ret.
  - eapply corre_bind; [by apply corre_indexar|]. intros w1 H1.
    rewrite <- (llega_mem _ _ _ _ H1), <- (llega_salida _ _ _ _ H1). apply IH; eauto with mensajero.
Qed.

Lemma representa_indexar_todos us ch m k : Representa ch m -> item k -> k <> keyDatoNoEncontrado ->
  indice_items (indice ch) ->
  Representa (mkChat (usuarios ch) (conversaciones ch) (fold_left (fun i u => agregar_indice k u i) us (indice ch)))
    (fold_left (fun m u => indexar_mem k u m) us m).
Proof.
  revert ch m. induction us as [|u us IH]; intros ch m Hr Hk Hkn Hit; cbn [fold_left]; [by destruct ch|].
  apply (IH (mkChat (usuarios ch) (conversaciones ch) (agregar_indice k u (indice ch)))); [|done|done|].
  - by apply representa_indexar.
  - by apply agregar_indice_items.
Qed.

(** [persistir] of a conversation. *)
Definition conv_mem (k : string) (c : Conv) (m : gmap string string) : gmap string string :=
  fold_left (fun m u => indexar_mem k u m) (c_ids c) (<[claveBaseConversacion +:+ k := texto_conv k c]> m).

Definition conv_de (c : Conversacion.Conversacion) : Conv :=
  mkConv (Usuario.id <$> Conversacion.usuarios c) (Conversacion.mensajes c).

Lemma corre_persistir_conv w c : usable w ->
  corre w (Conversacion.persistir c) tt (conv_mem (Conversacion.getId c) (conv_de c) (mem w)) (salida w).
Proof.
  intros Hu. apply corre_getInstance; [done|]. intros w1 Hw1 Hi.
  pose proof (llega_usable _ _ _ _ Hw1) as Hu1.
  rewrite <- (llega_mem _ _ _ _ Hw1), <- (llega_salida _ _ _ _ Hw1). unfold Conversacion.setConversacion.
  eapply corre_alzar; [apply serializar_conv|]. eapply corre_bind; [by apply corre_setDato|]. intros w2 H2.
  unfold conv_mem, conv_de. cbn [c_ids].
  rewrite <- (llega_mem _ _ _ _ H2), <- (llega_salida _ _ _ _ H2).
  apply corre_indexar_todos; eauto with mensajero.
Qed.

Lemma representa_guardar_conv ch m k c : Representa ch m -> item k -> k <> keyDatoNoEncontrado ->
  indice_items (indice ch) -> Representa (guardar_conv k c ch) (conv_mem k c m).
Proof.
  intros Hr Hk Hkn Hit. unfold guardar_conv, conv_mem.
  pose proof (representa_indexar_todos (c_ids c) (mkChat (usuarios ch) (<[k:=c]> (conversaciones ch)) (indice ch))
           (<[claveBaseConversacion +:+ k := texto_conv k c]> m) k) as H. cbn [usuarios conversaciones indice] in H.
  apply H; try done. by apply representa_conv.
Qed.

End Operaciones.

(** ** The invariant is preserved *)

Lemma valido_vacio : valido chat_vacio.
Proof.
  split_and!; try done. split; [done|]. intros u k. split; [|done]. by intros (c & Hc & _).
Qed.

Lemma valido_guardar_usuario ch u : valido ch -> Usuario.id u = Md5.md5 (Usuario.telefono u) ->
  valido (guardar_usuario u ch).
Proof.
  intros (H1 & H2 & H3) Hu. split_and!; cbn.
  - intros k v. destruct (decide (k = Usuario.id u)) as [->|Hn].
    + rewrite lookup_insert_eq. intros [= <-]. done.
    + rewrite lookup_insert_ne by done. apply H1.
  - intros k c Hc. destruct (H2 k c Hc) as ((a & b & E1 & E2 & Ha & Hb) & Hm). split; [|done].
    exists a, b. split_and!; try done; cbn; rewrite lookup_insert_is_Some'; auto.
  - exact H3.
Qed.

Lemma fold_agregar_in k k' u us idx :
  In k' (default [] (fold_left (fun i v => agregar_indice k v i) us idx !! u)) <->
  In k' (default [] (idx !! u)) \/ (k' = k /\ In u us).
Proof.
  revert idx. induction us as [|v us IH]; intros idx; cbn [fold_left]; [cbn; tauto|].
  rewrite IH. clear IH. assert (In k' (default [] (agregar_indice k v idx !! u)) <->
    In k' (default [] (idx !! u)) \/ (k' = k /\ u = v)) as ->; [|cbn; intuition congruence].
  unfold agregar_indice. destruct (decide (u = v)) as [->|Hn].
  - rewrite lookup_insert_eq. cbn [default id]. destruct (StringUtil.vectorContiene _ k) eqn:Ec.
    + apply vectorContiene_spec in Ec. split; [tauto|]. by intros [?|[-> _]].
    + rewrite in_app_iff. cbn. intuition congruence.
  - rewrite lookup_insert_ne by done. intuition congruence.
Qed.

Lemma fold_agregar_NoDup k us idx : (forall u, NoDup (default [] (idx !! u))) ->
  forall u, NoDup (default [] (fold_left (fun i v => agregar_indice k v i) us idx !! u)).
Proof.
  revert idx. induction us as [|v us IH]; intros idx Hd; cbn [fold_left]; [done|]. apply IH. intros u.
  unfold agregar_indice. destruct (decide (u = v)) as [->|Hn]; [|by rewrite lookup_insert_ne].
  rewrite lookup_insert_eq. cbn [default id]. destruct (StringUtil.vectorContiene _ k) eqn:Ec; [done|].
  apply NoDup_app. split_and!; [done| |apply NoDup_singleton]. intros x Hx ->%list_elem_of_singleton.
  apply list_elem_of_In, vectorContiene_spec in Hx. congruence.
Qed.

Lemma indice_ok_conv ch k c : indice_ok ch -> c_ids c <> [] ->
  (forall c0, conversaciones ch !! k = Some c0 -> c_ids c0 = c_ids c) -> indice_ok (guardar_conv k c ch).
Proof.
  intros [H1 H2] Hne Hsame. split; cbn.
  - intros u l Hl. assert (NoDup (default [] (Some l))) as Hd; [|exact Hd]. rewrite <- Hl.
    apply fold_agregar_NoDup. intros v. destruct (indice ch !! v) as [l'|] eqn:E; [by eapply H1|constructor].
  - intros u k'. rewrite fold_agregar_in, <- H2. destruct (decide (k' = k)) as [->|Hn].
    + rewrite lookup_insert_eq. split.
      * intros (c' & [= <-] & Hin). auto.
      * intros [(c0 & Hc0 & Hin)|[_ Hin]]; [|by exists c]. exists c. by rewrite <- (Hsame c0).
    + rewrite lookup_insert_ne by done. intuition congruence.
Qed.

Lemma indice_items_valido ch : valido ch -> indice_items (indice ch).
Proof.
  intros (H1 & H2 & [_ H3]) u. apply Forall_forall. intros k Hk%list_elem_of_In. apply H3 in Hk as (c & Hc & _).
  destruct (H2 k c Hc) as ((a & b & _ & -> & [ua Ha] & [ub Hb]) & _).
  destruct (H1 a ua Ha) as [_ ->], (H1 b ub Hb) as [_ ->]. by apply clave_conv_ok.
Qed.

Lemma destino_ok ch a b m : valido ch -> is_Some (usuarios ch !! a) -> is_Some (usuarios ch !! b) ->
  mensaje_ok m -> let '(k, c) := destino a b m ch in
  conv_ok ch k c /\ (forall c0, conversaciones ch !! k = Some c0 -> c_ids c0 = c_ids c).
Proof.
  intros (H1 & H2 & H3) Ha Hb Hm. unfold destino.
  assert (forall k c, conversaciones ch !! k = Some c ->
    conv_ok ch k (mkConv (c_ids c) (c_mensajes c ++ [m])) /\
    (forall c0, conversaciones ch !! k = Some c0 -> c_ids c0 = c_ids c)) as K.
  { intros k c Hc. destruct (H2 k c Hc) as (G1 & G2 & _). split; [|congruence]. split; [done|]. cbn.
    split; [|by destruct (c_mensajes c)]. apply Forall_app. split; [done|by constructor]. }
  destruct (conversaciones ch !! (a +:+ "-" +:+ b)) as [c|] eqn:Ec; [exact (K _ _ Ec)|].
  destruct (conversaciones ch !! (b +:+ "-" +:+ a)) as [c|] eqn:Ec'; [exact (K _ _ Ec')|].
  split; [|congruence]. split; [|split; [by constructor|done]]. by exists a, b.
Qed.


(** A conversation stored under two md5 ids is the one of those users. *)
Lemma conv_ids ch s t c : valido ch -> conversaciones ch !! (Md5.md5 s +:+ "-" +:+ Md5.md5 t) = Some c ->
  c_ids c = [Md5.md5 s; Md5.md5 t].
Proof.
  intros (H1 & H2 & _) Hc. destruct (H2 _ c Hc) as ((a & b & -> & Hk & [ua Ha] & [ub Hb]) & _).
  destruct (H1 _ _ Ha) as [_ ->], (H1 _ _ Hb) as [_ ->]. by apply clave_inj in Hk as [-> ->].
Qed.

(** The message is the last one of a conversation of both users. *)
Lemma destino_entrega ch s t m : valido ch -> let '(k, c) := destino (Md5.md5 s) (Md5.md5 t) m ch in
  last (c_mensajes c) = Some m /\ In (Md5.md5 s) (c_ids c) /\ In (Md5.md5 t) (c_ids c).
Proof.
  intros Hv. unfold destino.
  destruct (conversaciones ch !! (Md5.md5 s +:+ "-" +:+ Md5.md5 t)) as [c|] eqn:Ec.
  { cbn [c_mensajes c_ids]. rewrite (conv_ids _ _ _ _ Hv Ec), last_snoc. cbn. tauto. }
  destruct (conversaciones ch !! (Md5.md5 t +:+ "-" +:+ Md5.md5 s)) as [c|] eqn:Ec'.
  { cbn [c_mensajes c_ids]. rewrite (conv_ids _ _ _ _ Hv Ec'), last_snoc. cbn. tauto. }
  cbn. tauto.
Qed.

Lemma valido_guardar_conv ch k c : valido ch -> conv_ok ch k c ->
  (forall c0, conversaciones ch !! k = Some c0 -> c_ids c0 = c_ids c) -> valido (guardar_conv k c ch).
Proof.
  intros (H1 & H2 & H3) Hc Hsame. split_and!; [exact H1| |].
  - intros k' c'. cbn. destruct (decide (k' = k)) as [->|Hn].
    + rewrite lookup_insert_eq. by intros [= <-].
    + rewrite lookup_insert_ne by done. apply H2.
  - apply indice_ok_conv; [done| |done]. destruct Hc as ((? & ? & -> & _) & _). done.
Qed.

Lemma valido_agregar_mensaje ch a b m : valido ch -> is_Some (usuarios ch !! a) ->
  is_Some (usuarios ch !! b) -> mensaje_ok m -> valido (agregar_mensaje a b m ch).
Proof.
  intros Hv Ha Hb Hm. pose proof (destino_ok ch a b m Hv Ha Hb Hm) as Hd. unfold agregar_mensaje.
  destruct (destino a b m ch) as [k c]. destruct Hd. by apply valido_guardar_conv.
Qed.

End ChatOk.
