(* ===== verification/ServicioOk.v ===== *)
(** * ServicioOk: the services implement the operations on chats

    For every service, the chat it leaves and the reply it gives, as functions of the chat
    it finds and of the parameters of the request. *)

From S2P Require Import Prelude Libc Md5 JsonValue JsonReader JsonWriter JsonTexto JsonWriterOk StringUtil.
From S2P Require Import Mongoose Mundo Loger Entidades BaseDeDatos Localizacion Servicio Corre Chat.
Open Scope Z_scope.

Module ServicioOk.
#[local] Strategy 1000 [Md5.md5 Md5.md5_en].
Import Constantes Json Servicio LogerOk Corre Chat ChatOk.

(** ** Replies *)

Definition json_respuesta (mensaje : string) (success : bool) : Value :=
  objectValue [(CZStr keyPayload, stringValue mensaje);
               (CZStr keySuccess, stringValue (StringUtil.toString success))].

Lemma texto_respuesta_json mensaje success :
  texto_respuesta mensaje success = JsonWriter.toStyledString (json_respuesta mensaje success).
Proof. by destruct success. Qed.

(** The reply after [responder]. *)
Definition responde (mensaje : string) (success : bool) (s : Mongoose.Salida) : Mongoose.Salida :=
  match Mongoose.mg_printf_data (texto (texto_respuesta mensaje success)) s with
  | Ok s' => s'
  | Fallo _ => s
  end.

Section Respuestas.
Context {E : Entorno} {A : Almacen} {AO : AlmacenOk A}.
Abbreviation W := (M (Mundo A)).

Lemma texto_respuesta_ok mensaje success (t := texto (texto_respuesta mensaje success)) :
  texto_respuesta mensaje success = Ok t /\ c_str t = t /\
  (contiene "%" mensaje = false -> contiene "%" t = false).
Proof.
  unfold t. rewrite texto_respuesta_json.
  destruct (texto_ok (json_respuesta mensaje success)) as (H & _); [done|cbn; lia|].
  split_and!; [done| |].
  - apply c_str_id. by eapply JsonWriterOk.styled_sin_nul; [|exact H].
  - intros Hm. apply (JsonWriterOk.styled_sin_char "%" eq_refl (json_respuesta mensaje success)); [done| |exact H].
    cbn. rewrite Hm. by destruct success.
Qed.

Lemma corre_responder w mensaje success : usable w -> contiene "%" mensaje = false ->
  corre w (responder mensaje success) tt (mem w) (responde mensaje success (salida w)).
Proof.
  intros Hu Hm. destruct (texto_respuesta_ok mensaje success) as (Ht & Hc & Hp).
  unfold responder. eapply corre_alzar; [exact Ht|]. rewrite Hc. unfold responde, mg_printf_data.
  exists (con_salida (responde mensaje success (salida w)) w). split.
  - erewrite bind_ok by reflexivity. unfold responde, Mongoose.mg_printf_data, Mongoose.ns_avprintf, Mongoose.avprintf_texto.
    by rewrite Libc.printf0_id by auto.
  - destruct Hu. unfold llega, usable, mem. cbn. split_and!; try done.
Qed.

(** The operation ends with one reply, after leaving [m'] in the database, and then only
    logs. *)
Definition termina_en (w : Mundo A) (m : W unit) (mensaje : string) (success : bool)
  (m' : gmap string string) : Prop :=
  exists w1 post, alcanza w m' (salida w) w1 /\ solo_log post /\
    m w = (responder mensaje success;;; post) w1.

Lemma termina_responder w mensaje success :
  usable w -> termina_en w (responder mensaje success) mensaje success (mem w).
Proof.
  intros Hu. exists w, (ret tt). split; [by apply llega_alcanza, llega_refl|]. split; [auto with mensajero|].
  unfold bindM. by destruct (responder mensaje success w) as [[[]|e] w'].
Qed.

Lemma termina_post w (m k : W unit) mensaje success m' :
  termina_en w m mensaje success m' -> solo_log k -> termina_en w (m;;; k) mensaje success m'.
Proof.
  intros (w1 & post & H1 & Hp & E1) Hk. exists w1, (post;;; k). split; [done|].
  split; [apply solo_log_bind; [done|by intros _]|].
  rewrite <- (bind_assoc (responder mensaje success) (fun _ => post)). unfold bindM at 1 2.
  unfold bindM at 1 in E1. by rewrite E1.
Qed.

(** With a reply without ['%'] the operation answers. *)
Lemma termina_total w m mensaje success m' : termina_en w m mensaje success m' ->
  contiene "%" mensaje = false ->
  exists w', m w = (Ok tt, w') /\ alcanza w m' (responde mensaje success (salida w)) w'.
Proof.
  intros (w1 & post & H1 & Hp & E1) Hm.
  destruct (corre_responder w1 mensaje success (proj1 H1) Hm) as (w2 & E2 & H2).
  destruct (corre_log_fin w2 post (llega_usable _ _ _ _ H2) Hp) as (w3 & E3 & H3).
  exists w3. split.
  - rewrite E1. by erewrite bind_ok by exact E2.
  - rewrite (llega_mem _ _ _ _ H2), (llega_salida _ _ _ _ H2) in H3. apply llega_alcanza in H2, H3.
    destruct (H1) as (_ & <- & Hsal & _). rewrite <- Hsal.
    eapply alcanza_trans; [exact H1|]. by eapply alcanza_trans.
Qed.

(** Whenever it answers, the database is the one announced. *)
Lemma termina_parcial w m mensaje success m' w' : termina_en w m mensaje success m' ->
  m w = (Ok tt, w') -> usable w' /\ mem w' = m'.
Proof.
  intros (w1 & post & H1 & Hp & E1) E'. rewrite E1 in E'. apply bind_ok_inv in E' as ([] & w2 & E2 & E3).
  assert (usable w2 /\ mem w2 = m') as (Hu2 & Hm2).
  { destruct H1 as (Hu1 & <- & _). unfold responder, mg_printf_data in E2.
    destruct (texto_respuesta_ok mensaje success) as (Ht & _). rewrite Ht in E2.
    unfold bindM, alzar, leer, cambiar in E2.
    destruct (Mongoose.mg_printf_data _ (salida w1)) as [s|]; [|done]. by injection E2 as <-. }
  destruct (Hp w2) as ([] & w3 & E3' & H3). rewrite E3 in E3'. injection E3' as ->.
  destruct (igual_llega w2 w3 Hu2 H3) as (G1 & G2 & _). split; congruence.
Qed.

(** The operation turns a process that represents [ch] into one that represents [ch'],
    replying [mensaje] with flag [success] ... *)
Definition implementa (w : Mundo A) (m : W unit) (ch' : Chat) (mensaje : string) (success : bool) : Prop :=
  exists m', termina_en w m mensaje success m' /\ Representa ch' m' /\ valido ch'.

(** ... and answers. *)
Definition atiende (w : Mundo A) (m : W unit) (ch' : Chat) (mensaje : string) (success : bool) : Prop :=
  exists w', m w = (Ok tt, w') /\ usable w' /\ Representa ch' (mem w') /\ valido ch' /\
    salida w' = responde mensaje success (salida w).

Lemma implementa_atiende w m ch' mensaje success :
  implementa w m ch' mensaje success -> contiene "%" mensaje = false -> atiende w m ch' mensaje success.
Proof.
  intros (m' & Ht & Hr & Hv) Hm. destruct (termina_total _ _ _ _ _ Ht Hm) as (w' & E' & Hu & Hm' & Hs & _).
  exists w'. split_and!; try done. by rewrite Hm'.
Qed.

(** The states in which a request is served. *)
Definition sirve (ch : Chat) (w : Mundo A) : Prop := usable w /\ Representa ch (mem w) /\ valido ch.

Lemma implementa_igual ch w m mensaje success :
  sirve ch w -> termina_en w m mensaje success (mem w) -> implementa w m ch mensaje success.
Proof. intros (Hu & Hr & Hv) H. by exists (mem w). Qed.

Lemma sirve_llega ch w w1 : sirve ch w -> llega w (mem w) (salida w) w1 -> sirve ch w1.
Proof. intros (Hu & Hr & Hv) H. split_and!; [by eapply llega_usable| |done]. by rewrite (llega_mem _ _ _ _ H). Qed.

(** One step, to a state that is known. *)
Lemma implementa_paso {B} w w1 (m : W B) (f : B -> W unit) b m1 ch' mensaje success :
  m w = (Ok b, w1) -> alcanza w m1 (salida w) w1 -> implementa w1 (f b) ch' mensaje success ->
  implementa w (bindM m f) ch' mensaje success.
Proof.
  intros E1 H1 (m' & (w2 & post & H2 & Hp & E2) & Hr & Hv).
  exists m'. split_and!; try done. exists w2, post. destruct (H1) as (_ & _ & Hsal & _). rewrite Hsal in H2.
  split_and!; [by eapply alcanza_trans|done|]. by erewrite bind_ok by exact E1.
Qed.

Lemma implementa_llega {B} ch w (m : W B) (f : B -> W unit) b ch' mensaje success :
  sirve ch w -> corre w m b (mem w) (salida w) ->
  (forall w1, sirve ch w1 -> implementa w1 (f b) ch' mensaje success) ->
  implementa w (bindM m f) ch' mensaje success.
Proof.
  intros Hs (w1 & E1 & H1) Hf. eapply implementa_paso; [exact E1|by apply llega_alcanza|].
  apply Hf. by eapply sirve_llega.
Qed.

Lemma implementa_alzar {B} w (r : res B) (f : B -> W unit) b ch' mensaje success :
  r = Ok b -> implementa w (f b) ch' mensaje success -> implementa w (bindM (alzar r) f) ch' mensaje success.
Proof. intros -> H. exact H. Qed.

Lemma implementa_log ch w (m : W unit) (f : W unit) ch' mensaje success :
  sirve ch w -> solo_log m -> (forall w1, sirve ch w1 -> implementa w1 f ch' mensaje success) ->
  implementa w (m;;; f) ch' mensaje success.
Proof.
  intros Hs Hm Hf. eapply implementa_llega; [exact Hs| |exact Hf]. apply corre_log_fin; [by destruct Hs|done].
Qed.

Lemma implementa_post w (m k : W unit) ch' mensaje success :
  implementa w m ch' mensaje success -> solo_log k -> implementa w (m;;; k) ch' mensaje success.
Proof. intros (m' & Ht & Hr) Hk. exists m'. split; [by apply termina_post|done]. Qed.

Lemma implementa_responder ch w mensaje success : sirve ch w ->
  implementa w (responder mensaje success) ch mensaje success.
Proof. intros Hs. apply implementa_igual; [done|]. apply termina_responder. by destruct Hs. Qed.

(** A write, which moves to [ch1]. *)
Lemma implementa_escribe ch1 w (m : W unit) (f : W unit) m1 ch' mensaje success :
  corre w m tt m1 (salida w) -> Representa ch1 m1 -> valido ch1 ->
  (forall w1, sirve ch1 w1 -> implementa w1 f ch' mensaje success) ->
  implementa w (m;;; f) ch' mensaje success.
Proof.
  intros (w1 & E1 & H1) Hr1 Hv1 Hf. eapply implementa_paso; [exact E1|by apply llega_alcanza|]. apply Hf.
  split_and!; [by eapply llega_usable| |done]. by rewrite (llega_mem _ _ _ _ H1).
Qed.

End Respuestas.

(** ** Users *)
Section Usuarios.
Context {E : Entorno} {A : Almacen} {AO : AlmacenOk A}.
Abbreviation W := (M (Mundo A)).
Variable conn : Mongoose.mg_connection.
Abbreviation param := (fun k => getParametro conn k keyDefault).

Lemma noExiste_buscar ch k : valido ch ->
  noExiste (buscar_usuario ch k) = match usuarios ch !! k with Some _ => false | None => true end.
Proof.
  intros (H1 & _). unfold noExiste, buscar_usuario. destruct (usuarios ch !! k) as [u|] eqn:Ek; [|done].
  destruct (H1 k u Ek) as [Hid Hk]. cbn [default id]. rewrite Hid, Hk. apply String.eqb_neq. intros Hx.
  assert (contiene "U" (Md5.md5 (Usuario.telefono u)) = false) as Hu by (by apply md5_sin). by rewrite Hx in Hu.
Qed.

Lemma implementa_usuario ch w tel (f : Usuario.Usuario -> W unit) ch' mensaje success :
  sirve ch w ->
  (forall w1, sirve ch w1 ->
     implementa w1 (f (buscar_usuario ch (Md5.md5 tel))) ch' mensaje success) ->
  implementa w (bindM (UsuarioBD.obtenerPorTelefono tel) f) ch' mensaje success.
Proof.
  intros Hs Hf. eapply implementa_llega; [exact Hs| |exact Hf]. destruct Hs as (Hu & Hr & _).
  by apply corre_obtenerPorTelefono.
Qed.

Lemma implementa_persistir ch w u (f : W unit) ch' mensaje success :
  sirve ch w -> Usuario.id u = Md5.md5 (Usuario.telefono u) ->
  (forall w1, sirve (guardar_usuario u ch) w1 -> implementa w1 f ch' mensaje success) ->
  implementa w (UsuarioBD.persistir u;;; f) ch' mensaje success.
Proof.
  intros Hs Hid Hf. destruct (Hs) as (Hu & Hr & Hv).
  eapply implementa_escribe; [by apply corre_persistir_usuario|by apply representa_usuario| |exact Hf].
  by apply valido_guardar_usuario.
Qed.

Lemma corre_ultimaConexion w u : usable w ->
  corre w (Usuario.registrarUltimaConexion u)
    (Usuario.setUltimaConexion (c_str (ctime (reloj (lecturas w)))) u) (mem w) (salida w).
Proof.
  intros Hu. exists (con_lecturas (S (lecturas w)) w). split; [reflexivity|].
  destruct Hu. unfold llega, usable, mem. by split_and!.
Qed.

(** *** Registration *)

Definition usuario_registrado (ultima : string) : Usuario.Usuario :=
  Usuario.mkUsuario (param keyNombre) fotoDePerfilDefault (Md5.md5 (param keyTelefono)) (param keyTelefono)
    true "desconocida" ultima "" (param keyPassword).

Lemma registrar_implementa ch w : sirve ch w ->
  match usuarios ch !! Md5.md5 (param keyTelefono) with
  | Some _ => implementa w (registrarUsuario conn) ch "El usuario ya existe" false
  | None => exists n, implementa w (registrarUsuario conn)
      (guardar_usuario (usuario_registrado (c_str (ctime (reloj n)))) ch) "Usuario registrado correctamente" true
  end.
Proof.
  intros Hs. pose proof (noExiste_buscar ch (Md5.md5 (param keyTelefono)) (proj2 (proj2 Hs))) as Hn.
  unfold registrarUsuario, obtenerUsuario. destruct (usuarios ch !! Md5.md5 (param keyTelefono)) as [u|] eqn:Eu.
  - apply (implementa_usuario ch); [done|]. intros w1 Hs1. rewrite Hn. cbn [negb].
    apply (implementa_log ch); [done|auto with mensajero|]. intros w2 Hs2. by apply implementa_responder.
  - destruct (corre_obtenerPorTelefono ch w (param keyTelefono)) as (w1 & E1 & H1); [by destruct Hs as (? & ? & _)..|].
    pose proof (sirve_llega _ _ _ Hs H1) as Hs1. exists (lecturas w1). eapply implementa_paso; [exact E1|by apply llega_alcanza|].
    rewrite Hn. cbn [negb]. unfold Usuario.Usuario_nuevo.
    eapply (implementa_llega ch); [done| |].
    + eapply corre_bind; [apply corre_ultimaConexion; by destruct Hs1|]. intros w2 H2.
      apply corre_fin; eauto with mensajero.
    + intros w2 Hs2. apply (implementa_persistir ch); [done|done|]. intros w3 Hs3.
      apply implementa_post; [by apply implementa_responder|auto with mensajero].
Qed.

(** *** Profile *)

Definition usuario_editado (u : Usuario.Usuario) : Usuario.Usuario :=
  Usuario.mkUsuario (param keyNombre) (param keyFotoDePerfil) (Usuario.id u) (Usuario.telefono u)
    (StringUtil.toBoolean (param keyEstadoDeConexion)) (param keyLocalizacion) (Usuario.ultimaConexion u)
    (Usuario.token u) (param keyPassword).

(** The chat and the reply of [administrarPerfil]. *)
Definition perfil (ch : Chat) : Chat * (string * bool) :=
  match usuarios ch !! Md5.md5 (param keyTelefono) with
  | None => (ch, ("El usuario  no se encuentra registrado en el sistema", false))
  | Some u =>
      if String.eqb (Usuario.token u) (param keyTokenSesion) then
        (guardar_usuario (usuario_editado u) ch,
         ("Se modificaron los datos del usuario " +:+ param keyNombre +:+ " correctamente. Token:" +:+
          Usuario.token u, true))
      else (ch, ("El usuario " +:+ Usuario.nombre u +:+ " no posee un token de session correcto", false))
  end.

Lemma perfil_implementa ch w : sirve ch w ->
  implementa w (administrarPerfil conn) (perfil ch).1 (perfil ch).2.1 (perfil ch).2.2.
Proof.
  intros Hs. pose proof (noExiste_buscar ch (Md5.md5 (param keyTelefono)) (proj2 (proj2 Hs))) as Hn.
  unfold administrarPerfil, obtenerUsuario. apply (implementa_usuario ch); [done|]. intros w1 Hs1.
  apply implementa_post; [|auto with mensajero]. rewrite Hn. unfold perfil. clear Hs w.
  destruct (usuarios ch !! Md5.md5 (param keyTelefono)) as [u|] eqn:Eu; cbn [negb].
  - assert (buscar_usuario ch (Md5.md5 (param keyTelefono)) = u) as ->
      by (unfold buscar_usuario; by rewrite Eu).
    destruct (String.eqb (Usuario.token u) (param keyTokenSesion)).
    + apply (implementa_persistir ch); [done| |].
      { destruct Hs1 as (_ & _ & Hv & _). destruct (Hv _ u Eu) as [Hid Htel]. cbn. congruence. }
      intros w2 Hs2. apply (implementa_log (guardar_usuario (usuario_editado u) ch)); [done|auto with mensajero|].
      intros w3 Hs3. by apply implementa_responder.
    + apply (implementa_log ch); [done|auto with mensajero|]. intros w2 Hs2. by apply implementa_responder.
  - assert (buscar_usuario ch (Md5.md5 (param keyTelefono)) = Usuario.Usuario_vacio) as ->
      by (unfold buscar_usuario; by rewrite Eu).
    apply (implementa_log ch); [done|auto with mensajero|]. intros w2 Hs2. by apply implementa_responder.
Qed.

(** *** Query *)

Definition json_consulta (u : Usuario.Usuario) : Value :=
  objectValue
    [(CZStr keyEstadoDeConexion, stringValue (StringUtil.toString (Usuario.conectado u)));
     (CZStr keyFotoDePerfil, stringValue (Usuario.fotoDePerfil u));
     (CZStr keyLocalizacion, stringValue (Usuario.localizacion u));
     (CZStr keyNombre, stringValue (Usuario.nombre u));
     (CZStr keyPassword, stringValue (Usuario.password u));
     (CZStr keyTokenSesion, stringValue (Usuario.token u));
     (CZStr "idUsuario", stringValue (Usuario.id u))].

(** The user after the query: the last connection is updated and, on request, the token is
    computed anew. *)
Definition usuario_consultado (ultima : string) (u : Usuario.Usuario) : Usuario.Usuario :=
  let u := Usuario.setUltimaConexion ultima u in
  if StringUtil.toBoolean (param keyRenovarToken)
  then Usuario.set_token (Md5.md5 (Usuario.telefono u +:+ ultima)) u else u.

Definition consulta (ch : Chat) (tel ultima : string) : Chat * (string * bool) :=
  match usuarios ch !! Md5.md5 tel with
  | None =>
      (ch, ("No se pudo obtener el estado del usuario con numero: " +:+ param keyTelefono +:+
            " ya que no se encuentra registrado en el sistema.", false))
  | Some u =>
      let u := usuario_consultado ultima u in
      (guardar_usuario u ch, (texto (JsonWriter.toStyledString (json_consulta u)), true))
  end.

Lemma consulta_implementa ch w tel : sirve ch w ->
  getParametroIdMetodoGET conn urlBaseUsuario = Ok tel ->
  exists n, let r := consulta ch tel (c_str (ctime (reloj n))) in
    implementa w (consultarUsuarioOnline conn) r.1 r.2.1 r.2.2.
Proof.
  intros Hs Htel. pose proof (noExiste_buscar ch (Md5.md5 tel) (proj2 (proj2 Hs))) as Hn.
  destruct (corre_obtenerPorTelefono ch w tel) as (w1 & E1 & H1); [by destruct Hs as (? & ? & _)..|].
  pose proof (sirve_llega _ _ _ Hs H1) as Hs1. exists (lecturas w1). cbv zeta.
  unfold consultarUsuarioOnline. eapply implementa_alzar; [exact Htel|].
  eapply implementa_paso; [exact E1|by apply llega_alcanza|]. clear E1 H1 Hs w.
  apply implementa_post; [|auto with mensajero]. rewrite Hn. unfold consulta.
  destruct (usuarios ch !! Md5.md5 tel) as [u|] eqn:Eu; cbn [negb].
  - assert (buscar_usuario ch (Md5.md5 tel) = u) as -> by (unfold buscar_usuario; by rewrite Eu).
    eapply (implementa_llega ch); [done|apply corre_ultimaConexion; by destruct Hs1|]. intros w2 Hs2.
    set (ul := c_str (ctime (reloj (lecturas w1)))).
    assert ((if StringUtil.toBoolean (param keyRenovarToken)
             then Usuario.calcularTokenDeSesion (Usuario.setUltimaConexion ul u)
             else (Usuario.token (Usuario.setUltimaConexion ul u), Usuario.setUltimaConexion ul u)) =
            (Usuario.token (usuario_consultado ul u), usuario_consultado ul u)) as Heq.
    { unfold usuario_consultado. by destruct (StringUtil.toBoolean _). }
    rewrite Heq. cbv beta iota. set (v := usuario_consultado ul u).
    eapply implementa_alzar; [reflexivity|].
    assert (Usuario.id v = Md5.md5 (Usuario.telefono v)) as Hid.
    { destruct Hs1 as (_ & _ & Hv & _). destruct (Hv _ u Eu) as [Hid Ht]. unfold v, usuario_consultado.
      destruct (StringUtil.toBoolean _); cbn; congruence. }
    apply (implementa_persistir ch); [done|done|]. intros w3 Hs3.
    destruct (texto_ok (json_consulta v)) as (Ht & _); [done|cbn; lia|].
    eapply implementa_alzar; [exact Ht|].
    apply implementa_post; [by apply implementa_responder|auto with mensajero].
  - apply (implementa_log ch); [done|auto with mensajero|]. intros w2 Hs2. by apply implementa_responder.
Qed.

End Usuarios.

(** ** Conversations *)
Section Conversaciones.
Context {E : Entorno} {A : Almacen} {AO : AlmacenOk A}.
Abbreviation W := (M (Mundo A)).
Variable conn : Mongoose.mg_connection.
Abbreviation param := (fun k => getParametro conn k keyDefault).

Lemma buscar_Some ch k u : usuarios ch !! k = Some u -> buscar_usuario ch k = u.
Proof. intros H. unfold buscar_usuario. by rewrite H. Qed.

Lemma buscar_id ch k u : valido ch -> usuarios ch !! k = Some u -> Usuario.id u = k.
Proof. intros (H & _) Hu. by destruct (H k u Hu). Qed.

(** A conversation that exists has its key as id, and is not the "not found" one. *)
Lemma buscar_conv ch k : valido ch ->
  noEncontrada (buscar_conversacion ch k) = match conversaciones ch !! k with Some _ => false | None => true end /\
  (forall c, conversaciones ch !! k = Some c ->
     buscar_conversacion ch k = abrir ch k c /\ Conversacion.getId (abrir ch k c) = k /\
     conv_de (abrir ch k c) = c).
Proof.
  intros Hv. unfold buscar_conversacion. destruct (conversaciones ch !! k) as [c|] eqn:Ek; [|done].
  destruct (proj1 (proj2 Hv) k c Ek) as ((a & b & Hids & Hk & [ua Ha] & [ub Hb]) & _).
  destruct (proj1 Hv a ua Ha) as [Ia Ta], (proj1 Hv b ub Hb) as [Ib Tb].
  assert (Conversacion.getId (abrir ch k c) = k) as Hid.
  { unfold Conversacion.getId, abrir. cbn [Conversacion.id]. rewrite Hk.
    destruct (String.eqb_spec (a +:+ "-" +:+ b) "") as [H|]; [|done]. exfalso. by destruct a. }
  split.
  - unfold noEncontrada. rewrite Hid. apply String.eqb_neq.
    destruct (clave_conv_ok (Usuario.telefono ua) (Usuario.telefono ub)) as (_ & _ & Hne & _).
    rewrite Hk, Ta, Tb. exact Hne.
  - intros c' [= <-]. split_and!; [done|done|]. unfold conv_de, abrir. cbn.
    destruct c as [ids ms]. cbn in *. subst ids. cbn. by rewrite (buscar_Some _ _ _ Ha), (buscar_Some _ _ _ Hb), Ia, Ib.
Qed.

Lemma corre_agregar ch w k c m : usable w -> valido ch -> conversaciones ch !! k = Some c ->
  corre w (Conversacion.persistir (Conversacion.agregarMensaje m (buscar_conversacion ch k))) tt
    (conv_mem k (mkConv (c_ids c) (c_mensajes c ++ [m])) (mem w)) (salida w).
Proof.
  intros Hu Hv Hc. destruct (buscar_conv ch k Hv) as [_ H]. destruct (H c Hc) as (-> & Hid & Hde).
  pose proof (corre_persistir_conv w (Conversacion.agregarMensaje m (abrir ch k c)) Hu) as Hp.
  assert (Conversacion.getId (Conversacion.agregarMensaje m (abrir ch k c)) = k) as Hk by exact Hid.
  assert (conv_de (Conversacion.agregarMensaje m (abrir ch k c)) = mkConv (c_ids c) (c_mensajes c ++ [m])) as Hc'.
  { change (mkConv (c_ids (conv_de (abrir ch k c))) (c_mensajes c ++ [m]) = mkConv (c_ids c) (c_mensajes c ++ [m])).
    by rewrite Hde. }
  by rewrite Hk, Hc' in Hp.
Qed.

Lemma id_nueva ua ub ms : Usuario.id ua <> "" ->
  Conversacion.getId (Conversacion.Conversacion_nueva [ua; ub] ms) = Usuario.id ua +:+ "-" +:+ Usuario.id ub.
Proof.
  intros Ha. unfold Conversacion.Conversacion_nueva, Conversacion.getId. cbn [Conversacion.id Conversacion.usuarios negb String.eqb].
    cbn [fmap list_fmap StringUtil.acumular]. rewrite String.eqb_refl, app_nil_l_s.
  rewrite (proj2 (String.eqb_neq _ _) Ha), app_assoc_s. by destruct (Usuario.id ua).
Qed.

Lemma corre_nueva w ua ub ms : usable w -> Usuario.id ua <> "" ->
  corre w (Conversacion.persistir (Conversacion.Conversacion_nueva [ua; ub] ms)) tt
    (conv_mem (Usuario.id ua +:+ "-" +:+ Usuario.id ub) (mkConv [Usuario.id ua; Usuario.id ub] ms) (mem w))
    (salida w).
Proof.
  intros Hu Ha. pose proof (corre_persistir_conv w (Conversacion.Conversacion_nueva [ua; ub] ms) Hu) as H.
  by rewrite (id_nueva ua ub ms Ha) in H.
Qed.

(** The message goes to the conversation of the two users. *)
Lemma corre_almacenar_mensaje ch w a b ua ub m : sirve ch w ->
  usuarios ch !! a = Some ua -> usuarios ch !! b = Some ub -> mensaje_ok m ->
  exists m', corre w (almacenar_mensaje ua ub m) tt m' (salida w) /\
    Representa (agregar_mensaje a b m ch) m' /\ valido (agregar_mensaje a b m ch).
Proof.
  intros (Hu & Hr & Hv) Ha Hb Hm.
  pose proof (buscar_id _ _ _ Hv Ha) as Ia. pose proof (buscar_id _ _ _ Hv Hb) as Ib.
  exists (let '(k, c) := destino a b m ch in conv_mem k c (mem w)).
  assert (item a) as Ita by (eapply id_item; [exact Hv|by exists ua]).
  assert (let '(k, c) := destino a b m ch in item k /\ k <> keyDatoNoEncontrado) as Hk.
  { destruct (proj1 Hv a ua Ha) as [_ ->], (proj1 Hv b ub Hb) as [_ ->].
    destruct (clave_conv_ok (Usuario.telefono ua) (Usuario.telefono ub)) as (? & ? & _).
    destruct (clave_conv_ok (Usuario.telefono ub) (Usuario.telefono ua)) as (? & ? & _).
    unfold destino. by do 2 (destruct (conversaciones ch !! _); [done|]). }
  split_and!.
  - unfold almacenar_mensaje. rewrite Ia, Ib. unfold destino.
    eapply corre_bind; [by apply (corre_obtener_conv ch)|]. intros w1 H1.
    pose proof (llega_usable _ _ _ _ H1) as Hu1. rewrite <- (llega_mem _ _ _ _ H1) in *.
    rewrite <- (llega_salida _ _ _ _ H1). clear H1.
    rewrite (proj1 (buscar_conv ch (a +:+ "-" +:+ b) Hv)).
    destruct (conversaciones ch !! (a +:+ "-" +:+ b)) as [c|] eqn:Ec; cbn [negb]; [by apply corre_agregar|].
    eapply corre_bind; [by apply (corre_obtener_conv ch)|]. intros w2 H2.
    pose proof (llega_usable _ _ _ _ H2) as Hu2. rewrite <- (llega_mem _ _ _ _ H2) in *.
    rewrite <- (llega_salida _ _ _ _ H2). clear H2.
    rewrite (proj1 (buscar_conv ch (b +:+ "-" +:+ a) Hv)).
    destruct (conversaciones ch !! (b +:+ "-" +:+ a)) as [c|] eqn:Ec'; cbn [negb]; [by apply corre_agregar|].
    subst a b. apply corre_nueva; [done|by destruct Ita].
  - unfold agregar_mensaje. destruct (destino a b m ch) as [k c].
    destruct Hk. apply representa_guardar_conv; [done..|by apply indice_items_valido].
  - apply valido_agregar_mensaje; [done|by exists ua|by exists ub|done].
Qed.

(** *** Sending a message *)

(** The chat and the reply of [almacenarConversacion]. *)
Definition envio (ch : Chat) : Chat * (string * bool) :=
  let a := Md5.md5 (param keyIdUsuarioEmisor) in
  let b := Md5.md5 (param keyIdUsuarioReceptor) in
  match usuarios ch !! a, usuarios ch !! b with
  | Some ua, Some ub =>
      if String.eqb (Usuario.token ua) (param keyTokenSesion) then
        let m := Mensaje.Mensaje_nuevo (param keyCuerpo) a (param keyFecha) in
        (agregar_mensaje a b m ch, (Mensaje.id m, true))
      else (ch, ("El usuario " +:+ Usuario.nombre ua +:+ " no posee un token de session correcto", false))
  | oa, ob =>
      (ch, ("No se pudo almacenar la conversacion porque: " +:+
            (if oa is None then "el emisor no existe." else "") +:+
            (if ob is None then " el receptor no existe." else ""), false))
  end.

Lemma mensaje_nuevo_ok c t f : contiene SeparadorListaBD c = false -> contiene SeparadorListaBD f = false ->
  mensaje_ok (Mensaje.Mensaje_nuevo c (Md5.md5 t) f).
Proof. intros. unfold mensaje_ok, Mensaje.Mensaje_nuevo. cbn -[Md5.md5]. by rewrite !md5_sin. Qed.

Lemma envio_implementa ch w : sirve ch w ->
  contiene SeparadorListaBD (param keyCuerpo) = false -> contiene SeparadorListaBD (param keyFecha) = false ->
  implementa w (almacenarConversacion conn) (envio ch).1 (envio ch).2.1 (envio ch).2.2.
Proof.
  intros Hs Hc Hf. pose proof (proj2 (proj2 Hs)) as Hv. unfold almacenarConversacion, envio.
  apply (implementa_usuario ch); [done|]. intros w1 Hs1. clear Hs w.
  apply (implementa_usuario ch); [done|]. intros w2 Hs2. clear Hs1 w1.
  rewrite !(noExiste_buscar ch) by done.
  set (a := Md5.md5 (param keyIdUsuarioEmisor)). set (b := Md5.md5 (param keyIdUsuarioReceptor)).
  destruct (usuarios ch !! a) as [ua|] eqn:Ea; destruct (usuarios ch !! b) as [ub|] eqn:Eb; cbn [orb].
  2-4: apply implementa_post; [by apply implementa_responder|];
    apply solo_log_bind; [auto with mensajero|intros _; auto with mensajero].
  rewrite (buscar_Some _ _ _ Ea), (buscar_Some _ _ _ Eb).
  destruct (String.eqb (Usuario.token ua) (param keyTokenSesion)).
  - rewrite (buscar_id _ _ _ Hv Ea). cbv zeta.
    destruct (corre_almacenar_mensaje ch w2 a b ua ub
      (Mensaje.Mensaje_nuevo (param keyCuerpo) a (param keyFecha))) as (m' & H1 & H2 & H3); [done..|by apply mensaje_nuevo_ok|].
    eapply implementa_escribe; [exact H1|exact H2|exact H3|]. intros w3 Hs3. by apply implementa_responder.
  - apply (implementa_log ch); [done|auto with mensajero|]. intros w3 Hs3. by apply implementa_responder.
Qed.

End Conversaciones.
End ServicioOk.
