(* ===== verification/ConsultasOk.v ===== *)
(** * ConsultasOk: the services that read, and the broadcast

    The replies of the services that list messages, conversations and contacts, as functions
    of the chat, and the chat a broadcast leaves. *)

From S2P Require Import Prelude Libc Md5 JsonValue JsonReader JsonWriter JsonTexto JsonReaderOk.
From S2P Require Import JsonWriterOk StringUtil Mongoose Mundo Loger Entidades BaseDeDatos Localizacion.
From S2P Require Import LocalizacionOk Servicio Corre Chat ServicioOk.
Open Scope Z_scope.

Module ConsultasOk.
#[local] Strategy 1000 [Md5.md5 Md5.md5_en].
Import Constantes Json JsonLeyes JsonTexto Servicio LogerOk Corre Chat ChatOk StringUtilOk ServicioOk.

(** ** Lists built in place *)

(** The value of [Json::Value v; v[key][0] = x0; v[key][1] = x1; ...] *)
Definition lista_json (key : string) (vs : list Value) : Value :=
  match vs with
  | [] => nullValue
  | _ => objectValue [(CZStr key, arrayValue (indexar 0 vs))]
  end.

Lemma lista_json_agregar key vs f v : f nullValue = Ok v ->
  resolveReference key (at_index (length vs) f) (lista_json key vs) = Ok (lista_json key (vs ++ [v])).
Proof.
  intros Hf. destruct vs as [|x vs]; cbn [lista_json resolveReference].
  - cbn. by rewrite Hf.
  - cbn [map_update]. rewrite CZ_irrefl, CZ_eq_refl. unfold at_index.
    rewrite map_update_final by (apply JsonReaderOk.indexar_menores; cbn; lia). rewrite Hf. cbn [bindR].
    replace (indexar 0 (x :: vs) ++ [(CZIndex (length (x :: vs)), v)]) with (indexar 0 ((x :: vs) ++ [v])); [done|].
    by rewrite JsonReaderOk.indexar_app.
Qed.

Definition plano (v : Value) : Prop := canonico v = true /\ (JsonWriter.altura v <= 1)%nat.

Lemma indexar_canonico k vs : Forall plano vs ->
  densa k (indexar k vs) = true /\ canonico (arrayValue (indexar 0 vs)) = true /\
  (JsonWriter.altura (arrayValue (indexar k vs)) <= 2)%nat.
Proof.
  intros H. assert (forall j, densa j (indexar j vs) = true) as Hd.
  { induction H as [|v vs _ _ IH]; intros j; [done|]. cbn [indexar densa]. by rewrite CZ_eq_refl, IH. }
  split; [done|]. split.
  - cbn [canonico]. rewrite Hd. cbn [andb]. clear Hd. generalize 0%nat.
    induction H as [|v vs [Hc _] _ IH]; intros j; [done|]. cbn [indexar]. by rewrite Hc, IH.
  - cbn [JsonWriter.altura]. apply le_n_S. clear Hd. revert k. induction H as [|v vs [_ Ha] _ IH]; intros k; cbn [indexar]; [lia|].
    specialize (IH (S k)). lia.
Qed.

Lemma lista_json_texto key vs (v := lista_json key vs) : contiene NUL key = false -> Forall plano vs ->
  JsonWriter.toStyledString v = Ok (texto (JsonWriter.toStyledString v)) /\
  JsonReader.parse (texto (JsonWriter.toStyledString v)) = Ok (true, v).
Proof.
  intros Hk H. destruct (texto_ok v) as (H1 & H2 & _); [| |done].
  - unfold v. destruct vs as [|x vs]; [done|]. destruct (indexar_canonico 0 _ H) as (_ & Hc & _).
    unfold lista_json. cbn [canonico claves_ok] in *. rewrite Hk. cbn [negb andb]. by rewrite Hc.
  - unfold v. destruct vs as [|x vs]; [cbn; lia|]. destruct (indexar_canonico 0 _ H) as (_ & _ & Ha).
    unfold lista_json. cbn [JsonWriter.altura] in *. lia.
Qed.

Section Consultas.
Context {E : Entorno} {A : Almacen} {AO : AlmacenOk A}.
Abbreviation W := (M (Mundo A)).
Variable conn : Mongoose.mg_connection.
Abbreviation param := (fun k => getParametro conn k keyDefault).

Lemma implementa_conv ch w k (f : Conversacion.Conversacion -> W unit) ch' mensaje success :
  sirve ch w ->
  (forall w1, sirve ch w1 -> implementa w1 (f (buscar_conversacion ch k)) ch' mensaje success) ->
  implementa w (bindM (Conversacion.obtener k) f) ch' mensaje success.
Proof.
  intros Hs Hf. eapply implementa_llega; [exact Hs| |exact Hf]. destruct Hs as (Hu & Hr & Hv).
  by apply corre_obtener_conv.
Qed.

(** ** The id of a conversation *)

(** The reply of [obtenerIdConversacion]: when there is no conversation it still is a success. *)
Definition id_conversacion (ch : Chat) : string * bool :=
  let a := Md5.md5 (param keyTelefonoEmisor) in
  let b := Md5.md5 (param keyTelefonoReceptor) in
  match usuarios ch !! a, usuarios ch !! b with
  | Some _, Some _ =>
      (match conversaciones ch !! (a +:+ "-" +:+ b), conversaciones ch !! (b +:+ "-" +:+ a) with
       | Some _, _ => a +:+ "-" +:+ b
       | None, Some _ => b +:+ "-" +:+ a
       | None, None => keyIdConversacionNoEncontrada
       end, true)
  | _, _ => ("Usuario  no se encuentra registrado en el sistema", false)
  end.

Lemma clave_no_usuario ch k c : valido ch -> conversaciones ch !! k = Some c -> k <> keyIdUsuarioNoEncontrado.
Proof.
  intros Hv Hc. destruct (proj1 (proj2 Hv) k c Hc) as ((a & b & _ & -> & Ha & Hb) & _).
  destruct (id_md5 _ _ Hv Ha) as [t ->], (id_md5 _ _ Hv Hb) as [t' ->]. by apply clave_conv_ok.
Qed.

Lemma id_conversacion_implementa ch w : sirve ch w ->
  implementa w (obtenerIdConversacion conn) ch (id_conversacion ch).1 (id_conversacion ch).2.
Proof.
  intros Hs. pose proof (proj2 (proj2 Hs)) as Hv. unfold obtenerIdConversacion, id_conversacion.
  apply (implementa_usuario ch); [done|]. intros w1 Hs1. clear Hs w.
  apply (implementa_usuario ch); [done|]. intros w2 Hs2. clear Hs1 w1.
  rewrite !(noExiste_buscar ch) by done.
  set (a := Md5.md5 (param keyTelefonoEmisor)). set (b := Md5.md5 (param keyTelefonoReceptor)).
  destruct (usuarios ch !! a) as [ua|] eqn:Ea; destruct (usuarios ch !! b) as [ub|] eqn:Eb; cbn [andb negb].
  2-4: unfold buscar_usuario; rewrite ?Ea, ?Eb; apply (implementa_log ch); [done|auto with mensajero|];
    intros w3 Hs3; by apply implementa_responder.
  rewrite (buscar_Some _ _ _ Ea), (buscar_Some _ _ _ Eb), (buscar_id _ _ _ Hv Ea), (buscar_id _ _ _ Hv Eb).
  apply (implementa_conv ch); [done|]. intros w3 Hs3.
  destruct (buscar_conv ch (a +:+ "-" +:+ b) Hv) as [-> Hab].
  destruct (conversaciones ch !! (a +:+ "-" +:+ b)) as [c|] eqn:Ec.
  - eapply (implementa_llega ch); [done|apply corre_ret; by destruct Hs3|]. intros w4 Hs4.
    destruct (Hab c eq_refl) as (-> & -> & _).
    rewrite (proj2 (String.eqb_neq _ _) (clave_no_usuario _ _ _ Hv Ec)). by apply implementa_responder.
  - apply (implementa_conv ch); [done|]. intros w4 Hs4.
    destruct (buscar_conv ch (b +:+ "-" +:+ a) Hv) as [_ Hba]. unfold buscar_conversacion in *.
    destruct (conversaciones ch !! (b +:+ "-" +:+ a)) as [c|] eqn:Ec'; [|by apply implementa_responder].
    destruct (Hba c eq_refl) as (_ & -> & _).
    rewrite (proj2 (String.eqb_neq _ _) (clave_no_usuario _ _ _ Hv Ec')). by apply implementa_responder.
Qed.

(** ** The messages of a conversation *)

(** The messages the client lacks, given the id of the last one it has: all if it has none,
    those that come after the first message of that id, and none if there is no such message. *)
Definition mensajes_desde (ultimo : string) (l : list Mensaje.Mensaje) : list Mensaje.Mensaje :=
  if decide (ultimo = "") then l
  else match list_find (fun m => Mensaje.id m = ultimo) l with
       | Some (i, _) => drop (S i) l
       | None => []
       end.

Lemma posteriores_todos ultimo l : posteriores true ultimo l = l.
Proof. induction l as [|m l IH]; [done|]. cbn [posteriores orb app]. by rewrite IH. Qed.
(** The loop of the code collects them. *)
Lemma posteriores_desde ultimo l : ultimo <> "" -> posteriores false ultimo l = mensajes_desde ultimo l.
Proof.
  intros Hu. unfold mensajes_desde. rewrite decide_False by done. induction l as [|m l IH]; [done|]. cbn [posteriores orb app list_find].
  destruct (decide (Mensaje.id m = ultimo)) as [->|Hm]; [rewrite String.eqb_refl; apply posteriores_todos|].
  rewrite (proj2 (String.eqb_neq _ _) Hm), IH. by destruct (list_find _ l) as [[i x]|].
Qed.

Definition json_mensajes (l : list Mensaje.Mensaje) : Value :=
  lista_json "mensajes" (stringValue <$> (texto_mensaje <$> l)).

Lemma respuesta_mensajes_ok vs l :
  respuesta_mensajes (length vs) l (lista_json "mensajes" (stringValue <$> vs)) =
  Ok (lista_json "mensajes" (stringValue <$> (vs ++ (texto_mensaje <$> l)))).
Proof.
  revert vs. induction l as [|m l IH]; intros vs; cbn [respuesta_mensajes fmap list_fmap]; [by rewrite app_nil_r|].
  destruct (texto_mensaje_ok m) as (-> & _). cbn [bindR].
  replace (length vs) with (length (stringValue <$> vs)) at 1 by apply length_fmap.
  erewrite lista_json_agregar by reflexivity. cbn [bindR].
  specialize (IH (vs ++ [texto_mensaje m])). rewrite length_app, fmap_app, Nat.add_1_r in IH.
  etrans; [exact IH|]. by rewrite <- app_assoc.
Qed.

Lemma planos_cadenas l : Forall plano (stringValue <$> l).
Proof. apply Forall_fmap, Forall_true. intros x. split; [done|cbn; lia]. Qed.

(** The reply of [obtenerConversacion]. *)
Definition mensajes_de (ch : Chat) (k : string) : string * bool :=
  match conversaciones ch !! k with
  | Some c => (texto (JsonWriter.toStyledString (json_mensajes (mensajes_desde (param keyIdUltimoMensaje) (c_mensajes c)))), true)
  | None => ("La conversacion " +:+ k +:+ " no se encuentra en el sistema", false)
  end.

Lemma mensajes_implementa ch w k : sirve ch w -> getParametroIdMetodoGET conn urlBaseConversacion = Ok k ->
  implementa w (obtenerConversacion conn) ch (mensajes_de ch k).1 (mensajes_de ch k).2.
Proof.
  intros Hs Hk. pose proof (proj2 (proj2 Hs)) as Hv. unfold obtenerConversacion, mensajes_de.
  eapply implementa_alzar; [exact Hk|]. apply (implementa_conv ch); [done|]. intros w1 Hs1. clear Hs w.
  destruct (buscar_conv ch k Hv) as [-> Hb]. destruct (conversaciones ch !! k) as [c|] eqn:Ec; cbn [negb].
  - destruct (Hb c eq_refl) as (-> & _). cbv zeta. cbn [Conversacion.mensajes abrir].
    assert ((if negb (String.eqb (param keyIdUltimoMensaje) "") then posteriores false (param keyIdUltimoMensaje) (c_mensajes c)
             else c_mensajes c) = mensajes_desde (param keyIdUltimoMensaje) (c_mensajes c)) as Heq.
    { destruct (String.eqb_spec (param keyIdUltimoMensaje) "") as [Hu|Hu]; cbn [negb]; [|by apply posteriores_desde].
      unfold mensajes_desde. by rewrite decide_True. }
    unfold Conversacion.mensajes, abrir. rewrite Heq.
    eapply implementa_alzar; [apply (respuesta_mensajes_ok [])|].
    eapply implementa_alzar; [apply lista_json_texto; [done|apply planos_cadenas]|]. by apply implementa_responder.
  - apply (implementa_log ch); [done|auto with mensajero|]. intros w2 Hs2. by apply implementa_responder.
Qed.

(** ** The conversations of a user *)

Lemma corre_ids ch w u : usable w -> Representa ch (mem w) -> valido ch ->
  corre w (UsuarioBD.obtnerIdsConversaciones u)
    (keyDatoNoEncontrado :: default [] (indice ch !! Usuario.id u)) (mem w) (salida w).
Proof.
  intros Hu Hr Hv. apply corre_getInstance; [done|]. intros w1 H1 Hi.
  pose proof (llega_usable _ _ _ _ H1) as Hu1. rewrite <- (llega_mem _ _ _ _ H1), <- (llega_salida _ _ _ _ H1) in *.
  unfold BaseDeDatos.getIdsConversacionPorIdUsuario. eapply corre_bind; [by apply corre_getDato|]. intros w2 H2.
  rewrite (proj2 (proj2 Hr)). pose proof (indice_items_valido ch Hv (Usuario.id u)) as Hit.
  assert (StringUtil.split (default keyDatoNoEncontrado (texto_indice <$> indice ch !! Usuario.id u)) SeparadorListaBD
          = keyDatoNoEncontrado :: default [] (indice ch !! Usuario.id u)) as ->.
  { destruct (indice ch !! Usuario.id u) as [l|]; [by apply split_indice|done]. }
  apply corre_fin; eauto with mensajero.
Qed.

(** The conversations the client does not have, in the order of the index. *)
Definition faltantes (tiene : list string) (ks : list string) : list string :=
  List.filter (fun k => negb (StringUtil.vectorContiene tiene k)) ks.

Lemma corre_nuevas ch tiene ks w : sirve ch w ->
  corre w (conversaciones_nuevas tiene ks)
    (omap (fun k => abrir ch k <$> conversaciones ch !! k) (faltantes tiene ks)) (mem w) (salida w).
Proof.
  revert w. induction ks as [|k ks IH]; intros w Hs; cbn [conversaciones_nuevas faltantes List.filter].
  { apply corre_ret. by destruct Hs. }
  assert (forall w1, llega w (mem w) (salida w) w1 ->
    corre w1 (conversaciones_nuevas tiene ks)
      (omap (fun k => abrir ch k <$> conversaciones ch !! k) (faltantes tiene ks)) (mem w) (salida w)) as IH'.
  { intros w1 H1. rewrite <- (llega_mem _ _ _ _ H1), <- (llega_salida _ _ _ _ H1). apply IH. by eapply sirve_llega. }
  clear IH. destruct Hs as (Hu & Hr & Hv). destruct (StringUtil.vectorContiene tiene k); cbn [negb].
  - eapply corre_bind; [by apply corre_ret|]. intros w1 H1.
    eapply corre_bind; [by apply IH'|]. intros w2 H2. apply corre_fin; eauto with mensajero.
  - assert (corre w (let* c := Conversacion.obtener k in
        if negb (noEncontrada c) then ret [c]
        else Loger.warn ("La conversacion " +:+ k +:+ " no se encuentra en el sistema");;; ret [])
      (match conversaciones ch !! k with Some c => [abrir ch k c] | None => [] end) (mem w) (salida w)) as Hk.
    { eapply corre_bind; [by apply (corre_obtener_conv ch)|]. intros w1 H1.
      destruct (buscar_conv ch k Hv) as [-> Hb]. destruct (conversaciones ch !! k) as [c|]; cbn [negb].
      - destruct (Hb c eq_refl) as (-> & _). apply corre_fin; eauto with mensajero.
      - apply corre_log_bind; [by eapply llega_usable|auto with mensajero|]. intros _ w2 H2.
        rewrite (llega_mem _ _ _ _ H1), (llega_salida _ _ _ _ H1) in H2. apply corre_fin; eauto with mensajero. }
    eapply corre_bind; [exact Hk|]. intros w1 H1. eapply corre_bind; [by apply IH'|]. intros w2 H2.
    assert (forall l, omap (fun k => abrir ch k <$> conversaciones ch !! k) (k :: l) =
      match conversaciones ch !! k with Some c => [abrir ch k c] | None => [] end ++
      omap (fun k => abrir ch k <$> conversaciones ch !! k) l) as ->.
    { intros l. cbn. by destruct (conversaciones ch !! k). }
    apply corre_fin; eauto with mensajero.
Qed.

(** What the client is told of a conversation: its last message and the other user. *)
Definition contacto_de (ch : Chat) (yo : string) (c : Conv) : Usuario.Usuario :=
  buscar_usuario ch (match c_ids c with
                     | [a; b] => if String.eqb a yo then b else a
                     | _ => ""
                     end).
Definition json_resumen (ch : Chat) (yo k : string) (c : Conv) : Value :=
  let otro := contacto_de ch yo c in
  objectValue
    [(CZStr "id", stringValue k);
     (CZStr "ultimoMensaje", stringValue (from_option Mensaje.cuerpo "" (last (c_mensajes c))));
     (CZStr "usuarioFotoDePerfil", stringValue (Usuario.fotoDePerfil otro));
     (CZStr "usuarioNombre", stringValue (Usuario.nombre otro));
     (CZStr "usuarioTelefono", stringValue (Usuario.telefono otro))].

Definition resumenes (ch : Chat) (yo : string) (ks : list string) : list Value :=
  omap (fun k => json_resumen ch yo k <$> conversaciones ch !! k) ks.

Lemma respuesta_conversaciones_ok ch u vs ks : valido ch ->
  respuesta_conversaciones (length vs) u (omap (fun k => abrir ch k <$> conversaciones ch !! k) ks)
    (lista_json "conversaciones" vs) =
  Ok (lista_json "conversaciones" (vs ++ resumenes ch (Usuario.id u) ks)).
Proof.
  intros Hv. revert vs. induction ks as [|k ks IH]; intros vs; unfold resumenes; cbn [omap list_omap].
  { by rewrite app_nil_r. }
  destruct (conversaciones ch !! k) as [c|] eqn:Ec; cbn [fmap option_fmap option_map]; [|apply IH].
  destruct (buscar_conv ch k Hv) as [_ Hb]. destruct (Hb c Ec) as (_ & Hid & _).
  destruct (proj1 (proj2 Hv) k c Ec) as ((a & b & Hids & _ & [ua Ha] & [ub Hb']) & _ & Hne).
  cbn [respuesta_conversaciones]. rewrite Hid. cbn [abrir Conversacion.mensajes Conversacion.usuarios].
  rewrite Hids. unfold ultimo_elemento.
  destruct (last (c_mensajes c)) as [m|] eqn:El; [|by apply last_None in El]. cbn [bindR].
  unfold vector_at. cbn [fmap list_fmap lookup list_lookup bindR].
  rewrite (buscar_Some _ _ _ Ha), (buscar_Some _ _ _ Hb'), (buscar_id _ _ _ Hv Ha).
  assert ((if String.eqb a (Usuario.id u) then Ok ub else Ok ua) = Ok (contacto_de ch (Usuario.id u) c)) as ->.
  { unfold contacto_de. rewrite Hids. destruct (String.eqb a _);
      by rewrite ?(buscar_Some _ _ _ Ha), ?(buscar_Some _ _ _ Hb'). }
  cbn [bindR]. erewrite (lista_json_agregar _ _ _ (json_resumen ch (Usuario.id u) k c)).
  - cbn [bindR]. specialize (IH (vs ++ [json_resumen ch (Usuario.id u) k c])).
    rewrite length_app, Nat.add_1_r in IH. etrans; [exact IH|]. by rewrite <- app_assoc.
  - unfold json_resumen. by rewrite El.
Qed.

Lemma resumenes_planos ch yo ks : Forall plano (resumenes ch yo ks).
Proof.
  unfold resumenes. induction ks as [|k ks IH]; cbn [omap list_omap]; [constructor|].
  destruct (conversaciones ch !! k); cbn; [|exact IH]. constructor; [|exact IH]. split; [done|cbn; lia].
Qed.

(** The reply of [obtenerConversaciones] to a registered user. *)
Definition novedades (ch : Chat) (yo : string) (tiene : list string) : string :=
  texto (JsonWriter.toStyledString (lista_json "conversaciones"
    (resumenes ch yo (faltantes tiene (default [] (indice ch !! yo)))))).

Lemma conversaciones_implementa ch w v tiene tel u : sirve ch w ->
  getParametroArray conn keyIdConversaciones keyDefault = Ok v -> StringUtil.jsonValueToVector v = Ok tiene ->
  getParametroIdMetodoGET conn urlBaseUsuarioConversaciones = Ok tel ->
  usuarios ch !! Md5.md5 tel = Some u ->
  implementa w (obtenerConversaciones conn) ch (novedades ch (Md5.md5 tel) tiene) true.
Proof.
  intros Hs Hp Hj Ht Hu. pose proof (proj2 (proj2 Hs)) as Hv. unfold obtenerConversaciones.
  do 3 (eapply implementa_alzar; [eassumption|]). cbv beta.
  apply (implementa_usuario ch); [done|]. intros w1 Hs1. clear Hs w.
  rewrite (noExiste_buscar ch), Hu by done. cbn [negb]. rewrite (buscar_Some _ _ _ Hu).
  eapply (implementa_llega ch); [done|apply (corre_ids ch); by destruct Hs1 as (? & ? & _)|]. intros w2 Hs2. clear Hs1 w1.
  rewrite (buscar_id _ _ _ Hv Hu).
  eapply (implementa_llega ch); [done|by apply (corre_nuevas ch)|]. intros w3 Hs3. clear Hs2 w2.
  assert (omap (fun k => abrir ch k <$> conversaciones ch !! k)
            (faltantes tiene (keyDatoNoEncontrado :: default [] (indice ch !! Md5.md5 tel))) =
          omap (fun k => abrir ch k <$> conversaciones ch !! k)
            (faltantes tiene (default [] (indice ch !! Md5.md5 tel)))) as ->.
  { unfold faltantes. cbn [List.filter]. destruct (negb _); [|done]. cbn [omap list_omap].
    destruct (conversaciones ch !! keyDatoNoEncontrado) as [c|] eqn:Ec; [|done].
    destruct (proj1 (proj2 Hv) _ c Ec) as ((x & y & _ & Hxy & Hx & Hy) & _).
    destruct (id_md5 _ _ Hv Hx) as [t ->], (id_md5 _ _ Hv Hy) as [t' ->].
    destruct (clave_conv_ok t t') as (_ & Hn & _). congruence. }
  eapply implementa_alzar; [apply (respuesta_conversaciones_ok ch u [] _ Hv)|].
  rewrite (buscar_id _ _ _ Hv Hu).
  eapply implementa_alzar; [apply lista_json_texto; [done|apply resumenes_planos]|]. by apply implementa_responder.
Qed.

(** To a user that is not registered it sends nothing. *)
Lemma conversaciones_sin_usuario ch w v tiene tel : sirve ch w ->
  getParametroArray conn keyIdConversaciones keyDefault = Ok v -> StringUtil.jsonValueToVector v = Ok tiene ->
  getParametroIdMetodoGET conn urlBaseUsuarioConversaciones = Ok tel ->
  usuarios ch !! Md5.md5 tel = None ->
  corre w (obtenerConversaciones conn) tt (mem w) (salida w).
Proof.
  intros (Hu & Hr & Hv) Hp Hj Ht Hn. unfold obtenerConversaciones.
  do 3 (eapply corre_alzar; [eassumption|]). cbv beta.
  eapply corre_bind; [by apply (corre_obtenerPorTelefono ch)|]. intros w1 H1.
  rewrite (noExiste_buscar ch), Hn by done. cbn [negb].
  rewrite <- (llega_mem _ _ _ _ H1), <- (llega_salida _ _ _ _ H1).
  apply corre_log_fin; [by eapply llega_usable|auto with mensajero].
Qed.

(** ** Contacts *)

Definition json_contacto (u : Usuario.Usuario) : Value :=
  objectValue
    [(CZStr keyFotoDePerfil, stringValue (Usuario.fotoDePerfil u));
     (CZStr keyLocalizacion, stringValue (Usuario.localizacion u));
     (CZStr keyNombre, stringValue (Usuario.nombre u));
     (CZStr keyTelefono, stringValue (Usuario.telefono u))].

(** The registered user with this phone, if connected. *)
Definition en_linea (ch : Chat) (tel : string) : option Usuario.Usuario :=
  match usuarios ch !! Md5.md5 tel with
  | Some u => if Usuario.conectado u then Some u else None
  | None => None
  end.

Lemma en_linea_prueba ch tel : valido ch ->
  negb (noExiste (buscar_usuario ch (Md5.md5 tel))) && Usuario.conectado (buscar_usuario ch (Md5.md5 tel)) =
  match en_linea ch tel with Some _ => true | None => false end.
Proof.
  intros Hv. rewrite (noExiste_buscar ch) by done. unfold en_linea, buscar_usuario.
  destruct (usuarios ch !! Md5.md5 tel) as [u|]; [|done]. cbn. by destruct (Usuario.conectado u).
Qed.

Lemma en_linea_Some ch tel u : en_linea ch tel = Some u -> usuarios ch !! Md5.md5 tel = Some u.
Proof. unfold en_linea. destruct (usuarios ch !! Md5.md5 tel) as [v|]; [|done]. by destruct (Usuario.conectado v). Qed.

Lemma corre_contactos ch tels vs w : sirve ch w ->
  corre w (contactos (length vs) tels (lista_json "contactos" vs))
    (lista_json "contactos" (vs ++ (json_contacto <$> omap (en_linea ch) tels))) (mem w) (salida w).
Proof.
  revert vs w. induction tels as [|tel tels IH]; intros vs w Hs; cbn [contactos].
  { rewrite app_nil_r. apply corre_ret. by destruct Hs. }
  eapply corre_bind; [by apply (corre_obtenerPorTelefono ch); destruct Hs as (? & ? & _)|]. intros w1 H1.
  pose proof (sirve_llega _ _ _ Hs H1) as Hs1. rewrite <- (llega_mem _ _ _ _ H1), <- (llega_salida _ _ _ _ H1).
  rewrite (en_linea_prueba ch) by (by destruct Hs as (? & ? & ?)). cbn [omap list_omap].
  destruct (en_linea ch tel) as [u|] eqn:Eu; [|by apply IH].
  rewrite (buscar_Some _ _ _ (en_linea_Some _ _ _ Eu)).
  eapply corre_alzar; [by apply (lista_json_agregar _ _ _ (json_contacto u))|].
  specialize (IH (vs ++ [json_contacto u]) w1 Hs1). rewrite length_app, Nat.add_1_r, <- app_assoc in IH. exact IH.
Qed.

Lemma contactos_planos l : Forall plano (json_contacto <$> l).
Proof. apply Forall_fmap, Forall_true. intros x. split; [done|cbn; lia]. Qed.

(** The reply of [obtenerContactos]: the connected ones, in the order asked. *)
Definition agenda (ch : Chat) (tels : list string) : string :=
  texto (JsonWriter.toStyledString (lista_json "contactos" (json_contacto <$> omap (en_linea ch) tels))).

Lemma contactos_implementa ch w v tels : sirve ch w ->
  getParametroArray conn keyContantosTelefono keyDefault = Ok v -> StringUtil.jsonValueToVector v = Ok tels ->
  implementa w (obtenerContactos conn) ch (agenda ch tels) true.
Proof.
  intros Hs Hp Hj. unfold obtenerContactos. do 2 (eapply implementa_alzar; [eassumption|]). cbv beta.
  eapply (implementa_llega ch); [done|by apply (corre_contactos ch tels [])|]. intros w1 Hs1.
  eapply implementa_alzar; [apply lista_json_texto; [done|apply contactos_planos]|]. by apply implementa_responder.
Qed.

(** ** Broadcast *)

(** The message goes to the conversation with each connected contact, in order. *)
Definition difusion (a : string) (m : Mensaje.Mensaje) (tels : list string) (ch : Chat) : Chat :=
  fold_left (fun ch tel => match en_linea ch tel with
                           | Some _ => agregar_mensaje a (Md5.md5 tel) m ch
                           | None => ch
                           end) tels ch.

Lemma usuarios_agregar a b m ch : usuarios (agregar_mensaje a b m ch) = usuarios ch.
Proof. unfold agregar_mensaje. by destruct (destino a b m ch). Qed.

Lemma corre_difundir ch w a ua m tel : sirve ch w -> usuarios ch !! a = Some ua -> mensaje_ok m ->
  exists m', corre w (difundir ua m tel) tt m' (salida w) /\
    Representa (difusion a m [tel] ch) m' /\ valido (difusion a m [tel] ch).
Proof.
  intros Hs Ha Hm. pose proof (proj2 (proj2 Hs)) as Hv. unfold difundir, difusion. cbn [fold_left].
  destruct (corre_obtenerPorTelefono ch w tel) as (w1 & E1 & H1); [by destruct Hs as (? & ? & _)..|].
  pose proof (sirve_llega _ _ _ Hs H1) as Hs1. pose proof (en_linea_prueba ch tel Hv) as Hp.
  assert (forall m', corre w1 (if negb (noExiste (buscar_usuario ch (Md5.md5 tel))) &&
        Usuario.conectado (buscar_usuario ch (Md5.md5 tel))
      then almacenar_mensaje ua (buscar_usuario ch (Md5.md5 tel)) m else ret tt) tt m' (salida w1) ->
    corre w (difundir ua m tel) tt m' (salida w)) as Hk.
  { intros m' (w2 & E2 & H2). exists w2. split; [unfold difundir; by erewrite bind_ok by exact E1|].
    rewrite (llega_salida _ _ _ _ H1) in H2. by eapply llega_trans. }
  rewrite Hp in Hk. unfold difundir in Hk. destruct (en_linea ch tel) as [u|] eqn:Eu.
  - apply en_linea_Some in Eu. rewrite (buscar_Some _ _ _ Eu) in Hk.
    destruct (corre_almacenar_mensaje ch w1 a (Md5.md5 tel) ua u m) as (m' & C & R & V); try done.
    exists m'. split; [by apply Hk|done].
  - exists (mem w). split; [apply Hk|by destruct Hs as (? & ? & _)]. rewrite <- (llega_mem _ _ _ _ H1).
    apply corre_ret. by destruct Hs1.
Qed.

Lemma corre_difusion tels ch w a ua m : sirve ch w -> usuarios ch !! a = Some ua -> mensaje_ok m ->
  exists m', corre w (recorrer tels (difundir ua m)) tt m' (salida w) /\
    Representa (difusion a m tels ch) m' /\ valido (difusion a m tels ch).
Proof.
  revert ch w. induction tels as [|tel tels IH]; intros ch w Hs Ha Hm; cbn [recorrer].
  { destruct Hs as (Hu & Hr & Hv). exists (mem w). split; [by apply corre_ret|done]. }
  destruct (corre_difundir ch w a ua m tel Hs Ha Hm) as (m1 & (w1 & E1 & H1) & R1 & V1). cbn [difusion fold_left] in R1, V1.
  assert (sirve (difusion a m [tel] ch) w1) as Hs1.
  { split_and!; [by eapply llega_usable| |done]. by rewrite (llega_mem _ _ _ _ H1). }
  assert (usuarios (difusion a m [tel] ch) !! a = Some ua) as Ha1.
  { unfold difusion. cbn [fold_left]. destruct (en_linea ch tel); [by rewrite usuarios_agregar|done]. }
  destruct (IH _ w1 Hs1 Ha1 Hm) as (m2 & (w2 & E2 & H2) & R2 & V2). exists m2. split; [|done].
  exists w2. split; [by erewrite bind_ok by exact E1|]. rewrite (llega_salida _ _ _ _ H1) in H2. by eapply llega_trans.
Qed.

(** The chat and the reply of [almacenarListaDifusion]. *)
Definition lista_difusion (ch : Chat) (tels : list string) : Chat * (string * bool) :=
  let a := Md5.md5 (param keyIdUsuarioEmisor) in
  match usuarios ch !! a with
  | None => (ch, ("No se pudo almacenar la lista de difusion porque el emisor no existe", false))
  | Some ua =>
      if String.eqb (Usuario.token ua) (param keyTokenSesion) then
        (difusion a (Mensaje.Mensaje_nuevo (param keyCuerpo) a (param keyFecha)) tels ch,
         ("Lista de difusion enviada correctamente", true))
      else (ch, ("El usuario " +:+ Usuario.nombre ua +:+ " no posee un token de session correcto", false))
  end.

Lemma difusion_implementa ch w v tels : sirve ch w ->
  getParametroArray conn keyContantosTelefono keyDefault = Ok v -> StringUtil.jsonValueToVector v = Ok tels ->
  contiene SeparadorListaBD (param keyCuerpo) = false -> contiene SeparadorListaBD (param keyFecha) = false ->
  let r := lista_difusion ch tels in implementa w (almacenarListaDifusion conn) r.1 r.2.1 r.2.2.
Proof.
  intros Hs Hp Hj Hc Hf. pose proof (proj2 (proj2 Hs)) as Hv. cbv zeta. unfold almacenarListaDifusion, lista_difusion.
  do 2 (eapply implementa_alzar; [eassumption|]). cbv beta.
  apply (implementa_usuario ch); [done|]. intros w1 Hs1. clear Hs w. rewrite (noExiste_buscar ch) by done.
  set (a := Md5.md5 (param keyIdUsuarioEmisor)). destruct (usuarios ch !! a) as [ua|] eqn:Ea.
  - rewrite (buscar_Some _ _ _ Ea). destruct (String.eqb (Usuario.token ua) (param keyTokenSesion)); cbn [negb].
    + rewrite (buscar_id _ _ _ Hv Ea). cbv zeta.
      destruct (corre_difusion tels ch w1 a ua
        (Mensaje.Mensaje_nuevo (param keyCuerpo) a (param keyFecha))) as (m' & C & R & V); [done..|by apply mensaje_nuevo_ok|].
      eapply implementa_escribe; [exact C|exact R|exact V|]. intros w2 Hs2. by apply implementa_responder.
    + apply (implementa_log ch); [done|auto with mensajero|]. intros w2 Hs2. by apply implementa_responder.
  - apply implementa_post; [by apply implementa_responder|].
    apply solo_log_bind; [auto with mensajero|intros _; auto with mensajero].
Qed.

(** ** Check-in *)

(** The place and the time [checkIn] answers, given a reading of the clock. *)
Definition ubicacion_en (ls : list LocalizacionOk.Lugar) (t : Z) : string :=
  LocalizacionOk.mas_cercano (Libc.atof (param keyLatitud)) (Libc.atof (param keyLongitud)) ls "desconocida"
    Localizacion.distanciaMaxima +:+ " " +:+ c_str (Libc.strftime_dmy (localtime t)).

Lemma corre_fecha w : usable w ->
  corre w fechaYhoraActual (c_str (Libc.strftime_dmy (localtime (reloj (lecturas w))))) (mem w) (salida w).
Proof.
  intros Hu. exists (con_lecturas (S (lecturas w)) w). split; [reflexivity|].
  destruct Hu. unfold llega, usable, mem. by split_and!.
Qed.

Lemma checkIn_implementa ch w ls : sirve ch w -> LocalizacionOk.tabla (lugares w) ls ->
  match usuarios ch !! Md5.md5 (param keyTelefono) with
  | None => implementa w (checkIn conn) ch "el usuario no existe." false
  | Some u => exists n, implementa w (checkIn conn)
      (guardar_usuario (Usuario.setLocalizacion (ubicacion_en ls (reloj n)) u) ch) (ubicacion_en ls (reloj n)) true
  end.
Proof.
  intros Hs Hl. pose proof (proj2 (proj2 Hs)) as Hv.
  pose proof (noExiste_buscar ch (Md5.md5 (param keyTelefono)) Hv) as Hn. unfold checkIn, obtenerUsuario.
  destruct (corre_obtenerPorTelefono ch w (param keyTelefono)) as (w1 & E1 & H1); [by destruct Hs as (? & ? & _)..|].
  pose proof (sirve_llega _ _ _ Hs H1) as Hs1. assert (lugares w1 = lugares w) as Hw1 by (by destruct H1 as (_ & _ & _ & ? & _)).
  set (coord := LocalizacionOk.coordenadas (Libc.atof (param keyLatitud)) (Libc.atof (param keyLongitud))).
  destruct (usuarios ch !! Md5.md5 (param keyTelefono)) as [u|] eqn:Eu.
  - exists (lecturas w1). eapply implementa_alzar; [by instantiate (1 := coord)|].
    eapply implementa_paso; [exact E1|by apply llega_alcanza|]. rewrite Hn. cbn [negb]. rewrite (buscar_Some _ _ _ Eu).
    eapply implementa_paso.
    { apply LocalizacionOk.calcularUbicacion_ok. by rewrite Hw1. }
    { apply llega_alcanza, llega_refl. by destruct Hs1. }
    eapply (implementa_llega ch); [done|apply corre_fecha; by destruct Hs1|]. intros w2 Hs2.
    apply (implementa_persistir ch); [done| |].
    { destruct (proj1 Hv _ u Eu) as [Hid Ht]. cbn. congruence. }
    intros w3 Hs3. by apply implementa_responder.
  - eapply implementa_alzar; [by instantiate (1 := coord)|].
    eapply implementa_paso; [exact E1|by apply llega_alcanza|]. rewrite Hn. cbn [negb]. by apply implementa_responder.
Qed.

End Consultas.
End ConsultasOk.
