(* ===== verification/Maquina.v ===== *)
(** * Maquina: the server as an abstract machine on chats

    The whole of the specification in one relation: [paso conn ch ch'] when the request [conn]
    may take the chat [ch] to [ch'].  What holds of every step of the machine (nothing is lost,
    only the holder of the token of a user writes in its name) is proved here once; the runs of the process are
    shown to be runs of the machine in [ServidorOk]. *)

From S2P Require Import Prelude Libc Md5 JsonValue JsonReader JsonWriter StringUtil Mongoose Mundo.
From S2P Require Import Entidades BaseDeDatos Servicio Servidor Corre Chat ServicioOk ConsultasOk.
Open Scope Z_scope.

Module Maquina.
#[local] Strategy 1000 [Md5.md5 Md5.md5_en].
Import Constantes Json Servicio Servidor Corre Chat ChatOk ServicioOk ConsultasOk.

Section Maquina.
Context {E : Entorno}.

(** The services that leave the chat as it is. *)
Definition lectora (t : tipoDeServicio) : bool :=
  match t with
  | REGISTRAR_USUARIO | ADMINISTRAR_PERFIL | ALMACENAR_CONVERSACION | ALMACENAR_LISTA_DIFUSION
  | CONSULTAR_USUARIO_ONLINE | CHECKIN_USUARIO => false
  | _ => true
  end.

Definition alta (conn : Mongoose.mg_connection) (ultima : string) (ch : Chat) : Chat :=
  match usuarios ch !! Md5.md5 (getParametro conn keyTelefono keyDefault) with
  | Some _ => ch
  | None => guardar_usuario (usuario_registrado conn ultima) ch
  end.

Definition ubicar (conn : Mongoose.mg_connection) (lugar : string) (ch : Chat) : Chat :=
  match usuarios ch !! Md5.md5 (getParametro conn keyTelefono keyDefault) with
  | Some u => guardar_usuario (Usuario.setLocalizacion lugar u) ch
  | None => ch
  end.

(** A request whose message can be stored in a separated list. *)
Definition limpio (conn : Mongoose.mg_connection) : Prop :=
  contiene SeparadorListaBD (getParametro conn keyCuerpo keyDefault) = false /\
  contiene SeparadorListaBD (getParametro conn keyFecha keyDefault) = false.
#[export] Instance limpio_dec conn : Decision (limpio conn).
Proof. unfold limpio. apply _. Defined.

Inductive paso (conn : Mongoose.mg_connection) (ch : Chat) : Chat -> Prop :=
| paso_lectura : lectora (parsearURI conn) = true -> paso conn ch ch
| paso_alta n : parsearURI conn = REGISTRAR_USUARIO -> paso conn ch (alta conn (c_str (ctime (reloj n))) ch)
| paso_perfil : parsearURI conn = ADMINISTRAR_PERFIL -> paso conn ch (perfil conn ch).1
| paso_consulta tel n :
    parsearURI conn = CONSULTAR_USUARIO_ONLINE -> getParametroIdMetodoGET conn urlBaseUsuario = Ok tel ->
    paso conn ch (consulta conn ch tel (c_str (ctime (reloj n)))).1
| paso_ubicar lugar : parsearURI conn = CHECKIN_USUARIO -> paso conn ch (ubicar conn lugar ch)
| paso_envio : parsearURI conn = ALMACENAR_CONVERSACION -> paso conn ch (envio conn ch).1
| paso_difusion v tels :
    parsearURI conn = ALMACENAR_LISTA_DIFUSION ->
    getParametroArray conn keyContantosTelefono keyDefault = Ok v -> StringUtil.jsonValueToVector v = Ok tels ->
    paso conn ch (lista_difusion conn ch tels).1.

(** ** Nothing is lost *)

(** [ch'] has every user of [ch], with the same phone, and every conversation of [ch], with
    the same users and at least its messages, in the same order. *)
Definition crece (ch ch' : Chat) : Prop :=
  (forall k u, usuarios ch !! k = Some u -> exists u', usuarios ch' !! k = Some u' /\ Usuario.telefono u' = Usuario.telefono u) /\
  (forall k c, conversaciones ch !! k = Some c -> exists c', conversaciones ch' !! k = Some c' /\
     c_ids c' = c_ids c /\ c_mensajes c `prefix_of` c_mensajes c').

#[export] Instance crece_preorden : PreOrder crece.
Proof.
  split.
  - intros ch. split; eauto.
  - intros a b c [H1 H2] [G1 G2]. split.
    + intros k u Hu. destruct (H1 k u Hu) as (u1 & Hu1 & T1). destruct (G1 k u1 Hu1) as (u2 & Hu2 & T2).
      exists u2. split; congruence.
    + intros k v Hv. destruct (H2 k v Hv) as (v1 & Hv1 & I1 & P1). destruct (G2 k v1 Hv1) as (v2 & Hv2 & I2 & P2).
      exists v2. split_and!; [done|congruence|by etrans].
Qed.

Lemma crece_usuario ch u :
  (forall u0, usuarios ch !! Usuario.id u = Some u0 -> Usuario.telefono u = Usuario.telefono u0) ->
  crece ch (guardar_usuario u ch).
Proof.
  intros H. split; cbn; [|eauto]. intros k u0 Hk. destruct (decide (k = Usuario.id u)) as [->|Hn].
  - exists u. rewrite lookup_insert_eq. split; [done|]. by apply H.
  - exists u0. by rewrite lookup_insert_ne.
Qed.

(** A registered user stored again with its id and phone. *)
Lemma crece_mismo ch k u v : valido ch -> usuarios ch !! k = Some u ->
  Usuario.id v = Usuario.id u -> Usuario.telefono v = Usuario.telefono u -> crece ch (guardar_usuario v ch).
Proof.
  intros Hv Hu Hi Ht. apply crece_usuario. rewrite Hi, (buscar_id _ _ _ Hv Hu), Hu. by intros u0 [= <-].
Qed.

Lemma crece_mensaje a b m ch : crece ch (agregar_mensaje a b m ch).
Proof.
  unfold agregar_mensaje. assert (forall k c0, conversaciones ch !! k = Some c0 ->
    crece ch (guardar_conv k (mkConv (c_ids c0) (c_mensajes c0 ++ [m])) ch)) as K.
  { intros k c0 Hk. split; cbn; [eauto|]. intros k' c Hc. destruct (decide (k' = k)) as [->|Hn].
    - rewrite lookup_insert_eq. eexists. split; [done|]. cbn. rewrite Hk in Hc. injection Hc as <-.
      split; [done|by apply prefix_app_r].
    - rewrite lookup_insert_ne by done. eauto. }
  unfold destino. destruct (conversaciones ch !! (a +:+ "-" +:+ b)) as [c|] eqn:Ec; [by apply K|].
  destruct (conversaciones ch !! (b +:+ "-" +:+ a)) as [c|] eqn:Ec'; [by apply K|].
  split; cbn; [eauto|]. intros k' c Hc. rewrite lookup_insert_ne by congruence. eauto.
Qed.

Lemma crece_difusion a m tels ch : crece ch (difusion a m tels ch).
Proof.
  unfold difusion. revert ch. induction tels as [|tel tels IH]; intros ch; cbn [fold_left]; [reflexivity|].
  etrans; [|apply IH]. destruct (en_linea ch tel); [apply crece_mensaje|reflexivity].
Qed.

Lemma paso_crece conn ch ch' : valido ch -> paso conn ch ch' -> crece ch ch'.
Proof.
  intros Hv Hp. destruct Hp as [_|n _| _|tel n _ _|lugar _| _|v tels _ _ _].
  - reflexivity.
  - unfold alta. destruct (usuarios ch !! _) eqn:Eu; [reflexivity|]. apply crece_usuario. cbn. congruence.
  - unfold perfil. destruct (usuarios ch !! _) as [u|] eqn:Eu; [|reflexivity].
    destruct (String.eqb _ _); [by eapply crece_mismo|reflexivity].
  - unfold consulta. destruct (usuarios ch !! _) as [u|] eqn:Eu; [|reflexivity]. eapply crece_mismo; [done|exact Eu|..];
      unfold usuario_consultado; by destruct (StringUtil.toBoolean _).
  - unfold ubicar. destruct (usuarios ch !! _) as [u|] eqn:Eu; [by eapply crece_mismo|reflexivity].
  - unfold envio. destruct (usuarios ch !! _), (usuarios ch !! _); try reflexivity.
    destruct (String.eqb _ _); [apply crece_mensaje|reflexivity].
  - unfold lista_difusion. destruct (usuarios ch !! _); [|reflexivity].
    destruct (String.eqb _ _); [apply crece_difusion|reflexivity].
Qed.

(** ** Who writes *)

(** [conn] asks to send [m] and shows the token [ch] has for its sender. *)
Definition autorizado (conn : Mongoose.mg_connection) (ch : Chat) (m : Mensaje.Mensaje) : Prop :=
  let emisor := Md5.md5 (getParametro conn keyIdUsuarioEmisor keyDefault) in
  (parsearURI conn = ALMACENAR_CONVERSACION \/ parsearURI conn = ALMACENAR_LISTA_DIFUSION) /\
  m = Mensaje.Mensaje_nuevo (getParametro conn keyCuerpo keyDefault) emisor (getParametro conn keyFecha keyDefault) /\
  exists u, usuarios ch !! emisor = Some u /\ Usuario.token u = getParametro conn keyTokenSesion keyDefault.

(** The message is in the conversation [k] of [ch]. *)
Definition guardado (ch : Chat) (k : string) (m : Mensaje.Mensaje) : Prop :=
  exists c, conversaciones ch !! k = Some c /\ In m (c_mensajes c).

(** The messages of [ch'] are those of [ch] and perhaps [m], in conversations of [a]. *)
Definition agrega (a : string) (m : Mensaje.Mensaje) (ch ch' : Chat) : Prop :=
  forall k c' m', conversaciones ch' !! k = Some c' -> In m' (c_mensajes c') ->
  guardado ch k m' \/ (m' = m /\ In a (c_ids c')).

Lemma agrega_refl a m ch : agrega a m ch ch.
Proof. intros k c m' Hc Hm. left. by exists c. Qed.

Lemma agrega_trans a m ch1 ch2 ch3 : crece ch2 ch3 -> agrega a m ch1 ch2 -> agrega a m ch2 ch3 -> agrega a m ch1 ch3.
Proof.
  intros [_ Hc] H1 H2 k c3 m' Hk Hm. destruct (H2 k c3 m' Hk Hm) as [(c2 & Hk2 & Hm2)|H]; [|by right].
  destruct (H1 k c2 m' Hk2 Hm2) as [H|[-> Ha]]; [by left|right]. split; [done|].
  destruct (Hc k c2 Hk2) as (c & Hk' & <- & _) in Ha. congruence.
Qed.

Lemma agrega_guardar a m ch k ids ms : (forall m', In m' ms -> guardado ch k m') -> In a ids ->
  agrega a m ch (guardar_conv k (mkConv ids (ms ++ [m])) ch).
Proof.
  intros Hms Ha k' c' m' Hk Hm. cbn in Hk. apply lookup_insert_Some in Hk as [[<- <-]|[_ Hk]]; [|left; by exists c'].
  cbn in Hm. apply in_app_iff in Hm as [Hm|[<-|[]]]; [left; by apply Hms|by right].
Qed.

Lemma agrega_mensaje s t m ch : valido ch -> agrega (Md5.md5 s) m ch (agregar_mensaje (Md5.md5 s) (Md5.md5 t) m ch).
Proof.
  intros Hv. unfold agregar_mensaje. pose proof (destino_entrega ch s t m Hv) as Hd. unfold destino in *.
  destruct (conversaciones ch !! (Md5.md5 s +:+ "-" +:+ Md5.md5 t)) as [c|] eqn:Ec.
  { apply agrega_guardar; [intros m' Hm; by exists c|by apply Hd]. }
  destruct (conversaciones ch !! (Md5.md5 t +:+ "-" +:+ Md5.md5 s)) as [c|] eqn:Ec'.
  { apply agrega_guardar; [intros m' Hm; by exists c|by apply Hd]. }
  apply (agrega_guardar _ _ _ _ _ []); [done|by left].
Qed.

Lemma agrega_difusion s m tels ch : valido ch -> is_Some (usuarios ch !! Md5.md5 s) -> mensaje_ok m ->
  agrega (Md5.md5 s) m ch (difusion (Md5.md5 s) m tels ch).
Proof.
  intros Hv Hs Hm. unfold difusion. revert ch Hv Hs. induction tels as [|tel tels IH]; intros ch Hv Hs; cbn [fold_left].
  - apply agrega_refl.
  - destruct (en_linea ch tel) as [u|] eqn:Eu; [|by apply IH]. apply en_linea_Some in Eu.
    eapply agrega_trans; [apply crece_difusion|by apply agrega_mensaje|]. apply IH.
    + by apply valido_agregar_mensaje.
    + by rewrite usuarios_agregar.
Qed.

(** A step stores at most the message its request is authorised to send. *)
Lemma paso_autor conn ch ch' k c' m : valido ch -> limpio conn -> paso conn ch ch' ->
  conversaciones ch' !! k = Some c' -> In m (c_mensajes c') ->
  guardado ch k m \/ (autorizado conn ch m /\ In (Mensaje.idUsuarioEmisor m) (c_ids c')).
Proof.
  intros Hv [Hc Hf] Hp Hk Hm.
  assert (conversaciones ch' = conversaciones ch -> guardado ch k m) as Hmismo by (intros E'; exists c'; by rewrite <- E').
  destruct Hp as [_|n _| _|tel n _ _|lugar _|Hu|v tels Hu _ _].
  - by left; apply Hmismo.
  - left. apply Hmismo. unfold alta. by destruct (usuarios ch !! _).
  - left. apply Hmismo. unfold perfil. destruct (usuarios ch !! _) as [u|]; [|done]. by destruct (String.eqb _ _).
  - left. apply Hmismo. unfold consulta. by destruct (usuarios ch !! _).
  - left. apply Hmismo. unfold ubicar. by destruct (usuarios ch !! _).
  - unfold envio in *. destruct (usuarios ch !! Md5.md5 _) as [ua|] eqn:Ea; [|left; by apply Hmismo].
    destruct (usuarios ch !! Md5.md5 (getParametro conn keyIdUsuarioReceptor keyDefault)); [|left; by apply Hmismo].
    destruct (String.eqb_spec (Usuario.token ua) (getParametro conn keyTokenSesion keyDefault)) as [Et|_]; [|left; by apply Hmismo].
    destruct (agrega_mensaje _ _ _ _ Hv _ _ _ Hk Hm) as [H|[-> H]]; [by left|right].
    split; [|exact H]. split_and!; [by left|done|by exists ua].
  - unfold lista_difusion in *. destruct (usuarios ch !! Md5.md5 _) as [ua|] eqn:Ea; [|left; by apply Hmismo].
    destruct (String.eqb_spec (Usuario.token ua) (getParametro conn keyTokenSesion keyDefault)) as [Et|_]; [|left; by apply Hmismo].
    destruct (agrega_difusion _ (Mensaje.Mensaje_nuevo (getParametro conn keyCuerpo keyDefault)
      (Md5.md5 (getParametro conn keyIdUsuarioEmisor keyDefault)) (getParametro conn keyFecha keyDefault)) tels ch Hv (ex_intro _ _ Ea)
      (mensaje_nuevo_ok _ _ _ Hc Hf) _ _ _ Hk Hm) as [H|[-> H]]; [by left|right].
    split; [|exact H]. split_and!; [by right|done|by exists ua].
Qed.

End Maquina.
End Maquina.
