(* ===== verification/ServidorOk.v ===== *)
(** * ServidorOk: the runs of the server are runs of the abstract machine

    Each request takes the database from a chat to another one [Maquina.paso] allows; the web
    server, whatever its clients do, only serves requests. *)

From S2P Require Import Prelude Libc Md5 JsonValue JsonReader JsonWriter StringUtil Mongoose Mundo Loger.
From S2P Require Import Entidades BaseDeDatos Localizacion Servicio Servidor Corre Chat ServicioOk.
From S2P Require Import ConsultasOk Maquina WebSocket Conexion Red ConexionOk RedOk.
Open Scope Z_scope.

Module ServidorOk.
#[local] Strategy 1000 [Md5.md5 Md5.md5_en].
Import Constantes Json Servicio Servidor LogerOk Corre Chat ChatOk ServicioOk ConsultasOk Maquina.

(** ** Requests *)
Section Pedidos.
Context {E : Entorno} {A : Almacen} {AO : AlmacenOk A}.
Abbreviation W := (M (Mundo A)).

(** If the operation answers, it leaves a chat the request may lead to. *)
Definition conserva {B} (conn : Mongoose.mg_connection) (ch : Chat) (w : Mundo A) (m : W B) : Prop :=
  forall b w', m w = (Ok b, w') -> exists ch', sirve ch' w' /\ paso conn ch ch'.

Lemma conserva_implementa conn ch w m ch' mensaje success :
  implementa w m ch' mensaje success -> paso conn ch ch' -> conserva conn ch w m.
Proof.
  intros (m' & Ht & Hr & Hv) Hc [] w' Hw. destruct (termina_parcial _ _ _ _ _ _ Ht Hw) as [Hu Hm].
  exists ch'. split; [|done]. split_and!; [done| |done]. by rewrite Hm.
Qed.

Lemma conserva_bind {B C} conn ch w (m : W B) (f : B -> W C) :
  (forall b w1, m w = (Ok b, w1) -> conserva conn ch w1 (f b)) -> conserva conn ch w (bindM m f).
Proof. intros H c w' (b & w1 & E1 & E2)%bind_ok_inv. by eapply H. Qed.

Lemma conserva_alzar {B C} conn ch w (r : res B) (f : B -> W C) :
  (forall b, r = Ok b -> conserva conn ch w (f b)) -> conserva conn ch w (bindM (alzar r) f).
Proof. intros H. apply conserva_bind. intros b w1 [= -> ->]. by apply H. Qed.

(** A change of the state that does not touch the database. *)
Definition misma_base (w w' : Mundo A) : Prop := base w' = base w /\ instancia w' = instancia w.

Lemma sirve_misma_base ch w w' : misma_base w w' -> sirve ch w -> sirve ch w'.
Proof. intros [H1 H2] ((Hd & Hi) & Hr & Hv). unfold sirve, usable, mem in *. by rewrite H1, H2. Qed.

Lemma conserva_cambiar conn ch w f : sirve ch w -> (forall w, misma_base w (f w)) ->
  lectora (parsearURI conn) = true -> conserva conn ch w (cambiar f).
Proof.
  intros Hs Hf Hl [] w' [= <-]. exists ch. split; [by eapply sirve_misma_base|by apply paso_lectura].
Qed.

(** *** The search for a place only changes the table of places *)

Definition deja_base {B} (m : W B) : Prop := forall w b w', m w = (Ok b, w') -> misma_base w w'.

Lemma deja_base_bind {B C} (m : W B) (f : B -> W C) :
  deja_base m -> (forall b, deja_base (f b)) -> deja_base (bindM m f).
Proof.
  intros Hm Hf w c w' (b & w1 & E1 & E2)%bind_ok_inv. destruct (Hm _ _ _ E1), (Hf _ _ _ _ E2).
  split; congruence.
Qed.
Lemma deja_base_alzar {B} (r : res B) : deja_base (alzar r).
Proof. by intros w b w' [= _ ->]. Qed.
Lemma deja_base_leer {B} (f : Mundo A -> B) : deja_base (leer f).
Proof. by intros w b w' [= _ ->]. Qed.
Lemma deja_base_ret {B} (b : B) : deja_base (ret b).
Proof. by intros w b' w' [= _ ->]. Qed.
Lemma deja_base_lugares l : deja_base (cambiar (con_lugares l)).
Proof. by intros w b w' [= _ <-]. Qed.
#[local] Hint Resolve deja_base_bind deja_base_alzar deja_base_leer deja_base_ret deja_base_lugares : mensajero.

Lemma deja_base_buscar c l ubi d : deja_base (Localizacion.buscar c l ubi d).
Proof.
  revert ubi d. induction l as [|i l IH]; intros ubi d; cbn [Localizacion.buscar]; [auto with mensajero|].
  unfold Localizacion.lugar, Localizacion.lugar_campo.
  repeat (apply deja_base_bind; [auto 6 with mensajero|intros ?]).
  destruct (_ && _); [|apply IH]. repeat (apply deja_base_bind; [auto 6 with mensajero|intros ?]). apply IH.
Qed.

(** *** The services *)

Lemma registrar_conserva ch w conn : sirve ch w -> parsearURI conn = REGISTRAR_USUARIO ->
  conserva conn ch w (registrarUsuario conn).
Proof.
  intros Hs Hu. pose proof (registrar_implementa conn ch w Hs) as H. pose proof (paso_alta conn ch) as Hp. unfold alta in Hp.
  destruct (usuarios ch !! _) eqn:Eu; [|destruct H as [n H]]; eapply conserva_implementa; try exact H.
  - exact (Hp O Hu).
  - exact (Hp n Hu).
Qed.

Lemma consulta_conserva ch w conn : sirve ch w -> parsearURI conn = CONSULTAR_USUARIO_ONLINE ->
  conserva conn ch w (consultarUsuarioOnline conn).
Proof.
  intros Hs Hu. destruct (getParametroIdMetodoGET conn urlBaseUsuario) as [tel|e] eqn:Et.
  - destruct (consulta_implementa conn ch w tel Hs Et) as [n H]. eapply conserva_implementa; [exact H|]. by apply paso_consulta.
  - unfold consultarUsuarioOnline. rewrite Et. by apply conserva_alzar.
Qed.

Lemma difusion_conserva ch w conn : sirve ch w -> limpio conn -> parsearURI conn = ALMACENAR_LISTA_DIFUSION ->
  conserva conn ch w (almacenarListaDifusion conn).
Proof.
  intros Hs [Hc Hf] Hu. destruct (getParametroArray conn keyContantosTelefono keyDefault) as [v|e] eqn:Ev.
  2: { unfold almacenarListaDifusion. rewrite Ev. by apply conserva_alzar. }
  destruct (StringUtil.jsonValueToVector v) as [tels|e] eqn:Ej.
  2: { unfold almacenarListaDifusion. rewrite Ev. apply conserva_alzar. intros ? [= <-]. rewrite Ej. by apply conserva_alzar. }
  eapply conserva_implementa; [by eapply difusion_implementa|]. by eapply paso_difusion.
Qed.

Lemma mensajes_conserva ch w conn : sirve ch w -> lectora (parsearURI conn) = true ->
  conserva conn ch w (obtenerConversacion conn).
Proof.
  intros Hs Hl. destruct (getParametroIdMetodoGET conn urlBaseConversacion) as [k|e] eqn:Ek.
  - eapply conserva_implementa; [by apply mensajes_implementa|by apply paso_lectura].
  - unfold obtenerConversacion. rewrite Ek. by apply conserva_alzar.
Qed.

Lemma conversaciones_conserva ch w conn : sirve ch w -> lectora (parsearURI conn) = true ->
  conserva conn ch w (obtenerConversaciones conn).
Proof.
  intros Hs Hl. destruct (getParametroArray conn keyIdConversaciones keyDefault) as [v|e] eqn:Ev.
  2: { unfold obtenerConversaciones. rewrite Ev. by apply conserva_alzar. }
  destruct (StringUtil.jsonValueToVector v) as [ids|e] eqn:Ej.
  2: { unfold obtenerConversaciones. rewrite Ev. apply conserva_alzar. intros ? [= <-]. rewrite Ej. by apply conserva_alzar. }
  destruct (getParametroIdMetodoGET conn urlBaseUsuarioConversaciones) as [tel|e] eqn:Et.
  2: { unfold obtenerConversaciones. rewrite Ev. apply conserva_alzar. intros ? [= <-]. rewrite Ej.
       apply conserva_alzar. intros ? [= <-]. rewrite Et. by apply conserva_alzar. }
  destruct (usuarios ch !! Md5.md5 tel) as [u|] eqn:Eu.
  - eapply conserva_implementa; [by eapply conversaciones_implementa|by apply paso_lectura].
  - destruct (conversaciones_sin_usuario conn ch w v ids tel) as (w1 & E1 & H1); try done.
    intros [] w' E'. rewrite E1 in E'. injection E' as <-. exists ch. split; [by eapply sirve_llega|by apply paso_lectura].
Qed.

Lemma contactos_conserva ch w conn : sirve ch w -> lectora (parsearURI conn) = true ->
  conserva conn ch w (obtenerContactos conn).
Proof.
  intros Hs Hl. destruct (getParametroArray conn keyContantosTelefono keyDefault) as [v|e] eqn:Ev.
  2: { unfold obtenerContactos. rewrite Ev. by apply conserva_alzar. }
  destruct (StringUtil.jsonValueToVector v) as [tels|e] eqn:Ej.
  2: { unfold obtenerContactos. rewrite Ev. apply conserva_alzar. intros ? [= <-]. rewrite Ej. by apply conserva_alzar. }
  eapply conserva_implementa; [by eapply contactos_implementa|by apply paso_lectura].
Qed.

Lemma checkIn_conserva ch w conn : sirve ch w -> parsearURI conn = CHECKIN_USUARIO ->
  conserva conn ch w (checkIn conn).
Proof.
  intros Hs Huri. pose proof (proj2 (proj2 Hs)) as Hv. unfold checkIn, obtenerUsuario. apply conserva_alzar. intros coord _.
  apply conserva_bind. intros u w1 E1. set (tel := getParametro conn keyTelefono keyDefault) in *.
  destruct (corre_obtenerPorTelefono ch w tel) as (w1' & E1' & H1); [by destruct Hs as (? & ? & _)..|].
  rewrite E1 in E1'. injection E1' as -> <-. pose proof (sirve_llega _ _ _ Hs H1) as Hs1.
  pose proof (fun lugar => paso_ubicar conn ch lugar Huri) as Hp. unfold ubicar in Hp. fold tel in Hp.
  rewrite (noExiste_buscar ch) by done. destruct (usuarios ch !! Md5.md5 tel) as [u|] eqn:Eu; cbn [negb].
  2: { eapply conserva_implementa; [by apply implementa_responder|by apply (Hp "")]. }
  rewrite (buscar_Some _ _ _ Eu). apply conserva_bind. intros ubi w2 E2.
  assert (sirve ch w2) as Hs2.
  { eapply sirve_misma_base; [|exact Hs1]. unfold Localizacion.calcularUbicacion in E2.
    apply bind_ok_inv in E2 as (? & ? & [= <- <-] & E2). by eapply deja_base_buscar. }
  apply conserva_bind. intros fecha w3 E3. destruct (corre_fecha w2 (proj1 Hs2)) as (w3' & E3' & H3).
  rewrite E3 in E3'. injection E3' as _ <-. pose proof (sirve_llega _ _ _ Hs2 H3) as Hs3. clear E1 E2 E3.
  destruct (proj1 Hv _ u Eu) as [Hid Ht].
  eapply conserva_implementa.
  - apply (implementa_persistir ch); [done|cbn; congruence|]. intros w4 Hs4. by apply implementa_responder.
  - apply Hp.
Qed.

Lemma servicio_conserva ch w conn : sirve ch w -> limpio conn -> conserva conn ch w (administrarServicio conn).
Proof.
  intros Hs Hl. unfold administrarServicio. destruct (parsearURI conn) eqn:Eu.
  all: try (assert (lectora (parsearURI conn) = true) as Hr by (by rewrite Eu)).
  - by apply conserva_cambiar.
  - by apply registrar_conserva.
  - by apply conserva_cambiar.
  - eapply conserva_implementa; [by apply perfil_implementa|by apply paso_perfil].
  - destruct Hl. eapply conserva_implementa; [by apply envio_implementa|by apply paso_envio].
  - by apply consulta_conserva.
  - by apply checkIn_conserva.
  - by apply conserva_cambiar.
  - eapply conserva_implementa; [by apply id_conversacion_implementa|by apply paso_lectura].
  - by apply mensajes_conserva.
  - by apply conversaciones_conserva.
  - by apply contactos_conserva.
  - by apply difusion_conserva.
  - apply conserva_bind. intros s w1 [= <- <-]. apply conserva_alzar. intros s' _. by apply conserva_cambiar.
Qed.

(** *** Simulation *)

(** A request served, seen in the process and in the abstract machine. *)
Definition a_la_par (conn : Mongoose.mg_connection) (s s' : Mundo A * Chat) : Prop :=
  pedido (eq conn) s.1 s'.1 /\ paso conn s.2 s'.2 /\ sirve s'.2 s'.1.

Lemma pedido_simula ch w w' : sirve ch w -> pedido limpio w w' ->
  exists conn ch', limpio conn /\ a_la_par conn (w, ch) (w', ch').
Proof.
  intros Hs Hp. destruct Hp as [conn r sal sal' w0 w1 Hl Hw]. exists conn. pose proof Hw as Hw'. unfold manejar in Hw.
  destruct (ev_handler (Some conn) Mongoose.MG_REQUEST (con_salida sal w0)) as [r' w2] eqn:E2. injection Hw as -> _ <-.
  cbn [ev_handler] in E2. apply bind_ok_inv in E2 as ([] & w3 & E3 & [= _ <-]).
  destruct (servicio_conserva ch (con_salida sal w0) conn) with (b := tt) (w' := w3) as (ch' & H1 & H2); [|done|done|].
  - by eapply sirve_misma_base; [|exact Hs].
  - exists ch'. split; [done|]. split_and!; [by eapply pedido_atendido|done|by eapply sirve_misma_base; [|exact H1]].
Qed.

(** The runs of both. *)
Definition corrida : Mundo A * Chat -> Mundo A * Chat -> Prop :=
  rtc (fun s s' => exists conn, limpio conn /\ a_la_par conn s s').

Lemma pedidos_simulan ch w w' : sirve ch w -> rtc (pedido limpio) w w' ->
  exists ch', sirve ch' w' /\ corrida (w, ch) (w', ch').
Proof.
  intros Hs Hr. revert ch Hs. induction Hr as [w|w w1 w' Hp _ IH]; intros ch Hs; [exists ch; split; [done|apply rtc_refl]|].
  destruct (pedido_simula ch w w1 Hs Hp) as (conn & ch1 & Hl & Ha). pose proof Ha as (_ & _ & Hs1).
  destruct (IH ch1 Hs1) as (ch2 & Hs2 & H2). exists ch2. split; [done|]. eapply rtc_l; [|exact H2]. by exists conn.
Qed.

Lemma corrida_pedidos s s' : corrida s s' -> rtc (pedido limpio) s.1 s'.1.
Proof.
  induction 1 as [|s s1 s' (conn & Hl & Hp & _) _ IH]; [done|]. eapply rtc_l; [|exact IH].
  destruct Hp as [? ? ? ? ? ? <- ?]. by eapply pedido_atendido.
Qed.

(** The abstract run of a run. *)
Lemma corrida_maquina s s' : corrida s s' -> rtc (fun ch ch' => exists conn, limpio conn /\ paso conn ch ch') s.2 s'.2.
Proof.
  induction 1 as [|s s1 s' (conn & Hl & _ & Hp & _) _ IH]; [done|]. eapply rtc_l; [|exact IH]. by exists conn.
Qed.

Lemma corrida_crece s s' : sirve s.2 s.1 -> corrida s s' -> crece s.2 s'.2.
Proof.
  intros Hs. induction 1 as [|s s1 s' (conn & _ & _ & Hp & Hs1) _ IH]; [reflexivity|].
  etrans; [eapply paso_crece; [by destruct Hs as (_ & _ & ?)|exact Hp]|by apply IH].
Qed.

Lemma corrida_sirve s s' : sirve s.2 s.1 -> corrida s s' -> sirve s'.2 s'.1.
Proof. intros Hs Hr. revert Hs. induction Hr as [|s s1 s' (conn & _ & _ & _ & Hs1) _ IH]; auto. Qed.

Lemma pedidos_conservan ch w w' : sirve ch w -> rtc (pedido limpio) w w' -> exists ch', sirve ch' w' /\ crece ch ch'.
Proof.
  intros Hs Hr. destruct (pedidos_simulan ch w w' Hs Hr) as (ch' & Hs' & Hc). exists ch'. split; [done|].
  by apply (corrida_crece (w, ch) (w', ch')).
Qed.

(** Every message that a run adds was sent by a request with the token of its sender. *)
Lemma corrida_autor s s' k c' m : sirve s.2 s.1 -> corrida s s' ->
  conversaciones s'.2 !! k = Some c' -> In m (c_mensajes c') ->
  guardado s.2 k m \/
  exists conn s1 s2, corrida s s1 /\ limpio conn /\ a_la_par conn s1 s2 /\ corrida s2 s' /\
    autorizado conn s1.2 m /\ In (Mensaje.idUsuarioEmisor m) (c_ids c').
Proof.
  intros Hs Hr. revert s' Hr c'. refine (rtc_ind_r _ s _ _); [|intros s' s'' Hr (conn & Hl & Ha) IH]; intros c' Hc Hm.
  { left. by exists c'. }
  assert (valido s'.2) as Hv by (by apply (corrida_sirve s s')). pose proof Ha as (_ & Hp & _).
  destruct (paso_autor conn s'.2 s''.2 k c' m Hv Hl Hp Hc Hm) as [(c & Hk & Hm')|[H1 H2]].
  - destruct (IH c Hk Hm') as [H|(conn' & s1 & s2 & R1 & L' & A' & R2 & Hau & Hid)]; [by left|right].
    exists conn', s1, s2. split_and!; try done.
    + eapply rtc_r; [exact R2|by exists conn].
    + destruct (paso_crece conn _ _ Hv Hp) as [_ G]. destruct (G k c Hk) as (c2 & Hk2 & Hids & _). congruence.
  - right. exists conn, s', s''. split_and!; done.
Qed.

(** *** The handler *)

#[export] Instance servidor_ok : ManejadorOk (servidor_manejador (A := A)).
Proof.
  split; cbn.
  - intros c [sal w] r [sal' w']. unfold manejar. destruct (ev_handler _ _ _) as [r' w1] eqn:Eh. intros [= -> _ _].
    destruct c as [c|]; [|done]. cbn [ev_handler] in Eh. apply bind_ok_inv in Eh as (u & w2 & _ & Eh). by injection Eh.
  - intros c [sal w]. by destruct w.
  - intros c ev [sal w] H1 H2. destruct w. by destruct ev.
Qed.

Lemma filtrada_pedido (P : Mongoose.mg_connection -> Prop) {PD : forall r, Decision (P r)} c x s r y s' :
  event_handler (Manejador := Red.filtrar P servidor_manejador) c Mongoose.MG_REQUEST (x, s) = (Ok r, (y, s')) ->
  rtc (pedido P) s s'.
Proof.
  intros Eh. cbn in Eh. destruct c as [c|].
  - destruct (decide (P c)); [|done]. apply rtc_once. by econstructor.
  - unfold manejar in Eh. cbn in Eh. by destruct (con_salida x s).
Qed.

(** Every run of the event loop is a sequence of requests served. *)
Lemma turnos_pedidos (P : Mongoose.mg_connection -> Prop) {PD : forall r, Decision (P r)} r r' :
  Forall (fun n => RedOk.Inv (Red.conn n)) (Red.active_connections r) ->
  rtc (Red.turno (H := Red.filtrar P servidor_manejador)) r r' ->
  Forall (fun n => RedOk.Inv (Red.conn n)) (Red.active_connections r') /\
  rtc (pedido P) (Red.estado r) (Red.estado r').
Proof.
  intros Hr Ht. eapply (RedOk.turnos_preservan (H := Red.filtrar P servidor_manejador)
    (HO := RedOk.filtrar_ok P servidor_manejador servidor_ok) (rtc (pedido P)));
    [apply filtrada_pedido|exact Hr|exact Ht].
Qed.

Lemma alcanzable_inv (P : Mongoose.mg_connection -> Prop) {PD : forall r, Decision (P r)} d r :
  alcanzable P d r ->
  Forall (fun n => RedOk.Inv (Red.conn n)) (Red.active_connections r) /\
  exists w, main_inicio (mundo_inicial d) = (Ok tt, w) /\ rtc (pedido P) w (Red.estado r).
Proof.
  induction 1 as [w Hw|r r' _ [Hi (w & Hw & Hp)] Ht]; [split; [done|]; by exists w|].
  destruct (turnos_pedidos P r r' Hi (rtc_once _ _ Ht)) as [Hi' Hp']. split; [done|].
  exists w. split; [done|by etrans].
Qed.

(** *** The start of the process *)

Lemma deja_base_cargar path : deja_base (Localizacion.cargarLugares path).
Proof.
  unfold Localizacion.cargarLugares. destruct (archivo_en path); [|by intros w b w'].
  apply deja_base_bind; [auto with mensajero|]. intros l.
  apply deja_base_bind; [auto with mensajero|]. intros [[ok l'] errs].
  apply deja_base_bind; [auto with mensajero|]. intros _. destruct ok; [auto with mensajero|by intros w b w'].
Qed.

Lemma cargar_fallo path w e w' : Localizacion.cargarLugares path w = (Fallo e, w') -> misma_base w w'.
Proof.
  unfold Localizacion.cargarLugares. destruct (archivo_en path) as [doc|]; [|by intros [= _ <-]].
  unfold bindM, leer, alzar, cambiar. destruct (JsonReader.parse_features _ _ _) as [[[ok l] errs]|e']; [|by intros [= _ <-]].
  destruct ok; [done|]. by intros [= _ <-].
Qed.

Lemma inicio_sirve ch d w : disponible d -> Representa ch (contenido d) -> valido ch ->
  main_inicio (mundo_inicial d) = (Ok tt, w) -> sirve ch w.
Proof.
  intros Hd Hr Hv Hw. unfold main_inicio in Hw. apply bind_ok_inv in Hw as ([] & w1 & [= <-] & Hw).
  set (w1 := mkMundo _ _ _ _ _ _ _ _ _) in Hw.
  assert (sirve ch w1) as Hs1 by (split_and!; [split; [exact Hd|done]|exact Hr|done]).
  clearbody w1. unfold atrapar_runtime_error in Hw.
  destruct (Localizacion.cargarLugares "Lugares.txt" w1) as [[[]|e] w2] eqn:Ec.
  - injection Hw as <-. eapply sirve_misma_base; [|exact Hs1]. by eapply deja_base_cargar.
  - assert (sirve ch w2) as Hs2.
    { eapply sirve_misma_base; [|exact Hs1]. by eapply cargar_fallo. }
    destruct e; try discriminate. destruct (solo_log_warn msg w2) as ([] & w3 & E3 & H3). rewrite Hw in E3. injection E3 as ->.
    eapply sirve_misma_base; [|exact Hs2]. by destruct H3 as (? & ? & _).
Qed.

End Pedidos.
End ServidorOk.
