(* ===== verification/Garantias.v ===== *)
(** * Garantias: what the services promise

    The theorems a user of the server relies on.  [sirve ch w] says that the process is in
    the state [w], its store works and its database represents the valid chat [ch];
    [atiende w m ch' mensaje success] says that the service [m] returns, leaves a process
    that serves [ch'] and has sent [mensaje] with the flag [success]. *)

From S2P Require Import Prelude Libc Md5 JsonValue JsonReader JsonWriter JsonTexto JsonWriterOk StringUtil.
From S2P Require Import Mongoose MongooseOk Mundo Loger Entidades BaseDeDatos Localizacion LocalizacionOk.
From S2P Require Import Servicio Servidor Corre Chat ServicioOk ConsultasOk Maquina ServidorOk.
Open Scope Z_scope.

(** ** A small chat, for the witnesses *)
Module Ejemplo.
#[local] Strategy 1000 [Md5.md5 Md5.md5_en].
Import Constantes BaseDeDatos Chat ChatOk ServicioOk ConsultasOk.

Definition entorno : Entorno :=
  {| localtime := fun _ => Libc.mkTm 1 2 3 4 5 115 6; reloj := fun n => Z.of_nat n; archivo_en := fun _ => None;
     big_endian := false |}.

Definition ana : Usuario.Usuario :=
  Usuario.mkUsuario "Ana" "default" (Md5.md5 "111") "111" true "desconocida" "" "t1" "p".
Definition beto : Usuario.Usuario :=
  Usuario.mkUsuario "Beto" "default" (Md5.md5 "222") "222" true "desconocida" "" "t2" "q".
Definition hola : Mensaje.Mensaje := Mensaje.Mensaje_nuevo "hola" (Md5.md5 "111") "hoy".

Definition chat0 : Chat := guardar_usuario beto (guardar_usuario ana chat_vacio).
Definition base0 : gmap string string :=
  <[claveBaseUsuario +:+ Usuario.id beto := texto_usuario beto]>
  (<[claveBaseUsuario +:+ Usuario.id ana := texto_usuario ana]> ∅).

(** Ana and Beto, and one message from Ana to Beto. *)
Definition chat1 : Chat := agregar_mensaje (Md5.md5 "111") (Md5.md5 "222") hola chat0.
Definition base1 : gmap string string :=
  let '(k, c) := destino (Md5.md5 "111") (Md5.md5 "222") hola chat0 in conv_mem k c base0.

Definition mundo (d : gmap string string) : Mundo memoria := Servidor.mundo_inicial (A := memoria) d.

Definition pedido (metodo uri content : string) : Mongoose.mg_connection :=
  Mongoose.mkConn metodo uri "1.1" None [] content.

Lemma representa_vacio : Representa chat_vacio ∅.
Proof. by split_and!; intros k; rewrite !lookup_empty. Qed.

Lemma sirve_vacio : sirve (AO := memoria_ok) chat_vacio (mundo ∅).
Proof. split_and!; [done|apply representa_vacio|apply valido_vacio]. Qed.

Lemma sirve0 : sirve (AO := memoria_ok) chat0 (mundo base0).
Proof.
  split_and!; [done| |].
  - apply representa_usuario, representa_usuario, representa_vacio.
  - by apply valido_guardar_usuario; [apply valido_guardar_usuario; [apply valido_vacio|]|].
Qed.

Lemma usuario1 : usuarios chat0 !! Md5.md5 "111" = Some ana.
Proof. vm_compute. reflexivity. Qed.
Lemma usuario2 : usuarios chat0 !! Md5.md5 "222" = Some beto.
Proof. vm_compute. reflexivity. Qed.

Lemma hola_ok : mensaje_ok hola.
Proof. by apply mensaje_nuevo_ok. Qed.

Lemma sirve1 : sirve (AO := memoria_ok) chat1 (mundo base1).
Proof.
  destruct sirve0 as (Hu & Hr & Hv).
  split_and!; [done| |apply valido_agregar_mensaje; [done|by rewrite usuario1|by rewrite usuario2|apply hola_ok]].
  unfold chat1, base1, agregar_mensaje. cbn [Mundo.base mundo Servidor.mundo_inicial].
  pose proof (clave_conv_ok "111" "222") as (Hk & Hn & _).
  change (destino (Md5.md5 "111") (Md5.md5 "222") hola chat0) with
    (Md5.md5 "111" +:+ "-" +:+ Md5.md5 "222", mkConv [Md5.md5 "111"; Md5.md5 "222"] [hola]).
  apply representa_guardar_conv; [done..|by apply indice_items_valido].
Qed.

End Ejemplo.

Module Garantias.
#[local] Strategy 1000 [Md5.md5 Md5.md5_en].
Import Constantes Json Servicio Servidor Corre Chat ChatOk ServicioOk ConsultasOk Maquina ServidorOk LocalizacionOk.

Section Garantias.
Context {E : Entorno} {A : Almacen} {AO : AlmacenOk A}.

(** C27. Parameters: a form posted with the encoding of a browser gives each value back, for
    names compared without case, if it fits in the buffer of the service. *)
Theorem getParametro_formulario conn n m v l1 l2 :
  Mongoose.query_string conn = None -> Mongoose.content conn = MongooseOk.formulario (l1 ++ (m, v) :: l2) ->
  Forall (fun p => MongooseOk.nombre_ok p.1 /\ MongooseOk.minusculas p.1 <> MongooseOk.minusculas n) l1 ->
  MongooseOk.nombre_ok n -> contiene NUL n = false -> MongooseOk.nombre_ok m ->
  MongooseOk.minusculas m = MongooseOk.minusculas n ->
  contiene NUL v = false -> v <> "" -> Libc.largo v < tamanioBuffer ->
  getParametro conn n keyDefault = v.
Proof.
  intros Hq Hc Hl Hn Hn0 Hm Hmn Hv0 Hne Hv. unfold getParametro, Mongoose.mg_get_var.
  assert (Mongoose.get_var (Mongoose.query_string conn) (c_str n) tamanioBuffer = (-1, "")) as -> by (by rewrite Hq).
  rewrite Hc, (c_str_id n) by done. cbn [Z.ltb Z.compare].
  rewrite (MongooseOk.get_var_enviada n m v l1 l2 tamanioBuffer) by done.
  destruct (Z.ltb_spec (Libc.largo v) 1) as [Hlt|_]; [|by apply c_str_id].
  exfalso. destruct v; [done|]. unfold Libc.largo in Hlt. cbn in Hlt. lia.
Qed.

(** ** Users *)

(** C13. Registration: a phone that is already registered is refused and nothing changes;
    otherwise the user is stored under the md5 of the phone with the name and password of
    the request, the defaults for the rest and an empty session token. *)
Theorem registrarUsuario_refina conn ch w : sirve ch w ->
  match usuarios ch !! Md5.md5 (getParametro conn keyTelefono keyDefault) with
  | Some _ => atiende w (registrarUsuario conn) ch "El usuario ya existe" false
  | None => exists n, atiende w (registrarUsuario conn)
      (guardar_usuario (usuario_registrado conn (c_str (ctime (reloj n)))) ch) "Usuario registrado correctamente" true
  end.
Proof.
  intros Hs. pose proof (registrar_implementa conn ch w Hs) as H.
  destruct (usuarios ch !! _); [by apply implementa_atiende|]. destruct H as [n H]. exists n.
  by apply implementa_atiende.
Qed.

(** C14. Profile, when the reply has no percent sign: the fields of the request replace those
    of the user if and only if the user is registered and the token of the request is the
    stored one; otherwise nothing changes and the reply says why. *)
Theorem administrarPerfil_refina conn ch w : sirve ch w ->
  contiene "%" (perfil conn ch).2.1 = false ->
  atiende w (administrarPerfil conn) (perfil conn ch).1 (perfil conn ch).2.1 (perfil conn ch).2.2.
Proof. intros Hs Hp. apply implementa_atiende; [by apply perfil_implementa|done]. Qed.

(** The fields of a user that a query shows, without format directives. *)
Definition sin_formato (u : Usuario.Usuario) : Prop :=
  contiene "%" (Usuario.nombre u) = false /\ contiene "%" (Usuario.password u) = false /\
  contiene "%" (Usuario.token u) = false /\ contiene "%" (Usuario.fotoDePerfil u) = false /\
  contiene "%" (Usuario.id u) = false /\ contiene "%" (Usuario.localizacion u) = false.

Lemma consulta_sin_formato conn ch tel ultima :
  contiene "%" (getParametro conn keyTelefono keyDefault) = false ->
  (forall u, usuarios ch !! Md5.md5 tel = Some u -> sin_formato u) ->
  contiene "%" (consulta conn ch tel ultima).2.1 = false.
Proof.
  intros Ht Hu. unfold consulta. destruct (usuarios ch !! Md5.md5 tel) as [u|].
  - cbn [snd fst]. set (v := usuario_consultado conn ultima u).
    assert (sin_formato v) as (H1 & H2 & H3 & H4 & H5 & H6).
    { destruct (Hu u eq_refl) as (G1 & G2 & G3 & G4 & G5 & G6). unfold v, usuario_consultado.
      destruct (StringUtil.toBoolean _); split_and!; cbn -[Md5.md5]; try done. by apply md5_sin. }
    destruct (texto_ok (json_consulta v)) as (Hs & _); [done|cbn; lia|].
    apply (JsonWriterOk.styled_sin_char "%" eq_refl (json_consulta v)); [done| |exact Hs].
    unfold json_consulta. cbn. rewrite H1, H2, H3, H4, H5, H6. by destruct (Usuario.conectado v).
  - cbn [snd fst]. by rewrite !contiene_app, Ht.
Qed.

(** C15. Query of a user, when neither the data of the user nor the phone of the request has a
    percent sign (the reply is a format for [mg_printf_data]): the reply is the profile of the
    user, whose last connection is set to the current time; a new session token, the md5 of
    the phone and that time, replaces the old one exactly when it is requested. *)
Theorem consultarUsuarioOnline_refina conn ch w tel : sirve ch w ->
  getParametroIdMetodoGET conn urlBaseUsuario = Ok tel ->
  contiene "%" (getParametro conn keyTelefono keyDefault) = false ->
  (forall u, usuarios ch !! Md5.md5 tel = Some u -> sin_formato u) ->
  exists n, let r := consulta conn ch tel (c_str (ctime (reloj n))) in
    atiende w (consultarUsuarioOnline conn) r.1 r.2.1 r.2.2.
Proof.
  intros Hs Htel Hp Hu. destruct (consulta_implementa conn ch w tel Hs Htel) as [n H]. exists n.
  apply implementa_atiende; [exact H|]. by apply consulta_sin_formato.
Qed.

(** ** Messages *)

(** C6. Sending a message, whose text and date have no list separator [#], when the reply has
    no percent sign: with both users registered and the token of the sender, the message is
    appended to the conversation of the two users, whichever of them started it, or to a new
    one, and its id is the reply; otherwise nothing changes and the reply says why. *)
Theorem almacenarConversacion_refina conn ch w : sirve ch w -> limpio conn ->
  contiene "%" (envio conn ch).2.1 = false ->
  atiende w (almacenarConversacion conn) (envio conn ch).1 (envio conn ch).2.1 (envio conn ch).2.2.
Proof. intros Hs [Hc Hf] Hp. apply implementa_atiende; [by apply envio_implementa|done]. Qed.

(** C12. Broadcast of a message whose text and date have no list separator [#], to a list of
    contacts that is read, when the reply has no percent sign: with the sender registered and
    its token, the message is appended to the conversation of the sender with each contact
    that is registered and connected, in the order of the list, and no other conversation
    changes. *)
Theorem almacenarListaDifusion_refina conn ch w v tels : sirve ch w -> limpio conn ->
  getParametroArray conn keyContantosTelefono keyDefault = Ok v -> StringUtil.jsonValueToVector v = Ok tels ->
  contiene "%" (lista_difusion conn ch tels).2.1 = false ->
  atiende w (almacenarListaDifusion conn) (lista_difusion conn ch tels).1
    (lista_difusion conn ch tels).2.1 (lista_difusion conn ch tels).2.2.
Proof. intros Hs [Hc Hf] Hv Hj Hp. apply implementa_atiende; [by eapply difusion_implementa|done]. Qed.

(** C16. Reading a conversation whose new messages, with their data, have no percent sign
    changes nothing; the payload is a JSON document with the list of the messages after the
    last one the client has, in order and as they were stored: all of them if it has none, and
    none if the one it has is not in the conversation. *)
Theorem obtenerConversacion_refina conn ch w k c : sirve ch w ->
  getParametroIdMetodoGET conn urlBaseConversacion = Ok k -> conversaciones ch !! k = Some c ->
  contiene "%" (mensajes_de conn ch k).1 = false ->
  atiende w (obtenerConversacion conn) ch (mensajes_de conn ch k).1 true /\
  JsonReader.parse (mensajes_de conn ch k).1 =
    Ok (true, json_mensajes (mensajes_desde (getParametro conn keyIdUltimoMensaje keyDefault) (c_mensajes c))).
Proof.
  intros Hs Hk Hc Hp. pose proof (mensajes_implementa conn ch w k Hs Hk) as H.
  unfold mensajes_de in *. rewrite Hc in *. split; [by apply implementa_atiende|].
  apply lista_json_texto; [done|apply planos_cadenas].
Qed.

(** C17. The conversations of a registered user, when no last message or name among those to
    send has a percent sign and the list of the client is read: the payload lists, in the
    order they were started, those of the user that the client does not have, with the last
    message and the other user. *)
Theorem obtenerConversaciones_refina conn ch w v tiene tel u : sirve ch w ->
  getParametroArray conn keyIdConversaciones keyDefault = Ok v -> StringUtil.jsonValueToVector v = Ok tiene ->
  getParametroIdMetodoGET conn urlBaseUsuarioConversaciones = Ok tel ->
  usuarios ch !! Md5.md5 tel = Some u -> contiene "%" (novedades ch (Md5.md5 tel) tiene) = false ->
  atiende w (obtenerConversaciones conn) ch (novedades ch (Md5.md5 tel) tiene) true /\
  JsonReader.parse (novedades ch (Md5.md5 tel) tiene) =
    Ok (true, lista_json "conversaciones"
      (resumenes ch (Md5.md5 tel) (faltantes tiene (default [] (indice ch !! Md5.md5 tel))))).
Proof.
  intros Hs Hv Hj Ht Hu Hp. split; [apply implementa_atiende; [by eapply conversaciones_implementa|done]|].
  apply lista_json_texto; [done|apply resumenes_planos].
Qed.

(** An unknown user that asks for its conversations gets no reply at all: the service
    returns without sending anything. *)
Theorem obtenerConversaciones_calla conn ch w v tiene tel : sirve ch w ->
  getParametroArray conn keyIdConversaciones keyDefault = Ok v -> StringUtil.jsonValueToVector v = Ok tiene ->
  getParametroIdMetodoGET conn urlBaseUsuarioConversaciones = Ok tel ->
  usuarios ch !! Md5.md5 tel = None ->
  exists w', obtenerConversaciones conn w = (Ok tt, w') /\ salida w' = salida w /\ sirve ch w'.
Proof.
  intros Hs Hv Hj Ht Hu. destruct (conversaciones_sin_usuario conn ch w v tiene tel) as (w' & E' & H'); try done.
  exists w'. split_and!; [done|by eapply llega_salida|by eapply sirve_llega].
Qed.

(** Contacts: the payload lists, in the order asked, the contacts that are registered and
    connected, and nothing changes. *)
Theorem obtenerContactos_refina conn ch w v tels : sirve ch w ->
  getParametroArray conn keyContantosTelefono keyDefault = Ok v -> StringUtil.jsonValueToVector v = Ok tels ->
  contiene "%" (agenda ch tels) = false ->
  atiende w (obtenerContactos conn) ch (agenda ch tels) true /\
  JsonReader.parse (agenda ch tels) = Ok (true, lista_json "contactos" (json_contacto <$> omap (en_linea ch) tels)).
Proof.
  intros Hs Hv Hj Hp. split; [apply implementa_atiende; [by eapply contactos_implementa|done]|].
  apply lista_json_texto; [done|apply contactos_planos].
Qed.

Lemma id_conversacion_sin_formato conn ch : contiene "%" (id_conversacion conn ch).1 = false.
Proof.
  unfold id_conversacion.
  assert (forall s t, contiene "%" (Md5.md5 s +:+ "-" +:+ Md5.md5 t) = false) as H
    by (intros; by rewrite !contiene_app, !md5_sin).
  repeat (destruct (_ !! _); try done); apply H.
Qed.

(** C18. The id of the conversation of two users: found under either order of their ids.  When
    there is none the reply is still flagged as a success, with the "not found" mark as id:
    the code compares it with the mark for users. *)
Theorem obtenerIdConversacion_refina conn ch w : sirve ch w ->
  atiende w (obtenerIdConversacion conn) ch (id_conversacion conn ch).1 (id_conversacion conn ch).2.
Proof.
  intros Hs. apply implementa_atiende; [by apply id_conversacion_implementa|apply id_conversacion_sin_formato].
Qed.

Lemma ubicacion_sin_formato conn ls t : Forall (fun l => contiene "%" (nombre l) = false) ls ->
  contiene "%" (ubicacion_en conn ls t) = false.
Proof.
  intros Hl. unfold ubicacion_en. rewrite !contiene_app, (contiene_c_str _ _ (Libc.strftime_sin_formato _)), orb_false_r.
  cut (forall la lo ubi d, contiene "%" ubi = false -> contiene "%" (mas_cercano la lo ls ubi d) = false).
  { intros H. by rewrite H. }
  intros la lo. induction Hl as [|l ls Hn _ IH]; intros ubi d Hu; cbn [mas_cercano]; [done|].
  destruct (_ && _); by apply IH.
Qed.

(** Check-in: with a table of well-formed places, the location of a registered user
    becomes the name of the place found and the time, which are also the reply; an unknown
    user is told so. *)
Theorem checkIn_refina conn ch w ls : sirve ch w -> tabla (lugares w) ls ->
  Forall (fun l => contiene "%" (nombre l) = false) ls ->
  match usuarios ch !! Md5.md5 (getParametro conn keyTelefono keyDefault) with
  | None => atiende w (checkIn conn) ch "el usuario no existe." false
  | Some u => exists n, let loc := ubicacion_en conn ls (reloj n) in
      atiende w (checkIn conn) (guardar_usuario (Usuario.setLocalizacion loc u) ch) loc true
  end.
Proof.
  intros Hs Hl Hp. pose proof (checkIn_implementa conn ch w ls Hs Hl) as H.
  destruct (usuarios ch !! _) as [u|]; [|by apply implementa_atiende]. destruct H as [n H]. exists n.
  apply implementa_atiende; [done|by apply ubicacion_sin_formato].
Qed.

End Garantias.
End Garantias.

(** ** The theorems at concrete inputs *)
Module Testigos.
#[local] Strategy 1000 [Md5.md5 Md5.md5_en].
Import Constantes Json Servicio Servidor Corre Chat ChatOk ServicioOk ConsultasOk Maquina ServidorOk LocalizacionOk Garantias.
#[local] Existing Instance Ejemplo.entorno.

Definition registro : Mongoose.mg_connection :=
  Ejemplo.pedido "POST" "/usuario/" "Nombre=Ana&Telefono=111&Password=p".

Lemma registrarUsuario_refina_witness :
  exists n, atiende (AO := memoria_ok) (Ejemplo.mundo ∅) (registrarUsuario registro)
    (guardar_usuario (usuario_registrado registro (c_str (ctime (reloj n)))) chat_vacio)
    "Usuario registrado correctamente" true.
Proof. exact (registrarUsuario_refina (AO := memoria_ok) registro chat_vacio (Ejemplo.mundo ∅) Ejemplo.sirve_vacio). Defined.

Lemma getParametro_formulario_witness :
  getParametro (Ejemplo.pedido "POST" "/usuario/" (MongooseOk.formulario [("Nombre", "Ana & Luis"); ("Telefono", "+54 11=5")]))
    "telefono" keyDefault = "+54 11=5".
Proof.
  apply (getParametro_formulario _ "telefono" "Telefono" "+54 11=5" [("Nombre", "Ana & Luis")] []);
    [reflexivity|reflexivity| |by split|reflexivity|by split|reflexivity|reflexivity|discriminate|reflexivity].
  repeat constructor; vm_compute; discriminate.
Defined.

Definition cambio_de_perfil : Mongoose.mg_connection :=
  Ejemplo.pedido "PUT" "/usuario/" "Telefono=111&Token=t1&Nombre=Anita".

Lemma administrarPerfil_refina_witness :
  let r := perfil cambio_de_perfil Ejemplo.chat0 in r.2.2 = true /\
  atiende (AO := memoria_ok) (Ejemplo.mundo Ejemplo.base0) (administrarPerfil cambio_de_perfil) r.1 r.2.1 r.2.2.
Proof.
  split; [vm_compute; reflexivity|].
  apply (administrarPerfil_refina (AO := memoria_ok) cambio_de_perfil Ejemplo.chat0); [apply Ejemplo.sirve0|].
  vm_compute. reflexivity.
Defined.

Definition consulta_de_ana : Mongoose.mg_connection := Ejemplo.pedido "GET" "/usuario/111" "".

Lemma consultarUsuarioOnline_refina_witness :
  exists n, let r := consulta consulta_de_ana Ejemplo.chat0 "111" (c_str (ctime (reloj n))) in
    atiende (AO := memoria_ok) (Ejemplo.mundo Ejemplo.base0) (consultarUsuarioOnline consulta_de_ana) r.1 r.2.1 r.2.2.
Proof.
  apply (consultarUsuarioOnline_refina (AO := memoria_ok) consulta_de_ana Ejemplo.chat0 _ "111");
    [apply Ejemplo.sirve0|vm_compute; reflexivity..|].
  rewrite Ejemplo.usuario1. intros u [= <-]. split_and!; vm_compute; reflexivity.
Defined.

Definition envio_a_beto : Mongoose.mg_connection :=
  Ejemplo.pedido "POST" "/conversacion/" "IdUsuarioEmisor=111&IdUsuarioReceptor=222&Token=t1&Cuerpo=chau&Fecha=hoy".

Lemma almacenarConversacion_refina_witness :
  let r := envio envio_a_beto Ejemplo.chat1 in r.2.2 = true /\
  atiende (AO := memoria_ok) (Ejemplo.mundo Ejemplo.base1) (almacenarConversacion envio_a_beto) r.1 r.2.1 r.2.2.
Proof.
  split; [vm_compute; reflexivity|].
  apply (almacenarConversacion_refina (AO := memoria_ok) envio_a_beto Ejemplo.chat1); [apply Ejemplo.sirve1|..].
  - split; vm_compute; reflexivity.
  - vm_compute. reflexivity.
Defined.

Definition difusion_de_ana : Mongoose.mg_connection :=
  Ejemplo.pedido "POST" "/difusion/"
    "IdUsuarioEmisor=111&Token=t1&ContactosTelefono=[222,333]&Cuerpo=chau&Fecha=hoy".

Lemma almacenarListaDifusion_refina_witness :
  let r := lista_difusion difusion_de_ana Ejemplo.chat1 ["222"; "333"] in r.2.2 = true /\
  atiende (AO := memoria_ok) (Ejemplo.mundo Ejemplo.base1) (almacenarListaDifusion difusion_de_ana) r.1 r.2.1 r.2.2.
Proof.
  split; [vm_compute; reflexivity|].
  eapply (almacenarListaDifusion_refina (AO := memoria_ok) difusion_de_ana Ejemplo.chat1); [apply Ejemplo.sirve1|..].
  - split; vm_compute; reflexivity.
  - vm_compute. reflexivity.
  - vm_compute. reflexivity.
  - vm_compute. reflexivity.
Defined.

Definition id_conv : string := Md5.md5 "111" +:+ "-" +:+ Md5.md5 "222".
Definition lectura : Mongoose.mg_connection := Ejemplo.pedido "GET" ("/conversacion/" +:+ id_conv) "".

Lemma obtenerConversacion_refina_witness :
  atiende (AO := memoria_ok) (Ejemplo.mundo Ejemplo.base1) (obtenerConversacion lectura) Ejemplo.chat1
    (mensajes_de lectura Ejemplo.chat1 id_conv).1 true /\
  JsonReader.parse (mensajes_de lectura Ejemplo.chat1 id_conv).1 = Ok (true, json_mensajes [Ejemplo.hola]).
Proof.
  apply (obtenerConversacion_refina (AO := memoria_ok) lectura Ejemplo.chat1 _ id_conv
    (mkConv [Md5.md5 "111"; Md5.md5 "222"] [Ejemplo.hola])); [apply Ejemplo.sirve1|vm_compute; reflexivity..].
Defined.

Definition conversaciones_de (tel : string) : Mongoose.mg_connection :=
  Ejemplo.pedido "GET" ("/usuarioConversacion/" +:+ tel) "".

Lemma obtenerConversaciones_refina_witness :
  atiende (AO := memoria_ok) (Ejemplo.mundo Ejemplo.base1) (obtenerConversaciones (conversaciones_de "222")) Ejemplo.chat1
    (novedades Ejemplo.chat1 (Md5.md5 "222") []) true /\
  JsonReader.parse (novedades Ejemplo.chat1 (Md5.md5 "222") []) =
    Ok (true, lista_json "conversaciones"
      (resumenes Ejemplo.chat1 (Md5.md5 "222") (faltantes [] (default [] (indice Ejemplo.chat1 !! Md5.md5 "222"))))).
Proof.
  eapply (obtenerConversaciones_refina (AO := memoria_ok) (conversaciones_de "222") Ejemplo.chat1 _ nullValue [] "222");
    [apply Ejemplo.sirve1|vm_compute; reflexivity..].
Defined.

Lemma obtenerConversaciones_calla_witness :
  exists w', obtenerConversaciones (conversaciones_de "333") (Ejemplo.mundo Ejemplo.base1) = (Ok tt, w') /\
    salida w' = salida (Ejemplo.mundo Ejemplo.base1) /\ sirve (AO := memoria_ok) Ejemplo.chat1 w'.
Proof.
  eapply (obtenerConversaciones_calla (AO := memoria_ok) (conversaciones_de "333") Ejemplo.chat1 _ nullValue [] "333");
    [apply Ejemplo.sirve1|vm_compute; reflexivity..].
Defined.

Definition agenda_de_ana : Mongoose.mg_connection :=
  Ejemplo.pedido "GET" "/contactos/" "ContactosTelefono=[333,222]".

Lemma obtenerContactos_refina_witness :
  atiende (AO := memoria_ok) (Ejemplo.mundo Ejemplo.base1) (obtenerContactos agenda_de_ana) Ejemplo.chat1
    (agenda Ejemplo.chat1 ["333"; "222"]) true /\
  JsonReader.parse (agenda Ejemplo.chat1 ["333"; "222"]) =
    Ok (true, lista_json "contactos" (json_contacto <$> omap (en_linea Ejemplo.chat1) ["333"; "222"])).
Proof.
  eapply (obtenerContactos_refina (AO := memoria_ok) agenda_de_ana Ejemplo.chat1 _
    (arrayValue [(CZIndex 0, intValue 333); (CZIndex 1, intValue 222)]));
    [apply Ejemplo.sirve1|vm_compute; reflexivity..].
Defined.

Definition pide_id : Mongoose.mg_connection :=
  Ejemplo.pedido "GET" "/conversacion/id/" "TelefonoEmisor=222&TelefonoReceptor=111".

Lemma obtenerIdConversacion_refina_witness :
  (id_conversacion pide_id Ejemplo.chat1).1 = id_conv /\
  atiende (AO := memoria_ok) (Ejemplo.mundo Ejemplo.base1) (obtenerIdConversacion pide_id) Ejemplo.chat1
    (id_conversacion pide_id Ejemplo.chat1).1 (id_conversacion pide_id Ejemplo.chat1).2.
Proof.
  split; [vm_compute; reflexivity|].
  apply (obtenerIdConversacion_refina (AO := memoria_ok) pide_id Ejemplo.chat1). apply Ejemplo.sirve1.
Defined.

Definition plaza : Lugar := mkLugar (Libc.d_of_Z 3) (Libc.d_of_Z 4) (Libc.d_of_Z 10) "Plaza".
Definition json_plaza : Value :=
  objectValue [(CZStr "latitud", intValue 3); (CZStr "longitud", intValue 4);
               (CZStr "nombre", stringValue "Plaza"); (CZStr "radio", intValue 10)].
Definition con_plaza : Mundo memoria := con_lugares (arrayValue (JsonTexto.indexar 0 [json_plaza])) (Ejemplo.mundo Ejemplo.base1).
Definition llegada : Mongoose.mg_connection :=
  Ejemplo.pedido "PUT" "/usuario/checkIn" "Telefono=111&latitud=3&longitud=5".

Lemma es_plaza : es_lugar json_plaza plaza.
Proof.
  eexists _, (intValue 3), (intValue 4), (intValue 10), (stringValue "Plaza"). split; [reflexivity|].
  split_and!; vm_compute; reflexivity.
Qed.

Lemma checkIn_refina_witness :
  exists n, let loc := ubicacion_en llegada [plaza] (reloj n) in
    atiende (AO := memoria_ok) con_plaza (checkIn llegada)
      (guardar_usuario (Usuario.setLocalizacion loc Ejemplo.ana) Ejemplo.chat1) loc true.
Proof.
  assert (usuarios Ejemplo.chat1 !! Md5.md5 (getParametro llegada keyTelefono keyDefault) = Some Ejemplo.ana) as Hu
    by (vm_compute; reflexivity).
  pose proof (checkIn_refina (AO := memoria_ok) llegada Ejemplo.chat1 con_plaza [plaza]) as H.
  rewrite Hu in H. apply H.
  - exact Ejemplo.sirve1.
  - exists [json_plaza]. split; [reflexivity|]. constructor; [apply es_plaza|constructor].
  - repeat constructor.
Defined.

End Testigos.
