(* ===== verification/Proceso.v ===== *)
(** * Proceso: the process and its clients

    The guarantees of the whole program, from the bytes its clients send to the database and
    to the bytes they receive. *)

From S2P Require Import Prelude Libc Md5 JsonValue JsonReader JsonWriter JsonTexto JsonWriterOk StringUtil.
From S2P Require Import Mongoose MongooseOk Conexion Red ConexionOk RedOk Clientes Mundo Loger Entidades BaseDeDatos Localizacion.
From S2P Require Import Servicio Servidor Corre Chat ServicioOk ConsultasOk Maquina ServidorOk Garantias.
Open Scope Z_scope.

Module Proceso.
#[local] Strategy 1000 [Md5.md5 Md5.md5_en].
Import Constantes Json Servicio Servidor Corre Chat ChatOk ServicioOk ConsultasOk Maquina ServidorOk Conexion Red ConexionOk.

Section Proceso.
Context {E : Entorno} {A : Almacen} {AO : AlmacenOk A}.

(** ** The whole process *)

(** C1. The server implements the abstract machine and keeps its invariant: started on a working
    store that represents a valid chat, after any number of turns of the event loop, whatever
    the clients send, in whatever pieces and order, the database represents a chat that the
    machine reaches from the first one by steps of its requests, and that chat is valid (every
    user under the md5 of its phone, every
    conversation under the ids of its two registered users, the index of a user listing
    exactly, and once each, the conversations the user is in), as long as no stored message
    contains the list separator. *)
Theorem servidor_invariante ch d r :
  disponible d -> Representa ch (contenido d) -> valido ch -> alcanzable limpio d r ->
  exists ch', sirve ch' (Red.estado r) /\ rtc (fun ch ch' => exists conn, limpio conn /\ paso conn ch ch') ch ch'.
Proof.
  intros Hd Hr Hv Ha. destruct (alcanzable_inv limpio d r Ha) as (_ & w & Hw & Hp).
  destruct (pedidos_simulan ch w (Red.estado r)) as (ch' & Hs & Hc); [by eapply inicio_sirve|done|].
  exists ch'. split; [done|]. by apply (corrida_maquina (w, ch) (Red.estado r, ch')).
Qed.

(** C2. The history only grows: in a run of turns of the event loop that return and in which
    no request has the list separator [#] in the text or the date of its message, whatever
    else the clients send, every user is still registered with the same phone, and every
    conversation is still stored with the same users and with at least the messages it had, in
    the same order. (A message with the separator is cut in pieces when it is read back.) *)
Theorem historial_crece ch d r r' :
  alcanzable limpio d r -> sirve ch (Red.estado r) ->
  rtc (Red.turno (H := Red.filtrar limpio servidor_manejador)) r r' ->
  exists ch', sirve ch' (Red.estado r') /\ crece ch ch'.
Proof.
  intros Ha Hs Ht. destruct (alcanzable_inv limpio d r Ha) as [Hi _].
  destruct (turnos_pedidos limpio r r' Hi Ht) as [_ Hp]. by eapply pedidos_conservan.
Qed.

(** C3. Nobody writes in the name of another: in a run of turns of the event loop that return
    and in which no request has the list separator [#] in the text or the date of its message,
    every message that the run leaves in a conversation was there before, or was stored by a
    request served in between that asked to send exactly that message and showed the token the
    database had at that moment for the sender; and the sender is one of the two users of the
    conversation. *)
Theorem autoria ch d r r' :
  alcanzable limpio d r -> sirve ch (Red.estado r) ->
  rtc (Red.turno (H := Red.filtrar limpio servidor_manejador)) r r' ->
  exists ch', sirve ch' (Red.estado r') /\
  forall k c' m, conversaciones ch' !! k = Some c' -> In m (c_mensajes c') ->
    guardado ch k m \/
    exists conn w1 ch1 w2,
      rtc (pedido limpio) (Red.estado r) w1 /\ sirve ch1 w1 /\ autorizado conn ch1 m /\
      pedido (eq conn) w1 w2 /\ rtc (pedido limpio) w2 (Red.estado r') /\
      In (Mensaje.idUsuarioEmisor m) (c_ids c').
Proof.
  intros Ha Hs Ht. destruct (alcanzable_inv limpio d r Ha) as [Hi _].
  destruct (turnos_pedidos limpio r r' Hi Ht) as [_ Hp].
  destruct (pedidos_simulan ch _ _ Hs Hp) as (ch' & Hs' & Hc). exists ch'. split; [done|]. intros k c' m Hk Hm.
  destruct (corrida_autor (Red.estado r, ch) (Red.estado r', ch') k c' m Hs Hc Hk Hm) as [H|(conn & s1 & s2 & R1 & _ & A1 & R2 & Hau & Hid)]; [by left|right].
  exists conn, s1.1, s1.2, s2.1. split_and!; try done.
  - by apply corrida_pedidos in R1.
  - by apply (corrida_sirve (Red.estado r, ch) s1).
  - by destruct A1.
  - by apply corrida_pedidos in R2.
Qed.

Lemma manejar_responde conn pendiente w ch' mensaje success :
  atiende (con_salida (Mongoose.mkSalida 0 false false pendiente) w) (administrarServicio conn) ch' mensaje success ->
  contiene "%" mensaje = false -> Libc.largo (texto (texto_respuesta mensaje success)) <> Mongoose.IOBUF_SIZE ->
  exists sal' w' cuerpo doc,
    manejar (Some conn) Mongoose.MG_REQUEST (Mongoose.mkSalida 0 false false pendiente, w) =
      (Ok Mongoose.MG_TRUE, (sal', w')) /\ sirve ch' w' /\
    Mongoose.send_iobuf (Mongoose.terminar_respuesta sal') = pendiente +:+ MongooseOk.cabeceras +:+ cuerpo /\
    MongooseOk.leer_chunks 2 cuerpo = Some doc /\ JsonReader.parse doc = Ok (true, json_respuesta mensaje success).
Proof.
  intros (w1 & E1 & Hu & Hr & Hv & Hs) Hp Hl. set (t := texto (texto_respuesta mensaje success)) in *.
  destruct (texto_respuesta_ok mensaje success) as (Ht & _ & Ht').
  destruct (texto_ok (json_respuesta mensaje success)) as (_ & Hparse & _ & Hne); [done|cbn; lia|].
  rewrite <- texto_respuesta_json in Hparse, Hne. fold t in Hparse, Hne, Ht'.
  destruct (MongooseOk.chunk_enviado t pendiente (Ht' Hp) Hl Hne) as (c & cuerpo & Hc & Hb & Hd).
  exists c, (con_salida (salida w) w1), cuerpo, t. split_and!; [| |done|done|done].
  - unfold manejar. cbn [ev_handler]. erewrite bind_ok by exact E1. cbn [ret]. rewrite Hs. unfold responde. fold t.
    cbn [con_salida salida]. by rewrite Hc.
  - by eapply sirve_misma_base; [|split_and!].
Qed.

(** C19. From socket to socket: a well-formed request, cut into pieces in any way, reaches its
    service whole; when the service answers a text without percent signs, whose printed reply
    does not have exactly the [IOBUF_SIZE] bytes of the first buffer, the client gets, after
    what was still pending, the status line and headers and a chunked body that decodes to a
    JSON object whose payload is the message and whose success member is the flag, and the
    connection is kept or closed as the request asked. *)
Theorem pedido_responde p piezas pendiente w ch' mensaje success :
  bien_formada p -> p_status p = 0 -> Forall (fun b => b <> "") piezas -> unir piezas = p_cabeza p +:+ p_cuerpo p ->
  atiende (con_salida (inicial p (Mongoose.mkSalida 0 false false pendiente)) w)
    (administrarServicio (con_cuerpo (p_cuerpo p) (p_conn p))) ch' mensaje success ->
  contiene "%" mensaje = false -> Libc.largo (texto (texto_respuesta mensaje success)) <> Mongoose.IOBUF_SIZE ->
  exists w' cuerpo doc, sirve ch' w' /\
    recibir piezas (reposo pendiente, w) =
      (Ok tt, (cerrada (mantiene (p_conn p)) (Mongoose.send_iobuf (inicial p (Mongoose.mkSalida 0 false false pendiente))
                 +:+ MongooseOk.cabeceras +:+ cuerpo), w')) /\
    MongooseOk.leer_chunks 2 cuerpo = Some doc /\ JsonReader.parse doc = Ok (true, json_respuesta mensaje success).
Proof.
  intros Hp H0 Hl Hu Ha Hm Hn. destruct (inicial_pendiente p pendiente H0) as [pend Ei]. rewrite Ei in *.
  destruct (manejar_responde _ _ _ _ _ _ Ha Hm Hn) as (sal' & w' & cuerpo & doc & E1 & Hs & Hb & Hd & Hj).
  exists w', cuerpo, doc. split_and!; [done| |done|done]. cbn [Mongoose.send_iobuf]. rewrite <- Hb.
  by apply recibir_reposo; [..|rewrite Ei].
Qed.

(** *** A registration, from the client to the database and back *)

Definition respuesta_registro (nuevo : bool) : string :=
  if nuevo then "Usuario registrado correctamente" else "El usuario ya existe".

(** The chat after the registration of [conn] at some time. *)
Definition registrado (conn : Mongoose.mg_connection) (ch ch' : Chat) : Prop :=
  match usuarios ch !! Md5.md5 (getParametro conn keyTelefono keyDefault) with
  | Some _ => ch' = ch
  | None => exists n, ch' = guardar_usuario (usuario_registrado conn (c_str (ctime (reloj n)))) ch
  end.

Lemma registrado_crece conn ch ch' :
  registrado conn ch ch' ->
  crece ch ch' /\ is_Some (usuarios ch' !! Md5.md5 (getParametro conn keyTelefono keyDefault)).
Proof.
  unfold registrado. destruct (usuarios ch !! _) as [u|] eqn:Eu.
  - intros ->. rewrite Eu. split; [done|by eexists].
  - intros [n ->]. split; [apply crece_usuario; cbn; congruence|]. cbn. rewrite lookup_insert_eq. by eexists.
Qed.

Lemma manejar_registro conn ch w :
  sirve ch w -> parsearURI conn = REGISTRAR_USUARIO ->
  exists ch' sal' w' cuerpo doc (nuevo := bool_decide (usuarios ch !! Md5.md5 (getParametro conn keyTelefono keyDefault) = None)),
    manejar (Some conn) Mongoose.MG_REQUEST (Mongoose.salida_nueva, w) = (Ok Mongoose.MG_TRUE, (sal', w')) /\
    sirve ch' w' /\ registrado conn ch ch' /\
    Mongoose.send_iobuf (Mongoose.terminar_respuesta sal') = MongooseOk.cabeceras +:+ cuerpo /\
    MongooseOk.leer_chunks 2 cuerpo = Some doc /\ JsonReader.parse doc = Ok (true, json_respuesta (respuesta_registro nuevo) nuevo).
Proof.
  intros Hs Hu. assert (sirve ch (con_salida Mongoose.salida_nueva w)) as Hs0 by (by eapply sirve_misma_base; [|exact Hs]).
  assert (exists ch', registrado conn ch ch' /\
    let nuevo := bool_decide (usuarios ch !! Md5.md5 (getParametro conn keyTelefono keyDefault) = None) in
    atiende (con_salida Mongoose.salida_nueva w) (administrarServicio conn) ch' (respuesta_registro nuevo) nuevo) as (ch' & Hr & Ha).
  { pose proof (registrar_implementa conn ch _ Hs0) as H. unfold registrado, administrarServicio. rewrite Hu.
    destruct (usuarios ch !! _) as [u|]; [|destruct H as [n H]].
    - exists ch. split; [done|by apply implementa_atiende].
    - eexists. split; [by exists n|by apply implementa_atiende]. }
  cbn zeta in Ha. destruct (manejar_responde conn "" w ch' _ _ Ha) as (sal' & w' & cuerpo & doc & E1 & Hs' & Hb & Hd & Hj).
  - by destruct (bool_decide _).
  - destruct (bool_decide _); vm_compute; discriminate.
  - by exists ch', sal', w', cuerpo, doc.
Qed.

(** C4. A registration from end to end: a client with an idle connection of a running server
    sends the request of a registration, in any pieces and without an Expect header, while
    other clients do whatever they do, except to send, as it, a message with the list
    separator [#] in its text or date. Then the phone is registered in the database (with the
    data of the request, if it was not already), no user, conversation or message is lost, and
    once its socket has taken it, what the client has received is the reply that tells which
    of the two happened. *)
Theorem registro_de_punta_a_punta ch d r su r1 l r2 n p piezas (conn := con_cuerpo (p_cuerpo p) (p_conn p)) :
  alcanzable limpio d r -> sirve ch (estado r) -> In n (active_connections r) -> Red.conn n = reposo "" ->
  ns_mgr_poll (H := filtrar limpio servidor_manejador) su r = (Ok tt, r1) -> hora su <= last_io_time n + MONGOOSE_IDLE_TIMEOUT_SECONDS ->
  legibles su (sock n) = Some (piezas, NADA_MAS) -> Forall (fun b => b <> "") piezas ->
  unir piezas = p_cabeza p +:+ p_cuerpo p -> bien_formada p -> p_status p = 0 ->
  Mongoose.mg_get_header (Mongoose.http_headers (p_conn p)) "Expect" = None ->
  limpio conn -> parsearURI conn = REGISTRAR_USUARIO ->
  RedOk.turnos (H := filtrar limpio servidor_manejador) l r1 r2 -> Forall (RedOk.avanza (sock n) (hora_select su)) l ->
  exists ch1 ch2 ch3 cuerpo doc (nuevo := bool_decide (usuarios ch1 !! Md5.md5 (getParametro conn keyTelefono keyDefault) = None)),
    crece ch ch1 /\ registrado conn ch1 ch2 /\ crece ch2 ch3 /\ sirve ch3 (estado r2) /\
    is_Some (usuarios ch3 !! Md5.md5 (getParametro conn keyTelefono keyDefault)) /\
    MongooseOk.leer_chunks 2 cuerpo = Some doc /\
    JsonReader.parse doc = Ok (true, json_respuesta (respuesta_registro nuevo) nuevo) /\
    ((String.length (MongooseOk.cabeceras +:+ cuerpo) <= length l)%nat ->
     exists n', sock n' = sock n /\ entregado n' = entregado n +:+ MongooseOk.cabeceras +:+ cuerpo).
Proof.
  intros Hr Hs Hin Hc Ep Ht Hl Hne Hu Hp H0 Hx Hlim Huri Hts Ha. destruct (alcanzable_inv limpio d r Hr) as [Hi _].
  assert (inicial p (Mongoose.mkSalida 0 false false "") = Mongoose.salida_nueva) as Ei.
  { unfold inicial, invitacion. by rewrite H0, Hx. }
  assert (forall s, event_handler (Manejador := filtrar limpio servidor_manejador) (Some conn) Mongoose.MG_REQUEST (Mongoose.salida_nueva, s) =
    manejar (Some conn) Mongoose.MG_REQUEST (Mongoose.salida_nueva, s)) as Ef.
  { intros s. cbn. by rewrite decide_True. }
  destruct (Clientes.respondida (HO := RedOk.filtrar_ok limpio servidor_manejador servidor_ok) (rtc (pedido limpio))
    su r r1 l r2 n p piezas (filtrada_pedido limpio))
    as (s1 & sal & s2 & R1 & Eh & R2 & Hn'); try done.
  { intros s Rs. destruct (pedidos_conservan ch _ s Hs Rs) as (ch1 & Hs1 & _).
    destruct (manejar_registro conn ch1 s Hs1 Huri) as (ch' & sal' & w' & cuerpo & doc & Em & _).
    exists (sal', w'). fold conn. by rewrite Ei, Ef. }
  destruct (pedidos_conservan ch _ s1 Hs R1) as (ch1 & Hs1 & C1).
  destruct (manejar_registro conn ch1 s1 Hs1 Huri) as (ch2 & sal' & w' & cuerpo & doc & Em & Hs2 & Hreg & Hb & Hd & Hj).
  fold conn in Eh. rewrite Ei, Ef, Em in Eh. injection Eh as -> ->.
  destruct (pedidos_conservan ch2 _ _ Hs2 R2) as (ch3 & Hs3 & C3).
  destruct (registrado_crece conn ch1 ch2 Hreg) as [_ [u Hu2]].
  exists ch1, ch2, ch3, cuerpo, doc. split_and!; try done.
  - destruct (proj1 C3 _ _ Hu2) as (u' & -> & _). by eexists.
  - rewrite <- Hb. intros Hlen. destruct (Hn' Hlen) as (n' & ? & ? & _). by exists n'.
Qed.
End Proceso.
End Proceso.

(** ** The theorems at concrete inputs *)
Module ProcesoTestigos.
#[local] Strategy 1000 [Md5.md5 Md5.md5_en].
Import Constantes Json Servicio Servidor Corre Chat ChatOk ServicioOk ConsultasOk Maquina ServidorOk Conexion Red ConexionOk Proceso.
#[local] Existing Instance Ejemplo.entorno.

(** The process with the requests of the witnesses. *)
#[local] Instance limpios : Manejador (Mundo memoria) := filtrar limpio servidor_manejador.

Definition arrancado : Mundo memoria := (main_inicio (Ejemplo.mundo ∅)).2.
Definition tras (l : list Sucesos) (r : Red (Mundo memoria)) : Red (Mundo memoria) :=
  foldl (fun r su => (ns_mgr_poll su r).2) r l.

Lemma tras_app l l' r : tras (l ++ l') r = tras l' (tras l r).
Proof. apply foldl_app. Qed.

Lemma turno_de su r : (ns_mgr_poll su r).1 = Ok tt -> turno r (tras [su] r).
Proof. intros H. apply (turno_ok su). unfold tras. cbn [foldl]. rewrite <- H. apply surjective_pairing. Qed.
Lemma conectada_alcanza d (w := (main_inicio (Ejemplo.mundo d)).2) :
  (main_inicio (Ejemplo.mundo d)).1 = Ok tt -> (ns_mgr_poll Clientes.conecta (red_inicial w)).1 = Ok tt ->
  alcanzable limpio d (tras [Clientes.conecta] (red_inicial w)).
Proof.
  intros H1 H2. eapply alc_turno; [|by apply turno_de]. apply alc_inicio. rewrite <- H1. apply surjective_pairing.
Qed.

(** A registration, in two pieces. *)
Definition cabeza_registro : string :=
  "POST /usuario/ HTTP/1.1" +:+ Mongoose.CRLF +:+ "Content-Length: 34" +:+ Mongoose.CRLF +:+ Mongoose.CRLF.
Definition cuerpo_registro : string := "Nombre=Ana&Telefono=111&Password=p".
Definition piezas : list string := [cabeza_registro +:+ "Nombre=Ana&Tel"; "efono=111&Password=p"].
Definition registro : peticion :=
  mkPeticion cabeza_registro cuerpo_registro
    (Mongoose.mkConn "POST" "/usuario/" "1.1" None [("Content-Length", "34")] "") 0.

Lemma registro_ok : bien_formada registro.
Proof.
  split; [split; vm_compute; reflexivity|vm_compute; done| | |by right| | |]; vm_compute; reflexivity.
Qed.

Definition un_registro : list Sucesos := [Clientes.conecta; Clientes.manda piezas].

Lemma tras_registro r : tras un_registro r = tras [Clientes.manda piezas] (tras [Clientes.conecta] r).
Proof. exact (tras_app [Clientes.conecta] [Clientes.manda piezas] r). Qed.

Lemma alcanza_registro : alcanzable limpio ∅ (tras [Clientes.conecta] (red_inicial arrancado)).
Proof. apply conectada_alcanza; vm_compute; reflexivity. Qed.

Lemma servidor_invariante_witness :
  exists ch', sirve (AO := memoria_ok) ch' (estado (tras un_registro (red_inicial arrancado))) /\
    rtc (fun ch ch' => exists conn, limpio conn /\ paso conn ch ch') chat_vacio ch'.
Proof.
  apply (servidor_invariante (AO := memoria_ok) chat_vacio ∅).
  - exact I.
  - apply Ejemplo.representa_vacio.
  - apply valido_vacio.
  - rewrite tras_registro. eapply alc_turno; [apply alcanza_registro|]. apply (turno_de (Clientes.manda piezas)). vm_compute. reflexivity.
Defined.

Lemma historial_crece_witness :
  exists ch', sirve (AO := memoria_ok) ch' (estado (tras un_registro (red_inicial arrancado))) /\ crece chat_vacio ch'.
Proof.
  apply (historial_crece (AO := memoria_ok) chat_vacio ∅ (tras [Clientes.conecta] (red_inicial arrancado))).
  - apply alcanza_registro.
  - split_and!; [done|apply Ejemplo.representa_vacio|apply valido_vacio].
  - rewrite tras_registro. apply rtc_once, (turno_de (Clientes.manda piezas)). vm_compute. reflexivity.
Defined.

(** Ana, registered before the start, writes to Beto. *)
Definition cuerpo_envio : string := "IdUsuarioEmisor=111&IdUsuarioReceptor=222&Token=t1&Cuerpo=chau&Fecha=hoy".
Definition cabeza_envio : string :=
  "POST /conversacion/ HTTP/1.1" +:+ Mongoose.CRLF +:+ "Content-Length: 72" +:+ Mongoose.CRLF +:+ Mongoose.CRLF.
Definition conectada : Red (Mundo memoria) := tras [Clientes.conecta] (red_inicial (main_inicio (Ejemplo.mundo Ejemplo.base0)).2).
Definition tras_envio : Red (Mundo memoria) := tras [Clientes.manda [cabeza_envio; cuerpo_envio]] conectada.

Lemma autoria_witness :
  base (estado tras_envio) !! (BaseDeDatos.claveBaseConversacion +:+ Md5.md5 "111" +:+ "-" +:+ Md5.md5 "222") <> None /\
  exists ch', sirve (AO := memoria_ok) ch' (estado tras_envio) /\
  forall k c' m, conversaciones ch' !! k = Some c' -> In m (c_mensajes c') ->
    guardado Ejemplo.chat0 k m \/
    exists conn w1 ch1 w2,
      rtc (pedido limpio) (estado conectada) w1 /\ sirve (AO := memoria_ok) ch1 w1 /\ autorizado conn ch1 m /\
      pedido (eq conn) w1 w2 /\ rtc (pedido limpio) w2 (estado tras_envio) /\
      In (Mensaje.idUsuarioEmisor m) (c_ids c').
Proof.
  split; [vm_compute; discriminate|].
  apply (autoria (AO := memoria_ok) Ejemplo.chat0 Ejemplo.base0 conectada).
  - apply conectada_alcanza; vm_compute; reflexivity.
  - destruct Ejemplo.sirve0 as (_ & Hr & Hv). split_and!; [done|exact Hr|exact Hv].
  - apply rtc_once, (turno_de (Clientes.manda [cabeza_envio; cuerpo_envio])). vm_compute. reflexivity.
Defined.

Lemma pedido_responde_witness :
  exists w' cuerpo doc, sirve (AO := memoria_ok) Ejemplo.chat0 w' /\
    recibir (H := servidor_manejador) piezas (reposo "", Ejemplo.mundo Ejemplo.base0) =
      (Ok tt, (reposo (MongooseOk.cabeceras +:+ cuerpo), w')) /\
    MongooseOk.leer_chunks 2 cuerpo = Some doc /\
    JsonReader.parse doc = Ok (true, json_respuesta "El usuario ya existe" false).
Proof.
  apply (pedido_responde (AO := memoria_ok) registro piezas "" (Ejemplo.mundo Ejemplo.base0));
    [apply registro_ok|reflexivity|by repeat constructor|reflexivity| |reflexivity|vm_compute; discriminate].
  set (conn := con_cuerpo _ _).
  change (administrarServicio conn) with (registrarUsuario (E := Ejemplo.entorno) (A := memoria) conn).
  apply implementa_atiende; [|reflexivity].
  pose proof (registrar_implementa (AO := memoria_ok) conn Ejemplo.chat0 (Ejemplo.mundo Ejemplo.base0) Ejemplo.sirve0) as H.
  assert (usuarios Ejemplo.chat0 !! Md5.md5 (getParametro conn keyTelefono keyDefault) = Some Ejemplo.ana) as Hu
    by (vm_compute; reflexivity).
  cbv beta in H. rewrite Hu in H. exact H.
Defined.

(** The turns in which the client reads the reply, a byte at a time. *)
Definition lecturas : list Sucesos := replicate 160 Clientes.lee_uno.

Fixpoint corren (l : list Sucesos) (r : Red (Mundo memoria)) : bool :=
  match l with
  | [] => true
  | su :: l => match ns_mgr_poll su r with (Ok _, r') => corren l r' | _ => false end
  end.
Lemma corren_turnos l r : corren l r = true -> RedOk.turnos l r (tras l r).
Proof.
  revert r. induction l as [|su l IH]; intros r E; [apply RedOk.turnos_fin|]. cbn in *.
  destruct (ns_mgr_poll su r) as [[[]|e] r'] eqn:Ep; [|done]. eapply RedOk.turnos_mas; [exact Ep|by apply IH].
Qed.

Lemma registro_de_punta_a_punta_witness :
  let conn := con_cuerpo cuerpo_registro (p_conn registro) in
  exists ch1 ch2 ch3 cuerpo doc (nuevo := bool_decide (usuarios ch1 !! Md5.md5 (getParametro conn keyTelefono keyDefault) = None)),
    crece chat_vacio ch1 /\ registrado conn ch1 ch2 /\ crece ch2 ch3 /\
    sirve (AO := memoria_ok) ch3 (estado (tras (un_registro ++ lecturas) (red_inicial arrancado))) /\
    is_Some (usuarios ch3 !! Md5.md5 (getParametro conn keyTelefono keyDefault)) /\
    MongooseOk.leer_chunks 2 cuerpo = Some doc /\
    JsonReader.parse doc = Ok (true, json_respuesta (respuesta_registro nuevo) nuevo) /\
    ((String.length (MongooseOk.cabeceras +:+ cuerpo) <= 160)%nat ->
     exists n', sock n' = 0%nat /\ entregado n' = MongooseOk.cabeceras +:+ cuerpo).
Proof.
  apply (registro_de_punta_a_punta (AO := memoria_ok) chat_vacio ∅ (tras [Clientes.conecta] (red_inicial arrancado))
    (Clientes.manda piezas) (tras un_registro (red_inicial arrancado)) lecturas _ (mkNodo 0 5 (reposo "") 1 "") registro piezas).
  - apply alcanza_registro.
  - split_and!; [done|apply Ejemplo.representa_vacio|apply valido_vacio].
  - vm_compute. by left.
  - reflexivity.
  - vm_compute. reflexivity.
  - done.
  - reflexivity.
  - by repeat constructor.
  - reflexivity.
  - apply registro_ok.
  - reflexivity.
  - vm_compute. reflexivity.
  - split; vm_compute; reflexivity.
  - vm_compute. reflexivity.
  - rewrite tras_app. apply corren_turnos. vm_compute. reflexivity.
  - apply Forall_replicate. split; [done|split; [by exists 0%nat|done]].
Defined.

End ProcesoTestigos.
