(* ===== verification/Componentes.v ===== *)
(** * Componentes: what each component promises

    The properties of the parts of the server on their own: entities and their storage, the
    database wrapper, the log, the places, the dispatch of requests, the parameters, the
    values of the JSON library. *)

From S2P Require Import Prelude Libc Md5 JsonValue JsonReader JsonWriter JsonTexto JsonReaderOk.
From S2P Require Import JsonWriterOk StringUtil Mongoose Mundo Loger Entidades BaseDeDatos Localizacion.
From S2P Require Import LocalizacionOk Servicio Servidor Corre Chat ServicioOk ConsultasOk Maquina ServidorOk.
From S2P Require Import Garantias.
Open Scope Z_scope.

(** ** Entities and their storage *)
Module Almacenamiento.
#[local] Strategy 1000 [Md5.md5 Md5.md5_en].
Import Constantes LogerOk Corre Chat ChatOk ServicioOk StringUtilOk.

Section Almacenamiento.
Context {E : Entorno} {A : Almacen} {AO : AlmacenOk A}.
Abbreviation W := (M (Mundo A)).

(** A user written and read back is the same user, and a message the same message,
    whatever bytes their fields hold; reading them only touches the log. *)
Theorem entidades_roundtrip (u : Usuario.Usuario) (m : Mensaje.Mensaje) :
  (exists s, Usuario.serializar u = Ok s /\
   forall w : Mundo A, exists w', Usuario.Usuario_de s w = (Ok u, w') /\ igual_salvo_log w w') /\
  (exists s, Mensaje.serializar m = Ok s /\
   forall w : Mundo A, exists w', Mensaje.Mensaje_de s w = (Ok m, w') /\ igual_salvo_log w w').
Proof.
  split.
  - destruct (EntidadesOk.usuario_ida_y_vuelta u) as (s & Hs & Hd). exists s. split; [done|]. intros w.
    destruct (Hd Usuario.Usuario_inicial w) as (w' & E' & H'). exists w'. split; [|done].
    unfold Usuario.Usuario_de. by erewrite bind_ok by exact E'.
  - destruct (EntidadesOk.mensaje_ida_y_vuelta m) as (s & Hs & Hd). exists s. split; [done|]. intros w.
    destruct (Hd Mensaje.Mensaje_vacio w) as (w' & E' & H'). exists w'. split; [|done].
    unfold Mensaje.Mensaje_de. by erewrite bind_ok by exact E'.
Qed.

(** [persistir] and then [obtener] of a new conversation. *)
Definition guardar_y_leer (ua ub : Usuario.Usuario) (ms : list Mensaje.Mensaje) : W Conversacion.Conversacion :=
  Conversacion.persistir (Conversacion.Conversacion_nueva [ua; ub] ms);;;
  Conversacion.obtener (Usuario.id ua +:+ "-" +:+ Usuario.id ub).

(** C26. A conversation between two registered users comes back from the database with the
    same id, the same users and the same messages in order, if no message contains the list
    separator. *)
Theorem conversacion_roundtrip ch w ua ub ms : sirve ch w ->
  usuarios ch !! Usuario.id ua = Some ua -> usuarios ch !! Usuario.id ub = Some ub ->
  Forall mensaje_ok ms -> ms <> [] ->
  exists w', guardar_y_leer ua ub ms w =
    (Ok (Conversacion.mkConversacion (Usuario.id ua +:+ "-" +:+ Usuario.id ub) ms [ua; ub]), w').
Proof.
  intros (Hu & Hr & Hv) Ha Hb Hms Hne. set (k := Usuario.id ua +:+ "-" +:+ Usuario.id ub).
  set (c := mkConv [Usuario.id ua; Usuario.id ub] ms).
  assert (conv_ok ch k c) as Hc by (split; [|done]; exists (Usuario.id ua), (Usuario.id ub); by split_and!; eauto).
  assert (forall c0, conversaciones ch !! k = Some c0 -> c_ids c0 = c_ids c) as Hsame.
  { intros c0 Hc0. destruct (proj1 (proj2 Hv) k c0 Hc0) as ((a & b & -> & Hk & Ha' & Hb') & _).
    destruct (id_md5 _ _ Hv Ha') as [t ->], (id_md5 _ _ Hv Hb') as [t' ->].
    destruct (id_md5 _ _ Hv (ex_intro _ _ Ha)) as [s Hs], (id_md5 _ _ Hv (ex_intro _ _ Hb)) as [s' Hs'].
    unfold k in Hk. rewrite Hs, Hs' in *. apply clave_inj in Hk as [<- <-]. unfold c. cbn [c_ids]. by rewrite Hs, Hs'. }
  pose proof (valido_guardar_conv ch k c Hv Hc Hsame) as Hv'.
  destruct (id_md5 _ _ Hv (ex_intro _ _ Ha)) as [s Hs], (id_md5 _ _ Hv (ex_intro _ _ Hb)) as [s' Hs'].
  assert (Representa (guardar_conv k c ch) (conv_mem k c (mem w))) as Hr'.
  { destruct (clave_conv_ok s s') as (Hi & Hn & _). rewrite <- Hs, <- Hs' in Hi, Hn.
    apply representa_guardar_conv; [done..|by apply indice_items_valido]. }
  destruct (corre_nueva w ua ub ms Hu) as (w1 & E1 & H1); [rewrite Hs; apply md5_no_vacio|].
  destruct (corre_obtener_conv (guardar_conv k c ch) w1 k) as (w2 & E2 & H2);
    [by eapply llega_usable|by rewrite (llega_mem _ _ _ _ H1)|done|].
  exists w2. unfold guardar_y_leer. erewrite bind_ok by exact E1. fold k. rewrite E2. f_equal. f_equal.
  unfold buscar_conversacion, guardar_conv. cbn [conversaciones]. rewrite lookup_insert_eq. unfold abrir. cbn.
  unfold buscar_usuario. cbn. by rewrite Ha, Hb.
Qed.

(** The separated lists of the database: items that are not empty and do not contain the
    separator come back from [split] as they were accumulated. *)
Theorem lista_roundtrip sep l : Forall (fun x => contiene sep x = false /\ x <> "") l ->
  StringUtil.split (StringUtil.acumular sep "" l) sep = l.
Proof. apply split_acumular. Qed.

(** When the database cannot be opened, the first access of any service is undefined
    behaviour: the constructor only logs, and the database pointer is used all the same. *)
Theorem base_sin_abrir k (w : Mundo A) : instancia w = None -> Open (pathBaseDeDatos w) (base w) <> sOk ->
  exists w', UsuarioBD.obtener k w = (Fallo (Indefinido "the database is not open"), w').
Proof.
  intros Hi Ho. unfold UsuarioBD.obtener, BaseDeDatos.getInstance.
  assert (solo_log (A := A) Loger.guardar) as Hg by auto with mensajero.
  destruct (solo_log_error ("No se pudo abrir la Base De Datos con path: " +:+ pathBaseDeDatos w) w) as ([] & w1 & E1 & H1).
  destruct (Hg w1) as ([] & w2 & E2 & H2).
  eexists. rewrite bind_assoc. erewrite bind_ok by reflexivity. rewrite Hi.
  rewrite bind_assoc. erewrite bind_ok by reflexivity. rewrite bind_assoc. erewrite bind_ok by reflexivity. cbv beta zeta.
  rewrite decide_False by done. rewrite bool_decide_false by done. rewrite bind_assoc.
  rewrite bind_assoc. erewrite bind_ok by exact E1. rewrite bind_assoc. erewrite bind_ok by exact E2.
  erewrite bind_ok by reflexivity. erewrite bind_ok by reflexivity. reflexivity.
Qed.

End Almacenamiento.

(** A message with the list separator in its text breaks its conversation: what is read
    back is not the message that was stored. *)
Theorem separador_en_mensaje : let m := Mensaje.Mensaje_nuevo "a#b" (Md5.md5 "111") "hoy" in
  exists c w', guardar_y_leer (E := Ejemplo.entorno) (A := memoria) Ejemplo.ana Ejemplo.beto [m] (Ejemplo.mundo Ejemplo.base0) =
    (Ok c, w') /\ length (Conversacion.mensajes c) = 2%nat /\ ~ In m (Conversacion.mensajes c).
Proof.
  eexists _, _. split; [vm_compute; reflexivity|]. split; [reflexivity|]. intros [H|[H|[]]]; discriminate H.
Qed.
End Almacenamiento.

(** ** The log *)
Module Registro.
Import Constantes Loger.

(** The instance after a line has been written and flushed. *)
Definition anota (s : string) (l : EstadoLoger) : EstadoLoger :=
  mkLoger (nivel l) (disco l +:+ pendiente l +:+ c_str s +:+ Libc.LF) "".

(** The levels at which each kind of line is written. *)
Definition escribe_en (niveles : list string) (l : EstadoLoger) : bool :=
  existsb (String.eqb (StringUtil.toLower (nivel l))) niveles.

Lemma con_loger_igual {A : Almacen} (w : Mundo A) l : logInstancia w = Some l -> con_loger (Some l) w = w.
Proof. destruct w. cbn. by intros ->. Qed.

(** Log levels: with the logger created, an error is always appended to the file, a
    warning at the levels warn, info and debug, an information at info and debug, a debug
    line at debug only, the level compared without case; nothing else changes and what the
    file had is kept. *)
Theorem loger_niveles {E : Entorno} {A : Almacen} (w : Mundo A) l t : logInstancia w = Some l ->
  let linea b s := (Ok tt, con_loger (Some (if b : bool then anota s l else l)) w) in
  error t w = linea true ("ERROR: " +:+ t) /\
  warn t w = linea (escribe_en [Warn; Info; Debug] l) ("WARNING: " +:+ t) /\
  info t w = linea (escribe_en [Info; Debug] l) ("INFO: " +:+ t) /\
  debug t w = linea (escribe_en [Debug] l) ("DEBUG: " +:+ t).
Proof.
  intros Hl. cbv zeta.
  assert (forall s, escribir s w = (Ok tt, con_loger (Some (anota s l)) w)) as He.
  { intros s. unfold escribir, con_instancia_loger, guardarEstado, bindM, cambiar, anota. cbn. rewrite Hl.
    cbn. do 3 f_equal. by rewrite !app_assoc_s. }
  assert (getLoger w = (Ok tt, w)) as Hg by (unfold getLoger, bindM, leer; by rewrite Hl).
  assert (getNivel w = (Ok (nivel l), w)) as Hn by (unfold getNivel, bindM, leer; by rewrite Hl).
  assert (forall (b : bool) s, (if b then escribir s else ret tt) w =
    (Ok tt, con_loger (Some (if b then anota s l else l)) w)) as Hb.
  { intros [] s; [apply He|]. rewrite con_loger_igual by done. done. }
  unfold error, warn, info, debug, escribe_en. cbn [existsb].
  split_and!; (erewrite bind_ok by exact Hg); [apply He|..]; (erewrite bind_ok by exact Hn); cbv beta zeta;
    rewrite Hb, ?orb_false_r, ?orb_assoc; done.
Qed.

Lemma loger_niveles_witness : exists w : Mundo memoria, logInstancia w = Some (mkLoger nivelLogger "" "") /\
  debug (E := Ejemplo.entorno) "x" w = (Ok tt, w).
Proof.
  exists (con_loger (Some (mkLoger nivelLogger "" "")) (Ejemplo.mundo ∅)). split; [reflexivity|].
  exact (proj2 (proj2 (proj2 (loger_niveles (E := Ejemplo.entorno)
    (con_loger (Some (mkLoger nivelLogger "" "")) (Ejemplo.mundo ∅)) (mkLoger nivelLogger "" "") "x" eq_refl)))).
Defined.

End Registro.

(** ** Places *)
Module Lugares.
Import Json Localizacion LocalizacionOk.

(** C25. The nearest place: on a table of well-formed places the search returns, leaves the
    table as it was, and answers either "desconocida", and then no place reaches the point,
    or the name of a place within its radius that is at least as near as every other place
    that reaches the point. *)
Theorem calcularUbicacion_cercana {E : Entorno} {A : Almacen} (w : Mundo A) la lo ls :
  tabla (lugares w) ls ->
  exists r, calcularUbicacion (coordenadas la lo) w = (Ok r, w) /\ respuesta_cercana la lo ls r.
Proof.
  intros Ht. eexists. split; [by apply calcularUbicacion_ok|].
  apply (mas_cercano_ok la lo [] ls). left. by split_and!.
Qed.

Lemma calcularUbicacion_cercana_witness :
  exists r, calcularUbicacion (coordenadas (Libc.d_of_Z 3) (Libc.d_of_Z 5)) Testigos.con_plaza = (Ok r, Testigos.con_plaza) /\
    respuesta_cercana (Libc.d_of_Z 3) (Libc.d_of_Z 5) [Testigos.plaza] r.
Proof.
  apply (calcularUbicacion_cercana (E := Ejemplo.entorno)). exists [Testigos.json_plaza].
  split; [reflexivity|]. constructor; [apply Testigos.es_plaza|constructor].
Defined.

End Lugares.

(** ** Dispatch *)
Module Despacho.
Import Constantes Mongoose Servidor.

Definition es (conn : mg_connection) (m u : string) : Prop := c_str (request_method conn) = m /\ c_str (uri conn) = u.

Lemma eqb_caso s t : (String.eqb s t = true /\ s = t) \/ (String.eqb s t = false /\ s <> t).
Proof. destruct (String.eqb_spec s t); auto. Qed.

(** Closes the cases of a dispatch that has been decided. *)
Ltac decidido :=
  split_and!; try discriminate;
  (split; [intros Hz; first [discriminate Hz|done]
          |intros [Hx Hy]; first [discriminate Hx|discriminate Hy|exfalso; by auto|congruence|done]]).

(** Dispatch: the services that write are reached by exactly one method and URI each (the
    check-in by any PUT whose URI contains its path), a GET never reaches them, and the
    services without an implementation are never chosen. *)
Theorem parsearURI_escrituras conn :
  (parsearURI conn = REGISTRAR_USUARIO <-> es conn "POST" urlBaseUsuario) /\
  (parsearURI conn = ALMACENAR_CONVERSACION <-> es conn "POST" urlBaseConversacion) /\
  (parsearURI conn = ALMACENAR_LISTA_DIFUSION <-> es conn "POST" urlBaseListaDifusion) /\
  (parsearURI conn = ADMINISTRAR_PERFIL <-> es conn "PUT" urlBaseUsuario) /\
  (parsearURI conn = CHECKIN_USUARIO <->
     c_str (request_method conn) = "PUT" /\ incluye urlCheckinUsuario (c_str (uri conn)) = true) /\
  parsearURI conn <> AUTENTICAR_USUARIO /\ parsearURI conn <> DESCONECTAR_USUARIO.
Proof.
  unfold parsearURI, es. set (m := c_str (request_method conn)). set (u := c_str (uri conn)).
  destruct (eqb_caso m "POST") as [[-> Hm]|[-> Hm]].
  { rewrite Hm. destruct (eqb_caso u urlBaseUsuario) as [[-> Hu]|[-> Hu]]; [rewrite Hu; decidido|].
    destruct (eqb_caso u urlBaseConversacion) as [[-> Hu']|[-> Hu']]; [rewrite Hu'; decidido|].
    destruct (eqb_caso u urlBaseListaDifusion) as [[-> Hd]|[-> Hd]]; [rewrite Hd; decidido|].
    destruct (String.eqb u urlPrueba); decidido. }
  destruct (eqb_caso m "GET") as [[-> Hg]|[-> Hg]].
  { rewrite Hg. repeat (destruct (incluye _ u)); destruct (String.eqb u urlPrueba);
      decidido. }
  destruct (eqb_caso m "PUT") as [[-> Hp]|[-> Hp]].
  { rewrite Hp. destruct (eqb_caso u urlBaseUsuario) as [[-> Hu]|[-> Hu]]; [rewrite Hu; decidido|].
    destruct (incluye urlCheckinUsuario u) eqn:Ei; [decidido|].
    destruct (String.eqb u urlPrueba); decidido. }
  destruct (String.eqb u urlPrueba); decidido.
Qed.

End Despacho.

(** ** Parameters *)
Module Parametros.
Import Constantes Json JsonTexto Servicio.

(** A word that [%s] reads whole. *)
Definition palabra (s : string) : Prop := todos (fun c => negb (Libc.isspace c)) s = true /\ s <> "".

Lemma palabra_sin_nul_ok base s : contiene NUL base = false -> contiene NUL s = false ->
  c_str (base +:+ s) = base +:+ s.
Proof. intros Hb Hs. apply c_str_id. by rewrite contiene_app, Hb, Hs. Qed.

(** The id at the end of a GET URI: an id without blanks of at most 254 characters is read
    whole; a longer one overflows the buffer of 255 characters, which is undefined
    behaviour. *)
Theorem getParametroIdMetodoGET_limites conn base s :
  Mongoose.uri conn = base +:+ s -> contiene NUL base = false -> contiene NUL s = false -> palabra s ->
  getParametroIdMetodoGET conn base =
    if (String.length s <? 255)%nat then Ok s else Fallo (Indefinido "sscanf: buffer overflow").
Proof.
  intros Hu Hb Hs [Hp Hne]. unfold getParametroIdMetodoGET. rewrite Hu, palabra_sin_nul_ok by done.
  unfold Libc.sscanf_s. rewrite (proj2 (Libc.quitar_prefijo_spec base (base +:+ s) s) eq_refl).
  assert (Libc.abarcar Libc.isspace s = ("", s)) as ->.
  { destruct s as [|c s]; [done|]. cbn in Hp |- *. partir. by rewrite H. }
  pose proof (Libc.abarcar_exacto (fun c => negb (Libc.isspace c)) s "") as Ha.
  rewrite app_nil_r_s in Ha. rewrite Ha by done. destruct s as [|c s]; [done|].
  by destruct (String.length (String c s) <? 255)%nat.
Qed.

Lemma getParametroIdMetodoGET_limites_witness :
  getParametroIdMetodoGET (Ejemplo.pedido "GET" "/usuario/111" "") urlBaseUsuario = Ok "111" /\
  getParametroIdMetodoGET (Ejemplo.pedido "GET" (urlBaseUsuario +:+ Libc.ceros 255) "") urlBaseUsuario =
    Fallo (Indefinido "sscanf: buffer overflow").
Proof.
  split.
  - apply (getParametroIdMetodoGET_limites (Ejemplo.pedido "GET" "/usuario/111" "") urlBaseUsuario "111");
      [reflexivity..|by split].
  - apply (getParametroIdMetodoGET_limites (Ejemplo.pedido "GET" (urlBaseUsuario +:+ Libc.ceros 255) "")
      urlBaseUsuario (Libc.ceros 255)); [reflexivity..|by split].
Defined.

(** [asString] of each value, up to the first that fails. *)
Fixpoint textos (vs : list Value) : res (list string) :=
  match vs with
  | [] => Ok []
  | v :: vs => let? s := asString v in let? r := textos vs in Ok (s :: r)
  end.

Lemma get_todos_textos vs pre post : vs = pre ++ post ->
  StringUtil.get_todos (arrayValue (indexar 0 vs)) (seq (length pre) (length post)) = textos post.
Proof.
  revert pre. induction post as [|x post IH]; intros pre Hvs; cbn [length seq StringUtil.get_todos textos]; [done|].
  assert (get_index (arrayValue (indexar 0 vs)) (length pre) (stringValue "") = Ok x) as ->.
  { unfold get_index, index_ref. rewrite find_indexar. cbn [Nat.ltb Nat.leb]. rewrite Nat.sub_0_r, Hvs.
    by rewrite list_lookup_middle by done. }
  cbn [bindR]. destruct (asString x) as [s|e]; [|done]. cbn [bindR]. specialize (IH (pre ++ [x])).
  rewrite length_app, Nat.add_1_r in IH. by rewrite IH by (by rewrite <- app_assoc).
Qed.

(** A parameter with a list: an array of strings gives its strings in order, and an array
    with a list or an object among them is a [Json::LogicError], which no service catches. *)
Theorem jsonValueToVector_lista (l : list string) (v : Value) (vs : list Value) :
  StringUtil.jsonValueToVector (arrayValue (indexar 0 (map stringValue l))) = Ok l /\
  (isArray v || isObject v = true -> exists msg,
   StringUtil.jsonValueToVector (arrayValue (indexar 0 (map stringValue l ++ v :: vs))) = Fallo (LogicError msg)).
Proof.
  unfold StringUtil.jsonValueToVector. rewrite !size_indexar. split.
  - etrans; [apply (get_todos_textos _ [] (map stringValue l) eq_refl)|]. by induction l as [|x l IH]; cbn in *; [|rewrite IH].
  - intros Hv. cut (exists msg, textos (map stringValue l ++ v :: vs) = Fallo (LogicError msg)).
    { intros [msg Hm]. exists msg. rewrite <- Hm. apply (get_todos_textos _ [] _ eq_refl). }
    induction l as [|x l [msg IH]]; cbn [map app textos asString bindR].
    + destruct v; try discriminate Hv; by eexists.
    + exists msg. by rewrite IH.
Qed.

Lemma jsonValueToVector_lista_witness : exists msg,
  StringUtil.jsonValueToVector (arrayValue (indexar 0 (map stringValue ["1"] ++ objectValue [] :: []))) =
    Fallo (LogicError msg).
Proof. exact (proj2 (jsonValueToVector_lista ["1"] (objectValue []) []) eq_refl). Defined.

End Parametros.

(** ** Values *)
Module Valores.
Import Json JsonLeyes.

(** A JSON object is a map: after [v[k] = x] the member [k] is [x], the others are what
    they were, and the keys stay in strict order. *)
Theorem asignar_get m k x : mapa_de (CZStr k) m ->
  exists m', asignar k x (objectValue m) = Ok (objectValue m') /\ mapa_de (CZStr k) m' /\
    (forall d, get (objectValue m') k d = Ok x) /\
    (forall j d, j <> k -> get (objectValue m') j d = get (objectValue m) j d).
Proof.
  intros Hm. destruct (map_update_ok (CZStr k) (fun _ => Ok x) m x) as [m' Hu]; [done|].
  destruct (map_update_spec _ _ _ _ Hm Hu) as (x' & [= <-] & Ha).
  exists m'. unfold asignar, resolveReference, get, find. rewrite Hu. cbn [bindR]. split_and!; [done| | |].
  - by eapply actualiza_mapa.
  - intros d. by rewrite (find_actualiza _ _ _ _ Ha).
  - intros j d Hj. by rewrite (find_actualiza_ne (CZStr k) (CZStr j) x m m') by (done || congruence).
Qed.

Lemma asignar_get_witness : exists m', asignar "b" (intValue 1) (objectValue [(CZStr "a", nullValue)]) = Ok (objectValue m') /\
  mapa_de (CZStr "b") m' /\ (forall d, get (objectValue m') "b" d = Ok (intValue 1)) /\
  (forall j d, j <> "b" -> get (objectValue m') j d = get (objectValue [(CZStr "a", nullValue)]) j d).
Proof. apply asignar_get. split; repeat constructor. Defined.

End Valores.

(** ** Messages and sessions *)
Module Mensajes.
#[local] Strategy 1000 [Md5.md5 Md5.md5_en].
Import Constantes Servicio Chat ChatOk ServicioOk ConsultasOk Maquina ServidorOk.

(** The messages a client lacks: those after the first one with the id it has; none when
    no message has that id. *)
Theorem posteriores_sufijo ultimo l :
  (forall pre m post, l = pre ++ m :: post -> Mensaje.id m = ultimo ->
     Forall (fun x => Mensaje.id x <> ultimo) pre -> posteriores false ultimo l = post) /\
  (Forall (fun x => Mensaje.id x <> ultimo) l -> posteriores false ultimo l = []).
Proof.
  pose proof (posteriores_todos ultimo) as Ht.
  split.
  - intros pre m post -> Hm Hp. induction Hp as [|x pre Hx _ IH]; cbn [app posteriores].
    + rewrite Hm, String.eqb_refl. apply Ht.
    + by rewrite (proj2 (String.eqb_neq _ _) Hx).
  - induction 1 as [|x l Hx _ IH]; cbn [posteriores]; [done|]. by rewrite (proj2 (String.eqb_neq _ _) Hx).
Qed.

Section Servicios.
Context {E : Entorno} {A : Almacen} {AO : AlmacenOk A}.

(** Every reply goes to the client through a printf format: a payload with a conversion
    is undefined behaviour, whatever the state of the server. *)
Theorem responder_formato success (w : Mundo A) :
  (responder "%s" success w).1 = Fallo (Indefinido "printf: conversion without argument").
Proof. by destruct success. Qed.

(** C9. The token does not authenticate: the query of a user, whose data have no percent sign,
    needs no token and answers, as JSON, the password and the session token of that user,
    whoever asks; with that token a request to send a message without [#] to a registered
    user, in the name of the first, is accepted, and its message is stored in the name of the
    user. *)
Theorem suplantacion c1 ch w tel u : sirve (AO := AO) ch w ->
  getParametroIdMetodoGET c1 urlBaseUsuario = Ok tel -> contiene "%" (getParametro c1 keyTelefono keyDefault) = false ->
  usuarios ch !! Md5.md5 tel = Some u -> Garantias.sin_formato u ->
  exists w1 ch1 respuesta miembros token,
    consultarUsuarioOnline c1 w = (Ok tt, w1) /\ sirve ch1 w1 /\ salida w1 = responde respuesta true (salida w) /\
    JsonReader.parse respuesta = Ok (true, Json.objectValue miembros) /\
    In (Json.CZStr keyPassword, Json.stringValue (Usuario.password u)) miembros /\
    In (Json.CZStr keyTokenSesion, Json.stringValue token) miembros /\
    forall c2, limpio c2 -> getParametro c2 keyIdUsuarioEmisor keyDefault = tel ->
      is_Some (usuarios ch !! Md5.md5 (getParametro c2 keyIdUsuarioReceptor keyDefault)) ->
      getParametro c2 keyTokenSesion keyDefault = token ->
      let m := Mensaje.Mensaje_nuevo (getParametro c2 keyCuerpo keyDefault) (Md5.md5 tel) (getParametro c2 keyFecha keyDefault) in
      atiende w1 (almacenarConversacion c2)
        (agregar_mensaje (Md5.md5 tel) (Md5.md5 (getParametro c2 keyIdUsuarioReceptor keyDefault)) m ch1) (Mensaje.id m) true.
Proof.
  intros Hs Htel Hp Hu Hf. destruct (consulta_implementa c1 ch w tel Hs Htel) as [n H]. cbv zeta in H.
  apply implementa_atiende in H as (w1 & E1 & Hu1 & Hr1 & Hv1 & Hout);
    [|apply Garantias.consulta_sin_formato; [done|]; intros v Hv; rewrite Hu in Hv; by injection Hv as <-].
  unfold consulta in *. rewrite Hu in *. cbn [fst snd] in *. set (v := usuario_consultado c1 _ u) in *.
  assert (Usuario.id v = Md5.md5 tel /\ Usuario.password v = Usuario.password u) as [Hid Hpw].
  { destruct Hs as (_ & _ & Hv & _). destruct (Hv _ u Hu) as [Hid Ht]. unfold v, usuario_consultado.
    destruct (StringUtil.toBoolean _); cbn -[Md5.md5]; split; congruence. }
  destruct (texto_ok (json_consulta v)) as (_ & Hj & _); [done|cbn; lia|].
  eexists w1, _, _, _, (Usuario.token v).
  split_and!; [exact E1|by split_and!|exact Hout|exact Hj|rewrite <- Hpw; do 4 right; by left|do 5 right; by left|].
  intros c2 [Hc Hd] He [ub Hb] Ht. pose proof (envio_implementa c2 _ w1 (conj Hu1 (conj Hr1 Hv1)) Hc Hd) as G.
  unfold envio in G. rewrite He, Ht in G. cbn [guardar_usuario usuarios] in G. rewrite Hid, lookup_insert_eq in G.
  destruct (decide (Md5.md5 tel = Md5.md5 (getParametro c2 keyIdUsuarioReceptor keyDefault))) as [Hq|Hq].
  - rewrite <- Hq, lookup_insert_eq, String.eqb_refl in G. rewrite <- Hq.
    apply implementa_atiende; [exact G|cbn -[Md5.md5]; by apply md5_sin].
  - rewrite lookup_insert_ne, Hb, String.eqb_refl in G by done.
    apply implementa_atiende; [exact G|cbn -[Md5.md5]; by apply md5_sin].
Qed.

(** Delivery: a message that is accepted is the last message of one conversation, which is
    listed in the index of both users, and every other conversation is as it was. *)
Theorem mensaje_entregado conn ch w ua ub :
  let a := Md5.md5 (getParametro conn keyIdUsuarioEmisor keyDefault) in
  let b := Md5.md5 (getParametro conn keyIdUsuarioReceptor keyDefault) in
  sirve (AO := AO) ch w -> limpio conn -> usuarios ch !! a = Some ua -> usuarios ch !! b = Some ub ->
  Usuario.token ua = getParametro conn keyTokenSesion keyDefault ->
  exists w' ch' k c, almacenarConversacion conn w = (Ok tt, w') /\ sirve ch' w' /\
    conversaciones ch' !! k = Some c /\
    last (c_mensajes c) = Some (Mensaje.Mensaje_nuevo (getParametro conn keyCuerpo keyDefault) a
                                  (getParametro conn keyFecha keyDefault)) /\
    In k (default [] (indice ch' !! a)) /\ In k (default [] (indice ch' !! b)) /\
    (forall k', k' <> k -> conversaciones ch' !! k' = conversaciones ch !! k').
Proof.
  intros a b Hs [Hc Hf] Ha Hb Ht. pose proof (envio_implementa conn ch w Hs Hc Hf) as H. unfold envio in H.
  fold a b in H. rewrite Ha, Hb, Ht, String.eqb_refl in H. cbn [fst snd] in H.
  apply implementa_atiende in H as (w' & E' & Hu' & Hr' & Hv' & _); [|cbn -[Md5.md5]; by apply md5_sin].
  set (m := Mensaje.Mensaje_nuevo _ a _) in *. exists w', (agregar_mensaje a b m ch).
  pose proof (destino_entrega ch _ _ m (proj2 (proj2 Hs)) : let '(_, c) := destino a b m ch in _) as Hd. unfold agregar_mensaje in *.
  destruct (destino a b m ch) as [k c]. destruct Hd as (Hl & Hia & Hib). exists k, c.
  split_and!; [done|by split_and!|cbn; by rewrite lookup_insert_eq|done|..].
  - cbn. apply fold_agregar_in. by right.
  - cbn. apply fold_agregar_in. by right.
  - intros k' Hk. cbn. by rewrite lookup_insert_ne.
Qed.

End Servicios.
End Mensajes.

(** ** The theorems at concrete inputs *)
Module Casos.
#[local] Strategy 1000 [Md5.md5 Md5.md5_en].
Import Constantes Servicio Corre Chat ChatOk ServicioOk ConsultasOk Maquina ServidorOk Almacenamiento Mensajes.
#[local] Existing Instance Ejemplo.entorno.

Lemma conversacion_roundtrip_witness :
  exists w', guardar_y_leer (A := memoria) Ejemplo.ana Ejemplo.beto [Ejemplo.hola; Ejemplo.hola] (Ejemplo.mundo Ejemplo.base0) =
    (Ok (Conversacion.mkConversacion (Usuario.id Ejemplo.ana +:+ "-" +:+ Usuario.id Ejemplo.beto)
       [Ejemplo.hola; Ejemplo.hola] [Ejemplo.ana; Ejemplo.beto]), w').
Proof.
  apply (conversacion_roundtrip (AO := memoria_ok) Ejemplo.chat0); [apply Ejemplo.sirve0|apply Ejemplo.usuario1|
    apply Ejemplo.usuario2|repeat constructor; apply Ejemplo.hola_ok|done].
Defined.

Lemma lista_roundtrip_witness : StringUtil.split (StringUtil.acumular "#" "" ["ab"; "c"]) "#" = ["ab"; "c"].
Proof. apply (lista_roundtrip "#" ["ab"; "c"]). repeat constructor; discriminate. Defined.

(** A store that cannot be opened. *)
Definition roto : Almacen := {|
  DB := unit;
  Open := fun _ _ => sOtro;
  Put := fun _ _ d => (sOtro, d);
  Get := fun _ _ => (sOtro, "");
  Delete := fun _ d => (sOtro, d) |}.

Lemma base_sin_abrir_witness : exists w', UsuarioBD.obtener "k" (Servidor.mundo_inicial (A := roto) tt) =
  (Fallo (Indefinido "the database is not open"), w').
Proof. apply (base_sin_abrir (A := roto) "k" (Servidor.mundo_inicial (A := roto) tt)); [reflexivity|discriminate]. Defined.

Lemma posteriores_sufijo_witness :
  posteriores false "2" [Mensaje.mkMensaje "a" "" "" "1"; Mensaje.mkMensaje "b" "" "" "2"; Mensaje.mkMensaje "c" "" "" "3"] =
  [Mensaje.mkMensaje "c" "" "" "3"].
Proof.
  apply (proj1 (posteriores_sufijo "2" [Mensaje.mkMensaje "a" "" "" "1"; Mensaje.mkMensaje "b" "" "" "2"; Mensaje.mkMensaje "c" "" "" "3"])
    [Mensaje.mkMensaje "a" "" "" "1"] (Mensaje.mkMensaje "b" "" "" "2")); [reflexivity..|].
  constructor; [discriminate|constructor].
Defined.

Lemma suplantacion_witness :
  exists w1 ch1 respuesta miembros token,
    consultarUsuarioOnline Testigos.consulta_de_ana (Ejemplo.mundo Ejemplo.base0) = (Ok tt, w1) /\
    sirve (AO := memoria_ok) ch1 w1 /\ salida w1 = responde respuesta true (salida (Ejemplo.mundo Ejemplo.base0)) /\
    JsonReader.parse respuesta = Ok (true, Json.objectValue miembros) /\
    In (Json.CZStr keyPassword, Json.stringValue "p") miembros /\
    In (Json.CZStr keyTokenSesion, Json.stringValue token) miembros /\
    forall c2, limpio c2 -> getParametro c2 keyIdUsuarioEmisor keyDefault = "111" ->
      is_Some (usuarios Ejemplo.chat0 !! Md5.md5 (getParametro c2 keyIdUsuarioReceptor keyDefault)) ->
      getParametro c2 keyTokenSesion keyDefault = token ->
      let m := Mensaje.Mensaje_nuevo (getParametro c2 keyCuerpo keyDefault) (Md5.md5 "111") (getParametro c2 keyFecha keyDefault) in
      atiende w1 (almacenarConversacion c2)
        (agregar_mensaje (Md5.md5 "111") (Md5.md5 (getParametro c2 keyIdUsuarioReceptor keyDefault)) m ch1) (Mensaje.id m) true.
Proof.
  apply (suplantacion (AO := memoria_ok) Testigos.consulta_de_ana Ejemplo.chat0 _ "111" Ejemplo.ana);
    [apply Ejemplo.sirve0|vm_compute; reflexivity|vm_compute; reflexivity|apply Ejemplo.usuario1|].
  split_and!; vm_compute; reflexivity.
Defined.

Lemma mensaje_entregado_witness : let conn := Testigos.envio_a_beto in
  exists w' ch' k c, almacenarConversacion conn (Ejemplo.mundo Ejemplo.base1) = (Ok tt, w') /\
    sirve (AO := memoria_ok) ch' w' /\ conversaciones ch' !! k = Some c /\
    last (c_mensajes c) = Some (Mensaje.Mensaje_nuevo (getParametro conn keyCuerpo keyDefault)
      (Md5.md5 (getParametro conn keyIdUsuarioEmisor keyDefault)) (getParametro conn keyFecha keyDefault)) /\
    In k (default [] (indice ch' !! Md5.md5 (getParametro conn keyIdUsuarioEmisor keyDefault))) /\
    In k (default [] (indice ch' !! Md5.md5 (getParametro conn keyIdUsuarioReceptor keyDefault))) /\
    (forall k', k' <> k -> conversaciones ch' !! k' = conversaciones Ejemplo.chat1 !! k').
Proof.
  apply (mensaje_entregado (AO := memoria_ok) Testigos.envio_a_beto Ejemplo.chat1 (Ejemplo.mundo Ejemplo.base1)
    Ejemplo.ana Ejemplo.beto); [apply Ejemplo.sirve1|split; vm_compute; reflexivity|vm_compute; reflexivity..].
Defined.

End Casos.
